(* ===== verification/_CoqProject ===== *)
-Q . S2P
Prelude.v
Bits.v
BitsProofs.v
Heap.v
Kalloc.v
HeapProofs.v
Sched.v
SchedProofs.v
Vmm.v
VmmProofs.v
Sort.v
Utf8.v
Str.v
Ring.v
Bitmap.v
Dlist.v
Font.v
Gfx.v
GfxProofs.v
Blk.v
BlkProofs.v
Fat32.v
Fat32Proofs.v
Fat32Files.v
Vfs.v
VfsProofs.v
VfsFat32.v
Syscall.v
SyscallProofs.v
SyscallSafe.v
Elf.v
ElfProofs.v
Wm.v
WmProofs.v
Vol.v
Ext2.v
Ext2Proofs.v
Ext2Alloc.v
VfsExt2.v
Xfs.v
XfsProofs.v
Ntfs.v
NtfsProofs.v
Net.v
NetProofs.v
Format.v
Umalloc.v
UmallocProofs.v
Tty.v
Console.v
ConsoleProofs.v
Input.v
InputProofs.v
InputUsb.v
Hw.v
Pci.v
Ata.v
AtaProofs.v
Sectors.v
Nvme.v
NvmeProofs.v
Ahci.v
AhciProofs.v
Virtio.v
VirtioProofs.v
E1000.v
E1000Proofs.v
Xhci.v
XhciProofs.v
Hid.v
Spinlock.v
Clock.v
