(* ===== verification/Prelude.v ===== *)
(** * CoolFrost: a verification development

    CoolFrost is a hobby operating system for x86-64, written in C. This
    library translates the parts of it that compute into Rocq functions, at the
    width of the C types, and proves what makes them correct. File names below
    are those of the repository, under src/.

    ** The program and its models

    The kernel boots into an identity-mapped long mode, gives out memory
    from one arena, schedules tasks from the timer interrupt, gives every
    process an address space, and serves system calls over a virtual file
    system whose drivers read block devices. A compositor runs as a ring-3
    task, and a network stack polls an Ethernet controller. The models follow
    the calls; a file requires those it is built on. A file [XProofs] holds the
    theorems about [X]; where there is none, they are in [X] itself.

    - Prelude: machine integers, bytes and buffers, the state monad [M] with
      its total-correctness triple [hoare], the tactics [word], [bcase], [len].
    - Bits, BitsProofs: libc/bitops.h, math.h, rand.h, arith64.c.
    - Spinlock: libc/atomic.h and the two spin locks, as machines of any
      number of processors under any schedule.
    - Heap, HeapProofs: libc/heap.c and [kmalloc], [kfree] of libc/mem.c.
      Kalloc is the class [Kalloc] of what clients of the allocator rely on
      (live allocations are disjoint, inside the arena, aligned); HeapProofs
      gives its instance, and everything below is proved against the class.
    - Sched, SchedProofs: cpu/sched.c. Interrupt frames are words in memory;
      [sched_irq_end] is the switch hook that cpu/interrupt.asm calls.
    - Vmm, VmmProofs: cpu/vmm.c, cpu/paging.c and the boot page tables.
      [hw_translate] is the page walk of the processor.
    - Sort, Utf8, Str: libc/sort.c, utf8.c, string.c, ctype.c, stdlib.c and
      the memory blocks of mem.c. Ring: libc/ringbuf.h, ui/event.c. Bitmap,
      Dlist: libc/bitmap.h, list.h. Format: libc/stdio.c, format.c.
    - Gfx, GfxProofs: gfx/gfx.c. Font, Tty, Console, ConsoleProofs:
      drivers/font_cyr.c and screen.c, on both back ends; Tty is the reference
      terminal that the console is compared with.
    - Input, InputProofs: drivers/keyboard.c, mouse.c and the reports of
      usbhid.c; InputUsb compares a USB keyboard with one on PS/2. Hid: the
      rest of usbhid.c, over Xhci.
    - Clock: drivers/clock.c, cpu/rtc.c.
    - Hw: ports, memory-mapped registers and memory shared with devices, over
      a machine that is an argument. Pci: drivers/pci.c. Ata, Nvme, Ahci,
      Virtio, E1000, Xhci and their proofs: the drivers of those controllers.
      Sectors: what the proofs about disks share.
    - Blk, BlkProofs: block reads and writes of drivers/ata.c as the file
      systems see them, with faults, and the partition tables. The theorems on
      the disk drivers relate their registers and rings to it.
    - Fat32, Fat32Proofs, Fat32Files: fs/fat32.c. Vol: what a volume is to the
      other file systems. Ext2, Ext2Proofs, Ext2Alloc: fs/ext2.c. Xfs,
      XfsProofs: fs/xfs.c. Ntfs, NtfsProofs: fs/ntfs.c.
    - Vfs, VfsProofs: fs/vfs.c over the class [Driver] of what a node and its
      callbacks are. VfsFat32, VfsExt2: the instances, and the composition.
    - Syscall, SyscallProofs, SyscallSafe: cpu/syscall.c over the scheduler,
      the file systems, the address spaces, the event queue and the screen.
    - Elf, ElfProofs: kernel/elf.c over the same state.
    - Wm, WmProofs: user/ugfx.c, window.c, wm.c. Umalloc, UmallocProofs:
      userland/umalloc.h. The kernel's side of their calls is in Syscall.
    - Net, NetProofs: net/, over the frames the controller delivers.

    ** Conventions

    A C integer is a [Z] and every conversion is written ([u32], [s32], ...).
    A C function is a Rocq function of the same name where Rocq allows it; a
    long function is split along its branches and loops. [None] of an option
    (or of [M]) is what C leaves undefined, a dereference of NULL, an access
    outside an array, a trap, or a loop that does not end, so a theorem that
    gives [Some] says that none of these happens. An array of fixed size whose
    index is a constant or cut to its size by a mask or a remainder (the mouse
    packet, the palette, the boot report of a keyboard, the length tables), and
    the terminating NUL of a string, are read with a default that stands for no
    element. Error returns are values. Lines that only print are left out.

    ** What the theorems show

    - Scheduling: the invariant of every reachable state ([sched_reachable_ok]),
      no starvation within a level ([sched_no_starvation]), the switch hook and
      the submissions on every branch. Locks: the ticket lock excludes, is fair
      and does not get stuck ([ticket_lock_correct]).
    - Memory: on every heap that [kmalloc] and [kfree] reach from boot the live
      allocations are disjoint and each can be freed ([kmalloc_correct]);
      mapping a page changes the translation of that page only; destroying an
      address space after any use of it leaks nothing; the pointer
      check accepts what the processor would let ring 3 access; the allocator
      of user programs keeps its blocks disjoint ([umalloc_run_safe]).
    - System calls: [syscall_dispatch_safe] (no fault on a user pointer, no byte
      written that the caller could not write itself), SYS_SBRK for every
      calling task and the loader on every file that can be read, by their
      effect on what the process reads ([user_byte]).
    - Files: reading a file of FAT32, ext2, XFS or NTFS yields its bytes on the
      volume, through the VFS for the first two; the table operations of FAT32
      and the block allocation of ext2 do to the volume what they promise.
    - Network: no frame makes the stack read or write outside its buffers
      ([net_poll_safe]), an echo request is answered, the ARP table is a map.
    - Drawing, windows and console: clipping is exact and no access leaves a
      pixel array; [wm_run_safe] and [wm_click_correct] for the compositor;
      the console shows what the reference terminal shows ([kprint_correct]).
    - Input: the line editor is a sequence of edits ([getline_correct]; with
      echo it needs room for the line on the screen, [getline_scroll_ex]), key
      streams decode to what was typed, a USB keyboard acts like a PS/2 one.
    - Devices: over a controller that follows its manual, the disk drivers
      implement the block operations of Blk, the Ethernet rings are FIFO queues
      under any interleaving ([e1000_run_correct]), and so are the rings of the
      USB host controller ([ring_fifo_correct]).
    - Libraries: division, sorting, bitmaps, lists, the bounds of [vsnprintf],
      the calendar ([datetime_add_ms_correct]).

    ** Fuel

    Loops over counters and buffers are structural, or take their length as
    fuel inside the definition (heap searches, sorting, digits, the binary
    search, the time-outs of drivers). What depends on data in memory or on a
    device takes the fuel as an argument: cluster chains, the trees of ext2,
    XFS and NTFS, the path walk of the VFS, the range check of cpu/vmm.c, list
    traversal, Newton's iteration, the free list of the user allocator, the
    waits on a clock and for events, the days of the calendar. The theorems
    give the bound that is enough (the length of the chain, path, range or
    list; the depth of the tree; the ticks that a steady clock needs; a round
    for a month) and conclude that the function returns. A cyclic cluster chain
    has no such bound: the C loop does not end on it either, and the theorems
    ask for a chain that ends.

    ** Assumptions

    Code outside the repository or below C is an argument: the machine of Hw
    and the fault oracle, the wire and the timer of Net, the conversion of a
    floating-point number in Format, the frame-buffer parameters. What a theorem
    needs of it is a class or a named hypothesis, with an instance in the
    witness: the laws of a controller ([AtaChannel], [NvmeDevice],
    [AhciDevice], [VirtioDevice], [E1000Device], [PciBridge], [StoreLaw]), a
    clock that moves on ([SteadyClock]), the geometry of a volume. The ATA
    driver looks at bits that the standard leaves open and does not wait before
    the last flush; its theorems name both as hypotheses ([quiet_while_busy],
    [early_flush_harmless]), which the laws of the channel do not contain, and
    [noisy_ex] shows the driver without the first. Devices act
    on shared memory at volatile reads of the driver; scancodes come as a list.
    The file-system theorems take an oracle without faults; faults are modelled
    and the error branches are in the definitions. Processes of the theorems on
    system calls have a private address space. Interrupts are steps between
    operations: each modelled operation runs to its end, as the kernel does on
    one processor; only Spinlock interleaves the processors.

    ** Not modelled

    The start-up order, the console commands and the demonstrations of
    kernel/kernel.c, which call the parts above and print; kernel/multiboot.c,
    power/ and drivers/gpu.c, serial.c, pcspk.c, ac97.c, which copy firmware
    tables or write fixed values to registers; descriptor tables, processors
    and timers (cpu/gdt.c, idt.c, tss.c, isr.c, smp.c, apic.c, timer.c) and
    CPUID, which are sequences of privileged instructions; the test programs of
    userland/ and user/smoke.c; the functions on floating point of libc. *)

From stdpp Require Export base tactics numbers list gmap strings sorting.
From Stdlib Require Export ZArith Lia.

#[global] Open Scope Z_scope.

(** ** Machine integers

    A C integer is a [Z]; the conversions below are the ones the C code makes:
    conversion to an unsigned type reduces modulo a power of two, conversion
    to a signed type picks the representative of the two's complement range.
    [size_t], [uintptr_t] and [unsigned long] are 64 bits wide on the target. *)

Definition u8 (x : Z) : Z := x mod 256.
Definition u16 (x : Z) : Z := x mod 65536.
Definition u32 (x : Z) : Z := x mod 4294967296.
Definition u64 (x : Z) : Z := x mod 18446744073709551616.

Definition s8 (x : Z) : Z := (x + 128) mod 256 - 128.
Definition s32 (x : Z) : Z := (x + 2147483648) mod 4294967296 - 2147483648.
Definition s64 (x : Z) : Z := (x + 9223372036854775808) mod 18446744073709551616 - 9223372036854775808.

(** C truth values: a comparison yields the int 0 or 1. *)
Definition b2z (b : bool) : Z := if b then 1 else 0.

(** [~x] on an unsigned 64-bit operand. *)
Definition not64 (x : Z) : Z := 18446744073709551615 - x.
Definition not32 (x : Z) : Z := 4294967295 - x.

Definition in_u8 (x : Z) : Prop := 0 <= x < 256.
Definition in_u16 (x : Z) : Prop := 0 <= x < 65536.
Definition in_u32 (x : Z) : Prop := 0 <= x < 4294967296.
Definition in_u64 (x : Z) : Prop := 0 <= x < 18446744073709551616.
Definition in_s64 (x : Z) : Prop := -9223372036854775808 <= x < 9223372036854775808.

(** ** Arithmetic automation *)

Create HintDb cf.
Create Rewrite HintDb cflen.

(** [word] unfolds the conversions and calls [lia]. *)
Ltac word_unfold :=
  unfold u8, u16, u32, u64, s8, s32, s64, in_u8, in_u16, in_u32, in_u64, in_s64,
    not64, not32, b2z in *.
(** [lia] with the equations of [/] and [mod]. *)
Ltac zlia := Z.to_euclidean_division_equations; lia.
Ltac word := word_unfold; Z.to_euclidean_division_equations; lia.

(** Case analysis on the boolean test a goal or hypothesis is stuck on, with
    the reflected fact in the context. *)
Ltac bcase_on b :=
  lazymatch b with
  | Z.eqb ?x ?y => destruct (Z.eqb_spec x y)
  | Z.ltb ?x ?y => destruct (Z.ltb_spec x y)
  | Z.leb ?x ?y => destruct (Z.leb_spec x y)
  | Z.gtb ?x ?y => rewrite (Z.gtb_ltb x y) in *; destruct (Z.ltb_spec y x)
  | Z.geb ?x ?y => rewrite (Z.geb_leb x y) in *; destruct (Z.leb_spec y x)
  | andb ?x ?y => bcase_on x; cbn [andb]
  | orb ?x ?y => bcase_on x; cbn [orb]
  | negb ?x => bcase_on x; cbn [negb]
  | bool_decide ?P => destruct (bool_decide_reflect P)
  | _ => destruct b eqn:?
  end.
Ltac bcase :=
  match goal with
  | |- context [if ?b then _ else _] => bcase_on b
  end.
Ltac bcase_in H :=
  match type of H with
  | context [if ?b then _ else _] => bcase_on b
  end.

Lemma u8_id x : in_u8 x -> u8 x = x.
Proof. intros; unfold u8; apply Z.mod_small; word. Qed.
Lemma u16_id x : in_u16 x -> u16 x = x.
Proof. intros; unfold u16; apply Z.mod_small; word. Qed.
Lemma u32_id x : in_u32 x -> u32 x = x.
Proof. intros; unfold u32; apply Z.mod_small; word. Qed.
Lemma u64_id x : in_u64 x -> u64 x = x.
Proof. intros; unfold u64; apply Z.mod_small; word. Qed.
Lemma u8_range x : in_u8 (u8 x).
Proof. word. Qed.
Lemma u16_range x : in_u16 (u16 x).
Proof. word. Qed.
Lemma u32_range x : in_u32 (u32 x).
Proof. word. Qed.
Lemma u64_range x : in_u64 (u64 x).
Proof. word. Qed.
#[export] Hint Resolve u8_range u16_range u32_range u64_range : cf.

(** ** Bit-level lemmas shared by the components *)

Lemma land_ones_mod x n : 0 <= n -> Z.land x (2 ^ n - 1) = x mod 2 ^ n.
Proof. intros. rewrite <- Z.land_ones by done. by rewrite Z.ones_equiv, Z.sub_1_r. Qed.

Lemma testbit_high x n i : 0 <= x < 2 ^ n -> n <= i -> Z.testbit x i = false.
Proof.
  intros Hx Hi. destruct (Z.eq_dec x 0) as [->|]; [apply Z.bits_0|].
  apply Z.bits_above_log2; [lia|].
  destruct (Z_lt_le_dec n 0); [rewrite Z.pow_neg_r in Hx by done; lia|].
  apply Z.lt_le_trans with n; [|done]. apply Z.log2_lt_pow2; lia.
Qed.

(** Disjoint bit ranges add up: the [a << n | b] idiom of the code. *)
Lemma lor_shiftl_add a b n : 0 <= n -> 0 <= b < 2 ^ n -> Z.lor (Z.shiftl a n) b = a * 2 ^ n + b.
Proof.
  intros Hn Hb. rewrite <- Z.shiftl_mul_pow2 by done.
  rewrite <- Z.lxor_lor, Z.add_nocarry_lxor; [done| |];
    (apply Z.bits_inj'; intros i Hi; rewrite Z.land_spec, Z.bits_0, Z.shiftl_spec by done;
     destruct (Z_lt_le_dec i n);
     [rewrite (Z.testbit_neg_r a) by lia; done
     |rewrite (testbit_high b n) by done; apply andb_false_r]).
Qed.

Lemma lor_range a b n : 0 <= n -> 0 <= a < 2 ^ n -> 0 <= b < 2 ^ n -> 0 <= Z.lor a b < 2 ^ n.
Proof.
  intros Hn Ha Hb. split; [apply Z.lor_nonneg; lia|].
  destruct (Z.eq_dec (Z.lor a b) 0) as [->|Hne]; [lia|].
  assert (0 <= Z.lor a b) by (apply Z.lor_nonneg; lia).
  apply Z.log2_lt_pow2; [lia|]. rewrite Z.log2_lor by lia.
  assert (0 < 2 ^ n) by lia.
  destruct (Z.eq_dec n 0) as [->|].
  { assert (a = 0) by lia. assert (b = 0) by lia. subst. done. }
  assert (forall c, 0 <= c < 2 ^ n -> Z.log2 c < n).
  { intros c Hc. destruct (Z.eq_dec c 0) as [->|]; [cbn; lia|]. apply Z.log2_lt_pow2; lia. }
  apply Z.max_lub_lt; auto.
Qed.

Lemma land_range x m n : 0 <= n -> 0 <= m < 2 ^ n -> 0 <= Z.land x m < 2 ^ n.
Proof.
  intros Hn Hm. assert (0 <= Z.land x m) by (apply Z.land_nonneg; lia). split; [done|].
  destruct (Z.eq_dec (Z.land x m) 0) as [->|]; [lia|]. apply Z.log2_lt_pow2; [lia|].
  destruct (Z_lt_le_dec (Z.log2 (Z.land x m)) n) as [|Hge]; [done|].
  pose proof (Z.bit_log2 (Z.land x m) ltac:(lia)) as Hb. rewrite Z.land_spec in Hb.
  rewrite (testbit_high m n) in Hb by done. by rewrite andb_false_r in Hb.
Qed.

(** The page masks [x & ~0xFFF] and [x & 0xFFF]. *)
Lemma land_page_mask x : in_u64 x -> Z.land x 0xFFFFFFFFFFFFF000 = x / 4096 * 4096.
Proof.
  intros Hx. change 0xFFFFFFFFFFFFF000 with (Z.shiftl (Z.ones 52) 12).
  change 4096 with (2 ^ 12). rewrite <- Z.shiftr_div_pow2, <- Z.shiftl_mul_pow2 by done.
  apply Z.bits_inj'; intros i Hi. rewrite Z.land_spec, !Z.shiftl_spec by done.
  destruct (Z_lt_le_dec i 12); [rewrite !(Z.testbit_neg_r _ (i - 12)) by lia; by rewrite andb_false_r|].
  rewrite Z.shiftr_spec by lia. replace (i - 12 + 12) with i by lia.
  destruct (Z_lt_le_dec i 64).
  - rewrite Z.ones_spec_low by lia. by rewrite andb_true_r.
  - rewrite (testbit_high x 64) by (done || lia). done.
Qed.

Lemma land_fff x : Z.land x 0xFFF = x mod 4096.
Proof. apply (land_ones_mod x 12). done. Qed.

(** ** A state monad with divergence

    [M S A] is a C function body over the state [S]: [None] is a run that does
    not return (out of fuel) or whose behaviour C leaves undefined. *)

Definition M (S A : Type) : Type := S -> option (A * S).

Global Instance M_ret {S} : MRet (M S) := fun A a s => Some (a, s).
Global Instance M_bind {S} : MBind (M S) :=
  fun A B f m s => match m s with Some (a, s') => f a s' | None => None end.
Global Instance M_fmap {S} : FMap (M S) :=
  fun A B f m s => match m s with Some (a, s') => Some (f a, s') | None => None end.

Definition gets {S A} (f : S -> A) : M S A := fun s => Some (f s, s).
Definition modify {S} (f : S -> S) : M S unit := fun s => Some (tt, f s).
Definition diverge {S A} : M S A := fun _ => None.
Definition when {S} (b : bool) (m : M S unit) : M S unit := if b then m else mret tt.
Definition lift_option {S A} (o : option A) : M S A :=
  fun s => match o with Some a => Some (a, s) | None => None end.

(** [loop fuel body a]: run [body] on the loop variables until it exits. *)
Fixpoint loop {S A B} (fuel : nat) (body : A -> M S (A + B)) (a : A) : M S B :=
  match fuel with
  | O => diverge
  | Datatypes.S n =>
    r ← body a;
    match r with inl a' => loop n body a' | inr b => mret b end
  end.

(** Total correctness: from a state where [P] holds, [m] returns, and [Q]
    holds of the result and the final state. *)
Definition hoare {S A} (P : S -> Prop) (m : M S A) (Q : A -> S -> Prop) : Prop :=
  forall s, P s -> exists a s', m s = Some (a, s') /\ Q a s'.

Section Hoare.
Context {St : Type}.
Implicit Types P : St -> Prop.

Lemma bind_eq {A B} (m : M St A) (f : A -> M St B) s a s' :
  m s = Some (a, s') -> (x ← m; f x) s = f a s'.
Proof. intros E. unfold mbind, M_bind. by rewrite E. Qed.

Lemma bind_inv {A B} (m : M St A) (f : A -> M St B) s b s'' :
  (x ← m; f x) s = Some (b, s'') -> exists a s', m s = Some (a, s') /\ f a s' = Some (b, s'').
Proof. unfold mbind, M_bind. destruct (m s) as [[a s']|]; [eauto|done]. Qed.

Lemma bind_bind {A B C} (m : M St A) (g : A -> M St B) (f : B -> M St C) s :
  (y ← (x ← m; g x); f y) s = (x ← m; y ← g x; f y) s.
Proof. unfold mbind, M_bind. by destruct (m s) as [[a s']|]. Qed.

Lemma hoare_ret {A} P (a : A) (Q : A -> St -> Prop) :
  (forall s, P s -> Q a s) -> hoare P (mret a) Q.
Proof. intros H s Hs. exists a, s. split; [done|auto]. Qed.

Lemma hoare_bind {A B} P (R : A -> St -> Prop) (Q : B -> St -> Prop) (m : M St A) (f : A -> M St B) :
  hoare P m R -> (forall a, hoare (R a) (f a) Q) -> hoare P (x ← m; f x) Q.
Proof.
  intros Hm Hf s Hs. destruct (Hm s Hs) as (a & s1 & E & HR).
  destruct (Hf a s1 HR) as (b & s2 & E2 & HQ). exists b, s2. by rewrite (bind_eq _ _ _ _ _ E).
Qed.

Lemma hoare_conseq {A} P P' (Q Q' : A -> St -> Prop) (m : M St A) :
  hoare P' m Q' -> (forall s, P s -> P' s) -> (forall a s, Q' a s -> Q a s) -> hoare P m Q.
Proof. intros H HP HQ s Hs. destruct (H s (HP s Hs)) as (a & s' & E & H'). eauto. Qed.

Lemma hoare_loop {A B} (I : A -> St -> Prop) (Q : B -> St -> Prop) (body : A -> M St (A + B))
    (measure : A -> nat) fuel a :
  (forall a, hoare (I a) (body a)
    (fun r s => match r with inl a' => I a' s /\ (measure a' < measure a)%nat | inr b => Q b s end)) ->
  (measure a < fuel)%nat -> hoare (I a) (loop fuel body a) Q.
Proof.
  intros Hbody. revert a. induction fuel as [|fuel IH]; intros a Hf s Hs; [lia|].
  cbn [loop]. destruct (Hbody a s Hs) as (r & s1 & E & Hr). rewrite (bind_eq _ _ _ _ _ E).
  destruct r as [a'|b].
  - destruct Hr as [HI Hm]. apply (IH a'); [lia|done].
  - by exists b, s1.
Qed.

(** One round of a loop. *)
Lemma loop_step {A B} n (body : A -> M St (A + B)) a s a' s' :
  body a s = Some (inl a', s') -> loop (S n) body a s = loop n body a' s'.
Proof. intros E. cbn [loop]. by rewrite (bind_eq _ _ _ _ _ E). Qed.
Lemma loop_exit {A B} n (body : A -> M St (A + B)) a s b s' :
  body a s = Some (inr b, s') -> loop (S n) body a s = Some (b, s').
Proof. intros E. cbn [loop]. by rewrite (bind_eq _ _ _ _ _ E). Qed.

(** A run that returned keeps its result when it is given more fuel. *)
Lemma loop_fuel_mono {A B} (body : A -> M St (A + B)) n n' a s r :
  loop n body a s = Some r -> (n <= n')%nat -> loop n' body a s = Some r.
Proof.
  revert n' a s. induction n as [|n IH]; intros n' a s E Hle; [done|].
  destruct n' as [|n']; [lia|]. cbn [loop] in *.
  unfold mbind, M_bind in *. destruct (body a s) as [[[a'|b] s1]|]; [|done|done].
  apply IH; [done|lia].
Qed.
End Hoare.

(** Runs the steps at the head of a goal that only read or set the state. *)
Ltac mrun :=
  repeat lazymatch goal with
  | |- context [mbind ?f (mbind ?g ?m) ?s] => rewrite (bind_bind m g f s)
  | |- context [mbind ?f (gets ?g) ?s] => rewrite (bind_eq (gets g) f s (g s) s eq_refl); cbv beta
  | |- context [mbind ?f (mret ?a) ?s] => rewrite (bind_eq (mret a) f s a s eq_refl); cbv beta iota
  | |- context [mbind ?f (modify ?g) ?s] => rewrite (bind_eq (modify g) f s tt (g s) eq_refl); cbv beta
  end; unfold id in *.

(** ** Bytes

    A buffer is a list of bytes. Reads outside the list give 0 (no theorem
    depends on them: each states that its accesses are in range). *)

Definition get8 (b : list Z) (i : Z) : Z := default 0 (b !! Z.to_nat i).
Definition put8 (b : list Z) (i v : Z) : list Z := <[Z.to_nat i := v]> b.
Definition slice (b : list Z) (off n : Z) : list Z := take (Z.to_nat n) (drop (Z.to_nat off) b).
Definition splice (b : list Z) (off : Z) (l : list Z) : list Z := list_inserts (Z.to_nat off) l b.

Fixpoint le_val (bs : list Z) : Z :=
  match bs with [] => 0 | b :: bs => b + 256 * le_val bs end.
Fixpoint le_bytes (n : nat) (v : Z) : list Z :=
  match n with O => [] | S n => v mod 256 :: le_bytes n (v / 256) end.

(** Unaligned little-endian accesses: the code's pointer casts. *)
Definition get16 (b : list Z) (off : Z) : Z := le_val (slice b off 2).
Definition get32 (b : list Z) (off : Z) : Z := le_val (slice b off 4).
Definition get64 (b : list Z) (off : Z) : Z := le_val (slice b off 8).
Definition put16 (b : list Z) (off v : Z) : list Z := splice b off (le_bytes 2 v).
Definition put32 (b : list Z) (off v : Z) : list Z := splice b off (le_bytes 4 v).
Definition put64 (b : list Z) (off v : Z) : list Z := splice b off (le_bytes 8 v).

(** The bytes of a C string before its terminator. *)
Fixpoint cstr (l : list Z) : list Z :=
  match l with
  | [] => []
  | c :: l => if c =? 0 then [] else c :: cstr l
  end.

Definition bytes (b : list Z) : Prop := Forall in_u8 b.

Lemma length_le_bytes n v : length (le_bytes n v) = n.
Proof. revert v; induction n; intros; cbn; auto. Qed.

Lemma le_bytes_bytes n v : bytes (le_bytes n v).
Proof. revert v; induction n; intros; cbn; constructor; [word|auto; apply IHn]. Qed.

Lemma le_val_bytes n v : le_val (le_bytes n v) = v mod 256 ^ Z.of_nat n.
Proof.
  revert v; induction n as [|n IH]; intros v; cbn [le_bytes le_val].
  - rewrite Z.pow_0_r, Z.mod_1_r. done.
  - rewrite IH, Nat2Z.inj_succ, Z.pow_succ_r by lia. rewrite Z.rem_mul_r by lia. lia.
Qed.

Lemma le_bytes_val bs : bytes bs -> le_bytes (length bs) (le_val bs) = bs.
Proof.
  induction 1 as [|b bs Hb _ IH]; cbn [length le_bytes le_val]; [done|].
  rewrite (Z.mul_comm 256), Z_mod_plus_full, Z.div_add, Z.mod_small, Z.div_small by word.
  rewrite Z.add_0_l, IH. done.
Qed.

Lemma le_val_range bs : bytes bs -> 0 <= le_val bs < 256 ^ Z.of_nat (length bs).
Proof.
  induction 1 as [|b bs Hb _ IH]; cbn [length le_val]; [lia|].
  rewrite Nat2Z.inj_succ, Z.pow_succ_r by lia. word.
Qed.

Lemma length_splice b off l : length (splice b off l) = length b.
Proof. unfold splice. apply length_inserts. Qed.

Lemma length_put32 b off v : length (put32 b off v) = length b.
Proof. apply length_splice. Qed.
Lemma length_put16 b off v : length (put16 b off v) = length b.
Proof. apply length_splice. Qed.
#[export] Hint Rewrite length_le_bytes length_splice length_put16 length_put32
  @length_app @length_take @length_drop @length_insert @length_replicate : cflen.
(** Lengths of lists, then linear arithmetic. *)
Ltac len := autorewrite with cflen in *; cbn [length] in *; try lia.

Lemma slice_length b off n :
  0 <= off -> 0 <= n -> off + n <= Z.of_nat (length b) -> Z.of_nat (length (slice b off n)) = n.
Proof. intros. unfold slice. len. Qed.

Lemma lookup_slice b off n i :
  0 <= off -> (i < Z.to_nat n)%nat -> slice b off n !! i = b !! (Z.to_nat off + i)%nat.
Proof. intros. unfold slice. rewrite lookup_take_lt by done. by rewrite lookup_drop. Qed.

Lemma lookup_splice_in b off l i :
  0 <= off -> (Z.to_nat off <= i < Z.to_nat off + length l)%nat -> (i < length b)%nat ->
  splice b off l !! i = l !! (i - Z.to_nat off)%nat.
Proof. intros. unfold splice. rewrite list_lookup_inserts; [done|lia|lia]. Qed.

Lemma lookup_splice_out b off l i :
  (i < Z.to_nat off \/ Z.to_nat off + length l <= i)%nat -> splice b off l !! i = b !! i.
Proof.
  intros. unfold splice. destruct (decide (i < Z.to_nat off)%nat).
  - apply list_lookup_inserts_lt; lia.
  - apply list_lookup_inserts_ge; lia.
Qed.

Lemma slice_splice_same b off l :
  0 <= off -> off + Z.of_nat (length l) <= Z.of_nat (length b) ->
  slice (splice b off l) off (Z.of_nat (length l)) = l.
Proof.
  intros Ho Hl. apply list_eq. intros i. destruct (decide (i < length l)%nat).
  - rewrite lookup_slice by lia. rewrite lookup_splice_in by lia. f_equal. lia.
  - rewrite !lookup_ge_None_2; [done|lia|unfold slice; len].
Qed.

Lemma slice_splice_disj b off l off' n :
  0 <= off -> 0 <= off' -> (off' + n <= off \/ off + Z.of_nat (length l) <= off') ->
  slice (splice b off l) off' n = slice b off' n.
Proof.
  intros Ho Ho' Hd. apply list_eq. intros i. destruct (decide (i < Z.to_nat n)%nat).
  - rewrite !lookup_slice by lia. apply lookup_splice_out. lia.
  - unfold slice. rewrite !lookup_ge_None_2; [done|len|len].
Qed.

Lemma bytes_splice b off l : bytes b -> bytes l -> bytes (splice b off l).
Proof.
  unfold bytes, splice. generalize (Z.to_nat off) as k. intros k Hb Hl. revert k.
  induction Hl as [|x l Hx Hl IH]; intros k; cbn; [done|].
  apply Forall_insert; auto.
Qed.

Lemma bytes_slice b off n : bytes b -> bytes (slice b off n).
Proof. intros. by apply Forall_take, Forall_drop. Qed.

Lemma get32_put32_same b off v :
  0 <= off -> off + 4 <= Z.of_nat (length b) -> get32 (put32 b off v) off = u32 v.
Proof.
  intros Ho Hl. unfold get32, put32.
  pose proof (slice_splice_same b off (le_bytes 4 v)) as H. rewrite length_le_bytes in H.
  change 4 with (Z.of_nat 4) at 1. rewrite H by done. by rewrite le_val_bytes.
Qed.

Lemma get32_put32_disj b off v off' :
  0 <= off -> 0 <= off' -> (off' + 4 <= off \/ off + 4 <= off') ->
  get32 (put32 b off v) off' = get32 b off'.
Proof.
  intros. unfold get32, put32. rewrite slice_splice_disj; rewrite ?length_le_bytes; auto.
Qed.

Lemma get32_range b off : bytes b -> in_u32 (get32 b off).
Proof.
  intros Hb. pose proof (le_val_range (slice b off 4) (bytes_slice _ _ _ Hb)) as Hr.
  assert (length (slice b off 4) <= 4)%nat by (unfold slice; len).
  unfold get32, in_u32. split; [lia|]. eapply Z.lt_le_trans; [apply Hr|].
  change 4294967296 with (256 ^ 4). apply Z.pow_le_mono_r; lia.
Qed.
#[export] Hint Resolve bytes_splice bytes_slice le_bytes_bytes get32_range : cf.

Lemma get8_put8 b i v j :
  0 <= i < Z.of_nat (length b) -> 0 <= j -> get8 (put8 b i v) j = if j =? i then v else get8 b j.
Proof.
  intros Hi Hj. unfold get8, put8. destruct (Z.eqb_spec j i) as [->|Hne].
  - by rewrite list_lookup_insert_eq by lia.
  - by rewrite list_lookup_insert_ne by lia.
Qed.

Lemma bytes_put8 b i v : bytes b -> in_u8 v -> bytes (put8 b i v).
Proof. intros. by apply Forall_insert. Qed.

Lemma get8_byte b i : bytes b -> in_u8 (get8 b i).
Proof.
  intros Hb. unfold get8. destruct (b !! Z.to_nat i) as [v|] eqn:E; cbn [default]; [|by word].
  by eapply Forall_lookup_1 in Hb.
Qed.

(** Consecutive slices, and slices of slices. *)
Lemma slice_app b off n m : 0 <= off -> 0 <= n -> 0 <= m -> slice b off n ++ slice b (off + n) m = slice b off (n + m).
Proof.
  intros. unfold slice. rewrite !Z2Nat.inj_add by done. rewrite <- drop_drop.
  by rewrite take_take_drop.
Qed.

Lemma slice_slice b off n off' m : 0 <= off -> 0 <= off' -> 0 <= m -> off' + m <= n -> slice (slice b off n) off' m = slice b (off + off') m.
Proof.
  intros. apply list_eq. intros i. destruct (decide (i < Z.to_nat m)%nat).
  - rewrite !lookup_slice by lia. f_equal. lia.
  - unfold slice. rewrite !lookup_ge_None_2; [done|len|len].
Qed.

Lemma slice_0 b off : slice b off 0 = [].
Proof. done. Qed.

Lemma slice_all b : slice b 0 (Z.of_nat (length b)) = b.
Proof. unfold slice. cbn. rewrite Nat2Z.id. apply take_ge. lia. Qed.

Lemma slice_app_l a b off n : 0 <= off -> 0 <= n -> off + n <= Z.of_nat (length a) -> slice (a ++ b) off n = slice a off n.
Proof.
  intros. apply list_eq. intros i. destruct (decide (i < Z.to_nat n)%nat).
  - rewrite !lookup_slice by lia. apply lookup_app_l. lia.
  - unfold slice. rewrite !lookup_ge_None_2; [done|len|len].
Qed.

Lemma slice_app_r a b off n : Z.of_nat (length a) <= off -> 0 <= n -> slice (a ++ b) off n = slice b (off - Z.of_nat (length a)) n.
Proof.
  intros. apply list_eq. intros i. destruct (decide (i < Z.to_nat n)%nat).
  - rewrite !lookup_slice by lia. rewrite lookup_app_r by lia. f_equal. lia.
  - unfold slice. rewrite !lookup_ge_None_2; [done|len|len].
Qed.

(** ** Lists *)

Lemma list_alter_insert {A} (f : A -> A) (l : list A) i x : l !! i = Some x -> alter f i l = <[i := f x]> l.
Proof.
  intros Hi. apply list_eq. intros j. destruct (decide (i = j)) as [<-|].
  - rewrite list_lookup_alter_eq, list_lookup_insert_eq by (by apply lookup_lt_Some in Hi). by rewrite Hi.
  - by rewrite list_lookup_alter_ne, list_lookup_insert_ne.
Qed.

(** A property of bytes, by evaluation. *)
Lemma byte_forall (f : Z -> bool) : forallb f (map Z.of_nat (seq 0 256)) = true -> forall b, in_u8 b -> f b = true.
Proof.
  intros Hf b Hb. rewrite forallb_forall in Hf. apply Hf. apply in_map_iff. exists (Z.to_nat b). unfold in_u8 in Hb.
  split; [lia|]. apply in_seq. lia.
Qed.

Lemma bytes_dec_ok (l : list Z) : forallb (fun b => (0 <=? b) && (b <? 256)) l = true -> bytes l.
Proof.
  intros H. apply Forall_forall. intros x Hx. rewrite forallb_forall in H. apply list_elem_of_In in Hx.
  specialize (H x Hx). apply andb_prop in H as [H1 H2]. apply Z.leb_le in H1. apply Z.ltb_lt in H2. done.
Qed.

(** [x | y] as a sum when the set bits of [x] lie above those of [y]. *)
Lemma lor_add_low n a b : 0 <= n -> 0 <= b < 2 ^ n -> Z.lor (a * 2 ^ n) b = a * 2 ^ n + b.
Proof. intros. rewrite <- (Z.shiftl_mul_pow2 a n) by done. rewrite lor_shiftl_add by done. by rewrite Z.shiftl_mul_pow2. Qed.
