(* ===== verification/Bits.v ===== *)
(** * Integer and bit primitives

  Models libc/bitops.h (module [Bitops]), libc/math.h (module [CMath]),
  libc/rand.h (module [Rand]) and the compiler support routines of
  libc/arith64.c (module [Arith64]). *)

From S2P Require Import Prelude.

(** The compiler builtins of the language, at the widths the code uses them. *)
Module Builtin.

Fixpoint pos_ctz (p : positive) : Z :=
  match p with
  | xO q => 1 + pos_ctz q
  | _ => 0
  end.

Fixpoint pos_popcount (p : positive) : Z :=
  match p with
  | xH => 1
  | xO q => pos_popcount q
  | xI q => 1 + pos_popcount q
  end.

(** Undefined at 0: the result there is never used by a theorem. *)
Definition clz (w n : Z) : Z := w - 1 - Z.log2 n.
Definition ctz (n : Z) : Z := match n with Zpos p => pos_ctz p | _ => 0 end.
Definition popcount (n : Z) : Z := match n with Zpos p => pos_popcount p | _ => 0 end.

Lemma ctz_bounds n k : 0 < n < 2 ^ k -> 0 <= ctz n < k.
Proof.
  destruct n as [|p|]; try lia. cbn [ctz]. revert k.
  induction p as [p IH|p IH|]; intros k Hk; cbn [pos_ctz].
  - split; [lia|]. destruct (Z_lt_le_dec k 1); [|lia].
    assert (k = 0 \/ k < 0) as [->|?] by lia; [lia|]. rewrite Z.pow_neg_r in Hk; lia.
  - assert (1 <= k).
    { destruct (Z_lt_le_dec k 1); [|lia].
      assert (k = 0 \/ k < 0) as [->|?] by lia; [lia|]. rewrite Z.pow_neg_r in Hk; lia. }
    specialize (IH (k - 1)). replace k with (Z.succ (k - 1)) in Hk by lia.
    rewrite Z.pow_succ_r in Hk by lia. lia.
  - split; [lia|]. destruct (Z_lt_le_dec k 1); [|lia].
    assert (k = 0 \/ k < 0) as [->|?] by lia; [lia|]. rewrite Z.pow_neg_r in Hk; lia.
Qed.

(** [ctz] is the position of the lowest set bit. *)
Lemma ctz_spec n :
  0 < n -> Z.testbit n (ctz n) = true /\ forall i, 0 <= i < ctz n -> Z.testbit n i = false.
Proof.
  destruct n as [|p|]; try lia. intros _. cbn [ctz]. induction p as [p IH|p IH|]; cbn [pos_ctz].
  - split; [done|lia].
  - destruct IH as [IH1 IH2]. change (Z.pos p~0) with (2 * Z.pos p). split.
    + rewrite Z.add_comm, Z.add_1_r.
      rewrite Z.testbit_even_succ; [done|]. clear. induction p; cbn; lia.
    + intros i Hi. destruct (Z.eq_dec i 0) as [->|]; [apply Z.testbit_even_0|].
      replace i with (Z.succ (i - 1)) by lia. rewrite Z.testbit_even_succ by lia.
      apply IH2; lia.
  - split; [done|lia].
Qed.
End Builtin.

(** ** libc/bitops.h *)
Module Bitops.
Definition clz32 (n : Z) : Z := Builtin.clz 32 n.
Definition clz64 (n : Z) : Z := Builtin.clz 64 n.
Definition ctz32 (n : Z) : Z := Builtin.ctz n.
Definition ctz64 (n : Z) : Z := Builtin.ctz n.
Definition clz32_safe (n : Z) : Z := if n =? 0 then -1 else Builtin.clz 32 n.
Definition clz64_safe (n : Z) : Z := if n =? 0 then -1 else Builtin.clz 64 n.
Definition ctz32_safe (n : Z) : Z := if n =? 0 then -1 else Builtin.ctz n.
Definition ctz64_safe (n : Z) : Z := if n =? 0 then -1 else Builtin.ctz n.
Definition popcount32 (n : Z) : Z := Builtin.popcount n.
Definition popcount64 (n : Z) : Z := Builtin.popcount n.
Definition bsr32 (n : Z) : Z := 31 - Builtin.clz 32 n.
Definition bsr64 (n : Z) : Z := 63 - Builtin.clz 64 n.

Definition BIT_SET (x b : Z) : Z := Z.lor x (u64 (Z.shiftl 1 b)).
Definition BIT_CLR (x b : Z) : Z := Z.land x (not64 (u64 (Z.shiftl 1 b))).
Definition BIT_TST (x b : Z) : bool := negb (Z.land x (u64 (Z.shiftl 1 b)) =? 0).
Definition BIT_FLP (x b : Z) : Z := Z.lxor x (u64 (Z.shiftl 1 b)).

Definition ALIGN_UP (x a : Z) : Z := Z.land (u64 (u64 (x + a) - 1)) (not64 (u64 (a - 1))).
Definition ALIGN_DOWN (x a : Z) : Z := Z.land x (not64 (u64 (a - 1))).
Definition IS_ALIGNED (x a : Z) : bool := Z.land x (u64 (a - 1)) =? 0.
Definition IS_POW2 (n : Z) : bool := negb (n =? 0) && (Z.land n (u64 (n - 1)) =? 0).

Definition bswap16 (x : Z) : Z := Z.lor (Z.shiftl (Z.land x 255) 8) (Z.shiftr x 8).
Definition bswap32 (x : Z) : Z :=
  Z.lor (Z.shiftl (bswap16 (Z.land x 65535)) 16) (bswap16 (Z.shiftr x 16)).
Definition bswap64 (x : Z) : Z :=
  Z.lor (Z.shiftl (bswap32 (Z.land x 4294967295)) 32) (bswap32 (Z.shiftr x 32)).

(** Bit fields: [BITS(x, hi, lo)] and [BITMASK(lo, n)]. *)
Definition BITS (x hi lo : Z) : Z :=
  Z.land (Z.shiftr x lo) (u64 (u64 (Z.shiftl 1 (hi - lo + 1)) - 1)).
Definition BITMASK (lo n : Z) : Z := u64 (Z.shiftl (u64 (u64 (Z.shiftl 1 n) - 1)) lo).

(** Rotations. A C shift by a negative amount or by the width is undefined:
    [None]. *)
Definition shift_ok (w n : Z) : bool := (0 <=? n) && (n <? w).
Definition rol32 (x n : Z) : option Z :=
  if shift_ok 32 n && shift_ok 32 (32 - n)
  then Some (Z.lor (u32 (Z.shiftl x n)) (Z.shiftr x (32 - n))) else None.
Definition ror32 (x n : Z) : option Z :=
  if shift_ok 32 n && shift_ok 32 (32 - n)
  then Some (Z.lor (Z.shiftr x n) (u32 (Z.shiftl x (32 - n)))) else None.
Definition rol64 (x n : Z) : option Z :=
  if shift_ok 64 n && shift_ok 64 (64 - n)
  then Some (Z.lor (u64 (Z.shiftl x n)) (Z.shiftr x (64 - n))) else None.
Definition ror64 (x n : Z) : option Z :=
  if shift_ok 64 n && shift_ok 64 (64 - n)
  then Some (Z.lor (Z.shiftr x n) (u64 (Z.shiftl x (64 - n)))) else None.
End Bitops.

(** ** libc/math.h *)
Module CMath.
(** [-x] of the most negative value overflows: [None]. *)
Definition abs32 (x : Z) : option Z :=
  if x <? 0 then (if x =? -2147483648 then None else Some (- x)) else Some x.
Definition abs64 (x : Z) : option Z :=
  if x <? 0 then (if x =? -9223372036854775808 then None else Some (- x)) else Some x.
Definition min64 (a b : Z) : Z := if a <? b then a else b.
Definition max64 (a b : Z) : Z := if b <? a then a else b.
Definition clamp64 (v lo hi : Z) : Z := if v <? lo then lo else if hi <? v then hi else v.
Definition uclamp64 (v lo hi : Z) : Z := if v <? lo then lo else if hi <? v then hi else v.
Definition SIGN (x : Z) : Z := if 0 <? x then 1 else if x <? 0 then -1 else 0.
Definition DIV_CEIL (a b : Z) : Z := u64 (u64 (a + b) - 1) / b.

(** Newton's iteration of [isqrt]. [None]: division by zero, or out of fuel. *)
Fixpoint isqrt_loop (fuel : nat) (n x y : Z) : option Z :=
  match fuel with
  | O => None
  | S fuel =>
    if y <? x then
      let x := y in
      if x =? 0 then None else isqrt_loop fuel n x (Z.shiftr (u64 (x + n / x)) 1)
    else Some x
  end.
Definition isqrt (fuel : nat) (n : Z) : option Z :=
  if n =? 0 then Some 0 else isqrt_loop fuel n n (Z.shiftr (u64 (n + 1)) 1).

Fixpoint log2i_loop (fuel : nat) (n r : Z) : option Z :=
  match fuel with
  | O => None
  | S fuel => let n := Z.shiftr n 1 in if n =? 0 then Some r else log2i_loop fuel n (r + 1)
  end.
Definition log2i (n : Z) : option Z := log2i_loop 33 n 0.

Definition next_pow2 (n : Z) : Z :=
  let n := u32 (n - 1) in
  let n := Z.lor n (Z.shiftr n 1) in
  let n := Z.lor n (Z.shiftr n 2) in
  let n := Z.lor n (Z.shiftr n 4) in
  let n := Z.lor n (Z.shiftr n 8) in
  let n := Z.lor n (Z.shiftr n 16) in
  u32 (n + 1).

Definition udiff (a b : Z) : Z := if b <? a then a - b else b - a.

(** Result and the overflow flag. *)
Definition umul_safe (a b : Z) : Z * Z :=
  if negb (a =? 0) && (u64 (-1) / a <? b) then (0, 1) else (u64 (a * b), 0).
End CMath.

(** ** libc/rand.h *)
Module Rand.
Definition multiplier : Z := 6364136223846793005.
Definition increment : Z := 1442695040888963407.
Definition initial_state : Z := 0x4d595df4d0f33173.

Definition rotr32 (x r : Z) : Z :=
  Z.lor (Z.shiftr x r) (u32 (Z.shiftl x (Z.land (u32 (- r)) 31))).

(** Returns the draw and the next generator state. *)
Definition pcg32 (state : Z) : Z * Z :=
  let x := state in
  let count := u32 (Z.shiftr x 59) in
  let state := u64 (u64 (x * multiplier) + increment) in
  let x := Z.lxor x (Z.shiftr x 18) in
  (rotr32 (u32 (Z.shiftr x 27)) count, state).

Definition pcg32_init (seed : Z) : Z := snd (pcg32 (u64 (seed + increment))).
Definition pcg32_self_init : Z := snd (pcg32 (u64 (1234 + increment))).
End Rand.

(** ** libc/arith64.c *)
Module Arith64.
Definition hi (n : Z) : Z := Z.shiftr n 32.
Definition lo (n : Z) : Z := u32 n.
(** The little-endian union: a 64-bit value from its two halves. *)
Definition join (h l : Z) : Z := Z.lor (Z.shiftl h 32) l.

(** [arith64_neg(a, b)]: [a ^ ((b >= 0) - 1)] plus [b < 0], modulo 2^64. *)
Definition neg (a b : Z) : Z :=
  u64 (Z.lxor (u64 a) (u64 (b2z (0 <=? s64 b) - 1)) + b2z (s64 b <? 0)).
Definition abs (a : Z) : Z := neg a a.
Definition absvdi2 (a : Z) : Z := s64 (abs a).

Definition ashldi3 (a b : Z) : Z :=
  let w := u64 a in
  let b := Z.land b 63 in
  if 32 <=? b then s64 (join (u32 (Z.shiftl (lo w) (b - 32))) 0)
  else if negb (b =? 0) then
    s64 (join (Z.lor (Z.shiftr (lo w) (32 - b)) (u32 (Z.shiftl (hi w) b))) (u32 (Z.shiftl (lo w) b)))
  else s64 w.

Definition ashrdi3 (a b : Z) : Z :=
  let w := u64 a in
  let b := Z.land b 63 in
  if 32 <=? b then
    s64 (join (u32 (Z.shiftr (s32 (hi w)) 31)) (u32 (Z.shiftr (s32 (hi w)) (b - 32))))
  else if negb (b =? 0) then
    s64 (join (u32 (Z.shiftr (s32 (hi w)) b)) (Z.lor (u32 (Z.shiftl (hi w) (32 - b))) (Z.shiftr (lo w) b)))
  else s64 w.

Definition lshrdi3 (a b : Z) : Z :=
  let w := a in
  let b := Z.land b 63 in
  if 32 <=? b then join 0 (Z.shiftr (hi w) (b - 32))
  else if negb (b =? 0) then
    join (Z.shiftr (hi w) b) (Z.lor (u32 (Z.shiftl (hi w) (32 - b))) (Z.shiftr (lo w) b))
  else w.

(** One line of the leading-zero search:
    [b = !(a & mask) << sh; n += b; a <<= b]. *)
Definition clz_step (wrap : Z -> Z) (mask sh : Z) (st : Z * Z) : Z * Z :=
  let '(a, n) := st in
  let b := Z.shiftl (b2z (Z.land a mask =? 0)) sh in
  (wrap (Z.shiftl a b), n + b).
Definition clzsi2 (a : Z) : Z :=
  let st := clz_step u32 0xffff0000 4 (a, 0) in
  let st := clz_step u32 0xff000000 3 st in
  let st := clz_step u32 0xf0000000 2 st in
  let '(a, n) := clz_step u32 0xc0000000 1 st in
  n + b2z (Z.land a 0x80000000 =? 0).
Definition clzdi2 (a : Z) : Z :=
  let st := clz_step u64 0xffffffff00000000 5 (a, 0) in
  let st := clz_step u64 0xffff000000000000 4 st in
  let st := clz_step u64 0xff00000000000000 3 st in
  let st := clz_step u64 0xf000000000000000 2 st in
  let '(a, n) := clz_step u64 0xc000000000000000 1 st in
  n + b2z (Z.land a 0x8000000000000000 =? 0).

(** [b = !(a & mask) << sh; n += b; a >>= b]. *)
Definition ctz_step (mask sh : Z) (st : Z * Z) : Z * Z :=
  let '(a, n) := st in
  let b := Z.shiftl (b2z (Z.land a mask =? 0)) sh in
  (Z.shiftr a b, n + b).
Definition ctzsi2 (a : Z) : Z :=
  let st := ctz_step 0x0000ffff 4 (a, 0) in
  let st := ctz_step 0x000000ff 3 st in
  let st := ctz_step 0x0000000f 2 st in
  let '(a, n) := ctz_step 0x00000003 1 st in
  n + b2z (Z.land a 0x00000001 =? 0).
Definition ctzdi2 (a : Z) : Z :=
  let st := ctz_step 0x00000000ffffffff 5 (a, 0) in
  let st := ctz_step 0x000000000000ffff 4 st in
  let st := ctz_step 0x00000000000000ff 3 st in
  let st := ctz_step 0x000000000000000f 2 st in
  let '(a, n) := ctz_step 0x0000000000000003 1 st in
  n + b2z (Z.land a 0x0000000000000001 =? 0).

(** The long-division loop of [__divmoddi4]: state ([rem], [a], [wrap]). *)
Fixpoint divmod_loop (bits : nat) (b rem a wrap : Z) : Z * Z * Z :=
  match bits with
  | O => (rem, a, wrap)
  | S bits =>
    let rem := Z.lor (u64 (Z.shiftl rem 1)) (Z.shiftr a 63) in
    let a := Z.lor (u64 (Z.shiftl a 1)) (Z.land wrap 1) in
    let wrap := u64 (Z.shiftr (s64 (u64 (u64 (b - rem) - 1))) 63) in
    let rem := u64 (rem - Z.land b wrap) in
    divmod_loop bits b rem a wrap
  end.

Definition divmod_long (a b : Z) : Z * Z :=
  let bits := s8 (clzdi2 b - clzdi2 a + 1) in
  let rem := Z.shiftr a bits in
  let a := u64 (Z.shiftl a (64 - bits)) in
  let '(rem, a, wrap) := divmod_loop (Z.to_nat bits) b rem a 0 in
  (Z.lor (u64 (Z.shiftl a 1)) (Z.land wrap 1), rem).

(** Quotient and remainder; [None] is the forced divide-by-zero exception. *)
Definition divmoddi4 (a b : Z) : option (Z * Z) :=
  if a <? b then Some (0, a)
  else if hi b =? 0 then
    if b =? 0 then None
    else if b =? 1 then Some (a, 0)
    else if hi a =? 0 then Some (lo a / lo b, lo a mod lo b)
    else Some (divmod_long a b)
  else Some (divmod_long a b).

Definition udivdi3 (a b : Z) : option Z := fst <$> divmoddi4 a b.
Definition umoddi3 (a b : Z) : option Z := snd <$> divmoddi4 a b.
Definition divdi3 (a b : Z) : option Z :=
  q ← fst <$> divmoddi4 (abs a) (abs b); Some (s64 (neg q (Z.lxor a b))).
Definition moddi3 (a b : Z) : option Z :=
  r ← snd <$> divmoddi4 (abs a) (abs b); Some (s64 (neg r a)).
Definition ffsdi2 (a : Z) : Z := if a =? 0 then 0 else ctzdi2 a + 1.

Definition popcountsi2 (a : Z) : Z :=
  let a := u32 (a - Z.land (Z.shiftr a 1) 0x55555555) in
  let a := u32 (Z.land (Z.shiftr a 2) 0x33333333 + Z.land a 0x33333333) in
  let a := Z.land (u32 (a + Z.shiftr a 4)) 0x0F0F0F0F in
  let a := u32 (a + Z.shiftr a 16) in
  Z.land (u32 (a + Z.shiftr a 8)) 63.
Definition popcountdi2 (a : Z) : Z :=
  let a := u64 (a - Z.land (Z.shiftr a 1) 0x5555555555555555) in
  let a := u64 (Z.land (Z.shiftr a 2) 0x3333333333333333 + Z.land a 0x3333333333333333) in
  let a := Z.land (u64 (a + Z.shiftr a 4)) 0x0F0F0F0F0F0F0F0F in
  let a := u64 (a + Z.shiftr a 32) in
  let a := u64 (a + Z.shiftr a 16) in
  Z.land (u64 (a + Z.shiftr a 8)) 127.
End Arith64.
