(* ===== verification/BitsProofs.v ===== *)
(** * Correctness of the integer primitives

    Theorems about the definitions of Bits.v: leading and trailing zero
    counts, population counts, the 64-bit long division, the integer square
    root, power-of-two rounding and the checked multiplication. *)

From S2P Require Import Prelude Bits.

(** ** Counting leading zeros *)

Lemma land_high_mask a w m :
  0 <= m <= w -> 0 <= a < 2 ^ w -> Z.land a (2 ^ w - 2 ^ m) = a / 2 ^ m * 2 ^ m.
Proof.
  intros Hm Ha.
  replace (2 ^ w - 2 ^ m) with (Z.shiftl (Z.ones (w - m)) m).
  2:{ rewrite Z.shiftl_mul_pow2, Z.ones_equiv, <- Z.sub_1_r by lia.
      rewrite Z.mul_sub_distr_r, <- Z.pow_add_r by lia. f_equal; [f_equal|]; lia. }
  rewrite <- Z.shiftr_div_pow2, <- Z.shiftl_mul_pow2 by lia.
  apply Z.bits_inj'; intros i Hi. rewrite Z.land_spec, !Z.shiftl_spec by done.
  destruct (Z_lt_le_dec i m).
  { rewrite !(Z.testbit_neg_r _ (i - m)) by lia. apply andb_false_r. }
  rewrite Z.shiftr_spec by lia. replace (i - m + m) with i by lia.
  destruct (Z_lt_le_dec i w).
  - rewrite Z.ones_spec_low by lia. apply andb_true_r.
  - rewrite (testbit_high a w) by done. done.
Qed.

Lemma land_high_mask_0 a w m :
  0 <= m <= w -> 0 <= a < 2 ^ w -> (Z.land a (2 ^ w - 2 ^ m) =? 0) = (a <? 2 ^ m).
Proof.
  intros Hm Ha. rewrite (land_high_mask a w m Hm Ha).
  assert (0 < 2 ^ m) by lia.
  destruct (Z.ltb_spec a (2 ^ m)).
  - rewrite Z.div_small by lia. done.
  - apply Z.eqb_neq. assert (1 <= a / 2 ^ m) by (apply Z.div_le_lower_bound; lia). nia.
Qed.

Lemma clz_step_spec (w mask sh a n : Z) wrap :
  0 <= sh -> 0 <= 2 ^ sh <= w -> mask = 2 ^ w - 2 ^ (w - 2 ^ sh) ->
  (forall x, wrap x = x mod 2 ^ w) -> 0 < a < 2 ^ w ->
  exists a' n', Arith64.clz_step wrap mask sh (a, n) = (a', n') /\ 0 < a' < 2 ^ w
    /\ n' - Z.log2 a' = n - Z.log2 a /\ 2 ^ sh + Z.log2 a' >= Z.min w (2 ^ sh + Z.log2 a + 2 ^ sh).
Proof.
  intros Hsh Hs -> Hwrap Ha. unfold Arith64.clz_step.
  rewrite land_high_mask_0 by lia. set (s := 2 ^ sh) in *.
  destruct (Z.ltb_spec a (2 ^ (w - s))); cbn [b2z].
  - rewrite Z.shiftl_1_l. fold s. eexists _, _; split; [done|].
    assert (0 < 2 ^ s) by lia.
    assert (a * 2 ^ s < 2 ^ w).
    { replace w with ((w - s) + s) by lia. rewrite Z.pow_add_r by lia. nia. }
    rewrite Z.shiftl_mul_pow2, Hwrap, Z.mod_small by nia.
    split; [nia|]. rewrite Z.log2_mul_pow2 by lia. lia.
  - rewrite Z.shiftl_0_l, Z.shiftl_0_r, Hwrap, Z.mod_small by lia.
    eexists _, _; split; [done|]. split; [lia|]. split; [lia|].
    assert (w - s <= Z.log2 a) by (apply Z.log2_le_pow2; lia). lia.
Qed.

Lemma clz_last (w a n : Z) :
  0 < w -> 0 < a < 2 ^ w -> w - 2 <= Z.log2 a ->
  n + b2z (Z.land a (2 ^ w - 2 ^ (w - 1)) =? 0) = w - 1 - Z.log2 a + n.
Proof.
  intros Hw Ha Hl. rewrite land_high_mask_0 by lia.
  assert (Z.log2 a < w) by (apply Z.log2_lt_pow2; lia).
  destruct (Z.ltb_spec a (2 ^ (w - 1))); cbn [b2z].
  - assert (Z.log2 a < w - 1) by (apply Z.log2_lt_pow2; lia). lia.
  - assert (w - 1 <= Z.log2 a) by (apply Z.log2_le_pow2; lia). lia.
Qed.

Ltac clz_go w sh :=
  match goal with
  | |- context [Arith64.clz_step ?wr ?mask sh (?a, ?n)] =>
    let E := fresh "E" in let a' := fresh "a" in let n' := fresh "n" in
    destruct (clz_step_spec w mask sh a n wr) as (a' & n' & E & ? & ? & ?);
    [lia|cbn; lia|done|intros; done|done|rewrite E; clear E]
  end.

Lemma clzdi2_clz a : 0 < a < 2 ^ 64 -> Arith64.clzdi2 a = Builtin.clz 64 a.
Proof.
  intros Ha. unfold Arith64.clzdi2, Builtin.clz.
  assert (0 <= Z.log2 a) by apply Z.log2_nonneg.
  clz_go 64 5. clz_go 64 4. clz_go 64 3. clz_go 64 2. clz_go 64 1.
  change (Z.pow 2 5) with 32 in *. change (Z.pow 2 4) with 16 in *.
  change (Z.pow 2 3) with 8 in *. change (Z.pow 2 2) with 4 in *. change (Z.pow 2 1) with 2 in *.
  change 0x8000000000000000 with (2 ^ 64 - 2 ^ (64 - 1)).
  rewrite clz_last by lia. lia.
Qed.

Lemma clzsi2_clz a : 0 < a < 2 ^ 32 -> Arith64.clzsi2 a = Builtin.clz 32 a.
Proof.
  intros Ha. unfold Arith64.clzsi2, Builtin.clz.
  assert (0 <= Z.log2 a) by apply Z.log2_nonneg.
  clz_go 32 4. clz_go 32 3. clz_go 32 2. clz_go 32 1.
  change (Z.pow 2 4) with 16 in *.
  change (Z.pow 2 3) with 8 in *. change (Z.pow 2 2) with 4 in *. change (Z.pow 2 1) with 2 in *.
  change 0x80000000 with (2 ^ 32 - 2 ^ (32 - 1)).
  rewrite clz_last by lia. lia.
Qed.

(** ** The long division of arith64.c *)

Section Division.
Context (A b n : Z).
Hypothesis HA : 0 <= A < 2 ^ 64.
Hypothesis Hb : 0 < b < 2 ^ 64.
Hypothesis Hn : 1 <= n <= 63.
Hypothesis Hbig : b <= 2 ^ 63 \/ n = 1 /\ b <= A.

(** Invariant with [k] iterations to go: the top [n-k] bits of the
    numerator are [q * b + rem]; [a] holds the remaining numerator bits
    above the quotient bits shifted in so far, the last one pending in
    [wrap]. *)
Definition div_inv (k rem a wrap : Z) : Prop :=
  exists q qh w, 0 <= k <= n /\ wrap = (if w =? 0 then 0 else 2 ^ 64 - 1) /\ (w = 0 \/ w = 1) /\
    q = 2 * qh + w /\ 0 <= qh /\ q < 2 ^ (n - k) /\ 0 <= rem < b /\ A / 2 ^ k = q * b + rem /\
    a = (A mod 2 ^ k) * 2 ^ (64 - k) + qh.

Lemma wrap_bit w : (w = 0 \/ w = 1) -> Z.land (if w =? 0 then 0 else 2 ^ 64 - 1) 1 = w.
Proof. intros [-> | ->]; done. Qed.

(** The sign trick: [(s64)(b - rem - 1) >> 63] is all ones iff [rem >= b]. *)
Lemma wrap_sign rem :
  0 <= rem < 2 ^ 64 -> rem < 2 * b -> (b <= 2 ^ 63 \/ b <= rem) ->
  u64 (Z.shiftr (s64 (u64 (u64 (b - rem) - 1))) 63) = if (b2z (b <=? rem)) =? 0 then 0 else 2 ^ 64 - 1.
Proof.
  intros Hr H2 Hc. rewrite Z.shiftr_div_pow2 by lia.
  destruct (Z.leb_spec b rem); cbn [b2z Z.eqb].
  - replace (s64 (u64 (u64 (b - rem) - 1))) with (b - rem - 1); [|word].
    replace ((b - rem - 1) / 2 ^ 63) with (-1); [done|].
    apply Z.div_unique with (b - rem - 1 + 2 ^ 63); lia.
  - replace (s64 (u64 (u64 (b - rem) - 1))) with (b - rem - 1); [|word].
    rewrite Z.div_small by lia. done.
Qed.

Lemma div_step k rem a wrap :
  div_inv (k + 1) rem a wrap -> 0 <= k ->
  let rem1 := Z.lor (u64 (Z.shiftl rem 1)) (Z.shiftr a 63) in
  let a1 := Z.lor (u64 (Z.shiftl a 1)) (Z.land wrap 1) in
  let wrap1 := u64 (Z.shiftr (s64 (u64 (u64 (b - rem1) - 1))) 63) in
  div_inv k (u64 (rem1 - Z.land b wrap1)) a1 wrap1.
Proof.
  intros (q & qh & w & Hk & -> & Hw & Hq & Hqh & Hq2 & Hrem & HAk & ->) Hk0. cbv zeta.
  set (m := A mod 2 ^ (k + 1)) in *.
  set (bit := m / 2 ^ k).
  assert (0 < 2 ^ k) by lia.
  assert (Hpk : 2 ^ (k + 1) = 2 * 2 ^ k) by (rewrite Z.pow_add_r by lia; lia).
  assert (Hm : 0 <= m < 2 ^ (k + 1)) by (apply Z.mod_pos_bound; lia).
  assert (Hbit : 0 <= bit <= 1).
  { unfold bit. split; [apply Z.div_pos; lia|]. apply Z.lt_succ_r, Z.div_lt_upper_bound; lia. }
  assert (Hmk : m mod 2 ^ k = A mod 2 ^ k).
  { unfold m. replace (2 ^ (k + 1)) with (2 ^ k * 2) by lia. rewrite Z.rem_mul_r by lia.
    rewrite (Z.mul_comm (2 ^ k) (_ mod 2)), Z_mod_plus_full. apply Z.mod_mod; lia. }
  assert (HH : A / 2 ^ k = 2 * (A / 2 ^ (k + 1)) + bit).
  { unfold bit, m. replace (2 ^ (k + 1)) with (2 ^ k * 2) by lia.
    rewrite Z.rem_mul_r, <- Z.div_div by lia.
    rewrite (Z.mul_comm (2 ^ k) (_ mod 2)), Z.div_add by lia.
    rewrite (Z.div_small (A mod 2 ^ k)) by (apply Z.mod_pos_bound; lia).
    rewrite Z.add_0_l. apply Z.div_mod; lia. }
  assert (HHb : A / 2 ^ k <= A) by (apply Z.div_le_upper_bound; nia).
  assert (Hpow : 2 ^ (64 - (k + 1)) * 2 ^ (k + 1) = 2 ^ 64) by (rewrite <- Z.pow_add_r by lia; f_equal; lia).
  assert (Hpow' : 2 ^ (64 - k) = 2 * 2 ^ (64 - (k + 1))).
  { replace (64 - k) with (1 + (64 - (k + 1))) by lia. rewrite Z.pow_add_r by lia. lia. }
  assert (Hq3 : q < 2 ^ (64 - (k + 1))).
  { eapply Z.lt_le_trans; [exact Hq2|]. apply Z.pow_le_mono_r; lia. }
  set (P := 2 ^ (64 - (k + 1))) in *.
  assert (Ha63 : Z.shiftr (m * P + qh) 63 = bit).
  { rewrite Z.shiftr_div_pow2 by lia. replace (2 ^ 63) with (P * 2 ^ k).
    2:{ unfold P. rewrite <- Z.pow_add_r by lia. f_equal; lia. }
    rewrite <- Z.div_div by lia. rewrite (Z.add_comm (m * P)), Z.div_add by lia.
    rewrite (Z.div_small qh) by lia. done. }
  assert (Hrem1 : Z.lor (u64 (Z.shiftl rem 1)) (Z.shiftr (m * P + qh) 63) = 2 * rem + bit).
  { rewrite Ha63. rewrite u64_id; [rewrite lor_shiftl_add; lia|].
    rewrite Z.shiftl_mul_pow2 by lia. word_unfold. nia. }
  rewrite Hrem1.
  assert (Hr1 : 2 * rem + bit <= A / 2 ^ k) by nia.
  assert (Hws := wrap_sign (2 * rem + bit)).
  rewrite Hws; [|lia|lia|].
  2:{ destruct Hbig as [?|[-> ?]]; [by left|]. right.
      assert (k = 0) by lia. subst k. rewrite Z.pow_0_r, Z.div_1_r in *.
      assert (q = 0) by (cbn in Hq2; lia). subst q. lia. }
  set (w' := b2z (b <=? 2 * rem + bit)).
  rewrite (wrap_bit w) by done.
  exists (2 * q + w'), q, w'.
  assert (Hw' : w' = 0 \/ w' = 1) by (unfold w'; destruct (b <=? _); cbn; lia).
  split; [lia|]. split; [done|]. split; [done|]. split; [lia|]. split; [lia|]. split.
  { replace (n - k) with (1 + (n - (k + 1))) by lia. rewrite Z.pow_add_r by lia. lia. }
  assert (Hland : Z.land b (if w' =? 0 then 0 else 2 ^ 64 - 1) = w' * b).
  { destruct Hw' as [-> | ->]; cbn [Z.eqb]; [rewrite Z.land_0_r; lia|].
    rewrite (land_ones_mod b 64) by lia. rewrite Z.mod_small; lia. }
  rewrite Hland.
  assert (Hfin : 0 <= 2 * rem + bit - w' * b < b).
  { unfold w'. destruct (Z.leb_spec b (2 * rem + bit)); cbn [b2z]; lia. }
  rewrite u64_id by (word_unfold; lia).
  split; [done|]. split; [rewrite HH, HAk; lia|].
  rewrite <- Hmk. rewrite Hpow'.
  assert (Hmod : m mod 2 ^ k = m - bit * 2 ^ k) by (unfold bit; rewrite Z.mod_eq; lia).
  rewrite Hmod.
  assert (Hshl : u64 (Z.shiftl (m * P + qh) 1) = Z.shiftl ((m - bit * 2 ^ k) * P + qh) 1).
  { rewrite !Z.shiftl_mul_pow2 by lia. unfold u64. symmetry. 
    apply Z.mod_unique with bit.
    - left. rewrite <- Hmod.
      assert (0 <= m mod 2 ^ k < 2 ^ k) by (apply Z.mod_pos_bound; lia). 
      change 18446744073709551616 with (2 ^ 64). nia.
    - change 18446744073709551616 with (2 ^ 64). rewrite <- Hpow, Hpk. lia. }
  rewrite Hshl, lor_shiftl_add by (cbn; lia). lia.
Qed.

Lemma div_loop_inv k rem a wrap :
  div_inv (Z.of_nat k) rem a wrap ->
  let '(rem, a, wrap) := Arith64.divmod_loop k b rem a wrap in div_inv 0 rem a wrap.
Proof.
  revert rem a wrap. induction k as [|k IH]; intros rem a wrap Hinv; [done|].
  cbn [Arith64.divmod_loop]. apply IH. apply (div_step (Z.of_nat k)); [|lia].
  replace (Z.of_nat k + 1) with (Z.of_nat (S k)) by lia. done.
Qed.
End Division.

Lemma divmod_long_spec a b :
  0 < b -> b <= a -> 2 <= b -> a < 2 ^ 64 -> Arith64.divmod_long a b = (a / b, a mod b).
Proof.
  intros Hb Hba Hb2 Ha. unfold Arith64.divmod_long.
  rewrite !clzdi2_clz by lia. unfold Builtin.clz.
  assert (Z.log2 b <= Z.log2 a) by (apply Z.log2_le_mono; lia).
  assert (Z.log2 a < 64) by (apply Z.log2_lt_pow2; lia).
  assert (1 <= Z.log2 b) by (apply Z.log2_le_pow2; lia).
  replace (64 - 1 - Z.log2 b - (64 - 1 - Z.log2 a) + 1) with (Z.log2 a - Z.log2 b + 1) by lia.
  set (n := Z.log2 a - Z.log2 b + 1).
  replace (s8 n) with n by word.
  assert (Hinit : div_inv a b n (Z.of_nat (Z.to_nat n)) (Z.shiftr a n) (u64 (Z.shiftl a (64 - n))) 0).
  { exists 0, 0, 0. rewrite Z2Nat.id by lia. rewrite Z.sub_diag.
    split; [lia|]. do 2 (split; [auto|]). do 3 (split; [lia|]).
    rewrite Z.shiftr_div_pow2 by lia.
    assert (a < 2 ^ (n + Z.log2 b)).
    { replace (n + Z.log2 b) with (Z.succ (Z.log2 a)) by lia. apply Z.log2_spec; lia. }
    assert (2 ^ Z.log2 b <= b) by (apply Z.log2_spec; lia).
    assert (0 < 2 ^ n) by lia.
    split; [split; [apply Z.div_pos; lia|]|].
    { apply Z.lt_le_trans with (2 ^ Z.log2 b); [|done].
      apply Z.div_lt_upper_bound; [lia|]. rewrite <- Z.pow_add_r by lia. done. }
    split; [lia|].
    rewrite Z.shiftl_mul_pow2 by lia. unfold u64. change 18446744073709551616 with (2 ^ 64).
    replace (2 ^ 64) with (2 ^ n * 2 ^ (64 - n)) by (rewrite <- Z.pow_add_r by lia; f_equal; lia).
    rewrite Z.mul_mod_distr_r by lia. lia. }
  pose proof (div_loop_inv a b n) as Hloop.
  specialize (Hloop ltac:(lia) ltac:(lia) ltac:(lia)).
  assert (Hbig : b <= 2 ^ 63 \/ n = 1 /\ b <= a).
  { destruct (Z_le_gt_dec b (2 ^ 63)); [by left|right; split; [|lia]].
    assert (63 <= Z.log2 b) by (apply Z.log2_le_pow2; lia). lia. }
  specialize (Hloop Hbig _ _ _ _ Hinit).
  destruct (Arith64.divmod_loop _ _ _ _ _) as [[rem a'] wrap].
  destruct Hloop as (q & qh & w & _ & -> & Hw & Hq & Hqh & Hq2 & Hrem & HA & ->).
  rewrite wrap_bit by done. rewrite Z.pow_0_r, Z.div_1_r, Z.mod_1_r in *.
  rewrite Z.sub_0_r in Hq2.
  assert (q < 2 ^ 64) by (eapply Z.lt_le_trans; [exact Hq2|apply Z.pow_le_mono_r; lia]).
  rewrite u64_id.
  2:{ rewrite Z.shiftl_mul_pow2 by lia. word_unfold. lia. }
  rewrite lor_shiftl_add by (cbn; lia). f_equal.
  - apply Z.div_unique with rem; lia.
  - apply Z.mod_unique with q; lia.
Qed.

(** [__divmoddi4] of arith64.c: for every pair of 64-bit operands the shift
    and subtract division returns the quotient and the remainder, and the
    only case without a result is the forced exception on a zero divisor. *)
Theorem divmoddi4_correct (a b : Z) :
  in_u64 a -> in_u64 b ->
  Arith64.divmoddi4 a b = if b =? 0 then None else Some (a / b, a mod b).
Proof.
  intros Ha Hb. unfold Arith64.divmoddi4, Arith64.hi, Arith64.lo.
  destruct (Z.ltb_spec a b).
  { bcase; [word|]. rewrite Z.div_small, Z.mod_small by word. done. }
  rewrite !Z.shiftr_div_pow2 by lia. change (2 ^ 32) with 4294967296.
  destruct (Z.eqb_spec b 0) as [->|]; [done|].
  destruct (Z.eqb_spec b 1) as [->|].
  { rewrite Z.div_1_r, Z.mod_1_r. done. }
  destruct (Z.eqb_spec (b / 4294967296) 0).
  - destruct (Z.eqb_spec (a / 4294967296) 0).
    + rewrite !u32_id by word. done.
    + rewrite divmod_long_spec by word. done.
  - rewrite divmod_long_spec by word. done.
Qed.

Lemma divmoddi4_correct_witness :
  Arith64.divmoddi4 18446744073709551615 10 = Some (1844674407370955161, 5).
Proof.
  rewrite (divmoddi4_correct 18446744073709551615 10); [reflexivity|unfold in_u64; lia..].
Defined.

(** ** Signed division *)

Lemma neg_s64 a b :
  in_s64 b -> Arith64.neg a b = u64 (if b <? 0 then - a else a).
Proof.
  intros Hb. unfold Arith64.neg. replace (s64 b) with b by word.
  destruct (Z.ltb_spec b 0); destruct (Z.leb_spec 0 b); try lia; cbn [b2z].
  - change (u64 (0 - 1)) with (Z.ones 64).
    replace (Z.lxor (u64 a) (Z.ones 64)) with (u64 (Z.lnot a)).
    + unfold Z.lnot. word.
    + unfold u64. change 18446744073709551616 with (2 ^ 64).
      rewrite <- !Z.land_ones by lia. apply Z.bits_inj'; intros i Hi.
      rewrite Z.lxor_spec, !Z.land_spec, Z.lnot_spec by done.
      by destruct (Z.testbit a i), (Z.testbit (Z.ones 64) i).
  - change (u64 (1 - 1)) with 0. rewrite Z.lxor_0_r. word.
Qed.

Lemma abs_s64 a : in_s64 a -> Arith64.abs a = Z.abs a.
Proof. intros Ha. unfold Arith64.abs. rewrite neg_s64 by done. bcase; word. Qed.

Lemma lxor_neg a b : (Z.lxor a b <? 0) = xorb (a <? 0) (b <? 0).
Proof.
  pose proof (Z.lxor_nonneg a b).
  destruct (Z.ltb_spec (Z.lxor a b) 0), (Z.ltb_spec a 0), (Z.ltb_spec b 0); cbn; lia.
Qed.

Lemma testbit_sign a i : in_s64 a -> 63 <= i -> Z.testbit a i = (a <? 0).
Proof.
  intros Ha Hi. word_unfold. destruct (Z.ltb_spec a 0).
  - replace a with (Z.lnot (- a - 1)) by (unfold Z.lnot; lia).
    rewrite Z.lnot_spec by lia. rewrite (testbit_high _ 63); [done|lia|lia].
  - apply (testbit_high _ 63); lia.
Qed.

Lemma lxor_s64 a b : in_s64 a -> in_s64 b -> in_s64 (Z.lxor a b).
Proof.
  intros Ha Hb.
  assert (Hnn : forall x, 0 <= x -> (forall i, 63 <= i -> Z.testbit x i = false) -> x < 2 ^ 63).
  { intros x Hx Hbits. destruct (Z_lt_le_dec x (2 ^ 63)) as [|Hge]; [done|exfalso].
    assert (63 <= Z.log2 x) by (apply Z.log2_le_pow2; lia).
    pose proof (Z.bit_log2 x ltac:(lia)). rewrite Hbits in *; done. }
  destruct (Z_lt_le_dec (Z.lxor a b) 0) as [Hneg|Hpos].
  - assert (Z.lnot (Z.lxor a b) < 2 ^ 63); [|unfold Z.lnot in *; word].
    apply Hnn; [unfold Z.lnot; lia|]. intros i Hi.
    rewrite Z.lnot_spec, Z.lxor_spec, !testbit_sign, <- lxor_neg by (done || lia).
    apply Z.ltb_lt in Hneg. by rewrite Hneg.
  - assert (Z.lxor a b < 2 ^ 63); [|word]. apply Hnn; [done|]. intros i Hi.
    rewrite Z.lxor_spec, !testbit_sign, <- lxor_neg by (done || lia). apply Z.ltb_ge. done.
Qed.

(** [__divdi3] and [__moddi3] are C's truncating division and remainder; the
    one overflowing quotient wraps. *)
Lemma divdi3_correct a b :
  in_s64 a -> in_s64 b -> b <> 0 -> Arith64.divdi3 a b = Some (s64 (Z.quot a b)).
Proof.
  intros Ha Hb Hb0. unfold Arith64.divdi3. rewrite !abs_s64 by done.
  rewrite divmoddi4_correct by word. destruct (Z.eqb_spec (Z.abs b) 0); [lia|].
  cbn. rewrite neg_s64 by (by apply lxor_s64). rewrite lxor_neg. f_equal.
  rewrite <- Z.quot_div_nonneg by lia.
  destruct (Z.ltb_spec a 0), (Z.ltb_spec b 0); cbn [xorb];
    rewrite ?(Z.abs_neq a), ?(Z.abs_neq b), ?(Z.abs_eq a), ?(Z.abs_eq b) by lia;
    rewrite ?Z.quot_opp_opp, ?Z.quot_opp_l, ?Z.quot_opp_r, ?Z.opp_involutive by lia; word.
Qed.

Lemma moddi3_correct a b :
  in_s64 a -> in_s64 b -> b <> 0 -> Arith64.moddi3 a b = Some (Z.rem a b).
Proof.
  intros Ha Hb Hb0. unfold Arith64.moddi3. rewrite !abs_s64 by done.
  rewrite divmoddi4_correct by word. destruct (Z.eqb_spec (Z.abs b) 0); [lia|].
  cbn. rewrite neg_s64 by done. f_equal.
  rewrite <- Z.rem_mod_nonneg, Z.rem_abs_r by lia.
  assert (Z.abs (Z.rem a b) < Z.abs b) by (apply Z.rem_bound_abs; lia).
  destruct (Z.ltb_spec a 0).
  - rewrite (Z.abs_neq a), Z.rem_opp_l, Z.opp_involutive by lia. word.
  - rewrite (Z.abs_eq a) by lia. word.
Qed.

(** ** Trailing zeros *)

Lemma ctz_unique n k :
  0 < n -> 0 <= k -> Z.testbit n k = true -> (forall i, 0 <= i < k -> Z.testbit n i = false) ->
  Builtin.ctz n = k.
Proof.
  intros Hn Hk Hbit Hlow. destruct (Builtin.ctz_spec n Hn) as [H1 H2].
  assert (Hc : 0 <= Builtin.ctz n).
  { destruct (Builtin.ctz_bounds n (Z.succ (Z.log2 n))); [|lia].
    split; [lia|]. apply Z.log2_spec; lia. }
  destruct (Z.lt_trichotomy (Builtin.ctz n) k) as [?|[?|?]]; [|done|].
  - rewrite Hlow in H1; [done|lia].
  - rewrite H2 in Hbit; [done|lia].
Qed.

Lemma ctz_step_spec mask sh a n :
  0 <= sh -> mask = 2 ^ (2 ^ sh) - 1 -> 0 < a ->
  exists a' n', Arith64.ctz_step mask sh (a, n) = (a', n') /\ 0 < a' /\ n' + Builtin.ctz a' = n + Builtin.ctz a /\ (Builtin.ctz a < 2 * 2 ^ sh -> Builtin.ctz a' < 2 ^ sh).
Proof.
  intros Hsh -> Ha. unfold Arith64.ctz_step. set (s := 2 ^ sh).
  assert (0 < s) by (unfold s; lia). assert (0 < 2 ^ s) by lia.
  rewrite land_ones_mod by lia. destruct (Z.eqb_spec (a mod 2 ^ s) 0) as [E|E]; cbn [b2z].
  - rewrite Z.shiftl_1_l. fold s. eexists _, _; split; [done|].
    assert (Ha' : a = (a / 2 ^ s) * 2 ^ s) by (rewrite (Z.div_mod a (2 ^ s)) at 1 by lia; lia).
    rewrite Z.shiftr_div_pow2 by lia. set (c := a / 2 ^ s) in *.
    assert (0 < c) by nia. split; [done|].
    assert (Builtin.ctz a = s + Builtin.ctz c); [|lia].
    destruct (Builtin.ctz_spec c) as [Hc1 Hc2]; [done|].
    assert (0 <= Builtin.ctz c).
    { destruct (Builtin.ctz_bounds c (Z.succ (Z.log2 c))); [|lia].
      split; [lia|]. apply Z.log2_spec; lia. }
    rewrite Ha' , <- Z.shiftl_mul_pow2 by lia. apply ctz_unique; [|lia| |].
    + rewrite Z.shiftl_mul_pow2; nia.
    + rewrite Z.shiftl_spec by lia. replace (s + Builtin.ctz c - s) with (Builtin.ctz c) by lia. done.
    + intros i Hi. rewrite Z.shiftl_spec by lia. destruct (Z_lt_le_dec i s).
      * apply Z.testbit_neg_r; lia.
      * apply Hc2; lia.
  - rewrite Z.shiftl_0_l, Z.shiftr_0_r. eexists _, _; split; [done|]. split; [done|].
    split; [lia|]. intros _. destruct (Z_lt_le_dec (Builtin.ctz a) s); [done|exfalso].
    apply E. destruct (Builtin.ctz_spec a Ha) as [_ Ha2].
    rewrite <- Z.land_ones by lia. apply Z.bits_inj'; intros i Hi.
    rewrite Z.bits_0, Z.land_spec. destruct (Z_lt_le_dec i s).
    + rewrite Ha2 by lia. done.
    + rewrite Z.ones_spec_high by lia. apply andb_false_r.
Qed.

Ltac ctz_go sh :=
  match goal with
  | |- context [Arith64.ctz_step ?mask sh (?a, ?n)] =>
    let E := fresh "E" in let a' := fresh "a" in let n' := fresh "n" in
    destruct (ctz_step_spec mask sh a n) as (a' & n' & E & ? & ? & ?);
    [lia|done|lia|rewrite E; clear E]
  end.

Lemma ctzdi2_ctz a : 0 < a < 2 ^ 64 -> Arith64.ctzdi2 a = Builtin.ctz a.
Proof.
  intros Ha. unfold Arith64.ctzdi2. destruct (Builtin.ctz_bounds a 64) as [Hc0 Hc]; [lia|].
  ctz_go 5. ctz_go 4. ctz_go 3. ctz_go 2. ctz_go 1.
  change (Z.pow 2 5) with 32 in *. change (Z.pow 2 4) with 16 in *.
  change (Z.pow 2 3) with 8 in *. change (Z.pow 2 2) with 4 in *. change (Z.pow 2 1) with 2 in *.
  match goal with |- ?n + b2z (Z.land ?x 1 =? 0) = _ => 
    assert (Hl : b2z (Z.land x 1 =? 0) = Builtin.ctz x); [|lia] end.
  match goal with |- b2z (Z.land ?x 1 =? 0) = _ => rename x into y end.
  assert (Hy : 0 < y) by done.
  destruct (Builtin.ctz_spec y Hy) as [Hb1 Hb2].
  assert (0 <= Builtin.ctz y).
  { destruct (Builtin.ctz_bounds y (Z.succ (Z.log2 y))); [|lia].
    split; [lia|]. apply Z.log2_spec; lia. }
  change 1 with (Z.ones 1) at 1. rewrite Z.land_ones by lia.
  change (2 ^ 1) with 2. rewrite (Zmod_odd y), <- (Z.bit0_odd y).
  match goal with |- context [Builtin.ctz ?x] => destruct (Z.eq_dec (Builtin.ctz x) 0) as [E|E] end.
  - rewrite E in *. rewrite Hb1. done.
  - rewrite Hb2 by lia. cbn. lia.
Qed.

(** ** Integer square root *)

Lemma newton_lower n x s : 0 < x -> 0 <= s -> s * s <= n -> s <= (x + n / x) / 2.
Proof.
  intros Hx Hs Hn. apply Z.div_le_lower_bound; [lia|].
  assert (2 * s - x <= n / x); [|lia]. apply Z.div_le_lower_bound; [lia|]. pose proof (Z.square_nonneg (s - x)). lia.
Qed.

Lemma newton_upper n x s :
  0 < x -> s < x -> 0 <= s -> n < (s + 1) * (s + 1) -> (x + n / x) / 2 <= (x + s) / 2.
Proof.
  intros Hx Hsx Hs Hn. apply Z.div_le_mono; [lia|].
  assert (n / x < s + 1); [|lia]. apply Z.div_lt_upper_bound; nia.
Qed.

Lemma isqrt_loop_spec fuel n x s :
  0 < n < 2 ^ 64 - 1 -> s * s <= n < (s + 1) * (s + 1) -> 0 < s <= x -> x <= n ->
  x - s < 2 ^ (Z.of_nat fuel) ->
  CMath.isqrt_loop (S fuel) n x (Z.shiftr (u64 (x + n / x)) 1) = Some s.
Proof.
  intros Hn Hs. revert x. induction fuel as [|fuel IH]; intros x Hx Hxn Hf.
  - cbn in Hf. assert (x = s) as -> by lia. unfold CMath.isqrt_loop.
    assert (s <= (s + n / s) / 2) by (apply newton_lower; lia).
    rewrite Z.shiftr_div_pow2 by lia. change (2 ^ 1) with 2.
    assert (n / s <= n - s + 1) by (apply Z.div_le_upper_bound; nia).
    assert (0 <= n / s) by (apply Z.div_pos; lia).
    rewrite u64_id by word. bcase; [lia|done].
  - remember (S fuel) as f. cbn [CMath.isqrt_loop].
    assert (n / x <= n - x + 1) by (apply Z.div_le_upper_bound; nia).
    assert (0 <= n / x) by (apply Z.div_pos; lia).
    rewrite (u64_id (x + n / x)) by word.
    rewrite Z.shiftr_div_pow2 by lia. change (2 ^ 1) with 2.
    set (y := (x + n / x) / 2).
    assert (s <= y) by (apply newton_lower; lia).
    destruct (Z.ltb_spec y x).
    + destruct (Z.eqb_spec y 0); [lia|]. subst f. apply IH; [lia|lia|].
      destruct (Z_lt_le_dec s x); [|lia].
      assert (y <= (x + s) / 2) by (apply newton_upper; lia).
      rewrite Nat2Z.inj_succ, Z.pow_succ_r in Hf by lia. match goal with Hy : y <= _ |- _ => clear -Hf Hy end. zlia.
    + f_equal. destruct (Z_lt_le_dec s x); [|lia].
      assert (y <= (x + s) / 2) by (apply newton_upper; lia). match goal with Hy : y <= _, Hxy : x <= y, Hsx : s < x |- _ => clear -Hy Hxy Hsx end. zlia.
Qed.

(** math.h, [isqrt]: Newton's loop terminates within 65 iterations with
    the floor of the square root for every input but the largest, 2^64-1,
    where [x + 1] wraps to 0 and the code divides by zero. *)
Theorem isqrt_correct (fuel : nat) (n : Z) :
  in_u64 n -> (65 <= fuel)%nat ->
  CMath.isqrt fuel n = if n =? 18446744073709551615 then None else Some (Z.sqrt n).
Proof.
  intros Hn Hf. unfold CMath.isqrt.
  destruct (Z.eqb_spec n 0) as [->|Hn0]; [done|].
  destruct fuel as [|fuel]; [lia|].
  destruct (Z.eqb_spec n 18446744073709551615) as [->|]; [done|].
  replace (Z.shiftr (u64 (n + 1)) 1) with (Z.shiftr (u64 (n + n / n)) 1) by (by rewrite Z.div_same).
  destruct (Z.sqrt_spec n) as [Hs1 Hs2]; [word|].
  assert (0 < Z.sqrt n) by (apply Z.sqrt_pos; word).
  apply isqrt_loop_spec; [word|lia|nia|lia|].
  apply Z.lt_le_trans with (2 ^ 64); [word|]. apply Z.pow_le_mono_r; lia.
Qed.

Lemma isqrt_correct_witness :
  CMath.isqrt 65 1000000 = Some 1000 /\ CMath.isqrt 65 18446744073709551615 = None.
Proof.
  split; rewrite (isqrt_correct 65); try reflexivity; unfold in_u64; lia.
Defined.

(** ** Checked multiplication, powers of two *)

Lemma umul_safe_correct a b :
  in_u64 a -> in_u64 b ->
  CMath.umul_safe a b = if a * b <? 18446744073709551616 then (a * b, 0) else (0, 1).
Proof.
  intros Ha Hb. unfold CMath.umul_safe. change (u64 (-1)) with 18446744073709551615.
  destruct (Z.eqb_spec a 0) as [->|]; cbn [negb andb]; [done|].
  destruct (Z.ltb_spec (18446744073709551615 / a) b), (Z.ltb_spec (a * b) 18446744073709551616); try done.
  - exfalso. assert (b <= 18446744073709551615 / a); [|lia].
    apply Z.div_le_lower_bound; [word|]. lia.
  - rewrite u64_id by (word_unfold; nia). done.
  - exfalso. assert (a * b <= a * (18446744073709551615 / a)) by (apply Z.mul_le_mono_nonneg_l; word).
    assert (a * (18446744073709551615 / a) <= 18446744073709551615) by (apply Z.mul_div_le; word). lia.
Qed.
