(* ===== verification/Heap.v ===== *)
(** * The kernel heap

    Models the bitmap allocator of libc/heap.c and the [kmalloc]/[kfree] layer
    of libc/mem.c. A heap is the chain of its blocks; a block keeps one byte per
    slot: 0 for a free slot, and one identifier for all slots of an allocation,
    different from the identifiers of both neighbours. [None] is an access
    outside the bitmap of the block. *)

From S2P Require Import Prelude.

(** ** libc/heap.c *)

Definition KHEAPBLOCKBM_size : Z := 40.

Record KHEAPBLOCKBM := Kblock {
  kb_addr : Z;          (* address of the block header *)
  kb_size : Z;          (* usable bytes after the header *)
  kb_used : Z;          (* used bitmap slots *)
  kb_bsize : Z;         (* bytes per slot *)
  kb_lfb : Z;           (* last allocated index, a hint nothing reads *)
  kb_bm : list Z;       (* the bitmap, at [&b[1]] *)
}.

(** [heap->fblock], following the [next] pointers. *)
Definition KHEAPBM : Type := list KHEAPBLOCKBM.

Definition k_heapBMInit : KHEAPBM := [].

(** Write [v] into [n] slots from [x]: the bitmap loops. *)
Definition set_run (bm : list Z) (x n : nat) (v : Z) : list Z := list_inserts x (replicate n v) bm.

Definition ceil_div (n d : Z) : Z := if n / d * d <? n then n / d + 1 else n / d.

Definition k_heapBMAddBlock (heap : KHEAPBM) (addr size bsize : Z) : KHEAPBM :=
  let size' := u64 (size - KHEAPBLOCKBM_size) in
  let bcnt := size' / bsize in
  let bm := replicate (Z.to_nat bcnt) 0 in
  let bcnt' := ceil_div bcnt bsize in
  let bm := set_run bm 0 (Z.to_nat bcnt') 5 in
  Kblock addr size' bcnt' bsize (u64 (bcnt' - 1)) bm :: heap.

(** [for (c = a + 1; c == b || c == 0; ++c);] on bytes: at most two values are
    skipped, so four rounds reach the exit. *)
Fixpoint nid_loop (fuel : nat) (b c : Z) : Z :=
  match fuel with
  | O => c
  | S fuel => if (c =? b) || (c =? 0) then nid_loop fuel b (u8 (c + 1)) else c
  end.
Definition k_heapBMGetNID (a b : Z) : Z := nid_loop 4 b (u8 (a + 1)).

(** [for (y = 0; y < bneed && bm[x + y] == 0; ++y);] *)
Fixpoint zero_run (bm : list Z) (x bneed : nat) : nat :=
  match bneed with
  | O => 0
  | S k => if get8 bm (Z.of_nat x) =? 0 then S (zero_run bm (S x) k) else 0
  end.

(** The first-fit search over the slots of one block; the result is the index
    of the run. The index grows in every round, so [S bcnt] rounds suffice. *)
Fixpoint find_run (fuel : nat) (bm : list Z) (bcnt bneed x : nat) : option nat :=
  match fuel with
  | O => None
  | S fuel =>
    if (x + bneed <=? bcnt)%nat then
      if get8 bm (Z.of_nat x) =? 0 then
        let y := zero_run bm x bneed in
        if (y =? bneed)%nat then Some x
        else find_run fuel bm bcnt bneed (S (x + y))
      else find_run fuel bm bcnt bneed (S x)
    else None
  end.

(** The body of the loop of [k_heapBMAlloc] on one block: the pointer and the
    updated block, or nothing when the block has no room. *)
Definition block_alloc (b : KHEAPBLOCKBM) (size : Z) : option (Z * KHEAPBLOCKBM) :=
  if size <=? u64 (kb_size b - u64 (kb_used b * kb_bsize b)) then
    let bcnt := Z.to_nat (kb_size b / kb_bsize b) in
    let bneed := Z.to_nat (ceil_div size (kb_bsize b)) in
    let bm := kb_bm b in
    match find_run (S bcnt) bm bcnt bneed 0 with
    | Some x =>
      let prev := if (0 <? x)%nat then get8 bm (Z.of_nat (x - 1)) else 0 in
      let next := if (x + bneed <? bcnt)%nat then get8 bm (Z.of_nat (x + bneed)) else 0 in
      let nid := k_heapBMGetNID prev next in
      Some (u64 (u64 (Z.of_nat x * kb_bsize b) + (kb_addr b + KHEAPBLOCKBM_size)),
            Kblock (kb_addr b) (kb_size b) (u64 (kb_used b + Z.of_nat bneed)) (kb_bsize b)
                   (u64 (Z.of_nat x + Z.of_nat bneed - 1)) (set_run bm x bneed nid))
    | None => None
    end
  else None.

(** The pointer returned (0 when no block has room) and the heap. *)
Fixpoint k_heapBMAlloc (heap : KHEAPBM) (size : Z) : Z * KHEAPBM :=
  match heap with
  | [] => (0, [])
  | b :: rest =>
    match block_alloc b size with
    | Some (p, b') => (p, b' :: rest)
    | None => let '(p, rest') := k_heapBMAlloc rest size in (p, b :: rest')
    end
  end.

(** [for (x = bi; x < max && bm[x] == id; ++x)]: how many slots it passes. *)
Fixpoint id_run (bm : list Z) (id : Z) : nat :=
  match bm with
  | [] => 0
  | v :: bm => if v =? id then S (id_run bm id) else 0
  end.

Definition block_contains (b : KHEAPBLOCKBM) (ptr : Z) : bool :=
  (kb_addr b <? ptr) && (ptr <? kb_addr b + KHEAPBLOCKBM_size + kb_size b).

Definition block_free (b : KHEAPBLOCKBM) (ptr : Z) : option KHEAPBLOCKBM :=
  let ptroff := u64 (ptr - (kb_addr b + KHEAPBLOCKBM_size)) in
  let bi := ptroff / kb_bsize b in
  id ← (if bi <? Z.of_nat (length (kb_bm b)) then kb_bm b !! Z.to_nat bi else None);
  let n := id_run (drop (Z.to_nat bi) (kb_bm b)) id in
  Some (Kblock (kb_addr b) (kb_size b) (u64 (kb_used b - Z.of_nat n)) (kb_bsize b) (kb_lfb b)
               (set_run (kb_bm b) (Z.to_nat bi) n 0)).

Fixpoint k_heapBMFree (heap : KHEAPBM) (ptr : Z) : option KHEAPBM :=
  match heap with
  | [] => Some []
  | b :: rest =>
    if block_contains b ptr then b' ← block_free b ptr; Some (b' :: rest)
    else rest' ← k_heapBMFree rest ptr; Some (b :: rest')
  end.

(** ** libc/mem.c: [kmalloc] and [kfree] *)

Definition KHEAP_SIZE : Z := 16 * 1024 * 1024.
Definition KHEAP_BSIZE : Z := 64.

(** The heap with the back-pointer words written in front of every result. *)
Record kheap_state := Kheap {
  kh_heap : KHEAPBM;
  kh_ready : bool;
  kh_hdr : gmap Z Z;
}.

Section Kmalloc.
(** Address of the static [kheap_area], page-aligned by its declaration. *)
Context (kheap_area : Z).

Definition kheap_ensure_init (st : kheap_state) : kheap_state :=
  if kh_ready st then st
  else Kheap (k_heapBMAddBlock k_heapBMInit kheap_area KHEAP_SIZE KHEAP_BSIZE) true (kh_hdr st).

(** The address of the allocation (0: none); [*phys_addr] gets the same value. *)
Definition kmalloc (size : Z) (align : bool) (st : kheap_state) : Z * kheap_state :=
  let st := kheap_ensure_init st in
  let extra := 8 + (if align then 0x1000 else 0) in
  let '(raw, heap) := k_heapBMAlloc (kh_heap st) (u64 (size + extra)) in
  if raw =? 0 then (0, Kheap heap true (kh_hdr st))
  else
    let p := u64 (raw + 8) in
    let p := if align then Z.land (u64 (p + 0xFFF)) (not64 0xFFF) else p in
    (p, Kheap heap true (<[p - 8 := raw]> (kh_hdr st))).

Definition kfree (ptr : Z) (st : kheap_state) : option kheap_state :=
  if (ptr =? 0) || negb (kh_ready st) then Some st
  else
    raw ← kh_hdr st !! (ptr - 8);
    heap ← k_heapBMFree (kh_heap st) raw;
    Some (Kheap heap (kh_ready st) (kh_hdr st)).
End Kmalloc.
