(* ===== verification/Kalloc.v ===== *)
(** * The kernel allocator as an interface

    What the scheduler, the virtual memory manager and the other clients of
    [kmalloc]/[kfree] rely on. The heap (Heap.v) discharges the laws in
    HeapProofs.v. *)

From S2P Require Import Prelude.

(** Two address ranges [p, p+n) and [q, q+m) that share no byte. *)
Definition disjoint_range (p n q m : Z) : Prop := p + n <= q \/ q + m <= p.

(** [kalloc_live h L]: in heap state [h] the allocations handed out and not
    freed are [L], from address to requested size. *)
Class Kalloc (H : Type) := {
  kalloc : Z -> bool -> H -> Z * H;
  kalloc_free : Z -> H -> option H;
  kalloc_live : H -> gmap Z Z -> Prop;
  kalloc_lo : Z;
  kalloc_hi : Z;
  kalloc_bounds : 0 < kalloc_lo /\ kalloc_lo <= kalloc_hi < 4503599627370496;
  kalloc_in : forall h L p n, kalloc_live h L -> L !! p = Some n -> kalloc_lo <= p /\ p + n <= kalloc_hi;
  kalloc_disjoint : forall h L p n q m, kalloc_live h L ->
    L !! p = Some n -> L !! q = Some m -> p <> q -> disjoint_range p n q m;
  kalloc_ok : forall h L size align p h',
    kalloc_live h L -> 0 < size < 1152921504606846976 -> kalloc size align h = (p, h') ->
    (p = 0 /\ kalloc_live h' L) \/
    (L !! p = None /\ (align = true -> p mod 4096 = 0) /\ kalloc_live h' (<[p := size]> L));
  kalloc_free_ok : forall h L p n,
    kalloc_live h L -> L !! p = Some n ->
    exists h', kalloc_free p h = Some h' /\ kalloc_live h' (delete p L);
}.

(** ** A reference instance

    A bump allocator of whole pages between two page-aligned addresses, which
    never reuses memory: the laws above hold of it, and clients can be run on
    it. The state is the next free address. *)
Section Bump.
Context (blo bhi : Z) (Hb : 0 < blo /\ blo <= bhi < 4503599627370496 /\ blo mod 4096 = 0).

Definition bump_alloc (size : Z) (align : bool) (h : Z) : Z * Z :=
  let sz := (size + 4095) / 4096 * 4096 in
  if h + sz <=? bhi then (h, h + sz) else (0, h).

Definition bump_live (h : Z) (L : gmap Z Z) : Prop :=
  blo <= h <= bhi /\ h mod 4096 = 0 /\
  (forall p n, L !! p = Some n -> 0 < n /\ blo <= p /\ p + n <= h) /\
  (forall p n q m, L !! p = Some n -> L !! q = Some m -> p <> q -> disjoint_range p n q m).

Lemma bump_ok h L size align p h' :
  bump_live h L -> 0 < size < 1152921504606846976 -> bump_alloc size align h = (p, h') ->
  (p = 0 /\ bump_live h' L) \/
  (L !! p = None /\ (align = true -> p mod 4096 = 0) /\ bump_live h' (<[p := size]> L)).
Proof.
  intros (Hr & Hm & Hl & Hd) Hs. unfold bump_alloc. bcase; intros [= <- <-]; [right|by left].
  assert (Hsz : size <= (size + 4095) / 4096 * 4096) by zlia.
  assert (Hn : L !! h = None).
  { destruct (L !! h) eqn:E; [|done]. apply Hl in E. lia. }
  split; [done|]. split; [done|]. split; [lia|]. split; [zlia|]. split.
  - intros q n [[<- <-]|[? Hq]]%lookup_insert_Some; [lia|]. apply Hl in Hq. lia.
  - intros q n r m [[<- <-]|[? Hq]]%lookup_insert_Some [[<- <-]|[? Hr']]%lookup_insert_Some Hne; [done| | |by eapply Hd].
    + right. apply Hl in Hr'. lia.
    + left. apply Hl in Hq. lia.
Qed.

Program Definition bump_kalloc : Kalloc Z := {|
  kalloc := bump_alloc;
  kalloc_free _ h := Some h;
  kalloc_live := bump_live;
  kalloc_lo := blo;
  kalloc_hi := bhi |}.
Next Obligation. lia. Qed.
Next Obligation. intros h L p n (Hr & _ & Hl & _) E. apply Hl in E. lia. Qed.
Next Obligation. intros h L p n q m (_ & _ & _ & Hd). by apply Hd. Qed.
Next Obligation. intros. by eapply bump_ok. Qed.
Next Obligation.
  intros h L p n (Hr & Hm & Hl & Hd) E. exists h. split; [done|]. split; [done|]. split; [done|]. split.
  - intros q k [_ Hq]%lookup_delete_Some. by apply Hl.
  - intros q k r m [_ Hq]%lookup_delete_Some [_ Hr']%lookup_delete_Some. by apply Hd.
Qed.

Lemma bump_boot : bump_live blo ∅.
Proof. split; [lia|]. split; [lia|]. split; intros p n; [by rewrite lookup_empty|intros ? ?; by rewrite lookup_empty]. Qed.
End Bump.
