(* ===== verification/HeapProofs.v ===== *)
(** * Correctness of the kernel heap

    The invariant of a heap block and what the allocator and [kmalloc]/[kfree]
    guarantee; the last section is the instance of the interface of Kalloc.v. *)

From S2P Require Import Prelude Heap Kalloc.

(** ** Bitmaps *)

Definition nonzero (bm : list Z) : nat := length (filter (fun v => v <> 0) bm).

(** A run of [n] free slots at [x]. *)
Definition free_run (bm : list Z) (x n : nat) : Prop :=
  forall i, (x <= i < x + n)%nat -> bm !! i = Some 0.

Lemma get8_lookup bm (i : nat) v : bm !! i = Some v -> get8 bm (Z.of_nat i) = v.
Proof. intros H. unfold get8. by rewrite Nat2Z.id, H. Qed.

Lemma get8_inrange bm (i : nat) :
  (i < length bm)%nat -> bm !! i = Some (get8 bm (Z.of_nat i)).
Proof.
  intros H. destruct (lookup_lt_is_Some_2 bm i H) as [v Hv]. by rewrite (get8_lookup _ _ _ Hv).
Qed.

Lemma length_set_run bm x n v : length (set_run bm x n v) = length bm.
Proof. apply length_inserts. Qed.

Lemma lookup_set_run_in bm x n v i :
  (x <= i < x + n)%nat -> (i < length bm)%nat -> set_run bm x n v !! i = Some v.
Proof.
  intros Hi Hl. unfold set_run. rewrite list_lookup_inserts by (rewrite ?length_replicate; lia).
  apply lookup_replicate_2. lia.
Qed.

Lemma lookup_set_run_out bm x n v i :
  (i < x \/ x + n <= i)%nat -> set_run bm x n v !! i = bm !! i.
Proof.
  intros Hi. unfold set_run. destruct (decide (i < x)%nat).
  - apply list_lookup_inserts_lt; lia.
  - apply list_lookup_inserts_ge. rewrite length_replicate. lia.
Qed.

Lemma set_run_app l1 l2 l3 v :
  set_run (l1 ++ l2 ++ l3) (length l1) (length l2) v = l1 ++ replicate (length l2) v ++ l3.
Proof.
  apply list_eq. intros i. destruct (decide (i < length (l1 ++ l2 ++ l3))%nat) as [Hi|Hi].
  2:{ rewrite !lookup_ge_None_2; [done| |rewrite length_set_run; lia]. len. }
  destruct (decide (length l1 <= i < length l1 + length l2)%nat).
  - rewrite lookup_set_run_in by lia. rewrite lookup_app_r, lookup_app_l by len.
    symmetry. apply lookup_replicate_2. lia.
  - rewrite lookup_set_run_out by lia. destruct (decide (i < length l1)%nat).
    + by rewrite !lookup_app_l by lia.
    + rewrite !lookup_app_r by len. f_equal. len.
Qed.

Lemma list_split3 (bm : list Z) x n :
  (x + n <= length bm)%nat ->
  exists l1 l2 l3, bm = l1 ++ l2 ++ l3 /\ length l1 = x /\ length l2 = n.
Proof.
  intros H. exists (take x bm), (take n (drop x bm)), (drop n (drop x bm)).
  rewrite !take_drop. split; [done|]. split; len.
Qed.

Lemma nonzero_app l1 l2 : nonzero (l1 ++ l2) = (nonzero l1 + nonzero l2)%nat.
Proof. unfold nonzero. rewrite filter_app. len. Qed.

Lemma nonzero_replicate n v : nonzero (replicate n v) = if v =? 0 then O else n.
Proof.
  unfold nonzero. induction n as [|n IH]; cbn [replicate]; [by destruct (v =? 0)|].
  rewrite filter_cons. destruct (Z.eqb_spec v 0); case_decide; try lia; cbn; lia.
Qed.

Lemma free_run_split bm x n :
  (x + n <= length bm)%nat -> free_run bm x n ->
  exists l1 l3, bm = l1 ++ replicate n 0 ++ l3 /\ length l1 = x.
Proof.
  intros Hl Hf. destruct (list_split3 bm x n Hl) as (l1 & l2 & l3 & -> & <- & <-).
  exists l1, l3. split; [|done]. do 2 f_equal. apply list_eq. intros i.
  destruct (decide (i < length l2)%nat).
  - rewrite lookup_replicate_2 by done. specialize (Hf (length l1 + i)%nat).
    rewrite lookup_app_r, lookup_app_l in Hf by lia.
    replace (length l1 + i - length l1)%nat with i in Hf by lia. apply Hf. lia.
  - rewrite !lookup_ge_None_2; [done|len|lia].
Qed.

Lemma nonzero_set_run bm x n v :
  (x + n <= length bm)%nat -> free_run bm x n -> v <> 0 ->
  nonzero (set_run bm x n v) = (nonzero bm + n)%nat.
Proof.
  intros Hl Hf Hv. destruct (free_run_split bm x n Hl Hf) as (l1 & l3 & -> & <-).
  replace n with (length (replicate n 0)) at 2 by apply length_replicate.
  rewrite set_run_app, !nonzero_app, !nonzero_replicate, length_replicate. 
  destruct (Z.eqb_spec v 0); [done|]. cbn. lia.
Qed.

Lemma nonzero_free_run bm x n :
  (x + n <= length bm)%nat -> free_run bm x n -> (nonzero bm + n <= length bm)%nat.
Proof.
  intros Hl Hf. destruct (free_run_split bm x n Hl Hf) as (l1 & l3 & -> & <-).
  rewrite !nonzero_app, nonzero_replicate, !length_app, length_replicate. cbn.
  assert (forall l, nonzero l <= length l)%nat as Hle by (intros; apply length_filter).
  pose proof (Hle l1). pose proof (Hle l3). lia.
Qed.

(** ** The search *)

Lemma zero_run_spec bm x k :
  (x + k <= length bm)%nat ->
  (zero_run bm x k <= k)%nat /\ free_run bm x (zero_run bm x k) /\
  ((zero_run bm x k < k)%nat -> bm !! (x + zero_run bm x k)%nat <> Some 0).
Proof.
  revert x. induction k as [|k IH]; intros x Hl; cbn [zero_run].
  { split; [lia|]. split; [intros i; lia|lia]. }
  pose proof (get8_inrange bm x ltac:(lia)) as Hx.
  destruct (Z.eqb_spec (get8 bm (Z.of_nat x)) 0) as [E|E].
  - destruct (IH (S x) ltac:(lia)) as (H1 & H2 & H3). split; [lia|]. split.
    + intros i Hi. destruct (decide (i = x)) as [->|]; [congruence|]. apply H2. lia.
    + intros Hlt. replace (x + S (zero_run bm (S x) k))%nat with (S x + zero_run bm (S x) k)%nat by lia.
      apply H3. lia.
  - split; [lia|]. split; [intros i; lia|]. intros _. rewrite Nat.add_0_r, Hx. congruence.
Qed.

(** [find_run] returns the first run of [bneed] free slots, if there is one. *)
Lemma find_run_spec fuel bm bcnt bneed x :
  length bm = bcnt -> (0 < bneed)%nat -> (bcnt < x + fuel)%nat ->
  match find_run fuel bm bcnt bneed x with
  | Some y => (x <= y)%nat /\ (y + bneed <= bcnt)%nat /\ free_run bm y bneed /\
      forall z, (x <= z < y)%nat -> ~ free_run bm z bneed
  | None => forall z, (x <= z)%nat -> (z + bneed <= bcnt)%nat -> ~ free_run bm z bneed
  end.
Proof.
  intros Hlen Hb. revert x. induction fuel as [|fuel IH]; intros x Hf; cbn [find_run].
  { intros z Hz Hz2. lia. }
  destruct (Nat.leb_spec (x + bneed) bcnt) as [Hle|Hgt].
  2:{ intros z Hz Hz2. lia. }
  pose proof (get8_inrange bm x ltac:(lia)) as Hx.
  destruct (Z.eqb_spec (get8 bm (Z.of_nat x)) 0) as [E|E].
  - destruct (zero_run_spec bm x bneed ltac:(lia)) as (H1 & H2 & H3).
    set (y := zero_run bm x bneed) in *.
    destruct (Nat.eqb_spec y bneed) as [Hy|Hy].
    + rewrite Hy in H2. split; [lia|]. split; [done|]. split; [done|]. intros z; lia.
    + specialize (H3 ltac:(lia)).
      assert (Hno : forall z, (x <= z < S (x + y))%nat -> ~ free_run bm z bneed).
      { intros z Hz Hfr. apply H3, Hfr. split; [lia|].
        destruct (decide (z + bneed <= x + y)%nat); [|lia].
        lia. }
      specialize (IH (S (x + y)) ltac:(lia)).
      destruct (find_run fuel bm bcnt bneed (S (x + y))) as [w|].
      * destruct IH as (? & ? & ? & Hmin). split; [lia|]. split; [done|]. split; [done|].
        intros z Hz. destruct (decide (z < S (x + y))%nat); [apply Hno; lia|apply Hmin; lia].
      * intros z Hz Hz2. destruct (decide (z < S (x + y))%nat); [apply Hno; lia|apply IH; lia].
  - assert (Hno : ~ free_run bm x bneed).
    { intros Hfr. specialize (Hfr x ltac:(lia)). congruence. }
    specialize (IH (S x) ltac:(lia)).
    destruct (find_run fuel bm bcnt bneed (S x)) as [w|].
    + destruct IH as (? & ? & ? & Hmin). split; [lia|]. split; [done|]. split; [done|].
      intros z Hz. destruct (decide (z = x)) as [->|]; [done|apply Hmin; lia].
    + intros z Hz Hz2. destruct (decide (z = x)) as [->|]; [done|apply IH; lia].
Qed.

Lemma nid_fresh a b :
  in_u8 a -> in_u8 b ->
  let c := k_heapBMGetNID a b in in_u8 c /\ c <> a /\ c <> b /\ c <> 0.
Proof.
  intros Ha Hb c. subst c. unfold k_heapBMGetNID.
  cbn [nid_loop]. 
  repeat match goal with
    | |- context [if (?x =? ?y) || (?z =? 0) then _ else _] =>
      destruct (Z.eqb_spec x y); cbn [orb]; [|destruct (Z.eqb_spec z 0); cbn [orb]]
    end; word.
Qed.

(** ** The block invariant

    [r] slots are reserved for the bitmap itself; [A] maps the first slot of
    every live allocation to its number of slots. *)

Record block_wf (b : KHEAPBLOCKBM) (r : nat) (A : gmap nat nat) : Prop := {
  bw_bsize : 0 < kb_bsize b;
  bw_size : 0 <= kb_size b;
  bw_addr : 0 < kb_addr b /\ kb_addr b + KHEAPBLOCKBM_size + kb_size b < 18446744073709551616;
  bw_len : length (kb_bm b) = Z.to_nat (kb_size b / kb_bsize b);
  bw_bytes : bytes (kb_bm b);
  bw_used : kb_used b = Z.of_nat (nonzero (kb_bm b));
  bw_reserved : forall i, (i < r)%nat -> exists v, kb_bm b !! i = Some v /\ v <> 0;
  bw_alloc : forall x n, A !! x = Some n -> (0 < n)%nat /\ (r <= x)%nat /\
    (x + n <= length (kb_bm b))%nat /\
    exists id, id <> 0 /\ (forall i, (x <= i < x + n)%nat -> kb_bm b !! i = Some id) /\
      kb_bm b !! (x + n)%nat <> Some id;
  bw_disj : forall x n y m, A !! x = Some n -> A !! y = Some m -> x <> y -> (x + n <= y \/ y + m <= x)%nat;
  bw_cover : forall i v, (r <= i)%nat -> kb_bm b !! i = Some v -> v <> 0 ->
    exists x n, A !! x = Some n /\ (x <= i < x + n)%nat;
}.

(** Address of slot [x]. *)
Definition slot_addr (b : KHEAPBLOCKBM) (x : nat) : Z :=
  kb_addr b + KHEAPBLOCKBM_size + Z.of_nat x * kb_bsize b.

Lemma ceil_div_spec n d : 0 < d -> 0 <= n ->
  n <= ceil_div n d * d < n + d /\ 0 <= ceil_div n d.
Proof. intros. unfold ceil_div. bcase; Z.to_euclidean_division_equations; nia. Qed.

Lemma ceil_div_pos n d : 0 < d -> 0 < n -> 0 < ceil_div n d.
Proof. intros Hd Hn. destruct (ceil_div_spec n d); [done|lia|]. nia. Qed.

Section Block.
Context (b : KHEAPBLOCKBM) (r : nat) (A : gmap nat nat).
Hypothesis Hwf : block_wf b r A.

Lemma slots_fit (n : nat) :
  (n <= length (kb_bm b))%nat -> Z.of_nat n * kb_bsize b <= kb_size b.
Proof.
  intros Hn. rewrite (bw_len _ _ _ Hwf) in Hn. pose proof (bw_bsize _ _ _ Hwf).
  pose proof (bw_size _ _ _ Hwf).
  pose proof (Z.mul_div_le (kb_size b) (kb_bsize b) ltac:(lia)).
  assert (0 <= kb_size b / kb_bsize b) by (apply Z.div_pos; lia). nia.
Qed.

Lemma used_room : u64 (kb_size b - u64 (kb_used b * kb_bsize b)) = kb_size b - kb_used b * kb_bsize b.
Proof.
  pose proof (slots_fit (nonzero (kb_bm b))) as Hf. pose proof (bw_addr _ _ _ Hwf).
  specialize (Hf ltac:(apply length_filter)). rewrite (bw_used _ _ _ Hwf) in *.
  pose proof (bw_bsize _ _ _ Hwf). unfold KHEAPBLOCKBM_size in *.
  assert (0 <= Z.of_nat (nonzero (kb_bm b)) * kb_bsize b) by nia.
  rewrite (u64_id (_ * _)) by word. apply u64_id. word.
Qed.

(** What marking a found run with a fresh identifier does to the invariant. *)
Lemma block_mark x n nid :
  (0 < n)%nat -> (x + n <= length (kb_bm b))%nat -> free_run (kb_bm b) x n ->
  in_u8 nid -> nid <> 0 -> (forall v, (0 < x)%nat -> kb_bm b !! (x - 1)%nat = Some v -> nid <> v) ->
  kb_bm b !! (x + n)%nat <> Some nid ->
  A !! x = None /\
  block_wf (Kblock (kb_addr b) (kb_size b) (u64 (kb_used b + Z.of_nat n)) (kb_bsize b)
             (u64 (Z.of_nat x + Z.of_nat n - 1)) (set_run (kb_bm b) x n nid)) r (<[x := n]> A).
Proof.
  intros Hn Hl Hfr Hid8 Hid Hprev Hnext. destruct Hwf.
  assert (Hrx : (r <= x)%nat).
  { destruct (decide (r <= x)%nat); [done|]. destruct (bw_reserved0 x) as (v & E & Hv); [lia|].
    rewrite Hfr in E by lia. congruence. }
  assert (Hsep : forall y m, A !! y = Some m -> (y + m <= x \/ x + n <= y)%nat).
  { intros y m Hy. destruct (bw_alloc0 y m Hy) as (? & ? & ? & id & Hid0 & Hall & _).
    destruct (decide (y + m <= x \/ x + n <= y)%nat) as [|Hov]; [done|exfalso].
    assert (exists i, (y <= i < y + m)%nat /\ (x <= i < x + n)%nat) as (i & Hi1 & Hi2).
    { exists (Nat.max x y). lia. }
    specialize (Hall i Hi1). rewrite Hfr in Hall by done. congruence. }
  assert (HAx : A !! x = None).
  { destruct (A !! x) as [m|] eqn:E; [|done]. destruct (bw_alloc0 x m E) as (? & _).
    destruct (Hsep x m E); lia. }
  split; [done|].
  pose proof (slots_fit (nonzero (kb_bm b) + n) (nonzero_free_run _ _ _ Hl Hfr)) as Hfit.
  constructor; cbn [kb_addr kb_size kb_used kb_bsize kb_bm]; rewrite ?length_set_run; try done.
  - apply bytes_splice with (off := Z.of_nat x) (l := replicate n nid) in bw_bytes0.
    + unfold splice in bw_bytes0. rewrite Nat2Z.id in bw_bytes0. done.
    + apply Forall_replicate. done.
  - rewrite nonzero_set_run, bw_used0, Nat2Z.inj_add by done. apply u64_id.
    rewrite Nat2Z.inj_add in Hfit.
    unfold KHEAPBLOCKBM_size in *. word_unfold. nia.
  - intros i Hi. rewrite lookup_set_run_out by lia. apply bw_reserved0. done.
  - intros y m Hy. destruct (decide (x = y)) as [<-|Hxy].
    + rewrite lookup_insert_eq in Hy. injection Hy as <-. split; [done|]. split; [done|]. split; [done|].
      exists nid. split; [done|]. split; [intros; apply lookup_set_run_in; lia|].
      rewrite lookup_set_run_out by lia. done.
    + rewrite lookup_insert_ne in Hy by done. destruct (bw_alloc0 y m Hy) as (? & ? & ? & id & Hid0 & Hall & Hend).
      split; [done|]. split; [done|]. split; [done|].
      exists id. split; [done|]. destruct (Hsep y m Hy) as [Hs|Hs].
      * split; [intros i Hi; rewrite lookup_set_run_out by lia; apply Hall; lia|].
        destruct (decide (y + m = x)%nat) as [E|E].
        -- rewrite lookup_set_run_in by lia. intros [= ->].
           apply (Hprev id); [lia|apply Hall; lia|done].
        -- rewrite lookup_set_run_out by lia. done.
      * split; [intros i Hi; rewrite lookup_set_run_out by lia; apply Hall; lia|].
        rewrite lookup_set_run_out by lia. done.
  - intros y m z k Hy Hz Hyz.
    destruct (decide (x = y)) as [<-|?], (decide (x = z)) as [<-|?]; try done.
    + rewrite lookup_insert_eq in Hy. injection Hy as <-. rewrite lookup_insert_ne in Hz by done.
      destruct (Hsep z k Hz); lia.
    + rewrite lookup_insert_eq in Hz. injection Hz as <-. rewrite lookup_insert_ne in Hy by done.
      destruct (Hsep y m Hy); lia.
    + rewrite lookup_insert_ne in Hy, Hz by done. eauto.
  - intros i v Hri Hi Hv. destruct (decide (x <= i < x + n)%nat) as [Hin|Hout].
    + exists x, n. by rewrite lookup_insert_eq.
    + rewrite lookup_set_run_out in Hi by lia. destruct (bw_cover0 i v Hri Hi Hv) as (y & m & Hy & Hym).
      exists y, m. rewrite lookup_insert_ne by (intros ->; congruence). done.
Qed.

Lemma get8_bitmap i : in_u8 (get8 (kb_bm b) i).
Proof.
  unfold get8. destruct (kb_bm b !! Z.to_nat i) as [v|] eqn:E; cbn; [|word].
  pose proof (bw_bytes _ _ _ Hwf) as Hb. unfold bytes in Hb. rewrite Forall_lookup in Hb. eauto.
Qed.

(** Allocation from a block: first fit, and nothing only when no run of free
    slots is long enough. *)
Lemma block_alloc_spec size :
  0 < size ->
  let n := Z.to_nat (ceil_div size (kb_bsize b)) in
  match block_alloc b size with
  | Some (p, b') => exists x,
      p = slot_addr b x /\ A !! x = None /\ (r <= x)%nat /\ (x + n <= length (kb_bm b))%nat /\
      free_run (kb_bm b) x n /\ (forall y, (y < x)%nat -> ~ free_run (kb_bm b) y n) /\
      kb_addr b' = kb_addr b /\ kb_size b' = kb_size b /\ kb_bsize b' = kb_bsize b /\
      kb_used b' = kb_used b + Z.of_nat n /\
      (exists nid, kb_bm b' = set_run (kb_bm b) x n nid) /\ block_wf b' r (<[x := n]> A)
  | None => forall x, (x + n <= length (kb_bm b))%nat -> ~ free_run (kb_bm b) x n
  end.
Proof.
  intros Hsz n. unfold block_alloc. rewrite used_room. fold n.
  pose proof (bw_bsize _ _ _ Hwf) as Hbs.
  destruct (ceil_div_spec size (kb_bsize b)) as [Hc Hc0]; [done|lia|].
  pose proof (ceil_div_pos size (kb_bsize b) Hbs ltac:(lia)) as Hcp.
  destruct (Z.leb_spec size (kb_size b - kb_used b * kb_bsize b)) as [Hroom|Hroom].
  2:{ intros x Hx Hfr. pose proof (nonzero_free_run _ _ _ Hx Hfr) as Hnz.
      pose proof (slots_fit _ Hnz). rewrite (bw_used _ _ _ Hwf) in Hroom.
      unfold n in *. nia. }
  rewrite <- (bw_len _ _ _ Hwf).
  pose proof (find_run_spec (S (length (kb_bm b))) (kb_bm b) _ n 0 eq_refl ltac:(lia) ltac:(lia)) as Hfind.
  destruct (find_run _ _ _ n 0) as [x|]; [|intros x Hx; apply Hfind; lia].
  destruct Hfind as (_ & Hxn & Hfr & Hmin).
  set (prev := if (0 <? x)%nat then _ else 0). set (next := if (x + n <? _)%nat then _ else 0).
  assert (in_u8 prev) by (unfold prev; bcase; [apply get8_bitmap|word]).
  assert (in_u8 next) by (unfold next; bcase; [apply get8_bitmap|word]).
  destruct (nid_fresh prev next) as (Hn8 & Hnp & Hnn & Hn0); [done..|].
  set (nid := k_heapBMGetNID prev next) in *.
  destruct (block_mark x n nid) as [HAx Hwf']; try done; [lia| | |].
  { intros v Hx0 Hv. subst prev. destruct (Nat.ltb_spec 0 x); [|lia].
    rewrite (get8_lookup _ _ _ Hv) in Hnp. done. }
  { intros Hv. subst next. apply lookup_lt_Some in Hv as Hlt.
    destruct (Nat.ltb_spec (x + n) (length (kb_bm b))); [|lia].
    rewrite (get8_lookup _ _ _ Hv) in Hnn. done. }
  pose proof (slots_fit (x + n) Hxn) as Hfit.
  pose proof (bw_addr _ _ _ Hwf) as Haddr. pose proof (bw_size _ _ _ Hwf).
  exists x. unfold slot_addr, KHEAPBLOCKBM_size in *.
  assert (Hxb : 0 <= Z.of_nat x * kb_bsize b <= kb_size b).
  { rewrite Nat2Z.inj_add in Hfit. assert (0 <= Z.of_nat n * kb_bsize b) by nia. nia. }
  split; [rewrite (u64_id (_ * _)) by word; rewrite u64_id by word; lia|]. split; [done|].
  split. { destruct (bw_alloc _ _ _ Hwf' x n) as (_ & ? & _); [apply lookup_insert_eq|done]. }
  split; [done|]. split; [done|]. split; [intros y Hy; apply Hmin; lia|].
  cbn [kb_addr kb_size kb_used kb_bsize kb_bm].
  do 3 (split; [done|]). split; [|eauto].
  pose proof (bw_used _ _ _ Hwf') as Hu. cbn [kb_used kb_bm] in Hu. rewrite Hu, nonzero_set_run, (bw_used _ _ _ Hwf) by done.
  lia.
Qed.
End Block.

(** ** Freeing *)

Lemma id_run_spec bm id n :
  (forall i, (i < n)%nat -> bm !! i = Some id) -> bm !! n <> Some id -> id_run bm id = n.
Proof.
  revert bm. induction n as [|n IH]; intros bm Hall Hend.
  - destruct bm as [|v bm]; cbn in *; [done|]. destruct (Z.eqb_spec v id); congruence.
  - destruct bm as [|v bm]; [specialize (Hall O ltac:(lia)); done|].
    pose proof (Hall O ltac:(lia)) as H0. cbn in H0. injection H0 as ->. cbn.
    rewrite Z.eqb_refl. f_equal. apply IH; [|done]. intros i Hi. apply (Hall (S i)). lia.
Qed.

Lemma nonzero_clear_run bm x n id :
  (x + n <= length bm)%nat -> id <> 0 -> (forall i, (x <= i < x + n)%nat -> bm !! i = Some id) ->
  nonzero bm = (nonzero (set_run bm x n 0) + n)%nat.
Proof.
  intros Hl Hid Hall. rewrite <- (nonzero_set_run _ x n id); rewrite ?length_set_run; try done.
  - f_equal. apply list_eq. intros i. destruct (decide (x <= i < x + n)%nat).
    + rewrite lookup_set_run_in by (rewrite ?length_set_run; lia). apply Hall. lia.
    + rewrite !lookup_set_run_out by lia. done.
  - intros i Hi. apply lookup_set_run_in; lia.
Qed.

Lemma block_free_spec b r A x n :
  block_wf b r A -> A !! x = Some n ->
  block_contains b (slot_addr b x) = true /\
  exists b', block_free b (slot_addr b x) = Some b' /\
    kb_bm b' = set_run (kb_bm b) x n 0 /\ kb_used b' = kb_used b - Z.of_nat n /\
    kb_addr b' = kb_addr b /\ kb_size b' = kb_size b /\ kb_bsize b' = kb_bsize b /\
    block_wf b' r (delete x A).
Proof.
  intros Hwf HA. destruct (bw_alloc _ _ _ Hwf x n HA) as (Hn & Hrx & Hl & id & Hid & Hall & Hend).
  pose proof (slots_fit b r A Hwf (x + n) Hl) as Hfit. pose proof (bw_bsize _ _ _ Hwf).
  pose proof (bw_addr _ _ _ Hwf). unfold slot_addr, KHEAPBLOCKBM_size in *.
  rewrite Nat2Z.inj_add in Hfit.
  assert (Hxb : 0 <= Z.of_nat x * kb_bsize b < kb_size b) by nia.
  split. { unfold block_contains, KHEAPBLOCKBM_size. apply andb_true_iff. split; apply Z.ltb_lt; lia. }
  unfold block_free. unfold KHEAPBLOCKBM_size.
  replace (kb_addr b + 40 + Z.of_nat x * kb_bsize b - (kb_addr b + 40)) with (Z.of_nat x * kb_bsize b) by lia.
  rewrite u64_id by word. rewrite Z.div_mul by lia. rewrite Nat2Z.id.
  destruct (Z.ltb_spec (Z.of_nat x) (Z.of_nat (length (kb_bm b)))); [|lia].
  rewrite (Hall x) by lia. cbn [mbind option_bind].
  rewrite (id_run_spec _ id n).
  2:{ intros i Hi. rewrite lookup_drop. apply Hall. lia. }
  2:{ rewrite lookup_drop. done. }
  pose proof (nonzero_clear_run (kb_bm b) x n id Hl Hid Hall) as Hnz.
  rewrite (bw_used _ _ _ Hwf), Hnz.
  assert (Hu : u64 (Z.of_nat (nonzero (set_run (kb_bm b) x n 0) + n) - Z.of_nat n)
     = Z.of_nat (nonzero (set_run (kb_bm b) x n 0))).
  { assert (Hle : (nonzero (set_run (kb_bm b) x n 0) <= length (kb_bm b))%nat).
    { rewrite <- (length_set_run (kb_bm b) x n 0). apply length_filter. }
    pose proof (slots_fit b r A Hwf _ Hle). rewrite Nat2Z.inj_add, Z.add_simpl_r.
    apply u64_id. word_unfold. nia. }
  eexists; split; [done|]. cbn [kb_addr kb_size kb_used kb_bsize kb_bm]. rewrite Hu.
  split; [done|]. split; [lia|]. do 3 (split; [done|]).
  destruct Hwf. constructor; cbn [kb_addr kb_size kb_used kb_bsize kb_bm]; rewrite ?length_set_run; try done.
  - apply bytes_splice with (off := Z.of_nat x) (l := replicate n 0) in bw_bytes0.
    + unfold splice in bw_bytes0. rewrite Nat2Z.id in bw_bytes0. done.
    + apply Forall_replicate. word.
  - intros i Hi. rewrite lookup_set_run_out by lia. auto.
  - intros y m Hy. apply lookup_delete_Some in Hy as [Hxy Hy].
    destruct (bw_alloc0 y m Hy) as (? & ? & ? & id' & ? & Hall' & Hend').
    destruct (bw_disj0 x n y m HA Hy Hxy) as [Hs|Hs];
    (split; [done|]; split; [done|]; split; [done|]; exists id'; split; [done|]; split;
     [intros i Hi; rewrite lookup_set_run_out by lia; auto|]).
    + rewrite lookup_set_run_out by lia. done.
    + destruct (decide (y + m = x)%nat) as [E|].
      * rewrite lookup_set_run_in by lia. congruence.
      * rewrite lookup_set_run_out by lia. done.
  - intros y m z k Hy Hz. apply lookup_delete_Some in Hy as [_ Hy]. apply lookup_delete_Some in Hz as [_ Hz]. eauto.
  - intros i v Hri Hi Hv. destruct (decide (x <= i < x + n)%nat).
    + rewrite lookup_set_run_in in Hi by lia. congruence.
    + rewrite lookup_set_run_out in Hi by lia. destruct (bw_cover0 i v Hri Hi Hv) as (y & m & Hy & ?).
      exists y, m. split; [|done]. apply lookup_delete_Some. split; [|done]. intros <-.
      rewrite HA in Hy. injection Hy as ->. lia.
Qed.

(** [k_heapBMAlloc] and [k_heapBMFree] of heap.c: on a well-formed block,
    an allocation takes the first run of free slots that is long enough,
    and freeing the pointer it returned gives back exactly the bitmap and the
    slot count from before it. *)
Theorem alloc_free_roundtrip (b : KHEAPBLOCKBM) (r : nat) (A : gmap nat nat) (size p : Z) (heap : KHEAPBM) :
  block_wf b r A -> 0 < size < 9223372036854775808 ->
  k_heapBMAlloc [b] size = (p, heap) -> p <> 0 ->
  exists x b', p = slot_addr b x /\
    free_run (kb_bm b) x (Z.to_nat (ceil_div size (kb_bsize b))) /\
    (forall y, (y < x)%nat -> ~ free_run (kb_bm b) y (Z.to_nat (ceil_div size (kb_bsize b)))) /\
    k_heapBMFree heap p = Some [b'] /\ kb_bm b' = kb_bm b /\ kb_used b' = kb_used b.
Proof.
  intros Hwf Hsz Hal Hp. cbn [k_heapBMAlloc] in Hal.
  pose proof (block_alloc_spec b r A Hwf size (proj1 Hsz)) as Hspec. cbv zeta in Hspec.
  destruct (block_alloc b size) as [[p' b1]|]; [|congruence].
  injection Hal as <- <-. set (n := Z.to_nat (ceil_div size (kb_bsize b))) in *.
  destruct Hspec as (x & -> & HA & Hrx & Hl & Hfr & Hmin & Ha & Hs & Hbs & Hu & [nid Hbm] & Hwf').
  destruct (block_free_spec b1 r _ x n Hwf') as (Hc & b' & Hf & Hbm' & Hu' & _); [apply lookup_insert_eq|].
  assert (Hsl : slot_addr b1 x = slot_addr b x) by (unfold slot_addr; congruence). rewrite Hsl in *.
  exists x, b'. split; [done|]. split; [done|]. split; [done|].
  cbn [k_heapBMFree]. rewrite Hc, Hf. split; [done|]. split; [|lia].
  rewrite Hbm', Hbm. apply list_eq. intros i. destruct (decide (x <= i < x + n)%nat).
  - rewrite lookup_set_run_in by (rewrite ?length_set_run; lia). symmetry. apply Hfr. lia.
  - rewrite !lookup_set_run_out by lia. done.
Qed.

(** ** A fresh block *)

Lemma ceil_div_le n d : 0 < d -> 0 <= n -> ceil_div n d <= n.
Proof. intros. unfold ceil_div. bcase; Z.to_euclidean_division_equations; nia. Qed.

Lemma add_block_wf addr size bsize :
  0 < bsize -> 0 < addr -> KHEAPBLOCKBM_size <= size -> addr + size < 18446744073709551616 ->
  exists b, k_heapBMAddBlock [] addr size bsize = [b] /\ kb_addr b = addr /\ kb_bsize b = bsize /\
    kb_size b = size - KHEAPBLOCKBM_size /\
    block_wf b (Z.to_nat (ceil_div ((size - KHEAPBLOCKBM_size) / bsize) bsize)) ∅.
Proof.
  intros Hb Ha Hs Has. unfold k_heapBMAddBlock. unfold KHEAPBLOCKBM_size in *.
  rewrite u64_id by word. set (bcnt := (size - 40) / bsize).
  assert (0 <= bcnt) by (apply Z.div_pos; lia).
  pose proof (ceil_div_le bcnt bsize Hb ltac:(lia)).
  destruct (ceil_div_spec bcnt bsize) as [_ ?]; [done|lia|].
  set (c := ceil_div bcnt bsize) in *. eexists; split; [done|]. do 3 (split; [done|]).
  assert (Hfr : free_run (replicate (Z.to_nat bcnt) 0) 0 (Z.to_nat c)).
  { intros i Hi. apply lookup_replicate_2. lia. }
  constructor; cbn [kb_addr kb_size kb_used kb_bsize kb_bm]; rewrite ?length_set_run, ?length_replicate;
    unfold KHEAPBLOCKBM_size; try done; try lia.
  - apply (bytes_splice _ 0); apply Forall_replicate; word.
  - rewrite nonzero_set_run; [|rewrite length_replicate; lia|done|done].
    rewrite nonzero_replicate. cbn. lia.
  - intros i Hi. exists 5. split; [|done]. apply lookup_set_run_in; rewrite ?length_replicate; lia.
  - intros i v Hi Hv Hv0. rewrite lookup_set_run_out in Hv by lia.
    apply lookup_replicate_1 in Hv as [-> _]. done.
Qed.

Lemma alloc_free_roundtrip_witness :
  exists b, k_heapBMAddBlock [] 4096 680 64 = [b] /\
    exists b', k_heapBMFree (snd (k_heapBMAlloc [b] 100)) 4200 = Some [b'] /\
    kb_bm b' = kb_bm b /\ fst (k_heapBMAlloc [b] 100) = 4200.
Proof.
  destruct (add_block_wf 4096 680 64) as (b & E & _ & _ & _ & Hwf);
    [lia|lia|unfold KHEAPBLOCKBM_size; lia|lia|].
  exists b. split; [done|].
  assert (Hal : k_heapBMAlloc [b] 100 = (4200, snd (k_heapBMAlloc [b] 100))).
  { vm_compute in E. injection E as <-. vm_compute. reflexivity. }
  destruct (alloc_free_roundtrip b _ ∅ 100 4200 _ Hwf ltac:(lia) Hal ltac:(lia))
    as (x & b' & _ & _ & _ & Hf & Hbm & _).
  exists b'. rewrite Hal. done.
Defined.

(** ** [kmalloc] and [kfree] *)

Section KmallocProofs.
Context (area : Z).
Hypothesis Harea : 0 < area /\ area + KHEAP_SIZE < 1073741824.

(** The block [kheap_ensure_init] creates, and its live allocations: [L] maps a
    pointer to its requested size, [X] to the first slot of its raw block. *)
Definition kheap_reserved : nat := Z.to_nat (ceil_div ((KHEAP_SIZE - KHEAPBLOCKBM_size) / KHEAP_BSIZE) KHEAP_BSIZE).

Record kheap_block (st : kheap_state) (b : KHEAPBLOCKBM) (A : gmap nat nat) (X : gmap Z nat) (L : gmap Z Z) : Prop := {
  kb_heap : kh_heap st = [b];
  kb_rdy : kh_ready st = true;
  kb_geom : kb_addr b = area /\ kb_bsize b = KHEAP_BSIZE /\ kb_size b = KHEAP_SIZE - KHEAPBLOCKBM_size;
  kb_wf : block_wf b kheap_reserved A;
  kb_live : forall p n, L !! p = Some n -> exists x k, X !! p = Some x /\ A !! x = Some k /\
    slot_addr b x + 8 <= p /\ p + Z.max 1 n <= slot_addr b x + Z.of_nat k * KHEAP_BSIZE /\
    kh_hdr st !! (p - 8) = Some (slot_addr b x);
  kb_inj : forall p q x, is_Some (L !! p) -> is_Some (L !! q) -> X !! p = Some x -> X !! q = Some x -> p = q;
  kb_only : forall x k, A !! x = Some k -> exists p, is_Some (L !! p) /\ X !! p = Some x;
}.

Definition kheap_live (st : kheap_state) (L : gmap Z Z) : Prop :=
  (forall p n, L !! p = Some n -> 0 <= n) /\
  ((kh_ready st = false /\ L = ∅) \/ exists b A X, kheap_block st b A X L).

Lemma kheap_init_block st L :
  kheap_live st L -> exists b A X, kheap_block (kheap_ensure_init area st) b A X L.
Proof.
  intros [_ [[Hr ->]|(b & A & X & Hb)]].
  - unfold kheap_ensure_init. rewrite Hr.
    destruct (add_block_wf area KHEAP_SIZE KHEAP_BSIZE) as (b & E & ? & ? & ? & Hwf);
      [unfold KHEAP_BSIZE; lia|lia|unfold KHEAPBLOCKBM_size, KHEAP_SIZE; lia|lia|].
    exists b, ∅, ∅. by split; cbn [kh_heap kh_ready]; try done.
  - exists b, A, X. unfold kheap_ensure_init. by rewrite (kb_rdy _ _ _ _ _ Hb).
Qed.

(** Where the slots of one allocation lie. *)
Lemma kheap_slot_range b A x k :
  block_wf b kheap_reserved A -> kb_addr b = area -> kb_bsize b = KHEAP_BSIZE ->
  kb_size b = KHEAP_SIZE - KHEAPBLOCKBM_size -> A !! x = Some k ->
  area + KHEAPBLOCKBM_size <= slot_addr b x /\
  slot_addr b x + Z.of_nat k * KHEAP_BSIZE <= area + KHEAP_SIZE.
Proof.
  intros Hwf Ha Hb Hs HA. destruct (bw_alloc _ _ _ Hwf x k HA) as (_ & _ & Hl & _).
  pose proof (slots_fit b _ A Hwf (x + k) Hl) as Hfit.
  unfold slot_addr, KHEAPBLOCKBM_size, KHEAP_BSIZE in *. rewrite Hb, Ha, Hs in *. lia.
Qed.

Lemma kheap_slots_disjoint b A x k y m :
  block_wf b kheap_reserved A -> kb_bsize b = KHEAP_BSIZE -> A !! x = Some k -> A !! y = Some m -> x <> y ->
  slot_addr b x + Z.of_nat k * KHEAP_BSIZE <= slot_addr b y \/
  slot_addr b y + Z.of_nat m * KHEAP_BSIZE <= slot_addr b x.
Proof.
  intros Hwf Hb Hx Hy Hxy. unfold slot_addr, KHEAP_BSIZE in *. rewrite Hb.
  destruct (bw_disj _ _ _ Hwf x k y m Hx Hy Hxy); [left|right]; lia.
Qed.

(** Rounding up to a page. *)
Lemma page_round p :
  0 <= p -> p + 0xFFF < 18446744073709551616 ->
  let q := Z.land (u64 (p + 0xFFF)) (not64 0xFFF) in q mod 4096 = 0 /\ p <= q <= p + 0xFFF.
Proof.
  intros Hp Hp2 q. subst q. rewrite u64_id by word.
  replace (not64 0xFFF) with (2 ^ 64 - 2 ^ 12) by (unfold not64; lia).
  set (a := p + 0xFFF).
  replace (Z.land a (2 ^ 64 - 2 ^ 12)) with (a / 4096 * 4096); [unfold a; split; zlia|].
  replace (2 ^ 64 - 2 ^ 12) with (Z.shiftl (Z.ones 52) 12) by reflexivity.
  rewrite <- Z.shiftr_div_pow2 with (n := 12) by lia. 
  rewrite <- Z.shiftl_mul_pow2 with (n := 12) by lia.
  apply Z.bits_inj'; intros i Hi. rewrite Z.land_spec, !Z.shiftl_spec by done.
  destruct (Z_lt_le_dec i 12); [rewrite !(Z.testbit_neg_r _ (i - 12)) by lia; by rewrite andb_false_r|].
  rewrite Z.shiftr_spec by lia. replace (i - 12 + 12) with i by lia.
  destruct (Z_lt_le_dec i 64).
  - rewrite Z.ones_spec_low by lia. by rewrite andb_true_r.
  - rewrite (testbit_high a 64) by (unfold a; lia). done.
Qed.

(** A [kmalloc] result lies inside the slots of its own allocation, whatever the
    alignment, with room for the header word in front. *)
Lemma kmalloc_place raw k size (align : bool) :
  0 < raw -> 0 < size -> raw + Z.of_nat k * KHEAP_BSIZE < 1073741824 ->
  size + (8 + (if align then 0x1000 else 0)) <= Z.of_nat k * KHEAP_BSIZE ->
  let p0 := u64 (raw + 8) in
  let p := if align then Z.land (u64 (p0 + 0xFFF)) (not64 0xFFF) else p0 in
  raw + 8 <= p /\ p + size <= raw + Z.of_nat k * KHEAP_BSIZE /\ (align = true -> p mod 4096 = 0).
Proof.
  intros Hr Hs Hb Hfit p0 p. subst p p0. unfold KHEAP_BSIZE in *. rewrite (u64_id (raw + 8)) by word. destruct align.
  - destruct (page_round (raw + 8)) as [Hm Hp]; [lia|lia|].
    set (q := Z.land _ _) in *. split; [lia|]. split; [lia|]. done.
  - split; [lia|]. split; [lia|]. done.
Qed.

(** The bytes [kmalloc] takes besides those asked for, and the slots behind the
    bitmap. *)
Definition kmalloc_extra (align : bool) : Z := 8 + (if align then 0x1000 else 0).
Definition kheap_room : Z := 16515008.

(** With no allocation live all slots behind the bitmap are free. *)
Lemma kheap_empty_run b A n :
  block_wf b kheap_reserved A -> kb_bsize b = KHEAP_BSIZE -> kb_size b = KHEAP_SIZE - KHEAPBLOCKBM_size -> A = ∅ ->
  Z.of_nat n * KHEAP_BSIZE <= kheap_room ->
  (kheap_reserved + n <= length (kb_bm b))%nat /\ free_run (kb_bm b) kheap_reserved n.
Proof.
  intros Hwf Hb Hs -> Hn. assert (Hl : Z.of_nat (length (kb_bm b)) = 262143) by (rewrite (bw_len _ _ _ Hwf), Hb, Hs; by vm_compute).
  assert (Hr : Z.of_nat kheap_reserved = 4096) by (by vm_compute). unfold kheap_room, KHEAP_BSIZE in Hn. split; [lia|].
  intros i Hi. destruct (lookup_lt_is_Some_2 (kb_bm b) i) as [v E]; [lia|]. rewrite E. destruct (decide (v = 0)) as [->|Hv]; [done|].
  destruct (bw_cover _ _ _ Hwf i v ltac:(lia) E Hv) as (x & k & Hx & _). by rewrite lookup_empty in Hx.
Qed.

Lemma kmalloc_live_ok st L size (align : bool) p st' :
  kheap_live st L -> 0 <= size -> size + kmalloc_extra align < 18446744073709551616 -> kmalloc area size align st = (p, st') ->
  (p = 0 /\ kheap_live st' L /\ (L = ∅ -> kheap_room < size + kmalloc_extra align)) \/
  (L !! p = None /\ (align = true -> p mod 4096 = 0) /\ kheap_live st' (<[p := size]> L)).
Proof.
  unfold kmalloc_extra. intros Hlive Hsz Hsum Hk. destruct (kheap_init_block st L Hlive) as (b & A & X & [Hh Hr (Ha & Hbs & Hs) Hwf Hl Hinj Hon]).
  destruct Hlive as [Hpos _]. unfold kmalloc in Hk.
  set (st0 := kheap_ensure_init area st) in *. rewrite Hh in Hk. cbn [k_heapBMAlloc] in Hk.
  set (tot := size + (8 + (if align then 0x1000 else 0))) in *.
  assert (Htot : 0 < tot) by (unfold tot; destruct align; lia).
  rewrite u64_id in Hk by word.
  pose proof (block_alloc_spec b _ A Hwf tot Htot) as Hspec. cbv zeta in Hspec.
  destruct (block_alloc b tot) as [[raw b1]|].
  2:{ injection Hk as <- <-. left. split; [done|]. split.
      { split; [done|]. right. exists b, A, X. split; cbn [kh_heap kh_ready kh_hdr]; auto. }
      intros ->. apply Z.lt_nge. intros Hfit. rewrite Hbs in Hspec. set (k := Z.to_nat (ceil_div tot KHEAP_BSIZE)) in *.
      assert (Hk : Z.of_nat k * KHEAP_BSIZE <= kheap_room).
      { destruct (ceil_div_spec tot KHEAP_BSIZE) as [? ?]; [unfold KHEAP_BSIZE; lia|lia|]. unfold kheap_room, KHEAP_BSIZE in *. lia. }
      assert (HA : A = ∅).
      { apply map_eq. intros y. rewrite lookup_empty. destruct (A !! y) as [j|] eqn:E; [|done].
        destruct (Hon y j E) as (q & [n Hq] & _). by rewrite lookup_empty in Hq. }
      destruct (kheap_empty_run b A k Hwf Hbs Hs HA Hk). by apply (Hspec kheap_reserved). }
  rewrite Hbs in Hspec. set (k := Z.to_nat (ceil_div tot KHEAP_BSIZE)) in *.
  destruct Hspec as (x & -> & HAx & _ & _ & _ & _ & Ha1 & Hs1 & Hb1 & _ & _ & Hwf1).
  rewrite Ha in Ha1. rewrite Hs in Hs1.
  assert (Hsl : forall y, slot_addr b1 y = slot_addr b y) by (intros; unfold slot_addr; congruence).
  destruct (kheap_slot_range b1 _ x k Hwf1 Ha1 Hb1 Hs1) as [Hlo Hhi]; [apply lookup_insert_eq|].
  rewrite Hsl in *. unfold KHEAPBLOCKBM_size in Hlo.
  destruct (Z.eqb_spec (slot_addr b x) 0); [lia|].
  assert (Hfit : tot <= Z.of_nat k * KHEAP_BSIZE).
  { destruct (ceil_div_spec tot KHEAP_BSIZE) as [? ?]; [unfold KHEAP_BSIZE; lia|lia|].
    unfold k. rewrite Z2Nat.id by done. lia. }
  destruct (kmalloc_place (slot_addr b x) k (Z.max 1 size) align) as (Hp1 & Hp2 & Hp3);
    [lia|lia|lia|unfold tot, KHEAP_BSIZE in *; destruct align; lia|].
  cbv zeta in *. set (q := if align then Z.land _ _ else _) in *. injection Hk as <- <-.
  (* every other live allocation is in other slots *)
  assert (Hsep : forall q' n, L !! q' = Some n -> exists y m, X !! q' = Some y /\ A !! y = Some m /\ x <> y /\
    (slot_addr b x + Z.of_nat k * KHEAP_BSIZE <= slot_addr b y \/ slot_addr b y + Z.of_nat m * KHEAP_BSIZE <= slot_addr b x)).
  { intros q' nq Hq'. destruct (Hl q' nq Hq') as (y & m & HX & HA & _). exists y, m.
    assert (x <> y) by (intros ->; congruence). do 3 (split; [done|]).
    destruct (kheap_slots_disjoint b1 _ x k y m Hwf1 Hb1) as [Hd|Hd];
      rewrite ?Hsl in *; [apply lookup_insert_eq|by rewrite lookup_insert_ne|done|by left|by right]. }
  assert (HqL : forall q' n, L !! q' = Some n -> q' <> q).
  { intros q' nq Hq' ->. destruct (Hsep q nq Hq') as (y & m & HX & HA & _ & Hd).
    destruct (Hl q nq Hq') as (y' & m' & HX' & HA' & ? & ? & _). rewrite HX in HX'. injection HX' as <-.
    rewrite HA in HA'. injection HA' as <-. specialize (Hpos _ _ Hq'). lia. }
  right. split; [|split; [done|]].
  { destruct (L !! q) as [nq|] eqn:E; [|done]. by destruct (HqL q nq E). }
  split. { intros q' nq Hq'. apply lookup_insert_Some in Hq' as [[<- <-]|[_ Hq']]; [lia|eauto]. }
  right. exists b1, (<[x := k]> A), (<[q := x]> X). split; cbn [kh_heap kh_ready kh_hdr]; try done.
  - intros q' nq Hq'. apply lookup_insert_Some in Hq' as [[<- <-]|[Hne Hq']].
    + exists x, k. rewrite !lookup_insert_eq, Hsl. done.
    + destruct (Hl q' nq Hq') as (y & m & HX & HA & ? & ? & ?). exists y, m.
      rewrite Hsl. rewrite lookup_insert_ne by done.
      destruct (Hsep q' nq Hq') as (y' & m' & HX' & HA' & Hxy & Hd). rewrite HX in HX'. injection HX' as <-.
      rewrite HA in HA'. injection HA' as <-.
      rewrite lookup_insert_ne by done. do 4 (split; [done|]).
      specialize (Hpos _ _ Hq'). rewrite lookup_insert_ne by lia. done.
  - intros p' q' y Hp' Hq' HXp HXq. destruct Hp' as [np Hp'], Hq' as [nq Hq'].
    apply lookup_insert_Some in Hp' as [[<- <-]|[Hnp Hp']]; apply lookup_insert_Some in Hq' as [[<- <-]|[Hnq Hq']]; try done.
    + rewrite lookup_insert_eq in HXp. injection HXp as <-. rewrite lookup_insert_ne in HXq by done.
      destruct (Hsep q' nq Hq') as (y' & ? & HX' & _ & Hxy & _). congruence.
    + rewrite lookup_insert_eq in HXq. injection HXq as <-. rewrite lookup_insert_ne in HXp by done.
      destruct (Hsep p' np Hp') as (y' & ? & HX' & _ & Hxy & _). congruence.
    + rewrite lookup_insert_ne in HXp, HXq by done. eapply Hinj; eauto.
  - intros y j Hy. apply lookup_insert_Some in Hy as [[<- <-]|[Hne Hy]].
    + exists q. rewrite !lookup_insert_eq. by split; [eexists|].
    + destruct (Hon y j Hy) as (q' & [n' Hq'] & HX). exists q'. rewrite !lookup_insert_ne by (apply not_eq_sym; eauto). by split; [eexists|].
Qed.

Lemma kfree_live_ok st L p n :
  kheap_live st L -> L !! p = Some n -> exists st', kfree p st = Some st' /\ kheap_live st' (delete p L).
Proof.
  intros [Hpos [[_ ->]|(b & A & X & [Hh Hr (Ha & Hbs & Hs) Hwf Hl Hinj Hon])]] HL; [done|].
  destruct (Hl p n HL) as (x & k & HX & HA & Hp1 & Hp2 & Hhdr).
  destruct (kheap_slot_range b A x k Hwf Ha Hbs Hs HA) as [Hlo Hhi].
  destruct (block_free_spec b _ A x k Hwf HA) as (Hc & b' & Hf & _ & _ & Ha' & Hs' & Hb' & Hwf').
  unfold KHEAPBLOCKBM_size in Hlo. unfold kfree. rewrite Hr. cbn [negb orb].
  destruct (Z.eqb_spec p 0); [lia|]. cbn [orb]. rewrite Hhdr. cbn [mbind option_bind].
  rewrite Hh. cbn [k_heapBMFree]. rewrite Hc, Hf. cbn [mbind option_bind].
  eexists; split; [done|].
  split. { intros q m Hq. apply lookup_delete_Some in Hq as [_ Hq]. eauto. }
  right. exists b', (delete x A), (delete p X). split; cbn [kh_heap kh_ready kh_hdr]; try done.
  - rewrite Ha', Hb', Hs'. done.
  - intros q m Hq. apply lookup_delete_Some in Hq as [Hpq Hq].
    destruct (Hl q m Hq) as (y & j & HXq & HAq & ? & ? & ?). exists y, j.
    rewrite lookup_delete_ne by done.
    assert (x <> y). { intros ->. apply Hpq. eapply Hinj; eauto. }
    rewrite lookup_delete_ne by done. unfold slot_addr in *. rewrite Ha', Hb'. done.
  - intros q q' y [? Hq] [? Hq'] HX1 HX2. apply lookup_delete_Some in Hq as [? Hq]. apply lookup_delete_Some in Hq' as [? Hq'].
    rewrite lookup_delete_ne in HX1, HX2 by done. eapply Hinj; eauto.
  - intros y j Hy. apply lookup_delete_Some in Hy as [Hxy Hy]. destruct (Hon y j Hy) as (q & Hq & HXq).
    assert (p <> q) by (intros ->; congruence). exists q. by rewrite !lookup_delete_ne.
Qed.

Lemma kheap_live_in st L p n : kheap_live st L -> L !! p = Some n -> area <= p /\ p + n <= area + KHEAP_SIZE.
Proof.
  intros [Hpos [[_ ->]|(b & A & X & [Hh Hr (Ha & Hbs & Hs) Hwf Hl Hinj Hon])]] HL; [done|].
  destruct (Hl p n HL) as (x & k & HX & HA & Hp1 & Hp2 & _).
  destruct (kheap_slot_range b A x k Hwf Ha Hbs Hs HA) as [Hlo Hhi]. unfold KHEAPBLOCKBM_size in *. lia.
Qed.

Lemma kheap_live_disjoint st L p n q m :
  kheap_live st L -> L !! p = Some n -> L !! q = Some m -> p <> q -> disjoint_range p n q m.
Proof.
  intros [Hpos [[_ ->]|(b & A & X & [Hh Hr (Ha & Hbs & Hs) Hwf Hl Hinj Hon])]] HL HL' Hpq; [done|].
  destruct (Hl p n HL) as (x & k & HX & HA & Hp1 & Hp2 & _).
  destruct (Hl q m HL') as (y & j & HY & HB & Hq1 & Hq2 & _).
  assert (x <> y). { intros ->. apply Hpq. eapply Hinj; eauto. }
  unfold disjoint_range. destruct (kheap_slots_disjoint b A x k y j) as [H1|H1]; try done; [left|right]; lia.
Qed.
End KmallocProofs.

Lemma kheap_live_boot area : kheap_live area (Kheap [] false ∅) ∅.
Proof. split; [intros ? ? H; by rewrite lookup_empty in H|by left]. Qed.

(** The heaps that calls of [kmalloc] and [kfree] make from boot, with the live
    allocations: what [kmalloc] returned and nobody has freed, with the size
    asked for. *)
Inductive kheap_reachable (area : Z) : kheap_state -> gmap Z Z -> Prop :=
| kheap_boot : kheap_reachable area (Kheap [] false ∅) ∅
| kheap_alloc st L size (align : bool) p st' :
    kheap_reachable area st L -> 0 <= size -> size + kmalloc_extra align < 18446744073709551616 ->
    kmalloc area size align st = (p, st') -> kheap_reachable area st' (if p =? 0 then L else <[p := size]> L)
| kheap_free st L p st' :
    kheap_reachable area st L -> is_Some (L !! p) -> kfree p st = Some st' -> kheap_reachable area st' (delete p L)
| kheap_free_null st L st' : kheap_reachable area st L -> kfree 0 st = Some st' -> kheap_reachable area st' L.

Lemma kheap_reachable_live area st L :
  0 < area /\ area + KHEAP_SIZE < 1073741824 -> kheap_reachable area st L -> kheap_live area st L.
Proof.
  intros Ha Hr. induction Hr as [|st L size align p st' _ IH Hs Hsum Hk|st L p st' _ IH [n Hp] Hf|st L st' _ IH Hf].
  - apply kheap_live_boot.
  - destruct (kmalloc_live_ok area Ha st L size align p st' IH Hs Hsum Hk) as [(-> & Hl & _)|(HL & _ & Hl)]; [done|].
    pose proof (kheap_live_in area st' _ p size Hl (lookup_insert_eq _ _ _)). by rewrite (proj2 (Z.eqb_neq p 0)) by lia.
  - destruct (kfree_live_ok area Ha st L p n IH Hp) as (st'' & E & Hl). rewrite E in Hf. by injection Hf as <-.
  - unfold kfree in Hf. by injection Hf as <-.
Qed.

(** C13 (mem.c, [kmalloc], [kfree]; heap.c): on every heap that calls of [kmalloc]
    and [kfree] have made from boot, in any order, in an arena below 1 GiB
    (the kernel's is): every live allocation lies
    inside the arena, shares no byte with another one, and can be freed, which
    gives such a heap without it; and a request of any size for which
    [size + extra] does not wrap around 2^64 (a finding says what a request that
    wraps gets) gives such a heap again. It either fails, and then changes no
    live allocation and never happens when none is live and the request fits
    behind the bitmap, so that nothing is ever lost; or it returns a new
    address, aligned to a page when asked, inside the arena with its whole size,
    and shares no byte with any live allocation. *)
Theorem kmalloc_correct (area : Z) (st : kheap_state) (L : gmap Z Z) :
  0 < area -> area + KHEAP_SIZE < 1073741824 -> kheap_reachable area st L ->
  (forall p n, L !! p = Some n -> area <= p /\ p + n <= area + KHEAP_SIZE /\
     (forall q m, L !! q = Some m -> q <> p -> disjoint_range p n q m) /\
     exists st', kfree p st = Some st' /\ kheap_reachable area st' (delete p L)) /\
  (forall size (align : bool), 0 <= size -> size + kmalloc_extra align < 18446744073709551616 ->
     exists p st', kmalloc area size align st = (p, st') /\
       ((p = 0 /\ kheap_reachable area st' L /\ (L = ∅ -> kheap_room < size + kmalloc_extra align)) \/
        (p <> 0 /\ L !! p = None /\ kheap_reachable area st' (<[p := size]> L) /\
         (align = true -> p mod 4096 = 0) /\ area <= p /\ p + size <= area + KHEAP_SIZE /\
         forall q n, L !! q = Some n -> disjoint_range p size q n))).
Proof.
  intros Ha1 Ha2 Hr. assert (Ha : 0 < area /\ area + KHEAP_SIZE < 1073741824) by done.
  pose proof (kheap_reachable_live area st L Ha Hr) as Hl. split.
  - intros p n Hp. destruct (kheap_live_in area st L p n Hl Hp). split; [done|]. split; [done|]. split.
    + intros q m Hq Hne. eapply kheap_live_disjoint; eauto.
    + destruct (kfree_live_ok area Ha st L p n Hl Hp) as (st' & E & _). exists st'. split; [done|]. by eapply kheap_free; [|eexists|].
  - intros size align Hs Hsum. destruct (kmalloc area size align st) as [p st'] eqn:Hk. exists p, st'. split; [done|].
    pose proof (kheap_alloc area st L size align p st' Hr Hs Hsum Hk) as Hr'.
    destruct (kmalloc_live_ok area Ha st L size align p st' Hl Hs Hsum Hk) as [(-> & _ & Hroom)|(HL & Hal & Hl')]; [by left|right].
    destruct (kheap_live_in area st' _ p size Hl' (lookup_insert_eq _ _ _)). rewrite (proj2 (Z.eqb_neq p 0)) in Hr' by lia.
    split_and!; try done; [lia|]. intros q n Hq. assert (p <> q) by (intros ->; congruence).
    eapply (kheap_live_disjoint area st' _); [done|apply lookup_insert_eq|by rewrite lookup_insert_ne|done].
Qed.

(** Two allocations, the first of which is freed. *)
Lemma kmalloc_correct_witness :
  exists p q st1 st2 st3, kmalloc 0x100000 100 true (Kheap [] false ∅) = (p, st1) /\ p <> 0 /\ p mod 4096 = 0 /\
    kmalloc 0x100000 0 false st1 = (q, st2) /\ (q = 0 \/ disjoint_range q 0 p 100) /\
    kfree p st1 = Some st3 /\ kheap_reachable 0x100000 st3 ∅.
Proof.
  destruct (kmalloc_correct 0x100000 (Kheap [] false ∅) ∅ ltac:(done) ltac:(done) (kheap_boot _)) as [_ H].
  destruct (H 100 true ltac:(lia) ltac:(unfold kmalloc_extra; lia)) as (p & st1 & E1 & [(_ & _ & Hf)|(Hp & _ & Hr & Hal & _)]).
  { exfalso. specialize (Hf eq_refl). unfold kheap_room, kmalloc_extra in Hf. lia. }
  destruct (kmalloc_correct 0x100000 st1 _ ltac:(done) ltac:(done) Hr) as [Hfree Hnext].
  destruct (Hfree p 100 (lookup_insert_eq _ _ _)) as (_ & _ & _ & st3 & E3 & Hr3). rewrite delete_insert_id in Hr3 by apply lookup_empty.
  destruct (Hnext 0 false ltac:(lia) ltac:(unfold kmalloc_extra; lia)) as (q & st2 & E2 & Hq).
  exists p, q, st1, st2, st3. split; [exact E1|]. split; [exact Hp|]. split; [by apply Hal|]. split; [exact E2|].
  split; [|by split]. destruct Hq as [(-> & _)|(_ & _ & _ & _ & _ & _ & Hd)]; [by left|right]. apply Hd, lookup_insert_eq.
Defined.

(** A request of 2^64 - 8 bytes wraps to one of none: it gets the address of the
    first free slot, which stays free, so that the next request gets the same
    address. *)
Example kmalloc_wrap_ex :
  let r := kmalloc 0x100000 (2 ^ 64 - 8) false (Kheap [] false ∅) in
  (r.1, (kmalloc 0x100000 100 false r.2).1) = (0x100000 + 40 + 4096 * 64 + 8, 0x100000 + 40 + 4096 * 64 + 8).
Proof. by vm_compute. Qed.

(** The heap implements the allocator interface of its clients. *)
Section Instance_.
Context (area : Z) (Harea : 0 < area /\ area + KHEAP_SIZE < 1073741824).

Program Definition heap_kalloc : Kalloc kheap_state := {|
  kalloc size align h := kmalloc area size align h;
  kalloc_free := kfree;
  kalloc_live := kheap_live area;
  kalloc_lo := area;
  kalloc_hi := area + KHEAP_SIZE |}.
Next Obligation. unfold KHEAP_SIZE in *. lia. Qed.
Next Obligation. intros h L p n. by apply kheap_live_in. Qed.
Next Obligation. intros h L p n q m. by eapply kheap_live_disjoint. Qed.
Next Obligation.
  intros h L size align p h' Hl Hs Hk.
  destruct (kmalloc_live_ok area Harea h L size align p h') as [(? & ? & _)|?]; [done|lia|unfold kmalloc_extra; destruct align; lia|done|by left|by right].
Qed.
Next Obligation. intros h L p n. by apply kfree_live_ok. Qed.
End Instance_.
