(* ===== verification/Sched.v ===== *)
(** * The task scheduler

    Models cpu/sched.c: the task pool, the circular run queues, the building
    of a new task's interrupt frame, submission, and the context-switch hook
    [sched_irq_end] that the interrupt stubs of cpu/interrupt.asm call with the
    saved stack pointer. Pointers to tasks are values of [tid]; a task's
    descriptors [fd_table] are a parameter (fs/vfs.h defines them); the kernel
    allocator is the interface of Kalloc.v. [None] is a dereference of NULL. *)

From S2P Require Import Prelude Kalloc.

(** ** cpu/sched.h *)

Definition MAX_TASKS : Z := 32.
Definition TASK_STACK_SZ : Z := 8192.
Definition MAX_USER_TASKS : Z := 8.
Definition USER_STACK_SZ : Z := 65536.
Definition PRIO_NORMAL : Z := 2.
Definition PRIO_IDLE_LVL : Z := 3.
Definition PRIO_LEVELS : Z := 4.
Definition prio_quantum (p : Z) : Z := default 0 ([5; 10; 20; 50] !! Z.to_nat p).

Definition GDT_KERNEL_CS : Z := 0x08.
Definition GDT_KERNEL_DS : Z := 0x10.
Definition GDT_USER_CS : Z := 0x20.
Definition GDT_USER_DS : Z := 0x28.
Definition MASTER_CR3_PHYS : Z := 0x1000.

Inductive task_state_t := TASK_FREE | TASK_READY | TASK_RUNNING | TASK_BLOCKED | TASK_DONE.
Global Instance task_state_eq_dec : EqDecision task_state_t.
Proof. solve_decision. Defined.

(** A [task_t *] other than NULL: the static [idle_task] or an element of [task_pool]. *)
Inductive tid := Idle | Slot (i : nat).
Global Instance tid_eq_dec : EqDecision tid.
Proof. solve_decision. Defined.

Record task_t (FD : Type) := Task {
  t_rsp : Z;
  t_id : Z;
  t_name : list Z;            (* the bytes before the terminator *)
  t_state : task_state_t;
  t_priority : Z;
  t_cpu_id : Z;
  t_stack : Z;
  t_timeslice : Z;
  t_quantum : Z;
  t_func : Z;
  t_arg : Z;
  t_is_user : Z;
  t_user_stack : Z;
  t_cr3 : Z;
  t_fd_table : list FD;
  t_as : Z;
  t_heap_start : Z;
  t_heap_brk : Z;
  t_heap_end : Z;
}.
Arguments Task {FD}.
Arguments t_rsp {FD}. Arguments t_id {FD}. Arguments t_name {FD}. Arguments t_state {FD}.
Arguments t_priority {FD}. Arguments t_cpu_id {FD}. Arguments t_stack {FD}.
Arguments t_timeslice {FD}. Arguments t_quantum {FD}. Arguments t_func {FD}. Arguments t_arg {FD}.
Arguments t_is_user {FD}. Arguments t_user_stack {FD}. Arguments t_cr3 {FD}.
Arguments t_fd_table {FD}. Arguments t_as {FD}. Arguments t_heap_start {FD}.
Arguments t_heap_brk {FD}. Arguments t_heap_end {FD}.

(** The assignments [t->state = v], [t->timeslice = v], [t->rsp = v] and the
    one of SYS_SBRK to [t->heap_brk]. *)
Definition set_state {FD} (v : task_state_t) (t : task_t FD) : task_t FD :=
  Task (t_rsp t) (t_id t) (t_name t) v (t_priority t) (t_cpu_id t) (t_stack t) (t_timeslice t)
    (t_quantum t) (t_func t) (t_arg t) (t_is_user t) (t_user_stack t) (t_cr3 t) (t_fd_table t)
    (t_as t) (t_heap_start t) (t_heap_brk t) (t_heap_end t).
Definition set_timeslice {FD} (v : Z) (t : task_t FD) : task_t FD :=
  Task (t_rsp t) (t_id t) (t_name t) (t_state t) (t_priority t) (t_cpu_id t) (t_stack t) v
    (t_quantum t) (t_func t) (t_arg t) (t_is_user t) (t_user_stack t) (t_cr3 t) (t_fd_table t)
    (t_as t) (t_heap_start t) (t_heap_brk t) (t_heap_end t).
Definition set_rsp {FD} (v : Z) (t : task_t FD) : task_t FD :=
  Task v (t_id t) (t_name t) (t_state t) (t_priority t) (t_cpu_id t) (t_stack t) (t_timeslice t)
    (t_quantum t) (t_func t) (t_arg t) (t_is_user t) (t_user_stack t) (t_cr3 t) (t_fd_table t)
    (t_as t) (t_heap_start t) (t_heap_brk t) (t_heap_end t).
Definition set_heap_brk {FD} (v : Z) (t : task_t FD) : task_t FD :=
  Task (t_rsp t) (t_id t) (t_name t) (t_state t) (t_priority t) (t_cpu_id t) (t_stack t) (t_timeslice t)
    (t_quantum t) (t_func t) (t_arg t) (t_is_user t) (t_user_stack t) (t_cr3 t) (t_fd_table t)
    (t_as t) (t_heap_start t) v (t_heap_end t).

(** ** Run queues: circular FIFO *)

Record rq_t := Rq {
  rq_buf : list (option tid);    (* NULL before the first push to a cell *)
  rq_head : Z;
  rq_tail : Z;
  rq_size : Z;
}.
Definition rq_empty : rq_t := Rq (replicate 32 None) 0 0 0.

Definition rq_push (q : rq_t) (t : tid) : rq_t :=
  if rq_size q >=? MAX_TASKS then q
  else Rq (<[Z.to_nat (rq_tail q) := Some t]> (rq_buf q)) (rq_head q)
          ((rq_tail q + 1) mod MAX_TASKS) (rq_size q + 1).

Definition rq_pop (q : rq_t) : option tid * rq_t :=
  if rq_size q =? 0 then (None, q)
  else (default None (rq_buf q !! Z.to_nat (rq_head q)),
        Rq (rq_buf q) ((rq_head q + 1) mod MAX_TASKS) (rq_tail q) (rq_size q - 1)).

(** ** The initial interrupt frame *)

(** Memory as 64-bit words by address; [*--sp = v]. *)
Definition push (v : Z) (r : Z * gmap Z Z) : Z * gmap Z Z :=
  let sp := u64 (r.1 - 8) in (sp, <[sp := u64 v]> r.2).

Definition frame_build (kstack_top rip cs ss target_rsp rdi_val rsi_val : Z) (mem : gmap Z Z) : Z * gmap Z Z :=
  let r := push ss (kstack_top, mem) in
  let r := push target_rsp r in
  let r := push 0x202 r in      (* rflags: IF=1 *)
  let r := push cs r in
  let r := push rip r in
  let r := push 0 r in          (* err_code *)
  let r := push 0 r in          (* int_no *)
  let r := push 0 r in          (* rax *)
  let r := push 0 r in          (* rbx *)
  let r := push 0 r in          (* rcx *)
  let r := push 0 r in          (* rdx *)
  let r := push rsi_val r in
  let r := push rdi_val r in
  let r := push 0 r in          (* rbp *)
  let r := push 0 r in          (* r8 *)
  let r := push 0 r in          (* r9 *)
  let r := push 0 r in          (* r10 *)
  let r := push 0 r in          (* r11 *)
  let r := push 0 r in          (* r12 *)
  let r := push 0 r in          (* r13 *)
  let r := push 0 r in          (* r14 *)
  push 0 r.                     (* r15 *)

(** The words at [sp], [sp + 8], ... as [irq_common_stub] and [iretq] take
    them back: [registers_t] of cpu/isr.h. *)
Record registers_t := Regs {
  r_r15 : Z; r_r14 : Z; r_r13 : Z; r_r12 : Z; r_r11 : Z; r_r10 : Z; r_r9 : Z; r_r8 : Z;
  r_rbp : Z; r_rdi : Z; r_rsi : Z; r_rdx : Z; r_rcx : Z; r_rbx : Z; r_rax : Z;
  r_int_no : Z; r_err_code : Z;
  r_rip : Z; r_cs : Z; r_rflags : Z; r_rsp : Z; r_ss : Z;
}.

Definition frame_restore (sp : Z) (mem : gmap Z Z) : option registers_t :=
  r15 ← mem !! sp; r14 ← mem !! (sp + 8); r13 ← mem !! (sp + 16); r12 ← mem !! (sp + 24);
  r11 ← mem !! (sp + 32); r10 ← mem !! (sp + 40); r9 ← mem !! (sp + 48); r8 ← mem !! (sp + 56);
  rbp ← mem !! (sp + 64); rdi ← mem !! (sp + 72); rsi ← mem !! (sp + 80); rdx ← mem !! (sp + 88);
  rcx ← mem !! (sp + 96); rbx ← mem !! (sp + 104); rax ← mem !! (sp + 112);
  int_no ← mem !! (sp + 120); err_code ← mem !! (sp + 128);
  rip ← mem !! (sp + 136); cs ← mem !! (sp + 144); rflags ← mem !! (sp + 152);
  rsp ← mem !! (sp + 160); ss ← mem !! (sp + 168);
  Some (Regs r15 r14 r13 r12 r11 r10 r9 r8 rbp rdi rsi rdx rcx rbx rax int_no err_code
             rip cs rflags rsp ss).

(** ** The scheduler state and its operations *)

Record sched_t (FD H : Type) := Sched {
  s_pool : list (task_t FD);
  s_count : Z;                  (* [task_count] *)
  s_rq : list rq_t;
  s_idle : task_t FD;
  s_cur : option tid;           (* [cur_task], NULL before [sched_init] *)
  s_want : bool;                (* [want_schedule] *)
  s_active : bool;              (* [scheduler_active] *)
  s_cr3 : Z;                    (* [loaded_cr3] *)
  s_ustack_next : Z;            (* [user_stack_next] *)
  s_rsp0 : Z;                   (* [tss.rsp0] *)
  s_mem : gmap Z Z;
  s_heap : H;
}.
Arguments Sched {FD H}.
Arguments s_pool {FD H}. Arguments s_count {FD H}. Arguments s_rq {FD H}. Arguments s_idle {FD H}.
Arguments s_cur {FD H}. Arguments s_want {FD H}. Arguments s_active {FD H}. Arguments s_cr3 {FD H}.
Arguments s_ustack_next {FD H}. Arguments s_rsp0 {FD H}. Arguments s_mem {FD H}. Arguments s_heap {FD H}.

Section Sched.
Context {FD H : Type} `{!Kalloc H}.
(** The zeroed descriptor table, and the link-time addresses of the two
    trampolines and of the ring3 stack pool. *)
Context (fd_table0 : list FD) (task_trampoline user_task_trampoline user_stack_pool : Z).
Abbreviation task_t := (task_t FD).
Abbreviation sched_t := (sched_t FD H).
Implicit Types s : sched_t.

Definition with_pool s pool : sched_t :=
  Sched pool (s_count s) (s_rq s) (s_idle s) (s_cur s) (s_want s) (s_active s) (s_cr3 s)
    (s_ustack_next s) (s_rsp0 s) (s_mem s) (s_heap s).
Definition with_rq s rq : sched_t :=
  Sched (s_pool s) (s_count s) rq (s_idle s) (s_cur s) (s_want s) (s_active s) (s_cr3 s)
    (s_ustack_next s) (s_rsp0 s) (s_mem s) (s_heap s).
Definition with_idle s idle : sched_t :=
  Sched (s_pool s) (s_count s) (s_rq s) idle (s_cur s) (s_want s) (s_active s) (s_cr3 s)
    (s_ustack_next s) (s_rsp0 s) (s_mem s) (s_heap s).
Definition with_want s w : sched_t :=
  Sched (s_pool s) (s_count s) (s_rq s) (s_idle s) (s_cur s) w (s_active s) (s_cr3 s)
    (s_ustack_next s) (s_rsp0 s) (s_mem s) (s_heap s).

(** [*t] and the assignments through a [task_t *]. *)
Definition get_task s (t : tid) : option task_t :=
  match t with Idle => Some (s_idle s) | Slot i => s_pool s !! i end.
Definition upd_task (t : tid) (f : task_t -> task_t) s : sched_t :=
  match t with
  | Idle => with_idle s (f (s_idle s))
  | Slot i => with_pool s (alter f i (s_pool s))
  end.

Definition push_rq (p : Z) (t : tid) s : sched_t :=
  with_rq s (alter (fun q => rq_push q t) (Z.to_nat p) (s_rq s)).

(** The BSS image: everything zero. *)
Definition task0 : task_t :=
  Task 0 0 [] TASK_FREE 0 0 0 0 0 0 0 0 0 0 fd_table0 0 0 0 0.
Definition sched_bss (h : H) : sched_t :=
  Sched (replicate 32 task0) 0 (replicate 4 rq_empty) task0 None false false MASTER_CR3_PHYS 0 0 ∅ h.

Definition sched_init s : sched_t :=
  let free (t : task_t) :=
    Task (t_rsp t) (-1) (t_name t) TASK_FREE (t_priority t) (t_cpu_id t) (t_stack t) (t_timeslice t)
      (t_quantum t) (t_func t) (t_arg t) (t_is_user t) (t_user_stack t) (t_cr3 t) (t_fd_table t)
      (t_as t) (t_heap_start t) (t_heap_brk t) (t_heap_end t) in
  let i := s_idle s in
  Sched (map free (s_pool s)) (s_count s) (s_rq s)
    (Task (t_rsp i) (-1) [105; 100; 108; 101] TASK_RUNNING PRIO_IDLE_LVL 0 0 0 0 0 0 (t_is_user i)
       (t_user_stack i) (t_cr3 i) (t_fd_table i) (t_as i) (t_heap_start i) (t_heap_brk i) (t_heap_end i))
    (Some Idle) (s_want s) (s_active s) (s_cr3 s) (s_ustack_next s) (s_rsp0 s) (s_mem s) (s_heap s).

Definition sched_run s : sched_t :=
  Sched (s_pool s) (s_count s) (s_rq s) (s_idle s) (s_cur s) (s_want s) true (s_cr3 s)
    (s_ustack_next s) (s_rsp0 s) (s_mem s) (s_heap s).

(** The scan of [find_free_slot] from slot [i], over [n] slots. *)
Fixpoint free_scan (pool : list task_t) (i n : nat) : option nat :=
  match n with
  | O => None
  | S n =>
    match pool !! i with
    | Some t => if bool_decide (t_state t = TASK_FREE) || bool_decide (t_state t = TASK_DONE)
                then Some i else free_scan pool (S i) n
    | None => None
    end
  end.

(** The slot and the new [task_count]; [None] is the -1 of a full pool. *)
Definition find_free_slot s : option (nat * Z) :=
  match free_scan (s_pool s) 0 (Z.to_nat (s_count s)) with
  | Some i => Some (i, s_count s)
  | None => if s_count s >=? MAX_TASKS then None else Some (Z.to_nat (s_count s), s_count s + 1)
  end.

(** At most 23 bytes, up to the terminator. *)
Definition task_set_name (name : list Z) : list Z := take 23 (cstr name).

(** What the three submission functions share: the slot, the kernel stack, the
    descriptor [mk slot stack] with its frame, and the push on the queue. A
    failed [kmalloc] leaves [task_count] grown. [None] (-1): nothing submitted. *)
Definition submit_slot (mk : nat -> Z -> task_t) (frame : task_t -> gmap Z Z -> Z * gmap Z Z) s
    : option nat * sched_t :=
  match find_free_slot s with
  | None => (None, s)
  | Some (slot, count) =>
    let '(stack, heap) := kalloc TASK_STACK_SZ true (s_heap s) in
    let s1 := Sched (s_pool s) count (s_rq s) (s_idle s) (s_cur s) (s_want s) (s_active s) (s_cr3 s)
                (s_ustack_next s) (s_rsp0 s) (s_mem s) heap in
    if stack =? 0 then (None, s1)
    else
      let t := mk slot stack in
      let '(rsp, mem) := frame t (s_mem s1) in
      let s2 := Sched (<[slot := set_rsp rsp t]> (s_pool s1)) count (s_rq s1) (s_idle s1) (s_cur s1)
                  (s_want s1) (s_active s1) (s_cr3 s1) (s_ustack_next s1) (s_rsp0 s1) mem heap in
      (Some slot, push_rq (t_priority t) (Slot slot) s2)
  end.

Definition task_init_stack (t : task_t) (mem : gmap Z Z) : Z * gmap Z Z :=
  let stack_top := u64 (t_stack t + TASK_STACK_SZ) in
  frame_build stack_top task_trampoline GDT_KERNEL_CS GDT_KERNEL_DS stack_top 0 0 mem.

Definition task_init_stack_user_as (ustack_top : Z) (t : task_t) (mem : gmap Z Z) : Z * gmap Z Z :=
  let kstack_top := u64 (t_stack t + TASK_STACK_SZ) in
  frame_build kstack_top user_task_trampoline (Z.lor GDT_USER_CS 3) (Z.lor GDT_USER_DS 3) ustack_top
    (t_func t) (t_arg t) mem.

Definition task_init_stack_user (t : task_t) (mem : gmap Z Z) : Z * gmap Z Z :=
  task_init_stack_user_as (u64 (t_user_stack t + USER_STACK_SZ)) t mem.

Definition sched_submit_prio (name : list Z) (func arg priority : Z) s : option nat * sched_t :=
  if (func =? 0) || (priority >=? PRIO_LEVELS) then (None, s)
  else submit_slot (fun slot stack =>
    Task 0 (Z.of_nat slot) (task_set_name name) TASK_READY priority (-1) stack (prio_quantum priority)
      (prio_quantum priority) func arg 0 0 0 fd_table0 0 0 0 0) task_init_stack s.

Definition sched_submit (name : list Z) (func arg : Z) s : option nat * sched_t :=
  sched_submit_prio name func arg PRIO_NORMAL s.

Definition sched_submit_user (name : list Z) (entry arg : Z) s : option nat * sched_t :=
  if entry =? 0 then (None, s)
  else if s_ustack_next s >=? MAX_USER_TASKS then (None, s)
  else
    let '(r, s') := submit_slot (fun slot stack =>
      Task 0 (Z.of_nat slot) (task_set_name name) TASK_READY PRIO_NORMAL (-1) stack (prio_quantum PRIO_NORMAL)
        (prio_quantum PRIO_NORMAL) entry arg 1 (user_stack_pool + s_ustack_next s * USER_STACK_SZ)
        0 fd_table0 0 0 0 0) task_init_stack_user s in
    match r with
    | None => (None, s')
    | Some slot =>
      (Some slot, Sched (s_pool s') (s_count s') (s_rq s') (s_idle s') (s_cur s') (s_want s') (s_active s')
                    (s_cr3 s') (s_ustack_next s' + 1) (s_rsp0 s') (s_mem s') (s_heap s'))
    end.

Definition sched_submit_user_as (name : list Z) (entry arg cr3 user_stack_top : Z) s : option nat * sched_t :=
  if (entry =? 0) || (cr3 =? 0) then (None, s)
  else submit_slot (fun slot stack =>
    Task 0 (Z.of_nat slot) (task_set_name name) TASK_READY PRIO_NORMAL (-1) stack (prio_quantum PRIO_NORMAL)
      (prio_quantum PRIO_NORMAL) entry arg 1 0 cr3 fd_table0 0 0 0 0)
    (task_init_stack_user_as user_stack_top) s.

Definition sched_tick s : sched_t := if s_active s then with_want s true else s.

(** The scan of the priority levels from [p]: the first non-empty queue is popped. *)
Fixpoint pick_next (n : nat) (p : nat) (rq : list rq_t) : option tid * list rq_t :=
  match n with
  | O => (None, rq)
  | S n =>
    match rq !! p with
    | Some q =>
      if rq_size q >? 0 then
        let '(t, q') := rq_pop q in
        let rq' := <[p := q']> rq in
        match t with Some t => (Some t, rq') | None => pick_next n (S p) rq' end
      else pick_next n (S p) rq
    | None => (None, rq)
    end
  end.

(** The second half of [sched_irq_end]: choose the next task and switch to it. *)
Definition sched_switch (cur : tid) (cur_rsp : Z) s : option (Z * sched_t) :=
  let '(o, rq) := pick_next (Z.to_nat PRIO_LEVELS) 0 (s_rq s) in
  let s := with_rq s rq in
  let next := default Idle o in
  if decide (next = cur) then Some (cur_rsp, upd_task cur (set_state TASK_RUNNING) s)
  else
    nt ← get_task s next;
    let rsp0 := if t_is_user nt =? 0 then s_rsp0 s else u64 (t_stack nt + TASK_STACK_SZ) in
    let want_cr3 := if t_cr3 nt =? 0 then MASTER_CR3_PHYS else t_cr3 nt in
    let s := Sched (s_pool s) (s_count s) (s_rq s) (s_idle s) (Some next) (s_want s) (s_active s) want_cr3
               (s_ustack_next s) rsp0 (s_mem s) (s_heap s) in
    Some (t_rsp nt, upd_task next (set_state TASK_RUNNING) s).

Definition sched_irq_end (cur_rsp : Z) s : option (Z * sched_t) :=
  if negb (s_active s) || negb (s_want s) then Some (cur_rsp, s)
  else
    cur ← s_cur s;
    let s := upd_task cur (set_rsp cur_rsp) (with_want s false) in
    ct ← get_task s cur;
    if bool_decide (cur <> Idle) && bool_decide (t_state ct = TASK_RUNNING) then
      let s := upd_task cur (set_timeslice (u32 (t_timeslice ct - 1))) s in
      if u32 (t_timeslice ct - 1) >? 0 then Some (cur_rsp, s)
      else
        let s := upd_task cur (fun t => set_state TASK_READY (set_timeslice (t_quantum t) t)) s in
        sched_switch cur cur_rsp (push_rq (t_priority ct) cur s)
    else sched_switch cur cur_rsp s.

Definition sched_kill_current s : sched_t :=
  match s_cur s with
  | Some (Slot i) => with_want (upd_task (Slot i) (set_state TASK_DONE) s) true
  | _ => s
  end.

Definition sched_want_reschedule s : option sched_t :=
  cur ← s_cur s;
  ct ← get_task s cur;
  let s := if bool_decide (cur <> Idle) && bool_decide (t_state ct = TASK_RUNNING)
           then upd_task cur (set_timeslice 1) s else s in
  Some (with_want s true).

(** The state changes of [sched_exit] before its interrupt. *)
Definition sched_exit s : option sched_t :=
  cur ← s_cur s; Some (with_want (upd_task cur (set_state TASK_DONE) s) true).

Definition sched_task_count s : Z := s_count s.
Definition sched_get_task (idx : Z) s : option tid :=
  if (idx <? 0) || (idx >=? s_count s) then None else Some (Slot (Z.to_nat idx)).
Definition sched_current_task s : option tid := s_cur s.
Definition sched_idle_task : tid := Idle.
End Sched.

Definition sched_state_name (st : task_state_t) : string :=
  match st with
  | TASK_FREE => "free"
  | TASK_READY => "ready"
  | TASK_RUNNING => "running"
  | TASK_BLOCKED => "blocked"
  | TASK_DONE => "done"
  end.
