(* ===== verification/SchedProofs.v ===== *)
(** * The scheduler: invariant and correctness

    The run queues refine lists ([rq_repr]); [sched_inv] says that the READY
    slots are exactly the contents of the queues, each once and in the queue of
    its priority, that at most the current task is RUNNING, that CR3 and the
    TSS follow the current task, and that no two used slots share a kernel
    stack. Every operation preserves it; the context switch takes the head of
    the first non-empty queue; a task of the most urgent occupied level runs
    within a bounded number of ticks. *)

From S2P Require Import Prelude Kalloc Sched.

Lemma quantum_range p : 0 <= p < PRIO_LEVELS -> 5 <= prio_quantum p <= 50.
Proof.
  unfold PRIO_LEVELS. intros Hp. assert (p = 0 \/ p = 1 \/ p = 2 \/ p = 3) as [->|[->|[->| ->]]] by lia;
    vm_compute; by split.
Qed.

(** ** Circular queues as lists *)

Record rq_repr (q : rq_t) (l : list tid) : Prop := {
  rr_len : length (rq_buf q) = 32%nat;
  rr_head : 0 <= rq_head q < 32;
  rr_size : rq_size q = Z.of_nat (length l);
  rr_max : (length l <= 32)%nat;
  rr_tail : rq_tail q = (rq_head q + rq_size q) mod 32;
  rr_at : forall i t, l !! i = Some t ->
    rq_buf q !! Z.to_nat ((rq_head q + Z.of_nat i) mod 32) = Some (Some t);
}.

Lemma rq_empty_repr : rq_repr rq_empty [].
Proof. split; try done. cbn; lia. Qed.

Lemma rq_push_repr q l t : rq_repr q l -> (length l < 32)%nat -> rq_repr (rq_push q t) (l ++ [t]).
Proof.
  intros [Hl Hh Hs Hm Ht Ha] Hlt. unfold rq_push, MAX_TASKS. bcase; [lia|].
  split; cbn [rq_buf rq_head rq_tail rq_size]; [len|done|len|len|rewrite Ht; zlia|].
  intros i x Hi. apply lookup_app_Some in Hi as [Hi|[Hge Hi]].
  - pose proof (lookup_lt_Some _ _ _ Hi). rewrite list_lookup_insert_ne; [by apply Ha|]. rewrite Ht. zlia.
  - apply list_lookup_singleton_Some in Hi as [Hi <-].
    replace (Z.to_nat ((rq_head q + Z.of_nat i) mod 32)) with (Z.to_nat (rq_tail q)); [|rewrite Ht; do 2 f_equal; lia].
    apply list_lookup_insert_eq. zlia.
Qed.

Lemma rq_pop_repr q t l : rq_repr q (t :: l) -> exists q', rq_pop q = (Some t, q') /\ rq_repr q' l.
Proof.
  intros [Hl Hh Hs Hm Ht Ha]. cbn [length] in *. unfold rq_pop, MAX_TASKS. bcase; [lia|].
  pose proof (Ha 0%nat t eq_refl) as H0. rewrite Z.add_0_r, Z.mod_small in H0 by lia. rewrite H0.
  eexists; split; [done|]. split; cbn [rq_buf rq_head rq_tail rq_size]; [done|zlia|lia|lia|rewrite Ht; zlia|].
  intros i x Hi. rewrite <- (Ha (S i) x Hi). do 2 f_equal. zlia.
Qed.

(** The choice of [sched_irq_end]: the head of the first non-empty list. *)
Fixpoint pick (Q : list (list tid)) : option tid * list (list tid) :=
  match Q with
  | [] => (None, [])
  | [] :: Q => let '(o, Q') := pick Q in (o, [] :: Q')
  | (t :: l) :: Q => (Some t, l :: Q)
  end.

Lemma pick_next_pick rq Q pre :
  Forall2 rq_repr rq Q ->
  exists rq', pick_next (length rq) (length pre) (pre ++ rq) = ((pick Q).1, pre ++ rq') /\
    Forall2 rq_repr rq' (pick Q).2.
Proof.
  intros HF. revert pre. induction HF as [|q l rq Q Hq HF IH]; intros pre; cbn [length pick_next].
  - by exists [].
  - rewrite list_lookup_middle by done.
    destruct l as [|t l].
    + pose proof (rr_size _ _ Hq) as Hs. cbn [length] in Hs. bcase; [lia|].
      destruct (IH (pre ++ [q])) as (rq' & E & HF'). rewrite <- app_assoc in E. cbn [app] in E.
      rewrite length_app in E. cbn [length] in E. rewrite Nat.add_1_r in E. rewrite E.
      cbn [pick]. destruct (pick Q) as [o Q']. cbn in *. exists (q :: rq').
      rewrite <- app_assoc. split; [done|]. by constructor.
    + destruct (rq_pop_repr q t l Hq) as (q' & Ep & Hq'). pose proof (rr_size _ _ Hq) as Hs.
      cbn [length] in Hs. bcase; [|lia]. rewrite Ep. cbn [pick fst snd].
      exists (q' :: rq). split; [|by constructor]. rewrite insert_app_r_alt by lia.
      by rewrite Nat.sub_diag.
Qed.

Lemma pick_none Q : (pick Q).1 = None -> (pick Q).2 = Q /\ Forall (fun l => l = []) Q.
Proof.
  induction Q as [|[|t l] Q IH]; cbn [pick]; [done| |done].
  destruct (pick Q) as [o Q']. cbn in *. intros ->. destruct IH as [-> IH]; [done|]. split; [done|by constructor].
Qed.

(** The popped task was the head of level [p], all levels before are empty. *)
Lemma pick_some Q t Q' :
  pick Q = (Some t, Q') -> exists p l, Q !! p = Some (t :: l) /\ Q' = <[p := l]> Q /\
    forall p', (p' < p)%nat -> Q !! p' = Some [].
Proof.
  revert Q'. induction Q as [|[|x l] Q IH]; intros Q'; cbn [pick]; [done| |].
  - destruct (pick Q) as [o Q1]. intros [= -> <-]. destruct (IH Q1 eq_refl) as (p & l & Hp & -> & Hlt).
    exists (S p), l. split; [done|]. split; [done|]. intros [|p'] ?; [done|]. apply Hlt. lia.
  - intros [= -> <-]. exists 0%nat, l. do 2 (split; [done|]). intros; lia.
Qed.

(** ** The invariant *)

Definition run_of (c : option tid) : option nat :=
  match c with Some (Slot i) => Some i | _ => None end.

Section Inv.
Context {FD H : Type} `{!Kalloc H}.
Implicit Types (t : task_t FD) (pool : list (task_t FD)) (s : sched_t FD H).

(** What the scheduler relies on in the descriptor of a READY or RUNNING task. *)
Definition attr_ok (i : nat) t : Prop :=
  t_id t = Z.of_nat i /\ 0 <= t_priority t < PRIO_LEVELS /\
  t_quantum t = prio_quantum (t_priority t) /\ 1 <= t_timeslice t <= t_quantum t.

(** The pool against the queue contents; only [run] may be RUNNING. *)
Record core pool (Q : list (list tid)) (run : option nat) : Prop := {
  co_len : length pool = 32%nat;
  co_lenQ : length Q = 4%nat;
  co_sound : forall p l x, Q !! p = Some l -> x ∈ l ->
    exists i t, x = Slot i /\ pool !! i = Some t /\ t_state t = TASK_READY /\ t_priority t = Z.of_nat p;
  co_complete : forall i t, pool !! i = Some t -> t_state t = TASK_READY ->
    exists l, Q !! Z.to_nat (t_priority t) = Some l /\ Slot i ∈ l;
  co_nodup : forall p l, Q !! p = Some l -> NoDup l;
  co_run : forall i t, pool !! i = Some t -> t_state t = TASK_RUNNING -> run = Some i;
  co_attr : forall i t, pool !! i = Some t ->
    t_state t = TASK_READY \/ t_state t = TASK_RUNNING -> attr_ok i t;
}.

(** Every used slot has its own kernel stack from the allocator, page-aligned. *)
Record stacks pool (L : gmap Z Z) : Prop := {
  st_live : forall i t, pool !! i = Some t -> t_state t <> TASK_FREE ->
    L !! t_stack t = Some TASK_STACK_SZ /\ t_stack t mod 4096 = 0;
  st_inj : forall i j ti tj, pool !! i = Some ti -> pool !! j = Some tj ->
    t_state ti <> TASK_FREE -> t_state tj <> TASK_FREE -> t_stack ti = t_stack tj -> i = j;
}.

Definition cr3_of t : Z := if t_cr3 t =? 0 then MASTER_CR3_PHYS else t_cr3 t.

Record sched_inv s (Q : list (list tid)) (L : gmap Z Z) : Prop := {
  si_core : core (s_pool s) Q (run_of (s_cur s));
  si_rq : Forall2 rq_repr (s_rq s) Q;
  si_count : 0 <= s_count s <= 32;
  si_unused : forall i t, s_pool s !! i = Some t -> s_count s <= Z.of_nat i -> t_state t = TASK_FREE;
  si_cur : exists c t, s_cur s = Some c /\ get_task s c = Some t /\ s_cr3 s = cr3_of t /\
    (t_is_user t <> 0 -> s_rsp0 s = u64 (t_stack t + TASK_STACK_SZ)) /\
    (c <> Idle -> t_state t = TASK_RUNNING \/ t_state t = TASK_DONE);
  si_idle : t_cr3 (s_idle s) = 0 /\ t_is_user (s_idle s) = 0;
  si_live : kalloc_live (s_heap s) L;
  si_stacks : stacks (s_pool s) L;
}.

Lemma core_weaken pool Q run : core pool Q None -> core pool Q run.
Proof. intros [? ? ? ? ? Hr ?]. split; try done. intros i t Hi Hs. by specialize (Hr i t Hi Hs). Qed.

Lemma lookup_insert_cases pool i t j u :
  <[i := t]> pool !! j = Some u -> (j = i /\ u = t) \/ (j <> i /\ pool !! j = Some u).
Proof. intros E. apply list_lookup_insert_Some in E as [(<- & <- & _)|[? ?]]; [by left|right; by split; [intros ->|]]. Qed.

(** Bookkeeping of the running task: the state and the priority stay. *)
Lemma core_same pool Q run i t t' :
  core pool Q run -> pool !! i = Some t -> t_state t' = t_state t -> t_priority t' = t_priority t ->
  (t_state t = TASK_READY \/ t_state t = TASK_RUNNING -> attr_ok i t') -> core (<[i := t']> pool) Q run.
Proof.
  intros [Hl HQ Hs Hc Hn Hr Ha] Hi Es Ep Hat. pose proof (lookup_lt_Some _ _ _ Hi) as Hlt. split; try done.
  - len.
  - intros p l x Hp Hx. destruct (Hs p l x Hp Hx) as (j & u & -> & Hj & Hu & Hpr). exists j.
    destruct (decide (j = i)) as [->|Hne].
    + exists t'. rewrite list_lookup_insert_eq by done. assert (u = t) as -> by congruence. by rewrite Es, Ep.
    + exists u. by rewrite list_lookup_insert_ne by done.
  - intros j u Hj Hu. apply lookup_insert_cases in Hj as [[-> ->]|[? Hj]]; [|eauto]. rewrite Ep. apply Hc; congruence.
  - intros j u Hj Hu. apply lookup_insert_cases in Hj as [[-> ->]|[? Hj]]; [|eauto]. apply (Hr i t Hi). congruence.
  - intros j u Hj Hu. apply lookup_insert_cases in Hj as [[-> ->]|[? Hj]]; [|eauto]. apply Hat. by rewrite <- Es.
Qed.

(** A task that was not READY is made READY and appended to its queue. *)
Lemma core_enqueue pool Q run run' i t0 t :
  core pool Q run -> pool !! i = Some t0 -> t_state t0 <> TASK_READY ->
  t_state t = TASK_READY -> attr_ok i t -> (run = Some i \/ run' = run) ->
  core (<[i := t]> pool) (alter (fun l => l ++ [Slot i]) (Z.to_nat (t_priority t)) Q) run'.
Proof.
  intros [Hl HQ Hs Hc Hn Hr Ha] Hi Hnr Hst Hat Hrun. pose proof (lookup_lt_Some _ _ _ Hi) as Hlt.
  assert (Hni : forall p l, Q !! p = Some l -> Slot i ∉ l).
  { intros p l Hp Hx. destruct (Hs p l _ Hp Hx) as (j & u & [= <-] & Hj & Hu & _). congruence. }
  assert (Hpr : 0 <= t_priority t < 4) by (destruct Hat as (_ & ? & _); done).
  split.
  - len.
  - by rewrite length_alter.
  - intros p l x Hp Hx. assert (Hin : (x = Slot i /\ p = Z.to_nat (t_priority t)) \/ exists l0, Q !! p = Some l0 /\ x ∈ l0).
    { destruct (decide (p = Z.to_nat (t_priority t))) as [->|Hne].
      - rewrite list_lookup_alter_eq in Hp. destruct (Q !! _) as [l0|]; [|done]. injection Hp as <-.
        apply elem_of_app in Hx as [Hx|Hx%list_elem_of_singleton]; [right; eauto|by left].
      - rewrite list_lookup_alter_ne in Hp by done. right; eauto. }
    destruct Hin as [[-> ->]|(l0 & Hp0 & Hx0)].
    + exists i, t. rewrite list_lookup_insert_eq by done. repeat split; [done|lia].
    + destruct (Hs p l0 x Hp0 Hx0) as (j & u & -> & Hj & Hu & Hpu). exists j, u.
      rewrite list_lookup_insert_ne; [done|]. intros <-. congruence.
  - intros j u Hj Hu. apply lookup_insert_cases in Hj as [[-> ->]|[Hne Hj]].
    + destruct (lookup_lt_is_Some_2 Q (Z.to_nat (t_priority t))) as [l0 Hl0]; [lia|].
      exists (l0 ++ [Slot i]). rewrite list_lookup_alter_eq, Hl0. split; [done|]. apply elem_of_app; right. by left.
    + destruct (Hc j u Hj Hu) as (l0 & Hl0 & Hin).
      destruct (decide (Z.to_nat (t_priority u) = Z.to_nat (t_priority t))) as [E|].
      * rewrite E in *. exists (l0 ++ [Slot i]). rewrite list_lookup_alter_eq, Hl0. split; [done|]. apply elem_of_app; by left.
      * exists l0. by rewrite list_lookup_alter_ne.
  - intros p l Hp. destruct (decide (p = Z.to_nat (t_priority t))) as [->|].
    + rewrite list_lookup_alter_eq in Hp. destruct (Q !! _) as [l0|] eqn:E; [|done]. injection Hp as <-.
      apply NoDup_app. split; [eauto|]. split; [|apply NoDup_singleton].
      intros x Hx ->%list_elem_of_singleton. by eapply Hni.
    + rewrite list_lookup_alter_ne in Hp by done. eauto.
  - intros j u Hj Hu. apply lookup_insert_cases in Hj as [[-> ->]|[Hne Hj]]; [congruence|].
    pose proof (Hr j u Hj Hu). destruct Hrun; congruence.
  - intros j u Hj Hu. apply lookup_insert_cases in Hj as [[-> ->]|[? Hj]]; [done|eauto].
Qed.

(** The head of a queue is popped and set RUNNING. *)
Lemma core_dequeue pool Q x Q' :
  core pool Q None -> pick Q = (Some x, Q') ->
  exists i t, x = Slot i /\ pool !! i = Some t /\ t_state t = TASK_READY /\
    core (<[i := set_state TASK_RUNNING t]> pool) Q' (Some i).
Proof.
  intros [Hl HQ Hs Hc Hn Hr Ha] Hp. destruct (pick_some Q x Q' Hp) as (p & l & Hpl & -> & _).
  destruct (Hs p (x :: l) x Hpl) as (i & t & -> & Hi & Hst & Hpr); [by left|].
  pose proof (lookup_lt_Some _ _ _ Hi) as Hlt. pose proof (lookup_lt_Some _ _ _ Hpl) as HltQ.
  pose proof (Hn p _ Hpl) as Hnd. apply NoDup_cons in Hnd as [Hnin Hnd].
  exists i, t. do 3 (split; [done|]). split.
  - len.
  - len.
  - intros p' l' x Hp' Hx.
    assert (exists l0, Q !! p' = Some l0 /\ x ∈ l0 /\ x <> Slot i) as (l0 & Hl0 & Hx0 & Hne).
    { apply list_lookup_insert_Some in Hp' as [(<- & <- & _)|[Hne Hp']].
      - exists (Slot i :: l). split; [done|]. split; [by right|]. intros ->. done.
      - exists l'. split; [done|]. split; [done|]. intros ->.
        destruct (Hs p' l' _ Hp' Hx) as (j & u & [= <-] & Hj & _ & Hpu).
        assert (u = t) as -> by congruence. lia. }
    destruct (Hs p' l0 x Hl0 Hx0) as (j & u & -> & Hj & Hu & Hpu). exists j, u.
    rewrite list_lookup_insert_ne; [done|]. congruence.
  - intros j u Hj Hu. apply lookup_insert_cases in Hj as [[-> ->]|[Hne Hj]]; [done|].
    destruct (Hc j u Hj Hu) as (l0 & Hl0 & Hin).
    destruct (decide (Z.to_nat (t_priority u) = p)) as [Ep|].
    + exists l. rewrite Ep, list_lookup_insert_eq by done. split; [done|].
      rewrite Ep, Hpl in Hl0. injection Hl0 as <-. apply elem_of_cons in Hin as [?|?]; [congruence|done].
    + exists l0. by rewrite list_lookup_insert_ne.
  - intros p' l' Hp'. apply list_lookup_insert_Some in Hp' as [(<- & <- & _)|[Hne Hp']]; [done|eauto].
  - intros j u Hj Hu. apply lookup_insert_cases in Hj as [[-> ->]|[Hne Hj]]; [done|]. by specialize (Hr j u Hj Hu).
  - intros j u Hj Hu. apply lookup_insert_cases in Hj as [[-> ->]|[Hne Hj]]; [|eauto].
    exact (Ha i t Hi (or_introl Hst)).
Qed.

(** The running task ends. *)
Lemma core_done pool Q run i t :
  core pool Q run -> pool !! i = Some t -> t_state t <> TASK_READY -> core (<[i := set_state TASK_DONE t]> pool) Q run.
Proof.
  intros [Hl HQ Hs Hc Hn Hr Ha] Hi Hnr. pose proof (lookup_lt_Some _ _ _ Hi) as Hlt. split; try done.
  - len.
  - intros p l x Hp Hx. destruct (Hs p l x Hp Hx) as (j & u & -> & Hj & Hu & Hpr). exists j, u.
    rewrite list_lookup_insert_ne; [done|]. congruence.
  - intros j u Hj Hu. apply lookup_insert_cases in Hj as [[-> ->]|[? Hj]]; [done|eauto].
  - intros j u Hj Hu. apply lookup_insert_cases in Hj as [[-> ->]|[? Hj]]; [done|eauto].
  - intros j u Hj Hu. apply lookup_insert_cases in Hj as [[-> ->]|[? Hj]]; [by destruct Hu|eauto].
Qed.

(** A task outside the queues that is not there fits in its queue. *)
Lemma core_room pool Q run i p l :
  core pool Q run -> (i < 32)%nat -> Q !! p = Some l -> Slot i ∉ l -> (length l < 32)%nat.
Proof.
  intros [Hl HQ Hs Hc Hn Hr Ha] Hi Hp Hni.
  assert (Hsub : Slot i :: l ⊆+ map Slot (seq 0 32)).
  { apply NoDup_submseteq; [apply NoDup_cons; eauto|]. intros x Hx. apply elem_of_cons in Hx as [->|Hx].
    - apply list_elem_of_fmap. exists i. split; [done|]. apply elem_of_seq. lia.
    - destruct (Hs p l x Hp Hx) as (j & u & -> & Hj & _). apply lookup_lt_Some in Hj.
      apply list_elem_of_fmap. exists j. split; [done|]. apply elem_of_seq. lia. }
  apply submseteq_length in Hsub. cbn [length] in Hsub. rewrite length_map, length_seq in Hsub. lia.
Qed.

Lemma stacks_same pool L i t t' :
  stacks pool L -> pool !! i = Some t -> t_stack t' = t_stack t -> t_state t <> TASK_FREE ->
  stacks (<[i := t']> pool) L.
Proof.
  intros [Hl Hj] Hi Es Hf. split.
  - intros j u Hu Hst. apply lookup_insert_cases in Hu as [[-> ->]|[? Hu]]; [|eauto]. rewrite Es. eauto.
  - intros j k uj uk Huj Huk Hsj Hsk E.
    apply lookup_insert_cases in Huj as [[-> ->]|[? Huj]]; apply lookup_insert_cases in Huk as [[-> ->]|[? Huk]]; [done|..].
    + eapply Hj; eauto. congruence.
    + eapply Hj; eauto. congruence.
    + eapply Hj; eauto.
Qed.
End Inv.
#[export] Hint Resolve rq_empty_repr core_weaken : cf.

(** ** The initial frame *)

(** Reading back what a chain of pushes wrote. *)
Lemma push_eq v sp mem : 8 <= sp < 18446744073709551616 -> push v (sp, mem) = (sp - 8, <[sp - 8 := u64 v]> mem).
Proof. intros. unfold push. cbn [fst snd]. by rewrite u64_id by word. Qed.

Ltac mem_lookup :=
  repeat (first [rewrite (lookup_insert_eq (M := gmap Z)) | rewrite (lookup_insert_ne (M := gmap Z)) by lia]).

(** The frame built below [kstack_top] restores to the given instruction
    pointer, selectors, stack pointer and argument registers, with interrupts
    enabled and every other register zero; no word outside it changes. *)
Lemma frame_build_restore (kstack_top rip cs ss target_rsp rdi rsi : Z) (mem : gmap Z Z) :
  176 <= kstack_top < 18446744073709551616 ->
  let '(sp, mem') := frame_build kstack_top rip cs ss target_rsp rdi rsi mem in
  sp = kstack_top - 176 /\
  frame_restore sp mem' = Some (Regs 0 0 0 0 0 0 0 0 0 (u64 rdi) (u64 rsi) 0 0 0 0 0 0
                                  (u64 rip) (u64 cs) 0x202 (u64 target_rsp) (u64 ss)) /\
  forall a, a < kstack_top - 176 \/ kstack_top <= a -> mem' !! a = mem !! a.
Proof.
  intros Hk. unfold frame_build. rewrite !push_eq by lia.
  split; [lia|]. split; [|intros a Ha; by mem_lookup].
  unfold frame_restore. change (u64 0) with 0. change (u64 0x202) with 0x202.
  repeat match goal with
  | |- context [mbind _ (?m !! ?a)] =>
    lazymatch goal with |- (mbind _ (?m' !! ?a')) = _ =>
      let E := fresh in eassert (m' !! a' = Some _) as E by (mem_lookup; first [done|
        match goal with |- (<[?j := ?v]> _) !! ?i = _ => replace i with j by lia; rewrite lookup_insert_eq; done end]);
      rewrite E; clear E; cbn [mbind option_bind]
    end
  end.
  done.
Qed.

Section Ops.
Context {FD H : Type} `{!Kalloc H}.
Context (fd_table0 : list FD) (task_trampoline user_task_trampoline user_stack_pool : Z).
Implicit Types (t : task_t FD) (pool : list (task_t FD)) (s : sched_t FD H).

(** ** Boot *)

Lemma sched_boot_inv (h : H) L :
  kalloc_live h L -> sched_inv (sched_init (sched_bss fd_table0 h)) [[]; []; []; []] L.
Proof.
  intros HL.
  assert (Hf : forall i t, s_pool (sched_init (sched_bss fd_table0 h)) !! i = Some t -> t_state t = TASK_FREE).
  { intros i t Hi. cbn [s_pool sched_init sched_bss] in Hi.
    rewrite list_lookup_fmap in Hi. apply fmap_Some in Hi as (u & _ & ->). done. }
  assert (Hq : forall p (l : list tid), [[]; []; []; []] !! p = Some l -> l = []).
  { intros [|[|[|[|p]]]] l; intros [= <-] || (intros E; rewrite lookup_ge_None_2 in E by (cbn; lia)); done. }
  split; [|by repeat constructor; apply rq_empty_repr|cbn; lia|intros i t Hi _; by eapply Hf
    |by exists Idle; eexists|done|done|split; intros; exfalso; eauto].
  split; try done.
  - intros p l x Hp Hx. apply Hq in Hp as ->. by apply elem_of_nil in Hx.
  - intros i t Hi Hst. rewrite (Hf _ _ Hi) in Hst. done.
  - intros p l Hp. apply Hq in Hp as ->. constructor.
  - intros i t Hi Hst. rewrite (Hf _ _ Hi) in Hst. done.
  - intros i t Hi Hst. rewrite (Hf _ _ Hi) in Hst. by destruct Hst.
Qed.

(** ** Submission *)

Lemma free_scan_some pool i n k :
  free_scan pool i n = Some k ->
  (i <= k < i + n)%nat /\ exists t, pool !! k = Some t /\ (t_state t = TASK_FREE \/ t_state t = TASK_DONE).
Proof.
  revert i. induction n as [|n IH]; intros i; cbn [free_scan]; [done|].
  destruct (pool !! i) as [t|] eqn:E; [|done].
  destruct (bool_decide_reflect (t_state t = TASK_FREE)); cbn [orb].
  { intros [= <-]. split; [lia|eauto]. }
  destruct (bool_decide_reflect (t_state t = TASK_DONE)).
  { intros [= <-]. split; [lia|eauto]. }
  intros Hk. apply IH in Hk as [? ?]. split; [lia|done].
Qed.

Lemma free_scan_none pool i n :
  free_scan pool i n = None -> (i + n <= length pool)%nat ->
  forall k t, (i <= k < i + n)%nat -> pool !! k = Some t -> t_state t <> TASK_FREE /\ t_state t <> TASK_DONE.
Proof.
  revert i. induction n as [|n IH]; intros i; cbn [free_scan]; [intros; lia|].
  intros E Hl k t Hk Ht. destruct (lookup_lt_is_Some_2 pool i) as [u Hu]; [lia|]. rewrite Hu in E.
  destruct (bool_decide_reflect (t_state u = TASK_FREE)); cbn [orb] in E; [done|].
  destruct (bool_decide_reflect (t_state u = TASK_DONE)); [done|].
  destruct (decide (k = i)) as [->|]; [by simplify_eq|].
  apply (IH (S i) E ltac:(lia) k t); [lia|done].
Qed.

Lemma find_free_slot_spec s Q L :
  sched_inv s Q L ->
  match find_free_slot s with
  | Some (i, c) => (exists t, s_pool s !! i = Some t /\ (t_state t = TASK_FREE \/ t_state t = TASK_DONE)) /\
      (i < 32)%nat /\ Z.of_nat i < c /\ s_count s <= c <= 32
  | None => forall i t, s_pool s !! i = Some t -> t_state t <> TASK_FREE /\ t_state t <> TASK_DONE
  end.
Proof.
  intros [Hc _ Hn Hu _ _ _ _]. pose proof (co_len _ _ _ Hc) as Hlen. unfold find_free_slot, MAX_TASKS.
  destruct (free_scan _ _ _) as [i|] eqn:E.
  - apply free_scan_some in E as [? ?]. split; [done|lia].
  - bcase.
    + intros i t Hi. pose proof (lookup_lt_Some _ _ _ Hi). apply (free_scan_none _ _ _ E ltac:(lia) i t); [lia|done].
    + split; [|lia]. destruct (lookup_lt_is_Some_2 (s_pool s) (Z.to_nat (s_count s))) as [t Ht]; [lia|].
      exists t. split; [done|left]. apply (Hu _ _ Ht). lia.
Qed.

(** The caller of a submission function is the running task. *)
Definition caller_running s : Prop :=
  forall i t, s_cur s = Some (Slot i) -> s_pool s !! i = Some t -> t_state t = TASK_RUNNING.

(** A fresh stack for slot [i]. *)
Lemma stacks_fresh pool L i t stack :
  stacks pool L -> L !! stack = None -> stack mod 4096 = 0 -> t_stack t = stack ->
  stacks (<[i := t]> pool) (<[stack := TASK_STACK_SZ]> L).
Proof.
  intros [Hl Hj] Hn Hm Et.
  assert (Hne : forall j u, pool !! j = Some u -> t_state u <> TASK_FREE -> t_stack u <> stack).
  { intros j u Hu Hf E. destruct (Hl j u Hu Hf) as [HL _]. congruence. }
  split.
  - intros j u Hu Hst. apply lookup_insert_cases in Hu as [[-> ->]|[? Hu]].
    + rewrite Et. split; [apply lookup_insert_eq|done].
    + destruct (Hl j u Hu Hst). specialize (Hne j u Hu Hst). by rewrite lookup_insert_ne.
  - intros j k uj uk Huj Huk Hsj Hsk E.
    apply lookup_insert_cases in Huj as [[-> ->]|[? Huj]]; apply lookup_insert_cases in Huk as [[-> ->]|[? Huk]]; [done|..].
    + destruct (Hne k uk Huk Hsk). congruence.
    + destruct (Hne j uj Huj Hsj). congruence.
    + eapply Hj; eauto.
Qed.

Lemma Forall2_alter {A B} (R : A -> B -> Prop) (f : A -> A) (g : B -> B) i l k :
  Forall2 R l k -> (forall x y, l !! i = Some x -> k !! i = Some y -> R x y -> R (f x) (g y)) ->
  Forall2 R (alter f i l) (alter g i k).
Proof.
  intros HF Hfg. revert i Hfg. induction HF as [|x y l k Hxy HF IH]; intros [|i] Hfg; cbn; constructor; eauto.
Qed.

(** The common part of the submission functions: what the descriptor builder
    must give, and the state afterwards. *)
Lemma submit_slot_spec (mk : nat -> Z -> task_t FD) frame s Q L :
  sched_inv s Q L -> caller_running s ->
  (forall i stack, t_state (mk i stack) = TASK_READY /\ attr_ok i (mk i stack) /\ t_stack (mk i stack) = stack) ->
  match submit_slot mk frame s with
  | (None, s') => s_pool s' = s_pool s /\ s_rq s' = s_rq s /\ s_cur s' = s_cur s /\ sched_inv s' Q L
  | (Some i, s') => exists stack t0, s_pool s !! i = Some t0 /\ (t_state t0 = TASK_FREE \/ t_state t0 = TASK_DONE) /\
      L !! stack = None /\
      let t := mk i stack in let '(rsp, mem) := frame t (s_mem s) in
      s_pool s' = <[i := set_rsp rsp t]> (s_pool s) /\ s_mem s' = mem /\ s_cur s' = s_cur s /\
      sched_inv s' (alter (fun l => l ++ [Slot i]) (Z.to_nat (t_priority t)) Q) (<[stack := TASK_STACK_SZ]> L)
  end.
Proof.
  intros Hinv Hrun Hmk. pose proof (find_free_slot_spec s Q L Hinv) as Hfs. unfold submit_slot.
  destruct Hinv as [Hc Hq Hn Hu Hcur Hid Hl Hst].
  destruct (find_free_slot s) as [[i c]|]; [|by repeat (split; [done|])].
  destruct Hfs as ((t0 & Ht0 & Hst0) & Hi & Hic & Hcc).
  destruct (kalloc TASK_STACK_SZ true (s_heap s)) as [stack h] eqn:Ek.
  destruct (kalloc_ok _ L TASK_STACK_SZ true stack h Hl ltac:(unfold TASK_STACK_SZ; lia) Ek) as [[-> Hl']|(HLn & Hal & Hl')].
  { rewrite Z.eqb_refl. cbn [s_pool s_rq s_cur]. do 3 (split; [done|]). split; try done; cbn [s_count s_pool]; [lia|].
    intros j t Hj Hcj. eapply Hu; [done|lia]. }
  assert (Hnz : stack <> 0).
  { intros ->. destruct (kalloc_in h _ 0 TASK_STACK_SZ Hl' (lookup_insert_eq _ _ _)).
    destruct kalloc_bounds. unfold TASK_STACK_SZ in *. lia. }
  destruct (Z.eqb_spec stack 0); [done|]. destruct (Hmk i stack) as (Hm1 & Hm2 & Hm3).
  set (t := mk i stack) in *. cbn [s_mem]. destruct (frame t (s_mem s)) as [rsp mem] eqn:Ef.
  exists stack, t0. split; [done|]. split; [done|]. split; [done|].
  fold t. rewrite Ef. unfold push_rq, with_rq. cbn [s_pool s_mem s_cur]. do 3 (split; [done|]).
  assert (Hnr : t_state t0 <> TASK_READY) by (destruct Hst0; congruence).
  assert (Hncur : s_cur s <> Some (Slot i)).
  { intros E. specialize (Hrun i t0 E Ht0). destruct Hst0; congruence. }
  pose proof (lookup_lt_Some _ _ _ Ht0) as Hlt.
  split; cbn [s_pool s_rq s_count s_cur s_idle s_heap s_cr3 s_rsp0 get_task].
  - apply (core_enqueue _ _ (run_of (s_cur s)) _ i t0 (set_rsp rsp t)); auto.
  - apply Forall2_alter; [done|]. intros q l _ Hl2 Hr. apply rq_push_repr; [done|].
    eapply (core_room _ _ _ i); [done|lia|done|].
    intros Hin. destruct (co_sound _ _ _ Hc _ _ _ Hl2 Hin) as (j & u & [= <-] & Hj & Hs' & _). congruence.
  - lia.
  - intros j u Hj Hcj. apply lookup_insert_cases in Hj as [[-> ->]|[? Hj]]; [lia|]. apply (Hu j u Hj). lia.
  - destruct Hcur as (cu & ct & Ecu & Hct & H3 & H4 & H5). exists cu, ct. split; [done|].
    split; [|done]. destruct cu as [|j]; [done|]. cbn [get_task s_pool] in *.
    rewrite list_lookup_insert_ne; [done|]. congruence.
  - done.
  - done.
  - apply stacks_fresh; auto.
Qed.

(** ** The timer hook *)

(** The state between saving the current task and choosing the next: like
    [sched_inv], with no RUNNING task in the pool. *)
Record switch_pre s (Q : list (list tid)) (L : gmap Z Z) (cur : tid) (rsp : Z) : Prop := {
  sp_core : core (s_pool s) Q None;
  sp_rq : Forall2 rq_repr (s_rq s) Q;
  sp_count : 0 <= s_count s <= 32;
  sp_unused : forall i t, s_pool s !! i = Some t -> s_count s <= Z.of_nat i -> t_state t = TASK_FREE;
  sp_cur : exists t, get_task s cur = Some t /\ s_cr3 s = cr3_of t /\ t_rsp t = rsp /\
    (t_is_user t <> 0 -> s_rsp0 s = u64 (t_stack t + TASK_STACK_SZ));
  sp_scur : s_cur s = Some cur;
  sp_idle : t_cr3 (s_idle s) = 0 /\ t_is_user (s_idle s) = 0;
  sp_live : kalloc_live (s_heap s) L;
  sp_stacks : stacks (s_pool s) L;
}.

(** The pool after the choice: the chosen slot is RUNNING. *)
Definition run_pool (next : tid) pool : list (task_t FD) :=
  match next with Idle => pool | Slot i => alter (set_state TASK_RUNNING) i pool end.

Lemma sched_switch_spec s Q L cur rsp :
  switch_pre s Q L cur rsp ->
  let next := default Idle (pick Q).1 in
  exists s' nt, get_task s next = Some nt /\ sched_switch cur rsp s = Some (t_rsp nt, s') /\
    sched_inv s' (pick Q).2 L /\ s_cur s' = Some next /\ s_want s' = s_want s /\ s_active s' = s_active s /\
    s_pool s' = run_pool next (s_pool s) /\ s_mem s' = s_mem s.
Proof.
  intros [Hc Hq Hn Hu (ct & Hct & H3 & Hrsp & H4) Hscur Hid Hl Hst] next.
  destruct (pick_next_pick (s_rq s) Q [] Hq) as (rq' & Ep & Hq'). cbn [length app] in Ep.
  assert (Hlr : length (s_rq s) = Z.to_nat PRIO_LEVELS).
  { rewrite (Forall2_length _ _ _ Hq), (co_lenQ _ _ _ Hc). done. }
  rewrite Hlr in Ep. unfold sched_switch. rewrite Ep. fold next. cbn zeta.
  destruct (pick Q) as [o Q'] eqn:EQ. cbn [fst snd] in *.
  destruct o as [x|]; subst next; unfold default, id.
  - destruct (core_dequeue _ _ _ _ Hc EQ) as (i & t & -> & Hi & Hs & Hc').
    assert (Hnf : t_state t <> TASK_FREE) by congruence.
    assert (Hun : forall j u, <[i := set_state TASK_RUNNING t]> (s_pool s) !! j = Some u ->
              s_count s <= Z.of_nat j -> t_state u = TASK_FREE).
    { intros j u Hj Hcj. apply lookup_insert_cases in Hj as [[-> ->]|[? Hj]]; [|eauto].
      specialize (Hu i t Hi Hcj). congruence. }
    pose proof (lookup_lt_Some _ _ _ Hi) as Hlt.
    pose proof (stacks_same _ _ i t (set_state TASK_RUNNING t) Hst Hi eq_refl Hnf) as Hst'.
    destruct (decide (Slot i = cur)) as [<-|Hne].
    + cbn [get_task] in Hct. assert (ct = t) as -> by congruence. rewrite <- Hrsp.
      eexists _, t. split; [done|]. split; [done|].
      unfold upd_task, with_pool, with_rq, run_pool. cbn [s_pool s_cur s_want s_active s_mem].
      rewrite (list_alter_insert _ _ _ _ Hi). split; [|done].
      split; cbn [s_pool s_cur s_rq s_count s_cr3 s_rsp0 s_idle s_heap]; try done.
      * by rewrite Hscur.
      * exists (Slot i), (set_state TASK_RUNNING t). cbn [get_task s_pool]. rewrite list_lookup_insert_eq by done.
        repeat (split; [done|]). by left.
    + cbn [get_task s_pool with_rq s_idle]. rewrite Hi. cbn [mbind option_bind].
      eexists _, t. split; [done|]. split; [done|].
      unfold upd_task, with_pool, with_rq, run_pool. cbn [s_pool s_cur s_want s_active s_mem s_rsp0].
      rewrite (list_alter_insert _ _ _ _ Hi). split; [|done].
      split; cbn [s_pool s_cur s_rq s_count s_cr3 s_rsp0 s_idle s_heap run_of]; try done.
      exists (Slot i), (set_state TASK_RUNNING t). cbn [get_task s_pool]. rewrite list_lookup_insert_eq by done.
      do 3 (split; [done|]). split; [|by left]. cbn [t_is_user set_state t_stack]. intros Hus.
      by destruct (Z.eqb_spec (t_is_user t) 0).
  - destruct (pick_none Q) as [EQ2 _]; [by rewrite EQ|]. rewrite EQ in EQ2. cbn [snd] in EQ2. subst Q'.
    destruct (decide (Idle = cur)) as [<-|Hne].
    + cbn [get_task] in Hct. injection Hct as <-. rewrite <- Hrsp.
      eexists _, (s_idle s). split; [done|]. split; [done|]. cbn [upd_task with_idle with_rq s_pool s_cur s_want s_active s_mem run_pool].
      split; [|done]. split; cbn [s_pool s_cur s_rq s_count s_cr3 s_rsp0 s_idle s_heap]; try done.
      * by apply core_weaken.
      * exists Idle. eexists. split; [done|]. split; [done|]. done.
    + cbn [get_task s_idle with_rq mbind option_bind]. eexists _, (s_idle s). split; [done|]. split; [done|].
      cbn [upd_task with_idle with_rq s_pool s_cur s_want s_active s_mem run_pool].
      split; [|done]. split; cbn [s_pool s_cur s_rq s_count s_cr3 s_rsp0 s_idle s_heap]; try done.
      exists Idle. eexists. split; [done|]. split; [done|]. destruct Hid as [Hid1 Hid2].
      split; [done|]. split; [|done]. intros Hx. by destruct Hx.
Qed.

(** The queues when a task is chosen: the expired running task has joined its own. *)
Definition requeue (cur : tid) (ct : task_t FD) (Q : list (list tid)) : list (list tid) :=
  if bool_decide (cur <> Idle) && bool_decide (t_state ct = TASK_RUNNING)
  then alter (fun l => l ++ [cur]) (Z.to_nat (t_priority ct)) Q else Q.

(** The slice of the running task is not used up. *)
Definition slice_left (cur : tid) (ct : task_t FD) : bool :=
  bool_decide (cur <> Idle) && bool_decide (t_state ct = TASK_RUNNING) && (1 <? t_timeslice ct).

Lemma core_none pool Q run : 
  core pool Q run -> (forall i t, run = Some i -> pool !! i = Some t -> t_state t <> TASK_RUNNING) -> core pool Q None.
Proof.
  intros [? ? ? ? ? Hr ?] Hne. split; try done. intros i t Hi Hs. destruct (Hne i t (Hr i t Hi Hs) Hi Hs).
Qed.

(** One tick's bookkeeping on the running task. *)
Lemma core_run_slot s Q L i t (f : task_t FD -> task_t FD) :
  sched_inv s Q L -> s_cur s = Some (Slot i) -> s_pool s !! i = Some t -> t_state t = TASK_RUNNING ->
  attr_ok i t.
Proof. intros Hinv _ Hi Hs. apply (co_attr _ _ _ (si_core _ _ _ Hinv) i t Hi). by right. Qed.

(** What saving the context leaves: the state on entry to the choice. *)
Lemma irq_save_pre s Q L cur ct rsp :
  sched_inv s Q L -> s_cur s = Some cur -> get_task s cur = Some ct ->
  negb (bool_decide (cur <> Idle) && bool_decide (t_state ct = TASK_RUNNING)) = true ->
  switch_pre (upd_task cur (set_rsp rsp) (with_want s false)) Q L cur rsp.
Proof.
  intros [Hc Hq Hn Hu (c & t & Ec & Ht & H3 & H4 & H5) Hid Hl Hst] Ecur Hct Hnb.
  assert (c = cur) as -> by congruence. assert (t = ct) as -> by congruence. rewrite Ecur in Hc.
  destruct cur as [|i]; cbn [get_task upd_task with_want with_pool with_idle] in *.
  - injection Ht as <-. split; cbn [s_pool s_rq s_count s_idle s_heap s_cur]; try done.
    exists (set_rsp rsp (s_idle s)). by repeat (split; [done|]).
  - rewrite bool_decide_true in Hnb by done. cbn [andb] in Hnb.
    assert (Hnr : t_state ct <> TASK_RUNNING).
    { intros E. by rewrite bool_decide_true in Hnb. }
    assert (Hd : t_state ct = TASK_DONE) by (destruct H5; done).
    pose proof (lookup_lt_Some _ _ _ Ht) as Hlt.
    split; cbn [s_pool s_rq s_count s_idle s_heap s_cur]; try done; rewrite ?(list_alter_insert _ _ _ _ Ht).
    + eapply core_same; [|done|done|done|].
      * eapply core_none; [done|]. intros j u [= <-] Hj. congruence.
      * rewrite Hd. by intros [?|?].
    + intros j u Hj Hcj. apply lookup_insert_cases in Hj as [[-> ->]|[? Hj]]; [|eauto].
      specialize (Hu i ct Ht Hcj). congruence.
    + exists (set_rsp rsp ct). cbn [get_task s_pool with_pool with_want]. rewrite ?(list_alter_insert _ _ _ _ Ht), list_lookup_insert_eq by done.
      by repeat (split; [done|]).
    + eapply stacks_same; [done|done|done|]. congruence.
Qed.

(** The running task is marked READY, its quantum refilled, and queued. *)
Lemma irq_requeue_pre s Q L i ct rsp :
  sched_inv s Q L -> s_cur s = Some (Slot i) -> s_pool s !! i = Some ct -> t_state ct = TASK_RUNNING ->
  let t := set_state TASK_READY (set_timeslice (t_quantum ct) (set_rsp rsp ct)) in
  switch_pre (push_rq (t_priority ct) (Slot i)
      (with_pool (with_want s false) (<[i := t]> (s_pool s))))
    (alter (fun l => l ++ [Slot i]) (Z.to_nat (t_priority ct)) Q) L (Slot i) rsp.
Proof.
  intros [Hc Hq Hn Hu (c & t0 & Ec & Ht & H3 & H4 & H5) Hid Hl Hst] Ecur Hct Hs t.
  assert (c = Slot i) as -> by congruence. cbn [get_task] in Ht. assert (t0 = ct) as -> by congruence.
  rewrite Ecur in Hc. pose proof (lookup_lt_Some _ _ _ Hct) as Hlt. pose proof (co_len _ _ _ Hc) as Hlen.
  destruct (co_attr _ _ _ Hc i ct Hct ltac:(by right)) as (Ha1 & Ha2 & Ha3 & Ha4).
  split; cbn [push_rq with_rq with_pool with_want s_pool s_rq s_count s_idle s_heap s_cur]; try done.
  - apply (core_enqueue _ _ (Some i) None i ct t); [done|done|congruence|done| |by left].
    unfold attr_ok. cbn. repeat (split; [done|]). lia.
  - apply Forall2_alter; [done|]. intros q l _ Hl2 Hr. apply rq_push_repr; [done|].
    eapply (core_room _ _ _ i); [done|lia|done|].
    intros Hin. destruct (co_sound _ _ _ Hc _ _ _ Hl2 Hin) as (j & u & [= <-] & Hj & Hs' & _). congruence.
  - intros j u Hj Hcj. apply lookup_insert_cases in Hj as [[-> ->]|[? Hj]]; [|eauto].
    specialize (Hu i ct Ht Hcj). congruence.
  - exists t. cbn [get_task s_pool push_rq with_rq with_pool with_want]. rewrite list_lookup_insert_eq by done. by repeat (split; [done|]).
  - eapply stacks_same; [done|done|done|]. congruence.
Qed.

(** The descriptor of a task that leaves the CPU. *)
Definition switch_out (cur : tid) (rsp : Z) (ct : task_t FD) : task_t FD :=
  if bool_decide (cur <> Idle) && bool_decide (t_state ct = TASK_RUNNING)
  then set_state TASK_READY (set_timeslice (t_quantum ct) (set_rsp rsp ct)) else set_rsp rsp ct.

Definition save_pool (cur : tid) (t : task_t FD) pool : list (task_t FD) :=
  match cur with Idle => pool | Slot i => <[i := t]> pool end.

(** A tick with the slice not used up: the same task goes on. *)
Lemma sched_irq_end_keep s Q L cur ct rsp :
  sched_inv s Q L -> s_active s = true -> s_want s = true -> s_cur s = Some cur -> get_task s cur = Some ct ->
  slice_left cur ct = true ->
  exists s', sched_irq_end rsp s = Some (rsp, s') /\ sched_inv s' Q L /\ s_cur s' = Some cur /\
    s_want s' = false /\ s_active s' = true /\ s_mem s' = s_mem s /\
    s_pool s' = save_pool cur (set_timeslice (t_timeslice ct - 1) (set_rsp rsp ct)) (s_pool s).
Proof.
  intros Hinv Ha Hw Hcur Hct Hkeep. unfold sched_irq_end. rewrite Ha, Hw, Hcur. cbn [negb orb mbind option_bind].
  unfold slice_left in Hkeep. apply andb_true_iff in Hkeep as [Hkeep Hts]. apply andb_true_iff in Hkeep as [Hk1 Hk2].
  apply bool_decide_eq_true_1 in Hk1, Hk2. apply Z.ltb_lt in Hts.
  destruct cur as [|i]; [done|]. cbn [get_task upd_task with_want s_pool] in *.
  pose proof (lookup_lt_Some _ _ _ Hct) as Hlt. rewrite (list_alter_insert _ _ _ _ Hct).
  cbn [get_task with_pool s_pool]. rewrite list_lookup_insert_eq by done. cbn [mbind option_bind].
  rewrite !bool_decide_true by done. cbn [andb t_timeslice set_rsp].
  destruct (core_run_slot s Q L i ct (fun x => x) Hinv Hcur Hct Hk2) as (Ha1 & Ha2 & Ha3 & Ha4).
  assert (t_quantum ct <= 50).
  { rewrite Ha3. by apply quantum_range. }
  rewrite u32_id by word. bcase; [|lia].
  assert (Hi2 : <[i := set_rsp rsp ct]> (s_pool s) !! i = Some (set_rsp rsp ct)) by (by apply list_lookup_insert_eq).
  eexists. split; [done|]. unfold with_pool. cbn [s_pool s_cur s_want s_active s_mem save_pool].
  rewrite (list_alter_insert _ _ _ _ Hi2), list_insert_insert_eq. split; [|done].
  destruct Hinv as [Hc Hq Hn Hu (c & t0 & Ec & Ht & H3 & H4 & H5) Hid Hl Hst].
  assert (c = Slot i) as -> by congruence. cbn [get_task] in Ht. assert (t0 = ct) as -> by congruence.
  split; cbn [s_pool s_rq s_count s_idle s_heap s_cur s_cr3 s_rsp0]; try done.
  - eapply core_same; [done|done|done|done|]. intros _. repeat (split; [done|]). cbn. lia.
  - intros j u Hj Hcj. apply lookup_insert_cases in Hj as [[-> ->]|[? Hj]]; [|eauto].
    specialize (Hu i ct Ht Hcj). congruence.
  - exists (Slot i). eexists. split; [done|]. cbn [get_task s_pool]. rewrite list_lookup_insert_eq by done.
    repeat (split; [done|]). by left.
  - eapply stacks_same; [done|done|done|congruence].
Qed.

(** A tick that takes the CPU away. *)
Lemma sched_irq_end_switch s Q L cur ct rsp :
  sched_inv s Q L -> s_active s = true -> s_want s = true -> s_cur s = Some cur -> get_task s cur = Some ct ->
  slice_left cur ct = false ->
  let Q1 := requeue cur ct Q in let next := default Idle (pick Q1).1 in
  exists s' nt, get_task s next = Some nt /\
    sched_irq_end rsp s = Some (if decide (next = cur) then rsp else t_rsp nt, s') /\
    sched_inv s' (pick Q1).2 L /\ s_cur s' = Some next /\ s_want s' = false /\ s_active s' = true /\
    s_mem s' = s_mem s /\ s_pool s' = run_pool next (save_pool cur (switch_out cur rsp ct) (s_pool s)).
Proof.
  intros Hinv Ha Hw Hcur Hct Hkeep Q1 next. unfold sched_irq_end. rewrite Ha, Hw, Hcur. cbn [negb orb mbind option_bind].
  unfold slice_left in Hkeep. unfold requeue in Q1. unfold switch_out.
  destruct (bool_decide (cur <> Idle) && bool_decide (t_state ct = TASK_RUNNING)) eqn:Eb; cbn [andb] in Hkeep.
  - pose proof Eb as Eb'. apply andb_true_iff in Eb' as [Hk1 Hk2].
    apply bool_decide_eq_true_1 in Hk1, Hk2. apply Z.ltb_ge in Hkeep.
    destruct cur as [|i]; [done|]. cbn [get_task upd_task with_want s_pool] in *.
    pose proof (lookup_lt_Some _ _ _ Hct) as Hlt. rewrite (list_alter_insert _ _ _ _ Hct).
    cbn [get_task with_pool s_pool]. rewrite list_lookup_insert_eq by done. cbn [mbind option_bind].
    rewrite !bool_decide_true by done. cbn [andb t_timeslice set_rsp].
    destruct (core_run_slot s Q L i ct (fun x => x) Hinv Hcur Hct Hk2) as (Ha1 & Ha2 & Ha3 & Ha4).
    assert (t_timeslice ct = 1) as -> by lia. change (u32 (1 - 1)) with 0. cbn [Z.gtb Z.compare].
    pose proof (irq_requeue_pre s Q L i ct rsp Hinv Hcur Hct Hk2) as Hpre. cbn zeta in Hpre.
    set (t := set_state TASK_READY _) in *.
    assert (Hi2 : <[i := set_rsp rsp ct]> (s_pool s) !! i = Some (set_rsp rsp ct)) by (by apply list_lookup_insert_eq).
    unfold with_pool at 2. cbn [s_pool]. rewrite (list_alter_insert _ _ _ _ Hi2), list_insert_insert_eq.
    unfold with_pool at 1. cbn [s_pool with_pool].
    erewrite (list_alter_insert _ (<[i := _]> (s_pool s)) i) by (by apply list_lookup_insert_eq).
    rewrite list_insert_insert_eq.
    destruct (sched_switch_spec _ _ _ _ _ Hpre) as (s' & nt & Hnt & Hsw & Hinv' & H1 & H2 & H3 & H4 & H5).
    fold Q1 in Hnt, Hsw, Hinv', H1, H4. fold next in Hnt, Hsw, H1, H4.
    destruct (decide (next = Slot i)) as [E|Hne].
    + rewrite E in *. cbn [get_task push_rq with_rq with_pool with_want s_pool] in Hnt.
      rewrite list_lookup_insert_eq in Hnt by done. injection Hnt as <-.
      exists s', ct. split; [done|]. split; [exact Hsw|]. cbn in H2, H3, H5. rewrite H2, H3, H5. by repeat (split; [done|]).
    + exists s', nt. split.
      { destruct next as [|j]; [exact Hnt|]. cbn [get_task push_rq with_rq with_pool with_want s_pool] in Hnt.
        rewrite list_lookup_insert_ne in Hnt by congruence. done. }
      split; [exact Hsw|]. cbn in H2, H3, H5. rewrite H2, H3, H5. by repeat (split; [done|]).
  - pose proof (irq_save_pre s Q L cur ct rsp Hinv Hcur Hct ltac:(by rewrite Eb)) as Hpre.
    assert (Hct' : get_task (upd_task cur (set_rsp rsp) (with_want s false)) cur = Some (set_rsp rsp ct)).
    { destruct cur as [|i]; cbn [get_task upd_task with_idle with_want s_idle with_pool s_pool] in *; [congruence|].
      by rewrite list_lookup_alter_eq, Hct. }
    rewrite Hct'. cbn [mbind option_bind]. cbn [t_state set_rsp]. rewrite Eb.
    destruct (sched_switch_spec _ _ _ _ _ Hpre) as (s' & nt & Hnt & Hsw & Hinv' & H1 & H2 & H3 & H4 & H5).
    fold Q1 in Hnt, Hsw, Hinv', H1, H4. fold next in Hnt, Hsw, H1, H4.
    assert (Ew : s_want (upd_task cur (set_rsp rsp) (with_want s false)) = false) by (by destruct cur).
    assert (Ea : s_active (upd_task cur (set_rsp rsp) (with_want s false)) = true) by (by destruct cur).
    assert (Em : s_mem (upd_task cur (set_rsp rsp) (with_want s false)) = s_mem s) by (by destruct cur).
    assert (Ep : s_pool (upd_task cur (set_rsp rsp) (with_want s false)) = save_pool cur (set_rsp rsp ct) (s_pool s)).
    { destruct cur as [|i]; [done|]. cbn [get_task] in Hct. by apply list_alter_insert. }
    rewrite Ew in H2. rewrite Ea in H3. rewrite Em in H5. rewrite Ep in H4.
    destruct (decide (next = cur)) as [E|Hne].
    + rewrite E in *. rewrite Hct' in Hnt. injection Hnt as <-.
      exists s', ct. split; [done|]. split; [exact Hsw|]. by repeat (split; [done|]).
    + exists s', nt. split; [|split; [exact Hsw|by repeat (split; [done|])]].
      destruct cur as [|i], next as [|j]; cbn [get_task upd_task with_idle with_want s_idle with_pool s_pool] in *; try done.
      rewrite list_lookup_alter_ne in Hnt by congruence. done.
Qed.

(** ** The other operations keep the invariant *)

Lemma sched_flags_inv s Q L w a :
  sched_inv s Q L ->
  sched_inv (Sched (s_pool s) (s_count s) (s_rq s) (s_idle s) (s_cur s) w a (s_cr3 s) (s_ustack_next s)
    (s_rsp0 s) (s_mem s) (s_heap s)) Q L.
Proof. intros [? ? ? ? ? ? ? ?]. split; try done. Qed.

Lemma sched_tick_inv s Q L : sched_inv s Q L -> sched_inv (sched_tick s) Q L.
Proof. intros Hinv. unfold sched_tick. destruct (s_active s); [|done]. by apply sched_flags_inv. Qed.

Lemma sched_run_inv s Q L : sched_inv s Q L -> sched_inv (sched_run s) Q L.
Proof. apply sched_flags_inv. Qed.

(** A change of the current slot that keeps it out of the queues. *)
Lemma sched_upd_cur_inv s Q L i t t' :
  sched_inv s Q L -> s_cur s = Some (Slot i) -> s_pool s !! i = Some t ->
  core (<[i := t']> (s_pool s)) Q (Some i) -> (t_state t' = TASK_RUNNING \/ t_state t' = TASK_DONE) ->
  cr3_of t' = cr3_of t -> t_is_user t' = t_is_user t -> t_stack t' = t_stack t ->
  sched_inv (with_pool s (<[i := t']> (s_pool s))) Q L.
Proof.
  intros [Hc Hq Hn Hu (c & t0 & Ec & Ht & H3 & H4 & H5) Hid Hl Hst] Ecur Hi Hc' Hs' E1 E2 E3.
  assert (c = Slot i) as -> by congruence. cbn [get_task] in Ht. assert (t0 = t) as -> by congruence.
  pose proof (lookup_lt_Some _ _ _ Hi) as Hlt.
  assert (Hrd : t_state t = TASK_RUNNING \/ t_state t = TASK_DONE) by (apply H5; done).
  split; cbn [with_pool s_pool s_rq s_count s_idle s_heap s_cur s_cr3 s_rsp0]; try done.
  - by rewrite Ecur.
  - intros j u Hj Hcj. apply lookup_insert_cases in Hj as [[-> ->]|[? Hj]]; [|eauto].
    specialize (Hu i t Hi Hcj). destruct Hrd; congruence.
  - exists (Slot i), t'. cbn [get_task with_pool s_pool]. rewrite list_lookup_insert_eq by done.
    split; [done|]. split; [done|]. rewrite E1, E2, E3. done.
  - eapply stacks_same; [done|done|done|]. destruct Hrd; congruence.
Qed.

Lemma sched_done_inv s Q L i t :
  sched_inv s Q L -> s_cur s = Some (Slot i) -> s_pool s !! i = Some t ->
  sched_inv (with_want (upd_task (Slot i) (set_state TASK_DONE) s) true) Q L.
Proof.
  intros Hinv Ecur Hi. apply sched_flags_inv. cbn [upd_task]. rewrite (list_alter_insert _ _ _ _ Hi).
  eapply sched_upd_cur_inv; try done; [|by right].
  pose proof (si_core _ _ _ Hinv) as Hc. rewrite Ecur in Hc.
  destruct (si_cur _ _ _ Hinv) as (c & t0 & Ec & Ht & _ & _ & H5). assert (c = Slot i) as -> by congruence.
  cbn [get_task] in Ht. assert (t0 = t) as -> by congruence.
  apply core_done; [done|done|]. destruct H5; congruence.
Qed.

Lemma sched_kill_current_inv s Q L : sched_inv s Q L -> sched_inv (sched_kill_current s) Q L.
Proof.
  intros Hinv. unfold sched_kill_current. destruct (s_cur s) as [[|i]|] eqn:E; [done| |done].
  destruct (si_cur _ _ _ Hinv) as (c & t & Ec & Ht & _). assert (c = Slot i) as -> by congruence.
  by eapply sched_done_inv.
Qed.

Lemma sched_exit_inv s s' Q L :
  sched_inv s Q L -> s_cur s <> Some Idle -> sched_exit s = Some s' -> sched_inv s' Q L.
Proof.
  intros Hinv Hne. unfold sched_exit. destruct (s_cur s) as [[|i]|] eqn:E; [done| |done].
  intros [= <-]. destruct (si_cur _ _ _ Hinv) as (c & t & Ec & Ht & _). assert (c = Slot i) as -> by congruence.
  by eapply sched_done_inv.
Qed.

Lemma sched_want_reschedule_inv s s' Q L :
  sched_inv s Q L -> sched_want_reschedule s = Some s' -> sched_inv s' Q L.
Proof.
  intros Hinv. unfold sched_want_reschedule. destruct (s_cur s) as [c|] eqn:E; [|done]. cbn [mbind option_bind].
  destruct (get_task s c) as [t|] eqn:Et; [|done]. cbn [mbind option_bind]. intros [= <-].
  apply sched_flags_inv. destruct (bool_decide (c <> Idle) && bool_decide (t_state t = TASK_RUNNING)) eqn:Eb; [|done].
  apply andb_true_iff in Eb as [Hk1 Hk2]. apply bool_decide_eq_true_1 in Hk1, Hk2.
  destruct c as [|i]; [done|]. cbn [upd_task get_task] in *. rewrite (list_alter_insert _ _ _ _ Et).
  pose proof (si_core _ _ _ Hinv) as Hc. rewrite E in Hc.
  destruct (co_attr _ _ _ Hc i t Et ltac:(by right)) as (? & ? & ? & ?).
  eapply sched_upd_cur_inv; try done; [|by left]. eapply core_same; [done|done|done|done|].
  intros _. repeat (split; [done|]). cbn. lia.
Qed.

(** Any entry of the timer hook. *)
Lemma sched_irq_end_inv s Q L rsp :
  sched_inv s Q L -> exists r s' Q', sched_irq_end rsp s = Some (r, s') /\ sched_inv s' Q' L.
Proof.
  intros Hinv. destruct (s_active s) eqn:Ha; [destruct (s_want s) eqn:Hw|].
  2-3: exists rsp, s, Q; unfold sched_irq_end; rewrite Ha; try rewrite Hw; done.
  destruct (si_cur _ _ _ Hinv) as (c & t & Ec & Ht & _).
  destruct (slice_left c t) eqn:Ek.
  - destruct (sched_irq_end_keep s Q L c t rsp Hinv Ha Hw Ec Ht Ek) as (s' & E & Hinv' & _). eauto.
  - destruct (sched_irq_end_switch s Q L c t rsp Hinv Ha Hw Ec Ht Ek) as (s' & nt & _ & E & Hinv' & _). eauto.
Qed.

(** ** Submission of each kind *)

Lemma prio_task_ok name func arg priority (i : nat) stack :
  0 <= priority < PRIO_LEVELS ->
  let t := Task 0 (Z.of_nat i) (task_set_name name) TASK_READY priority (-1) stack (prio_quantum priority)
             (prio_quantum priority) func arg 0 0 0 fd_table0 0 0 0 0 in
  t_state t = TASK_READY /\ attr_ok i t /\ t_stack t = stack.
Proof. intros Hp. pose proof (quantum_range _ Hp). split; [done|]. split; [|done]. repeat (split; [done|]). cbn; lia. Qed.

Lemma user_task_ok name func arg ustack cr3 (i : nat) stack :
  let t := Task 0 (Z.of_nat i) (task_set_name name) TASK_READY PRIO_NORMAL (-1) stack (prio_quantum PRIO_NORMAL)
             (prio_quantum PRIO_NORMAL) func arg 1 ustack cr3 fd_table0 0 0 0 0 in
  t_state t = TASK_READY /\ attr_ok i t /\ t_stack t = stack.
Proof. split; [done|]. split; [|done]. repeat (split; [done|]). by vm_compute. Qed.

(** The fresh stack in address terms. *)
Lemma fresh_stack_range s Q L stack :
  sched_inv s Q (<[stack := TASK_STACK_SZ]> L) -> 0 < stack /\ stack + 8192 < 18446744073709551616.
Proof.
  intros Hinv. destruct (kalloc_in _ _ stack TASK_STACK_SZ (si_live _ _ _ Hinv) (lookup_insert_eq _ _ _)).
  destruct (kalloc_bounds (H := H)). unfold TASK_STACK_SZ in *. lia.
Qed.

(** [sched_submit_prio] of sched.c: a failed submission (no function, bad
    priority, full pool, no stack) changes no task and no queue; otherwise a
    FREE or DONE slot gets a READY task at the end of the queue of its
    priority, with a stack no other used slot has, and with a frame inside
    that stack that starts the ring-0 trampoline with interrupts enabled on
    an empty stack; other slots and other memory are untouched. *)
Theorem sched_submit_prio_correct (name : list Z) (func arg priority : Z) s Q L :
  sched_inv s Q L -> caller_running s -> 0 <= priority < 256 -> in_u64 task_trampoline ->
  match sched_submit_prio fd_table0 task_trampoline name func arg priority s with
  | (None, s') => s_pool s' = s_pool s /\ s_rq s' = s_rq s /\ s_cur s' = s_cur s /\ sched_inv s' Q L
  | (Some i, s') => exists stack t, func <> 0 /\ priority < PRIO_LEVELS /\ L !! stack = None /\
      s_pool s' = <[i := t]> (s_pool s) /\ s_cur s' = s_cur s /\
      (exists t0, s_pool s !! i = Some t0 /\ (t_state t0 = TASK_FREE \/ t_state t0 = TASK_DONE)) /\
      t_stack t = stack /\ t_func t = func /\ t_arg t = arg /\ t_cr3 t = 0 /\ t_is_user t = 0 /\
      t_fd_table t = fd_table0 /\ t_rsp t = stack + TASK_STACK_SZ - 176 /\
      frame_restore (t_rsp t) (s_mem s') =
        Some (Regs 0 0 0 0 0 0 0 0 0 0 0 0 0 0 0 0 0 task_trampoline 0x08 0x202 (stack + TASK_STACK_SZ) 0x10) /\
      (forall a, a < stack \/ stack + TASK_STACK_SZ <= a -> s_mem s' !! a = s_mem s !! a) /\
      sched_inv s' (alter (fun l => l ++ [Slot i]) (Z.to_nat priority) Q) (<[stack := TASK_STACK_SZ]> L)
  end.
Proof.
  intros Hinv Hrun Hp Htr. unfold sched_submit_prio.
  destruct (Z.eqb_spec func 0); cbn [orb]; [done|]. rewrite Z.geb_leb. destruct (Z.leb_spec PRIO_LEVELS priority); [done|].
  pose proof (submit_slot_spec _ (task_init_stack task_trampoline) s Q L Hinv Hrun
    (fun i stack => prio_task_ok name func arg priority i stack ltac:(lia))) as Hspec. cbv zeta in Hspec.
  destruct (submit_slot _ _ s) as [[i|] s']; [|done].
  destruct Hspec as (stack & t0 & Ht0 & Hs0 & HL & Hspec). unfold task_init_stack in Hspec at 1.
  cbn [t_stack] in Hspec. set (top := u64 (stack + TASK_STACK_SZ)) in Hspec.
  destruct (frame_build _ _ _ _ _ _ _ _) as [rsp mem] eqn:Ef.
  destruct Hspec as (Hpool & Hmem & Hcur & Hinv'). cbn [t_priority] in Hinv'.
  destruct (fresh_stack_range _ _ _ _ Hinv') as [Hlo Hhi].
  assert (Htop : top = stack + TASK_STACK_SZ) by (unfold top, TASK_STACK_SZ; apply u64_id; word).
  pose proof (frame_build_restore top task_trampoline GDT_KERNEL_CS GDT_KERNEL_DS top 0 0 (s_mem s)) as Hf.
  rewrite Ef in Hf. destruct Hf as (Hrsp & Hres & Hout); [rewrite Htop; unfold TASK_STACK_SZ; lia|].
  exists stack. eexists. do 3 (split; [done|]). split; [exact Hpool|]. split; [done|]. split; [eauto|].
  cbn [t_stack set_rsp t_func t_arg t_cr3 t_is_user t_fd_table t_rsp]. do 6 (split; [done|]).
  split; [lia|]. split.
  { rewrite Hmem, Hres, (u64_id top), (u64_id task_trampoline), Htop by (done || (rewrite Htop; unfold TASK_STACK_SZ; word)). done. }
  split; [|done]. intros a Ha. rewrite Hmem. apply Hout. unfold TASK_STACK_SZ in *. lia.
Qed.

(** Of sched.c, [sched_submit_user_as]: submission of a process with its own
    address space: the frame enters the ring-3 trampoline with the ring-3
    selectors, on the given user stack, with the entry point and its argument
    in the argument registers; the frame itself lies in a fresh kernel stack. *)
Theorem sched_submit_user_as_correct (name : list Z) (entry arg cr3 user_stack_top : Z) s Q L :
  sched_inv s Q L -> caller_running s ->
  in_u64 user_task_trampoline -> in_u64 entry -> in_u64 arg -> in_u64 user_stack_top ->
  match sched_submit_user_as fd_table0 user_task_trampoline name entry arg cr3 user_stack_top s with
  | (None, s') => s_pool s' = s_pool s /\ s_rq s' = s_rq s /\ s_cur s' = s_cur s /\ sched_inv s' Q L
  | (Some i, s') => exists stack t, entry <> 0 /\ cr3 <> 0 /\ L !! stack = None /\
      s_pool s' = <[i := t]> (s_pool s) /\ s_cur s' = s_cur s /\
      (exists t0, s_pool s !! i = Some t0 /\ (t_state t0 = TASK_FREE \/ t_state t0 = TASK_DONE)) /\
      t_stack t = stack /\ t_cr3 t = cr3 /\ t_is_user t = 1 /\ t_fd_table t = fd_table0 /\
      t_as t = 0 /\ t_heap_end t = 0 /\ t_rsp t = stack + TASK_STACK_SZ - 176 /\
      frame_restore (t_rsp t) (s_mem s') =
        Some (Regs 0 0 0 0 0 0 0 0 0 entry arg 0 0 0 0 0 0 user_task_trampoline 0x23 0x202 user_stack_top 0x2B) /\
      (forall a, a < stack \/ stack + TASK_STACK_SZ <= a -> s_mem s' !! a = s_mem s !! a) /\
      sched_inv s' (alter (fun l => l ++ [Slot i]) 2%nat Q) (<[stack := TASK_STACK_SZ]> L)
  end.
Proof.
  intros Hinv Hrun Htr Hen Har Hus. unfold sched_submit_user_as.
  destruct (Z.eqb_spec entry 0); cbn [orb]; [done|]. destruct (Z.eqb_spec cr3 0); [done|].
  pose proof (submit_slot_spec _ (task_init_stack_user_as user_task_trampoline user_stack_top) s Q L Hinv Hrun
    (fun i stack => user_task_ok name entry arg 0 cr3 i stack)) as Hspec. cbv zeta in Hspec.
  destruct (submit_slot _ _ s) as [[i|] s']; [|done].
  destruct Hspec as (stack & t0 & Ht0 & Hs0 & HL & Hspec). unfold task_init_stack_user_as in Hspec at 1.
  cbn [t_stack t_func t_arg] in Hspec. set (top := u64 (stack + TASK_STACK_SZ)) in Hspec.
  destruct (frame_build _ _ _ _ _ _ _ _) as [rsp mem] eqn:Ef.
  destruct Hspec as (Hpool & Hmem & Hcur & Hinv'). cbn [t_priority] in Hinv'.
  destruct (fresh_stack_range _ _ _ _ Hinv') as [Hlo Hhi].
  assert (Htop : top = stack + TASK_STACK_SZ) by (unfold top, TASK_STACK_SZ; apply u64_id; word).
  pose proof (frame_build_restore top user_task_trampoline (Z.lor GDT_USER_CS 3) (Z.lor GDT_USER_DS 3)
    user_stack_top entry arg (s_mem s)) as Hf.
  rewrite Ef in Hf. destruct Hf as (Hrsp & Hres & Hout); [rewrite Htop; unfold TASK_STACK_SZ; lia|].
  exists stack. eexists. do 3 (split; [done|]). split; [exact Hpool|]. split; [done|]. split; [eauto|].
  cbn [t_stack set_rsp t_func t_arg t_cr3 t_is_user t_fd_table t_rsp t_as t_heap_end]. do 6 (split; [done|]).
  split; [lia|]. split.
  { rewrite Hmem, Hres, (u64_id entry), (u64_id arg), (u64_id user_task_trampoline), (u64_id user_stack_top) by done. done. }
  split; [|done]. intros a Ha. rewrite Hmem. apply Hout. unfold TASK_STACK_SZ in *. lia.
Qed.


(** ** The theorems *)

(** C5 (sched.c, [sched_irq_end]): with scheduling on and requested, the hook
    returns, clears the request and keeps the invariant. A running task whose
    slice is not used up goes on with one tick less and its own stack pointer.
    Otherwise an expired task joins the end of the queue of its priority with
    a full slice, the head of the first non-empty queue (the idle task when
    there is none) becomes current, and the stack pointer returned is the one
    saved when that task last left the CPU. *)
Theorem sched_irq_end_correct (cur_rsp : Z) s Q L cur ct :
  sched_inv s Q L -> s_active s = true -> s_want s = true -> s_cur s = Some cur -> get_task s cur = Some ct ->
  exists r s', sched_irq_end cur_rsp s = Some (r, s') /\ s_want s' = false /\ s_mem s' = s_mem s /\
    if slice_left cur ct then
      r = cur_rsp /\ s_cur s' = Some cur /\ sched_inv s' Q L /\
      s_pool s' = save_pool cur (set_timeslice (t_timeslice ct - 1) (set_rsp cur_rsp ct)) (s_pool s)
    else
      let Q1 := requeue cur ct Q in let next := default Idle (pick Q1).1 in
      exists nt, get_task s next = Some nt /\ r = (if decide (next = cur) then cur_rsp else t_rsp nt) /\
        s_cur s' = Some next /\ sched_inv s' (pick Q1).2 L /\
        s_pool s' = run_pool next (save_pool cur (switch_out cur cur_rsp ct) (s_pool s)).
Proof.
  intros Hinv Ha Hw Hc Ht. destruct (slice_left cur ct) eqn:Ek.
  - destruct (sched_irq_end_keep s Q L cur ct cur_rsp Hinv Ha Hw Hc Ht Ek) as (s' & E & Hi & H1 & H2 & _ & H4 & H5).
    exists cur_rsp, s'. by repeat (split; [done|]).
  - destruct (sched_irq_end_switch s Q L cur ct cur_rsp Hinv Ha Hw Hc Ht Ek) as (s' & nt & Hn & E & Hi & H1 & H2 & _ & H4 & H5).
    eexists _, s'. split; [done|]. do 2 (split; [done|]). exists nt. by repeat (split; [done|]).
Qed.

(** Everything that can happen to the scheduler after boot: only a running
    task submits, and the idle task does not exit. *)
Inductive step : sched_t FD H -> sched_t FD H -> Prop :=
| step_submit name func arg priority s : caller_running s -> 0 <= priority < 256 ->
    step s (sched_submit_prio fd_table0 task_trampoline name func arg priority s).2
| step_submit_user name entry arg s : caller_running s ->
    step s (sched_submit_user fd_table0 user_task_trampoline user_stack_pool name entry arg s).2
| step_submit_user_as name entry arg cr3 top s : caller_running s ->
    step s (sched_submit_user_as fd_table0 user_task_trampoline name entry arg cr3 top s).2
| step_run s : step s (sched_run s)
| step_tick s : step s (sched_tick s)
| step_irq_end rsp r s s' : sched_irq_end rsp s = Some (r, s') -> step s s'
| step_kill s : step s (sched_kill_current s)
| step_want s s' : sched_want_reschedule s = Some s' -> step s s'
| step_exit s s' : s_cur s <> Some Idle -> sched_exit s = Some s' -> step s s'.

Lemma submit_slot_inv mk frame s Q L :
  sched_inv s Q L -> caller_running s ->
  (forall i stack, t_state (mk i stack) = TASK_READY /\ attr_ok i (mk i stack) /\ t_stack (mk i stack) = stack) ->
  exists Q' L', sched_inv (submit_slot mk frame s).2 Q' L'.
Proof.
  intros Hinv Hr Hmk. pose proof (submit_slot_spec mk frame s Q L Hinv Hr Hmk) as Hs.
  destruct (submit_slot mk frame s) as [[i|] s']; cbn [snd].
  - destruct Hs as (stack & t0 & _ & _ & _ & Hs). cbv zeta in Hs. destruct (frame _ _). destruct Hs as (_ & _ & _ & Hs). eauto.
  - destruct Hs as (_ & _ & _ & Hs). eauto.
Qed.

Lemma step_inv s s' Q L : step s s' -> sched_inv s Q L -> exists Q' L', sched_inv s' Q' L'.
Proof.
  intros Hstep Hinv. destruct Hstep.
  - unfold sched_submit_prio. destruct (_ =? 0); cbn [orb]; [eauto|].
    rewrite Z.geb_leb. destruct (Z.leb_spec PRIO_LEVELS priority); [eauto|].
    eapply submit_slot_inv; [done..|]. intros. apply prio_task_ok. lia.
  - unfold sched_submit_user. bcase; [eauto|]. bcase; [eauto|].
    match goal with |- context [submit_slot ?mk ?fr ?s] =>
      destruct (submit_slot_inv mk fr s Q L Hinv) as (Q' & L' & Hinv') end; [done|intros; apply user_task_ok|].
    destruct (submit_slot _ _ _) as [[i|] s']; [|eauto]. exists Q', L'. cbn [snd] in *.
    destruct Hinv' as [? ? ? ? ? ? ? ?]. by split.
  - unfold sched_submit_user_as. destruct (_ || _); [eauto|].
    eapply submit_slot_inv; [done..|]. intros. apply user_task_ok.
  - eauto using sched_run_inv.
  - eauto using sched_tick_inv.
  - destruct (sched_irq_end_inv s Q L rsp Hinv) as (r' & s1 & Q' & E & Hi). simplify_eq. eauto.
  - eauto using sched_kill_current_inv.
  - eauto using sched_want_reschedule_inv.
  - eauto using sched_exit_inv.
Qed.

Lemma rtc_step_inv s s' Q L : rtc step s s' -> sched_inv s Q L -> exists Q' L', sched_inv s' Q' L'.
Proof.
  intros Hr. revert Q L. induction Hr as [|s s1 s2 Hs Hr IH]; intros Q L Hinv; [eauto|].
  destruct (step_inv _ _ _ _ Hs Hinv) as (Q' & L' & Hinv'). eauto.
Qed.

(** C2 (sched.c): in every state reached from boot by any interleaving of
    submissions, timer interrupts, yields, kills and exits, there is a current
    task; a slot is READY exactly when it is in the run queue of its priority,
    and it is there once; no slot but the current one is RUNNING; CR3 is the
    address space of the current task; no two used slots share a kernel stack. *)
Theorem sched_reachable_ok (h : H) (L0 : gmap Z Z) s :
  kalloc_live h L0 -> rtc step (sched_init (sched_bss fd_table0 h)) s ->
  exists Q, Forall2 rq_repr (s_rq s) Q /\ length Q = 4%nat /\
    (forall i t, s_pool s !! i = Some t -> forall p l, Q !! p = Some l ->
      (Slot i ∈ l <-> t_state t = TASK_READY /\ t_priority t = Z.of_nat p)) /\
    (forall p l, Q !! p = Some l -> NoDup l) /\
    (forall i t, s_pool s !! i = Some t -> t_state t = TASK_RUNNING -> s_cur s = Some (Slot i)) /\
    (exists c t, s_cur s = Some c /\ get_task s c = Some t /\ s_cr3 s = cr3_of t) /\
    (forall i j ti tj, s_pool s !! i = Some ti -> s_pool s !! j = Some tj -> i <> j ->
      t_state ti <> TASK_FREE -> t_state tj <> TASK_FREE ->
      disjoint_range (t_stack ti) TASK_STACK_SZ (t_stack tj) TASK_STACK_SZ).
Proof.
  intros Hl Hr. destruct (rtc_step_inv _ _ _ _ Hr (sched_boot_inv h L0 Hl)) as (Q & L & Hinv).
  destruct Hinv as [Hc Hq Hn Hu Hcur Hid Hlv Hst]. exists Q.
  split; [done|]. split; [apply Hc|]. split; [|split; [apply Hc|split; [|split]]].
  - intros i t Hi p l Hp. split.
    + intros Hin. destruct (co_sound _ _ _ Hc p l _ Hp Hin) as (j & u & [= <-] & Hj & ? & ?). by simplify_eq.
    + intros [Hs Hpr]. destruct (co_complete _ _ _ Hc i t Hi Hs) as (l' & Hl' & Hin).
      rewrite Hpr, Nat2Z.id in Hl'. congruence.
  - intros i t Hi Hs. pose proof (co_run _ _ _ Hc i t Hi Hs) as E. destruct (s_cur s) as [[|j]|]; simplify_eq/=; done.
  - destruct Hcur as (c & t & ? & ? & ? & _). eauto.
  - intros i j ti tj Hi Hj Hne Hfi Hfj.
    destruct (st_live _ _ Hst i ti Hi Hfi) as [Hli _]. destruct (st_live _ _ Hst j tj Hj Hfj) as [Hlj _].
    eapply kalloc_disjoint; [done..|]. intros E. by destruct (Hne (st_inj _ _ Hst i j ti tj Hi Hj Hfi Hfj E)).
Qed.

(** ** Progress *)

(** [n] timer interrupts: the tick, then the hook with the interrupted stack
    pointer. *)
Fixpoint run_ticks (n : nat) (rsps : nat -> Z) s : option (sched_t FD H) :=
  match n with
  | O => Some s
  | Datatypes.S n => r ← sched_irq_end (rsps 0%nat) (sched_tick s); run_ticks n (fun k => rsps (Datatypes.S k)) r.2
  end.

(** The ticks the current task still has. *)
Definition ticks_left s : nat :=
  match s_cur s with
  | Some (Slot i) =>
    match s_pool s !! i with
    | Some t => if bool_decide (t_state t = TASK_RUNNING) then Z.to_nat (t_timeslice t) else 1
    | None => 1
    end
  | _ => 1
  end.

(** The current task is not more urgent than level [p]. *)
Definition not_above (p : nat) s : Prop :=
  forall i t, s_cur s = Some (Slot i) -> s_pool s !! i = Some t -> t_state t = TASK_RUNNING ->
    Z.of_nat p <= t_priority t.

(** What the requeueing of the current task does to level [p]. *)
Lemma requeue_level cur ct (Q : list (list tid)) p l k x :
  (cur <> Idle -> t_state ct = TASK_RUNNING -> Z.of_nat p <= t_priority ct) ->
  Q !! p = Some l -> l !! k = Some x -> (forall p', (p' < p)%nat -> Q !! p' = Some []) ->
  exists l', requeue cur ct Q !! p = Some l' /\ l' !! k = Some x /\
    forall p', (p' < p)%nat -> requeue cur ct Q !! p' = Some [].
Proof.
  intros Hab Hp Hk Hlow. unfold requeue.
  destruct (bool_decide_reflect (cur <> Idle)); cbn [andb]; [|eauto].
  destruct (bool_decide_reflect (t_state ct = TASK_RUNNING)); [|eauto].
  specialize (Hab ltac:(done) ltac:(done)).
  assert (Hlow' : forall p', (p' < p)%nat ->
    alter (fun l => l ++ [cur]) (Z.to_nat (t_priority ct)) Q !! p' = Some []).
  { intros p' Hp'. rewrite list_lookup_alter_ne by lia. auto. }
  destruct (decide (p = Z.to_nat (t_priority ct))) as [->|].
  - exists (l ++ [cur]). rewrite list_lookup_alter_eq, Hp. split; [done|]. split; [|done]. by apply lookup_app_l_Some.
  - exists l. rewrite list_lookup_alter_ne by done. done.
Qed.

Lemma pick_level (Q : list (list tid)) p h l :
  Q !! p = Some (h :: l) -> (forall p', (p' < p)%nat -> Q !! p' = Some []) -> pick Q = (Some h, <[p := l]> Q).
Proof.
  revert p. induction Q as [|l0 Q IH]; intros [|p] Hp Hlow; [done|done| |].
  - cbn in Hp. injection Hp as ->. done.
  - pose proof (Hlow 0%nat ltac:(lia)) as E. injection E as ->. cbn [pick].
    rewrite (IH p); [done|done|]. intros p' Hp'. apply (Hlow (Datatypes.S p')). lia.
Qed.

Lemma ticks_left_pos s Q L : sched_inv s Q L -> (1 <= ticks_left s)%nat.
Proof.
  intros Hinv. unfold ticks_left. destruct (s_cur s) as [[|i]|]; [lia| |lia].
  destruct (s_pool s !! i) as [t|] eqn:E; [|lia]. destruct (bool_decide_reflect (t_state t = TASK_RUNNING)); [|lia].
  destruct (co_attr _ _ _ (si_core _ _ _ Hinv) i t E ltac:(by right)) as (_ & _ & _ & ?). lia.
Qed.

Lemma ticks_left_bound s Q L : sched_inv s Q L -> (ticks_left s <= 50)%nat.
Proof.
  intros Hinv. unfold ticks_left. destruct (s_cur s) as [[|i]|]; [lia| |lia].
  destruct (s_pool s !! i) as [t|] eqn:E; [|lia]. destruct (bool_decide_reflect (t_state t = TASK_RUNNING)); [|lia].
  destruct (co_attr _ _ _ (si_core _ _ _ Hinv) i t E ltac:(by right)) as (_ & Hp & Hq & ?).
  pose proof (quantum_range _ Hp). lia.
Qed.

(** The task chosen from level [p] has priority [p]. *)
Lemma running_head s Q L p cur ct h rsp l :
  sched_inv s Q L -> s_cur s = Some cur -> get_task s cur = Some ct ->
  requeue cur ct Q !! p = Some l -> h ∈ l ->
  exists i t, h = Slot i /\ run_pool h (save_pool cur (switch_out cur rsp ct) (s_pool s)) !! i = Some t /\
    t_state t = TASK_RUNNING /\ t_priority t = Z.of_nat p.
Proof.
  intros Hinv Hcur Hct Hl Hin.
  assert (Hcase : (exists i u, h = Slot i /\ s_pool s !! i = Some u /\ t_priority u = Z.of_nat p)).
  { unfold requeue in Hl. pose proof (si_core _ _ _ Hinv) as Hc.
    destruct (bool_decide_reflect (cur <> Idle)) as [Hne|]; cbn [andb] in Hl;
      [destruct (bool_decide_reflect (t_state ct = TASK_RUNNING)) as [Hs|]|].
    2-3: destruct (co_sound _ _ _ Hc p l h Hl Hin) as (i & u & ? & ? & _ & ?); eauto.
    destruct cur as [|c]; [done|]. cbn [get_task] in Hct.
    destruct (co_attr _ _ _ Hc c ct Hct ltac:(by right)) as (_ & Hp & _ & _).
    destruct (decide (p = Z.to_nat (t_priority ct))) as [->|].
    - rewrite list_lookup_alter_eq in Hl. destruct (Q !! _) as [l0|] eqn:E; [|done]. injection Hl as <-.
      apply elem_of_app in Hin as [Hin| ->%list_elem_of_singleton].
      + destruct (co_sound _ _ _ Hc _ l0 h E Hin) as (i & u & ? & ? & _ & ?); eauto.
      + exists c, ct. do 2 (split; [done|]). lia.
    - rewrite list_lookup_alter_ne in Hl by done.
      destruct (co_sound _ _ _ Hc p l h Hl Hin) as (i & u & ? & ? & _ & ?); eauto. }
  destruct Hcase as (i & u & -> & Hi & Hp). exists i. cbn [run_pool]. rewrite list_lookup_alter_eq.
  pose proof (lookup_lt_Some _ _ _ Hi) as Hlt. destruct cur as [|c]; cbn [save_pool get_task] in *.
  - exists (set_state TASK_RUNNING u). by rewrite Hi.
  - destruct (decide (c = i)) as [->|].
    + rewrite list_lookup_insert_eq by done. eexists. do 2 (split; [done|]). split; [done|].
      unfold switch_out. assert (u = ct) as -> by congruence. by destruct (_ && _).
    + exists (set_state TASK_RUNNING u). rewrite list_lookup_insert_ne by done. by rewrite Hi.
Qed.

(** One tick makes [x] current, moves it forward in its queue, or shortens
    the slice of the current task. *)
Lemma tick_progress rsp s Q L p l k x :
  sched_inv s Q L -> s_active s = true -> Q !! p = Some l -> l !! k = Some x ->
  (forall p', (p' < p)%nat -> Q !! p' = Some []) -> not_above p s ->
  exists r s1, sched_irq_end rsp (sched_tick s) = Some (r, s1) /\
    (s_cur s1 = Some x \/
     exists Q1 L1 l1 k1, sched_inv s1 Q1 L1 /\ s_active s1 = true /\ Q1 !! p = Some l1 /\ l1 !! k1 = Some x /\
       (forall p', (p' < p)%nat -> Q1 !! p' = Some []) /\ not_above p s1 /\
       (50 * k1 + ticks_left s1 < 50 * k + ticks_left s)%nat).
Proof.
  intros Hinv0 Hact Hp Hk Hlow Hab. pose proof (sched_tick_inv s Q L Hinv0) as Hinv.
  unfold sched_tick in *. rewrite Hact in *.
  destruct (si_cur _ _ _ Hinv) as (cur & ct & Hcur & Hct & _ & _ & _).
  destruct (slice_left cur ct) eqn:Ek.
  - destruct (sched_irq_end_keep _ Q L cur ct rsp Hinv Hact eq_refl Hcur Hct Ek) as (s1 & E & Hi & Hc1 & _ & Ha1 & _ & Hp1).
    exists rsp, s1. split; [done|right]. exists Q, L, l, k. do 5 (split; [done|]).
    apply andb_true_iff in Ek as [Ek Hts]. apply andb_true_iff in Ek as [Hk1 Hk2].
    apply bool_decide_eq_true_1 in Hk1, Hk2. apply Z.ltb_lt in Hts. destruct cur as [|i]; [done|].
    cbn [get_task with_want s_pool s_cur save_pool] in *. pose proof (lookup_lt_Some _ _ _ Hct) as Hlt. split.
    + intros j t Hj Htj Hst. rewrite Hc1 in Hj. injection Hj as <-. rewrite Hp1, list_lookup_insert_eq in Htj by done.
      injection Htj as <-. cbn. by apply (Hab i ct).
    + unfold ticks_left. rewrite Hc1, Hp1, Hcur, Hct, list_lookup_insert_eq by done. cbn [t_state set_timeslice set_rsp t_timeslice].
      rewrite bool_decide_true by done. lia.
  - destruct (sched_irq_end_switch _ Q L cur ct rsp Hinv Hact eq_refl Hcur Hct Ek) as (s1 & nt & Hn & E & Hi & Hc1 & _ & Ha1 & _ & Hp1).
    cbn zeta in *. eexists _, s1. split; [exact E|].
    destruct (requeue_level cur ct Q p l k x) as (l' & Hl' & Hk' & Hlow'); [|done..|].
    { intros Hne Hs. destruct cur as [|i]; [done|]. by apply (Hab i ct). }
    destruct l' as [|h l'']; [done|]. pose proof (pick_level _ p h l'' Hl' Hlow') as Epick.
    rewrite Epick in Hi, Hc1, Hp1. cbn [fst snd] in *. unfold default, id in Hc1, Hp1.
    destruct k as [|k]; [left; cbn in Hk'; congruence|right].
    pose proof (lookup_lt_Some _ _ _ Hl') as HltQ.
    exists (<[p := l'']> (requeue cur ct Q)), L, l'', k. do 2 (split; [done|]).
    rewrite list_lookup_insert_eq by done. split; [done|]. split; [done|]. split.
    { intros p' Hp'. rewrite list_lookup_insert_ne by lia. auto. }
    (* the head [h] runs now, with the priority of the level *)
    assert (Hh : exists i t, h = Slot i /\ s_pool s1 !! i = Some t /\ t_state t = TASK_RUNNING /\ t_priority t = Z.of_nat p).
    { rewrite Hp1. eapply (running_head _ Q L p cur ct h rsp (h :: l'')); [done..|by left]. }
    destruct Hh as (i & t & -> & Hit & Hst & Hpr). split.
    + intros j u Hj Huj Hsu. rewrite Hc1 in Hj. injection Hj as <-. assert (u = t) as -> by congruence. lia.
    + pose proof (ticks_left_bound s1 _ _ Hi). pose proof (ticks_left_pos s Q L Hinv0). lia.
Qed.

(** C4 (sched.c): no starvation within a level. If every level before [p] is
    empty, the running task is not more urgent than [p], and task [x] is at
    position [k] of the queue of level [p], then after at most
    [50 * k + 50] timer ticks (50 is the longest quantum), whatever the stack
    pointers interrupted, [x] is the current task. *)
Theorem sched_no_starvation (rsps : nat -> Z) s Q L p l k x :
  sched_inv s Q L -> s_active s = true -> Q !! p = Some l -> l !! k = Some x ->
  (forall p', (p' < p)%nat -> Q !! p' = Some []) -> not_above p s ->
  exists n s', (n <= 50 * k + 50)%nat /\ run_ticks n rsps s = Some s' /\ s_cur s' = Some x.
Proof.
  intros Hinv Hact Hp Hk Hlow Hab.
  enough (exists n s', (n <= 50 * k + ticks_left s)%nat /\ run_ticks n rsps s = Some s' /\ s_cur s' = Some x) as (n & s' & Hn & ?).
  { exists n, s'. split; [|done]. enough (ticks_left s <= 50)%nat by lia. by eapply ticks_left_bound. }
  remember (50 * k + ticks_left s)%nat as m eqn:Em. revert rsps s Q L l k Hinv Hact Hp Hk Hlow Hab Em.
  induction (lt_wf m) as [m _ IH]. intros rsps s Q L l k Hinv Hact Hp Hk Hlow Hab Em.
  destruct (tick_progress (rsps 0%nat) s Q L p l k x Hinv Hact Hp Hk Hlow Hab) as (r & s1 & E & [Hx|Hnx]).
  - exists 1%nat, s1. cbn [run_ticks]. rewrite E. split; [|done].
    enough (1 <= ticks_left s)%nat by lia. by eapply ticks_left_pos.
  - destruct Hnx as (Q1 & L1 & l1 & k1 & Hinv1 & Hact1 & Hp1 & Hk1 & Hlow1 & Hab1 & Hlt).
    destruct (IH (50 * k1 + ticks_left s1)%nat ltac:(lia) (fun j => rsps (Datatypes.S j)) s1 Q1 L1 l1 k1) as (n & s' & Hn & Hrun & Hc);
      [done..|]. exists (Datatypes.S n), s'. cbn [run_ticks]. rewrite E. split; [lia|done].
Qed.
End Ops.

(** ** Concrete runs

    The scheduler over the bump allocator, with one task submitted. *)
Section Demo.

Lemma demo_range : 0 < 0x10000 /\ 0x10000 <= 0x100000 < 4503599627370496 /\ 0x10000 mod 4096 = 0.
Proof. by vm_compute. Qed.

Definition demo_kalloc : Kalloc Z := bump_kalloc 0x10000 0x100000 demo_range.
#[local] Existing Instance demo_kalloc.

Definition demo_boot : sched_t unit Z := sched_init (sched_bss [] 0x10000).
Definition demo : sched_t unit Z := (sched_submit_prio [] 0x5000 [] 0x6000 7 2 demo_boot).2.

Lemma demo_boot_inv : sched_inv demo_boot [[]; []; []; []] ∅.
Proof. apply sched_boot_inv, bump_boot, demo_range. Qed.

Lemma demo_boot_caller : caller_running demo_boot.
Proof. by intros i t [=]. Qed.

Lemma demo_inv : exists L, sched_inv demo [[]; []; [Slot 0]; []] L.
Proof.
  pose proof (submit_slot_spec
    (fun slot stack => Task 0 (Z.of_nat slot) (task_set_name []) TASK_READY 2 (-1) stack (prio_quantum 2)
      (prio_quantum 2) 0x6000 7 0 0 0 [] 0 0 0 0) (task_init_stack 0x5000) demo_boot _ _ demo_boot_inv demo_boot_caller
    (fun i stack => prio_task_ok [] [] 0x6000 7 2 i stack ltac:(by split))) as Hs.
  assert (E : demo = (submit_slot (fun slot stack => Task 0 (Z.of_nat slot) (task_set_name []) TASK_READY 2 (-1) stack
      (prio_quantum 2) (prio_quantum 2) 0x6000 7 0 0 0 [] 0 0 0 0) (task_init_stack 0x5000) demo_boot).2) by reflexivity.
  rewrite E. destruct (submit_slot _ _ _) as [[i|] s'] eqn:Es; [|by vm_compute in Es].
  destruct Hs as (stack & t0 & _ & _ & _ & Hs). cbv zeta in Hs. destruct (task_init_stack _ _ _).
  destruct Hs as (_ & _ & _ & Hs). assert (i = 0%nat) as -> by (vm_compute in Es; congruence). eauto.
Qed.

Lemma sched_submit_prio_correct_witness :
  match sched_submit_prio [] 0x5000 [] 0x6000 7 2 demo_boot with
  | (Some i, s') => exists stack (t : task_t unit), s_pool s' = <[i := t]> (s_pool demo_boot) /\
      frame_restore (t_rsp t) (s_mem s') =
      Some (Regs 0 0 0 0 0 0 0 0 0 0 0 0 0 0 0 0 0 0x5000 0x08 0x202 (stack + TASK_STACK_SZ) 0x10)
  | (None, s') => False
  end.
Proof.
  pose proof (sched_submit_prio_correct [] 0x5000 [] 0x6000 7 2 demo_boot _ _ demo_boot_inv demo_boot_caller
    ltac:(lia) ltac:(word)) as Hs.
  destruct (sched_submit_prio _ _ _ _ _ _ _) as [[i|] s'] eqn:E; [|by vm_compute in E].
  destruct Hs as (stack & t & _ & _ & _ & Hp & _ & _ & _ & _ & _ & _ & _ & _ & _ & Hf & _). by exists stack, t.
Defined.

Lemma sched_submit_user_as_correct_witness :
  match sched_submit_user_as [] 0x5000 [] 0x40000000 7 0x20000 0x7FFFE000 demo_boot with
  | (Some i, s') => exists (t : task_t unit), s_pool s' = <[i := t]> (s_pool demo_boot) /\
      frame_restore (t_rsp t) (s_mem s') =
      Some (Regs 0 0 0 0 0 0 0 0 0 0x40000000 7 0 0 0 0 0 0 0x5000 0x23 0x202 0x7FFFE000 0x2B)
  | (None, s') => False
  end.
Proof.
  pose proof (sched_submit_user_as_correct [] 0x5000 [] 0x40000000 7 0x20000 0x7FFFE000 demo_boot _ _
    demo_boot_inv demo_boot_caller ltac:(word) ltac:(word) ltac:(word) ltac:(word)) as Hs.
  destruct (sched_submit_user_as _ _ _ _ _ _ _ _) as [[i|] s'] eqn:E; [|by vm_compute in E].
  destruct Hs as (stack & t & _ & _ & _ & Hp & _ & _ & _ & _ & _ & _ & _ & _ & _ & Hf & _). by exists t.
Defined.

(** The idle task is interrupted: the submitted task is chosen. *)
Lemma sched_irq_end_correct_witness :
  exists r s', sched_irq_end 0x9000 (sched_tick (sched_run demo)) = Some (r, s') /\ s_cur s' = Some (Slot 0).
Proof.
  destruct demo_inv as [L Hinv].
  destruct (sched_irq_end_correct 0x9000 (sched_tick (sched_run demo)) _ L Idle (s_idle demo)
    (sched_tick_inv _ _ _ (sched_run_inv _ _ _ Hinv)) ltac:(by vm_compute) ltac:(by vm_compute)
    ltac:(by vm_compute) ltac:(by vm_compute)) as (r & s' & E & _ & _ & Hr).
  exists r, s'. split; [done|]. by destruct Hr as (nt & _ & _ & Hc & _).
Defined.

Lemma sched_reachable_ok_witness :
  rtc (step [] 0x5000 0x5100 0x200000) demo_boot (sched_tick demo_boot) /\
  forall i t, s_pool (sched_tick demo_boot) !! i = Some t -> t_state t = TASK_RUNNING ->
    s_cur (sched_tick demo_boot) = Some (Slot i).
Proof.
  assert (Hr : rtc (step [] 0x5000 0x5100 0x200000) demo_boot (sched_tick demo_boot))
    by (eapply rtc_l; [apply step_tick|apply rtc_refl]).
  split; [done|].
  assert (Hl : kalloc_live (H := Z) 0x10000 ∅) by apply bump_boot, demo_range.
  destruct (sched_reachable_ok [] 0x5000 0x5100 0x200000 0x10000 ∅ _ Hl Hr)
    as (Q & _ & _ & _ & _ & H & _). exact H.
Defined.

Lemma sched_no_starvation_witness :
  exists n s', (n <= 50)%nat /\ run_ticks n (fun _ => 0x9000) (sched_run demo) = Some s' /\ s_cur s' = Some (Slot 0).
Proof.
  destruct demo_inv as [L Hinv].
  apply (sched_no_starvation (fun _ => 0x9000) (sched_run demo) _ L 2 [Slot 0] 0 (Slot 0)
    (sched_run_inv _ _ _ Hinv)); [done|done|done| |by intros ? ? [=]].
  intros [|[|p]] Hp; [done|done|lia].
Defined.
End Demo.
