(* ===== verification/Vmm.v ===== *)
(** * Address spaces and user pointers

    Models cpu/vmm.c (a process's page tables, allocated from the kernel heap)
    and cpu/paging.c (the check of pointers that arrive through a system call).
    Physical memory is a map from 8-byte aligned addresses to 64-bit words; a
    word never written reads 0 (the code clears every table before it uses
    it). A [vmm_as_t *] is a record value, with the address it lives at. The
    processor's own page walk, which the code relies on, is at the end. *)

From S2P Require Import Prelude Kalloc.

(** ** cpu/vmm.h *)

Definition VMM_USER_BASE : Z := 0x40000000.
Definition VMM_USER_SIZE : Z := 0x40000000.
Definition VMM_PAGE_P : Z := 0x1.
Definition VMM_PAGE_U : Z := 0x4.
Definition VMM_PAGE_RW_U : Z := 0x7.
Definition VMM_MAX_PAGES : Z := 512.
Definition PTE_ADDR_MASK : Z := 0xFFFFFFFFFFFFF000.
Definition MASTER_PDPT : Z := 0x2000.

Record vmm_as_t := As {
  as_addr : Z;                 (* where the structure is *)
  as_pml4_phys : Z;
  as_owned : list Z;           (* the first [owned_count] entries of [owned_pages] *)
}.

Abbreviation mem_t := (gmap Z Z).
Definition word_at (m : mem_t) (a : Z) : Z := default 0 (m !! a).
(** Entry [i] of the table at [t]. *)
Definition entry (m : mem_t) (t i : Z) : Z := word_at m (t + 8 * i).
Definition set_entry (m : mem_t) (t i v : Z) : mem_t := <[t + 8 * i := v]> m.

(** [memset((void * )p, 0, 4096)] *)
Definition zero_page (p : Z) (m : mem_t) : mem_t :=
  foldr (fun i m => <[p + 8 * Z.of_nat i := 0]> m) m (seq 0 512).

Definition pdpt_index (va : Z) : Z := Z.land (Z.shiftr va 30) 0x1FF.
Definition pd_index (va : Z) : Z := Z.land (Z.shiftr va 21) 0x1FF.
Definition pt_index (va : Z) : Z := Z.land (Z.shiftr va 12) 0x1FF.

Section Vmm.
Context {H : Type} `{!Kalloc H}.

Record vstate := Vst { v_mem : mem_t; v_heap : H }.

Definition vmm_alloc_page (as_ : vmm_as_t) (st : vstate) : Z * vmm_as_t * vstate :=
  if Z.of_nat (length (as_owned as_)) >=? VMM_MAX_PAGES then (0, as_, st)
  else
    let '(p, h) := kalloc 4096 true (v_heap st) in
    if p =? 0 then (0, as_, Vst (v_mem st) h)
    else (p, As (as_addr as_) (as_pml4_phys as_) (as_owned as_ ++ [p]), Vst (zero_page p (v_mem st)) h).

(** [kfree] of each page, then of the structure; [None] is a [kfree] outside
    what it accepts. *)
Fixpoint free_pages (ps : list Z) (h : H) : option H :=
  match ps with
  | [] => Some h
  | p :: ps => h ← kalloc_free p h; free_pages ps h
  end.
Definition vmm_destroy_address_space (as_ : vmm_as_t) (st : vstate) : option vstate :=
  h ← free_pages (as_owned as_) (v_heap st);
  h ← kalloc_free (as_addr as_) h;
  Some (Vst (v_mem st) h).

(** sizeof(vmm_as_t) *)
Definition sizeof_vmm_as : Z := 4112.

Definition vmm_create_address_space (st : vstate) : option (option vmm_as_t * vstate) :=
  let '(a, h) := kalloc sizeof_vmm_as false (v_heap st) in
  if a =? 0 then Some (None, Vst (v_mem st) h)
  else
    let as0 := As a 0 [] in
    let '(pml4, as1, st1) := vmm_alloc_page as0 (Vst (v_mem st) h) in
    let '(pdpt, as2, st2) := vmm_alloc_page as1 st1 in
    if (pml4 =? 0) || (pdpt =? 0) then
      st' ← vmm_destroy_address_space as2 st2; Some (None, st')
    else
      let m := set_entry (v_mem st2) pml4 0 (Z.lor pdpt VMM_PAGE_RW_U) in
      let m := set_entry m pdpt 0 (entry m MASTER_PDPT 0) in
      let m := set_entry m pdpt 3 (entry m MASTER_PDPT 3) in
      Some (Some (As (as_addr as2) pml4 (as_owned as2)), Vst m (v_heap st2)).

(** The table that entry [idx] of [tbl] points to, allocated when the entry is
    not present. *)
Definition next_table (as_ : vmm_as_t) (tbl idx : Z) (st : vstate) : option Z * vmm_as_t * vstate :=
  if Z.land (entry (v_mem st) tbl idx) VMM_PAGE_P =? 0 then
    let '(p, as', st') := vmm_alloc_page as_ st in
    if p =? 0 then (None, as', st')
    else
      let m := set_entry (v_mem st') tbl idx (Z.lor p VMM_PAGE_RW_U) in
      (Some (Z.land (entry m tbl idx) PTE_ADDR_MASK), as', Vst m (v_heap st'))
  else (Some (Z.land (entry (v_mem st) tbl idx) PTE_ADDR_MASK), as_, st).

Definition vmm_map_page (as_ : vmm_as_t) (va pa flags : Z) (st : vstate) : Z * vmm_as_t * vstate :=
  if (va <? VMM_USER_BASE) || (va >=? VMM_USER_BASE + VMM_USER_SIZE) then (-1, as_, st)
  else if negb (Z.land va 0xFFF =? 0) then (-1, as_, st)
  else
    let pdpt_tbl := Z.land (entry (v_mem st) (as_pml4_phys as_) 0) PTE_ADDR_MASK in
    match next_table as_ pdpt_tbl (pdpt_index va) st with
    | (None, as1, st1) => (-1, as1, st1)
    | (Some pd_tbl, as1, st1) =>
      match next_table as1 pd_tbl (pd_index va) st1 with
      | (None, as2, st2) => (-1, as2, st2)
      | (Some pt_tbl, as2, st2) =>
        let pte := Z.lor (Z.lor (Z.land pa PTE_ADDR_MASK) (Z.land flags 0xFFF)) VMM_PAGE_P in
        (0, as2, Vst (set_entry (v_mem st2) pt_tbl (pt_index va) pte) (v_heap st2))
      end
    end.
End Vmm.
Arguments vstate H : clear implicits.

(** ** [vmm_range_mapped] *)

(** The walk of one round of the loop: whether [page] is present with a
    user-accessible leaf. *)
Definition page_ok (m : mem_t) (pdpt_tbl page : Z) : bool :=
  if Z.land (entry m pdpt_tbl (pdpt_index page)) VMM_PAGE_P =? 0 then false
  else
    let pd_tbl := Z.land (entry m pdpt_tbl (pdpt_index page)) PTE_ADDR_MASK in
    if Z.land (entry m pd_tbl (pd_index page)) VMM_PAGE_P =? 0 then false
    else
      let pt_tbl := Z.land (entry m pd_tbl (pd_index page)) PTE_ADDR_MASK in
      let pte := entry m pt_tbl (pt_index page) in
      Z.land pte (Z.lor VMM_PAGE_P VMM_PAGE_U) =? Z.lor VMM_PAGE_P VMM_PAGE_U.

(** The loop over the pages; [None]: it has not ended within [fuel] rounds. *)
Fixpoint pages_ok (fuel : nat) (m : mem_t) (pdpt_tbl page last_page : Z) : option Z :=
  match fuel with
  | O => None
  | S fuel =>
    if page_ok m pdpt_tbl page then
      if page =? last_page then Some 1 else pages_ok fuel m pdpt_tbl (u64 (page + 0x1000)) last_page
    else Some 0
  end.

(** The window has 2^18 pages. *)
Definition vmm_range_mapped (m : mem_t) (pml4_phys va len : Z) : option Z :=
  if len =? 0 then Some 1
  else if (va <? VMM_USER_BASE) || (u64 (va + len) >? VMM_USER_BASE + VMM_USER_SIZE) then Some 0
  else
    let page := Z.land va (not64 0xFFF) in
    let last_page := Z.land (u64 (va + len - 1)) (not64 0xFFF) in
    if Z.land (entry m pml4_phys 0) VMM_PAGE_P =? 0 then Some 0
    else pages_ok (Z.to_nat 262144) m (Z.land (entry m pml4_phys 0) PTE_ADDR_MASK) page last_page.

(** ** cpu/paging.c *)

Definition PML4_BASE : Z := 0x1000.
Definition PDPT_BASE : Z := 0x2000.
Definition PD0_BASE : Z := 0x3000.
Definition PDE_COUNT : Z := 512.
Definition PDE_SIZE : Z := 0x200000.
Definition ENTRY_USER : Z := 0x4.

(** [for (idx = first; idx <= last && idx < 512; idx++) pd[idx] |= ENTRY_USER;] *)
Fixpoint mark_pdes (n : nat) (idx last_idx : Z) (m : mem_t) : mem_t :=
  match n with
  | O => m
  | S n =>
    if (idx <=? last_idx) && (idx <? PDE_COUNT)
    then mark_pdes n (idx + 1) last_idx (set_entry m PD0_BASE idx (Z.lor (entry m PD0_BASE idx) ENTRY_USER))
    else m
  end.

Definition paging_mark_user_region (user_start user_end : Z) (m : mem_t) : mem_t :=
  let first_idx := user_start / PDE_SIZE in
  let last_idx := u64 (user_end - 1) / PDE_SIZE in
  let m := set_entry m PML4_BASE 0 (Z.lor (entry m PML4_BASE 0) ENTRY_USER) in
  let m := set_entry m PDPT_BASE 0 (Z.lor (entry m PDPT_BASE 0) ENTRY_USER) in
  mark_pdes (Z.to_nat PDE_COUNT) first_idx last_idx m.

Definition in_range (p len start end_ : Z) : bool :=
  if len =? 0 then (p >=? start) && (p <? end_)
  else if (p <? start) || (p >=? end_) then false
  else if len >? u64 (end_ - p) then false
  else true.

(** [user_start], [user_end] are the linker's symbols, [cr3] the register. *)
Definition is_user_range (user_start user_end : Z) (m : mem_t) (cr3 ptr len : Z) : option Z :=
  if in_range ptr len user_start user_end then Some 1
  else if in_range ptr len VMM_USER_BASE (VMM_USER_BASE + VMM_USER_SIZE) then vmm_range_mapped m cr3 ptr len
  else Some 0.

(** ** The boot tables

    boot/multiboot_entry.asm: 0-1 GB as 512 pages of 2 MB through PML4@0x1000,
    PDPT@0x2000 and PD@0x3000, and 3-4 GB through PD@0x4000. *)
Definition boot_tables : mem_t :=
  let m := set_entry ∅ 0x1000 0 0x2003 in
  let m := set_entry m 0x2000 0 0x3003 in
  let m := set_entry m 0x2000 3 0x4003 in
  let m := foldr (fun i m => set_entry m 0x3000 (Z.of_nat i) (0x83 + Z.of_nat i * 0x200000)) m (seq 0 512) in
  foldr (fun i m => set_entry m 0x4000 (Z.of_nat i) (0xC000009B + Z.of_nat i * 0x200000)) m (seq 0 512).

(** ** The processor's page walk *)

Definition HW_ADDR_MASK : Z := 0x000FFFFFFFFFF000.
Definition pml4_index (va : Z) : Z := Z.land (Z.shiftr va 39) 0x1FF.

(** The physical address of [va] and whether user mode may access it: every
    level must be present; U/S is the conjunction over the levels; bit 7 of a
    PDPT or PD entry makes it a 1 GB or 2 MB leaf. *)
Definition hw_translate (m : mem_t) (cr3 va : Z) : option (Z * bool) :=
  let e4 := entry m (Z.land cr3 HW_ADDR_MASK) (pml4_index va) in
  if negb (Z.testbit e4 0) then None
  else let e3 := entry m (Z.land e4 HW_ADDR_MASK) (pdpt_index va) in
  if negb (Z.testbit e3 0) then None
  else if Z.testbit e3 7 then
    Some (Z.land e3 0x000FFFFFC0000000 + va mod 0x40000000, Z.testbit e4 2 && Z.testbit e3 2)
  else let e2 := entry m (Z.land e3 HW_ADDR_MASK) (pd_index va) in
  if negb (Z.testbit e2 0) then None
  else if Z.testbit e2 7 then
    Some (Z.land e2 0x000FFFFFFFE00000 + va mod 0x200000, Z.testbit e4 2 && Z.testbit e3 2 && Z.testbit e2 2)
  else let e1 := entry m (Z.land e2 HW_ADDR_MASK) (pt_index va) in
  if negb (Z.testbit e1 0) then None
  else Some (Z.land e1 HW_ADDR_MASK + va mod 4096,
             Z.testbit e4 2 && Z.testbit e3 2 && Z.testbit e2 2 && Z.testbit e1 2).
