(* ===== verification/VmmProofs.v ===== *)
(** * Address spaces: correctness

    [hw_translate] is the processor's four-level walk. Under the invariant
    [as_inv] of an address space built by the code: mapping a page changes the
    translation of that page and of no other; the read-only walk of
    [vmm_range_mapped] accepts a range exactly when the processor translates
    every byte of it for user mode; tearing the space down gives back every
    allocation it made. *)

From S2P Require Import Prelude Kalloc Vmm.

(** ** Pages and their entries *)

(** A physical page: aligned, non-zero, below 2^52. *)
Definition page (p : Z) : Prop := p mod 4096 = 0 /\ 0 < p < 4503599627370496.

Lemma entry_set_same m t i v : entry (set_entry m t i v) t i = v.
Proof. unfold entry, word_at, set_entry. by rewrite lookup_insert_eq. Qed.

Lemma entry_set_other m t i v t' i' :
  page t -> page t' -> 0 <= i < 512 -> 0 <= i' < 512 -> t <> t' \/ i <> i' ->
  entry (set_entry m t i v) t' i' = entry m t' i'.
Proof.
  intros [] [] ? ? Hne. unfold entry, word_at, set_entry. rewrite lookup_insert_ne; [done|]. zlia.
Qed.

Lemma zero_page_out p m a : (forall i, 0 <= i < 512 -> a <> p + 8 * i) -> zero_page p m !! a = m !! a.
Proof.
  intros Ha. unfold zero_page.
  assert (Hall : forall l, Forall (fun i => (i < 512)%nat) l ->
    foldr (fun i m => <[p + 8 * Z.of_nat i := 0]> m) m l !! a = m !! a).
  { induction 1 as [|i l Hi _ IH]; cbn [foldr]; [done|]. rewrite lookup_insert_ne; [done|].
    intros E. apply (Ha (Z.of_nat i)); lia. }
  apply Hall. apply Forall_forall. intros i Hi%elem_of_seq. lia.
Qed.

Lemma entry_zero_page p m i : 0 <= i < 512 -> entry (zero_page p m) p i = 0.
Proof.
  intros Hi. unfold entry, word_at, zero_page.
  assert (Hall : forall l, Z.to_nat i ∈ l ->
    foldr (fun i m => <[p + 8 * Z.of_nat i := 0]> m) m l !! (p + 8 * i) = Some 0).
  { induction l as [|j l IH]; [by intros ?%elem_of_nil|]. intros Hin. cbn [foldr].
    destruct (decide (j = Z.to_nat i)) as [->|Hne].
    - rewrite Z2Nat.id by lia. apply lookup_insert_eq.
    - apply elem_of_cons in Hin as [?|Hin]; [congruence|]. rewrite lookup_insert_ne by lia. auto. }
  rewrite Hall; [done|]. apply elem_of_seq. lia.
Qed.

Lemma entry_zero_other p m q i : page p -> page q -> p <> q -> 0 <= i < 512 -> entry (zero_page p m) q i = entry m q i.
Proof.
  intros [] [] ? ?. unfold entry, word_at. rewrite zero_page_out; [done|]. intros j Hj. zlia.
Qed.

(** A table entry [p | 7] of the code. *)
Lemma page_lor p : page p -> Z.lor p VMM_PAGE_RW_U = p + 7.
Proof.
  intros [Hm Hp]. replace p with (Z.shiftl (p / 4096) 12) at 1.
  - rewrite lor_shiftl_add by (unfold VMM_PAGE_RW_U; lia). change (2 ^ 12) with 4096. unfold VMM_PAGE_RW_U. zlia.
  - rewrite Z.shiftl_mul_pow2 by done. change (2 ^ 12) with 4096. zlia.
Qed.

Lemma land_1_testbit x : (Z.land x 1 =? 0) = negb (Z.testbit x 0).
Proof.
  assert (E : Z.land x 1 = x mod 2) by (by apply (land_ones_mod x 1)). rewrite E, Z.bit0_odd, Zmod_odd. by destruct (Z.odd x).
Qed.

Lemma testbit_small a k b n : 0 <= n < k -> 0 <= b < 2 ^ k -> Z.testbit (a * 2 ^ k + b) n = Z.testbit b n.
Proof.
  intros Hn Hb. rewrite <- (lor_shiftl_add a b k) by lia.
  rewrite Z.lor_spec, Z.shiftl_spec_low by lia. done.
Qed.

Lemma page_entry_bits p n : page p -> 0 <= n < 12 -> Z.testbit (Z.lor p VMM_PAGE_RW_U) n = Z.testbit 7 n.
Proof.
  intros Hp Hn. rewrite page_lor by done. destruct Hp as [Hm _].
  replace (p + 7) with (p / 4096 * 2 ^ 12 + 7) by (change (2 ^ 12) with 4096; zlia). by apply testbit_small.
Qed.

Lemma page_entry_mask p : page p -> Z.land (Z.lor p VMM_PAGE_RW_U) PTE_ADDR_MASK = p.
Proof.
  intros Hp. rewrite page_lor by done. destruct Hp. unfold PTE_ADDR_MASK.
  rewrite land_page_mask by word. zlia.
Qed.

(** The processor's address mask agrees with the code's below 2^52. *)
Lemma hw_mask x : 0 <= x < 4503599627370496 -> Z.land x HW_ADDR_MASK = x / 4096 * 4096.
Proof.
  intros Hx. rewrite <- land_page_mask by word. unfold HW_ADDR_MASK.
  change 0x000FFFFFFFFFF000 with (Z.land 0xFFFFFFFFFFFFF000 (Z.ones 52)).
  rewrite Z.land_assoc, (Z.land_comm x), <- Z.land_assoc, Z.land_ones, (Z.mod_small x) by (done || lia).
  done.
Qed.

Lemma page_entry_hw_mask p : page p -> Z.land (Z.lor p VMM_PAGE_RW_U) HW_ADDR_MASK = p.
Proof. intros Hp. rewrite page_lor by done. destruct Hp. rewrite hw_mask by zlia. zlia. Qed.

(** ** Indices of addresses in the user window *)

Definition in_window (va : Z) : Prop := VMM_USER_BASE <= va < VMM_USER_BASE + VMM_USER_SIZE.

Lemma index_eq va k : 0 <= k -> Z.land (Z.shiftr va k) 0x1FF = va / 2 ^ k mod 512.
Proof. intros. rewrite Z.shiftr_div_pow2 by done. apply (land_ones_mod _ 9). done. Qed.

Lemma pml4_window va : in_window va -> pml4_index va = 0.
Proof.
  unfold in_window, VMM_USER_BASE, VMM_USER_SIZE. intros. unfold pml4_index.
  rewrite index_eq by done. change (2 ^ 39) with 549755813888. zlia.
Qed.
Lemma pdpt_window va : in_window va -> pdpt_index va = 1.
Proof.
  unfold in_window, VMM_USER_BASE, VMM_USER_SIZE. intros. unfold pdpt_index.
  rewrite index_eq by done. change (2 ^ 30) with 1073741824. zlia.
Qed.
Lemma pd_index_eq va : pd_index va = va / 2097152 mod 512.
Proof. unfold pd_index. by rewrite index_eq. Qed.
Lemma pt_index_eq va : pt_index va = va / 4096 mod 512.
Proof. unfold pt_index. by rewrite index_eq. Qed.
Lemma pd_index_range va : 0 <= pd_index va < 512.
Proof. rewrite pd_index_eq. zlia. Qed.
Lemma pt_index_range va : 0 <= pt_index va < 512.
Proof. rewrite pt_index_eq. zlia. Qed.

(** The two indices determine the page within the window. *)
Lemma index_inj va va' :
  in_window va -> in_window va' -> pd_index va = pd_index va' -> pt_index va = pt_index va' -> va / 4096 = va' / 4096.
Proof.
  unfold in_window, VMM_USER_BASE, VMM_USER_SIZE. rewrite !pd_index_eq, !pt_index_eq. intros. zlia.
Qed.
Lemma index_page va va' : va / 4096 = va' / 4096 -> pd_index va = pd_index va' /\ pt_index va = pt_index va'.
Proof. rewrite !pd_index_eq, !pt_index_eq. intros. split; zlia. Qed.
#[export] Hint Resolve pd_index_range pt_index_range : cf.

(** ** The invariant of an address space *)

Section Inv.
Context {H : Type} `{!Kalloc H}.
Implicit Types (st : vstate H) (a : vmm_as_t) (L : gmap Z Z).

(** The pages and the structure are live allocations; [L0] is what is live
    besides them. *)
Record own_inv st a L L0 : Prop := {
  ow_live : kalloc_live (v_heap st) L;
  ow_as : L !! as_addr a = Some sizeof_vmm_as /\ as_addr a <> 0;
  ow_pages : forall p, p ∈ as_owned a -> L !! p = Some 4096 /\ page p;
  ow_nodup : NoDup (as_addr a :: as_owned a);
  ow_max : (length (as_owned a) <= 512)%nat;
  ow_rest : foldr delete L (as_addr a :: as_owned a) = L0;
}.

(** The tables: the PDPT, the page directory if there is one, and the page
    tables by index in the directory. *)
Record tables := Tables { tb_pdpt : Z; tb_pd : option Z; tb_pts : gmap Z Z }.
Implicit Types T : tables.

Record tab_inv (m : mem_t) (pml4 : Z) (owned : list Z) T : Prop := {
  ti_pml4 : pml4 ∈ owned;
  ti_pdpt : tb_pdpt T ∈ owned /\ tb_pdpt T <> pml4;
  ti_e4 : entry m pml4 0 = Z.lor (tb_pdpt T) VMM_PAGE_RW_U;
  ti_e3 : entry m (tb_pdpt T) 1 = match tb_pd T with Some d => Z.lor d VMM_PAGE_RW_U | None => 0 end;
  ti_pd : forall d, tb_pd T = Some d -> d ∈ owned /\ d <> pml4 /\ d <> tb_pdpt T;
  ti_nopd : tb_pd T = None -> tb_pts T = ∅;
  ti_pts : forall i t, tb_pts T !! i = Some t -> t ∈ owned /\ t <> pml4 /\ t <> tb_pdpt T /\ tb_pd T <> Some t;
  ti_inj : forall i j t, tb_pts T !! i = Some t -> tb_pts T !! j = Some t -> i = j;
  ti_e2 : forall d i, tb_pd T = Some d -> 0 <= i < 512 ->
    entry m d i = match tb_pts T !! i with Some t => Z.lor t VMM_PAGE_RW_U | None => 0 end;
}.

Definition as_inv st a L L0 T : Prop :=
  own_inv st a L L0 /\ tab_inv (v_mem st) (as_pml4_phys a) (as_owned a) T.

(** The leaf entry of [va] in the tables (0 when a level is missing). *)
Definition leaf (m : mem_t) T (va : Z) : Z :=
  match tb_pts T !! pd_index va with Some t => entry m t (pt_index va) | None => 0 end.

(** ** Allocation *)

Lemma foldr_delete_lookup (l : list Z) L p : p ∈ l -> foldr delete L l !! p = None.
Proof.
  induction l as [|q l IH]; [by intros ?%elem_of_nil|]. cbn [foldr]. intros Hin.
  destruct (decide (q = p)) as [->|Hne]; [apply lookup_delete_eq|]. rewrite lookup_delete_ne by done.
  apply IH. apply elem_of_cons in Hin as [?|?]; [congruence|done].
Qed.

Lemma foldr_delete_insert (l : list Z) L p n :
  p ∉ l -> L !! p = None -> foldr delete (<[p := n]> L) (l ++ [p]) = foldr delete L l.
Proof.
  intros Hp HL. rewrite foldr_app. cbn [foldr]. by rewrite delete_insert_id.
Qed.

Lemma vmm_alloc_page_spec st a L L0 p a' st' :
  own_inv st a L L0 -> vmm_alloc_page a st = (p, a', st') ->
  (p = 0 /\ a' = a /\ v_mem st' = v_mem st /\ own_inv st' a L L0) \/
  (page p /\ L !! p = None /\ (p ∉ as_owned a) /\ a' = As (as_addr a) (as_pml4_phys a) (as_owned a ++ [p]) /\
   v_mem st' = zero_page p (v_mem st) /\ own_inv st' a' (<[p := 4096]> L) L0).
Proof.
  intros [Hl Ha Hp Hn Hm Hr]. unfold vmm_alloc_page, VMM_MAX_PAGES. bcase; [intros [= <- <- <-]; left; by split_and!|].
  destruct (kalloc 4096 true (v_heap st)) as [q h] eqn:Ek.
  destruct (kalloc_ok _ L 4096 true q h Hl ltac:(lia) Ek) as [[-> Hl']|(HL & Hal & Hl')].
  { rewrite Z.eqb_refl. intros [= <- <- <-]. left. split_and!; try done. }
  assert (Hq : page q).
  { destruct (kalloc_in h _ q 4096 Hl' (lookup_insert_eq _ _ _)). destruct (kalloc_bounds (H := H)).
    split; [by apply Hal|lia]. }
  destruct (Z.eqb_spec q 0) as [->|]; [by destruct Hq; lia|]. intros [= <- <- <-]. right.
  assert (Hnin : q ∉ as_owned a). { intros Hin. destruct (Hp q Hin). congruence. }
  assert (Hna : as_addr a <> q). { intros E. destruct Ha. congruence. }
  split_and!; try done. split; cbn [v_heap as_owned as_addr v_mem]; try done.
  - rewrite lookup_insert_ne by done. done.
  - intros r Hin. apply elem_of_app in Hin as [Hin| ->%list_elem_of_singleton].
    + destruct (Hp r Hin). rewrite lookup_insert_ne by congruence. done.
    + split; [apply lookup_insert_eq|done].
  - change (as_addr a :: as_owned a ++ [q]) with ((as_addr a :: as_owned a) ++ [q]). apply NoDup_app. split; [done|].
    split; [|apply NoDup_singleton]. intros x Hx ->%list_elem_of_singleton. apply elem_of_cons in Hx as [?|?]; [congruence|done].
  - len.
  - change (as_addr a :: as_owned a ++ [q]) with ((as_addr a :: as_owned a) ++ [q]).
    rewrite foldr_delete_insert; [done| |done]. intros Hx. apply elem_of_cons in Hx as [?|?]; [congruence|done].
Qed.

(** ** The processor's walk under the invariant *)

Lemma owned_page st a L L0 p : own_inv st a L L0 -> p ∈ as_owned a -> page p.
Proof. intros Ho Hp. by destruct (ow_pages _ _ _ _ Ho p Hp). Qed.

Lemma hw_mask_page p : page p -> Z.land p HW_ADDR_MASK = p.
Proof. intros []. rewrite hw_mask by lia. zlia. Qed.

Lemma hw_translate_leaf st a L L0 T va :
  as_inv st a L L0 T -> in_window va ->
  hw_translate (v_mem st) (as_pml4_phys a) va =
    if Z.testbit (leaf (v_mem st) T va) 0
    then Some (Z.land (leaf (v_mem st) T va) HW_ADDR_MASK + va mod 4096, Z.testbit (leaf (v_mem st) T va) 2)
    else None.
Proof.
  intros [Ho [H4 [H3 H34] E4 E3 Hpd Hnopd Hpts Hinj E2]] Hva.
  pose proof (owned_page _ _ _ _ _ Ho H4) as P4. pose proof (owned_page _ _ _ _ _ Ho H3) as P3.
  unfold hw_translate, leaf. rewrite hw_mask_page, pml4_window, E4 by done.
  rewrite !(page_entry_bits (tb_pdpt T)) by (done || lia). rewrite page_entry_hw_mask, pdpt_window, E3 by done.
  destruct (tb_pd T) as [d|] eqn:Ed.
  2:{ by rewrite (Hnopd eq_refl), lookup_empty. }
  destruct (Hpd d eq_refl) as (Hd & _). pose proof (owned_page _ _ _ _ _ Ho Hd) as Pd.
  rewrite !(page_entry_bits d) by (done || lia). rewrite page_entry_hw_mask by done.
  rewrite (E2 d) by (done || apply pd_index_range). destruct (tb_pts T !! pd_index va) as [t|] eqn:Et; [|done].
  destruct (Hpts _ _ Et) as (Ht & _). pose proof (owned_page _ _ _ _ _ Ho Ht) as Pt.
  rewrite !(page_entry_bits t) by (done || lia). rewrite page_entry_hw_mask by done. change (Z.testbit 7 0) with true.
  change (Z.testbit 7 2) with true. change (Z.testbit 7 7) with false. cbn [negb andb].
  by destruct (Z.testbit (entry (v_mem st) t (pt_index va)) 0).
Qed.

(** ** Growing the tables *)

Definition table_page (pml4 : Z) T (p : Z) : Prop :=
  p = pml4 \/ p = tb_pdpt T \/ tb_pd T = Some p \/ exists i, tb_pts T !! i = Some p.

(** [T'] has the tables of [T] and fresh ones; memory differs inside the
    tables of [T'] only. *)
Record grows (pml4 : Z) L T T' (m m' : mem_t) : Prop := {
  gr_old : forall p, table_page pml4 T p -> table_page pml4 T' p;
  gr_new : forall p, table_page pml4 T' p -> table_page pml4 T p \/ L !! p = None;
  gr_mem : forall x, (forall p, table_page pml4 T' p -> ~ p <= x < p + 4096) -> m' !! x = m !! x;
}.

Lemma grows_refl pml4 L T m : grows pml4 L T T m m.
Proof. split; auto. Qed.

Lemma grows_trans pml4 L L' T T1 T2 m m1 m2 :
  grows pml4 L T T1 m m1 -> grows pml4 L' T1 T2 m1 m2 -> (forall p, L' !! p = None -> L !! p = None) ->
  grows pml4 L T T2 m m2.
Proof.
  intros [] [] HL. split; [auto|intros p Hp; destruct (gr_new1 p Hp) as [?|?]; eauto|].
  intros x Hx. rewrite gr_mem1, gr_mem0; auto.
Qed.

Lemma set_entry_mem m t i v x : 0 <= i < 512 -> ~ t <= x < t + 4096 -> set_entry m t i v !! x = m !! x.
Proof. intros. unfold set_entry. rewrite lookup_insert_ne by lia. done. Qed.

Lemma zero_page_mem m p x : ~ p <= x < p + 4096 -> zero_page p m !! x = m !! x.
Proof. intros. apply zero_page_out. intros. lia. Qed.

Lemma present_0 : (Z.land 0 VMM_PAGE_P =? 0) = true.
Proof. done. Qed.
Lemma present_page p : page p -> (Z.land (Z.lor p VMM_PAGE_RW_U) VMM_PAGE_P =? 0) = false.
Proof. intros. unfold VMM_PAGE_P. rewrite land_1_testbit, page_entry_bits by (done || lia). done. Qed.

(** The page directory of the window, allocated on demand. *)
Lemma next_pd st a L L0 T r a' st' :
  as_inv st a L L0 T -> next_table a (tb_pdpt T) 1 st = (r, a', st') ->
  as_addr a' = as_addr a /\ as_pml4_phys a' = as_pml4_phys a /\
  match r with
  | None => as_inv st' a' L L0 T /\ v_mem st' = v_mem st
  | Some d => exists L' T', as_inv st' a' L' L0 T' /\ tb_pd T' = Some d /\ tb_pdpt T' = tb_pdpt T /\
      (forall p, L' !! p = None -> L !! p = None) /\
      (forall va, leaf (v_mem st') T' va = leaf (v_mem st) T va) /\
      grows (as_pml4_phys a) L T T' (v_mem st) (v_mem st')
  end.
Proof.
  intros [Ho [H4 [H3 H34] E4 E3 Hpd Hnopd Hpts Hinj E2]] Hnt.
  pose proof (owned_page _ _ _ _ _ Ho H4) as P4. pose proof (owned_page _ _ _ _ _ Ho H3) as P3.
  unfold next_table in Hnt. rewrite E3 in Hnt. destruct (tb_pd T) as [d|] eqn:Ed.
  - destruct (Hpd d eq_refl) as (Hd & _). pose proof (owned_page _ _ _ _ _ Ho Hd) as Pd.
    rewrite present_page, page_entry_mask in Hnt by done. injection Hnt as <- <- <-. do 2 (split; [done|]).
    exists L, T. split; [|split_and!; auto using grows_refl].
    split; [done|]. split; try done; by rewrite Ed.
  - rewrite present_0 in Hnt. destruct (vmm_alloc_page a st) as [[p a1] st1] eqn:Eal.
    destruct (vmm_alloc_page_spec _ _ _ _ _ _ _ Ho Eal) as [(-> & -> & Em & Ho')|(Pp & HL & Hnin & -> & Em & Ho')].
    + rewrite Z.eqb_refl in Hnt. injection Hnt as <- <- <-. do 2 (split; [done|]). split; [|done]. split; [done|].
      rewrite Em. split; try done; by rewrite Ed.
    + destruct (Z.eqb_spec p 0) as [->|]; [by destruct Pp; lia|]. rewrite entry_set_same, page_entry_mask in Hnt by done.
      injection Hnt as <- <- <-. cbn [as_addr as_pml4_phys]. do 2 (split; [done|]).
      assert (Hp4 : p <> as_pml4_phys a) by (intros ->; done). assert (Hp3 : p <> tb_pdpt T) by (intros ->; done).
      exists (<[p := 4096]> L), (Tables (tb_pdpt T) (Some p) ∅). cbn [tb_pd tb_pdpt tb_pts v_mem v_heap].
      assert (Hmem : forall t i, page t -> 0 <= i < 512 -> t <> p -> t <> tb_pdpt T \/ i <> 1 ->
        entry (set_entry (v_mem st1) (tb_pdpt T) 1 (Z.lor p VMM_PAGE_RW_U)) t i = entry (v_mem st) t i).
      { intros t i Pt Hi Hne Hor. rewrite entry_set_other, Em, entry_zero_other by (done || lia || naive_solver). done. }
      split; [|split_and!; try done].
      * split; [destruct Ho'; split; done|]. cbn [as_owned as_pml4_phys v_mem].
        split; cbn [tb_pd tb_pdpt tb_pts].
        -- apply elem_of_app; by left.
        -- split; [apply elem_of_app; by left|done].
        -- rewrite Hmem by (done || lia || naive_solver). done.
        -- apply entry_set_same.
        -- intros d [= <-]. split_and!; [|done|done]. apply elem_of_app; right. by apply list_elem_of_singleton.
        -- done.
        -- intros i t. by rewrite lookup_empty.
        -- intros i j t. by rewrite lookup_empty.
        -- intros d i [= <-] Hi. rewrite lookup_empty, entry_set_other by (done || lia || naive_solver).
           rewrite Em. by apply entry_zero_page.
      * intros q Hq. destruct (decide (q = p)) as [->|]; [done|]. by rewrite lookup_insert_ne in Hq.
      * intros va. unfold leaf. cbn [tb_pts]. rewrite (Hnopd eq_refl). done.
      * split.
        -- intros q [?|[?|[?|[i Hi]]]]; [by left|by right; left|congruence|]. rewrite (Hnopd eq_refl) in Hi. by apply lookup_empty_Some in Hi.
        -- intros q [?|[?|[Hq|[i Hi]]]]; [left; by left|left; by right; left| |cbn in Hi; by apply lookup_empty_Some in Hi].
           right. cbn in Hq. congruence.
        -- intros x Hx. rewrite set_entry_mem, Em, zero_page_mem; [done| |lia|].
           ++ apply Hx. right; right; by left.
           ++ apply Hx. right; by left.
Qed.

(** The page table of directory entry [i], allocated on demand. *)
Lemma next_pt st a L L0 T d i r a' st' :
  as_inv st a L L0 T -> tb_pd T = Some d -> 0 <= i < 512 -> next_table a d i st = (r, a', st') ->
  as_addr a' = as_addr a /\ as_pml4_phys a' = as_pml4_phys a /\
  match r with
  | None => as_inv st' a' L L0 T /\ v_mem st' = v_mem st
  | Some t => exists L' T', as_inv st' a' L' L0 T' /\ tb_pts T' !! i = Some t /\
      (forall p, L' !! p = None -> L !! p = None) /\
      (forall va, leaf (v_mem st') T' va = leaf (v_mem st) T va) /\
      grows (as_pml4_phys a) L T T' (v_mem st) (v_mem st')
  end.
Proof.
  intros [Ho [H4 [H3 H34] E4 E3 Hpd Hnopd Hpts Hinj E2]] Ed Hi Hnt.
  pose proof (owned_page _ _ _ _ _ Ho H4) as P4. pose proof (owned_page _ _ _ _ _ Ho H3) as P3.
  destruct (Hpd d Ed) as (Hd & Hd4 & Hd3). pose proof (owned_page _ _ _ _ _ Ho Hd) as Pd.
  unfold next_table in Hnt. rewrite (E2 d i Ed Hi) in Hnt. destruct (tb_pts T !! i) as [t|] eqn:Et.
  - destruct (Hpts i t Et) as (Ht & _). pose proof (owned_page _ _ _ _ _ Ho Ht) as Pt.
    rewrite present_page, page_entry_mask in Hnt by done. injection Hnt as <- <- <-. do 2 (split; [done|]).
    exists L, T. split; [|split_and!; auto using grows_refl]. by split.
  - rewrite present_0 in Hnt. destruct (vmm_alloc_page a st) as [[p a1] st1] eqn:Eal.
    destruct (vmm_alloc_page_spec _ _ _ _ _ _ _ Ho Eal) as [(-> & -> & Em & Ho')|(Pp & HL & Hnin & -> & Em & Ho')].
    + rewrite Z.eqb_refl in Hnt. injection Hnt as <- <- <-. do 2 (split; [done|]). split; [|done]. split; [done|].
      rewrite Em. by split.
    + destruct (Z.eqb_spec p 0) as [->|]; [by destruct Pp; lia|]. rewrite entry_set_same, page_entry_mask in Hnt by done.
      injection Hnt as <- <- <-. cbn [as_addr as_pml4_phys]. do 2 (split; [done|]).
      assert (Hp4 : p <> as_pml4_phys a) by (intros ->; done). assert (Hp3 : p <> tb_pdpt T) by (intros ->; done).
      assert (Hpd' : p <> d) by (intros ->; done).
      exists (<[p := 4096]> L), (Tables (tb_pdpt T) (Some d) (<[i := p]> (tb_pts T))). cbn [tb_pd tb_pdpt tb_pts v_mem v_heap].
      assert (Hmem : forall t j, page t -> 0 <= j < 512 -> t <> p -> t <> d \/ j <> i ->
        entry (set_entry (v_mem st1) d i (Z.lor p VMM_PAGE_RW_U)) t j = entry (v_mem st) t j).
      { intros t j Pt Hj Hne Hor. rewrite entry_set_other, Em, entry_zero_other by (done || lia || naive_solver). done. }
      assert (Hold : forall j t, tb_pts T !! j = Some t -> t ∈ as_owned a /\ t <> p /\ page t /\ t <> d).
      { intros j t Hj. destruct (Hpts j t Hj) as (Ht & _ & _ & ?). split_and!; [done|by intros ->|exact (owned_page _ _ _ _ _ Ho Ht)|congruence]. }
      split; [|split_and!; try done].
      * split; [destruct Ho'; split; done|]. cbn [as_owned as_pml4_phys v_mem].
        split; cbn [tb_pd tb_pdpt tb_pts].
        -- apply elem_of_app; by left.
        -- split; [apply elem_of_app; by left|done].
        -- rewrite Hmem by (done || lia || naive_solver). done.
        -- rewrite Hmem by (done || lia || naive_solver). by rewrite E3, Ed.
        -- intros d' [= <-]. split_and!; [|done|done]. apply elem_of_app; by left.
        -- done.
        -- intros j t [[<- <-]|[_ Hj]]%lookup_insert_Some.
           ++ split_and!; [|done|done|congruence]. apply elem_of_app; right. by apply list_elem_of_singleton.
           ++ destruct (Hpts j t Hj) as (? & ? & ? & ?). split_and!; [apply elem_of_app; by left|done|done|congruence].
        -- intros j k t [[<- <-]|[? Hj]]%lookup_insert_Some [[<- E]|[? Hk]]%lookup_insert_Some; [done| | |eauto].
           ++ by destruct (Hold k _ Hk) as (_ & ? & _).
           ++ subst t. by destruct (Hold j _ Hj) as (_ & ? & _).
        -- intros d' j [= <-] Hj. destruct (decide (j = i)) as [->|Hne].
           ++ by rewrite entry_set_same, lookup_insert_eq.
           ++ rewrite Hmem, lookup_insert_ne by (done || lia || naive_solver). by apply E2.
      * by rewrite lookup_insert_eq.
      * intros q Hq. destruct (decide (q = p)) as [->|]; [done|]. by rewrite lookup_insert_ne in Hq.
      * intros va. unfold leaf. cbn [tb_pts]. destruct (decide (pd_index va = i)) as [<-|Hne].
        -- rewrite lookup_insert_eq, Et, entry_set_other by (done || lia || (apply pt_index_range) || naive_solver).
           rewrite Em. apply entry_zero_page, pt_index_range.
        -- rewrite lookup_insert_ne by done. destruct (tb_pts T !! pd_index va) as [t|] eqn:Etv; [|done].
           destruct (Hold _ _ Etv) as (_ & ? & ? & ?). apply Hmem; [done|apply pt_index_range|done|by left].
      * split.
        -- intros q [?|[?|[Hq|[j Hj]]]]; [by left|by right; left|right; right; left; by rewrite Ed in Hq|].
           right; right; right. exists j. cbn [tb_pts]. rewrite lookup_insert_ne; [done|]. intros ->. congruence.
        -- intros q [?|[?|[Hq|[j Hj]]]]; [left; by left|left; by right; left|left; right; right; left; by rewrite Ed|].
           cbn [tb_pts] in Hj. apply lookup_insert_Some in Hj as [[_ <-]|[_ Hj]]; [by right|]. left; right; right; right. eauto.
        -- intros x Hx. rewrite set_entry_mem, Em, zero_page_mem; [done| |lia|].
           ++ apply Hx. right; right; right. exists i. apply lookup_insert_eq.
           ++ apply Hx. right; right; by left.
Qed.


(** ** Mapping *)

(** The leaf entry the code writes. *)
Definition pte_of (pa flags : Z) : Z := Z.lor (Z.lor (Z.land pa PTE_ADDR_MASK) (Z.land flags 0xFFF)) VMM_PAGE_P.

Lemma pte_split pa flags :
  0 <= pa < 4503599627370496 ->
  pte_of pa flags = pa / 4096 * 4096 + Z.lor (Z.land flags 0xFFF) 1 /\ 0 <= Z.lor (Z.land flags 0xFFF) 1 < 4096.
Proof.
  intros Hpa. assert (Hlow : 0 <= Z.lor (Z.land flags 0xFFF) 1 < 2 ^ 12).
  { apply lor_range; [done| |done]. rewrite land_fff. change (2 ^ 12) with 4096. zlia. }
  split; [|done]. unfold pte_of, PTE_ADDR_MASK, VMM_PAGE_P. rewrite land_page_mask by word. rewrite <- Z.lor_assoc.
  change 4096 with (2 ^ 12) at 2 3. rewrite <- Z.shiftl_mul_pow2 by done. by rewrite lor_shiftl_add.
Qed.

Lemma pte_bits pa flags :
  0 <= pa < 4503599627370496 ->
  Z.testbit (pte_of pa flags) 0 = true /\ Z.testbit (pte_of pa flags) 2 = Z.testbit flags 2 /\
  Z.land (pte_of pa flags) HW_ADDR_MASK = pa / 4096 * 4096.
Proof.
  intros Hpa. destruct (pte_split pa flags Hpa) as [E Hlow]. rewrite hw_mask by (rewrite E; zlia). rewrite E.
  change 4096 with (2 ^ 12) at 2 4. rewrite !testbit_small by (done || lia).
  rewrite !Z.lor_spec, !Z.land_spec. split; [by rewrite orb_true_r|]. split; [|zlia].
  change (Z.testbit 0xFFF 2) with true. change (Z.testbit 1 2) with false. by rewrite andb_true_r, orb_false_r.
Qed.

Lemma as_inv_set_leaf st a L L0 T i t j v :
  as_inv st a L L0 T -> tb_pts T !! i = Some t -> 0 <= j < 512 ->
  as_inv (Vst (set_entry (v_mem st) t j v) (v_heap st)) a L L0 T /\
  (forall va, leaf (set_entry (v_mem st) t j v) T va =
     if decide (pd_index va = i /\ pt_index va = j) then v else leaf (v_mem st) T va) /\
  grows (as_pml4_phys a) L T T (v_mem st) (set_entry (v_mem st) t j v).
Proof.
  intros [Ho [H4 [H3 H34] E4 E3 Hpd Hnopd Hpts Hinj E2]] Hi Hj.
  pose proof (owned_page _ _ _ _ _ Ho H4) as P4. pose proof (owned_page _ _ _ _ _ Ho H3) as P3.
  destruct (Hpts i t Hi) as (Ht & Ht4 & Ht3 & Htd). pose proof (owned_page _ _ _ _ _ Ho Ht) as Pt.
  assert (Hmem : forall q k, page q -> 0 <= k < 512 -> t <> q -> entry (set_entry (v_mem st) t j v) q k = entry (v_mem st) q k).
  { intros. apply entry_set_other; auto. }
  split; [|split].
  - split; [destruct Ho; by split|]. cbn [v_mem]. split; try done.
    + by rewrite Hmem by (done || lia).
    + by rewrite Hmem by (done || lia).
    + intros d k Hd Hk. destruct (Hpd d Hd) as (Hdo & _). rewrite Hmem; [by apply E2|by apply (owned_page _ _ _ _ _ Ho)|done|congruence].
  - intros va. unfold leaf. case_decide as Hd.
    + destruct Hd as [-> ->]. by rewrite Hi, entry_set_same.
    + destruct (tb_pts T !! pd_index va) as [q|] eqn:Eq; [|done]. destruct (Hpts _ _ Eq) as (Hq & _).
      apply entry_set_other; [done|by apply (owned_page _ _ _ _ _ Ho)|done|apply pt_index_range|].
      destruct (decide (t = q)) as [->|]; [right|by left]. intros ->. apply Hd. split; [|done]. eauto.
  - split; [done|auto|]. intros x Hx. apply set_entry_mem; [done|]. apply Hx. right; right; right. eauto.
Qed.

Lemma vmm_map_page_spec st a L L0 T va pa flags r a' st' :
  as_inv st a L L0 T -> in_u64 va -> vmm_map_page a va pa flags st = (r, a', st') ->
  as_addr a' = as_addr a /\ as_pml4_phys a' = as_pml4_phys a /\
  exists L' T', as_inv st' a' L' L0 T' /\ grows (as_pml4_phys a) L T T' (v_mem st) (v_mem st') /\
    ((r = 0 /\ in_window va /\ va mod 4096 = 0 /\
      forall x, leaf (v_mem st') T' x =
        if decide (pd_index x = pd_index va /\ pt_index x = pt_index va) then pte_of pa flags else leaf (v_mem st) T x) \/
     (r = -1 /\ forall x, leaf (v_mem st') T' x = leaf (v_mem st) T x)).
Proof.
  intros Hinv Hva. unfold vmm_map_page, VMM_USER_BASE, VMM_USER_SIZE.
  destruct (Z.ltb_spec va 0x40000000) as [|Hlo]; cbn [orb].
  { intros [= <- <- <-]. do 2 (split; [done|]). exists L, T. auto using grows_refl. }
  rewrite Z.geb_leb. destruct (Z.leb_spec (0x40000000 + 0x40000000) va) as [|Hhi].
  { intros [= <- <- <-]. do 2 (split; [done|]). exists L, T. auto using grows_refl. }
  assert (Hw : in_window va) by (unfold in_window, VMM_USER_BASE, VMM_USER_SIZE; lia).
  rewrite land_fff. destruct (Z.eqb_spec (va mod 4096) 0) as [Hal|]; cbn [negb].
  2:{ intros [= <- <- <-]. do 2 (split; [done|]). exists L, T. auto using grows_refl. }
  assert (E3 : Z.land (entry (v_mem st) (as_pml4_phys a) 0) PTE_ADDR_MASK = tb_pdpt T).
  { destruct Hinv as [Ho Ht]. rewrite (ti_e4 _ _ _ _ Ht). apply page_entry_mask, (owned_page _ _ _ _ _ Ho), (ti_pdpt _ _ _ _ Ht). }
  rewrite E3, pdpt_window by done.
  destruct (next_table a (tb_pdpt T) 1 st) as [[o1 a1] st1] eqn:En1.
  destruct (next_pd _ _ _ _ _ _ _ _ Hinv En1) as (Ea1 & Ep1 & Hr1).
  destruct o1 as [d|].
  2:{ destruct Hr1 as [Hinv1 Em1]. intros [= <- <- <-]. do 2 (split; [done|]). exists L, T.
      split; [done|]. rewrite Em1. auto using grows_refl. }
  destruct Hr1 as (L1 & T1 & Hinv1 & Ed & E31 & HL1 & Hleaf1 & Hg1).
  destruct (next_table a1 d (pd_index va) st1) as [[o2 a2] st2] eqn:En2.
  destruct (next_pt _ _ _ _ _ _ _ _ _ _ Hinv1 Ed (pd_index_range va) En2) as (Ea2 & Ep2 & Hr2).
  destruct o2 as [t|].
  2:{ destruct Hr2 as [Hinv2 Em2]. intros [= <- <- <-]. split; [congruence|]. split; [congruence|]. exists L1, T1.
      rewrite Em2. auto. }
  destruct Hr2 as (L2 & T2 & Hinv2 & Et & HL2 & Hleaf2 & Hg2). intros [= <- <- <-].
  split; [congruence|]. split; [congruence|]. exists L2, T2. fold (pte_of pa flags).
  destruct (as_inv_set_leaf _ _ _ _ _ _ _ (pt_index va) (pte_of pa flags) Hinv2 Et (pt_index_range va)) as (Hinv3 & Hleaf3 & Hg3).
  split; [done|]. cbn [v_mem]. rewrite Ep2 in Hg3. rewrite Ep1 in Hg2, Hg3. split.
  - eapply grows_trans; [exact Hg1| |done]. eapply grows_trans; [exact Hg2|exact Hg3|done].
  - left. do 3 (split; [done|]). intros x. rewrite Hleaf3. case_decide; [done|]. by rewrite Hleaf2, Hleaf1.
Qed.

(** C9 (vmm.c, [vmm_map_page]): on a well-formed address space the call
    either maps the page of [va] to the page of [pa] with the given user bit and
    changes the translation of no other page of the window, or fails (address
    outside the window or unaligned, page limit or heap exhausted) and changes
    no translation. The space stays well-formed, and memory changes only
    inside its own tables, the new ones being freshly allocated. *)
Theorem vmm_map_page_correct st a L L0 T va pa flags r a' st' :
  as_inv st a L L0 T -> in_u64 va -> 0 <= pa < 4503599627370496 ->
  vmm_map_page a va pa flags st = (r, a', st') ->
  as_pml4_phys a' = as_pml4_phys a /\
  exists L' T', as_inv st' a' L' L0 T' /\ grows (as_pml4_phys a) L T T' (v_mem st) (v_mem st') /\
    ((r = 0 /\ in_window va /\ va mod 4096 = 0 /\
      forall x, in_window x -> hw_translate (v_mem st') (as_pml4_phys a) x =
        if decide (x / 4096 = va / 4096)
        then Some (pa / 4096 * 4096 + x mod 4096, Z.testbit flags 2)
        else hw_translate (v_mem st) (as_pml4_phys a) x) \/
     (r = -1 /\ forall x, in_window x ->
        hw_translate (v_mem st') (as_pml4_phys a) x = hw_translate (v_mem st) (as_pml4_phys a) x)).
Proof.
  intros Hinv Hva Hpa Hmap.
  destruct (vmm_map_page_spec _ _ _ _ _ _ _ _ _ _ _ Hinv Hva Hmap) as (_ & Ep & L' & T' & Hinv' & Hg & Hr).
  split; [done|]. exists L', T'. do 2 (split; [done|]).
  destruct (pte_bits pa flags Hpa) as (B0 & B2 & Bm).
  destruct Hr as [(-> & Hw & Hal & Hleaf)|(-> & Hleaf)]; [left|right]; repeat (split; [done|]); intros x Hx;
    rewrite <- Ep, (hw_translate_leaf _ _ _ _ _ _ Hinv' Hx), Ep, (hw_translate_leaf _ _ _ _ _ _ Hinv Hx), Hleaf; [|done].
  destruct (decide (x / 4096 = va / 4096)) as [E|Hne].
  - rewrite decide_True by (by apply index_page). by rewrite B0, B2, Bm.
  - rewrite decide_False; [done|]. intros [? ?]. by apply Hne, index_inj.
Qed.

(** ** Tear-down *)

Lemma free_pages_spec (ps : list Z) h L :
  kalloc_live h L -> NoDup ps -> (forall p, p ∈ ps -> is_Some (L !! p)) ->
  exists h', free_pages ps h = Some h' /\ kalloc_live h' (foldr delete L ps).
Proof.
  intros Hl Hn Hp. revert h L Hl Hp. induction Hn as [|p ps Hnin Hn IH]; intros h L Hl Hp; [by exists h|].
  destruct (Hp p) as [n Hpn]; [by left|]. destruct (kalloc_free_ok _ _ _ _ Hl Hpn) as (h1 & E & Hl1).
  destruct (IH h1 (delete p L) Hl1) as (h' & E' & Hl').
  { intros q Hq. rewrite lookup_delete_ne by (intros ->; done). apply Hp. by right. }
  exists h'. cbn [free_pages foldr]. rewrite E. split; [done|].
  enough (foldr delete (delete p L) ps = delete p (foldr delete L ps)) as <- by done.
  clear. induction ps as [|q ps IH]; [done|]. cbn [foldr]. by rewrite IH, delete_delete.
Qed.

Lemma vmm_destroy_spec st a L L0 :
  own_inv st a L L0 ->
  exists st', vmm_destroy_address_space a st = Some st' /\ v_mem st' = v_mem st /\ kalloc_live (v_heap st') L0.
Proof.
  intros [Hl [Ha _] Hp Hn Hm Hr]. apply NoDup_cons in Hn as [Hna Hn]. unfold vmm_destroy_address_space.
  destruct (free_pages_spec (as_owned a) (v_heap st) L Hl Hn) as (h1 & E1 & Hl1).
  { intros p Hin. destruct (Hp p Hin). eauto. }
  assert (Hla : foldr delete L (as_owned a) !! as_addr a = Some sizeof_vmm_as).
  { rewrite <- Ha. clear -Hna. induction (as_owned a) as [|q l IH]; [done|]. cbn [foldr].
    apply not_elem_of_cons in Hna as [? ?]. rewrite lookup_delete_ne by done. auto. }
  destruct (kalloc_free_ok _ _ _ _ Hl1 Hla) as (h2 & E2 & Hl2).
  rewrite E1. cbn [mbind option_bind]. rewrite E2. cbn [mbind option_bind]. eexists. split; [done|]. split; [done|].
  cbn [v_heap]. by rewrite <- Hr.
Qed.


(** ** Creation *)

Lemma alloc_page_lo st a L L0 p a' st' :
  own_inv st a L L0 -> vmm_alloc_page a st = (p, a', st') -> p <> 0 -> kalloc_lo <= p.
Proof.
  intros Ho E Hp. destruct (vmm_alloc_page_spec _ _ _ _ _ _ _ Ho E) as [(? & _)|(_ & _ & _ & _ & _ & Ho')]; [done|].
  by destruct (kalloc_in _ _ p 4096 (ow_live _ _ _ _ Ho') (lookup_insert_eq _ _ _)).
Qed.

Lemma vmm_create_spec st L0 :
  kalloc_live (v_heap st) L0 -> 0x3000 <= kalloc_lo ->
  exists o st', vmm_create_address_space st = Some (o, st') /\
    match o with
    | None => kalloc_live (v_heap st') L0
    | Some a => exists L T, as_inv st' a L L0 T /\
        (forall x, in_window x -> hw_translate (v_mem st') (as_pml4_phys a) x = None) /\
        entry (v_mem st') (tb_pdpt T) 0 = entry (v_mem st) MASTER_PDPT 0 /\
        entry (v_mem st') (tb_pdpt T) 3 = entry (v_mem st) MASTER_PDPT 3
    end.
Proof.
  intros Hl Hlo. unfold vmm_create_address_space.
  destruct (kalloc sizeof_vmm_as false (v_heap st)) as [q h] eqn:Ek.
  destruct (kalloc_ok _ L0 sizeof_vmm_as false q h Hl ltac:(unfold sizeof_vmm_as; lia) Ek) as [[-> Hl']|(HL & _ & Hl')].
  { rewrite Z.eqb_refl. by eexists _, _. }
  assert (Hq : q <> 0).
  { intros ->. destruct (kalloc_in h _ 0 _ Hl' (lookup_insert_eq _ _ _)). lia. }
  destruct (Z.eqb_spec q 0); [done|]. cbn zeta.
  assert (Ho : own_inv (Vst (v_mem st) h) (As q 0 []) (<[q := sizeof_vmm_as]> L0) L0).
  { split; cbn [v_heap as_addr as_owned]; [done|by rewrite lookup_insert_eq|by intros p ?%elem_of_nil|
      apply NoDup_singleton|cbn; lia|]. cbn [foldr]. by rewrite delete_insert_id. }
  destruct (vmm_alloc_page (As q 0 []) _) as [[p4 a1] st1] eqn:E1.
  pose proof (alloc_page_lo _ _ _ _ _ _ _ Ho E1) as Hlo4.
  assert (exists L1, own_inv st1 a1 L1 L0) as [L1 Ho1].
  { destruct (vmm_alloc_page_spec _ _ _ _ _ _ _ Ho E1) as [(_ & -> & _ & ?)|(_ & _ & _ & _ & _ & ?)]; eauto. }
  destruct (vmm_alloc_page a1 st1) as [[p3 a2] st2] eqn:E2.
  pose proof (alloc_page_lo _ _ _ _ _ _ _ Ho1 E2) as Hlo3.
  assert (exists L2, own_inv st2 a2 L2 L0) as [L2 Ho2].
  { destruct (vmm_alloc_page_spec _ _ _ _ _ _ _ Ho1 E2) as [(_ & -> & _ & ?)|(_ & _ & _ & _ & _ & ?)]; eauto. }
  destruct ((p4 =? 0) || (p3 =? 0)) eqn:Ez.
  { destruct (vmm_destroy_spec _ _ _ _ Ho2) as (st' & -> & _ & Hl2). by exists None, st'. }
  apply orb_false_iff in Ez as [Hz4%Z.eqb_neq Hz3%Z.eqb_neq].
  destruct (vmm_alloc_page_spec _ _ _ _ _ _ _ Ho E1) as [(? & _)|(P4 & _ & _ & -> & Em1 & _)]; [done|].
  destruct (vmm_alloc_page_spec _ _ _ _ _ _ _ Ho1 E2) as [(? & _)|(P3 & _ & Hn3 & -> & Em2 & _)]; [done|].
  specialize (Hlo4 Hz4). specialize (Hlo3 Hz3). cbn [as_owned app as_addr as_pml4_phys] in *.
  assert (Hne : p3 <> p4) by (intros ->; apply Hn3; by left).
  eexists (Some (As q p4 [p4; p3])), _. split; [done|].
  exists L2, (Tables p3 None ∅). cbn [v_mem v_heap tb_pdpt].
  set (m := set_entry (v_mem st2) p4 0 _). set (m1 := set_entry m p3 0 _). set (m2 := set_entry m1 p3 3 _).
  assert (Hmaster : forall i, 0 <= i < 512 -> entry m MASTER_PDPT i = entry (v_mem st) MASTER_PDPT i).
  { intros i Hi. assert (PM : page MASTER_PDPT) by (unfold page, MASTER_PDPT; split; [done|lia]).
    unfold m. rewrite entry_set_other by (done || lia || (left; unfold MASTER_PDPT; lia)).
    rewrite Em2, entry_zero_other, Em1, entry_zero_other by (done || unfold MASTER_PDPT; lia). done. }
  assert (Hinv : as_inv (Vst m2 (v_heap st2)) (As q p4 [p4; p3]) L2 L0 (Tables p3 None ∅)).
  { split; [destruct Ho2; by split|]. cbn [as_owned as_pml4_phys v_mem]. split; cbn [tb_pdpt tb_pd tb_pts].
    - by left.
    - split; [right; by left|done].
    - unfold m2, m1, m. rewrite !entry_set_other by (done || lia || (left; congruence)). apply entry_set_same.
    - unfold m2, m1, m. rewrite !entry_set_other by (done || lia || (left; congruence)).
      rewrite Em2. by apply entry_zero_page.
    - done.
    - done.
    - intros i t. by rewrite lookup_empty.
    - intros i j t. by rewrite lookup_empty.
    - done. }
  split; [done|]. split; [|split].
  - intros x Hx. etransitivity; [exact (hw_translate_leaf _ _ _ _ _ _ Hinv Hx)|]. reflexivity.
  - unfold m2. rewrite entry_set_other by (done || lia || (right; done)). unfold m1. rewrite entry_set_same. by apply Hmaster.
  - unfold m2. rewrite entry_set_same. unfold m1. rewrite entry_set_other by
      (done || lia || (unfold page, MASTER_PDPT; split; [done|lia]) || (left; unfold MASTER_PDPT; lia)). by apply Hmaster.
Qed.

(** ** Checked user ranges *)

Lemma user_bits x : (Z.land x (Z.lor VMM_PAGE_P VMM_PAGE_U) =? Z.lor VMM_PAGE_P VMM_PAGE_U) = Z.testbit x 0 && Z.testbit x 2.
Proof.
  change (Z.lor VMM_PAGE_P VMM_PAGE_U) with 5.
  rewrite <- (Z.mod_pow2_bits_low x 3 0), <- (Z.mod_pow2_bits_low x 3 2) by lia.
  replace (Z.land x 5) with (Z.land (x mod 2 ^ 3) 5).
  2:{ rewrite <- (land_ones_mod x 3) by done. change (2 ^ 3 - 1) with 7. by rewrite <- Z.land_assoc. }
  assert (0 <= x mod 2 ^ 3 < 8) as Hb by (apply Z.mod_pos_bound; done).
  assert (x mod 2 ^ 3 = 0 \/ x mod 2 ^ 3 = 1 \/ x mod 2 ^ 3 = 2 \/ x mod 2 ^ 3 = 3 \/
          x mod 2 ^ 3 = 4 \/ x mod 2 ^ 3 = 5 \/ x mod 2 ^ 3 = 6 \/ x mod 2 ^ 3 = 7) as Hc by lia.
  by destruct Hc as [E|[E|[E|[E|[E|[E|[E|E]]]]]]]; rewrite E.
Qed.

(** What the processor needs for a user access to [x]. *)
Definition user_ok (m : mem_t) (cr3 x : Z) : Prop := exists pa, hw_translate m cr3 x = Some (pa, true).

Lemma page_ok_user st a L L0 T x :
  as_inv st a L L0 T -> in_window x -> page_ok (v_mem st) (tb_pdpt T) x = true <-> user_ok (v_mem st) (as_pml4_phys a) x.
Proof.
  intros Hinv Hx. unfold user_ok. rewrite (hw_translate_leaf _ _ _ _ _ _ Hinv Hx). unfold page_ok, leaf.
  destruct Hinv as [Ho [H4 [H3 H34] E4 E3 Hpd Hnopd Hpts Hinj E2]].
  rewrite pdpt_window, E3 by done. destruct (tb_pd T) as [d|] eqn:Ed.
  2:{ rewrite present_0, (Hnopd eq_refl), lookup_empty. split; [done|by intros [pa [=]]]. }
  destruct (Hpd d eq_refl) as (Hd & _). pose proof (owned_page _ _ _ _ _ Ho Hd) as Pd.
  rewrite present_page, page_entry_mask, (E2 d) by (done || apply pd_index_range).
  destruct (tb_pts T !! pd_index x) as [t|] eqn:Et.
  2:{ rewrite present_0. split; [done|by intros [pa [=]]]. }
  destruct (Hpts _ _ Et) as (Ht & _). pose proof (owned_page _ _ _ _ _ Ho Ht) as Pt.
  rewrite present_page, page_entry_mask, user_bits by done.
  destruct (Z.testbit _ 0), (Z.testbit _ 2); cbn [andb]; split; try done; solve [by intros [pa [=]]|intros _; by eexists].
Qed.

Lemma pages_ok_spec m t fuel page last n :
  0 <= page -> 0 < n -> last = page + 4096 * (n - 1) -> last < 0x80000000 -> (Z.to_nat n <= fuel)%nat ->
  exists b, pages_ok fuel m t page last = Some (b2z b) /\
    (b = true <-> forall j, 0 <= j < n -> page_ok m t (page + 4096 * j) = true).
Proof.
  revert page n. induction fuel as [|fuel IH]; intros page n Hp Hn Hl Hb Hf; [lia|]. cbn [pages_ok].
  destruct (page_ok m t page) eqn:E.
  - destruct (Z.eqb_spec page last) as [->|Hne].
    + exists true. split; [done|]. split; [|done]. intros _ j Hj. replace (last + 4096 * j) with last by lia. done.
    + rewrite u64_id by word. destruct (IH (page + 0x1000) (n - 1)) as (b & Eb & Hb'); [lia..|].
      exists b. split; [done|]. rewrite Hb'. split.
      * intros H0 j Hj. destruct (Z.eq_dec j 0) as [->|]; [by rewrite Z.add_0_r|].
        rewrite <- (H0 (j - 1)) by lia. f_equal. lia.
      * intros H0 j Hj. rewrite <- (H0 (j + 1)) by lia. f_equal. lia.
  - exists false. split; [done|]. split; [done|]. intros H0. specialize (H0 0 ltac:(lia)). rewrite Z.add_0_r in H0. congruence.
Qed.

(** The walk accepts exactly the ranges of the window every byte of which the
    processor translates for user mode. *)
Lemma vmm_range_mapped_spec st a L L0 T va len :
  as_inv st a L L0 T -> 0 <= va -> 0 < len -> va + len < 18446744073709551616 ->
  exists b, vmm_range_mapped (v_mem st) (as_pml4_phys a) va len = Some (b2z b) /\
    (b = true <-> VMM_USER_BASE <= va /\ va + len <= VMM_USER_BASE + VMM_USER_SIZE /\
       forall x, va <= x < va + len -> user_ok (v_mem st) (as_pml4_phys a) x).
Proof.
  intros Hinv Hva Hlen Hov. unfold vmm_range_mapped. destruct (Z.eqb_spec len 0); [lia|].
  rewrite u64_id by word. rewrite Z.gtb_ltb.
  destruct (Z.ltb_spec va VMM_USER_BASE); cbn [orb]; [exists false; split; [done|split; [done|lia]]|].
  destruct (Z.ltb_spec (VMM_USER_BASE + VMM_USER_SIZE) (va + len)); [exists false; split; [done|split; [done|lia]]|].
  assert (E4 : entry (v_mem st) (as_pml4_phys a) 0 = Z.lor (tb_pdpt T) VMM_PAGE_RW_U) by apply Hinv.
  assert (P3 : page (tb_pdpt T)). { destruct Hinv as [Ho Ht]. apply (owned_page _ _ _ _ _ Ho), (ti_pdpt _ _ _ _ Ht). }
  rewrite E4, present_page, page_entry_mask by done.
  change (not64 0xFFF) with 0xFFFFFFFFFFFFF000. rewrite u64_id by word. rewrite !land_page_mask by word.
  unfold VMM_USER_BASE, VMM_USER_SIZE in *.
  set (pg := va / 4096 * 4096). set (last := (va + len - 1) / 4096 * 4096).
  destruct (pages_ok_spec (v_mem st) (tb_pdpt T) (Z.to_nat 262144) pg last ((last - pg) / 4096 + 1)) as (b & Eb & Hb);
    [subst pg last; zlia..|]. exists b. split; [done|]. rewrite Hb. clear Eb Hb b.
  assert (Hwin : forall j, 0 <= j < (last - pg) / 4096 + 1 -> in_window (pg + 4096 * j)).
  { intros j Hj. unfold in_window, VMM_USER_BASE, VMM_USER_SIZE. subst pg last. zlia. }
  assert (Huser : forall x y, in_window x -> in_window y -> x / 4096 = y / 4096 ->
    user_ok (v_mem st) (as_pml4_phys a) x -> user_ok (v_mem st) (as_pml4_phys a) y).
  { intros x y Hx Hy Exy. unfold user_ok. rewrite (hw_translate_leaf _ _ _ _ _ _ Hinv Hx), (hw_translate_leaf _ _ _ _ _ _ Hinv Hy).
    unfold leaf. destruct (index_page _ _ Exy) as [-> ->]. 
    generalize (match tb_pts T !! pd_index y with Some t => entry (v_mem st) t (pt_index y) | None => 0 end) as v.
    intros v [pa E]. destruct (Z.testbit v 0), (Z.testbit v 2); try done. by eexists. }
  split.
  - intros Hall. split; [done|]. split; [done|]. intros x Hx.
    assert (Hj : 0 <= x / 4096 - va / 4096 < (last - pg) / 4096 + 1) by (subst pg last; zlia).
    eapply (Huser (pg + 4096 * (x / 4096 - va / 4096))); [by apply Hwin| | |apply (page_ok_user _ _ _ _ _ _ Hinv); eauto].
    + unfold in_window, VMM_USER_BASE, VMM_USER_SIZE. lia.
    + subst pg. zlia.
  - intros (_ & _ & Hall) j Hj. apply (page_ok_user _ _ _ _ _ _ Hinv); [by apply Hwin|].
    eapply (Huser (Z.max va (pg + 4096 * j))); [|by apply Hwin| |apply Hall].
    + unfold in_window, VMM_USER_BASE, VMM_USER_SIZE. subst pg last. zlia.
    + subst pg last. zlia.
    + subst pg last. zlia.
Qed.

Lemma is_user_range_ok (user_start user_end ptr len : Z) st a L L0 T :
  as_inv st a L L0 T -> 0 <= user_start <= user_end -> user_end < 18446744073709551616 ->
  in_u64 ptr -> 0 < len < 18446744073709551616 ->
  exists b, is_user_range user_start user_end (v_mem st) (as_pml4_phys a) ptr len = Some (b2z b) /\
    (b = true <-> (user_start <= ptr /\ ptr + len <= user_end) \/
       (VMM_USER_BASE <= ptr /\ ptr + len <= VMM_USER_BASE + VMM_USER_SIZE /\
        forall x, ptr <= x < ptr + len -> user_ok (v_mem st) (as_pml4_phys a) x)).
Proof.
  intros Hinv Hus Hue Hp Hlen.
  assert (Hir : forall s e, 0 <= s <= e -> e < 18446744073709551616 ->
    in_range ptr len s e = true <-> s <= ptr /\ ptr + len <= e).
  { intros s e Hse He. unfold in_range. destruct (Z.eqb_spec len 0); [lia|]. rewrite Z.geb_leb.
    destruct (Z.ltb_spec ptr s); cbn [orb]; [split; [done|lia]|].
    destruct (Z.leb_spec e ptr); [split; [done|lia]|]. rewrite u64_id by word.
    rewrite Z.gtb_ltb. destruct (Z.ltb_spec (e - ptr) len); split; (done || lia). }
  unfold is_user_range.
  destruct (in_range ptr len user_start user_end) eqn:E1.
  { exists true. split; [done|]. apply Hir in E1; [|done..]. split; [by left|done]. }
  assert (E1' : ~ (user_start <= ptr /\ ptr + len <= user_end)) by (rewrite <- Hir by done; congruence).
  destruct (in_range ptr len VMM_USER_BASE _) eqn:E2.
  - apply Hir in E2; [|unfold VMM_USER_BASE, VMM_USER_SIZE; lia..].
    destruct (vmm_range_mapped_spec _ _ _ _ _ ptr len Hinv) as (b & Eb & Hb);
      [word|lia|unfold VMM_USER_BASE, VMM_USER_SIZE in *; lia|]. exists b. split; [done|]. rewrite Hb.
    split; [by right|intros [?|?]; [by destruct E1'|done]].
  - assert (E2' : ~ (VMM_USER_BASE <= ptr /\ ptr + len <= VMM_USER_BASE + VMM_USER_SIZE)).
    { rewrite <- Hir by (unfold VMM_USER_BASE, VMM_USER_SIZE; lia). congruence. }
    exists false. split; [done|]. split; [done|]. intros [?|(? & ? & _)]; [by destruct E1'|by destruct E2'].
Qed.

(** C10 (paging.c, [is_user_range] over [vmm_range_mapped]): in a task with a
    well-formed private address space the check of a non-empty range returns,
    and accepts it exactly when it lies in the shared arena, or lies in the
    private window and the processor translates every one of its bytes for
    user mode - also for ranges that wrap around the address space, which are
    refused. *)
Theorem is_user_range_correct (user_start user_end ptr len : Z) st a L L0 T :
  as_inv st a L L0 T -> 0 <= user_start <= user_end -> user_end < 18446744073709551616 ->
  in_u64 ptr -> 0 < len < 18446744073709551616 ->
  exists b, is_user_range user_start user_end (v_mem st) (as_pml4_phys a) ptr len = Some (b2z b) /\
    (b = true <-> (user_start <= ptr /\ ptr + len <= user_end) \/
       (VMM_USER_BASE <= ptr /\ ptr + len <= VMM_USER_BASE + VMM_USER_SIZE /\
        forall x, ptr <= x < ptr + len -> user_ok (v_mem st) (as_pml4_phys a) x)).
Proof. apply is_user_range_ok. Qed.

(** ** Private frames *)

Lemma vmm_alloc_page_owned st a p a' st' :
  vmm_alloc_page a st = (p, a', st') -> exists l, as_owned a' = as_owned a ++ l.
Proof.
  unfold vmm_alloc_page. bcase; [intros [= <- <- <-]; exists []; by rewrite app_nil_r|].
  destruct (kalloc 4096 true (v_heap st)) as [q h]. bcase; intros [= <- <- <-]; [exists []; by rewrite app_nil_r|by exists [q]].
Qed.
Lemma next_table_owned st a t i r a' st' : next_table a t i st = (r, a', st') -> exists l, as_owned a' = as_owned a ++ l.
Proof.
  unfold next_table. bcase; [|intros [= <- <- <-]; exists []; by rewrite app_nil_r].
  destruct (vmm_alloc_page a st) as [[p a1] st1] eqn:E. apply vmm_alloc_page_owned in E. by bcase; intros [= <- <- <-].
Qed.
Lemma vmm_map_page_owned st a va pa flags r a' st' :
  vmm_map_page a va pa flags st = (r, a', st') -> exists l, as_owned a' = as_owned a ++ l.
Proof.
  assert (Hid : exists l, as_owned a = as_owned a ++ l) by (exists []; by rewrite app_nil_r).
  unfold vmm_map_page. destruct (_ || _); [by intros [= <- <- <-]|]. destruct (negb _); [by intros [= <- <- <-]|].
  destruct (next_table a _ _ st) as [[[d|] a1] st1] eqn:E1; apply next_table_owned in E1 as [l1 E1]; [|intros [= <- <- <-]; eauto].
  destruct (next_table a1 _ _ st1) as [[[t|] a2] st2] eqn:E2; apply next_table_owned in E2 as [l2 E2];
    intros [= <- <- <-]; exists (l1 ++ l2); by rewrite E2, E1, app_assoc.
Qed.

Lemma table_page_owned m pml4 owned T p : tab_inv m pml4 owned T -> table_page pml4 T p -> p ∈ owned.
Proof.
  intros [H4 [H3 _] _ _ Hpd _ Hpts _ _] [->|[->|[E|[i Hi]]]]; [done|done|by apply (Hpd p)|by apply (Hpts i p)].
Qed.

Lemma tab_inv_mono m pml4 owned owned' T : tab_inv m pml4 owned T -> (forall q, q ∈ owned -> q ∈ owned') -> tab_inv m pml4 owned' T.
Proof.
  intros [H4 [H3 H34] E4 E3 Hpd Hnopd Hpts Hinj E2] Hsub. split; try done; auto.
  - intros d Hd. destruct (Hpd d Hd) as (? & ? & ?). auto.
  - intros i t Hi. destruct (Hpts i t Hi) as (? & ? & ? & ?). auto.
Qed.

(** The frames the window maps are pages of the space that are not tables, a
    different one for every page of the window. *)
Definition mapped (m : mem_t) T (va : Z) : bool := Z.testbit (leaf m T va) 0.
Definition frame (m : mem_t) T (va : Z) : Z := Z.land (leaf m T va) HW_ADDR_MASK.
Record private (m : mem_t) a T : Prop := {
  pv_owned : forall va, in_window va -> mapped m T va = true ->
    frame m T va ∈ as_owned a /\ ~ table_page (as_pml4_phys a) T (frame m T va);
  pv_inj : forall va va', in_window va -> in_window va' -> mapped m T va = true -> mapped m T va' = true ->
    frame m T va = frame m T va' -> va / 4096 = va' / 4096;
}.

(** The data pages of the space: owned, and not tables. *)
Definition data_page a T (q : Z) : Prop := q ∈ as_owned a /\ ~ table_page (as_pml4_phys a) T q.
(** [m'] differs from [m] only inside the pages of [a'] that were not data
    pages of [a]. *)
Definition keeps_data a T a' (m m' : mem_t) : Prop :=
  forall x, (forall q, q ∈ as_owned a' -> q <= x < q + 4096 -> data_page a T q) -> m' !! x = m !! x.

Lemma leaf_same_mem (m m' : mem_t) pml4 owned T :
  tab_inv m pml4 owned T -> (forall p, p ∈ owned -> page p) ->
  (forall x p, table_page pml4 T p -> p <= x < p + 4096 -> m' !! x = m !! x) ->
  tab_inv m' pml4 owned T /\ forall va, leaf m' T va = leaf m T va.
Proof.
  intros Ht Hpg Hm. pose proof Ht as [H4 [H3 H34] E4 E3 Hpd Hnopd Hpts Hinj E2].
  assert (He : forall p i, table_page pml4 T p -> 0 <= i < 512 -> entry m' p i = entry m p i).
  { intros p i Hp Hi. unfold entry, word_at. rewrite (Hm (p + 8 * i) p); [done|done|lia]. }
  split.
  - split; try done.
    + rewrite He; [done|by left|lia].
    + rewrite He; [done|by right; left|lia].
    + intros d i Hd Hi. rewrite He; [by apply E2|by right; right; left|done].
  - intros va. unfold leaf. destruct (tb_pts T !! pd_index va) as [t|] eqn:Et; [|done].
    apply He; [right; right; right; eauto|apply pt_index_range].
Qed.

Lemma page_apart p q x : page p -> page q -> p <> q -> p <= x < p + 4096 -> ~ q <= x < q + 4096.
Proof. intros [] [] ? ? ?. zlia. Qed.

Lemma alloc_page_keeps st a L L0 T p a' st' :
  as_inv st a L L0 T -> private (v_mem st) a T -> vmm_alloc_page a st = (p, a', st') ->
  as_pml4_phys a' = as_pml4_phys a /\ as_addr a' = as_addr a /\ (forall va, leaf (v_mem st') T va = leaf (v_mem st) T va) /\
  private (v_mem st') a' T /\ keeps_data a T a' (v_mem st) (v_mem st') /\
  exists L', as_inv st' a' L' L0 T /\
    (p = 0 \/ (page p /\ (p ∉ as_owned a) /\ as_owned a' = as_owned a ++ [p] /\ L' !! p = Some 4096 /\
       (forall q, q ∈ as_owned a -> L' !! q = Some 4096) /\ v_mem st' = zero_page p (v_mem st))).
Proof.
  intros [Ho Ht] Hpv Hal. destruct (vmm_alloc_page_spec _ _ _ _ _ _ _ Ho Hal) as [(-> & -> & Em & Ho')|(Pp & HL & Hnin & -> & Em & Ho')].
  - do 2 (split; [done|]). rewrite Em. do 2 (split; [done|]). split; [done|]. exists L. split; [|by left]. split; [done|by rewrite Em].
  - cbn [as_pml4_phys as_addr as_owned]. do 2 (split; [done|]).
    assert (Hm : forall x q, q ∈ as_owned a -> q <= x < q + 4096 -> v_mem st' !! x = v_mem st !! x).
    { intros x q Hq Hx. rewrite Em. apply zero_page_mem. eapply (page_apart q p); try done.
      - by apply (owned_page _ _ _ _ _ Ho).
      - by intros ->. }
    destruct (leaf_same_mem (v_mem st) (v_mem st') (as_pml4_phys a) (as_owned a) T Ht) as [Ht' Hleaf].
    { intros q. by apply (owned_page _ _ _ _ _ Ho). }
    { intros x q Hq. apply Hm. by eapply table_page_owned. }
    split; [done|]. split; [|split].
    + destruct Hpv as [Hpo Hpi]. split; unfold mapped, frame in *; intros; rewrite ?Hleaf in *; [|by apply Hpi].
      destruct (Hpo va) as [? ?]; [done|done|]. split; [apply elem_of_app; by left|done].
    + intros x Hx. rewrite Em. apply zero_page_mem. intros Hpx. destruct (Hx p) as [? _]; [apply elem_of_app; right; by apply list_elem_of_singleton|done|done].
    + exists (<[p := 4096]> L). split.
      * split; [done|]. eapply tab_inv_mono; [exact Ht'|]. intros q Hq. apply elem_of_app. by left.
      * right. split; [done|]. split; [done|]. split; [done|]. split; [apply lookup_insert_eq|]. split; [|done].
        intros q Hq. destruct (ow_pages _ _ _ _ Ho q Hq) as [Hlq _]. rewrite lookup_insert_ne; [done|]. intros ->. done.
Qed.

(** ** The life of an address space *)

(** What is done to a space between its creation and its end: pages are
    allocated for it and mapped in it, in any order and number. *)
Inductive as_op := OpAlloc | OpMap (va pa flags : Z).
Definition as_op_ok (op : as_op) : Prop := match op with OpAlloc => True | OpMap va _ _ => in_u64 va end.
Definition as_step (s : vmm_as_t * vstate H) (op : as_op) : vmm_as_t * vstate H :=
  match op with
  | OpAlloc => let '(_, a, st) := vmm_alloc_page s.1 s.2 in (a, st)
  | OpMap va pa flags => let '(_, a, st) := vmm_map_page s.1 va pa flags s.2 in (a, st)
  end.
Definition as_run (ops : list as_op) (s : vmm_as_t * vstate H) : vmm_as_t * vstate H := fold_left as_step ops s.

Lemma alloc_page_inv st a L L0 T p a' st' :
  as_inv st a L L0 T -> vmm_alloc_page a st = (p, a', st') -> exists L', as_inv st' a' L' L0 T.
Proof.
  intros [Ho Ht] Hal. destruct (vmm_alloc_page_spec _ _ _ _ _ _ _ Ho Hal) as [(-> & -> & Em & Ho')|(Pp & HL & Hnin & -> & Em & Ho')].
  - exists L. split; [done|by rewrite Em].
  - exists (<[p := 4096]> L). split; [done|]. rewrite Em. cbn [as_pml4_phys as_owned].
    eapply tab_inv_mono; [|intros q Hq; apply elem_of_app; left; exact Hq].
    apply (leaf_same_mem (v_mem st) _ _ _ _ Ht); [intros q; by apply (owned_page _ _ _ _ _ Ho)|].
    intros x q Hq Hx. assert (Hqo : q ∈ as_owned a) by (by eapply table_page_owned).
    apply zero_page_mem. eapply (page_apart q p); try done; [by apply (owned_page _ _ _ _ _ Ho)|by intros ->].
Qed.

Lemma as_run_inv ops st a L L0 T :
  as_inv st a L L0 T -> Forall as_op_ok ops -> exists L' T', as_inv (as_run ops (a, st)).2 (as_run ops (a, st)).1 L' L0 T'.
Proof.
  intros Hinv Hops. revert st a L T Hinv. induction Hops as [|op ops Hop _ IH]; intros st a L T Hinv; [by exists L, T|].
  unfold as_run in *. cbn [fold_left]. destruct op as [|va pa flags]; cbn [as_step fst snd].
  - destruct (vmm_alloc_page a st) as [[p a'] st'] eqn:E. destruct (alloc_page_inv _ _ _ _ _ _ _ _ Hinv E) as [L' H']. by eapply IH.
  - destruct (vmm_map_page a va pa flags st) as [[r a'] st'] eqn:E.
    destruct (vmm_map_page_spec _ _ _ _ _ _ _ _ _ _ _ Hinv Hop E) as (_ & _ & L' & T' & H' & _). by eapply IH.
Qed.

(** C30 (vmm.c, [vmm_create_address_space] and [vmm_destroy_address_space]):
    creation returns, and either fails with every allocation given back or
    gives a well-formed space whose window is empty and whose PDPT holds the
    kernel and MMIO entries of the master table. Tearing down any well-formed
    space, with all the pages and tables it has come to own, gives back exactly
    its allocations and changes no memory; in particular the one created, after
    any number of allocations and mappings, whether they succeed or fail. *)
Theorem vmm_create_destroy_correct st L0 :
  kalloc_live (v_heap st) L0 -> 0x3000 <= kalloc_lo ->
  (exists o st', vmm_create_address_space st = Some (o, st') /\
    match o with
    | None => kalloc_live (v_heap st') L0
    | Some a => exists L T, as_inv st' a L L0 T /\
        (forall x, in_window x -> hw_translate (v_mem st') (as_pml4_phys a) x = None) /\
        entry (v_mem st') (tb_pdpt T) 0 = entry (v_mem st) MASTER_PDPT 0 /\
        entry (v_mem st') (tb_pdpt T) 3 = entry (v_mem st) MASTER_PDPT 3 /\
        forall ops, Forall as_op_ok ops ->
          let '(a2, st2) := as_run ops (a, st') in (exists L2 T2, as_inv st2 a2 L2 L0 T2) /\
          exists st3, vmm_destroy_address_space a2 st2 = Some st3 /\ v_mem st3 = v_mem st2 /\ kalloc_live (v_heap st3) L0
    end) /\
  forall st2 a2 L2 L1 T2, as_inv st2 a2 L2 L1 T2 ->
    exists st3, vmm_destroy_address_space a2 st2 = Some st3 /\ v_mem st3 = v_mem st2 /\ kalloc_live (v_heap st3) L1.
Proof.
  intros Hl Hlo. split; [|intros st2 a2 L2 L1 T2 [Ho2 _]; by eapply vmm_destroy_spec].
  destruct (vmm_create_spec st L0 Hl Hlo) as (o & st' & E & Hr). exists o, st'. split; [done|].
  destruct o as [a|]; [|done]. destruct Hr as (L & T & Hinv & Hw & H0 & H3). exists L, T. do 4 (split; [done|]).
  intros ops Hops. destruct (as_run_inv ops st' a L L0 T Hinv Hops) as (L2 & T2 & H2).
  destruct (as_run ops (a, st')) as [a2 st2]. split; [by eauto|]. destruct H2 as [Ho2 _]. by eapply vmm_destroy_spec.
Qed.

Lemma keeps_data_trans a T a1 T1 a2 m m1 m2 :
  keeps_data a T a1 m m1 -> keeps_data a1 T1 a2 m1 m2 -> (forall q, data_page a T q -> data_page a1 T1 q) ->
  (forall q, q ∈ as_owned a1 -> q ∈ as_owned a2) -> keeps_data a T a2 m m2.
Proof. intros H1 H2 Hd Ho x Hx. rewrite H2, H1; [done|auto|]. intros q Hq Hin. apply Hd. auto. Qed.

Lemma frame_pte m T va p flags :
  page p -> leaf m T va = pte_of p flags -> mapped m T va = true /\ frame m T va = p /\ Z.testbit (leaf m T va) 2 = Z.testbit flags 2.
Proof.
  intros [Hm Hr] E. unfold mapped, frame. rewrite E. destruct (pte_bits p flags) as (-> & -> & ->); [lia|]. split_and!; [done|zlia|done].
Qed.

(** Mapping one of the space's own unmapped data pages. *)
Lemma map_own_page st a L L0 T va p r a' st' :
  as_inv st a L L0 T -> private (v_mem st) a T -> in_u64 va -> data_page a T p ->
  (forall x, in_window x -> mapped (v_mem st) T x = true -> frame (v_mem st) T x <> p) ->
  vmm_map_page a va p VMM_PAGE_RW_U st = (r, a', st') ->
  as_pml4_phys a' = as_pml4_phys a /\ as_addr a' = as_addr a /\ (exists l, as_owned a' = as_owned a ++ l) /\
  exists L' T', as_inv st' a' L' L0 T' /\ private (v_mem st') a' T' /\ keeps_data a T a' (v_mem st) (v_mem st') /\
    (forall q, data_page a T q -> data_page a' T' q) /\
    ((r = 0 /\ in_window va /\ va mod 4096 = 0 /\ forall x, in_window x ->
        leaf (v_mem st') T' x = if decide (x / 4096 = va / 4096) then pte_of p VMM_PAGE_RW_U else leaf (v_mem st) T x) \/
     (r = -1 /\ forall x, leaf (v_mem st') T' x = leaf (v_mem st) T x)).
Proof.
  intros Hinv [Hpo Hpi] Hva Hp Hfree Hmap. pose proof Hinv as [Ho Ht].
  pose proof (vmm_map_page_owned _ _ _ _ _ _ _ _ Hmap) as [l El].
  destruct (vmm_map_page_spec _ _ _ _ _ _ _ _ _ _ _ Hinv Hva Hmap) as (Ea & Ep & L' & T' & Hinv' & [Hold Hnew Hmem] & Hr).
  split; [done|]. split; [done|]. split; [by exists l|]. exists L', T'. split; [done|]. pose proof Hinv' as [Ho' Ht'].
  assert (Hdata : forall q, data_page a T q -> data_page a' T' q).
  { intros q [Hq Hnt]. split; [rewrite El; apply elem_of_app; by left|]. rewrite Ep. intros Hq'.
    destruct (Hnew q Hq') as [?|HL]; [done|]. destruct (ow_pages _ _ _ _ Ho q Hq). congruence. }
  assert (Hkeep : keeps_data a T a' (v_mem st) (v_mem st')).
  { intros x Hx. apply Hmem. intros q Hq Hin. destruct (Hx q) as [Hqo Hqt]; [|done|].
    - rewrite <- Ep in Hq. by eapply table_page_owned.
    - destruct (Hnew q Hq) as [?|HL]; [done|]. destruct (ow_pages _ _ _ _ Ho q Hqo). congruence. }
  assert (Hpp : page p) by (apply (owned_page _ _ _ _ _ Ho), Hp).
  assert (Hr' : (r = 0 /\ in_window va /\ va mod 4096 = 0 /\ forall x, in_window x ->
        leaf (v_mem st') T' x = if decide (x / 4096 = va / 4096) then pte_of p VMM_PAGE_RW_U else leaf (v_mem st) T x) \/
     (r = -1 /\ forall x, leaf (v_mem st') T' x = leaf (v_mem st) T x)).
  { destruct Hr as [(-> & Hw & Hal & Hleaf)|]; [left|by right]. split_and!; try done. intros x Hx. rewrite Hleaf.
    destruct (decide (x / 4096 = va / 4096)) as [E|Hne]; [by rewrite decide_True by (by apply index_page)|].
    rewrite decide_False; [done|]. intros [? ?]. by apply Hne, index_inj. }
  split; [|split_and!; done].
  (* every page of the window maps what it mapped before, or [p] *)
  assert (Hcase : forall x, in_window x -> mapped (v_mem st') T' x = true ->
    (x / 4096 = va / 4096 /\ r = 0 /\ frame (v_mem st') T' x = p) \/
    (leaf (v_mem st') T' x = leaf (v_mem st) T x /\ (r = 0 -> x / 4096 <> va / 4096))).
  { intros x Hx Hm. destruct Hr' as [(-> & Hw & Hal & Hleaf)|[-> Hleaf]]; [|by right]. specialize (Hleaf x Hx).
    case_decide as Hd; [|by right]. left. split; [done|]. split; [done|]. by apply (frame_pte _ _ _ _ _ Hpp Hleaf). }
  split; unfold mapped, frame in *.
  - intros x Hx Hm. destruct (Hcase x Hx Hm) as [(_ & _ & ->)|[E _]]; [by apply Hdata|]. rewrite E in *. apply Hdata. by apply Hpo.
  - intros x y Hx Hy Hmx Hmy. destruct (Hcase x Hx Hmx) as [(Ex & Hr0 & Fx)|[Ex Nx]], (Hcase y Hy Hmy) as [(Ey & Hr1 & Fy)|[Ey Ny]].
    + congruence.
    + rewrite Fx, Ey. intros E. destruct (Hfree y Hy); [by rewrite <- Ey|done].
    + rewrite Fy, Ex. intros E. destruct (Hfree x Hx); [by rewrite <- Ex|done].
    + rewrite Ex, Ey in *. by apply Hpi.
Qed.

(** Allocating a page and mapping it at [va]: what SYS_SBRK and the program
    loader do for every page of a process. *)
Lemma grow_page_spec st a L L0 T va p a1 st1 r a' st' :
  as_inv st a L L0 T -> private (v_mem st) a T -> in_u64 va ->
  vmm_alloc_page a st = (p, a1, st1) -> p <> 0 -> vmm_map_page a1 va p VMM_PAGE_RW_U st1 = (r, a', st') ->
  as_pml4_phys a' = as_pml4_phys a /\ as_addr a' = as_addr a /\ page p /\
  exists L' T', as_inv st' a' L' L0 T' /\ private (v_mem st') a' T' /\ keeps_data a T a' (v_mem st) (v_mem st') /\
    (forall q, data_page a T q -> data_page a' T' q) /\ (forall i, 0 <= i < 512 -> entry (v_mem st') p i = 0) /\
    ((r = 0 /\ in_window va /\ va mod 4096 = 0 /\ forall x, in_window x ->
        leaf (v_mem st') T' x = if decide (x / 4096 = va / 4096) then pte_of p VMM_PAGE_RW_U else leaf (v_mem st) T x) \/
     (r = -1 /\ forall x, leaf (v_mem st') T' x = leaf (v_mem st) T x)).
Proof.
  intros Hinv Hpv Hva Hal Hp0 Hmap.
  destruct (alloc_page_keeps _ _ _ _ _ _ _ _ Hinv Hpv Hal) as (Ep1 & Ea1 & Hleaf1 & Hpv1 & Hk1 & L1 & Hinv1 & [?|(Pp & Hnin & Eo & HL & HLq & Em)]); [done|].
  assert (Hdata1 : forall q, data_page a T q -> data_page a1 T q).
  { intros q [Hq Hnt]. split; [rewrite Eo; apply elem_of_app; by left|by rewrite Ep1]. }
  assert (Hpd : data_page a1 T p).
  { split; [rewrite Eo; apply elem_of_app; right; by apply list_elem_of_singleton|]. rewrite Ep1. intros Hq. apply Hnin.
    destruct Hinv as [_ Ht]. by eapply table_page_owned. }
  assert (Hfree : forall x, in_window x -> mapped (v_mem st1) T x = true -> frame (v_mem st1) T x <> p).
  { intros x Hx Hm <-. apply Hnin. unfold mapped, frame in *. rewrite Hleaf1 in *. by apply (pv_owned _ _ _ Hpv). }
  destruct (map_own_page _ _ _ _ _ _ _ _ _ _ Hinv1 Hpv1 Hva Hpd Hfree Hmap) as (Ep & Ea & [l El] & L' & T' & Hinv' & Hpv' & Hk & Hdata & Hr).
  split; [congruence|]. split; [congruence|]. split; [done|]. exists L', T'. split; [done|]. split; [done|].
  assert (Hsub : forall q, q ∈ as_owned a1 -> q ∈ as_owned a') by (intros q Hq; rewrite El; apply elem_of_app; by left).
  split; [by eapply keeps_data_trans|]. split; [auto|]. split.
  - intros i Hi. unfold entry, word_at. rewrite (Hk (p + 8 * i)).
    + rewrite Em. by apply entry_zero_page.
    + intros q Hq Hin. destruct (Z.eq_dec p q) as [<-|Hne]; [done|]. exfalso. destruct Hinv' as [Ho' _].
      eapply (page_apart p q); [done|by apply (owned_page _ _ _ _ _ Ho')|done| |exact Hin]. lia.
  - destruct Hr as [(-> & Hw & Hal' & Hleaf)|[-> Hleaf]]; [left|right]; split_and!; try done; intros; rewrite Hleaf by done; [|done].
    case_decide; [done|apply Hleaf1].
Qed.

End Inv.

(** ** The shared arena *)

Lemma entry_fold_set (f : Z -> Z) t m (n : nat) i :
  page t -> (n <= 512)%nat -> 0 <= i < 512 ->
  entry (foldr (fun i m => set_entry m t (Z.of_nat i) (f (Z.of_nat i))) m (seq 0 n)) t i =
    if decide (i < Z.of_nat n) then f i else entry m t i.
Proof.
  intros Pt. revert m. induction n as [|n IH]; intros m Hn Hi.
  - rewrite decide_False by lia. done.
  - rewrite seq_S, foldr_app. cbn [foldr]. rewrite IH by lia. rewrite Nat.add_0_l.
    destruct (decide (i < Z.of_nat n)); [by rewrite decide_True by lia|].
    destruct (decide (i = Z.of_nat n)) as [->|].
    + rewrite decide_True by lia. apply entry_set_same.
    + rewrite decide_False by lia. apply entry_set_other; (done || lia).
Qed.

Lemma entry_fold_set_other (f : Z -> Z) t t' m (n : nat) i :
  page t -> page t' -> t <> t' -> (n <= 512)%nat -> 0 <= i < 512 ->
  entry (foldr (fun i m => set_entry m t (Z.of_nat i) (f (Z.of_nat i))) m (seq 0 n)) t' i = entry m t' i.
Proof.
  intros Pt Pt' Hne. revert m. induction n as [|n IH]; intros m Hn Hi; [done|].
  rewrite seq_S, foldr_app. cbn [foldr]. rewrite IH by lia. apply entry_set_other; (done || lia || by left).
Qed.

Lemma mark_pdes_entry n idx last m i :
  0 <= idx -> 512 - idx <= Z.of_nat n -> 0 <= i < 512 ->
  entry (mark_pdes n idx last m) PD0_BASE i =
    if decide (idx <= i <= last) then Z.lor (entry m PD0_BASE i) ENTRY_USER else entry m PD0_BASE i.
Proof.
  revert idx m. induction n as [|n IH]; intros idx m Hx Hn Hi; cbn [mark_pdes].
  - rewrite decide_False by lia. done.
  - unfold PDE_COUNT. destruct (Z.leb_spec idx last); cbn [andb]; [|rewrite decide_False by lia; done].
    destruct (Z.ltb_spec idx 512); [|rewrite decide_False by lia; done].
    rewrite IH by lia. destruct (decide (i = idx)) as [->|].
    + rewrite decide_False by lia. rewrite decide_True by lia. apply entry_set_same.
    + rewrite entry_set_other by (done || lia || (unfold page, PD0_BASE; split; [done|lia]) || (right; lia)).
      destruct (decide (idx + 1 <= i <= last)), (decide (idx <= i <= last)); (done || lia).
Qed.

Lemma mark_pdes_other n idx last m t i :
  page t -> t <> PD0_BASE -> 0 <= idx -> 0 <= i < 512 -> entry (mark_pdes n idx last m) t i = entry m t i.
Proof.
  intros Pt Hne. revert idx m. induction n as [|n IH]; intros idx m Hx Hi; cbn [mark_pdes]; [done|].
  unfold PDE_COUNT. destruct (Z.leb_spec idx last); cbn [andb]; [|done]. destruct (Z.ltb_spec idx 512); [|done].
  rewrite IH by lia. apply entry_set_other; (done || lia || (unfold page, PD0_BASE; split; [done|lia]) || (left; congruence)).
Qed.

Lemma land_shifted_mask a b k n :
  0 <= k -> 0 <= n -> 0 <= a < 2 ^ n -> 0 <= b < 2 ^ k -> Z.land (a * 2 ^ k + b) (Z.shiftl (Z.ones n) k) = a * 2 ^ k.
Proof.
  intros Hk Hn Ha Hb. rewrite <- (lor_shiftl_add a b k), <- (Z.shiftl_mul_pow2 a k) by done.
  apply Z.bits_inj'; intros i Hi. rewrite Z.land_spec, Z.lor_spec, !Z.shiftl_spec by done.
  destruct (Z_lt_le_dec i k).
  - rewrite !(Z.testbit_neg_r _ (i - k)) by lia. by rewrite andb_false_r.
  - rewrite (testbit_high b k) by done. rewrite orb_false_r. destruct (Z_lt_le_dec (i - k) n).
    + rewrite Z.ones_spec_low by lia. by rewrite andb_true_r.
    + rewrite (testbit_high a n) by done. done.
Qed.

Lemma index_low va k : 0 <= k -> 0 <= va -> va / 2 ^ k < 512 -> Z.land (Z.shiftr va k) 0x1FF = va / 2 ^ k.
Proof. intros. rewrite index_eq by done. apply Z.mod_small. split; [apply Z.div_pos; lia|done]. Qed.

(** [paging_mark_user_region] of paging.c on the tables of multiboot_entry.asm: afterwards the processor still maps the first
    gigabyte to itself, and user mode may access exactly the arena between
    the linker's two symbols (2 MB-aligned by linker.ld). *)
Theorem paging_mark_user_region_correct (user_start user_end va : Z) :
  0 <= user_start < user_end -> user_end <= 0x40000000 ->
  user_start mod PDE_SIZE = 0 -> user_end mod PDE_SIZE = 0 -> 0 <= va < 0x40000000 ->
  hw_translate (paging_mark_user_region user_start user_end boot_tables) 0x1000 va =
    Some (va, (user_start <=? va) && (va <? user_end)).
Proof.
  intros Hs He Hsa Hea Hva. unfold hw_translate. unfold PDE_SIZE in *.
  assert (P1 : page 0x1000) by (split; [done|lia]). assert (P2 : page 0x2000) by (split; [done|lia]).
  assert (P3 : page 0x3000) by (split; [done|lia]). assert (P4 : page 0x4000) by (split; [done|lia]).
  set (m := paging_mark_user_region _ _ _).
  assert (E4 : entry m 0x1000 0 = 0x2007).
  { unfold m, paging_mark_user_region, PML4_BASE, PDPT_BASE, PDE_SIZE.
    rewrite mark_pdes_other by (done || zlia). rewrite entry_set_other by (done || lia || by left). rewrite entry_set_same.
    unfold boot_tables. rewrite (entry_fold_set_other (fun i => 0xC000009B + i * 0x200000)) by (done || lia).
    rewrite (entry_fold_set_other (fun i => 0x83 + i * 0x200000)) by (done || lia). done. }
  assert (E3 : entry m 0x2000 0 = 0x3007).
  { unfold m, paging_mark_user_region, PML4_BASE, PDPT_BASE, PDE_SIZE.
    rewrite mark_pdes_other by (done || zlia). rewrite entry_set_same. rewrite entry_set_other by (done || lia || by left).
    unfold boot_tables. rewrite (entry_fold_set_other (fun i => 0xC000009B + i * 0x200000)) by (done || lia).
    rewrite (entry_fold_set_other (fun i => 0x83 + i * 0x200000)) by (done || lia). done. }
  set (i := va / 2097152).
  assert (Hi : 0 <= i < 512) by (unfold i; zlia).
  assert (Eb : entry boot_tables 0x3000 i = i * 2 ^ 21 + 0x83).
  { unfold boot_tables. rewrite (entry_fold_set_other (fun i => 0xC000009B + i * 0x200000)) by (done || lia).
    rewrite (entry_fold_set (fun i => 0x83 + i * 0x200000)) by (done || lia). rewrite decide_True by lia.
    change (2 ^ 21) with 0x200000. lia. }
  assert (E2 : entry m 0x3000 i = Z.lor (i * 2 ^ 21 + 0x83) (if (user_start <=? va) && (va <? user_end) then 4 else 0)).
  { unfold m, paging_mark_user_region, PML4_BASE, PDPT_BASE, PDE_SIZE. rewrite u64_id by word.
    rewrite (mark_pdes_entry (Z.to_nat PDE_COUNT)) by (unfold PDE_COUNT, PDE_SIZE; zlia).
    unfold PD0_BASE. clear E4 E3. clearbody m. revert Eb. generalize boot_tables as bt. intros bt Eb.
    rewrite !entry_set_other by (done || lia || by left). rewrite Eb.
    unfold PDE_SIZE, ENTRY_USER. unfold i.
    destruct (Z.leb_spec user_start va), (Z.ltb_spec va user_end); cbn [andb].
    - rewrite decide_True by zlia. done.
    - rewrite decide_False by zlia. by rewrite Z.lor_0_r.
    - rewrite decide_False by zlia. by rewrite Z.lor_0_r.
    - rewrite decide_False by zlia. by rewrite Z.lor_0_r. }
  clear Eb. clearbody m.
  assert (Ei4 : pml4_index va = 0) by (unfold pml4_index; rewrite (index_low va 39) by (change (2 ^ 39) with 549755813888; zlia);
    change (2 ^ 39) with 549755813888; zlia).
  assert (Ei3 : pdpt_index va = 0) by (unfold pdpt_index; rewrite (index_low va 30) by (change (2 ^ 30) with 1073741824; zlia);
    change (2 ^ 30) with 1073741824; zlia).
  assert (Ei2 : pd_index va = i) by (unfold pd_index; rewrite (index_low va 21) by (change (2 ^ 21) with 2097152; zlia); done).
  change (Z.land 0x1000 HW_ADDR_MASK) with 0x1000. rewrite Ei4, E4.
  change (Z.land 0x2007 HW_ADDR_MASK) with 0x2000. rewrite Ei3, E3.
  change (Z.land 0x3007 HW_ADDR_MASK) with 0x3000. rewrite Ei2, E2.
  change (Z.testbit 0x2007 0) with true. change (Z.testbit 0x3007 0) with true. change (Z.testbit 0x3007 7) with false.
  change (Z.testbit 0x2007 2) with true. change (Z.testbit 0x3007 2) with true. cbn [negb andb].
  set (u := (user_start <=? va) && (va <? user_end)). clearbody u. rewrite !Z.lor_spec.
  rewrite !(testbit_small i 21 0x83) by (done || lia).
  replace (Z.land (Z.lor (i * 2 ^ 21 + 0x83) (if u then 4 else 0)) 0x000FFFFFFFE00000) with (i * 2 ^ 21).
  2:{ rewrite Z.land_lor_distr_l. change 0x000FFFFFFFE00000 with (Z.shiftl (Z.ones 31) 21).
      rewrite land_shifted_mask by (done || (split; [lia|]; apply Z.lt_le_trans with 512; [lia|done])).
      destruct u; change (Z.land _ _) with 0; by rewrite Z.lor_0_r. }
  replace (i * 2 ^ 21 + va mod 0x200000) with va by (change (2 ^ 21) with 2097152; unfold i; zlia).
  by destruct u.
Qed.

(** ** Concrete runs over the bump allocator *)
Section Demo.

Lemma vdemo_range : 0 < 0x10000 /\ 0x10000 <= 0x100000 < 4503599627370496 /\ 0x10000 mod 4096 = 0.
Proof. by vm_compute. Qed.
Definition vdemo_kalloc : Kalloc Z := bump_kalloc 0x10000 0x100000 vdemo_range.
#[local] Existing Instance vdemo_kalloc.

Definition vdemo_boot : vstate Z := Vst ∅ 0x10000.
Lemma vdemo_live : kalloc_live (v_heap vdemo_boot) ∅.
Proof. apply bump_boot, vdemo_range. Qed.

(** The address space at 0x10000 with its PML4 at 0x12000 and PDPT at 0x13000. *)
Definition vdemo_as : vmm_as_t := As 0x10000 0x12000 [0x12000; 0x13000].
Definition vdemo_created : option (option vmm_as_t * vstate Z) := vmm_create_address_space vdemo_boot.

Lemma vdemo_inv : exists st L T, vdemo_created = Some (Some vdemo_as, st) /\ as_inv st vdemo_as L ∅ T.
Proof.
  destruct (vmm_create_spec vdemo_boot ∅ vdemo_live) as (o & st & E & Hr); [by vm_compute|].
  assert (Ho : fst <$> vdemo_created = Some (Some vdemo_as)) by (vm_compute; reflexivity).
  unfold vdemo_created in *. rewrite E in Ho. injection Ho as ->. destruct Hr as (L & T & Hinv & _). eauto.
Qed.

(** The space of the demonstration, with two pages allocated and one mapped. *)
Lemma vmm_create_destroy_correct_witness :
  exists o st', vmm_create_address_space vdemo_boot = Some (o, st') /\
    match o with
    | None => kalloc_live (v_heap st') ∅
    | Some a => exists st3,
        let '(a2, st2) := as_run [OpAlloc; OpMap 0x40001000 0x50000 7; OpAlloc] (a, st') in
        vmm_destroy_address_space a2 st2 = Some st3 /\ kalloc_live (v_heap st3) ∅
    end.
Proof.
  destruct (vmm_create_destroy_correct vdemo_boot ∅ vdemo_live) as [(o & st' & E & Hr) _]; [by vm_compute|].
  exists o, st'. split; [done|]. destruct o as [a|]; [|done]. destruct Hr as (L & T & _ & _ & _ & _ & Hops).
  specialize (Hops [OpAlloc; OpMap 0x40001000 0x50000 7; OpAlloc] ltac:(by repeat constructor)).
  destruct (as_run _ (a, st')) as [a2 st2]. destruct Hops as [_ (st3 & E3 & _ & Hl)]. exists st3. by split.
Defined.

Lemma vmm_map_page_correct_witness :
  exists st r a' st', vdemo_created = Some (Some vdemo_as, st) /\
    vmm_map_page vdemo_as 0x40001000 0x50000 VMM_PAGE_RW_U st = (r, a', st') /\ as_pml4_phys a' = 0x12000.
Proof.
  destruct vdemo_inv as (st & L & T & E & Hinv).
  destruct (vmm_map_page vdemo_as 0x40001000 0x50000 VMM_PAGE_RW_U st) as [[r a'] st'] eqn:Em.
  exists st, r, a', st'. split; [done|]. split; [done|].
  by destruct (vmm_map_page_correct st vdemo_as L ∅ T 0x40001000 0x50000 VMM_PAGE_RW_U r a' st' Hinv) as [? _]; [word|lia|done|].
Defined.

Lemma is_user_range_correct_witness :
  exists st b, vdemo_created = Some (Some vdemo_as, st) /\
    is_user_range 0x200000 0x400000 (v_mem st) 0x12000 0x200010 16 = Some (b2z b) /\ b = true.
Proof.
  destruct vdemo_inv as (st & L & T & E & Hinv).
  destruct (is_user_range_correct 0x200000 0x400000 0x200010 16 st vdemo_as L ∅ T Hinv) as (b & Eb & Hb);
    [lia|lia|word|lia|]. exists st, b. split; [done|]. split; [done|]. apply Hb. left. lia.
Defined.
End Demo.

Lemma paging_mark_user_region_correct_witness :
  hw_translate (paging_mark_user_region 0x800000 0xA00000 boot_tables) 0x1000 0x900000 = Some (0x900000, true).
Proof. apply (paging_mark_user_region_correct 0x800000 0xA00000 0x900000); (lia || done). Defined.
