(* ===== verification/Sort.v ===== *)
(** * Sorting and searching

    Models libc/sort.c: the hybrid quicksort [ksort] and the binary search
    [kbsearch] over an array of elements with a comparison callback. An array
    of [n] elements is a list; [base + i * sz] is index [i]; a call on a part of
    the array works on that part in place ([sub_array]). The theorems: the
    result is a sorted permutation for every comparison that is a total
    preorder, the recursion ends, and the search finds an equal element exactly
    when there is one. *)

From S2P Require Import Prelude.

Section Sort.
Context {A : Type} (cmp : A -> A -> Z).
Implicit Types l : list A.

(** [cmp(base + i * sz, base + j * sz)] on valid indices. *)
Definition cmp_at l (i j : nat) : Z :=
  match l !! i, l !! j with Some x, Some y => cmp x y | _, _ => 0 end.

Definition bswap (i j : nat) l : list A :=
  match l !! i, l !! j with Some x, Some y => <[i := y]> (<[j := x]> l) | _, _ => l end.

(** The index of the median of three elements. *)
Definition med3 l (a b c : nat) : nat :=
  if cmp_at l a b <? 0 then
    if cmp_at l b c <? 0 then b else if cmp_at l a c <? 0 then c else a
  else if cmp_at l b c >? 0 then b else if cmp_at l a c >? 0 then c else a.

Definition ISORT_MAX : nat := 8.

(** The inner loop of [isort]: element [j] sinks to its place. *)
Fixpoint isort_sink (j : nat) l : list A :=
  match j with
  | O => l
  | S j' => if cmp_at l j' j >? 0 then isort_sink j' (bswap j' j l) else l
  end.
Definition isort l : list A := fold_left (fun l i => isort_sink i l) (seq 1 (length l - 1)) l.

(** The partition loop from [j], [k] rounds, with the boundary [i]. *)
Fixpoint partition (k j i : nat) l : nat * list A :=
  match k with
  | O => (i, l)
  | S k => if cmp_at l j (length l - 1) <=? 0 then partition k (S j) (S i) (bswap i j l) else partition k (S j) i l
  end.

(** A call on the [n] elements at [b]. *)
Definition sub_array (b n : nat) (f : list A -> list A) l : list A :=
  take b l ++ f (take n (drop b l)) ++ drop (b + n) l.

Fixpoint qsort_impl (fuel : nat) l : option (list A) :=
  match fuel with
  | O => None
  | S fuel =>
    let n := length l in
    if (n <? 2)%nat then Some l
    else if (n <=? ISORT_MAX)%nat then Some (isort l)
    else
      let piv := med3 l 0 (n / 2) (n - 1) in
      let l := bswap piv (n - 1) l in
      let '(i, l) := partition (n - 1) 0 0 l in
      let l := bswap i (n - 1) l in
      l ← (if (0 <? i)%nat then r ← qsort_impl fuel (take i l); Some (sub_array 0 i (fun _ => r) l) else Some l);
      if (2 <? n - i)%nat then
        r ← qsort_impl fuel (take (n - i - 1) (drop (i + 1) l)); Some (sub_array (i + 1) (n - i - 1) (fun _ => r) l)
      else Some l
  end.

Definition ksort l : option (list A) := qsort_impl (S (length l)) l.

(** The loop of [kbsearch] on the elements [lo .. lo + hi): [ck x] is the
    comparison of the key with [x]; the result is an index. *)
Fixpoint kbsearch_loop (fuel : nat) (ck : A -> Z) l (lo hi : nat) : option (option nat) :=
  match fuel with
  | O => None
  | S fuel =>
    if (0 <? hi)%nat then
      let mid := (hi / 2)%nat in
      x ← l !! (lo + mid)%nat;
      let r := ck x in
      if r =? 0 then Some (Some (lo + mid)%nat)
      else if r >? 0 then kbsearch_loop fuel ck l (lo + (mid + 1)) (hi - (mid + 1))
      else kbsearch_loop fuel ck l lo mid
    else Some None
  end.
Definition kbsearch (ck : A -> Z) l : option (option nat) := kbsearch_loop (S (length l)) ck l 0 (length l).
End Sort.

(** ** Comparisons *)

(** The callback is a total preorder: [cmp x y <= 0] reads "x is not after y". *)
Class CmpOrder {A} (cmp : A -> A -> Z) : Prop := {
  cmp_flip : forall x y, cmp x y <= 0 <-> 0 <= cmp y x;
  cmp_trans : forall x y z, cmp x y <= 0 -> cmp y z <= 0 -> cmp x z <= 0;
}.

Section Proofs.
Context {A : Type} (cmp : A -> A -> Z) `{!CmpOrder cmp}.
Implicit Types l : list A.
Definition le x y : Prop := cmp x y <= 0.

Lemma le_total x y : 0 < cmp x y -> le y x.
Proof. intros Hc. unfold le. apply cmp_flip. lia. Qed.

Lemma bswap_same i l : bswap i i l = l.
Proof. unfold bswap. destruct (l !! i) eqn:E; [|done]. rewrite list_insert_insert_eq. by apply list_insert_id. Qed.

Lemma length_bswap i j l : length (bswap i j l) = length l.
Proof. unfold bswap. destruct (l !! i), (l !! j); rewrite ?length_insert; done. Qed.

Lemma lookup_bswap i j l k x y : l !! i = Some x -> l !! j = Some y ->
  bswap i j l !! k = if decide (k = i) then Some y else if decide (k = j) then Some x else l !! k.
Proof.
  intros Hi Hj. unfold bswap. rewrite Hi, Hj. pose proof (lookup_lt_Some _ _ _ Hi). pose proof (lookup_lt_Some _ _ _ Hj).
  destruct (decide (k = i)) as [->|]; [by rewrite list_lookup_insert_eq by (rewrite length_insert; lia)|].
  rewrite list_lookup_insert_ne by done. destruct (decide (k = j)) as [->|]; [by rewrite list_lookup_insert_eq by lia|].
  by rewrite list_lookup_insert_ne.
Qed.

Lemma bswap_perm i j l : bswap i j l ≡ₚ l.
Proof.
  unfold bswap. destruct (l !! i) as [x|] eqn:Ei; [|done]. destruct (l !! j) as [y|] eqn:Ej; [|done].
  by apply Permutation_insert_swap.
Qed.

Lemma sorted_app l1 l2 : StronglySorted le l1 -> StronglySorted le l2 -> (forall x y, x ∈ l1 -> y ∈ l2 -> le x y) ->
  StronglySorted le (l1 ++ l2).
Proof.
  intros H1 H2 H12. induction H1 as [|x l1 H1 IH Hx]; [done|]. cbn [app]. constructor.
  - apply IH. intros y z Hy Hz. apply H12; [by right|done].
  - apply Forall_app. split; [done|]. apply Forall_forall. intros y Hy. apply H12; [by left|done].
Qed.

Lemma sorted_app_inv l1 l2 : StronglySorted le (l1 ++ l2) ->
  StronglySorted le l1 /\ StronglySorted le l2 /\ (forall x y, x ∈ l1 -> y ∈ l2 -> le x y).
Proof.
  induction l1 as [|x l1 IH]; cbn [app]; [intros; split_and!; [constructor|done|by intros ? ? ?%elem_of_nil]|].
  intros Hs. apply StronglySorted_inv in Hs as [Hs Hx]. destruct (IH Hs) as (H1 & H2 & H12).
  apply Forall_app in Hx as [Hx1 Hx2]. split; [by constructor|]. split; [done|].
  intros y z [->|Hy]%elem_of_cons Hz; [by eapply Forall_forall in Hx2|auto].
Qed.

Lemma le_refl x : le x x.
Proof. unfold le. destruct (Z_lt_le_dec 0 (cmp x x)) as [Hc|]; [|done]. by apply le_total in Hc. Qed.

Lemma sorted_snoc l x : StronglySorted le l -> (forall y, y ∈ l -> le y x) -> StronglySorted le (l ++ [x]).
Proof. intros. apply sorted_app; [done|repeat constructor|]. intros y z Hy ->%list_elem_of_singleton. auto. Qed.

(** ** Insertion sort *)

Lemma sink_ok s x rest : StronglySorted le s ->
  exists s', isort_sink cmp (length s) (s ++ x :: rest) = s' ++ rest /\ s' ≡ₚ s ++ [x] /\ StronglySorted le s'.
Proof.
  revert rest. induction s as [|y s IH] using rev_ind; intros rest Hs.
  - exists [x]. split; [done|]. split; [done|]. repeat constructor.
  - destruct (sorted_app_inv _ _ Hs) as (Hs1 & _ & Hsy). rewrite length_app, Nat.add_1_r. cbn [isort_sink].
    assert (Ey : ((s ++ [y]) ++ x :: rest) !! length s = Some y) by (rewrite <- app_assoc; by apply list_lookup_middle).
    assert (Ex : ((s ++ [y]) ++ x :: rest) !! S (length s) = Some x) by (apply list_lookup_middle; rewrite length_app; cbn; lia).
    unfold cmp_at. rewrite Ey, Ex, Z.gtb_ltb. destruct (Z.ltb_spec 0 (cmp y x)) as [Hc|Hc].
    + assert (Esw : bswap (length s) (S (length s)) ((s ++ [y]) ++ x :: rest) = s ++ x :: y :: rest).
      { apply list_eq. intros k. rewrite (lookup_bswap _ _ _ _ _ _ Ey Ex). rewrite <- !app_assoc. cbn [app].
        destruct (decide (k = length s)) as [->|]; [by rewrite list_lookup_middle|].
        destruct (decide (k = S (length s))) as [->|]; [by rewrite lookup_app_r, Nat.sub_succ_l, Nat.sub_diag by lia|].
        destruct (decide (k < length s)%nat); [by rewrite !lookup_app_l by lia|].
        rewrite !lookup_app_r by lia. destruct (k - length s)%nat as [|[|m]] eqn:Ek; [lia|lia|done]. }
      rewrite Esw. destruct (IH (y :: rest) Hs1) as (s' & -> & Hp & Hs'). exists (s' ++ [y]). split; [by rewrite <- app_assoc|]. split.
      * rewrite Hp. rewrite <- !app_assoc. by apply Permutation_app_head, Permutation_swap.
      * apply sorted_snoc; [done|]. intros z Hz. rewrite Hp in Hz. apply elem_of_app in Hz as [Hz| ->%list_elem_of_singleton].
        -- apply Hsy; [done|by left].
        -- by apply le_total.
    + exists ((s ++ [y]) ++ [x]). split; [by rewrite <- (app_assoc (s ++ [y]) [x])|]. split; [done|]. apply sorted_snoc; [done|].
      intros z [Hz| ->%list_elem_of_singleton]%elem_of_app; [|done]. eapply cmp_trans; [|exact Hc]. apply Hsy; [done|by left].
Qed.

Lemma isort_ok l : isort cmp l ≡ₚ l /\ StronglySorted le (isort cmp l).
Proof.
  unfold isort.
  enough (Hgen : forall n s rest, length rest = n -> StronglySorted le s ->
    let r := fold_left (fun l i => isort_sink cmp i l) (seq (length s) n) (s ++ rest) in r ≡ₚ s ++ rest /\ StronglySorted le r).
  { destruct l as [|x l]; [split; [done|constructor]|]. cbn [length]. rewrite Nat.sub_succ, Nat.sub_0_r.
    apply (Hgen (length l) [x] l); [done|repeat constructor]. }
  induction n as [|n IH]; intros s rest Hn Hs; cbn [seq fold_left].
  - destruct rest; [|done]. rewrite app_nil_r. by split.
  - destruct rest as [|x rest]; [done|]. injection Hn as Hn. destruct (sink_ok s x rest Hs) as (s' & -> & Hp & Hs').
    assert (El : S (length s) = length s') by (rewrite Hp, length_app; cbn; lia). rewrite El.
    destruct (IH s' rest Hn Hs') as [H1 H2]. split; [|done]. rewrite H1, Hp, <- app_assoc. done.
Qed.

(** ** Partition *)

Record parted (l : list A) (p : A) (i j : nat) : Prop := {
  pa_piv : l !! (length l - 1)%nat = Some p;
  pa_ij : (i <= j)%nat;
  pa_low : forall k x, (k < i)%nat -> l !! k = Some x -> le x p;
  pa_high : forall k x, (i <= k < j)%nat -> l !! k = Some x -> le p x;
}.

Lemma partition_ok k j i l p :
  parted l p i j -> (j + k = length l - 1)%nat -> let '(i', l') := partition cmp k j i l in
  parted l' p i' (length l - 1) /\ l' ≡ₚ l.
Proof.
  revert j i l. induction k as [|k IH]; intros j i l Hp Hk; cbn [partition].
  { replace (length l - 1)%nat with j by lia. by split. }
  destruct (lookup_lt_is_Some_2 l j) as [x Hx]; [lia|]. destruct (lookup_lt_is_Some_2 l i) as [y Hy]; [destruct Hp; lia|].
  unfold cmp_at. rewrite Hx, (pa_piv _ _ _ _ Hp). destruct (Z.leb_spec (cmp x p) 0) as [Hc|Hc].
  - specialize (IH (S j) (S i) (bswap i j l)). rewrite length_bswap in IH.
    destruct (partition cmp k (S j) (S i) (bswap i j l)) as [i' l']. destruct IH as [H1 H2]; [|lia|].
    + destruct Hp as [Hpv Hij Hl Hh].
      assert (Hlk : forall m z, bswap i j l !! m = Some z -> (m = i /\ z = x) \/ (m = j /\ z = y) \/ (m <> i /\ m <> j /\ l !! m = Some z)).
      { intros m z. rewrite (lookup_bswap i j l m y x) by done. destruct (decide (m = i)); [intros [= <-]; by left|].
        destruct (decide (m = j)); [intros [= <-]; by right; left|]. intros; right; right; done. }
      split.
      * rewrite length_bswap, (lookup_bswap i j l _ y x) by done. rewrite decide_False by lia. by rewrite decide_False by lia.
      * lia.
      * intros m z Hm [[-> ->]|[[-> ->]|(? & ? & Hz)]]%Hlk; [done|assert (j = i) as -> by lia; congruence|apply (Hl m); [lia|done]].
      * intros m z Hm [[-> ->]|[[-> ->]|(? & ? & Hz)]]%Hlk; [lia| |apply (Hh m); [lia|done]].
        apply (Hh i); [|done]. lia.
    + split; [done|]. rewrite H2. apply bswap_perm.
  - apply (IH (S j) i l); [|lia]. destruct Hp as [Hpv Hij Hl Hh]. split; [done|lia|done|].
    intros m z Hm Hz. destruct (decide (m = j)) as [->|]; [|apply (Hh m); [lia|done]].
    rewrite Hx in Hz. injection Hz as <-. by apply le_total.
Qed.

(** The pivot's place: everything before it is not after it, everything
    behind it not before it. *)
Lemma partition_swap_ok l p i :
  parted l p i (length l - 1) -> (0 < length l)%nat ->
  exists l1 l2, bswap i (length l - 1) l = l1 ++ p :: l2 /\ length l1 = i /\
    Forall (fun x => le x p) l1 /\ Forall (fun x => le p x) l2.
Proof.
  intros [Hpv Hij Hl Hh] Hn. destruct (lookup_lt_is_Some_2 l i) as [y Hy]; [lia|].
  pose proof (fun k => lookup_bswap i (length l - 1) l k y p Hy Hpv) as Hlk. set (l' := bswap _ _ l) in *.
  assert (Hlen : length l' = length l) by apply length_bswap.
  exists (take i l'), (drop (S i) l'). split.
  { symmetry. apply take_drop_middle. rewrite Hlk. by rewrite decide_True. }
  split; [len|]. split; apply Forall_lookup; intros k x.
  - intros [Hx Hki]%lookup_take_Some. rewrite Hlk in Hx. rewrite !decide_False in Hx by lia. by apply (Hl k).
  - rewrite lookup_drop. intros Hx. pose proof (lookup_lt_Some _ _ _ Hx) as Hlt. rewrite Hlk, decide_False in Hx by lia.
    destruct (decide (S i + k = length l - 1)%nat) as [Ek|Ek].
    + injection Hx as <-. destruct (decide (i = length l - 1)%nat); [lia|]. by apply (Hh i y); [lia|].
    + apply (Hh (S i + k)%nat x); [lia|done].
Qed.

Lemma qsort_ok fuel l : (length l < fuel)%nat ->
  exists l', qsort_impl cmp fuel l = Some l' /\ l' ≡ₚ l /\ StronglySorted le l'.
Proof.
  revert l. induction fuel as [|fuel IH]; intros l Hf; [lia|]. cbn [qsort_impl].
  destruct (Nat.ltb_spec (length l) 2) as [Hn|Hn].
  { exists l. do 2 (split; [done|]). destruct l as [|x [|y l]]; [constructor|repeat constructor|cbn in Hn; lia]. }
  destruct (Nat.leb_spec (length l) ISORT_MAX); [exists (isort cmp l); split; [done|]; apply isort_ok|].
  set (l0 := bswap (med3 cmp l 0 (length l / 2) (length l - 1)) (length l - 1) l).
  assert (El0 : length l0 = length l) by apply length_bswap. destruct (lookup_lt_is_Some_2 l0 (length l - 1)) as [p Hp]; [lia|].
  pose proof (partition_ok (length l - 1) 0 0 l0 p) as Hpart. destruct (partition cmp (length l - 1) 0 0 l0) as [i l1].
  destruct Hpart as [Hp1 Hperm1]; [split; [by rewrite El0|lia|lia|lia]|lia|].
  assert (El1 : length l1 = length l) by (rewrite Hperm1; done).
  destruct (partition_swap_ok l1 p i) as (a & b & Eab & Ea & Ha & Hb); [by rewrite El1, <- El0|lia|]. rewrite El1 in Eab.
  rewrite Eab. assert (Hab : a ++ p :: b ≡ₚ l) by (rewrite <- Eab, bswap_perm, Hperm1; apply bswap_perm).
  assert (Hlen : (length a + S (length b) = length l)%nat) by (rewrite <- Hab, length_app; done).
  (* the part before the pivot *)
  assert (exists a', (if (0 <? i)%nat then r ← qsort_impl cmp fuel (take i (a ++ p :: b)); Some (sub_array 0 i (fun _ => r) (a ++ p :: b))
     else Some (a ++ p :: b)) = Some (a' ++ p :: b) /\ a' ≡ₚ a /\ StronglySorted le a') as (a' & E1 & Hpa & Hsa).
  { destruct (Nat.ltb_spec 0 i).
    - rewrite take_app_length' by done. destruct (IH a ltac:(lia)) as (a' & -> & Hpa & Hsa). exists a'. split; [|done].
      cbn. unfold sub_array. cbn. by rewrite drop_app_length' by done.
    - exists a. assert (a = []) as -> by (apply nil_length_inv; lia). split; [done|]. split; [done|constructor]. }
  rewrite E1. cbn [mbind option_bind]. assert (Ea' : length a' = i) by (rewrite Hpa; done).
  assert (Edrop : drop (i + 1) (a' ++ p :: b) = b).
  { rewrite <- Ea', <- drop_drop, drop_app_length. done. }
  assert (exists b', (if (2 <? length l - i)%nat then r ← qsort_impl cmp fuel (take (length l - i - 1) (drop (i + 1) (a' ++ p :: b)));
      Some (sub_array (i + 1) (length l - i - 1) (fun _ => r) (a' ++ p :: b)) else Some (a' ++ p :: b)) = Some (a' ++ p :: b') /\
     b' ≡ₚ b /\ StronglySorted le b') as (b' & E2 & Hpb & Hsb).
  { rewrite Edrop, (take_ge b) by lia. destruct (Nat.ltb_spec 2 (length l - i)).
    - destruct (IH b ltac:(lia)) as (b' & -> & Hpb & Hsb). exists b'. split; [|done]. cbn. unfold sub_array.
      rewrite (drop_ge (a' ++ p :: b)) by (rewrite length_app; cbn; lia). rewrite app_nil_r.
      replace (a' ++ p :: b) with ((a' ++ [p]) ++ b) by (by rewrite <- app_assoc).
      rewrite take_app_length' by (rewrite length_app; cbn; lia). by rewrite <- app_assoc.
    - exists b. split; [done|]. split; [done|]. destruct b as [|x [|y b]]; [constructor|repeat constructor|cbn in *; lia]. }
  exists (a' ++ p :: b'). split; [exact E2|]. split; [by rewrite Hpa, Hpb|].
  assert (Ha' : forall x, x ∈ a' -> le x p) by (intros x Hx; rewrite Hpa in Hx; by eapply Forall_forall in Ha).
  assert (Hb' : forall x, x ∈ b' -> le p x) by (intros x Hx; rewrite Hpb in Hx; by eapply Forall_forall in Hb).
  apply sorted_app; [done|constructor; [done|by apply Forall_forall]|].
  intros x y Hx [->|Hy]%elem_of_cons; [auto|]. eapply cmp_trans; [by apply Ha'|by apply Hb'].
Qed.

(** Of sort.c, [ksort]: for every comparison callback that is a total
    preorder, the hybrid quicksort returns on every array, and the array is
    then a permutation of what it was, in order. *)
Theorem ksort_correct l : exists l', ksort cmp l = Some l' /\ l' ≡ₚ l /\ StronglySorted le l'.
Proof. apply qsort_ok. lia. Qed.
End Proofs.

(** ** The search *)

(** The callback of a search orders the array: elements for which it is
    positive come first, then those that match, then the others. *)
Definition search_ordered {A} (ck : A -> Z) (l : list A) : Prop :=
  forall i j x y, (i < j)%nat -> l !! i = Some x -> l !! j = Some y ->
    (ck x <= 0 -> ck y <= 0) /\ (ck x < 0 -> ck y < 0).

Lemma kbsearch_loop_ok {A} (ck : A -> Z) l fuel lo hi :
  search_ordered ck l -> (hi < fuel)%nat -> (lo + hi <= length l)%nat ->
  (forall k x, (k < lo)%nat -> l !! k = Some x -> ck x <> 0) ->
  (forall k x, (lo + hi <= k)%nat -> l !! k = Some x -> ck x <> 0) ->
  exists r, kbsearch_loop fuel ck l lo hi = Some r /\
    match r with
    | Some i => exists x, l !! i = Some x /\ ck x = 0
    | None => forall x, x ∈ l -> ck x <> 0
    end.
Proof.
  intros Hord. revert lo hi. induction fuel as [|fuel IH]; intros lo hi Hf Hn Hlo Hhi; [lia|]. cbn [kbsearch_loop].
  destruct (Nat.ltb_spec 0 hi) as [Hpos|Hz].
  - assert (Hmid : (hi / 2 < hi)%nat) by (apply Nat.div_lt; lia). remember (hi / 2)%nat as mid eqn:Emid.
    destruct (lookup_lt_is_Some_2 l (lo + mid)) as [x Hx]; [lia|]. rewrite Hx. cbn [mbind option_bind].
    destruct (Z.eqb_spec (ck x) 0) as [E|E]; [by exists (Some (lo + mid)%nat); eauto|].
    rewrite Z.gtb_ltb. destruct (Z.ltb_spec 0 (ck x)) as [Hgt|Hle].
    + apply IH; [lia|lia| |intros k y Hk; apply Hhi; lia]. intros k y Hk Hy.
      destruct (decide (k = lo + mid)%nat) as [->|Hne]; [congruence|].
      destruct (Hord k (lo + mid)%nat y x ltac:(lia) Hy Hx) as [H1 _]. intros E0. rewrite E0 in H1. specialize (H1 ltac:(lia)). lia.
    + apply IH; [lia|lia|done|]. intros k y Hk Hy.
      destruct (decide (k = lo + mid)%nat) as [->|Hne]; [congruence|].
      destruct (Hord (lo + mid)%nat k x y ltac:(lia) Hx Hy) as [_ H2]. specialize (H2 ltac:(lia)). lia.
  - exists None. split; [done|]. intros x [k Hk]%list_elem_of_lookup. destruct (Nat.ltb_spec k lo); [by apply (Hlo k)|apply (Hhi k); [lia|done]].
Qed.

(** sort.c, [kbsearch]: on an array ordered for the key the search
    returns an index of a matching element when there is one, and NULL
    exactly when there is none; it takes at most one round per element. *)
Theorem kbsearch_correct {A} (ck : A -> Z) (l : list A) :
  search_ordered ck l ->
  exists r, kbsearch ck l = Some r /\
    match r with
    | Some i => exists x, l !! i = Some x /\ ck x = 0
    | None => forall x, x ∈ l -> ck x <> 0
    end.
Proof.
  intros Hord. apply kbsearch_loop_ok; [done|lia|lia|lia|]. intros k x Hk Hx. apply lookup_lt_Some in Hx. lia.
Qed.

#[export] Instance sub_order : CmpOrder (fun x y : Z => x - y).
Proof. split; intros; lia. Qed.

Lemma ksort_correct_witness : exists l', ksort Z.sub [3; 1; 2; 9; 5; 4; 8; 7; 6; 0] = Some l' /\ l' = [0; 1; 2; 3; 4; 5; 6; 7; 8; 9].
Proof.
  destruct (ksort_correct (fun x y : Z => x - y) [3; 1; 2; 9; 5; 4; 8; 7; 6; 0]) as (l' & E & _). exists l'. split; [exact E|].
  vm_compute in E. by injection E.
Defined.

Lemma kbsearch_correct_witness : exists i x, kbsearch (fun x => 5 - x) [1; 3; 5; 7] = Some (Some i) /\ [1; 3; 5; 7] !! i = Some x /\ 5 - x = 0.
Proof.
  destruct (kbsearch_correct (fun x => 5 - x) [1; 3; 5; 7]) as (r & E & Hr).
  - intros i j x y Hij Hx Hy. pose proof (lookup_lt_Some _ _ _ Hy) as Hlt. cbn in Hlt.
    destruct i as [|[|[|[|i]]]], j as [|[|[|[|j]]]]; try lia; injection Hx as <-; injection Hy as <-; lia.
  - destruct r as [i|]; [destruct Hr as (x & Hx & E0); by exists i, x|]. by vm_compute in E.
Defined.
