(* ===== verification/Utf8.v ===== *)
(** * UTF-8

    Models libc/utf8.c and libc/utf8.h: the encoder, the decoder and the string
    functions on them. A [const char *] is the list of the bytes from it on
    up to the terminator; reading the terminator is reading 0. The theorems:
    decoding what was encoded gives the code point back; the decoder's answer
    is a code point only for its one shortest encoding, and it always moves
    forward, by four bytes at most and never past the terminator. *)

From S2P Require Import Prelude.

(** ** libc/utf8.h *)

Definition RUNE_ERROR : Z := 0xFFFD.
Definition RUNE_EOF : Z := 0xFFFFFFFF.
Definition RUNE_MAX : Z := 0x10FFFF.

Definition is_surrogate (cp : Z) : bool := (cp >=? 0xD800) && (cp <=? 0xDFFF).

Definition utf8_byte_len (cp : Z) : Z :=
  if cp <? 0x80 then 1
  else if cp <? 0x800 then 2
  else if cp <? 0x10000 then (if is_surrogate cp then 0 else 3)
  else if cp <=? RUNE_MAX then 4 else 0.

Definition utf8_is_cont (b : Z) : bool := Z.land b 0xC0 =? 0x80.
Definition utf8_is_lead (b : Z) : bool := Z.land b 0xC0 =? 0xC0.

(** The bytes written; their number is the result. *)
Definition utf8_encode (cp : Z) : list Z :=
  if cp <? 0x80 then [u8 cp]
  else if cp <? 0x800 then [u8 (Z.lor 0xC0 (Z.shiftr cp 6)); u8 (Z.lor 0x80 (Z.land cp 0x3F))]
  else if cp <? 0x10000 then
    if is_surrogate cp then [0xEF; 0xBF; 0xBD]
    else [u8 (Z.lor 0xE0 (Z.shiftr cp 12)); u8 (Z.lor 0x80 (Z.land (Z.shiftr cp 6) 0x3F)); u8 (Z.lor 0x80 (Z.land cp 0x3F))]
  else if cp <=? RUNE_MAX then
    [u8 (Z.lor 0xF0 (Z.shiftr cp 18)); u8 (Z.lor 0x80 (Z.land (Z.shiftr cp 12) 0x3F));
     u8 (Z.lor 0x80 (Z.land (Z.shiftr cp 6) 0x3F)); u8 (Z.lor 0x80 (Z.land cp 0x3F))]
  else [0xEF; 0xBF; 0xBD].

Definition rune_is_ascii (c : Z) : bool := c <? 0x80.
Definition rune_is_digit (c : Z) : bool := (c >=? 48) && (c <=? 57).
Definition rune_is_upper (c : Z) : bool := (c >=? 65) && (c <=? 90).
Definition rune_is_lower (c : Z) : bool := (c >=? 97) && (c <=? 122).
Definition rune_is_alpha (c : Z) : bool := rune_is_upper c || rune_is_lower c.
Definition rune_is_alnum (c : Z) : bool := rune_is_alpha c || rune_is_digit c.
Definition rune_is_space (c : Z) : bool :=
  (c =? 32) || (c =? 9) || (c =? 10) || (c =? 13) || (c =? 12) || (c =? 11).
Definition rune_is_print (c : Z) : bool := ((c >=? 0x20) && (c <? 0x7F)) || (c >? 0x9F).
Definition rune_is_hex (c : Z) : bool :=
  rune_is_digit c || ((c >=? 65) && (c <=? 70)) || ((c >=? 97) && (c <=? 102)).
Definition rune_to_upper (c : Z) : Z := if rune_is_lower c then c - 32 else c.
Definition rune_to_lower (c : Z) : Z := if rune_is_upper c then c + 32 else c.
Definition rune_hex_val (c : Z) : Z :=
  if (c >=? 48) && (c <=? 57) then c - 48
  else if (c >=? 65) && (c <=? 70) then c - 65 + 10
  else if (c >=? 97) && (c <=? 102) then c - 97 + 10
  else -1.

(** ** libc/utf8.c *)

(** The byte at the pointer. *)
Definition peek (s : list Z) : Z := default 0 (s !! 0%nat).

(** The loop over the continuation bytes: the code point so far, or [None]
    at a byte that is not one; and the pointer where it stopped. *)
Fixpoint decode_cont (extra : nat) (cp : Z) (s : list Z) : option Z * list Z :=
  match extra with
  | O => (Some cp, s)
  | S extra =>
    if utf8_is_cont (peek s)
    then decode_cont extra (u32 (Z.lor (Z.shiftl cp 6) (Z.land (peek s) 0x3F))) (drop 1 s)
    else (None, s)
  end.

(** The number of continuation bytes and the bits of the lead byte. *)
Definition decode_lead (lead : Z) : option (nat * Z) :=
  if Z.land lead 0xE0 =? 0xC0 then Some (1%nat, Z.land lead 0x1F)
  else if Z.land lead 0xF0 =? 0xE0 then Some (2%nat, Z.land lead 0x0F)
  else if Z.land lead 0xF8 =? 0xF0 then Some (3%nat, Z.land lead 0x07)
  else None.

Definition utf8_decode (s : list Z) : Z * list Z :=
  if peek s =? 0 then (RUNE_EOF, s)
  else
    let lead := peek s in
    let s := drop 1 s in
    if lead <? 0x80 then (lead, s)
    else match decode_lead lead with
    | None => (RUNE_ERROR, s)
    | Some (extra, cp) =>
      match decode_cont extra cp s with
      | (None, s) => (RUNE_ERROR, s)
      | (Some cp, s) =>
        if (extra =? 1)%nat && (cp <? 0x80) then (RUNE_ERROR, s)
        else if (extra =? 2)%nat && (cp <? 0x800) then (RUNE_ERROR, s)
        else if (extra =? 3)%nat && (cp <? 0x10000) then (RUNE_ERROR, s)
        else if (cp >=? 0xD800) && (cp <=? 0xDFFF) then (RUNE_ERROR, s)
        else if cp >? RUNE_MAX then (RUNE_ERROR, s)
        else (cp, s)
      end
    end.

Definition utf8_strlen (s : list Z) : Z := Z.of_nat (length (filter (fun b => utf8_is_cont b = false) s)).

(** The loops over a string end because every decoding moves forward; they
    are given a round per byte. *)
Fixpoint advance_loop (k : nat) (s : list Z) (n : Z) : option (list Z) :=
  if (peek s =? 0) || (n <=? 0) then Some s
  else match k with O => None | S k => advance_loop k (utf8_decode s).2 (n - 1) end.
Definition utf8_advance (s : list Z) (n : Z) : option (list Z) := advance_loop (length s) s n.
Definition utf8_codepoint_offset (s : list Z) (n : Z) : option Z :=
  r ← utf8_advance s n; Some (Z.of_nat (length s) - Z.of_nat (length r)).

(** [bound]: how many bytes are left before [end], [None] for [(size_t)-1]. *)
Fixpoint valid_loop (k : nat) (s : list Z) (bound : option Z) : option bool :=
  if (peek s =? 0) || (match bound with Some b => b <=? 0 | None => false end) then Some true
  else match k with
  | O => None
  | S k =>
    let '(cp, s') := utf8_decode s in
    if cp =? RUNE_ERROR then Some false
    else valid_loop k s' ((fun b => b - (Z.of_nat (length s) - Z.of_nat (length s'))) <$> bound)
  end.
Definition utf8_valid (s : list Z) (len : Z) : option bool :=
  valid_loop (length s) s (if len =? 18446744073709551615 then None else Some len).

Fixpoint casecmp_loop (k : nat) (a b : list Z) : option Z :=
  if (peek a =? 0) || (peek b =? 0) then
    Some (if peek a =? peek b then 0 else if peek a <? peek b then -1 else 1)
  else match k with
  | O => None
  | S k =>
    let '(ca, a) := utf8_decode a in
    let '(cb, b) := utf8_decode b in
    let ca := rune_to_lower ca in
    let cb := rune_to_lower cb in
    if negb (ca =? cb) then Some (if ca <? cb then -1 else 1) else casecmp_loop k a b
  end.
Definition utf8_casecmp (a b : list Z) : option Z := casecmp_loop (length a) a b.

(** The rest of the string from the hit on; NULL is [Some None]. *)
Fixpoint strchr_loop (k : nat) (s : list Z) (cp : Z) : option (option (list Z)) :=
  if peek s =? 0 then Some (if cp =? 0 then Some s else None)
  else match k with
  | O => None
  | S k => let '(c, s') := utf8_decode s in if c =? cp then Some (Some s) else strchr_loop k s' cp
  end.
Definition utf8_strchr (s : list Z) (cp : Z) : option (option (list Z)) := strchr_loop (length s) s cp.

(** [room]: the bytes left before [end]. The bytes written before the
    terminator, and the count. *)
Fixpoint strncpy_loop (k : nat) (room : Z) (src : list Z) (n copied : Z) (dst : list Z) : option (list Z * Z) :=
  if (peek src =? 0) || (copied >=? n) then Some (dst, copied)
  else match k with
  | O => None
  | S k =>
    let '(cp, src) := utf8_decode src in
    let blen := utf8_byte_len cp in
    if blen >? room then Some (dst, copied)
    else strncpy_loop k (room - blen) src n (copied + 1) (dst ++ take (Z.to_nat blen) (utf8_encode cp))
  end.
Definition utf8_strncpy_cp (buf_sz : Z) (src : list Z) (n : Z) : option (list Z * Z) :=
  if buf_sz =? 0 then Some ([], 0) else strncpy_loop (length src) (buf_sz - 1) src n 0 [].

(** ** The bit operations as arithmetic *)

Lemma land_3F x : Z.land x 0x3F = x mod 64.
Proof. apply (land_ones_mod x 6). done. Qed.
Lemma lor_80 x : 0 <= x < 64 -> Z.lor 0x80 x = 128 + x.
Proof. apply (lor_add_low 6 2). done. Qed.
Lemma lor_C0 x : 0 <= x < 32 -> Z.lor 0xC0 x = 192 + x.
Proof. apply (lor_add_low 5 6). done. Qed.
Lemma lor_E0 x : 0 <= x < 16 -> Z.lor 0xE0 x = 224 + x.
Proof. apply (lor_add_low 4 14). done. Qed.
Lemma lor_F0 x : 0 <= x < 8 -> Z.lor 0xF0 x = 240 + x.
Proof. apply (lor_add_low 3 30). done. Qed.

Lemma is_cont_range b : in_u8 b -> utf8_is_cont b = (128 <=? b) && (b <? 192).
Proof.
  intros Hb. apply eqb_prop. revert b Hb.
  apply (byte_forall (fun b => Bool.eqb (utf8_is_cont b) ((128 <=? b) && (b <? 192)))). by vm_compute.
Qed.

Lemma decode_lead_range b : in_u8 b -> decode_lead b =
  if (192 <=? b) && (b <? 224) then Some (1%nat, b - 192)
  else if (224 <=? b) && (b <? 240) then Some (2%nat, b - 224)
  else if (240 <=? b) && (b <? 248) then Some (3%nat, b - 240)
  else None.
Proof.
  intros Hb. eapply bool_decide_eq_true_1. revert b Hb. apply (byte_forall (fun b => bool_decide (decode_lead b = _))). by vm_compute.
Qed.

Lemma shift_in cp b : 0 <= cp < 0x4000000 -> u32 (Z.lor (Z.shiftl cp 6) (Z.land b 0x3F)) = cp * 64 + b mod 64.
Proof. intros Hc. rewrite land_3F, lor_shiftl_add by zlia. apply u32_id. change (2 ^ 6) with 64. word. Qed.

Definition scalar (cp : Z) : Prop := 0 <= cp <= 0x10FFFF /\ ~ 0xD800 <= cp <= 0xDFFF.

(** The encoding, as arithmetic. *)
Lemma utf8_encode_arith cp : scalar cp -> utf8_encode cp =
  if cp <? 0x80 then [cp]
  else if cp <? 0x800 then [192 + cp / 64; 128 + cp mod 64]
  else if cp <? 0x10000 then [224 + cp / 4096; 128 + cp / 64 mod 64; 128 + cp mod 64]
  else [240 + cp / 262144; 128 + cp / 4096 mod 64; 128 + cp / 64 mod 64; 128 + cp mod 64].
Proof.
  intros [Hr Hs]. unfold utf8_encode, is_surrogate. rewrite !land_3F, !Z.shiftr_div_pow2 by done.
  change (2 ^ 6) with 64. change (2 ^ 12) with 4096. change (2 ^ 18) with 262144.
  rewrite !lor_80 by zlia. rewrite !Z.geb_leb.
  destruct (Z.ltb_spec cp 0x80); [by rewrite u8_id by word|].
  destruct (Z.ltb_spec cp 0x800); [rewrite lor_C0 by zlia; by rewrite !u8_id by word|].
  destruct (Z.ltb_spec cp 0x10000).
  - destruct (Z.leb_spec 0xD800 cp), (Z.leb_spec cp 0xDFFF); cbn [andb]; try lia; rewrite lor_E0 by zlia; by rewrite !u8_id by word.
  - destruct (Z.leb_spec cp RUNE_MAX); [|unfold RUNE_MAX in *; lia]. rewrite lor_F0 by zlia. by rewrite !u8_id by word.
Qed.

Lemma decode_cont_byte extra cp b s : in_u8 b -> 0 <= cp < 0x4000000 ->
  decode_cont (S extra) cp (b :: s) = if (128 <=? b) && (b <? 192) then decode_cont extra (cp * 64 + b mod 64) s else (None, b :: s).
Proof.
  intros Hb Hc. cbn [decode_cont]. change (peek (b :: s)) with b. rewrite is_cont_range by done. by rewrite shift_in.
Qed.

Lemma decode_cont_step extra cp m s : 0 <= m < 64 -> 0 <= cp < 0x4000000 ->
  decode_cont (S extra) cp (128 + m :: s) = decode_cont extra (cp * 64 + m) s.
Proof.
  intros Hm Hc. rewrite decode_cont_byte by word. destruct (Z.leb_spec 128 (128 + m)), (Z.ltb_spec (128 + m) 192); try lia.
  cbn [andb]. by replace ((128 + m) mod 64) with m by zlia.
Qed.

Ltac lead_case := intros; rewrite decode_lead_range by word;
  repeat match goal with |- context [Z.leb ?x ?y] => destruct (Z.leb_spec x y); try lia | |- context [Z.ltb ?x ?y] => destruct (Z.ltb_spec x y); try lia end;
  cbn [andb]; do 2 f_equal; lia.
Lemma decode_lead2 x : 0 <= x < 32 -> decode_lead (192 + x) = Some (1%nat, x).
Proof. lead_case. Qed.
Lemma decode_lead3 x : 0 <= x < 16 -> decode_lead (224 + x) = Some (2%nat, x).
Proof. lead_case. Qed.
Lemma decode_lead4 x : 0 <= x < 8 -> decode_lead (240 + x) = Some (3%nat, x).
Proof. lead_case. Qed.

(** What the decoder does after the loop over the continuation bytes. *)
Definition accept (extra : nat) (cp : Z) : bool :=
  match extra with 1%nat => 0x80 <=? cp | 2%nat => 0x800 <=? cp | _ => 0x10000 <=? cp end &&
  negb ((0xD800 <=? cp) && (cp <=? 0xDFFF)) && (cp <=? RUNE_MAX).

Lemma accept_ok extra cp : scalar cp -> match extra with 1%nat => 0x80 | 2%nat => 0x800 | _ => 0x10000 end <= cp -> accept extra cp = true.
Proof.
  intros [Hr Hs] Hc. unfold accept, RUNE_MAX. destruct (Z.leb_spec 0xD800 cp), (Z.leb_spec cp 0xDFFF), (Z.leb_spec cp 0x10FFFF); try lia;
    cbn [andb negb]; rewrite !andb_true_r; destruct extra as [|[|[|e]]]; by apply Z.leb_le.
Qed.

Lemma utf8_decode_multi b s extra cp0 : in_u8 b -> 0x80 <= b -> decode_lead b = Some (extra, cp0) ->
  utf8_decode (b :: s) = match decode_cont extra cp0 s with
    | (Some cp, s') => (if accept extra cp then cp else RUNE_ERROR, s')
    | (None, s') => (RUNE_ERROR, s')
    end.
Proof.
  intros Hb Hge E. unfold utf8_decode. change (peek (b :: s)) with b. destruct (Z.eqb_spec b 0); [lia|].
  change (drop 1 (b :: s)) with s. destruct (Z.ltb_spec b 0x80); [lia|]. rewrite E. destruct (decode_cont extra cp0 s) as [[cp|] s']; [|done].
  rewrite decode_lead_range in E by done. unfold accept. rewrite !Z.geb_leb, !Z.gtb_ltb.
  assert (He : extra = 1%nat \/ extra = 2%nat \/ extra = 3%nat).
  { destruct ((192 <=? b) && (b <? 224)); [injection E; auto|]. destruct ((224 <=? b) && (b <? 240)); [injection E; auto|].
    destruct ((240 <=? b) && (b <? 248)); [injection E; auto|done]. }
  unfold RUNE_MAX. rewrite (Z.leb_antisym 0x10FFFF cp), (Z.leb_antisym cp 0x80), (Z.leb_antisym cp 0x800), (Z.leb_antisym cp 0x10000).
  destruct ((0xD800 <=? cp) && (cp <=? 0xDFFF)), (0x10FFFF <? cp);
  destruct He as [->|[->| ->]]; cbn [Nat.eqb andb negb];
    [destruct (cp <? 0x80)|destruct (cp <? 0x800)|destruct (cp <? 0x10000)|destruct (cp <? 0x80)|destruct (cp <? 0x800)|destruct (cp <? 0x10000)
    |destruct (cp <? 0x80)|destruct (cp <? 0x800)|destruct (cp <? 0x10000)|destruct (cp <? 0x80)|destruct (cp <? 0x800)|destruct (cp <? 0x10000)];
    reflexivity.
Qed.

Lemma utf8_decode_ascii b s : 0 < b < 0x80 -> utf8_decode (b :: s) = (b, s).
Proof. intros. unfold utf8_decode. change (peek (b :: s)) with b. destruct (Z.eqb_spec b 0), (Z.ltb_spec b 0x80); (lia || done). Qed.

Lemma utf8_roundtrip_ok (cp : Z) (rest : list Z) :
  scalar cp -> cp <> 0 ->
  Z.of_nat (length (utf8_encode cp)) = utf8_byte_len cp /\ utf8_decode (utf8_encode cp ++ rest) = (cp, rest).
Proof.
  intros Hs H0. pose proof Hs as [Hr Hsur]. rewrite utf8_encode_arith by done. unfold utf8_byte_len, is_surrogate. rewrite !Z.geb_leb.
  destruct (Z.ltb_spec cp 0x80); [split; [done|]; apply utf8_decode_ascii; lia|].
  destruct (Z.ltb_spec cp 0x800); [|destruct (Z.ltb_spec cp 0x10000)]; cbn [app]; (split;
    [try done; destruct (Z.leb_spec 0xD800 cp), (Z.leb_spec cp 0xDFFF), (Z.leb_spec cp RUNE_MAX); unfold RUNE_MAX in *; (done || lia)|]).
  - rewrite (utf8_decode_multi _ _ 1 (cp / 64)) by (word || (apply decode_lead2; zlia)).
    rewrite decode_cont_step by zlia. cbn [decode_cont]. replace (cp / 64 * 64 + cp mod 64) with cp by zlia. by rewrite accept_ok.
  - rewrite (utf8_decode_multi _ _ 2 (cp / 4096)) by (word || (apply decode_lead3; zlia)).
    rewrite !decode_cont_step by zlia. cbn [decode_cont].
    replace ((cp / 4096 * 64 + cp / 64 mod 64) * 64 + cp mod 64) with cp by zlia. by rewrite accept_ok.
  - rewrite (utf8_decode_multi _ _ 3 (cp / 262144)) by (word || (apply decode_lead4; zlia)).
    rewrite !decode_cont_step by zlia. cbn [decode_cont].
    replace (((cp / 262144 * 64 + cp / 4096 mod 64) * 64 + cp / 64 mod 64) * 64 + cp mod 64) with cp by zlia. by rewrite accept_ok.
Qed.

(** Of utf8.c, [utf8_decode] after [utf8_encode]: every Unicode scalar value
    other than 0 is encoded in the number of bytes [utf8_byte_len] says, and
    is decoded again, whatever follows, with the pointer just behind it. *)
Theorem utf8_roundtrip (cp : Z) (rest : list Z) :
  scalar cp -> cp <> 0 ->
  Z.of_nat (length (utf8_encode cp)) = utf8_byte_len cp /\ utf8_decode (utf8_encode cp ++ rest) = (cp, rest).
Proof. apply utf8_roundtrip_ok. Qed.

(** ** What the decoder accepts *)

(** The continuation bytes consumed, and the code point they spell. *)
Lemma decode_cont_inv extra cp s : bytes s -> 0 <= cp -> (cp + 1) * 64 ^ Z.of_nat extra <= 0x100000000 ->
  exists ms s', s = map (Z.add 128) ms ++ s' /\ Forall (fun m => 0 <= m < 64) ms /\ (length ms <= extra)%nat /\
    (decode_cont extra cp s = (None, s') \/
     (length ms = extra /\ decode_cont extra cp s = (Some (fold_left (fun a m => a * 64 + m) ms cp), s'))).
Proof.
  revert cp s. induction extra as [|extra IH]; intros cp s Hb Hc Hlim.
  { exists [], s. split; [done|]. split; [constructor|]. split; [cbn; lia|]. by right. }
  rewrite Nat2Z.inj_succ, Z.pow_succ_r in Hlim by lia. assert (Hpow : 1 <= 64 ^ Z.of_nat extra) by (assert (0 < 64 ^ Z.of_nat extra) by (apply Z.pow_pos_nonneg; lia); lia).
  assert (Hc26 : cp < 0x4000000).
  { assert ((cp + 1) * 64 <= (cp + 1) * (64 * 64 ^ Z.of_nat extra)) by (apply Z.mul_le_mono_nonneg_l; lia). lia. }
  destruct s as [|b s].
  { exists [], []. split; [done|]. split; [constructor|]. split; [cbn; lia|]. by left. }
  apply Forall_cons in Hb as [Hb Hs]. rewrite decode_cont_byte by done.
  destruct (Z.leb_spec 128 b), (Z.ltb_spec b 192); cbn [andb];
    try (exists [], (b :: s); split; [done|]; split; [constructor|]; split; [cbn; lia|]; by left).
  replace (b mod 64) with (b - 128) by zlia.
  destruct (IH (cp * 64 + (b - 128)) s Hs ltac:(lia)) as (ms & s' & -> & Hms & Hl & Hr).
  { transitivity ((cp + 1) * 64 * 64 ^ Z.of_nat extra); [apply Z.mul_le_mono_nonneg_r; lia|lia]. }
  exists ((b - 128) :: ms), s'. split; [cbn [map app]; f_equal; lia|]. split; [constructor; [lia|done]|]. cbn [length fold_left]. split; [lia|].
  destruct Hr as [Hr|[El Hr]]; [by left|right; split; [lia|done]].
Qed.

Lemma decode_lead_inv b extra cp0 : in_u8 b -> decode_lead b = Some (extra, cp0) ->
  (extra = 1%nat /\ b = 192 + cp0 /\ 0 <= cp0 < 32) \/ (extra = 2%nat /\ b = 224 + cp0 /\ 0 <= cp0 < 16) \/
  (extra = 3%nat /\ b = 240 + cp0 /\ 0 <= cp0 < 8).
Proof.
  intros Hb. rewrite decode_lead_range by done.
  destruct ((192 <=? b) && (b <? 224)) eqn:E1; [|destruct ((224 <=? b) && (b <? 240)) eqn:E2; [|destruct ((240 <=? b) && (b <? 248)) eqn:E3; [|done]]];
    intros [= <- <-]; [left|right; left|right; right];
    rewrite andb_true_iff, Z.leb_le, Z.ltb_lt in *; lia.
Qed.

Lemma accept_inv extra cp : accept extra cp = true ->
  0 <= cp -> scalar cp /\ match extra with 1%nat => 0x80 | 2%nat => 0x800 | _ => 0x10000 end <= cp.
Proof.
  unfold accept, scalar, RUNE_MAX. rewrite !andb_true_iff, negb_true_iff, andb_false_iff, !Z.leb_le, !Z.leb_gt.
  intros [[H1 H2] H3] H0. split; [lia|]. destruct extra as [|[|[|e]]]; by apply Z.leb_le.
Qed.

(** The bytes of an accepted sequence are the encoding of its value. *)
Lemma encode_of_parts extra lead cp0 ms :
  (extra = 1%nat /\ lead = 192 + cp0 /\ 0 <= cp0 < 32) \/ (extra = 2%nat /\ lead = 224 + cp0 /\ 0 <= cp0 < 16) \/
  (extra = 3%nat /\ lead = 240 + cp0 /\ 0 <= cp0 < 8) ->
  Forall (fun m => 0 <= m < 64) ms -> length ms = extra ->
  let cp := fold_left (fun a m => a * 64 + m) ms cp0 in
  accept extra cp = true -> scalar cp /\ cp <> 0 /\ lead :: map (Z.add 128) ms = utf8_encode cp.
Proof.
  intros Hcase Hms Hl cp Ha.
  assert (H0 : 0 <= cp).
  { unfold cp. assert (0 <= cp0) by lia. clear - Hms H. revert cp0 H. induction Hms as [|m ms Hm _ IH]; intros c Hc; [done|]. apply IH. lia. }
  destruct (accept_inv _ _ Ha H0) as [Hs Hlow]. split; [done|].
  rewrite utf8_encode_arith by done. destruct Hs as [Hr _].
  destruct Hcase as [(-> & -> & Hc)|[(-> & -> & Hc)|(-> & -> & Hc)]]; cbn beta iota in Hlow; (split; [lia|]);
    destruct ms as [|m1 [|m2 [|m3 [|m4 ms]]]]; try done; cbn [fold_left map] in cp, Hms |- *; repeat (apply Forall_cons in Hms as [? Hms]);
    destruct (Z.ltb_spec cp 0x80); try lia; (destruct (Z.ltb_spec cp 0x800); try (unfold cp in *; lia)); try (destruct (Z.ltb_spec cp 0x10000); try (unfold cp in *; lia));
    unfold cp; repeat f_equal; zlia.
Qed.

Lemma utf8_decode_ok s : bytes s -> peek s <> 0 ->
  exists c, s = c ++ (utf8_decode s).2 /\ (1 <= length c <= 4)%nat /\
    ((utf8_decode s).1 = RUNE_ERROR \/
     (scalar (utf8_decode s).1 /\ (utf8_decode s).1 <> 0 /\ c = utf8_encode (utf8_decode s).1)).
Proof.
  intros Hb Hne. destruct s as [|b s]; [done|]. change (peek (b :: s)) with b in Hne. apply Forall_cons in Hb as [Hb Hs].
  destruct (Z_lt_le_dec b 0x80) as [Hlt|Hge].
  { rewrite utf8_decode_ascii by word. exists [b]. cbn [fst snd]. split; [done|]. split; [cbn; lia|]. right.
    assert (scalar b) by (unfold scalar; word). split; [done|]. split; [done|]. rewrite utf8_encode_arith by done. by destruct (Z.ltb_spec b 0x80); [|lia]. }
  destruct (decode_lead b) as [[extra cp0]|] eqn:El.
  2:{ unfold utf8_decode. change (peek (b :: s)) with b. destruct (Z.eqb_spec b 0); [lia|]. destruct (Z.ltb_spec b 0x80); [lia|].
      rewrite El. exists [b]. cbn [fst snd]. split; [done|]. split; [cbn; lia|]. by left. }
  rewrite (utf8_decode_multi b s extra cp0) by done. pose proof (decode_lead_inv b extra cp0 Hb El) as Hcase.
  destruct (decode_cont_inv extra cp0 s Hs) as (ms & s' & -> & Hms & Hl & Hr); [lia| |].
  { destruct Hcase as [(-> & _ & ?)|[(-> & _ & ?)|(-> & _ & ?)]]; cbn; lia. }
  exists (b :: map (Z.add 128) ms). assert (Hex : (extra <= 3)%nat) by (destruct Hcase as [(-> & _)|[(-> & _)|(-> & _)]]; lia).
  destruct Hr as [->|[Hlen ->]]; cbn [fst snd].
  - split; [done|]. split; [cbn [length]; rewrite length_map; lia|]. by left.
  - split; [done|]. split; [cbn [length]; rewrite length_map; lia|]. set (cp := fold_left _ ms cp0).
    destruct (accept extra cp) eqn:Ea; [right|by left]. by apply (encode_of_parts extra).
Qed.

(** [utf8_decode] of utf8.c: on any bytes up to a terminator the decoder
    consumes one to four bytes and never the terminator; when its answer is
    not RUNE_ERROR it is a scalar value (no surrogate, at most 0x10FFFF) and
    the bytes consumed are that value's own shortest encoding. *)
Theorem utf8_decode_sound (s : list Z) :
  bytes s -> s <> [] -> Forall (fun b => b <> 0) s ->
  exists c, s = c ++ (utf8_decode s).2 /\ (1 <= length c <= 4)%nat /\
    ((utf8_decode s).1 = RUNE_ERROR \/
     (scalar (utf8_decode s).1 /\ (utf8_decode s).1 <> 0 /\ c = utf8_encode (utf8_decode s).1)).
Proof. intros Hb Hne Hnz. apply utf8_decode_ok; [done|]. destruct s as [|b s]; [done|]. by apply Forall_cons in Hnz as [? _]. Qed.

(** ** Validation *)

Definition text (cps : list Z) : list Z := concat (map utf8_encode cps).

Lemma utf8_encode_nonnil cp : utf8_encode cp <> [].
Proof. unfold utf8_encode. by repeat case_match. Qed.

Lemma valid_loop_ok k s : bytes s -> Forall (fun b => b <> 0) s -> (length s <= k)%nat ->
  exists b, valid_loop k s None = Some b /\
    (b = true <-> exists cps, Forall (fun cp => scalar cp /\ cp <> 0 /\ cp <> RUNE_ERROR) cps /\ s = text cps).
Proof.
  revert s. induction k as [|k IH]; intros s Hb Hnz Hk.
  { destruct s as [|b s]; [|cbn in Hk; lia]. exists true. split; [done|]. split; [|done]. intros _. by exists []. }
  destruct s as [|b s]; [exists true; split; [done|]; split; [|done]; intros _; by exists []|].
  pose proof (Forall_inv Hnz) as Hbz. assert (Hpk : peek (b :: s) <> 0) by done.
  destruct (utf8_decode_ok (b :: s) Hb Hpk) as (c & Es & Hc & Hr).
  cbn [valid_loop]. change (peek (b :: s)) with b in *. destruct (Z.eqb_spec b 0); [done|]. cbn [orb].
  destruct (utf8_decode (b :: s)) as [cp s'] eqn:Ed. cbn [fst snd] in *.
  destruct (Z.eqb_spec cp RUNE_ERROR) as [->|Hne].
  - exists false. split; [done|]. split; [done|]. intros (cps & Hcps & Et). exfalso. destruct cps as [|cp cps]; [done|].
    apply Forall_cons in Hcps as [(Hs & H0 & HE) _]. unfold text in Et. cbn [map concat] in Et.
    destruct (utf8_roundtrip_ok cp (text cps) Hs H0) as [_ Hd]. unfold text in Hd. rewrite <- Et, Ed in Hd. by injection Hd.
  - destruct Hr as [->|(Hs & H0 & Ec)]; [done|]. rewrite Es in Hb, Hnz, Hk. apply Forall_app in Hb as [_ Hb]. apply Forall_app in Hnz as [_ Hnz].
    rewrite length_app in Hk. destruct (IH s' Hb Hnz ltac:(lia)) as (r & Er & Hr). exists r. split; [exact Er|]. rewrite Hr. split.
    + intros (cps & Hcps & ->). exists (cp :: cps). split; [by constructor|]. rewrite Es, Ec. done.
    + intros (cps & Hcps & Et). destruct cps as [|cp' cps]; [done|]. apply Forall_cons in Hcps as [(Hs' & H0' & HE) Hcps].
      unfold text in Et. cbn [map concat] in Et. destruct (utf8_roundtrip_ok cp' (text cps) Hs' H0') as [_ Hd]. unfold text in Hd.
      rewrite <- Et, Ed in Hd. injection Hd as -> ->. by exists cps.
Qed.

(** [utf8_valid] of utf8.c: on a terminated string the scan ends and says
    yes exactly when the string is a sequence of encoded scalar values none
    of which is U+FFFD: the decoder's error value is that code point, so a
    correctly encoded U+FFFD is reported as invalid. *)
Theorem utf8_valid_correct (s : list Z) :
  bytes s -> Forall (fun b => b <> 0) s ->
  exists b, utf8_valid s 18446744073709551615 = Some b /\
    (b = true <-> exists cps, Forall (fun cp => scalar cp /\ cp <> 0 /\ cp <> 0xFFFD) cps /\ s = text cps).
Proof. intros Hb Hnz. by apply (valid_loop_ok (length s)). Qed.

(** The euro sign, and what follows it. *)
Lemma utf8_roundtrip_witness : utf8_decode (utf8_encode 0x20AC ++ [33]) = (0x20AC, [33]).
Proof. apply (utf8_roundtrip 0x20AC [33]); [unfold scalar; lia|done]. Defined.

Lemma utf8_decode_sound_witness : exists c, [0xE2; 0x82; 0xAC; 33] = c ++ [33] /\ c = utf8_encode 0x20AC.
Proof.
  destruct (utf8_decode_sound [0xE2; 0x82; 0xAC; 33]) as (c & Es & _ & Hr); [repeat constructor; by vm_compute|done|repeat constructor; done|].
  change (utf8_decode [0xE2; 0x82; 0xAC; 33]) with (0x20AC, [33]) in *. exists c. split; [exact Es|]. destruct Hr as [Hr|(_ & _ & Hr)]; done.
Defined.

(** U+FFFD itself. *)
Lemma utf8_valid_correct_witness : exists b, utf8_valid [0xEF; 0xBF; 0xBD] 18446744073709551615 = Some b /\ b = false.
Proof.
  destruct (utf8_valid_correct [0xEF; 0xBF; 0xBD]) as (b & E & _); [repeat constructor; by vm_compute|repeat constructor; done|].
  exists b. split; [exact E|]. vm_compute in E. by injection E as <-.
Defined.
