(* ===== verification/Str.v ===== *)
(** * Characters, strings, memory blocks and numbers

    Models libc/ctype.c, libc/string.c, the integer part of libc/stdlib.c and
    the block operations of libc/mem.c. A string is the list of its bytes
    before the terminator; a function that writes one returns what the buffer
    then holds. Block operations work on a flat memory, so that overlapping
    arguments are the code's. The functions on [double] are not modelled. *)

From S2P Require Import Prelude.

(** ** libc/ctype.c *)

Definition islower (c : Z) : bool := (c >=? 97) && (c <=? 122).
Definition isupper (c : Z) : bool := (c >=? 65) && (c <=? 90).
Definition isalpha (c : Z) : bool := islower c || isupper c.
Definition isdigit (c : Z) : bool := (c >=? 48) && (c <=? 57).
Definition isalnum (c : Z) : bool := isalpha c || isdigit c.
Definition isascii (c : Z) : bool := c <? 128.
Definition iscntrl (c : Z) : bool := ((c >=? 0) && (c <? 32)) || (c =? 127).
Definition ispunct (c : Z) : bool :=
  ((c >? 32) && (c <? 48)) || ((c >? 57) && (c <? 65)) || ((c >? 90) && (c <? 97)) || ((c >? 122) && (c <? 127)).
Definition isgraph (c : Z) : bool := isalnum c || ispunct c.
Definition isprint (c : Z) : bool := isgraph c.
Definition isxdigit (c : Z) : bool := isdigit c || ((c >=? 65) && (c <=? 70)) || ((c >=? 97) && (c <=? 102)).
Definition isspace (c : Z) : bool := (c =? 9) || (c =? 11) || (c =? 10) || (c =? 0x0C) || (c =? 0x0D) || (c =? 32).
Definition toupper (c : Z) : Z := if islower c then Z.lxor c 0x20 else c.
Definition tolower (c : Z) : Z := if isupper c then Z.lxor c 0x20 else c.
Definition toascii (c : Z) : Z := Z.land c 0x7f.

(** ** libc/mem.c: blocks of bytes *)

(** Memory by address; a byte that was never written reads as 0. *)
Definition mget (m : gmap Z Z) (a : Z) : Z := default 0 (m !! a).

Fixpoint memcpy (n : nat) (dest src : Z) (m : gmap Z Z) : gmap Z Z :=
  match n with
  | O => m
  | S n => memcpy n (dest + 1) (src + 1) (<[dest := mget m src]> m)
  end.
Fixpoint memset (len : nat) (dest val : Z) (m : gmap Z Z) : gmap Z Z :=
  match len with O => m | S len => memset len (dest + 1) val (<[dest := val]> m) end.

(** The backward loop of [memmove]: [dest] and [src] are the ends. *)
Fixpoint move_back (n : nat) (dest src : Z) (m : gmap Z Z) : gmap Z Z :=
  match n with
  | O => m
  | S n => move_back n (dest - 1) (src - 1) (<[dest - 1 := mget m (src - 1)]> m)
  end.
Definition memmove (n : nat) (dest src : Z) (m : gmap Z Z) : gmap Z Z :=
  if dest =? src then m
  else if dest <? src then memcpy n dest src m
  else move_back n (dest + Z.of_nat n) (src + Z.of_nat n) m.

Fixpoint memcmp_loop (count : nat) (a b : Z) (m : gmap Z Z) : Z :=
  match count with
  | O => mget m a - mget m b
  | S count => if mget m a =? mget m b then memcmp_loop count (a + 1) (b + 1) m else mget m a - mget m b
  end.
(** [while (--count && *a == *b)] *)
Definition memcmp (a b : Z) (count : nat) (m : gmap Z Z) : Z :=
  match count with O => 0 | S count => memcmp_loop count a b m end.

(** ** libc/string.c *)

Definition strlen (s : list Z) : Z := Z.of_nat (length s).
Definition reverse (s : list Z) : list Z := rev s.
Definition append (s : list Z) (n : Z) : list Z := s ++ cstr [u8 n].
Definition backspace (s : list Z) : list Z := take (length s - 1) s.

(** Chars are signed in [strcmp], unsigned in the others. *)
Fixpoint strcmp (s1 s2 : list Z) : Z :=
  match s1, s2 with
  | c1 :: s1', c2 :: s2' => if c1 =? c2 then strcmp s1' s2' else s8 c1 - s8 c2
  | _, _ => s8 (default 0 (s1 !! 0%nat)) - s8 (default 0 (s2 !! 0%nat))
  end.
Definition strcpy (src : list Z) : list Z := src.
Definition strncpy (src : list Z) (n : nat) : list Z := take n src ++ replicate (n - length src) 0.
Definition strcat (dst src : list Z) : list Z := dst ++ src.
Definition strncat (dst src : list Z) (n : nat) : list Z := dst ++ take n src.
Fixpoint strncmp (s1 s2 : list Z) (n : nat) : Z :=
  match n with
  | O => 0
  | S n =>
    let c1 := default 0 (s1 !! 0%nat) in let c2 := default 0 (s2 !! 0%nat) in
    if negb (c1 =? c2) then c1 - c2 else if c1 =? 0 then 0 else strncmp (drop 1 s1) (drop 1 s2) n
  end.
Fixpoint strcasecmp (s1 s2 : list Z) : Z :=
  match s1, s2 with
  | c1 :: s1', c2 :: s2' =>
    let c := tolower c1 - tolower c2 in if negb (c =? 0) then c else strcasecmp s1' s2'
  | _, _ => default 0 (s1 !! 0%nat) - default 0 (s2 !! 0%nat)
  end.

(** The pointer found, as an index; NULL is [None]. *)
Fixpoint strchr (s : list Z) (c : Z) : option nat :=
  match s with
  | [] => if u8 c =? 0 then Some 0%nat else None
  | x :: s => if x =? u8 c then Some 0%nat else S <$> strchr s c
  end.
Fixpoint strrchr_loop (s : list Z) (c : Z) (i : nat) (last : option nat) : option nat :=
  match s with
  | [] => if u8 c =? 0 then Some i else last
  | x :: s => strrchr_loop s c (S i) (if x =? u8 c then Some i else last)
  end.
Definition strrchr (s : list Z) (c : Z) : option nat := strrchr_loop s c 0 None.
Fixpoint strstr_loop (haystack needle : list Z) : option nat :=
  match haystack with
  | [] => None
  | c :: h =>
    if (c =? default 0 (needle !! 0%nat)) && (strncmp haystack needle (length needle) =? 0) then Some 0%nat
    else S <$> strstr_loop h needle
  end.
Definition strstr (haystack needle : list Z) : option nat :=
  match needle with [] => Some 0%nat | _ => strstr_loop haystack needle end.
Definition is_some {A} (o : option A) : bool := match o with Some _ => true | None => false end.
Fixpoint strspn (s accept : list Z) : nat :=
  match s with [] => O | c :: s => if is_some (strchr accept c) then S (strspn s accept) else O end.
Fixpoint strcspn (s reject : list Z) : nat :=
  match s with [] => O | c :: s => if is_some (strchr reject c) then O else S (strcspn s reject) end.
Definition strnlen (s : list Z) (maxlen : nat) : nat := Nat.min maxlen (length s).

(** The token, and the string the saved pointer points to afterwards. *)
Definition strtok_r (s delim : list Z) : option (list Z) * list Z :=
  let s := drop (strspn s delim) s in
  match s with
  | [] => (None, [])
  | _ => let n := strcspn s delim in (Some (take n s), drop (S n) s)
  end.

(** ** Numbers *)

(** The digits of the do-while loop, least significant first. *)
Fixpoint int_digits (fuel : nat) (n : Z) : option (list Z) :=
  match fuel with
  | O => None
  | S fuel =>
    let c := u8 (Z.rem n 10 + 48) in
    let n := Z.quot n 10 in
    if n >? 0 then ds ← int_digits fuel n; Some (c :: ds) else Some [c]
  end.
(** [-n] on [int]: the minimum is its own negation. *)
Definition int_to_ascii (n : Z) : option (list Z) :=
  let m := if n <? 0 then s32 (- n) else n in
  ds ← int_digits 11 m; Some (reverse (ds ++ (if n <? 0 then [45] else []))).

Fixpoint hex_digits (shifts : list Z) (n : Z) (zeros : bool) : list Z :=
  match shifts with
  | [] => []
  | i :: shifts =>
    let tmp := Z.land (Z.shiftr n i) 0xF in
    if (tmp =? 0) && negb zeros then hex_digits shifts n zeros
    else (if tmp >? 0xA then tmp - 0xA + 97 else tmp + 48) :: hex_digits shifts n true
  end.
(** Appended to what the buffer holds. *)
Definition hex_to_ascii (n : Z) (str : list Z) : list Z :=
  let tmp := Z.land n 0xF in
  str ++ [48; 120] ++ hex_digits [28; 24; 20; 16; 12; 8; 4] n false ++ [if tmp >=? 0xA then tmp - 0xA + 97 else tmp + 48].

(** The table of [itoa]: digits and letters down to '0' in the middle and up. *)
Definition itoa_digit (r : Z) : Z :=
  let d := Z.abs r in if d <? 10 then 48 + d else 97 + (d - 10).
Fixpoint itoa_digits (fuel : nat) (value base : Z) : option (list Z) :=
  match fuel with
  | O => None
  | S fuel =>
    let c := itoa_digit (Z.rem value base) in
    let value := Z.quot value base in
    if value =? 0 then Some [c] else ds ← itoa_digits fuel value base; Some (c :: ds)
  end.
Definition itoa (value base : Z) : option (list Z) :=
  if (base <? 2) || (base >? 36) then Some []
  else
    ds ← itoa_digits 65 value base;
    Some ((if (value <? 0) && (base =? 10) then [45] else []) ++ rev ds).

Fixpoint skip_spaces (s : list Z) : list Z :=
  match s with c :: s' => if isspace c then skip_spaces s' else s | [] => [] end.

(** The digits accumulated up to [limit]; [None] when it would be passed. *)
Fixpoint parse_digits (limit : Z) (s : list Z) (result : Z) : option (Z * list Z) :=
  match s with
  | c :: s' =>
    if isdigit c then
      let digit := u8 (c - 48) in
      if result >? (limit - digit) / 10 then None else parse_digits limit s' (u64 (u64 (result * 10) + digit))
    else Some (result, s)
  | [] => Some (result, [])
  end.

Definition head_digit (s : list Z) : bool := match s with c :: _ => isdigit c | [] => false end.

(** The value and the error flag; bytes above 127 are negative chars, which no
    test accepts. *)
Definition str_to_uint64 (s : list Z) : Z * bool :=
  let s := skip_spaces s in
  if negb (head_digit s) then (0, true)
  else match parse_digits 18446744073709551615 s 0 with
  | None => (0, true)
  | Some (r, s) => match skip_spaces s with [] => (r, false) | _ => (0, true) end
  end.

Definition str_to_int64 (s : list Z) : Z * bool :=
  let s := skip_spaces s in
  let '(negative, s) :=
    match s with c :: s' => if c =? 45 then (true, s') else if c =? 43 then (false, s') else (false, s) | [] => (false, []) end in
  if negb (head_digit s) then (0, true)
  else match parse_digits (if negative : bool then 9223372036854775808 else 9223372036854775807) s 0 with
  | None => (0, true)
  | Some (r, s) => match skip_spaces s with [] => (if negative then s64 (- s64 r) else s64 r, false) | _ => (0, true) end
  end.

(** [llimit] and [rlimit]: cut or pad to [n] characters. *)
Definition llimit (src : list Z) (n : nat) (a : Z) : list Z := take n src ++ replicate (n - length src) a.
Definition rlimit (src : list Z) (n : nat) (a : Z) : list Z :=
  if (n - 1 <=? length src)%nat then take (n - 1) src else replicate (n - 1 - length src) a ++ src.

(** ** Block moves *)

(** Copying forward is exact when the source does not start inside the
    destination's tail, copying backward when the destination does not start
    inside the source's. *)
Lemma memcpy_lookup n dest src m a :
  dest <= src \/ src + Z.of_nat n <= dest ->
  memcpy n dest src m !! a =
  if (dest <=? a) && (a <? dest + Z.of_nat n) then Some (mget m (src + (a - dest))) else m !! a.
Proof.
  revert dest src m. induction n as [|n IH]; intros dest src m Hd; cbn [memcpy].
  - repeat bcase; try done; lia.
  - rewrite IH by lia. unfold mget. destruct (decide (a = dest)) as [->|Hne].
    + rewrite (proj2 (Z.leb_gt (dest + 1) dest)) by lia. rewrite lookup_insert_eq. cbn [andb].
      rewrite (proj2 (Z.leb_le dest dest)), (proj2 (Z.ltb_lt dest _)) by lia. cbn [andb]. do 3 f_equal. lia.
    + rewrite (lookup_insert_ne m dest a) by done.
      repeat bcase; try lia; try done.
      rewrite lookup_insert_ne by lia. do 3 f_equal. lia.
Qed.

Lemma move_back_lookup n dest src m a :
  src <= dest ->
  move_back n dest src m !! a =
  if (dest - Z.of_nat n <=? a) && (a <? dest) then Some (mget m (src + (a - dest))) else m !! a.
Proof.
  revert dest src m. induction n as [|n IH]; intros dest src m Hd; cbn [move_back].
  - repeat bcase; try done; lia.
  - rewrite IH by lia. unfold mget. destruct (decide (a = dest - 1)) as [->|Hne].
    + rewrite (proj2 (Z.ltb_ge (dest - 1) (dest - 1))) by lia. rewrite andb_false_r, lookup_insert_eq.
      rewrite (proj2 (Z.leb_le _ _)), (proj2 (Z.ltb_lt _ _)) by lia. cbn [andb]. do 3 f_equal. lia.
    + rewrite (lookup_insert_ne m (dest - 1) a) by done.
      repeat bcase; try lia; try done.
      rewrite lookup_insert_ne by lia. do 3 f_equal. lia.
Qed.

Lemma memmove_correct_ok n dest src m :
  (forall i, 0 <= i < Z.of_nat n -> mget (memmove n dest src m) (dest + i) = mget m (src + i)) /\
  (forall a, a < dest \/ dest + Z.of_nat n <= a -> mget (memmove n dest src m) a = mget m a).
Proof.
  unfold memmove, mget. bcase; [by subst|]. bcase.
  - split; intros; rewrite memcpy_lookup by lia; repeat bcase; try lia; cbn [default]; try done.
    unfold id, mget. do 2 f_equal. lia.
  - split; intros; rewrite move_back_lookup by lia; repeat bcase; try lia; cbn [default]; try done.
    unfold id, mget. do 2 f_equal. lia.
Qed.

(** [memmove] of libc/mem.c: for every pair of blocks, overlapping or not,
    the destination ends up holding the bytes the source held before the call,
    and no byte outside the destination changes. *)
Theorem memmove_correct n dest src m :
  (forall i, 0 <= i < Z.of_nat n -> mget (memmove n dest src m) (dest + i) = mget m (src + i)) /\
  (forall a, a < dest \/ dest + Z.of_nat n <= a -> mget (memmove n dest src m) a = mget m a).
Proof. apply memmove_correct_ok. Qed.

(** ** Reading numbers *)

Definition spaces (s : list Z) : Prop := Forall (fun c => isspace c = true) s.
Definition digits (s : list Z) : Prop := Forall (fun c => isdigit c = true) s.
(** The value of a digit string read after the value [r]. *)
Definition value_from (r : Z) (ds : list Z) : Z := fold_left (fun r c => r * 10 + (c - 48)) ds r.

(** The strings the parsers accept: a digit string among blanks. *)
Definition decimal (s : list Z) (v : Z) : Prop :=
  exists a ds b, s = a ++ ds ++ b /\ spaces a /\ ds <> [] /\ digits ds /\ spaces b /\ v = value_from 0 ds.

Definition head_ok (f : Z -> bool) (s : list Z) : Prop := match s with c :: _ => f c = false | [] => True end.

Lemma isdigit_range c : isdigit c = true -> 48 <= c <= 57.
Proof. unfold isdigit. rewrite andb_true_iff, Z.geb_le, Z.leb_le. lia. Qed.
Lemma digit_not_space c : isdigit c = true -> isspace c = false.
Proof.
  intros ?%isdigit_range. unfold isspace.
  repeat match goal with |- context [?x =? ?y] => rewrite (proj2 (Z.eqb_neq x y)) by lia end. done.
Qed.
Lemma space_not_digit c : isspace c = true -> isdigit c = false.
Proof. intros H. destruct (isdigit c) eqn:E; [|done]. by rewrite (digit_not_space c E) in H. Qed.

Lemma skip_spaces_app a s : spaces a -> head_ok isspace s -> skip_spaces (a ++ s) = s.
Proof.
  induction 1 as [|c a Hc _ IH]; intros Hs; cbn [app skip_spaces].
  - destruct s as [|c s]; [done|]. cbn in *. by rewrite Hs.
  - rewrite Hc. auto.
Qed.
Lemma skip_spaces_split s : exists a, s = a ++ skip_spaces s /\ spaces a /\ head_ok isspace (skip_spaces s).
Proof.
  induction s as [|c s (a & E & Ha & Hh)]; cbn [skip_spaces]; [exists []; repeat split; constructor|].
  destruct (isspace c) eqn:Ec.
  - exists (c :: a). repeat split; [cbn; by f_equal|by constructor|done].
  - exists []. repeat split; [constructor|done].
Qed.
Lemma skip_spaces_nil s : skip_spaces s = [] <-> spaces s.
Proof.
  split; intros H.
  - destruct (skip_spaces_split s) as (a & E & Ha & _). rewrite H, app_nil_r in E. by subst.
  - rewrite <- (app_nil_r s). by apply skip_spaces_app.
Qed.

Lemma value_from_mono ds r : digits ds -> 0 <= r -> r <= value_from r ds.
Proof.
  intros H. revert r. induction H as [|c ds Hc%isdigit_range _ IH]; intros r Hr; cbn; [lia|].
  change (r <= value_from (r * 10 + (c - 48)) ds). specialize (IH (r * 10 + (c - 48))). lia.
Qed.

Lemma parse_digits_app limit ds s r :
  9 <= limit < 2 ^ 64 -> 0 <= r <= limit -> digits ds -> head_ok isdigit s ->
  parse_digits limit (ds ++ s) r = if value_from r ds <=? limit then Some (value_from r ds, s) else None.
Proof.
  intros Hl Hr Hds Hs. revert r Hr. induction Hds as [|c ds Hc Hds IH]; intros r Hr; cbn [app parse_digits].
  - cbn [value_from fold_left]. rewrite (proj2 (Z.leb_le r limit)) by lia.
    destruct s as [|c s]; cbn in *; [done|]. by rewrite Hs.
  - rewrite Hc. apply isdigit_range in Hc. rewrite (u8_id (c - 48)) by word.
    change (value_from r (c :: ds)) with (value_from (r * 10 + (c - 48)) ds).
    pose proof (value_from_mono ds (r * 10 + (c - 48)) Hds) as Hm.
    rewrite Z.gtb_ltb. destruct (Z.ltb_spec ((limit - (c - 48)) / 10) r).
    + rewrite (proj2 (Z.leb_gt _ _)); [done|]. zlia.
    + assert (r * 10 + (c - 48) <= limit) by zlia.
      rewrite (u64_id (r * 10)), (u64_id (r * 10 + (c - 48))) by word. apply IH. lia.
Qed.

Lemma digits_split s : exists ds, s = ds ++ drop (length ds) s /\ digits ds /\ head_ok isdigit (drop (length ds) s).
Proof.
  induction s as [|c s (ds & E & Hd & Hh)]; [exists []; repeat split; constructor|].
  destruct (isdigit c) eqn:Ec.
  - exists (c :: ds). cbn. repeat split; [by f_equal|by constructor|done].
  - exists []. repeat split; [constructor|done].
Qed.

Lemma digits_unique ds ds' b b' :
  ds' ++ b' = ds ++ b -> digits ds' -> digits ds -> head_ok isdigit b' -> head_ok isdigit b -> ds' = ds /\ b' = b.
Proof.
  intros E Hd'. revert ds E. induction Hd' as [|c ds' Hc Hd' IH]; intros [|c0 ds] E Hd Hb' Hb; cbn in E.
  - done.
  - subst. inversion Hd; subst. cbn in Hb'. congruence.
  - subst. cbn in Hb. congruence.
  - injection E as -> E. inversion Hd; subst. by destruct (IH ds E) as [-> ->].
Qed.

(** What both parsers do once blanks and sign are gone. *)
Lemma parse_tail limit s :
  9 <= limit < 2 ^ 64 ->
  (exists ds b, s = ds ++ b /\ ds <> [] /\ digits ds /\ spaces b /\ value_from 0 ds <= limit /\
     head_digit s = true /\ parse_digits limit s 0 = Some (value_from 0 ds, b)) \/
  ((head_digit s = false \/ parse_digits limit s 0 = None \/
     exists r b, parse_digits limit s 0 = Some (r, b) /\ skip_spaces b <> []) /\
   forall ds b, s = ds ++ b -> ds <> [] -> digits ds -> spaces b -> limit < value_from 0 ds).
Proof.
  intros Hl. destruct (digits_split s) as (ds & E & Hd & Hh).
  revert E Hh. generalize (drop (length ds) s) as b. intros b E Hh.
  assert (Hu : forall ds' b', s = ds' ++ b' -> digits ds' -> spaces b' -> ds' = ds /\ b' = b).
  { intros ds' b' E' Hd' Hb'. apply digits_unique; [by rewrite <- E'|done|done| |done].
    destruct Hb'; [done|]. by apply space_not_digit. }
  assert (Hpd : parse_digits limit s 0 = if value_from 0 ds <=? limit then Some (value_from 0 ds, b) else None).
  { rewrite E at 1. apply parse_digits_app; [done|lia|done|done]. }
  destruct ds as [|c ds].
  { right. split.
    - left. rewrite E. cbn [app]. clear -Hh. destruct b; [done|exact Hh].
    - intros ds' b' E' Hne Hd' Hb'. destruct (Hu _ _ E' Hd' Hb') as [-> _]. done. }
  destruct (Z.leb_spec (value_from 0 (c :: ds)) limit) as [Hv|Hv]; cycle 1.
  { right. split; [auto|]. intros ds' b' E' Hne Hd' Hb'. by destruct (Hu _ _ E' Hd' Hb') as [-> _]. }
  assert (Hhd : head_digit s = true) by (rewrite E; inversion Hd; subst; done).
  destruct (skip_spaces b) eqn:Eb.
  - left. exists (c :: ds), b. apply skip_spaces_nil in Eb. auto 10.
  - right. split.
    + right; right. exists (value_from 0 (c :: ds)), b. by rewrite Eb.
    + intros ds' b' E' Hne Hd' Hb'. destruct (Hu _ _ E' Hd' Hb') as [-> ->].
      apply skip_spaces_nil in Hb'. congruence.
Qed.

Lemma digits_head ds b : ds <> [] -> digits ds -> head_ok isspace (ds ++ b).
Proof. intros Hne H. destruct H; [done|]. cbn. by apply digit_not_space. Qed.

Lemma str_to_uint64_correct_ok s v :
  (str_to_uint64 s = (v, false) <-> decimal s v /\ v < 2 ^ 64) /\
  (snd (str_to_uint64 s) = true -> fst (str_to_uint64 s) = 0).
Proof.
  unfold str_to_uint64. destruct (skip_spaces_split s) as (a & E & Ha & Hh).
  assert (Hsk : forall a' ds b, s = a' ++ ds ++ b -> spaces a' -> ds <> [] -> digits ds -> skip_spaces s = ds ++ b).
  { intros a' ds b -> Ha' Hne Hds. apply skip_spaces_app; [done|]. by apply digits_head. }
  destruct (parse_tail 18446744073709551615 (skip_spaces s)) as [(ds & b & E' & Hne & Hd & Hb & Hv & Hhd & Hpd)|[Hfail Hno]]; [lia| |].
  - rewrite Hhd, Hpd, (proj2 (skip_spaces_nil b) Hb). cbn [negb]. split; [|done]. split.
    + intros [= <-]. split; [|lia]. exists a, ds, b. rewrite E at 1. by rewrite E'.
    + intros [(a' & ds' & b' & E1 & Ha' & Hne' & Hd' & Hb' & ->) Hlt]. do 2 f_equal.
      specialize (Hsk _ _ _ E1 Ha' Hne' Hd'). rewrite E' in Hsk.
      destruct (digits_unique ds' ds b' b) as [-> _]; auto;
        (destruct Hb' || idtac); (destruct Hb || idtac); cbn; auto using space_not_digit.
  - assert (Hres : (if negb (head_digit (skip_spaces s)) then (0, true)
      else match parse_digits 18446744073709551615 (skip_spaces s) 0 with
           | None => (0, true)
           | Some (r, s) => match skip_spaces s with [] => (r, false) | _ => (0, true) end
           end) = (0, true)).
    { destruct Hfail as [->| [->| (r & b & -> & Hb)]]; [done|by destruct (negb _)|].
      destruct (negb _); [done|]. by destruct (skip_spaces b). }
    rewrite Hres. split; [|done]. split; [done|].
    intros [(a' & ds' & b' & E1 & Ha' & Hne' & Hd' & Hb' & ->) Hlt].
    specialize (Hno ds' b' (Hsk _ _ _ E1 Ha' Hne' Hd') Hne' Hd' Hb'). lia.
Qed.

(** [str_to_uint64] of libc/string.c: the call succeeds with [v] exactly on
    the strings that are a nonempty digit string of value [v] below 2^64
    between blanks (leading zeros of any number included), and a call that
    reports an error returns 0: overflow, an empty number and trailing garbage
    are all caught, and no value that fits is refused. *)
Theorem str_to_uint64_correct s v :
  (str_to_uint64 s = (v, false) <-> decimal s v /\ v < 2 ^ 64) /\
  (snd (str_to_uint64 s) = true -> fst (str_to_uint64 s) = 0).
Proof. apply str_to_uint64_correct_ok. Qed.

(** ** Printing numbers *)

Lemma itoa_digit_dec r : Z.abs r < 10 -> isdigit (itoa_digit r) = true /\ itoa_digit r - 48 = Z.abs r.
Proof.
  intros H. unfold itoa_digit. rewrite (proj2 (Z.ltb_lt _ _)) by done. split; [|lia].
  unfold isdigit. rewrite andb_true_iff, Z.geb_le, Z.leb_le. lia.
Qed.

(** The digits come out least significant first, whatever the sign. *)
Lemma itoa_digits_dec fuel v :
  (0 < fuel)%nat -> Z.abs v < 10 ^ Z.of_nat fuel ->
  exists ds, itoa_digits fuel v 10 = Some ds /\ ds <> [] /\ digits ds /\
    forall r, value_from r (rev ds) = r * 10 ^ Z.of_nat (length ds) + Z.abs v.
Proof.
  revert v. induction fuel as [|fuel IH]; intros v Hf Hv; [lia|]. cbn [itoa_digits].
  assert (Hrem : Z.abs (Z.rem v 10) = Z.abs v mod 10) by zlia.
  assert (Hquot : Z.abs (Z.quot v 10) = Z.abs v / 10) by zlia.
  destruct (itoa_digit_dec (Z.rem v 10)) as [Hdig Hval]; [zlia|].
  destruct (Z.eqb_spec (Z.quot v 10) 0) as [E|E].
  - exists [itoa_digit (Z.rem v 10)]. repeat split; [done|by constructor|]. intros r. cbn. rewrite Hval, Hrem. zlia.
  - destruct (IH (Z.quot v 10)) as (ds & Eds & Hne & Hds & Hvf).
    + destruct fuel; [|lia]. change (10 ^ Z.of_nat 1) with 10 in Hv. zlia.
    + rewrite Hquot. apply Z.div_lt_upper_bound; [lia|]. rewrite <- Z.pow_succ_r by lia. by rewrite <- Nat2Z.inj_succ.
    + rewrite Eds. exists (itoa_digit (Z.rem v 10) :: ds). repeat split; [done|by constructor|].
      intros r. cbn [rev length]. unfold value_from. rewrite fold_left_app. cbn [fold_left].
      change (fold_left _ (rev ds) r) with (value_from r (rev ds)). rewrite Hvf, Hval, Hrem, Hquot.
      rewrite Nat2Z.inj_succ, Z.pow_succ_r by lia. pose proof (Z.div_mod (Z.abs v) 10). lia.
Qed.

Lemma digits_rev ds : digits ds -> digits (rev ds).
Proof. intros H. unfold digits. by apply Forall_rev. Qed.

Lemma itoa_roundtrip_ok v : in_s64 v -> exists s, itoa v 10 = Some s /\ str_to_int64 s = (v, false).
Proof.
  intros Hv. destruct (itoa_digits_dec 65 v) as (ds & E & Hne & Hds & Hval); [lia| |].
  { unfold in_s64 in Hv. eapply Z.le_lt_trans; [|apply (Z.pow_lt_mono_r 10 19 65); lia]. lia. }
  unfold itoa. cbn -[itoa_digits]. rewrite E. eexists; split; [reflexivity|].
  specialize (Hval 0). rewrite Z.mul_0_l, Z.add_0_l in Hval.
  apply digits_rev in Hds. rewrite <- (app_nil_r (rev ds)).
  assert (Hne' : rev ds <> []) by (intros H%(f_equal (@length Z)); rewrite length_rev in H; by destruct ds).
  revert Hds Hne' Hval. generalize (rev ds) as l. clear -Hv. intros l Hds Hne Hval.
  unfold str_to_int64.
  assert (Hhead : head_digit (l ++ []) = true) by (destruct Hds; done).
  assert (Hpd : forall limit, 9 <= limit < 2 ^ 64 -> Z.abs v <= limit -> parse_digits limit (l ++ []) 0 = Some (Z.abs v, [])).
  { intros limit Hl Hle. rewrite parse_digits_app by (done || lia). rewrite Hval, (proj2 (Z.leb_le _ _)) by lia. done. }
  destruct (Z.ltb_spec v 0) as [Hneg|Hpos]; cbn [andb app].
  - change (skip_spaces (45 :: l ++ [])) with (45 :: l ++ []). cbn [Z.eqb Pos.eqb]. rewrite Hhead. cbn [negb].
    rewrite Hpd by word. cbn [skip_spaces]. f_equal. word.
  - assert (Hsk : skip_spaces (l ++ []) = l ++ []) by (apply (skip_spaces_app []); [constructor|by apply digits_head]).
    rewrite Hsk.
    destruct Hds as [|c l Hc Hds]; [done|]. apply isdigit_range in Hc as Hc'. cbn [app].
    rewrite (proj2 (Z.eqb_neq c 45)), (proj2 (Z.eqb_neq c 43)) by lia. cbn [app] in Hhead, Hpd. rewrite Hhead. cbn [negb].
    rewrite Hpd by word. cbn [skip_spaces]. f_equal. word.
Qed.

(** [itoa] of libc/stdlib.c and [str_to_int64] of libc/string.c: every 64-bit
    signed value, the most negative one included, is printed in decimal within
    the loop's bound and read back as itself without an error. *)
Theorem itoa_roundtrip v : in_s64 v -> exists s, itoa v 10 = Some s /\ str_to_int64 s = (v, false).
Proof. apply itoa_roundtrip_ok. Qed.

Lemma itoa_roundtrip_witness :
  in_s64 (-9223372036854775808) /\
  exists s, itoa (-9223372036854775808) 10 = Some s /\ str_to_int64 s = (-9223372036854775808, false).
Proof. split; [done|]. apply itoa_roundtrip. done. Defined.

(** The K&R routine on the most negative [int]: its negation is itself, the
    digit is the character two below '0', and the loop stops at once. *)
Lemma int_to_ascii_min : int_to_ascii (-2147483648) = Some [45; 40].
Proof. reflexivity. Qed.
