(* ===== verification/Ring.v ===== *)
(** * Ring buffers and the input event queue

    Models libc/ringbuf.h (bytes, 64-bit counters) and ui/event.c (events,
    32-bit counters). Both keep free-running counters and index a power-of-two
    array with a mask; [ring] is the queue such a pair of counters denotes, and
    the theorems say that both refine a bounded FIFO. *)

From S2P Require Import Prelude.

(** ** libc/ringbuf.h *)

Record ringbuf_t := Ringbuf { rb_buf : list Z; rb_cap : Z; rb_head : Z; rb_tail : Z }.

Definition ringbuf_init (buf : list Z) (cap : Z) : ringbuf_t := Ringbuf buf cap 0 0.
Definition ringbuf_len (rb : ringbuf_t) : Z := u64 (rb_tail rb - rb_head rb).
Definition ringbuf_empty (rb : ringbuf_t) : bool := rb_head rb =? rb_tail rb.
Definition ringbuf_full (rb : ringbuf_t) : bool := ringbuf_len rb =? rb_cap rb.
Definition ringbuf_space (rb : ringbuf_t) : Z := u64 (rb_cap rb - ringbuf_len rb).
Definition slot (i cap : Z) : nat := Z.to_nat (Z.land i (cap - 1)).

Definition ringbuf_push (byte : Z) (rb : ringbuf_t) : Z * ringbuf_t :=
  if ringbuf_full rb then (-1, rb)
  else (0, Ringbuf (<[slot (rb_tail rb) (rb_cap rb) := byte]> (rb_buf rb)) (rb_cap rb) (rb_head rb)
             (u64 (rb_tail rb + 1))).

(** The byte read is [None] where the code returns -1. *)
Definition ringbuf_peek (rb : ringbuf_t) : option Z :=
  if ringbuf_empty rb then None else Some (default 0 (rb_buf rb !! slot (rb_head rb) (rb_cap rb))).
Definition ringbuf_pop (rb : ringbuf_t) : option Z * ringbuf_t :=
  if ringbuf_empty rb then (None, rb)
  else (Some (default 0 (rb_buf rb !! slot (rb_head rb) (rb_cap rb))),
        Ringbuf (rb_buf rb) (rb_cap rb) (u64 (rb_head rb + 1)) (rb_tail rb)).
Definition ringbuf_peek_at (k : Z) (rb : ringbuf_t) : option Z :=
  if k >=? ringbuf_len rb then None
  else Some (default 0 (rb_buf rb !! slot (u64 (rb_head rb + k)) (rb_cap rb))).

(** The loops over [src] and over the [n] cells of [dst]. *)
Fixpoint ringbuf_write (src : list Z) (rb : ringbuf_t) : Z * ringbuf_t :=
  match src with
  | [] => (0, rb)
  | c :: src =>
    if ringbuf_full rb then (0, rb)
    else let '(i, rb) := ringbuf_write src (ringbuf_push c rb).2 in (i + 1, rb)
  end.
Fixpoint ringbuf_read (n : nat) (rb : ringbuf_t) : list Z * ringbuf_t :=
  match n with
  | O => ([], rb)
  | S n =>
    match ringbuf_pop rb with
    | (None, rb) => ([], rb)
    | (Some c, rb) => let '(l, rb) := ringbuf_read n rb in (c :: l, rb)
    end
  end.
Definition ringbuf_discard (n : Z) (rb : ringbuf_t) : Z * ringbuf_t :=
  let n := if n >? ringbuf_len rb then ringbuf_len rb else n in
  (n, Ringbuf (rb_buf rb) (rb_cap rb) (u64 (rb_head rb + n)) (rb_tail rb)).
Definition ringbuf_clear (rb : ringbuf_t) : ringbuf_t := Ringbuf (rb_buf rb) (rb_cap rb) 0 0.

(** ** ui/event.c *)

Inductive event_type_t := EV_NONE | EV_KEY_DOWN | EV_KEY_UP | EV_MOUSE_MOVE | EV_MOUSE_DOWN | EV_MOUSE_UP.
Record event_t := Event {
  ev_type : event_type_t;
  ev_code : Z;
  ev_ch : Z;
  ev_buttons : Z;
  ev_x : Z;
  ev_y : Z;
}.
Definition event0 : event_t := Event EV_NONE 0 0 0 0 0.
Definition EVQ_CAP : Z := 128.

Record evq_t := Evq {
  evq : list event_t;
  evq_head : Z;
  evq_tail : Z;
  last_mx : Z;
  last_my : Z;
  last_buttons : Z;
}.
Definition evq_bss : evq_t := Evq (replicate 128 event0) 0 0 (-1) (-1) 0.
Definition event_init (q : evq_t) : evq_t := Evq (evq q) 0 0 (-1) (-1) 0.

Definition evq_push (ev : event_t) (q : evq_t) : evq_t :=
  if u32 (evq_tail q - evq_head q) >=? EVQ_CAP then q
  else Evq (<[slot (evq_tail q) EVQ_CAP := ev]> (evq q)) (evq_head q) (u32 (evq_tail q + 1))
         (last_mx q) (last_my q) (last_buttons q).

Definition event_poll (q : evq_t) : option event_t * evq_t :=
  if evq_head q =? evq_tail q then (None, q)
  else (Some (default event0 (evq q !! slot (evq_head q) EVQ_CAP)),
        Evq (evq q) (u32 (evq_head q + 1)) (evq_tail q) (last_mx q) (last_my q) (last_buttons q)).

Definition event_push_key (scancode : Z) (down : bool) (ch : Z) (q : evq_t) : evq_t :=
  evq_push (Event (if down then EV_KEY_DOWN else EV_KEY_UP) scancode (if down then ch else 0) (last_buttons q)
              (last_mx q) (last_my q)) q.

(** The loop over the bits 1, 2, 4 of the buttons that changed. *)
Fixpoint push_edges (bits : list Z) (x y buttons changed : Z) (q : evq_t) : evq_t :=
  match bits with
  | [] => q
  | bit :: bits =>
    if Z.land changed bit =? 0 then push_edges bits x y buttons changed q
    else
      let t := if Z.land buttons bit =? 0 then EV_MOUSE_UP else EV_MOUSE_DOWN in
      push_edges bits x y buttons changed (evq_push (Event t bit 0 buttons x y) q)
  end.
Definition event_push_mouse (x y buttons : Z) (q : evq_t) : evq_t :=
  let q' := push_edges [1; 2; 4] x y buttons (Z.lxor buttons (last_buttons q)) q in
  let q' := if negb (x =? last_mx q) || negb (y =? last_my q)
            then evq_push (Event EV_MOUSE_MOVE 0 0 buttons x y) q' else q' in
  Evq (evq q') (evq_head q') (evq_tail q') x y buttons.

(** ** The queue a ring denotes *)

Section Ring.
Context {A : Type} (d : A).

(** The [n] elements from counter [h] on. *)
Definition ring (buf : list A) (cap h : Z) (n : nat) : list A :=
  (fun k => default d (buf !! Z.to_nat ((h + Z.of_nat k) mod cap))) <$> seq 0 n.

Lemma length_ring buf cap h n : length (ring buf cap h n) = n.
Proof. unfold ring. by rewrite length_fmap, length_seq. Qed.

Lemma ring_mod buf cap h h' n : 0 < cap -> h mod cap = h' mod cap -> ring buf cap h n = ring buf cap h' n.
Proof.
  intros Hc E. apply list_fmap_ext. intros i k _. do 3 f_equal.
  by rewrite (Z.add_mod h), E, <- Z.add_mod by lia.
Qed.

Lemma ring_cons buf cap h n :
  ring buf cap h (S n) = default d (buf !! Z.to_nat (h mod cap)) :: ring buf cap (h + 1) n.
Proof.
  unfold ring. cbn [seq fmap list_fmap]. f_equal; [by rewrite Z.add_0_r|].
  rewrite <- fmap_S_seq, <- list_fmap_compose. apply list_fmap_ext. intros i k _. cbn [compose].
  by replace (h + Z.of_nat (S k)) with (h + 1 + Z.of_nat k) by lia.
Qed.

Lemma ring_lookup buf cap h n k :
  (k < n)%nat -> ring buf cap h n !! k = Some (default d (buf !! Z.to_nat ((h + Z.of_nat k) mod cap))).
Proof. intros Hk. unfold ring. rewrite list_lookup_fmap, lookup_seq_lt by done. done. Qed.

(** Two counters less than a capacity apart use different cells. *)
Lemma ring_cells cap h i j : 0 < cap -> 0 <= i < cap -> 0 <= j < cap -> (h + i) mod cap = (h + j) mod cap -> i = j.
Proof.
  intros Hc Hi Hj E. apply (f_equal (fun z => (z - h) mod cap)) in E.
  rewrite !Zminus_mod_idemp_l, !(Z.add_simpl_l h) in E. by rewrite !Z.mod_small in E by done.
Qed.

Lemma ring_snoc buf cap h n x :
  0 < cap -> Z.of_nat (length buf) = cap -> Z.of_nat n < cap ->
  ring (<[Z.to_nat ((h + Z.of_nat n) mod cap) := x]> buf) cap h (S n) = ring buf cap h n ++ [x].
Proof.
  intros Hc Hl Hn. apply list_eq. intros k. destruct (decide (k < n)%nat) as [Hk|Hk].
  - rewrite lookup_app_l by (by rewrite length_ring). rewrite !ring_lookup by lia.
    rewrite list_lookup_insert_ne; [done|]. intros E.
    apply Z2Nat.inj in E; [|apply Z.mod_pos_bound; lia..]. apply ring_cells in E; lia.
  - rewrite lookup_app_r, length_ring by (rewrite length_ring; lia).
    destruct (decide (k = n)) as [->|].
    + rewrite ring_lookup, Nat.sub_diag by lia. rewrite list_lookup_insert_eq; [done|].
      pose proof (Z.mod_pos_bound (h + Z.of_nat n) cap). lia.
    + rewrite !lookup_ge_None_2; [done|cbn; lia|rewrite length_ring; lia].
Qed.
End Ring.

Lemma slot_mod i k : 0 <= k -> slot i (2 ^ k) = Z.to_nat (i mod 2 ^ k).
Proof. intros. unfold slot. by rewrite land_ones_mod. Qed.

Lemma mod_pow2_mod i k n : 0 <= k <= n -> (i mod 2 ^ n) mod 2 ^ k = i mod 2 ^ k.
Proof.
  intros Hk. apply Z.mod_mod_divide. exists (2 ^ (n - k)). rewrite <- Z.pow_add_r by lia. f_equal. lia.
Qed.

(** Case analysis on a pair-valued call, in the hypotheses too. *)
Ltac pair_case t :=
  let p := fresh in let E := fresh in cbn [fst snd] in *; remember t as p eqn:E in *; destruct p; cbn [fst snd] in *; clear E.

(** ** The ring buffer refines a bounded FIFO *)

Definition ring_rep (rb : ringbuf_t) (l : list Z) : Prop :=
  exists k, 0 <= k < 64 /\ rb_cap rb = 2 ^ k /\ Z.of_nat (length (rb_buf rb)) = rb_cap rb /\
    in_u64 (rb_head rb) /\ in_u64 (rb_tail rb) /\
    Z.of_nat (length l) = ringbuf_len rb /\ ringbuf_len rb <= rb_cap rb /\
    l = ring 0 (rb_buf rb) (rb_cap rb) (rb_head rb) (length l).

(** Operations with their results: a code or count, and the bytes delivered. *)
Inductive ring_op :=
  RPush (c : Z) | RPop | RPeek | RPeekAt (k : Z) | RWrite (src : list Z) | RRead (n : nat) | RDiscard (n : Z)
| RClear | RLen | RSpace.
Definition byte_result (o : option Z) : Z * list Z := match o with Some c => (0, [c]) | None => (-1, []) end.

Definition ring_step (op : ring_op) (rb : ringbuf_t) : (Z * list Z) * ringbuf_t :=
  match op with
  | RPush c => let '(r, rb) := ringbuf_push c rb in (r, [], rb)
  | RPop => let '(o, rb) := ringbuf_pop rb in (byte_result o, rb)
  | RPeek => (byte_result (ringbuf_peek rb), rb)
  | RPeekAt k => (byte_result (ringbuf_peek_at k rb), rb)
  | RWrite src => let '(r, rb) := ringbuf_write src rb in (r, [], rb)
  | RRead n => let '(l, rb) := ringbuf_read n rb in (Z.of_nat (length l), l, rb)
  | RDiscard n => let '(r, rb) := ringbuf_discard n rb in (r, [], rb)
  | RClear => (0, [], ringbuf_clear rb)
  | RLen => (ringbuf_len rb, [], rb)
  | RSpace => (ringbuf_space rb, [], rb)
  end.

(** The specification: a list of at most [cap] bytes, oldest first. *)
Definition fifo_step (cap : Z) (op : ring_op) (l : list Z) : (Z * list Z) * list Z :=
  let len := Z.of_nat (length l) in
  match op with
  | RPush c => if len =? cap then (-1, [], l) else (0, [], l ++ [c])
  | RPop => match l with [] => (-1, [], []) | c :: l => (0, [c], l) end
  | RPeek => (byte_result (head l), l)
  | RPeekAt k => (byte_result (if k <? len then l !! Z.to_nat k else None), l)
  | RWrite src => let n := Nat.min (length src) (Z.to_nat (cap - len)) in (Z.of_nat n, [], l ++ take n src)
  | RRead n => (Z.of_nat (Nat.min n (length l)), take n l, drop n l)
  | RDiscard n => (Z.min n len, [], drop (Z.to_nat (Z.min n len)) l)
  | RClear => (0, [], [])
  | RLen => (len, [], l)
  | RSpace => (cap - len, [], l)
  end.

(** A sequence of operations on either. *)
Fixpoint run_ops {S} (step : ring_op -> S -> (Z * list Z) * S) (ops : list ring_op) (s : S) : list (Z * list Z) * S :=
  match ops with
  | [] => ([], s)
  | op :: ops => let '(r, s) := step op s in let '(rs, s) := run_ops step ops s in (r :: rs, s)
  end.
Definition op_ok (op : ring_op) : Prop :=
  match op with RPeekAt k | RDiscard k => in_u64 k | _ => True end.

Lemma rep_init buf k : 0 <= k < 64 -> Z.of_nat (length buf) = 2 ^ k -> ring_rep (ringbuf_init buf (2 ^ k)) [].
Proof. intros Hk Hl. exists k. unfold ringbuf_len. cbn -[Z.pow]. rewrite u64_id by done. repeat split; try done; lia. Qed.

Lemma rep_head rb c l :
  ring_rep rb (c :: l) -> default 0 (rb_buf rb !! slot (rb_head rb) (rb_cap rb)) = c /\ ringbuf_empty rb = false.
Proof.
  intros (k & Hk & Hc & Hb & Hh & Ht & Hl & Hle & E). cbn [length] in *. rewrite ring_cons in E. injection E as E _.
  split; [by rewrite Hc, slot_mod, <- Hc by lia|]. apply Z.eqb_neq. intros E'. unfold ringbuf_len in Hl. rewrite E' in Hl.
  rewrite Z.sub_diag, u64_id in Hl by done. lia.
Qed.
Lemma rep_empty rb : ring_rep rb [] -> ringbuf_empty rb = true.
Proof.
  intros (k & Hk & Hc & Hb & Hh & Ht & Hl & _). apply Z.eqb_eq. unfold ringbuf_len in Hl. cbn [length] in Hl. word.
Qed.
Lemma rep_full rb l : ring_rep rb l -> ringbuf_full rb = (Z.of_nat (length l) =? rb_cap rb).
Proof. intros (k & Hk & Hc & Hb & Hh & Ht & Hl & _). unfold ringbuf_full. by rewrite Hl. Qed.

Lemma rep_push rb l c :
  ring_rep rb l -> Z.of_nat (length l) <> rb_cap rb ->
  ringbuf_push c rb = (0, (ringbuf_push c rb).2) /\ rb_cap (ringbuf_push c rb).2 = rb_cap rb /\
  ring_rep (ringbuf_push c rb).2 (l ++ [c]).
Proof.
  intros Hr Hne. assert (Hf := rep_full rb l Hr). rewrite (proj2 (Z.eqb_neq _ _) Hne) in Hf.
  destruct Hr as (k & Hk & Hc & Hb & Hh & Ht & Hl & Hle & E). unfold ringbuf_push. rewrite Hf. repeat split.
  assert (0 < 2 ^ k < 2 ^ 64) by (split; [lia|apply Z.pow_lt_mono_r; lia]).
  exists k. cbn [snd rb_buf rb_cap rb_head rb_tail]. unfold ringbuf_len in *. cbn [rb_head rb_tail].
  assert (Hlen : u64 (u64 (rb_tail rb + 1) - rb_head rb) = Z.of_nat (length (l ++ [c]))).
  { rewrite length_app. cbn [length]. word. }
  repeat split; try done; try (rewrite ?length_insert; word).
  rewrite length_app, Nat.add_comm. cbn [length Nat.add]. rewrite Hc in *. rewrite slot_mod by lia.
  replace (rb_tail rb mod 2 ^ k) with ((rb_head rb + Z.of_nat (length l)) mod 2 ^ k).
  - rewrite ring_snoc by lia. by rewrite <- E.
  - rewrite Hl. unfold u64. change 18446744073709551616 with (2 ^ 64).
    rewrite Z.add_mod, mod_pow2_mod, <- Z.add_mod by lia. f_equal. lia.
Qed.

Lemma rep_pop rb c l :
  ring_rep rb (c :: l) ->
  ringbuf_pop rb = (Some c, (ringbuf_pop rb).2) /\ rb_cap (ringbuf_pop rb).2 = rb_cap rb /\ ring_rep (ringbuf_pop rb).2 l.
Proof.
  intros Hr. destruct (rep_head rb c l Hr) as [Hv He]. unfold ringbuf_pop. rewrite He, Hv. repeat split.
  destruct Hr as (k & Hk & Hc & Hb & Hh & Ht & Hl & Hle & E). cbn [length] in *.
  exists k. cbn [snd rb_buf rb_cap rb_head rb_tail]. unfold ringbuf_len in *. cbn [rb_head rb_tail].
  assert (Hlen : u64 (rb_tail rb - u64 (rb_head rb + 1)) = Z.of_nat (length l)) by word.
  repeat split; try done; try word. rewrite ring_cons in E. injection E as _ E. rewrite E at 1.
  rewrite E at 1. rewrite length_ring. apply ring_mod; [lia|]. rewrite Hc. unfold u64.
  change 18446744073709551616 with (2 ^ 64). by rewrite mod_pow2_mod by lia.
Qed.

Lemma ring_drop {A} (d : A) buf cap h n j : drop j (ring d buf cap h n) = ring d buf cap (h + Z.of_nat j) (n - j).
Proof.
  revert h n. induction j as [|j IH]; intros h n; [by rewrite drop_0, Z.add_0_r, Nat.sub_0_r|].
  destruct n as [|n]; [done|]. rewrite ring_cons. cbn [drop Nat.sub]. rewrite IH.
  by replace (h + 1 + Z.of_nat j) with (h + Z.of_nat (S j)) by lia.
Qed.

Lemma rep_discard rb l n :
  ring_rep rb l -> 0 <= n <= Z.of_nat (length l) ->
  ring_rep (Ringbuf (rb_buf rb) (rb_cap rb) (u64 (rb_head rb + n)) (rb_tail rb)) (drop (Z.to_nat n) l).
Proof.
  intros (k & Hk & Hc & Hb & Hh & Ht & Hl & Hle & E) Hn.
  exists k. cbn [snd rb_buf rb_cap rb_head rb_tail]. unfold ringbuf_len in *. cbn [rb_head rb_tail].
  assert (Hlen : u64 (rb_tail rb - u64 (rb_head rb + n)) = Z.of_nat (length l) - n) by word.
  rewrite length_drop. repeat split; try done; try word.
  rewrite E at 1. rewrite ring_drop. apply ring_mod; [lia|]. rewrite Hc. unfold u64.
  change 18446744073709551616 with (2 ^ 64). rewrite mod_pow2_mod by lia. by rewrite Z2Nat.id by lia.
Qed.

Lemma rep_clear rb l : ring_rep rb l -> ring_rep (ringbuf_clear rb) [].
Proof.
  intros (k & Hk & Hc & Hb & _). exists k. unfold ringbuf_len. cbn. rewrite u64_id by done.
  repeat split; try done; lia.
Qed.

Lemma rep_peek rb l : ring_rep rb l -> ringbuf_peek rb = head l.
Proof.
  intros Hr. unfold ringbuf_peek. destruct l as [|c l]; [by rewrite (rep_empty rb Hr)|].
  destruct (rep_head rb c l Hr) as [Hv He]. by rewrite He, Hv.
Qed.

Lemma rep_peek_at rb l k :
  ring_rep rb l -> in_u64 k -> ringbuf_peek_at k rb = if k <? Z.of_nat (length l) then l !! Z.to_nat k else None.
Proof.
  intros (j & Hj & Hc & Hb & Hh & Ht & Hl & Hle & E) Hk. unfold ringbuf_peek_at. rewrite <- Hl, Z.geb_leb, Z.leb_antisym.
  destruct (Z.ltb_spec k (Z.of_nat (length l))); [|done]. cbn [negb]. symmetry. rewrite E at 1.
  unfold in_u64 in Hk. rewrite ring_lookup by lia. rewrite Hc, slot_mod by lia. do 3 f_equal. rewrite Z2Nat.id by lia.
  f_equal. unfold u64. change 18446744073709551616 with (2 ^ 64). by rewrite mod_pow2_mod by lia.
Qed.

Lemma rep_write rb l src :
  ring_rep rb l ->
  let n := Nat.min (length src) (Z.to_nat (rb_cap rb - Z.of_nat (length l))) in
  (ringbuf_write src rb).1 = Z.of_nat n /\ rb_cap (ringbuf_write src rb).2 = rb_cap rb /\
  ring_rep (ringbuf_write src rb).2 (l ++ take n src).
Proof.
  revert rb l. induction src as [|c src IH]; intros rb l Hr; cbn [ringbuf_write length].
  - cbn. by rewrite app_nil_r.
  - rewrite (rep_full rb l Hr). destruct (Z.eqb_spec (Z.of_nat (length l)) (rb_cap rb)) as [E|E].
    + rewrite E, Z.sub_diag, Nat.min_0_r. cbn. by rewrite app_nil_r.
    + assert (Z.of_nat (length l) <= rb_cap rb) by (destruct Hr as (k & ? & ? & ? & ? & ? & -> & ? & _); done).
      destruct (rep_push rb l c Hr E) as (_ & Hcap & Hr'). specialize (IH _ _ Hr'). rewrite Hcap in IH.
      pair_case (ringbuf_write src (ringbuf_push c rb).2).
      rewrite length_app in IH. cbn [length] in IH.
      set (n := Nat.min (length src) (Z.to_nat (rb_cap rb - Z.of_nat (length l + 1)))) in IH.
      replace (Nat.min (S (length src)) (Z.to_nat (rb_cap rb - Z.of_nat (length l)))) with (S n) by (unfold n; lia).
      destruct IH as (-> & Hc & IH). split; [lia|]. split; [done|]. cbn [take]. by rewrite (cons_middle c), app_assoc.
Qed.

Lemma rep_read rb l n :
  ring_rep rb l ->
  (ringbuf_read n rb).1 = take n l /\ rb_cap (ringbuf_read n rb).2 = rb_cap rb /\ ring_rep (ringbuf_read n rb).2 (drop n l).
Proof.
  revert rb l. induction n as [|n IH]; intros rb l Hr; cbn [ringbuf_read]; [by rewrite drop_0|].
  destruct l as [|c l].
  - unfold ringbuf_pop. rewrite (rep_empty rb Hr). done.
  - destruct (rep_pop rb c l Hr) as (-> & Hc & Hr'). destruct (IH _ _ Hr') as (E & Hc' & Hr2).
    pair_case (ringbuf_read n (ringbuf_pop rb).2). subst.
    split; [done|]. split; [by rewrite Hc'|done].
Qed.

(** One operation. *)
Lemma ring_step_refines op rb l :
  ring_rep rb l -> op_ok op ->
  (ring_step op rb).1 = (fifo_step (rb_cap rb) op l).1 /\ rb_cap (ring_step op rb).2 = rb_cap rb /\
  ring_rep (ring_step op rb).2 (fifo_step (rb_cap rb) op l).2.
Proof.
  intros Hr Hop. assert (Hlen : ringbuf_len rb = Z.of_nat (length l) /\ ringbuf_len rb <= rb_cap rb)
    by (destruct Hr as (? & ? & ? & ? & ? & ? & ? & ? & _); done).
  destruct op as [c| | |k|src|n|n| | |]; cbn [ring_step fifo_step].
  - destruct (Z.eqb_spec (Z.of_nat (length l)) (rb_cap rb)) as [E|E].
    + unfold ringbuf_push. rewrite (rep_full rb l Hr), (proj2 (Z.eqb_eq _ _) E). done.
    + destruct (rep_push rb l c Hr E) as (-> & Hc & Hr'). done.
  - destruct l as [|c l]; [by unfold ringbuf_pop; rewrite (rep_empty rb Hr)|].
    destruct (rep_pop rb c l Hr) as (-> & Hc & Hr'). done.
  - by rewrite (rep_peek rb l Hr).
  - by rewrite (rep_peek_at rb l k Hr Hop).
  - destruct (rep_write rb l src Hr) as (E & Hc & Hr'). pair_case (ringbuf_write src rb). by rewrite E.
  - destruct (rep_read rb l n Hr) as (E & Hc & Hr'). pair_case (ringbuf_read n rb). subst. by rewrite length_take.
  - unfold ringbuf_discard. destruct Hlen as [-> Hle]. cbn [op_ok] in Hop. unfold in_u64 in Hop.
    replace (if n >? Z.of_nat (length l) then Z.of_nat (length l) else n) with (Z.min n (Z.of_nat (length l)))
      by (bcase; lia).
    split; [done|]. split; [done|]. apply rep_discard; [done|lia].
  - split; [done|]. split; [done|]. by apply (rep_clear rb l).
  - by destruct Hlen as [-> _].
  - unfold ringbuf_space. destruct Hlen as [E Hle]. rewrite E in *. split; [|done]. cbn [fst]. f_equal. f_equal.
    apply u64_id. destruct Hr as (k & Hk & Hc & _). assert (2 ^ k < 2 ^ 64) by (apply Z.pow_lt_mono_r; lia).
    unfold in_u64. lia.
Qed.

Lemma ringbuf_refines_ok ops rb l :
  ring_rep rb l -> Forall op_ok ops ->
  (run_ops ring_step ops rb).1 = (run_ops (fifo_step (rb_cap rb)) ops l).1 /\
  ring_rep (run_ops ring_step ops rb).2 (run_ops (fifo_step (rb_cap rb)) ops l).2.
Proof.
  intros Hr Hops. revert rb l Hr. induction Hops as [|op ops Hop _ IH]; intros rb l Hr; cbn [run_ops]; [done|].
  destruct (ring_step_refines op rb l Hr Hop) as (E1 & Ec & Hr').
  specialize (IH _ _ Hr'). rewrite Ec in IH.
  destruct (ring_step op rb) as [r rb'], (fifo_step (rb_cap rb) op l) as [r' l']. cbn [fst snd] in *. subst r'.
  destruct (run_ops ring_step ops rb') as [rs rb2], (run_ops (fifo_step (rb_cap rb)) ops l') as [rs' l2].
  cbn [fst snd] in *. destruct IH as [-> IH]. done.
Qed.

(** The operations of libc/ringbuf.h: a ring over a buffer of 2^k bytes,
    initially empty, answers every sequence of pushes, pops, peeks, bulk writes
    and reads, discards and clears as a FIFO list of at most 2^k bytes does,
    with the same codes, counts and bytes, however often the 64-bit counters
    wrap around. *)
Theorem ringbuf_refines buf k ops :
  0 <= k < 64 -> Z.of_nat (length buf) = 2 ^ k -> Forall op_ok ops ->
  (run_ops ring_step ops (ringbuf_init buf (2 ^ k))).1 = (run_ops (fifo_step (2 ^ k)) ops []).1 /\
  ring_rep (run_ops ring_step ops (ringbuf_init buf (2 ^ k))).2 (run_ops (fifo_step (2 ^ k)) ops []).2.
Proof. intros Hk Hl. apply (ringbuf_refines_ok ops (ringbuf_init buf (2 ^ k)) []), rep_init; done. Qed.

Lemma ringbuf_refines_witness :
  let ops := [RWrite [1; 2; 3; 4; 5]; RPush 6; RPop; RRead 2; RWrite [7; 8]; RPeekAt 2; RDiscard 9; RLen] in
  (run_ops ring_step ops (ringbuf_init [0; 0; 0; 0] (2 ^ 2))).1 =
    [(4, []); (-1, []); (0, [1]); (2, [2; 3]); (2, []); (0, [8]); (3, []); (0, [])] /\
  (run_ops ring_step ops (ringbuf_init [0; 0; 0; 0] (2 ^ 2))).1 = (run_ops (fifo_step (2 ^ 2)) ops []).1.
Proof.
  cbv zeta. split; [reflexivity|]. apply (ringbuf_refines [0; 0; 0; 0] 2); [lia|reflexivity|]. repeat constructor; word.
Defined.

(** ** The event queue refines a bounded FIFO that drops what does not fit *)

Definition evq_rep (q : evq_t) (l : list event_t) : Prop :=
  length (evq q) = 128%nat /\ in_u32 (evq_head q) /\ in_u32 (evq_tail q) /\
  Z.of_nat (length l) = u32 (evq_tail q - evq_head q) /\ Z.of_nat (length l) <= 128 /\
  l = ring event0 (evq q) 128 (evq_head q) (length l).
Definition mouse_of (q : evq_t) : Z * Z * Z := (last_mx q, last_my q, last_buttons q).

Definition drop_push (l : list event_t) (e : event_t) : list event_t :=
  if (length l <? 128)%nat then l ++ [e] else l.

Lemma evq_slot i : in_u32 i -> slot i 128 = Z.to_nat (i mod 128).
Proof. intros. by apply (slot_mod i 7). Qed.

Lemma evq_push_rep ev q l :
  evq_rep q l -> evq_rep (evq_push ev q) (drop_push l ev) /\ mouse_of (evq_push ev q) = mouse_of q.
Proof.
  intros (Hb & Hh & Ht & Hl & Hle & E). unfold evq_push, drop_push, EVQ_CAP. rewrite <- Hl.
  destruct (Nat.ltb_spec (length l) 128) as [Hlt|Hge]; cycle 1.
  { rewrite Z.geb_leb, (proj2 (Z.leb_le _ _)) by lia. done. }
  rewrite Z.geb_leb, (proj2 (Z.leb_gt _ _)) by lia. split; [|done].
  unfold evq_rep. cbn [evq evq_head evq_tail]. rewrite length_insert, length_app, Nat.add_comm. cbn [length Nat.add].
  repeat split; try done; try word.
  rewrite evq_slot by done. replace (evq_tail q mod 128) with ((evq_head q + Z.of_nat (length l)) mod 128) by word.
  rewrite ring_snoc by lia. by rewrite <- E.
Qed.

Lemma event_poll_rep q l :
  evq_rep q l -> (event_poll q).1 = head l /\ evq_rep (event_poll q).2 (tail l) /\ mouse_of (event_poll q).2 = mouse_of q.
Proof.
  intros Hq. pose proof Hq as (Hb & Hh & Ht & Hl & Hle & E). unfold event_poll, EVQ_CAP. destruct l as [|e l]; cbn [length] in *.
  - rewrite (proj2 (Z.eqb_eq _ _)) by word. done.
  - rewrite (proj2 (Z.eqb_neq _ _)) by word. rewrite ring_cons in E. injection E as E1 E2. cbn [fst snd head tail].
    split; [by rewrite evq_slot, <- E1 by done|]. split; [|done]. unfold evq_rep. cbn [evq evq_head evq_tail].
    repeat split; try done; try word. rewrite E2 at 1. rewrite E2 at 1. rewrite length_ring. apply ring_mod; [lia|]. word.
Qed.

(** Producers and the consumer, as interrupts and the main loop interleave them. *)
Inductive ev_op := EKey (scancode : Z) (down : bool) (ch : Z) | EMouse (x y buttons : Z) | EPoll.
Definition ev_step (op : ev_op) (q : evq_t) : option event_t * evq_t :=
  match op with
  | EKey c down ch => (None, event_push_key c down ch q)
  | EMouse x y b => (None, event_push_mouse x y b q)
  | EPoll => event_poll q
  end.
Fixpoint ev_run (ops : list ev_op) (q : evq_t) : list (option event_t) * evq_t :=
  match ops with
  | [] => ([], q)
  | op :: ops => let '(r, q) := ev_step op q in let '(rs, q) := ev_run ops q in (r :: rs, q)
  end.

(** The events a mouse report stands for: an edge for each of the three
    buttons that changed, then a movement. *)
Definition mouse_events (last : Z * Z * Z) (x y b : Z) : list event_t :=
  let '(mx, my, lb) := last in
  ((fun i => Event (if Z.testbit b i then EV_MOUSE_DOWN else EV_MOUSE_UP) (2 ^ i) 0 b x y) <$>
     filter (fun i => Z.testbit b i <> Z.testbit lb i) [0; 1; 2]) ++
  (if bool_decide ((x, y) = (mx, my)) then [] else [Event EV_MOUSE_MOVE 0 0 b x y]).

(** The specification: the queue and the last mouse report. *)
Definition spec_step (op : ev_op) (s : list event_t * (Z * Z * Z)) : option event_t * (list event_t * (Z * Z * Z)) :=
  let '(l, last) := s in
  match op with
  | EKey c down ch =>
    let '(mx, my, lb) := last in
    (None, (drop_push l (Event (if down then EV_KEY_DOWN else EV_KEY_UP) c (if down then ch else 0) lb mx my), last))
  | EMouse x y b => (None, (fold_left drop_push (mouse_events last x y b) l, (x, y, b)))
  | EPoll => (head l, (tail l, last))
  end.
Fixpoint spec_run (ops : list ev_op) (s : list event_t * (Z * Z * Z)) : list (option event_t) * (list event_t * (Z * Z * Z)) :=
  match ops with
  | [] => ([], s)
  | op :: ops => let '(r, s) := spec_step op s in let '(rs, s) := spec_run ops s in (r :: rs, s)
  end.

Lemma land_pow2_testbit x i : 0 <= i -> (Z.land x (2 ^ i) =? 0) = negb (Z.testbit x i).
Proof.
  intros Hi. destruct (Z.testbit x i) eqn:E; cbn [negb].
  - apply Z.eqb_neq. intros H0. apply (f_equal (fun z => Z.testbit z i)) in H0.
    rewrite Z.land_spec, E, Z.pow2_bits_true, Z.bits_0 in H0 by done. done.
  - apply Z.eqb_eq, Z.bits_inj'. intros j Hj. rewrite Z.land_spec, Z.bits_0, Z.pow2_bits_eqb by done.
    destruct (Z.eqb_spec i j) as [<-|]; [by rewrite E|apply andb_false_r].
Qed.

Lemma push_edges_rep ks x y b lb q l :
  evq_rep q l -> Forall (fun i => 0 <= i) ks ->
  let q' := push_edges ((fun i => 2 ^ i) <$> ks) x y b (Z.lxor b lb) q in
  evq_rep q' (fold_left drop_push
    ((fun i => Event (if Z.testbit b i then EV_MOUSE_DOWN else EV_MOUSE_UP) (2 ^ i) 0 b x y) <$>
     filter (fun i => Z.testbit b i <> Z.testbit lb i) ks) l) /\ mouse_of q' = mouse_of q.
Proof.
  intros Hq His. revert q l Hq. induction His as [|i ks Hi His IH]; intros q l Hq; cbn [fmap list_fmap push_edges]; [done|].
  rewrite !land_pow2_testbit, Z.lxor_spec by done.
  assert (Hd : forall u v : bool, (negb (xorb u v) = true /\ u = v) \/ (negb (xorb u v) = false /\ u <> v))
    by (intros [] []; auto).
  destruct (Hd (Z.testbit b i) (Z.testbit lb i)) as [[-> E]|[-> E]].
  - rewrite filter_cons_False by (intros F; by apply F). by apply IH.
  - rewrite filter_cons_True by done. cbn [fmap list_fmap fold_left].
    set (e := Event (if negb (Z.testbit b i) then EV_MOUSE_UP else EV_MOUSE_DOWN) (2 ^ i) 0 b x y).
    destruct (evq_push_rep e q l Hq) as [Hq' Hm]. specialize (IH _ _ Hq'). cbv zeta in IH. rewrite Hm in IH.
    subst e. by destruct (Z.testbit b i).
Qed.

Lemma ev_step_refines op q l :
  evq_rep q l ->
  (ev_step op q).1 = (spec_step op (l, mouse_of q)).1 /\
  evq_rep (ev_step op q).2 (spec_step op (l, mouse_of q)).2.1 /\
  mouse_of (ev_step op q).2 = (spec_step op (l, mouse_of q)).2.2.
Proof.
  intros Hq. destruct op as [c down ch|x y b|]; cbn [ev_step spec_step].
  - destruct (evq_push_rep (Event (if down then EV_KEY_DOWN else EV_KEY_UP) c (if down then ch else 0) (last_buttons q)
      (last_mx q) (last_my q)) q l Hq) as [H1 H2]. done.
  - destruct (push_edges_rep [0; 1; 2] x y b (last_buttons q) q l Hq) as [H1 H2]; [repeat constructor; lia|].
    cbv zeta in H1. change ((fun i => 2 ^ i) <$> [0; 1; 2]) with [1; 2; 4] in *.
    unfold event_push_mouse, mouse_events, mouse_of at 1 2 3. cbn [fst snd]. split; [done|]. split; [|done].
    rewrite fold_left_app. set (q1 := push_edges _ _ _ _ _ q) in *. set (l1 := fold_left drop_push _ l) in *.
    assert (Hb : negb (x =? last_mx q) || negb (y =? last_my q) = negb (bool_decide ((x, y) = (last_mx q, last_my q)))).
    { destruct (Z.eqb_spec x (last_mx q)), (Z.eqb_spec y (last_my q)); cbn; case_bool_decide; cbn; congruence. }
    rewrite Hb. destruct (bool_decide _); cbn [negb fold_left]; [done|].
    by destruct (evq_push_rep (Event EV_MOUSE_MOVE 0 0 b x y) q1 l1 H1) as [? _].
  - by destruct (event_poll_rep q l Hq) as (-> & H1 & H2).
Qed.

Lemma event_queue_refines_ok ops q l :
  evq_rep q l ->
  (ev_run ops q).1 = (spec_run ops (l, mouse_of q)).1 /\ evq_rep (ev_run ops q).2 (spec_run ops (l, mouse_of q)).2.1.
Proof.
  revert q l. induction ops as [|op ops IH]; intros q l Hq; cbn [ev_run spec_run]; [done|].
  destruct (ev_step_refines op q l Hq) as (E1 & Hq' & Hm). specialize (IH _ _ Hq'). rewrite Hm in IH.
  destruct (ev_step op q) as [r q'], (spec_step op (l, mouse_of q)) as [r' [l' last']]. cbn [fst snd] in *. subst r'.
  destruct (ev_run ops q') as [rs q2], (spec_run ops (l', last')) as [rs' s2]. cbn [fst snd] in *.
  destruct IH as [-> IH]. done.
Qed.

Lemma evq_init_rep q : length (evq q) = 128%nat -> evq_rep (event_init q) [] /\ mouse_of (event_init q) = (-1, -1, 0).
Proof. intros H. split; [|done]. unfold evq_rep. cbn. repeat split; try done; try word; lia. Qed.

(** Of ui/event.c, all functions: after [event_init], for every interleaving
    of key and mouse reports with polls, the polls deliver exactly what a FIFO
    queue of 128 events delivers that drops what does not fit: a key event per
    key report, and per mouse report one edge event for each of the three
    buttons that changed and a movement event when the position changed. *)
Theorem event_queue_refines ops q :
  length (evq q) = 128%nat ->
  (ev_run ops (event_init q)).1 = (spec_run ops ([], (-1, -1, 0))).1 /\
  evq_rep (ev_run ops (event_init q)).2 (spec_run ops ([], (-1, -1, 0))).2.1.
Proof.
  intros Hl. destruct (evq_init_rep q Hl) as [Hq Hm].
  pose proof (event_queue_refines_ok ops (event_init q) [] Hq) as H. by rewrite Hm in H.
Qed.

Lemma event_queue_refines_witness :
  let ops := [EMouse 3 4 5; EKey 30 true 97; EPoll; EPoll; EPoll; EPoll; EPoll] in
  length (evq evq_bss) = 128%nat /\
  (ev_run ops (event_init evq_bss)).1 =
    [None; None; Some (Event EV_MOUSE_DOWN 1 0 5 3 4); Some (Event EV_MOUSE_DOWN 4 0 5 3 4);
     Some (Event EV_MOUSE_MOVE 0 0 5 3 4); Some (Event EV_KEY_DOWN 30 97 5 3 4); None] /\
  (ev_run ops (event_init evq_bss)).1 = (spec_run ops ([], (-1, -1, 0))).1.
Proof. cbv zeta. split; [reflexivity|]. split; [reflexivity|]. apply event_queue_refines. reflexivity. Defined.
