(* ===== verification/Bitmap.v ===== *)
(** * Bitmaps

    Models libc/bitmap.h: a flat array of bits in 64-bit words. The searches
    that skip whole words are proved equal to the bit-by-bit ones, and the
    search for a run of free bits to be first-fit. *)

From S2P Require Import Prelude Bits.

Definition BITMAP_WORDS (n_bits : Z) : Z := u64 (n_bits + 63) / 64.

(** [bm[bit >> 6]] and [1ULL << (bit & 63)]. *)
Definition word_index (bit : Z) : nat := Z.to_nat (Z.shiftr bit 6).
Definition word_of (bm : list Z) (bit : Z) : Z := default 0 (bm !! word_index bit).
Definition bit_mask (bit : Z) : Z := Z.shiftl 1 (Z.land bit 63).

Definition bitmap_set (bm : list Z) (bit : Z) : list Z := alter (fun w => Z.lor w (bit_mask bit)) (word_index bit) bm.
Definition bitmap_clr (bm : list Z) (bit : Z) : list Z :=
  alter (fun w => Z.land w (not64 (bit_mask bit))) (word_index bit) bm.
Definition bitmap_test (bm : list Z) (bit : Z) : bool := negb (Z.land (word_of bm bit) (bit_mask bit) =? 0).
Definition bitmap_toggle (bm : list Z) (bit : Z) : list Z := alter (fun w => Z.lxor w (bit_mask bit)) (word_index bit) bm.

(** [for (i = start; i < start + len; i++)] *)
Fixpoint range_loop (f : list Z -> Z -> list Z) (n : nat) (i : Z) (bm : list Z) : list Z :=
  match n with O => bm | S n => range_loop f n (i + 1) (f bm i) end.
Definition bitmap_set_range (bm : list Z) (start len : Z) : list Z :=
  range_loop bitmap_set (Z.to_nat (u64 (start + len) - start)) start bm.
Definition bitmap_clr_range (bm : list Z) (start len : Z) : list Z :=
  range_loop bitmap_clr (Z.to_nat (u64 (start + len) - start)) start bm.

Definition fill_words (v : Z) (bm : list Z) (w : nat) : list Z :=
  list_inserts 0 (replicate (Nat.min w (length bm)) v) bm.
Definition bitmap_zero (bm : list Z) (n_bits : Z) : list Z := fill_words 0 bm (Z.to_nat (BITMAP_WORDS n_bits)).
Definition bitmap_fill (bm : list Z) (n_bits : Z) : list Z :=
  let w := BITMAP_WORDS n_bits in
  let bm := fill_words (not64 0) bm (Z.to_nat w) in
  let tail := Z.land n_bits 63 in
  if tail =? 0 then bm else <[Z.to_nat (w - 1) := Z.shiftl 1 tail - 1]> bm.

(** The loops over the words; [ws] are the words from index [i] on. *)
Fixpoint first_bit_loop (inv : bool) (ws : list Z) (i n_bits : Z) : Z :=
  match ws with
  | [] => n_bits
  | w :: ws =>
    let v := if inv then not64 w else w in
    if v =? 0 then first_bit_loop inv ws (i + 1) n_bits
    else let bit := i * 64 + Bitops.ctz64 v in if bit <? n_bits then bit else n_bits
  end.
Definition words (bm : list Z) (n_bits : Z) : list Z := take (Z.to_nat (BITMAP_WORDS n_bits)) bm.
Definition bitmap_find_first_zero (bm : list Z) (n_bits : Z) : Z := first_bit_loop true (words bm n_bits) 0 n_bits.
Definition bitmap_find_first_set (bm : list Z) (n_bits : Z) : Z := first_bit_loop false (words bm n_bits) 0 n_bits.

(** The bit-by-bit search from [bit] on, over [n] bits. *)
Fixpoint next_loop (want : bool) (bm : list Z) (n : nat) (bit n_bits : Z) : Z :=
  match n with
  | O => n_bits
  | S n => if eqb (bitmap_test bm bit) want then bit else next_loop want bm n (bit + 1) n_bits
  end.
Definition bitmap_find_next_zero (bm : list Z) (n_bits start : Z) : Z :=
  next_loop false bm (Z.to_nat (n_bits - start)) start n_bits.
Definition bitmap_find_next_set (bm : list Z) (n_bits start : Z) : Z :=
  next_loop true bm (Z.to_nat (n_bits - start)) start n_bits.

(** The current run of free bits is [start, start + len). *)
Fixpoint free_run_loop (bm : list Z) (n : nat) (i start len run n_bits : Z) : Z :=
  match n with
  | O => n_bits
  | S n =>
    if bitmap_test bm i then free_run_loop bm n (i + 1) start 0 run n_bits
    else
      let start := if len =? 0 then i else start in
      if len + 1 =? run then start else free_run_loop bm n (i + 1) start (len + 1) run n_bits
  end.
Definition bitmap_find_free_run (bm : list Z) (n_bits run : Z) : Z :=
  free_run_loop bm (Z.to_nat n_bits) 0 0 0 run n_bits.

Definition bitmap_count_set (bm : list Z) (n_bits : Z) : Z :=
  fold_left (fun c w => c + Bitops.popcount64 w) (words bm n_bits) 0.
Definition bitmap_count_zero (bm : list Z) (n_bits : Z) : Z := u64 (n_bits - bitmap_count_set bm n_bits).

(** ** Single bits *)

(** Bit [i] of the array. *)
Definition bit_at (bm : list Z) (i : Z) : bool := Z.testbit (default 0 (bm !! Z.to_nat (i / 64))) (i mod 64).
(** An array of [u64] words with room for the bits below [n_bits]. *)
Definition bitmap_ok (bm : list Z) (n_bits : Z) : Prop :=
  0 <= n_bits < 2 ^ 64 - 64 /\ n_bits <= 64 * Z.of_nat (length bm) /\ Forall in_u64 bm.

Lemma word_index_div i : 0 <= i -> word_index i = Z.to_nat (i / 64).
Proof. intros. unfold word_index. by rewrite Z.shiftr_div_pow2 by done. Qed.
Lemma bit_mask_pow i : 0 <= i -> bit_mask i = 2 ^ (i mod 64).
Proof. intros. unfold bit_mask. rewrite Z.shiftl_1_l. f_equal. by apply (land_ones_mod i 6). Qed.

Lemma bitmap_test_at bm i : 0 <= i -> bitmap_test bm i = bit_at bm i.
Proof.
  intros Hi. unfold bitmap_test, bit_at, word_of. rewrite word_index_div, bit_mask_pow by done.
  pose proof (Z.mod_pos_bound i 64). destruct (Z.testbit _ (i mod 64)) eqn:E.
  - apply negb_true_iff, Z.eqb_neq. intros H0. apply (f_equal (fun z => Z.testbit z (i mod 64))) in H0.
    rewrite Z.land_spec, E, Z.pow2_bits_true, Z.bits_0 in H0 by lia. done.
  - apply negb_false_iff, Z.eqb_eq, Z.bits_inj'. intros j Hj. rewrite Z.land_spec, Z.bits_0, Z.pow2_bits_eqb by lia.
    destruct (Z.eqb_spec (i mod 64) j) as [<-|]; [by rewrite E|apply andb_false_r].
Qed.

(** What one of the updates does to every bit: [g] is applied to the bit
    addressed, the others stay. *)
Lemma alter_bit (f : Z -> Z) (g : bool -> bool) bm i j :
  (forall w k, 0 <= k < 64 -> Z.testbit (f w) k = if k =? i mod 64 then g (Z.testbit w k) else Z.testbit w k) ->
  0 <= i < 64 * Z.of_nat (length bm) -> 0 <= j ->
  bit_at (alter f (word_index i) bm) j = if j =? i then g (bit_at bm j) else bit_at bm j.
Proof.
  intros Hf Hi Hj. unfold bit_at. rewrite word_index_div by lia.
  pose proof (Z.mod_pos_bound j 64). destruct (decide (j / 64 = i / 64)) as [E|E].
  - rewrite E, list_lookup_alter_eq. destruct (lookup_lt_is_Some_2 bm (Z.to_nat (i / 64))) as [w Hw]; [zlia|].
    rewrite Hw. cbn [fmap option_fmap option_map default]. unfold id. rewrite Hf by lia.
    destruct (Z.eqb_spec (j mod 64) (i mod 64)), (Z.eqb_spec j i); try done; zlia.
  - rewrite list_lookup_alter_ne by (intros F; apply E; zlia).
    destruct (Z.eqb_spec j i) as [->|]; [done|done].
Qed.

Lemma bitmap_set_at bm i j :
  0 <= i < 64 * Z.of_nat (length bm) -> 0 <= j -> bit_at (bitmap_set bm i) j = (j =? i) || bit_at bm j.
Proof.
  intros Hi Hj. unfold bitmap_set. rewrite (alter_bit _ (fun _ => true)); [by destruct (j =? i)| |done|done].
  intros w k Hk. rewrite Z.lor_spec, bit_mask_pow, Z.pow2_bits_eqb by zlia. rewrite (Z.eqb_sym k).
  destruct (_ =? k); [apply orb_true_r|apply orb_false_r].
Qed.

Lemma bitmap_clr_at bm i j :
  0 <= i < 64 * Z.of_nat (length bm) -> 0 <= j -> bit_at (bitmap_clr bm i) j = negb (j =? i) && bit_at bm j.
Proof.
  intros Hi Hj. unfold bitmap_clr. rewrite (alter_bit _ (fun _ => false)); [by destruct (j =? i)| |done|done].
  intros w k Hk. pose proof (Z.mod_pos_bound i 64). rewrite Z.land_spec, bit_mask_pow by lia.
  replace (not64 (2 ^ (i mod 64))) with (Z.lxor (Z.ones 64) (2 ^ (i mod 64))).
  - rewrite Z.lxor_spec, Z.ones_spec_low, Z.pow2_bits_eqb, (Z.eqb_sym k) by lia.
    destruct (_ =? k); cbn; [apply andb_false_r|apply andb_true_r].
  - unfold not64. change 18446744073709551615 with (Z.ones 64). rewrite Z.sub_nocarry_ldiff.
    + apply Z.bits_inj'. intros n Hn. rewrite Z.lxor_spec, Z.ldiff_spec, Z.pow2_bits_eqb by lia.
      destruct (Z.eqb_spec (i mod 64) n) as [<-|]; [rewrite Z.ones_spec_low by lia; done|].
      by rewrite xorb_false_r, andb_true_r.
    + apply Z.bits_inj'. intros n Hn. rewrite Z.ldiff_spec, Z.bits_0, Z.pow2_bits_eqb by lia.
      destruct (Z.eqb_spec (i mod 64) n) as [<-|]; [rewrite Z.ones_spec_low by lia; done|done].
Qed.

(** ** Searches *)

(** [r] is the first position from [lo] on whose bit is [want], or [n]. *)
Definition first_from (bm : list Z) (want : bool) (lo n r : Z) : Prop :=
  (lo <= r < n /\ bit_at bm r = want \/ r = n) /\ forall i, lo <= i < Z.min r n -> bit_at bm i = negb want.

Lemma first_from_unique bm want lo n r r' : lo <= n -> first_from bm want lo n r -> first_from bm want lo n r' -> r = r'.
Proof.
  intros Hn [H1 H2] [H1' H2'].
  assert (Hb : bit_at bm (Z.min r r') = want -> bit_at bm (Z.min r r') = negb want -> False) by (intros -> ?; by destruct want).
  destruct (Z.lt_trichotomy r r') as [?|[?|?]]; [|done|]; exfalso.
  - rewrite Z.min_l in Hb by lia. destruct H1 as [[? E]|?]; [|lia]. apply Hb; [done|]. apply H2'. lia.
  - rewrite Z.min_r in Hb by lia. destruct H1' as [[? E]|?]; [|lia]. apply Hb; [done|]. apply H2. lia.
Qed.

Lemma next_loop_ok want bm n bit :
  0 <= bit -> first_from bm want bit (bit + Z.of_nat n) (next_loop want bm n bit (bit + Z.of_nat n)).
Proof.
  revert bit. induction n as [|n IH]; intros bit Hb; cbn [next_loop]; [split; [right; lia|lia]|].
  rewrite bitmap_test_at by done. destruct (eqb_spec (bit_at bm bit) want) as [E|E].
  - split; [left; split; [lia|done]|lia].
  - specialize (IH (bit + 1)). replace (bit + 1 + Z.of_nat n) with (bit + Z.of_nat (S n)) in IH by lia.
    destruct IH as [H1 H2]; [lia|]. split.
    + destruct H1 as [[? ?]|?]; [left; split; [lia|done]|by right].
    + intros i Hi. destruct (Z.eq_dec i bit) as [->|]; [by destruct (bit_at bm bit), want|]. apply H2. lia.
Qed.

Lemma bitmap_find_next_ok want bm n_bits start :
  0 <= start <= n_bits -> first_from bm want start n_bits (next_loop want bm (Z.to_nat (n_bits - start)) start n_bits).
Proof. intros Hs. pose proof (next_loop_ok want bm (Z.to_nat (n_bits - start)) start) as H. rewrite Z2Nat.id in H by lia. replace (start + (n_bits - start)) with n_bits in H by lia. apply H. lia. Qed.

Lemma inv_word_bit (w i : Z) : in_u64 w -> 0 <= i < 64 -> Z.testbit (not64 w) i = negb (Z.testbit w i).
Proof.
  intros Hw Hi. unfold not64. replace (18446744073709551615 - w) with (Z.lnot w + 1 * 2 ^ 64) by (unfold Z.lnot; lia).
  rewrite <- (Z.mod_pow2_bits_low _ 64) by lia. rewrite Z_mod_plus_full, Z.mod_pow2_bits_low by lia.
  apply Z.lnot_spec. lia.
Qed.

(** The word loop reads 64 bits a step and agrees with the bit loop. *)
Lemma first_bit_loop_ok inv ws pre n_bits :
  Forall in_u64 ws -> n_bits <= 64 * Z.of_nat (length pre + length ws) ->
  first_from (pre ++ ws) (negb inv) (64 * Z.of_nat (length pre)) n_bits
    (first_bit_loop inv ws (Z.of_nat (length pre)) n_bits).
Proof.
  intros Hws. revert pre. induction Hws as [|w ws Hw Hws IH]; intros pre Hn; cbn [first_bit_loop].
  - cbn [length] in Hn. split; [by right|lia].
  - set (v := if inv then not64 w else w). set (lo := 64 * Z.of_nat (length pre)).
    assert (Hbit : forall i, 0 <= i < 64 -> Z.testbit v i = xorb inv (bit_at (pre ++ w :: ws) (lo + i))).
    { intros i Hi. unfold bit_at. replace ((lo + i) mod 64) with i by zlia.
      replace ((lo + i) / 64) with (Z.of_nat (length pre)) by zlia.
      rewrite Nat2Z.id, list_lookup_middle by done. cbn [default]. unfold id, v.
      destruct inv; [by rewrite inv_word_bit by done|by rewrite xorb_false_l]. }
    assert (Hx : forall i, 0 <= i < 64 -> Z.testbit v i = false -> bit_at (pre ++ w :: ws) (lo + i) = negb (negb inv)).
    { intros i Hi E. rewrite Hbit in E by done. by destruct inv, (bit_at _ _). }
    assert (Hv : 0 <= v < 2 ^ 64) by (unfold v; destruct inv; word).
    destruct (Z.eqb_spec v 0) as [E|E].
    + specialize (IH (pre ++ [w])). rewrite length_app, <- app_assoc in IH. cbn [length app] in *.
      replace (Z.of_nat (length pre + 1)) with (Z.of_nat (length pre) + 1) in IH by lia.
      destruct IH as [H1 H2]; [lia|]. split; [destruct H1 as [[? ?]|?]; [left; split; [lia|done]|by right]|].
      intros i Hi. destruct (Z_lt_le_dec i (lo + 64)); [|apply H2; lia].
      replace i with (lo + (i - lo)) by lia. apply Hx; [lia|]. by rewrite E, Z.bits_0.
    + destruct (Builtin.ctz_spec v) as [Hc1 Hc2]; [lia|]. destruct (Builtin.ctz_bounds v 64) as [Hc0 Hc3]; [lia|].
      unfold Bitops.ctz64. set (c := Builtin.ctz v) in *.
      assert (Hlow : forall i, lo <= i < lo + c -> bit_at (pre ++ w :: ws) i = negb (negb inv)).
      { intros i Hi. replace i with (lo + (i - lo)) by lia. apply Hx; [lia|]. apply Hc2. lia. }
      replace (Z.of_nat (length pre) * 64 + c) with (lo + c) by lia.
      destruct (Z.ltb_spec (lo + c) n_bits).
      * split; [|intros i Hi; apply Hlow; lia]. left. split; [lia|]. rewrite Hbit in Hc1 by lia.
        by destruct inv, (bit_at _ _).
      * split; [by right|]. intros i Hi. apply Hlow. lia.
Qed.

Lemma words_room bm n_bits :
  bitmap_ok bm n_bits -> n_bits <= 64 * Z.of_nat (length (words bm n_bits)) /\ Forall in_u64 (words bm n_bits).
Proof.
  intros (Hn & Hl & Hf). unfold words, BITMAP_WORDS. rewrite u64_id by word. split; [|by apply Forall_take].
  rewrite length_take. zlia.
Qed.

Lemma first_from_take bm want n_bits k r :
  first_from (take k bm) want 0 n_bits r -> n_bits <= 64 * Z.of_nat k -> first_from bm want 0 n_bits r.
Proof.
  intros [H1 H2] Hk.
  assert (E : forall i, 0 <= i < n_bits -> bit_at (take k bm) i = bit_at bm i).
  { intros i Hi. unfold bit_at. by rewrite lookup_take_lt by zlia. }
  split; [destruct H1 as [[? H1]|?]; [left; split; [done|by rewrite <- E]|by right]|].
  intros i Hi. rewrite <- E by lia. by apply H2.
Qed.

Lemma find_first_ok inv bm n_bits :
  bitmap_ok bm n_bits -> first_from bm (negb inv) 0 n_bits (first_bit_loop inv (words bm n_bits) 0 n_bits).
Proof.
  intros Hok. destruct (words_room bm n_bits Hok) as [Hr Hf].
  pose proof (first_bit_loop_ok inv (words bm n_bits) [] n_bits Hf Hr) as H. cbn [app length] in H.
  apply first_from_take in H; [done|]. unfold words in Hr. rewrite length_take in Hr. lia.
Qed.

(** ** A run of free bits *)

(** The bits below [i] have been looked at: the last [len] of them are free,
    and no run of [run] free bits ends at or before [i]. *)
Lemma free_run_loop_ok bm n i start len run n_bits :
  0 < run -> 0 <= len < run -> len <= i -> n_bits = i + Z.of_nat n ->
  (0 < len -> start = i - len) -> (forall j, i - len <= j < i -> bit_at bm j = false) ->
  (len = i \/ bit_at bm (i - len - 1) = true) ->
  (forall a, 0 <= a -> a + run <= i -> exists j, a <= j < a + run /\ bit_at bm j = true) ->
  let r := free_run_loop bm n i start len run n_bits in
  (r = n_bits \/ (0 <= r /\ r + run <= n_bits /\ forall j, r <= j < r + run -> bit_at bm j = false)) /\
  (forall a, 0 <= a -> a < r -> a + run <= n_bits -> exists j, a <= j < a + run /\ bit_at bm j = true).
Proof.
  intros Hrun. revert i start len. induction n as [|n IH]; intros i start len Hl Hi Hn Hs Hfree Hb Hno; cbn [free_run_loop].
  - split; [by left|]. intros a Ha _ Har. apply Hno; lia.
  - rewrite bitmap_test_at by lia. destruct (bit_at bm i) eqn:E.
    + apply IH; try lia.
      * right. by replace (i + 1 - 0 - 1) with i by lia.
      * intros a Ha Har. destruct (Z_lt_le_dec i (a + run)); [exists i; split; [lia|done]|by apply Hno; lia].
    + set (start' := if len =? 0 then i else start).
      assert (Hs' : start' = i - len) by (unfold start'; destruct (Z.eqb_spec len 0); [lia|apply Hs; lia]).
      assert (Hfree' : forall j, i - len <= j < i + 1 -> bit_at bm j = false).
      { intros j Hj. destruct (Z.eq_dec j i) as [->|]; [done|]. apply Hfree. lia. }
      assert (Hno' : len + 1 < run -> forall a, 0 <= a -> a + run <= i + 1 -> exists j, a <= j < a + run /\ bit_at bm j = true).
      { intros Hlr a Ha Har. destruct (Z_lt_le_dec i (a + run)); [|by apply Hno; lia].
        destruct Hb as [->|Hb]; [lia|]. exists (i - len - 1). split; [lia|done]. }
      destruct (Z.eqb_spec (len + 1) run) as [Er|Er].
      * rewrite Hs'. split; [right; split; [lia|]; split; [lia|]; intros j Hj; apply Hfree'; lia|].
        intros a Ha Har _. destruct (Z_lt_le_dec i (a + run)); [|by apply Hno; lia]. lia.
      * apply IH; try lia.
        -- intros j Hj. apply Hfree'. lia.
        -- destruct Hb as [->|Hb]; [by left|right]. by replace (i + 1 - (len + 1) - 1) with (i - len - 1) by lia.
        -- apply Hno'. lia.
Qed.

(** ** Counting *)

(** How many of [f 0], ..., [f (n - 1)] hold. *)
Fixpoint count (f : Z -> bool) (n : nat) : Z := match n with O => 0 | S n => count f n + b2z (f (Z.of_nat n)) end.

Lemma count_ext f g n : (forall i, 0 <= i < Z.of_nat n -> f i = g i) -> count f n = count g n.
Proof. induction n as [|n IH]; intros H; cbn [count]; [done|]. rewrite IH, H; [done|lia|]. intros i Hi. apply H. lia. Qed.

Lemma count_app f n m : count f (n + m) = count f n + count (fun i => f (Z.of_nat n + i)) m.
Proof.
  induction m as [|m IH]; [rewrite Nat.add_0_r; cbn; lia|]. rewrite Nat.add_succ_r. cbn [count].
  rewrite IH, Nat2Z.inj_add. lia.
Qed.

Lemma count_false f n : (forall i, 0 <= i < Z.of_nat n -> f i = false) -> count f n = 0.
Proof. induction n as [|n IH]; intros H; cbn [count]; [done|]. rewrite IH, H; [done|lia|]. intros i Hi. apply H. lia. Qed.

Lemma popcount_double w : 0 <= w -> Builtin.popcount w = b2z (Z.testbit w 0) + Builtin.popcount (Z.div2 w).
Proof. destruct w as [|[p|p|]|]; intros; cbn; lia. Qed.

Lemma popcount_count k w : 0 <= w < 2 ^ Z.of_nat k -> Builtin.popcount w = count (Z.testbit w) k.
Proof.
  revert w. induction k as [|k IH]; intros w Hw.
  - assert (w = 0) by (cbn in Hw; lia). by subst.
  - rewrite popcount_double by lia. change (S k) with (1 + k)%nat. rewrite count_app. cbn [count]. rewrite IH.
    + change (Z.of_nat 0) with 0. f_equal. apply count_ext. intros i Hi. rewrite Z.div2_spec, Z.shiftr_spec by lia. f_equal. lia.
    + rewrite Nat2Z.inj_succ, Z.pow_succ_r in Hw by lia. rewrite Z.div2_div. zlia.
Qed.

Lemma count_words_ok ws pre c :
  Forall in_u64 ws ->
  fold_left (fun c w => c + Bitops.popcount64 w) ws c =
  c + count (fun i => bit_at (pre ++ ws) (64 * Z.of_nat (length pre) + i)) (64 * length ws).
Proof.
  intros Hws. revert pre c. induction Hws as [|w ws Hw Hws IH]; intros pre c; cbn [fold_left length].
  - rewrite Nat.mul_0_r. cbn. lia.
  - rewrite (IH (pre ++ [w])), <- app_assoc, length_app. cbn [length app].
    replace (64 * S (length ws))%nat with (64 + 64 * length ws)%nat by lia. rewrite count_app.
    unfold Bitops.popcount64. rewrite (popcount_count 64 w) by apply Hw.
    rewrite (count_ext (Z.testbit w) (fun i => bit_at (pre ++ w :: ws) (64 * Z.of_nat (length pre) + i)) 64).
    + rewrite (count_ext (fun i => bit_at _ (64 * Z.of_nat (length pre + 1) + i))
        (fun i => bit_at (pre ++ w :: ws) (64 * Z.of_nat (length pre) + (Z.of_nat 64 + i)))).
      * by rewrite <- Z.add_assoc.
      * intros i Hi. f_equal. lia.
    + intros i Hi. unfold bit_at. replace ((64 * Z.of_nat (length pre) + i) mod 64) with i by zlia.
      replace ((64 * Z.of_nat (length pre) + i) / 64) with (Z.of_nat (length pre)) by zlia.
      by rewrite Nat2Z.id, list_lookup_middle by done.
Qed.

Lemma bitmap_count_ok bm n_bits :
  bitmap_ok bm n_bits -> (forall i, n_bits <= i -> bit_at bm i = false) ->
  bitmap_count_set bm n_bits = count (bit_at bm) (Z.to_nat n_bits).
Proof.
  intros Hok Hpad. destruct (words_room bm n_bits Hok) as [Hr Hf]. unfold bitmap_count_set.
  rewrite (count_words_ok _ [] 0 Hf). cbn [app length]. rewrite Z.add_0_l.
  set (n := Z.to_nat n_bits). assert (0 <= n_bits) by apply Hok.
  replace (64 * length (words bm n_bits))%nat with (n + (64 * length (words bm n_bits) - n))%nat by lia.
  rewrite count_app, (count_false (fun i => bit_at _ (_ + (_ + i)))).
  - rewrite Z.add_0_r. apply count_ext. intros i Hi. rewrite Z.mul_0_r, Z.add_0_l.
    unfold bit_at, words in *. rewrite length_take in Hr. by rewrite lookup_take_lt by zlia.
  - intros i Hi. rewrite Z.mul_0_r, Z.add_0_l. rewrite <- (Hpad (Z.of_nat n + i)) by lia. unfold bit_at, words in *.
    rewrite length_take in Hi. by rewrite lookup_take_lt by zlia.
Qed.

(** [searches and counts] of libc/bitmap.h: on an array with room for the
    bits below [n_bits], the searches that skip whole words return what the
    bit-by-bit searches from 0 return; these return the first position from
    [start] on with the bit wanted, or [n_bits]; the search for a run returns
    the lowest position at which [run > 0] free bits start, or [n_bits] when
    there is none; the count is the number of set bits when the padding bits
    are zero. *)
Theorem bitmap_search_correct bm n_bits start run :
  bitmap_ok bm n_bits -> 0 <= start <= n_bits -> 0 < run ->
  bitmap_find_first_zero bm n_bits = bitmap_find_next_zero bm n_bits 0 /\
  bitmap_find_first_set bm n_bits = bitmap_find_next_set bm n_bits 0 /\
  first_from bm false start n_bits (bitmap_find_next_zero bm n_bits start) /\
  first_from bm true start n_bits (bitmap_find_next_set bm n_bits start) /\
  (let r := bitmap_find_free_run bm n_bits run in
   (r = n_bits \/ (0 <= r /\ r + run <= n_bits /\ forall j, r <= j < r + run -> bit_at bm j = false)) /\
   (forall a, 0 <= a -> a < r -> a + run <= n_bits -> exists j, a <= j < a + run /\ bit_at bm j = true)) /\
  ((forall i, n_bits <= i -> bit_at bm i = false) ->
   bitmap_count_set bm n_bits = count (bit_at bm) (Z.to_nat n_bits)).
Proof.
  intros Hok Hs Hrun.
  assert (E : forall inv, first_bit_loop inv (words bm n_bits) 0 n_bits = next_loop (negb inv) bm (Z.to_nat (n_bits - 0)) 0 n_bits).
  { intros inv. apply (first_from_unique bm (negb inv) 0 n_bits); [lia|by apply find_first_ok|]. apply bitmap_find_next_ok. lia. }
  pose proof (E true) as Et. pose proof (E false) as Ef. cbn [negb] in Et, Ef.
  split; [exact Et|]. split; [exact Ef|]. split; [by apply bitmap_find_next_ok|]. split; [by apply bitmap_find_next_ok|].
  split; [|by apply bitmap_count_ok].
  apply free_run_loop_ok; try lia; intros; lia.
Qed.

Lemma bitmap_search_correct_witness :
  bitmap_ok [0xFFFFFFFFFFFFFFFF; 0x37] 70 /\ 0 <= 3 <= 70 /\ 0 < 2 /\
  bitmap_find_first_zero [0xFFFFFFFFFFFFFFFF; 0x37] 70 = 67 /\
  bitmap_find_free_run [0xFFFFFFFFFFFFFFFF; 0x37] 70 2 = 70 /\
  bitmap_count_set [0xFFFFFFFFFFFFFFFF; 0x37] 70 = 69 /\
  bitmap_find_first_zero [0xFFFFFFFFFFFFFFFF; 0x37] 70 = bitmap_find_next_zero [0xFFFFFFFFFFFFFFFF; 0x37] 70 0.
Proof.
  assert (bitmap_ok [0xFFFFFFFFFFFFFFFF; 0x37] 70) as Hok.
  { split; [lia|]. split; [cbn; lia|]. repeat constructor; word. }
  split; [done|]. split; [lia|]. split; [lia|]. split; [reflexivity|]. split; [reflexivity|]. split; [reflexivity|].
  apply (bitmap_search_correct _ 70 3 2); [done|lia|lia].
Defined.
