(* ===== verification/Dlist.v ===== *)
(** * Intrusive doubly-linked lists

    Models libc/list.h. A [list_head_t *] is an address; memory maps the
    addresses of valid nodes to their two pointers, and an access through any
    other pointer is [None]. The theorems relate the pointer operations to
    operations on the sequence of nodes that a list head carries. *)

From S2P Require Import Prelude.

Record list_head_t := Node { next : Z; prev : Z }.
Abbreviation heap := (gmap Z list_head_t).

(** [p->next = v] and [p->prev = v]. *)
Definition set_next (p v : Z) (m : heap) : option heap := n ← m !! p; Some (<[p := Node v (prev n)]> m).
Definition set_prev (p v : Z) (m : heap) : option heap := n ← m !! p; Some (<[p := Node (next n) v]> m).

Definition list_init (h : Z) (m : heap) : option heap := m ← set_next h h m; set_prev h h m.
Definition list_empty (h : Z) (m : heap) : option bool := n ← m !! h; Some (next n =? h).

Definition __list_add (n prv nxt : Z) (m : heap) : option heap :=
  m ← set_prev nxt n m; m ← set_next n nxt m; m ← set_prev n prv m; set_next prv n m.
Definition list_add (n head : Z) (m : heap) : option heap :=
  h ← m !! head; __list_add n head (next h) m.
Definition list_add_tail (n head : Z) (m : heap) : option heap :=
  h ← m !! head; __list_add n (prev h) head m.

(** Each line reads the node again, as the code does. *)
Definition list_del (n : Z) (m : heap) : option heap :=
  x ← m !! n; m ← set_next (prev x) (next x) m;
  x ← m !! n; m ← set_prev (next x) (prev x) m;
  m ← set_next n 0 m; set_prev n 0 m.
Definition list_del_init (n : Z) (m : heap) : option heap := m ← list_del n m; list_init n m.
Definition list_move (n head : Z) (m : heap) : option heap := m ← list_del n m; list_add n head m.

(** The walk from [p] back to [head]; [None] also when it does not get there
    within [fuel] steps. *)
Fixpoint count_from (fuel : nat) (p head c : Z) (m : heap) : option Z :=
  match fuel with
  | O => None
  | S fuel => if p =? head then Some c else n ← m !! p; count_from fuel (next n) head (c + 1) m
  end.
Definition list_count (fuel : nat) (head : Z) (m : heap) : option Z := h ← m !! head; count_from fuel (next h) head 0 m.

(** ** The sequence a list head carries *)

Definition linked (m : heap) (p q : Z) : Prop :=
  (exists n, m !! p = Some n /\ next n = q) /\ (exists n, m !! q = Some n /\ prev n = p).
Fixpoint path (m : heap) (l : list Z) : Prop :=
  match l with
  | p :: ((q :: _) as l') => linked m p q /\ path m l'
  | _ => True
  end.
(** Following [next] from [h] visits [xs] and returns to [h], and [prev] the
    same backwards. *)
Definition dlist (m : heap) (h : Z) (xs : list Z) : Prop := NoDup (h :: xs) /\ path m (h :: xs ++ [h]).

Lemma path_app m l1 x l2 : path m (l1 ++ x :: l2) <-> path m (l1 ++ [x]) /\ path m (x :: l2).
Proof.
  induction l1 as [|y l1 IH]; cbn [app]; [cbn; tauto|].
  destruct l1 as [|z l1]; cbn [app path] in *; tauto.
Qed.

(** A path depends on the [next] of all nodes but its last and on the [prev]
    of all but its first. *)
Lemma path_frame m m' l :
  path m l ->
  (forall p n, p ∈ removelast l -> m !! p = Some n -> exists n', m' !! p = Some n' /\ next n' = next n) ->
  (forall p n, p ∈ tail l -> m !! p = Some n -> exists n', m' !! p = Some n' /\ prev n' = prev n) ->
  path m' l.
Proof.
  induction l as [|p l IH]; [done|]. destruct l as [|q l]; [done|].
  intros [[(n & Hn & En) (k & Hk & Ek)] Hp] Hnext Hprev. split.
  - split.
    + destruct (Hnext p n) as (n' & ? & ?); [cbn; left|done|]. exists n'. split; [done|congruence].
    + destruct (Hprev q k) as (k' & ? & ?); [cbn; left|done|]. exists k'. split; [done|congruence].
  - apply IH; [done| |].
    + intros r n0 Hr. apply Hnext. cbn [removelast] in *. by right.
    + intros r n0 Hr. apply Hprev. cbn [tail] in *. by right.
Qed.

Lemma linked_fun m p q q' : linked m p q -> linked m p q' -> q = q'.
Proof. intros [(n & Hn & <-) _] [(n' & Hn' & <-) _]. congruence. Qed.

(** ** Insertion and removal in the middle of a path *)

Lemma set_next_ok p v m n : m !! p = Some n -> set_next p v m = Some (<[p := Node v (prev n)]> m).
Proof. intros H. unfold set_next. by rewrite H. Qed.
Lemma set_prev_ok p v m n : m !! p = Some n -> set_prev p v m = Some (<[p := Node (next n) v]> m).
Proof. intros H. unfold set_prev. by rewrite H. Qed.

(** What linking [n] between [p] and [q] leaves in memory ([p = q] for an
    empty list). *)
Lemma __list_add_ok n p q m np nq nn :
  m !! p = Some np -> m !! q = Some nq -> m !! n = Some nn -> n <> p -> n <> q ->
  exists m', __list_add n p q m = Some m' /\
    m' !! n = Some (Node q p) /\
    m' !! p = Some (Node n (if p =? q then n else prev np)) /\
    m' !! q = Some (Node (if p =? q then n else next nq) n) /\
    (forall r, r <> n -> r <> p -> r <> q -> m' !! r = m !! r).
Proof.
  intros Hp Hq Hn Hnp Hnq. unfold __list_add.
  rewrite (set_prev_ok q n m nq) by done. cbn [mbind option_bind].
  rewrite (set_next_ok n q _ nn) by (by rewrite lookup_insert_ne). cbn [mbind option_bind].
  rewrite (set_prev_ok n p _ (Node q (prev nn))) by (by rewrite lookup_insert_eq). cbn [mbind option_bind next prev].
  destruct (Z.eqb_spec p q) as [<-|Hpq].
  - rewrite (set_next_ok p n _ (Node (next nq) n)) by (rewrite !lookup_insert_ne by done; by rewrite lookup_insert_eq).
    eexists. split; [reflexivity|]. cbn [prev].
    repeat split; intros; repeat (rewrite lookup_insert_ne by done); rewrite ?lookup_insert_eq; try done.
  - rewrite (set_next_ok p n _ np) by (by rewrite !lookup_insert_ne by done).
    eexists. split; [reflexivity|].
    repeat split; intros; repeat (rewrite lookup_insert_ne by done); rewrite ?lookup_insert_eq; try done.
Qed.

Lemma removelast_mid {A} (l1 : list A) x l2 : l2 <> [] -> removelast (l1 ++ x :: l2) = l1 ++ x :: removelast l2.
Proof. intros H. rewrite removelast_app by done. by destruct l2. Qed.
Lemma tail_mid {A} (l1 : list A) p l : tail (l1 ++ p :: l) = tail (l1 ++ [p]) ++ l.
Proof. destruct l1; cbn; [done|]. by rewrite <- app_assoc. Qed.
Lemma removelast_in {A} (x : A) l : x ∈ removelast l -> x ∈ l.
Proof.
  induction l as [|y l IH]; [done|]. cbn. destruct l as [|z l]; [by intros ?%elem_of_nil|].
  intros [->|H]%elem_of_cons; [left|right; auto].
Qed.
Lemma tail_in {A} (x : A) l : x ∈ tail l -> x ∈ l.
Proof. destruct l; cbn; [done|]. by right. Qed.

(** An operation that changes only [p->next], [q->prev] and the node [n], with
    [p] before and [q] after a gap of a circular path, keeps both sides of it. *)
Lemma path_gap m m' l1 p mid q l2 n :
  let l := l1 ++ p :: mid ++ q :: l2 in
  NoDup (removelast l) -> NoDup (tail l) -> n ∉ l1 ++ [p] -> n ∉ q :: l2 ->
  (forall r k, r <> p -> r <> n -> m !! r = Some k -> exists k', m' !! r = Some k' /\ next k' = next k) ->
  (forall r k, r <> q -> r <> n -> m !! r = Some k -> exists k', m' !! r = Some k' /\ prev k' = prev k) ->
  path m (l1 ++ [p]) -> path m (q :: l2) -> path m' (l1 ++ [p]) /\ path m' (q :: l2).
Proof.
  cbv zeta. intros Hr Ht Hn1 Hn2 Hnext Hprev P1 P2.
  rewrite removelast_mid in Hr by (by destruct mid). rewrite removelast_app in Hr by done.
  rewrite tail_mid in Ht. apply NoDup_app in Hr as (_ & Hr1 & Hr2). apply NoDup_cons in Hr2 as [Hr2 _].
  apply NoDup_app in Ht as (_ & Ht1 & Ht2). apply NoDup_app in Ht2 as (_ & _ & Ht2). apply NoDup_cons in Ht2 as [Ht2 _].
  split; (eapply path_frame; [eassumption| |]).
  - intros r k Hin. rewrite removelast_last in Hin. apply Hnext.
    + intros ->. apply (Hr1 p Hin). left.
    + intros ->. apply Hn1, elem_of_app. by left.
  - intros r k Hin. apply Hprev.
    + intros ->. apply (Ht1 q Hin), elem_of_app. right. left.
    + intros ->. by apply Hn1, tail_in.
  - intros r k Hin. apply Hnext.
    + intros ->. apply Hr2, elem_of_app. by right.
    + intros ->. by apply Hn2, removelast_in.
  - intros r k Hin. cbn [tail] in Hin. apply Hprev.
    + by intros ->.
    + intros ->. apply Hn2. by right.
Qed.

(** The nodes of a circular path before and after a given split. *)
Lemma circle_nodup (h : Z) xs l : h :: xs ++ [h] = l -> NoDup (h :: xs) -> NoDup (removelast l) /\ NoDup (tail l).
Proof.
  intros <- Hd. change (h :: xs ++ [h]) with ((h :: xs) ++ [h]). rewrite removelast_last. split; [done|].
  cbn [app tail]. by rewrite (Permutation_app_comm xs [h]).
Qed.

Lemma path_node m l p : path m l -> (1 < length l)%nat -> p ∈ l -> is_Some (m !! p).
Proof.
  induction l as [|x l IH]; intros Hp Hl Hin; [by apply elem_of_nil in Hin|].
  destruct l as [|y l]; [cbn in Hl; lia|]. destruct Hp as [[(a & Ha & _) (b & Hb & _)] Hp].
  apply elem_of_cons in Hin as [->|Hin]; [done|]. destruct l as [|z l].
  - apply list_elem_of_singleton in Hin as ->. done.
  - apply IH; [done|cbn; lia|done].
Qed.

Lemma list_insert_ok m h xs l1 p q l2 n :
  dlist m h xs -> h :: xs ++ [h] = l1 ++ p :: q :: l2 -> is_Some (m !! n) -> n ∉ h :: xs ->
  exists m', __list_add n p q m = Some m' /\ path m' (l1 ++ p :: n :: q :: l2) /\
    (forall r, r ∉ n :: h :: xs -> m' !! r = m !! r).
Proof.
  intros [Hd Hp] E [nn Hn] Hnin. destruct (circle_nodup h xs _ E Hd) as [Hr Ht]. rewrite E in Hp.
  assert (Hin : forall r, r ∈ l1 ++ p :: q :: l2 -> r ∈ h :: xs).
  { intros r Hi. rewrite <- E in Hi. apply elem_of_cons in Hi as [->|Hi]; [left|].
    apply elem_of_app in Hi as [Hi|Hi%list_elem_of_singleton]; [by right|subst; left]. }
  assert (Hlen : (1 < length (l1 ++ p :: q :: l2))%nat) by (rewrite length_app; cbn; lia).
  assert (Hip : p ∈ l1 ++ p :: q :: l2) by (apply elem_of_app; right; left).
  assert (Hiq : q ∈ l1 ++ p :: q :: l2) by (apply elem_of_app; right; right; left).
  destruct (path_node m _ p Hp Hlen Hip) as [np Hnp]. destruct (path_node m _ q Hp Hlen Hiq) as [nq Hnq].
  assert (n <> p) by (intros ->; by apply Hnin, Hin). assert (n <> q) by (intros ->; by apply Hnin, Hin).
  destruct (__list_add_ok n p q m np nq nn) as (m' & Eq & Mn & Mp & Mq & Mo); [done..|].
  exists m'. split; [done|]. apply path_app in Hp as [P1 P2]. apply (path_app m [p]) in P2 as [_ P2].
  split; cycle 1.
  { intros r Hr'. apply Mo; intros ->; apply Hr'; [left|right; by apply Hin|right; by apply Hin]. }
  destruct (path_gap m m' l1 p [] q l2 n) as [Q1 Q2]; try done.
  - intros Hi. apply Hnin, Hin. apply elem_of_app in Hi as [Hi|Hi%list_elem_of_singleton]; apply elem_of_app; [by left|subst; right; left].
  - intros Hi. apply Hnin, Hin, elem_of_app. right. by right.
  - intros r k Hrp Hrn Hk. destruct (Z.eq_dec r q) as [->|]; [|exists k; by rewrite Mo].
    rewrite Hnq in Hk. injection Hk as ->. eexists. split; [exact Mq|]. by rewrite (proj2 (Z.eqb_neq p q)) by done.
  - intros r k Hrq Hrn Hk. destruct (Z.eq_dec r p) as [->|]; [|exists k; by rewrite Mo].
    rewrite Hnp in Hk. injection Hk as ->. eexists. split; [exact Mp|]. by rewrite (proj2 (Z.eqb_neq p q)) by done.
  - apply path_app. split; [done|]. cbn [path]. split; [split; eauto|]. split; [|done]. split; eauto.
Qed.

Lemma dlist_add_ok m h xs n :
  dlist m h xs -> is_Some (m !! n) -> n ∉ h :: xs ->
  exists m', list_add n h m = Some m' /\ dlist m' h (n :: xs) /\ (forall r, r ∉ n :: h :: xs -> m' !! r = m !! r).
Proof.
  intros Hd Hn Hnin. destruct (xs ++ [h]) as [|q l2] eqn:E; [by destruct xs|].
  destruct (list_insert_ok m h xs [] h q l2 n Hd) as (m' & Em & Hp & Hf); [by rewrite E|done|done|].
  exists m'. destruct Hd as [Hnd Hpath]. unfold list_add. rewrite E in Hpath. destruct Hpath as [[(x & Hx & Ex) _] _].
  rewrite Hx. cbn [mbind option_bind]. rewrite Ex. split; [done|]. split; [|done]. split.
  - apply NoDup_cons in Hnd as [Hh Hnd]. rewrite not_elem_of_cons in Hnin. destruct Hnin as [Hne Hnin].
    apply NoDup_cons. split; [rewrite elem_of_cons; intros [?|?]; [by subst|done]|]. by apply NoDup_cons.
  - cbn [app] in *. by rewrite E.
Qed.

Lemma dlist_add_tail_ok m h xs n :
  dlist m h xs -> is_Some (m !! n) -> n ∉ h :: xs ->
  exists m', list_add_tail n h m = Some m' /\ dlist m' h (xs ++ [n]) /\ (forall r, r ∉ n :: h :: xs -> m' !! r = m !! r).
Proof.
  intros Hd Hn Hnin. destruct (exists_last (l := h :: xs)) as (l1 & p & E); [done|].
  assert (E' : h :: xs ++ [h] = l1 ++ p :: h :: []) by (change (h :: xs ++ [h]) with ((h :: xs) ++ [h]); by rewrite E, <- app_assoc).
  destruct (list_insert_ok m h xs l1 p h [] n Hd E') as (m' & Em & Hp & Hf); [done..|].
  exists m'. destruct Hd as [Hnd Hpath]. unfold list_add_tail. rewrite E' in Hpath. apply path_app in Hpath as [_ [[_ (x & Hx & Ex)] _]].
  rewrite Hx. cbn [mbind option_bind]. rewrite Ex. split; [done|]. split; [|done]. split.
  - change (h :: xs ++ [n]) with ((h :: xs) ++ [n]). rewrite (Permutation_app_comm (h :: xs) [n]). by apply NoDup_cons.
  - replace (h :: (xs ++ [n]) ++ [h]) with (l1 ++ p :: n :: [h]); [done|].
    change (h :: (xs ++ [n]) ++ [h]) with (((h :: xs) ++ [n]) ++ [h]). rewrite E. by rewrite <- !app_assoc.
Qed.

Lemma list_del_raw n p q m np nq :
  m !! n = Some (Node q p) -> m !! p = Some np -> m !! q = Some nq -> n <> p -> n <> q ->
  exists m', list_del n m = Some m' /\
    m' !! n = Some (Node 0 0) /\
    m' !! p = Some (Node q (if p =? q then p else prev np)) /\
    m' !! q = Some (Node (if p =? q then q else next nq) p) /\
    (forall r, r <> n -> r <> p -> r <> q -> m' !! r = m !! r).
Proof.
  intros Hn Hp Hq Hnp Hnq. unfold list_del. rewrite Hn. cbn [mbind option_bind next prev].
  rewrite (set_next_ok p q m np) by done. cbn [mbind option_bind]. rewrite lookup_insert_ne, Hn by done. cbn [mbind option_bind next prev].
  destruct (Z.eqb_spec p q) as [<-|Hpq].
  - rewrite (set_prev_ok p p _ (Node p (prev np))) by (by rewrite lookup_insert_eq). cbn [mbind option_bind next].
    rewrite (set_next_ok n 0 _ (Node p p)) by (by rewrite !lookup_insert_ne by done). cbn [mbind option_bind prev].
    rewrite (set_prev_ok n 0 _ (Node 0 p)) by (by rewrite lookup_insert_eq). cbn [next].
    eexists. split; [reflexivity|].
    repeat split; intros; repeat (rewrite lookup_insert_ne by done); rewrite ?lookup_insert_eq; try done.
  - rewrite (set_prev_ok q p _ nq) by (by rewrite lookup_insert_ne). cbn [mbind option_bind].
    rewrite (set_next_ok n 0 _ (Node q p)) by (by rewrite !lookup_insert_ne by done). cbn [mbind option_bind prev].
    rewrite (set_prev_ok n 0 _ (Node 0 p)) by (by rewrite lookup_insert_eq). cbn [next].
    eexists. split; [reflexivity|].
    repeat split; intros; repeat (rewrite lookup_insert_ne by done); rewrite ?lookup_insert_eq; try done.
Qed.

(** A node of the list has a neighbour on either side. *)
Lemma circle_around (h : Z) a x b :
  exists l1 p q l2, h :: (a ++ x :: b) ++ [h] = l1 ++ p :: [x] ++ q :: l2 /\ h :: (a ++ b) ++ [h] = l1 ++ p :: q :: l2.
Proof.
  destruct (exists_last (l := h :: a)) as (l1 & p & E); [done|]. destruct (b ++ [h]) as [|q l2] eqn:Eb; [by destruct b|].
  exists l1, p, q, l2. split.
  - change (h :: (a ++ x :: b) ++ [h]) with (((h :: a) ++ x :: b) ++ [h]). rewrite E, <- !app_assoc. cbn [app]. by rewrite Eb.
  - change (h :: (a ++ b) ++ [h]) with (((h :: a) ++ b) ++ [h]). rewrite E, <- !app_assoc, Eb. done.
Qed.

Lemma dlist_del_ok m h a x b :
  dlist m h (a ++ x :: b) ->
  exists m', list_del x m = Some m' /\ dlist m' h (a ++ b) /\ m' !! x = Some (Node 0 0) /\
    (forall r, r ∉ h :: a ++ x :: b -> m' !! r = m !! r).
Proof.
  intros [Hd Hp]. destruct (circle_around h a x b) as (l1 & p & q & l2 & E & E').
  destruct (circle_nodup h _ _ E Hd) as [Hr Ht]. rewrite E in Hp. cbn [app] in E, Hp.
  assert (Hin : forall r, r ∈ l1 ++ p :: x :: q :: l2 -> r ∈ h :: a ++ x :: b).
  { intros r Hi. rewrite <- E in Hi. apply elem_of_cons in Hi as [->|Hi]; [left|].
    apply elem_of_app in Hi as [Hi|Hi%list_elem_of_singleton]; [by right|subst; left]. }
  assert (Hx1 : x ∉ l1 ++ [p]).
  { change (l1 ++ p :: [x] ++ q :: l2) with (l1 ++ [p] ++ x :: q :: l2) in Hr. rewrite app_assoc, removelast_mid in Hr by done.
    intros Hi. apply NoDup_app in Hr as (_ & Hr & _). apply (Hr x Hi). left. }
  assert (Hx2 : x ∉ q :: l2).
  { rewrite tail_mid in Ht. apply NoDup_app in Ht as (_ & _ & Ht). by apply NoDup_cons in Ht as [Ht _]. }
  apply path_app in Hp as [P1 P2]. destruct P2 as [L1 [L2 P2]].
  pose proof L1 as [(np & Hnp & Enp) (nx & Hnx & Enx)]. pose proof L2 as [(nx' & Hnx' & Enx') (nq & Hnq & Enq)].
  assert (nx' = nx) by congruence. subst nx'. destruct nx as [nn pp]; cbn in Enx, Enx'; subst nn pp.
  assert (x <> p) by (intros ->; apply Hx1, elem_of_app; right; left).
  assert (x <> q) by (intros ->; apply Hx2; left).
  destruct (list_del_raw x p q m np nq) as (m' & Em & Mx & Mp & Mq & Mo); [done..|].
  exists m'. split; [done|].
  assert (Hf : forall r, r ∉ h :: a ++ x :: b -> m' !! r = m !! r).
  { intros r Hr'. apply Mo; intros ->; apply Hr', Hin, elem_of_app; right; [right; left|left|right; right; left]. }
  split; [|done]. split.
  { apply NoDup_cons in Hd as [Hh Hd]. apply NoDup_cons. rewrite <- Permutation_middle in Hd. apply NoDup_cons in Hd as [_ Hd].
    split; [|done]. intros Hi. apply Hh. rewrite <- Permutation_middle. by right. }
  rewrite E'. destruct (path_gap m m' l1 p [x] q l2 x) as [Q1 Q2]; try done.
  - intros r k Hrp Hrn Hk. destruct (Z.eq_dec r q) as [->|]; [|exists k; by rewrite Mo].
    rewrite Hnq in Hk. injection Hk as ->. eexists. split; [exact Mq|]. by rewrite (proj2 (Z.eqb_neq p q)) by done.
  - intros r k Hrq Hrn Hk. destruct (Z.eq_dec r p) as [->|]; [|exists k; by rewrite Mo].
    rewrite Hnp in Hk. injection Hk as ->. eexists. split; [exact Mp|]. by rewrite (proj2 (Z.eqb_neq p q)) by done.
  - apply path_app. split; [done|]. cbn [path]. split; [split; eauto|done].
Qed.

Lemma count_from_ok m h xs p fuel c :
  path m (p :: xs ++ [h]) -> p <> h -> h ∉ xs -> (S (length xs) < fuel)%nat ->
  count_from fuel p h c m = Some (c + Z.of_nat (S (length xs))).
Proof.
  revert p fuel c. induction xs as [|x xs IH]; intros p fuel c Hp Hne Hh Hf; (destruct fuel as [|fuel]; [cbn in Hf; lia|]);
    cbn [count_from]; rewrite (proj2 (Z.eqb_neq p h)) by done; destruct Hp as [[(n & -> & En) _] Hp]; cbn [mbind option_bind]; rewrite En.
  - destruct fuel as [|fuel]; [cbn in Hf; lia|]. cbn [count_from]. by rewrite Z.eqb_refl.
  - apply not_elem_of_cons in Hh as [Hh1 Hh2]. rewrite IH; [f_equal; cbn [length]; lia|done|done|done|cbn [length] in Hf; lia].
Qed.

Lemma dlist_count_ok m h xs fuel :
  dlist m h xs -> (S (length xs) < fuel)%nat -> list_count fuel h m = Some (Z.of_nat (length xs)) /\ list_empty h m = Some (bool_decide (xs = [])).
Proof.
  intros [Hd Hp] Hf. apply NoDup_cons in Hd as [Hh Hd]. unfold list_count, list_empty.
  destruct xs as [|x xs]; cbn [app] in Hp; destruct Hp as [[(n & -> & En) _] Hp]; cbn [mbind option_bind]; rewrite En.
  - destruct fuel as [|fuel]; [lia|]. cbn [count_from]. by rewrite Z.eqb_refl.
  - apply not_elem_of_cons in Hh as [Hh1 Hh2]. split.
    + cbn [length] in *. rewrite (count_from_ok m h xs x fuel 0); [done|done|by apply not_eq_sym|done|lia].
    + by rewrite (proj2 (Z.eqb_neq x h)) by done.
Qed.

Lemma list_init_ok m h : is_Some (m !! h) -> list_init h m = Some (<[h := Node h h]> m).
Proof.
  intros [n Hn]. unfold list_init. rewrite (set_next_ok h h m n) by done. cbn [mbind option_bind].
  rewrite (set_prev_ok h h _ (Node h (prev n))) by (by rewrite lookup_insert_eq). by rewrite insert_insert_eq.
Qed.

(** The functions of libc/list.h: on a head [h] whose circular list carries
    the nodes [xs], adding a fresh node prepends or appends it, deleting a node
    takes it out wherever it is (the only one included) and clears its
    pointers, moving it puts it first, counting and testing for emptiness give
    the length, and no operation touches a node outside the list. *)
Theorem dlist_ops_correct m h xs :
  dlist m h xs ->
  (forall n, is_Some (m !! n) -> n ∉ h :: xs ->
     (exists m', list_add n h m = Some m' /\ dlist m' h (n :: xs) /\ forall r, r ∉ n :: h :: xs -> m' !! r = m !! r) /\
     (exists m', list_add_tail n h m = Some m' /\ dlist m' h (xs ++ [n]) /\ forall r, r ∉ n :: h :: xs -> m' !! r = m !! r)) /\
  (forall a x b, xs = a ++ x :: b ->
     (exists m', list_del x m = Some m' /\ dlist m' h (a ++ b) /\ m' !! x = Some (Node 0 0) /\
        forall r, r ∉ h :: xs -> m' !! r = m !! r) /\
     (exists m', list_del_init x m = Some m' /\ dlist m' h (a ++ b) /\ dlist m' x []) /\
     (exists m', list_move x h m = Some m' /\ dlist m' h (x :: a ++ b) /\ forall r, r ∉ h :: xs -> m' !! r = m !! r)) /\
  (forall fuel, (S (length xs) < fuel)%nat ->
     list_count fuel h m = Some (Z.of_nat (length xs)) /\ list_empty h m = Some (bool_decide (xs = []))).
Proof.
  intros Hd. split; [|split].
  - intros n Hn Hnin. split; [by apply dlist_add_ok|by apply dlist_add_tail_ok].
  - intros a x b ->. destruct (dlist_del_ok m h a x b Hd) as (m' & Em & Hd' & Hx & Hf).
    assert (Hxin : x ∉ h :: a ++ b).
    { destruct Hd as [Hnd _]. apply NoDup_cons in Hnd as [Hh Hnd]. rewrite <- Permutation_middle in Hh, Hnd.
      apply NoDup_cons in Hnd as [Hnd _]. rewrite elem_of_cons in Hh |- *. intros [->|?]; [|done]. apply Hh. by left. }
    split; [|split].
    + by exists m'.
    + unfold list_del_init. rewrite Em. cbn [mbind option_bind]. rewrite list_init_ok by done. eexists. split; [reflexivity|].
      split; [|split; [apply NoDup_singleton|]].
      * destruct Hd' as [Hnd Hp]. split; [done|]. eapply path_frame; [done| |];
          (intros r k Hr Hk; exists k; split; [|done]; rewrite lookup_insert_ne; [done|]; intros ->; apply Hxin).
        -- change (h :: (a ++ b) ++ [h]) with ((h :: a ++ b) ++ [h]) in Hr. by rewrite removelast_last in Hr.
        -- cbn [tail] in Hr. apply elem_of_app in Hr as [Hr|Hr%list_elem_of_singleton]; [by right|subst; left].
      * cbn. repeat split; exists (Node x x); by rewrite lookup_insert_eq.
    + destruct (dlist_add_ok m' h (a ++ b) x Hd') as (m2 & E2 & Hd2 & Hf2); [done|done|].
      exists m2. unfold list_move. rewrite Em. cbn [mbind option_bind]. split; [done|]. split; [done|].
      intros r Hr. rewrite <- Permutation_middle in Hr. rewrite Hf2, Hf; [done|by rewrite <- Permutation_middle|].
      rewrite !elem_of_cons in *. tauto.
  - intros fuel Hf. by apply dlist_count_ok.
Qed.

Lemma dlist_ops_correct_witness :
  let m := <[1 := Node 2 3]> (<[2 := Node 3 1]> (<[3 := Node 1 2]> (<[9 := Node 0 0]> ∅))) in
  dlist m 1 [2; 3] /\ list_count 5 1 m = Some 2 /\ (exists m', list_del 2 m = Some m' /\ dlist m' 1 [3]).
Proof.
  intros m. assert (Hd : dlist m 1 [2; 3]).
  { split; [apply (bool_decide_unpack _); by vm_compute|]. unfold m. cbn.
    repeat split; eexists; split; try reflexivity. }
  split; [done|]. destruct (dlist_ops_correct m 1 [2; 3] Hd) as (_ & Hdel & Hcount).
  split; [by apply (Hcount 5%nat); cbn; lia|].
  destruct (Hdel [] 2 [3] eq_refl) as [(m' & Em & Hd' & _) _]. exists m'. done.
Defined.
