(* ===== verification/Font.v ===== *)
(** * The fonts of the console

    The glyph tables of drivers/screen.c and drivers/font_cyr.c: 16 rows of
    8 pixels a glyph, the most significant bit on the left. *)

From S2P Require Import Prelude.

(** drivers/screen.c *)
Definition font8x16 : list (list Z) := [
  [0;0;0;0;0;0;0;0;0;0;0;0;0;0;0;0];
  [0;0;126;195;153;195;189;255;189;153;195;126;0;0;0;0];
  [0;0;126;255;219;255;195;129;195;219;255;126;0;0;0;0];
  [0;0;0;108;254;254;124;56;16;0;0;0;0;0;0;0];
  [0;0;0;16;56;124;254;124;56;16;0;0;0;0;0;0];
  [0;0;24;60;60;231;231;231;24;60;0;0;0;0;0;0];
  [0;0;0;24;60;126;255;255;126;24;60;0;0;0;0;0];
  [0;0;0;0;0;0;24;60;24;0;0;0;0;0;0;0];
  [255;255;255;255;255;255;231;195;231;255;255;255;255;255;255;255];
  [0;0;0;0;0;60;102;66;102;60;0;0;0;0;0;0];
  [255;255;255;255;255;195;153;189;153;195;255;255;255;255;255;255];
  [0;0;30;14;26;50;120;204;204;204;204;120;0;0;0;0];
  [0;0;60;102;102;102;60;24;126;24;24;24;0;0;0;0];
  [0;0;63;51;63;48;48;48;112;240;224;0;0;0;0;0];
  [0;0;127;99;127;99;99;99;103;231;230;192;0;0;0;0];
  [0;0;0;24;219;60;231;231;60;219;24;0;0;0;0;0];
  [0;0;128;224;248;254;248;224;128;0;0;0;0;0;0;0];
  [0;0;2;14;62;254;62;14;2;0;0;0;0;0;0;0];
  [0;0;24;60;126;24;24;126;60;24;0;0;0;0;0;0];
  [0;0;102;102;102;102;102;0;102;102;0;0;0;0;0;0];
  [0;0;127;219;219;219;123;27;27;27;27;27;0;0;0;0];
  [0;124;198;96;56;108;198;198;108;56;12;198;124;0;0;0];
  [0;0;0;0;0;0;254;254;254;0;0;0;0;0;0;0];
  [0;0;24;60;126;24;24;126;60;24;126;0;0;0;0;0];
  [0;0;24;60;126;24;24;24;24;24;0;0;0;0;0;0];
  [0;0;24;24;24;24;24;24;126;60;24;0;0;0;0;0];
  [0;0;0;0;24;12;254;12;24;0;0;0;0;0;0;0];
  [0;0;0;0;48;96;254;96;48;0;0;0;0;0;0;0];
  [0;0;0;0;192;192;192;254;0;0;0;0;0;0;0;0];
  [0;0;0;0;36;102;255;102;36;0;0;0;0;0;0;0];
  [0;0;0;16;56;124;254;254;0;0;0;0;0;0;0;0];
  [0;0;0;254;254;124;56;16;0;0;0;0;0;0;0;0];
  [0;0;0;0;0;0;0;0;0;0;0;0;0;0;0;0];
  [0;0;24;60;60;60;24;24;24;0;24;24;0;0;0;0];
  [0;102;102;102;36;0;0;0;0;0;0;0;0;0;0;0];
  [0;0;108;108;254;108;108;108;254;108;108;0;0;0;0;0];
  [24;24;124;198;194;192;124;6;6;134;198;124;24;24;0;0];
  [0;0;0;194;198;12;24;48;96;198;134;0;0;0;0;0];
  [0;0;56;108;108;56;118;220;204;204;204;118;0;0;0;0];
  [0;48;48;48;96;0;0;0;0;0;0;0;0;0;0;0];
  [0;0;12;24;48;48;48;48;48;48;24;12;0;0;0;0];
  [0;0;48;24;12;12;12;12;12;12;24;48;0;0;0;0];
  [0;0;0;0;0;102;60;255;60;102;0;0;0;0;0;0];
  [0;0;0;0;24;24;255;24;24;0;0;0;0;0;0;0];
  [0;0;0;0;0;0;0;0;0;56;56;24;48;0;0;0];
  [0;0;0;0;0;0;255;0;0;0;0;0;0;0;0;0];
  [0;0;0;0;0;0;0;0;0;56;56;56;0;0;0;0];
  [0;0;0;6;6;12;24;48;96;192;192;0;0;0;0;0];
  [0;0;124;198;206;222;246;230;198;198;198;124;0;0;0;0];
  [0;0;24;56;120;24;24;24;24;24;24;255;0;0;0;0];
  [0;0;124;198;6;6;12;56;112;192;198;254;0;0;0;0];
  [0;0;124;198;6;6;60;6;6;6;198;124;0;0;0;0];
  [0;0;12;28;60;108;204;254;12;12;12;30;0;0;0;0];
  [0;0;254;192;192;192;252;6;6;6;198;124;0;0;0;0];
  [0;0;56;96;192;192;252;198;198;198;198;124;0;0;0;0];
  [0;0;254;198;6;6;12;24;48;48;48;48;0;0;0;0];
  [0;0;124;198;198;198;124;198;198;198;198;124;0;0;0;0];
  [0;0;124;198;198;198;126;6;6;6;12;120;0;0;0;0];
  [0;0;0;0;56;56;0;0;56;56;0;0;0;0;0;0];
  [0;0;0;0;56;56;0;0;56;56;24;48;0;0;0;0];
  [0;0;0;6;12;24;48;96;48;24;12;6;0;0;0;0];
  [0;0;0;0;0;255;0;255;0;0;0;0;0;0;0;0];
  [0;0;0;96;48;24;12;6;12;24;48;96;0;0;0;0];
  [0;0;124;198;198;12;24;24;24;0;24;24;0;0;0;0];
  [0;0;124;198;198;222;222;222;220;192;192;124;0;0;0;0];
  [0;0;16;56;108;198;198;254;198;198;198;198;0;0;0;0];
  [0;0;252;102;102;102;124;102;102;102;102;252;0;0;0;0];
  [0;0;60;102;194;192;192;192;192;194;102;60;0;0;0;0];
  [0;0;248;108;102;102;102;102;102;102;108;248;0;0;0;0];
  [0;0;254;98;96;100;124;100;96;96;98;254;0;0;0;0];
  [0;0;254;102;98;100;124;100;96;96;96;240;0;0;0;0];
  [0;0;60;102;194;192;192;222;198;198;102;58;0;0;0;0];
  [0;0;198;198;198;198;254;198;198;198;198;198;0;0;0;0];
  [0;0;60;24;24;24;24;24;24;24;24;60;0;0;0;0];
  [0;0;30;12;12;12;12;12;204;204;204;120;0;0;0;0];
  [0;0;230;102;108;108;120;120;108;102;102;230;0;0;0;0];
  [0;0;240;96;96;96;96;96;96;98;102;254;0;0;0;0];
  [0;0;198;238;254;254;214;198;198;198;198;198;0;0;0;0];
  [0;0;198;230;246;254;222;206;198;198;198;198;0;0;0;0];
  [0;0;56;108;198;198;198;198;198;198;108;56;0;0;0;0];
  [0;0;252;102;102;102;124;96;96;96;96;240;0;0;0;0];
  [0;0;124;198;198;198;198;198;198;214;222;124;12;14;0;0];
  [0;0;252;102;102;102;124;108;102;102;102;230;0;0;0;0];
  [0;0;124;198;198;192;112;28;6;198;198;124;0;0;0;0];
  [0;0;255;219;153;24;24;24;24;24;24;60;0;0;0;0];
  [0;0;198;198;198;198;198;198;198;198;198;124;0;0;0;0];
  [0;0;198;198;198;198;198;198;198;108;56;16;0;0;0;0];
  [0;0;198;198;198;198;214;214;254;238;108;68;0;0;0;0];
  [0;0;198;198;108;124;56;56;124;108;198;198;0;0;0;0];
  [0;0;204;204;204;204;120;48;48;48;48;120;0;0;0;0];
  [0;0;254;198;134;12;24;48;96;194;198;254;0;0;0;0];
  [0;0;60;48;48;48;48;48;48;48;48;60;0;0;0;0];
  [0;0;0;192;192;96;48;24;12;6;6;0;0;0;0;0];
  [0;0;60;12;12;12;12;12;12;12;12;60;0;0;0;0];
  [0;16;56;108;198;0;0;0;0;0;0;0;0;0;0;0];
  [0;0;0;0;0;0;0;0;0;0;0;0;255;0;0;0];
  [0;48;24;12;0;0;0;0;0;0;0;0;0;0;0;0];
  [0;0;0;0;0;0;120;12;124;204;204;118;0;0;0;0];
  [0;0;224;96;96;120;108;102;102;102;102;124;0;0;0;0];
  [0;0;0;0;0;124;198;192;192;192;198;124;0;0;0;0];
  [0;0;28;12;12;60;108;204;204;204;204;118;0;0;0;0];
  [0;0;0;0;0;124;198;254;192;192;198;124;0;0;0;0];
  [0;0;28;54;50;48;124;48;48;48;48;120;0;0;0;0];
  [0;0;0;0;0;118;204;204;204;204;204;124;12;204;120;0];
  [0;0;224;96;96;108;118;102;102;102;102;230;0;0;0;0];
  [0;0;24;24;0;56;24;24;24;24;24;60;0;0;0;0];
  [0;0;6;6;0;14;6;6;6;6;6;6;102;102;60;0];
  [0;0;224;96;96;102;108;120;120;108;102;230;0;0;0;0];
  [0;0;56;24;24;24;24;24;24;24;24;60;0;0;0;0];
  [0;0;0;0;0;236;254;214;214;214;214;198;0;0;0;0];
  [0;0;0;0;0;220;102;102;102;102;102;102;0;0;0;0];
  [0;0;0;0;0;124;198;198;198;198;198;124;0;0;0;0];
  [0;0;0;0;0;220;102;102;102;102;102;124;96;96;240;0];
  [0;0;0;0;0;118;204;204;204;204;204;124;12;12;30;0];
  [0;0;0;0;0;220;118;98;96;96;96;240;0;0;0;0];
  [0;0;0;0;0;124;198;96;56;12;198;124;0;0;0;0];
  [0;0;16;48;48;252;48;48;48;48;54;28;0;0;0;0];
  [0;0;0;0;0;204;204;204;204;204;204;118;0;0;0;0];
  [0;0;0;0;0;198;198;198;198;198;108;56;0;0;0;0];
  [0;0;0;0;0;198;198;214;214;254;108;40;0;0;0;0];
  [0;0;0;0;0;198;108;56;56;56;108;198;0;0;0;0];
  [0;0;0;0;0;204;204;204;204;204;204;118;12;24;240;0];
  [0;0;0;0;0;254;204;24;48;96;198;254;0;0;0;0];
  [0;0;14;24;24;24;112;24;24;24;24;14;0;0;0;0];
  [0;0;24;24;24;24;0;24;24;24;24;24;0;0;0;0];
  [0;0;112;24;24;24;14;24;24;24;24;112;0;0;0;0];
  [0;0;118;220;0;0;0;0;0;0;0;0;0;0;0;0];
  [0;0;0;0;16;56;108;198;198;254;0;0;0;0;0;0];
  [0;0;126;66;66;66;66;66;66;66;66;126;0;0;0;0];
  [0;0;126;66;66;66;66;66;66;66;66;126;0;0;0;0];
  [0;0;126;66;66;66;66;66;66;66;66;126;0;0;0;0];
  [0;0;126;66;66;66;66;66;66;66;66;126;0;0;0;0];
  [0;0;126;66;66;66;66;66;66;66;66;126;0;0;0;0];
  [0;0;126;66;66;66;66;66;66;66;66;126;0;0;0;0];
  [0;0;126;66;66;66;66;66;66;66;66;126;0;0;0;0];
  [0;0;126;66;66;66;66;66;66;66;66;126;0;0;0;0];
  [0;0;126;66;66;66;66;66;66;66;66;126;0;0;0;0];
  [0;0;126;66;66;66;66;66;66;66;66;126;0;0;0;0];
  [0;0;126;66;66;66;66;66;66;66;66;126;0;0;0;0];
  [0;0;126;66;66;66;66;66;66;66;66;126;0;0;0;0];
  [0;0;126;66;66;66;66;66;66;66;66;126;0;0;0;0];
  [0;0;126;66;66;66;66;66;66;66;66;126;0;0;0;0];
  [0;0;126;66;66;66;66;66;66;66;66;126;0;0;0;0];
  [0;0;126;66;66;66;66;66;66;66;66;126;0;0;0;0];
  [0;0;126;66;66;66;66;66;66;66;66;126;0;0;0;0];
  [0;0;126;66;66;66;66;66;66;66;66;126;0;0;0;0];
  [0;0;126;66;66;66;66;66;66;66;66;126;0;0;0;0];
  [0;0;126;66;66;66;66;66;66;66;66;126;0;0;0;0];
  [0;0;126;66;66;66;66;66;66;66;66;126;0;0;0;0];
  [0;0;126;66;66;66;66;66;66;66;66;126;0;0;0;0];
  [0;0;126;66;66;66;66;66;66;66;66;126;0;0;0;0];
  [0;0;126;66;66;66;66;66;66;66;66;126;0;0;0;0];
  [0;0;126;66;66;66;66;66;66;66;66;126;0;0;0;0];
  [0;0;126;66;66;66;66;66;66;66;66;126;0;0;0;0];
  [0;0;126;66;66;66;66;66;66;66;66;126;0;0;0;0];
  [0;0;126;66;66;66;66;66;66;66;66;126;0;0;0;0];
  [0;0;126;66;66;66;66;66;66;66;66;126;0;0;0;0];
  [0;0;126;66;66;66;66;66;66;66;66;126;0;0;0;0];
  [0;0;126;66;66;66;66;66;66;66;66;126;0;0;0;0];
  [0;0;126;66;66;66;66;66;66;66;66;126;0;0;0;0];
  [0;0;126;66;66;66;66;66;66;66;66;126;0;0;0;0];
  [0;0;126;66;66;66;66;66;66;66;66;126;0;0;0;0];
  [0;0;126;66;66;66;66;66;66;66;66;126;0;0;0;0];
  [0;0;126;66;66;66;66;66;66;66;66;126;0;0;0;0];
  [0;0;126;66;66;66;66;66;66;66;66;126;0;0;0;0];
  [0;0;126;66;66;66;66;66;66;66;66;126;0;0;0;0];
  [0;0;126;66;66;66;66;66;66;66;66;126;0;0;0;0];
  [0;0;126;66;66;66;66;66;66;66;66;126;0;0;0;0];
  [0;0;126;66;66;66;66;66;66;66;66;126;0;0;0;0];
  [0;0;126;66;66;66;66;66;66;66;66;126;0;0;0;0];
  [0;0;126;66;66;66;66;66;66;66;66;126;0;0;0;0];
  [0;0;126;66;66;66;66;66;66;66;66;126;0;0;0;0];
  [0;0;126;66;66;66;66;66;66;66;66;126;0;0;0;0];
  [0;0;126;66;66;66;66;66;66;66;66;126;0;0;0;0];
  [0;0;126;66;66;66;66;66;66;66;66;126;0;0;0;0];
  [0;0;126;66;66;66;66;66;66;66;66;126;0;0;0;0];
  [85;170;85;170;85;170;85;170;85;170;85;170;85;170;85;170];
  [119;255;119;255;119;255;119;255;119;255;119;255;119;255;119;255];
  [255;170;255;85;255;170;255;85;255;170;255;85;255;170;255;85];
  [24;24;24;24;24;24;24;24;24;24;24;24;24;24;24;24];
  [24;24;24;24;24;248;24;248;24;24;24;24;24;24;24;24];
  [24;24;24;24;24;248;24;248;24;24;24;24;24;24;24;24];
  [54;54;54;54;54;246;54;246;54;54;54;54;54;54;54;54];
  [0;0;0;0;0;0;0;254;54;54;54;54;54;54;54;54];
  [0;0;0;0;0;248;24;248;24;24;24;24;24;24;24;24];
  [54;54;54;54;54;246;6;246;54;54;54;54;54;54;54;54];
  [54;54;54;54;54;54;54;54;54;54;54;54;54;54;54;54];
  [0;0;0;0;0;254;6;246;54;54;54;54;54;54;54;54];
  [54;54;54;54;54;246;6;254;0;0;0;0;0;0;0;0];
  [54;54;54;54;54;54;54;254;0;0;0;0;0;0;0;0];
  [24;24;24;24;24;248;24;248;0;0;0;0;0;0;0;0];
  [0;0;0;0;0;0;0;255;24;24;24;24;24;24;24;24];
  [24;24;24;24;24;24;24;31;0;0;0;0;0;0;0;0];
  [24;24;24;24;24;31;24;31;0;0;0;0;0;0;0;0];
  [0;0;0;0;0;31;24;31;24;24;24;24;24;24;24;24];
  [24;24;24;24;24;31;24;255;0;0;0;0;0;0;0;0];
  [0;0;0;0;0;0;0;255;0;0;0;0;0;0;0;0];
  [24;24;24;24;24;255;0;255;24;24;24;24;24;24;24;24];
  [24;24;24;24;24;31;24;31;24;24;24;24;24;24;24;24];
  [54;54;54;54;54;55;54;255;0;0;0;0;0;0;0;0];
  [54;54;54;54;54;55;48;63;0;0;0;0;0;0;0;0];
  [0;0;0;0;0;63;48;55;54;54;54;54;54;54;54;54];
  [54;54;54;54;54;255;0;255;0;0;0;0;0;0;0;0];
  [0;0;0;0;0;255;0;255;54;54;54;54;54;54;54;54];
  [54;54;54;54;54;247;0;247;54;54;54;54;54;54;54;54];
  [0;0;0;0;0;0;0;255;0;0;0;255;0;0;0;0];
  [54;54;54;54;54;247;0;247;54;54;54;54;54;54;54;54];
  [0;0;0;0;0;255;0;255;24;24;24;24;24;24;24;24];
  [24;24;24;24;24;255;0;255;0;0;0;0;0;0;0;0];
  [0;0;0;0;0;255;24;255;24;24;24;24;24;24;24;24];
  [24;24;24;24;24;24;24;255;0;0;0;0;0;0;0;0];
  [24;24;24;24;24;255;24;255;24;24;24;24;24;24;24;24];
  [0;0;0;0;0;0;0;254;54;54;54;54;54;54;54;54];
  [0;0;0;0;0;63;48;55;54;54;54;54;54;54;54;54];
  [54;54;54;54;54;247;48;247;54;54;54;54;54;54;54;54];
  [24;24;24;24;24;255;0;255;24;24;24;24;24;24;24;24];
  [54;54;54;54;54;55;54;55;54;54;54;54;54;54;54;54];
  [24;24;24;24;24;24;24;248;0;0;0;0;0;0;0;0];
  [0;0;0;0;0;0;0;31;24;24;24;24;24;24;24;24];
  [255;255;255;255;255;255;255;255;255;255;255;255;255;255;255;255];
  [0;0;0;0;0;0;0;255;255;255;255;255;255;255;255;255];
  [240;240;240;240;240;240;240;240;240;240;240;240;240;240;240;240];
  [15;15;15;15;15;15;15;15;15;15;15;15;15;15;15;15];
  [255;255;255;255;255;255;255;255;0;0;0;0;0;0;0;0];
  [0;0;224;96;108;118;102;102;102;118;108;96;224;0;0;0];
  [0;0;0;124;198;198;198;252;198;198;198;252;192;192;0;0];
  [0;0;0;124;198;192;192;192;192;192;198;124;0;0;0;0];
  [0;0;30;12;12;12;12;12;12;12;12;12;0;0;0;0];
  [0;0;0;254;108;108;108;108;108;108;108;108;0;0;0;0];
  [0;0;254;198;96;48;24;24;48;96;198;254;0;0;0;0];
  [0;0;0;0;0;126;216;216;216;216;216;112;0;0;0;0];
  [0;0;0;102;102;102;102;102;124;96;96;192;0;0;0;0];
  [0;0;0;118;220;24;24;24;24;24;0;0;0;0;0;0];
  [0;0;255;24;60;102;102;102;60;24;255;0;0;0;0;0];
  [0;0;56;108;198;198;254;198;198;108;56;0;0;0;0;0];
  [0;0;56;108;198;198;198;108;108;108;238;0;0;0;0;0];
  [0;0;30;48;24;12;62;102;102;102;102;60;0;0;0;0];
  [0;0;0;0;0;126;219;219;219;126;0;0;0;0;0;0];
  [0;0;3;6;126;219;219;243;126;96;192;0;0;0;0;0];
  [0;0;30;48;96;96;126;96;96;96;48;30;0;0;0;0];
  [0;0;0;124;198;198;198;198;198;198;198;124;0;0;0;0];
  [0;0;0;254;54;54;54;54;54;54;54;54;0;0;0;0];
  [0;0;124;198;96;56;108;198;198;108;56;12;198;124;0;0];
  [0;0;198;198;198;198;254;198;198;198;198;198;0;0;0;0];
  [0;0;60;24;24;24;24;24;24;24;24;60;0;0;0;0];
  [0;0;30;12;12;12;12;12;204;204;204;120;0;0;0;0];
  [0;0;230;102;108;120;112;120;108;102;102;230;0;0;0;0];
  [0;0;240;96;96;96;96;96;102;102;102;254;0;0;0;0];
  [0;0;198;238;254;254;214;198;198;198;198;198;0;0;0;0];
  [0;0;198;230;246;254;222;206;198;198;198;198;0;0;0;0];
  [0;0;124;198;198;198;198;198;198;198;198;124;0;0;0;0];
  [0;0;252;102;102;102;124;96;96;96;96;240;0;0;0;0];
  [0;0;124;198;198;198;198;198;198;214;222;124;28;0;0;0];
  [0;0;252;102;102;102;124;120;108;102;102;230;0;0;0;0];
  [0;0;124;198;198;96;56;12;6;198;198;124;0;0;0;0];
  [0;0;255;219;153;24;24;24;24;24;24;60;0;0;0;0]].

(** drivers/font_cyr.c *)
Definition up : list (list Z) := [
  [0;0;16;56;108;198;198;254;198;198;198;198;0;0;0;0];
  [0;0;254;192;192;252;198;198;198;198;198;252;0;0;0;0];
  [0;0;252;102;102;102;124;102;102;102;102;252;0;0;0;0];
  [0;0;254;198;192;192;192;192;192;192;192;192;0;0;0;0];
  [0;0;30;54;102;102;102;102;102;102;255;195;0;0;0;0];
  [0;0;254;98;96;100;124;100;96;96;98;254;0;0;0;0];
  [0;0;198;198;204;216;240;240;216;204;198;198;0;0;0;0];
  [0;0;124;198;6;12;56;12;6;6;198;124;0;0;0;0];
  [0;0;198;198;206;214;246;230;198;198;198;198;0;0;0;0];
  [0;108;56;0;198;198;206;214;246;230;198;198;0;0;0;0];
  [0;0;198;108;120;112;112;120;108;198;198;198;0;0;0;0];
  [0;0;126;54;54;54;54;54;54;54;118;230;0;0;0;0];
  [0;0;198;238;254;254;214;198;198;198;198;198;0;0;0;0];
  [0;0;198;198;198;198;254;198;198;198;198;198;0;0;0;0];
  [0;0;56;108;198;198;198;198;198;198;108;56;0;0;0;0];
  [0;0;254;198;198;198;198;198;198;198;198;198;0;0;0;0];
  [0;0;252;102;102;102;124;96;96;96;96;240;0;0;0;0];
  [0;0;60;102;194;192;192;192;192;194;102;60;0;0;0;0];
  [0;0;255;219;153;24;24;24;24;24;24;60;0;0;0;0];
  [0;0;204;204;204;204;120;48;48;48;48;120;0;0;0;0];
  [0;0;24;24;126;219;219;219;126;24;24;24;0;0;0;0];
  [0;0;198;198;108;124;56;56;124;108;198;198;0;0;0;0];
  [0;0;198;198;198;198;198;198;198;198;254;6;0;0;0;0];
  [0;0;198;198;198;198;126;6;6;6;6;6;0;0;0;0];
  [0;0;219;219;219;219;219;219;219;219;219;255;0;0;0;0];
  [0;0;219;219;219;219;219;219;219;219;255;7;0;0;0;0];
  [0;0;224;96;96;124;102;102;102;102;102;124;0;0;0;0];
  [0;0;195;195;195;195;243;219;199;219;243;195;0;0;0;0];
  [0;0;192;192;192;192;252;198;198;198;198;252;0;0;0;0];
  [0;0;124;198;6;6;62;6;6;6;198;124;0;0;0;0];
  [0;0;194;198;206;222;254;222;206;198;198;194;0;0;0;0];
  [0;0;126;198;198;198;126;30;54;102;198;198;0;0;0;0]].
Definition lo : list (list Z) := [
  [0;0;0;0;0;120;12;124;204;204;204;118;0;0;0;0];
  [0;0;0;0;60;96;192;252;198;198;198;124;0;0;0;0];
  [0;0;0;0;0;124;102;102;124;102;102;124;0;0;0;0];
  [0;0;0;0;0;254;198;192;192;192;192;192;0;0;0;0];
  [0;0;0;0;14;27;27;27;27;127;195;0;0;0;0;0];
  [0;0;0;0;0;124;198;254;192;192;198;124;0;0;0;0];
  [0;0;0;0;0;108;108;56;254;56;108;108;0;0;0;0];
  [0;0;0;0;0;124;198;6;60;6;198;124;0;0;0;0];
  [0;0;0;0;0;198;198;206;214;230;198;198;0;0;0;0];
  [0;0;108;56;0;198;206;214;230;198;198;198;0;0;0;0];
  [0;0;0;0;0;198;108;120;120;108;102;198;0;0;0;0];
  [0;0;0;0;0;62;54;54;54;54;54;230;0;0;0;0];
  [0;0;0;0;0;198;238;254;214;198;198;198;0;0;0;0];
  [0;0;0;0;0;198;198;198;254;198;198;198;0;0;0;0];
  [0;0;0;0;0;124;198;198;198;198;198;124;0;0;0;0];
  [0;0;0;0;0;254;198;198;198;198;198;198;0;0;0;0];
  [0;0;0;0;0;252;102;102;102;124;96;96;96;240;0;0];
  [0;0;0;0;0;124;198;192;192;192;198;124;0;0;0;0];
  [0;0;0;0;0;254;24;24;24;24;24;24;0;0;0;0];
  [0;0;0;0;0;204;204;204;204;204;124;12;24;240;0;0];
  [0;0;0;0;24;126;219;219;219;126;24;24;0;0;0;0];
  [0;0;0;0;0;198;108;56;56;56;108;198;0;0;0;0];
  [0;0;0;0;0;198;198;198;198;198;254;6;0;0;0;0];
  [0;0;0;0;0;198;198;198;126;6;6;6;0;0;0;0];
  [0;0;0;0;0;219;219;219;219;219;219;255;0;0;0;0];
  [0;0;0;0;0;219;219;219;219;219;255;3;0;0;0;0];
  [0;0;0;0;0;224;96;124;102;102;102;124;0;0;0;0];
  [0;0;0;0;0;195;195;243;219;199;219;243;0;0;0;0];
  [0;0;0;0;0;192;192;252;198;198;198;252;0;0;0;0];
  [0;0;0;0;0;124;198;6;62;6;198;124;0;0;0;0];
  [0;0;0;0;0;194;206;219;219;219;206;194;0;0;0;0];
  [0;0;0;0;0;126;198;198;126;30;54;102;0;0;0;0]].
Definition yo_up : list Z := [0;102;254;98;96;100;124;100;96;96;98;254;0;0;0;0].
(** The 16th byte has no initialiser and is 0. *)
Definition yo_lo : list Z := [0;0;102;0;124;198;254;192;192;198;124;0;0;0;0;0].

(** NULL is [None]. *)
Definition cyr_get_glyph (cp : Z) : option (list Z) :=
  if cp =? 0x0401 then Some yo_up
  else if cp =? 0x0451 then Some yo_lo
  else if (cp >=? 0x0410) && (cp <=? 0x042F) then up !! Z.to_nat (cp - 0x0410)
  else if (cp >=? 0x0430) && (cp <=? 0x044F) then lo !! Z.to_nat (cp - 0x0430)
  else None.
Definition screen_glyph8x16 (ch : Z) : option (list Z) := font8x16 !! Z.to_nat ch.

(** ** Shape *)

(** What the drawing loops read of a glyph. *)
Definition glyph_ok (g : list Z) : Prop := length g = 16%nat /\ bytes g.
#[export] Instance glyph_ok_dec g : Decision (glyph_ok g).
Proof. unfold glyph_ok, bytes, in_u8. apply _. Defined.

Lemma tables_ok : length font8x16 = 256%nat /\ length up = 32%nat /\ length lo = 32%nat /\
  Forall glyph_ok (font8x16 ++ up ++ lo ++ [yo_up; yo_lo]).
Proof. apply (bool_decide_unpack _). by vm_compute. Qed.

Lemma table_glyph t i g : incl t (font8x16 ++ up ++ lo ++ [yo_up; yo_lo]) -> t !! i = Some g -> glyph_ok g.
Proof.
  intros Hi Hg. destruct tables_ok as (_ & _ & _ & HF). rewrite List.Forall_forall in HF.
  apply HF, Hi, list_elem_of_In. by eapply list_elem_of_lookup_2.
Qed.

(** Every character of the 8x16 font has a glyph. *)
Lemma screen_glyph_ok ch : in_u8 ch -> exists g, screen_glyph8x16 ch = Some g /\ glyph_ok g.
Proof.
  intros Hc. destruct (lookup_lt_is_Some_2 font8x16 (Z.to_nat ch)) as [g E].
  { rewrite (proj1 tables_ok). word. }
  exists g. split; [exact E|]. apply (table_glyph font8x16 (Z.to_nat ch)); [apply incl_appl, incl_refl|exact E].
Qed.

Lemma cyr_get_glyph_ok cp g : cyr_get_glyph cp = Some g -> glyph_ok g.
Proof.
  unfold cyr_get_glyph. intros E.
  destruct (cp =? 0x0401); [injection E as <-; apply (bool_decide_unpack _); by vm_compute|].
  destruct (cp =? 0x0451); [injection E as <-; apply (bool_decide_unpack _); by vm_compute|].
  destruct ((cp >=? 0x0410) && (cp <=? 0x042F)); [apply (table_glyph up) in E; [done|apply incl_appr, incl_appl, incl_refl]|].
  destruct ((cp >=? 0x0430) && (cp <=? 0x044F)); [|done]. apply (table_glyph lo) in E; [done|]. do 2 apply incl_appr. apply incl_appl, incl_refl.
Qed.
