(* ===== verification/Gfx.v ===== *)
(** * Drawing on surfaces

    Models gfx/gfx.c (the kernel's drawing primitives and the copy to the frame
    buffer) and user/ugfx.c (the same primitives for ring 3). A surface is its
    size and its pixels, row by row; a [gfx_surface_t *] argument is an option.
    Accesses are checked: [None] is one outside a pixel array, a glyph or the
    map of the cursor, so a
    theorem that gives a result says that every access is inside. *)

From S2P Require Import Prelude Kalloc Font.

Record gfx_surface_t := Surface { sf_w : Z; sf_h : Z; sf_px : list Z }.

Definition GFX_TRANSPARENT : Z := 0x01000000.
Definition FONT_W : Z := 8.
Definition FONT_H : Z := 16.

(** ** Checked accesses *)

(** Storing the pixels [l] from index [i] on, and one pixel. *)
Definition store_px (px : list Z) (i : Z) (l : list Z) : option (list Z) :=
  if (0 <=? i) && (i + Z.of_nat (length l) <=? Z.of_nat (length px)) then Some (list_inserts (Z.to_nat i) l px) else None.
Definition load_px (px : list Z) (i n : Z) : option (list Z) :=
  if (0 <=? i) && (i + n <=? Z.of_nat (length px)) then Some (slice px i n) else None.

(** The rows [j], [j + 1], ... of a drawing loop: row [j] puts [row j] at [at_ j]. *)
Fixpoint store_rows (n : nat) (j : Z) (row : Z -> option (list Z)) (at_ : Z -> Z) (px : list Z) : option (list Z) :=
  match n with
  | O => Some px
  | S n => l ← row j; px ← store_px px (at_ j) l; store_rows n (j + 1) row at_ px
  end.

(** [s->px + (size_t)y * s->w + x], as an index. *)
Definition pixel_index (w x y : Z) : Z := u64 (u64 (u64 y * u64 w) + u64 x).

(** [if (!s) return;] around an operation. *)
Definition on_surface (s : option gfx_surface_t) (f : gfx_surface_t -> option gfx_surface_t) : option (option gfx_surface_t) :=
  match s with None => Some None | Some s => s ← f s; Some (Some s) end.

(** ** Clipping and filling *)

Definition clip_rect (s : gfx_surface_t) (x y w h : Z) : option (Z * Z * Z * Z) :=
  if (w <=? 0) || (h <=? 0) then None
  else
    let '(w, x) := if x <? 0 then (s32 (w + x), 0) else (w, x) in
    let '(h, y) := if y <? 0 then (s32 (h + y), 0) else (h, y) in
    if (x >=? sf_w s) || (y >=? sf_h s) then None
    else
      let w := if s32 (x + w) >? sf_w s then s32 (sf_w s - x) else w in
      let h := if s32 (y + h) >? sf_h s then s32 (sf_h s - y) else h in
      if (w >? 0) && (h >? 0) then Some (x, y, w, h) else None.

Definition gfx_fill (s : option gfx_surface_t) (color : Z) : option (option gfx_surface_t) :=
  on_surface s (fun s =>
    let n := s32 (sf_w s * sf_h s) in
    px ← store_px (sf_px s) 0 (replicate (Z.to_nat n) color);
    Some (Surface (sf_w s) (sf_h s) px)).

Definition gfx_fill_rect (s : option gfx_surface_t) (x y w h color : Z) : option (option gfx_surface_t) :=
  on_surface s (fun s =>
    match clip_rect s x y w h with
    | None => Some s
    | Some (x, y, w, h) =>
      px ← store_rows (Z.to_nat h) 0 (fun _ => Some (replicate (Z.to_nat w) color))
             (fun j => pixel_index (sf_w s) x (s32 (y + j))) (sf_px s);
      Some (Surface (sf_w s) (sf_h s) px)
    end).

Definition gfx_hline (s : option gfx_surface_t) (x y w color : Z) := gfx_fill_rect s x y w 1 color.
Definition gfx_vline (s : option gfx_surface_t) (x y h color : Z) := gfx_fill_rect s x y 1 h color.
Definition gfx_draw_rect (s : option gfx_surface_t) (x y w h color : Z) : option (option gfx_surface_t) :=
  s ← gfx_hline s x y w color;
  s ← gfx_hline s x (s32 (s32 (y + h) - 1)) w color;
  s ← gfx_vline s x y h color;
  gfx_vline s (s32 (s32 (x + w) - 1)) y h color.

(** ** Copying *)

(** The two loops over the rectangle [w] x [h] from [(sx, sy)] of [src] to
    [(dx, dy)] of [dst]. *)
Definition copy_rect (dst : gfx_surface_t) (dx dy : Z) (src : gfx_surface_t) (sx sy w h : Z) : option gfx_surface_t :=
  px ← store_rows (Z.to_nat h) 0 (fun j => load_px (sf_px src) (pixel_index (sf_w src) sx (s32 (sy + j))) w)
         (fun j => pixel_index (sf_w dst) dx (s32 (dy + j))) (sf_px dst);
  Some (Surface (sf_w dst) (sf_h dst) px).

(** Clipping of the placement at [(dx, dy)]. *)
Definition clip_dst (dst : gfx_surface_t) (dx dy sx sy w h : Z) : option (Z * Z * Z * Z * Z * Z) :=
  let '(sx, w, dx) := if dx <? 0 then (s32 (sx - dx), s32 (w + dx), 0) else (sx, w, dx) in
  let '(sy, h, dy) := if dy <? 0 then (s32 (sy - dy), s32 (h + dy), 0) else (sy, h, dy) in
  let w := if s32 (dx + w) >? sf_w dst then s32 (sf_w dst - dx) else w in
  let h := if s32 (dy + h) >? sf_h dst then s32 (sf_h dst - dy) else h in
  if (w <=? 0) || (h <=? 0) then None else Some (dx, dy, sx, sy, w, h).

Definition gfx_blit (dst : option gfx_surface_t) (dx dy : Z) (src : option gfx_surface_t) : option (option gfx_surface_t) :=
  on_surface dst (fun dst =>
    match src with
    | None => Some dst
    | Some src =>
      match clip_dst dst dx dy 0 0 (sf_w src) (sf_h src) with
      | None => Some dst
      | Some (dx, dy, sx, sy, w, h) => copy_rect dst dx dy src sx sy w h
      end
    end).

(** ** Text and the cursor *)

(** One pixel of a sprite, clipped: [color] is [None] where nothing is drawn. *)
Definition draw_pixel (s : gfx_surface_t) (px py : Z) (color : option Z) : option gfx_surface_t :=
  if (px <? 0) || (px >=? sf_w s) then Some s
  else match color with
  | None => Some s
  | Some c => p ← store_px (sf_px s) (pixel_index (sf_w s) px py) [c]; Some (Surface (sf_w s) (sf_h s) p)
  end.
Fixpoint draw_row (n : nat) (i x py : Z) (color : Z -> option (option Z)) (s : gfx_surface_t) : option gfx_surface_t :=
  match n with
  | O => Some s
  | S n => c ← color i; s ← draw_pixel s (s32 (x + i)) py c; draw_row n (i + 1) x py color s
  end.
(** The loops over [n] rows of [w] columns of a sprite at [(x, y)]; [color]
    reads the sprite, and is [None] outside it. *)
Fixpoint draw_sprite (n : nat) (j : Z) (w : nat) (x y : Z) (color : Z -> Z -> option (option Z)) (s : gfx_surface_t) : option gfx_surface_t :=
  match n with
  | O => Some s
  | S n =>
    let py := s32 (y + j) in
    s ← (if (py <? 0) || (py >=? sf_h s) then Some s else draw_row w 0 x py (color j) s);
    draw_sprite n (j + 1) w x y color s
  end.

(** Pixel [i] of row [j] of a glyph. *)
Definition glyph_color (glyph : list Z) (fg bg j i : Z) : option (option Z) :=
  bits ← glyph !! Z.to_nat j;
  Some (if negb (Z.land bits (Z.shiftr 0x80 i) =? 0) then Some fg
        else if negb (bg =? GFX_TRANSPARENT) then Some bg else None).
Definition gfx_draw_char (s : option gfx_surface_t) (x y ch fg bg : Z) : option (option gfx_surface_t) :=
  on_surface s (fun s =>
    glyph ← screen_glyph8x16 ch;
    draw_sprite (Z.to_nat FONT_H) 0 (Z.to_nat FONT_W) x y (glyph_color glyph fg bg) s).
Fixpoint gfx_draw_text (s : option gfx_surface_t) (x y : Z) (text : list Z) (fg bg : Z)
    : option (option gfx_surface_t) :=
  match text with
  | [] => Some s
  | c :: text => s ← gfx_draw_char s x y (u8 c) fg bg; gfx_draw_text s (s32 (x + FONT_W)) y text fg bg
  end.

Definition cursor_map : list (list Z) := [
  [1;0;0;0;0;0;0;0;0;0;0;0];
  [1;1;0;0;0;0;0;0;0;0;0;0];
  [1;2;1;0;0;0;0;0;0;0;0;0];
  [1;2;2;1;0;0;0;0;0;0;0;0];
  [1;2;2;2;1;0;0;0;0;0;0;0];
  [1;2;2;2;2;1;0;0;0;0;0;0];
  [1;2;2;2;2;2;1;0;0;0;0;0];
  [1;2;2;2;2;2;2;1;0;0;0;0];
  [1;2;2;2;2;2;2;2;1;0;0;0];
  [1;2;2;2;2;2;2;2;2;1;0;0];
  [1;2;2;2;2;2;2;2;2;2;1;0];
  [1;2;2;2;2;2;2;2;2;2;2;1];
  [1;2;2;2;2;2;2;1;1;1;1;1];
  [1;2;2;2;1;2;2;1;0;0;0;0];
  [1;2;2;1;0;1;2;2;1;0;0;0];
  [1;2;1;0;0;1;2;2;1;0;0;0];
  [1;1;0;0;0;0;1;2;2;1;0;0];
  [0;0;0;0;0;0;1;2;2;1;0;0];
  [0;0;0;0;0;0;0;1;1;0;0;0]].
Definition cursor_color (j i : Z) : option (option Z) :=
  row ← cursor_map !! Z.to_nat j;
  c ← row !! Z.to_nat i;
  Some (if c =? 1 then Some 0x00000000 else if c =? 2 then Some 0x00FFFFFF else None).
Definition gfx_draw_cursor (s : option gfx_surface_t) (x y : Z) : option (option gfx_surface_t) :=
  on_surface s (draw_sprite 19 0 12 x y cursor_color).

(** ** The screen and the frame buffer *)

Record screen_fb_params_t := Fb { fb_mem : list Z; fb_width : Z; fb_height : Z; fb_pitch : Z }.
Record gfx_st := Gfx { g_fb : screen_fb_params_t; g_back : gfx_surface_t; g_ready : bool }.

Definition gfx_available (g : gfx_st) : bool := g_ready g.
Definition gfx_screen (g : gfx_st) : option gfx_surface_t := if g_ready g then Some (g_back g) else None.
Definition set_screen (s : gfx_surface_t) (g : gfx_st) : gfx_st := Gfx (g_fb g) s (g_ready g).

(** The loop of [gfx_present_rect]: [w] pixels of each row, as bytes. *)
Definition gfx_present_rect (x y w h : Z) (g : gfx_st) : option gfx_st :=
  if negb (g_ready g) then Some g
  else match clip_rect (g_back g) x y w h with
  | None => Some g
  | Some (x, y, w, h) =>
    let back := g_back g in
    mem ← store_rows (Z.to_nat h) 0
      (fun j => l ← load_px (sf_px back) (pixel_index (sf_w back) x (s32 (y + j))) w; Some (concat (map (le_bytes 4) l)))
      (fun j => u64 (u64 (u64 (s32 (y + j)) * fb_pitch (g_fb g)) + u64 (u64 x * 4))) (fb_mem (g_fb g));
    Some (Gfx (Fb mem (fb_width (g_fb g)) (fb_height (g_fb g)) (fb_pitch (g_fb g))) back true)
  end.
Definition gfx_present (g : gfx_st) : option gfx_st := gfx_present_rect 0 0 (sf_w (g_back g)) (sf_h (g_back g)) g.

Section Alloc.
Context {H : Type} `{!Kalloc H}.

(** [fb] is what [screen_get_fb] reports, if anything. *)
Definition gfx_init (fb : option screen_fb_params_t) (g : gfx_st) (h : H) : Z * gfx_st * H :=
  if g_ready g then (0, g, h)
  else match fb with
  | None => (-1, g, h)
  | Some fb =>
    let bytes := u64 (u64 (fb_width fb * fb_height fb) * 4) in
    let '(p, h) := kalloc bytes false h in
    if p =? 0 then (-1, Gfx fb (g_back g) false, h)
    else (0, Gfx fb (Surface (s32 (fb_width fb)) (s32 (fb_height fb)) (replicate (Z.to_nat (bytes / 4)) 0)) true, h)
  end.

(** The addresses of the structure and of the pixels of an off-screen surface;
    [None] is NULL. *)
Definition gfx_surface_create (w h : Z) (hp : H) : option (option (Z * Z) * H) :=
  if (w <=? 0) || (h <=? 0) then Some (None, hp)
  else
    let '(s, hp) := kalloc 16 false hp in
    if s =? 0 then Some (None, hp)
    else
      let '(px, hp) := kalloc (u64 (u64 (w * h) * 4)) false hp in
      if px =? 0 then hp ← kalloc_free s hp; Some (None, hp) else Some (Some (s, px), hp).
Definition gfx_surface_destroy (s : option (Z * Z)) (hp : H) : option H :=
  match s with None => Some hp | Some (s, px) => hp ← kalloc_free px hp; kalloc_free s hp end.
End Alloc.
