(* ===== verification/GfxProofs.v ===== *)
(** * Drawing: every access is inside, every pixel is the right one

    The clipped primitives of Gfx.v on well-formed surfaces: the pixels of the
    clipped rectangle change as asked and no others, and the checked accesses
    succeed. *)

From S2P Require Import Prelude Kalloc Font Gfx.

(** The pixel in column [i] of row [j]. *)
Definition pixel (s : gfx_surface_t) (i j : Z) : option Z := sf_px s !! Z.to_nat (j * sf_w s + i).
Definition surf_ok (s : gfx_surface_t) : Prop :=
  0 <= sf_w s < 2147483648 /\ 0 <= sf_h s < 2147483648 /\ Z.of_nat (length (sf_px s)) = sf_w s * sf_h s.
Definition inside (s : gfx_surface_t) (i j : Z) : Prop := 0 <= i < sf_w s /\ 0 <= j < sf_h s.
Definition in_rect (x y w h i j : Z) : bool := (x <=? i) && (i <? x + w) && ((y <=? j) && (j <? y + h)).
Definition in_s32 (x : Z) : Prop := -2147483648 <= x < 2147483648.

Lemma s32_id x : in_s32 x -> s32 x = x.
Proof. unfold in_s32. word. Qed.

(** Positions of pixels in the array. *)
Lemma row_range W H i j : 0 <= i < W -> 0 <= j < H -> 0 <= j * W + i < W * H.
Proof. intros. nia. Qed.
Lemma row_inj W i j i' j' : 0 <= i < W -> 0 <= i' < W -> j * W + i = j' * W + i' -> i = i' /\ j = j'.
Proof. intros Hi Hi' E. assert (j = j') by nia. subst. lia. Qed.

Lemma pixel_index_ok s x y : surf_ok s -> 0 <= x < sf_w s -> 0 <= y < sf_h s -> pixel_index (sf_w s) x y = y * sf_w s + x.
Proof.
  intros (Hw & Hh & Hl) Hx Hy. unfold pixel_index.
  assert (0 <= y * sf_w s < 4611686018427387904) by nia.
  rewrite (u64_id y), (u64_id (sf_w s)), (u64_id (y * sf_w s)), (u64_id x) by word. apply u64_id. word.
Qed.

Lemma store_px_ok px a l :
  0 <= a -> a + Z.of_nat (length l) <= Z.of_nat (length px) ->
  exists px', store_px px a l = Some px' /\ length px' = length px /\
    forall k, 0 <= k -> px' !! Z.to_nat k = if (a <=? k) && (k <? a + Z.of_nat (length l)) then l !! Z.to_nat (k - a) else px !! Z.to_nat k.
Proof.
  intros Ha Hl. unfold store_px. rewrite (proj2 (Z.leb_le 0 a)), (proj2 (Z.leb_le _ _)) by done. cbn [andb].
  eexists. split; [reflexivity|]. split; [apply length_inserts|]. intros k Hk.
  destruct (Z.leb_spec a k), (Z.ltb_spec k (a + Z.of_nat (length l))); cbn [andb].
  - rewrite list_lookup_inserts by lia. f_equal. lia.
  - apply list_lookup_inserts_ge. lia.
  - apply list_lookup_inserts_lt. lia.
  - apply list_lookup_inserts_lt. lia.
Qed.

Lemma load_px_ok px a n : 0 <= a -> 0 <= n -> a + n <= Z.of_nat (length px) -> load_px px a n = Some (slice px a n).
Proof. intros. unfold load_px. by rewrite (proj2 (Z.leb_le 0 a)), (proj2 (Z.leb_le _ _)). Qed.

(** A drawing loop over rows [j0 .. j0 + n) of the rectangle at [(x, y)]:
    [cell i j] is what column [i] of row [j] gets. *)
Lemma store_rows_ok W H x y w n j0 row at_ cell px :
  0 <= x -> 0 <= w -> x + w <= W -> 0 <= y -> 0 <= j0 -> y + j0 + Z.of_nat n <= H ->
  Z.of_nat (length px) = W * H ->
  (forall j, j0 <= j < j0 + Z.of_nat n -> at_ j = (y + j) * W + x) ->
  (forall j, j0 <= j < j0 + Z.of_nat n -> exists l, row j = Some l /\ Z.of_nat (length l) = w /\
     forall i, x <= i < x + w -> l !! Z.to_nat (i - x) = cell i (y + j)) ->
  exists px', store_rows n j0 row at_ px = Some px' /\ length px' = length px /\
    forall i j, 0 <= i < W -> 0 <= j < H ->
      px' !! Z.to_nat (j * W + i) = if in_rect x (y + j0) w (Z.of_nat n) i j then cell i j else px !! Z.to_nat (j * W + i).
Proof.
  intros Hx Hw HxW Hy. revert j0 px. induction n as [|n IH]; intros j0 px Hj HyH Hl Hat Hrow; cbn [store_rows].
  - exists px. split; [done|]. split; [done|]. intros i j Hi Hj'. unfold in_rect.
    rewrite Z.add_0_r. destruct (Z.leb_spec (y + j0) j), (Z.ltb_spec j (y + j0)); cbn; rewrite ?andb_false_r; try done; lia.
  - destruct (Hrow j0) as (l & -> & Hlen & Hc); [lia|]. cbn [mbind option_bind]. rewrite Hat by lia.
    destruct (store_px_ok px ((y + j0) * W + x) l) as (px1 & -> & Hl1 & Hp1); [nia|nia|]. cbn [mbind option_bind].
    destruct (IH (j0 + 1) px1) as (px2 & E2 & Hl2 & Hp2); [lia|lia|lia|intros; apply Hat; lia|intros; apply Hrow; lia|].
    exists px2. split; [done|]. split; [lia|]. intros i j Hi Hj'. rewrite Hp2 by done.
    replace (y + (j0 + 1)) with (y + j0 + 1) by lia.
    assert (Hrect : in_rect x (y + j0) w (Z.of_nat (S n)) i j
      = in_rect x (y + j0 + 1) w (Z.of_nat n) i j || ((j =? y + j0) && ((x <=? i) && (i <? x + w)))).
    { unfold in_rect. repeat match goal with |- context [?a <=? ?b] => destruct (Z.leb_spec a b) | |- context [?a <? ?b] => destruct (Z.ltb_spec a b)
        | |- context [?a =? ?b] => destruct (Z.eqb_spec a b) end; cbn; try done; lia. }
    rewrite Hrect. destruct (in_rect x (y + j0 + 1) w (Z.of_nat n) i j); cbn [orb]; [done|].
    rewrite Hp1 by nia. rewrite Hlen.
    destruct (Z.eqb_spec j (y + j0)) as [->|Hne]; cbn [andb].
    + replace ((y + j0) * W + x <=? (y + j0) * W + i) with (x <=? i) by (apply eq_true_iff_eq; rewrite !Z.leb_le; lia).
      replace ((y + j0) * W + i <? (y + j0) * W + x + w) with (i <? x + w) by (apply eq_true_iff_eq; rewrite !Z.ltb_lt; lia).
      destruct (Z.leb_spec x i), (Z.ltb_spec i (x + w)); cbn [andb]; try done.
      replace ((y + j0) * W + i - ((y + j0) * W + x)) with (i - x) by lia. apply Hc. lia.
    + rewrite (proj2 (andb_false_iff _ _)); [done|]. destruct (Z.lt_trichotomy j (y + j0)) as [?|[?|?]]; [|lia|].
      * left. apply Z.leb_gt. nia.
      * right. apply Z.ltb_ge. nia.
Qed.

(** ** Clipping *)

Lemma in_rect_true x y w h i j : in_rect x y w h i j = true <-> (x <= i < x + w /\ y <= j < y + h).
Proof. unfold in_rect. rewrite !andb_true_iff, !Z.leb_le, !Z.ltb_lt. lia. Qed.
Lemma in_rect_false x y w h i j : ~ (x <= i < x + w /\ y <= j < y + h) -> in_rect x y w h i j = false.
Proof. rewrite <- in_rect_true. by destruct (in_rect x y w h i j). Qed.

(** One direction: [d1], [w1] are the span [d], [w] cut at 0; what remains of
    it after the cut at [W] is its part inside. *)
Lemma clip_span W d w d1 w1 :
  d1 + w1 = d + w -> (d1 = d \/ (d < 0 /\ d1 = 0)) -> 0 <= d1 ->
  let w2 := if W <? d1 + w1 then W - d1 else w1 in
  d1 + w2 <= W /\ w2 <= w1 /\ forall i, 0 <= i < W -> (d <= i < d + w <-> d1 <= i < d1 + w2).
Proof. intros E Hd H0. cbv zeta. destruct (Z.ltb_spec W (d1 + w1)); (split; [lia|]; split; [lia|]; intros; lia). Qed.

(** The clipped rectangle is the intersection with the surface. *)
Lemma clip_rect_ok s x y w h :
  0 <= sf_w s < 2147483648 -> 0 <= sf_h s < 2147483648 -> in_s32 x -> in_s32 y -> in_s32 w -> in_s32 h ->
  x + w < 2147483648 -> y + h < 2147483648 ->
  match clip_rect s x y w h with
  | None => forall i j, inside s i j -> in_rect x y w h i j = false
  | Some (x', y', w', h') =>
    0 <= x' /\ 0 < w' /\ x' + w' <= sf_w s /\ 0 <= y' /\ 0 < h' /\ y' + h' <= sf_h s /\
    forall i j, inside s i j -> in_rect x y w h i j = in_rect x' y' w' h' i j
  end.
Proof.
  intros HW HH Hx Hy Hw Hh Hxw Hyh. unfold clip_rect, inside, in_s32 in *.
  destruct (Z.leb_spec w 0), (Z.leb_spec h 0); cbn [orb]; try (intros; apply in_rect_false; lia).
  assert (Ex : (if x <? 0 then (s32 (w + x), 0) else (w, x)) = (if x <? 0 then w + x else w, Z.max 0 x)).
  { destruct (Z.ltb_spec x 0); [rewrite s32_id by (unfold in_s32; lia); f_equal; lia|f_equal; lia]. }
  assert (Ey : (if y <? 0 then (s32 (h + y), 0) else (h, y)) = (if y <? 0 then h + y else h, Z.max 0 y)).
  { destruct (Z.ltb_spec y 0); [rewrite s32_id by (unfold in_s32; lia); f_equal; lia|f_equal; lia]. }
  rewrite Ex, Ey. clear Ex Ey.
  set (w1 := if x <? 0 then w + x else w). set (h1 := if y <? 0 then h + y else h).
  set (x1 := Z.max 0 x). set (y1 := Z.max 0 y).
  assert (Ew : x1 + w1 = x + w) by (unfold x1, w1; destruct (Z.ltb_spec x 0); lia).
  assert (Eh : y1 + h1 = y + h) by (unfold y1, h1; destruct (Z.ltb_spec y 0); lia).
  assert (Hx1 : 0 <= x1 /\ (x1 = x \/ (x < 0 /\ x1 = 0))) by lia. assert (Hy1 : 0 <= y1 /\ (y1 = y \/ (y < 0 /\ y1 = 0))) by lia.
  clearbody w1 h1 x1 y1.
  rewrite !Z.geb_leb. destruct (Z.leb_spec (sf_w s) x1), (Z.leb_spec (sf_h s) y1); cbn [orb]; try (intros; apply in_rect_false; lia).
  rewrite !(s32_id (_ + _)) by (unfold in_s32; lia). rewrite !Z.gtb_ltb.
  rewrite (s32_id (sf_w s - x1)), (s32_id (sf_h s - y1)) by (unfold in_s32; lia).
  destruct (clip_span (sf_w s) x w x1 w1) as (Hsx & _ & Hix); [lia..|]. destruct (clip_span (sf_h s) y h y1 h1) as (Hsy & _ & Hiy); [lia..|].
  revert Hsx Hix Hsy Hiy. generalize (if sf_w s <? x1 + w1 then sf_w s - x1 else w1) as w2.
  generalize (if sf_h s <? y1 + h1 then sf_h s - y1 else h1) as h2. intros h2 w2 Hsx Hix Hsy Hiy.
  destruct (Z.ltb_spec 0 w2), (Z.ltb_spec 0 h2); cbn [andb];
    try (intros i j [Hi Hj]; apply in_rect_false; specialize (Hix i Hi); specialize (Hiy j Hj); lia).
  repeat (split; [lia|]). intros i j [Hi Hj]. apply eq_true_iff_eq. rewrite !in_rect_true, (Hix i Hi), (Hiy j Hj). done.
Qed.

(** ** The primitives *)

Lemma gfx_fill_rect_ok s x y w h c :
  surf_ok s -> in_s32 x -> in_s32 y -> in_s32 w -> in_s32 h -> x + w < 2147483648 -> y + h < 2147483648 ->
  exists s', gfx_fill_rect (Some s) x y w h c = Some (Some s') /\ surf_ok s' /\ sf_w s' = sf_w s /\ sf_h s' = sf_h s /\
    forall i j, inside s i j -> pixel s' i j = if in_rect x y w h i j then Some c else pixel s i j.
Proof.
  intros Hs Hx Hy Hw Hh Hxw Hyh. pose proof Hs as (HW & HH & Hl). unfold gfx_fill_rect, on_surface.
  pose proof (clip_rect_ok s x y w h HW HH Hx Hy Hw Hh Hxw Hyh) as Hc.
  destruct (clip_rect s x y w h) as [[[[x' y'] w'] h']|]; cbn [mbind option_bind].
  - destruct Hc as (Hx' & Hw' & Hxw' & Hy' & Hh' & Hyh' & Hr).
    destruct (store_rows_ok (sf_w s) (sf_h s) x' y' w' (Z.to_nat h') 0 (fun _ => Some (replicate (Z.to_nat w') c))
      (fun j => pixel_index (sf_w s) x' (s32 (y' + j))) (fun _ _ => Some c) (sf_px s)) as (px' & -> & Hl' & Hp); try lia.
    { intros j Hj. rewrite s32_id by (unfold in_s32; lia). apply pixel_index_ok; [done|lia|lia]. }
    { intros j Hj. eexists. split; [reflexivity|]. rewrite length_replicate. split; [lia|]. intros i Hi.
      apply lookup_replicate_2. lia. }
    eexists. split; [reflexivity|]. cbn [sf_w sf_h]. split; [unfold surf_ok; cbn; lia|]. split; [done|]. split; [done|].
    intros i j Hij. unfold pixel. cbn [sf_px sf_w]. rewrite Hr by done. rewrite Hp by apply Hij.
    by rewrite Z.add_0_r, Z2Nat.id by lia.
  - exists s. split; [done|]. split; [done|]. split; [done|]. split; [done|]. intros i j Hij. by rewrite Hc.
Qed.

(** ** Presenting: the frame buffer holds the rows the screen is copied to. *)

Record screen_ok (g : gfx_st) : Prop := {
  so_back : surf_ok (g_back g);
  so_pitch : 4 * sf_w (g_back g) <= fb_pitch (g_fb g) < 4294967296;
  so_mem : Z.of_nat (length (fb_mem (g_fb g))) = fb_pitch (g_fb g) * sf_h (g_back g);
}.

Lemma length_pixel_bytes (l : list Z) : length (concat (map (le_bytes 4) l)) = (4 * length l)%nat.
Proof. induction l as [|c l IH]; [done|]. cbn [map concat]. rewrite length_app, length_le_bytes, IH. cbn [length]. lia. Qed.

Lemma gfx_present_rect_ok x y w h g :
  screen_ok g -> in_s32 x -> in_s32 y -> in_s32 w -> in_s32 h -> x + w < 2147483648 -> y + h < 2147483648 ->
  exists g', gfx_present_rect x y w h g = Some g' /\ screen_ok g'.
Proof.
  intros Hg Hx Hy Hw Hh Hxw Hyh. pose proof Hg as [Hs Hp Hm]. pose proof Hs as (HW & HH & Hl). unfold gfx_present_rect.
  destruct (g_ready g); cbn [negb]; [|by exists g].
  pose proof (clip_rect_ok (g_back g) x y w h HW HH Hx Hy Hw Hh Hxw Hyh) as Hc.
  destruct (clip_rect (g_back g) x y w h) as [[[[x' y'] w'] h']|]; [|by exists g]. destruct Hc as (Hx' & Hw' & Hxw' & Hy' & Hh' & Hyh' & _).
  cbv zeta. set (row := fun j => _ : option (list Z)) at 1.
  assert (Hrow : forall j, 0 <= j < h' -> exists l, row j = Some l /\ Z.of_nat (length l) = 4 * w').
  { intros j Hj. unfold row. rewrite s32_id by (unfold in_s32; lia). rewrite pixel_index_ok by (done || lia).
    rewrite load_px_ok by nia. cbn [mbind option_bind]. eexists. split; [reflexivity|]. rewrite length_pixel_bytes.
    unfold slice. rewrite length_take, length_drop. nia. }
  destruct (store_rows_ok (fb_pitch (g_fb g)) (sf_h (g_back g)) (4 * x') y' (4 * w') (Z.to_nat h') 0 row
    (fun j => u64 (u64 (u64 (s32 (y' + j)) * fb_pitch (g_fb g)) + u64 (u64 x' * 4)))
    (fun i j => l ← row (j - y'); l !! Z.to_nat (i - 4 * x')) (fb_mem (g_fb g))) as (mem & -> & Hlm & _); try lia.
  { intros j Hj. rewrite s32_id by (unfold in_s32; lia).
    assert (0 <= (y' + j) * fb_pitch (g_fb g) < 9223372036854775808) by nia.
    rewrite (u64_id (y' + j)), (u64_id x') by word. rewrite (u64_id (_ * _)), (u64_id (x' * 4)) by word. rewrite u64_id by word. lia. }
  { intros j Hj. destruct (Hrow j) as (l & El & E); [lia|]. exists l. split; [done|]. split; [done|]. intros i Hi.
    replace (y' + j - y') with j by lia. by rewrite El. }
  eexists. split; [reflexivity|]. split; cbn; [done|done|lia].
Qed.

(** A copied rectangle lies in both surfaces. *)
Lemma copy_rect_ok dst src dx dy sx sy w h :
  surf_ok dst -> surf_ok src -> 0 <= dx -> 0 < w -> dx + w <= sf_w dst -> 0 <= dy -> 0 < h -> dy + h <= sf_h dst ->
  0 <= sx -> sx + w <= sf_w src -> 0 <= sy -> sy + h <= sf_h src ->
  exists s', copy_rect dst dx dy src sx sy w h = Some s' /\ surf_ok s' /\ sf_w s' = sf_w dst /\ sf_h s' = sf_h dst /\
    forall i j, inside dst i j ->
      pixel s' i j = if in_rect dx dy w h i j then pixel src (i - dx + sx) (j - dy + sy) else pixel dst i j.
Proof.
  intros Hd Hs Hdx Hw Hdw Hdy Hh Hdh Hsx Hsw Hsy Hsh. pose proof Hd as (HW & HH & Hl). pose proof Hs as (HW' & HH' & Hl').
  unfold copy_rect.
  destruct (store_rows_ok (sf_w dst) (sf_h dst) dx dy w (Z.to_nat h) 0
    (fun j => load_px (sf_px src) (pixel_index (sf_w src) sx (s32 (sy + j))) w)
    (fun j => pixel_index (sf_w dst) dx (s32 (dy + j))) (fun i j => pixel src (i - dx + sx) (j - dy + sy)) (sf_px dst))
    as (px' & -> & Hlp & Hp); try lia.
  { intros j Hj. rewrite s32_id by (unfold in_s32; lia). apply pixel_index_ok; [done|lia|lia]. }
  { intros j Hj. rewrite s32_id by (unfold in_s32; lia). rewrite pixel_index_ok by (done || lia).
    rewrite load_px_ok by nia. eexists. split; [reflexivity|]. rewrite slice_length by nia. split; [done|]. intros i Hi.
    rewrite lookup_slice by nia. unfold pixel. f_equal. nia. }
  cbn [mbind option_bind]. eexists. split; [reflexivity|]. cbn [sf_w sf_h]. split; [unfold surf_ok; cbn; lia|].
  split; [done|]. split; [done|]. intros i j Hij. unfold pixel at 1. cbn [sf_px sf_w]. rewrite Hp by apply Hij.
  by rewrite Z.add_0_r, Z2Nat.id by lia.
Qed.

(** Clipping a placement moves the source corner along with it. *)
Lemma clip_dst_ok dst dx dy sx sy w h :
  0 <= sf_w dst < 2147483648 -> 0 <= sf_h dst < 2147483648 -> in_s32 dx -> in_s32 dy ->
  0 <= sx -> 0 <= w -> sx + w < 2147483648 -> 0 <= sy -> 0 <= h -> sy + h < 2147483648 ->
  dx + w < 2147483648 -> dy + h < 2147483648 ->
  match clip_dst dst dx dy sx sy w h with
  | None => forall i j, inside dst i j -> in_rect dx dy w h i j = false
  | Some (dx', dy', sx', sy', w', h') =>
    0 <= dx' /\ 0 < w' /\ dx' + w' <= sf_w dst /\ 0 <= dy' /\ 0 < h' /\ dy' + h' <= sf_h dst /\
    sx <= sx' /\ sx' + w' <= sx + w /\ sy <= sy' /\ sy' + h' <= sy + h /\ sx' - dx' = sx - dx /\ sy' - dy' = sy - dy /\
    forall i j, inside dst i j -> in_rect dx dy w h i j = in_rect dx' dy' w' h' i j
  end.
Proof.
  intros HW HH Hdx Hdy Hsx Hw Hsw Hsy Hh Hsh Hdw Hdh. unfold clip_dst, inside, in_s32 in *.
  assert (Ex : (if dx <? 0 then (s32 (sx - dx), s32 (w + dx), 0) else (sx, w, dx))
    = (if dx <? 0 then s32 (sx - dx) else sx, if dx <? 0 then w + dx else w, Z.max 0 dx)).
  { destruct (Z.ltb_spec dx 0); [rewrite (s32_id (w + dx)) by (unfold in_s32; lia); f_equal; lia|f_equal; lia]. }
  assert (Ey : (if dy <? 0 then (s32 (sy - dy), s32 (h + dy), 0) else (sy, h, dy))
    = (if dy <? 0 then s32 (sy - dy) else sy, if dy <? 0 then h + dy else h, Z.max 0 dy)).
  { destruct (Z.ltb_spec dy 0); [rewrite (s32_id (h + dy)) by (unfold in_s32; lia); f_equal; lia|f_equal; lia]. }
  rewrite Ex, Ey. clear Ex Ey.
  set (sx1 := if dx <? 0 then s32 (sx - dx) else sx). set (w1 := if dx <? 0 then w + dx else w). set (dx1 := Z.max 0 dx).
  set (sy1 := if dy <? 0 then s32 (sy - dy) else sy). set (h1 := if dy <? 0 then h + dy else h). set (dy1 := Z.max 0 dy).
  assert (Ew : dx1 + w1 = dx + w) by (unfold dx1, w1; destruct (Z.ltb_spec dx 0); lia).
  assert (Eh : dy1 + h1 = dy + h) by (unfold dy1, h1; destruct (Z.ltb_spec dy 0); lia).
  assert (Hdx1 : 0 <= dx1 /\ dx <= dx1 /\ (dx1 = dx \/ (dx < 0 /\ dx1 = 0))) by lia.
  assert (Hdy1 : 0 <= dy1 /\ dy <= dy1 /\ (dy1 = dy \/ (dy < 0 /\ dy1 = 0))) by lia.
  assert (Hsx1 : 0 < w1 -> sx1 - dx1 = sx - dx).
  { unfold sx1, w1, dx1. destruct (Z.ltb_spec dx 0); [intros; rewrite s32_id by (unfold in_s32; lia)|]; lia. }
  assert (Hsy1 : 0 < h1 -> sy1 - dy1 = sy - dy).
  { unfold sy1, h1, dy1. destruct (Z.ltb_spec dy 0); [intros; rewrite s32_id by (unfold in_s32; lia)|]; lia. }
  clearbody sx1 w1 dx1 sy1 h1 dy1.
  rewrite !(s32_id (_ + _)) by (unfold in_s32; lia). rewrite !Z.gtb_ltb.
  rewrite (s32_id (sf_w dst - dx1)), (s32_id (sf_h dst - dy1)) by (unfold in_s32; lia).
  destruct (clip_span (sf_w dst) dx w dx1 w1) as (Hcx & Hwx & Hix); [lia..|]. destruct (clip_span (sf_h dst) dy h dy1 h1) as (Hcy & Hwy & Hiy); [lia..|].
  revert Hcx Hwx Hix Hcy Hwy Hiy. generalize (if sf_w dst <? dx1 + w1 then sf_w dst - dx1 else w1) as w2.
  generalize (if sf_h dst <? dy1 + h1 then sf_h dst - dy1 else h1) as h2. intros h2 w2 Hcx Hwx Hix Hcy Hwy Hiy.
  destruct (Z.leb_spec w2 0), (Z.leb_spec h2 0); cbn [orb];
    try (intros i j [Hi Hj]; apply in_rect_false; specialize (Hix i Hi); specialize (Hiy j Hj); lia).
  repeat (split; [lia|]). intros i j [Hi Hj]. apply eq_true_iff_eq. rewrite !in_rect_true, (Hix i Hi), (Hiy j Hj). done.
Qed.

Lemma gfx_blit_ok dst dx dy src :
  surf_ok dst -> surf_ok src -> in_s32 dx -> in_s32 dy -> dx + sf_w src < 2147483648 -> dy + sf_h src < 2147483648 ->
  exists s', gfx_blit (Some dst) dx dy (Some src) = Some (Some s') /\ surf_ok s' /\ sf_w s' = sf_w dst /\ sf_h s' = sf_h dst /\
    forall i j, inside dst i j ->
      pixel s' i j = if in_rect dx dy (sf_w src) (sf_h src) i j then pixel src (i - dx) (j - dy) else pixel dst i j.
Proof.
  intros Hd Hs Hdx Hdy Hw Hh. pose proof Hd as (HW & HH & Hl). pose proof Hs as (HW' & HH' & Hl').
  unfold gfx_blit, on_surface.
  pose proof (clip_dst_ok dst dx dy 0 0 (sf_w src) (sf_h src)) as Hc. specialize (Hc HW HH Hdx Hdy).
  destruct (clip_dst dst dx dy 0 0 (sf_w src) (sf_h src)) as [[[[[[dx' dy'] sx'] sy'] w'] h']|]; cbn [mbind option_bind].
  - destruct Hc as (Hx' & Hw' & Hxw' & Hy' & Hh' & Hyh' & Hsx & Hsw & Hsy & Hsh & Hdx' & Hdy' & Hr); try lia.
    destruct (copy_rect_ok dst src dx' dy' sx' sy' w' h') as (s' & -> & Hok & Ew & Eh & Hp); try done; try lia.
    exists s'. split; [done|]. split; [done|]. split; [done|]. split; [done|].
    intros i j Hij. rewrite Hp, Hr by done. destruct (in_rect dx' dy' w' h' i j); [|done]. f_equal; lia.
  - exists dst. split; [done|]. split; [done|]. split; [done|]. split; [done|]. intros i j Hij. rewrite Hc by (done || lia). done.
Qed.

(** Sprites (glyphs, the cursor) clip pixel by pixel and never fail. *)
Lemma draw_pixel_ok s px py color :
  surf_ok s -> 0 <= py < sf_h s -> exists s', draw_pixel s px py color = Some s' /\ surf_ok s' /\ sf_w s' = sf_w s /\ sf_h s' = sf_h s.
Proof.
  intros Hs Hy. pose proof Hs as (HW & HH & Hl). unfold draw_pixel. rewrite Z.geb_leb.
  destruct (Z.ltb_spec px 0), (Z.leb_spec (sf_w s) px); cbn [orb]; try (by exists s).
  destruct color as [c|]; [|by exists s]. rewrite pixel_index_ok by (done || lia).
  destruct (store_px_ok (sf_px s) (py * sf_w s + px) [c]) as (p & -> & Hl' & _); [nia|cbn [length]; nia|].
  cbn [mbind option_bind]. eexists. split; [reflexivity|]. unfold surf_ok. cbn [sf_w sf_h sf_px]. split; [lia|done].
Qed.
Lemma draw_row_ok n i x py color s :
  surf_ok s -> 0 <= py < sf_h s -> (forall i', i <= i' < i + Z.of_nat n -> is_Some (color i')) ->
  exists s', draw_row n i x py color s = Some s' /\ surf_ok s' /\ sf_w s' = sf_w s /\ sf_h s' = sf_h s.
Proof.
  revert i s. induction n as [|n IH]; intros i s Hs Hy Hc; cbn [draw_row]; [by exists s|].
  destruct (Hc i) as [c ->]; [lia|]. cbn [mbind option_bind].
  destruct (draw_pixel_ok s (s32 (x + i)) py c Hs Hy) as (s1 & -> & Hs1 & Ew & Eh). cbn [mbind option_bind].
  destruct (IH (i + 1) s1 Hs1) as (s2 & -> & Hs2 & Ew2 & Eh2); [lia|intros; apply Hc; lia|]. exists s2. rewrite Ew2, Eh2. done.
Qed.
Lemma draw_sprite_ok n j w x y color s :
  surf_ok s -> (forall j' i', j <= j' < j + Z.of_nat n -> 0 <= i' < Z.of_nat w -> is_Some (color j' i')) ->
  exists s', draw_sprite n j w x y color s = Some s' /\ surf_ok s' /\ sf_w s' = sf_w s /\ sf_h s' = sf_h s.
Proof.
  revert j s. induction n as [|n IH]; intros j s Hs Hc; cbn [draw_sprite]; [by exists s|]. cbv zeta. rewrite Z.geb_leb.
  destruct (Z.ltb_spec (s32 (y + j)) 0), (Z.leb_spec (sf_h s) (s32 (y + j))); cbn [orb mbind option_bind]; try (apply IH; [done|intros; apply Hc; lia]).
  destruct (draw_row_ok w 0 x (s32 (y + j)) (color j) s Hs) as (s1 & -> & Hs1 & Ew & Eh); [lia|intros; apply Hc; lia|]. cbn [mbind option_bind].
  destruct (IH (j + 1) s1 Hs1) as (s2 & -> & Hs2 & Ew2 & Eh2); [intros; apply Hc; lia|]. exists s2. rewrite Ew2, Eh2. done.
Qed.

(** The loops stay inside a glyph of 16 bytes and inside the cursor. *)
Lemma glyph_color_ok glyph fg bg j i : length glyph = 16%nat -> 0 <= j < 16 -> is_Some (glyph_color glyph fg bg j i).
Proof. intros Hg Hj. unfold glyph_color. destruct (lookup_lt_is_Some_2 glyph (Z.to_nat j)) as [b ->]; [lia|]. by eexists. Qed.
Lemma cursor_color_ok j i : 0 <= j < 19 -> 0 <= i < 12 -> is_Some (cursor_color j i).
Proof.
  intros Hj Hi. unfold cursor_color. destruct (lookup_lt_is_Some_2 cursor_map (Z.to_nat j)) as [row E]; [cbn [cursor_map length]; lia|].
  rewrite E. cbn [mbind option_bind]. assert (Hl : Forall (fun r => length r = 12%nat) cursor_map) by (repeat constructor).
  rewrite Forall_lookup in Hl. destruct (lookup_lt_is_Some_2 row (Z.to_nat i)) as [c ->]; [rewrite (Hl _ _ E); lia|]. by eexists.
Qed.
Lemma draw_glyph_ok s x y glyph fg bg :
  surf_ok s -> length glyph = 16%nat ->
  exists s', draw_sprite (Z.to_nat FONT_H) 0 (Z.to_nat FONT_W) x y (glyph_color glyph fg bg) s = Some s' /\
    surf_ok s' /\ sf_w s' = sf_w s /\ sf_h s' = sf_h s.
Proof. intros Hs Hg. apply draw_sprite_ok; [done|]. intros j i Hj _. apply glyph_color_ok; [done|unfold FONT_H in Hj; lia]. Qed.
Lemma draw_cursor_ok s x y :
  surf_ok s -> exists s', draw_sprite 19 0 12 x y cursor_color s = Some s' /\ surf_ok s' /\ sf_w s' = sf_w s /\ sf_h s' = sf_h s.
Proof. intros Hs. apply draw_sprite_ok; [done|]. intros j i Hj Hi. apply cursor_color_ok; lia. Qed.
Lemma draw_text_ok s x y text fg bg :
  surf_ok s -> exists s', gfx_draw_text (Some s) x y text fg bg = Some (Some s') /\ surf_ok s' /\ sf_w s' = sf_w s /\ sf_h s' = sf_h s.
Proof.
  revert s x. induction text as [|c text IH]; intros s x Hs; cbn [gfx_draw_text]; [by exists s|].
  unfold gfx_draw_char, on_surface.
  destruct (screen_glyph_ok (u8 c)) as (glyph & -> & Hg & _); [word|]. cbn [mbind option_bind].
  destruct (draw_glyph_ok s x y glyph fg bg Hs Hg) as (s1 & -> & Hs1 & Ew & Eh).
  cbn [mbind option_bind]. destruct (IH s1 (s32 (x + FONT_W)) Hs1) as (s2 & -> & Hs2 & Ew2 & Eh2).
  exists s2. rewrite Ew2, Eh2. done.
Qed.

(** [gfx_fill_rect], [gfx_blit], [gfx_draw_text] and [gfx_draw_cursor] of gfx/gfx.c: on
    well-formed surfaces and any 32-bit coordinates whose far edges do not
    overflow, filling sets exactly the pixels of the rectangle that lie on the
    surface, copying puts the source's pixels exactly there, text and the
    cursor can be drawn anywhere, and no access leaves a pixel array. *)
Theorem gfx_clipping_correct s src x y w h c text fg bg :
  surf_ok s -> surf_ok src -> in_s32 x -> in_s32 y -> in_s32 w -> in_s32 h ->
  x + w < 2147483648 -> y + h < 2147483648 -> x + sf_w src < 2147483648 -> y + sf_h src < 2147483648 ->
  (exists s', gfx_fill_rect (Some s) x y w h c = Some (Some s') /\ surf_ok s' /\ sf_w s' = sf_w s /\ sf_h s' = sf_h s /\
     forall i j, inside s i j -> pixel s' i j = if in_rect x y w h i j then Some c else pixel s i j) /\
  (exists s', gfx_blit (Some s) x y (Some src) = Some (Some s') /\ surf_ok s' /\ sf_w s' = sf_w s /\ sf_h s' = sf_h s /\
     forall i j, inside s i j ->
       pixel s' i j = if in_rect x y (sf_w src) (sf_h src) i j then pixel src (i - x) (j - y) else pixel s i j) /\
  (exists s', gfx_draw_text (Some s) x y text fg bg = Some (Some s') /\ surf_ok s') /\
  (exists s', gfx_draw_cursor (Some s) x y = Some (Some s') /\ surf_ok s').
Proof.
  intros Hs Hsrc Hx Hy Hw Hh H1 H2 H3 H4. split; [by apply gfx_fill_rect_ok|]. split; [by apply gfx_blit_ok|]. split.
  - destruct (draw_text_ok s x y text fg bg Hs) as (s' & ? & ? & _). by exists s'.
  - unfold gfx_draw_cursor, on_surface. destruct (draw_cursor_ok s x y Hs) as (s' & -> & ? & _). by exists s'.
Qed.

Lemma gfx_clipping_correct_witness :
  let s := Surface 4 3 (replicate 12 0) in
  surf_ok s /\ (exists s', gfx_fill_rect (Some s) (-1) 1 3 9 7 = Some (Some s') /\ pixel s' 1 2 = Some 7 /\ pixel s' 2 2 = Some 0).
Proof.
  cbv zeta. assert (Hs : surf_ok (Surface 4 3 (replicate 12 0))) by (unfold surf_ok; cbn; lia). split; [done|].
  destruct (gfx_clipping_correct (Surface 4 3 (replicate 12 0)) (Surface 1 1 [5]) (-1) 1 3 9 7 [] 0 0)
    as ((s' & E & _ & _ & _ & Hp) & _); try (unfold in_s32; cbn; lia); [done|unfold surf_ok; cbn; lia|].
  exists s'. split; [done|]. split; [rewrite Hp by (unfold inside; cbn; lia)..]; reflexivity.
Defined.
