(* ===== verification/Blk.v ===== *)
(** * Block devices and partition tables

    Models the dispatch [blk_read]/[blk_write] of drivers/ata.c, through which
    every file system reaches the drives, and the MBR and GPT readers above
    it. The drives themselves are hardware: a drive is a map from sector
    numbers to 512-byte sectors, and an I/O command may fail after any number
    of its sectors was transferred, as decided by an oracle over the count of
    commands issued so far. *)

From S2P Require Import Prelude.

Definition ATA_SECTOR_SIZE : Z := 512.
Definition DRIVE_TYPE_ATA : Z := 0.
Definition DRIVE_TYPE_NVME : Z := 1.
Definition DRIVE_TYPE_AHCI : Z := 2.
Definition DRIVE_TYPE_VBLK : Z := 3.

(** The driver a drive type is dispatched to: the three special types have
    their own, everything else goes to ATA. *)
Inductive driver := DrvNvme | DrvAhci | DrvVblk | DrvAta.
Global Instance driver_eq_dec : EqDecision driver.
Proof. solve_decision. Defined.
Global Instance driver_countable : Countable driver.
Proof.
  refine (inj_countable' (fun d => match d with DrvNvme => 0%nat | DrvAhci => 1%nat | DrvVblk => 2%nat | DrvAta => 3%nat end)
    (fun n => match n with 0%nat => DrvNvme | 1%nat => DrvAhci | 2%nat => DrvVblk | _ => DrvAta end) _). by intros [].
Defined.

Definition blk_driver (type : Z) : driver :=
  if type =? DRIVE_TYPE_NVME then DrvNvme
  else if type =? DRIVE_TYPE_AHCI then DrvAhci
  else if type =? DRIVE_TYPE_VBLK then DrvVblk
  else DrvAta.

(** All the drives, and the number of commands issued. *)
Record dev := Dev {
  dv_sectors : gmap (driver * Z * Z) (list Z);
  dv_tick : nat;
}.

Definition sector_at (d : dev) (drv : driver) (drive lba : Z) : list Z :=
  default (replicate 512 0) (dv_sectors d !! (drv, drive, lba)).

(** [n] consecutive sectors from [lba], and their replacement by the bytes of
    [buf]. *)
Fixpoint sectors_at (d : dev) (drv : driver) (drive lba : Z) (n : nat) : list Z :=
  match n with
  | O => []
  | S n => sector_at d drv drive lba ++ sectors_at d drv drive (lba + 1) n
  end.
Fixpoint put_sectors (m : gmap (driver * Z * Z) (list Z)) (drv : driver) (drive lba : Z) (n : nat) (buf : list Z)
    : gmap (driver * Z * Z) (list Z) :=
  match n with
  | O => m
  | S n => put_sectors (<[(drv, drive, lba) := take 512 buf]> m) drv drive (lba + 1) n (drop 512 buf)
  end.

(** A state that contains the drives. *)
Class HasDev (St : Type) := {
  get_dev : St -> dev;
  set_dev : dev -> St -> St;
  get_set_dev : forall d s, get_dev (set_dev d s) = d;
  set_set_dev : forall d d' s, set_dev d (set_dev d' s) = set_dev d s;
  set_get_dev : forall s, set_dev (get_dev s) s = s;
}.

(** The drives alone. *)
#[export] Program Instance dev_has_dev : HasDev dev := {| get_dev d := d; set_dev d _ := d |}.
Solve Obligations with done.

Section Blk.
Context {St : Type} `{!HasDev St}.
(** [fault k = Some n]: command number [k] fails after [n] sectors. *)
Context (fault : nat -> option nat).

(** The bytes read; [None] is the -1 of a failed command (whose buffer no
    caller looks at). The ATA driver refuses a command of no sectors, the
    others have nothing to do for it. *)
Definition empty_ok (type : Z) : bool := negb (bool_decide (blk_driver type = DrvAta)).
Definition blk_read (type drive lba count : Z) : M St (option (list Z)) := fun s =>
  let d := get_dev s in
  let s' := set_dev (Dev (dv_sectors d) (S (dv_tick d))) s in
  let n := Z.to_nat (u8 count) in
  if (n =? 0)%nat then Some (if empty_ok type then Some [] else None, s)
  else match fault (dv_tick d) with
       | Some _ => Some (None, s')
       | None => Some (Some (sectors_at d (blk_driver type) (u8 drive) (u64 lba) n), s')
       end.

(** Whether the write succeeded; a failed one has written a prefix. *)
Definition blk_write (type drive lba count : Z) (buf : list Z) : M St bool := fun s =>
  let d := get_dev s in
  let n := Z.to_nat (u8 count) in
  if (n =? 0)%nat then Some (empty_ok type, s)
  else
    let '(ok, k) := match fault (dv_tick d) with Some j => (false, Nat.min j (n - 1)) | None => (true, n) end in
    Some (ok, set_dev (Dev (put_sectors (dv_sectors d) (blk_driver type) (u8 drive) (u64 lba) k buf) (S (dv_tick d))) s).

(** ** Partition tables *)

Definition PART_SCHEME_NONE : Z := 0.
Definition PART_SCHEME_MBR : Z := 1.
Definition PART_SCHEME_GPT : Z := 2.

(** The 16-byte entry [i] of the table in a boot sector, and its type byte. *)
Definition mbr_entry (mbr : list Z) (i : Z) : list Z := slice mbr (446 + 16 * i) 16.
Definition part_type (e : list Z) : Z := get8 e 4.

Definition blk_detect_scheme (type drive : Z) : M St Z :=
  r ← blk_read type drive 0 1;
  match r with
  | None => mret PART_SCHEME_NONE
  | Some mbr =>
    if negb (get8 mbr 510 =? 0x55) || negb (get8 mbr 511 =? 0xAA) then mret PART_SCHEME_NONE
    else if existsb (fun i => part_type (mbr_entry mbr i) =? 0xEE) [0; 1; 2; 3] then mret PART_SCHEME_GPT
    else mret PART_SCHEME_MBR
  end.

(** The four entries, or the error code. *)
Definition blk_read_mbr_partitions (type drive : Z) : M St (Z + list (list Z)) :=
  r ← blk_read type drive 0 1;
  match r with
  | None => mret (inl (-1))
  | Some mbr =>
    if negb (get8 mbr 510 =? 0x55) || negb (get8 mbr 511 =? 0xAA) then mret (inl (-2))
    else mret (inr (map (mbr_entry mbr) [0; 1; 2; 3]))
  end.

Definition guid_is_zero (g : list Z) : bool := forallb (fun b => b =? 0) (take 16 g).

(** The loop over the entries: [i] the entry, [sec_buf] the sector last read,
    [found] the non-empty entries so far. *)
Fixpoint gpt_loop (n : nat) (type drive entry_lba entry_size entries_per_sector i : Z) (sec_buf : list Z)
    (found : list (list Z)) : M St (Z + list (list Z)) :=
  match n with
  | O => mret (inr found)
  | S n =>
    let sec_idx := i / entries_per_sector in
    let sec_off := i mod entries_per_sector * entry_size in
    r ← (if sec_off =? 0 then blk_read type drive (u64 (entry_lba + sec_idx)) 1 else mret (Some sec_buf));
    match r with
    | None => mret (inl (-1))
    | Some sec_buf =>
      let pe := slice sec_buf sec_off 128 in
      let found := if guid_is_zero pe then found else found ++ [pe] in
      gpt_loop n type drive entry_lba entry_size entries_per_sector (i + 1) sec_buf found
    end
  end.

Definition gpt_signature : list Z := [69; 70; 73; 32; 80; 65; 82; 84].

Definition blk_read_gpt (type drive max : Z) : M St (Z + list (list Z)) :=
  r ← blk_read type drive 1 1;
  match r with
  | None => mret (inl (-1))
  | Some hdr =>
    if negb (bool_decide (take 8 hdr = gpt_signature)) then mret (inl (-2))
    else
      let entry_lba := get64 hdr 72 in
      let num_entries := get32 hdr 80 in
      let entry_size := get32 hdr 84 in
      if (entry_size <? 128) || (entry_size >? 512) then mret (inl (-3))
      else
        let num_entries := if num_entries >? u32 max then u32 max else num_entries in
        gpt_loop (Z.to_nat num_entries) type drive entry_lba entry_size (512 / entry_size) 0
          (replicate 512 0) []
  end.

(** The ATA-only copies of the readers, for the primary drives. *)
Definition ata_detect_scheme (drive : Z) : M St Z := blk_detect_scheme DRIVE_TYPE_ATA drive.
Definition ata_read_gpt (drive max : Z) : M St (Z + list (list Z)) := blk_read_gpt DRIVE_TYPE_ATA drive max.
Definition ata_read_partitions (drive : Z) : M St (Z + list (list Z)) := blk_read_mbr_partitions DRIVE_TYPE_ATA drive.
End Blk.

(** ** Names *)

(** A GUID is its 16 bytes as they lie on the disk. *)
Definition guid (data1 data2 data3 : Z) (data4 : list Z) : list Z := le_bytes 4 data1 ++ le_bytes 2 data2 ++ le_bytes 2 data3 ++ data4.
Definition GUID_EFI_SYSTEM : list Z := guid 0xC12A7328 0xF81F 0x11D2 [0xBA; 0x4B; 0x00; 0xA0; 0xC9; 0x3E; 0xC9; 0x3B].
Definition GUID_MS_BASIC_DATA : list Z := guid 0xEBD0A0A2 0xB9E5 0x4433 [0x87; 0xC0; 0x68; 0xB6; 0xB7; 0x26; 0x99; 0xC7].
Definition GUID_LINUX_FS : list Z := guid 0x0FC63DAF 0x8483 0x4772 [0x8E; 0x79; 0x3D; 0x69; 0xD8; 0x47; 0x7D; 0xE4].
Definition GUID_LINUX_SWAP : list Z := guid 0x0657FD6D 0xA4AB 0x43C4 [0x84; 0xE5; 0x09; 0x33; 0xC8; 0x4B; 0x4F; 0x4F].
Definition GUID_LINUX_LVM : list Z := guid 0xE6D6D379 0xF507 0x44C2 [0xA2; 0x3C; 0x23; 0x8F; 0x2A; 0x3D; 0xF9; 0x28].
Definition GUID_MS_RESERVED : list Z := guid 0xE3C9E316 0x0B5C 0x4DB8 [0x81; 0x7D; 0xF9; 0x2D; 0xF0; 0x02; 0x15; 0xAE].
Definition GUID_BIOS_BOOT : list Z := guid 0x21686148 0x6449 0x6E6F [0x74; 0x4E; 0x65; 0x65; 0x64; 0x45; 0x46; 0x49].
Definition guid_eq (a b : list Z) : bool := bool_decide (take 16 a = take 16 b).
Definition gpt_type_name (type : list Z) : string :=
  if guid_is_zero type then "Empty"
  else if guid_eq type GUID_EFI_SYSTEM then "EFI System"
  else if guid_eq type GUID_MS_BASIC_DATA then "Microsoft Basic Data"
  else if guid_eq type GUID_LINUX_FS then "Linux filesystem"
  else if guid_eq type GUID_LINUX_SWAP then "Linux swap"
  else if guid_eq type GUID_LINUX_LVM then "Linux LVM"
  else if guid_eq type GUID_MS_RESERVED then "Microsoft Reserved"
  else if guid_eq type GUID_BIOS_BOOT then "BIOS Boot"
  else "Unknown".

Definition partition_type_name (type : Z) : string :=
  if type =? 0x00 then "Empty"
  else if type =? 0x01 then "FAT12"
  else if type =? 0x04 then "FAT16 <32M"
  else if type =? 0x05 then "Extended"
  else if type =? 0x06 then "FAT16"
  else if type =? 0x07 then "NTFS/HPFS"
  else if type =? 0x0B then "FAT32"
  else if type =? 0x0C then "FAT32 LBA"
  else if type =? 0x0E then "FAT16 LBA"
  else if type =? 0x0F then "Extended LBA"
  else if type =? 0x11 then "Hidden FAT12"
  else if type =? 0x14 then "Hidden FAT16 <32M"
  else if type =? 0x16 then "Hidden FAT16"
  else if type =? 0x1B then "Hidden FAT32"
  else if type =? 0x1C then "Hidden FAT32 LBA"
  else if type =? 0x1E then "Hidden FAT16 LBA"
  else if type =? 0x82 then "Linux swap"
  else if type =? 0x83 then "Linux"
  else if type =? 0x85 then "Linux extended"
  else if type =? 0x8E then "Linux LVM"
  else if type =? 0xEE then "GPT Protective"
  else if type =? 0xEF then "EFI System"
  else "Unknown".
