(* ===== verification/BlkProofs.v ===== *)
(** * Block devices: lemmas

    What a command does to the drives when no command fails: a read returns
    the sectors as they are, a write replaces them and leaves every other
    sector alone. Shared by the file systems' proofs. *)

From S2P Require Import Prelude Blk.

(** ** Sectors *)

Definition dev_sectors_ok (d : dev) : Prop :=
  forall k b, dv_sectors d !! k = Some b -> length b = 512%nat /\ bytes b.

Lemma zero_sector_ok : length (replicate 512 0) = 512%nat /\ bytes (replicate 512 0).
Proof. split; [done|]. apply Forall_replicate. word. Qed.

Lemma sector_at_ok d drv drive lba : dev_sectors_ok d -> length (sector_at d drv drive lba) = 512%nat /\ bytes (sector_at d drv drive lba).
Proof.
  intros Hd. unfold sector_at. destruct (dv_sectors d !! (drv, drive, lba)) as [b|] eqn:E; cbn [default]; [by apply (Hd _ _ E)|].
  apply zero_sector_ok.
Qed.

Lemma sector_at_insert d drv drive lba b drv' drive' lba' :
  sector_at (Dev (<[(drv, drive, lba) := b]> (dv_sectors d)) (dv_tick d)) drv' drive' lba' =
    if decide ((drv, drive, lba) = (drv', drive', lba')) then b else sector_at d drv' drive' lba'.
Proof.
  unfold sector_at. cbn [dv_sectors]. case_decide as E; [by rewrite E, lookup_insert_eq|by rewrite lookup_insert_ne].
Qed.

Definition tick_dev (d : dev) : dev := Dev (dv_sectors d) (S (dv_tick d)).
Definition write_dev (d : dev) (k : driver * Z * Z) (b : list Z) : dev := Dev (<[k := b]> (dv_sectors d)) (S (dv_tick d)).

Lemma sector_at_write d k b drv drive lba :
  sector_at (write_dev d k b) drv drive lba = if decide (k = (drv, drive, lba)) then b else sector_at d drv drive lba.
Proof. destruct k as [[drv' drive'] lba']. apply (sector_at_insert d). Qed.

Lemma length_sectors_at d drv drive lba n : dev_sectors_ok d -> length (sectors_at d drv drive lba n) = (512 * n)%nat.
Proof.
  intros Hd. revert lba. induction n as [|n IH]; intros lba; cbn [sectors_at]; [done|].
  rewrite length_app, IH. destruct (sector_at_ok d drv drive lba Hd) as [-> _]. lia.
Qed.

Lemma sectors_at_app d drv drive lba n m :
  sectors_at d drv drive lba (n + m) = sectors_at d drv drive lba n ++ sectors_at d drv drive (lba + Z.of_nat n) m.
Proof.
  revert lba. induction n as [|n IH]; intros lba; cbn [sectors_at Nat.add app]; [f_equal; lia|].
  rewrite IH, app_assoc. replace (lba + 1 + Z.of_nat n) with (lba + Z.of_nat (S n)) by lia. done.
Qed.

Lemma sectors_at_sub d drv drive lba n a b :
  dev_sectors_ok d -> 0 <= a -> 0 <= b -> a + b <= Z.of_nat n ->
  sectors_at d drv drive (lba + a) (Z.to_nat b) = slice (sectors_at d drv drive lba n) (a * 512) (b * 512).
Proof.
  intros Hd Ha Hb Hab. replace n with (Z.to_nat a + (Z.to_nat b + (n - Z.to_nat a - Z.to_nat b)))%nat by lia.
  rewrite !sectors_at_app. pose proof (length_sectors_at d drv drive lba (Z.to_nat a) Hd) as L1.
  rewrite slice_app_r by lia. rewrite L1. replace (a * 512 - Z.of_nat (512 * Z.to_nat a)) with 0 by lia.
  rewrite Z2Nat.id by done. pose proof (length_sectors_at d drv drive (lba + a) (Z.to_nat b) Hd) as L2.
  rewrite slice_app_l by lia. replace (b * 512) with (Z.of_nat (length (sectors_at d drv drive (lba + a) (Z.to_nat b)))) by lia.
  by rewrite slice_all.
Qed.

(** Reading depends on the sectors only. *)
Lemma sectors_at_ext d d' drv drive lba n :
  (forall i, lba <= i < lba + Z.of_nat n -> sector_at d' drv drive i = sector_at d drv drive i) ->
  sectors_at d' drv drive lba n = sectors_at d drv drive lba n.
Proof.
  revert lba. induction n as [|n IH]; intros lba Hs; cbn [sectors_at]; [done|].
  rewrite (Hs lba) by lia. f_equal. apply IH. intros i Hi. apply Hs. lia.
Qed.

Lemma bytes_sectors_at d drv drive lba n : dev_sectors_ok d -> bytes (sectors_at d drv drive lba n).
Proof.
  intros Hd. revert lba. induction n as [|n IH]; intros lba; cbn [sectors_at]; [constructor|].
  apply Forall_app. split; [by apply sector_at_ok|apply IH].
Qed.

(** Writing [n] sectors. *)
Definition put_dev (d : dev) (drv : driver) (drive lba : Z) (n : nat) (buf : list Z) : dev :=
  Dev (put_sectors (dv_sectors d) drv drive lba n buf) (S (dv_tick d)).

Lemma sector_at_put d drv drive lba n buf lba' :
  length buf = (512 * n)%nat ->
  sector_at (put_dev d drv drive lba n buf) drv drive lba' =
    if (lba <=? lba') && (lba' <? lba + Z.of_nat n) then slice buf (512 * (lba' - lba)) 512 else sector_at d drv drive lba'.
Proof.
  unfold put_dev. generalize (S (dv_tick d)) as t. intros t. destruct d as [m t0].
  revert m lba buf. induction n as [|n IH]; intros m lba buf Hl.
  - destruct (Z.leb_spec lba lba'), (Z.ltb_spec lba' (lba + Z.of_nat 0)); cbn [andb]; (done || lia).
  - cbn [put_sectors dv_sectors] in *. rewrite (IH _ (lba + 1) (drop 512 buf)) by (rewrite length_drop; lia).
    destruct (Z.leb_spec (lba + 1) lba'), (Z.ltb_spec lba' (lba + 1 + Z.of_nat n)), (Z.leb_spec lba lba'),
      (Z.ltb_spec lba' (lba + Z.of_nat (S n))); cbn [andb]; try lia.
    + unfold slice. rewrite drop_drop. do 2 f_equal. lia.
    + unfold sector_at. cbn [dv_sectors]. by rewrite lookup_insert_ne by (intros [= ?]; lia).
    + assert (lba' = lba) as -> by lia. unfold sector_at. cbn [dv_sectors]. rewrite lookup_insert_eq. cbn [default].
      unfold slice. by replace (512 * (lba - lba)) with 0 by lia.
    + unfold sector_at. cbn [dv_sectors]. by rewrite lookup_insert_ne by (intros [= ?]; lia).
Qed.

Lemma put_dev_ok d drv drive lba n buf :
  dev_sectors_ok d -> length buf = (512 * n)%nat -> bytes buf -> dev_sectors_ok (put_dev d drv drive lba n buf).
Proof.
  unfold put_dev, dev_sectors_ok. cbn [dv_sectors]. generalize (dv_sectors d) as m. intros m Hm. revert m lba buf Hm.
  induction n as [|n IH]; intros m lba buf Hm Hl Hb; cbn [put_sectors]; [done|].
  apply IH; [|rewrite length_drop; lia|by apply Forall_drop]. intros k b [[<- <-]|[_ Hk]]%lookup_insert_Some; [|by apply (Hm k)].
  split; [rewrite length_take; lia|by apply Forall_take].
Qed.

(** What was written is read back. *)
Lemma sectors_at_put_same d drv drive lba n buf :
  length buf = (512 * n)%nat -> sectors_at (put_dev d drv drive lba n buf) drv drive lba n = buf.
Proof.
  intros Hl. enough (forall k (l : list Z) i, buf = l ++ drop (length l) buf -> length l = (512 * i)%nat -> (i + k = n)%nat ->
    l ++ sectors_at (put_dev d drv drive lba n buf) drv drive (lba + Z.of_nat i) k = buf) as H.
  { specialize (H n [] 0%nat eq_refl eq_refl eq_refl). by rewrite Z.add_0_r in H. }
  induction k as [|k IH]; intros l i Hb Hi Hk; cbn [sectors_at].
  - rewrite app_nil_r. rewrite Hb. rewrite (drop_ge buf) by lia. by rewrite app_nil_r.
  - rewrite sector_at_put by done. destruct (Z.leb_spec lba (lba + Z.of_nat i)), (Z.ltb_spec (lba + Z.of_nat i) (lba + Z.of_nat n)); [|lia..].
    cbn [andb]. rewrite app_assoc. replace (lba + Z.of_nat i + 1) with (lba + Z.of_nat (S i)) by lia.
    assert (E : slice buf (512 * (lba + Z.of_nat i - lba)) 512 = take 512 (drop (length l) buf)).
    { unfold slice. f_equal. f_equal. lia. }
    rewrite E. apply IH; [|rewrite length_app, length_take, length_drop; lia|lia].
    rewrite length_app, length_take, length_drop, Nat.min_l by lia. rewrite <- app_assoc, <- drop_drop, take_drop. done.
Qed.

Lemma sectors_at_put_disj d drv drive lba n buf lba' n' :
  length buf = (512 * n)%nat -> lba' + Z.of_nat n' <= lba \/ lba + Z.of_nat n <= lba' ->
  sectors_at (put_dev d drv drive lba n buf) drv drive lba' n' = sectors_at d drv drive lba' n'.
Proof.
  intros Hl Hd. apply sectors_at_ext. intros i Hi. rewrite sector_at_put by done.
  destruct (Z.leb_spec lba i), (Z.ltb_spec i (lba + Z.of_nat n)); cbn [andb]; (done || lia).
Qed.

(** ** Fixed-size pieces of a concatenation *)

Lemma slice_pieces (f : nat -> list Z) sz n k off m :
  0 < sz -> (forall i, (i < n)%nat -> Z.of_nat (length (f i)) = sz) -> (k < n)%nat -> 0 <= off -> 0 <= m -> off + m <= sz ->
  slice (concat (map f (seq 0 n))) (Z.of_nat k * sz + off) m = slice (f k) off m.
Proof.
  intros Hsz Hf Hk Ho Hm Hend. revert f Hf k Hk. induction n as [|n IH]; intros f Hf k Hk; [lia|]. cbn [seq map concat].
  destruct k as [|k].
  - apply slice_app_l; [lia|lia|]. rewrite Hf by lia. lia.
  - rewrite slice_app_r by (rewrite ?Hf by lia; nia). rewrite Hf, <- seq_shift, map_map by lia.
    replace (Z.of_nat (S k) * sz + off - sz) with (Z.of_nat k * sz + off) by lia. apply (IH (fun i => f (S i))); [intros; apply Hf; lia|lia].
Qed.

Lemma length_pieces (f : nat -> list Z) sz n :
  (forall i, (i < n)%nat -> Z.of_nat (length (f i)) = sz) -> Z.of_nat (length (concat (map f (seq 0 n)))) = Z.of_nat n * sz.
Proof.
  intros Hf. revert f Hf. induction n as [|n IH]; intros f Hf; [done|]. cbn [seq map concat].
  rewrite length_app, Nat2Z.inj_add, Hf, <- seq_shift, map_map, (IH (fun i => f (S i))) by (intros; try apply Hf; lia). lia.
Qed.

(** ** Commands that do not fail *)

Section Io.
Context {St : Type} `{!HasDev St} (fault : nat -> option nat) (nofault : forall k, fault k = None).

Lemma blk_read_ok type drive lba count (s : St) :
  0 <= drive < 256 -> in_u64 lba -> 1 <= count < 256 ->
  blk_read fault type drive lba count s =
    Some (Some (sectors_at (get_dev s) (blk_driver type) drive lba (Z.to_nat count)), set_dev (tick_dev (get_dev s)) s).
Proof.
  intros Hd Hl Hc. unfold blk_read. rewrite !u8_id, u64_id by (done || word). rewrite nofault.
  by destruct (Nat.eqb_spec (Z.to_nat count) 0); [lia|].
Qed.

Lemma blk_write_ok type drive lba count buf (s : St) :
  0 <= drive < 256 -> in_u64 lba -> 1 <= count < 256 ->
  blk_write fault type drive lba count buf s =
    Some (true, set_dev (put_dev (get_dev s) (blk_driver type) drive lba (Z.to_nat count) buf) s).
Proof.
  intros Hd Hl Hc. unfold blk_write. rewrite !u8_id, u64_id by (done || word). rewrite nofault.
  by destruct (Nat.eqb_spec (Z.to_nat count) 0); [lia|].
Qed.
End Io.
