(* ===== verification/Fat32.v ===== *)
(** * The FAT32 driver

    Models fs/fat32.c over the block devices of Blk.v: the one-sector FAT
    cache, chain following, allocation, directory scanning, reading, writing,
    creation, renaming, deletion, mounting and defragmentation. A pointer to a
    pool element ([fs_pool], [node_pool], [finfo_pool]) is its index; the
    scratch buffers the code overwrites before every use are local values, the
    FAT cache [fat_buf] with its key is part of the state. Loops that follow
    a cluster chain take fuel: on a cyclic chain the C loop does not end.
    [None] is divergence or a dereference of NULL or a bad index. *)

From S2P Require Import Prelude Blk.

Definition MAX_FAT32_FS : Z := 4.
Definition MAX_VFS_NODES : Z := 128.
Definition FAT32_MAX_CLUSTER_SECTORS : Z := 128.
Definition FAT32_ATTR_VOLUME_ID : Z := 0x08.
Definition FAT32_ATTR_DIRECTORY : Z := 0x10.
Definition FAT32_ATTR_ARCHIVE : Z := 0x20.
Definition FAT32_ATTR_LFN : Z := 0x0F.
Definition FAT32_EOC : Z := 0x0FFFFFF8.
Definition VFS_FILE : Z := 0x01.
Definition VFS_DIRECTORY : Z := 0x02.
Definition VFS_MOUNTPOINT : Z := 0x04.
Definition MAX_FILENAME : Z := 128.
Definition FS_FAT32 : Z := 2.

(** ** State *)

Record fat32_fs_t := Fs {
  fs_drive : Z;
  fs_drive_type : Z;
  fs_part_lba : Z;
  fs_spc : Z;                  (* [sectors_per_cluster] *)
  fs_reserved : Z;
  fs_num_fats : Z;
  fs_fat_size : Z;
  fs_root_cluster : Z;
  fs_fat_start : Z;
  fs_data_start : Z;
  fs_total_sectors : Z;
  fs_total_clusters : Z;
  fs_hint : Z;                 (* [next_free_hint] *)
  fs_label : list Z;           (* [volume_label], trimmed *)
}.

Record fat32_file_info_t := Finfo {
  fi_fs : nat;
  fi_has_dirent : bool;
  fi_lba : Z;
  fi_off : Z;
}.

(** Which callbacks of a node are set: those of a directory, those of a file,
    or none yet. *)
Inductive node_ops := OpsNone | OpsDir | OpsFile.

Record vfs_node_t := Node {
  n_name : list Z;
  n_type : Z;
  n_size : Z;
  n_inode : Z;
  n_ops : node_ops;
  n_parent : option nat;
  n_private : option nat;      (* [fs_private], an index in [finfo_pool] *)
}.
Definition node0 : vfs_node_t := Node [] 0 0 0 OpsNone None None.
Definition finfo0 : fat32_file_info_t := Finfo 0 false 0 0.
Definition fs0 : fat32_fs_t := Fs 0 0 0 0 0 0 0 0 0 0 0 0 0 [].

Record fat_st := Fat {
  ft_dev : dev;
  ft_fs : list fat32_fs_t;           (* the used part of each pool *)
  ft_nodes : list vfs_node_t;
  ft_finfo : list fat32_file_info_t;
  ft_buf : list Z;                   (* [fat_buf] *)
  ft_key : Z * Z * Z;                (* [cached_fat_lba], [_drive_type], [_drive] *)
}.

Definition fat_boot (d : dev) : fat_st :=
  Fat d [] [] [] (replicate 512 0) (18446744073709551615, 0xFF, 0xFF).

Global Program Instance fat_has_dev : HasDev fat_st := {|
  get_dev := ft_dev;
  set_dev d s := Fat d (ft_fs s) (ft_nodes s) (ft_finfo s) (ft_buf s) (ft_key s) |}.
Solve Obligations with by intros; try destruct s.

Definition set_fs (fs : list fat32_fs_t) (s : fat_st) : fat_st :=
  Fat (ft_dev s) fs (ft_nodes s) (ft_finfo s) (ft_buf s) (ft_key s).
Definition set_nodes (ns : list vfs_node_t) (s : fat_st) : fat_st :=
  Fat (ft_dev s) (ft_fs s) ns (ft_finfo s) (ft_buf s) (ft_key s).
Definition set_finfo (fi : list fat32_file_info_t) (s : fat_st) : fat_st :=
  Fat (ft_dev s) (ft_fs s) (ft_nodes s) fi (ft_buf s) (ft_key s).
Definition set_cache (buf : list Z) (key : Z * Z * Z) (s : fat_st) : fat_st :=
  Fat (ft_dev s) (ft_fs s) (ft_nodes s) (ft_finfo s) buf key.

(** Dereferencing a pool pointer. *)
Definition get_fs (i : nat) : M fat_st fat32_fs_t := fun s => fs ← ft_fs s !! i; Some (fs, s).
Definition get_node (i : nat) : M fat_st vfs_node_t := fun s => n ← ft_nodes s !! i; Some (n, s).
Definition get_finfo (i : nat) : M fat_st fat32_file_info_t := fun s => f ← ft_finfo s !! i; Some (f, s).

Definition with_hint (h : Z) (f : fat32_fs_t) : fat32_fs_t :=
  Fs (fs_drive f) (fs_drive_type f) (fs_part_lba f) (fs_spc f) (fs_reserved f) (fs_num_fats f) (fs_fat_size f)
    (fs_root_cluster f) (fs_fat_start f) (fs_data_start f) (fs_total_sectors f) (fs_total_clusters f) h (fs_label f).
Definition set_hint (i : nat) (h : Z) : M fat_st unit := modify (fun s => set_fs (alter (with_hint h) i (ft_fs s)) s).
Definition upd_node (i : nat) (f : vfs_node_t -> vfs_node_t) : M fat_st unit :=
  modify (fun s => set_nodes (alter f i (ft_nodes s)) s).
Definition with_inode (v : Z) (n : vfs_node_t) : vfs_node_t :=
  Node (n_name n) (n_type n) (n_size n) v (n_ops n) (n_parent n) (n_private n).
Definition with_size (v : Z) (n : vfs_node_t) : vfs_node_t :=
  Node (n_name n) (n_type n) v (n_inode n) (n_ops n) (n_parent n) (n_private n).

(** ** Pools: a zeroed element, or nothing when the pool is used up *)

Definition alloc_node : M fat_st (option nat) := fun s =>
  if Z.of_nat (length (ft_nodes s)) >=? MAX_VFS_NODES then Some (None, s)
  else Some (Some (length (ft_nodes s)), set_nodes (ft_nodes s ++ [node0]) s).
Definition alloc_finfo : M fat_st (option nat) := fun s =>
  if Z.of_nat (length (ft_finfo s)) >=? MAX_VFS_NODES then Some (None, s)
  else Some (Some (length (ft_finfo s)), set_finfo (ft_finfo s ++ [finfo0]) s).
Definition alloc_fs : M fat_st (option nat) := fun s =>
  if Z.of_nat (length (ft_fs s)) >=? MAX_FAT32_FS then Some (None, s)
  else Some (Some (length (ft_fs s)), set_fs (ft_fs s ++ [fs0]) s).

Section Fat32.
Context (fault : nat -> option nat).

(** Rounds allowed to each chain-following loop. *)
Context (fuel : nat).

Abbreviation fs_read fs lba count := (blk_read (St := fat_st) fault (fs_drive_type fs) (fs_drive fs) lba count).
Abbreviation fs_write fs lba count buf := (blk_write (St := fat_st) fault (fs_drive_type fs) (fs_drive fs) lba count buf).

Definition cluster_to_lba (fs : fat32_fs_t) (cluster : Z) : Z :=
  u64 (fs_data_start fs + u64 (u32 (cluster - 2) * fs_spc fs)).

(** ** The FAT *)

Definition fat32_next_cluster (fs : fat32_fs_t) (cluster : Z) : M fat_st Z :=
  let fat_offset := u32 (cluster * 4) in
  let fat_sector := u64 (fs_fat_start fs + fat_offset / 512) in
  let entry_off := fat_offset mod 512 in
  let key := (fat_sector, fs_drive_type fs, fs_drive fs) in
  k ← gets ft_key;
  ok ← (if decide (key = k) then mret true
        else
          r ← fs_read fs fat_sector 1;
          match r with
          | None => mret false
          | Some buf => modify (set_cache buf key);; mret true
          end);
  if ok : bool then
    buf ← gets ft_buf;
    mret (Z.land (get32 buf entry_off) 0x0FFFFFFF)
  else mret FAT32_EOC.

(** The entry with its reserved top bits kept. *)
Definition fat_merge (value old : Z) : Z := Z.lor (Z.land value 0x0FFFFFFF) (Z.land old 0xF0000000).

(** The loop over the FAT copies from [copy]. *)
Fixpoint set_copies (n : nat) (fs : fat32_fs_t) (copy sector_idx entry_off value : Z) : M fat_st bool :=
  match n with
  | O => mret true
  | S n =>
    let fat_sector := u64 (fs_fat_start fs + u64 (copy * fs_fat_size fs) + sector_idx) in
    r ← fs_read fs fat_sector 1;
    match r with
    | None => mret false
    | Some buf =>
      let old := get32 buf entry_off in
      ok ← fs_write fs fat_sector 1 (put32 buf entry_off (fat_merge value old));
      if ok : bool then set_copies n fs (copy + 1) sector_idx entry_off value else mret false
    end
  end.

(** [true] is the 0 of success. *)
Definition fat32_set_fat_entry (fs : fat32_fs_t) (cluster value : Z) : M fat_st bool :=
  let fat_offset := u32 (cluster * 4) in
  let sector_idx := fat_offset / 512 in
  let entry_off := fat_offset mod 512 in
  ok ← set_copies (Z.to_nat (fs_num_fats fs)) fs 0 sector_idx entry_off value;
  if ok : bool then
    modify (fun s =>
      let primary_sector := u64 (fs_fat_start fs + sector_idx) in
      if decide ((primary_sector, fs_drive_type fs, fs_drive fs) = ft_key s) then
        let old := get32 (ft_buf s) entry_off in
        set_cache (put32 (ft_buf s) entry_off (fat_merge value old)) (ft_key s) s
      else s);;
    mret true
  else mret false.

(** One of the two search loops of [fat32_alloc_cluster]: clusters [c],
    [c + 1], ..., [n] of them. [Some r] is the function's return value. *)
Fixpoint alloc_scan (n : nat) (fsi : nat) (c : Z) : M fat_st (option Z) :=
  match n with
  | O => mret None
  | S n =>
    fs ← get_fs fsi;
    next ← fat32_next_cluster fs c;
    if next =? 0 then
      ok ← fat32_set_fat_entry fs c FAT32_EOC;
      if ok : bool then set_hint fsi (u32 (c + 1));; mret (Some c) else mret (Some 0)
    else alloc_scan n fsi (c + 1)
  end.

(** Where a search starts. *)
Definition alloc_start (fs : fat32_fs_t) : Z :=
  let max_cluster := u32 (fs_total_clusters fs + 1) in
  if (fs_hint fs <? 2) || (fs_hint fs >? max_cluster) then 2 else fs_hint fs.

(** When [max_cluster] is 2^32 - 1 the condition [c <= max_cluster] never
    fails and the first loop does not end. *)
Definition fat32_alloc_cluster (fsi : nat) : M fat_st Z :=
  fs ← get_fs fsi;
  let max_cluster := u32 (fs_total_clusters fs + 1) in
  let start := alloc_start fs in
  r ← alloc_scan (Z.to_nat (max_cluster - start + 1)) fsi start;
  match r with
  | Some c => mret c
  | None =>
    if max_cluster =? 4294967295 then diverge else
    r ← alloc_scan (Z.to_nat (start - 2)) fsi 2;
    mret (default 0 r)
  end.

(** The scan of one pass of [fat32_alloc_run]: the current run and the best
    one so far, each a start and a length. *)
Fixpoint run_scan (n : nat) (fs : fat32_fs_t) (want c : Z) (run best : Z * Z) : M fat_st (Z * Z) :=
  match n with
  | O => mret best
  | S n =>
    next ← fat32_next_cluster fs c;
    if next =? 0 then
      let run := (if run.2 =? 0 then c else run.1, run.2 + 1) in
      let best := if run.2 >? best.2 then run else best in
      if best.2 >=? want then mret best else run_scan n fs want (c + 1) run best
    else run_scan n fs want (c + 1) (run.1, 0) best
  end.

(** Chain the run of [len] clusters at [start]; [i] are done. *)
Fixpoint chain_run (n : nat) (fs : fat32_fs_t) (start len i : Z) : M fat_st bool :=
  match n with
  | O => mret true
  | S n =>
    let cl := u32 (start + i) in
    let next := if i + 1 <? len then u32 (cl + 1) else FAT32_EOC in
    ok ← fat32_set_fat_entry fs cl next;
    if ok : bool then chain_run n fs start len (i + 1) else mret false
  end.

(** The first cluster (0: failure) and the length of the run. *)
Definition fat32_alloc_run (fsi : nat) (want : Z) : M fat_st (Z * Z) :=
  let want := if want =? 0 then 1 else want in
  fs ← get_fs fsi;
  let max_cluster := u32 (fs_total_clusters fs + 1) in
  let start := alloc_start fs in
  best ← run_scan (Z.to_nat (max_cluster - start + 1)) fs want start (0, 0) (0, 0);
  if (best.2 <? want) && (max_cluster =? 4294967295) then diverge else
  best ← (if best.2 <? want then run_scan (Z.to_nat (start - 2)) fs want 2 (0, 0) best else mret best);
  if best.2 =? 0 then mret (0, 0)
  else
    let best_len := if best.2 >? want then want else best.2 in
    ok ← chain_run (Z.to_nat best_len) fs best.1 best_len 0;
    if ok : bool then set_hint fsi (u32 (best.1 + best_len));; mret (best.1, best_len) else mret (0, 0).
End Fat32.

(** ** Names *)

Definition space : Z := 32.
Definition dot : Z := 46.
Definition upcase (c : Z) : Z := if (97 <=? c) && (c <=? 122) then c - 32 else c.

Fixpoint until_space (l : list Z) : list Z :=
  match l with [] => [] | c :: l => if c =? space then [] else c :: until_space l end.

(** "HELLO   TXT" to "HELLO.TXT" (the bytes before the terminator). *)
Definition fat32_format_83 (raw : list Z) : list Z :=
  until_space (take 8 raw) ++
  (if get8 raw 8 =? space then [] else dot :: until_space (take 3 (drop 8 raw))).

(** The part before the first dot, upper-cased, at most [room] bytes. *)
Fixpoint parse_base (room : nat) (name : list Z) : option (list Z * list Z) :=
  match name with
  | [] => Some ([], [])
  | c :: rest =>
    if c =? dot then Some ([], name)
    else match room with
         | O => None
         | S room => '(b, r) ← parse_base room rest; Some (upcase c :: b, r)
         end
  end.
Fixpoint parse_ext (room : nat) (name : list Z) : option (list Z) :=
  match name with
  | [] => Some []
  | c :: rest =>
    if c =? dot then None
    else match room with
         | O => None
         | S room => e ← parse_ext room rest; Some (upcase c :: e)
         end
  end.

Definition pad (n : nat) (l : list Z) : list Z := l ++ replicate (n - length l) space.

(** The raw record, or nothing when [name] does not fit 8.3. *)
Definition fat32_parse_83 (name : list Z) : option (list Z) :=
  '(b, r) ← parse_base 8 (cstr name);
  match b with
  | [] => None
  | _ =>
    match r with
    | [] => Some (pad 8 b ++ pad 3 [])
    | _ :: r => e ← parse_ext 3 r; Some (pad 8 b ++ pad 3 e)
    end
  end.

(** Compares C strings (here without their terminators): 0 when equal. *)
Fixpoint fat32_strcasecmp (a b : list Z) : Z :=
  match a, b with
  | x :: a', y :: b' =>
    let ca := s8 (upcase x) in let cb := s8 (upcase y) in
    if ca =? cb then fat32_strcasecmp a' b' else ca - cb
  | _, _ => default 0 (a !! 0%nat) - default 0 (b !! 0%nat)
  end.

(** ** Directory entries: 32 bytes at an offset of a sector *)

Definition dirent_size : Z := 32.
Definition de_name (e : list Z) : list Z := slice e 0 11.
Definition de_attr (e : list Z) : Z := get8 e 11.
Definition de_cluster (e : list Z) : Z := Z.lor (Z.shiftl (get16 e 20) 16) (get16 e 26).
Definition de_file_size (e : list Z) : Z := get32 e 28.
Definition dirent_at (sector : list Z) (e : Z) : list Z := slice sector (e * dirent_size) dirent_size.

Definition fat32_entry_valid (de : list Z) : Z :=
  if get8 de 0 =? 0x00 then -1
  else if get8 de 0 =? 0xE5 then 0
  else if de_attr de =? FAT32_ATTR_LFN then 0
  else if negb (Z.land (de_attr de) FAT32_ATTR_VOLUME_ID =? 0) then 0
  else 1.

(** The dirent the code writes for a new name. *)
Definition new_dirent (raw : list Z) (cluster_val size_val : Z) : list Z :=
  let d := splice (replicate 32 0) 0 raw in
  let d := put8 d 11 FAT32_ATTR_ARCHIVE in
  let d := put16 d 20 (u16 (Z.shiftr cluster_val 16)) in
  let d := put16 d 26 (u16 (Z.land cluster_val 0xFFFF)) in
  put32 d 28 size_val.

(** The result of [readdir]: [dirent_t]. *)
Record dirent_t := Dirent { d_name : list Z; d_size : Z; d_type : Z }.

(** A scan over the entries of one sector ends the whole search (with a
    result or without) or goes on. *)
Inductive scan (A : Type) := ScanEnd | ScanHit (a : A) | ScanNext (count : Z).
Arguments ScanEnd {A}. Arguments ScanHit {A}. Arguments ScanNext {A}.

(** The entries from [e] on, with [valid_count] valid ones before. *)
Fixpoint readdir_scan (n : nat) (sector : list Z) (e index valid_count : Z) : scan dirent_t :=
  match n with
  | O => ScanNext valid_count
  | S n =>
    let de := dirent_at sector e in
    let v := fat32_entry_valid de in
    if v <? 0 then ScanEnd
    else if v =? 0 then readdir_scan n sector (e + 1) index valid_count
    else if valid_count =? index then
      ScanHit (Dirent (fat32_format_83 (de_name de)) (de_file_size de)
                 (if Z.land (de_attr de) FAT32_ATTR_DIRECTORY =? 0 then VFS_FILE else VFS_DIRECTORY))
    else readdir_scan n sector (e + 1) index (u32 (valid_count + 1))
  end.

Fixpoint finddir_scan (n : nat) (sector : list Z) (e : Z) (name : list Z) : scan Z :=
  match n with
  | O => ScanNext 0
  | S n =>
    let de := dirent_at sector e in
    let v := fat32_entry_valid de in
    if v <? 0 then ScanEnd
    else if v =? 0 then finddir_scan n sector (e + 1) name
    else if fat32_strcasecmp (fat32_format_83 (de_name de)) name =? 0 then ScanHit e
    else finddir_scan n sector (e + 1) name
  end.

(** The first reusable slot of a sector. *)
Fixpoint free_slot (n : nat) (sector : list Z) (e : Z) : option Z :=
  match n with
  | O => None
  | S n =>
    let first := get8 (dirent_at sector e) 0 in
    if (first =? 0x00) || (first =? 0xE5) then Some e else free_slot n sector (e + 1)
  end.

Section Ops.
Context (fault : nat -> option nat) (fuel : nat).
Abbreviation fs_read fs lba count := (blk_read (St := fat_st) fault (fs_drive_type fs) (fs_drive fs) lba count).
Abbreviation fs_write fs lba count buf := (blk_write (St := fat_st) fault (fs_drive_type fs) (fs_drive fs) lba count buf).
Abbreviation next_cluster := (fat32_next_cluster fault).
Abbreviation set_fat_entry := (fat32_set_fat_entry fault).

(** [node->fs_private] and its volume; [None] when the pointer is NULL. *)
Definition node_fs (node : vfs_node_t) : M fat_st (option nat) :=
  match n_private node with
  | None => mret None
  | Some fii => fi ← get_finfo fii; mret (Some (fi_fs fi))
  end.

(** The search over a directory's clusters and sectors: [f] scans a sector
    given the running count and the sector's number; an I/O error ends it. *)
Fixpoint dir_sectors {A} (n : nat) (fs : fat32_fs_t) (lba s count : Z)
    (f : Z -> list Z -> Z -> scan A) : M fat_st (option A + Z) :=
  match n with
  | O => mret (inr count)
  | S n =>
    r ← fs_read fs (u64 (lba + s)) 1;
    match r with
    | None => mret (inl None)
    | Some sector =>
      match f (u64 (lba + s)) sector count with
      | ScanEnd => mret (inl None)
      | ScanHit a => mret (inl (Some a))
      | ScanNext count => dir_sectors n fs lba (s + 1) count f
      end
    end
  end.
Definition dir_walk {A} (fs : fat32_fs_t) (cluster : Z) (f : Z -> list Z -> Z -> scan A) : M fat_st (option A) :=
  loop fuel (fun '(cluster, count) =>
    if cluster <? FAT32_EOC then
      r ← dir_sectors (Z.to_nat (fs_spc fs)) fs (cluster_to_lba fs cluster) 0 count f;
      match r with
      | inl o => mret (inr o)
      | inr count => next ← next_cluster fs cluster; mret (inl (next, count))
      end
    else mret (inr None)) (cluster, 0).

Definition fat32_readdir (node : nat) (index : Z) : M fat_st (option dirent_t) :=
  n ← get_node node;
  o ← node_fs n;
  match o with
  | None => mret None
  | Some fsi => fs ← get_fs fsi; dir_walk fs (n_inode n) (fun _ sector count => readdir_scan 16 sector 0 index count)
  end.

(** The node for an entry found at [off] of the sector at [lba]. *)
Definition fill_node (fsi : nat) (parent : nat) (de : list Z) (lba off : Z) (node fii : nat) : M fat_st unit :=
  let dir := negb (Z.land (de_attr de) FAT32_ATTR_DIRECTORY =? 0) in
  upd_node node (fun _ => Node (take 127 (fat32_format_83 (de_name de)))
    (if dir then VFS_DIRECTORY else VFS_FILE) (de_file_size de) (de_cluster de)
    (if dir then OpsDir else OpsFile) (Some parent) (Some fii));;
  modify (fun s => set_finfo (<[fii := Finfo fsi true lba off]> (ft_finfo s)) s).

Definition fat32_finddir (node : nat) (name : list Z) : M fat_st (option nat) :=
  n ← get_node node;
  o ← node_fs n;
  match o with
  | None => mret None
  | Some fsi =>
    fs ← get_fs fsi;
    hit ← dir_walk fs (n_inode n) (fun lba sector _ =>
      match finddir_scan 16 sector 0 name with
      | ScanEnd => ScanEnd
      | ScanHit e => ScanHit (lba, e, dirent_at sector e)
      | ScanNext c => ScanNext c
      end);
    match hit with
    | None => mret None
    | Some (lba, e, de) =>
      o ← alloc_node;
      match o with
      | None => mret None
      | Some found =>
        o ← alloc_finfo;
        match o with
        | None => mret None
        | Some fii => fill_node fsi node de lba (e * dirent_size) found fii;; mret (Some found)
        end
      end
    end
  end.

(** ** Reading *)

(** The first and last sector of the cluster at byte [pos] that overlap
    [offset, offset + size); the loop stops at the first one past it. *)
Fixpoint sector_window (n : nat) (pos offset size s : Z) (w : option (Z * Z)) : option (Z * Z) :=
  match n with
  | O => w
  | S n =>
    let sec_start := u32 (pos + s * 512) in
    if u32 (sec_start + 512) <=? offset then sector_window n pos offset size (s + 1) w
    else if sec_start >=? u64 (offset + size) then w
    else sector_window n pos offset size (s + 1) (Some (match w with Some (first, _) => first | None => s end, s))
  end.

(** The part of sector [s] the transfer touches: its start and its length. *)
Definition sector_part (pos offset size done s : Z) : Z * Z :=
  let sec_start := u32 (pos + s * 512) in
  let copy_start := if offset >? sec_start then u32 (offset - sec_start) else 0 in
  let copy_len := u32 (512 - copy_start) in
  (copy_start, if copy_len >? u32 (size - done) then u32 (size - done) else copy_len).

(** The sectors [s], ..., of the run in [buf] copied out. *)
Fixpoint copy_out (n : nat) (buf : list Z) (pos offset size first s : Z) (out : list Z) : list Z :=
  match n with
  | O => out
  | S n =>
    let '(st, len) := sector_part pos offset size (Z.of_nat (length out)) s in
    copy_out n buf pos offset size first (s + 1) (out ++ slice buf ((s - first) * 512 + st) len)
  end.

(** [while (pos + cluster_size <= offset && cluster < FAT32_EOC)] *)
Definition skip_clusters (fs : fat32_fs_t) (offset cluster : Z) : M fat_st (Z * Z) :=
  let cluster_size := fs_spc fs * 512 in
  loop fuel (fun '(pos, cluster) =>
    if (u64 (pos + cluster_size) <=? offset) && (cluster <? FAT32_EOC) then
      next ← next_cluster fs cluster; mret (inl (u64 (pos + cluster_size), next))
    else mret (inr (pos, cluster))) (0, cluster).

(** The bytes read, or the negative result. *)
Definition fat32_read (node : nat) (offset size : Z) : M fat_st (Z + list Z) :=
  n ← get_node node;
  match n_private n with
  | None => mret (inl (-1))
  | Some fii =>
    fi ← get_finfo fii;
    fs ← get_fs (fi_fs fi);
    if Z.land (n_type n) VFS_FILE =? 0 then mret (inl (-1))
    else if offset >=? n_size n then mret (inr [])
    else
      let size := if u64 (offset + size) >? n_size n then u32 (n_size n - offset) else size in
      let cluster_size := fs_spc fs * 512 in
      '(pos, cluster) ← skip_clusters fs offset (n_inode n);
      loop fuel (fun '(pos, cluster, out) =>
        if (Z.of_nat (length out) <? size) && (cluster <? FAT32_EOC) then
          match sector_window (Z.to_nat (fs_spc fs)) pos offset size 0 None with
          | None => mret (inr (inr out))
          | Some (first_s, last_s) =>
            r ← fs_read fs (u64 (cluster_to_lba fs cluster + first_s)) (last_s - first_s + 1);
            match r with
            | None => mret (inr (match out with [] => inl (-1) | _ => inr out end))
            | Some buf =>
              let out := copy_out (Z.to_nat (last_s - first_s + 1)) buf pos offset size first_s first_s out in
              next ← next_cluster fs cluster;
              mret (inl (u64 (pos + cluster_size), next, out))
            end
          end
        else mret (inr (inr out))) (pos, cluster, [])
  end.

(** ** Writing *)

(** [true]: the on-disk entry agrees with the node (or there is none). *)
Definition fat32_flush_dirent (fi : fat32_file_info_t) (n : vfs_node_t) : M fat_st bool :=
  if negb (fi_has_dirent fi) then mret true
  else
    fs ← get_fs (fi_fs fi);
    r ← fs_read fs (fi_lba fi) 1;
    match r with
    | None => mret false
    | Some buf =>
      let buf := put32 buf (fi_off fi + 28) (u32 (n_size n)) in
      let buf := put16 buf (fi_off fi + 20) (u16 (Z.shiftr (n_inode n) 16)) in
      let buf := put16 buf (fi_off fi + 26) (u16 (Z.land (n_inode n) 0xFFFF)) in
      fs_write fs (fi_lba fi) 1 buf
    end.

(** Follow the chain from [tail], counting. *)
Definition chain_tail (fs : fat32_fs_t) (start : Z) : M fat_st (Z * Z) :=
  n ← next_cluster fs start;
  loop fuel (fun '(n, tail, count) =>
    if n <? FAT32_EOC then
      m ← next_cluster fs n; mret (inl (m, n, u32 (count + 1)))
    else mret (inr (tail, count))) (n, start, 1).

(** Zero [total] sectors from [lba] in chunks of at most 128. *)
Definition zero_run (fs : fat32_fs_t) (lba total : Z) : M fat_st bool :=
  loop (S (Z.to_nat total)) (fun zeroed =>
    if zeroed <? total then
      let chunk := if total - zeroed >? FAT32_MAX_CLUSTER_SECTORS then FAT32_MAX_CLUSTER_SECTORS else total - zeroed in
      ok ← fs_write fs (u64 (lba + zeroed)) chunk (replicate (Z.to_nat (chunk * 512)) 0);
      if ok : bool then mret (inl (zeroed + chunk)) else mret (inr false)
    else mret (inr true)) 0.

(** [while (allocated < needed)]: append runs; the clusters allocated. *)
Definition grow_chain (fsi : nat) (needed tail allocated : Z) : M fat_st Z :=
  loop fuel (fun '(tail, allocated) =>
    if allocated <? needed then
      '(run_start, got) ← fat32_alloc_run fault fsi (needed - allocated);
      fs ← get_fs fsi;
      if run_start =? 0 then mret (inr allocated)
      else
        ok ← zero_run fs (cluster_to_lba fs run_start) (u32 (got * fs_spc fs));
        if negb ok then mret (inr allocated)
        else
          ok ← set_fat_entry fs tail run_start;
          if negb ok then mret (inr allocated)
          else mret (inl (u32 (run_start + got - 1), u32 (allocated + got)))
    else mret (inr allocated)) (tail, allocated).

(** The sectors of the run in [buf] overwritten from [inp]; with the bytes
    written so far. *)
Fixpoint copy_in (n : nat) (buf inp : list Z) (pos offset size first s written : Z) : list Z * Z :=
  match n with
  | O => (buf, written)
  | S n =>
    let '(st, len) := sector_part pos offset size written s in
    copy_in n (splice buf ((s - first) * 512 + st) (slice inp written len)) inp pos offset size first (s + 1) (written + len)
  end.

Definition fat32_write (node : nat) (offset size : Z) (inp : list Z) : M fat_st Z :=
  n ← get_node node;
  match n_private n with
  | None => mret (-1)
  | Some fii =>
    fi ← get_finfo fii;
    let fsi := fi_fs fi in
    fs ← get_fs fsi;
    if Z.land (n_type n) VFS_FILE =? 0 then mret (-1)
    else if size =? 0 then mret 0
    else if offset >? n_size n then mret (-1)
    else
      let cluster_size := fs_spc fs * 512 in
      let new_end := u64 (offset + size) in
      first ← (if n_inode n =? 0 then fat32_alloc_cluster fault fsi else mret (n_inode n));
      if first =? 0 then mret (-1)
      else
        upd_node node (with_inode first);;
        '(tail, allocated) ← chain_tail fs first;
        let needed := u32 (u64 (new_end + cluster_size - 1) / cluster_size) in
        let needed := if needed =? 0 then 1 else needed in
        allocated ← grow_chain fsi needed tail allocated;
        let writable_end := u64 (allocated * cluster_size) in
        let size := if new_end >? writable_end
                    then (if writable_end >? offset then u32 (writable_end - offset) else 0) else size in
        if size =? 0 then mret 0
        else
          '(pos, cluster) ← skip_clusters fs offset first;
          written ← loop fuel (fun '(pos, cluster, written) =>
            if (written <? size) && (cluster <? FAT32_EOC) then
              match sector_window (Z.to_nat (fs_spc fs)) pos offset size 0 None with
              | None => mret (inr written)
              | Some (first_s, last_s) =>
                let lba := u64 (cluster_to_lba fs cluster + first_s) in
                let run := last_s - first_s + 1 in
                r ← fs_read fs lba run;
                match r with
                | None => mret (inr written)
                | Some buf =>
                  let '(buf, written) := copy_in (Z.to_nat run) buf inp pos offset size first_s first_s written in
                  ok ← fs_write fs lba run buf;
                  if negb ok then mret (inr written)
                  else
                    next ← next_cluster fs cluster;
                    mret (inl (u64 (pos + cluster_size), next, written))
                end
              end
            else mret (inr written)) (pos, cluster, 0);
          if written =? 0 then mret (-1)
          else
            n ← get_node node;
            let n := if u64 (offset + written) >? n_size n then with_size (u64 (offset + written)) n else n in
            upd_node node (fun _ => n);;
            fat32_flush_dirent fi n;;
            mret (s32 written)
  end.

(** ** Creating, renaming, deleting *)

(** The search for a free slot: the sector and the entry, or the last cluster
    of the directory. [inl None] is an I/O error. *)
Fixpoint slot_sectors (n : nat) (fs : fat32_fs_t) (lba s : Z) : M fat_st (option (option (Z * Z * list Z))) :=
  match n with
  | O => mret (Some None)
  | S n =>
    r ← fs_read fs (u64 (lba + s)) 1;
    match r with
    | None => mret None
    | Some sector =>
      match free_slot 16 sector 0 with
      | Some e => mret (Some (Some (u64 (lba + s), e, sector)))
      | None => slot_sectors n fs lba (s + 1)
      end
    end
  end.

Definition find_slot (fs : fat32_fs_t) (cluster : Z) : M fat_st (option (Z * Z * list Z) + option Z) :=
  loop fuel (fun '(cluster, last_cluster) =>
    if cluster <? FAT32_EOC then
      r ← slot_sectors (Z.to_nat (fs_spc fs)) fs (cluster_to_lba fs cluster) 0;
      match r with
      | None => mret (inr (inr None))
      | Some (Some hit) => mret (inr (inl (Some hit)))
      | Some None => next ← next_cluster fs cluster; mret (inl (next, cluster))
      end
    else mret (inr (inr (Some last_cluster)))) (cluster, cluster).

(** Where the new entry is on disk: its sector and its byte offset. *)
Definition fat32_insert_dirent (fsi : nat) (dir : vfs_node_t) (raw : list Z) (cluster_val size_val : Z)
    : M fat_st (option (Z * Z)) :=
  fs ← get_fs fsi;
  let de := new_dirent raw cluster_val size_val in
  r ← find_slot fs (n_inode dir);
  match r with
  | inl None | inr None => mret None
  | inl (Some (lba, e, sector)) =>
    ok ← fs_write fs lba 1 (splice sector (e * dirent_size) de);
    mret (if ok : bool then Some (lba, e * dirent_size) else None)
  | inr (Some last_cluster) =>
    new_cluster ← fat32_alloc_cluster fault fsi;
    if new_cluster =? 0 then mret None
    else
      let new_lba := cluster_to_lba fs new_cluster in
      ok ← fs_write fs new_lba (fs_spc fs) (replicate (Z.to_nat (fs_spc fs * 512)) 0);
      if negb ok then mret None
      else
        ok ← set_fat_entry fs last_cluster new_cluster;
        if negb ok then mret None
        else
          ok ← fs_write fs new_lba 1 (splice (replicate 512 0) 0 de);
          mret (if ok : bool then Some (new_lba, 0) else None)
  end.

Definition fat32_create (dir : nat) (name : list Z) : M fat_st (option nat) :=
  d ← get_node dir;
  o ← node_fs d;
  match o with
  | None => mret None
  | Some fsi =>
    if Z.land (n_type d) VFS_DIRECTORY =? 0 then mret None
    else match fat32_parse_83 name with
    | None => mret None
    | Some raw =>
      r ← fat32_insert_dirent fsi d raw 0 0;
      match r with
      | None => mret None
      | Some (lba, off) =>
        o ← alloc_node;
        match o with
        | None => mret None
        | Some node =>
          o ← alloc_finfo;
          match o with
          | None => mret None
          | Some fii =>
            upd_node node (fun _ => Node (fat32_format_83 raw) VFS_FILE 0 0 OpsFile (Some dir) (Some fii));;
            modify (fun s => set_finfo (<[fii := Finfo fsi true lba off]> (ft_finfo s)) s);;
            mret (Some node)
          end
        end
      end
    end
  end.

(** Overwrite bytes of the sector holding a node's entry. *)
Definition patch_dirent (fs : fat32_fs_t) (fi : fat32_file_info_t) (bytes : list Z) : M fat_st bool :=
  r ← fs_read fs (fi_lba fi) 1;
  match r with
  | None => mret false
  | Some buf => fs_write fs (fi_lba fi) 1 (splice buf (fi_off fi) bytes)
  end.

Definition fat32_rename (old_dir : nat) (old_name : list Z) (new_dir : nat) (new_name : list Z) : M fat_st Z :=
  od ← get_node old_dir;
  o ← node_fs od;
  match o with
  | None => mret (-1)
  | Some fsi =>
    nd ← get_node new_dir;
    if (Z.land (n_type od) VFS_DIRECTORY =? 0) || (Z.land (n_type nd) VFS_DIRECTORY =? 0) then mret (-1)
    else match fat32_parse_83 new_name with
    | None => mret (-1)
    | Some new_raw =>
      t ← fat32_finddir old_dir old_name;
      match t with
      | None => mret (-2)
      | Some target =>
        tn ← get_node target;
        if Z.land (n_type tn) VFS_FILE =? 0 then mret (-3)
        else
          fii ← lift_option (n_private tn);
          tfi ← get_finfo fii;
          fs ← get_fs fsi;
          if (old_dir =? new_dir)%nat then
            ok ← patch_dirent fs tfi new_raw; mret (if ok : bool then 0 else -4)
          else
            r ← fat32_insert_dirent fsi nd new_raw (n_inode tn) (u32 (n_size tn));
            match r with
            | None => mret (-5)
            | Some _ => ok ← patch_dirent fs tfi [0xE5]; mret (if ok : bool then 0 else -6)
            end
      end
    end
  end.

(** [while (cluster != 0 && cluster < FAT32_EOC)]: free the chain. *)
Definition free_chain (fs : fat32_fs_t) (cluster : Z) : M fat_st unit :=
  loop fuel (fun cluster =>
    if negb (cluster =? 0) && (cluster <? FAT32_EOC) then
      next ← next_cluster fs cluster;
      set_fat_entry fs cluster 0;;
      mret (inl next)
    else mret (inr tt)) cluster.

Definition fat32_unlink (dir : nat) (name : list Z) : M fat_st Z :=
  d ← get_node dir;
  o ← node_fs d;
  match o with
  | None => mret (-1)
  | Some fsi =>
    if Z.land (n_type d) VFS_DIRECTORY =? 0 then mret (-1)
    else
      t ← fat32_finddir dir name;
      match t with
      | None => mret (-2)
      | Some target =>
        tn ← get_node target;
        if Z.land (n_type tn) VFS_FILE =? 0 then mret (-3)
        else
          fii ← lift_option (n_private tn);
          tfi ← get_finfo fii;
          fs ← get_fs fsi;
          free_chain fs (n_inode tn);;
          ok ← patch_dirent fs tfi [0xE5];
          mret (if ok : bool then 0 else -4)
      end
  end.

(** ** Mounting *)

(** The fields of the BIOS parameter block. *)
Definition bpb_bytes_per_sector (b : list Z) : Z := get16 b 11.
Definition bpb_sectors_per_cluster (b : list Z) : Z := get8 b 13.
Definition bpb_reserved_sectors (b : list Z) : Z := get16 b 14.
Definition bpb_num_fats (b : list Z) : Z := get8 b 16.
Definition bpb_root_entry_count (b : list Z) : Z := get16 b 17.
Definition bpb_fat_size_16 (b : list Z) : Z := get16 b 22.
Definition bpb_total_sectors_32 (b : list Z) : Z := get32 b 32.
Definition bpb_fat_size_32 (b : list Z) : Z := get32 b 36.
Definition bpb_root_cluster (b : list Z) : Z := get32 b 44.
Definition bpb_volume_label (b : list Z) : list Z := slice b 71 11.

(** Trailing spaces are cut. *)
Fixpoint trim_spaces (l : list Z) : list Z :=
  match l with
  | [] => []
  | c :: l => match trim_spaces l with [] => if c =? space then [] else [c] | t => c :: t end
  end.

Definition mount_fs (drive_type drive part_lba : Z) (b : list Z) : fat32_fs_t :=
  let fat_start := u64 (part_lba + bpb_reserved_sectors b) in
  let data_start := u64 (fat_start + u32 (bpb_num_fats b * bpb_fat_size_32 b)) in
  let data_sectors := u64 (bpb_total_sectors_32 b - u64 (data_start - part_lba)) in
  Fs drive drive_type part_lba (bpb_sectors_per_cluster b) (bpb_reserved_sectors b) (bpb_num_fats b)
    (bpb_fat_size_32 b) (bpb_root_cluster b) fat_start data_start (bpb_total_sectors_32 b)
    (u32 (data_sectors / bpb_sectors_per_cluster b)) 2 (trim_spaces (bpb_volume_label b)).

(** The result code and, on success, the root node that goes in the mount
    point (with the drive, [FS_FAT32] and the partition's start). *)
Definition fat32_mount (drive_type drive part_lba : Z) : M fat_st (Z + nat) :=
  r ← blk_read fault drive_type drive part_lba 1;
  match r with
  | None => mret (inl (-1))
  | Some b =>
    if negb (bpb_bytes_per_sector b =? 512) then mret (inl (-2))
    else if negb (bpb_root_entry_count b =? 0) then mret (inl (-3))
    else if negb (bpb_fat_size_16 b =? 0) then mret (inl (-3))
    else if bpb_sectors_per_cluster b =? 0 then mret (inl (-3))
    else if bpb_sectors_per_cluster b >? FAT32_MAX_CLUSTER_SECTORS then mret (inl (-3))
    else
      o ← alloc_fs;
      match o with
      | None => mret (inl (-4))
      | Some fsi =>
        modify (fun s => set_fs (<[fsi := mount_fs drive_type drive part_lba b]> (ft_fs s)) s);;
        o ← alloc_node;
        match o with
        | None => mret (inl (-5))
        | Some root =>
          o ← alloc_finfo;
          match o with
          | None => mret (inl (-5))
          | Some fii =>
            upd_node root (fun _ => Node [47] (Z.lor VFS_DIRECTORY VFS_MOUNTPOINT) 0 (bpb_root_cluster b)
              OpsDir None (Some fii));;
            modify (fun s => set_finfo (<[fii := Finfo fsi false 0 0]> (ft_finfo s)) s);;
            mret (inr root)
          end
        end
      end
  end.

(** ** Defragmentation *)

(** The chain's length and whether it is one contiguous run. *)
Definition chain_shape (fs : fat32_fs_t) (start : Z) : M fat_st (Z * bool) :=
  c ← next_cluster fs start;
  loop fuel (fun '(c, prev, len, ok) =>
    if c <? FAT32_EOC then
      m ← next_cluster fs c; mret (inl (m, c, u32 (len + 1), ok && (c =? u32 (prev + 1))))
    else mret (inr (len, ok))) (c, start, 1, true).

(** Free [n] consecutive clusters from [start + i]. *)
Fixpoint free_run (n : nat) (fs : fat32_fs_t) (start i : Z) : M fat_st unit :=
  match n with
  | O => mret tt
  | S n => set_fat_entry fs (u32 (start + i)) 0;; free_run n fs start (i + 1)
  end.

(** Copy [n] clusters of the chain at [old_c] to the run at [new_start + i]. *)
Fixpoint copy_chain (n : nat) (fs : fat32_fs_t) (old_c new_start i : Z) : M fat_st bool :=
  match n with
  | O => mret true
  | S n =>
    r ← fs_read fs (cluster_to_lba fs old_c) (fs_spc fs);
    match r with
    | None => mret false
    | Some buf =>
      ok ← fs_write fs (cluster_to_lba fs (u32 (new_start + i))) (fs_spc fs) buf;
      if negb ok then mret false
      else next ← next_cluster fs old_c; copy_chain n fs next new_start (i + 1)
    end
  end.

(** Free [n] clusters along the chain at [old_c]. *)
Fixpoint free_old (n : nat) (fs : fat32_fs_t) (old_c : Z) : M fat_st unit :=
  match n with
  | O => mret tt
  | S n => next ← next_cluster fs old_c; set_fat_entry fs old_c 0;; free_old n fs next
  end.

Definition fat32_defrag_one (fsi node : nat) : M fat_st Z :=
  n ← get_node node;
  match n_private n with
  | None => mret (-1)
  | Some fii =>
    fi ← get_finfo fii;
    if negb (fi_has_dirent fi) then mret (-1)
    else if n_inode n =? 0 then mret 0
    else
      fs ← get_fs fsi;
      let old_start := n_inode n in
      '(chain_len, already_ok) ← chain_shape fs old_start;
      if already_ok : bool then mret 0
      else
        '(new_start, got) ← fat32_alloc_run fault fsi chain_len;
        if (new_start =? 0) || negb (got =? chain_len) then
          when (negb (new_start =? 0)) (free_run (Z.to_nat got) fs new_start 0);;
          mret (-1)
        else
          ok ← copy_chain (Z.to_nat chain_len) fs old_start new_start 0;
          if negb ok then free_run (Z.to_nat chain_len) fs new_start 0;; mret (-1)
          else
            upd_node node (with_inode new_start);;
            ok ← fat32_flush_dirent fi (with_inode new_start n);
            if negb ok then
              upd_node node (with_inode old_start);;
              free_run (Z.to_nat chain_len) fs new_start 0;;
              mret (-1)
            else free_old (Z.to_nat chain_len) fs old_start;; mret 1
  end.

(** The counts: files looked at, moved, and left in place. *)
Definition fat32_defrag (dir : nat) : M fat_st (Z + Z * Z * Z) :=
  d ← get_node dir;
  o ← node_fs d;
  match o with
  | None => mret (inl (-1))
  | Some fsi =>
    loop fuel (fun '(idx, scanned, moved, skipped) =>
      de ← fat32_readdir dir idx;
      match de with
      | None => mret (inr (inr (scanned, moved, skipped)))
      | Some de =>
        let next := u32 (idx + 1) in
        if negb (Z.land (d_type de) VFS_DIRECTORY =? 0) then mret (inl (next, scanned, moved, skipped))
        else
          o ← fat32_finddir dir (take 127 (d_name de));
          match o with
          | None => mret (inl (next, scanned, moved, skipped))
          | Some node =>
            rc ← fat32_defrag_one fsi node;
            mret (inl (next, u32 (scanned + 1), (if rc =? 1 then u32 (moved + 1) else moved),
                       if rc <? 0 then u32 (skipped + 1) else skipped))
          end
      end) (0, 0, 0, 0)
  end.
End Ops.
