(* ===== verification/Fat32Proofs.v ===== *)
(** * FAT32: the allocation table

    The file allocation table as a function from cluster numbers to entries
    ([fat_raw], [fat_get]), read from the drive. Under the invariant [fat_wf]
    (the geometry of the volume, 512-byte sectors, and the agreement of the
    one-sector cache with the drive), the code's accesses are reads and updates
    of that function, the allocators take free clusters only, and a freed chain
    is free. Drives answer every command here ([fault] is never set). *)

From S2P Require Import Prelude Blk BlkProofs Fat32.

(** ** Block I/O without faults *)

(** The parts of the state besides the drives and the cache. *)
Definition same_pools (s s' : fat_st) : Prop :=
  ft_fs s' = ft_fs s /\ ft_nodes s' = ft_nodes s /\ ft_finfo s' = ft_finfo s.

Section Io.
Context (fault : nat -> option nat) (nofault : forall k, fault k = None).

Lemma blk_read1 type drive lba (s : fat_st) :
  0 <= drive < 256 -> in_u64 lba ->
  blk_read fault type drive lba 1 s =
    Some (Some (sector_at (ft_dev s) (blk_driver type) drive lba), set_dev (tick_dev (ft_dev s)) s).
Proof.
  intros Hd Hl. rewrite (blk_read_ok fault nofault) by (done || lia). change (Z.to_nat 1) with 1%nat. cbn [sectors_at].
  by rewrite app_nil_r.
Qed.

Lemma blk_write1 type drive lba buf (s : fat_st) :
  0 <= drive < 256 -> in_u64 lba -> length buf = 512%nat ->
  blk_write fault type drive lba 1 buf s =
    Some (true, set_dev (write_dev (ft_dev s) (blk_driver type, drive, lba) buf) s).
Proof.
  intros Hd Hl Hb. rewrite (blk_write_ok fault nofault) by (done || lia). change (Z.to_nat 1) with 1%nat.
  unfold put_dev. cbn [put_sectors]. by rewrite take_ge by lia.
Qed.
End Io.

(** ** The volume and its table *)

(** The geometry of a volume the mount code accepts and whose table covers
    its clusters. *)
Record geo (fs : fat32_fs_t) : Prop := {
  ge_drive : 0 <= fs_drive fs < 256;
  ge_spc : 1 <= fs_spc fs <= 128;
  ge_fats : 1 <= fs_num_fats fs < 256;
  ge_size : 1 <= fs_fat_size fs < 4294967296;
  ge_start : 0 <= fs_fat_start fs;
  ge_data : fs_fat_start fs + fs_num_fats fs * fs_fat_size fs <= fs_data_start fs;
  ge_end : fs_data_start fs + fs_total_clusters fs * fs_spc fs < 9223372036854775808;
  ge_clusters : 1 <= fs_total_clusters fs <= 0x0FFFFFF5;
  ge_cover : (fs_total_clusters fs + 2) * 4 <= fs_fat_size fs * 512;
}.

Definition sector_of (fs : fat32_fs_t) (s : fat_st) (lba : Z) : list Z :=
  sector_at (ft_dev s) (blk_driver (fs_drive_type fs)) (fs_drive fs) lba.

(** A data cluster number. *)
Definition cluster_ok (fs : fat32_fs_t) (c : Z) : Prop := 2 <= c < fs_total_clusters fs + 2.

(** Entry [c] of copy [k], and the entry the driver sees. *)
Definition fat_lba (fs : fat32_fs_t) (k c : Z) : Z := fs_fat_start fs + k * fs_fat_size fs + c * 4 / 512.
Definition fat_raw (fs : fat32_fs_t) (s : fat_st) (k c : Z) : Z := get32 (sector_of fs s (fat_lba fs k c)) (c * 4 mod 512).
Definition fat_get (fs : fat32_fs_t) (s : fat_st) (c : Z) : Z := Z.land (fat_raw fs s 0 c) 0x0FFFFFFF.

(** The sectors of the table's copies. *)
Definition in_fats (fs : fat32_fs_t) (lba : Z) : Prop :=
  fs_fat_start fs <= lba < fs_fat_start fs + fs_num_fats fs * fs_fat_size fs.

(** The cache agrees with the drive; a cached sector of this volume's drive is
    one of copy 0 or lies outside the volume. *)
Record cache_ok (fs : fat32_fs_t) (s : fat_st) : Prop := {
  ca_len : length (ft_buf s) = 512%nat;
  ca_buf : forall lba t d, ft_key s = (lba, t, d) -> lba <> 18446744073709551615 ->
    ft_buf s = sector_at (ft_dev s) (blk_driver t) d lba;
  ca_key : forall lba t d, ft_key s = (lba, t, d) -> blk_driver t = blk_driver (fs_drive_type fs) -> d = fs_drive fs ->
    (t = fs_drive_type fs /\ fs_fat_start fs <= lba < fs_fat_start fs + fs_fat_size fs) \/
    lba < fs_fat_start fs \/ fs_data_start fs + fs_total_clusters fs * fs_spc fs <= lba;
}.

Record fat_wf (fs : fat32_fs_t) (s : fat_st) : Prop := {
  wf_geo : geo fs;
  wf_dev : dev_sectors_ok (ft_dev s);
  wf_cache : cache_ok fs s;
}.

Lemma cluster_offset fs c : geo fs -> 0 <= c < fs_total_clusters fs + 2 ->
  u32 (c * 4) = c * 4 /\ 0 <= c * 4 / 512 < fs_fat_size fs /\ 0 <= c * 4 mod 512 <= 508.
Proof. intros [] Hc. rewrite u32_id by word. split; [done|]. split; [zlia|]. zlia. Qed.

Lemma fat_lba_range fs k c : geo fs -> 0 <= k < fs_num_fats fs -> 0 <= c < fs_total_clusters fs + 2 ->
  in_fats fs (fat_lba fs k c) /\ fs_fat_start fs + k * fs_fat_size fs <= fat_lba fs k c < fs_fat_start fs + (k + 1) * fs_fat_size fs.
Proof.
  intros Hg Hk Hc. destruct (cluster_offset fs c Hg Hc) as (_ & ? & _). destruct Hg. unfold in_fats, fat_lba. nia.
Qed.

Lemma fat_lba_0 fs c : fat_lba fs 0 c = fs_fat_start fs + c * 4 / 512.
Proof. unfold fat_lba. lia. Qed.

(** A sector lies in one copy only. *)
Lemma copy_unique a sz k k' x y :
  0 < sz -> a + k * sz <= x < a + (k + 1) * sz -> a + k' * sz <= y < a + (k' + 1) * sz -> x = y -> k = k'.
Proof. intros. nia. Qed.

Lemma in_fats_u64 fs lba : geo fs -> in_fats fs lba -> in_u64 lba.
Proof. intros [] ?. unfold in_fats in *. word_unfold. nia. Qed.

(** ** Following the chain *)

Section Table.
Context (fault : nat -> option nat) (nofault : forall k, fault k = None).
Implicit Types (fs : fat32_fs_t) (s : fat_st).

(** The drives and the pools are as before; only the cache and the command
    count may differ. *)
Definition same_disk s s' : Prop := dv_sectors (ft_dev s') = dv_sectors (ft_dev s) /\ same_pools s s'.

Lemma same_disk_refl s : same_disk s s.
Proof. done. Qed.
Lemma same_disk_trans s s1 s2 : same_disk s s1 -> same_disk s1 s2 -> same_disk s s2.
Proof. unfold same_disk, same_pools. intros (-> & -> & -> & ->) (-> & -> & -> & ->). done. Qed.

Lemma same_disk_sector fs s s' lba : same_disk s s' -> sector_of fs s' lba = sector_of fs s lba.
Proof. intros [E _]. unfold sector_of, sector_at. by rewrite E. Qed.
Lemma same_disk_raw fs s s' k c : same_disk s s' -> fat_raw fs s' k c = fat_raw fs s k c.
Proof. intros. unfold fat_raw. by rewrite (same_disk_sector fs s s'). Qed.
Lemma same_disk_get fs s s' c : same_disk s s' -> fat_get fs s' c = fat_get fs s c.
Proof. intros. unfold fat_get. by rewrite (same_disk_raw fs s s'). Qed.

Lemma next_cluster_ok fs s c :
  fat_wf fs s -> 0 <= c < fs_total_clusters fs + 2 ->
  exists s', fat32_next_cluster fault fs c s = Some (fat_get fs s c, s') /\ same_disk s s' /\ fat_wf fs s'.
Proof.
  intros [Hg Hd [Hl Hb Hk]] Hc. destruct (cluster_offset fs c Hg Hc) as (Eo & Hs & Ho).
  destruct (fat_lba_range fs 0 c Hg ltac:(destruct Hg; lia) Hc) as [Hin Hr].
  pose proof (in_fats_u64 fs _ Hg Hin) as Hu. rewrite fat_lba_0 in Hin, Hr, Hu.
  unfold fat32_next_cluster. rewrite Eo, (u64_id (fs_fat_start fs + _)) by done.
  unfold mbind, M_bind, gets. destruct (decide (_ = ft_key s)) as [E|Hne].
  - exists s. unfold mret, M_ret. split; [|by split; [apply same_disk_refl|split]]. do 2 f_equal.
    unfold fat_get, fat_raw, sector_of. rewrite fat_lba_0. rewrite <- (Hb _ _ _ (eq_sym E)); [done|].
    destruct Hg. unfold in_fats in Hin. nia.
  - rewrite (blk_read1 fault nofault) by (done || apply Hg). unfold modify, mret, M_ret. eexists. split.
    { cbn [ft_buf set_cache]. unfold fat_get, fat_raw, sector_of. rewrite fat_lba_0. done. }
    split; [done|]. cbn [ft_dev set_cache set_dev fat_has_dev]. split; [done|done|].
    cbn [ft_dev set_cache set_dev fat_has_dev ft_buf ft_key]. split; cbn [ft_buf ft_key ft_dev].
    + by apply sector_at_ok.
    + intros lba t d [= <- <- <-] _. done.
    + intros lba t d [= <- <- <-] _ _. left. destruct Hg. split; [done|]. lia.
Qed.

(** ** Writing an entry *)

Lemma fat_merge_low v old : Z.land (fat_merge v old) 0x0FFFFFFF = Z.land v 0x0FFFFFFF.
Proof.
  unfold fat_merge. rewrite Z.land_lor_distr_l, <- !Z.land_assoc.
  change (Z.land 0xF0000000 0x0FFFFFFF) with 0. change (Z.land 0x0FFFFFFF 0x0FFFFFFF) with 0x0FFFFFFF.
  by rewrite Z.land_0_r, Z.lor_0_r.
Qed.

Lemma fat_merge_high v old : Z.land (fat_merge v old) 0xF0000000 = Z.land old 0xF0000000.
Proof.
  unfold fat_merge. rewrite Z.land_lor_distr_l, <- !Z.land_assoc.
  change (Z.land 0xF0000000 0xF0000000) with 0xF0000000. change (Z.land 0x0FFFFFFF 0xF0000000) with 0.
  by rewrite Z.land_0_r, Z.lor_0_l.
Qed.

Lemma fat_merge_u32 v old : in_u32 (fat_merge v old).
Proof. apply (lor_range _ _ 32); [done|apply (land_range _ _ 32); word|apply (land_range _ _ 32); word]. Qed.

(** A sector with one entry rewritten. *)
Definition set_in_sector (sec : list Z) (off v : Z) : list Z := put32 sec off (fat_merge v (get32 sec off)).

Lemma set_in_sector_ok sec off v :
  length sec = 512%nat /\ bytes sec -> length (set_in_sector sec off v) = 512%nat /\ bytes (set_in_sector sec off v).
Proof.
  intros [Hl Hb]. unfold set_in_sector. rewrite length_put32. split; [done|]. apply bytes_splice; [done|]. apply le_bytes_bytes.
Qed.

Lemma get32_set_in_sector sec off v off' :
  length sec = 512%nat -> 0 <= off <= 508 -> 0 <= off' <= 508 -> off mod 4 = 0 -> off' mod 4 = 0 ->
  get32 (set_in_sector sec off v) off' = if decide (off' = off) then fat_merge v (get32 sec off) else get32 sec off'.
Proof.
  intros Hl Ho Ho' Hm Hm'. unfold set_in_sector. case_decide as E.
  - subst. rewrite get32_put32_same by lia. apply u32_id, fat_merge_u32.
  - apply get32_put32_disj; [lia|lia|]. zlia.
Qed.

Lemma dev_ok_write d k b : dev_sectors_ok d -> length b = 512%nat /\ bytes b -> dev_sectors_ok (write_dev d k b).
Proof.
  intros Hd Hb k' b' E. cbn [dv_sectors write_dev] in E.
  apply lookup_insert_Some in E as [[<- <-]|[_ E]]; [done|by apply (Hd k')].
Qed.

Lemma set_copies_ok n fs copy c v s :
  geo fs -> dev_sectors_ok (ft_dev s) -> 0 <= c < fs_total_clusters fs + 2 -> 0 <= copy -> copy + Z.of_nat n = fs_num_fats fs ->
  exists s', set_copies fault n fs copy (c * 4 / 512) (c * 4 mod 512) v s = Some (true, s') /\
    ft_buf s' = ft_buf s /\ ft_key s' = ft_key s /\ same_pools s s' /\ dev_sectors_ok (ft_dev s') /\
    (forall k, copy <= k < fs_num_fats fs ->
      sector_of fs s' (fat_lba fs k c) = set_in_sector (sector_of fs s (fat_lba fs k c)) (c * 4 mod 512) v) /\
    (forall drv drive lba, (forall k, copy <= k < fs_num_fats fs ->
        (drv, drive, lba) <> (blk_driver (fs_drive_type fs), fs_drive fs, fat_lba fs k c)) ->
      sector_at (ft_dev s') drv drive lba = sector_at (ft_dev s) drv drive lba).
Proof.
  intros Hg Hd Hc. revert copy s Hd. induction n as [|n IH]; intros copy s Hd Hcp Hn; cbn [set_copies].
  - exists s. split; [done|]. split_and!; try done; intros; lia.
  - assert (Hlba : u64 (fs_fat_start fs + u64 (copy * fs_fat_size fs) + c * 4 / 512) = fat_lba fs copy c /\ in_u64 (fat_lba fs copy c)).
    { destruct (fat_lba_range fs copy c Hg ltac:(lia) Hc) as [Hin _]. pose proof (in_fats_u64 fs _ Hg Hin) as Hu.
      split; [|done]. rewrite (u64_id (copy * _)); [by apply u64_id|]. destruct Hg. word_unfold. nia. }
    destruct Hlba as [-> Hu]. pose proof (ge_drive _ Hg) as Hdr.
    rewrite (bind_eq _ _ _ _ _ (blk_read1 fault nofault _ _ _ s Hdr Hu)).
    set (sec := sector_at _ _ _ _). set (s1 := set_dev _ s).
    pose proof (sector_at_ok (ft_dev s) (blk_driver (fs_drive_type fs)) (fs_drive fs) (fat_lba fs copy c) Hd) as Hsec. fold sec in Hsec.
    destruct (set_in_sector_ok sec (c * 4 mod 512) v Hsec) as [Hl' Hb'].
    fold (set_in_sector sec (c * 4 mod 512) v).
    rewrite (bind_eq _ _ _ _ _ (blk_write1 fault nofault _ _ _ _ s1 Hdr Hu Hl')).
    set (s2 := set_dev _ s1).
    assert (Hs2 : forall drv drive lba, sector_at (ft_dev s2) drv drive lba =
      if decide ((blk_driver (fs_drive_type fs), fs_drive fs, fat_lba fs copy c) = (drv, drive, lba))
      then set_in_sector sec (c * 4 mod 512) v else sector_at (ft_dev s) drv drive lba).
    { intros. unfold s2, s1. cbn [ft_dev set_dev fat_has_dev]. by rewrite sector_at_write. }
    destruct (IH (copy + 1) s2) as (s' & E & Eb & Ek & Hp & Hd' & Hin & Hout); [|lia|lia|].
    { apply dev_ok_write; [done|]. by split. }
    exists s'. split; [done|]. split_and!; [done|done|done|done| |].
    + intros k Hk. destruct (decide (k = copy)) as [->|Hne].
      * unfold sector_of. rewrite Hout.
        -- rewrite Hs2, decide_True by done. done.
        -- intros k' Hk' [=]. destruct (fat_lba_range fs copy c Hg ltac:(lia) Hc), (fat_lba_range fs k' c Hg ltac:(lia) Hc). destruct Hg. nia.
      * rewrite Hin by lia. f_equal. unfold sector_of. rewrite Hs2, decide_False; [done|]. intros [=].
        destruct (fat_lba_range fs copy c Hg ltac:(lia) Hc), (fat_lba_range fs k c Hg ltac:(lia) Hc). destruct Hg. nia.
    + intros drv drive lba Hall. rewrite Hout by (intros k Hk; apply Hall; lia). rewrite Hs2, decide_False; [done|].
      intros E'. apply (Hall copy); [lia|done].
Qed.

(** What a write to the table leaves alone. *)
Definition only_fats fs s s' : Prop :=
  same_pools s s' /\
  forall drv drive lba, (drv <> blk_driver (fs_drive_type fs) \/ drive <> fs_drive fs \/ ~ in_fats fs lba) ->
    sector_at (ft_dev s') drv drive lba = sector_at (ft_dev s) drv drive lba.

Lemma only_fats_refl fs s : only_fats fs s s.
Proof. done. Qed.
Lemma only_fats_trans fs s s1 s2 : only_fats fs s s1 -> only_fats fs s1 s2 -> only_fats fs s s2.
Proof.
  intros [(E1 & E2 & E3) H1] [(F1 & F2 & F3) H2]. split; [split_and!; congruence|].
  intros drv drive lba H. by rewrite H2, H1.
Qed.
Lemma same_disk_only_fats fs s s' : same_disk s s' -> only_fats fs s s'.
Proof. intros [E Hp]. split; [done|]. intros. unfold sector_at. by rewrite E. Qed.

Lemma fat32_set_fat_entry_ok fs s c v :
  fat_wf fs s -> 0 <= c < fs_total_clusters fs + 2 ->
  exists s', fat32_set_fat_entry fault fs c v s = Some (true, s') /\ fat_wf fs s' /\ only_fats fs s s' /\
    forall k c', 0 <= k < fs_num_fats fs -> 0 <= c' < fs_total_clusters fs + 2 ->
      fat_raw fs s' k c' = if decide (c' = c) then fat_merge v (fat_raw fs s k c) else fat_raw fs s k c'.
Proof.
  intros [Hg Hd [Hl Hb Hk]] Hc. destruct (cluster_offset fs c Hg Hc) as (Eo & Hs & Ho).
  unfold fat32_set_fat_entry. rewrite Eo.
  destruct (set_copies_ok (Z.to_nat (fs_num_fats fs)) fs 0 c v s Hg Hd Hc) as (s1 & E1 & Eb & Ek & Hp & Hd1 & Hin & Hout);
    [lia|destruct Hg; lia|].
  rewrite (bind_eq _ _ _ _ _ E1).
  assert (Hhit : forall lba k, 0 <= k < fs_num_fats fs -> lba = fat_lba fs k c -> in_fats fs lba).
  { intros lba k Hk' ->. by apply fat_lba_range. }
  assert (Hof : only_fats fs s s1).
  { split; [done|]. intros drv drive lba Hne. apply Hout. intros k Hk' [= -> -> ->].
    destruct Hne as [?|[?|Hni]]; [done|done|]. by apply Hni, (Hhit _ k). }
  assert (Hraw : forall k c', 0 <= k < fs_num_fats fs -> 0 <= c' < fs_total_clusters fs + 2 ->
      fat_raw fs s1 k c' = if decide (c' = c) then fat_merge v (fat_raw fs s k c) else fat_raw fs s k c').
  { intros k c' Hk' Hc'. destruct (cluster_offset fs c' Hg Hc') as (_ & Hs' & Ho').
    destruct (fat_lba_range fs k c Hg Hk' Hc) as [_ Hr]. destruct (fat_lba_range fs k c' Hg Hk' Hc') as [_ Hr'].
    unfold fat_raw. destruct (decide (fat_lba fs k c' = fat_lba fs k c)) as [El|Hne].
    - rewrite El, (Hin k Hk'). rewrite get32_set_in_sector; [|by apply sector_at_ok|lia|lia|zlia|zlia].
      unfold fat_lba in El. destruct (decide (c' = c)) as [->|Hnc]; [by rewrite !decide_True|].
      rewrite decide_False; [done|]. zlia.
    - rewrite decide_False by (intros ->; done). f_equal. unfold sector_of. apply Hout.
      intros k' Hk'' [= El]. destruct (fat_lba_range fs k' c Hg Hk'' Hc) as [_ Hr''].
      pose proof (copy_unique (fs_fat_start fs) (fs_fat_size fs) k k' _ _ ltac:(destruct Hg; lia) Hr' Hr'' El) as ->. done. }
  unfold modify, mret, M_ret, mbind, M_bind.
  set (primary := u64 (fs_fat_start fs + c * 4 / 512)).
  assert (Ep : primary = fat_lba fs 0 c).
  { unfold primary. rewrite fat_lba_0. destruct (fat_lba_range fs 0 c Hg ltac:(destruct Hg; lia) Hc) as [Hi _].
    rewrite fat_lba_0 in Hi. by apply u64_id, (in_fats_u64 fs). }
  assert (Hnm : fat_lba fs 0 c <> 18446744073709551615).
  { destruct (fat_lba_range fs 0 c Hg ltac:(destruct Hg; lia) Hc) as [Hi _]. destruct Hg. unfold in_fats in Hi. nia. }
  eexists. split; [done|].
  destruct (decide ((primary, fs_drive_type fs, fs_drive fs) = ft_key s1)) as [Ekey|Hnkey].
  - split; [|done]. split; [done|done|].
    assert (Eold : ft_buf s = sector_of fs s (fat_lba fs 0 c)).
    { unfold sector_of. refine (Hb (fat_lba fs 0 c) (fs_drive_type fs) (fs_drive fs) _ Hnm). by rewrite <- Ek, <- Ekey, Ep. }
    split; cbn [ft_buf ft_key ft_dev set_cache].
    + rewrite length_put32, Eb. done.
    + intros lba t d Hkey Hnl. rewrite <- Ekey in Hkey. injection Hkey as <- <- <-.
      fold (set_in_sector (ft_buf s1) (c * 4 mod 512) v). rewrite Eb, Eold, Ep. symmetry. apply Hin. destruct Hg; lia.
    + intros lba t d Hkey. rewrite Ek in Hkey. by apply Hk.
  - split; [|done]. split; [done|done|]. split.
    + by rewrite Eb.
    + intros lba t d Hkey Hnl. rewrite Eb, (Hb lba t d) by congruence. symmetry. apply Hout.
      intros k Hk' [= Edrv Edrive Elba]. rewrite Ek in Hkey, Hnkey.
      destruct (fat_lba_range fs k c Hg Hk' Hc) as [Hif Hr]. rewrite <- Elba in Hif, Hr.
      destruct (Hk lba t d Hkey Edrv Edrive) as [[-> Hpr]|Hout'].
      * apply Hnkey. rewrite Hkey, Ep.
        pose proof (copy_unique (fs_fat_start fs) (fs_fat_size fs) k 0 lba lba ltac:(destruct Hg; lia) Hr ltac:(lia) eq_refl) as ->.
        by rewrite Elba, Edrive.
      * unfold in_fats in Hif. pose proof (ge_data _ Hg). destruct (ge_clusters _ Hg), (ge_spc _ Hg).
        assert (0 <= fs_total_clusters fs * fs_spc fs) by (apply Z.mul_nonneg_nonneg; lia). lia.
    + intros lba t d Hkey. rewrite Ek in Hkey. by apply Hk.
Qed.

(** Seen through the driver: one entry changes. *)
Lemma set_fat_get fs s c v s' :
  (forall k c', 0 <= k < fs_num_fats fs -> 0 <= c' < fs_total_clusters fs + 2 ->
      fat_raw fs s' k c' = if decide (c' = c) then fat_merge v (fat_raw fs s k c) else fat_raw fs s k c') ->
  geo fs -> forall c', 0 <= c' < fs_total_clusters fs + 2 ->
  fat_get fs s' c' = if decide (c' = c) then Z.land v 0x0FFFFFFF else fat_get fs s c'.
Proof.
  intros Hraw Hg c' Hc'. unfold fat_get. rewrite Hraw by (done || (destruct Hg; lia)).
  case_decide; [apply fat_merge_low|done].
Qed.

(** ** Allocation of one cluster *)

(** One entry of every copy is set to [v]; the volume's hint may change. *)
Record sets_entry fs s c v s' : Prop := {
  se_wf : fat_wf fs s';
  se_nodes : ft_nodes s' = ft_nodes s /\ ft_finfo s' = ft_finfo s;
  se_raw : forall k c', 0 <= k < fs_num_fats fs -> 0 <= c' < fs_total_clusters fs + 2 ->
    fat_raw fs s' k c' = if decide (c' = c) then fat_merge v (fat_raw fs s k c) else fat_raw fs s k c';
  se_out : forall drv drive lba, (drv <> blk_driver (fs_drive_type fs) \/ drive <> fs_drive fs \/ ~ in_fats fs lba) ->
    sector_at (ft_dev s') drv drive lba = sector_at (ft_dev s) drv drive lba;
}.

Lemma same_disk_sets fs s s1 c v s' : same_disk s s1 -> sets_entry fs s1 c v s' -> sets_entry fs s c v s'.
Proof.
  intros Hs [Hw Hn Hr Ho]. split; [done| | |].
  - destruct Hs as (_ & _ & E1 & E2), Hn as [F1 F2]. split; congruence.
  - intros k c' Hk Hc'. rewrite Hr by done. by rewrite !(same_disk_raw fs s s1).
  - intros drv drive lba H. rewrite Ho by done. destruct Hs as [E _]. unfold sector_at. by rewrite E.
Qed.

Lemma set_hint_wf fs fsi h s : fat_wf fs s -> fat_wf fs (set_fs (alter (with_hint h) fsi (ft_fs s)) s).
Proof. intros [Hg Hd [Hl Hb Hk]]. by split. Qed.

Lemma alloc_scan_ok n fsi fs c s :
  fat_wf fs s -> ft_fs s !! fsi = Some fs -> 2 <= c -> c + Z.of_nat n <= fs_total_clusters fs + 2 ->
  exists r s', alloc_scan fault n fsi c s = Some (r, s') /\
    match r with
    | None => same_disk s s' /\ fat_wf fs s' /\ forall x, c <= x < c + Z.of_nat n -> fat_get fs s x <> 0
    | Some x => c <= x < c + Z.of_nat n /\ fat_get fs s x = 0 /\ (forall y, c <= y < x -> fat_get fs s y <> 0) /\
        sets_entry fs s x FAT32_EOC s' /\ ft_fs s' = alter (with_hint (x + 1)) fsi (ft_fs s)
    end.
Proof.
  revert c s. induction n as [|n IH]; intros c s Hwf Hfs Hc Hn; cbn [alloc_scan].
  { exists None, s. split; [done|]. split; [apply same_disk_refl|]. split; [done|]. lia. }
  unfold get_fs. rewrite (bind_eq _ _ s fs s) by (by rewrite Hfs).
  destruct (next_cluster_ok fs s c Hwf ltac:(lia)) as (s1 & E1 & Hs1 & Hwf1).
  rewrite (bind_eq _ _ _ _ _ E1). destruct (Z.eqb_spec (fat_get fs s c) 0) as [Ez|Hnz].
  - destruct (fat32_set_fat_entry_ok fs s1 c FAT32_EOC Hwf1 ltac:(lia)) as (s2 & E2 & Hwf2 & [(P1 & P2 & P3) Hout] & Hraw).
    rewrite (bind_eq _ _ _ _ _ E2). unfold set_hint, modify. rewrite (bind_eq _ _ s2 tt _ eq_refl).
    eexists (Some c), _. split; [done|]. split; [lia|]. split; [done|]. split; [lia|].
    rewrite u32_id by (destruct (wf_geo _ _ Hwf); word). split.
    + eapply same_disk_sets; [exact Hs1|]. split; [by apply set_hint_wf|done|done|done].
    + cbn [ft_fs set_fs]. rewrite P1. by destruct Hs1 as (_ & -> & _).
  - destruct Hs1 as [Ed (P1 & P2 & P3)] eqn:EHs.
    destruct (IH (c + 1) s1 Hwf1 ltac:(by rewrite P1) ltac:(lia) ltac:(lia)) as (r & s' & E & Hr).
    assert (Hget : forall x, fat_get fs s1 x = fat_get fs s x) by (intros; by apply same_disk_get).
    exists r, s'. split; [done|]. destruct r as [x|].
    + destruct Hr as (Hx & Hx0 & Hlt & Hse & Hh). rewrite Hget in Hx0. split; [lia|]. split; [done|].
      split; [|split; [by eapply same_disk_sets|by rewrite Hh, P1]].
      intros y Hy. destruct (decide (y = c)) as [->|]; [done|]. rewrite <- Hget. apply Hlt. lia.
    + destruct Hr as (Hsd & Hw & Hall). split; [by eapply same_disk_trans|]. split; [done|].
      intros x Hx. destruct (decide (x = c)) as [->|]; [done|]. rewrite <- Hget. apply Hall. lia.
Qed.

Lemma alloc_start_range fs : geo fs -> 2 <= alloc_start fs <= fs_total_clusters fs + 1 \/ alloc_start fs = 2.
Proof.
  intros []. unfold alloc_start. rewrite u32_id by word. bcase; cbn [orb]; [by right|].
  bcase; [by right|left; lia].
Qed.

(** A failed allocation changes nothing; a successful one returns a cluster
    that was free and marks it the end of a chain. *)
Lemma fat32_alloc_cluster_ok fs fsi s :
  fat_wf fs s -> ft_fs s !! fsi = Some fs ->
  exists r s', fat32_alloc_cluster fault fsi s = Some (r, s') /\
    ((r = 0 /\ same_disk s s' /\ fat_wf fs s' /\ forall x, cluster_ok fs x -> fat_get fs s x <> 0) \/
     (cluster_ok fs r /\ fat_get fs s r = 0 /\ sets_entry fs s r FAT32_EOC s' /\
      ft_fs s' = alter (with_hint (r + 1)) fsi (ft_fs s))).
Proof.
  intros Hwf Hfs. pose proof (wf_geo _ _ Hwf) as Hg. unfold fat32_alloc_cluster, get_fs.
  rewrite (bind_eq _ _ s fs s) by (by rewrite Hfs).
  assert (Emax : u32 (fs_total_clusters fs + 1) = fs_total_clusters fs + 1) by (destruct Hg; apply u32_id; word).
  rewrite Emax. destruct (ge_clusters _ Hg).
  assert (Hst : 2 <= alloc_start fs <= fs_total_clusters fs + 1) by (destruct (alloc_start_range fs Hg); lia).
  destruct (alloc_scan_ok (Z.to_nat (fs_total_clusters fs + 1 - alloc_start fs + 1)) fsi fs (alloc_start fs) s Hwf Hfs)
    as (r1 & s1 & E1 & Hr1); [lia|lia|]. rewrite (bind_eq _ _ _ _ _ E1).
  destruct r1 as [x|].
  { destruct Hr1 as (Hx & Hx0 & _ & Hse & Hh). exists x, s1. split; [done|]. right. unfold cluster_ok. split; [lia|]. done. }
  destruct Hr1 as (Hs1 & Hwf1 & Hall1). destruct (Z.eqb_spec (fs_total_clusters fs + 1) 4294967295); [lia|].
  destruct (alloc_scan_ok (Z.to_nat (alloc_start fs - 2)) fsi fs 2 s1 Hwf1) as (r2 & s2 & E2 & Hr2);
    [destruct Hs1 as (_ & -> & _); done|lia|lia|]. rewrite (bind_eq _ _ _ _ _ E2).
  assert (Hget : forall x, fat_get fs s1 x = fat_get fs s x) by (intros; by apply same_disk_get).
  destruct r2 as [x|].
  - destruct Hr2 as (Hx & Hx0 & _ & Hse & Hh). exists x, s2. split; [done|]. right. rewrite Hget in Hx0.
    unfold cluster_ok. split; [lia|]. split; [done|]. split; [by eapply same_disk_sets|].
    rewrite Hh. by destruct Hs1 as (_ & -> & _).
  - destruct Hr2 as (Hs2 & Hwf2 & Hall2). exists 0, s2. split; [done|]. left. split; [done|].
    split; [by eapply same_disk_trans|]. split; [done|]. intros x Hx. unfold cluster_ok in Hx.
    destruct (Z_lt_le_dec x (alloc_start fs)); [rewrite <- Hget; apply Hall2; lia|apply Hall1; lia].
Qed.

(** [fat32_set_fat_entry] and [fat32_next_cluster] of fat32.c: after a
    table write the entry is set in every copy of the table with its four
    reserved bits kept, every other entry of every copy and every sector
    outside the table is as before, and the driver - through its sector cache,
    warm or cold - reads the new value back, and the old ones elsewhere. *)
Theorem fat32_set_fat_entry_correct fs s c v :
  fat_wf fs s -> 0 <= c < fs_total_clusters fs + 2 ->
  exists s', fat32_set_fat_entry fault fs c v s = Some (true, s') /\ fat_wf fs s' /\ only_fats fs s s' /\
    (forall k c', 0 <= k < fs_num_fats fs -> 0 <= c' < fs_total_clusters fs + 2 ->
      fat_raw fs s' k c' = if decide (c' = c)
        then Z.lor (Z.land v 0x0FFFFFFF) (Z.land (fat_raw fs s k c) 0xF0000000) else fat_raw fs s k c') /\
    (forall c', 0 <= c' < fs_total_clusters fs + 2 -> exists s'',
      fat32_next_cluster fault fs c' s' =
        Some (if decide (c' = c) then Z.land v 0x0FFFFFFF else fat_get fs s c', s'')).
Proof.
  intros Hwf Hc. destruct (fat32_set_fat_entry_ok fs s c v Hwf Hc) as (s' & E & Hwf' & Ho & Hr).
  exists s'. split; [done|]. split; [done|]. split; [done|]. split; [exact Hr|].
  intros c' Hc'. destruct (next_cluster_ok fs s' c' Hwf' Hc') as (s'' & E'' & _ & _). exists s''.
  by rewrite E'', (set_fat_get fs s c v s' Hr (wf_geo _ _ Hwf) c' Hc').
Qed.

(** [fat32_alloc_cluster] of fat32.c: the search returns; it fails only
    when no data cluster is free, and then changes nothing; otherwise it
    returns a cluster that was free, marks it as the end of a chain in every
    copy of the table, changes no other entry and no sector outside the
    table, and moves the search hint past it. *)
Theorem fat32_alloc_cluster_correct fs fsi s :
  fat_wf fs s -> ft_fs s !! fsi = Some fs ->
  exists r s', fat32_alloc_cluster fault fsi s = Some (r, s') /\ fat_wf fs s' /\
    (forall lba, ~ in_fats fs lba -> sector_of fs s' lba = sector_of fs s lba) /\
    if decide (r = 0) then
      (forall x, cluster_ok fs x -> fat_get fs s x <> 0) /\
      (forall x, fat_get fs s' x = fat_get fs s x) /\ ft_fs s' = ft_fs s
    else
      cluster_ok fs r /\ fat_get fs s r = 0 /\ ft_fs s' = alter (with_hint (r + 1)) fsi (ft_fs s) /\
      forall x, 0 <= x < fs_total_clusters fs + 2 ->
        fat_get fs s' x = if decide (x = r) then FAT32_EOC else fat_get fs s x.
Proof.
  intros Hwf Hfs. destruct (fat32_alloc_cluster_ok fs fsi s Hwf Hfs) as (r & s' & E & [(-> & Hs & Hw & Hall)|(Hr & Hz & Hse & Hh)]).
  - exists 0, s'. split; [done|]. split; [done|]. split; [intros; by apply same_disk_sector|].
    rewrite decide_True by done. split; [done|]. split; [intros; by apply same_disk_get|]. by destruct Hs as (_ & -> & _).
  - exists r, s'. split; [done|]. split; [apply Hse|]. split.
    { intros lba Hl. apply (se_out _ _ _ _ _ Hse). by right; right. }
    rewrite decide_False by (unfold cluster_ok in Hr; lia). do 3 (split; [done|]).
    intros x Hx. rewrite (set_fat_get fs s r FAT32_EOC s' (se_raw _ _ _ _ _ Hse) (wf_geo _ _ Hwf) x Hx). by case_decide.
Qed.

(** ** Allocation of a run *)

(** The scan over the table as a function. *)
Fixpoint run_pure (f : Z -> Z) (n : nat) (want c : Z) (run best : Z * Z) : Z * Z :=
  match n with
  | O => best
  | S n =>
    if f c =? 0 then
      let run := (if run.2 =? 0 then c else run.1, run.2 + 1) in
      let best := if run.2 >? best.2 then run else best in
      if best.2 >=? want then best else run_pure f n want (c + 1) run best
    else run_pure f n want (c + 1) (run.1, 0) best
  end.

Lemma run_pure_ext f g n want c run best :
  (forall x, c <= x < c + Z.of_nat n -> f x = g x) -> run_pure f n want c run best = run_pure g n want c run best.
Proof.
  revert c run best. induction n as [|n IH]; intros c run best Hfg; cbn [run_pure]; [done|].
  rewrite (Hfg c) by lia. repeat bcase; try done; apply IH; intros; apply Hfg; lia.
Qed.

Lemma run_scan_ok n fs want c run best s :
  fat_wf fs s -> 0 <= c -> c + Z.of_nat n <= fs_total_clusters fs + 2 ->
  exists s', run_scan fault n fs want c run best s = Some (run_pure (fat_get fs s) n want c run best, s') /\
    same_disk s s' /\ fat_wf fs s'.
Proof.
  revert c run best s. induction n as [|n IH]; intros c run best s Hwf Hc Hn; cbn [run_scan run_pure].
  { by exists s. }
  destruct (next_cluster_ok fs s c Hwf ltac:(lia)) as (s1 & E1 & Hs1 & Hwf1).
  rewrite (bind_eq _ _ _ _ _ E1).
  assert (Hrec : forall run best, exists s', run_scan fault n fs want (c + 1) run best s1 =
    Some (run_pure (fat_get fs s) n want (c + 1) run best, s') /\ same_disk s s' /\ fat_wf fs s').
  { intros run' best'. destruct (IH (c + 1) run' best' s1 Hwf1 ltac:(lia) ltac:(lia)) as (s' & E & Hs & Hw).
    exists s'. split; [|split; [by eapply same_disk_trans|done]]. rewrite E. do 2 f_equal.
    apply run_pure_ext. intros. by apply same_disk_get. }
  destruct (fat_get fs s c =? 0); [|apply Hrec].
  match goal with |- context [if ?b then mret _ else _] => destruct b end; [|apply Hrec].
  by exists s1.
Qed.

Definition free_range (f : Z -> Z) (a m : Z) : Prop := forall x, a <= x < a + m -> f x = 0.

(** The state of a pass that began at [lo]. *)
Record pass_inv (f : Z -> Z) (hi want lo c : Z) (run best : Z * Z) : Prop := {
  pi_run : 0 <= run.2 <= best.2;
  pi_run1 : 0 < run.2 -> lo <= run.1 /\ run.1 + run.2 = c /\ free_range f run.1 run.2 /\ (run.1 = lo \/ f (run.1 - 1) <> 0);
  pi_run0 : run.2 = 0 -> c = lo \/ f (c - 1) <> 0;
  pi_best : 0 < best.2 -> 2 <= best.1 /\ best.1 + best.2 <= hi /\ free_range f best.1 best.2;
  pi_want : best.2 < want;
  pi_longest : forall a m, lo <= a -> 0 < m -> a + m <= c -> free_range f a m -> m <= best.2;
}.

Lemma run_pure_spec f n hi want lo c run best :
  2 <= lo <= c -> c + Z.of_nat n <= hi -> pass_inv f hi want lo c run best ->
  let b := run_pure f n want c run best in
  best.2 <= b.2 <= want /\ (0 < b.2 -> 2 <= b.1 /\ b.1 + b.2 <= hi /\ free_range f b.1 b.2) /\
  (b.2 < want -> forall a m, lo <= a -> 0 < m -> a + m <= c + Z.of_nat n -> free_range f a m -> m <= b.2).
Proof.
  revert c run best. induction n as [|n IH]; intros c run best Hlo Hn [H1 H2 H3 H4 H5 H6]; cbn [run_pure].
  { split; [lia|]. split; [done|]. intros _ a m ? ? ?. apply H6; lia. }
  destruct (Z.eqb_spec (f c) 0) as [Hf|Hf].
  - set (run' := (if run.2 =? 0 then c else run.1, run.2 + 1)).
    assert (Hr' : lo <= run'.1 /\ run'.1 + run'.2 = c + 1 /\ free_range f run'.1 run'.2 /\ (run'.1 = lo \/ f (run'.1 - 1) <> 0)).
    { subst run'. cbn [fst snd]. destruct (Z.eqb_spec (run.2) 0) as [E|E].
      - split; [lia|]. split; [lia|]. split; [|destruct (H3 E) as [->|?]; [by left|by right]].
        intros x Hx. by replace x with c by lia.
      - destruct (H2 ltac:(lia)) as (? & ? & Hfr & ?). split; [done|]. split; [lia|]. split; [|done].
        intros x Hx. destruct (decide (x = c)) as [->|]; [done|]. apply Hfr. lia. }
    destruct Hr' as (Ha & Hb & Hfr & Hmax).
    assert (Er2 : run'.2 = run.2 + 1) by done.
    set (best' := if run'.2 >? best.2 then run' else best).
    assert (Hb' : best.2 <= best'.2 <= want /\ run'.2 <= best'.2 /\
      (0 < best'.2 -> 2 <= best'.1 /\ best'.1 + best'.2 <= hi /\ free_range f best'.1 best'.2)).
    { subst best'. bcase; [split; [lia|]; split; [lia|]; intros _; split; [lia|]; split; [lia|done]|].
      split; [lia|]. split; [lia|done]. }
    destruct Hb' as (Hb1 & Hb2 & Hb3).
    destruct (Z.geb_spec best'.2 want) as [Hge|Hlt].
    + split; [lia|]. split; [done|]. lia.
    + destruct (IH (c + 1) run' best') as (I1 & I2 & I3); [lia|lia| |].
      * split; [lia| |lia|done|lia|].
        -- intros _. done.
        -- intros a m Hlo' Hm Hc Hfree. destruct (Z_le_gt_dec (a + m) c); [etransitivity; [by apply (H6 a m)|lia]|].
           destruct (Z_lt_le_dec a run'.1); [|lia]. destruct Hmax as [?|Hnf]; [lia|].
           exfalso. apply Hnf, Hfree. lia.
      * split; [lia|]. split; [done|]. intros Hbw a m ? ? ?. apply I3; [done|done|done|lia].
  - destruct (IH (c + 1) (run.1, 0) best) as (I1 & I2 & I3); [lia|lia| |].
    + split; cbn [fst snd]; [lia|lia| |done|done|].
      * intros _. right. by replace (c + 1 - 1) with c by lia.
      * intros a m Hlo' Hm Hc Hfree. destruct (Z_le_gt_dec (a + m) c); [by apply (H6 a m)|].
        exfalso. apply Hf, Hfree. lia.
    + split; [lia|]. split; [done|]. intros Hbw a m ? ? ?. apply I3; [done|done|done|lia].
Qed.

Lemma land28_small v : 0 <= v < 0x10000000 -> Z.land v 0x0FFFFFFF = v.
Proof.
  intros Hv. assert (E : Z.land v 0x0FFFFFFF = v mod 2 ^ 28) by (by apply (land_ones_mod v 28)).
  rewrite E. apply Z.mod_small. done.
Qed.

(** The links of a freshly chained run. *)
Definition run_link (start len c : Z) : Z := if c + 1 <? start + len then c + 1 else FAT32_EOC.

Lemma chain_run_ok n fs start len i s :
  fat_wf fs s -> 2 <= start -> 0 <= i -> i + Z.of_nat n = len -> start + len <= fs_total_clusters fs + 2 ->
  exists s', chain_run fault n fs start len i s = Some (true, s') /\ fat_wf fs s' /\ only_fats fs s s' /\
    forall c, 0 <= c < fs_total_clusters fs + 2 ->
      fat_get fs s' c = if decide (start + i <= c < start + len) then run_link start len c else fat_get fs s c.
Proof.
  revert i s. induction n as [|n IH]; intros i s Hwf Hst Hi Hn Hlen; cbn [chain_run].
  { exists s. split; [done|]. split; [done|]. split; [apply only_fats_refl|]. intros c Hc. by rewrite decide_False by lia. }
  pose proof (wf_geo _ _ Hwf) as Hg. destruct (ge_clusters _ Hg). rewrite !u32_id by (rewrite ?u32_id by word; word).
  destruct (fat32_set_fat_entry_ok fs s (start + i) (if i + 1 <? len then start + i + 1 else FAT32_EOC) Hwf ltac:(lia))
    as (s1 & E1 & Hwf1 & Ho1 & Hr1). rewrite (bind_eq _ _ _ _ _ E1).
  destruct (IH (i + 1) s1 Hwf1) as (s' & E & Hwf' & Ho & Hget); [lia..|].
  exists s'. split; [done|]. split; [done|]. split; [by eapply only_fats_trans|].
  intros c Hc. rewrite Hget by done. rewrite (set_fat_get fs s (start + i) _ s1 Hr1 Hg c Hc).
  destruct (decide (c = start + i)) as [->|Hne].
  - rewrite decide_False, decide_True by lia. unfold run_link.
    destruct (Z.ltb_spec (i + 1) len), (Z.ltb_spec (start + i + 1) (start + len)); try lia.
    + apply land28_small. lia.
    + done.
  - destruct (decide (start + (i + 1) <= c < start + len)), (decide (start + i <= c < start + len)); (done || lia).
Qed.

(** Of fat32.c, [fat32_alloc_run]: the search for [want] clusters returns.
    It fails only when no data cluster is free. Otherwise it takes at most
    [want] consecutive clusters, all free before, chains them to each other
    and ends the chain, and leaves every other entry and every other sector
    alone; and when it takes fewer than [want], no free run on either side of
    the search hint is longer. *)
Theorem fat32_alloc_run_correct fs fsi want s :
  fat_wf fs s -> ft_fs s !! fsi = Some fs -> 0 <= want < 4294967296 ->
  exists start len s', fat32_alloc_run fault fsi want s = Some ((start, len), s') /\ fat_wf fs s' /\
    (forall lba, ~ in_fats fs lba -> sector_of fs s' lba = sector_of fs s lba) /\
    if decide (len = 0) then
      start = 0 /\ (forall x, cluster_ok fs x -> fat_get fs s x <> 0) /\ forall x, fat_get fs s' x = fat_get fs s x
    else
      1 <= len <= Z.max 1 want /\ cluster_ok fs start /\ cluster_ok fs (start + len - 1) /\
      free_range (fat_get fs s) start len /\
      (forall x, 0 <= x < fs_total_clusters fs + 2 ->
        fat_get fs s' x = if decide (start <= x < start + len) then run_link start len x else fat_get fs s x) /\
      (len < want -> forall a m, 2 <= a -> 0 < m -> a + m <= fs_total_clusters fs + 2 ->
        (a + m <= alloc_start fs \/ alloc_start fs <= a) -> free_range (fat_get fs s) a m -> m <= len).
Proof.
  intros Hwf Hfs Hw. pose proof (wf_geo _ _ Hwf) as Hg. unfold fat32_alloc_run, get_fs.
  set (want' := if want =? 0 then 1 else want).
  assert (Hw' : 1 <= want' /\ want' = Z.max 1 want) by (subst want'; bcase; lia).
  rewrite (bind_eq _ _ s fs s) by (by rewrite Hfs).
  assert (Emax : u32 (fs_total_clusters fs + 1) = fs_total_clusters fs + 1) by (destruct Hg; apply u32_id; word).
  rewrite Emax. destruct (ge_clusters _ Hg).
  assert (Hst : 2 <= alloc_start fs <= fs_total_clusters fs + 1) by (destruct (alloc_start_range fs Hg); lia).
  set (st := alloc_start fs) in *. set (f := fat_get fs s).
  destruct (run_scan_ok (Z.to_nat (fs_total_clusters fs + 1 - st + 1)) fs want' st (0, 0) (0, 0) s Hwf) as (s1 & E1 & Hs1 & Hwf1);
    [lia|lia|]. rewrite (bind_eq _ _ _ _ _ E1). fold f. set (b1 := run_pure f _ _ _ _ _).
  destruct (run_pure_spec f (Z.to_nat (fs_total_clusters fs + 1 - st + 1)) (fs_total_clusters fs + 2) want' st st (0, 0) (0, 0))
    as (B1 & B2 & B3); [lia|lia|split; cbn; (lia || by left)|]. fold b1 in B1, B2, B3. cbn [snd] in B1.
  destruct (Z.eqb_spec (fs_total_clusters fs + 1) 4294967295); [lia|]. rewrite andb_false_r.
  (* the best run after both passes *)
  assert (exists b s2, (if b1.2 <? want' then run_scan fault (Z.to_nat (st - 2)) fs want' 2 (0, 0) b1 else mret b1) s1 = Some (b, s2) /\
    same_disk s s2 /\ fat_wf fs s2 /\ 0 <= b.2 <= want' /\
    (0 < b.2 -> 2 <= b.1 /\ b.1 + b.2 <= fs_total_clusters fs + 2 /\ free_range f b.1 b.2) /\
    (b.2 < want' -> forall a m, 2 <= a -> 0 < m -> a + m <= fs_total_clusters fs + 2 ->
       (a + m <= st \/ st <= a) -> free_range f a m -> m <= b.2)) as (b & s2 & E2 & Hs2 & Hwf2 & Hb1 & Hb2 & Hb3).
  { destruct (Z.ltb_spec b1.2 want') as [Hlt|Hge].
    - destruct (run_scan_ok (Z.to_nat (st - 2)) fs want' 2 (0, 0) b1 s1 Hwf1) as (s2 & E2 & Hs2 & Hwf2); [lia|lia|].
      assert (Ef : run_pure (fat_get fs s1) (Z.to_nat (st - 2)) want' 2 (0, 0) b1 = run_pure f (Z.to_nat (st - 2)) want' 2 (0, 0) b1).
      { apply run_pure_ext. intros. by apply same_disk_get. }
      rewrite Ef in E2. exists (run_pure f (Z.to_nat (st - 2)) want' 2 (0, 0) b1), s2. split; [done|].
      split; [by eapply same_disk_trans|]. split; [done|].
      destruct (run_pure_spec f (Z.to_nat (st - 2)) (fs_total_clusters fs + 2) want' 2 2 (0, 0) b1) as (C1 & C2 & C3); [lia|lia| |].
      + split; cbn [fst snd]; [lia|lia|by left|done|done|]. intros; lia.
      + split; [lia|]. split; [done|]. intros Hbw a m ? ? ? [Hside|Hside] Hfree.
        * apply (C3 Hbw a m); [lia|lia|lia|done].
        * etransitivity; [apply (B3 ltac:(lia) a m); [lia|lia|lia|done]|lia].
    - exists b1, s1. split; [done|]. split; [done|]. split; [done|]. split; [lia|]. split; [done|]. lia. }
  rewrite (bind_eq _ _ _ _ _ E2).
  assert (Hget : forall x, fat_get fs s2 x = f x) by (intros; by apply same_disk_get).
  destruct (Z.eqb_spec b.2 0) as [Hb0|Hb0].
  - exists 0, 0, s2. split; [done|]. split; [done|]. split; [intros; by apply same_disk_sector|].
    rewrite decide_True by done. split; [done|]. split; [|intros; by apply same_disk_get].
    intros x Hx Hz. unfold cluster_ok in Hx.
    enough (1 <= b.2) by lia. apply (Hb3 ltac:(lia) x 1); [lia|lia|lia|lia|].
    intros y Hy. by replace y with x by lia.
  - assert (Elen : (if b.2 >? want' then want' else b.2) = b.2) by (bcase; lia). rewrite Elen.
    destruct (Hb2 ltac:(lia)) as (G1 & G2 & G3).
    destruct (chain_run_ok (Z.to_nat b.2) fs b.1 b.2 0 s2 Hwf2) as (s3 & E3 & Hwf3 & Ho3 & Hget3); [lia..|].
    rewrite (bind_eq _ _ _ _ _ E3). unfold set_hint, modify. rewrite (bind_eq _ _ s3 tt _ eq_refl).
    exists b.1, b.2. eexists. split; [done|]. split; [by apply set_hint_wf|]. split.
    { intros lba Hl. transitivity (sector_of fs s2 lba); [|by apply same_disk_sector].
      apply (proj2 Ho3). by right; right. }
    rewrite decide_False by done. split; [lia|]. unfold cluster_ok. split; [lia|]. split; [lia|]. split; [done|]. split.
    + intros x Hx. etransitivity; [exact (Hget3 x Hx)|]. rewrite Z.add_0_r, Hget. done.
    + intros Hlw. apply Hb3. lia.
Qed.
End Table.

(** ** A volume the theorems apply to *)

Module Demo.
(** One sector per cluster, two one-sector copies of the table at sectors 1
    and 2, eight clusters from sector 3. *)
Definition fs : fat32_fs_t := Fs 0 DRIVE_TYPE_ATA 0 1 1 2 1 2 1 3 11 8 2 [].

(** A table whose clusters 2 and 5 are chain ends and whose chain 3, 4, 6 is
    the file "data". *)
Definition table : list Z :=
  put32 (put32 (put32 (put32 (put32 (replicate 512 0) 8 FAT32_EOC) 12 4) 16 6) 20 FAT32_EOC) 24 FAT32_EOC.
Definition sectors : gmap (driver * Z * Z) (list Z) :=
  list_to_map [((DrvAta, 0, 1), table); ((DrvAta, 0, 2), table);
               ((DrvAta, 0, 4), replicate 512 65); ((DrvAta, 0, 5), replicate 512 66); ((DrvAta, 0, 7), replicate 512 67)].
Definition node : vfs_node_t := Node [] VFS_FILE 1300 3 OpsFile None (Some 0%nat).
Definition st : fat_st :=
  set_finfo [Finfo 0 false 0 0] (set_nodes [node] (set_fs [fs] (fat_boot (Dev sectors 0)))).

Definition fault (k : nat) : option nat := None.
Lemma nofault k : fault k = None.
Proof. done. Qed.

Lemma wf : fat_wf fs st.
Proof.
  split.
  - split; (done || lia).
  - intros k b. change (dv_sectors (ft_dev st)) with sectors. unfold sectors. intros H.
    apply elem_of_list_to_map_2 in H. repeat (apply elem_of_cons in H as [H|H]; [injection H as -> ->|]); [..|by apply elem_of_nil in H].
    all: split; [by vm_compute|apply bytes_dec_ok; by vm_compute].
  - split; [done| |].
    + intros lba t d [= <- <- <-]. done.
    + intros lba t d [= <- <- <-] _ H. done.
Qed.
End Demo.

Lemma fat32_set_fat_entry_correct_witness :
  exists s', fat32_set_fat_entry Demo.fault Demo.fs 4 0 Demo.st = Some (true, s') /\ fat_raw Demo.fs s' 1 4 = 0.
Proof.
  destruct (fat32_set_fat_entry_correct Demo.fault Demo.nofault Demo.fs Demo.st 4 0 Demo.wf ltac:(by vm_compute))
    as (s' & E & _ & _ & Hr & _).
  exists s'. split; [exact E|]. rewrite (Hr 1 4) by (by vm_compute). by vm_compute.
Defined.

Lemma fat32_alloc_cluster_correct_witness :
  exists s', fat32_alloc_cluster Demo.fault 0 Demo.st = Some (7, s') /\ fat_get Demo.fs s' 7 = FAT32_EOC.
Proof.
  destruct (fat32_alloc_cluster_correct Demo.fault Demo.nofault Demo.fs 0 Demo.st Demo.wf eq_refl) as (r & s' & E & _ & _ & H).
  assert (Er : r = 7).
  { assert (H7 : (fat32_alloc_cluster Demo.fault 0 Demo.st) ≫= (fun x => Some x.1) = Some 7) by (by vm_compute).
    rewrite E in H7. by injection H7. }
  subst r. exists s'. split; [exact E|]. destruct H as (_ & _ & _ & H). by rewrite (H 7) by (by vm_compute).
Defined.

Lemma fat32_alloc_run_correct_witness :
  exists s', fat32_alloc_run Demo.fault 0 2 Demo.st = Some ((7, 2), s') /\
    fat_get Demo.fs s' 7 = 8 /\ fat_get Demo.fs s' 8 = FAT32_EOC.
Proof.
  destruct (fat32_alloc_run_correct Demo.fault Demo.nofault Demo.fs 0 2 Demo.st Demo.wf eq_refl ltac:(by vm_compute)) as (st & len & s' & E & _ & _ & H).
  assert (Er : (st, len) = (7, 2)).
  { assert (H7 : (fat32_alloc_run Demo.fault 0 2 Demo.st) ≫= (fun x => Some x.1) = Some (7, 2)) by (by vm_compute).
    rewrite E in H7. by injection H7 as -> ->. }
  injection Er as -> ->. exists s'. split; [exact E|]. destruct H as (_ & _ & _ & _ & H & _).
  split; [by rewrite (H 7) by (by vm_compute)|by rewrite (H 8) by (by vm_compute)].
Defined.
