(* ===== verification/Fat32Files.v ===== *)
(** * FAT32: names, chains and file contents

    Names round-trip through the 8.3 form; freeing a chain frees exactly its
    clusters; reading a file yields the bytes of its cluster chain. As in
    Fat32Proofs.v the drives answer every command. *)

From S2P Require Import Prelude Blk BlkProofs Fat32 Fat32Proofs.

(** ** Names *)

Lemma until_space_app l l' : Forall (fun c => c <> space) l -> until_space (l ++ l') = l ++ until_space l'.
Proof.
  induction 1 as [|c l Hc _ IH]; [done|]. cbn [app until_space]. destruct (Z.eqb_spec c space); [done|]. by rewrite IH.
Qed.

Lemma until_space_pad n : until_space (replicate n space) = [].
Proof. by destruct n. Qed.

(** A character a name may contain. *)
Definition name_char (c : Z) : Prop := c <> space /\ c <> dot /\ c <> 0.

Lemma upcase_char c : name_char c -> name_char (upcase c).
Proof. unfold name_char, upcase, space, dot. intros. destruct (Z.leb_spec 97 c), (Z.leb_spec c 122); cbn [andb]; lia. Qed.

Lemma parse_base_ok room name :
  Forall name_char name -> (length name <= room)%nat -> forall r, (r = [] \/ exists r', r = dot :: r') ->
  parse_base room (name ++ r) = Some (map upcase name, r).
Proof.
  intros Hn. revert room. induction Hn as [|c name (Hs & Hd & H0) _ IH]; intros room Hl r Hr; cbn [app parse_base map].
  - destruct Hr as [->|[r' ->]]; [by destruct room|]. destruct room; cbn [parse_base]; by rewrite Z.eqb_refl.
  - cbn [length] in Hl. destruct room as [|room]; [lia|]. cbn [parse_base]. destruct (Z.eqb_spec c dot); [done|].
    by rewrite (IH room) by (done || lia).
Qed.

Lemma parse_ext_ok room name :
  Forall name_char name -> (length name <= room)%nat -> parse_ext room name = Some (map upcase name).
Proof.
  intros Hn. revert room. induction Hn as [|c name (Hs & Hd & H0) _ IH]; intros room Hl; cbn [parse_ext map]; [by destruct room|].
  cbn [length] in Hl. destruct room as [|room]; [lia|]. cbn [parse_ext]. destruct (Z.eqb_spec c dot); [done|].
  by rewrite (IH room) by lia.
Qed.

Lemma cstr_nozero l : Forall (fun c => c <> 0) l -> cstr l = l.
Proof. induction 1 as [|c l Hc _ IH]; [done|]. cbn [cstr]. destruct (Z.eqb_spec c 0); [done|]. by rewrite IH. Qed.

Lemma length_pad n l : (length l <= n)%nat -> length (pad n l) = n.
Proof. intros. unfold pad. len. Qed.

Lemma until_space_padded l n : Forall name_char l -> until_space (pad n l) = l.
Proof.
  intros Hl. unfold pad. rewrite until_space_app by (eapply Forall_impl; [done|by intros ? (? & _)]).
  by rewrite until_space_pad, app_nil_r.
Qed.

Lemma Forall_upcase l : Forall name_char l -> Forall name_char (map upcase l).
Proof. induction 1; cbn; constructor; auto using upcase_char. Qed.

Lemma format_83_padded b e :
  Forall name_char b -> Forall name_char e -> (length b <= 8)%nat -> (length e <= 3)%nat ->
  fat32_format_83 (pad 8 b ++ pad 3 e) = b ++ match e with [] => [] | _ => dot :: e end.
Proof.
  intros Hb He Lb Le. unfold fat32_format_83.
  rewrite (take_app_length' (pad 8 b)), (drop_app_length' (pad 8 b)) by (by rewrite length_pad).
  rewrite until_space_padded by done. f_equal. unfold get8. change (Z.to_nat 8) with 8%nat.
  rewrite lookup_app_r by (rewrite length_pad by done; lia). rewrite length_pad by done. cbn [Nat.sub].
  rewrite take_ge by (rewrite length_pad by done; lia). rewrite until_space_padded by done.
  destruct e as [|c e]; [done|]. apply Forall_cons in He as [(Hs & _) _]. cbn. by destruct (Z.eqb_spec c space).
Qed.

(** [fat32_parse_83] and [fat32_format_83] of fat32.c: a name of at most
    eight characters with an extension of at most three, without spaces or
    further dots, is accepted; its record has eleven bytes and formats back to
    the name in upper case. *)
Theorem fat32_83_roundtrip (b e : list Z) :
  Forall name_char b -> Forall name_char e -> (1 <= length b <= 8)%nat -> (length e <= 3)%nat ->
  exists raw, fat32_parse_83 (b ++ match e with [] => [] | _ => dot :: e end) = Some raw /\ length raw = 11%nat /\
    fat32_format_83 raw = map upcase (b ++ match e with [] => [] | _ => dot :: e end).
Proof.
  intros Hb He Lb Le. set (r := match e with [] => [] | _ => dot :: e end).
  assert (Hnz : forall l, Forall name_char l -> Forall (fun c => c <> 0) l).
  { intros l Hl. eapply Forall_impl; [exact Hl|]. by intros ? (_ & _ & ?). }
  exists (pad 8 (map upcase b) ++ pad 3 (map upcase e)).
  assert (Hr : fat32_format_83 (pad 8 (map upcase b) ++ pad 3 (map upcase e)) = map upcase (b ++ r)).
  { rewrite format_83_padded; [|by apply Forall_upcase|by apply Forall_upcase|rewrite length_map; lia|rewrite length_map; lia].
    rewrite map_app. unfold r. by destruct e. }
  split; [|split; [|done]].
  - unfold fat32_parse_83. rewrite cstr_nozero.
    2:{ apply Forall_app. split; [auto|]. unfold r. destruct e; [done|]. constructor; [done|]. auto. }
    rewrite parse_base_ok; [|done|lia|unfold r; destruct e; [by left|right; eauto]]. cbn [mbind option_bind].
    destruct b as [|c b]; [cbn in Lb; lia|]. cbn [map]. unfold r. destruct e as [|c' e]; [done|].
    rewrite parse_ext_ok by done. done.
  - rewrite length_app, !length_pad; [done|rewrite length_map; lia|rewrite length_map; lia].
Qed.

(** ** Chains *)

(** [l] is the chain that starts at its first element. *)
Fixpoint is_chain (f : Z -> Z) (l : list Z) : Prop :=
  match l with
  | [] => False
  | c :: rest => match rest with [] => FAT32_EOC <= f c | c' :: _ => f c = c' /\ is_chain f rest end
  end.

Section Chains.
Context (fault : nat -> option nat) (nofault : forall k, fault k = None) (fuel : nat).
Implicit Types (fs : fat32_fs_t) (s : fat_st).

Lemma is_chain_ext f g l : (forall x, x ∈ l -> f x = g x) -> is_chain f l -> is_chain g l.
Proof.
  induction l as [|c l IH]; [done|]. intros Hfg. destruct l as [|c' l]; cbn [is_chain].
  - by rewrite <- Hfg by (by left).
  - intros [E Hc]. split; [by rewrite <- Hfg by (by left)|]. apply IH; [|done]. intros x Hx. apply Hfg. by right.
Qed.

Lemma free_chain_ok n fs l s :
  fat_wf fs s -> is_chain (fat_get fs s) l -> NoDup l -> Forall (cluster_ok fs) l -> (length l < n)%nat ->
  exists s', free_chain fault n fs (default 0 (head l)) s = Some (tt, s') /\ fat_wf fs s' /\ only_fats fs s s' /\
    forall c, 0 <= c < fs_total_clusters fs + 2 -> fat_get fs s' c = if decide (c ∈ l) then 0 else fat_get fs s c.
Proof.
  revert l s. induction n as [|n IH]; intros l s Hwf Hch Hnd Hok Hn; [lia|].
  destruct l as [|c l]; [done|]. cbn [head default id]. pose proof (wf_geo _ _ Hwf) as Hg. destruct (ge_clusters _ Hg).
  apply Forall_cons in Hok as [Hc Hok]. apply NoDup_cons in Hnd as [Hni Hnd]. unfold cluster_ok in Hc.
  destruct (next_cluster_ok fault nofault fs s c Hwf ltac:(lia)) as (s1 & E1 & Hs1 & Hwf1).
  destruct (fat32_set_fat_entry_ok fault nofault fs s1 c 0 Hwf1 ltac:(lia)) as (s2 & E2 & Hwf2 & Ho2 & Hr2).
  assert (Hget2 : forall x, 0 <= x < fs_total_clusters fs + 2 -> fat_get fs s2 x = if decide (x = c) then 0 else fat_get fs s x).
  { intros x Hx. rewrite (set_fat_get fs s1 c 0 s2 Hr2 Hg x Hx). case_decide; [done|]. by apply same_disk_get. }
  unfold free_chain.
  assert (Ebody : forall k, loop (S k) (fun cluster =>
      if negb (cluster =? 0) && (cluster <? FAT32_EOC) then
        next ← fat32_next_cluster fault fs cluster; fat32_set_fat_entry fault fs cluster 0;; mret (inl next)
      else mret (inr tt)) c s = free_chain fault k fs (fat_get fs s c) s2).
  { intros k. unfold free_chain. apply loop_step. destruct (Z.eqb_spec c 0); [lia|]. cbn [negb andb].
    destruct (Z.ltb_spec c FAT32_EOC); [|unfold FAT32_EOC in *; lia].
    rewrite (bind_eq _ _ _ _ _ E1), (bind_eq _ _ _ _ _ E2). done. }
  rewrite Ebody. destruct l as [|c' l].
  - cbn [is_chain] in Hch. destruct n as [|n]; [cbn in Hn; lia|]. exists s2. split.
    { unfold free_chain. apply loop_exit. destruct (Z.eqb_spec (fat_get fs s c) 0); cbn [negb andb]; [done|].
      by destruct (Z.ltb_spec (fat_get fs s c) FAT32_EOC); [lia|]. }
    split; [done|]. split; [eapply only_fats_trans; [by apply same_disk_only_fats|done]|].
    intros x Hx. rewrite Hget2 by done. destruct (decide (x = c)) as [->|Hne]; [by rewrite decide_True by (by left)|].
    by rewrite decide_False by (by intros ?%list_elem_of_singleton).
  - destruct Hch as [-> Hch]. destruct (IH (c' :: l) s2 Hwf2) as (s' & E & Hwf' & Ho & Hget).
    + eapply is_chain_ext; [|exact Hch]. intros x Hx.
      assert (cluster_ok fs x) as Hcx by (by eapply Forall_forall in Hok). unfold cluster_ok in Hcx.
      rewrite Hget2 by lia. by rewrite decide_False by (intros ->; done).
    + done.
    + done.
    + cbn [length] in *. lia.
    + exists s'. split; [exact E|]. split; [done|]. split.
      { eapply only_fats_trans; [by apply same_disk_only_fats|]. by eapply only_fats_trans. }
      intros x Hx. rewrite Hget by done. destruct (decide (x ∈ c' :: l)) as [Hin|Hnin].
      * by rewrite decide_True by (by right).
      * rewrite Hget2 by done. destruct (decide (x = c)) as [->|Hne]; [by rewrite decide_True by (by left)|].
        rewrite decide_False; [done|]. intros [?|?]%elem_of_cons; done.
Qed.
End Chains.

(** ** The bytes of a file *)

(** The bytes of a cluster, and of a chain. *)
Definition cluster_bytes (fs : fat32_fs_t) (s : fat_st) (c : Z) : list Z :=
  sectors_at (ft_dev s) (blk_driver (fs_drive_type fs)) (fs_drive fs) (cluster_to_lba fs c) (Z.to_nat (fs_spc fs)).
Definition content (fs : fat32_fs_t) (s : fat_st) (l : list Z) : list Z := concat (map (cluster_bytes fs s) l).

Lemma length_cluster_bytes fs s c : fat_wf fs s -> Z.of_nat (length (cluster_bytes fs s c)) = fs_spc fs * 512.
Proof.
  intros [Hg Hd _]. unfold cluster_bytes. rewrite length_sectors_at by done. destruct (ge_spc _ Hg). lia.
Qed.

Lemma length_content fs s l : fat_wf fs s -> Z.of_nat (length (content fs s l)) = Z.of_nat (length l) * (fs_spc fs * 512).
Proof.
  intros Hwf. unfold content. induction l as [|c l IH]; [done|]. cbn [map concat]. rewrite length_app, Nat2Z.inj_add, IH.
  rewrite length_cluster_bytes by done. cbn [length]. lia.
Qed.

Lemma content_cluster fs s l k c :
  fat_wf fs s -> l !! k = Some c ->
  slice (content fs s l) (Z.of_nat k * (fs_spc fs * 512)) (fs_spc fs * 512) = cluster_bytes fs s c.
Proof.
  intros Hwf. destruct (ge_spc _ (wf_geo _ _ Hwf)) as [Hs _].
  revert k. induction l as [|c' l IH]; intros k Hk; [done|]. unfold content. cbn [map concat].
  pose proof (length_cluster_bytes fs s c' Hwf) as Hl. destruct k as [|k].
  - injection Hk as ->. rewrite slice_app_l by lia. rewrite <- Hl. apply slice_all.
  - rewrite slice_app_r by lia. rewrite Hl. replace (Z.of_nat (S k) * _ - _) with (Z.of_nat k * (fs_spc fs * 512)) by lia. by apply IH.
Qed.

Lemma content_same fs s s' l : same_disk s s' -> content fs s' l = content fs s l.
Proof.
  intros [E _]. unfold content. f_equal. apply map_ext. intros c. unfold cluster_bytes.
  generalize (Z.to_nat (fs_spc fs)) as n, (cluster_to_lba fs c) as lba. induction n as [|n IH]; intros lba; cbn [sectors_at]; [done|].
  rewrite IH. f_equal. unfold sector_at. by rewrite E.
Qed.

Lemma cluster_to_lba_eq fs c :
  geo fs -> cluster_ok fs c ->
  cluster_to_lba fs c = fs_data_start fs + (c - 2) * fs_spc fs /\
  0 <= fs_data_start fs + (c - 2) * fs_spc fs /\
  fs_data_start fs + (c - 2) * fs_spc fs + fs_spc fs <= fs_data_start fs + fs_total_clusters fs * fs_spc fs.
Proof.
  intros Hg Hc. unfold cluster_ok in Hc. destruct (ge_clusters _ Hg), (ge_spc _ Hg), (ge_fats _ Hg), (ge_size _ Hg).
  pose proof (ge_start _ Hg). pose proof (ge_data _ Hg). pose proof (ge_end _ Hg).
  assert (0 <= (c - 2) * fs_spc fs) by (apply Z.mul_nonneg_nonneg; lia).
  assert ((c - 2) * fs_spc fs + fs_spc fs <= fs_total_clusters fs * fs_spc fs).
  { replace ((c - 2) * fs_spc fs + fs_spc fs) with ((c - 1) * fs_spc fs) by lia. apply Z.mul_le_mono_nonneg_r; lia. }
  assert (0 <= fs_num_fats fs * fs_fat_size fs) by (apply Z.mul_nonneg_nonneg; lia).
  split; [|lia]. unfold cluster_to_lba. rewrite (u32_id (c - 2)) by word.
  rewrite (u64_id ((c - 2) * _)) by word. apply u64_id. word.
Qed.

(** ** One cluster of a transfer *)

Section Window.
Context (spc pos offset size : Z).
Context (Hspc : 1 <= spc <= 128) (Hpos : 0 <= pos) (Hbound : pos + spc * 512 < 4294967296).
Context (Hoff : 0 <= offset) (Hsize : 0 < size < 4294967296) (Hin : offset < pos + spc * 512) (Hend : pos < offset + size).
Context (Hover : offset + size < 18446744073709551616).

Definition win_first : Z := (Z.max offset pos - pos) / 512.
Definition win_last : Z := Z.min (spc - 1) ((offset + size - 1 - pos) / 512).

Lemma win_range : 0 <= win_first <= win_last /\ win_last < spc.
Proof. unfold win_first, win_last. zlia. Qed.

Lemma sector_window_ok n s w :
  0 <= s -> s + Z.of_nat n = spc -> w = (if s <=? win_first then None else Some (win_first, Z.min (s - 1) win_last)) ->
  s - 1 <= win_last \/ (s <=? win_first) = true ->
  sector_window n pos offset size s w = Some (win_first, win_last).
Proof.
  pose proof win_range as Hw. revert s w. induction n as [|n IH]; intros s w Hs Hn -> Hlast; cbn [sector_window].
  - destruct (Z.leb_spec s win_first); [lia|]. do 2 f_equal. lia.
  - rewrite !u32_id by (rewrite ?u32_id by word; word). rewrite u64_id by word.
    assert (H1 : (pos + s * 512 + 512 <=? offset) = (s <? win_first)).
    { unfold win_first. destruct (Z.leb_spec (pos + s * 512 + 512) offset), (Z.ltb_spec s ((Z.max offset pos - pos) / 512)); zlia. }
    rewrite H1. destruct (Z.ltb_spec s win_first) as [Hlt|Hge].
    + apply IH; [lia|lia| |right; lia].
      destruct (Z.leb_spec s win_first), (Z.leb_spec (s + 1) win_first); (done || lia).
    + assert (H2 : (pos + s * 512 >=? offset + size) = (win_last <? s)).
      { unfold win_last. rewrite Z.geb_leb. destruct (Z.leb_spec (offset + size) (pos + s * 512)),
          (Z.ltb_spec (Z.min (spc - 1) ((offset + size - 1 - pos) / 512)) s); zlia. }
      rewrite H2. destruct (Z.ltb_spec win_last s).
      * destruct (Z.leb_spec s win_first); [lia|]. do 2 f_equal. lia.
      * apply IH; [lia|lia| |left; lia].
        destruct (Z.leb_spec (s + 1) win_first); [lia|].
        destruct (Z.leb_spec s win_first); do 2 f_equal; lia.
Qed.

Lemma sector_window_full : sector_window (Z.to_nat spc) pos offset size 0 None = Some (win_first, win_last).
Proof.
  pose proof win_range. apply sector_window_ok; [lia|lia| |right; apply Z.leb_le; lia].
  by destruct (Z.leb_spec 0 win_first); [|lia].
Qed.

(** The part of sector [s] when [done] bytes are transferred. *)
Lemma sector_part_ok s done_ :
  win_first <= s <= win_last -> 0 <= done_ -> offset + done_ = Z.max offset (pos + s * 512) ->
  sector_part pos offset size done_ s =
    (offset + done_ - (pos + s * 512), Z.min (pos + s * 512 + 512) (offset + size) - (offset + done_)).
Proof.
  intros Hs Hd Ed. pose proof win_range. unfold win_first, win_last in Hs.
  assert (Hlt : offset < pos + s * 512 + 512) by zlia. assert (He : pos + s * 512 < offset + size) by zlia.
  unfold sector_part. rewrite (u32_id (pos + s * 512)) by word.
  assert (Est : (if offset >? pos + s * 512 then u32 (offset - (pos + s * 512)) else 0) = offset + done_ - (pos + s * 512)).
  { rewrite Z.gtb_ltb. destruct (Z.ltb_spec (pos + s * 512) offset); [rewrite u32_id by word; lia|lia]. }
  rewrite Est. rewrite (u32_id (512 - _)), (u32_id (size - done_)) by word.
  f_equal. bcase; lia.
Qed.


(** How far the transfer is after the window: the end of the cluster or of
    the transfer. *)
Definition win_end : Z := Z.min (pos + spc * 512) (offset + size).

Lemma win_end_last : Z.min (pos + (win_last + 1) * 512) (offset + size) = win_end.
Proof. unfold win_last, win_end. zlia. Qed.

(** Copying sectors [s]..[win_last] of the run out of the buffer continues the
    slice of [C] from [offset]. *)
Lemma copy_out_ok C buf n s out :
  buf = slice C (pos + win_first * 512) ((win_last - win_first + 1) * 512) ->
  win_first <= s -> s + Z.of_nat n = win_last + 1 ->
  out = slice C offset (Z.of_nat (length out)) ->
  (n = O -> offset + Z.of_nat (length out) = win_end) ->
  (n <> O -> offset + Z.of_nat (length out) = Z.max offset (pos + s * 512)) ->
  pos + spc * 512 <= Z.of_nat (length C) ->
  let out' := copy_out n buf pos offset size win_first s out in
  out' = slice C offset (Z.of_nat (length out')) /\ offset + Z.of_nat (length out') = win_end.
Proof.
  intros Hbuf. pose proof win_range as Hw. revert s out. induction n as [|n IH]; intros s out Hs Hn Hout H0 H1 HC; cbn [copy_out].
  { split; [done|auto]. }
  specialize (H1 ltac:(done)). set (d := Z.of_nat (length out)) in *.
  assert (Hd : 0 <= d) by (unfold d; lia).
  rewrite (sector_part_ok s d) by lia.
  set (st := offset + d - (pos + s * 512)). set (len := Z.min _ _ - _).
  assert (Hlt : pos + s * 512 < offset + size /\ pos + s * 512 + 512 > offset).
  { unfold win_last, win_first in *. zlia. }
  assert (Hlen : 0 < len /\ 0 <= st /\ st + len <= 512) by (unfold len, st; lia).
  assert (Eadd : slice buf ((s - win_first) * 512 + st) len = slice C (offset + d) len).
  { rewrite Hbuf, slice_slice by lia. f_equal. unfold st. lia. }
  rewrite Eadd.
  assert (Eout : out ++ slice C (offset + d) len = slice C offset (d + len)).
  { rewrite Hout at 1. apply slice_app; lia. }
  rewrite Eout.
  assert (Elen : Z.of_nat (length (slice C offset (d + len))) = d + len).
  { apply slice_length; [done|lia|]. unfold len. lia. }
  apply (IH (s + 1) (slice C offset (d + len))); [lia|lia|by rewrite Elen| | |done].
  - intros ->. rewrite Elen, <- win_end_last. replace (win_last + 1) with (s + 1) by lia. unfold len. lia.
  - intros Hn0. rewrite Elen. unfold len.
    assert (pos + s * 512 + 512 < offset + size) by (unfold win_last in *; zlia). lia.
Qed.
End Window.

(** The quotient of a nonlinear division, by its multiples. *)
Lemma div_mul_bounds a b k : 0 < b -> 0 <= a ->
  (k <= a / b -> k * b <= a) /\ (a / b < k -> a < k * b).
Proof.
  intros Hb Ha. split; intros Hk.
  - etransitivity; [apply Z.mul_le_mono_nonneg_r; [lia|exact Hk]|]. rewrite Z.mul_comm. by apply Z.mul_div_le.
  - eapply Z.lt_le_trans; [apply (Z.mul_succ_div_gt a b Hb)|]. rewrite Z.mul_comm. apply Z.mul_le_mono_nonneg_r; lia.
Qed.

(** ** Reading *)

Section Read.
Context (fault : nat -> option nat) (nofault : forall k, fault k = None) (fuel : nat).
Implicit Types (fs : fat32_fs_t) (s : fat_st).

Lemma blk_readn type drive lba count (s : fat_st) :
  0 <= drive < 256 -> in_u64 lba -> 1 <= count < 256 ->
  blk_read fault type drive lba count s =
    Some (Some (sectors_at (ft_dev s) (blk_driver type) drive lba (Z.to_nat count)), set_dev (tick_dev (ft_dev s)) s).
Proof.
  intros Hd Hl Hc. unfold blk_read. rewrite (u8_id count) by word. destruct (Nat.eqb_spec (Z.to_nat count) 0); [lia|].
  cbn [get_dev fat_has_dev]. by rewrite nofault, u64_id, u8_id by (done || word).
Qed.

Lemma tick_wf fs s : fat_wf fs s -> fat_wf fs (set_dev (tick_dev (ft_dev s)) s) /\ same_disk s (set_dev (tick_dev (ft_dev s)) s).
Proof. intros [Hg Hd [Hl Hb Hk]]. by split. Qed.

Lemma chain_next (f : Z -> Z) l k c c' : is_chain f l -> l !! k = Some c -> l !! S k = Some c' -> f c = c'.
Proof.
  revert k. induction l as [|x l IH]; intros k; [done|]. destruct l as [|y l]; [by destruct k|].
  intros [E Hc]. destruct k as [|k].
  - intros [= ->] [= ->]. done.
  - intros H1 H2. by apply (IH k).
Qed.

(** The facts shared by the lemmas on one file. *)
Context (fs : fat32_fs_t) (s0 : fat_st) (l : list Z).
Context (Hwf0 : fat_wf fs s0) (Hchain : is_chain (fat_get fs s0) l) (Hok : Forall (cluster_ok fs) l).
Context (Hbig : Z.of_nat (length l) * (fs_spc fs * 512) < 4294967296) (Hfuel : (length l < fuel)%nat).

Lemma next_in_chain s k c c' :
  fat_wf fs s -> same_disk s0 s -> l !! k = Some c -> l !! S k = Some c' ->
  exists s', fat32_next_cluster fault fs c s = Some (c', s') /\ fat_wf fs s' /\ same_disk s0 s'.
Proof.
  intros Hwf Hs Hk Hk'. assert (Hc : cluster_ok fs c) by (by eapply Forall_lookup_1 in Hok). unfold cluster_ok in Hc.
  destruct (next_cluster_ok fault nofault fs s c Hwf ltac:(lia)) as (s' & E & Hs' & Hwf'). exists s'.
  rewrite E, (same_disk_get fs s0 s) by done. rewrite (chain_next _ _ _ _ _ Hchain Hk Hk').
  split; [done|]. split; [done|]. by eapply same_disk_trans.
Qed.

Lemma cluster_below_eoc k c : l !! k = Some c -> (c <? FAT32_EOC) = true.
Proof.
  intros Hk. assert (Hc : cluster_ok fs c) by (by eapply Forall_lookup_1 in Hok). unfold cluster_ok in Hc.
  destruct (ge_clusters _ (wf_geo _ _ Hwf0)). apply Z.ltb_lt. unfold FAT32_EOC. lia.
Qed.

(** The clusters before the offset are skipped. *)
Lemma skip_clusters_ok offset :
  0 <= offset < Z.of_nat (length l) * (fs_spc fs * 512) ->
  let k := Z.to_nat (offset / (fs_spc fs * 512)) in
  exists c s', skip_clusters fault fuel fs offset (default 0 (head l)) s0 = Some ((Z.of_nat k * (fs_spc fs * 512), c), s') /\
    l !! k = Some c /\ fat_wf fs s' /\ same_disk s0 s'.
Proof.
  intros Hoff k0. destruct (ge_spc _ (wf_geo _ _ Hwf0)) as [Hs1 Hs2]. set (cs := fs_spc fs * 512) in *.
  assert (Hcs : 0 < cs) by (unfold cs; lia).
  assert (Hq : 0 <= offset / cs < Z.of_nat (length l)).
  { split; [by apply Z.div_pos; lia|]. apply Z.div_lt_upper_bound; lia. }
  assert (Hk0 : (k0 < length l)%nat) by (unfold k0; lia).
  assert (Ek0 : Z.of_nat k0 = offset / cs) by (unfold k0; lia).
  enough (Hgen : forall n k s c, (k0 - k < n)%nat -> (k <= k0)%nat -> l !! k = Some c -> fat_wf fs s -> same_disk s0 s ->
    exists c' s', loop n (fun '(pos, cluster) =>
      if (u64 (pos + cs) <=? offset) && (cluster <? FAT32_EOC) then
        next ← fat32_next_cluster fault fs cluster; mret (inl (u64 (pos + cs), next))
      else mret (inr (pos, cluster))) (Z.of_nat k * cs, c) s = Some ((Z.of_nat k0 * cs, c'), s') /\
      l !! k0 = Some c' /\ fat_wf fs s' /\ same_disk s0 s').
  { destruct l as [|c l'] eqn:El; [cbn in Hk0; lia|]. unfold skip_clusters. fold cs.
    destruct (Hgen fuel 0%nat s0 c) as (c' & s' & E & Hc' & Hw & Hs); [lia|lia|done|done|done|].
    exists c', s'. split; [|done]. exact E. }
  induction n as [|n IH]; intros k s c Hn Hk Hlk Hwf Hs; [lia|].
  destruct (div_mul_bounds offset cs (Z.of_nat (S k)) Hcs ltac:(lia)) as [Hle Hgt].
  assert (Hmul : Z.of_nat (S k) * cs <= Z.of_nat (length l) * cs) by (apply Z.mul_le_mono_nonneg_r; lia).
  assert (Eu : u64 (Z.of_nat k * cs + cs) = Z.of_nat (S k) * cs).
  { rewrite Nat2Z.inj_succ, Z.mul_succ_l in *. apply u64_id. unfold in_u64.
    assert (0 <= Z.of_nat k * cs) by (apply Z.mul_nonneg_nonneg; lia). lia. }
  destruct (decide (k = k0)) as [->|Hne].
  - exists c, s. split; [|done]. apply loop_exit. cbv beta. rewrite Eu.
    destruct (Z.leb_spec (Z.of_nat (S k0) * cs) offset); [exfalso; lia|]. done.
  - destruct (lookup_lt_is_Some_2 l (S k)) as [c' Hc']; [lia|].
    destruct (next_in_chain s k c c' Hwf Hs Hlk Hc') as (s1 & E1 & Hwf1 & Hsd1).
    destruct (IH (S k) s1 c') as (c2 & s2 & E2 & Hr); [lia|lia|done|done|done|].
    exists c2, s2. split; [|done]. rewrite <- E2. apply loop_step. cbv beta. rewrite Eu, (cluster_below_eoc k) by done.
    destruct (Z.leb_spec (Z.of_nat (S k) * cs) offset); [|exfalso; lia]. cbn [andb].
    by rewrite (bind_eq _ _ _ _ _ E1).
Qed.

(** The bytes one command reads are a slice of the content. *)
Lemma read_window s k c a b :
  same_disk s0 s -> l !! k = Some c -> 0 <= a <= b -> b < fs_spc fs ->
  blk_read fault (fs_drive_type fs) (fs_drive fs) (u64 (cluster_to_lba fs c + a)) (b - a + 1) s =
    Some (Some (slice (content fs s0 l) (Z.of_nat k * (fs_spc fs * 512) + a * 512) ((b - a + 1) * 512)),
          set_dev (tick_dev (ft_dev s)) s).
Proof.
  intros Hs Hk Ha Hb. pose proof (wf_geo _ _ Hwf0) as Hg. destruct (ge_spc _ Hg).
  assert (Hc : cluster_ok fs c) by (by eapply Forall_lookup_1 in Hok).
  destruct (cluster_to_lba_eq fs c Hg Hc) as (El & Hl0 & Hl1). pose proof (ge_end _ Hg). pose proof (ge_drive _ Hg).
  rewrite u64_id by (rewrite El; unfold in_u64; lia).
  rewrite blk_readn by (rewrite ?El; unfold in_u64; lia). do 3 f_equal.
  pose proof (content_cluster fs s0 l k c Hwf0 Hk) as Ec. destruct Hs as [Es _].
  replace (dv_sectors (ft_dev s)) with (dv_sectors (ft_dev s0)) by (by rewrite Es).
  assert (Esec : forall n lba, sectors_at (ft_dev s) (blk_driver (fs_drive_type fs)) (fs_drive fs) lba n =
    sectors_at (ft_dev s0) (blk_driver (fs_drive_type fs)) (fs_drive fs) lba n).
  { induction n as [|n IH]; intros lba; cbn [sectors_at]; [done|]. rewrite IH. unfold sector_at. by rewrite Es. }
  rewrite Esec, (sectors_at_sub _ _ _ _ (Z.to_nat (fs_spc fs))) by (try lia; apply Hwf0).
  change (sectors_at _ _ _ _ (Z.to_nat (fs_spc fs))) with (cluster_bytes fs s0 c).
  rewrite <- Ec. apply slice_slice; [|lia|lia|lia]. apply Z.mul_nonneg_nonneg; lia.
Qed.

(** One round of the transfer loop. *)
Definition read_round (offset size : Z) : Z * Z * list Z -> M fat_st (Z * Z * list Z + (Z + list Z)) :=
  fun '(pos, cluster, out) =>
    if (Z.of_nat (length out) <? size) && (cluster <? FAT32_EOC) then
      match sector_window (Z.to_nat (fs_spc fs)) pos offset size 0 None with
      | None => mret (inr (inr out))
      | Some (first_s, last_s) =>
        r ← blk_read fault (fs_drive_type fs) (fs_drive fs) (u64 (cluster_to_lba fs cluster + first_s)) (last_s - first_s + 1);
        match r with
        | None => mret (inr (match out with [] => inl (-1) | _ => inr out end))
        | Some buf =>
          let out := copy_out (Z.to_nat (last_s - first_s + 1)) buf pos offset size first_s first_s out in
          next ← fat32_next_cluster fault fs cluster;
          mret (inl (u64 (pos + fs_spc fs * 512), next, out))
        end
      end
    else mret (inr (inr out)).

Lemma read_loop_ok offset size n k s c out :
  0 <= offset -> 0 < size -> offset + size <= Z.of_nat (length l) * (fs_spc fs * 512) ->
  (length l - k < n)%nat -> l !! k = Some c -> fat_wf fs s -> same_disk s0 s ->
  let pos := Z.of_nat k * (fs_spc fs * 512) in
  offset < pos + fs_spc fs * 512 -> pos < offset + size ->
  out = slice (content fs s0 l) offset (Z.of_nat (length out)) ->
  offset + Z.of_nat (length out) = Z.max offset pos ->
  exists s', loop n (read_round offset size) (pos, c, out) s = Some (inr (slice (content fs s0 l) offset size), s') /\
    fat_wf fs s' /\ same_disk s0 s'.
Proof.
  intros Hoff Hsz Hend. revert k s c out. induction n as [|n IH]; intros k s c out Hn Hk Hwf Hs pos H1 H2 Hout Hlen; [lia|].
  pose proof (wf_geo _ _ Hwf0) as Hg. destruct (ge_spc _ Hg) as [Hs1 Hs2]. set (cs := fs_spc fs * 512) in *.
  pose proof (lookup_lt_Some _ _ _ Hk) as Hkl.
  assert (Hp0 : 0 <= pos) by (apply Z.mul_nonneg_nonneg; lia).
  assert (Hp1 : pos + cs <= Z.of_nat (length l) * cs).
  { unfold pos. rewrite <- Z.mul_succ_l. apply Z.mul_le_mono_nonneg_r; lia. }
  pose proof (length_content fs s0 l Hwf0) as HC. fold cs in HC.
  assert (Hw : sector_window (Z.to_nat (fs_spc fs)) pos offset size 0 None = Some (win_first pos offset, win_last (fs_spc fs) pos offset size)).
  { apply sector_window_full; fold cs; lia. }
  assert (Hr : 0 <= win_first pos offset <= win_last (fs_spc fs) pos offset size /\ win_last (fs_spc fs) pos offset size < fs_spc fs).
  { apply win_range; fold cs; lia. }
  set (a := win_first pos offset) in *. set (b := win_last (fs_spc fs) pos offset size) in *.
  assert (Hcopy : let out' := copy_out (Z.to_nat (b - a + 1)) (slice (content fs s0 l) (pos + a * 512) ((b - a + 1) * 512)) pos offset size a a out in
    out' = slice (content fs s0 l) offset (Z.of_nat (length out')) /\ offset + Z.of_nat (length out') = win_end (fs_spc fs) pos offset size).
  { apply copy_out_ok; try (fold cs); try lia; [done|done|].
    intros _. rewrite Hlen. unfold a, win_first. clear - H1 Hp0 Hoff. zlia. }
  set (out' := copy_out _ _ _ _ _ _ _ _) in *. cbv zeta in Hcopy. destruct Hcopy as [Eout' Elen'].
  set (s1 := set_dev (tick_dev (ft_dev s)) s). destruct (tick_wf fs s Hwf) as [Hwf1 Hsd1]. fold s1 in Hwf1, Hsd1.
  assert (Hss1 : same_disk s0 s1) by (by eapply same_disk_trans).
  assert (Hc : cluster_ok fs c) by (by eapply Forall_lookup_1 in Hok).
  assert (Hstep : forall c2 s2, fat32_next_cluster fault fs c s1 = Some (c2, s2) ->
    loop (S n) (read_round offset size) (pos, c, out) s = loop n (read_round offset size) (pos + cs, c2, out') s2).
  { intros c2 s2 E2. apply loop_step. unfold read_round. rewrite (cluster_below_eoc k) by done.
    destruct (Z.ltb_spec (Z.of_nat (length out)) size); [|lia]. cbn [andb]. rewrite Hw.
    rewrite (bind_eq _ _ _ _ _ (read_window s k c a b Hs Hk ltac:(lia) ltac:(lia))). fold pos cs s1 out'. cbn [fst snd].
    rewrite (bind_eq _ _ _ _ _ E2). rewrite u64_id by (unfold in_u64; lia). done. }
  unfold win_end in Elen'. fold cs in Elen'. destruct (Z.leb_spec (offset + size) (pos + cs)) as [Hlast|Hmore].
  - destruct (next_cluster_ok fault nofault fs s1 c Hwf1) as (s2 & E2 & Hs2' & Hwf2); [unfold cluster_ok in Hc; lia|].
    rewrite (Hstep _ _ E2). exists s2. split; [|split; [done|by eapply same_disk_trans]].
    destruct n as [|n]; [lia|]. apply loop_exit. unfold read_round. destruct (Z.ltb_spec (Z.of_nat (length out')) size); [lia|]. cbn [andb].
    rewrite Eout'. replace (Z.of_nat (length out')) with size by lia. done.
  - assert (Hk' : (S k < length l)%nat).
    { destruct (Nat.ltb_spec (S k) (length l)) as [|Hge]; [done|]. exfalso. assert (length l = S k) as El by lia.
      rewrite El, Nat2Z.inj_succ, Z.mul_succ_l in Hend. fold pos in Hend. lia. }
    destruct (lookup_lt_is_Some_2 l (S k) Hk') as [c2 Hc2].
    destruct (next_in_chain s1 k c c2 Hwf1 Hss1 Hk Hc2) as (s2 & E2 & Hwf2 & Hss2).
    rewrite (Hstep _ _ E2). replace (pos + cs) with (Z.of_nat (S k) * cs) by (unfold pos; lia).
    apply (IH (S k) s2 c2 out'); [lia|done|done|done|lia|lia|done|lia].
Qed.
End Read.

Section ReadFile.
Context (fault : nat -> option nat) (nofault : forall k, fault k = None) (fuel : nat).

(** Node [ni] is a file whose clusters are [l]: all of them data clusters of
    the volume, and enough for its size. *)
Record file_ok (fs : fat32_fs_t) (s : fat_st) (ni : nat) (n : vfs_node_t) (l : list Z) : Prop := {
  fo_node : ft_nodes s !! ni = Some n;
  fo_type : n_type n = VFS_FILE;
  fo_fs : exists fii fi, n_private n = Some fii /\ ft_finfo s !! fii = Some fi /\ ft_fs s !! fi_fs fi = Some fs;
  fo_chain : is_chain (fat_get fs s) l;
  fo_head : n_inode n = default 0 (head l);
  fo_clusters : Forall (cluster_ok fs) l;
  fo_size : 0 <= n_size n <= Z.of_nat (length l) * (fs_spc fs * 512);
}.

(** The bytes of the file. *)
Definition file_bytes (fs : fat32_fs_t) (s : fat_st) (n : vfs_node_t) (l : list Z) : list Z :=
  take (Z.to_nat (n_size n)) (content fs s l).

Lemma fat32_read_ok fs s ni n l offset size :
  fat_wf fs s -> file_ok fs s ni n l ->
  Z.of_nat (length l) * (fs_spc fs * 512) < 4294967296 -> (length l < fuel)%nat ->
  0 <= offset -> 0 <= size -> offset + size < 18446744073709551616 \/ size < 4294967296 ->
  exists s', fat32_read fault fuel ni offset size s = Some (inr (slice (file_bytes fs s n l) offset size), s') /\
    fat_wf fs s' /\ same_disk s s'.
Proof.
  intros Hwf [Hn Ht (fii & fi & Ep & Ef & Efs) Hch Hh Hok Hsz] Hbig Hfuel Ho Hs Hov.
  pose proof (length_content fs s l Hwf) as HC.
  unfold fat32_read. erewrite bind_eq; [|unfold get_node; by rewrite Hn]. rewrite Ep.
  erewrite bind_eq; [|unfold get_finfo; by rewrite Ef]. erewrite bind_eq; [|unfold get_fs; by rewrite Efs].
  rewrite Ht. change (Z.land VFS_FILE VFS_FILE =? 0) with false. cbv iota. rewrite Z.geb_leb.
  assert (Hbytes : slice (file_bytes fs s n l) offset size = slice (content fs s l) offset (Z.max 0 (Z.min size (n_size n - offset)))).
  { unfold file_bytes, slice. rewrite skipn_firstn_comm, take_take. f_equal. lia. }
  rewrite Hbytes. destruct (Z.leb_spec (n_size n) offset) as [Hge|Hlt].
  { exists s. rewrite Z.max_l by lia. done. }
  rewrite Z.max_r by lia. rewrite (u64_id (offset + size)) by (unfold in_u64; lia).
  replace (if offset + size >? n_size n then u32 (n_size n - offset) else size) with (Z.min size (n_size n - offset)).
  2:{ rewrite Z.gtb_ltb. destruct (Z.ltb_spec (n_size n) (offset + size)); [rewrite u32_id by (unfold in_u32; lia)|]; lia. }
  set (sz := Z.min size (n_size n - offset)).
  destruct (skip_clusters_ok fault nofault fuel fs s l Hwf Hch Hok Hbig Hfuel offset) as (c & s1 & E1 & Hk & Hwf1 & Hs1); [lia|].
  rewrite Hh, (bind_eq _ _ _ _ _ E1). cbv beta iota.
  destruct (decide (sz = 0)) as [Ez|Hz].
  { exists s1. split; [|done]. destruct fuel as [|m]; [lia|]. rewrite Ez, slice_0. apply loop_exit. done. }
  destruct (ge_spc _ (wf_geo _ _ Hwf)) as [Hs1' Hs2']. pose proof (lookup_lt_Some _ _ _ Hk) as Hkl.
  set (k := Z.to_nat (offset / (fs_spc fs * 512))) in *.
  assert (Ek : Z.of_nat k = offset / (fs_spc fs * 512)).
  { unfold k. rewrite Z2Nat.id; [done|]. apply Z.div_pos; lia. }
  destruct (div_mul_bounds offset (fs_spc fs * 512) (Z.of_nat k) ltac:(lia) Ho) as [Hlo _].
  destruct (div_mul_bounds offset (fs_spc fs * 512) (Z.of_nat (S k)) ltac:(lia) Ho) as [_ Hhi].
  rewrite Nat2Z.inj_succ, Z.mul_succ_l in Hhi.
  destruct (read_loop_ok fault nofault fuel fs s l Hwf Hch Hok Hbig Hfuel offset sz fuel k s1 c []) as (s2 & E2 & Hwf2 & Hs2);
    [lia|lia|lia|lia|done|done|done|lia|lia|by rewrite slice_0|cbn [length]; lia|].
  exists s2. split; [|done]. rewrite <- E2. reflexivity.
Qed.

(** C17 (fat32.c, [fat32_read]): with drives that answer, reading [size]
    bytes at [offset] of a file below 4 GiB returns exactly the bytes of its
    cluster chain in that range, cut at the end of the file; it returns after
    at most one round per cluster and changes nothing on the drives. *)
Theorem fat32_read_correct fs s ni n l offset size :
  fat_wf fs s -> file_ok fs s ni n l ->
  Z.of_nat (length l) * (fs_spc fs * 512) < 4294967296 -> (length l < fuel)%nat ->
  0 <= offset -> 0 <= size -> offset + size < 18446744073709551616 ->
  exists s', fat32_read fault fuel ni offset size s = Some (inr (slice (file_bytes fs s n l) offset size), s') /\
    fat_wf fs s' /\ same_disk s s'.
Proof. intros ?????? Hov. apply fat32_read_ok; auto. Qed.
End ReadFile.

Lemma name_chars_ok (l : list Z) : forallb (fun c => negb (c =? space) && negb (c =? dot) && negb (c =? 0)) l = true -> Forall name_char l.
Proof.
  intros H. apply Forall_forall. intros x Hx. rewrite forallb_forall in H. apply list_elem_of_In in Hx.
  specialize (H x Hx). rewrite !andb_true_iff, !negb_true_iff, !Z.eqb_neq in H. unfold name_char. tauto.
Qed.

(** "readme.txt" *)
Lemma fat32_83_roundtrip_witness :
  exists raw, fat32_parse_83 [114; 101; 97; 100; 109; 101; 46; 116; 120; 116] = Some raw /\ length raw = 11%nat /\
    fat32_format_83 raw = [82; 69; 65; 68; 77; 69; 46; 84; 88; 84].
Proof.
  apply (fat32_83_roundtrip [114; 101; 97; 100; 109; 101] [116; 120; 116]); try (apply name_chars_ok; by vm_compute); cbn; lia.
Defined.

Lemma fat32_read_correct_witness :
  exists s', fat32_read Demo.fault 5 0 510 4 Demo.st = Some (inr [65; 65; 66; 66], s').
Proof.
  destruct (fat32_read_correct Demo.fault Demo.nofault 5 Demo.fs Demo.st 0 Demo.node [3; 4; 6] 510 4 Demo.wf) as (s' & E & _).
  - split; [done|done|by exists 0%nat, (Finfo 0 false 0 0)|by vm_compute|done| |by vm_compute].
    repeat constructor; done.
  - done.
  - cbn; lia.
  - done.
  - done.
  - done.
  - exists s'. rewrite E. by vm_compute.
Defined.
