(* ===== verification/Vfs.v ===== *)
(** * The virtual file system

    Models fs/vfs.c: the mount table, path resolution, and the file
    operations over the calling task's descriptor table, which is a field of
    the scheduler's task record (Sched.v). A file-system driver is an instance
    of [Driver]: what a [vfs_node_t *] points to, with its callbacks (NULL is
    [None]), and the mount and defragmentation entry points. A [char *] path
    is the list of its bytes before the terminator. [None] of the monad is a
    NULL dereference, an index out of bounds, or a loop that does not end. *)

From S2P Require Import Prelude Kalloc Sched Blk Fat32.

(** ** fs/vfs.h *)

Definition MAX_FD : Z := 64.
Definition MAX_MOUNTS : Z := 8.
Definition MAX_PATH : Z := 256.
Definition O_CREATE : Z := 0x04.
Definition O_APPEND : Z := 0x08.
Definition FS_EXT2 : Z := 3.
Definition FS_NTFS : Z := 4.
Definition FS_XFS : Z := 5.
Definition slash : Z := 47.

Record vfs_stat_t := Stat { st_size : Z; st_inode : Z; st_type : Z }.

(** A node: [vfs_node_t] with the callbacks the VFS calls, applied to it. A
    read returns a negative code or the bytes it put in the buffer. *)
Record vnode (DS N : Type) := VNode {
  vn_type : Z;
  vn_size : Z;
  vn_inode : Z;
  vn_parent : option N;
  vn_read : option (Z -> Z -> M DS (Z + list Z));
  vn_write : option (Z -> Z -> list Z -> M DS Z);
  vn_readdir : option (Z -> M DS (option dirent_t));
  vn_finddir : option (list Z -> M DS (option N));
  vn_create : option (list Z -> M DS (option N));
  vn_unlink : option (list Z -> M DS Z);
  vn_rename : option (list Z -> N -> list Z -> M DS Z);
}.
Arguments VNode {DS N}.
Arguments vn_type {DS N}. Arguments vn_size {DS N}. Arguments vn_inode {DS N}. Arguments vn_parent {DS N}.
Arguments vn_read {DS N}. Arguments vn_write {DS N}. Arguments vn_readdir {DS N}. Arguments vn_finddir {DS N}.
Arguments vn_create {DS N}. Arguments vn_unlink {DS N}. Arguments vn_rename {DS N}.

(** The file-system drivers: state [DS], node pointers [N]. A mount returns a
    negative code, or the root node it stores in the mount point. *)
Class Driver (DS N : Type) := {
  deref : DS -> N -> option (vnode DS N);
  drv_mount : Z -> Z -> Z -> Z -> M DS (Z + N);          (* FS type, drive type, drive, partition start *)
  drv_defrag : Z -> N -> M DS (Z + Z * Z * Z);
}.

Record mount_point_t (N : Type) := MountPoint {
  m_path : list Z;
  m_root : option N;
  m_active : bool;
  m_drive : Z;
  m_partition : Z;
  m_fs_type : Z;
  m_part_lba : Z;
  m_part_sectors : Z;
}.
Arguments MountPoint {N}.
Arguments m_path {N}. Arguments m_root {N}. Arguments m_active {N}. Arguments m_drive {N}.
Arguments m_partition {N}. Arguments m_fs_type {N}. Arguments m_part_lba {N}. Arguments m_part_sectors {N}.

Record file_descriptor_t (N : Type) := Fd {
  fd_node : option N;
  fd_offset : Z;
  fd_flags : Z;
  fd_active : bool;
}.
Arguments Fd {N}.
Arguments fd_node {N}. Arguments fd_offset {N}. Arguments fd_flags {N}. Arguments fd_active {N}.

Definition fd0 {N} : file_descriptor_t N := Fd None 0 0 false.
Definition fd_table0 {N} : list (file_descriptor_t N) := replicate 64 fd0.
Definition mount0 {N} : mount_point_t N := MountPoint [] None false 0 0 0 0 0.

(** ** Strings *)

Fixpoint prefix_match (str prefix : list Z) : bool :=
  match prefix, str with
  | [], _ => true
  | _ :: _, [] => false
  | p :: prefix, c :: str => if c =? p then prefix_match str prefix else false
  end.

Definition vfs_strlen (s : list Z) : Z := Z.of_nat (length s).
Definition vfs_strcpy (src : list Z) (max : Z) : list Z := take (Z.to_nat (max - 1)) src.

Fixpoint skip_slashes (p : list Z) : list Z :=
  match p with c :: p' => if c =? slash then skip_slashes p' else p | [] => [] end.

(** One component of at most [room] bytes, and the rest of the path. *)
Fixpoint take_component (room : nat) (p : list Z) : list Z * list Z :=
  match room, p with
  | S room, c :: p' =>
    if c =? slash then ([], p)
    else let '(comp, rest) := take_component room p' in (c :: comp, rest)
  | _, _ => ([], p)
  end.

(** The parts before and after the last slash. *)
Fixpoint last_slash (p : list Z) : option (list Z * list Z) :=
  match p with
  | [] => None
  | c :: p' =>
    match last_slash p' with
    | Some (dir, name) => Some (c :: dir, name)
    | None => if c =? slash then Some ([], p') else None
    end
  end.

(** ** State *)

Record vfs_st (DS N H : Type) := Vfs {
  v_drv : DS;
  v_mounts : list (mount_point_t N);            (* [mount_table] *)
  v_sched : sched_t (file_descriptor_t N) H;
}.
Arguments Vfs {DS N H}. Arguments v_drv {DS N H}. Arguments v_mounts {DS N H}. Arguments v_sched {DS N H}.

Section Vfs.
Context {DS N H : Type} `{!EqDecision N} `{!Driver DS N} `{!HasDev DS}.
Context (fault : nat -> option nat).
(** Rounds allowed to the walk up a node's parents. *)
Context (fuel : nat).
Abbreviation vfs_st := (vfs_st DS N H).
Abbreviation V := (M vfs_st).
Abbreviation file_descriptor_t := (file_descriptor_t N).
Abbreviation mount_point_t := (mount_point_t N).
Implicit Types s : vfs_st.

(** A call into the drivers. *)
Definition drv {A} (m : M DS A) : V A := fun s =>
  match m (v_drv s) with Some (a, d) => Some (a, Vfs d (v_mounts s) (v_sched s)) | None => None end.
Definition node_at (n : N) : V (vnode DS N) := fun s => v ← deref (v_drv s) n; Some (v, s).
Definition set_mounts (ms : list mount_point_t) : V unit := modify (fun s => Vfs (v_drv s) ms (v_sched s)).
Definition set_mount (i : nat) (m : mount_point_t) : V unit :=
  modify (fun s => Vfs (v_drv s) (<[i := m]> (v_mounts s)) (v_sched s)).

(** [sched_current_task()->fd_table], and an assignment to one element. *)
Definition with_fd_table (tbl : list file_descriptor_t) (t : task_t file_descriptor_t) : task_t file_descriptor_t :=
  Task (t_rsp t) (t_id t) (t_name t) (t_state t) (t_priority t) (t_cpu_id t) (t_stack t) (t_timeslice t)
    (t_quantum t) (t_func t) (t_arg t) (t_is_user t) (t_user_stack t) (t_cr3 t) tbl
    (t_as t) (t_heap_start t) (t_heap_brk t) (t_heap_end t).
Definition set_fd_table (t : tid) (tbl : list file_descriptor_t) : V unit :=
  modify (fun s => Vfs (v_drv s) (v_mounts s) (upd_task t (with_fd_table tbl) (v_sched s))).
Definition fdt : V (tid * list file_descriptor_t) := fun s =>
  t ← sched_current_task (v_sched s); task ← get_task (v_sched s) t; Some ((t, t_fd_table task), s).
Definition set_fd (t : tid) (tbl : list file_descriptor_t) (i : Z) (fd : file_descriptor_t) : V unit :=
  set_fd_table t (<[Z.to_nat i := fd]> tbl).

Definition vfs_init : V unit := set_mounts (replicate 8 mount0).

(** ** Path resolution *)

(** The loop of [find_mount] from entry [i]: the best entry so far and the
    length of its path. *)
Fixpoint find_mount_scan (path : list Z) (ms : list mount_point_t) (i : nat) (best : option nat) (best_len : Z)
    : option nat * Z :=
  match ms with
  | [] => (best, best_len)
  | m :: ms =>
    let mlen := vfs_strlen (m_path m) in
    if m_active m && (prefix_match path (m_path m) && (mlen >? best_len)) then
      let after := default 0 (path !! Z.to_nat mlen) in
      if (after =? 0) || (after =? slash) then find_mount_scan path ms (S i) (Some i) mlen
      else find_mount_scan path ms (S i) best best_len
    else find_mount_scan path ms (S i) best best_len
  end.

(** The entry and the remainder of the path. *)
Definition find_mount (ms : list mount_point_t) (path : list Z) : option (nat * list Z) :=
  match find_mount_scan path ms 0 None 0 with
  | (Some i, len) =>
    let r := drop (Z.to_nat len) path in
    Some (i, match r with c :: r' => if c =? slash then r' else r | [] => r end)
  | (None, _) => None
  end.

Fixpoint first_mount_scan (ms : list mount_point_t) (i : nat) : option nat :=
  match ms with
  | [] => None
  | m :: ms => if m_active m then Some i else first_mount_scan ms (S i)
  end.
Definition first_mount (ms : list mount_point_t) : option nat := first_mount_scan ms 0.

(** The mount point of a path and the path relative to its root. *)
Definition path_mount (path : list Z) : V (option (nat * list Z)) :=
  gets (fun s =>
    if default 0 (path !! 0%nat) =? slash then find_mount (v_mounts s) path
    else i ← first_mount (v_mounts s); Some (i, path)).
Definition mount_root (i : nat) : V (option N) := fun s => m ← v_mounts s !! i; Some (m_root m, s).

(** Each round of the walk consumes a byte of the path at least. *)
Fixpoint walk (n : nat) (node : option N) (relpath : list Z) : V (option N) :=
  match n with
  | O => diverge
  | S n =>
    match skip_slashes relpath with
    | [] => mret node
    | p =>
      let '(component, rest) := take_component (Z.to_nat (MAX_FILENAME - 1)) p in
      id ← lift_option node;
      v ← node_at id;
      match vn_finddir v with
      | None => mret None
      | Some finddir =>
        r ← drv (finddir component);
        match r with
        | None => mret None
        | Some node => walk n (Some node) rest
        end
      end
    end
  end.
Definition walk_path (root : option N) (relpath : list Z) : V (option N) := walk (S (length relpath)) root relpath.

Definition resolve_path (path : list Z) : V (option N) :=
  o ← path_mount path;
  match o with
  | None => mret None
  | Some (mp, relpath) => root ← mount_root mp; walk_path root relpath
  end.

(** The parent directory and the name of the last component. *)
Definition split_parent (mp : nat) (relpath : list Z) (max : Z) : V (option N * list Z) :=
  root ← mount_root mp;
  match last_slash relpath with
  | None => mret (root, vfs_strcpy relpath max)
  | Some (dirpath, name) =>
    if vfs_strlen dirpath >=? MAX_PATH then mret (None, [])
    else node ← walk_path root dirpath; mret (node, vfs_strcpy name max)
  end.

(** ** Mounting *)

Fixpoint free_mount_scan (ms : list mount_point_t) (i : nat) : option nat :=
  match ms with
  | [] => None
  | m :: ms => if m_active m then free_mount_scan ms (S i) else Some i
  end.

(** The fields stored before the file system is known. *)
Definition stage_mount (slot : nat) (path : list Z) (partition sectors : Z) : V unit :=
  modify (fun s => Vfs (v_drv s)
    (alter (fun m => MountPoint (vfs_strcpy path 64) (m_root m) (m_active m) (m_drive m) partition
                       (m_fs_type m) (m_part_lba m) sectors) slot (v_mounts s)) (v_sched s)).
(** [fat32_mount], [ext2_mount], ... with the mount point they fill. *)
Definition fs_mount (slot : nat) (fs_type drive_type drive lba : Z) : V Z :=
  r ← drv (drv_mount fs_type drive_type drive lba);
  match r with
  | inl e => mret e
  | inr root =>
    modify (fun s => Vfs (v_drv s)
      (alter (fun m => MountPoint (m_path m) (Some root) true drive (m_partition m) fs_type lba (m_part_sectors m))
         slot (v_mounts s)) (v_sched s));;
    mret 0
  end.
Definition clear_active (slot : nat) : V unit :=
  modify (fun s => Vfs (v_drv s)
    (alter (fun m => MountPoint (m_path m) (m_root m) false (m_drive m) (m_partition m) (m_fs_type m) (m_part_lba m)
                       (m_part_sectors m)) slot (v_mounts s)) (v_sched s)).

Definition vfs_mount (drive partition : Z) (mount_path : list Z) : V Z :=
  ms ← gets v_mounts;
  match free_mount_scan ms 0 with
  | None => mret (-1)
  | Some slot =>
    r ← drv (ata_read_partitions fault drive);
    match r with
    | inl _ => mret (-2)
    | inr parts =>
      part ← lift_option (parts !! Z.to_nat partition);
      if part_type part =? 0 then mret (-3)
      else
        let lba := get32 part 8 in
        stage_mount slot mount_path partition (get32 part 12);;
        let ptype := part_type part in
        if (ptype =? 0x0B) || (ptype =? 0x0C) then fs_mount slot FS_FAT32 DRIVE_TYPE_ATA drive lba
        else if ptype =? 0x83 then
          rc ← fs_mount slot FS_EXT2 DRIVE_TYPE_ATA drive lba;
          if rc =? -2 then fs_mount slot FS_XFS DRIVE_TYPE_ATA drive lba else mret rc
        else if ptype =? 0x07 then fs_mount slot FS_NTFS DRIVE_TYPE_ATA drive lba
        else clear_active slot;; mret (-4)
    end
  end.

(** The body the four [vfs_mount_*gpt] functions share, by drive type. *)
Definition mount_gpt (drive_type drive lba_start sector_count : Z) (mount_path : list Z) : V Z :=
  ms ← gets v_mounts;
  match free_mount_scan ms 0 with
  | None => mret (-1)
  | Some slot =>
    stage_mount slot mount_path 0 sector_count;;
    r ← drv (blk_read fault drive_type drive lba_start 1);
    match r with
    | None => mret (-2)
    | Some boot =>
      if (get16 boot 11 =? 512) && (get16 boot 17 =? 0) && (get16 boot 22 =? 0) then
        fs_mount slot FS_FAT32 drive_type drive lba_start
      else if bool_decide (slice boot 3 4 = [78; 84; 70; 83]) then fs_mount slot FS_NTFS drive_type drive lba_start
      else
        r ← drv (blk_read fault drive_type drive (u64 (lba_start + 2)) 1);
        match r with
        | Some sb_check =>
          if get16 sb_check 56 =? 0xEF53 then fs_mount slot FS_EXT2 drive_type drive lba_start
          else clear_active slot;; mret (-4)
        | None => clear_active slot;; mret (-4)
        end
    end
  end.
Definition vfs_mount_gpt := mount_gpt DRIVE_TYPE_ATA.
Definition vfs_mount_nvme_gpt := mount_gpt DRIVE_TYPE_NVME.
Definition vfs_mount_ahci_gpt := mount_gpt DRIVE_TYPE_AHCI.
Definition vfs_mount_vblk_gpt := mount_gpt DRIVE_TYPE_VBLK.

(** The walk from [n] up to [root] or to the top, and [n == root] after it. *)
Fixpoint under (k : nat) (d : DS) (root n : option N) : option bool :=
  match k with
  | O => None
  | S k =>
    if decide (n = root) then Some true
    else match n with None => Some false | Some n => v ← deref d n; under k d root (vn_parent v) end
  end.
Fixpoint close_fds_under (d : DS) (root : option N) (tbl : list file_descriptor_t) : option (list file_descriptor_t) :=
  match tbl with
  | [] => Some []
  | fd :: tbl =>
    b ← (if fd_active fd then under fuel d root (fd_node fd) else Some false);
    rest ← close_fds_under d root tbl;
    Some ((if b : bool then Fd (fd_node fd) (fd_offset fd) (fd_flags fd) false else fd) :: rest)
  end.
Definition close_task_fds (root : option N) (t : tid) : V unit := fun s =>
  task ← get_task (v_sched s) t;
  tbl ← close_fds_under (v_drv s) root (t_fd_table task);
  set_fd_table t tbl s.
Fixpoint close_tasks (root : option N) (ts : list nat) : V unit :=
  match ts with [] => mret tt | t :: ts => close_task_fds root (Slot t);; close_tasks root ts end.

(** The active mount whose path is [mount_path]. *)
Fixpoint mount_scan (mount_path : list Z) (ms : list mount_point_t) (i : nat) : option nat :=
  match ms with
  | [] => None
  | m :: ms => if m_active m && bool_decide (mount_path = m_path m) then Some i else mount_scan mount_path ms (S i)
  end.

Definition vfs_umount (mount_path : list Z) : V Z :=
  ms ← gets v_mounts;
  match mount_scan mount_path ms 0 with
  | None => mret (-1)
  | Some i =>
    root ← mount_root i;
    close_task_fds root sched_idle_task;;
    count ← gets (fun s => sched_task_count (v_sched s));
    close_tasks root (seq 0 (Z.to_nat count));;
    modify (fun s => Vfs (v_drv s)
      (alter (fun m => MountPoint (m_path m) None false (m_drive m) (m_partition m) (m_fs_type m) (m_part_lba m)
                         (m_part_sectors m)) i (v_mounts s)) (v_sched s));;
    mret 0
  end.

Definition vfs_defrag (mount_path : list Z) : V (Z + Z * Z * Z) :=
  ms ← gets v_mounts;
  match mount_scan mount_path ms 0 with
  | None => mret (inl (-1))
  | Some i =>
    m ← lift_option (ms !! i);
    if (m_fs_type m =? FS_FAT32) || (m_fs_type m =? FS_EXT2) then
      root ← lift_option (m_root m); drv (drv_defrag (m_fs_type m) root)
    else mret (inl (-2))
  end.

(** ** File operations *)

(** The first inactive descriptor. *)
Fixpoint free_fd_scan (tbl : list file_descriptor_t) (i : Z) : option Z :=
  match tbl with
  | [] => None
  | fd :: tbl => if fd_active fd then free_fd_scan tbl (i + 1) else Some i
  end.

Definition vfs_open (path : list Z) (flags : Z) : V Z :=
  o ← path_mount path;
  match o with
  | None => mret (-1)
  | Some (mp, relpath) =>
    root ← mount_root mp;
    node ← walk_path root relpath;
    node ← (match node with
      | Some node => mret (Some node)
      | None =>
        if Z.land flags O_CREATE =? 0 then mret None
        else
          '(parent, name) ← split_parent mp relpath MAX_FILENAME;
          match parent with
          | None => mret None
          | Some parent =>
            v ← node_at parent;
            match vn_create v, name with
            | Some create, _ :: _ => drv (create name)
            | _, _ => mret None
            end
          end
      end);
    match node with
    | None => mret (-2)
    | Some node =>
      '(t, tbl) ← fdt;
      match free_fd_scan tbl 0 with
      | None => mret (-3)
      | Some i =>
        v ← node_at node;
        set_fd t tbl i (Fd (Some node) (if Z.land flags O_APPEND =? 0 then 0 else vn_size v) flags true);;
        mret i
      end
    end
  end.

(** The open descriptor [fd] of the calling task. *)
Definition get_fd (fd : Z) : V (option (tid * list file_descriptor_t * file_descriptor_t)) :=
  '(t, tbl) ← fdt;
  if (fd <? 0) || (fd >=? MAX_FD) then mret None
  else
    f ← lift_option (tbl !! Z.to_nat fd);
    if fd_active f then mret (Some (t, tbl, f)) else mret None.

Definition vfs_close (fd : Z) : V Z :=
  o ← get_fd fd;
  match o with
  | None => mret (-1)
  | Some (t, tbl, f) => set_fd t tbl fd (Fd None (fd_offset f) (fd_flags f) false);; mret 0
  end.

Definition vfs_seek (fd offset : Z) : V Z :=
  o ← get_fd fd;
  match o with
  | None => mret (-1)
  | Some (t, tbl, f) => set_fd t tbl fd (Fd (fd_node f) offset (fd_flags f) true);; mret 0
  end.

(** [if (n > 0) fd_table[fd].offset += n], on the table as it is after the
    driver call, which does not touch it. *)
Definition advance (t : tid) (tbl : list file_descriptor_t) (fd : Z) (f : file_descriptor_t) (n : Z) : V unit :=
  when (n >? 0) (set_fd t tbl fd (Fd (fd_node f) (u64 (fd_offset f + n)) (fd_flags f) true)).

(** A negative code, or the bytes read; the [int] result is their number. *)
Definition vfs_read (fd size : Z) : V (Z + list Z) :=
  o ← get_fd fd;
  match o with
  | None => mret (inl (-1))
  | Some (t, tbl, f) =>
    match fd_node f with
    | None => mret (inl (-1))
    | Some node =>
      v ← node_at node;
      match vn_read v with
      | None => mret (inl (-1))
      | Some read =>
        r ← drv (read (fd_offset f) (u32 size));
        match r with
        | inl e => mret (inl e)
        | inr bytes => advance t tbl fd f (s32 (Z.of_nat (length bytes)));; mret (inr bytes)
        end
      end
    end
  end.

Definition vfs_write (fd size : Z) (buffer : list Z) : V Z :=
  o ← get_fd fd;
  match o with
  | None => mret (-1)
  | Some (t, tbl, f) =>
    match fd_node f with
    | None => mret (-1)
    | Some node =>
      v ← node_at node;
      match vn_write v with
      | None => mret (-1)
      | Some write =>
        n ← drv (write (fd_offset f) (u32 size) buffer);
        advance t tbl fd f n;; mret n
      end
    end
  end.

Definition vfs_readdir (fd index : Z) : V (option dirent_t) :=
  o ← get_fd fd;
  match o with
  | None => mret None
  | Some (_, _, f) =>
    match fd_node f with
    | None => mret None
    | Some node =>
      v ← node_at node;
      match vn_readdir v with None => mret None | Some readdir => drv (readdir index) end
    end
  end.

Definition vfs_stat (path : list Z) : V (option vfs_stat_t) :=
  o ← resolve_path path;
  match o with
  | None => mret None
  | Some node => v ← node_at node; mret (Some (Stat (vn_size v) (vn_inode v) (vn_type v)))
  end.

Definition vfs_fstat (fd : Z) : V (option vfs_stat_t) :=
  o ← get_fd fd;
  match o with
  | None => mret None
  | Some (_, _, f) =>
    match fd_node f with
    | None => mret None
    | Some node => v ← node_at node; mret (Some (Stat (vn_size v) (vn_inode v) (vn_type v)))
    end
  end.

Definition vfs_unlink (path : list Z) : V Z :=
  o ← path_mount path;
  match o with
  | None => mret (-1)
  | Some (mp, relpath) =>
    '(parent, name) ← split_parent mp relpath MAX_FILENAME;
    match parent with
    | None => mret (-2)
    | Some parent =>
      v ← node_at parent;
      match vn_unlink v, name with
      | Some unlink, _ :: _ => drv (unlink name)
      | _, _ => mret (-2)
      end
    end
  end.

(** Both paths are resolved before either parent is looked up. *)
Definition vfs_rename (old_path new_path : list Z) : V Z :=
  o ← path_mount old_path;
  match o with
  | None => mret (-1)
  | Some (old_mp, old_rel) =>
    o ← path_mount new_path;
    match o with
    | None => mret (-1)
    | Some (new_mp, new_rel) =>
      if negb (old_mp =? new_mp)%nat then mret (-1)
      else
        '(old_dir, old_name) ← split_parent old_mp old_rel MAX_FILENAME;
        '(new_dir, new_name) ← split_parent new_mp new_rel MAX_FILENAME;
        match old_dir, new_dir with
        | Some old_dir, Some new_dir =>
          v ← node_at old_dir;
          match vn_rename v, old_name, new_name with
          | Some rename, _ :: _, _ :: _ => drv (rename old_name new_dir new_name)
          | _, _, _ => mret (-2)
          end
        | _, _ => mret (-2)
        end
    end
  end.

Definition vfs_get_mounts : V (list mount_point_t) := gets v_mounts.
End Vfs.
