(* ===== verification/VfsProofs.v ===== *)
(** * The virtual file system: proofs

    Path resolution is the longest-prefix search over the mount table followed
    by one lookup per component; descriptors are allocated lowest first and
    private to the task; a sequence of reads streams the bytes of a file,
    proved against the law a driver's files satisfy ([file_law]) and
    discharged for FAT32; unmounting closes exactly the descriptors below the
    mount's root, in every task. *)

From S2P Require Import Prelude Kalloc Sched Blk Fat32 Fat32Proofs Fat32Files Vfs.

(** ** The mount table *)

(** [m] covers [path]: its path is a prefix that ends at a component. *)
Definition covers {N} (path : list Z) (m : mount_point_t N) (rel : list Z) : Prop :=
  m_active m = true /\ m_path m <> [] /\ exists r, path = m_path m ++ r /\
    ((r = [] /\ rel = []) \/ r = slash :: rel).

Lemma prefix_match_spec str p : prefix_match str p = true <-> exists r, str = p ++ r.
Proof.
  revert str. induction p as [|c p IH]; intros str; cbn [prefix_match app]; [split; [by exists str|by destruct str]|].
  destruct str as [|c' str]; cbn [prefix_match]; [split; [done|by intros [r Hr]]|]. destruct (Z.eqb_spec c' c) as [->|Hne].
  - rewrite IH. split; intros [r Hr]; exists r; [by rewrite Hr|by injection Hr].
  - split; [done|]. intros [r Hr]. by injection Hr.
Qed.

Section FindMount.
Context {N : Type} (path : list Z) (Hnz : Forall (fun c => c <> 0) path).
Implicit Types (m : mount_point_t N) (ms : list (mount_point_t N)).

Lemma covers_test m :
  (exists rel, covers path m rel) <->
  m_active m = true /\ m_path m <> [] /\ prefix_match path (m_path m) = true /\
    (default 0 (path !! length (m_path m)) = 0 \/ default 0 (path !! length (m_path m)) = slash).
Proof.
  split.
  - intros (rel & Ha & Hne & r & -> & Hr). do 2 (split; [done|]). split; [apply prefix_match_spec; eauto|].
    rewrite lookup_app_r, Nat.sub_diag by lia. destruct Hr as [[-> _]| ->]; [by left|by right].
  - intros (Ha & Hne & [r Hp]%prefix_match_spec & Hc). subst path. rewrite lookup_app_r, Nat.sub_diag in Hc by lia.
    destruct r as [|c r]; [exists []|exists r]; (split; [done|]; split; [done|]; eexists; split; [done|]); [by left|].
    right. cbn in Hc. apply Forall_app in Hnz as [_ Hr]. apply Forall_cons in Hr as [Hc0 _]. f_equal. destruct Hc; done.
Qed.

(** [best] is the first of the longest covering entries of [l]. *)
Definition best_of (l : list (mount_point_t N)) (best : option nat) (len : Z) : Prop :=
  match best with
  | Some i => exists m, l !! i = Some m /\ (exists rel, covers path m rel) /\ len = Z.of_nat (length (m_path m)) /\
      forall j m', l !! j = Some m' -> (exists rel, covers path m' rel) ->
        Z.of_nat (length (m_path m')) <= len /\ (Z.of_nat (length (m_path m')) = len -> (i <= j)%nat)
  | None => len = 0 /\ forall j m', l !! j = Some m' -> ~ exists rel, covers path m' rel
  end.

Lemma best_skip l m best len :
  best_of l best len -> ((exists rel, covers path m rel) -> Z.of_nat (length (m_path m)) <= len) -> best_of (l ++ [m]) best len.
Proof.
  intros Hb Hm. destruct best as [i|]; cbn [best_of] in *.
  - destruct Hb as (mi & Hi & Hc & Hl & Hall). exists mi. split; [by apply lookup_app_l_Some|]. do 2 (split; [done|]).
    intros j m' [Hj|[Hj Hj']]%lookup_app_Some Hc'; [by apply (Hall j m')|].
    apply list_lookup_singleton_Some in Hj' as [Hj' <-]. split; [by apply Hm|]. intros _.
    apply lookup_lt_Some in Hi. lia.
  - destruct Hb as [-> Hall]. split; [done|]. intros j m' [Hj|[Hj Hj']]%lookup_app_Some Hc'; [by apply (Hall j m')|].
    apply list_lookup_singleton_Some in Hj' as [_ <-]. specialize (Hm Hc'). destruct Hc' as (rel & _ & Hne & _).
    destruct (m_path m); [done|]. cbn in Hm. lia.
Qed.

Lemma best_take l m best len :
  best_of l best len -> (exists rel, covers path m rel) -> len < Z.of_nat (length (m_path m)) ->
  best_of (l ++ [m]) (Some (length l)) (Z.of_nat (length (m_path m))).
Proof.
  intros Hb Hc Hlt. exists m. split; [by apply list_lookup_middle|]. do 2 (split; [done|]).
  intros j m' [Hj|[Hj Hj']]%lookup_app_Some Hc'.
  - destruct best as [i|]; cbn [best_of] in Hb; [|by destruct (proj2 Hb _ _ Hj)].
    destruct Hb as (mi & _ & _ & _ & Hall). destruct (Hall j m' Hj Hc') as [Hle _]. lia.
  - apply list_lookup_singleton_Some in Hj' as [_ <-]. split; [done|]. intros _. lia.
Qed.

Lemma find_mount_scan_ok ms l best len :
  best_of l best len ->
  let '(b, n) := find_mount_scan path ms (length l) best len in best_of (l ++ ms) b n.
Proof.
  revert l best len. induction ms as [|m ms IH]; intros l best len Hb; cbn [find_mount_scan]; [by rewrite app_nil_r|].
  assert (Happ : l ++ m :: ms = (l ++ [m]) ++ ms) by (by rewrite <- app_assoc).
  assert (Hlen : length (l ++ [m]) = S (length l)) by (rewrite length_app; cbn; lia). rewrite Happ, <- Hlen.
  assert (Hz : 0 <= len) by (destruct best; [destruct Hb as (? & _ & _ & -> & _); lia|by destruct Hb as [-> _]]).
  unfold vfs_strlen. rewrite Nat2Z.id, Z.gtb_ltb.
  destruct (m_active m && (prefix_match path (m_path m) && (len <? Z.of_nat (length (m_path m))))) eqn:Et.
  - apply andb_prop in Et as [Ha [Hp Hlt]%andb_prop]. apply Z.ltb_lt in Hlt.
    assert (Hne : m_path m <> []) by (intros E; rewrite E in Hlt; cbn in Hlt; lia).
    set (after := default 0 (path !! length (m_path m))).
    destruct ((after =? 0) || (after =? slash)) eqn:Ea.
    + apply IH. eapply best_take; [done| |done]. apply covers_test. do 3 (split; [done|]).
      apply orb_prop in Ea as [Ea|Ea]; apply Z.eqb_eq in Ea; auto.
    + apply IH. apply best_skip; [done|]. intros (_ & _ & _ & [Hc|Hc])%covers_test; exfalso; fold after in Hc; rewrite Hc in Ea; done.
  - apply IH. apply best_skip; [done|]. intros (Ha & _ & Hp & _)%covers_test. rewrite Ha, Hp in Et. cbn [andb] in Et.
    by apply Z.ltb_ge in Et.
Qed.

(** [find_mount] of vfs.c: the entry found is active, its path is a
    non-empty prefix of the path that ends at a component boundary, and no
    other active entry with such a path is longer (or as long and earlier); the
    remainder is what follows the prefix and its slash; and when nothing is
    found no active entry covers the path. *)
Theorem find_mount_correct ms :
  match find_mount ms path with
  | Some (i, rel) => exists m, ms !! i = Some m /\ covers path m rel /\
      forall j m', ms !! j = Some m' -> (exists rel', covers path m' rel') ->
        (length (m_path m') <= length (m_path m))%nat /\ (length (m_path m') = length (m_path m) -> (i <= j)%nat)
  | None => forall j m', ms !! j = Some m' -> ~ exists rel', covers path m' rel'
  end.
Proof.
  pose proof (find_mount_scan_ok ms [] None 0) as H. cbn [length app] in H. unfold find_mount.
  destruct (find_mount_scan path ms 0 None 0) as [[i|] n]; specialize (H ltac:(split; [done|]; intros j m' Hj; by rewrite lookup_nil in Hj));
    cbn [best_of] in H; [|by destruct H].
  destruct H as (m & Hi & Hc & -> & Hall). rewrite Nat2Z.id. exists m. split; [done|]. split.
  - destruct Hc as (rel & Ha & Hne & r & -> & Hr). split; [done|]. split; [done|]. exists r. split; [done|].
    rewrite drop_app_length. destruct Hr as [[-> _]| ->]; [by left|]. right. by rewrite Z.eqb_refl.
  - intros j m' Hj Hc'. destruct (Hall j m' Hj Hc') as [H1 H2]. split; [lia|]. intros; apply H2; lia.
Qed.
End FindMount.

(** ** Walking a path *)

(** [pieces p cs]: the names a walk looks up for the path [p]: its components
    between slashes, a component longer than the 127 bytes of the code's
    buffer being cut into several names. *)
Inductive pieces : list Z -> list (list Z) -> Prop :=
| pieces_nil : pieces [] []
| pieces_slash p cs : pieces p cs -> pieces (slash :: p) cs
| pieces_name c p cs :
    c <> [] -> Forall (fun x => x <> slash) c -> (length c <= 127)%nat ->
    p = [] \/ (exists p', p = slash :: p') \/ length c = 127%nat ->
    pieces p cs -> pieces (c ++ p) (c :: cs).

Lemma take_component_app room c p :
  Forall (fun x => x <> slash) c -> (length c <= room)%nat ->
  p = [] \/ (exists p', p = slash :: p') \/ length c = room ->
  take_component room (c ++ p) = (c, p).
Proof.
  intros Hc. revert room. induction Hc as [|x c Hx _ IH]; intros room Hl Hp; cbn [app take_component].
  - destruct room as [|room]; [done|]. destruct Hp as [->|[[p' ->]|Hp]]; [done|cbn; by rewrite ?Z.eqb_refl|done].
  - cbn [length] in *. destruct room as [|room]; [lia|]. cbn [take_component].
    destruct (Z.eqb_spec x slash); [done|]. rewrite IH; [done|lia|]. destruct Hp as [->|[[p' ->]|Hp]]; [by left|right; left; by eexists|right; right; lia].
Qed.

(** Splitting off the longest name of a path. *)
Lemma take_component_spec room p :
  exists c rest, take_component room p = (c, rest) /\ p = c ++ rest /\ Forall (fun x => x <> slash) c /\ (length c <= room)%nat /\
    (rest = [] \/ (exists p', rest = slash :: p') \/ length c = room).
Proof.
  revert p. induction room as [|room IH]; intros p; cbn [take_component].
  - exists [], p. split; [done|]. do 2 (split; [done|]). split; [cbn; lia|]. by right; right.
  - destruct p as [|x p]; [exists [], []; split_and!; [done|done|done|cbn; lia|by left]|].
    destruct (Z.eqb_spec x slash) as [->|Hx].
    + exists [], (slash :: p). split_and!; [done|done|done|cbn; lia|]. right; left. by exists p.
    + destruct (IH p) as (c & rest & -> & -> & Hc & Hl & Hr). exists (x :: c), rest.
      split_and!; [done|done|by constructor|cbn; lia|]. destruct Hr as [?|[?|Hr]]; [by left|by right; left|]. right; right. cbn; lia.
Qed.

Lemma pieces_total p : exists cs, pieces p cs.
Proof.
  remember (length p) as n eqn:En. revert p En. induction (lt_wf n) as [n _ IH]. intros p ->.
  destruct p as [|x p]; [exists []; constructor|]. destruct (Z.eq_dec x slash) as [->|Hx].
  - destruct (IH (length p) ltac:(cbn; lia) p eq_refl) as [cs H]. exists cs. by constructor.
  - destruct (take_component_spec 126 p) as (c & rest & _ & -> & Hc & Hl & Hr).
    destruct (IH (length rest) ltac:(cbn; rewrite length_app; lia) rest eq_refl) as [cs H].
    exists ((x :: c) :: cs). apply (pieces_name (x :: c) rest); [done|by constructor|cbn; lia| |done].
    destruct Hr as [?|[?|Hr]]; [by left|by right; left|right; right; cbn; lia].
Qed.

Section Walk.
Context {DS N H : Type} `{!EqDecision N} `{!Driver DS N}.
Implicit Types (s : vfs_st DS N H).

(** The lookups one after the other. *)
Fixpoint lookups (node : option N) (cs : list (list Z)) : M (vfs_st DS N H) (option N) :=
  match cs with
  | [] => mret node
  | c :: cs =>
    id ← lift_option node;
    v ← node_at id;
    match vn_finddir v with
    | None => mret None
    | Some finddir =>
      r ← drv (finddir c);
      match r with None => mret None | Some n => lookups (Some n) cs end
    end
  end.

Lemma walk_slash n node p s : @walk DS N H _ (S n) node (slash :: p) s = @walk DS N H _ (S n) node p s.
Proof. done. Qed.

Lemma walk_ok p cs : pieces p cs -> forall n node s, (length p < n)%nat -> walk n node p s = lookups node cs s.
Proof.
  induction 1 as [|p cs _ IH|c p cs Hne Hc Hl Hr _ IH]; intros n node s Hn.
  - destruct n as [|n]; [cbn in Hn; lia|]. done.
  - destruct n as [|n]; [lia|]. rewrite walk_slash. apply IH. cbn in Hn. lia.
  - destruct n as [|n]; [lia|]. rewrite length_app in Hn.
    assert (Hlc : (0 < length c)%nat) by (destruct c; [done|cbn; lia]).
    assert (Hskip : skip_slashes (c ++ p) = c ++ p).
    { destruct c as [|x c]; [done|]. apply Forall_cons in Hc as [Hx _]. cbn. by destruct (Z.eqb_spec x slash). }
    cbn [walk lookups]. rewrite Hskip. change (Z.to_nat (MAX_FILENAME - 1)) with 127%nat.
    pose proof (take_component_app 127 c p Hc Hl Hr) as Htc. destruct c as [|x c]; [done|]. cbn [app] in *. rewrite Htc.
    unfold mbind, M_bind. destruct (lift_option node s) as [[id s1]|]; [|done]. destruct (node_at id s1) as [[v s2]|]; [|done].
    destruct (vn_finddir v) as [f|]; [|done]. destruct (drv (f (x :: c)) s2) as [[[nd|] s3]|]; [|done|done].
    apply IH. lia.
Qed.

(** Of vfs.c, [walk_path]: the walk ends, and it is the lookup of the
    path's names one after the other from the root, slashes separating names
    and repeated, leading and trailing slashes not counting - except that the
    name buffer cuts a component after 127 bytes and looks the rest up as
    another component. *)
Theorem walk_path_correct (p : list Z) :
  exists cs, pieces p cs /\ forall root s, walk_path root p s = lookups root cs s.
Proof. destruct (pieces_total p) as [cs Hcs]. exists cs. split; [done|]. intros. apply walk_ok; [done|lia]. Qed.
End Walk.

(** ** Descriptors *)

Section Files.
Context {DS N H : Type} `{!EqDecision N} `{!Driver DS N} `{!HasDev DS}.
Implicit Types (s : vfs_st DS N H) (tbl : list (file_descriptor_t N)) (f : file_descriptor_t N).

(** The descriptor table of a task, and the calling task. *)
Definition table_of s (t : tid) : option (list (file_descriptor_t N)) := t_fd_table <$> get_task (v_sched s) t.
Definition calling s (t : tid) : Prop := s_cur (v_sched s) = Some t.

(** [s'] is [s] with the table [tbl] for task [t] and the drivers [d]. *)
Definition with_table (t : tid) tbl (d : DS) s : vfs_st DS N H :=
  Vfs d (v_mounts s) (upd_task t (with_fd_table tbl) (v_sched s)).

Lemma get_upd_task {FD K} (sc : sched_t FD K) t t' g :
  get_task (upd_task t g sc) t' = if decide (t = t') then g <$> get_task sc t' else get_task sc t'.
Proof.
  destruct t as [|i], t' as [|j]; cbn [upd_task get_task with_idle with_pool s_idle s_pool].
  - by rewrite decide_True.
  - by rewrite decide_False.
  - by rewrite decide_False.
  - destruct (decide (i = j)) as [->|Hne]; [rewrite decide_True by done; apply list_lookup_alter_eq|].
    rewrite decide_False by congruence. by apply list_lookup_alter_ne.
Qed.

Lemma table_of_with t tbl d s t' :
  table_of (with_table t tbl d s) t' = if decide (t = t') then (fun _ => tbl) <$> table_of s t' else table_of s t'.
Proof. unfold table_of, with_table. cbn [v_sched]. rewrite get_upd_task. case_decide; [|done]. by destruct (get_task _ t'). Qed.

Lemma calling_with t tbl d s t' : calling (with_table t tbl d s) t' <-> calling s t'.
Proof. unfold calling, with_table. by destruct t. Qed.

Lemma fdt_eq s t tbl : calling s t -> table_of s t = Some tbl -> fdt s = Some ((t, tbl), s).
Proof.
  unfold calling, table_of, fdt, sched_current_task. intros Hc. rewrite Hc. cbn. intros Ht.
  destruct (get_task (v_sched s) t) as [task|]; [|done]. cbn in *. by injection Ht as ->.
Qed.

Lemma get_fd_eq s t tbl (fd : Z) f :
  calling s t -> table_of s t = Some tbl -> 0 <= fd < MAX_FD -> tbl !! Z.to_nat fd = Some f -> fd_active f = true ->
  get_fd fd s = Some (Some (t, tbl, f), s).
Proof.
  intros Hc Ht Hfd Hf Ha. unfold get_fd. rewrite (bind_eq _ _ _ _ _ (fdt_eq _ _ _ Hc Ht)).
  destruct (Z.ltb_spec fd 0); [lia|]. rewrite Z.geb_leb. destruct (Z.leb_spec MAX_FD fd); [lia|]. cbn [orb].
  unfold mbind, M_bind, lift_option. by rewrite Hf, Ha.
Qed.

Lemma set_fd_eq t tbl fd f d s :
  set_fd t tbl fd f (Vfs d (v_mounts s) (v_sched s)) = Some (tt, with_table t (<[Z.to_nat fd := f]> tbl) d s).
Proof. done. Qed.

(** ** Reading a file through a descriptor *)

(** What a driver promises of a file: while [inv] holds, node [n] reads as
    [data], and reading keeps [inv]. *)
Definition file_law (inv : DS -> Prop) (n : N) (data : list Z) : Prop :=
  forall d, inv d -> exists v read, deref d n = Some v /\ vn_read v = Some read /\
    forall off size, 0 <= off < 18446744073709551616 -> 0 <= size < 4294967296 ->
      exists d', read off size d = Some (inr (slice data off size), d') /\ inv d'.

(** Reads of the given sizes, one after the other: all the bytes read. *)
Fixpoint read_all (fd : Z) (sizes : list Z) : M (vfs_st DS N H) (list Z) :=
  match sizes with
  | [] => mret []
  | size :: sizes =>
    r ← vfs_read fd size;
    match r with
    | inl _ => diverge
    | inr bytes => rest ← read_all fd sizes; mret (bytes ++ rest)
    end
  end.

Definition total (sizes : list Z) : Z := fold_right Z.add 0 sizes.

Lemma length_slice_min (b : list Z) off n :
  0 <= off -> 0 <= n -> Z.of_nat (length (slice b off n)) = Z.max 0 (Z.min n (Z.of_nat (length b) - off)).
Proof. intros. unfold slice. len. Qed.

Lemma slice_past (b : list Z) off n : 0 <= off -> Z.of_nat (length b) <= off -> slice b off n = [].
Proof. intros. unfold slice. rewrite drop_ge by lia. by rewrite take_nil. Qed.

Lemma slice_stream (b : list Z) off n m :
  0 <= off -> 0 <= n -> 0 <= m ->
  slice b off n ++ slice b (off + Z.of_nat (length (slice b off n))) m = slice b off (n + m).
Proof.
  intros Ho Hn Hm. rewrite length_slice_min by done.
  destruct (Z.leb_spec (off + n) (Z.of_nat (length b))).
  - replace (Z.max _ _) with n by lia. by apply slice_app.
  - rewrite (slice_past b (off + _)) by lia. rewrite app_nil_r. unfold slice.
    rewrite !(take_ge (drop _ _)); [done|len|len].
Qed.

Lemma with_fd_table_id (sc : sched_t (file_descriptor_t N) H) t tbl :
  t_fd_table <$> get_task sc t = Some tbl -> upd_task t (with_fd_table tbl) sc = sc.
Proof.
  intros Ht. destruct (get_task sc t) as [task|] eqn:Et; [|done]. cbn in Ht. injection Ht as <-.
  assert (E : with_fd_table (t_fd_table task) task = task) by (by destruct task).
  destruct t as [|i]; cbn [upd_task get_task] in *.
  - injection Et as Et. rewrite Et, E. rewrite <- Et. by destruct sc.
  - rewrite (list_alter_insert _ _ _ _ Et), E, list_insert_id by done. by destruct sc.
Qed.

Lemma with_table_id t tbl d s : table_of s t = Some tbl -> Vfs d (v_mounts s) (v_sched s) = with_table t tbl d s.
Proof. intros Ht. unfold with_table. by rewrite with_fd_table_id. Qed.

Lemma with_table_twice t tbl tbl' d d' s : with_table t tbl' d' (with_table t tbl d s) = with_table t tbl' d' s.
Proof.
  unfold with_table. cbn [v_mounts v_sched]. f_equal. destruct t as [|i]; cbn [upd_task with_idle with_pool s_idle s_pool]; [done|].
  unfold with_pool. cbn. f_equal. by rewrite list_alter_alter_eq.
Qed.

(** One read. *)
Lemma vfs_read_ok (inv : DS -> Prop) (n : N) (data : list Z) (fd size : Z) s t tbl f :
  file_law inv n data -> inv (v_drv s) -> Z.of_nat (length data) < 2147483648 ->
  calling s t -> table_of s t = Some tbl -> 0 <= fd < MAX_FD -> tbl !! Z.to_nat fd = Some f ->
  fd_active f = true -> fd_node f = Some n -> 0 <= fd_offset f -> in_u32 size -> fd_offset f < 18446744073709551616 ->
  exists d', inv d' /\ let out := slice data (fd_offset f) size in
    vfs_read fd size s = Some (inr out,
      with_table t (<[Z.to_nat fd := Fd (Some n) (fd_offset f + Z.of_nat (length out)) (fd_flags f) true]> tbl) d' s).
Proof.
  intros Hlaw Hinv Hdata Hc Ht Hfd Hf Ha Hn Hoff Hsz Htot. destruct (Hlaw _ Hinv) as (v & read & Hv & Hr & Hread).
  destruct (Hread (fd_offset f) size) as (d' & E & Hd'); [word|word|]. exists d'. split; [done|]. cbv zeta.
  unfold vfs_read. rewrite (bind_eq _ _ _ _ _ (get_fd_eq s t tbl fd f Hc Ht Hfd Hf Ha)). rewrite Hn.
  erewrite bind_eq; [|unfold node_at; by rewrite Hv]. rewrite Hr, (u32_id size) by done.
  erewrite bind_eq; [|unfold drv; by rewrite E]. set (out := slice data (fd_offset f) size).
  pose proof (length_slice_min data (fd_offset f) size Hoff ltac:(word)) as HL. fold out in HL. unfold in_u32 in Hsz.
  assert (Es : s32 (Z.of_nat (length out)) = Z.of_nat (length out)) by word. cbv beta iota. rewrite Es.
  unfold advance, when. rewrite Z.gtb_ltb. destruct (Z.ltb_spec 0 (Z.of_nat (length out))) as [Hpos|Hz].
  - rewrite u64_id by word. rewrite Hn. done.
  - assert (E0 : Z.of_nat (length out) = 0) by lia. rewrite E0, Z.add_0_r.
    assert (Ef : Fd (Some n) (fd_offset f) (fd_flags f) true = f) by (destruct f; cbn in *; by subst).
    rewrite Ef, list_insert_id by done. cbn. by rewrite (with_table_id t tbl).
Qed.

Lemma vfs_read_stream_ok (inv : DS -> Prop) (n : N) (data : list Z) (fd : Z) (sizes : list Z) s t tbl f :
  file_law inv n data -> inv (v_drv s) -> Z.of_nat (length data) < 2147483648 ->
  calling s t -> table_of s t = Some tbl -> 0 <= fd < MAX_FD -> tbl !! Z.to_nat fd = Some f ->
  fd_active f = true -> fd_node f = Some n -> 0 <= fd_offset f -> Forall in_u32 sizes ->
  fd_offset f + total sizes < 18446744073709551616 ->
  exists d', inv d' /\ let out := slice data (fd_offset f) (total sizes) in
    read_all fd sizes s = Some (out,
      with_table t (<[Z.to_nat fd := Fd (Some n) (fd_offset f + Z.of_nat (length out)) (fd_flags f) true]> tbl) d' s).
Proof.
  intros Hlaw Hinv Hdata Hc Ht Hfd Hf Ha Hn Hoff Hsz Htot. revert s f tbl Hinv Hc Ht Hf Ha Hn Hoff Htot.
  induction Hsz as [|sz sizes Hsz1 Hsz IH]; intros s f tbl Hinv Hc Ht Hf Ha Hn Hoff Htot.
  - exists (v_drv s). split; [done|]. cbn [total fold_right]. rewrite slice_0. cbn [length Z.of_nat]. rewrite Z.add_0_r.
    assert (Ef : Fd (Some n) (fd_offset f) (fd_flags f) true = f) by (destruct f; cbn in *; by subst).
    rewrite Ef, list_insert_id by done. rewrite <- (with_table_id t tbl) by done. by destruct s.
  - assert (Ht0 : 0 <= total sizes) by (clear - Hsz; induction Hsz; cbn; [lia|unfold in_u32, total in *; lia]).
    change (total (sz :: sizes)) with (sz + total sizes) in *. unfold in_u32 in Hsz1.
    destruct (vfs_read_ok inv n data fd sz s t tbl f) as (d1 & Hd1 & E1); try done; [lia|]. cbv zeta in E1.
    set (out1 := slice data (fd_offset f) sz) in *. set (f1 := Fd (Some n) (fd_offset f + Z.of_nat (length out1)) (fd_flags f) true) in *.
    set (tbl1 := <[Z.to_nat fd := f1]> tbl) in *.
    pose proof (length_slice_min data (fd_offset f) sz Hoff ltac:(lia)) as HL. fold out1 in HL.
    destruct (IH (with_table t tbl1 d1 s) f1 tbl1) as (d2 & Hd2 & E2); try done.
    { by apply calling_with. }
    { rewrite table_of_with, decide_True by done. by rewrite Ht. }
    { apply list_lookup_insert_eq. by eapply lookup_lt_Some. }
    { cbn; lia. }
    { cbn; lia. }
    exists d2. split; [done|]. cbv zeta in *. cbn [fd_offset fd_flags f1] in E2.
    cbn [read_all]. rewrite (bind_eq _ _ _ _ _ E1), (bind_eq _ _ _ _ _ E2).
    pose proof (slice_stream data (fd_offset f) sz (total sizes) Hoff ltac:(lia) Ht0) as Es. fold out1 in Es.
    set (out2 := slice data (fd_offset f + Z.of_nat (length out1)) (total sizes)) in *. rewrite <- Es.
    unfold mret, M_ret. rewrite with_table_twice. unfold tbl1. rewrite list_insert_insert_eq.
    rewrite length_app, Nat2Z.inj_add, Z.add_assoc. done.
Qed.

(** Of vfs.c, [vfs_read]: on a file whose driver keeps [file_law], reads of
    any sizes through one descriptor return together the bytes of the file
    from the descriptor's offset on, as one read of the total size would, and
    leave the offset after them; nothing else of the table, no other task's
    table and no mount changes. *)
Theorem vfs_read_stream (inv : DS -> Prop) (n : N) (data : list Z) (fd : Z) (sizes : list Z) s t tbl f :
  file_law inv n data -> inv (v_drv s) -> Z.of_nat (length data) < 2147483648 ->
  calling s t -> table_of s t = Some tbl -> 0 <= fd < MAX_FD -> tbl !! Z.to_nat fd = Some f ->
  fd_active f = true -> fd_node f = Some n -> 0 <= fd_offset f -> Forall in_u32 sizes ->
  fd_offset f + total sizes < 18446744073709551616 ->
  exists d', inv d' /\ let out := slice data (fd_offset f) (total sizes) in
    read_all fd sizes s = Some (out,
      with_table t (<[Z.to_nat fd := Fd (Some n) (fd_offset f + Z.of_nat (length out)) (fd_flags f) true]> tbl) d' s).
Proof. apply vfs_read_stream_ok. Qed.

(** ** Opening and closing *)

Lemma free_fd_scan_ok tbl k :
  match free_fd_scan tbl k with
  | Some i => k <= i < k + Z.of_nat (length tbl) /\
      (exists f, tbl !! Z.to_nat (i - k) = Some f /\ fd_active f = false) /\
      forall j f, (j < Z.to_nat (i - k))%nat -> tbl !! j = Some f -> fd_active f = true
  | None => forall j f, tbl !! j = Some f -> fd_active f = true
  end.
Proof.
  revert k. induction tbl as [|f tbl IH]; intros k; cbn [free_fd_scan]; [done|]. destruct (fd_active f) eqn:Ea.
  - specialize (IH (k + 1)). destruct (free_fd_scan tbl (k + 1)) as [i|].
    + destruct IH as (Hi & (f' & Hf' & Ha') & Hall). cbn [length]. split; [lia|].
      replace (Z.to_nat (i - k)) with (S (Z.to_nat (i - (k + 1)))) by lia. split; [by exists f'|].
      intros [|j] g Hj Hg; [by injection Hg as <-|]. apply (Hall j g); [lia|done].
    + intros [|j] g Hg; [by injection Hg as <-|]. by apply (IH j g).
  - cbn [length]. split; [lia|]. rewrite Z.sub_diag. split; [by exists f|]. intros j g Hj. cbn in Hj. lia.
Qed.

Lemma drv_frame {A} (m : M DS A) s a s' : drv m s = Some (a, s') -> s' = Vfs (v_drv s') (v_mounts s) (v_sched s).
Proof. unfold drv. destruct (m (v_drv s)) as [[? d]|]; [|done]. by intros [= <- <-]. Qed.

Lemma lookups_frame node cs s r s' : lookups node cs s = Some (r, s') -> s' = Vfs (v_drv s') (v_mounts s) (v_sched s).
Proof.
  revert node s. induction cs as [|c cs IH]; intros node s; cbn [lookups]; [intros [= <- <-]; by destruct s|].
  intros (id & s1 & E1 & E)%bind_inv. unfold lift_option in E1. destruct node as [n|]; [injection E1 as <- <-|done].
  apply bind_inv in E as (v & s1 & E1 & E). unfold node_at in E1. destruct (deref (v_drv s) n) as [v'|]; [|done].
  cbn in E1. injection E1 as <- <-. destruct (vn_finddir v') as [g|]; [|injection E as <- <-; by destruct s].
  apply bind_inv in E as (o & s1 & E1 & E). apply drv_frame in E1. destruct o as [n'|].
  - apply IH in E. by rewrite E1 in E.
  - by injection E as <- <-.
Qed.

Lemma walk_frame root p s r s' : walk_path root p s = Some (r, s') -> s' = Vfs (v_drv s') (v_mounts s) (v_sched s).
Proof. destruct (pieces_total p) as [cs Hcs]. unfold walk_path. rewrite (walk_ok p cs Hcs) by lia. apply lookups_frame. Qed.

(** The mount and the node of a path, as a step of [vfs_open]. *)
Lemma resolve_inv path s o s1 :
  resolve_path path s = Some (o, s1) -> s1 = Vfs (v_drv s1) (v_mounts s) (v_sched s) /\
  ((path_mount path s = Some (None, s) /\ o = None /\ s1 = s) \/
   exists mp rel root, path_mount path s = Some (Some (mp, rel), s) /\ mount_root mp s = Some (root, s) /\
     walk_path root rel s = Some (o, s1)).
Proof.
  unfold resolve_path. intros (pm & s0 & E0 & E)%bind_inv.
  assert (Es : s0 = s) by (unfold path_mount, gets in E0; congruence). subst s0. destruct pm as [[mp rel]|].
  - apply bind_inv in E as (root & s0 & E1 & E).
    assert (Es : s0 = s) by (unfold mount_root in E1; destruct (v_mounts s !! mp); [cbn in E1; congruence|done]). subst s0.
    split; [by apply walk_frame in E|]. right. by exists mp, rel, root.
  - injection E as <- <-. split; [by destruct s|]. by left.
Qed.

Lemma resolve_mount_root mp s root s' : mount_root mp s = Some (root, s') -> s' = s.
Proof. unfold mount_root. destruct (v_mounts s !! mp); [|done]. by intros [= _ <-]. Qed.

(** Of vfs.c, [vfs_open] and [vfs_close]: opening a path that resolves to
    [node] takes the lowest inactive descriptor of the calling task, at offset
    0 or at the end of the file with O_APPEND, and fails with -3 only when all
    are active; no other descriptor, task or mount changes. Closing it makes
    exactly that descriptor inactive again. Without O_CREATE a path that does
    not resolve gives -2, or -1 when no mount covers it. *)
Theorem vfs_open_correct path flags s t tbl o s1 :
  calling s t -> table_of s t = Some tbl -> length tbl = 64%nat -> resolve_path path s = Some (o, s1) ->
  match o with
  | Some node => forall v, deref (v_drv s1) node = Some v ->
      (vfs_open path flags s = Some (-3, s1) /\ forall j f, tbl !! j = Some f -> fd_active f = true) \/
      exists (i : nat) (f : file_descriptor_t N), tbl !! i = Some f /\ fd_active f = false /\
        (forall j g, (j < i)%nat -> tbl !! j = Some g -> fd_active g = true) /\
        let off := if Z.testbit flags 3 then vn_size v else 0 in
        let s2 := with_table t (<[i := Fd (Some node) off flags true]> tbl) (v_drv s1) s in
        vfs_open path flags s = Some (Z.of_nat i, s2) /\
        vfs_close (Z.of_nat i) s2 = Some (0, with_table t (<[i := Fd None off flags false]> tbl) (v_drv s1) s)
  | None => Z.testbit flags 2 = false -> exists e, vfs_open path flags s = Some (e, s1) /\ (e = -1 \/ e = -2)
  end.
Proof.
  intros Hc Ht Hlen Hres. destruct (resolve_inv _ _ _ _ Hres) as (Es1 & [(Epm & -> & ->)|(mp & rel & root & Epm & Eroot & Ew)]).
  { intros _. exists (-1). unfold vfs_open. rewrite (bind_eq _ _ _ _ _ Epm). split; [done|by left]. }
  assert (Eopen : vfs_open path flags s = (match o with
     | Some node => '(t, tbl) ← fdt; match free_fd_scan tbl 0 with
         | None => mret (-3)
         | Some i => v ← node_at node; set_fd t tbl i (Fd (Some node) (if Z.land flags O_APPEND =? 0 then 0 else vn_size v) flags true);; mret i
         end
     | None => vfs_open path flags end) (match o with Some _ => s1 | None => s end)).
  { destruct o as [node|]; [|done]. unfold vfs_open. rewrite (bind_eq _ _ _ _ _ Epm), (bind_eq _ _ _ _ _ Eroot), (bind_eq _ _ _ _ _ Ew). done. }
  destruct o as [node|].
  2:{ intros Hfl. exists (-2). unfold vfs_open. rewrite (bind_eq _ _ _ _ _ Epm), (bind_eq _ _ _ _ _ Eroot), (bind_eq _ _ _ _ _ Ew).
      cbv beta iota. assert (Ez : Z.land flags O_CREATE = 0).
      { apply Z.bits_inj'. intros k Hk. rewrite Z.land_spec, Z.bits_0. change O_CREATE with (2 ^ 2).
        rewrite Z.pow2_bits_eqb by lia. destruct (Z.eqb_spec 2 k) as [<-|]; [by rewrite Hfl|apply andb_false_r]. }
      rewrite Ez. split; [done|by right]. }
  intros v Hv. rewrite Eopen. cbv iota.
  assert (Hc1 : calling s1 t) by (by rewrite Es1). assert (Ht1 : table_of s1 t = Some tbl) by (by rewrite Es1).
  rewrite (bind_eq _ _ _ _ _ (fdt_eq _ _ _ Hc1 Ht1)). cbv beta iota.
  pose proof (free_fd_scan_ok tbl 0) as Hscan. destruct (free_fd_scan tbl 0) as [i|]; [right|by left].
  destruct Hscan as (Hi & (f & Hf & Ha) & Hall). rewrite Z.sub_0_r in *. exists (Z.to_nat i), f. do 3 (split; [done|]).
  assert (Eoff : (if Z.land flags O_APPEND =? 0 then 0 else vn_size v) = (if Z.testbit flags 3 then vn_size v else 0)).
  { assert (El : Z.land flags O_APPEND = if Z.testbit flags 3 then 8 else 0).
    { apply Z.bits_inj'. intros k Hk. rewrite Z.land_spec. change O_APPEND with (2 ^ 3). rewrite Z.pow2_bits_eqb by lia.
      destruct (Z.eqb_spec 3 k) as [<-|]; [rewrite andb_true_r; by destruct (Z.testbit flags 3)|].
      rewrite andb_false_r. destruct (Z.testbit flags 3); [|by rewrite Z.bits_0]. change 8 with (2 ^ 3).
      rewrite Z.pow2_bits_eqb by lia. by destruct (Z.eqb_spec 3 k). }
    rewrite El. by destruct (Z.testbit flags 3). }
  rewrite Z2Nat.id by lia. set (off := if Z.testbit flags 3 then vn_size v else 0). cbv zeta.
  set (s2 := with_table _ _ _ s). split.
  - unfold node_at. erewrite bind_eq; [|by rewrite Hv]. rewrite Eoff. erewrite bind_eq; [|done]. do 2 f_equal. subst s2.
    unfold with_table. rewrite Es1. done.
  - assert (Hf2 : <[Z.to_nat i := Fd (Some node) off flags true]> tbl !! Z.to_nat i = Some (Fd (Some node) off flags true)).
    { apply list_lookup_insert_eq. lia. }
    assert (Hc2 : calling s2 t) by (by apply calling_with).
    assert (Ht2 : table_of s2 t = Some (<[Z.to_nat i := Fd (Some node) off flags true]> tbl)).
    { unfold s2. rewrite table_of_with, decide_True by done. by rewrite Ht. }
    unfold vfs_close. rewrite (bind_eq _ _ _ _ _ (get_fd_eq s2 t _ i _ Hc2 Ht2 ltac:(unfold MAX_FD; lia) Hf2 eq_refl)). cbv beta iota.
    erewrite bind_eq; [|done]. cbn [fd_offset fd_flags]. rewrite list_insert_insert_eq.
    change (Vfs (v_drv s2) _ _) with (with_table t (<[Z.to_nat i := Fd None off flags false]> tbl) (v_drv s2) s2).
    subst s2. by rewrite with_table_twice.
Qed.

(** ** Unmounting *)

(** Rounds allowed to the walk up the parents. *)
Context (fuel : nat).

(** [root] is [n] or one of its ancestors. *)
Inductive is_under (d : DS) (root : N) : N -> Prop :=
| under_here : is_under d root root
| under_up n v p : deref d n = Some v -> vn_parent v = Some p -> is_under d root p -> is_under d root n.

(** [n] has [k] ancestors. *)
Inductive depth (d : DS) : N -> nat -> Prop :=
| depth_top n v : deref d n = Some v -> vn_parent v = None -> depth d n 0
| depth_up n v p k : deref d n = Some v -> vn_parent v = Some p -> depth d p k -> depth d n (S k).

Lemma under_ok d root n k m : depth d n k -> (S k < m)%nat ->
  exists b, under m d (Some root) (Some n) = Some b /\ (b = true <-> is_under d root n).
Proof.
  intros Hd. revert m. induction Hd as [n v Hv Hp|n v p k Hv Hp _ IH]; intros m Hm; (destruct m as [|m]; [lia|]); cbn [under].
  - destruct (decide (Some n = Some root)) as [[= ->]|Hne]; [exists true; split; [done|]; split; [constructor|done]|].
    exists false. cbn. rewrite Hv. cbn. rewrite Hp. destruct m as [|m]; [lia|]. split; [done|]. split; [done|].
    intros Hu. inversion Hu; subst; [done|]. congruence.
  - destruct (decide (Some n = Some root)) as [[= ->]|Hne]; [exists true; split; [done|]; split; [constructor|done]|].
    cbn. rewrite Hv. cbn. rewrite Hp. destruct (IH m ltac:(lia)) as (b & Eb & Hb). exists b. split; [done|]. rewrite Hb.
    split; [by eapply under_up|]. intros Hu. inversion Hu as [|n' v' p' Hv' Hp' Hu']; subst; [done|]. by simplify_eq.
Qed.

(** The effect of the unmount on one table. *)
Definition closed_under (d : DS) (root : N) tbl tbl' : Prop :=
  Forall2 (fun f f' => (f' = f /\ (fd_active f = true -> forall n, fd_node f = Some n -> ~ is_under d root n)) \/
    (fd_active f = true /\ (exists n, fd_node f = Some n /\ is_under d root n) /\
     f' = Fd (fd_node f) (fd_offset f) (fd_flags f) false)) tbl tbl'.

(** The parent chains of a table's open nodes are shorter than the fuel. *)
Definition grounded (d : DS) tbl : Prop :=
  Forall (fun f => fd_active f = true -> forall n, fd_node f = Some n -> exists k, depth d n k /\ (S k < fuel)%nat) tbl.

Lemma close_fds_under_ok d root tbl : (0 < fuel)%nat -> grounded d tbl ->
  exists tbl', close_fds_under fuel d (Some root) tbl = Some tbl' /\ closed_under d root tbl tbl'.
Proof.
  intros Hfu. induction 1 as [|f tbl Hf _ IH]; cbn [close_fds_under]; [by exists []; split; [done|constructor]|].
  destruct IH as (tbl' & E & HF). destruct (fd_active f) eqn:Ea.
  - destruct (fd_node f) as [n|] eqn:En.
    + destruct (Hf eq_refl n eq_refl) as (k & Hd & Hk). destruct (under_ok d root n k fuel Hd Hk) as (b & Eb & Hb).
      rewrite Eb, E. cbn. eexists. split; [done|]. constructor; [|done]. destruct b.
      * right. split; [done|]. split; [exists n; split; [done|by apply Hb]|by rewrite En].
      * left. split; [done|]. intros _ n'. rewrite En. intros [= <-] Hu. by apply Hb in Hu.
    + destruct fuel as [|k]; [lia|]. cbn [under]. rewrite decide_False by done. rewrite E. cbn. eexists. split; [done|].
      constructor; [|done]. left. split; [done|]. intros _ n'. by rewrite En.
  - rewrite E. cbn. eexists. split; [done|]. constructor; [|done]. left. split; [done|]. intros Ha. congruence.
Qed.

Lemma close_task_ok root t s tbl : (0 < fuel)%nat -> table_of s t = Some tbl -> grounded (v_drv s) tbl ->
  exists tbl', close_task_fds fuel (Some root) t s = Some (tt, with_table t tbl' (v_drv s) s) /\ closed_under (v_drv s) root tbl tbl'.
Proof.
  intros Hfu Ht Hg. destruct (close_fds_under_ok (v_drv s) root tbl Hfu Hg) as (tbl' & E & HF). exists tbl'. split; [|done].
  unfold close_task_fds, table_of in *. destruct (get_task (v_sched s) t) as [task|]; [|done]. cbn in Ht. injection Ht as Ht.
  cbn. by rewrite Ht, E.
Qed.

Definition in_slots (t : tid) (ts : list nat) : Prop := match t with Idle => False | Slot i => i ∈ ts end.
#[local] Instance in_slots_dec t ts : Decision (in_slots t ts).
Proof. destruct t; cbn; apply _. Defined.

(** The idle task, or a slot below [task_count]. *)
Definition in_use s (t : tid) : Prop := match t with Idle => True | Slot i => Z.of_nat i < s_count (v_sched s) end.
#[local] Instance in_use_dec s t : Decision (in_use s t).
Proof. destruct t; cbn; apply _. Defined.

(** Closing a list of tasks closes each of them and no other. *)
Lemma close_tasks_ok root ts s :
  (0 < fuel)%nat -> NoDup ts -> (forall i, i ∈ ts -> exists tbl, table_of s (Slot i) = Some tbl /\ grounded (v_drv s) tbl) ->
  exists s', close_tasks fuel (Some root) ts s = Some (tt, s') /\ v_drv s' = v_drv s /\ v_mounts s' = v_mounts s /\
    s_count (v_sched s') = s_count (v_sched s) /\
    forall t tbl, table_of s t = Some tbl -> exists tbl', table_of s' t = Some tbl' /\
      if decide (in_slots t ts) then closed_under (v_drv s) root tbl tbl' else tbl' = tbl.
Proof.
  intros Hfu Hnd. revert s. induction Hnd as [|i ts Hni Hnd IH]; intros s Hts; cbn [close_tasks].
  { exists s. split_and!; [done|done|done|done|]. intros t tbl Ht. exists tbl. split; [done|]. case_decide as Hd; [|done].
    destruct t as [|i]; [done|]. by apply elem_of_nil in Hd. }
  destruct (Hts i ltac:(by left)) as (tbl & Ht & Hg). destruct (close_task_ok root (Slot i) s tbl Hfu Ht Hg) as (tbl1 & E1 & HF).
  set (s1 := with_table (Slot i) tbl1 (v_drv s) s) in *. rewrite (bind_eq _ _ _ _ _ E1).
  assert (Hts1 : forall j, j ∈ ts -> exists tbl, table_of s1 (Slot j) = Some tbl /\ grounded (v_drv s1) tbl).
  { intros j Hj. destruct (Hts j ltac:(by right)) as (tblj & Hj1 & Hj2). exists tblj. split; [|done].
    unfold s1. rewrite table_of_with, decide_False; [done|]. intros [= ->]. done. }
  destruct (IH s1 Hts1) as (s' & E & Ed & Em & Ec & Hall). exists s'. split; [done|]. split; [done|]. split; [done|]. split; [done|].
  intros t tblt Htt. destruct (decide (t = Slot i)) as [->|Hne].
  - destruct (Hall (Slot i) tbl1) as (tbl' & Ht' & Hif).
    { unfold s1. rewrite table_of_with, decide_True by done. by rewrite Ht. }
    exists tbl'. split; [done|]. rewrite decide_False in Hif by done. subst tbl'.
    rewrite decide_True by (by left). rewrite Ht in Htt. by injection Htt as <-.
  - destruct (Hall t tblt) as (tbl' & Ht' & Hif).
    { unfold s1. rewrite table_of_with, decide_False by congruence. done. }
    exists tbl'. split; [done|]. destruct (decide (in_slots t ts)) as [Hin|Hnin].
    + rewrite decide_True; [done|]. destruct t as [|j]; [done|by right].
    + rewrite decide_False; [done|]. destruct t as [|j]; [by intros []|]. intros [->|Hj]%elem_of_cons; done.
Qed.

Lemma mount_scan_ok path (ms : list (mount_point_t N)) k :
  match mount_scan path ms k with
  | Some i => (k <= i)%nat /\ exists m, ms !! (i - k)%nat = Some m /\ m_active m = true /\ m_path m = path
  | None => forall m, m ∈ ms -> m_active m = true -> m_path m <> path
  end.
Proof.
  revert k. induction ms as [|m ms IH]; intros k; cbn [mount_scan]; [by intros m Hm%not_elem_of_nil|].
  destruct (m_active m) eqn:Ea, (decide (path = m_path m)) as [Ep|Ep]; cbn [andb]; try rewrite bool_decide_eq_true_2 by done; try rewrite bool_decide_eq_false_2 by done;
    [split; [lia|]; exists m; by rewrite Nat.sub_diag| | |];
    (specialize (IH (S k)); destruct (mount_scan path ms (S k)) as [i|];
     [destruct IH as (Hk & m' & Hm & Hr); split; [lia|]; exists m'; split; [|done];
      by replace (i - k)%nat with (S (i - S k)) by lia
     |intros m' [->|Hm]%elem_of_cons Ha; [congruence|by apply IH]]).
Qed.

(** Of vfs.c, [vfs_umount]: unmounting a mounted path returns 0; the mount
    entry is inactive without a root, all others are unchanged; and in the
    idle task's table and in that of every task slot in use exactly the
    active descriptors whose node lies at or below the mount's root are
    closed. Without such a mount it returns -1 and changes nothing. *)
Theorem vfs_umount_correct mount_path s :
  (0 < fuel)%nat ->
  0 <= s_count (v_sched s) -> (forall i, (i < Z.to_nat (s_count (v_sched s)))%nat -> is_Some (table_of s (Slot i))) ->
  (forall t tbl, table_of s t = Some tbl -> grounded (v_drv s) tbl) ->
  (forall m, m ∈ v_mounts s -> m_active m = true -> is_Some (m_root m)) ->
  (vfs_umount fuel mount_path s = Some (-1, s) /\ forall m, m ∈ v_mounts s -> m_active m = true -> m_path m <> mount_path) \/
  exists i m root s', v_mounts s !! i = Some m /\ m_active m = true /\ m_path m = mount_path /\ m_root m = Some root /\
    vfs_umount fuel mount_path s = Some (0, s') /\ v_drv s' = v_drv s /\
    v_mounts s' = <[i := MountPoint mount_path None false (m_drive m) (m_partition m) (m_fs_type m) (m_part_lba m) (m_part_sectors m)]> (v_mounts s) /\
    forall t tbl, table_of s t = Some tbl -> exists tbl', table_of s' t = Some tbl' /\
      if decide (in_use s t)
      then closed_under (v_drv s) root tbl tbl' else tbl' = tbl.
Proof.
  intros Hfu Hc0 Hslots Hg Hroot. unfold vfs_umount. rewrite (bind_eq _ _ s (v_mounts s) s eq_refl).
  pose proof (mount_scan_ok mount_path (v_mounts s) 0) as Hscan. destruct (mount_scan mount_path (v_mounts s) 0) as [i|]; [right|by left].
  destruct Hscan as (_ & m & Hm & Ha & Hp). rewrite Nat.sub_0_r in Hm.
  destruct (Hroot m) as [root Hr]; [by eapply list_elem_of_lookup_2|done|]. exists i, m, root.
  erewrite bind_eq; [|unfold mount_root; by rewrite Hm]. rewrite Hr. change sched_idle_task with Idle.
  assert (Hidle : table_of s Idle = Some (t_fd_table (s_idle (v_sched s)))) by done.
  destruct (close_task_ok root Idle s _ Hfu Hidle (Hg _ _ Hidle)) as (tbl0 & E0 & HF0). set (s0 := with_table Idle tbl0 (v_drv s) s) in *.
  rewrite (bind_eq _ _ _ _ _ E0). erewrite bind_eq; [|done]. change (sched_task_count (v_sched s0)) with (s_count (v_sched s)).
  set (n := Z.to_nat (s_count (v_sched s))).
  destruct (close_tasks_ok root (seq 0 n) s0 Hfu) as (s1 & E1 & Ed & Em & _ & Hall).
  { apply NoDup_ListNoDup, seq_NoDup. }
  { intros j [_ Hj]%elem_of_seq. destruct (Hslots j ltac:(unfold n in Hj; lia)) as [tbl Ht]. exists tbl. split; [|by apply (Hg (Slot j))].
    unfold s0. by rewrite table_of_with, decide_False. }
  rewrite (bind_eq _ _ _ _ _ E1). eexists. do 4 (split; [done|]). split; [done|]. split; [done|]. split.
  { cbn [v_mounts]. rewrite Em. change (v_mounts s0) with (v_mounts s). rewrite (list_alter_insert _ _ _ _ Hm). by rewrite Hp. }
  intros t tbl Ht. change (table_of (Vfs _ _ (v_sched s1)) t) with (table_of s1 t). destruct t as [|j].
  - destruct (Hall Idle tbl0) as (tbl' & Ht' & Hif).
    { unfold s0. rewrite table_of_with, decide_True by done. by rewrite Ht. }
    exists tbl'. split; [done|]. rewrite decide_False in Hif by (by intros []). subst tbl'.
    rewrite decide_True by done. rewrite Hidle in Ht. by injection Ht as <-.
  - destruct (Hall (Slot j) tbl) as (tbl' & Ht' & Hif).
    { unfold s0. by rewrite table_of_with, decide_False. }
    exists tbl'. split; [done|]. destruct (decide (in_use s (Slot j))) as [Hlt|Hge]; cbn [in_use] in *.
    + rewrite decide_True in Hif; [done|]. apply elem_of_seq. unfold n. lia.
    + rewrite decide_False in Hif; [done|]. intros Hj%elem_of_seq. unfold n in Hj. lia.
Qed.
End Files.
