(* ===== verification/VfsFat32.v ===== *)
(** * FAT32 under the virtual file system

    The FAT32 driver as an instance of [Driver], its files as files in the
    sense of [file_law], and the end-to-end statement for reads; then a small
    mounted system on which the theorems of VfsProofs.v are applied. *)

From S2P Require Import Prelude Kalloc Sched Blk Fat32 Fat32Proofs Fat32Files Vfs VfsProofs.

Section Instance.
Context (fault : nat -> option nat) (fuel : nat).
(** The mount and defragmentation functions of the other drivers. *)
Context (other_mount : Z -> Z -> Z -> Z -> M fat_st (Z + nat)) (other_defrag : Z -> nat -> M fat_st (Z + Z * Z * Z)).

(** What a node pointer of the FAT32 driver points to: [fat32_finddir],
    [fat32_create] and [fat32_mount] set the callbacks of a directory or those
    of a file. *)
Definition fat_vnode (i : nat) (n : vfs_node_t) : vnode fat_st nat :=
  match n_ops n with
  | OpsNone => VNode (n_type n) (n_size n) (n_inode n) (n_parent n) None None None None None None None
  | OpsFile => VNode (n_type n) (n_size n) (n_inode n) (n_parent n)
      (Some (fat32_read fault fuel i)) (Some (fat32_write fault fuel i)) None None None None None
  | OpsDir => VNode (n_type n) (n_size n) (n_inode n) (n_parent n)
      None None (Some (fat32_readdir fault fuel i)) (Some (fat32_finddir fault fuel i))
      (Some (fat32_create fault fuel i)) (Some (fat32_unlink fault fuel i)) (Some (fat32_rename fault fuel i))
  end.

#[export] Instance fat_driver : Driver fat_st nat := {|
  deref d i := n ← ft_nodes d !! i; Some (fat_vnode i n);
  drv_mount fs_type drive_type drive lba :=
    if fs_type =? FS_FAT32 then fat32_mount fault drive_type drive lba else other_mount fs_type drive_type drive lba;
  drv_defrag fs_type root := if fs_type =? FS_FAT32 then fat32_defrag fault fuel root else other_defrag fs_type root |}.

(** ** Files of a FAT32 volume *)

Context (nofault : forall k, fault k = None).

Lemma fat32_file_law fs d0 ni n l :
  fat_wf fs d0 -> file_ok fs d0 ni n l -> n_ops n = OpsFile ->
  Z.of_nat (length l) * (fs_spc fs * 512) < 4294967296 -> (length l < fuel)%nat ->
  file_law (fun d => fat_wf fs d /\ same_disk d0 d) ni (file_bytes fs d0 n l).
Proof.
  intros Hwf0 Hfo Hops Hbig Hfuel d [Hwf Hs]. exists (fat_vnode ni n), (fat32_read fault fuel ni).
  pose proof Hs as [_ (Efs & Enodes & Efinfo)].
  split; [cbn; by rewrite Enodes, (fo_node _ _ _ _ _ Hfo)|]. split; [unfold fat_vnode; by rewrite Hops|].
  intros off size Hoff Hsz.
  assert (Hfo' : file_ok fs d ni n l).
  { destruct Hfo. split; try done; rewrite ?Enodes, ?Efinfo, ?Efs; try done.
    eapply is_chain_ext; [|done]. intros. symmetry. by apply same_disk_get. }
  destruct (fat32_read_ok fault nofault fuel fs d ni n l off size Hwf Hfo' Hbig Hfuel ltac:(lia) ltac:(lia) ltac:(lia)) as (d' & E & Hwf' & Hs').
  exists d'. split; [|split; [done|by eapply same_disk_trans]].
  rewrite E. do 3 f_equal. unfold file_bytes. do 2 f_equal. by apply content_same.
Qed.

(** C1 (vfs.c over fat32.c): reading a FAT32 file through a descriptor of the
    VFS, in pieces of any sizes, yields the bytes of its cluster chain from the
    descriptor's offset on up to the end of the file, once and in order, and
    leaves the offset behind them. *)
Theorem vfs_fat32_read {H} (s : vfs_st fat_st nat H) t tbl f fs ni n l fd sizes :
  fat_wf fs (v_drv s) -> file_ok fs (v_drv s) ni n l -> n_ops n = OpsFile ->
  Z.of_nat (length l) * (fs_spc fs * 512) < 2147483648 -> (length l < fuel)%nat ->
  calling s t -> table_of s t = Some tbl -> 0 <= fd < MAX_FD -> tbl !! Z.to_nat fd = Some f ->
  fd_active f = true -> fd_node f = Some ni -> 0 <= fd_offset f -> Forall in_u32 sizes ->
  fd_offset f + total sizes < 18446744073709551616 ->
  exists d', same_disk (v_drv s) d' /\
    let out := slice (file_bytes fs (v_drv s) n l) (fd_offset f) (total sizes) in
    read_all fd sizes s = Some (out,
      with_table t (<[Z.to_nat fd := Fd (Some ni) (fd_offset f + Z.of_nat (length out)) (fd_flags f) true]> tbl) d' s).
Proof.
  intros Hwf Hfo Hops Hbig Hfuel Hc Ht Hfd Hf Ha Hn Hoff Hsz Htot.
  destruct (vfs_read_stream_ok (fun d => fat_wf fs d /\ same_disk (v_drv s) d) ni (file_bytes fs (v_drv s) n l) fd sizes s t tbl f)
    as (d' & [_ Hd'] & E); try done.
  - apply fat32_file_law; (done || lia).
  - unfold file_bytes. rewrite length_take. pose proof (length_content fs (v_drv s) l Hwf). lia.
  - by exists d'.
Qed.
End Instance.

(** ** A small system *)

Module VfsDemo.
Definition no_mount (fs_type drive_type drive lba : Z) : M fat_st (Z + nat) := mret (inl (-1)).
Definition no_defrag (fs_type : Z) (root : nat) : M fat_st (Z + Z * Z * Z) := mret (inl (-1)).
#[export] Instance driver : Driver fat_st nat := fat_driver Demo.fault 5 no_mount no_defrag.

(** The volume of Fat32Proofs.v mounted at "/a", node 0 being its root and node
    1 the file of the chain 3, 4, 6; the idle task has the file open. *)
Definition file : vfs_node_t := Node [] VFS_FILE 1300 3 OpsFile (Some 0%nat) (Some 0%nat).
Definition root : vfs_node_t := Node [47] 6 0 2 OpsDir None (Some 0%nat).
Definition dr : fat_st := set_nodes [root; file] Demo.st.
Definition tbl : list (file_descriptor_t nat) := <[2%nat := Fd (Some 1%nat) 510 1 true]> fd_table0.
Definition idle : task_t (file_descriptor_t nat) := Task 0 (-1) [] TASK_RUNNING 3 0 0 0 0 0 0 0 0 0 tbl 0 0 0 0.
Definition sys : vfs_st fat_st nat unit :=
  Vfs dr (<[1%nat := MountPoint [47; 97] (Some 0%nat) true 0 1 FS_FAT32 0 11]> (replicate 8 mount0))
    (Sched [] 0 [] idle (Some Idle) false false 0 0 0 ∅ tt).

Lemma wf_dr : fat_wf Demo.fs dr.
Proof. destruct Demo.wf as [Hg Hd [Hl Hb Hk]]. split; [exact Hg|exact Hd|]. split; [exact Hl|exact Hb|exact Hk]. Qed.

Lemma file_ok_dr : file_ok Demo.fs dr 1 file [3; 4; 6].
Proof.
  split; [done|done|by exists 0%nat, (Finfo 0 false 0 0)|by vm_compute|done| |by vm_compute]. repeat constructor; done.
Qed.
End VfsDemo.
Import VfsDemo.

Lemma find_mount_correct_witness :
  exists m, v_mounts sys !! 1%nat = Some m /\ covers [47; 97; 47; 98] m [98].
Proof.
  pose proof (find_mount_correct [47; 97; 47; 98] ltac:(by repeat constructor) (v_mounts sys)) as Hf.
  change (find_mount (v_mounts sys) [47; 97; 47; 98]) with (Some (1%nat, [98])) in Hf.
  destruct Hf as (m & Hm & Hc & _). by exists m.
Defined.

Lemma vfs_read_stream_witness :
  exists d', read_all 2 [1; 3] sys = Some ([65; 65; 66; 66], with_table Idle (<[2%nat := Fd (Some 1%nat) 514 1 true]> tbl) d' sys).
Proof.
  destruct (vfs_read_stream (fun d => fat_wf Demo.fs d /\ same_disk dr d) 1%nat (file_bytes Demo.fs dr file [3; 4; 6]) 2 [1; 3] sys Idle tbl
    (Fd (Some 1%nat) 510 1 true)) as (d' & _ & E);
    [apply (fat32_file_law Demo.fault 5 no_mount no_defrag Demo.nofault); [apply wf_dr|apply file_ok_dr|reflexivity|reflexivity|cbn; lia]
    |split; [apply wf_dr|repeat split]|by vm_compute|reflexivity|reflexivity|by vm_compute|reflexivity|reflexivity|reflexivity|by vm_compute
    |repeat constructor; by vm_compute|by vm_compute|].
  exists d'. etransitivity; [exact E|by vm_compute].
Defined.

Lemma vfs_fat32_read_witness :
  exists d', read_all 2 [1; 3] sys = Some ([65; 65; 66; 66], with_table Idle (<[2%nat := Fd (Some 1%nat) 514 1 true]> tbl) d' sys).
Proof.
  destruct (vfs_fat32_read Demo.fault 5 no_mount no_defrag Demo.nofault sys Idle tbl (Fd (Some 1%nat) 510 1 true) Demo.fs 1 file [3; 4; 6] 2 [1; 3])
    as (d' & _ & E);
    [apply wf_dr|apply file_ok_dr|reflexivity|by vm_compute|cbn; lia|reflexivity|reflexivity|by vm_compute|reflexivity|reflexivity|reflexivity
    |by vm_compute|repeat constructor; by vm_compute|by vm_compute|].
  exists d'. etransitivity; [exact E|by vm_compute].
Defined.

(** Opening "/a" itself takes descriptor 0. *)
Lemma vfs_open_correct_witness :
  exists s1, resolve_path [47; 97] sys = Some (Some 0%nat, s1) /\
    vfs_open [47; 97] 1 sys = Some (0, with_table Idle (<[0%nat := Fd (Some 0%nat) 0 1 true]> tbl) (v_drv s1) sys).
Proof.
  assert (Hr : resolve_path [47; 97] sys = Some (Some 0%nat, sys)) by reflexivity.
  pose proof (vfs_open_correct [47; 97] 1 sys Idle tbl _ _ eq_refl eq_refl eq_refl Hr) as Ho. exists sys. split; [done|].
  destruct (Ho (fat_vnode Demo.fault 5 0 root) eq_refl) as [[_ Hall]|(i & f & Hf & Ha & Hlow & E & _)].
  - by specialize (Hall 0%nat fd0 eq_refl).
  - destruct i as [|i]; [exact E|]. by specialize (Hlow 0%nat fd0 ltac:(lia) eq_refl).
Defined.

Lemma vfs_umount_correct_witness :
  exists s', vfs_umount 5 [47; 97] sys = Some (0, s') /\ table_of s' Idle = Some (<[2%nat := Fd (Some 1%nat) 510 1 false]> tbl).
Proof.
  destruct (vfs_umount_correct 5 [47; 97] sys) as [[E _]|(i & m & rt & s' & Hi & Ha & Hp & Hr & E & _ & _ & Hall)].
  - lia.
  - done.
  - intros i Hi. cbn in Hi. lia.
  - intros t tb Ht. assert (Htb : tb = tbl).
    { destruct t as [|i]; [by injection Ht|]. unfold table_of in Ht. cbn in Ht. by rewrite lookup_nil in Ht. }
    subst tb. unfold grounded, tbl. apply Forall_insert; [apply Forall_replicate; done|].
    intros _ n [= <-]. exists 1%nat. split; [|lia]. apply (depth_up _ _ (fat_vnode Demo.fault 5 1 file) 0%nat); [done|done|].
    by apply (depth_top _ _ (fat_vnode Demo.fault 5 0 root)).
  - intros m Hm Ha. unfold sys in Hm. cbn [v_mounts] in Hm. apply list_elem_of_lookup in Hm as [j Hj].
    destruct (decide (j = 1%nat)) as [->|Hne]; [injection Hj as <-; by eexists|].
    rewrite list_lookup_insert_ne in Hj by congruence. apply lookup_replicate in Hj as [-> _]. done.
  - exfalso. by vm_compute in E.
  - exists s'. split; [exact E|]. assert (Es : vfs_umount 5 [47; 97] sys ≫= (fun x => table_of x.2 Idle) = Some (<[2%nat := Fd (Some 1%nat) 510 1 false]> tbl)) by reflexivity.
    rewrite E in Es. exact Es.
Defined.
