(* ===== verification/Syscall.v ===== *)
(** * System calls

    Models cpu/syscall.c, the entry from ring 3: [syscall_dispatch] over the
    kernel state that its cases touch, which is the file systems and the
    scheduler (Vfs.v), the address spaces (Vmm.v), the event queue (Ring.v) and
    the screen (Gfx.v). Memory is the one of the scheduler state, by 64-bit
    words; a user pointer is followed through the processor's page walk, byte
    by byte, and [None] is a page fault inside the kernel. *)

From S2P Require Import Prelude Kalloc Sched Vmm Ring Font Gfx Blk Fat32 Vfs.

Definition SYS_EXIT : Z := 0.
Definition SYS_YIELD : Z := 1.
Definition SYS_GET_TICKS : Z := 2.
Definition SYS_EVENT_POLL : Z := 3.
Definition SYS_GFX_PRESENT : Z := 4.
Definition SYS_FB_INFO : Z := 5.
Definition SYS_GET_FONT : Z := 6.
Definition SYS_WRITE : Z := 7.
Definition SYS_GFX_PRESENT_RECT : Z := 8.
Definition SYS_OPEN : Z := 9.
Definition SYS_CLOSE : Z := 10.
Definition SYS_READ : Z := 11.
Definition SYS_SEEK : Z := 12.
Definition SYS_FWRITE : Z := 13.
Definition SYS_STAT : Z := 14.
Definition SYS_FSTAT : Z := 15.
Definition SYS_READDIR : Z := 16.
Definition SYS_UNLINK : Z := 17.
Definition SYS_SBRK : Z := 18.
Definition SYS_RENAME : Z := 19.
Definition SYS_GFX_FILL_RECT : Z := 20.
Definition SYS_GFX_DRAW_TEXT : Z := 21.
Definition SYS_GFX_FLUSH_RECT : Z := 26.

(** ** Bytes of memory, and the user's view of them *)

Definition byte_at (m : mem_t) (pa : Z) : Z := word_at m (pa / 8 * 8) / 256 ^ (pa mod 8) mod 256.
Definition set_byte (m : mem_t) (pa v : Z) : mem_t :=
  <[pa / 8 * 8 := word_at m (pa / 8 * 8) + (v mod 256 - byte_at m pa) * 256 ^ (pa mod 8)]> m.

(** [memcpy] from and to the user's address [va]. *)
Fixpoint user_read (m : mem_t) (cr3 va : Z) (n : nat) : option (list Z) :=
  match n with
  | O => Some []
  | S n => '(pa, _) ← hw_translate m cr3 va; l ← user_read m cr3 (u64 (va + 1)) n; Some (byte_at m pa :: l)
  end.
Fixpoint user_write (m : mem_t) (cr3 va : Z) (l : list Z) : option mem_t :=
  match l with
  | [] => Some m
  | b :: l => '(pa, _) ← hw_translate m cr3 va; user_write (set_byte m pa b) cr3 (u64 (va + 1)) l
  end.

(** Little-endian 32-bit pixels of a byte string. *)
Fixpoint pixels (n : nat) (l : list Z) : list Z :=
  match n with O => [] | S n => le_val (take 4 l) :: pixels n (drop 4 l) end.

Definition event_code (t : event_type_t) : Z :=
  match t with EV_NONE => 0 | EV_KEY_DOWN => 1 | EV_KEY_UP => 2 | EV_MOUSE_MOVE => 3 | EV_MOUSE_DOWN => 4 | EV_MOUSE_UP => 5 end.
(** [event_t] as its 12 bytes. *)
Definition event_bytes (e : event_t) : list Z :=
  [event_code (ev_type e); u8 (ev_code e); u8 (ev_ch e); u8 (ev_buttons e)] ++ le_bytes 4 (ev_x e) ++ le_bytes 4 (ev_y e).

Definition set_rax (v : Z) (r : registers_t) : registers_t :=
  Regs (r_r15 r) (r_r14 r) (r_r13 r) (r_r12 r) (r_r11 r) (r_r10 r) (r_r9 r) (r_r8 r) (r_rbp r) (r_rdi r) (r_rsi r)
    (r_rdx r) (r_rcx r) (r_rbx r) v (r_int_no r) (r_err_code r) (r_rip r) (r_cs r) (r_rflags r) (Sched.r_rsp r) (r_ss r).

(** ** State *)

Record kern (DS N H : Type) := Kern {
  k_vfs : vfs_st DS N H;            (* file systems, and the scheduler with memory and the heap *)
  k_as : gmap Z vmm_as_t;           (* the [vmm_as_t] structures by address *)
  k_evq : evq_t;
  k_gfx : gfx_st;
  k_tick : Z;
  k_out : list Z;                   (* what [kprint] has written *)
}.
Arguments Kern {DS N H}. Arguments k_vfs {DS N H}. Arguments k_as {DS N H}. Arguments k_evq {DS N H}.
Arguments k_gfx {DS N H}. Arguments k_tick {DS N H}. Arguments k_out {DS N H}.

Section Syscall.
Context {DS N H : Type} `{!Kalloc H} `{!EqDecision N} `{!Driver DS N}.
(** The linker's bounds of the shared user arena, and the glyph table. *)
Context (user_start user_end : Z).
(** Bytes the code copies without having set them: [junk n] are [n] of them. *)
Context (junk : nat -> list Z).
Abbreviation kern := (kern DS N H).
Abbreviation K := (M kern).
Implicit Types k : kern.

Definition k_sched k := v_sched (k_vfs k).
Definition with_sched k s : kern := Kern (Vfs (v_drv (k_vfs k)) (v_mounts (k_vfs k)) s) (k_as k) (k_evq k) (k_gfx k) (k_tick k) (k_out k).
Definition with_mem k (m : mem_t) : kern :=
  let s := k_sched k in
  with_sched k (Sched (s_pool s) (s_count s) (s_rq s) (s_idle s) (s_cur s) (s_want s) (s_active s) (s_cr3 s)
    (s_ustack_next s) (s_rsp0 s) m (s_heap s)).
Definition k_mem k : mem_t := s_mem (k_sched k).
Definition k_cr3 k : Z := s_cr3 (k_sched k).
(** The part of the state Vmm.v works on. *)
Definition k_vm k : vstate H := Vst (k_mem k) (s_heap (k_sched k)).
Definition with_vm k (v : vstate H) : kern :=
  let s := k_sched k in
  with_sched k (Sched (s_pool s) (s_count s) (s_rq s) (s_idle s) (s_cur s) (s_want s) (s_active s) (s_cr3 s)
    (s_ustack_next s) (s_rsp0 s) (v_mem v) (v_heap v)).
Definition with_as k (a : vmm_as_t) : kern :=
  Kern (k_vfs k) (<[as_addr a := a]> (k_as k)) (k_evq k) (k_gfx k) (k_tick k) (k_out k).
Definition with_gfx k (g : gfx_st) : kern := Kern (k_vfs k) (k_as k) (k_evq k) g (k_tick k) (k_out k).
Definition with_evq k (q : evq_t) : kern := Kern (k_vfs k) (k_as k) q (k_gfx k) (k_tick k) (k_out k).

Definition fs {A} (m : M (vfs_st DS N H) A) : K A := fun k =>
  match m (k_vfs k) with
  | Some (a, v) => Some (a, Kern v (k_as k) (k_evq k) (k_gfx k) (k_tick k) (k_out k))
  | None => None
  end.
Definition sched_op (f : sched_t (file_descriptor_t N) H -> option (sched_t (file_descriptor_t N) H)) : K unit :=
  fun k => s ← f (k_sched k); Some (tt, with_sched k s).
Definition gfx_op (f : gfx_st -> option gfx_st) : K unit := fun k => g ← f (k_gfx k); Some (tt, with_gfx k g).

(** [is_user_range(ptr, len)] *)
Definition check (ptr len : Z) : K bool := fun k =>
  b ← is_user_range user_start user_end (k_mem k) (k_cr3 k) ptr len; Some (b =? 1, k).
Definition copy_in (va len : Z) : K (list Z) := fun k => l ← user_read (k_mem k) (k_cr3 k) va (Z.to_nat len); Some (l, k).
Definition copy_out (va : Z) (l : list Z) : K unit := fun k => m ← user_write (k_mem k) (k_cr3 k) va l; Some (tt, with_mem k m).

(** [(uint64_t)-1] *)
Definition ERR : Z := 18446744073709551615.

(** The guarded read of a user string of at most [cap] bytes. *)
Definition user_string (ptr len cap : Z) : K (option (list Z)) :=
  let len := if len >? cap then cap else len in
  ok ← check ptr len;
  if ok : bool then l ← copy_in ptr len; mret (Some (cstr l)) else mret None.

(** The bytes of [vfs_stat_t] and of [dirent_t], with what the code leaves unset. *)
Definition stat_bytes (st : vfs_stat_t) : list Z :=
  le_bytes 8 (st_size st) ++ le_bytes 4 (st_inode st) ++ [u8 (st_type st)] ++ junk 3.
Definition dirent_bytes (de : dirent_t) : list Z :=
  take 128 (d_name de ++ 0 :: junk 128) ++ le_bytes 8 (d_size de) ++ [u8 (d_type de)] ++ junk 7.

(** ** The cases *)

Definition sys_event_poll (out : Z) : K Z :=
  ok ← check out 12;
  if negb ok then mret ERR
  else
    '(o, q) ← gets (fun k => event_poll (k_evq k));
    modify (fun k => with_evq k q);;
    match o with
    | None => mret 0
    | Some ev => copy_out out (event_bytes ev);; mret 1
    end.

Definition sys_gfx_present (src : Z) : K Z :=
  o ← gets (fun k => gfx_screen (k_gfx k));
  match o with
  | None => mret ERR
  | Some scr =>
    let bytes := u64 (u64 (u64 (sf_w scr) * u64 (sf_h scr)) * 4) in
    ok ← check src bytes;
    if negb ok then mret ERR
    else
      l ← copy_in src bytes;
      px ← lift_option (store_px (sf_px scr) 0 (pixels (Z.to_nat (bytes / 4)) l));
      gfx_op (fun g => gfx_present (set_screen (Surface (sf_w scr) (sf_h scr) px) g));;
      mret 0
  end.

(** [x:y:w:h], 16 bits each, high to low. *)
Definition unpack (packed : Z) : Z * Z * Z * Z :=
  (u16 (Z.shiftr packed 48), u16 (Z.shiftr packed 32), u16 (Z.shiftr packed 16), u16 packed).

Definition sys_gfx_present_rect (src packed : Z) : K Z :=
  o ← gets (fun k => gfx_screen (k_gfx k));
  match o with
  | None => mret ERR
  | Some scr =>
    let '(x, y, w, h) := unpack packed in
    let '(w, x) := if x <? 0 then (s32 (w + x), 0) else (w, x) in
    let '(h, y) := if y <? 0 then (s32 (h + y), 0) else (h, y) in
    if (x >=? sf_w scr) || (y >=? sf_h scr) || (w <=? 0) || (h <=? 0) then mret 0
    else
      let w := if s32 (x + w) >? sf_w scr then s32 (sf_w scr - x) else w in
      let h := if s32 (y + h) >? sf_h scr then s32 (sf_h scr - y) else h in
      let full_bytes := u64 (u64 (u64 (sf_w scr) * u64 (sf_h scr)) * 4) in
      ok ← check src full_bytes;
      if negb ok then mret ERR
      else
        m ← gets k_mem; cr3 ← gets k_cr3;
        px ← lift_option (store_rows (Z.to_nat h) 0
          (fun row => l ← user_read m cr3 (u64 (src + u64 (pixel_index (sf_w scr) x (s32 (y + row)) * 4))) (Z.to_nat (w * 4));
                      Some (pixels (Z.to_nat w) l))
          (fun row => pixel_index (sf_w scr) x (s32 (y + row))) (sf_px scr));
        gfx_op (fun g => gfx_present_rect x y w h (set_screen (Surface (sf_w scr) (sf_h scr) px) g));;
        mret 0
  end.

Definition sys_fb_info : K Z :=
  o ← gets (fun k => gfx_screen (k_gfx k));
  mret (match o with None => 0 | Some scr => Z.lor (u64 (Z.shiftl (u32 (sf_w scr)) 32)) (u32 (sf_h scr)) end).

Definition sys_get_font (dst : Z) : K Z :=
  ok ← check dst (256 * 16);
  if negb ok then mret ERR else copy_out dst (concat font8x16);; mret 0.

Definition sys_open (path len flags : Z) : K Z :=
  o ← user_string path len (MAX_PATH - 1);
  match o with None => mret ERR | Some p => r ← fs (vfs_open p (u8 flags)); mret (u64 r) end.

Definition sys_read (fd buf size : Z) : K Z :=
  ok ← check buf size;
  if negb ok then mret ERR
  else
    r ← fs (vfs_read (s32 fd) size);
    match r with
    | inl e => mret (u64 e)
    | inr l => copy_out buf l;; mret (u64 (s32 (Z.of_nat (length l))))
    end.

Definition sys_fwrite (fd buf size : Z) : K Z :=
  ok ← check buf size;
  if negb ok then mret ERR
  else l ← copy_in buf size; r ← fs (vfs_write (s32 fd) size l); mret (u64 r).

Definition sys_stat (path len ubuf : Z) : K Z :=
  let len := if len >? MAX_PATH - 1 then MAX_PATH - 1 else len in
  ok ← check path len;
  if negb ok then mret ERR
  else
    ok ← check ubuf 16;
    if negb ok then mret ERR
    else
      p ← copy_in path len;
      o ← fs (vfs_stat (cstr p));
      match o with None => mret ERR | Some st => copy_out ubuf (stat_bytes st);; mret 0 end.

Definition sys_fstat (fd ubuf : Z) : K Z :=
  ok ← check ubuf 16;
  if negb ok then mret ERR
  else
    o ← fs (vfs_fstat (s32 fd));
    match o with None => mret ERR | Some st => copy_out ubuf (stat_bytes st);; mret 0 end.

Definition sys_readdir (fd index ubuf : Z) : K Z :=
  ok ← check ubuf 144;
  if negb ok then mret ERR
  else
    o ← fs (vfs_readdir (s32 fd) (u32 index));
    match o with None => mret ERR | Some de => copy_out ubuf (dirent_bytes de);; mret 0 end.

Definition sys_unlink (path len : Z) : K Z :=
  o ← user_string path len (MAX_PATH - 1);
  match o with None => mret ERR | Some p => r ← fs (vfs_unlink p); mret (if r =? 0 then 0 else ERR) end.

Definition sys_rename (old old_len new_ new_len : Z) : K Z :=
  let old_len := if old_len >? MAX_PATH - 1 then MAX_PATH - 1 else old_len in
  let new_len := if new_len >? MAX_PATH - 1 then MAX_PATH - 1 else new_len in
  ok ← check old old_len;
  if negb ok then mret ERR
  else
    ok ← check new_ new_len;
    if negb ok then mret ERR
    else
      o ← copy_in old old_len; n ← copy_in new_ new_len;
      r ← fs (vfs_rename (cstr o) (cstr n)); mret (if r =? 0 then 0 else ERR).

Definition sys_write (buf len : Z) : K Z :=
  let len := if len >? 256 then 256 else len in
  ok ← check buf len;
  if negb ok then mret ERR
  else
    l ← copy_in buf len;
    modify (fun k => Kern (k_vfs k) (k_as k) (k_evq k) (k_gfx k) (k_tick k) (k_out k ++ cstr l));;
    mret len.

Definition sys_gfx_fill_rect (packed color : Z) : K Z :=
  o ← gets (fun k => gfx_screen (k_gfx k));
  match o with
  | None => mret ERR
  | Some scr =>
    let '(x, y, w, h) := unpack packed in
    gfx_op (fun g => s ← gfx_fill_rect (Some scr) x y w h (u32 color); s ← s; Some (set_screen s g));; mret 0
  end.

Definition sys_gfx_draw_text (xy text len fgbg : Z) : K Z :=
  o ← gets (fun k => gfx_screen (k_gfx k));
  match o with
  | None => mret ERR
  | Some scr =>
    t ← user_string text len 256;
    match t with
    | None => mret ERR
    | Some t =>
      gfx_op (fun g => s ← gfx_draw_text (Some scr) (u16 (Z.shiftr xy 16)) (u16 xy) t (u32 (Z.shiftr fgbg 32)) (u32 fgbg);
                       s ← s; Some (set_screen s g));;
      mret 0
    end
  end.

Definition sys_gfx_flush_rect (packed : Z) : K Z :=
  o ← gets (fun k => gfx_screen (k_gfx k));
  match o with
  | None => mret ERR
  | Some _ => let '(x, y, w, h) := unpack packed in gfx_op (gfx_present_rect x y w h);; mret 0
  end.

(** The loop of SYS_SBRK over the new pages; [false] is its [ok = 0]. *)
Fixpoint sbrk_pages (n : nat) (va needed_end : Z) (a : vmm_as_t) (v : vstate H) : bool * vmm_as_t * vstate H :=
  match n with
  | O => (true, a, v)
  | S n =>
    if va <? needed_end then
      let '(pa, a, v) := vmm_alloc_page a v in
      if pa =? 0 then (false, a, v)
      else
        let '(r, a, v) := vmm_map_page a va pa VMM_PAGE_RW_U v in
        if r =? 0 then sbrk_pages n (u64 (va + 0x1000)) needed_end a v else (false, a, v)
    else (true, a, v)
  end.
(** [heap_start] plus the distance to [brk] rounded up to whole pages. *)
Definition page_end (heap_start brk : Z) : Z :=
  u64 (heap_start + Z.land (u64 (u64 (brk - heap_start) + 0xFFF)) (not64 0xFFF)).

Definition sys_sbrk (arg : Z) : K Z := fun k =>
  cur ← sched_current_task (k_sched k);
  t ← get_task (k_sched k) cur;
  if (t_as t =? 0) || (t_heap_end t =? 0) then Some (ERR, k)
  else
    let increment := s64 arg in
    let old_brk := t_heap_brk t in
    if increment =? 0 then Some (old_brk, k)
    else if increment <? 0 then Some (ERR, k)
    else
      let new_brk := u64 (old_brk + u64 increment) in
      if (new_brk <? old_brk) || (new_brk >? t_heap_end t) then Some (ERR, k)
      else
        let mapped_end := page_end (t_heap_start t) old_brk in
        let needed_end := page_end (t_heap_start t) new_brk in
        a ← k_as k !! t_as t;
        let '(ok, a, v) := sbrk_pages (Z.to_nat ((needed_end - mapped_end) / 4096)) mapped_end needed_end a (k_vm k) in
        let k := with_as (with_vm k v) a in
        if ok then Some (old_brk, with_sched k (upd_task cur (set_heap_brk new_brk) (k_sched k))) else Some (ERR, k).

(** ** The dispatcher *)

Definition dispatch (n : Z) (r : registers_t) : K Z :=
  if n =? SYS_EXIT then sched_op (fun s => Some (sched_kill_current s));; mret 0
  else if n =? SYS_YIELD then sched_op sched_want_reschedule;; mret 0
  else if n =? SYS_GET_TICKS then gets k_tick
  else if n =? SYS_EVENT_POLL then sys_event_poll (r_rdi r)
  else if n =? SYS_GFX_PRESENT then sys_gfx_present (r_rdi r)
  else if n =? SYS_GFX_PRESENT_RECT then sys_gfx_present_rect (r_rdi r) (r_rsi r)
  else if n =? SYS_FB_INFO then sys_fb_info
  else if n =? SYS_GET_FONT then sys_get_font (r_rdi r)
  else if n =? SYS_OPEN then sys_open (r_rdi r) (r_rsi r) (r_rdx r)
  else if n =? SYS_CLOSE then r ← fs (vfs_close (s32 (r_rdi r))); mret (u64 r)
  else if n =? SYS_READ then sys_read (r_rdi r) (r_rsi r) (r_rdx r)
  else if n =? SYS_SEEK then r ← fs (vfs_seek (s32 (r_rdi r)) (r_rsi r)); mret (u64 r)
  else if n =? SYS_FWRITE then sys_fwrite (r_rdi r) (r_rsi r) (r_rdx r)
  else if n =? SYS_STAT then sys_stat (r_rdi r) (r_rsi r) (r_rdx r)
  else if n =? SYS_FSTAT then sys_fstat (r_rdi r) (r_rsi r)
  else if n =? SYS_READDIR then sys_readdir (r_rdi r) (r_rsi r) (r_rdx r)
  else if n =? SYS_UNLINK then sys_unlink (r_rdi r) (r_rsi r)
  else if n =? SYS_SBRK then sys_sbrk (r_rdi r)
  else if n =? SYS_RENAME then sys_rename (r_rdi r) (r_rsi r) (r_rdx r) (r_r10 r)
  else if n =? SYS_GFX_FILL_RECT then sys_gfx_fill_rect (r_rdi r) (r_rsi r)
  else if n =? SYS_GFX_DRAW_TEXT then sys_gfx_draw_text (r_rdi r) (r_rsi r) (r_rdx r) (r_r10 r)
  else if n =? SYS_GFX_FLUSH_RECT then sys_gfx_flush_rect (r_rdi r)
  else if n =? SYS_WRITE then sys_write (r_rdi r) (r_rsi r)
  else mret ERR.

(** The result goes into the saved [rax]. *)
Definition syscall_dispatch (r : registers_t) : K registers_t := v ← dispatch (r_rax r) r; mret (set_rax v r).

(** [syscall_stub]: the frame at [sp] is the [registers_t] of the call; the
    context-switch hook decides the stack pointer to return on. *)
Definition load_frame (sp : Z) : K registers_t := fun k => r ← frame_restore sp (k_mem k); Some (r, k).
Definition irq_end (sp : Z) : K Z := fun k => '(rsp, s) ← sched_irq_end sp (k_sched k); Some (rsp, with_sched k s).
Definition syscall_stub (sp : Z) : K Z :=
  r ← load_frame sp;
  r ← syscall_dispatch r;
  modify (fun k => with_mem k (<[sp + 112 := r_rax r]> (k_mem k)));;
  irq_end sp.
End Syscall.
