(* ===== verification/SyscallProofs.v ===== *)
(** * System calls: the heap of a process and the safety of user pointers

    [sys_sbrk] grows the heap of the calling process by fresh zero pages that
    nobody else can see. Every other call, whatever its arguments, follows user
    pointers only where the processor would let the user go: no page fault
    inside the kernel, and no byte of memory changes that the caller could not
    have changed itself. *)

From S2P Require Import Prelude Kalloc Sched Vmm VmmProofs Ring Gfx Blk Fat32 Vfs VfsProofs Syscall.

Section Sbrk.
Context {H : Type} `{!Kalloc H}.
Implicit Types (v : vstate H) (a : vmm_as_t) (L : gmap Z Z) (T : tables).

(** Page [va] is mapped for the user to a page of zeros. *)
Definition zero_mapped (m : mem_t) T (x : Z) : Prop :=
  mapped m T x = true /\ Z.testbit (leaf m T x) 2 = true /\ forall i, 0 <= i < 512 -> entry m (frame m T x) i = 0.

(** A page of zeros that is a data page stays one. *)
Lemma zero_mapped_keeps a T a' L0 L v T' (m' : mem_t) x :
  as_inv v a L L0 T -> private (v_mem v) a T -> in_window x -> zero_mapped (v_mem v) T x ->
  keeps_data a T a' (v_mem v) m' -> (forall q, q ∈ as_owned a' -> page q) -> leaf m' T' x = leaf (v_mem v) T x ->
  zero_mapped m' T' x.
Proof.
  intros Hinv Hpv Hx (Hm & Hu & Hz) Hk Hpg E. unfold zero_mapped, mapped, frame in *. rewrite E. split_and!; [done|done|].
  intros i Hi. rewrite <- (Hz i Hi). unfold entry, word_at. f_equal. apply Hk. intros q Hq Hin.
  assert (Hd := pv_owned _ _ _ Hpv x Hx Hm). unfold frame in Hd.
  assert (Hpf : page (Z.land (leaf (v_mem v) T x) HW_ADDR_MASK)) by (destruct Hinv as [Ho _]; apply (owned_page _ _ _ _ _ Ho), Hd).
  destruct (Z.eq_dec (Z.land (leaf (v_mem v) T x) HW_ADDR_MASK) q) as [<-|Hne]; [done|]. exfalso.
  eapply (page_apart _ q); [exact Hpf|by apply Hpg|exact Hne| |exact Hin]. lia.
Qed.

Lemma sbrk_pages_spec n va a v L L0 T ok a' v' :
  as_inv v a L L0 T -> private (v_mem v) a T -> va mod 4096 = 0 -> VMM_USER_BASE <= va ->
  va + 4096 * Z.of_nat n <= VMM_USER_BASE + VMM_USER_SIZE ->
  sbrk_pages n va (va + 4096 * Z.of_nat n) a v = (ok, a', v') ->
  as_pml4_phys a' = as_pml4_phys a /\ as_addr a' = as_addr a /\
  exists L' T', as_inv v' a' L' L0 T' /\ private (v_mem v') a' T' /\ keeps_data a T a' (v_mem v) (v_mem v') /\
    (forall q, data_page a T q -> data_page a' T' q) /\
    (forall x, in_window x -> ~ va <= x < va + 4096 * Z.of_nat n -> leaf (v_mem v') T' x = leaf (v_mem v) T x) /\
    (ok = true -> forall x, va <= x < va + 4096 * Z.of_nat n -> zero_mapped (v_mem v') T' x).
Proof.
  unfold VMM_USER_BASE, VMM_USER_SIZE.
  revert va a v L T. induction n as [|n IH]; intros va a v L T Hinv Hpv Hal Hlo Hhi; cbn [sbrk_pages].
  { intros [= <- <- <-]. do 2 (split; [done|]). exists L, T. split_and!; try done. intros _ x. lia. }
  rewrite (proj2 (Z.ltb_lt _ _)) by lia.
  assert (Hsub0 : forall a1 v1 L1, as_inv v1 a1 L1 L0 T -> forall q, q ∈ as_owned a1 -> page q)
    by (intros a1 v1 L1 [Ho _] q; apply (owned_page _ _ _ _ _ Ho)).
  destruct (vmm_alloc_page a v) as [[p a1] v1] eqn:Eal. destruct (Z.eqb_spec p 0) as [->|Hp0].
  { intros [= <- <- <-]. destruct (alloc_page_keeps _ _ _ _ _ _ _ _ Hinv Hpv Eal) as (Ep & Ea & Hleaf & Hpv1 & Hk & L1 & Hinv1 & Hc).
    split; [done|]. split; [done|]. exists L1, T. do 3 (split; [done|]). split; [|split; [intros; apply Hleaf|done]].
    intros q [Hq Hnt]. destruct (vmm_alloc_page_owned _ _ _ _ _ Eal) as [l El]. split; [rewrite El; apply elem_of_app; by left|by rewrite Ep]. }
  destruct (vmm_map_page a1 va p VMM_PAGE_RW_U v1) as [[r a2] v2] eqn:Em.
  assert (Hva64 : in_u64 va) by (unfold in_u64; lia).
  destruct (grow_page_spec _ _ _ _ _ _ _ _ _ _ _ _ Hinv Hpv Hva64 Eal Hp0 Em)
    as (Ep2 & Ea2 & Pp & L2 & T2 & Hinv2 & Hpv2 & Hk2 & Hd2 & Hz & Hr).
  assert (Hown : forall q, q ∈ as_owned a -> q ∈ as_owned a2).
  { intros q Hq. destruct (vmm_alloc_page_owned _ _ _ _ _ Eal) as [l1 E1]. destruct (vmm_map_page_owned _ _ _ _ _ _ _ _ Em) as [l2 E2].
    rewrite E2, E1, !elem_of_app. by left; left. }
  destruct Hr as [(-> & Hw & _ & Hleaf)|[-> Hleaf]]; cbn [Z.eqb].
  2:{ intros [= <- <- <-]. do 2 (split; [done|]). exists L2, T2. split_and!; try done. }
  rewrite u64_id by (unfold in_u64; lia). intros Hrest.
  replace (va + 4096 * Z.of_nat (S n)) with (va + 0x1000 + 4096 * Z.of_nat n) in * by lia.
  destruct (IH (va + 0x1000) a2 v2 L2 T2 Hinv2 Hpv2 ltac:(zlia) ltac:(lia) ltac:(lia) Hrest)
    as (Ep & Ea & L' & T' & Hinv' & Hpv' & Hk & Hd & Hout & Hin).
  assert (Hown' : forall q, q ∈ as_owned a2 -> q ∈ as_owned a').
  { clear -Hrest. revert Hrest. generalize (va + 0x1000) as w, (va + 0x1000 + 4096 * Z.of_nat n) as e. intros w e. revert w a2 v2.
    induction n as [|n IH]; intros w a2 v2; cbn [sbrk_pages]; [by intros [= _ <- _]|].
    destruct (w <? e); [|by intros [= _ <- _]]. destruct (vmm_alloc_page a2 v2) as [[p1 a3] v3] eqn:E1.
    apply vmm_alloc_page_owned in E1 as [l1 E1]. destruct (p1 =? 0); [intros [= _ <- _] q Hq; rewrite E1; apply elem_of_app; by left|].
    destruct (vmm_map_page a3 w p1 VMM_PAGE_RW_U v3) as [[r1 a4] v4] eqn:E2. apply vmm_map_page_owned in E2 as [l2 E2].
    assert (H24 : forall q, q ∈ as_owned a2 -> q ∈ as_owned a4) by (intros q Hq; rewrite E2, E1, !elem_of_app; by left; left).
    destruct (r1 =? 0); [intros E q Hq; eapply IH; eauto|by intros [= _ <- _]]. }
  split; [congruence|]. split; [congruence|]. exists L', T'. split; [done|]. split; [done|].
  split; [by eapply keeps_data_trans|]. split; [auto|]. split.
  - intros x Hx Hne. rewrite Hout by (done || lia). rewrite Hleaf by done. rewrite decide_False by zlia. done.
  - intros Hok x Hx. destruct (Z_lt_le_dec x (va + 0x1000)) as [Hlt|]; [|apply Hin; [done|lia]].
    assert (Hxw : in_window x) by (unfold in_window, VMM_USER_BASE, VMM_USER_SIZE; lia).
    assert (El : leaf (v_mem v2) T2 x = pte_of p VMM_PAGE_RW_U) by (rewrite Hleaf by done; by rewrite decide_True by zlia).
    destruct (frame_pte (v_mem v2) T2 x p VMM_PAGE_RW_U Pp El) as (Hm & Hf & Hu).
    eapply (zero_mapped_keeps a2 T2 a' L0 L2 v2 T'); try done.
    + split; [done|]. split; [by rewrite Hu|]. rewrite Hf. exact Hz.
    + destruct Hinv' as [Ho' _]. intros q. apply (owned_page _ _ _ _ _ Ho').
    + apply Hout; [done|lia].
Qed.

(** Rounding the break up to whole pages. *)
Lemma page_end_eq start brk :
  0 <= start <= brk -> brk < 2 ^ 63 -> page_end start brk = start + (brk - start + 4095) / 4096 * 4096.
Proof.
  intros Hs Hb. unfold page_end. change (not64 0xFFF) with 0xFFFFFFFFFFFFF000. rewrite (u64_id (brk - start)) by word.
  rewrite (u64_id (brk - start + 0xFFF)) by word. rewrite land_page_mask by word. apply u64_id. word.
Qed.
End Sbrk.

Section Kernel.
Context {DS N H : Type} `{!Kalloc H} `{!EqDecision N} `{!Driver DS N}.
Abbreviation kern := (kern DS N H).
Abbreviation task := (task_t (file_descriptor_t N)).
Implicit Types (k : kern) (t : task) (a : vmm_as_t) (L : gmap Z Z) (T : tables).

(** ** SYS_SBRK *)

(** The calling process: its address space is well-formed, private and loaded,
    and its heap [heap_start, brk) is mapped for the user up to whole pages. *)
Record proc_ok k (cur : tid) t a L L0 T : Prop := {
  po_cur : s_cur (k_sched k) = Some cur;
  po_task : get_task (k_sched k) cur = Some t;
  po_as : k_as k !! t_as t = Some a /\ as_addr a = t_as t /\ t_as t <> 0;
  po_inv : as_inv (k_vm k) a L L0 T;
  po_private : private (k_mem k) a T;
  po_cr3 : k_cr3 k = as_pml4_phys a;
  po_heap : VMM_USER_BASE <= t_heap_start t <= t_heap_brk t /\ t_heap_brk t <= t_heap_end t <= VMM_USER_BASE + VMM_USER_SIZE;
  po_aligned : t_heap_start t mod 4096 = 0 /\ t_heap_end t mod 4096 = 0;
  po_mapped : forall x, t_heap_start t <= x < page_end (t_heap_start t) (t_heap_brk t) -> user_ok (k_mem k) (as_pml4_phys a) x;
}.

Lemma byte_at_zero m p pa :
  page p -> p <= pa < p + 4096 -> (forall i, 0 <= i < 512 -> entry m p i = 0) -> byte_at m pa = 0.
Proof.
  intros [Hm Hr] Hpa Hz. unfold byte_at, entry in *. assert (Hi : 0 <= (pa - p) / 8 < 512) by zlia.
  assert (Hp : 0 < 256 ^ (pa mod 8)) by (apply Z.pow_pos_nonneg; pose proof (Z.mod_pos_bound pa 8); lia).
  assert (E : pa / 8 * 8 = p + 8 * ((pa - p) / 8)) by (clear -Hm; zlia).
  rewrite E, (Hz _ Hi), Z.div_0_l by lia. done.
Qed.

Lemma zero_mapped_user st a L L0 T x :
  as_inv st a L L0 T -> private (v_mem st) a T -> in_window x -> zero_mapped (v_mem st) T x ->
  exists pa, hw_translate (v_mem st) (as_pml4_phys a) x = Some (pa, true) /\ byte_at (v_mem st) pa = 0.
Proof.
  intros Hinv Hpv Hx (Hm & Hu & Hz). unfold mapped, frame in *. rewrite (hw_translate_leaf _ _ _ _ _ _ Hinv Hx), Hm, Hu.
  eexists. split; [done|]. destruct (pv_owned _ _ _ Hpv x Hx Hm) as [Ho _]. unfold frame in Ho.
  refine (byte_at_zero _ _ _ _ _ Hz); [destruct Hinv as [Hi _]; by apply (owned_page _ _ _ _ _ Hi)|].
  pose proof (Z.mod_pos_bound x 4096). lia.
Qed.

(** What a call to [sys_sbrk] that has to map pages does. *)
Definition sbrk_grown k cur t a T k' (r : Z) (inc : Z) L0 : Prop :=
  exists t' a' L' T', proc_ok k' cur t' a' L' L0 T' /\ as_pml4_phys a' = as_pml4_phys a /\
    keeps_data a T a' (k_mem k) (k_mem k') /\
    (forall x, in_window x ->
       ~ page_end (t_heap_start t) (t_heap_brk t) <= x < page_end (t_heap_start t) (t_heap_brk t + inc) ->
       hw_translate (k_mem k') (as_pml4_phys a) x = hw_translate (k_mem k) (as_pml4_phys a) x) /\
    (forall c, c <> cur -> get_task (k_sched k') c = get_task (k_sched k) c) /\
    (v_drv (k_vfs k'), v_mounts (k_vfs k'), k_evq k', k_gfx k', k_out k') =
      (v_drv (k_vfs k), v_mounts (k_vfs k), k_evq k, k_gfx k, k_out k) /\
    ((r = t_heap_brk t /\ t' = set_heap_brk (t_heap_brk t + inc) t /\
      forall x, page_end (t_heap_start t) (t_heap_brk t) <= x < page_end (t_heap_start t) (t_heap_brk t + inc) ->
        exists pa, hw_translate (k_mem k') (as_pml4_phys a) x = Some (pa, true) /\ byte_at (k_mem k') pa = 0) \/
     (r = ERR /\ t' = t)).

Lemma sys_sbrk_grow k cur t a L L0 T arg :
  proc_ok k cur t a L L0 T -> 0 < s64 arg -> t_heap_brk t + s64 arg <= t_heap_end t ->
  exists r k', sys_sbrk arg k = Some (r, k') /\ sbrk_grown k cur t a T k' r (s64 arg) L0.
Proof.
  intros Hp Hinc Hend. pose proof Hp as [Hcur Htask (Has & Haa & Hnz) Hinv Hpv Hcr3 [Hh1 Hh2] [Ha1 Ha2] Hmap].
  unfold sys_sbrk, sched_current_task. rewrite Hcur. cbn [mbind option_bind]. rewrite Htask. cbn [mbind option_bind].
  rewrite (proj2 (Z.eqb_neq _ _) Hnz). unfold VMM_USER_BASE, VMM_USER_SIZE in *.
  rewrite (proj2 (Z.eqb_neq (t_heap_end t) 0)) by lia. cbn [orb].
  rewrite (proj2 (Z.eqb_neq (s64 arg) 0)), (proj2 (Z.ltb_ge (s64 arg) 0)) by lia.
  assert (Hs : s64 arg < 2 ^ 31) by lia. rewrite (u64_id (s64 arg)) by (unfold in_u64; lia).
  rewrite (u64_id (_ + _)) by (unfold in_u64; lia). set (nb := t_heap_brk t + s64 arg) in *.
  rewrite (proj2 (Z.ltb_ge nb (t_heap_brk t))), Z.gtb_ltb, (proj2 (Z.ltb_ge (t_heap_end t) nb)) by lia. cbn [orb].
  rewrite Has. cbn [mbind option_bind].
  unfold sbrk_grown. fold nb.
  rewrite (page_end_eq (t_heap_start t) (t_heap_brk t)), (page_end_eq (t_heap_start t) nb) in * by lia.
  set (me := t_heap_start t + (t_heap_brk t - t_heap_start t + 4095) / 4096 * 4096) in *.
  set (ne := t_heap_start t + (nb - t_heap_start t + 4095) / 4096 * 4096) in *.
  set (n := Z.to_nat ((ne - me) / 4096)).
  assert (Hne : ne = me + 4096 * Z.of_nat n) by (unfold n, ne, me; zlia).
  assert (Hme : me mod 4096 = 0 /\ t_heap_start t <= me) by (unfold me; zlia).
  assert (Hnt : ne <= t_heap_end t) by (unfold ne; zlia).
  destruct (sbrk_pages n me ne a (k_vm k)) as [[ok a'] v'] eqn:Esp. rewrite Hne in Esp.
  destruct (sbrk_pages_spec n me a (k_vm k) L L0 T ok a' v' Hinv Hpv) as (Ep & Ea & L' & T' & Hinv' & Hpv' & Hk & Hd & Hout & Hin);
    [lia|unfold VMM_USER_BASE; lia|unfold VMM_USER_BASE, VMM_USER_SIZE; lia|done|]. rewrite <- Hne in *.
  assert (Htr : forall x, in_window x -> ~ me <= x < ne ->
    hw_translate (v_mem v') (as_pml4_phys a) x = hw_translate (k_mem k) (as_pml4_phys a) x).
  { intros x Hx Hn. rewrite <- Ep, (hw_translate_leaf _ _ _ _ _ _ Hinv' Hx), Ep.
    change (k_mem k) with (v_mem (k_vm k)). rewrite (hw_translate_leaf _ _ _ _ _ _ Hinv Hx). by rewrite Hout. }
  assert (Hwin : forall x, t_heap_start t <= x < ne -> in_window x) by (intros x Hx; unfold in_window, VMM_USER_BASE, VMM_USER_SIZE; lia).
  assert (Hold : forall x, t_heap_start t <= x < me -> user_ok (v_mem v') (as_pml4_phys a) x).
  { intros x Hx. unfold user_ok. assert (me <= ne) by lia. rewrite Htr by (lia || apply Hwin; lia). by apply Hmap. }
  set (k1 := with_as (with_vm k v') a').
  assert (Htask1 : get_task (k_sched k1) cur = Some t) by (rewrite <- Htask; by destruct cur).
  destruct ok.
  - eexists _, _. split; [reflexivity|]. exists (set_heap_brk nb t), a', L', T'.
    assert (Hnew : forall x, me <= x < ne -> exists pa, hw_translate (v_mem v') (as_pml4_phys a) x = Some (pa, true) /\ byte_at (v_mem v') pa = 0).
    { intros x Hx. rewrite <- Ep. apply (zero_mapped_user _ _ _ _ _ _ Hinv' Hpv'); [apply Hwin; lia|by apply Hin]. }
    set (k2 := with_sched k1 _).
    assert (E2 : k_vm k2 = v' /\ k_mem k2 = v_mem v' /\ k_cr3 k2 = k_cr3 k /\ s_cur (k_sched k2) = Some cur)
      by (unfold k2; destruct v', cur; done).
    destruct E2 as (Ev2 & Em2 & Ec2 & Eu2).
    assert (Ht2 : forall c, get_task (k_sched k2) c = if decide (cur = c) then set_heap_brk nb <$> get_task (k_sched k) c else get_task (k_sched k) c).
    { intros c. change (k_sched k2) with (upd_task cur (set_heap_brk nb) (k_sched k1)). rewrite get_upd_task. by destruct c. }
    split; [|split; [done|rewrite Em2]].
    + split; rewrite ?Ev2, ?Em2, ?Ec2, ?Ep; try done.
      * by rewrite Ht2, decide_True, Htask by done.
      * cbn. rewrite Ea, <- Haa, lookup_insert_eq. split_and!; congruence.
      * cbn. unfold VMM_USER_BASE, VMM_USER_SIZE. lia.
      * cbn [set_heap_brk t_heap_start t_heap_brk]. rewrite page_end_eq by lia. fold ne. intros x Hx.
        destruct (Z_lt_le_dec x me); [apply Hold; lia|]. destruct (Hnew x) as (pa & E & _); [lia|]. by exists pa.
    + split; [exact Hk|]. split; [exact Htr|]. split; [|split; [done|left; split; [done|split; [done|exact Hnew]]]].
      intros c Hc. by rewrite Ht2, decide_False.
  - eexists _, _. split; [reflexivity|]. exists t, a', L', T'. split; [|split; [done|]].
    + split; try done.
      * cbn. rewrite Ea, <- Haa, lookup_insert_eq. split_and!; congruence.
      * by destruct v'.
      * rewrite Ep. exact Hcr3.
      * rewrite page_end_eq, Ep by lia. exact Hold.
    + split; [exact Hk|]. split; [exact Htr|]. split; [|split; [done|by right]]. intros c _. by destruct c.
Qed.

Lemma sys_sbrk_heap k cur t a L L0 T arg :
  proc_ok k cur t a L L0 T -> in_u64 arg ->
  exists r k', sys_sbrk arg k = Some (r, k') /\
    if s64 arg =? 0 then r = t_heap_brk t /\ k' = k
    else if (s64 arg <? 0) || (t_heap_brk t + s64 arg >? t_heap_end t) then r = ERR /\ k' = k
    else sbrk_grown k cur t a T k' r (s64 arg) L0.
Proof.
  intros Hp Harg. pose proof Hp as [Hcur Htask (Has & Haa & Hnz) _ _ _ [Hh1 Hh2] _ _].
  assert (Hsr : in_s64 (s64 arg)) by (revert Harg; word).
  destruct (Z.ltb_spec 0 (s64 arg)) as [Hpos|Hneg]; [destruct (Z.leb_spec (t_heap_brk t + s64 arg) (t_heap_end t)) as [Hfit|Hbig]|].
  - rewrite (proj2 (Z.eqb_neq _ _)), (proj2 (Z.ltb_ge _ _)), Z.gtb_ltb, (proj2 (Z.ltb_ge _ _)) by lia. by eapply sys_sbrk_grow.
  - rewrite (proj2 (Z.eqb_neq (s64 arg) 0)), Z.gtb_ltb, (proj2 (Z.ltb_lt (t_heap_end t) _)), orb_true_r by lia.
    unfold sys_sbrk, sched_current_task. rewrite Hcur. cbn [mbind option_bind]. rewrite Htask. cbn [mbind option_bind].
    unfold VMM_USER_BASE, VMM_USER_SIZE in *.
    rewrite (proj2 (Z.eqb_neq _ _) Hnz), (proj2 (Z.eqb_neq (t_heap_end t) 0)) by lia. cbn [orb].
    rewrite (proj2 (Z.eqb_neq (s64 arg) 0)), (proj2 (Z.ltb_ge (s64 arg) 0)) by lia.
    unfold in_s64 in Hsr. rewrite (u64_id (s64 arg)), (u64_id (_ + _)) by (unfold in_u64; lia).
    rewrite Z.gtb_ltb, (proj2 (Z.ltb_lt (t_heap_end t) _)), orb_true_r by lia. by eexists _, _.
  - unfold sys_sbrk, sched_current_task. rewrite Hcur. cbn [mbind option_bind]. rewrite Htask. cbn [mbind option_bind].
    unfold VMM_USER_BASE, VMM_USER_SIZE in *.
    rewrite (proj2 (Z.eqb_neq _ _) Hnz), (proj2 (Z.eqb_neq (t_heap_end t) 0)) by lia. cbn [orb].
    destruct (Z.eqb_spec (s64 arg) 0); [by eexists _, _|]. rewrite (proj2 (Z.ltb_lt _ _)) by lia. cbn [orb]. by eexists _, _.
Qed.

(** C7 (syscall.c, SYS_SBRK): for any calling task. A task without an address
    space, or without a heap, is refused with nothing changed. Any other caller
    is a process, whose address space is well-formed and private and whose heap
    up to the break is mapped: a query returns the break; a negative increment or
    one that would pass the end of the heap is refused with nothing changed.
    Otherwise the call returns: either the old break, with the break moved by
    the increment and every byte of the new pages translated for the user and
    reading as zero, or -1 with the break where it was when a page could not be
    had. In both cases the address space stays well-formed and private, no page
    outside the new part of the heap changes its translation, no page of data
    the process had changes a byte, and no other task, file system or device
    state changes. *)
Theorem sys_sbrk_correct k cur t a L L0 T arg :
  s_cur (k_sched k) = Some cur -> get_task (k_sched k) cur = Some t -> in_u64 arg ->
  (t_as t <> 0 -> t_heap_end t <> 0 -> proc_ok k cur t a L L0 T) ->
  exists r k', sys_sbrk arg k = Some (r, k') /\
    if (t_as t =? 0) || (t_heap_end t =? 0) then r = ERR /\ k' = k
    else if s64 arg =? 0 then r = t_heap_brk t /\ k' = k
    else if (s64 arg <? 0) || (t_heap_brk t + s64 arg >? t_heap_end t) then r = ERR /\ k' = k
    else sbrk_grown k cur t a T k' r (s64 arg) L0.
Proof.
  intros Hcur Htask Harg Hp. destruct ((t_as t =? 0) || (t_heap_end t =? 0)) eqn:E.
  - exists ERR, k. unfold sys_sbrk, sched_current_task. rewrite Hcur. cbn [mbind option_bind].
    rewrite Htask. cbn [mbind option_bind]. by rewrite E.
  - apply orb_false_iff in E as [E1%Z.eqb_neq E2%Z.eqb_neq]. apply (sys_sbrk_heap k cur t a L L0 T arg); auto.
Qed.
End Kernel.

(** ** A small system *)

(** A new address space shares no page. *)
Lemma empty_private {H} `{!Kalloc H} (st : vstate H) a L L0 T :
  as_inv st a L L0 T -> (forall x, in_window x -> hw_translate (v_mem st) (as_pml4_phys a) x = None) -> private (v_mem st) a T.
Proof.
  intros Hinv He. assert (Hn : forall x, in_window x -> mapped (v_mem st) T x = false).
  { intros x Hx. specialize (He x Hx). rewrite (hw_translate_leaf _ _ _ _ _ _ Hinv Hx) in He. unfold mapped.
    by destruct (Z.testbit _ 0). }
  split; intros x; [intros Hx Hm; by rewrite Hn in Hm|intros y Hx _ Hm; by rewrite Hn in Hm].
Qed.

Module SysDemo.
#[export] Existing Instance vdemo_kalloc.

(** A file system of one file, which is its state. *)
#[export] Instance ramfs : Driver (list Z) unit := {|
  deref d _ := Some (VNode VFS_FILE (Z.of_nat (length d)) 1 None (Some (fun off size d => Some (inr (slice d off size), d)))
                       None None None None None None);
  drv_mount _ _ _ _ := mret (inl (-1));
  drv_defrag _ _ := mret (inl (-1)) |}.

(** The arena [8 MB, 10 MB), and the address space at 0x10000. *)
Definition boot : vstate Z := Vst (paging_mark_user_region 0x800000 0xA00000 boot_tables) 0x10000.
Definition task : task_t (file_descriptor_t unit) :=
  Task 0 0 [] TASK_RUNNING PRIO_NORMAL 0 0 5 5 0x40000000 0 1 0 0x12000 (<[2%nat := Fd (Some tt) 1 1 true]> fd_table0)
    0x10000 0x40002000 0x40002000 0x7FFFA000.
Definition sys (v : vstate Z) : kern (list Z) unit Z :=
  Kern (Vfs [1; 2; 3; 4] [] (Sched [task] 1 (replicate 4 rq_empty) (task0 fd_table0) (Some (Slot 0)) false true 0x12000 0 0 (v_mem v) (v_heap v)))
    {[0x10000 := vdemo_as]} evq_bss (Gfx (Fb (replicate 48 0) 4 3 16) (Surface 4 3 (replicate 12 0)) true) 7 [].

(** The same system with the idle task, which has no address space, current. *)
Definition sys_idle (v : vstate Z) : kern (list Z) unit Z :=
  with_sched (sys v) (Sched [task] 1 (replicate 4 rq_empty) (task0 fd_table0) (Some Idle) false true 0x12000 0 0 (v_mem v) (v_heap v)).

Lemma created : exists v L T, vmm_create_address_space boot = Some (Some vdemo_as, v) /\
  as_inv v vdemo_as L ∅ T /\ private (v_mem v) vdemo_as T /\
  (forall x, in_window x -> hw_translate (v_mem v) 0x12000 x = None) /\
  entry (v_mem v) 0x12000 0 = 0x13007 /\ entry (v_mem v) 0x13000 0 = 0x3007 /\ entry (v_mem v) 0x3000 4 = 0x800087.
Proof.
  destruct (vmm_create_spec boot ∅) as (o & v & E & Hr); [exact vdemo_live|by vm_compute|].
  assert (Ho : (fun r => (r.1, entry (v_mem r.2) 0x12000 0, entry (v_mem r.2) 0x13000 0, entry (v_mem r.2) 0x3000 4)) <$>
    vmm_create_address_space boot = Some (Some vdemo_as, 0x13007, 0x3007, 0x800087)) by (vm_compute; reflexivity).
  rewrite E in Ho. injection Ho as -> E1 E2 E3. destruct Hr as (L & T & Hinv & He & _). exists v, L, T. split; [done|]. split; [done|].
  split; [by eapply empty_private|]. done.
Qed.

Lemma demo_proc v L T : as_inv v vdemo_as L ∅ T -> private (v_mem v) vdemo_as T -> proc_ok (sys v) (Slot 0) task vdemo_as L ∅ T.
Proof.
  destruct v as [m h]. intros Hinv Hpv. split; [reflexivity|reflexivity| |exact Hinv|exact Hpv|reflexivity| | |].
  - split_and!; [reflexivity..|]. cbn. lia.
  - cbn. unfold VMM_USER_BASE, VMM_USER_SIZE. lia.
  - by vm_compute.
  - intros x. replace (page_end _ _) with 0x40002000 by (by vm_compute). cbn. lia.
Qed.
End SysDemo.
Import SysDemo.

Lemma sys_sbrk_correct_witness :
  (exists v r k', vmm_create_address_space SysDemo.boot = Some (Some vdemo_as, v) /\
    sys_sbrk 5000 (SysDemo.sys v) = Some (r, k') /\ (r = 0x40002000 \/ r = ERR)) /\
  exists r k', sys_sbrk 0 (SysDemo.sys_idle SysDemo.boot) = Some (r, k') /\ r = ERR /\ k' = SysDemo.sys_idle SysDemo.boot.
Proof.
  split.
  - destruct SysDemo.created as (v & L & T & E & Hinv & Hpv & _).
    destruct (sys_sbrk_correct (SysDemo.sys v) (Slot 0) SysDemo.task vdemo_as L ∅ T 5000)
      as (r & k' & Er & Hr); [reflexivity|reflexivity|word|intros _ _; exact (SysDemo.demo_proc v L T Hinv Hpv)|].
    exists v, r, k'. split; [done|]. split; [done|].
    destruct Hr as (_ & _ & _ & _ & _ & _ & _ & _ & _ & _ & [(-> & _)|(-> & _)]); auto.
  - destruct (sys_sbrk_correct (SysDemo.sys_idle SysDemo.boot) Idle (task0 fd_table0) vdemo_as ∅ ∅ (Tables 0 None ∅) 0)
      as (r & k' & Er & Hr); [reflexivity|reflexivity|word|intros H _; by destruct H|]. by exists r, k'.
Defined.
