(* ===== verification/SyscallSafe.v ===== *)
(** * System calls: user pointers are safe

    Whatever a process passes, every call except SYS_SBRK follows user pointers
    only where the processor would let the user go: the kernel takes no page
    fault on them, no byte of memory changes that the caller could not have
    written itself, and the translation of the caller's addresses stays. *)

From S2P Require Import Prelude Kalloc Sched Vmm VmmProofs Ring Font Gfx GfxProofs Blk Fat32 Vfs VfsProofs Syscall SyscallProofs.

(** ** Bytes of memory *)

(** Replacing byte [k] of a word. *)
Lemma byte_digit W v k j :
  0 <= k -> 0 <= j -> 0 <= v < 256 ->
  (W + (v - W / 256 ^ k mod 256) * 256 ^ k) / 256 ^ j mod 256 = if j =? k then v else W / 256 ^ j mod 256.
Proof.
  intros Hk Hj Hv. set (b := W / 256 ^ k mod 256). pose proof (Z.pow_pos_nonneg 256 k ltac:(lia) Hk) as Pk.
  pose proof (Z.pow_pos_nonneg 256 j ltac:(lia) Hj) as Pj. destruct (Z.eqb_spec j k) as [->|Hne].
  - rewrite Z.div_add by lia. pose proof (Z.div_mod (W / 256 ^ k) 256 ltac:(lia)) as E. fold b in E. rewrite E.
    replace (256 * (W / 256 ^ k / 256) + b + (v - b)) with (v + W / 256 ^ k / 256 * 256) by lia.
    rewrite Z_mod_plus_full. by apply Z.mod_small.
  - destruct (Z.lt_ge_cases j k) as [Hlt|Hge].
    + assert (E : 256 ^ k = 256 ^ (k - j - 1) * 256 * 256 ^ j).
      { replace k with (k - j - 1 + 1 + j) at 1 by lia. by rewrite !Z.pow_add_r, Z.pow_1_r by lia. }
      rewrite E, !Z.mul_assoc, Z.div_add by lia. by rewrite Z_mod_plus_full.
    + assert (E : forall x, x / 256 ^ j = x / (256 ^ k * 256) / 256 ^ (j - k - 1)).
      { intros x. rewrite Z.div_div by (try apply Z.pow_nonzero; lia). f_equal. replace j with (k + 1 + (j - k - 1)) at 1 by lia.
        by rewrite !Z.pow_add_r, Z.pow_1_r by lia. }
      rewrite !E. do 2 f_equal. rewrite <- !Z.div_div by lia. rewrite Z.div_add by lia.
      pose proof (Z.div_mod (W / 256 ^ k) 256 ltac:(lia)) as Ew. fold b in Ew. rewrite Ew at 1.
      replace (256 * (W / 256 ^ k / 256) + b + (v - b)) with (v + W / 256 ^ k / 256 * 256) by lia.
      rewrite Z.div_add by lia. rewrite (Z.div_small v) by lia. done.
Qed.

Lemma word_at_set m a v a' : word_at (<[a := v]> m) a' = if decide (a = a') then v else word_at m a'.
Proof. unfold word_at. case_decide as E; [subst; by rewrite lookup_insert_eq|by rewrite lookup_insert_ne]. Qed.

Lemma byte_at_set m pa v pa' : byte_at (set_byte m pa v) pa' = if pa =? pa' then v mod 256 else byte_at m pa'.
Proof.
  unfold byte_at, set_byte. rewrite word_at_set. pose proof (Z.mod_pos_bound pa 8 ltac:(lia)). pose proof (Z.mod_pos_bound pa' 8 ltac:(lia)).
  case_decide as E.
  - rewrite <- E. unfold byte_at. rewrite byte_digit by (lia || apply Z.mod_pos_bound; lia).
    destruct (Z.eqb_spec (pa' mod 8) (pa mod 8)), (Z.eqb_spec pa pa'); (done || (exfalso; zlia)).
  - destruct (Z.eqb_spec pa pa') as [->|]; done.
Qed.

(** ** The words a translation reads *)

Definition walk_words (m : mem_t) (cr3 va : Z) : list Z :=
  let a4 := Z.land cr3 HW_ADDR_MASK + 8 * pml4_index va in
  let a3 := Z.land (word_at m a4) HW_ADDR_MASK + 8 * pdpt_index va in
  let a2 := Z.land (word_at m a3) HW_ADDR_MASK + 8 * pd_index va in
  let a1 := Z.land (word_at m a2) HW_ADDR_MASK + 8 * pt_index va in
  a4 :: a3 :: (if Z.testbit (word_at m a3) 7 then [] else a2 :: (if Z.testbit (word_at m a2) 7 then [] else [a1])).

Lemma translate_walk m m' cr3 va :
  (forall w, w ∈ walk_words m cr3 va -> m' !! w = m !! w) -> hw_translate m' cr3 va = hw_translate m cr3 va.
Proof.
  intros Hw. assert (Hm : forall w, w ∈ walk_words m cr3 va -> word_at m' w = word_at m w) by (intros w Hin; unfold word_at; by rewrite Hw).
  clear Hw. unfold walk_words in Hm. cbv zeta in Hm. unfold hw_translate, entry.
  rewrite (Hm (Z.land cr3 HW_ADDR_MASK + 8 * pml4_index va)) by set_solver.
  set (e4 := word_at m (Z.land cr3 HW_ADDR_MASK + _)) in *. rewrite (Hm (Z.land e4 HW_ADDR_MASK + 8 * pdpt_index va)) by set_solver.
  set (e3 := word_at m (Z.land e4 HW_ADDR_MASK + _)) in *. destruct (Z.testbit e3 7); [done|].
  rewrite (Hm (Z.land e3 HW_ADDR_MASK + 8 * pd_index va)) by set_solver.
  set (e2 := word_at m (Z.land e3 HW_ADDR_MASK + _)) in *. destruct (Z.testbit e2 7); [done|].
  rewrite (Hm (Z.land e2 HW_ADDR_MASK + 8 * pt_index va)) by set_solver. done.
Qed.

(** ** What the user can reach *)

Create HintDb keeps.

Section Safe.
Context {DS N H : Type} `{!Kalloc H} `{!EqDecision N} `{!Driver DS N}.
Context (user_start user_end : Z) (junk : nat -> list Z).
Abbreviation kern := (kern DS N H).
Implicit Types (k : kern) (m : mem_t).

Definition user_addr (x : Z) : Prop := user_start <= x < user_end \/ in_window x.
Definition user_pa m (cr3 pa : Z) : Prop := exists x, user_addr x /\ hw_translate m cr3 x = Some (pa, true).

(** The caller's view of memory: a well-formed and private address space is
    loaded; the shared arena is mapped to itself, is none of the pages of the
    space, and the tables that map it are out of the user's reach. *)
Record user_view k (a : vmm_as_t) (L L0 : gmap Z Z) (T : tables) : Prop := {
  uv_task : exists c t, s_cur (k_sched k) = Some c /\ get_task (k_sched k) c = Some t;
  uv_cr3 : k_cr3 k = as_pml4_phys a;
  uv_inv : as_inv (k_vm k) a L L0 T;
  uv_private : private (k_mem k) a T;
  uv_arena : 0 <= user_start <= user_end /\ user_end <= VMM_USER_BASE;
  uv_identity : forall x, user_start <= x < user_end -> hw_translate (k_mem k) (k_cr3 k) x = Some (x, true);
  uv_apart : forall x q, user_start <= x < user_end -> q ∈ as_owned a -> ~ q <= x < q + 4096;
  uv_tables : forall x w pa, user_start <= x < user_end -> w ∈ walk_words (k_mem k) (k_cr3 k) x ->
    user_pa (k_mem k) (k_cr3 k) pa -> w <> pa / 8 * 8;
}.

(** Memory that differs only in words the user can reach. *)
Definition user_words m (cr3 : Z) (m' : mem_t) : Prop :=
  forall w, (forall pa, user_pa m cr3 pa -> w <> pa / 8 * 8) -> m' !! w = m !! w.

Lemma view_translate k a L L0 T m' x :
  user_view k a L L0 T -> user_words (k_mem k) (k_cr3 k) m' -> user_addr x ->
  hw_translate m' (k_cr3 k) x = hw_translate (k_mem k) (k_cr3 k) x.
Proof.
  intros [_ Hc Hinv Hpv Har Hid Hap Htb] Hm [Hx|Hx].
  { apply translate_walk. intros w Hw. apply Hm. intros pa. by apply (Htb x). }
  pose proof Hinv as [Ho Ht]. assert (Hpg : forall q, q ∈ as_owned a -> page q) by (intros q; apply (owned_page _ _ _ _ _ Ho)).
  destruct (leaf_same_mem (k_mem k) m' (as_pml4_phys a) (as_owned a) T Ht Hpg) as [Ht' Hleaf].
  - intros y p Hp Hy. apply Hm. assert (Hpo : p ∈ as_owned a) by (by eapply table_page_owned).
    destruct (Hpg p Hpo) as [Hp0 _]. intros pa (z & Hz & Etr) ->.
    assert (Hin : p <= pa < p + 4096) by (clear -Hy Hp0; zlia). destruct Hz as [Hz|Hz].
    + rewrite Hid in Etr by done. injection Etr as <-. by apply (Hap z p).
    + rewrite Hc in Etr. change (k_mem k) with (v_mem (k_vm k)) in Etr. rewrite (hw_translate_leaf _ _ _ _ _ _ Hinv Hz) in Etr.
      destruct (Z.testbit (leaf (v_mem (k_vm k)) T z) 0) eqn:Em; [|done]. injection Etr as Epa _.
      destruct (pv_owned _ _ _ Hpv z Hz Em) as [Hf Hnt]. unfold frame in *. change (v_mem (k_vm k)) with (k_mem k) in *.
      pose proof (Z.mod_pos_bound z 4096 ltac:(lia)).
      eapply (page_apart _ p pa (Hpg _ Hf) (Hpg _ Hpo)); [by intros E; rewrite E in Hnt|lia|done].
  - assert (Hinv' : as_inv (Vst m' (v_heap (k_vm k))) a L L0 T) by (split; [destruct Ho; by split|exact Ht']).
    rewrite Hc. change (k_mem k) with (v_mem (k_vm k)). rewrite (hw_translate_leaf _ _ _ _ _ _ Hinv Hx).
    change m' with (v_mem (Vst m' (v_heap (k_vm k)))). rewrite (hw_translate_leaf _ _ _ _ _ _ Hinv' Hx). cbn [v_mem].
    by rewrite Hleaf.
Qed.

(** The range [va, va + n) is the user's. *)
Definition user_range k (va n : Z) : Prop :=
  forall x, va <= x < va + n -> user_addr x /\ exists pa, hw_translate (k_mem k) (k_cr3 k) x = Some (pa, true).

Lemma user_range_64 k va n x : 0 <= user_start <= user_end /\ user_end <= VMM_USER_BASE -> user_range k va n -> va <= x < va + n -> 0 <= x < 2147483648.
Proof. unfold VMM_USER_BASE. intros Ha Hr Hx. destruct (Hr x Hx) as [[?|?] _]; unfold in_window, VMM_USER_BASE, VMM_USER_SIZE in *; lia. Qed.

Lemma user_read_ok k va n :
  0 <= user_start <= user_end /\ user_end <= VMM_USER_BASE ->
  user_range k va (Z.of_nat n) -> exists l, user_read (k_mem k) (k_cr3 k) va n = Some l /\ length l = n.
Proof.
  intros Ha. revert va. induction n as [|n IH]; intros va Hr; cbn [user_read]; [by exists []|].
  destruct (Hr va ltac:(lia)) as (_ & pa & ->). cbn [mbind option_bind].
  destruct n as [|n]; [by eexists|].
  pose proof (user_range_64 _ _ _ va Ha Hr ltac:(lia)). rewrite u64_id by word.
  destruct (IH (va + 1)) as (l & E & Hl); [intros x Hx; apply Hr; lia|]. rewrite E. cbn [mbind option_bind].
  eexists. split; [reflexivity|]. cbn [length]. by rewrite Hl.
Qed.

(** The bytes and the words a copy to the user can have changed. *)
Definition user_changes k m' : Prop :=
  user_words (k_mem k) (k_cr3 k) m' /\ forall pa, ~ user_pa (k_mem k) (k_cr3 k) pa -> byte_at m' pa = byte_at (k_mem k) pa.

Lemma user_changes_refl k : user_changes k (k_mem k).
Proof. by split. Qed.

Lemma user_write_ok k a L L0 T va l m :
  user_view k a L L0 T -> user_range k va (Z.of_nat (length l)) -> user_changes k m ->
  exists m', user_write m (k_cr3 k) va l = Some m' /\ user_changes k m'.
Proof.
  intros Hv. pose proof (uv_arena _ _ _ _ _ Hv) as Ha. revert va m. induction l as [|b l IH]; intros va m Hr Hm; cbn [user_write]; [by exists m|].
  cbn [length] in Hr. destruct (Hr va ltac:(lia)) as (Hu & pa & Et). pose proof (user_range_64 _ _ _ va Ha Hr ltac:(lia)).
  rewrite (view_translate _ _ _ _ _ _ _ Hv (proj1 Hm) Hu), Et. cbn [mbind option_bind].
  assert (Hpa : user_pa (k_mem k) (k_cr3 k) pa) by (by exists va). rewrite u64_id by word.
  apply IH; [intros x Hx; apply Hr; lia|]. destruct Hm as [Hw Hb]. split.
  - intros w Hne. unfold set_byte. rewrite lookup_insert_ne by (intros E; exact (Hne _ Hpa (eq_sym E))). by apply Hw.
  - intros pa' Hn. rewrite byte_at_set. destruct (Z.eqb_spec pa pa') as [->|]; [done|]. by apply Hb.
Qed.

(** [is_user_range] answers, and a positive answer is a range of the user. *)
Lemma check_ok k a L L0 T ptr len :
  user_view k a L L0 T -> in_u64 ptr -> in_u64 len ->
  exists b, check user_start user_end ptr len k = Some (b, k) /\ (b = true -> user_range k ptr len /\ 0 <= len < 2147483648).
Proof.
  intros [_ Hc Hinv Hpv Har Hid _ _] Hp Hl. unfold check. rewrite Hc. unfold VMM_USER_BASE in Har.
  destruct (Z.eq_dec len 0) as [->|Hne].
  { assert (Hr : user_range k ptr 0) by (intros x Hx; lia). unfold is_user_range.
    destruct (in_range ptr 0 user_start user_end); [by exists true|].
    by destruct (in_range ptr 0 VMM_USER_BASE _); [exists true|exists false]. }
  destruct (is_user_range_ok user_start user_end ptr len _ _ _ _ _ Hinv) as (b & E & Hb); [lia|lia|done|word|].
  change (v_mem (k_vm k)) with (k_mem k) in *. rewrite E. cbn [mbind option_bind]. exists b. split; [by destruct b|]. intros ->.
  destruct Hb as [Hb _]. specialize (Hb eq_refl). unfold user_range. rewrite Hc in *.
  destruct Hb as [Hb|(H1 & H2 & H3)].
  - split; [|word]. intros x Hx. split; [left; lia|]. exists x. apply Hid. lia.
  - split; [|unfold VMM_USER_BASE, VMM_USER_SIZE in *; word]. intros x Hx.
    split; [right; unfold in_window; lia|]. by apply H3.
Qed.

(** ** The file systems do not touch memory *)

Definition keeps_memory {A} (m : M (vfs_st DS N H) A) : Prop :=
  forall s x s', m s = Some (x, s') -> s_mem (v_sched s') = s_mem (v_sched s) /\ s_cr3 (v_sched s') = s_cr3 (v_sched s).

Lemma keeps_memory_ret {A} (x : A) : keeps_memory (mret x).
Proof. by intros s y s' [= _ <-]. Qed.
Lemma keeps_memory_bind {A B} (m : M (vfs_st DS N H) A) (f : A -> M (vfs_st DS N H) B) :
  keeps_memory m -> (forall x, keeps_memory (f x)) -> keeps_memory (x ← m; f x).
Proof.
  intros Hm Hf s y s' E. apply bind_inv in E as (x & s1 & E1 & E2). destruct (Hm _ _ _ E1) as [Em Ec].
  destruct (Hf _ _ _ _ E2) as [Em2 Ec2]. split; congruence.
Qed.
Lemma keeps_memory_drv {A} (m : M DS A) : keeps_memory (drv m).
Proof. intros s x s'. unfold drv. destruct (m (v_drv s)) as [[]|]; [|done]. by intros [= _ <-]. Qed.
Lemma keeps_memory_read {A} (f : vfs_st DS N H -> option A) : keeps_memory (fun s => x ← f s; Some (x, s)).
Proof. intros s x s'. destruct (f s); [|done]. by intros [= _ <-]. Qed.
Lemma keeps_memory_gets {A} (f : vfs_st DS N H -> A) : keeps_memory (gets f).
Proof. by intros s x s' [= _ <-]. Qed.
Lemma keeps_memory_lift {A} (o : option A) : keeps_memory (lift_option o).
Proof. intros s x s'. unfold lift_option. destruct o; [|done]. by intros [= _ <-]. Qed.
Lemma keeps_memory_diverge {A} : keeps_memory (@diverge _ A).
Proof. by intros s x s'. Qed.
Lemma keeps_memory_set_fd t tbl i fd : keeps_memory (set_fd t tbl i fd).
Proof. intros s x s' [= _ <-]. by destruct t. Qed.
Lemma keeps_memory_fdt : keeps_memory fdt.
Proof. intros s x s'. unfold fdt. destruct (sched_current_task _) as [t|]; [|done]. cbn. destruct (get_task _ _); [|done]. by intros [= _ <-]. Qed.

Hint Resolve keeps_memory_ret keeps_memory_drv keeps_memory_read keeps_memory_gets keeps_memory_lift keeps_memory_diverge
  keeps_memory_set_fd keeps_memory_fdt : keeps.
Ltac keeps := repeat first [solve [auto with keeps] | apply keeps_memory_bind; [|intros ?]
  | match goal with |- keeps_memory (match ?x with _ => _ end) => destruct x end].

Lemma keeps_memory_walk n node p : keeps_memory (walk n node p).
Proof.
  revert node p. induction n as [|n IH]; intros node p; cbn [walk]; [keeps|].
  destruct (skip_slashes p); [keeps|]. destruct (take_component _ _). keeps. apply keeps_memory_read.
Qed.
Hint Resolve keeps_memory_walk : keeps.

Lemma keeps_memory_node_at n : keeps_memory (node_at n).
Proof. apply keeps_memory_read. Qed.
Lemma keeps_memory_mount_root i : keeps_memory (mount_root i).
Proof. intros s x s'. unfold mount_root. destruct (v_mounts s !! i); [|done]. by intros [= _ <-]. Qed.
Lemma keeps_memory_path_mount p : keeps_memory (path_mount p).
Proof. apply keeps_memory_gets. Qed.
Hint Resolve keeps_memory_node_at keeps_memory_mount_root keeps_memory_path_mount : keeps.
Lemma keeps_memory_split mp p max : keeps_memory (split_parent mp p max).
Proof. unfold split_parent, walk_path. keeps. Qed.
Lemma keeps_memory_resolve p : keeps_memory (resolve_path p).
Proof. unfold resolve_path, walk_path. keeps. Qed.
Lemma keeps_memory_get_fd fd : keeps_memory (get_fd fd).
Proof. unfold get_fd. keeps. Qed.
Lemma keeps_memory_advance t tbl fd f n : keeps_memory (advance t tbl fd f n).
Proof. unfold advance, when. keeps. Qed.
Hint Resolve keeps_memory_split keeps_memory_resolve keeps_memory_get_fd keeps_memory_advance : keeps.

Lemma keeps_memory_open p flags : keeps_memory (vfs_open p flags).
Proof. unfold vfs_open, walk_path. keeps. Qed.
Lemma keeps_memory_close fd : keeps_memory (vfs_close fd).
Proof. unfold vfs_close. keeps. Qed.
Lemma keeps_memory_seek fd o : keeps_memory (vfs_seek fd o).
Proof. unfold vfs_seek. keeps. Qed.
Lemma keeps_memory_vread fd n : keeps_memory (vfs_read fd n).
Proof. unfold vfs_read. keeps. Qed.
Lemma keeps_memory_write fd n l : keeps_memory (vfs_write fd n l).
Proof. unfold vfs_write. keeps. Qed.
Lemma keeps_memory_stat p : keeps_memory (vfs_stat p).
Proof. unfold vfs_stat. keeps. Qed.
Lemma keeps_memory_fstat fd : keeps_memory (vfs_fstat fd).
Proof. unfold vfs_fstat. keeps. Qed.
Lemma keeps_memory_readdir fd i : keeps_memory (vfs_readdir fd i).
Proof. unfold vfs_readdir. keeps. Qed.
Lemma keeps_memory_unlink p : keeps_memory (vfs_unlink p).
Proof. unfold vfs_unlink. keeps. Qed.
Lemma keeps_memory_rename p q : keeps_memory (vfs_rename p q).
Proof. unfold vfs_rename. keeps. Qed.
Hint Resolve keeps_memory_open keeps_memory_close keeps_memory_seek keeps_memory_vread keeps_memory_write keeps_memory_stat
  keeps_memory_fstat keeps_memory_readdir keeps_memory_unlink keeps_memory_rename : keeps.

(** ** Calls that cannot fault *)

(** The file-system calls the system calls make. *)
Inductive fs_call : forall {A}, M (vfs_st DS N H) A -> Prop :=
  | fc_open p flags : fs_call (vfs_open p flags)
  | fc_close fd : fs_call (vfs_close fd)
  | fc_read fd n : fs_call (vfs_read fd n)
  | fc_seek fd o : fs_call (vfs_seek fd o)
  | fc_write fd n l : fs_call (vfs_write fd n l)
  | fc_stat p : fs_call (vfs_stat p)
  | fc_fstat fd : fs_call (vfs_fstat fd)
  | fc_readdir fd i : fs_call (vfs_readdir fd i)
  | fc_unlink p : fs_call (vfs_unlink p)
  | fc_rename p q : fs_call (vfs_rename p q).

(** One of them does not return. *)
Definition fs_stuck k : Prop := exists A (m : M (vfs_st DS N H) A), fs_call m /\ m (k_vfs k) = None.

Lemma fs_call_keeps {A} (m : M (vfs_st DS N H) A) : fs_call m -> keeps_memory m.
Proof. destruct 1; auto with keeps. Qed.

(** [m] from [k] ends with [Q], unless the file systems got stuck. *)
Definition wp {A} k0 (m : M kern A) k (Q : A -> kern -> Prop) : Prop :=
  match m k with Some (x, k') => Q x k' | None => fs_stuck k0 end.

(** What every call but SYS_SBRK keeps. *)
Definition confined k k' : Prop := user_changes k (k_mem k') /\ k_cr3 k' = k_cr3 k.

Lemma confined_same k k' : k_mem k' = k_mem k -> k_cr3 k' = k_cr3 k -> confined k k'.
Proof. intros E ?. split; [rewrite E; apply user_changes_refl|done]. Qed.

Lemma wp_ret {A} k0 (x : A) k Q : Q x k -> wp k0 (mret x) k Q.
Proof. done. Qed.
Lemma wp_bind {A B} k0 (m : M kern A) (f : A -> M kern B) k Q :
  wp k0 m k (fun x k' => wp k0 (f x) k' Q) -> wp k0 (x ← m; f x) k Q.
Proof. unfold wp, mbind, M_bind. by destruct (m k) as [[]|]. Qed.
Lemma wp_gets {A B} k0 (g : kern -> A) (f : A -> M kern B) k Q : wp k0 (f (g k)) k Q -> wp k0 (x ← gets g; f x) k Q.
Proof. done. Qed.

Lemma wp_check {B} k0 a L L0 T ptr len (f : bool -> M kern B) k Q :
  user_view k a L L0 T -> in_u64 ptr -> in_u64 len ->
  wp k0 (f false) k Q -> (user_range k ptr len -> 0 <= len < 2147483648 -> wp k0 (f true) k Q) ->
  wp k0 (b ← check user_start user_end ptr len; f b) k Q.
Proof.
  intros Hv Hp Hl H0 H1. destruct (check_ok _ _ _ _ _ _ _ Hv Hp Hl) as (b & E & Hb). apply wp_bind. unfold wp at 1. rewrite E.
  destruct b; [destruct Hb; auto|done].
Qed.

Lemma wp_copy_in {B} k0 a L L0 T va len (f : list Z -> M kern B) k Q :
  user_view k a L L0 T -> user_range k va len -> 0 <= len ->
  (forall l, Z.of_nat (length l) = len -> wp k0 (f l) k Q) -> wp k0 (l ← copy_in va len; f l) k Q.
Proof.
  intros Hv Hr Hl Hf. destruct (user_read_ok k va (Z.to_nat len) (uv_arena _ _ _ _ _ Hv)) as (l & E & Hl'); [by rewrite Z2Nat.id|].
  apply wp_bind. unfold wp at 1, copy_in. rewrite E. apply Hf. lia.
Qed.

Lemma wp_copy_out k0 a L L0 T va l k k1 (Q : unit -> kern -> Prop) :
  user_view k a L L0 T -> k_mem k1 = k_mem k -> k_cr3 k1 = k_cr3 k -> user_range k va (Z.of_nat (length l)) ->
  (forall k', confined k k' -> Q tt k') -> wp k0 (copy_out va l) k1 Q.
Proof.
  intros Hv Em Ec Hr HQ. unfold wp, copy_out. rewrite Em, Ec.
  destruct (user_write_ok k a L L0 T va l (k_mem k) Hv Hr (user_changes_refl k)) as (m' & E & Hm'). rewrite E.
  apply HQ. split; [exact Hm'|exact Ec].
Qed.

Lemma wp_fs {A B} k0 (m : M (vfs_st DS N H) A) (f : A -> M kern B) k Q :
  fs_call m -> k_vfs k0 = k_vfs k ->
  (forall x k', k_mem k' = k_mem k -> k_cr3 k' = k_cr3 k -> (exists v', m (k_vfs k) = Some (x, v')) -> wp k0 (f x) k' Q) ->
  wp k0 (x ← fs m; f x) k Q.
Proof.
  intros Hm Ek Hf. apply wp_bind. unfold wp at 1, fs. destruct (m (k_vfs k)) as [[x v']|] eqn:E.
  - destruct (fs_call_keeps m Hm _ _ _ E) as [Em Ec]. apply Hf; [exact Em|exact Ec|by exists v'].
  - exists A, m. by rewrite Ek.
Qed.

Lemma user_range_sub k va n va' n' : user_range k va n -> va <= va' -> va' + n' <= va + n -> user_range k va' n'.
Proof. intros Hr H1 H2 x Hx. apply Hr. lia. Qed.

Lemma wp_user_string {B} k0 a L L0 T ptr len cap (f : option (list Z) -> M kern B) k Q :
  user_view k a L L0 T -> in_u64 ptr -> in_u64 len -> 0 <= cap < 2147483648 ->
  (forall o, wp k0 (f o) k Q) -> wp k0 (o ← user_string user_start user_end ptr len cap; f o) k Q.
Proof.
  intros Hv Hp Hl Hcap Hf. unfold user_string. set (n := if len >? cap then cap else len).
  assert (Hn : in_u64 n) by (unfold n; rewrite Z.gtb_ltb; destruct (Z.ltb_spec cap len); [word|done]).
  apply wp_bind. eapply wp_check; try done; cbn beta iota; [by apply wp_ret|]. intros Hr Hn'.
  eapply wp_copy_in; try done; [lia|]. intros l _. apply wp_ret, Hf.
Qed.

(** ** The calls *)

(** Every byte the code leaves unset is one byte; a driver's read returns at
    most what it was asked for. *)
Context (junk_length : forall n, length (junk n) = n).
Context (read_bounded : forall (d d' : DS) (n : N) v read off size l, deref d n = Some v -> vn_read v = Some read ->
  0 <= size < 4294967296 -> read off size d = Some (inr l, d') -> Z.of_nat (length l) <= size).

Section Calls.
Context (k : kern) (a : vmm_as_t) (L L0 : gmap Z Z) (T : tables).
Context (Hv : user_view k a L L0 T).
Abbreviation safe m := (wp k m k (fun _ k' => confined k k')).

Lemma confined_refl : confined k k.
Proof. by apply confined_same. Qed.
Hint Resolve confined_refl confined_same fc_open fc_close fc_read fc_seek fc_write fc_stat fc_fstat fc_readdir fc_unlink fc_rename : keeps.
Hint Extern 1 (wp _ (mret _) _ _) => apply wp_ret : keeps.
Ltac check := eapply wp_check; [exact Hv|done || word|done || word|by auto with keeps|intros ? ?; cbn [negb]; cbn beta iota].
Ltac fs_op := apply wp_fs; [by auto with keeps|done|intros ? ? ? ? [? ?]].

Lemma event_poll_safe out : in_u64 out -> safe (sys_event_poll user_start user_end out).
Proof.
  intros Ho. unfold sys_event_poll. check. apply wp_gets. destruct (event_poll (k_evq k)) as [[ev|] q].
  - apply wp_bind. unfold wp at 1, modify. apply wp_bind. by eapply wp_copy_out.
  - apply wp_bind. unfold wp at 1, modify. apply wp_ret. by apply confined_same.
Qed.

Lemma get_font_safe dst : in_u64 dst -> safe (sys_get_font user_start user_end dst).
Proof.
  intros Hd. unfold sys_get_font. check. apply wp_bind. by eapply wp_copy_out.
Qed.

Lemma open_safe p len flags : in_u64 p -> in_u64 len -> safe (sys_open user_start user_end p len flags).
Proof.
  intros Hp Hl. unfold sys_open. eapply wp_user_string; [exact Hv|done|done|unfold MAX_PATH; lia|]. intros [s|]; [|auto with keeps].
  fs_op. auto with keeps.
Qed.

Lemma unlink_safe p len : in_u64 p -> in_u64 len -> safe (sys_unlink user_start user_end p len).
Proof.
  intros Hp Hl. unfold sys_unlink. eapply wp_user_string; [exact Hv|done|done|unfold MAX_PATH; lia|]. intros [s|]; [|auto with keeps].
  fs_op. auto with keeps.
Qed.

Lemma vfs_read_length fd size (v v' : vfs_st DS N H) l :
  0 <= size -> vfs_read fd size v = Some (inr l, v') -> Z.of_nat (length l) <= size.
Proof.
  intros Hs E. unfold vfs_read in E. apply bind_inv in E as (o & v1 & _ & E). destruct o as [[[t tbl] f]|]; [|by injection E].
  destruct (fd_node f) as [n|]; [|by injection E]. apply bind_inv in E as (vn & v2 & En & E).
  destruct (vn_read vn) as [read|] eqn:Er; [|by injection E]. apply bind_inv in E as (r & v3 & Ed & E).
  unfold node_at in En. destruct (deref (v_drv v1) n) as [vn'|] eqn:Edr; [|done]. injection En as -> <-.
  unfold drv in Ed. destruct (read (fd_offset f) (u32 size) (v_drv v1)) as [[r' d]|] eqn:Erd; [|done]. injection Ed as -> <-.
  destruct r as [e|bs]; [by injection E|]. apply bind_inv in E as (? & ? & _ & E). injection E as -> _.
  apply (read_bounded _ _ _ _ _ _ _ _ Edr Er) in Erd; [|word]. revert Erd. word.
Qed.

Lemma read_safe fd buf size : in_u64 buf -> in_u64 size -> safe (sys_read user_start user_end fd buf size).
Proof.
  intros Hb Hs. unfold sys_read. check. fs_op. match goal with x : (_ + _)%type |- _ => destruct x as [e|l] end; [auto with keeps|].
  apply wp_bind. eapply wp_copy_out; [exact Hv|done|done| |intros; by apply wp_ret].
  eapply user_range_sub; [eassumption|lia|]. match goal with E : vfs_read _ _ _ = _ |- _ => apply vfs_read_length in E; lia end.
Qed.

Lemma fwrite_safe fd buf size : in_u64 buf -> in_u64 size -> safe (sys_fwrite user_start user_end fd buf size).
Proof. intros Hb Hs. unfold sys_fwrite. check. eapply wp_copy_in; [exact Hv|eassumption|lia|]. intros l _. fs_op. auto with keeps. Qed.

Lemma length_stat_bytes st : length (stat_bytes junk st) = 16%nat.
Proof. unfold stat_bytes. rewrite !length_app, !length_le_bytes, junk_length. done. Qed.
Lemma length_dirent_bytes de : length (dirent_bytes junk de) = 144%nat.
Proof. unfold dirent_bytes. rewrite !length_app, !length_le_bytes, length_take, !length_app. cbn [length]. rewrite !junk_length. lia. Qed.

Lemma stat_safe p len buf : in_u64 p -> in_u64 len -> in_u64 buf -> safe (sys_stat user_start user_end junk p len buf).
Proof.
  intros Hp Hl Hb. unfold sys_stat. set (n := if len >? _ then _ else len).
  assert (Hn : in_u64 n) by (unfold n, MAX_PATH; rewrite Z.gtb_ltb; destruct (Z.ltb_spec (256 - 1) len); [word|done]).
  check. check. eapply wp_copy_in; [exact Hv|eassumption|lia|]. intros l _. fs_op.
  match goal with x : option vfs_stat_t |- _ => destruct x as [st|] end; [|auto with keeps].
  apply wp_bind. eapply wp_copy_out; [exact Hv|done|done|by rewrite length_stat_bytes|intros; by apply wp_ret].
Qed.

Lemma fstat_safe fd buf : in_u64 buf -> safe (sys_fstat user_start user_end junk fd buf).
Proof.
  intros Hb. unfold sys_fstat. check. fs_op. match goal with x : option vfs_stat_t |- _ => destruct x as [st|] end; [|auto with keeps].
  apply wp_bind. eapply wp_copy_out; [exact Hv|done|done|by rewrite length_stat_bytes|intros; by apply wp_ret].
Qed.

Lemma readdir_safe fd i buf : in_u64 buf -> safe (sys_readdir user_start user_end junk fd i buf).
Proof.
  intros Hb. unfold sys_readdir. check. fs_op. match goal with x : option dirent_t |- _ => destruct x as [de|] end; [|auto with keeps].
  apply wp_bind. eapply wp_copy_out; [exact Hv|done|done|by rewrite length_dirent_bytes|intros; by apply wp_ret].
Qed.

Lemma rename_safe p n q (len : Z) : in_u64 p -> in_u64 n -> in_u64 q -> in_u64 len -> safe (sys_rename user_start user_end p n q len).
Proof.
  intros Hp Hn Hq Hm. unfold sys_rename. set (n' := if n >? _ then _ else n). set (m' := if len >? _ then _ else len).
  assert (Hn' : in_u64 n') by (unfold n', MAX_PATH; rewrite Z.gtb_ltb; destruct (Z.ltb_spec (256 - 1) n); [word|done]).
  assert (Hm' : in_u64 m') by (unfold m', MAX_PATH; rewrite Z.gtb_ltb; destruct (Z.ltb_spec (256 - 1) len); [word|done]).
  check. check. eapply wp_copy_in; [exact Hv|eassumption|lia|]. intros l _. eapply wp_copy_in; [exact Hv|eassumption|lia|]. intros l' _. fs_op. auto with keeps.
Qed.

Lemma write_safe buf len : in_u64 buf -> in_u64 len -> safe (sys_write user_start user_end buf len).
Proof.
  intros Hb Hl. unfold sys_write. set (n := if len >? _ then _ else len).
  assert (Hn : in_u64 n) by (unfold n; rewrite Z.gtb_ltb; destruct (Z.ltb_spec 256 len); [word|done]).
  check. eapply wp_copy_in; [exact Hv|eassumption|lia|]. intros l _. apply wp_bind. unfold wp at 1, modify. apply wp_ret. by apply confined_same.
Qed.

(** *** The screen *)

Context (Hscreen : screen_ok (k_gfx k)).

Lemma screen_surf scr : gfx_screen (k_gfx k) = Some scr -> scr = g_back (k_gfx k) /\ g_ready (k_gfx k) = true /\ surf_ok scr.
Proof. unfold gfx_screen. destruct (g_ready (k_gfx k)); [|done]. intros [= <-]. destruct Hscreen. done. Qed.

(** The screen with other pixels. *)
Lemma screen_ok_set px :
  length px = length (sf_px (g_back (k_gfx k))) ->
  screen_ok (set_screen (Surface (sf_w (g_back (k_gfx k))) (sf_h (g_back (k_gfx k))) px) (k_gfx k)).
Proof. intros E. destruct Hscreen as [(? & ? & El) Hp Hm]. split; [|done..]. unfold surf_ok. cbn. rewrite E. lia. Qed.

Lemma wp_gfx f g' : f (k_gfx k) = Some g' -> safe (gfx_op f;; mret 0).
Proof. intros E. apply wp_bind. unfold wp at 1, gfx_op. rewrite E. apply wp_ret. by apply confined_same. Qed.

Lemma length_pixels n l : length (pixels n l) = n.
Proof. revert l. induction n as [|n IH]; intros l; [done|]. cbn. by rewrite IH. Qed.

Lemma bytes_eq w h : 0 <= w < 2147483648 -> 0 <= h < 2147483648 ->
  u64 (u64 (u64 w * u64 h) * 4) = w * h * 4 /\ 0 <= w * h * 4.
Proof. intros Hw Hh. assert (0 <= w * h < 4611686018427387904) by nia. rewrite (u64_id w), (u64_id h), (u64_id (w * h)) by word. rewrite u64_id by word. lia. Qed.

Lemma unpack_range packed x y w h : unpack packed = (x, y, w, h) ->
  (in_s32 x /\ in_s32 y /\ in_s32 w /\ in_s32 h) /\ x + w < 2147483648 /\ y + h < 2147483648 /\ 0 <= x /\ 0 <= y /\ w <= 65535 /\ h <= 65535 /\ x <= 65535 /\ y <= 65535.
Proof. unfold unpack, in_s32, u16. intros [= <- <- <- <-]. 
  repeat match goal with |- context [?z mod 65536] => pose proof (Z.mod_pos_bound z 65536 ltac:(lia)); generalize dependent (z mod 65536); intros end. lia. Qed.

Lemma present_safe src : in_u64 src -> safe (sys_gfx_present user_start user_end src).
Proof.
  intros Hs. unfold sys_gfx_present. apply wp_gets. destruct (gfx_screen (k_gfx k)) as [scr|] eqn:E; [|auto with keeps].
  destruct (screen_surf _ E) as (-> & _ & Hw & Hh & Hl). destruct (bytes_eq _ _ Hw Hh) as [Eb Hb]. rewrite Eb. cbv zeta.
  eapply wp_check; [exact Hv|done| |apply wp_ret, confined_refl|].
  { unfold in_u64. nia. }
  intros Hr Hn. cbn [negb]. cbn beta iota. eapply wp_copy_in; [exact Hv|exact Hr|lia|]. intros l _.
  rewrite Z.div_mul by lia. destruct (store_px_ok (sf_px (g_back (k_gfx k))) 0 (pixels (Z.to_nat (sf_w (g_back (k_gfx k)) * sf_h (g_back (k_gfx k)))) l))
    as (px & Epx & Elp & _); [lia|rewrite length_pixels; lia|].
  apply wp_bind. unfold wp at 1, lift_option. rewrite Epx.
  destruct (gfx_present_rect_ok 0 0 (sf_w (g_back (k_gfx k))) (sf_h (g_back (k_gfx k))) _ (screen_ok_set px Elp)) as (g' & Eg & _);
    try (unfold in_s32; lia). by apply (wp_gfx _ g').
Qed.

Lemma flush_safe packed : safe (sys_gfx_flush_rect packed).
Proof.
  unfold sys_gfx_flush_rect. apply wp_gets. destruct (gfx_screen (k_gfx k)) as [scr|]; [|auto with keeps].
  destruct (unpack packed) as [[[x y] w] h] eqn:E. apply unpack_range in E as ((? & ? & ? & ?) & ? & ? & _).
  destruct (gfx_present_rect_ok x y w h _ Hscreen) as (g' & Eg & _); try done. by apply (wp_gfx _ g').
Qed.

Lemma fill_safe packed color : safe (sys_gfx_fill_rect packed color).
Proof.
  unfold sys_gfx_fill_rect. apply wp_gets. destruct (gfx_screen (k_gfx k)) as [scr|] eqn:Es; [|auto with keeps].
  destruct (screen_surf _ Es) as (_ & _ & Hs).
  destruct (unpack packed) as [[[x y] w] h] eqn:E. apply unpack_range in E as ((? & ? & ? & ?) & ? & ? & _).
  destruct (gfx_fill_rect_ok scr x y w h (u32 color)) as (s' & E & _); try done. eapply wp_gfx. rewrite E. reflexivity.
Qed.

Lemma text_safe xy p len c : in_u64 p -> in_u64 len -> safe (sys_gfx_draw_text user_start user_end xy p len c).
Proof.
  intros Hp Hl. unfold sys_gfx_draw_text. apply wp_gets. destruct (gfx_screen (k_gfx k)) as [scr|] eqn:Es; [|auto with keeps].
  destruct (screen_surf _ Es) as (_ & _ & Hs). eapply wp_user_string; [exact Hv|done|done|lia|]. intros [t|]; [|auto with keeps].
  destruct (draw_text_ok scr (u16 (Z.shiftr xy 16)) (u16 xy) t (u32 (Z.shiftr c 32)) (u32 c) Hs) as (s' & E & _).
  eapply wp_gfx. rewrite E. reflexivity.
Qed.


(** One side of the rectangle, cut at the edge [W]. *)
Lemma cut_side W x w : 0 <= x -> x < W -> 0 < w -> W < 2147483648 -> x + w < 2147483648 ->
  let w' := if s32 (x + w) >? W then s32 (W - x) else w in 0 < w' /\ x + w' <= W.
Proof. intros ? ? ? ? ?. cbv zeta. rewrite Z.gtb_ltb, !s32_id by (unfold in_s32; lia). destruct (Z.ltb_spec W (x + w)); lia. Qed.

Lemma row_read src W Hh x y w j :
  0 <= W < 2147483648 -> 0 <= Hh < 2147483648 -> 0 <= x -> 0 < w -> x + w <= W -> 0 <= y -> 0 <= j -> y + j < Hh ->
  user_range k src (W * Hh * 4) -> 0 <= W * Hh * 4 < 2147483648 -> in_u64 src ->
  exists l, user_read (k_mem k) (k_cr3 k) (u64 (src + u64 (pixel_index W x (s32 (y + j)) * 4))) (Z.to_nat (w * 4)) = Some l.
Proof.
  intros HW HH Hx Hw Hxw Hy Hj Hyj Hr Hn Hs. rewrite s32_id by (unfold in_s32; lia).
  assert (Hidx : 0 <= (y + j) * W + x /\ ((y + j) * W + x) * 4 + w * 4 <= W * Hh * 4) by nia.
  rewrite (pixel_index_ok (Surface W Hh (replicate (Z.to_nat (W * Hh)) 0))); [|unfold surf_ok; cbn; rewrite length_replicate; nia|cbn; lia|cbn; lia].
  cbn [sf_w]. revert Hidx. clear HW HH Hyj. revert Hr Hn. generalize ((y + j) * W + x) as i, (W * Hh * 4) as n. intros i n Hr Hn Hidx.
  pose proof (user_range_64 k src n src (uv_arena _ _ _ _ _ Hv) Hr ltac:(lia)).
  rewrite (u64_id (i * 4)), u64_id by word.
  destruct (user_read_ok k (src + i * 4) (Z.to_nat (w * 4)) (uv_arena _ _ _ _ _ Hv)) as (l & E & _); [|by exists l].
  eapply user_range_sub; [exact Hr|lia|lia].
Qed.

Lemma present_rect_safe src packed : in_u64 src -> safe (sys_gfx_present_rect user_start user_end src packed).
Proof.
  intros Hs. unfold sys_gfx_present_rect. apply wp_gets. destruct (gfx_screen (k_gfx k)) as [scr|] eqn:E; [|auto with keeps].
  destruct (screen_surf _ E) as (-> & _ & Hsurf). pose proof Hsurf as (Hw & Hh & Hl).
  destruct (unpack packed) as [[[x y] w] h] eqn:Eu. apply unpack_range in Eu as (_ & Hxw & Hyh & Hx & Hy & _).
  rewrite (proj2 (Z.ltb_ge x 0)), (proj2 (Z.ltb_ge y 0)), !Z.geb_leb by lia.
  set (W := sf_w (g_back (k_gfx k))) in *. set (Ht := sf_h (g_back (k_gfx k))) in *.
  destruct (Z.leb_spec W x), (Z.leb_spec Ht y), (Z.leb_spec w 0), (Z.leb_spec h 0); cbn [orb]; try apply wp_ret, confined_refl.
  pose proof (cut_side W x w) as Cw. pose proof (cut_side Ht y h) as Ch. cbv zeta in *.
  revert Cw Ch. generalize (if s32 (x + w) >? W then s32 (W - x) else w) as w'.
  generalize (if s32 (y + h) >? Ht then s32 (Ht - y) else h) as h'. intros h' w' Cw Ch.
  destruct Cw as [Cw1 Cw2]; [lia..|]. destruct Ch as [Ch1 Ch2]; [lia..|].
  destruct (bytes_eq _ _ Hw Hh) as [Eb Hb]. rewrite Eb.
  eapply wp_check; [exact Hv|done|unfold in_u64; nia|apply wp_ret, confined_refl|]. intros Hr Hn. cbn [negb]. cbn beta iota.
  apply wp_gets, wp_gets.
  destruct (store_rows_ok W Ht x y w' (Z.to_nat h') 0
    (fun row => l ← user_read (k_mem k) (k_cr3 k) (u64 (src + u64 (pixel_index W x (s32 (y + row)) * 4))) (Z.to_nat (w' * 4)); Some (pixels (Z.to_nat w') l))
    (fun row => pixel_index W x (s32 (y + row)))
    (fun i r => l ← user_read (k_mem k) (k_cr3 k) (u64 (src + u64 (pixel_index W x (s32 r) * 4))) (Z.to_nat (w' * 4)); pixels (Z.to_nat w') l !! Z.to_nat (i - x))
    (sf_px (g_back (k_gfx k)))) as (px & Epx & Elp & _); try lia.
  { intros j Hj. rewrite s32_id by (unfold in_s32; lia). unfold W. apply pixel_index_ok; [done|unfold W in *; lia|unfold Ht in *; lia]. }
  { intros j Hj. destruct (row_read src W Ht x y w' j) as (l & El); try done; try lia. rewrite El. cbn [mbind option_bind].
    eexists. split; [reflexivity|]. split; [rewrite length_pixels; lia|]. intros i Hi. by rewrite ?El. }
  apply wp_bind. unfold wp at 1, lift_option. rewrite Epx.
  destruct (gfx_present_rect_ok x y w' h' _ (screen_ok_set px Elp)) as (g' & Eg & _); try (unfold in_s32; lia).
  by apply (wp_gfx _ g').
Qed.


(** *** The dispatcher *)

Definition args_ok (r : registers_t) : Prop := in_u64 (r_rdi r) /\ in_u64 (r_rsi r) /\ in_u64 (r_rdx r) /\ in_u64 (r_r10 r).

Lemma exit_safe : safe (sched_op (fun s => Some (sched_kill_current s));; mret 0).
Proof.
  apply wp_bind. unfold wp at 1, sched_op. cbn [mbind option_bind]. apply wp_ret. unfold sched_kill_current.
  destruct (s_cur (k_sched k)) as [[|i]|]; by apply confined_same.
Qed.

Lemma yield_safe : safe (sched_op sched_want_reschedule;; mret 0).
Proof.
  destruct (uv_task _ _ _ _ _ Hv) as (c & t & Ec & Et).
  apply wp_bind. unfold wp at 1, sched_op, sched_want_reschedule. rewrite Ec. cbn [mbind option_bind]. rewrite Et. cbn [mbind option_bind].
  apply wp_ret. destruct (_ && _), c; by apply confined_same.
Qed.

Lemma fb_info_safe : safe sys_fb_info.
Proof. apply wp_gets, wp_ret, confined_refl. Qed.
Lemma ticks_safe : safe (gets k_tick).
Proof. apply confined_refl. Qed.
Lemma close_safe fd : safe (r ← fs (vfs_close fd); mret (u64 r)).
Proof. fs_op. auto with keeps. Qed.
Lemma seek_safe fd o : safe (r ← fs (vfs_seek fd o); mret (u64 r)).
Proof. fs_op. auto with keeps. Qed.

Hint Resolve exit_safe yield_safe fb_info_safe ticks_safe close_safe seek_safe event_poll_safe get_font_safe open_safe read_safe
  fwrite_safe stat_safe fstat_safe readdir_safe unlink_safe rename_safe write_safe present_safe present_rect_safe fill_safe text_safe
  flush_safe : keeps.

Lemma dispatch_safe n r : args_ok r -> n <> SYS_SBRK -> safe (dispatch user_start user_end junk n r).
Proof.
  intros (Hdi & Hsi & Hdx & H10) Hn. unfold dispatch.
  repeat match goal with |- wp _ (if n =? ?c then _ else _) _ _ => destruct (Z.eqb_spec n c); [by auto with keeps|] end.
  by auto with keeps.
Qed.

End Calls.
End Safe.

(** C6 (syscall.c, [syscall_dispatch]): for a process with a well-formed private
    address space and any register contents, every call other than SYS_SBRK
    either returns - unless a call into the file systems does not - and then
    has written its result to the saved [rax]; the address space register and
    the translation of every address of the process are as before; and no byte
    of memory has changed that the process could not have written itself. In
    particular no user pointer makes the kernel fault. *)
Theorem syscall_dispatch_safe {DS N H} `{!Kalloc H} `{!EqDecision N} `{!Driver DS N} (user_start user_end : Z) junk
    (k : kern DS N H) a L L0 T r :
  (forall n, length (junk n) = n) ->
  (forall (d d' : DS) (n : N) v read off size l, deref d n = Some v -> vn_read v = Some read ->
    0 <= size < 4294967296 -> read off size d = Some (inr l, d') -> Z.of_nat (length l) <= size) ->
  user_view user_start user_end k a L L0 T -> screen_ok (k_gfx k) -> args_ok r -> r_rax r <> SYS_SBRK ->
  match syscall_dispatch user_start user_end junk r k with
  | None => fs_stuck k
  | Some (r', k') =>
    (exists v, r' = set_rax v r) /\ k_cr3 k' = k_cr3 k /\
    (forall x, user_addr user_start user_end x -> hw_translate (k_mem k') (k_cr3 k') x = hw_translate (k_mem k) (k_cr3 k) x) /\
    (forall pa, ~ user_pa user_start user_end (k_mem k) (k_cr3 k) pa -> byte_at (k_mem k') pa = byte_at (k_mem k) pa)
  end.
Proof.
  intros Hj Hb Hv Hs Ha Hn. pose proof (dispatch_safe user_start user_end junk Hj Hb k a L L0 T Hv Hs _ r Ha Hn) as Hd.
  unfold syscall_dispatch, wp in *. unfold mbind, M_bind. destruct (dispatch _ _ _ _ _ k) as [[v k']|]; [|done].
  destruct Hd as [[Hw Hby] Hc]. cbn. split; [by exists v|]. split; [done|]. split; [|exact Hby].
  intros x Hx. rewrite Hc. by apply (view_translate _ _ _ _ _ _ _ _ _ Hv).
Qed.

Import SysDemo.

Lemma demo_arena x : 0x800000 <= x < 0xA00000 -> pml4_index x = 0 /\ pdpt_index x = 0 /\ pd_index x = 4.
Proof.
  intros Hx. unfold pml4_index, pdpt_index. rewrite pd_index_eq, !index_eq by lia.
  change (2 ^ 39) with 549755813888. change (2 ^ 30) with 1073741824. zlia.
Qed.

Lemma demo_view v L T :
  as_inv v vdemo_as L ∅ T -> private (v_mem v) vdemo_as T -> (forall x, in_window x -> hw_translate (v_mem v) 0x12000 x = None) ->
  entry (v_mem v) 0x12000 0 = 0x13007 -> entry (v_mem v) 0x13000 0 = 0x3007 -> entry (v_mem v) 0x3000 4 = 0x800087 ->
  user_view 0x800000 0xA00000 (sys v) vdemo_as L ∅ T.
Proof.
  intros Hinv Hpv He E4 E3 E2. change (k_mem (sys v)) with (v_mem v).
  assert (Hid : forall x, 0x800000 <= x < 0xA00000 -> hw_translate (v_mem v) 0x12000 x = Some (x, true)).
  { intros x Hx. destruct (demo_arena x Hx) as (I4 & I3 & I2). unfold hw_translate. rewrite I4.
    change (Z.land 0x12000 HW_ADDR_MASK) with 0x12000. rewrite E4, I3. change (Z.land 0x13007 HW_ADDR_MASK) with 0x13000. rewrite E3, I2.
    change (Z.land 0x3007 HW_ADDR_MASK) with 0x3000. rewrite E2. cbn -[Z.modulo]. do 2 f_equal.
    change (Z.land 8388743 4503599625273344) with 8388608. zlia. }
  split; [by eexists _, _|done|by destruct v|exact Hpv|unfold VMM_USER_BASE; lia|exact Hid| |].
  - intros x q Hx. cbn. intros Hq. apply elem_of_cons in Hq as [->|[->|[]%elem_of_nil]%elem_of_cons]; lia.
  - intros x w pa Hx Hw (y & Hy & Ey). change (k_mem (sys v)) with (v_mem v) in *. change (k_cr3 (sys v)) with 0x12000 in *.
    destruct Hy as [Hy|Hy]; [|by rewrite He in Ey]. rewrite Hid in Ey by done. injection Ey as <-.
    destruct (demo_arena x Hx) as (I4 & I3 & I2). unfold walk_words, entry in *. cbv zeta in Hw. rewrite I4 in Hw.
    change (Z.land 0x12000 HW_ADDR_MASK) with 0x12000 in Hw. rewrite E4, I3 in Hw. change (Z.land 0x13007 HW_ADDR_MASK) with 0x13000 in Hw.
    rewrite E3, I2 in Hw. change (Z.land 0x3007 HW_ADDR_MASK) with 0x3000 in Hw. rewrite E2 in Hw.
    change (Z.testbit 0x3007 7) with false in Hw. change (Z.testbit 0x800087 7) with true in Hw. cbn iota in Hw.
    apply elem_of_cons in Hw as [->|[->|[->|[]%elem_of_nil]%elem_of_cons]%elem_of_cons]; zlia.
Qed.

Lemma demo_read (d d' : list Z) (n : unit) v read off size l :
  deref d n = Some v -> vn_read v = Some read -> 0 <= size < 4294967296 -> read off size d = Some (inr l, d') -> Z.of_nat (length l) <= size.
Proof. intros [= <-] [= <-] Hs [= <- _]. unfold slice. rewrite length_take. lia. Qed.

Lemma demo_screen v : screen_ok (k_gfx (sys v)).
Proof. split; unfold surf_ok; cbn; lia. Qed.

Definition demo_call : registers_t := Regs 0 0 0 0 0 0 0 0 0 2 0x800010 0 0 0 SYS_FSTAT 0 0 0 0 0 0 0.

Lemma syscall_dispatch_safe_witness :
  exists v, vmm_create_address_space boot = Some (Some vdemo_as, v) /\
    match syscall_dispatch 0x800000 0xA00000 (fun n => replicate n 0) demo_call (sys v) with
    | None => fs_stuck (sys v)
    | Some (r', k') => byte_at (k_mem k') 0x12000 = byte_at (v_mem v) 0x12000
    end.
Proof.
  destruct created as (v & L & T & E & Hinv & Hpv & He & E4 & E3 & E2). exists v. split; [done|].
  pose proof (demo_view v L T Hinv Hpv He E4 E3 E2) as Hv.
  pose proof (syscall_dispatch_safe 0x800000 0xA00000 (fun n => replicate n 0) (sys v) vdemo_as L ∅ T demo_call
    (fun n => length_replicate n 0) demo_read Hv (demo_screen v) ltac:(by vm_compute) ltac:(done)) as Hs.
  destruct (syscall_dispatch _ _ _ _ _) as [[r' k']|]; [|exact Hs]. destruct Hs as (_ & _ & _ & Hs). apply Hs.
  intros (y & [Hy|Hy] & Ey).
  - rewrite (uv_identity _ _ _ _ _ _ _ Hv y Hy) in Ey. injection Ey. lia.
  - change (k_mem (sys v)) with (v_mem v) in Ey. change (k_cr3 (sys v)) with 0x12000 in Ey. by rewrite He in Ey.
Defined.
