(* ===== verification/Elf.v ===== *)
(** * The program loader

    Models kernel/elf.c: [elf_exec] reads a static ELF64 executable through the
    virtual file system into a new address space, builds the page of arguments
    and submits the task. The kernel writes the pages through its identity
    mapping, so a physical address is where a byte goes. *)

From S2P Require Import Prelude Kalloc Sched Vmm Ring Gfx Blk Fat32 Vfs Syscall.

Definition ELFCLASS64 : Z := 2.
Definition ELFDATA2LSB : Z := 1.
Definition ET_EXEC : Z := 2.
Definition EM_X86_64 : Z := 62.
Definition PT_LOAD : Z := 1.
Definition ELF_MAX_PHDR : Z := 8.
Definition ELF_STACK_PAGES : nat := 4.
Definition ELF_PAGE_SIZE : Z := 4096.
Definition ELF_MAX_ARGS : nat := 8.
Definition O_RDONLY : Z := 1.

(** ** Headers: the fields of [elf64_ehdr_t] (64 bytes) and of [elf64_phdr_t] (56) *)

Definition ehdr_size : Z := 64.
Definition phdr_size : Z := 56.
Definition e_type (eh : list Z) : Z := get16 eh 16.
Definition e_machine (eh : list Z) : Z := get16 eh 18.
Definition e_entry (eh : list Z) : Z := get64 eh 24.
Definition e_phoff (eh : list Z) : Z := get64 eh 32.
Definition e_phentsize (eh : list Z) : Z := get16 eh 54.
Definition e_phnum (eh : list Z) : Z := get16 eh 56.
Definition phdr_at (phdrs : list Z) (i : Z) : list Z := slice phdrs (phdr_size * i) phdr_size.
Definition p_type (ph : list Z) : Z := get32 ph 0.
Definition p_offset (ph : list Z) : Z := get64 ph 8.
Definition p_vaddr (ph : list Z) : Z := get64 ph 16.
Definition p_filesz (ph : list Z) : Z := get64 ph 32.
Definition p_memsz (ph : list Z) : Z := get64 ph 40.

Definition validate_ehdr (eh : list Z) : Z :=
  let b i := default 0 (eh !! i) in
  if negb (b 0%nat =? 0x7F) || (negb (b 1%nat =? 69) || (negb (b 2%nat =? 76) || negb (b 3%nat =? 70))) then -1
  else if negb (b 4%nat =? ELFCLASS64) || negb (b 5%nat =? ELFDATA2LSB) then -1
  else if negb (e_type eh =? ET_EXEC) || negb (e_machine eh =? EM_X86_64) then -1
  else if (e_phnum eh =? 0) || (e_phnum eh >? ELF_MAX_PHDR) then -1
  else if negb (e_phentsize eh =? phdr_size) then -1
  else 0.

(** Bytes from physical address [pa] on. *)
Fixpoint put_bytes (pa : Z) (l : list Z) (m : mem_t) : mem_t :=
  match l with [] => m | b :: l => put_bytes (pa + 1) l (set_byte m pa b) end.

(** [t->as], [t->heap_start], [t->heap_brk] and [t->heap_end] of the new task. *)
Definition set_heap {FD} (as_ start end_ : Z) (t : task_t FD) : task_t FD :=
  Task (t_rsp t) (t_id t) (t_name t) (t_state t) (t_priority t) (t_cpu_id t) (t_stack t) (t_timeslice t)
    (t_quantum t) (t_func t) (t_arg t) (t_is_user t) (t_user_stack t) (t_cr3 t) (t_fd_table t)
    as_ start start end_.

Section Elf.
Context {DS N H : Type} `{!Kalloc H} `{!EqDecision N} `{!Driver DS N}.
Context (user_task_trampoline : Z).
Abbreviation kern := (kern DS N H).
Abbreviation K := (M kern).
Implicit Types k : kern.

(** The operations of Vmm.v on the state. *)
Definition alloc_page (a : vmm_as_t) : K (Z * vmm_as_t) := fun k =>
  let '(p, a, v) := vmm_alloc_page a (k_vm k) in Some ((p, a), with_vm k v).
Definition map_page (a : vmm_as_t) (va pa : Z) : K (Z * vmm_as_t) := fun k =>
  let '(r, a, v) := vmm_map_page a va pa VMM_PAGE_RW_U (k_vm k) in Some ((r, a), with_vm k v).
Definition create_space : K (option vmm_as_t) := fun k =>
  '(o, v) ← vmm_create_address_space (k_vm k); Some (o, with_vm k v).
Definition destroy_space (a : vmm_as_t) : K unit := fun k =>
  v ← vmm_destroy_address_space a (k_vm k); Some (tt, with_vm k v).

(** [vmm_alloc_page(as)] mapped at [va]: 0, or the page. *)
Definition new_page (a : vmm_as_t) (va : Z) : K (Z * vmm_as_t) :=
  '(pa, a) ← alloc_page a;
  if pa =? 0 then mret (0, a)
  else '(r, a) ← map_page a va pa; mret (if r =? 0 then pa else 0, a).

(** [vfs_read(fd, p, n)] into physical memory: the bytes go to [p], and the
    result says whether exactly [n] came. *)
Definition read_to (fd pa n : Z) : K bool :=
  r ← fs (vfs_read fd n);
  match r with
  | inl _ => mret false
  | inr l => modify (fun k => with_mem k (put_bytes pa l (k_mem k)));; mret (Z.of_nat (length l) =? n)
  end.
(** The same into a local variable. *)
Definition read_exact (fd n : Z) : K (option (list Z)) :=
  r ← fs (vfs_read fd n);
  mret (match r with inl _ => None | inr l => if Z.of_nat (length l) =? n then Some l else None end).

(** The loop of [load_segment] from [va], over [n] pages. *)
Fixpoint segment_loop (n : nat) (fd : Z) (a : vmm_as_t) (seg_start va seg_end content_off remaining : Z) : K (Z * vmm_as_t) :=
  match n with
  | O => mret (0, a)
  | S n =>
    if va <? seg_end then
      '(pa, a) ← new_page a va;
      if pa =? 0 then mret (-1, a)
      else
        let page_off := if va =? seg_start then content_off else 0 in
        let page_room := u64 (ELF_PAGE_SIZE - page_off) in
        let to_read := if remaining <? page_room then remaining else page_room in
        ok ← (if to_read >? 0 then read_to fd (u64 (pa + page_off)) to_read else mret true);
        if ok : bool then
          segment_loop n fd a seg_start (u64 (va + ELF_PAGE_SIZE)) seg_end content_off (if to_read >? 0 then u64 (remaining - to_read) else remaining)
        else mret (-1, a)
    else mret (0, a)
  end.
Definition load_segment (fd : Z) (a : vmm_as_t) (seg_start seg_end content_off filesz : Z) : K (Z * vmm_as_t) :=
  segment_loop (Z.to_nat ((seg_end - seg_start) / ELF_PAGE_SIZE)) fd a seg_start seg_start seg_end content_off filesz.

Definition seg_start (ph : list Z) : Z := Z.land (p_vaddr ph) (not64 (ELF_PAGE_SIZE - 1)).
Definition seg_end (ph : list Z) : Z := Z.land (u64 (u64 (p_vaddr ph + p_memsz ph) + ELF_PAGE_SIZE - 1)) (not64 (ELF_PAGE_SIZE - 1)).

(** The loop over the program headers, [i] of [n] left; [None] is a failure. *)
Fixpoint load_phdrs (n : nat) (i : Z) (fd : Z) (phdrs : list Z) (a : vmm_as_t) (max_seg_end : Z) : K (option Z * vmm_as_t) :=
  match n with
  | O => mret (Some max_seg_end, a)
  | S n =>
    let ph := phdr_at phdrs i in
    if negb (p_type ph =? PT_LOAD) || (p_memsz ph =? 0) then load_phdrs n (i + 1) fd phdrs a max_seg_end
    else if (seg_start ph <? VMM_USER_BASE) || ((seg_end ph >? VMM_USER_BASE + VMM_USER_SIZE) || (p_filesz ph >? p_memsz ph)) then
      mret (None, a)
    else
      r ← fs (vfs_seek fd (p_offset ph));
      if negb (r =? 0) then mret (None, a)
      else
        '(r, a) ← load_segment fd a (seg_start ph) (seg_end ph) (u64 (p_vaddr ph - seg_start ph)) (p_filesz ph);
        if negb (r =? 0) then mret (None, a)
        else load_phdrs n (i + 1) fd phdrs a (if seg_end ph >? max_seg_end then seg_end ph else max_seg_end)
  end.

Definition stack_top : Z := VMM_USER_BASE + VMM_USER_SIZE - ELF_PAGE_SIZE.
(** The stack pages [i], [i + 1], ... below [stack_top]. *)
Fixpoint map_stack (n : nat) (i : Z) (a : vmm_as_t) : K (bool * vmm_as_t) :=
  match n with
  | O => mret (true, a)
  | S n =>
    '(pa, a) ← new_page a (stack_top - (i + 1) * ELF_PAGE_SIZE);
    if pa =? 0 then mret (false, a) else map_stack n (i + 1) a
  end.

(** ** The page of arguments *)

Definition proc_args_size : Z := 8 + 8 * Z.of_nat ELF_MAX_ARGS.
Definition argv_va : Z := stack_top - (Z.of_nat ELF_STACK_PAGES + 1) * ELF_PAGE_SIZE.
Definition str_room : Z := ELF_PAGE_SIZE - proc_args_size.

(** The loop over the arguments: the strings from [str_off] on and the slots
    from [copied] on; the number of slots filled. *)
Fixpoint copy_args (args : list (list Z)) (argv_pa str_off : Z) (copied : nat) (m : mem_t) : nat * mem_t :=
  match args with
  | [] => (copied, m)
  | s :: args =>
    let len := Z.of_nat (length s) in
    if u64 (u64 (str_off + len) + 1) >? str_room then (copied, m)
    else
      let m := put_bytes (argv_pa + proc_args_size + str_off) (s ++ [0]) m in
      let m := <[argv_pa + 8 + 8 * Z.of_nat copied := argv_va + proc_args_size + str_off]> m in
      copy_args args argv_pa (u64 (str_off + (len + 1))) (S copied) m
  end.
(** [argv[i] = 0] for [n] slots from slot [i] on. *)
Fixpoint clear_args (n : nat) (i : nat) (argv_pa : Z) (m : mem_t) : mem_t :=
  match n with O => m | S n => clear_args n (S i) argv_pa (<[argv_pa + 8 + 8 * Z.of_nat i := 0]> m) end.
(** [argv] holds the strings without their terminators. *)
Definition build_args (argc : Z) (argv : list (list Z)) (argv_pa : Z) (m : mem_t) : mem_t :=
  let argc := if argc <? 0 then 0 else argc in
  let argc := if argc >? Z.of_nat ELF_MAX_ARGS then Z.of_nat ELF_MAX_ARGS else argc in
  let '(copied, m) := copy_args (take (Z.to_nat argc) argv) argv_pa 0 0 m in
  let m := <[argv_pa := Z.of_nat copied]> m in
  clear_args (ELF_MAX_ARGS - copied) copied argv_pa m.

(** The failures after the descriptor, and after the address space, exist. *)
Definition fail_fd (fd : Z) : K (option (nat * vmm_as_t)) := fs (vfs_close fd);; mret None.
Definition fail_space (a : vmm_as_t) : K (option (nat * vmm_as_t)) := destroy_space a;; mret None.

(** What follows the closing of the file. *)
Definition start_task (name : list Z) (argc : Z) (argv : list (list Z)) (entry max_seg_end : Z) (a : vmm_as_t) : K (option (nat * vmm_as_t)) :=
  '(argv_pa, a) ← new_page a argv_va;
  if argv_pa =? 0 then fail_space a
  else
    modify (fun k => with_mem k (build_args argc argv argv_pa (k_mem k)));;
    slot ← (fun k =>
      let '(slot, s) := sched_submit_user_as fd_table0 user_task_trampoline name entry argv_va (as_pml4_phys a) stack_top (k_sched k) in
      Some (slot, with_sched k s));
    match slot with
    | None => fail_space a
    | Some slot =>
      modify (fun k => with_as (with_sched k (upd_task (Slot slot) (set_heap (as_addr a) max_seg_end argv_va) (k_sched k))) a);;
      mret (Some (slot, a))
    end.

(** [None] is -1; otherwise the slot, and the address space in [*out_as]. *)
Definition elf_exec (path name : list Z) (argc : Z) (argv : list (list Z)) : K (option (nat * vmm_as_t)) :=
  fd ← fs (vfs_open path O_RDONLY);
  if fd <? 0 then mret None
  else
    eh ← read_exact fd ehdr_size;
    match eh with
    | None => fail_fd fd
    | Some eh =>
      if negb (validate_ehdr eh =? 0) then fail_fd fd
      else
        r ← fs (vfs_seek fd (e_phoff eh));
        phdrs ← (if r =? 0 then read_exact fd (e_phnum eh * phdr_size) else mret None);
        match phdrs with
        | None => fail_fd fd
        | Some phdrs =>
          o ← create_space;
          match o with
          | None => fail_fd fd
          | Some a =>
            '(o, a) ← load_phdrs (Z.to_nat (e_phnum eh)) 0 fd phdrs a VMM_USER_BASE;
            match o with
            | None => destroy_space a;; fail_fd fd
            | Some max_seg_end =>
              if (e_entry eh <? VMM_USER_BASE) || (e_entry eh >=? VMM_USER_BASE + VMM_USER_SIZE) then destroy_space a;; fail_fd fd
              else
                '(ok, a) ← map_stack ELF_STACK_PAGES 0 a;
                if negb ok then destroy_space a;; fail_fd fd
                else fs (vfs_close fd);; start_task name argc argv (e_entry eh) max_seg_end a
            end
          end
        end
    end.
End Elf.
