(* ===== verification/ElfProofs.v ===== *)
(** * The program loader: the image it builds

    [user_byte] is what a process reads at an address of its window. The
    operations of the loader are described by their effect on it: a new page
    reads as zeros, copying into it changes the bytes copied, and nothing else
    the process sees changes. *)

From S2P Require Import Prelude Kalloc Sched SchedProofs Vmm VmmProofs Ring Gfx Blk Fat32 Fat32Proofs Vfs VfsProofs Syscall SyscallProofs SyscallSafe Elf.

Definition user_byte (m : mem_t) (cr3 x : Z) : option Z :=
  match hw_translate m cr3 x with Some (pa, true) => Some (byte_at m pa) | _ => None end.

Section Pages.
Context {H : Type} `{!Kalloc H}.
Implicit Types (v : vstate H) (a : vmm_as_t) (L : gmap Z Z) (T : tables) (m : mem_t).

Lemma user_byte_leaf v a L L0 T x :
  as_inv v a L L0 T -> in_window x ->
  user_byte (v_mem v) (as_pml4_phys a) x =
    if mapped (v_mem v) T x && Z.testbit (leaf (v_mem v) T x) 2 then Some (byte_at (v_mem v) (frame (v_mem v) T x + x mod 4096)) else None.
Proof.
  intros Hinv Hx. unfold user_byte, mapped, frame. rewrite (hw_translate_leaf _ _ _ _ _ _ Hinv Hx).
  by destruct (Z.testbit _ 0), (Z.testbit _ 2).
Qed.

Lemma byte_word m m' pa : m' !! (pa / 8 * 8) = m !! (pa / 8 * 8) -> byte_at m' pa = byte_at m pa.
Proof. intros E. unfold byte_at, word_at. by rewrite E. Qed.

Lemma page_words p pa : page p -> p <= pa < p + 4096 -> p <= pa / 8 * 8 < p + 4096.
Proof. intros [Hm _] ?. zlia. Qed.

(** Bytes of data pages outlive what [keeps_data] allows. *)
Lemma keeps_byte v a L L0 T a' m' x :
  as_inv v a L L0 T -> private (v_mem v) a T -> (forall q, q ∈ as_owned a' -> page q) -> keeps_data a T a' (v_mem v) m' ->
  in_window x -> mapped (v_mem v) T x = true ->
  byte_at m' (frame (v_mem v) T x + x mod 4096) = byte_at (v_mem v) (frame (v_mem v) T x + x mod 4096).
Proof.
  intros [Ho _] Hpv Hpg Hk Hx Hm. destruct (pv_owned _ _ _ Hpv x Hx Hm) as [Hf Hnt].
  pose proof (owned_page _ _ _ _ _ Ho Hf) as Pf. pose proof (Z.mod_pos_bound x 4096 ltac:(lia)).
  apply byte_word, Hk. intros q Hq Hin. pose proof (page_words _ (frame (v_mem v) T x + x mod 4096) Pf ltac:(lia)) as Hw.
  destruct (Z.eq_dec (frame (v_mem v) T x) q) as [<-|Hne]; [done|]. exfalso. by eapply (page_apart _ q); eauto.
Qed.

(** ** Copying into a page *)

Lemma byte_at_put pa l m q :
  byte_at (put_bytes pa l m) q = if (pa <=? q) && (q <? pa + Z.of_nat (length l)) then default 0 (l !! Z.to_nat (q - pa)) mod 256 else byte_at m q.
Proof.
  revert pa m. induction l as [|b l IH]; intros pa m; cbn [put_bytes length].
  { destruct (Z.leb_spec pa q), (Z.ltb_spec q (pa + Z.of_nat 0)); cbn [andb]; (done || lia). }
  rewrite IH, byte_at_set. destruct (Z.eqb_spec pa q) as [->|Hne].
  - rewrite (proj2 (Z.leb_gt (q + 1) q)), Z.leb_refl, (proj2 (Z.ltb_lt q (q + Z.of_nat (S (length l))))) by lia. cbn [andb]. by rewrite Z.sub_diag.
  - destruct (Z.leb_spec (pa + 1) q), (Z.leb_spec pa q); cbn [andb]; try lia.
    replace (pa + Z.of_nat (S (length l))) with (pa + 1 + Z.of_nat (length l)) by lia.
    destruct (q <? _); [|done]. replace (Z.to_nat (q - pa)) with (S (Z.to_nat (q - (pa + 1)))) by lia. done.
Qed.

Lemma put_bytes_words pa l m w :
  (forall i, 0 <= i < Z.of_nat (length l) -> w <> (pa + i) / 8 * 8) -> put_bytes pa l m !! w = m !! w.
Proof.
  revert pa m. induction l as [|b l IH]; intros pa m Hw; cbn [put_bytes length] in *; [done|].
  rewrite IH by (intros i Hi; rewrite <- Z.add_assoc; apply Hw; lia). unfold set_byte. apply lookup_insert_ne.
  specialize (Hw 0 ltac:(lia)). rewrite Z.add_0_r in Hw. congruence.
Qed.

(** Memory that differs inside one data page [p] mapped at [va] only. *)
Lemma page_write v a L L0 T va m' :
  as_inv v a L L0 T -> private (v_mem v) a T -> in_window va -> mapped (v_mem v) T va = true ->
  let p := frame (v_mem v) T va in (forall w, ~ p <= w < p + 4096 -> m' !! w = v_mem v !! w) ->
  as_inv (Vst m' (v_heap v)) a L L0 T /\ private m' a T /\ (forall x, leaf m' T x = leaf (v_mem v) T x) /\
  forall x, in_window x -> x / 4096 <> va / 4096 -> user_byte m' (as_pml4_phys a) x = user_byte (v_mem v) (as_pml4_phys a) x.
Proof.
  intros Hinv Hpv Hva Hm p Hp. pose proof Hinv as [Ho Ht]. destruct (pv_owned _ _ _ Hpv va Hva Hm) as [Hf Hnt].
  assert (Hpg : forall q, q ∈ as_owned a -> page q) by (intros q; apply (owned_page _ _ _ _ _ Ho)).
  destruct (leaf_same_mem (v_mem v) m' (as_pml4_phys a) (as_owned a) T Ht Hpg) as [Ht' Hleaf].
  { intros y q Hq Hy. apply Hp. assert (Hqo : q ∈ as_owned a) by (by eapply table_page_owned).
    intros Hin. eapply (page_apart p q y); [by apply Hpg|by apply Hpg| |exact Hin|exact Hy]. intros E. apply Hnt. by rewrite <- E in Hq. }
  assert (Hinv' : as_inv (Vst m' (v_heap v)) a L L0 T) by (split; [destruct Ho; by split|exact Ht']).
  split; [done|]. split; [|split; [done|]].
  - destruct Hpv as [Hpo Hpi]. split; unfold mapped, frame in *; intros; rewrite ?Hleaf in *; auto.
  - intros x Hx Hne. change m' with (v_mem (Vst m' (v_heap v))). rewrite (user_byte_leaf _ _ _ _ _ _ Hinv' Hx), (user_byte_leaf _ _ _ _ _ _ Hinv Hx).
    cbn [v_mem]. unfold mapped, frame. rewrite !Hleaf. fold (mapped (v_mem v) T x). fold (frame (v_mem v) T x).
    destruct (mapped (v_mem v) T x) eqn:Em; [|done]. cbn [andb]. destruct (Z.testbit _ 2); [|done]. f_equal. apply byte_word, Hp.
    destruct (pv_owned _ _ _ Hpv x Hx Em) as [Hfx _]. pose proof (Z.mod_pos_bound x 4096 ltac:(lia)).
    eapply (page_apart (frame (v_mem v) T x) p); [by apply Hpg|by apply Hpg| |apply page_words; [by apply Hpg|lia]].
    intros E. apply Hne. by apply (pv_inj _ _ _ Hpv x va).
Qed.
End Pages.

(** ** Address spaces by the image the process sees *)

Section Loader.
Context {DS N H : Type} `{!Kalloc H} `{!EqDecision N} `{!Driver DS N}.
Abbreviation kern := (kern DS N H).
Implicit Types (k : kern) (a : vmm_as_t) (L : gmap Z Z) (T : tables) (m : mem_t).

(** A well-formed private space in which the process sees [img]; [L0] are the
    other live allocations. *)
Definition space k a L0 (img : Z -> option Z) : Prop :=
  exists L T, as_inv (k_vm k) a L L0 T /\ private (k_mem k) a T /\
    forall x, in_window x -> user_byte (k_mem k) (as_pml4_phys a) x = img x.

Lemma space_ext k a L0 img img' : space k a L0 img -> (forall x, in_window x -> img x = img' x) -> space k a L0 img'.
Proof. intros (L & T & Hi & Hp & Him) E. exists L, T. split; [done|]. split; [done|]. intros x Hx. rewrite Him by done. auto. Qed.

Lemma space_same_vm k k' a L0 img : space k a L0 img -> k_vm k' = k_vm k -> space k' a L0 img.
Proof.
  intros (L & T & Hi & Hp & Him) E. exists L, T. change (k_mem k) with (v_mem (k_vm k)) in *. change (k_mem k') with (v_mem (k_vm k')).
  by rewrite E.
Qed.
Lemma with_vm_id k : with_vm k (k_vm k) = k.
Proof. by destruct k as [[d ms []] ? ? ? ? ?]. Qed.
Lemma with_vm_vm k v : k_vm (with_vm k v) = v.
Proof. by destruct v. Qed.
Lemma with_vm_twice k v v' : with_vm (with_vm k v) v' = with_vm k v'.
Proof. done. Qed.

Lemma new_page_spec k a L0 img va p a' k' :
  space k a L0 img -> in_u64 va -> new_page a va k = Some ((p, a'), k') ->
  (exists v, k' = with_vm k v) /\ as_pml4_phys a' = as_pml4_phys a /\ as_addr a' = as_addr a /\
  ((p = 0 /\ space k' a' L0 img) \/
   (page p /\ in_window va /\ va mod 4096 = 0 /\ hw_translate (k_mem k') (as_pml4_phys a') va = Some (p, true) /\
    space k' a' L0 (fun x => if decide (x / 4096 = va / 4096) then Some 0 else img x))).
Proof.
  intros (L & T & Hinv & Hpv & Himg) Hva E. unfold new_page, alloc_page, map_page, mbind, M_bind in E.
  destruct (vmm_alloc_page a (k_vm k)) as [[p0 a1] v1] eqn:Eal.
  assert (Himg' : forall a2 v2 L2 T2, as_inv v2 a2 L2 L0 T2 -> as_pml4_phys a2 = as_pml4_phys a -> keeps_data a T a2 (k_mem k) (v_mem v2) ->
    forall x, in_window x -> leaf (v_mem v2) T2 x = leaf (k_mem k) T x -> user_byte (v_mem v2) (as_pml4_phys a2) x = img x).
  { intros a2 v2 L2 T2 Hinv2 Ep Hk x Hx El. rewrite <- (Himg x Hx). change (k_mem k) with (v_mem (k_vm k)) in *.
    rewrite (user_byte_leaf _ _ _ _ _ _ Hinv2 Hx), (user_byte_leaf _ _ _ _ _ _ Hinv Hx). unfold mapped. rewrite El.
    destruct (Z.testbit (leaf (v_mem (k_vm k)) T x) 0) eqn:Em; [|done]. cbn [andb]. destruct (Z.testbit _ 2); [|done]. f_equal.
    unfold frame at 1. rewrite El. apply (keeps_byte _ _ _ _ _ a2 _ _ Hinv Hpv); try done.
    destruct Hinv2 as [Ho2 _]. intros q. apply (owned_page _ _ _ _ _ Ho2). }
  destruct (Z.eqb_spec p0 0) as [->|Hp0].
  { injection E as <- <- <-. destruct (alloc_page_keeps _ _ _ _ _ _ _ _ Hinv Hpv Eal) as (Ep & Ea & Hleaf & Hpv1 & Hk & L1 & Hinv1 & _).
    split; [by exists v1|]. split; [done|]. split; [done|]. left. split; [done|]. exists L1, T. rewrite with_vm_vm.
    split; [done|]. split; [done|]. intros x Hx. by apply (Himg' _ _ _ _ Hinv1 Ep Hk). }
  rewrite with_vm_vm in E. destruct (vmm_map_page a1 va p0 VMM_PAGE_RW_U v1) as [[r a2] v2] eqn:Em. injection E as <- <- <-.
  destruct (grow_page_spec _ _ _ _ _ _ _ _ _ _ _ _ Hinv Hpv Hva Eal Hp0 Em)
    as (Ep & Ea & Pp & L2 & T2 & Hinv2 & Hpv2 & Hk & _ & Hz & Hr).
  rewrite with_vm_twice. split; [by exists v2|]. split; [done|]. split; [done|].
  destruct Hr as [(-> & Hw & Hal & Hleaf)|[-> Hleaf]]; cbn [Z.eqb].
  - right. split; [done|]. split; [done|]. split; [done|].
    destruct (frame_pte (v_mem v2) T2 va p0 VMM_PAGE_RW_U Pp) as (Fm & Ff & Fu); [rewrite Hleaf by done; by rewrite decide_True|].
    change (k_mem (with_vm k v2)) with (v_mem v2). split.
    + rewrite (hw_translate_leaf _ _ _ _ _ _ Hinv2 Hw). unfold mapped, frame in Fm, Ff. rewrite Fm, Fu, Ff, Hal, Z.add_0_r. done.
    + exists L2, T2. rewrite with_vm_vm. split; [done|]. split; [done|]. intros x Hx. change (k_mem (with_vm k v2)) with (v_mem v2).
      case_decide as Hd; [|apply (Himg' _ _ _ _ Hinv2 Ep Hk); [done|]; rewrite Hleaf by done; by rewrite decide_False].
      assert (El : leaf (v_mem v2) T2 x = pte_of p0 VMM_PAGE_RW_U) by (rewrite Hleaf by done; by rewrite decide_True).
      destruct (frame_pte (v_mem v2) T2 x p0 VMM_PAGE_RW_U Pp El) as (Gm & Gf & Gu).
      rewrite (user_byte_leaf _ _ _ _ _ _ Hinv2 Hx), Gm, Gu, Gf. cbn [andb]. f_equal.
      apply (byte_at_zero _ p0); [done|pose proof (Z.mod_pos_bound x 4096 ltac:(lia)); lia|done].
  - left. split; [done|]. exists L2, T2. rewrite with_vm_vm. split; [done|]. split; [done|]. intros x Hx.
    by apply (Himg' _ _ _ _ Hinv2 Ep Hk).
Qed.

Lemma with_mem_vm k m : with_mem k m = with_vm k (Vst m (v_heap (k_vm k))).
Proof. done. Qed.

(** Memory changed inside the page mapped at [va]: [new] is what the page
    holds now. *)
Lemma write_page k a L0 img va p m' :
  space k a L0 img -> in_window va -> va mod 4096 = 0 -> hw_translate (k_mem k) (as_pml4_phys a) va = Some (p, true) ->
  page p /\ ((forall w, ~ p <= w < p + 4096 -> m' !! w = k_mem k !! w) ->
  space (with_mem k m') a L0 (fun x => if decide (x / 4096 = va / 4096) then Some (byte_at m' (p + (x - va))) else img x) /\
  hw_translate m' (as_pml4_phys a) va = Some (p, true)).
Proof.
  intros (L & T & Hinv & Hpv & Himg) Hva Hal Htr. change (k_mem k) with (v_mem (k_vm k)) in *.
  rewrite (hw_translate_leaf _ _ _ _ _ _ Hinv Hva) in Htr. destruct (Z.testbit (leaf (v_mem (k_vm k)) T va) 0) eqn:Em; [|done].
  destruct (Z.testbit (leaf (v_mem (k_vm k)) T va) 2) eqn:Eu; [|done]. injection Htr as Ep. rewrite Hal, Z.add_0_r in Ep. assert (Ef : frame (v_mem (k_vm k)) T va = p) by exact Ep. clear Ep.
  assert (Pp : page p).
  { destruct (pv_owned _ _ _ Hpv va Hva Em) as [Hf _]. change (k_mem k) with (v_mem (k_vm k)) in Hf. rewrite <- Ef. destruct Hinv as [Ho _]. by apply (owned_page _ _ _ _ _ Ho). }
  split; [done|]. intros Hm. destruct (page_write _ _ _ _ _ va m' Hinv Hpv Hva Em) as (Hinv' & Hpv' & Hleaf & Hother); [by rewrite Ef|].
  assert (Htr' : forall x, in_window x -> x / 4096 = va / 4096 -> hw_translate m' (as_pml4_phys a) x = Some (p + (x - va), true)).
  { intros x Hx Exa. change m' with (v_mem (Vst m' (v_heap (k_vm k)))). rewrite (hw_translate_leaf _ _ _ _ _ _ Hinv' Hx). cbn [v_mem].
    assert (El : leaf m' T x = leaf (v_mem (k_vm k)) T va) by (rewrite Hleaf; unfold leaf; by destruct (index_page _ _ Exa) as [-> ->]).
    rewrite El, Em, Eu. change (Z.land (leaf (v_mem (k_vm k)) T va) HW_ADDR_MASK) with (frame (v_mem (k_vm k)) T va). rewrite Ef. do 2 f_equal. zlia. }
  split.
  - exists L, T. rewrite with_mem_vm, with_vm_vm. split; [done|]. split; [done|].
    intros x Hx. change (k_mem (with_vm k _)) with m'. case_decide as Hd; [unfold user_byte; by rewrite Htr'|]. by rewrite Hother, Himg.
  - rewrite Htr' by done. by rewrite Z.sub_diag, Z.add_0_r.
Qed.

Lemma put_page k a L0 img va p off l :
  space k a L0 img -> in_window va -> va mod 4096 = 0 -> hw_translate (k_mem k) (as_pml4_phys a) va = Some (p, true) ->
  0 <= off -> off + Z.of_nat (length l) <= 4096 ->
  space (with_mem k (put_bytes (p + off) l (k_mem k))) a L0
    (fun x => if (va + off <=? x) && (x <? va + off + Z.of_nat (length l)) then Some (default 0 (l !! Z.to_nat (x - (va + off))) mod 256) else img x).
Proof.
  intros Hs Hva Hal Htr Ho Hl. destruct (write_page _ _ _ _ _ _ (put_bytes (p + off) l (k_mem k)) Hs Hva Hal Htr) as [Pp Hw].
  destruct Hw as [Hs' _].
  { intros w Hw. apply put_bytes_words. intros i Hi ->. apply Hw. apply (page_words p); [done|lia]. }
  eapply space_ext; [exact Hs'|]. intros x Hx. cbv beta. rewrite byte_at_put.
  destruct (decide (x / 4096 = va / 4096)) as [E|Hne].
  - replace ((p + off <=? p + (x - va)) && (p + (x - va) <? p + off + Z.of_nat (length l)))
      with ((va + off <=? x) && (x <? va + off + Z.of_nat (length l))).
    2:{ destruct (Z.leb_spec (va + off) x), (Z.leb_spec (p + off) (p + (x - va))), (Z.ltb_spec x (va + off + Z.of_nat (length l))),
          (Z.ltb_spec (p + (x - va)) (p + off + Z.of_nat (length l))); (done || lia). }
    destruct (_ && _) eqn:Eb; [do 3 f_equal; f_equal; lia|]. destruct Hs as (L & T & Hinv & Hpv & Himg). rewrite <- Himg by done.
    unfold user_byte. change (k_mem k) with (v_mem (k_vm k)) in *.
    assert (Htx : hw_translate (v_mem (k_vm k)) (as_pml4_phys a) x = Some (p + (x - va), true)); [|by rewrite Htx].
    rewrite (hw_translate_leaf _ _ _ _ _ _ Hinv Hx). rewrite (hw_translate_leaf _ _ _ _ _ _ Hinv Hva) in Htr. revert Htr.
    assert (El : leaf (v_mem (k_vm k)) T x = leaf (v_mem (k_vm k)) T va) by (unfold leaf; by destruct (index_page _ _ E) as [-> ->]).
    rewrite El. destruct (Z.testbit _ 0); [|done]. destruct (Z.testbit _ 2); [|done]. intros [= Ep]. rewrite Hal in Ep.
    assert (x mod 4096 = x - va) by (clear -E Hal; zlia). do 2 f_equal. change (k_mem k) with (v_mem (k_vm k)) in Ep. lia.
  - rewrite (proj2 (andb_false_iff _ _)); [done|]. destruct (Z.leb_spec (va + off) x); [|by left]. right. apply Z.ltb_ge. zlia.
Qed.

(** ** Loading from a file *)

Context (inv : DS -> Prop) (n : N) (data : list Z).
Context (Hlaw : file_law inv n data) (Hdata : Z.of_nat (length data) < 2147483648) (Hbytes : bytes data).

(** Descriptor [fd] of the calling task is the file at offset [off]; the task
    pool is in shape. *)
Definition file_at k (fd off : Z) : Prop :=
  exists t tbl f, calling (k_vfs k) t /\ table_of (k_vfs k) t = Some tbl /\ 0 <= fd < MAX_FD /\ tbl !! Z.to_nat fd = Some f /\
    fd_active f = true /\ fd_node f = Some n /\ fd_offset f = off /\ inv (v_drv (k_vfs k)).
Definition pool_ok k : Prop := length (s_pool (k_sched k)) = 32%nat /\ 0 <= s_count (k_sched k) <= 32.
Definition ready k fd off : Prop := file_at k fd off /\ pool_ok k.

Lemma ready_vm k v fd off : ready k fd off -> ready (with_vm k v) fd off.
Proof.
  intros [(t & tbl & f & Hc & Ht & Hr) Hp]. split; [|exact Hp]. exists t, tbl, f. split; [exact Hc|]. split; [|exact Hr].
  unfold table_of in *. rewrite <- Ht. by destruct t.
Qed.

(** What a file operation leaves: another state of the drivers and another
    descriptor table. *)
Lemma with_table_rest k t tbl d :
  let k' := Kern (with_table t tbl d (k_vfs k)) (k_as k) (k_evq k) (k_gfx k) (k_tick k) (k_out k) in
  k_vm k' = k_vm k /\ (pool_ok k -> pool_ok k') /\ s_cur (k_sched k') = s_cur (k_sched k) /\ k_as k' = k_as k.
Proof.
  cbv zeta. unfold k_vm, k_mem, k_sched, with_table, pool_ok. cbn. destruct t; cbn; [done|]. by rewrite length_alter.
Qed.

Lemma ready_with_table k t tbl fd off f (d : DS) :
  ready k fd off -> calling (k_vfs k) t -> table_of (k_vfs k) t = Some tbl -> fd_active f = true -> fd_node f = Some n ->
  (Z.to_nat fd < length tbl)%nat -> 0 <= fd < MAX_FD -> inv d ->
  ready (Kern (with_table t (<[Z.to_nat fd := f]> tbl) d (k_vfs k)) (k_as k) (k_evq k) (k_gfx k) (k_tick k) (k_out k)) fd (fd_offset f).
Proof.
  intros [_ Hp] Hc Ht Ha Hn Hl Hfd Hd. destruct (with_table_rest k t (<[Z.to_nat fd := f]> tbl) d) as (_ & Hp' & _). split; [|by apply Hp'].
  exists t, (<[Z.to_nat fd := f]> tbl), f. cbn [k_vfs]. split; [by apply calling_with|]. split; [by rewrite table_of_with, decide_True, Ht|].
  split; [done|]. split; [apply list_lookup_insert_eq; lia|]. done.
Qed.

Lemma fs_read k fd off size :
  ready k fd off -> in_u64 off -> in_u32 size ->
  exists k', fs (vfs_read fd size) k = Some (inr (slice data off size), k') /\ k_vm k' = k_vm k /\
    ready k' fd (off + Z.of_nat (length (slice data off size))).
Proof.
  intros Hr [Ho Hb] Hs. pose proof Hr as [(t & tbl & f & Hc & Ht & Hfd & Hf & Ha & Hn & Eo & Hi) Hp]. subst off.
  destruct (vfs_read_ok inv n data fd size (k_vfs k) t tbl f Hlaw Hi Hdata Hc Ht Hfd Hf Ha Hn Ho Hs Hb) as (d' & Hd' & E).
  cbv zeta in E. eexists. unfold fs. rewrite E. split; [reflexivity|]. split; [apply with_table_rest|].
  apply (ready_with_table k t tbl fd _ (Fd (Some n) _ _ true) d' Hr); try done. apply lookup_lt_Some in Hf. lia.
Qed.

Lemma fs_seek k fd off off' :
  ready k fd off -> exists k', fs (vfs_seek fd off') k = Some (0, k') /\ k_vm k' = k_vm k /\ ready k' fd off'.
Proof.
  intros Hr. pose proof Hr as [(t & tbl & f & Hc & Ht & Hfd & Hf & Ha & Hn & Eo & Hi) Hp].
  eexists. unfold fs, vfs_seek. rewrite (bind_eq _ _ _ _ _ (get_fd_eq (k_vfs k) t tbl fd f Hc Ht Hfd Hf Ha)). split; [reflexivity|].
  split; [apply (with_table_rest k t (<[Z.to_nat fd := _]> tbl) (v_drv (k_vfs k)))|].
  apply (ready_with_table k t tbl fd off (Fd (fd_node f) off' (fd_flags f) true) (v_drv (k_vfs k)) Hr); try done. apply lookup_lt_Some in Hf. lia.
Qed.

Lemma fs_close k fd off :
  ready k fd off -> exists k', fs (vfs_close fd) k = Some (0, k') /\ k_vm k' = k_vm k /\ pool_ok k' /\ s_cur (k_sched k') = s_cur (k_sched k) /\ k_as k' = k_as k.
Proof.
  intros [(t & tbl & f & Hc & Ht & Hfd & Hf & Ha & Hn & Eo & Hi) Hp].
  eexists. unfold fs, vfs_close. rewrite (bind_eq _ _ _ _ _ (get_fd_eq (k_vfs k) t tbl fd f Hc Ht Hfd Hf Ha)). split; [reflexivity|].
  destruct (with_table_rest k t (<[Z.to_nat fd := Fd None (fd_offset f) (fd_flags f) false]> tbl) (v_drv (k_vfs k))) as (H1 & H2 & H3 & H4).
  split; [exact H1|]. split; [by apply H2|]. done.
Qed.

(** Byte [i] of the file. *)
Definition file_byte (i : Z) : Z := default 0 (data !! Z.to_nat i).

Lemma file_byte_slice off size i :
  0 <= off -> 0 <= i < Z.of_nat (length (slice data off size)) -> default 0 (slice data off size !! Z.to_nat i) mod 256 = file_byte (off + i).
Proof.
  intros Ho Hi. unfold slice, file_byte in *. rewrite length_take, length_drop in Hi. rewrite lookup_take_lt by lia. rewrite lookup_drop.
  replace (Z.to_nat off + Z.to_nat i)%nat with (Z.to_nat (off + i)) by lia.
  destruct (data !! Z.to_nat (off + i)) as [b|] eqn:E; [|done]. cbn. unfold bytes in Hbytes. rewrite Forall_forall in Hbytes.
  apply Z.mod_small, Hbytes. by eapply list_elem_of_lookup_2.
Qed.

(** Reading into the page mapped at [va]: all of it, or a failure that leaves
    the space in shape. *)
Lemma read_to_spec k a L0 img va p fd off po size :
  space k a L0 img -> in_window va -> va mod 4096 = 0 -> hw_translate (k_mem k) (as_pml4_phys a) va = Some (p, true) ->
  ready k fd off -> in_u64 off -> 0 <= po -> 0 <= size -> po + size <= 4096 ->
  exists ok k' img', read_to fd (p + po) size k = Some (ok, k') /\ space k' a L0 img' /\
    (exists off', ready k' fd off' /\ (ok = true -> off' = off + size /\ in_u64 off')) /\
    (ok = true -> forall x, in_window x -> img' x = if (va + po <=? x) && (x <? va + po + size) then Some (file_byte (off + (x - (va + po)))) else img x).
Proof.
  intros Hs Hva Hal Htr Hr Hoff Hpo Hsz Hps. pose proof Hoff as [Ho Ho2]. unfold read_to.
  destruct (fs_read k fd off size Hr Hoff ltac:(word)) as (k1 & E & Ev & Hr1). rewrite (bind_eq _ _ _ _ _ E).
  set (l := slice data off size) in *. pose proof (length_slice_min data off size Ho Hsz) as Hl. fold l in Hl.
  assert (Hs1 : space k1 a L0 img) by (by apply (space_same_vm k)).
  assert (Htr1 : hw_translate (k_mem k1) (as_pml4_phys a) va = Some (p, true)) by (change (k_mem k1) with (v_mem (k_vm k1)); by rewrite Ev).
  pose proof (put_page k1 a L0 img va p po l Hs1 Hva Hal Htr1 Hpo ltac:(lia)) as Hs2.
  eexists _, _, _. split; [reflexivity|]. split; [exact Hs2|]. split.
  - eexists. split; [rewrite with_mem_vm; apply ready_vm; exact Hr1|]. fold l. unfold in_u64. intros Hok%Z.eqb_eq. lia.
  - intros Hok%Z.eqb_eq x Hx. cbv beta. rewrite Hok. destruct (_ && _) eqn:Eb; [|done]. f_equal.
    apply andb_true_iff in Eb as [H1%Z.leb_le H2%Z.ltb_lt]. apply file_byte_slice; [done|fold l; lia].
Qed.

(** What the loop puts at [x] from page [va] on, with [po] bytes skipped in
    that page, [remaining] bytes left and the file at [off]. *)
Definition seg_byte (va po remaining off x : Z) : Z :=
  if (va + po <=? x) && (x <? va + po + remaining) then file_byte (off + (x - (va + po))) else 0.

Lemma seg_byte_next va po remaining off x :
  0 <= po < 4096 -> 0 <= remaining -> va + 4096 <= x ->
  let to_read := if remaining <? 4096 - po then remaining else 4096 - po in
  seg_byte (va + 4096) 0 (remaining - to_read) (off + to_read) x = seg_byte va po remaining off x.
Proof.
  intros Hpo Hr Hx. cbv zeta. unfold seg_byte. destruct (Z.ltb_spec remaining (4096 - po)).
  - rewrite (proj2 (andb_false_iff _ (x <? va + po + remaining))) by (right; apply Z.ltb_ge; lia).
    rewrite (proj2 (andb_false_iff _ _)); [done|]. right. apply Z.ltb_ge. lia.
  - rewrite (proj2 (Z.leb_le (va + 4096 + 0) x)), (proj2 (Z.leb_le (va + po) x)) by lia. cbn [andb].
    replace (va + 4096 + 0 + (remaining - (4096 - po))) with (va + po + remaining) by lia.
    destruct (x <? _); [|done]. f_equal. lia.
Qed.

Lemma new_page_total a va k : exists r, new_page a va k = Some r.
Proof.
  unfold new_page, alloc_page, map_page, mbind, M_bind. destruct (vmm_alloc_page a (k_vm k)) as [[p a1] v1]. destruct (p =? 0); [by eexists|].
  destruct (vmm_map_page a1 va p VMM_PAGE_RW_U (k_vm (with_vm k v1))) as [[r a2] v2]. by eexists.
Qed.

(** One page: what comes to be at [va]. *)
Lemma load_page_spec k a L0 img va fd off po remaining :
  space k a L0 img -> ready k fd off -> in_window va -> va mod 4096 = 0 -> 0 <= po < 4096 -> 0 <= remaining < 18446744073709551616 ->
  in_u64 off ->
  let page_room := u64 (ELF_PAGE_SIZE - po) in
  let to_read := if remaining <? page_room then remaining else page_room in
  exists p a1 k1, new_page a va k = Some ((p, a1), k1) /\ as_pml4_phys a1 = as_pml4_phys a /\ as_addr a1 = as_addr a /\
    ((p = 0 /\ space k1 a1 L0 img /\ ready k1 fd off) \/
     (p <> 0 /\ exists ok k2 img', (if to_read >? 0 then read_to fd (u64 (p + po)) to_read else mret true) k1 = Some (ok, k2) /\
        space k2 a1 L0 img' /\ (exists off', ready k2 fd off' /\ (ok = true -> off' = off + to_read /\ in_u64 off')) /\
        (ok = true -> forall x, in_window x ->
           img' x = if decide (x / 4096 = va / 4096) then Some (seg_byte va po remaining off x) else img x))).
Proof.
  intros Hs Hr Hw Hal Hpo Hrem Ho. unfold ELF_PAGE_SIZE. rewrite (u64_id (4096 - po)) by word. cbv zeta.
  set (to_read := if remaining <? 4096 - po then remaining else 4096 - po).
  assert (Htr : 0 <= to_read /\ to_read <= remaining /\ po + to_read <= 4096) by (unfold to_read; destruct (Z.ltb_spec remaining (4096 - po)); lia).
  destruct (new_page_total a va k) as [[[p a1] k1] E]. exists p, a1, k1. split; [done|].
  assert (Hva : in_u64 va) by (unfold in_window, VMM_USER_BASE, VMM_USER_SIZE in Hw; word).
  destruct (new_page_spec _ _ _ _ _ _ _ _ Hs Hva E) as ([v Ek] & Ep & Ea & [[-> Hs1]|(Pp & _ & _ & Htp & Hs1)]); split; try done; split; try done.
  { left. split; [done|]. split; [done|]. rewrite Ek. by apply ready_vm. }
  right. split; [destruct Pp; lia|]. assert (Hr1 : ready k1 fd off) by (rewrite Ek; by apply ready_vm).
  rewrite Z.gtb_ltb. destruct (Z.ltb_spec 0 to_read) as [Hpos|Hz].
  - rewrite u64_id by (destruct Pp; word).
    destruct (read_to_spec k1 a1 L0 _ va p fd off po to_read Hs1 Hw Hal Htp Hr1 Ho) as (ok & k2 & img2 & Er & Hs2 & Hoff & Himg); try lia.
    exists ok, k2, img2. split; [done|]. split; [done|]. split; [done|]. intros Hok x Hx. rewrite (Himg Hok x Hx).
    assert (Hpage : x / 4096 = va / 4096 <-> va <= x < va + 4096) by zlia. unfold seg_byte.
    destruct (decide (x / 4096 = va / 4096)) as [Hd|Hd].
    + replace (x <? va + po + remaining) with (x <? va + po + to_read); [by destruct (_ && _)|].
      unfold to_read. destruct (Z.ltb_spec remaining (4096 - po)); [done|].
      rewrite !(proj2 (Z.ltb_lt x _)) by lia. done.
    + rewrite (proj2 (andb_false_iff _ _)); [done|]. destruct (Z.leb_spec (va + po) x); [|by left]. right. apply Z.ltb_ge. lia.
  - exists true, k1. eexists. split; [reflexivity|]. split; [exact Hs1|]. split; [exists off; split; [done|split; [lia|done]]|].
    intros _ x Hx. cbv beta. case_decide as Hd; [|done]. f_equal. unfold seg_byte. rewrite (proj2 (andb_false_iff _ _)); [done|].
    destruct (Z.leb_spec (va + po) x); [|by left]. right. apply Z.ltb_ge. unfold to_read in Hz. destruct (Z.ltb_spec remaining (4096 - po)); lia.
Qed.

Lemma segment_loop_spec pages fd ss se co L0 : forall va remaining k a img off,
  space k a L0 img -> ready k fd off -> va mod 4096 = 0 -> VMM_USER_BASE <= ss <= va -> va + 4096 * Z.of_nat pages = se ->
  se <= VMM_USER_BASE + VMM_USER_SIZE -> 0 <= co < 4096 -> 0 <= remaining < 18446744073709551616 -> in_u64 off ->
  exists r a' k' img', segment_loop pages fd a ss va se co remaining k = Some ((r, a'), k') /\
    as_pml4_phys a' = as_pml4_phys a /\ as_addr a' = as_addr a /\ space k' a' L0 img' /\ (exists off', ready k' fd off') /\
    ((r = 0 /\ forall x, in_window x -> img' x = if (va <=? x) && (x <? se) then Some (seg_byte va (if va =? ss then co else 0) remaining off x) else img x) \/
     r = -1).
Proof.
  induction pages as [|pages IH]; intros va remaining k a img off Hs Hr Hal Hss Hse Hhi Hco Hrem Ho; cbn [segment_loop].
  { exists 0, a, k, img. split; [reflexivity|]. do 3 (split; [done|]). split; [by exists off|]. left. split; [done|]. intros x _.
    rewrite (proj2 (andb_false_iff _ _)); [done|]. destruct (Z.leb_spec va x); [|by left]. right. apply Z.ltb_ge. lia. }
  unfold VMM_USER_BASE, VMM_USER_SIZE in *. rewrite (proj2 (Z.ltb_lt va se)) by lia.
  assert (Hw : in_window va) by (unfold in_window, VMM_USER_BASE, VMM_USER_SIZE; lia).
  set (po := if va =? ss then co else 0). assert (Hpo : 0 <= po < 4096) by (unfold po; destruct (va =? ss); lia).
  destruct (load_page_spec k a L0 img va fd off po remaining Hs Hr Hw Hal Hpo Hrem Ho) as (p & a1 & k1 & E & Ep & Ea & Hcase).
  rewrite (bind_eq _ _ _ _ _ E). cbv beta iota.
  destruct Hcase as [(-> & Hs1 & Hr1)|(Hp0 & ok & k2 & img2 & E2 & Hs2 & (off2 & Hr2 & Hoff2) & Himg2)].
  { exists (-1), a1, k1, img. split; [reflexivity|]. do 3 (split; [done|]). split; [by exists off|]. by right. }
  rewrite (proj2 (Z.eqb_neq p 0)) by done. cbv zeta. rewrite (bind_eq _ _ _ _ _ E2). destruct ok.
  2:{ exists (-1), a1, k2, img2. split; [reflexivity|]. do 3 (split; [done|]). split; [by exists off2|]. by right. }
  destruct (Hoff2 eq_refl) as [Hoff2' Ho2]. clear Hoff2. rename Hoff2' into Hoff2. specialize (Himg2 eq_refl). unfold ELF_PAGE_SIZE in *. rewrite (u64_id (4096 - po)) in * by word.
  set (to_read := if remaining <? 4096 - po then remaining else 4096 - po) in *.
  assert (Htr : 0 <= to_read /\ to_read <= remaining) by (unfold to_read; destruct (Z.ltb_spec remaining (4096 - po)); lia).
  replace (if to_read >? 0 then u64 (remaining - to_read) else remaining) with (remaining - to_read)
    by (rewrite Z.gtb_ltb; destruct (Z.ltb_spec 0 to_read); [rewrite u64_id by word|]; lia).
  rewrite u64_id by word. subst off2.
  destruct (IH (va + 4096) (remaining - to_read) k2 a1 img2 (off + to_read) Hs2 Hr2) as (r & a' & k' & img' & E3 & Ep3 & Ea3 & Hs3 & Hr3 & Hcase);
    try done; try lia; [zlia|].
  rewrite E3. exists r, a', k', img'. split; [reflexivity|]. split; [congruence|]. split; [congruence|]. split; [done|]. split; [done|].
  destruct Hcase as [[-> Himg3]| ->]; [left|by right]. split; [done|]. intros x Hx. rewrite Himg3, Himg2 by done.
  rewrite (proj2 (Z.eqb_neq (va + 4096) ss)) by lia. assert (Hpage : x / 4096 = va / 4096 <-> va <= x < va + 4096) by zlia.
  destruct (Z.leb_spec (va + 4096) x).
  - pose proof (seg_byte_next va po remaining off x) as Hn. cbv zeta in Hn. fold to_read in Hn. rewrite (proj2 (Z.leb_le va x)), Hn by lia. cbn [andb]. destruct (x <? se) eqn:Ese; [done|]. by rewrite decide_False by lia.
  - cbn [andb]. case_decide as Hd.
    + rewrite (proj2 (Z.leb_le va x)), (proj2 (Z.ltb_lt x se)) by lia. done.
    + rewrite (proj2 (andb_false_iff _ _)); [done|]. left. apply Z.leb_gt. lia.
Qed.

(** ** The segments *)

Definition loadable (ph : list Z) : bool := (p_type ph =? PT_LOAD) && negb (p_memsz ph =? 0).
(** The image with the segment of [ph] laid over [img]: the bytes of the file,
    and zeros in the rest of its pages. *)
Definition seg_image (ph : list Z) (img : Z -> option Z) (x : Z) : option Z :=
  if (seg_start ph <=? x) && (x <? seg_end ph) then
    Some (if (p_vaddr ph <=? x) && (x <? p_vaddr ph + p_filesz ph) then file_byte (p_offset ph + (x - p_vaddr ph)) else 0)
  else img x.
Fixpoint phdr_image (cnt : nat) (i : Z) (phdrs : list Z) (img : Z -> option Z) : Z -> option Z :=
  match cnt with
  | O => img
  | S cnt => phdr_image cnt (i + 1) phdrs (if loadable (phdr_at phdrs i) then seg_image (phdr_at phdrs i) img else img)
  end.
Fixpoint phdr_end (cnt : nat) (i : Z) (phdrs : list Z) (e : Z) : Z :=
  match cnt with
  | O => e
  | S cnt => phdr_end cnt (i + 1) phdrs (if loadable (phdr_at phdrs i) then Z.max e (seg_end (phdr_at phdrs i)) else e)
  end.

Lemma get64_u64 l off : bytes l -> in_u64 (get64 l off).
Proof.
  intros Hl. unfold get64. pose proof (le_val_range _ (bytes_slice l off 8 Hl)) as Hr.
  assert (Hn : Z.of_nat (length (slice l off 8)) <= 8) by (unfold slice; rewrite length_take; lia).
  assert (256 ^ Z.of_nat (length (slice l off 8)) <= 256 ^ 8) by (apply Z.pow_le_mono_r; lia). change (256 ^ 8) with 18446744073709551616 in *.
  unfold in_u64. lia.
Qed.

Lemma seg_end_mod ph : seg_end ph mod 4096 = 0.
Proof. unfold seg_end, ELF_PAGE_SIZE. change (not64 (4096 - 1)) with 0xFFFFFFFFFFFFF000. rewrite land_page_mask by word. zlia. Qed.

Lemma load_segment_spec k a L0 img fd off ph :
  space k a L0 img -> ready k fd off -> bytes ph -> off = p_offset ph ->
  VMM_USER_BASE <= seg_start ph -> seg_end ph <= VMM_USER_BASE + VMM_USER_SIZE ->
  exists r a' k' img', load_segment fd a (seg_start ph) (seg_end ph) (u64 (p_vaddr ph - seg_start ph)) (p_filesz ph) k = Some ((r, a'), k') /\
    as_pml4_phys a' = as_pml4_phys a /\ as_addr a' = as_addr a /\ space k' a' L0 img' /\ (exists off', ready k' fd off') /\
    ((r = 0 /\ forall x, in_window x -> img' x = seg_image ph img x) \/ r = -1).
Proof.
  intros Hs Hr Hph -> Hlo Hhi.
  pose proof (get64_u64 ph 16 Hph) as Hv. fold (p_vaddr ph) in Hv. pose proof (get64_u64 ph 32 Hph) as Hf. fold (p_filesz ph) in Hf.
  pose proof (get64_u64 ph 8 Hph) as Ho. fold (p_offset ph) in Ho.
  assert (Ess : seg_start ph = p_vaddr ph / 4096 * 4096).
  { unfold seg_start, ELF_PAGE_SIZE. change (not64 (4096 - 1)) with 0xFFFFFFFFFFFFF000. apply land_page_mask. word. }
  pose proof (seg_end_mod ph) as Ese.
  assert (Eco : u64 (p_vaddr ph - seg_start ph) = p_vaddr ph mod 4096) by (rewrite Ess; apply u64_id || word; word).
  rewrite Eco. unfold load_segment, ELF_PAGE_SIZE. unfold in_u64 in *.
  set (cnt := Z.to_nat ((seg_end ph - seg_start ph) / 4096)).
  destruct (Z.le_gt_cases (seg_end ph) (seg_start ph)) as [Hempty|Hne].
  - assert (Ec : cnt = 0%nat) by (unfold cnt; zlia). rewrite Ec. cbn [segment_loop]. exists 0, a, k, img. split; [reflexivity|]. do 3 (split; [done|]).
    split; [by eexists|]. left. split; [done|]. intros x _. unfold seg_image. rewrite (proj2 (andb_false_iff _ _)); [done|].
    destruct (Z.leb_spec (seg_start ph) x); [|by left]. right. apply Z.ltb_ge. lia.
  - destruct (segment_loop_spec cnt fd (seg_start ph) (seg_end ph) (p_vaddr ph mod 4096) L0 (seg_start ph) (p_filesz ph) k a img (p_offset ph) Hs Hr)
      as (r & a' & k' & img' & E & Ep & Ea & Hs' & Hr' & Hc); try (unfold in_u64; lia); try (rewrite Ess; zlia).
    { unfold cnt. zlia. }
    { pose proof (Z.mod_pos_bound (p_vaddr ph) 4096). lia. }
    exists r, a', k', img'. split; [exact E|]. do 4 (split; [done|]). destruct Hc as [[-> Himg]| ->]; [left|by right]. split; [done|].
    intros x Hx. rewrite Himg by done. unfold seg_image, seg_byte. rewrite Z.eqb_refl.
    replace (seg_start ph + p_vaddr ph mod 4096) with (p_vaddr ph) by (rewrite Ess; zlia). done.
Qed.

Lemma load_phdrs_spec phdrs fd L0 : bytes phdrs -> forall cnt i k a img off e,
  space k a L0 img -> ready k fd off ->
  exists o a' k' img', load_phdrs cnt i fd phdrs a e k = Some ((o, a'), k') /\ as_pml4_phys a' = as_pml4_phys a /\ as_addr a' = as_addr a /\
    space k' a' L0 img' /\ (exists off', ready k' fd off') /\
    match o with
    | None => True
    | Some e' => e' = phdr_end cnt i phdrs e /\ (forall x, in_window x -> img' x = phdr_image cnt i phdrs img x) /\
        (VMM_USER_BASE <= e <= VMM_USER_BASE + VMM_USER_SIZE /\ e mod 4096 = 0 -> VMM_USER_BASE <= e' <= VMM_USER_BASE + VMM_USER_SIZE /\ e' mod 4096 = 0)
    end.
Proof.
  intros Hb. induction cnt as [|cnt IH]; intros i k a img off e Hs Hr; cbn [load_phdrs phdr_image phdr_end].
  { exists (Some e), a, k, img. split; [reflexivity|]. do 3 (split; [done|]). split; [by exists off|]. done. }
  set (ph := phdr_at phdrs i) in *. assert (Hph : bytes ph) by (by apply bytes_slice). cbv zeta.
  assert (El : negb (p_type ph =? PT_LOAD) || (p_memsz ph =? 0) = negb (loadable ph)).
  { unfold loadable. by destruct (p_type ph =? PT_LOAD), (p_memsz ph =? 0). }
  rewrite El. destruct (loadable ph); cbn [negb]; [|by apply (IH (i + 1) k a img off e)].
  destruct (Z.ltb_spec (seg_start ph) VMM_USER_BASE); cbn [orb].
  { exists None, a, k, img. split; [reflexivity|]. do 3 (split; [done|]). split; [by exists off|done]. }
  rewrite Z.gtb_ltb. destruct (Z.ltb_spec (VMM_USER_BASE + VMM_USER_SIZE) (seg_end ph)); cbn [orb].
  { exists None, a, k, img. split; [reflexivity|]. do 3 (split; [done|]). split; [by exists off|done]. }
  destruct (p_filesz ph >? p_memsz ph).
  { exists None, a, k, img. split; [reflexivity|]. do 3 (split; [done|]). split; [by exists off|done]. }
  destruct (fs_seek k fd off (p_offset ph) Hr) as (k1 & E1 & Ev1 & Hr1). rewrite (bind_eq _ _ _ _ _ E1). cbn [Z.eqb negb].
  assert (Hs1 : space k1 a L0 img).
  { by apply (space_same_vm k). }
  destruct (load_segment_spec k1 a L0 img fd _ ph Hs1 Hr1 Hph eq_refl) as (r & a2 & k2 & img2 & E2 & Ep2 & Ea2 & Hs2 & [off2 Hr2] & Hc); [done|done|].
  rewrite (bind_eq _ _ _ _ _ E2). cbv beta iota. destruct Hc as [[-> Himg2]| ->]; cbn [Z.eqb negb].
  2:{ exists None, a2, k2, img2. split; [reflexivity|]. do 3 (split; [done|]). split; [by exists off2|done]. }
  replace (if seg_end ph >? e then seg_end ph else e) with (Z.max e (seg_end ph)) by (rewrite Z.gtb_ltb; destruct (Z.ltb_spec e (seg_end ph)); lia).
  destruct (IH (i + 1) k2 a2 (seg_image ph img) off2 (Z.max e (seg_end ph)) (space_ext _ _ _ _ _ Hs2 Himg2) Hr2)
    as (o & a3 & k3 & img3 & E3 & Ep3 & Ea3 & Hs3 & Hr3 & Ho). exists o, a3, k3, img3. split; [exact E3|]. split; [congruence|]. split; [congruence|].
  split; [done|]. split; [done|]. destruct o as [e'|]; [|done]. destruct Ho as (-> & Himg3 & He). split; [done|]. split; [done|].
  intros He0. apply He. pose proof (seg_end_mod ph). destruct (Z.max_spec e (seg_end ph)) as [[? ->]|[? ->]]; lia.
Qed.

(** ** The stack *)

Lemma map_stack_spec L0 : forall cnt i k a img,
  space k a L0 img -> 0 <= i -> i + Z.of_nat cnt <= 16 ->
  exists ok a' k' img', map_stack cnt i a k = Some ((ok, a'), k') /\ (exists v, k' = with_vm k v) /\
    as_pml4_phys a' = as_pml4_phys a /\ as_addr a' = as_addr a /\ space k' a' L0 img' /\
    (ok = true -> forall x, in_window x ->
       img' x = if (stack_top - (i + Z.of_nat cnt) * 4096 <=? x) && (x <? stack_top - i * 4096) then Some 0 else img x).
Proof.
  induction cnt as [|cnt IH]; intros i k a img Hs Hi Hc; cbn [map_stack].
  { exists true, a, k, img. split; [reflexivity|]. split; [exists (k_vm k); by rewrite with_vm_id|]. do 3 (split; [done|]). intros _ x _.
    rewrite Z.add_0_r, (proj2 (andb_false_iff _ _)); [done|]. destruct (Z.leb_spec (stack_top - i * 4096) x); [|by left]. right. apply Z.ltb_ge. lia. }
  set (va := stack_top - (i + 1) * ELF_PAGE_SIZE).
  assert (Hva : va = 0x7FFFE000 - i * 4096) by (unfold va, stack_top, VMM_USER_BASE, VMM_USER_SIZE, ELF_PAGE_SIZE; lia).
  assert (Hu : in_u64 va) by (rewrite Hva; unfold in_u64; lia).
  destruct (new_page_total a va k) as [[[p a1] k1] E]. rewrite (bind_eq _ _ _ _ _ E). cbv beta iota.
  destruct (new_page_spec _ _ _ _ _ _ _ _ Hs Hu E) as ([v Ek] & Ep & Ea & Hc1).
  destruct Hc1 as [(-> & Hs1)|(Pp & Hw & Hal & _ & Hs1)].
  { exists false, a1, k1, img. split; [reflexivity|]. split; [by exists v|]. do 3 (split; [done|]). done. }
  rewrite (proj2 (Z.eqb_neq p 0)) by (destruct Pp; lia).
  destruct (IH (i + 1) k1 a1 _ Hs1 ltac:(lia) ltac:(lia)) as (ok & a2 & k2 & img2 & E2 & [v2 Ek2] & Ep2 & Ea2 & Hs2 & Himg).
  exists ok, a2, k2, img2. split; [exact E2|]. split; [exists v2; by rewrite Ek2, Ek|]. split; [congruence|]. split; [congruence|].
  split; [done|]. intros Hok x Hx. rewrite Himg by done. unfold stack_top, VMM_USER_BASE, VMM_USER_SIZE, ELF_PAGE_SIZE in *.
  replace (i + 1 + Z.of_nat cnt) with (i + Z.of_nat (S cnt)) by lia. set (lo := 1073741824 + 1073741824 - 4096 - (i + Z.of_nat (S cnt)) * 4096).
  assert (Hpage : x / 4096 = va / 4096 <-> va <= x < va + 4096) by zlia.
  destruct (Z.leb_spec lo x); cbn [andb]; [|rewrite decide_False by lia; done].
  destruct (Z.ltb_spec x (1073741824 + 1073741824 - 4096 - (i + 1) * 4096)), (Z.ltb_spec x (1073741824 + 1073741824 - 4096 - i * 4096)); try lia.
  - done.
  - by rewrite decide_True by lia.
  - by rewrite decide_False by lia.
Qed.

(** ** The arguments *)

(** The offsets of the strings that fit, from [off] on. *)
Fixpoint arg_offs (args : list (list Z)) (off : Z) : list Z :=
  match args with
  | [] => []
  | s :: args => if off + Z.of_nat (length s) + 1 <=? str_room then off :: arg_offs args (off + Z.of_nat (length s) + 1) else []
  end.

(** The strings and their pointers in the page at [p], from slot [c] on. *)
Definition args_at (m : mem_t) (p : Z) (args : list (list Z)) (offs : list Z) (c : nat) : Prop :=
  forall i s off, args !! i = Some s -> offs !! i = Some off ->
    word_at m (p + 8 + 8 * Z.of_nat (c + i)) = argv_va + proc_args_size + off /\
    forall j, 0 <= j <= Z.of_nat (length s) -> byte_at m (p + proc_args_size + off + j) = default 0 ((s ++ [0]) !! Z.to_nat j) mod 256.

Lemma copy_args_spec p : page p -> forall args off c m,
  0 <= off <= str_room -> (c + length args <= ELF_MAX_ARGS)%nat -> Forall (fun s => Z.of_nat (length s) < 4294967296) args ->
  let '(c', m') := copy_args args p off c m in
  c' = (c + length (arg_offs args off))%nat /\ args_at m' p args (arg_offs args off) c /\
  (forall q, p + proc_args_size <= q < p + proc_args_size + off -> byte_at m' q = byte_at m q) /\
  (forall w, w < p + proc_args_size -> w mod 8 = 0 -> w < p + 8 + 8 * Z.of_nat c \/ p + 8 + 8 * Z.of_nat c' <= w -> m' !! w = m !! w) /\
  (forall w, ~ p <= w < p + 4096 -> m' !! w = m !! w).
Proof.
  intros Pp. pose proof Pp as [Hp0 Hp1]. change str_room with 4024. change proc_args_size with 72. change argv_va with 0x7FFFA000. unfold ELF_MAX_ARGS.
  induction args as [|s args IH]; intros off c m Hoff Hc Hlen; cbn [copy_args arg_offs].
  { split; [cbn [length]; lia|]. split; [intros i s o Hi; by rewrite lookup_nil in Hi|]. done. }
  apply Forall_cons in Hlen as [Hl Hlen]. cbn [length] in Hc. cbv zeta. change str_room with 4024. change proc_args_size with 72. change argv_va with 0x7FFFA000.
  rewrite (u64_id (off + _)), (u64_id (_ + 1)) by word. rewrite Z.gtb_ltb.
  destruct (Z.ltb_spec 4024 (off + Z.of_nat (length s) + 1)) as [Hbig|Hfit].
  { rewrite (proj2 (Z.leb_gt _ _)) by lia. split; [cbn [length]; lia|]. split; [intros i s' o _ Hi; by rewrite lookup_nil in Hi|]. done. }
  rewrite (proj2 (Z.leb_le _ _)) by lia. rewrite (u64_id (off + (_ + 1))) by word. rewrite Z.add_assoc.
  set (m1 := put_bytes (p + 72 + off) (s ++ [0]) m). set (m2 := <[p + 8 + 8 * Z.of_nat c := _]> m1).
  specialize (IH (off + Z.of_nat (length s) + 1) (S c) m2 ltac:(lia) ltac:(lia) Hlen).
  destruct (copy_args args p (off + Z.of_nat (length s) + 1) (S c) m2) as [c' m'] eqn:Ec. change proc_args_size with 72 in IH.
  destruct IH as (Hc' & Hargs & Hold & Hhdr & Hout).
  assert (Hm2b : forall q, p + 72 <= q -> byte_at m2 q = byte_at m1 q).
  { intros q Hq. apply byte_word. unfold m2. apply lookup_insert_ne. zlia. }
  assert (Hm1w : forall w, w mod 8 = 0 -> w < p + 72 \/ p + 4096 <= w -> m1 !! w = m !! w).
  { intros w Hw8 Hw. apply put_bytes_words. rewrite length_app. cbn [length]. intros i Hi. zlia. }
  split; [cbn [length]; lia|]. split; [|split; [|split]].
  - intros [|i] s' o; cbn [lookup list_lookup]; change proc_args_size with 72; change argv_va with 0x7FFFA000.
    + intros [= <-] [= <-]. rewrite Nat.add_0_r. split.
      * unfold word_at. rewrite (Hhdr (p + 8 + 8 * Z.of_nat c)) by zlia. unfold m2. by rewrite lookup_insert_eq.
      * intros j Hj. rewrite Hold, Hm2b by lia. unfold m1. rewrite byte_at_put, length_app. cbn [length].
        rewrite (proj2 (Z.leb_le (p + 72 + off) _)), (proj2 (Z.ltb_lt _ _)) by lia. cbn [andb]. do 3 f_equal. lia.
    + intros Hi Ho. destruct (Hargs i s' o Hi Ho) as [H8 H9]. change argv_va with 0x7FFFA000 in H8. change proc_args_size with 72 in H8, H9.
      split; [|exact H9]. rewrite <- H8. do 2 f_equal. lia.
  - intros q Hq. rewrite Hold, Hm2b by lia. unfold m1. rewrite byte_at_put. rewrite (proj2 (Z.leb_gt (p + 72 + off) q)) by lia. done.
  - intros w Hw Hw8 Hslot. rewrite Hhdr by lia. unfold m2. rewrite lookup_insert_ne by lia. apply Hm1w; [done|by left].
  - intros w Hw. rewrite Hout by done. unfold m2. rewrite lookup_insert_ne by lia. apply put_bytes_words.
    rewrite length_app. cbn [length]. intros i Hi ->. apply Hw. apply page_words; [done|lia].
Qed.

Lemma clear_args_other cnt i p m w :
  (forall j, (i <= j < i + cnt)%nat -> w <> p + 8 + 8 * Z.of_nat j) -> clear_args cnt i p m !! w = m !! w.
Proof.
  revert i m. induction cnt as [|cnt IH]; intros i m Hw; cbn [clear_args]; [done|].
  rewrite IH by (intros j Hj; apply Hw; lia). apply lookup_insert_ne. intros E. exact (Hw i ltac:(lia) (eq_sym E)).
Qed.
Lemma clear_args_in cnt i p m j : (i <= j < i + cnt)%nat -> word_at (clear_args cnt i p m) (p + 8 + 8 * Z.of_nat j) = 0.
Proof.
  revert i m. induction cnt as [|cnt IH]; intros i m Hj; cbn [clear_args]; [lia|].
  destruct (decide (i = j)) as [->|]; [|apply IH; lia]. unfold word_at. rewrite clear_args_other by lia. by rewrite lookup_insert_eq.
Qed.

(** The arguments passed on: at most eight. *)
Definition passed (argc : Z) (argv : list (list Z)) : list (list Z) := take (Z.to_nat (Z.min (Z.max argc 0) 8)) argv.

(** The page at [p] as the process finds it: the count, the pointers, the
    strings, and null pointers in the slots left over. *)
Definition args_page (m : mem_t) (p : Z) (argc : Z) (argv : list (list Z)) : Prop :=
  let offs := arg_offs (passed argc argv) 0 in
  word_at m p = Z.of_nat (length offs) /\ args_at m p (passed argc argv) offs 0 /\
  forall i, (length offs <= i < ELF_MAX_ARGS)%nat -> word_at m (p + 8 + 8 * Z.of_nat i) = 0.

Lemma length_arg_offs args off : (length (arg_offs args off) <= length args)%nat.
Proof. revert off. induction args as [|s args IH]; intros off; cbn [arg_offs length]; [done|]. destruct (_ <=? _); cbn [length]; [specialize (IH (off + Z.of_nat (length s) + 1)); lia|lia]. Qed.

Lemma arg_offs_ge args o i off : arg_offs args o !! i = Some off -> o <= off.
Proof.
  revert o i. induction args as [|s args IH]; intros o i; cbn [arg_offs]; [by rewrite lookup_nil|]. destruct (_ <=? _); [|by rewrite lookup_nil].
  destruct i as [|i]; cbn [lookup list_lookup]; [by intros [= ->]|]. intros E. specialize (IH _ _ E). lia.
Qed.

Lemma build_args_spec argc argv p m :
  page p -> Forall (fun s => Z.of_nat (length s) < 4294967296) argv ->
  args_page (build_args argc argv p m) p argc argv /\ forall w, ~ p <= w < p + 4096 -> build_args argc argv p m !! w = m !! w.
Proof.
  intros Pp Hl. pose proof Pp as [Hp0 Hp1]. unfold build_args. rewrite Z.gtb_ltb. change (Z.of_nat ELF_MAX_ARGS) with 8.
  set (ac := if argc <? 0 then 0 else argc).
  replace (if 8 <? ac then 8 else ac) with (Z.min (Z.max argc 0) 8)
    by (unfold ac; destruct (Z.ltb_spec argc 0); [cbn; lia|destruct (Z.ltb_spec 8 argc); lia]).
  fold (passed argc argv). assert (Hlen : (length (passed argc argv) <= 8)%nat) by (unfold passed; rewrite length_take; lia).
  pose proof (copy_args_spec p Pp (passed argc argv) 0 0 m ltac:(change str_room with 4024; lia) ltac:(unfold ELF_MAX_ARGS; lia)
    ltac:(by apply Forall_take)) as Hc.
  destruct (copy_args (passed argc argv) p 0 0 m) as [c m1]. change proc_args_size with 72 in Hc. destruct Hc as (Ec & Ha & _ & _ & Hout).
  cbn [Nat.add] in Ec. pose proof (length_arg_offs (passed argc argv) 0) as Hlo. rewrite <- Ec in Hlo. unfold ELF_MAX_ARGS.
  set (m2 := <[p := Z.of_nat c]> m1).
  assert (Hcl : forall w, w = p \/ p + 8 + 8 * Z.of_nat c > w \/ p + 72 <= w -> clear_args (8 - c) c p m2 !! w = m2 !! w).
  { intros w Hw. apply clear_args_other. lia. }
  split; [split; [|split]|].
  - unfold word_at. rewrite Hcl by lia. unfold m2. rewrite lookup_insert_eq. cbn. by rewrite Ec.
  - intros i s off Hi Ho. destruct (Ha i s off Hi Ho) as [H8 H9]. apply lookup_lt_Some in Ho as Hic. rewrite <- Ec in Hic. cbn [Nat.add] in *. split.
    + unfold word_at. rewrite Hcl by lia. unfold m2. rewrite lookup_insert_ne by lia. exact H8.
    + intros j Hj. rewrite <- H9 by done. change proc_args_size with 72 in *.
      pose proof (arg_offs_ge _ _ _ _ Ho) as Ho0.
      apply byte_word. rewrite Hcl by zlia. unfold m2. rewrite lookup_insert_ne by zlia. done.
  - intros i Hi. apply clear_args_in. unfold ELF_MAX_ARGS in Hi. lia.
  - intros w Hw. rewrite Hcl by lia. unfold m2. rewrite lookup_insert_ne by lia. by apply Hout.
Qed.

(** ** The task *)

Lemma foldr_delete_insert_ne (l : list Z) L p sz : p ∉ l -> foldr delete (<[p := sz]> L) l = <[p := sz]> (foldr delete L l).
Proof.
  induction l as [|q l IH]; [done|]. intros Hn. cbn [foldr]. rewrite IH by set_solver. apply delete_insert_ne. set_solver.
Qed.

(** An allocation besides the space, whose memory is then written. *)
Lemma space_alloc k a L0 img size al p h :
  space k a L0 img -> 0 < size < 1152921504606846976 -> kalloc size al (v_heap (k_vm k)) = (p, h) ->
  (p = 0 /\ space (with_vm k (Vst (k_mem k) h)) a L0 img) \/
  (L0 !! p = None /\ kalloc_lo <= p /\ p + size <= kalloc_hi /\
   forall m', (forall w, ~ p <= w < p + size -> m' !! w = k_mem k !! w) -> space (with_vm k (Vst m' h)) a (<[p := size]> L0) img).
Proof.
  intros (L & T & Hinv & Hpv & Himg) Hsz Ek. pose proof Hinv as [[Hl Ha Hp Hn Hm Hr] Ht]. cbn [k_vm v_heap] in *.
  destruct (kalloc_ok _ L size al p h Hl Hsz Ek) as [[-> Hl']|(HL & _ & Hl')]; [left|right].
  { split; [done|]. exists L, T. rewrite with_vm_vm. split; [|by split]. split; [|exact Ht]. by split. }
  assert (HnL : forall q, q ∈ as_addr a :: as_owned a -> q <> p).
  { intros q Hq ->. apply elem_of_cons in Hq as [->|Hq]; [|apply Hp in Hq]; [destruct Ha|destruct Hq]; congruence. }
  destruct (kalloc_in _ _ p size Hl' (lookup_insert_eq _ _ _)) as [Hlo Hhi].
  split; [|split; [exact Hlo|split; [exact Hhi|]]].
  { rewrite <- Hr. clear -HL. induction (as_addr a :: as_owned a) as [|q l IH]; [done|]. cbn [foldr]. apply lookup_delete_None. by right. }
  intros m' Hm'. assert (Hpg : forall q, q ∈ as_owned a -> page q) by (intros q Hq; by apply Hp).
  assert (Hdis : forall q w, q ∈ as_owned a -> q <= w < q + 4096 -> m' !! w = k_mem k !! w).
  { intros q w Hq Hw. apply Hm'. intros Hin. destruct (Hp q Hq) as [HLq _].
    destruct (kalloc_disjoint _ _ q 4096 p size Hl') as [?|?]; [rewrite lookup_insert_ne; [done|]; intros E; by apply (HnL q); [right|]|
      apply lookup_insert_eq|intros E; by apply (HnL q); [right|]|lia|lia]. }
  destruct (leaf_same_mem (k_mem k) m' (as_pml4_phys a) (as_owned a) T Ht Hpg) as [Ht' Hleaf].
  { intros w q Hq. apply Hdis. by eapply table_page_owned. }
  assert (Hinv' : as_inv (Vst m' h) a (<[p := size]> L) (<[p := size]> L0) T).
  { split; [|exact Ht']. split; try done.
    - split; [|apply Ha]. rewrite lookup_insert_ne; [apply Ha|]. intros E. by apply (HnL (as_addr a)); [left|].
    - intros q Hq. split; [|by apply Hpg]. rewrite lookup_insert_ne; [by apply Hp|]. intros E. by apply (HnL q); [right|].
    - rewrite foldr_delete_insert_ne, Hr; [done|]. intros Hin. by apply (HnL p). }
  exists (<[p := size]> L), T. rewrite with_vm_vm. split; [exact Hinv'|]. split.
  - destruct Hpv as [Hpo Hpi]. change (k_mem (with_vm k (Vst m' h))) with m'. split; unfold mapped, frame in *; intros; rewrite ?Hleaf in *; auto.
  - intros x Hx. rewrite <- (Himg x Hx). change (k_mem (with_vm k (Vst m' h))) with (v_mem (Vst m' h)). change (k_mem k) with (v_mem (k_vm k)).
    rewrite (user_byte_leaf _ _ _ _ _ _ Hinv' Hx), (user_byte_leaf _ _ _ _ _ _ Hinv Hx). cbn [v_mem]. unfold mapped, frame. rewrite !Hleaf.
    change (v_mem (k_vm k)) with (k_mem k). fold (mapped (k_mem k) T x). fold (frame (k_mem k) T x).
    destruct (mapped (k_mem k) T x) eqn:Em; [|done]. cbn [andb]. destruct (Z.testbit _ 2); [|done]. f_equal.
    destruct (pv_owned _ _ _ Hpv x Hx Em) as [Hf _]. pose proof (Z.mod_pos_bound x 4096 ltac:(lia)).
    apply byte_word, (Hdis (frame (k_mem k) T x)); [done|]. apply page_words; [by apply Hpg|lia].
Qed.

Context (user_task_trampoline : Z).

(** What the task pool and the stack of the new task hold. *)
Definition task_started (s : sched_t (file_descriptor_t N) H) (i : nat) (entry arg cr3 top : Z) : Prop :=
  exists t, get_task s (Slot i) = Some t /\ t_state t = TASK_READY /\ t_is_user t = 1 /\ t_cr3 t = cr3 /\
    frame_restore (t_rsp t) (s_mem s) = Some (Regs 0 0 0 0 0 0 0 0 0 entry arg 0 0 0 0 0 0 user_task_trampoline 0x23 0x202 top 0x2B).

Lemma find_free_slot_lt k i c : pool_ok k -> find_free_slot (k_sched k) = Some (i, c) -> (i < 32)%nat /\ 0 <= c <= 32.
Proof.
  intros [Hl Hc]. unfold find_free_slot. destruct (free_scan _ _ _) as [j|] eqn:E.
  - intros [= -> <-]. apply free_scan_some in E as [_ (t & E & _)]. apply lookup_lt_Some in E. lia.
  - rewrite Z.geb_leb. unfold MAX_TASKS. destruct (Z.leb_spec 32 (s_count (k_sched k))); [done|]. intros [= <- <-]. lia.
Qed.

Lemma submit_spec k a L0 img name entry arg top :
  space k a L0 img -> pool_ok k -> entry <> 0 -> in_u64 entry -> in_u64 arg -> in_u64 top -> in_u64 user_task_trampoline ->
  exists o s, sched_submit_user_as fd_table0 user_task_trampoline name entry arg (as_pml4_phys a) top (k_sched k) = (o, s) /\
    match o with
    | None => space (with_sched k s) a L0 img
    | Some i => (i < 32)%nat /\ exists stack, L0 !! stack = None /\ space (with_sched k s) a (<[stack := TASK_STACK_SZ]> L0) img /\
        task_started s i entry arg (as_pml4_phys a) top
    end.
Proof.
  intros Hs Hp He Hen Har Htp Htr. unfold sched_submit_user_as, submit_slot.
  assert (Hcr3 : as_pml4_phys a <> 0).
  { destruct Hs as (L & T & [Ho Ht] & _). destruct (owned_page _ _ _ _ _ Ho (ti_pml4 _ _ _ _ Ht)). lia. }
  rewrite (proj2 (Z.eqb_neq entry 0)), (proj2 (Z.eqb_neq _ _) Hcr3) by done. cbn [orb].
  destruct (find_free_slot (k_sched k)) as [[i c]|] eqn:Ef.
  2:{ exists None, (k_sched k). split; [done|]. by apply (space_same_vm k). }
  destruct (find_free_slot_lt _ _ _ Hp Ef) as [Hi _]. destruct (kalloc TASK_STACK_SZ true (s_heap (k_sched k))) as [stk h] eqn:Ek.
  destruct (space_alloc k a L0 img TASK_STACK_SZ true stk h Hs ltac:(unfold TASK_STACK_SZ; lia) Ek) as [[-> Hs1]|(HL & Hlo & Hhi & Hs1)].
  { rewrite Z.eqb_refl. eexists None, _. split; [reflexivity|]. by apply (space_same_vm (with_vm k (Vst (k_mem k) h))). }
  destruct (kalloc_bounds (H := H)) as [Hb1 Hb2]. rewrite (proj2 (Z.eqb_neq stk 0)) by lia. cbv zeta.
  unfold task_init_stack_user_as at 1. cbn [t_stack t_func t_arg]. rewrite (u64_id (stk + TASK_STACK_SZ)) by (unfold TASK_STACK_SZ in *; word).
  pose proof (frame_build_restore (stk + TASK_STACK_SZ) user_task_trampoline (Z.lor GDT_USER_CS 3) (Z.lor GDT_USER_DS 3) top entry arg (k_mem k)) as Hf.
  change (s_mem (Sched _ _ _ _ _ _ _ _ _ _ (s_mem (k_sched k)) _)) with (k_mem k).
  destruct (frame_build _ _ _ _ _ _ _ (k_mem k)) as [rsp m'] eqn:Eb. destruct Hf as (-> & Hres & Hout); [unfold TASK_STACK_SZ in *; lia|].
  eexists (Some i), _. split; [reflexivity|]. split; [done|]. exists stk. split; [done|]. split.
  - apply (space_same_vm (with_vm k (Vst m' h))); [|done]. apply Hs1. intros w Hw. apply Hout. unfold TASK_STACK_SZ in *. lia.
  - eexists. split; [apply list_lookup_insert_eq; destruct Hp as [Hp _]; cbn; by rewrite Hp|]. do 3 (split; [done|]).
    cbn [set_rsp t_rsp]. etransitivity; [exact Hres|]. by rewrite !u64_id by done.
Qed.

(** ** The whole *)

Lemma destroy_spec k a L0 img :
  space k a L0 img -> exists k', destroy_space a k = Some (tt, k') /\ kalloc_live (v_heap (k_vm k')) L0 /\ (exists v, k' = with_vm k v).
Proof.
  intros (L & T & [Ho _] & _). destruct (vmm_destroy_spec _ _ _ _ Ho) as (v & E & _ & Hl). unfold destroy_space. rewrite E.
  eexists. split; [reflexivity|]. rewrite with_vm_vm. split; [exact Hl|by exists v].
Qed.

Lemma fail_space_spec k a L0 img :
  space k a L0 img -> exists k', fail_space (N := N) a k = Some (None, k') /\ kalloc_live (v_heap (k_vm k')) L0.
Proof.
  intros Hs. destruct (destroy_spec _ _ _ _ Hs) as (k' & E & Hl & _). exists k'. unfold fail_space. by rewrite (bind_eq _ _ _ _ _ E).
Qed.

Lemma fail_fd_spec k fd off L0 :
  ready k fd off -> kalloc_live (v_heap (k_vm k)) L0 -> exists k', fail_fd fd k = Some (None, k') /\ kalloc_live (v_heap (k_vm k')) L0.
Proof.
  intros Hr Hl. destruct (fs_close _ _ _ Hr) as (k' & E & Ev & _). exists k'. unfold fail_fd. rewrite (bind_eq _ _ _ _ _ E). by rewrite Ev.
Qed.

Lemma fail_both_spec k a L0 img fd off :
  space k a L0 img -> ready k fd off -> exists k', (destroy_space a;; fail_fd fd) k = Some (None, k') /\ kalloc_live (v_heap (k_vm k')) L0.
Proof.
  intros Hs Hr. destruct (destroy_spec _ _ _ _ Hs) as (k1 & E & Hl & [v Ek]). rewrite (bind_eq _ _ _ _ _ E).
  apply (fail_fd_spec k1 fd off); [rewrite Ek; by apply ready_vm|done].
Qed.

(** The stack and the page of arguments over the segments. *)
Definition exec_image (ma : mem_t) (p : Z) (img : Z -> option Z) (x : Z) : option Z :=
  if decide (x / 4096 = argv_va / 4096) then Some (byte_at ma (p + (x - argv_va)))
  else if (stack_top - 0x4000 <=? x) && (x <? stack_top) then Some 0 else img x.

(** The started process: what it sees of its window, and its task. *)
Definition started k' a (i : nat) L0 (img : Z -> option Z) (entry e argc : Z) (argv : list (list Z)) : Prop :=
  exists stack ma p t, L0 !! stack = None /\ args_page ma p argc argv /\
    space k' a (<[stack := TASK_STACK_SZ]> L0) (exec_image ma p img) /\ k_as k' !! as_addr a = Some a /\
    get_task (k_sched k') (Slot i) = Some t /\ t_state t = TASK_READY /\ t_is_user t = 1 /\ t_cr3 t = as_pml4_phys a /\
    t_as t = as_addr a /\ t_heap_start t = e /\ t_heap_brk t = e /\ t_heap_end t = argv_va /\
    frame_restore (t_rsp t) (k_mem k') = Some (Regs 0 0 0 0 0 0 0 0 0 entry argv_va 0 0 0 0 0 0 user_task_trampoline 0x23 0x202 stack_top 0x2B).

Lemma start_task_spec k a L0 img0 img name argc argv entry e :
  space k a L0 img -> (forall x, in_window x -> img x = if (stack_top - 0x4000 <=? x) && (x <? stack_top) then Some 0 else img0 x) ->
  pool_ok k -> entry <> 0 -> in_u64 entry -> in_u64 user_task_trampoline -> Forall (fun s => Z.of_nat (length s) < 4294967296) argv ->
  exists o k', start_task user_task_trampoline name argc argv entry e a k = Some (o, k') /\
    match o with None => kalloc_live (v_heap (k_vm k')) L0 | Some (i, a') => started k' a' i L0 img0 entry e argc argv end.
Proof.
  intros Hs Himg Hp He Hen Htr Hargv. unfold start_task. assert (Hva : in_u64 argv_va) by (by vm_compute).
  destruct (new_page_total a argv_va k) as [[[p a1] k1] E]. rewrite (bind_eq _ _ _ _ _ E). cbv beta iota.
  destruct (new_page_spec _ _ _ _ _ _ _ _ Hs Hva E) as ([v Ek] & Ep & Ea & [(-> & Hs1)|(Pp & Hw & Hal & Htp & Hs1)]).
  { destruct (fail_space_spec _ _ _ _ Hs1) as (k' & E' & Hl). exists None, k'. done. }
  rewrite (proj2 (Z.eqb_neq p 0)) by (destruct Pp; lia). assert (Hp1 : pool_ok k1) by (rewrite Ek; exact Hp).
  destruct (build_args_spec argc argv p (k_mem k1) Pp Hargv) as [Hargs Hout]. set (ma := build_args argc argv p (k_mem k1)) in *.
  destruct (write_page _ _ _ _ _ _ ma Hs1 Hw Hal Htp) as [_ Hwp]. destruct (Hwp Hout) as [Hs2 _]. set (k2 := with_mem k1 ma) in *.
  rewrite (bind_eq _ _ k1 tt k2) by reflexivity.
  destruct (submit_spec k2 a1 L0 _ name entry argv_va stack_top Hs2 Hp1 He Hen Hva ltac:(by vm_compute) Htr) as (o & s & Es & Ho).
  erewrite bind_eq; [|cbv beta; rewrite Es; reflexivity]. destruct o as [i|].
  2:{ destruct (fail_space_spec _ _ _ _ Ho) as (k' & E' & Hl). exists None, k'. done. }
  destruct Ho as (Hi & stk & HL & Hs3 & t & Ht & Hst & Hu & Hc & Hf).
  eexists (Some (i, a1)), _. split; [reflexivity|]. exists stk, ma, p, (set_heap (as_addr a1) e argv_va t).
  split; [done|]. split; [done|]. split; [|split; [cbn; apply lookup_insert_eq|]].
  - apply (space_same_vm (with_sched k2 s)); [|done]. eapply space_ext; [exact Hs3|]. intros x Hx. cbv beta. unfold exec_image.
    case_decide; [done|]. by rewrite Himg.
  - split; [|done]. unfold k_sched, with_as, with_sched. cbn [k_vfs v_sched]. rewrite get_upd_task, decide_True by done.
    change (v_sched _) with s. by rewrite Ht.
Qed.

(** The headers in the file. *)
Definition file_ehdr : list Z := slice data 0 ehdr_size.
Definition file_phdrs : list Z := slice data (e_phoff file_ehdr) (e_phnum file_ehdr * phdr_size).

Lemma read_exact_spec k fd off size :
  ready k fd off -> in_u64 off -> in_u32 size ->
  exists o k', read_exact fd size k = Some (o, k') /\ k_vm k' = k_vm k /\ (exists off', ready k' fd off') /\
    match o with None => True | Some l => l = slice data off size end.
Proof.
  intros Hr Ho Hs. destruct (fs_read k fd off size Hr Ho Hs) as (k' & E & Ev & Hr'). unfold read_exact. rewrite (bind_eq _ _ _ _ _ E).
  eexists _, k'. split; [reflexivity|]. split; [done|]. split; [by eexists|]. by destruct (_ =? _).
Qed.

Lemma load_and_start k a fd off L0 name argc argv eh phdrs :
  space k a L0 (fun _ => None) -> ready k fd off -> bytes eh -> bytes phdrs ->
  in_u64 user_task_trampoline -> Forall (fun s => Z.of_nat (length s) < 4294967296) argv ->
  exists o k', ('(o, a) ← load_phdrs (Z.to_nat (e_phnum eh)) 0 fd phdrs a VMM_USER_BASE;
    match o with
    | None => destroy_space a;; fail_fd fd
    | Some max_seg_end =>
      if (e_entry eh <? VMM_USER_BASE) || (e_entry eh >=? VMM_USER_BASE + VMM_USER_SIZE) then destroy_space a;; fail_fd fd
      else
        '(ok, a) ← map_stack ELF_STACK_PAGES 0 a;
        if negb ok then destroy_space a;; fail_fd fd
        else fs (vfs_close fd);; start_task user_task_trampoline name argc argv (e_entry eh) max_seg_end a
    end) k = Some (o, k') /\
    match o with
    | None => kalloc_live (v_heap (k_vm k')) L0
    | Some (i, a') => VMM_USER_BASE <= e_entry eh < VMM_USER_BASE + VMM_USER_SIZE /\
        started k' a' i L0 (phdr_image (Z.to_nat (e_phnum eh)) 0 phdrs (fun _ => None)) (e_entry eh)
          (phdr_end (Z.to_nat (e_phnum eh)) 0 phdrs VMM_USER_BASE) argc argv
    end.
Proof.
  intros Hs Hr Heh Hph Htr Hargv.
  destruct (load_phdrs_spec phdrs fd L0 Hph (Z.to_nat (e_phnum eh)) 0 k a _ off VMM_USER_BASE Hs Hr)
    as (o & a1 & k1 & img1 & E & Ep & Ea & Hs1 & [off1 Hr1] & Ho). rewrite (bind_eq _ _ _ _ _ E). cbv beta iota.
  destruct o as [e|]; [|destruct (fail_both_spec _ _ _ _ _ _ Hs1 Hr1) as (k' & E' & Hl); by exists None, k'].
  destruct Ho as (-> & Himg1 & _). pose proof (get64_u64 eh 24 Heh) as Hen. fold (e_entry eh) in Hen.
  destruct (Z.ltb_spec (e_entry eh) VMM_USER_BASE); cbn [orb].
  { destruct (fail_both_spec _ _ _ _ _ _ Hs1 Hr1) as (k' & E' & Hl); by exists None, k'. }
  rewrite Z.geb_leb. destruct (Z.leb_spec (VMM_USER_BASE + VMM_USER_SIZE) (e_entry eh)).
  { destruct (fail_both_spec _ _ _ _ _ _ Hs1 Hr1) as (k' & E' & Hl); by exists None, k'. }
  destruct (map_stack_spec L0 ELF_STACK_PAGES 0 k1 a1 img1 Hs1) as (ok & a2 & k2 & img2 & E2 & [v Ek2] & Ep2 & Ea2 & Hs2 & Himg2);
    [lia|unfold ELF_STACK_PAGES; lia|]. rewrite (bind_eq _ _ _ _ _ E2). cbv beta iota.
  assert (Hr2 : ready k2 fd off1) by (rewrite Ek2; by apply ready_vm). destruct ok; cbn [negb].
  2:{ destruct (fail_both_spec _ _ _ _ _ _ Hs2 Hr2) as (k' & E' & Hl); by exists None, k'. }
  destruct (fs_close _ _ _ Hr2) as (k3 & E3 & Ev3 & Hp3 & _). rewrite (bind_eq _ _ _ _ _ E3).
  assert (Hs3 : space k3 a2 L0 img2) by (by apply (space_same_vm k2)).
  destruct (start_task_spec k3 a2 L0 (phdr_image (Z.to_nat (e_phnum eh)) 0 phdrs (fun _ => None)) img2 name argc argv (e_entry eh)
    (phdr_end (Z.to_nat (e_phnum eh)) 0 phdrs VMM_USER_BASE) Hs3) as (o & k' & E' & Ho); try done.
  - intros x Hx. rewrite (Himg2 eq_refl x Hx), Himg1 by done. by rewrite Z.mul_0_l, Z.sub_0_r.
  - unfold VMM_USER_BASE in *. lia.
  - exists o, k'. split; [exact E'|]. by destruct o as [[i a']|].
Qed.

Lemma elf_exec_ok k path name argc argv fd v1 L0 :
  vfs_open path O_RDONLY (k_vfs k) = Some (fd, v1) ->
  let k1 := Kern v1 (k_as k) (k_evq k) (k_gfx k) (k_tick k) (k_out k) in
  ready k1 fd 0 -> k_vm k1 = k_vm k -> kalloc_live (v_heap (k_vm k)) L0 -> 0x3000 <= kalloc_lo ->
  in_u64 user_task_trampoline -> Forall (fun s => Z.of_nat (length s) < 4294967296) argv ->
  exists o k', elf_exec user_task_trampoline path name argc argv k = Some (o, k') /\
    match o with
    | None => kalloc_live (v_heap (k_vm k')) L0
    | Some (i, a) => validate_ehdr file_ehdr = 0 /\ VMM_USER_BASE <= e_entry file_ehdr < VMM_USER_BASE + VMM_USER_SIZE /\
        started k' a i L0 (phdr_image (Z.to_nat (e_phnum file_ehdr)) 0 file_phdrs (fun _ => None)) (e_entry file_ehdr)
          (phdr_end (Z.to_nat (e_phnum file_ehdr)) 0 file_phdrs VMM_USER_BASE) argc argv
    end.
Proof.
  intros Hopen k1 Hr1 Ev1 Hl Hlo Htr Hargv. unfold elf_exec.
  assert (E1 : fs (vfs_open path O_RDONLY) k = Some (fd, k1)) by (unfold fs; by rewrite Hopen). rewrite (bind_eq _ _ _ _ _ E1).
  assert (Hfd : 0 <= fd) by (destruct Hr1 as [(t & tbl & f & _ & _ & Hfd & _) _]; lia). rewrite (proj2 (Z.ltb_ge fd 0)) by lia.
  assert (Hl1 : kalloc_live (v_heap (k_vm k1)) L0) by (by rewrite Ev1).
  destruct (read_exact_spec k1 fd 0 ehdr_size Hr1) as (eh & k2 & E2 & Ev2 & [off2 Hr2] & Heh); [word|unfold ehdr_size; word|].
  rewrite (bind_eq _ _ _ _ _ E2). assert (Hl2 : kalloc_live (v_heap (k_vm k2)) L0) by (by rewrite Ev2).
  destruct eh as [eh|]; [|destruct (fail_fd_spec k2 fd off2 L0 Hr2 Hl2) as (k' & E' & Hl'); by exists None, k'].
  subst eh. fold file_ehdr. assert (Hbe : bytes file_ehdr) by (by apply bytes_slice).
  destruct (Z.eqb_spec (validate_ehdr file_ehdr) 0) as [Hval|]; cbn [negb].
  2:{ destruct (fail_fd_spec k2 fd off2 L0 Hr2 Hl2) as (k' & E' & Hl'); by exists None, k'. }
  destruct (fs_seek k2 fd off2 (e_phoff file_ehdr) Hr2) as (k3 & E3 & Ev3 & Hr3). rewrite (bind_eq _ _ _ _ _ E3). cbn [Z.eqb].
  assert (Hnum : 0 <= e_phnum file_ehdr <= 8).
  { revert Hval. unfold validate_ehdr, ELF_MAX_PHDR. rewrite Z.gtb_ltb. destruct (Z.ltb_spec 8 (e_phnum file_ehdr)).
    { rewrite orb_true_r. by repeat destruct (_ || _). }
    intros _.
    pose proof (le_val_range _ (bytes_slice file_ehdr 56 2 Hbe)) as Hle. split; [apply Hle|done]. }
  pose proof (get64_u64 file_ehdr 32 Hbe) as Hpo. fold (e_phoff file_ehdr) in Hpo.
  destruct (read_exact_spec k3 fd (e_phoff file_ehdr) (e_phnum file_ehdr * phdr_size) Hr3) as (ph & k4 & E4 & Ev4 & [off4 Hr4] & Hph);
    [exact Hpo|unfold phdr_size, in_u32; lia|]. rewrite (bind_eq _ _ _ _ _ E4).
  assert (Hl4 : kalloc_live (v_heap (k_vm k4)) L0) by (rewrite Ev4, Ev3; exact Hl2).
  destruct ph as [ph|]; [|destruct (fail_fd_spec k4 fd off4 L0 Hr4 Hl4) as (k' & E' & Hl'); by exists None, k'].
  subst ph. fold file_phdrs. destruct (vmm_create_spec (k_vm k4) L0 Hl4 Hlo) as (o & v & Ec & Ho).
  assert (E5 : create_space k4 = Some (o, with_vm k4 v)) by (unfold create_space; by rewrite Ec). rewrite (bind_eq _ _ _ _ _ E5).
  assert (Hr5 : ready (with_vm k4 v) fd off4) by (by apply ready_vm). destruct o as [a|].
  2:{ destruct (fail_fd_spec (with_vm k4 v) fd off4 L0 Hr5) as (k' & E' & Hl'); [by rewrite with_vm_vm|]. by exists None, k'. }
  destruct Ho as (L & T & Hinv & He & _).
  assert (Hs5 : space (with_vm k4 v) a L0 (fun _ => None)).
  { exists L, T. rewrite with_vm_vm. split; [done|]. split; [by eapply empty_private|]. intros x Hx. unfold user_byte.
    change (k_mem (with_vm k4 v)) with (v_mem v). by rewrite He. }
  destruct (load_and_start (with_vm k4 v) a fd off4 L0 name argc argv file_ehdr file_phdrs Hs5 Hr5 Hbe ltac:(by apply bytes_slice) Htr Hargv)
    as (o & k' & E' & Ho). exists o, k'. split; [exact E'|]. by destruct o as [[i a']|].
Qed.
End Loader.

(** C8 (elf.c, [elf_exec]): for a file shorter than 2 GiB that the file system
    reads without a fault, whatever bytes are in it (offsets and sizes that
    overflow included), the loader returns. Either it fails with every allocation given
    back, or the headers were valid with the entry point in the window, and a
    ready ring-3 task has been made that starts at the entry point with the
    page of arguments as its argument, on the stack, in its own well-formed
    private space. In its window the process sees exactly: the bytes of the
    file and zeros in the pages of its segments, later segments over earlier
    ones; zeros in the stack; the count, pointers and strings of the arguments
    that fit in their page; and nothing else. Its heap is between the end of
    the last segment and the page of arguments. *)
Theorem elf_exec_correct {DS N H} `{!Kalloc H} `{!EqDecision N} `{!Driver DS N} (inv : DS -> Prop) (n : N) data
    (user_task_trampoline : Z) (k : kern DS N H) path name argc argv fd v1 L0 :
  file_law inv n data -> Z.of_nat (length data) < 2147483648 -> bytes data ->
  vfs_open path O_RDONLY (k_vfs k) = Some (fd, v1) ->
  let k1 := Kern v1 (k_as k) (k_evq k) (k_gfx k) (k_tick k) (k_out k) in
  ready inv n k1 fd 0 -> k_vm k1 = k_vm k -> kalloc_live (v_heap (k_vm k)) L0 -> 0x3000 <= kalloc_lo ->
  let eh := file_ehdr data in let phdrs := file_phdrs data in
  in_u64 user_task_trampoline -> Forall (fun s => Z.of_nat (length s) < 4294967296) argv ->
  exists o k', elf_exec user_task_trampoline path name argc argv k = Some (o, k') /\
    match o with
    | None => kalloc_live (v_heap (k_vm k')) L0
    | Some (i, a) => validate_ehdr eh = 0 /\ VMM_USER_BASE <= e_entry eh < VMM_USER_BASE + VMM_USER_SIZE /\
        started user_task_trampoline k' a i L0 (phdr_image data (Z.to_nat (e_phnum eh)) 0 phdrs (fun _ => None)) (e_entry eh)
          (phdr_end (Z.to_nat (e_phnum eh)) 0 phdrs VMM_USER_BASE) argc argv
    end.
Proof. intros Hlaw Hd Hb Hopen k1 Hr Ev Hl Hlo eh phdrs. by apply (elf_exec_ok inv n data Hlaw Hd Hb user_task_trampoline k path name argc argv fd v1 L0). Qed.

(** A file with one segment of four bytes and 6 KB, as the root of the file
    system mounted at "/". *)
Module ElfDemo.
Import SysDemo.
Definition file : list Z :=
  [0x7F; 69; 76; 70; 2; 1] ++ replicate 10 0 ++ le_bytes 2 2 ++ le_bytes 2 62 ++ le_bytes 4 1 ++ le_bytes 8 0x40000000 ++ le_bytes 8 64 ++
  le_bytes 8 0 ++ le_bytes 4 0 ++ le_bytes 2 64 ++ le_bytes 2 56 ++ le_bytes 2 1 ++ replicate 6 0 ++
  le_bytes 4 1 ++ le_bytes 4 5 ++ le_bytes 8 120 ++ le_bytes 8 0x40000000 ++ le_bytes 8 0 ++ le_bytes 8 4 ++ le_bytes 8 0x1800 ++ le_bytes 8 4096 ++
  [0xEB; 0xFE; 1; 2].
Definition sched : sched_t (file_descriptor_t unit) Z :=
  Sched (replicate 32 (task0 fd_table0)) 0 (replicate 4 rq_empty) (task0 fd_table0) (Some Idle) false true 0x1000 0 0 ∅ 0x10000.
Definition vfs : vfs_st (list Z) unit Z :=
  Vfs file [MountPoint [47] (Some tt) true 0 0 FS_FAT32 0 0] sched.
Definition start : kern (list Z) unit Z :=
  Kern vfs ∅ evq_bss (Gfx (Fb [] 0 0 0) (Surface 0 0 []) false) 0 [].

Definition opened : vfs_st (list Z) unit Z := match vfs_open [47] O_RDONLY vfs with Some (_, v) => v | None => vfs end.

Lemma law : file_law (fun d => d = file) tt file.
Proof. intros d ->. eexists _, _. do 2 (split; [reflexivity|]). intros. by eexists. Qed.
End ElfDemo.
Import SysDemo ElfDemo.

Lemma demo_open : vfs_open [47] O_RDONLY (k_vfs start) = Some (0, opened).
Proof. vm_compute. reflexivity. Qed.

Lemma demo_ready : ready (fun d => d = file) tt (Kern opened (k_as start) (k_evq start) (k_gfx start) (k_tick start) (k_out start)) 0 0.
Proof.
  split; [|by vm_compute]. exists Idle, (<[0%nat := Fd (Some tt) 0 1 true]> fd_table0), (Fd (Some tt) 0 1 true). split_and!; by vm_compute.
Qed.

Lemma demo_run : (fun r => bool_decide (is_Some r.1)) <$> elf_exec (N := unit) 0x5000 [47] [104] 1 [[104; 105]] start = Some true.
Proof. vm_compute. reflexivity. Qed.

Lemma elf_exec_correct_witness :
  exists i a k', elf_exec (N := unit) 0x5000 [47] [104] 1 [[104; 105]] start = Some (Some (i, a), k') /\
    user_byte (k_mem k') (as_pml4_phys a) 0x40000002 = Some 1 /\ user_byte (k_mem k') (as_pml4_phys a) 0x40001000 = Some 0.
Proof.
  destruct (elf_exec_correct (fun d => d = file) tt file 0x5000 start [47] [104] 1 [[104; 105]] 0 opened ∅ law) as (o & k' & E & Hr).
  - by vm_compute.
  - by apply bytes_dec_ok.
  - exact demo_open.
  - exact demo_ready.
  - by vm_compute.
  - exact vdemo_live.
  - by vm_compute.
  - by vm_compute.
  - by repeat constructor.
  - pose proof demo_run as Ho. rewrite E in Ho. destruct o as [[i a]|]; [|by injection Ho]. clear Ho. exists i, a, k'. split; [done|].
    destruct Hr as (_ & _ & stk & ma & p & t & _ & _ & (L & T & _ & _ & Himg) & _).
    split; (etransitivity; [apply Himg; unfold in_window, VMM_USER_BASE, VMM_USER_SIZE; lia|]); vm_compute; reflexivity.
Defined.
