(* ===== verification/Wm.v ===== *)
(** * The window manager

    Models user/ugfx.c, user/window.c and user/wm.c, which run in ring 3: the
    drawing library, the pools of surfaces and windows, hit testing, the
    doubly-linked z-order, the drag state machine over the events of
    SYS_EVENT_POLL, and the composition of a frame. The drawing primitives are
    the text of gfx/gfx.c compiled a second time, so their models are those of
    Gfx.v. Windows, surfaces and demo contexts are named by their index in
    their pools; [None] is an access outside an array. *)

From S2P Require Import Prelude Kalloc Sched Ring Gfx.

(** ** ugfx.c *)

Definition UGFX_TRANSPARENT : Z := 0x01000000.
Definition UGFX_FONT_W : Z := 8.
Definition UGFX_MAX_W : Z := 1024.
Definition UGFX_MAX_H : Z := 768.
Definition UGFX_POOL_COUNT : nat := 6.
Definition UGFX_POOL_W : Z := 400.
Definition UGFX_POOL_H : Z := 300.

Abbreviation ugfx_surface_t := gfx_surface_t.

(** [info] is what SYS_FB_INFO returns. A surface holds the part of its static
    array that its size uses. *)
Definition surface_of (w h : Z) (px : list Z) : ugfx_surface_t := Surface w h (take (Z.to_nat (w * h)) px).
Definition ugfx_init (info : Z) (ready : bool) (screen : ugfx_surface_t) : option ugfx_surface_t :=
  if ready then Some screen
  else if info =? 0 then None
  else
    let w := s32 (Z.shiftr info 32) in
    let h := s32 (Z.land info 0xFFFFFFFF) in
    if (w <=? 0) || (h <=? 0) || ((w >? UGFX_MAX_W) || (h >? UGFX_MAX_H)) then None
    else Some (surface_of w h (sf_px screen)).

(** [pool_surf] and [pool_next]; every entry has the pixels of its pool slot. *)
Record ugfx_pool := Pool { pool_surf : list ugfx_surface_t; pool_next : nat }.
Definition ugfx_surface_from_pool (w h : Z) (p : ugfx_pool) : option nat * ugfx_pool :=
  if (UGFX_POOL_COUNT <=? pool_next p)%nat then (None, p)
  else
    let w := if w >? UGFX_POOL_W then UGFX_POOL_W else w in
    let h := if h >? UGFX_POOL_H then UGFX_POOL_H else h in
    (Some (pool_next p), Pool (alter (fun s => surface_of w h (sf_px s)) (pool_next p) (pool_surf p)) (S (pool_next p))).

Definition ugfx_fill (s : ugfx_surface_t) (color : Z) : option ugfx_surface_t := r ← gfx_fill (Some s) color; r.
Definition ugfx_fill_rect (s : ugfx_surface_t) (x y w h color : Z) : option ugfx_surface_t := r ← gfx_fill_rect (Some s) x y w h color; r.
Definition ugfx_hline (s : ugfx_surface_t) (x y w color : Z) := ugfx_fill_rect s x y w 1 color.
Definition ugfx_vline (s : ugfx_surface_t) (x y h color : Z) := ugfx_fill_rect s x y 1 h color.
Definition ugfx_draw_rect (s : ugfx_surface_t) (x y w h color : Z) : option ugfx_surface_t :=
  s ← ugfx_hline s x y w color;
  s ← ugfx_hline s x (s32 (s32 (y + h) - 1)) w color;
  s ← ugfx_vline s x y h color;
  ugfx_vline s (s32 (s32 (x + w) - 1)) y h color.
Definition ugfx_blit (dst : ugfx_surface_t) (dx dy : Z) (src : ugfx_surface_t) : option ugfx_surface_t :=
  r ← gfx_blit (Some dst) dx dy (Some src); r.

(** Clipping to the source, then to the destination. *)
Definition clip_src (src : ugfx_surface_t) (sx sy sw sh : Z) : option (Z * Z * Z * Z) :=
  let '(sw, sx) := if sx <? 0 then (s32 (sw + sx), 0) else (sw, sx) in
  let '(sh, sy) := if sy <? 0 then (s32 (sh + sy), 0) else (sh, sy) in
  if (sx >=? sf_w src) || (sy >=? sf_h src) || ((sw <=? 0) || (sh <=? 0)) then None
  else
    let sw := if s32 (sx + sw) >? sf_w src then s32 (sf_w src - sx) else sw in
    let sh := if s32 (sy + sh) >? sf_h src then s32 (sf_h src - sy) else sh in
    Some (sx, sy, sw, sh).
Definition ugfx_blit_rect (dst : ugfx_surface_t) (dx dy : Z) (src : ugfx_surface_t) (sx sy sw sh : Z) : option ugfx_surface_t :=
  match clip_src src sx sy sw sh with
  | None => Some dst
  | Some (sx, sy, sw, sh) =>
    match clip_dst dst dx dy sx sy sw sh with
    | None => Some dst
    | Some (dx, dy, sx, sy, sw, sh) => copy_rect dst dx dy src sx sy sw sh
    end
  end.

Section Font.
(** [font_table], as SYS_GET_FONT filled it: 16 bytes a character. *)
Context (font_table : list Z).
Definition ugfx_draw_char (s : ugfx_surface_t) (x y ch fg bg : Z) : option ugfx_surface_t :=
  glyph ← load_px font_table (ch * FONT_H) FONT_H;
  draw_sprite (Z.to_nat FONT_H) 0 (Z.to_nat FONT_W) x y (glyph_color glyph fg bg) s.
Fixpoint ugfx_draw_text (s : ugfx_surface_t) (x y : Z) (text : list Z) (fg bg : Z) : option ugfx_surface_t :=
  match text with
  | [] => Some s
  | c :: text => s ← ugfx_draw_char s x y (u8 c) fg bg; ugfx_draw_text s (s32 (x + UGFX_FONT_W)) y text fg bg
  end.
End Font.
Definition ugfx_draw_cursor (s : ugfx_surface_t) (x y : Z) : option ugfx_surface_t := r ← gfx_draw_cursor (Some s) x y; r.

(** The system call a presentation makes. *)
Inductive present_t := PresentNothing | PresentAll | PresentRect (packed : Z).
Definition ugfx_present (ready : bool) : present_t := if ready then PresentAll else PresentNothing.
Definition ugfx_present_rect (ready : bool) (x y w h : Z) : present_t :=
  if negb ready then PresentNothing
  else
    let '(w, x) := if x <? 0 then (s32 (w + x), 0) else (w, x) in
    let '(h, y) := if y <? 0 then (s32 (h + y), 0) else (h, y) in
    if (w <=? 0) || (h <=? 0) then PresentNothing
    else if (x >? 0xFFFF) || (y >? 0xFFFF) || ((w >? 0xFFFF) || (h >? 0xFFFF)) then ugfx_present ready
    else PresentRect (Z.lor (Z.lor (Z.lor (u64 (Z.shiftl (u16 x) 48)) (u64 (Z.shiftl (u16 y) 32))) (u64 (Z.shiftl (u16 w) 16))) (u16 h)).

(** ** window.c *)

Definition WIN_TITLE_H : Z := 24.
Definition WIN_CLOSE_SZ : Z := 16.
Definition WIN_BORDER : Z := 6.
Definition WM_MAX_WIN : nat := 6.

(** The callbacks: [demo_on_paint] is the only painter there is, and there is
    no event handler. *)
Inductive win_paint_fn := demo_paint_fn.
Definition win_event_fn := Empty_set.

Record window_t := Win {
  win_x : Z; win_y : Z; win_w : Z; win_h : Z;
  win_title : list Z;
  win_surface : nat;
  win_in_use : Z;
  win_on_paint : option win_paint_fn;
  win_on_event : option win_event_fn;
  win_ctx : nat;
  win_next : option nat;
  win_prev : option nat;
}.
Definition win0 : window_t := Win 0 0 0 0 [] 0 0 None None 0 None None.
Definition set_next (v : option nat) (w : window_t) : window_t :=
  Win (win_x w) (win_y w) (win_w w) (win_h w) (win_title w) (win_surface w) (win_in_use w) (win_on_paint w) (win_on_event w) (win_ctx w) v (win_prev w).
Definition set_prev (v : option nat) (w : window_t) : window_t :=
  Win (win_x w) (win_y w) (win_w w) (win_h w) (win_title w) (win_surface w) (win_in_use w) (win_on_paint w) (win_on_event w) (win_ctx w) (win_next w) v.
Definition set_in_use (v : Z) (w : window_t) : window_t :=
  Win (win_x w) (win_y w) (win_w w) (win_h w) (win_title w) (win_surface w) v (win_on_paint w) (win_on_event w) (win_ctx w) (win_next w) (win_prev w).
Definition set_place (x y w' h' : Z) (w : window_t) : window_t :=
  Win x y w' h' (win_title w) (win_surface w) (win_in_use w) (win_on_paint w) (win_on_event w) (win_ctx w) (win_next w) (win_prev w).

(** ** State of the compositor *)

Record demo_ctx_t := Ctx { dc_color : Z; dc_frames : Z }.
Record wm_st := Wm {
  ws_pool : ugfx_pool;
  ws_wins : list window_t;          (* [win_pool] *)
  ws_next : nat;                    (* [win_pool_next] *)
  ws_head : option nat;             (* [z_head] *)
  ws_ctxs : list demo_ctx_t;        (* [demo_ctx_pool] *)
  ws_ctx_next : nat;                (* [demo_ctx_next] *)
}.
Implicit Types s : wm_st.
Definition upd_win (i : nat) (f : window_t -> window_t) s : wm_st :=
  Wm (ws_pool s) (alter f i (ws_wins s)) (ws_next s) (ws_head s) (ws_ctxs s) (ws_ctx_next s).
Definition set_head (h : option nat) s : wm_st := Wm (ws_pool s) (ws_wins s) (ws_next s) h (ws_ctxs s) (ws_ctx_next s).

Definition window_create (x y w h : Z) (title : list Z) (on_paint : option win_paint_fn) (on_event : option win_event_fn) (ctx : nat) s
    : option (option nat * wm_st) :=
  if (WM_MAX_WIN <=? ws_next s)%nat then Some (None, s)
  else
    let '(surf, pool) := ugfx_surface_from_pool w (s32 (h - WIN_TITLE_H)) (ws_pool s) in
    match surf with
    | None => Some (None, Wm pool (ws_wins s) (ws_next s) (ws_head s) (ws_ctxs s) (ws_ctx_next s))
    | Some i =>
      sf ← pool_surf pool !! i;
      let win := Win x y w (s32 (WIN_TITLE_H + sf_h sf)) (take 23 title) i 1 on_paint on_event ctx None None in
      Some (Some (ws_next s), Wm pool (<[ws_next s := win]> (ws_wins s)) (S (ws_next s)) (ws_head s) (ws_ctxs s) (ws_ctx_next s))
    end.

Inductive win_hit_t := HIT_NONE | HIT_TITLE | HIT_CLOSE | HIT_CLIENT | HIT_RESIZE_R | HIT_RESIZE_B | HIT_RESIZE_BR.

Definition window_hit_test (win : window_t) (x y : Z) : win_hit_t :=
  if (x <? win_x win) || ((x >=? s32 (win_x win + win_w win)) || ((y <? win_y win) || (y >=? s32 (win_y win + win_h win)))) then HIT_NONE
  else
    let rx := s32 (x - win_x win) in
    let ry := s32 (y - win_y win) in
    if ry <? WIN_TITLE_H then
      if (rx >=? s32 (s32 (win_w win - WIN_CLOSE_SZ) - 4)) && ((rx <? s32 (win_w win - 4)) && ((ry >=? 4) && (ry <? 4 + WIN_CLOSE_SZ)))
      then HIT_CLOSE else HIT_TITLE
    else
      let on_right := rx >=? s32 (win_w win - WIN_BORDER) in
      let on_bottom := ry >=? s32 (win_h win - WIN_BORDER) in
      if on_right && on_bottom then HIT_RESIZE_BR
      else if on_right then HIT_RESIZE_R
      else if on_bottom then HIT_RESIZE_B
      else HIT_CLIENT.

(** ** wm.c: the z-order *)

Definition TASKBAR_H : Z := 32.
Definition WIN_MIN_W : Z := 120.
Definition WIN_MIN_H : Z := WIN_TITLE_H + 60.
Definition FRAME_MS : Z := 16.
Definition LAUNCH_BTN_W : Z := 64.
Definition WIN_BTN_W : Z := 110.
Definition BTN_GAP : Z := 4.

Definition z_unlink (i : nat) s : option wm_st :=
  w ← ws_wins s !! i;
  let s := match win_prev w with Some p => upd_win p (set_next (win_next w)) s | None => set_head (win_next w) s end in
  let s := match win_next w with Some n => upd_win n (set_prev (win_prev w)) s | None => s end in
  Some (upd_win i (fun w => set_next None (set_prev None w)) s).
Definition z_push_front (i : nat) s : wm_st :=
  let s := upd_win i (fun w => set_next (ws_head s) (set_prev None w)) s in
  let s := match ws_head s with Some h => upd_win h (set_prev (Some i)) s | None => s end in
  set_head (Some i) s.
Definition z_raise (i : nat) s : option wm_st :=
  if decide (ws_head s = Some i) then Some s else s ← z_unlink i s; Some (z_push_front i s).

(** From window [w] on, at most [max] of them. *)
Fixpoint z_gather_from (max : nat) (w : option nat) s : option (list nat) :=
  match max, w with
  | S max, Some i => win ← ws_wins s !! i; rest ← z_gather_from max (win_next win) s; Some (i :: rest)
  | _, _ => Some []
  end.
Definition z_gather (max : nat) s : option (list nat) := z_gather_from max (ws_head s) s.

(** ** Demo windows *)

Definition str_window_title : list Z := [119; 105; 110; 100; 111; 119].
Definition str_launch_label : list Z := [43; 32; 119; 105; 110].
Definition str_close_label : list Z := [120].
Definition demo_palette : list Z := [0x00E0A030; 0x00305090; 0x0030A050; 0x00A03050; 0x00A0A030; 0x0030A0A0].

Definition spawn_demo_window (x y : Z) s : option (option nat * wm_st) :=
  if (WM_MAX_WIN <=? ws_ctx_next s)%nat then Some (None, s)
  else
    color ← demo_palette !! ws_ctx_next s;
    let dc := ws_ctx_next s in
    let s := Wm (ws_pool s) (ws_wins s) (ws_next s) (ws_head s) (<[dc := Ctx color 0]> (ws_ctxs s)) (S dc) in
    '(w, s) ← window_create x y 300 (WIN_TITLE_H + 200) str_window_title (Some demo_paint_fn) None dc s;
    match w with
    | None => Some (None, s)
    | Some w => Some (Some w, z_push_front w s)
    end.

Section Compose.
Context (font_table : list Z).
Abbreviation draw_text := (ugfx_draw_text font_table).

(** The horizontal place of the bar in frame [frames] of a surface [w] wide. *)
Definition bar_x (w frames : Z) : Z :=
  let max_x := s32 (s32 (w - 20) - 8) in
  let max_x := if max_x <? 8 then 8 else max_x in
  let period := if max_x >? 8 then s32 (s32 (max_x - 8) * 2) else 2 in
  let phase := s32 (frames mod u64 period) in
  if phase <=? Z.quot period 2 then s32 (8 + phase) else s32 (s32 (8 + period) - phase).

Definition demo_on_paint (w : window_t) (dc : demo_ctx_t) (surf : ugfx_surface_t) : option (demo_ctx_t * ugfx_surface_t) :=
  surf ← ugfx_fill surf 0x00E8E8E8;
  surf ← draw_text surf 8 8 (win_title w) 0x00202020 UGFX_TRANSPARENT;
  surf ← ugfx_fill_rect surf (bar_x (sf_w surf) (dc_frames dc)) 32 20 20 (dc_color dc);
  Some (Ctx (dc_color dc) (u64 (dc_frames dc + 1)), surf).

(** [if (w->on_paint) w->on_paint(w, w->ctx);] *)
Definition paint (w : window_t) s : option wm_st :=
  match win_on_paint w with
  | None => Some s
  | Some demo_paint_fn =>
    dc ← ws_ctxs s !! win_ctx w;
    surf ← pool_surf (ws_pool s) !! win_surface w;
    '(dc, surf) ← demo_on_paint w dc surf;
    Some (Wm (Pool (<[win_surface w := surf]> (pool_surf (ws_pool s))) (pool_next (ws_pool s))) (ws_wins s) (ws_next s) (ws_head s)
            (<[win_ctx w := dc]> (ws_ctxs s)) (ws_ctx_next s))
  end.

Definition is_head (i : nat) s : bool := bool_decide (ws_head s = Some i).

(** The taskbar buttons, for the windows of [order] from the last to the first. *)
Fixpoint draw_buttons (rev_order : list nat) (bx tb_y : Z) s (scr : ugfx_surface_t) : option ugfx_surface_t :=
  match rev_order with
  | [] => Some scr
  | i :: rest =>
    w ← ws_wins s !! i;
    let bg := if is_head i s then 0x00405878 else 0x00303030 in
    if s32 (bx + WIN_BTN_W) >? sf_w scr then Some scr
    else
      scr ← ugfx_fill_rect scr bx (s32 (tb_y + 4)) WIN_BTN_W (TASKBAR_H - 8) bg;
      scr ← draw_text scr (s32 (bx + 4)) (s32 (tb_y + 8)) (win_title w) 0x00E0E0E0 UGFX_TRANSPARENT;
      draw_buttons rest (s32 (bx + (WIN_BTN_W + BTN_GAP))) tb_y s scr
  end.

Definition draw_window (i : nat) s (scr : ugfx_surface_t) : option (wm_st * ugfx_surface_t) :=
  w ← ws_wins s !! i;
  s ← paint w s;
  let tcol := if is_head i s then 0x004070C0 else 0x00505860 in
  scr ← ugfx_fill_rect scr (win_x w) (win_y w) (win_w w) WIN_TITLE_H tcol;
  scr ← draw_text scr (s32 (win_x w + 6)) (s32 (win_y w + 4)) (win_title w) 0x00FFFFFF UGFX_TRANSPARENT;
  let cx := s32 (s32 (s32 (win_x w + win_w w) - WIN_CLOSE_SZ) - 4) in
  let cy := s32 (win_y w + 4) in
  scr ← ugfx_fill_rect scr cx cy WIN_CLOSE_SZ WIN_CLOSE_SZ 0x00C04040;
  scr ← draw_text scr (s32 (cx + 4)) (s32 (cy - 2)) str_close_label 0x00FFFFFF UGFX_TRANSPARENT;
  surf ← pool_surf (ws_pool s) !! win_surface w;
  scr ← ugfx_blit_rect scr (win_x w) (s32 (win_y w + WIN_TITLE_H)) surf 0 0 (win_w w) (s32 (win_h w - WIN_TITLE_H));
  scr ← ugfx_draw_rect scr (win_x w) (win_y w) (win_w w) (win_h w) 0x00101010;
  Some (s, scr).
Fixpoint draw_windows (rev_order : list nat) s (scr : ugfx_surface_t) : option (wm_st * ugfx_surface_t) :=
  match rev_order with
  | [] => Some (s, scr)
  | i :: rest => '(s, scr) ← draw_window i s scr; draw_windows rest s scr
  end.

Definition compose (order : list nat) (mx my : Z) s (scr : ugfx_surface_t) : option (wm_st * ugfx_surface_t) :=
  scr ← ugfx_fill scr 0x001A3A52;
  let tb_y := s32 (sf_h scr - TASKBAR_H) in
  scr ← ugfx_fill_rect scr 0 tb_y (sf_w scr) TASKBAR_H 0x00202020;
  scr ← ugfx_fill_rect scr 8 (s32 (tb_y + 4)) LAUNCH_BTN_W (TASKBAR_H - 8) 0x00305830;
  scr ← draw_text scr (8 + 8) (s32 (tb_y + 8)) str_launch_label 0x00FFFFFF UGFX_TRANSPARENT;
  scr ← draw_buttons (rev order) (8 + LAUNCH_BTN_W + BTN_GAP) tb_y s scr;
  '(s, scr) ← draw_windows (rev order) s scr;
  scr ← ugfx_draw_cursor scr mx my;
  Some (s, scr).
End Compose.

(** ** wm.c: the event loop *)

Inductive drag_mode_t := DRAG_NONE | DRAG_MOVE | DRAG_RESIZE_R | DRAG_RESIZE_B | DRAG_RESIZE_BR.
#[export] Instance drag_mode_eq : EqDecision drag_mode_t.
Proof. solve_decision. Defined.
#[export] Instance win_hit_eq : EqDecision win_hit_t.
Proof. solve_decision. Defined.
Definition MOUSE_BTN_LEFT : Z := 1.

(** The local variables of [wm_run] that outlive an event. *)
Record run_t := Run {
  rn_mx : Z; rn_my : Z;
  rn_drag : drag_mode_t;
  rn_drag_win : option nat;
  rn_ox : Z; rn_oy : Z;
  rn_sw : Z; rn_sh : Z;
  rn_sx : Z; rn_sy : Z;
  rn_running : bool;
}.
Implicit Types r : run_t.
Definition set_drag (d : drag_mode_t) (w : option nat) r : run_t :=
  Run (rn_mx r) (rn_my r) d w (rn_ox r) (rn_oy r) (rn_sw r) (rn_sh r) (rn_sx r) (rn_sy r) (rn_running r).

Definition resizes_r (d : drag_mode_t) : bool := bool_decide (d = DRAG_RESIZE_R) || bool_decide (d = DRAG_RESIZE_BR).
Definition resizes_b (d : drag_mode_t) : bool := bool_decide (d = DRAG_RESIZE_B) || bool_decide (d = DRAG_RESIZE_BR).

Definition on_mouse_move (ev : event_t) r s : option (run_t * wm_st) :=
  let r := Run (ev_x ev) (ev_y ev) (rn_drag r) (rn_drag_win r) (rn_ox r) (rn_oy r) (rn_sw r) (rn_sh r) (rn_sx r) (rn_sy r) (rn_running r) in
  match rn_drag r with
  | DRAG_NONE => Some (r, s)
  | DRAG_MOVE =>
    i ← rn_drag_win r;
    w ← ws_wins s !! i;
    Some (r, upd_win i (set_place (s32 (rn_mx r - rn_ox r)) (s32 (rn_my r - rn_oy r)) (win_w w) (win_h w)) s)
  | d =>
    i ← rn_drag_win r;
    w ← ws_wins s !! i;
    surf ← pool_surf (ws_pool s) !! win_surface w;
    let dw := s32 (rn_mx r - rn_sx r) in
    let dh := s32 (rn_my r - rn_sy r) in
    let max_w := sf_w surf in
    let max_h := s32 (WIN_TITLE_H + sf_h surf) in
    let clamp v lo hi := let v := if v <? lo then lo else v in if v >? hi then hi else v in
    let w' := if resizes_r d then clamp (s32 (rn_sw r + dw)) WIN_MIN_W max_w else win_w w in
    let h' := if resizes_b d then clamp (s32 (rn_sh r + dh)) WIN_MIN_H max_h else win_h w in
    Some (r, upd_win i (set_place (win_x w) (win_y w) w' h') s)
  end.

(** A click on the taskbar button of a window, from button [bx] on. *)
Fixpoint click_button (rev_order : list nat) (bx ex : Z) s : option wm_st :=
  match rev_order with
  | [] => Some s
  | i :: rest =>
    if (ex >=? bx) && (ex <? s32 (bx + WIN_BTN_W)) then z_raise i s
    else click_button rest (s32 (bx + (WIN_BTN_W + BTN_GAP))) ex s
  end.

(** What a click does to the window it hit. *)
Definition on_hit (i : nat) (hit : win_hit_t) (ev : event_t) r s : option (run_t * wm_st) :=
  s ← z_raise i s;
  w ← ws_wins s !! i;
  match hit with
  | HIT_CLOSE => s ← z_unlink i s; Some (r, upd_win i (set_in_use 0) s)
  | HIT_TITLE =>
    Some (Run (rn_mx r) (rn_my r) DRAG_MOVE (Some i) (s32 (ev_x ev - win_x w)) (s32 (ev_y ev - win_y w))
            (rn_sw r) (rn_sh r) (rn_sx r) (rn_sy r) (rn_running r), s)
  | HIT_RESIZE_R | HIT_RESIZE_B | HIT_RESIZE_BR =>
    let d := match hit with HIT_RESIZE_R => DRAG_RESIZE_R | HIT_RESIZE_B => DRAG_RESIZE_B | _ => DRAG_RESIZE_BR end in
    Some (Run (rn_mx r) (rn_my r) d (Some i) (rn_ox r) (rn_oy r) (win_w w) (win_h w) (ev_x ev) (ev_y ev) (rn_running r), s)
  | HIT_CLIENT => match win_on_event w with Some e => match e with end | None => Some (r, s) end
  | HIT_NONE => Some (r, s)
  end.
(** The topmost window hit. *)
Fixpoint click_windows (order : list nat) (ev : event_t) r s : option (run_t * wm_st) :=
  match order with
  | [] => Some (r, s)
  | i :: rest =>
    w ← ws_wins s !! i;
    match window_hit_test w (ev_x ev) (ev_y ev) with
    | HIT_NONE => click_windows rest ev r s
    | hit => on_hit i hit ev r s
    end
  end.

(** [scr_h]: the height of the screen. *)
Definition on_mouse_down (scr_h : Z) (ev : event_t) r s : option (run_t * wm_st) :=
  if negb (ev_code ev =? MOUSE_BTN_LEFT) then Some (r, s)
  else if ev_y ev >=? s32 (scr_h - TASKBAR_H) then
    order ← z_gather WM_MAX_WIN s;
    if (ev_x ev >=? 8) && (ev_x ev <? 8 + LAUNCH_BTN_W) then
      let n := Z.of_nat (length order) in
      '(_, s) ← spawn_demo_window (40 + 24 * n) (80 + 20 * n) s; Some (r, s)
    else s ← click_button (rev order) (8 + LAUNCH_BTN_W + BTN_GAP) (ev_x ev) s; Some (r, s)
  else order ← z_gather WM_MAX_WIN s; click_windows order ev r s.

Definition on_event (scr_h : Z) (ev : event_t) r s : option (run_t * wm_st) :=
  match ev_type ev with
  | EV_KEY_DOWN =>
    Some (if ev_code ev =? 0x01
          then Run (rn_mx r) (rn_my r) (rn_drag r) (rn_drag_win r) (rn_ox r) (rn_oy r) (rn_sw r) (rn_sh r) (rn_sx r) (rn_sy r) false
          else r, s)
  | EV_MOUSE_MOVE => on_mouse_move ev r s
  | EV_MOUSE_DOWN => on_mouse_down scr_h ev r s
  | EV_MOUSE_UP => Some (if ev_code ev =? MOUSE_BTN_LEFT then set_drag DRAG_NONE None r else r, s)
  | _ => Some (r, s)
  end.
(** The events of one frame, and whether one of them was not a movement. *)
Fixpoint on_events (scr_h : Z) (evs : list event_t) (structural : bool) r s : option (bool * run_t * wm_st) :=
  match evs with
  | [] => Some (structural, r, s)
  | ev :: evs =>
    let structural := match ev_type ev with EV_MOUSE_MOVE => structural | _ => true end in
    '(r, s) ← on_event scr_h ev r s; on_events scr_h evs structural r s
  end.

(** What the frame shows: everything, or the box around the old and the new cursor. *)
Definition frame_present (structural : bool) (frame_count prev_mx prev_my : Z) r : present_t :=
  if structural || (negb (bool_decide (rn_drag r = DRAG_NONE)) || (frame_count mod 8 =? 0)) then ugfx_present true
  else
    let mx := rn_mx r in let my := rn_my r in
    let ux := if prev_mx <? mx then prev_mx else mx in
    let uy := if prev_my <? my then prev_my else my in
    let ux2 := s32 ((if prev_mx >? mx then prev_mx else mx) + 13) in
    let uy2 := s32 ((if prev_my >? my then prev_my else my) + 20) in
    ugfx_present_rect true ux uy (s32 (ux2 - ux)) (s32 (uy2 - uy)).

(** One round of the loop of [wm_run] up to the wait: the events polled, the
    frame composed and what of it is presented. *)
Definition wm_frame (font_table : list Z) (evs : list event_t) (frame_count prev_mx prev_my : Z) r s (scr : ugfx_surface_t)
    : option (run_t * wm_st * ugfx_surface_t * present_t) :=
  '(structural, r, s) ← on_events (sf_h scr) evs false r s;
  order ← z_gather WM_MAX_WIN s;
  '(s, scr) ← compose font_table order (rn_mx r) (rn_my r) s scr;
  Some (r, s, scr, frame_present structural (u64 (frame_count + 1)) prev_mx prev_my r).

(** The frames while it runs, each with the events it polls. *)
Fixpoint wm_frames (font_table : list Z) (frames : list (list event_t)) (frame_count prev_mx prev_my : Z) r s (scr : ugfx_surface_t)
    : option (run_t * wm_st * ugfx_surface_t * list present_t) :=
  match frames with
  | [] => Some (r, s, scr, [])
  | evs :: frames =>
    if rn_running r then
      '(r, s, scr, p) ← wm_frame font_table evs frame_count prev_mx prev_my r s scr;
      '(r, s, scr, ps) ← wm_frames font_table frames (u64 (frame_count + 1)) (rn_mx r) (rn_my r) r s scr;
      Some (r, s, scr, p :: ps)
    else Some (r, s, scr, [])
  end.

(** [wm_run] after [ugfx_init] gave the screen. *)
Definition wm_start (scr : ugfx_surface_t) s : option (run_t * wm_st) :=
  let mx := Z.quot (sf_w scr) 2 in
  let my := Z.quot (sf_h scr) 2 in
  '(_, s) ← spawn_demo_window (s32 (mx - 320)) 96 s;
  '(_, s) ← spawn_demo_window (s32 (mx + 16)) 160 s;
  Some (Run mx my DRAG_NONE None 0 0 0 0 0 0 true, s).
Definition wm_run (font_table : list Z) (info : Z) (backbuf : list Z) (frames : list (list event_t)) s
    : option (option (run_t * wm_st * ugfx_surface_t * list present_t)) :=
  match ugfx_init info false (Surface 0 0 backbuf) with
  | None => Some None
  | Some scr =>
    '(r, s) ← wm_start scr s;
    x ← wm_frames font_table frames 0 (rn_mx r) (rn_my r) r s scr;
    Some (Some x)
  end.

(** The zeroed state of .user_bss. *)
Definition wm_bss : wm_st :=
  Wm (Pool (replicate 6 (Surface 0 0 (replicate (Z.to_nat (UGFX_POOL_W * UGFX_POOL_H)) 0))) 0) (replicate 6 win0) 0 None (replicate 6 (Ctx 0 0)) 0.
