(* ===== verification/WmProofs.v ===== *)
(** * The window manager is safe and keeps its z-order

    The z-order links of Wm.v carry a sequence of distinct windows, and the
    operations on the links are operations on the sequence; a click acts on the
    topmost window under the pointer; and from the zeroed state every run of
    the compositor, whatever events arrive, keeps the invariant of the pools
    and never leaves an array. *)

From S2P Require Import Prelude Kalloc Sched Ring Font Gfx GfxProofs Wm.

(** ** The sequence a chain of links carries *)

Definition hd_or (l : list nat) (n : option nat) : option nat := match l with i :: _ => Some i | [] => n end.
Fixpoint last_or (p : option nat) (l : list nat) : option nat := match l with [] => p | i :: l => last_or (Some i) l end.
(** [l] is linked both ways, comes after [p] and before [n]. *)
Fixpoint seg (ws : list window_t) (p : option nat) (l : list nat) (n : option nat) : Prop :=
  match l with
  | [] => True
  | i :: l => (exists w, ws !! i = Some w /\ win_prev w = p /\ win_next w = hd_or l n) /\ seg ws (Some i) l n
  end.

Lemma hd_or_app l1 l2 n : hd_or (l1 ++ l2) n = hd_or l1 (hd_or l2 n).
Proof. by destruct l1. Qed.
Lemma last_or_snoc p l i : last_or p (l ++ [i]) = Some i.
Proof. revert p. induction l as [|j l IH]; intros p; [done|apply IH]. Qed.
Lemma seg_app ws p l1 l2 n : seg ws p (l1 ++ l2) n <-> seg ws p l1 (hd_or l2 n) /\ seg ws (last_or p l1) l2 n.
Proof.
  revert p. induction l1 as [|i l1 IH]; intros p; cbn [app seg last_or]; [tauto|]. rewrite IH, hd_or_app. tauto.
Qed.
Lemma seg_frame ws p l n i f : i ∉ l -> seg (alter f i ws) p l n <-> seg ws p l n.
Proof.
  revert p. induction l as [|j l IH]; intros p Hi; cbn [seg]; [done|]. apply not_elem_of_cons in Hi as [Hij Hil].
  rewrite list_lookup_alter_ne, IH by done. done.
Qed.
Lemma seg_keep ws p l n i f :
  (forall w, win_prev (f w) = win_prev w /\ win_next (f w) = win_next w) -> seg ws p l n -> seg (alter f i ws) p l n.
Proof.
  intros Hf. revert p. induction l as [|j l IH]; intros p; cbn [seg]; [done|]. intros [(w & E & Hp & Hn) Hs]. split; [|by apply IH].
  destruct (decide (i = j)) as [->|Hij].
  - exists (f w). rewrite list_lookup_alter_eq, E. cbn. by rewrite (proj1 (Hf w)), (proj2 (Hf w)).
  - exists w. by rewrite list_lookup_alter_ne.
Qed.
Lemma seg_set_prev ws p q i l n : i ∉ l -> seg ws p (i :: l) n -> seg (alter (Wm.set_prev q) i ws) q (i :: l) n.
Proof.
  intros Hi [(w & E & Hp & Hn) Hs]. cbn [seg]. split; [|by apply seg_frame].
  exists (Wm.set_prev q w). by rewrite list_lookup_alter_eq, E.
Qed.
Lemma seg_set_next ws p i l n m : i ∉ l -> seg ws p (l ++ [i]) n -> seg (alter (Wm.set_next m) i ws) p (l ++ [i]) m.
Proof.
  intros Hi. rewrite !seg_app. intros [H1 [(w & E & Hp & Hn) _]]. split; [by apply seg_frame|]. split; [|done].
  exists (Wm.set_next m w). by rewrite list_lookup_alter_eq, E.
Qed.

(** ** The z-order *)

Record z_list (s : wm_st) (l : list nat) : Prop := {
  zl_nodup : NoDup l;
  zl_head : ws_head s = hd_or l None;
  zl_seg : seg (ws_wins s) None l None;
}.

(** A window but for its links. *)
Definition body (w : window_t) : window_t := Wm.set_next None (Wm.set_prev None w).
(** Two states that differ in links and the head only. *)
Definition same_but_links (s s' : wm_st) : Prop :=
  ws_pool s' = ws_pool s /\ ws_next s' = ws_next s /\ ws_ctxs s' = ws_ctxs s /\ ws_ctx_next s' = ws_ctx_next s /\
  body <$> ws_wins s' = body <$> ws_wins s.

Lemma body_alter f (i : nat) (ws : list window_t) : (forall w, body (f w) = body w) -> body <$> alter f i ws = body <$> ws.
Proof.
  intros Hf. apply list_eq. intros j. rewrite !list_lookup_fmap. destruct (decide (i = j)) as [->|Hij].
  - rewrite list_lookup_alter_eq. destruct (ws !! j); cbn; [by rewrite Hf|done].
  - by rewrite list_lookup_alter_ne.
Qed.
Lemma same_refl s : same_but_links s s.
Proof. done. Qed.
Lemma same_trans s1 s2 s3 : same_but_links s1 s2 -> same_but_links s2 s3 -> same_but_links s1 s3.
Proof. intros (? & ? & ? & ? & ?) (? & ? & ? & ? & ?). repeat split; congruence. Qed.

Lemma last_split (p : option nat) l : (l = [] /\ last_or p l = p) \/ exists l' i, l = l' ++ [i] /\ last_or p l = Some i.
Proof.
  destruct l as [|i l _] using rev_ind; [by left|]. right. exists l, i. by rewrite last_or_snoc.
Qed.

Lemma z_unlink_ok s l1 i l2 :
  z_list s (l1 ++ i :: l2) -> exists s', z_unlink i s = Some s' /\ z_list s' (l1 ++ l2) /\ same_but_links s s'.
Proof.
  intros [Hd Hh Hs]. apply NoDup_app in Hd as (Hd1 & Hx & Hd2). apply NoDup_cons in Hd2 as [Hi2 Hd2].
  assert (Hi1 : i ∉ l1) by (intros ?; apply (Hx i); [done|left]).
  apply seg_app in Hs as [Hs1 [(w & Ew & Hp & Hn) Hs2]]. cbn [hd_or] in Hs1.
  unfold z_unlink. rewrite Ew. cbn [mbind option_bind].
  set (s1 := match win_prev w with Some p => _ | None => _ end).
  assert (H1 : seg (ws_wins s1) None l1 (hd_or l2 None) /\ ws_head s1 = hd_or (l1 ++ l2) None
    /\ seg (ws_wins s1) (Some i) l2 None /\ same_but_links s s1).
  { unfold s1. rewrite Hp, Hn. destruct (last_split None l1) as [[-> ->]|(l' & j & -> & ->)].
    - done.
    - apply not_elem_of_app in Hi1 as [Hi1 Hij]. apply NoDup_app in Hd1 as (_ & Hj & _).
      assert (Hj' : j ∉ l') by (intros ?; apply (Hj j); [done|left]).
      cbn. split; [by eapply seg_set_next|]. split; [rewrite Hh; destruct l'; done|].
      split; [apply seg_frame; [|done]; intros ?; apply (Hx j); [rewrite elem_of_app; right; left|by right]|].
      repeat split. by apply body_alter. }
  destruct H1 as (Hs1' & Hh1 & Hs2' & Hsame). clearbody s1. clear Hs1 Hs2. rewrite Hp, Hn.
  set (s2 := match hd_or l2 None with Some n => _ | None => _ end).
  assert (H2 : seg (ws_wins s2) None l1 (hd_or l2 None) /\ ws_head s2 = hd_or (l1 ++ l2) None
    /\ seg (ws_wins s2) (last_or None l1) l2 None /\ same_but_links s s2).
  { unfold s2. destruct l2 as [|j l2]; [done|]. cbn [hd_or]. apply NoDup_cons in Hd2 as [Hj Hd2].
    split; [apply seg_frame; [|done]; intros ?; apply (Hx j); [done|right; left]|].
    split; [done|]. split; [by eapply seg_set_prev|]. eapply same_trans; [done|]. repeat split. by apply body_alter. }
  destruct H2 as (H1' & Hh2 & H2' & Hsame'). clearbody s2. eexists. split; [reflexivity|]. split; [split|].
  - apply NoDup_app. split; [done|]. split; [|done]. intros j Hj1 Hj2. apply (Hx j); [done|by right].
  - done.
  - cbn. apply seg_frame; [rewrite elem_of_app; tauto|]. by apply seg_app.
  - eapply same_trans; [done|]. repeat split. by apply body_alter.
Qed.

Lemma z_push_front_ok s l i :
  z_list s l -> i ∉ l -> is_Some (ws_wins s !! i) -> z_list (z_push_front i s) (i :: l) /\ same_but_links s (z_push_front i s).
Proof.
  intros [Hd Hh Hs] Hi [w Ew]. unfold z_push_front. cbn [ws_head upd_win]. rewrite Hh.
  assert (Hs0 : seg (alter (fun w => Wm.set_next (hd_or l None) (Wm.set_prev None w)) i (ws_wins s)) None l None) by by apply seg_frame.
  destruct l as [|j l]; cbn [hd_or].
  - split; [split|]; [by apply NoDup_cons|done| |].
    + cbn. split; [|done]. eexists. rewrite list_lookup_alter_eq, Ew. done.
    + repeat split. by apply body_alter.
  - apply NoDup_cons in Hd as Hd'. destruct Hd' as [Hj _]. apply not_elem_of_cons in Hi as Hi'. destruct Hi' as [Hij Hil].
    split; [split|]; [by apply NoDup_cons|done| |].
    + cbn [ws_wins upd_win set_head]. cbn [seg hd_or]. split; [|by eapply (seg_set_prev _ None)].
      eexists. rewrite list_lookup_alter_ne, list_lookup_alter_eq, Ew by done. done.
    + repeat split. cbn. by rewrite !body_alter.
Qed.

(** Bringing [i] to the front. *)
Definition without (i : nat) (l : list nat) : list nat := filter (fun j => j <> i) l.
Lemma without_id i l : i ∉ l -> without i l = l.
Proof.
  unfold without. induction l as [|j l IH]; [done|]. intros Hi. apply not_elem_of_cons in Hi as [Hij Hil].
  rewrite filter_cons_True by done. by rewrite IH.
Qed.
Lemma without_mid l1 i l2 : NoDup (l1 ++ i :: l2) -> without i (l1 ++ i :: l2) = l1 ++ l2.
Proof.
  intros Hd. apply NoDup_app in Hd as (_ & Hx & Hd). apply NoDup_cons in Hd as [Hi _].
  rewrite <- (without_id i l1) at 2 by (intros ?; apply (Hx i); [done|left]). rewrite <- (without_id i l2) at 2 by done.
  unfold without. rewrite filter_app, filter_cons_False by tauto. done.
Qed.
Lemma z_unlink_without s l i :
  z_list s l -> i ∈ l -> exists s', z_unlink i s = Some s' /\ z_list s' (without i l) /\ same_but_links s s'.
Proof.
  intros Hz Hi. apply list_elem_of_split in Hi as (l1 & l2 & ->). rewrite without_mid by apply Hz. by apply z_unlink_ok.
Qed.
Lemma without_notin i l : i ∉ without i l.
Proof. unfold without. rewrite list_elem_of_filter. tauto. Qed.
Lemma without_cons i l : without i (i :: without i l) = without i l.
Proof. pose proof (without_id i _ (without_notin i l)) as E. unfold without in *. by rewrite filter_cons_False by tauto. Qed.
Lemma same_lookup s s' i w : same_but_links s s' -> ws_wins s !! i = Some w -> exists w', ws_wins s' !! i = Some w' /\ body w' = body w.
Proof.
  intros (_ & _ & _ & _ & E) Hw. apply (f_equal (fun l => l !! i)) in E. rewrite !list_lookup_fmap, Hw in E.
  destruct (ws_wins s' !! i) as [w'|]; [|done]. exists w'. split; [done|]. by apply (inj Some) in E.
Qed.
Lemma seg_lookup ws p l n i : seg ws p l n -> i ∈ l -> is_Some (ws !! i).
Proof.
  revert p. induction l as [|j l IH]; intros p; cbn [seg]; [by rewrite elem_of_nil|].
  intros [(w & E & _) Hs]. rewrite elem_of_cons. intros [->|Hi]; [by exists w|eauto].
Qed.

Lemma z_raise_ok s l i :
  z_list s l -> i ∈ l -> exists s', z_raise i s = Some s' /\ z_list s' (i :: without i l) /\ same_but_links s s'.
Proof.
  intros Hz Hi. unfold z_raise. destruct (decide _) as [E|_].
  - exists s. split; [done|]. split; [|done]. rewrite (zl_head _ _ Hz) in E. destruct l as [|j l]; [done|]. injection E as ->.
    pose proof (without_mid [] i l (zl_nodup _ _ Hz)) as E. cbn [app] in E. by rewrite E.
  - destruct (seg_lookup _ _ _ _ _ (zl_seg _ _ Hz) Hi) as [w Hw].
    destruct (z_unlink_without s l i Hz Hi) as (s1 & -> & Hz1 & Hs1). cbn [mbind option_bind].
    destruct (same_lookup _ _ _ _ Hs1 Hw) as (w1 & Hw1 & _).
    destruct (z_push_front_ok s1 _ i Hz1 (without_notin i l)) as [Hz2 Hs2]; [by exists w1|].
    eexists. split; [reflexivity|]. split; [done|]. by eapply same_trans.
Qed.

Lemma z_gather_from_ok s p l max :
  seg (ws_wins s) p l None -> (length l <= max)%nat -> z_gather_from max (hd_or l None) s = Some l.
Proof.
  revert p max. induction l as [|i l IH]; intros p max Hs Hl; cbn [hd_or]; [by destruct max|].
  destruct max as [|max]; cbn [length] in Hl; [lia|]. cbn [z_gather_from]. destruct Hs as [(w & -> & _ & Hn) Hs].
  cbn [mbind option_bind]. rewrite Hn, (IH (Some i)) by (done || lia). done.
Qed.
Lemma z_gather_ok s l max : z_list s l -> (length l <= max)%nat -> z_gather max s = Some l.
Proof. intros [_ Hh Hs] Hl. unfold z_gather. rewrite Hh. by eapply z_gather_from_ok. Qed.

(** ** Drawing never fails *)

(** A well-formed surface of a given size. *)
Definition sized (W H : Z) (s : ugfx_surface_t) : Prop := surf_ok s /\ sf_w s = W /\ sf_h s = H.
Definition fits (x w : Z) : Prop := in_s32 x /\ in_s32 w /\ x + w < 2147483648.
(** Positions of the pointer, -1 included, which a key carries before the
    mouse has moved. *)
Definition pos_ok (x : Z) : Prop := -536870912 <= x < 536870912.
(** [font_table]: 16 bytes for each of 256 characters. *)
Definition font_ok (font : list Z) : Prop := length font = 4096%nat.
Ltac range := unfold fits, in_s32, pos_ok in *; lia.

Lemma ugfx_fill_ok W H s c : sized W H s -> W * H < 2147483648 -> exists s', ugfx_fill s c = Some s' /\ sized W H s'.
Proof.
  intros (Hs & EW & EH) HWH. pose proof Hs as (HW & HH & Hl). unfold ugfx_fill, gfx_fill, on_surface.
  rewrite EW, EH in *. rewrite s32_id by (unfold in_s32; nia).
  destruct (store_px_ok (sf_px s) 0 (replicate (Z.to_nat (W * H)) c)) as (px & -> & Hl' & _); [lia|rewrite length_replicate; nia|].
  eexists. split; [reflexivity|]. unfold sized, surf_ok. cbn. lia.
Qed.
Lemma ugfx_fill_rect_ok W H s x y w h c :
  sized W H s -> fits x w -> fits y h -> exists s', ugfx_fill_rect s x y w h c = Some s' /\ sized W H s'.
Proof.
  intros (Hs & EW & EH) (Hx & Hw & Hxw) (Hy & Hh & Hyh). unfold ugfx_fill_rect.
  destruct (gfx_fill_rect_ok s x y w h c) as (s' & -> & Hs' & Ew & Eh & _); try done.
  exists s'. split; [done|]. unfold sized. rewrite Ew, Eh. done.
Qed.
Lemma ugfx_draw_rect_ok W H s x y w h c :
  sized W H s -> fits x w -> fits y h -> 0 < w -> 0 < h -> -2147483648 < x -> -2147483648 < y ->
  exists s', ugfx_draw_rect s x y w h c = Some s' /\ sized W H s'.
Proof.
  intros Hs Hx Hy Hw Hh Hx0 Hy0. unfold ugfx_draw_rect, ugfx_hline, ugfx_vline, fits, in_s32 in *.
  rewrite (s32_id (y + h)), (s32_id (x + w)) by (unfold in_s32; lia). rewrite !s32_id by (unfold in_s32; lia).
  repeat (match goal with Hs : sized W H ?s |- context [ugfx_fill_rect ?s ?x ?y ?w ?h ?c] =>
    destruct (ugfx_fill_rect_ok W H s x y w h c Hs) as (? & -> & ?); [range..|]; clear Hs; cbn [mbind option_bind] end).
  eauto.
Qed.
Lemma ugfx_draw_text_ok font W H s x y text fg bg :
  font_ok font -> sized W H s -> exists s', ugfx_draw_text font s x y text fg bg = Some s' /\ sized W H s'.
Proof.
  intros Hf. revert s x. induction text as [|c text IH]; intros s x Hs; cbn [ugfx_draw_text]; [by exists s|].
  destruct Hs as (Hs & EW & EH). unfold ugfx_draw_char, load_px. unfold font_ok, FONT_H in *. assert (Hc : 0 <= u8 c < 256) by word.
  rewrite Hf, (proj2 (Z.leb_le 0 _)), (proj2 (Z.leb_le _ (Z.of_nat 4096))) by lia. cbn [andb mbind option_bind].
  destruct (draw_glyph_ok s x y (slice font (u8 c * 16) 16) fg bg Hs) as (s' & E & Hs' & Ew & Eh); [unfold slice; len|]. unfold FONT_H in E. rewrite E.
  cbn [mbind option_bind]. apply IH. unfold sized. by rewrite Ew, Eh.
Qed.
Lemma ugfx_draw_cursor_ok W H s x y : sized W H s -> exists s', ugfx_draw_cursor s x y = Some s' /\ sized W H s'.
Proof.
  intros (Hs & EW & EH). unfold ugfx_draw_cursor, gfx_draw_cursor, on_surface.
  destruct (draw_cursor_ok s x y Hs) as (s' & -> & Hs' & Ew & Eh). cbn [mbind option_bind].
  exists s'. split; [done|]. unfold sized. by rewrite Ew, Eh.
Qed.
Lemma ugfx_blit_rect_ok W H W' H' s dx dy src w h :
  sized W H s -> sized W' H' src -> fits dx w -> fits dy h -> 0 <= w -> 0 <= h ->
  exists s', ugfx_blit_rect s dx dy src 0 0 w h = Some s' /\ sized W H s'.
Proof.
  intros Hd Hsrc (Hdx & Hw & Hdw) (Hdy & Hh & Hdh) Hw0 Hh0. pose proof Hsrc as ((HW' & HH' & _) & EW' & EH').
  unfold ugfx_blit_rect.
  assert (Hc : match clip_src src 0 0 w h with None => True | Some (sx, sy, sw, sh) =>
    sx = 0 /\ sy = 0 /\ 0 <= sw <= w /\ sw <= sf_w src /\ 0 <= sh <= h /\ sh <= sf_h src end).
  { unfold clip_src, in_s32 in *. cbn [Z.ltb Z.compare]. rewrite !(s32_id (0 + _)) by (unfold in_s32; lia).
    rewrite !(s32_id (_ - 0)) by (unfold in_s32; lia). repeat bcase; try done; lia. }
  destruct (clip_src src 0 0 w h) as [[[[sx sy] sw] sh]|]; [|by exists s]. destruct Hc as (-> & -> & Hsw & Hsw' & Hsh & Hsh').
  destruct Hd as (Hs & EW & EH). pose proof Hs as (HW & HH & Hl).
  pose proof (clip_dst_ok s dx dy 0 0 sw sh HW HH Hdx Hdy) as Hc. unfold in_s32 in *.
  destruct (clip_dst s dx dy 0 0 sw sh) as [[[[[[dx' dy'] sx'] sy'] w'] h']|]; [|by exists s].
  destruct Hc as (Hx' & Hwp & Hxw' & Hy' & Hhp & Hyh' & Hsx & Hsxw & Hsy & Hsyh & _); try lia.
  destruct (copy_rect_ok s src dx' dy' sx' sy' w' h') as (s' & -> & Hok & Ew & Eh & _); try done; try lia; [apply Hsrc|].
  exists s'. split; [done|]. unfold sized. by rewrite Ew, Eh.
Qed.

(** Draws [s], the surface that the first operation of the goal gets, into a
    new surface of the same size. *)
Ltac drawn Hs H :=
  let s' := fresh "scr" in let Hs' := fresh "Hscr" in
  destruct H as (s' & -> & Hs'); [range..|]; clear Hs; cbn [mbind option_bind].
Ltac draw :=
  match goal with
  | Hs : sized ?W ?H ?s |- context [ugfx_fill ?s ?c] => drawn Hs (ugfx_fill_ok W H s c Hs)
  | Hs : sized ?W ?H ?s |- context [ugfx_fill_rect ?s ?x ?y ?w ?h ?c] => drawn Hs (ugfx_fill_rect_ok W H s x y w h c Hs)
  | Hs : sized ?W ?H ?s |- context [ugfx_draw_rect ?s ?x ?y ?w ?h ?c] => drawn Hs (ugfx_draw_rect_ok W H s x y w h c Hs)
  | Hs : sized ?W ?H ?s |- context [ugfx_draw_text ?f ?s ?x ?y ?t ?fg ?bg] => match goal with Hf : font_ok f |- _ => drawn Hs (ugfx_draw_text_ok f W H s x y t fg bg Hf Hs) end
  | Hs : sized ?W ?H ?s |- context [ugfx_draw_cursor ?s ?x ?y] => drawn Hs (ugfx_draw_cursor_ok W H s x y Hs)
  end.
Ltac s32s :=
  repeat match goal with
  | |- context [s32 ?e] => lazymatch e with context [s32 _] => fail | _ => rewrite (s32_id e) by range end
  end.
Ltac sizes := unfold WIN_MIN_H, WIN_TITLE_H, WIN_CLOSE_SZ, WIN_BORDER, TASKBAR_H, WIN_MIN_W, LAUNCH_BTN_W, WIN_BTN_W, BTN_GAP in *.

(** ** The invariant of the compositor *)

(** Window [i] has surface and demo context [i]; sizes stay between the minimum and the surface. *)
Record win_ok (i : nat) (w : window_t) : Prop := {
  wk_x : -536871312 <= win_x w <= 536870912;
  wk_y : -536871312 <= win_y w <= 536870912;
  wk_w : 120 <= win_w w <= 300;
  wk_h : 84 <= win_h w <= 224;
  wk_surface : win_surface w = i;
  wk_ctx : win_ctx w = i;
  wk_paint : win_on_paint w = Some demo_paint_fn;
  wk_event : win_on_event w = None;
}.

(** [l]: the open windows, topmost first. *)
Record wm_ok (l : list nat) (s : wm_st) : Prop := {
  wo_list : z_list s l;
  wo_next : (ws_next s <= 6)%nat;
  wo_pool : pool_next (ws_pool s) = ws_next s;
  wo_ctx : ws_ctx_next s = ws_next s;
  wo_lens : length (pool_surf (ws_pool s)) = 6%nat /\ length (ws_wins s) = 6%nat /\ length (ws_ctxs s) = 6%nat;
  wo_surfs : forall i sf, pool_surf (ws_pool s) !! i = Some sf ->
    if decide (i < ws_next s)%nat then sized 300 200 sf else Z.of_nat (length (sf_px sf)) = UGFX_POOL_W * UGFX_POOL_H;
  wo_wins : forall i w, ws_wins s !! i = Some w -> (i < ws_next s)%nat -> win_ok i w;
  wo_open : forall i, i ∈ l -> (i < ws_next s)%nat;
  wo_use : forall i w, ws_wins s !! i = Some w -> (i < ws_next s)%nat -> win_in_use w = b2z (bool_decide (i ∈ l));
}.

Record run_ok (s : wm_st) (r : run_t) : Prop := {
  ro_mx : pos_ok (rn_mx r); ro_my : pos_ok (rn_my r);
  ro_ox : 0 <= rn_ox r < 400; ro_oy : 0 <= rn_oy r < 400;
  ro_sw : 0 <= rn_sw r <= 300; ro_sh : 0 <= rn_sh r <= 224;
  ro_sx : pos_ok (rn_sx r); ro_sy : pos_ok (rn_sy r);
  ro_drag : rn_drag r = DRAG_NONE \/ exists i, rn_drag_win r = Some i /\ (i < ws_next s)%nat;
}.

Lemma wm_lookup l s i : wm_ok l s -> (i < ws_next s)%nat -> exists w, ws_wins s !! i = Some w /\ win_ok i w.
Proof.
  intros Hs Hi. destruct (lookup_lt_is_Some_2 (ws_wins s) i) as [w Hw]; [pose proof (wo_next _ _ Hs); pose proof (wo_lens _ _ Hs); lia|].
  exists w. split; [done|]. by apply (wo_wins _ _ Hs).
Qed.
Lemma wm_surface l s i : wm_ok l s -> (i < ws_next s)%nat -> exists sf, pool_surf (ws_pool s) !! i = Some sf /\ sized 300 200 sf.
Proof.
  intros Hs Hi. destruct (lookup_lt_is_Some_2 (pool_surf (ws_pool s)) i) as [sf Hsf]; [pose proof (wo_next _ _ Hs); pose proof (wo_lens _ _ Hs); lia|].
  exists sf. split; [done|]. pose proof (wo_surfs _ _ Hs _ _ Hsf) as H. by rewrite decide_True in H.
Qed.
Lemma wm_length l s : wm_ok l s -> (length l <= 6)%nat.
Proof.
  intros Hs. change 6%nat with (length (seq 0 6)). apply NoDup_incl_length.
  - apply NoDup_ListNoDup. apply Hs.
  - intros i Hi. apply in_seq. apply list_elem_of_In in Hi. pose proof (wo_open _ _ Hs i Hi). pose proof (wo_next _ _ Hs). lia.
Qed.
Lemma wm_gather l s : wm_ok l s -> z_gather WM_MAX_WIN s = Some l.
Proof. intros Hs. apply z_gather_ok; [apply Hs|by eapply wm_length]. Qed.

(** Reordering keeps the invariant of everything else. *)
Lemma win_ok_body i w w' : body w' = body w -> win_ok i w -> win_ok i w' /\ win_in_use w' = win_in_use w.
Proof. destruct w, w'. intros E. injection E as -> -> -> -> -> -> -> -> -> ->. intros [? ? ? ? ? ? ? ?]. by split. Qed.
Lemma wm_relink l l' s s' :
  wm_ok l s -> z_list s' l' -> same_but_links s s' -> (forall i, i ∈ l' <-> i ∈ l) -> wm_ok l' s'.
Proof.
  intros [Hz Hn Hp Hc (Hl1 & Hl2 & Hl3) Hsf Hw Ho Hu] Hz' Hsame Hll. pose proof Hsame as (E1 & E2 & E3 & E4 & E5).
  assert (Hback : forall i w', ws_wins s' !! i = Some w' -> exists w, ws_wins s !! i = Some w /\ body w' = body w).
  { intros i w' Hw'. destruct (ws_wins s !! i) as [w|] eqn:E.
    - destruct (same_lookup _ _ _ _ Hsame E) as (w'' & E' & Hb). exists w. split; [done|]. by rewrite Hw' in E'; injection E' as ->.
    - apply (f_equal length) in E5. rewrite !length_fmap in E5. apply lookup_ge_None in E. apply lookup_lt_Some in Hw'. lia. }
  split; rewrite ?E1, ?E2, ?E3, ?E4; try done.
  - split; [done|]. split; [|done]. apply (f_equal length) in E5. rewrite !length_fmap in E5. lia.
  - intros i w' Hw' Hi. destruct (Hback i w' Hw') as (w & Ew & Hb). by apply (win_ok_body i w w' Hb), Hw.
  - intros i Hi. apply Ho, Hll, Hi.
  - intros i w' Hw' Hi. destruct (Hback i w' Hw') as (w & Ew & Hb).
    rewrite (proj2 (win_ok_body i w w' Hb (Hw _ _ Ew Hi))), (Hu _ _ Ew Hi). f_equal. by apply bool_decide_ext.
Qed.
Lemma wm_raise l s i : wm_ok l s -> i ∈ l -> exists s', z_raise i s = Some s' /\ wm_ok (i :: without i l) s' /\ same_but_links s s'.
Proof.
  intros Hs Hi. destruct (z_raise_ok s l i) as (s' & -> & Hz & Hsame); [apply Hs|done|]. exists s'. split; [done|]. split; [|done].
  eapply wm_relink; [done|done|done|]. intros j. unfold without. rewrite elem_of_cons, list_elem_of_filter.
  destruct (decide (j = i)) as [->|]; [tauto|]. tauto.
Qed.

(** Changing the place of a window, within the bounds. *)
Lemma wm_place l s i f :
  wm_ok l s -> (forall w, win_ok i w -> win_ok i (f w)) ->
  (forall w, win_prev (f w) = win_prev w /\ win_next (f w) = win_next w /\ win_in_use (f w) = win_in_use w) ->
  wm_ok l (upd_win i f s).
Proof.
  intros [Hz Hn Hp Hc Hl Hsf Hw Ho Hu] Hf Hk. split; cbn; try done.
  - destruct Hz as [Hd Hh Hs]. split; [done|done|]. cbn. apply seg_keep; [|done]. intros w. split; apply Hk.
  - rewrite length_alter. done.
  - intros j w. rewrite list_lookup_alter. case_decide; [subst j|by apply Hw].
    destruct (ws_wins s !! i) as [w0|] eqn:E; [|done]. cbn. intros [= <-] Hj. by apply Hf, Hw.
  - intros j w. rewrite list_lookup_alter. case_decide; [subst j|by apply Hu].
    destruct (ws_wins s !! i) as [w0|] eqn:E; [|done]. cbn. intros [= <-] Hj. rewrite (proj2 (proj2 (Hk w0))). by apply Hu.
Qed.
(** Closing the window at the front. *)
Lemma wm_close l s i :
  wm_ok l s -> i ∈ l -> exists s', z_unlink i s = Some s' /\ wm_ok (without i l) (upd_win i (set_in_use 0) s').
Proof.
  intros Hs Hi. destruct (z_unlink_without s l i) as (s' & -> & Hz & Hsame); [apply Hs|done|]. exists s'. split; [done|].
  assert (Hi' : i ∉ without i l) by apply without_notin.
  destruct Hs as [_ Hn Hp Hc (Hl1 & Hl2 & Hl3) Hsf Hw Ho Hu]. pose proof Hsame as (E1 & E2 & E3 & E4 & E5).
  assert (Hlen : length (ws_wins s') = 6%nat) by (apply (f_equal length) in E5; rewrite !length_fmap in E5; lia).
  assert (Hback : forall j w', ws_wins s' !! j = Some w' -> (j < ws_next s)%nat ->
    exists w, ws_wins s !! j = Some w /\ win_ok j w' /\ win_in_use w' = win_in_use w).
  { intros j w' Hw' Hj. destruct (lookup_lt_is_Some_2 (ws_wins s) j) as [w Ew]; [lia|].
    destruct (same_lookup _ _ _ _ Hsame Ew) as (w'' & E' & Hb). rewrite Hw' in E'. injection E' as <-. exists w. split; [done|].
    by apply win_ok_body, Hw. }
  split; cbn; rewrite ?E1, ?E2, ?E3, ?E4; try done.
  - destruct Hz as [Hd Hh Hsg]. split; [done|done|]. cbn. by apply seg_keep.
  - by rewrite length_alter.
  - intros j w. rewrite list_lookup_alter. case_decide; [subst j|intros Hj1 Hj2; by destruct (Hback j w) as (? & ? & ? & ?)].
    destruct (ws_wins s' !! i) as [w0|] eqn:E; [|done]. cbn. intros [= <-] Hj.
    destruct (Hback i w0 E Hj) as (w1 & _ & [? ? ? ? ? ? ? ?] & _). by split.
  - intros j. unfold without. rewrite list_elem_of_filter. intros [_ Hj]. by apply Ho.
  - intros j w. rewrite list_lookup_alter. case_decide as Hij; [subst j|].
    + destruct (ws_wins s' !! i) as [w0|] eqn:E; [|done]. cbn. intros [= <-] Hj. by rewrite bool_decide_false.
    + intros Hj1 Hj2. destruct (Hback j w) as (w1 & Ew & _ & ->); [done..|]. rewrite (Hu _ _ Ew Hj2). f_equal. apply bool_decide_ext.
      unfold without. rewrite list_elem_of_filter. split; [intros; split; [by intros ->|done]|tauto].
Qed.

(** ** Opening a window *)

Lemma surface_of_pool px : Z.of_nat (length px) = UGFX_POOL_W * UGFX_POOL_H -> sized 300 200 (surface_of 300 200 px).
Proof.
  unfold UGFX_POOL_W, UGFX_POOL_H. intros Hl. unfold sized, surf_ok, surface_of. cbn [sf_w sf_h sf_px]. rewrite length_take. lia.
Qed.

(** The state and the new window's index, before it enters the z-order. *)
Lemma window_create_ok l s x y c :
  wm_ok l s -> (ws_next s < 6)%nat -> -536871312 <= x <= 536870912 -> -536871312 <= y <= 536870912 ->
  let dc := ws_ctx_next s in
  let s1 := Wm (ws_pool s) (ws_wins s) (ws_next s) (ws_head s) (<[dc := Ctx c 0]> (ws_ctxs s)) (S dc) in
  exists s', window_create x y 300 (WIN_TITLE_H + 200) str_window_title (Some demo_paint_fn) None dc s1 = Some (Some (ws_next s), s') /\
    wm_ok (ws_next s :: l) (z_push_front (ws_next s) s') /\ ws_next (z_push_front (ws_next s) s') = S (ws_next s).
Proof.
  intros Hs Hlt Hx Hy dc s1. pose proof Hs as [Hz Hn Hp Hc (Hl1 & Hl2 & Hl3) Hsf Hw Ho Hu]. set (n := ws_next s) in *.
  destruct (lookup_lt_is_Some_2 (pool_surf (ws_pool s)) n) as [sf Ef]; [lia|].
  pose proof (Hsf _ _ Ef) as Hpx. rewrite decide_False in Hpx by lia.
  unfold window_create. cbn [ws_next ws_pool s1]. rewrite (proj2 (Nat.leb_gt _ _)) by (unfold WM_MAX_WIN; lia).
  unfold ugfx_surface_from_pool. rewrite Hp, (proj2 (Nat.leb_gt _ _)) by (unfold UGFX_POOL_COUNT; lia). cbv zeta.
  change (s32 (WIN_TITLE_H + 200 - WIN_TITLE_H)) with 200. cbn [Z.gtb Z.compare UGFX_POOL_W UGFX_POOL_H Pos.compare Pos.compare_cont pool_surf].
  rewrite list_lookup_alter_eq, Ef. cbn [fmap option_fmap option_map mbind option_bind sf_h surface_of].
  change (s32 (WIN_TITLE_H + 200)) with 224. eexists. split; [reflexivity|]. cbn [ws_wins ws_head ws_ctxs ws_ctx_next s1].
  set (win := Win _ _ _ _ _ _ _ _ _ _ _ _). set (s2 := Wm _ _ _ _ _ _).
  assert (Hni : n ∉ l) by (intros Hi; apply Ho in Hi; unfold n in Hi; lia).
  assert (Hz2 : z_list s2 l).
  { destruct Hz as [Hd Hh Hsg]. split; [done|done|]. cbn. rewrite <- (list_alter_insert (fun _ => win) _ n (default win (ws_wins s !! n))).
    - by apply seg_frame.
    - destruct (lookup_lt_is_Some_2 (ws_wins s) n) as [w Ew]; [lia|]. by rewrite Ew. }
  destruct (z_push_front_ok s2 l n Hz2 Hni) as [Hz3 Hsame]; [exists win; cbn; apply list_lookup_insert_eq; lia|].
  pose proof Hsame as (E1 & E2 & E3 & E4 & E5).
  assert (Hlen : length (ws_wins (z_push_front n s2)) = 6%nat).
  { apply (f_equal length) in E5. rewrite !length_fmap in E5. rewrite E5. cbn. by rewrite length_insert. }
  assert (Hback : forall i w', ws_wins (z_push_front n s2) !! i = Some w' -> (i < S n)%nat ->
    win_ok i w' /\ win_in_use w' = b2z (bool_decide (i ∈ n :: l))).
  { intros i w' Hw' Hi. destruct (lookup_lt_is_Some_2 (ws_wins s2) i) as [w Ew]; [cbn; rewrite length_insert; lia|].
    destruct (same_lookup _ _ _ _ Hsame Ew) as (w'' & E' & Hb). rewrite Hw' in E'. injection E' as <-.
    assert (Hw0 : win_ok i w /\ win_in_use w = b2z (bool_decide (i ∈ n :: l))).
    { cbn in Ew. destruct (decide (i = n)) as [->|Hin].
      - rewrite list_lookup_insert_eq in Ew by lia. injection Ew as <-. split; [split; cbn; lia || done|].
        rewrite bool_decide_true by left. done.
      - rewrite list_lookup_insert_ne in Ew by done. split; [apply Hw; [done|unfold n in *; lia]|].
        rewrite (Hu _ _ Ew) by (unfold n in *; lia). f_equal. apply bool_decide_ext. rewrite elem_of_cons. tauto. }
    destruct (win_ok_body i w w' Hb (proj1 Hw0)) as [? ->]. split; [done|apply Hw0]. }
  split; [|by rewrite E2]. split; rewrite ?E1, ?E2, ?E3, ?E4; cbn; try done.
  - unfold dc. by rewrite Hc.
  - rewrite length_alter. split; [done|]. split; [done|]. by rewrite length_insert.
  - intros i sf'. rewrite list_lookup_alter. case_decide as Hin; [subst i; rewrite Ef|].
    + cbn. intros [= <-]. rewrite decide_True by lia. by apply surface_of_pool.
    + intros Hi. pose proof (Hsf _ _ Hi) as H. destruct (decide (i < n)%nat); [rewrite decide_True by (unfold n; lia); exact H|].
      rewrite decide_False by (unfold n in *; lia). exact H.
  - intros i w Hi1 Hi2. by apply Hback.
  - intros i. rewrite elem_of_cons. intros [->|Hi]; [lia|]. apply Ho in Hi. unfold n. lia.
  - intros i w Hi1 Hi2. by apply Hback.
Qed.

(** A seventh window is refused; otherwise the new one is on top. *)
Lemma spawn_ok l s x y :
  wm_ok l s -> -536871312 <= x <= 536870912 -> -536871312 <= y <= 536870912 ->
  exists w s', spawn_demo_window x y s = Some (w, s') /\
    wm_ok (if decide (ws_next s < 6)%nat then ws_next s :: l else l) s' /\ (ws_next s <= ws_next s')%nat.
Proof.
  intros Hs Hx Hy. unfold spawn_demo_window, WM_MAX_WIN. rewrite (wo_ctx _ _ Hs). case_decide as Hlt.
  - rewrite (proj2 (Nat.leb_gt _ _)) by lia.
    destruct (lookup_lt_is_Some_2 demo_palette (ws_next s)) as [c ->]; [done|]. cbn [mbind option_bind].
    destruct (window_create_ok l s x y c Hs Hlt Hx Hy) as (s' & E & Hs' & En). rewrite (wo_ctx _ _ Hs) in E. cbv zeta in *.
    rewrite E. cbn [mbind option_bind]. eexists _, _. split; [reflexivity|]. split; [done|]. lia.
  - rewrite (proj2 (Nat.leb_le _ _)) by lia. eexists _, s. by split.
Qed.

(** ** Composing a frame *)

Lemma bar_x_range frames : 8 <= bar_x 300 frames <= 272.
Proof.
  unfold bar_x. change (s32 (s32 (300 - 20) - 8)) with 272. cbn [Z.ltb Z.gtb Z.compare Pos.compare Pos.compare_cont].
  change (s32 (s32 (272 - 8) * 2)) with 528. change (u64 528) with 528. change (Z.quot 528 2) with 264. cbv zeta.
  assert (0 <= frames mod 528 < 528) by (apply Z.mod_pos_bound; lia). generalize dependent (frames mod 528). intros p Hp.
  s32s. bcase; s32s; lia.
Qed.

Lemma demo_on_paint_ok font w dc sf :
  font_ok font -> sized 300 200 sf -> exists dc' sf', demo_on_paint font w dc sf = Some (dc', sf') /\ sized 300 200 sf'.
Proof.
  intros Hf Hsf. unfold demo_on_paint. draw. draw. rewrite (proj1 (proj2 Hscr0)).
  pose proof (bar_x_range (dc_frames dc)). draw. eauto.
Qed.

Lemma paint_ok font l s i w :
  font_ok font -> wm_ok l s -> ws_wins s !! i = Some w -> (i < ws_next s)%nat ->
  exists s', paint font w s = Some s' /\ wm_ok l s' /\ ws_wins s' = ws_wins s /\ ws_next s' = ws_next s.
Proof.
  intros Hf Hs Ew Hi. unfold paint. pose proof (wo_wins _ _ Hs _ _ Ew Hi) as [_ _ _ _ -> -> -> _].
  destruct (wm_surface l s i Hs Hi) as (sf & Esf & Hsf).
  destruct Hs as [Hz Hn Hp Hc (Hl1 & Hl2 & Hl3) Hsfs Hw Ho Hu].
  destruct (lookup_lt_is_Some_2 (ws_ctxs s) i) as [dc ->]; [lia|]. cbn [mbind option_bind]. rewrite Esf. cbn [mbind option_bind].
  destruct (demo_on_paint_ok font w dc sf Hf Hsf) as (dc' & sf' & -> & Hsf'). cbn [mbind option_bind].
  eexists. split; [reflexivity|]. split; [|done]. split; cbn; try done.
  - by destruct Hz.
  - by rewrite !length_insert.
  - intros j sj. destruct (decide (i = j)) as [<-|Hij].
    + rewrite list_lookup_insert_eq by lia. intros [= <-]. by rewrite decide_True.
    + rewrite list_lookup_insert_ne by done. apply Hsfs.
Qed.

Section Screen.
Context (font : list Z) (Hfont : font_ok font) (W H : Z) (HW : 1 <= W <= 1024) (HH : 1 <= H <= 768).

Lemma draw_buttons_ok l s rl bx tb_y scr :
  wm_ok l s -> (forall i, i ∈ rl -> i ∈ l) -> sized W H scr -> 0 <= bx -> bx + 114 * Z.of_nat (length rl) < 10000 -> -100 <= tb_y <= 1000 ->
  exists scr', draw_buttons font rl bx tb_y s scr = Some scr' /\ sized W H scr'.
Proof.
  intros Hs. revert bx scr. induction rl as [|i rl IH]; intros bx scr Hrl Hscr Hbx Hlen Hy; cbn [draw_buttons]; [by exists scr|].
  cbn [length] in Hlen. destruct (wm_lookup l s i Hs) as (w & -> & Hw); [eapply wo_open; [done|]; apply Hrl; left|].
  cbn [mbind option_bind]. sizes. rewrite (proj1 (proj2 Hscr)). s32s. bcase; [by exists scr|].
  draw. draw. apply IH; [intros j Hj; apply Hrl; by right|done|lia..].
Qed.

Lemma draw_window_ok l s i scr :
  wm_ok l s -> i ∈ l -> sized W H scr ->
  exists s' scr', draw_window font i s scr = Some (s', scr') /\ wm_ok l s' /\ ws_wins s' = ws_wins s /\ ws_next s' = ws_next s /\ sized W H scr'.
Proof.
  intros Hs Hi Hscr. unfold draw_window. pose proof (wo_open _ _ Hs i Hi) as Hn.
  destruct (wm_lookup l s i Hs Hn) as (w & Ew & [Hx Hy Hww Hwh Hsf _ _ _]). rewrite Ew. cbn [mbind option_bind].
  destruct (paint_ok font l s i w Hfont Hs Ew Hn) as (s' & -> & Hs' & Ews & En). cbn [mbind option_bind].
  destruct (wm_surface l s' i Hs') as (sf & Esf & Hsf'); [by rewrite En|]. sizes. s32s.
  draw. draw. draw. draw.
  rewrite Hsf, Esf. cbn [mbind option_bind].
  destruct (ugfx_blit_rect_ok W H 300 200 scr3 (win_x w) (win_y w + 24) sf (win_w w) (win_h w - 24)) as (scr4 & -> & Hscr4); [done|done|range..|].
  cbn [mbind option_bind]. draw. by eexists _, _.
Qed.

Lemma draw_windows_ok l rl s scr :
  wm_ok l s -> (forall i, i ∈ rl -> i ∈ l) -> sized W H scr ->
  exists s' scr', draw_windows font rl s scr = Some (s', scr') /\ wm_ok l s' /\ ws_wins s' = ws_wins s /\ ws_next s' = ws_next s /\ sized W H scr'.
Proof.
  revert s scr. induction rl as [|i rl IH]; intros s scr Hs Hrl Hscr; cbn [draw_windows]; [by eexists _, _|].
  destruct (draw_window_ok l s i scr Hs) as (s1 & scr1 & -> & Hs1 & Ew1 & En1 & Hscr1); [apply Hrl; left|done|]. cbn [mbind option_bind].
  destruct (IH s1 scr1 Hs1) as (s2 & scr2 & -> & Hs2 & Ew2 & En2 & Hscr2); [intros j Hj; apply Hrl; by right|done|].
  exists s2, scr2. by rewrite Ew2, En2.
Qed.

Lemma compose_ok l s mx my scr :
  wm_ok l s -> sized W H scr ->
  exists s' scr', compose font l mx my s scr = Some (s', scr') /\ wm_ok l s' /\ ws_wins s' = ws_wins s /\ ws_next s' = ws_next s /\ sized W H scr'.
Proof.
  intros Hs Hscr. unfold compose. pose proof (wm_length l s Hs). assert (W * H < 2147483648) by nia.
  assert (Hrev : forall i, i ∈ rev l -> i ∈ l) by (intros i; rewrite !list_elem_of_In, <- in_rev; done).
  draw. rewrite (proj1 (proj2 Hscr0)), (proj2 (proj2 Hscr0)). sizes. s32s.
  draw. draw. draw.
  destruct (draw_buttons_ok l s (rev l) (8 + 64 + 4) (H - 32) scr3 Hs Hrev) as (scr4 & -> & Hscr4); [done|lia|rewrite length_rev; lia|lia|].
  cbn [mbind option_bind].
  destruct (draw_windows_ok l (rev l) s scr4 Hs Hrev Hscr4) as (s' & scr5 & -> & Hs' & Ew & En & Hscr5). cbn [mbind option_bind].
  draw. by eexists _, _.
Qed.
End Screen.

(** ** Events *)

Definition ev_ok (ev : event_t) : Prop := pos_ok (ev_x ev) /\ pos_ok (ev_y ev).

(** The window and its close button under the point. *)
Definition win_at (w : window_t) (x y : Z) : bool := in_rect (win_x w) (win_y w) (win_w w) (win_h w) x y.
Definition close_at (w : window_t) (x y : Z) : bool := in_rect (win_x w + win_w w - 20) (win_y w + 4) 16 16 x y.
Definition title_at (w : window_t) (x y : Z) : bool := in_rect (win_x w) (win_y w) (win_w w) 24 x y.

Lemma hit_test_ok i w x y :
  win_ok i w -> pos_ok x -> pos_ok y ->
  (window_hit_test w x y = HIT_NONE <-> win_at w x y = false) /\
  (window_hit_test w x y = HIT_CLOSE <-> close_at w x y = true) /\
  (window_hit_test w x y = HIT_TITLE <-> title_at w x y = true /\ close_at w x y = false).
Proof.
  intros [Hx Hy Hw Hh _ _ _ _] Hpx Hpy. unfold pos_ok in *. unfold window_hit_test. sizes. s32s.
  rewrite <- !not_true_iff_false. unfold win_at, close_at, title_at. rewrite !in_rect_true, !Z.geb_leb.
  repeat (bcase; try (split; [split; (done || lia)|split; split; (done || lia)])).
Qed.

Lemma run_ok_next s s' r : run_ok s r -> (ws_next s <= ws_next s')%nat -> run_ok s' r.
Proof. intros [] Hle. split; try done. destruct ro_drag0 as [?|(i & ? & ?)]; [by left|]. right. exists i. split; [done|lia]. Qed.
Lemma run_ok_same s s' r : run_ok s r -> same_but_links s s' -> run_ok s' r.
Proof. intros Hr (_ & E & _). eapply run_ok_next; [done|]. by rewrite E. Qed.

(** What a click on window [i] does to the order [l]. *)
Definition clicked (w : window_t) (i : nat) (x y : Z) (l : list nat) : list nat :=
  if close_at w x y then without i l else i :: without i l.

(** What it does altogether: a title starts a drag that remembers the pointer's place in the window. *)
Definition hit_result (r : run_t) (i : nat) (w : window_t) (x y : Z) (l : list nat) (res : option (run_t * wm_st)) : Prop :=
  exists r' s', res = Some (r', s') /\ wm_ok (clicked w i x y l) s' /\ run_ok s' r' /\
    (title_at w x y = true -> close_at w x y = false ->
     r' = Run (rn_mx r) (rn_my r) DRAG_MOVE (Some i) (x - win_x w) (y - win_y w) (rn_sw r) (rn_sh r) (rn_sx r) (rn_sy r) (rn_running r) /\
     exists w', ws_wins s' !! i = Some w' /\ body w' = body w).

Lemma on_hit_ok l s r i w ev :
  wm_ok l s -> run_ok s r -> i ∈ l -> ev_ok ev -> ws_wins s !! i = Some w -> win_at w (ev_x ev) (ev_y ev) = true ->
  hit_result r i w (ev_x ev) (ev_y ev) l (on_hit i (window_hit_test w (ev_x ev) (ev_y ev)) ev r s).
Proof.
  intros Hs Hr Hi [Hex Hey] Ew Hat. assert (Hn := wo_open _ _ Hs i Hi). assert (Hw := wo_wins _ _ Hs _ _ Ew Hn).
  destruct (hit_test_ok i w (ev_x ev) (ev_y ev) Hw Hex Hey) as (Hnone & Hclose & Htitle).
  unfold on_hit. destruct (wm_raise l s i Hs Hi) as (s1 & -> & Hs1 & Hsame). cbn [mbind option_bind].
  destruct (same_lookup _ _ _ _ Hsame Ew) as (w1 & Ew1 & Hb). rewrite Ew1. cbn [mbind option_bind].
  assert (Hr1 := run_ok_same _ _ _ Hr Hsame). assert (Hn1 : (i < ws_next s1)%nat) by by rewrite (proj1 (proj2 Hsame)).
  assert (Hw1 := proj1 (win_ok_body i w w1 Hb Hw)).
  assert (Hwb : win_x w1 = win_x w /\ win_y w1 = win_y w /\ win_w w1 = win_w w /\ win_h w1 = win_h w) by (destruct w, w1; by injection Hb as -> -> -> ->).
  destruct Hwb as (Ebx & Eby & Ebw & Ebh).
  unfold win_at in Hat. rewrite in_rect_true in Hat. destruct Hw as [Hx Hy Hww Hwh _ _ _ _]. unfold pos_ok in *.
  assert (Hdrag : forall d sw sh sx sy ox oy, 0 <= ox < 400 -> 0 <= oy < 400 -> 0 <= sw <= 300 -> 0 <= sh <= 224 -> pos_ok sx -> pos_ok sy ->
    run_ok s1 (Run (rn_mx r) (rn_my r) d (Some i) ox oy sw sh sx sy (rn_running r))).
  { intros. destruct Hr1. split; cbn; try done. right. by exists i. }
  assert (Hother : forall r1, window_hit_test w (ev_x ev) (ev_y ev) <> HIT_CLOSE -> window_hit_test w (ev_x ev) (ev_y ev) <> HIT_TITLE ->
    run_ok s1 r1 -> hit_result r i w (ev_x ev) (ev_y ev) l (Some (r1, s1))).
  { intros r1 Hne Hne' Hr'. unfold hit_result, clicked. destruct (close_at w _ _); [tauto|]. exists r1, s1. tauto. }
  destruct (window_hit_test w (ev_x ev) (ev_y ev)) eqn:Hit.
  - exfalso. apply (proj2 (not_true_iff_false _) (proj1 Hnone eq_refl)), in_rect_true. lia.
  - destruct (proj1 Htitle eq_refl) as [Ht Hc]. unfold hit_result, clicked. rewrite Ebx, Eby, Hc. s32s. eexists _, s1. split; [reflexivity|]. split; [done|].
    split; [|split; [done|by exists w1]]. apply Hdrag; [lia|lia|apply Hr1..].
  - unfold hit_result, clicked. rewrite (proj1 Hclose eq_refl). destruct (wm_close _ s1 i Hs1) as (s2 & E2 & Hs2); [left|]. rewrite E2. cbn [mbind option_bind].
    eexists r, _. split; [reflexivity|]. split; [|split; [|intros; congruence]].
    + by rewrite without_cons in Hs2.
    + eapply run_ok_next; [done|]. cbn. destruct (z_unlink_without _ _ i (wo_list _ _ Hs1)) as (s3 & E3 & _ & Hsame3); [left|].
      rewrite E2 in E3. injection E3 as <-. by rewrite (proj1 (proj2 Hsame3)).
  - rewrite (wk_event _ _ Hw1). by apply Hother.
  - apply Hother; [done|done|]. destruct Hr1. apply Hdrag; range.
  - apply Hother; [done|done|]. destruct Hr1. apply Hdrag; range.
  - apply Hother; [done|done|]. destruct Hr1. apply Hdrag; range.
Qed.

(** The first window of [l] under the point. *)
Fixpoint topmost (ws : list window_t) (x y : Z) (l : list nat) : option (nat * window_t) :=
  match l with
  | [] => None
  | i :: l => match ws !! i with Some w => if win_at w x y then Some (i, w) else topmost ws x y l | None => None end
  end.

Lemma click_windows_ok l l0 s r ev :
  wm_ok l s -> run_ok s r -> (forall i, i ∈ l0 -> i ∈ l) -> ev_ok ev ->
  match topmost (ws_wins s) (ev_x ev) (ev_y ev) l0 with
  | None => click_windows l0 ev r s = Some (r, s)
  | Some (i, w) => hit_result r i w (ev_x ev) (ev_y ev) l (click_windows l0 ev r s)
  end.
Proof.
  intros Hs Hr Hl0 Hev. induction l0 as [|i l0 IH]; cbn [topmost click_windows]; [done|].
  assert (Hi : i ∈ l) by (apply Hl0; left). destruct (wm_lookup l s i Hs (wo_open _ _ Hs i Hi)) as (w & Ew & Hw).
  rewrite Ew. cbn [mbind option_bind]. destruct (hit_test_ok i w (ev_x ev) (ev_y ev) Hw) as (Hnone & _); [apply Hev..|].
  destruct (win_at w (ev_x ev) (ev_y ev)) eqn:Hat.
  - pose proof (on_hit_ok l s r i w ev Hs Hr Hi Hev Ew Hat) as H. destruct (window_hit_test w (ev_x ev) (ev_y ev)); try done.
    discriminate (proj1 Hnone eq_refl).
  - rewrite (proj2 Hnone eq_refl). apply IH. intros j Hj. apply Hl0. by right.
Qed.

Lemma click_button_ok l rl s bx ex :
  wm_ok l s -> (forall i, i ∈ rl -> i ∈ l) ->
  exists l' s', click_button rl bx ex s = Some s' /\ wm_ok l' s' /\ (ws_next s <= ws_next s')%nat.
Proof.
  intros Hs. revert bx. induction rl as [|i rl IH]; intros bx Hrl; cbn [click_button]; [by exists l, s|].
  destruct (_ && _); [|apply IH; intros j Hj; apply Hrl; by right].
  destruct (wm_raise l s i Hs) as (s' & -> & Hs' & Hsame); [apply Hrl; left|]. eexists _, s'. split; [done|]. split; [done|].
  by rewrite (proj1 (proj2 Hsame)).
Qed.

Lemma on_mouse_down_ok l s r ev scr_h :
  wm_ok l s -> run_ok s r -> ev_ok ev ->
  exists r' s', on_mouse_down scr_h ev r s = Some (r', s') /\ (exists l', wm_ok l' s') /\ run_ok s' r'.
Proof.
  intros Hs Hr Hev. unfold on_mouse_down. destruct (negb _); [by exists r, s; split; [|split; [exists l|]]|].
  rewrite (wm_gather l s Hs). cbn [mbind option_bind]. pose proof (wm_length l s Hs) as Hlen. destruct (_ >=? _); [destruct (_ && _)|].
  - destruct (spawn_ok l s (40 + 24 * Z.of_nat (length l)) (80 + 20 * Z.of_nat (length l)) Hs) as (w & s' & -> & Hs' & Hle); [lia|lia|].
    cbn [mbind option_bind]. exists r, s'. split; [done|]. split; [by eexists|by eapply run_ok_next].
  - destruct (click_button_ok l (rev l) s (8 + LAUNCH_BTN_W + BTN_GAP) (ev_x ev) Hs) as (l' & s' & -> & Hs' & Hle).
    { intros i. rewrite !list_elem_of_In, <- in_rev. done. }
    cbn [mbind option_bind]. exists r, s'. split; [done|]. split; [by eexists|by eapply run_ok_next].
  - pose proof (click_windows_ok l l s r ev Hs Hr (fun _ H => H) Hev) as Hc. destruct (topmost _ _ _ _) as [[i w]|].
    + destruct Hc as (r' & s' & -> & Hs' & Hr' & _). exists r', s'. split; [done|]. split; [by eexists|done].
    + rewrite Hc. exists r, s. split; [done|]. split; [by exists l|done].
Qed.

(** [set_place] keeps links and use. *)
Lemma wm_set_place l s i x y w h :
  wm_ok l s -> -536871312 <= x <= 536870912 -> -536871312 <= y <= 536870912 -> 120 <= w <= 300 -> 84 <= h <= 224 ->
  wm_ok l (upd_win i (set_place x y w h) s).
Proof. intros Hs Hx Hy Hw Hh. apply wm_place; [done| |done]. intros win [_ _ _ _ ? ? ? ?]. by split. Qed.

(** A movement keeps the order; a window being moved follows the pointer. *)
Definition moved_result (l : list nat) (s : wm_st) (r : run_t) (ev : event_t) (res : option (run_t * wm_st)) : Prop :=
  exists r' s', res = Some (r', s') /\ wm_ok l s' /\ run_ok s' r' /\
    forall i w, rn_drag r = DRAG_MOVE -> rn_drag_win r = Some i -> ws_wins s !! i = Some w ->
      exists w', ws_wins s' !! i = Some w' /\
        win_x w' = ev_x ev - rn_ox r /\ win_y w' = ev_y ev - rn_oy r /\ win_w w' = win_w w /\ win_h w' = win_h w.

Lemma on_mouse_move_ok l s r ev : wm_ok l s -> run_ok s r -> ev_ok ev -> moved_result l s r ev (on_mouse_move ev r s).
Proof.
  intros Hs Hr [Hex Hey]. unfold on_mouse_move. cbn [rn_drag rn_drag_win rn_mx rn_my rn_ox rn_oy rn_sx rn_sy rn_sw rn_sh].
  set (r1 := Run _ _ _ _ _ _ _ _ _ _ _). destruct Hr as [Hmx Hmy Hox Hoy Hsw Hsh Hsx Hsy Hd].
  assert (Hr1 : run_ok s r1) by (split; done).
  assert (Hnone : rn_drag r = DRAG_NONE -> moved_result l s r ev (Some (r1, s))).
  { intros E. exists r1, s. split; [done|]. split; [done|]. split; [done|]. intros i w H. congruence. }
  destruct Hd as [E|(i & Ei & Hi)]; [rewrite E; by apply Hnone|].
  destruct (wm_lookup l s i Hs Hi) as (w & Ew & Hw). destruct (wm_surface l s i Hs Hi) as (sf & Esf & _ & EW & EH).
  destruct Hw as [Hx Hy Hww Hwh Ewsf _ _ _]. unfold moved_result in *. rewrite Ei.
  destruct (rn_drag r) eqn:Ed; [rewrite Ei in Hnone; by apply Hnone| |..];
    cbn [mbind option_bind]; rewrite Ew; cbn [mbind option_bind]; rewrite ?Ewsf, ?Esf; cbn [mbind option_bind];
    rewrite ?EW, ?EH; sizes; cbv zeta; eexists r1, _; (split; [reflexivity|]);
    cbn [resizes_r resizes_b orb bool_decide decide_rel drag_mode_eq]; unfold pos_ok in *; s32s.
  - split; [apply wm_set_place; [done|lia..]|]. split; [by apply (run_ok_next s)|]. intros i' w' _ [= <-] Ew'. rewrite Ew' in Ew. injection Ew as ->.
    exists (set_place (ev_x ev - rn_ox r) (ev_y ev - rn_oy r) (win_w w) (win_h w) w). cbn. by rewrite list_lookup_alter_eq, Ew'.
  - split; [apply wm_set_place; [done|repeat bcase; lia..]|]. split; [by apply (run_ok_next s)|]. by intros.
  - split; [apply wm_set_place; [done|repeat bcase; lia..]|]. split; [by apply (run_ok_next s)|]. by intros.
  - split; [apply wm_set_place; [done|repeat bcase; lia..]|]. split; [by apply (run_ok_next s)|]. by intros.
Qed.

Lemma on_event_ok l s r ev scr_h :
  wm_ok l s -> run_ok s r -> ev_ok ev ->
  exists r' s', on_event scr_h ev r s = Some (r', s') /\ (exists l', wm_ok l' s') /\ run_ok s' r'.
Proof.
  intros Hs Hr Hev. unfold on_event.
  assert (Hkeep : forall r', run_ok s r' -> exists r'' s', Some (r', s) = Some (r'', s') /\ (exists l', wm_ok l' s') /\ run_ok s' r'').
  { intros r' Hr'. exists r', s. split; [done|]. split; [by exists l|done]. }
  destruct (ev_type ev); try (by apply Hkeep).
  - apply Hkeep. destruct (_ =? _); [|done]. by destruct Hr.
  - destruct (on_mouse_move_ok l s r ev Hs Hr Hev) as (r' & s' & -> & Hs' & Hr' & _). exists r', s'. split; [done|]. split; [by exists l|done].
  - by eapply on_mouse_down_ok.
  - apply Hkeep. destruct (_ =? _); [|done]. destruct Hr. split; try done. by left.
Qed.

Lemma on_events_ok scr_h evs st l s r :
  wm_ok l s -> run_ok s r -> Forall ev_ok evs ->
  exists st' r' s', on_events scr_h evs st r s = Some (st', r', s') /\ (exists l', wm_ok l' s') /\ run_ok s' r'.
Proof.
  intros Hs Hr Hevs. revert st l s r Hs Hr. induction Hevs as [|ev evs Hev Hevs IH]; intros st l s r Hs Hr; cbn [on_events].
  - exists st, r, s. split; [done|]. split; [by exists l|done].
  - destruct (on_event_ok l s r ev scr_h Hs Hr Hev) as (r1 & s1 & -> & (l1 & Hs1) & Hr1). cbn [mbind option_bind]. by eapply IH.
Qed.

Lemma wm_frame_ok font W H evs fc pmx pmy l s r scr :
  font_ok font -> 1 <= W <= 1024 -> 1 <= H <= 768 -> wm_ok l s -> run_ok s r -> sized W H scr -> Forall ev_ok evs ->
  exists r' s' scr' p, wm_frame font evs fc pmx pmy r s scr = Some (r', s', scr', p) /\
    (exists l', wm_ok l' s') /\ run_ok s' r' /\ sized W H scr'.
Proof.
  intros Hfont HW HH Hs Hr Hscr Hevs. unfold wm_frame.
  destruct (on_events_ok (sf_h scr) evs false l s r Hs Hr Hevs) as (st & r1 & s1 & -> & (l1 & Hs1) & Hr1). cbn [mbind option_bind].
  rewrite (wm_gather l1 s1 Hs1). cbn [mbind option_bind].
  destruct (compose_ok font Hfont W H HW HH l1 s1 (rn_mx r1) (rn_my r1) scr Hs1 Hscr) as (s2 & scr2 & -> & Hs2 & _ & En & Hscr2).
  cbn [mbind option_bind]. eexists _, _, _, _. split; [reflexivity|]. split; [by eexists|]. split; [|done].
  eapply run_ok_next; [done|lia].
Qed.

Lemma wm_frames_ok font W H frames fc pmx pmy l s r scr :
  font_ok font -> 1 <= W <= 1024 -> 1 <= H <= 768 -> wm_ok l s -> run_ok s r -> sized W H scr -> Forall (Forall ev_ok) frames ->
  exists r' s' scr' ps, wm_frames font frames fc pmx pmy r s scr = Some (r', s', scr', ps) /\
    (exists l', wm_ok l' s') /\ run_ok s' r' /\ sized W H scr' /\ (rn_running r' = true -> length ps = length frames).
Proof.
  intros Hfont HW HH Hs Hr Hscr Hf. revert fc pmx pmy l s r scr Hs Hr Hscr.
  induction Hf as [|evs frames Hev Hf IH]; intros fc pmx pmy l s r scr Hs Hr Hscr; cbn [wm_frames].
  - eexists _, _, _, _. split; [reflexivity|]. split; [by eexists|]. done.
  - destruct (rn_running r) eqn:Er; [|by eexists _, _, _, []; split; [reflexivity|]; split; [by eexists|]; rewrite Er].
    destruct (wm_frame_ok font W H evs fc pmx pmy l s r scr) as (r1 & s1 & scr1 & p & -> & (l1 & Hs1) & Hr1 & Hscr1); try done.
    cbn [mbind option_bind].
    destruct (IH (u64 (fc + 1)) (rn_mx r1) (rn_my r1) l1 s1 r1 scr1 Hs1 Hr1 Hscr1) as (r2 & s2 & scr2 & ps & -> & Hs2 & Hr2 & Hscr2 & Hps).
    cbn [mbind option_bind]. eexists _, _, _, _. split; [reflexivity|]. split; [done|]. split; [done|]. split; [done|].
    intros E. cbn [length]. by rewrite (Hps E).
Qed.

Lemma wm_bss_ok : wm_ok [] wm_bss.
Proof.
  split; try done; try (intros i; by rewrite elem_of_nil).
  - split; [by apply NoDup_nil|done|done].
  - cbn [wm_bss ws_next]. lia.
  - intros i sf. cbn [wm_bss ws_pool pool_surf ws_next]. rewrite lookup_replicate. intros [-> _]. rewrite decide_False by lia.
    cbn [sf_px]. rewrite length_replicate. unfold UGFX_POOL_W, UGFX_POOL_H. lia.
  - intros i w _. cbn [wm_bss ws_next]. lia.
  - intros i w _. cbn [wm_bss ws_next]. lia.
Qed.

Lemma wm_start_ok W H scr :
  1 <= W <= 1024 -> 1 <= H <= 768 -> sized W H scr ->
  exists r s, wm_start scr wm_bss = Some (r, s) /\ (exists l, wm_ok l s) /\ run_ok s r.
Proof.
  intros HW HH (Hs & EW & EH). unfold wm_start. cbv zeta. rewrite EW, EH. assert (0 <= Z.quot W 2 <= 512) by zlia. assert (0 <= Z.quot H 2 <= 384) by zlia.
  s32s. destruct (spawn_ok [] wm_bss (Z.quot W 2 - 320) 96 wm_bss_ok) as (w1 & s1 & -> & Hs1 & _); [lia|lia|]. cbn [mbind option_bind].
  destruct (spawn_ok _ s1 (Z.quot W 2 + 16) 160 Hs1) as (w2 & s2 & -> & Hs2 & _); [lia|lia|]. cbn [mbind option_bind].
  eexists _, s2. split; [reflexivity|]. split; [by eexists|]. split; cbn; try range. by left.
Qed.

(** C11 (user/wm.c, user/window.c, user/ugfx.c, [wm_run]): whatever the events
    of the frames, at positions below 2^29 in absolute value (which the screen
    bounds of the mouse keep, and a key event before the first movement has -1),
    on any frame buffer of at most 1024 by 768 the compositor
    never leaves an array from the zeroed state on, and at the end of any
    number of frames the pools, the doubly-linked z-order of distinct open
    windows, the window sizes between the minimum and the surface, and the
    drag state are as the invariant says. *)
Theorem wm_run_safe font info backbuf frames :
  font_ok font -> Z.of_nat (length backbuf) = UGFX_MAX_W * UGFX_MAX_H -> Forall (Forall ev_ok) frames ->
  exists res, wm_run font info backbuf frames wm_bss = Some res /\
    match res with
    | None => ugfx_init info false (Surface 0 0 backbuf) = None
    | Some (r, s, scr, ps) =>
      (exists l, wm_ok l s) /\ run_ok s r /\ surf_ok scr /\ (rn_running r = true -> length ps = length frames)
    end.
Proof.
  intros Hfont Hb Hf. unfold wm_run. destruct (ugfx_init info false (Surface 0 0 backbuf)) as [scr|] eqn:E; [|by exists None].
  assert (Hscr : exists W H, 1 <= W <= 1024 /\ 1 <= H <= 768 /\ sized W H scr).
  { revert E. unfold ugfx_init, UGFX_MAX_W, UGFX_MAX_H in *. cbn [sf_px]. repeat bcase; try done. intros [= <-].
    exists (s32 (Z.shiftr info 32)), (s32 (Z.land info 4294967295)). split; [lia|]. split; [lia|].
    unfold sized, surf_ok, surface_of. cbn [sf_w sf_h sf_px]. rewrite length_take.
    generalize dependent (s32 (Z.shiftr info 32)). generalize dependent (s32 (Z.land info 4294967295)). intros. nia. }
  destruct Hscr as (W & H & HW & HH & Hscr).
  destruct (wm_start_ok W H scr HW HH Hscr) as (r & s & -> & (l & Hs) & Hr). cbn [mbind option_bind].
  destruct (wm_frames_ok font W H frames 0 (rn_mx r) (rn_my r) l s r scr Hfont HW HH Hs Hr Hscr Hf)
    as (r' & s' & scr' & ps & -> & Hs' & Hr' & Hscr' & Hps).
  cbn [mbind option_bind]. eexists. split; [reflexivity|]. split; [done|]. split; [done|]. split; [apply Hscr'|done].
Qed.

Lemma wm_run_safe_witness :
  let key := Event EV_KEY_DOWN 30 97 0 (-1) (-1) in
  let click := Event EV_MOUSE_DOWN 1 0 1 100 100 in
  Forall (Forall ev_ok) [[key; click]; [Event EV_MOUSE_MOVE 0 0 1 20 700]] /\
  exists res, wm_run (concat font8x16) (800 * 4294967296 + 600) (replicate (Z.to_nat (UGFX_MAX_W * UGFX_MAX_H)) 0)
                [[key; click]; [Event EV_MOUSE_MOVE 0 0 1 20 700]] wm_bss = Some (Some res).
Proof.
  cbv zeta. assert (Hf : Forall (Forall ev_ok) [[Event EV_KEY_DOWN 30 97 0 (-1) (-1); Event EV_MOUSE_DOWN 1 0 1 100 100]; [Event EV_MOUSE_MOVE 0 0 1 20 700]]).
  { repeat constructor; cbn; lia. }
  split; [exact Hf|].
  destruct (wm_run_safe (concat font8x16) (800 * 4294967296 + 600) (replicate (Z.to_nat (UGFX_MAX_W * UGFX_MAX_H)) 0)
    [[Event EV_KEY_DOWN 30 97 0 (-1) (-1); Event EV_MOUSE_DOWN 1 0 1 100 100]; [Event EV_MOUSE_MOVE 0 0 1 20 700]]) as ([res|] & E & H).
  - by vm_compute.
  - rewrite length_replicate. unfold UGFX_MAX_W, UGFX_MAX_H. lia.
  - exact Hf.
  - exists res. exact E.
  - discriminate H.
Defined.

(** C12 (user/wm.c, user/window.c, [wm_run], [window_hit_test], [z_raise], [z_unlink]):
    a left click above the taskbar acts on the topmost window under the
    pointer and on no other: its close button closes it, anything else brings
    it to the front of the others in their order; nothing under the pointer
    changes nothing. After a click on its title the window follows the
    pointer, keeping its size. *)
Theorem wm_click_correct l s r ev scr_h :
  wm_ok l s -> run_ok s r -> ev_ok ev -> ev_code ev = MOUSE_BTN_LEFT -> in_s32 (scr_h - TASKBAR_H) -> ev_y ev < scr_h - TASKBAR_H ->
  match topmost (ws_wins s) (ev_x ev) (ev_y ev) l with
  | None => on_mouse_down scr_h ev r s = Some (r, s)
  | Some (i, w) =>
    exists r' s', on_mouse_down scr_h ev r s = Some (r', s') /\ run_ok s' r' /\
      wm_ok (if close_at w (ev_x ev) (ev_y ev) then without i l else i :: without i l) s' /\
      (title_at w (ev_x ev) (ev_y ev) = true -> close_at w (ev_x ev) (ev_y ev) = false -> forall ev2, ev_ok ev2 ->
       exists r2 s2 w2, on_mouse_move ev2 r' s' = Some (r2, s2) /\ wm_ok (i :: without i l) s2 /\ ws_wins s2 !! i = Some w2 /\
         win_x w2 = win_x w + (ev_x ev2 - ev_x ev) /\ win_y w2 = win_y w + (ev_y ev2 - ev_y ev) /\
         win_w w2 = win_w w /\ win_h w2 = win_h w)
  end.
Proof.
  intros Hs Hr Hev Hc Hin Hy. unfold on_mouse_down. rewrite Hc, s32_id by done. cbn [Z.eqb MOUSE_BTN_LEFT Pos.eqb negb].
  rewrite Z.geb_leb, (proj2 (Z.leb_gt _ _)) by done. rewrite (wm_gather l s Hs). cbn [mbind option_bind].
  pose proof (click_windows_ok l l s r ev Hs Hr (fun _ H => H) Hev) as H. destruct (topmost _ _ _ _) as [[i w]|]; [|done].
  destruct H as (r' & s' & E & Hs' & Hr' & Hd). exists r', s'. split; [done|]. split; [done|]. split; [done|].
  intros Ht Hcl ev2 Hev2. destruct (Hd Ht Hcl) as (Er & w' & Ew' & Hb). unfold clicked in Hs'. rewrite Hcl in Hs'.
  destruct (on_mouse_move_ok _ s' r' ev2 Hs' Hr' Hev2) as (r2 & s2 & E2 & Hs2 & _ & Hm).
  destruct (Hm i w') as (w2 & Ew2 & Hx2 & Hy2 & Hw2 & Hh2); [by rewrite Er..|done|].
  assert (win_w w' = win_w w /\ win_h w' = win_h w) as [<- <-] by (destruct w, w'; by injection Hb as -> -> -> ->).
  rewrite Er in Hx2, Hy2. cbn [rn_ox rn_oy] in Hx2, Hy2. exists r2, s2, w2. repeat (split; [done || lia|]). done.
Qed.

Lemma wm_click_correct_witness :
  let ev x y := Event EV_MOUSE_DOWN 1 0 1 x y in
  let r := Run 400 300 DRAG_NONE None 0 0 0 0 0 0 true in
  exists s, wm_ok [0%nat] s /\
    (exists w, topmost (ws_wins s) 100 100 [0%nat] = Some (0%nat, w)) /\
    (exists r' s', on_mouse_down 600 (ev 100 100) r s = Some (r', s') /\ wm_ok [0%nat] s') /\
    (exists r' s', on_mouse_down 600 (ev 370 105) r s = Some (r', s') /\ wm_ok [] s').
Proof.
  cbv zeta. destruct (spawn_ok [] wm_bss 80 96 wm_bss_ok) as (w & s & E & Hs & Hn); [lia|lia|].
  change (wm_ok [0%nat] s) in Hs. apply (f_equal (option_map (fun p => ws_wins (snd p)))) in E. lazy in E. apply (inj Some) in E.
  lazymatch type of E with ?ws = _ => change (ws = ws_wins s) in E end.
  assert (Hr : run_ok s (Run 400 300 DRAG_NONE None 0 0 0 0 0 0 true)) by (split; cbn; try range; by left).
  assert (H1 : exists w, topmost (ws_wins s) 100 100 [0%nat] = Some (0%nat, w) /\ close_at w 100 100 = false)
    by (rewrite <- E; eexists; split; reflexivity).
  assert (H2 : exists w, topmost (ws_wins s) 370 105 [0%nat] = Some (0%nat, w) /\ close_at w 370 105 = true)
    by (rewrite <- E; eexists; split; reflexivity).
  destruct H1 as (w1 & H1 & Hc1), H2 as (w2 & H2 & Hc2). exists s. split; [exact Hs|]. split; [by exists w1|]. split.
  - pose proof (wm_click_correct [0%nat] s _ (Event EV_MOUSE_DOWN 1 0 1 100 100) 600 Hs Hr) as H. cbn [ev_x ev_y] in H. rewrite H1, Hc1 in H.
    destruct H as (r' & s' & E1 & _ & Hs' & _); [split; cbn; range|done|unfold TASKBAR_H; range|unfold TASKBAR_H; lia|]. by exists r', s'.
  - pose proof (wm_click_correct [0%nat] s _ (Event EV_MOUSE_DOWN 1 0 1 370 105) 600 Hs Hr) as H. cbn [ev_x ev_y] in H. rewrite H2, Hc2 in H.
    destruct H as (r' & s' & E1 & _ & Hs' & _); [split; cbn; range|done|unfold TASKBAR_H; range|unfold TASKBAR_H; lia|]. by exists r', s'.
Defined.
