(* ===== verification/Vol.v ===== *)
(** * Read-only volumes

    What the drivers that only read (fs/xfs.c, fs/ntfs.c) share: the pools of
    mounted volumes and of nodes, the checked accesses to a buffer, and the
    transfer of a range of bytes block by block. A pointer to a pool element
    is its index. *)

From S2P Require Import Prelude Blk BlkProofs Fat32.

(** The used parts of [fs_pool] and [node_pool]. *)
Record vol_st (F : Type) := Vol { vl_dev : dev; vl_fs : list F; vl_nodes : list vfs_node_t }.
Arguments Vol {F} _ _ _.
Arguments vl_dev {F} _.
Arguments vl_fs {F} _.
Arguments vl_nodes {F} _.

Global Program Instance vol_has_dev F : HasDev (vol_st F) := {|
  get_dev := vl_dev;
  set_dev d s := Vol d (vl_fs s) (vl_nodes s) |}.
Solve Obligations with by intros; try destruct s.

Section Pools.
Context {F : Type}.

Definition fs_at (i : nat) : M (vol_st F) F := fun s => fs ← vl_fs s !! i; Some (fs, s).
Definition node_at (i : nat) : M (vol_st F) vfs_node_t := fun s => n ← vl_nodes s !! i; Some (n, s).
Definition set_fs_at (i : nat) (fs : F) : M (vol_st F) unit := modify (fun s => Vol (vl_dev s) (<[i := fs]> (vl_fs s)) (vl_nodes s)).
Definition set_node_at (i : nat) (n : vfs_node_t) : M (vol_st F) unit :=
  modify (fun s => Vol (vl_dev s) (vl_fs s) (<[i := n]> (vl_nodes s))).
(** [alloc_node] and [alloc_fs] of a driver with pools of [max] elements. *)
Definition pool_node (max : Z) : M (vol_st F) (option nat) := fun s =>
  if Z.of_nat (length (vl_nodes s)) >=? max then Some (None, s)
  else Some (Some (length (vl_nodes s)), Vol (vl_dev s) (vl_fs s) (vl_nodes s ++ [node0])).
Definition pool_fs (fs0 : F) (max : Z) : M (vol_st F) (option nat) := fun s =>
  if Z.of_nat (length (vl_fs s)) >=? max then Some (None, s)
  else Some (Some (length (vl_fs s)), Vol (vl_dev s) (vl_fs s ++ [fs0]) (vl_nodes s)).
End Pools.

(** ** Checked accesses *)

Section Access.
Context {St : Type}.

(** [n] bytes at [off] of a buffer: an access behind the buffer is a fault. *)
Definition ldn (b : list Z) (off n : Z) : M St (list Z) :=
  if (0 <=? off) && (off + n <=? Z.of_nat (length b)) then mret (slice b off n) else diverge.
Definition ldw (n : Z) (b : list Z) (off : Z) : M St Z := v ← ldn b off n; mret (le_val v).
(** The same, most significant byte first. *)
Definition ldbe (n : Z) (b : list Z) (off : Z) : M St Z := v ← ldn b off n; mret (le_val (rev v)).
(** A condition of what C defines. *)
Definition require (b : bool) : M St unit := if b then mret tt else diverge.

Lemma ldn_ok b off n (s : St) : 0 <= off -> off + n <= Z.of_nat (length b) -> ldn b off n s = Some (slice b off n, s).
Proof. intros. unfold ldn. destruct (Z.leb_spec 0 off), (Z.leb_spec (off + n) (Z.of_nat (length b))); (done || lia). Qed.
Lemma ldw_ok n b off (s : St) : 0 <= off -> off + n <= Z.of_nat (length b) -> ldw n b off s = Some (le_val (slice b off n), s).
Proof. intros. unfold ldw. by rewrite (bind_eq _ _ _ _ _ (ldn_ok b off n s ltac:(done) ltac:(done))). Qed.
Lemma ldbe_ok n b off (s : St) : 0 <= off -> off + n <= Z.of_nat (length b) -> ldbe n b off s = Some (le_val (rev (slice b off n)), s).
Proof. intros. unfold ldbe. by rewrite (bind_eq _ _ _ _ _ (ldn_ok b off n s ltac:(done) ltac:(done))). Qed.
Lemma require_ok (s : St) : require true s = Some (tt, s).
Proof. done. Qed.
End Access.

(** ** The state a read leaves *)

(** The sectors and the pools are as before. *)
Definition same_vol {F} (s s' : vol_st F) : Prop :=
  dv_sectors (vl_dev s') = dv_sectors (vl_dev s) /\ vl_fs s' = vl_fs s /\ vl_nodes s' = vl_nodes s.

Lemma same_vol_refl {F} (s : vol_st F) : same_vol s s.
Proof. done. Qed.
Lemma same_vol_trans {F} (s s1 s2 : vol_st F) : same_vol s s1 -> same_vol s1 s2 -> same_vol s s2.
Proof. unfold same_vol. intros (-> & -> & ->) (-> & -> & ->). done. Qed.
Lemma same_vol_dev {F} (s s' : vol_st F) : same_vol s s' -> dev_sectors_ok (vl_dev s) -> dev_sectors_ok (vl_dev s').
Proof. intros [E _]. unfold dev_sectors_ok. by rewrite E. Qed.
Lemma same_vol_sectors {F} (s s' : vol_st F) drv drive lba n :
  same_vol s s' -> sectors_at (vl_dev s') drv drive lba n = sectors_at (vl_dev s) drv drive lba n.
Proof. intros [E _]. apply sectors_at_ext. intros i _. unfold sector_at. by rewrite E. Qed.
#[export] Hint Resolve same_vol_refl same_vol_dev : core.

(** A successful read command on such a state. *)
Lemma vol_read_ok {F} (fault : nat -> option nat) (nofault : forall k, fault k = None) type drive lba count (s : vol_st F) :
  0 <= drive < 256 -> in_u64 lba -> 1 <= count < 256 ->
  exists s', blk_read fault type drive lba count s =
      Some (Some (sectors_at (vl_dev s) (blk_driver type) drive lba (Z.to_nat count)), s') /\ same_vol s s'.
Proof. intros. rewrite (blk_read_ok fault nofault) by done. eexists. split; [reflexivity|]. done. Qed.

(** A range is cut at the end of the buffer. *)
Lemma slice_cut (b : list Z) off n : 0 <= off <= Z.of_nat (length b) -> 0 <= n ->
  slice b off n = slice b off (Z.min n (Z.of_nat (length b) - off)).
Proof.
  intros Ho Hn. unfold slice. destruct (Z.min_spec n (Z.of_nat (length b) - off)) as [[? ->]|[? ->]]; [done|].
  rewrite !take_ge by (rewrite length_drop; lia). done.
Qed.

(** ** Transfers block by block *)

(** A loop whose rounds append the rest of the current block, or of the range
    asked for, to what was read collects the range; it takes a round per block
    and one more. [g] is the state of the loop when a list was read. *)
Section Transfer.
Context {St A R : Type} (P : St -> Prop) (g : list Z -> A) (round : A -> M St (A + R)) (fin : list Z -> R).
Context (C : list Z) (bs offset size : Z) (Hbs : 0 < bs) (Ho : 0 <= offset) (Hend : offset + size <= Z.of_nat (length C)).
Context (Hround : forall s out, P s -> Z.of_nat (length out) < size ->
  let cur := offset + Z.of_nat (length out) in
  exists s', round (g out) s = Some (inl (g (out ++ slice C cur (Z.min (bs - cur mod bs) (size - Z.of_nat (length out))))), s') /\ P s').
Context (Hfin : forall s out, Z.of_nat (length out) = size -> round (g out) s = Some (inr (fin out), s)).

Lemma transfer_from_ok n s out :
  P s -> let done := Z.of_nat (length out) in out = slice C offset done ->
  (done < size /\ (offset + size + bs - 1) / bs - (offset + done) / bs < Z.of_nat n) \/ (done = size /\ (0 < n)%nat) ->
  exists s', loop n round (g out) s = Some (fin (slice C offset size), s') /\ P s'.
Proof.
  revert s out. induction n as [|n IH]; intros s out Hs done_ Hout Hcase.
  { exfalso. destruct Hcase as [[? Hn]|[]]; [|lia]. assert ((offset + done_) / bs <= (offset + size + bs - 1) / bs) by (apply Z.div_le_mono; lia). lia. }
  destruct (Z.eq_dec done_ size) as [E|Hne].
  { exists s. split; [|done]. apply loop_exit. rewrite Hout, E. apply Hfin. rewrite <- E, <- Hout. done. }
  destruct Hcase as [[Hlt Hn]|[]]; [|done]. destruct (Hround s out Hs Hlt) as (s1 & E1 & Hs1). fold done_ in E1.
  rewrite (loop_step _ _ _ _ _ _ E1). set (cur := offset + done_) in *. set (copy := Z.min _ _) in E1 |- *.
  pose proof (Z.mod_pos_bound cur bs ltac:(lia)) as Hmod. assert (Hcopy : 0 < copy <= size - done_) by (unfold copy; lia).
  assert (Hl : Z.of_nat (length (slice C cur copy)) = copy) by (apply slice_length; lia).
  assert (El : Z.of_nat (length (out ++ slice C cur copy)) = done_ + copy) by (rewrite length_app; lia).
  assert (Hlast : cur / bs + 1 <= (offset + size + bs - 1) / bs) by (rewrite <- Z.div_add by lia; apply Z.div_le_mono; lia).
  apply (IH s1 _ Hs1); rewrite El.
  - rewrite <- slice_app by lia. fold cur. by rewrite <- Hout.
  - destruct (Z.eq_dec (done_ + copy) size) as [E|Hne2]; [right; lia|left; split; [lia|]].
    assert (Ec : copy = bs - cur mod bs) by (unfold copy; lia).
    replace (offset + (done_ + copy)) with ((cur / bs + 1) * bs) by (rewrite Ec; pose proof (Z.div_mod cur bs); unfold cur in *; lia).
    rewrite Z.div_mul by lia. lia.
Qed.

Lemma transfer_ok n s :
  P s -> 0 <= size -> (size = 0 /\ (0 < n)%nat) \/ (offset + size + bs - 1) / bs - offset / bs < Z.of_nat n ->
  exists s', loop n round (g []) s = Some (fin (slice C offset size), s') /\ P s'.
Proof.
  intros Hs Hsz Hn. apply transfer_from_ok; [done|cbn; by rewrite slice_0|]. cbn [length Z.of_nat]. rewrite Z.add_0_r.
  destruct (Z.eq_dec size 0) as [E|]; [right|left; lia]. split; [done|]. destruct Hn as [[]|Hn]; [done|].
  assert (offset / bs <= (offset + size + bs - 1) / bs) by (apply Z.div_le_mono; lia). lia.
Qed.
End Transfer.
