(* ===== verification/Ext2.v ===== *)
(** * The ext2 driver

    Models fs/ext2.c over the block devices of Blk.v: group descriptors,
    inodes, the bitmap allocators, the mapping of logical blocks (direct,
    indirect, extents), directory scanning, reading, writing, creation,
    renaming, deletion, defragmentation and mounting. An inode, a group
    descriptor and a directory entry are the bytes the packed C structures
    overlay. A pointer to a pool element ([fs_pool], [node_pool]) is its
    index. The four scratch buffers of 4096 bytes are local values: the bytes
    the last transfer filled. [None] is divergence, a division by zero, a bad
    pool index, a transfer larger than the buffer, or an access to a buffer
    behind the bytes that were transferred. *)

From S2P Require Import Prelude Blk Fat32.

Definition MAX_EXT2_FS : Z := 4.
Definition MAX_EXT2_NODES : Z := 128.
Definition EXT2_MAGIC : Z := 0xEF53.
Definition EXT2_ROOT_INO : Z := 2.
Definition EXT2_S_IFDIR : Z := 0x4000.
Definition EXT2_S_IFREG : Z := 0x8000.
Definition EXT4_EXTENTS_FL : Z := 0x00080000.
Definition EXT2_FT_REG_FILE : Z := 1.
Definition EXT2_FT_DIR : Z := 2.
Definition EXT4_EXT_MAGIC : Z := 0xF30A.
Definition EXT2_VALID_FS : Z := 0x0001.
Definition EXT2_SUPPORTED_INCOMPAT : Z := Z.lor 0x0002 0x0040.
Definition EXT2_SUPPORTED_ROCOMPAT_FOR_WRITE : Z := Z.lor (Z.lor 0x0001 0x0002) (Z.lor 0x0008 0x0020).

(** ** Structures on disk: offsets of the fields *)

Definition sb_inodes_count (b : list Z) : Z := get32 b 0.
Definition sb_blocks_count (b : list Z) : Z := get32 b 4.
Definition sb_first_data_block (b : list Z) : Z := get32 b 20.
Definition sb_log_block_size (b : list Z) : Z := get32 b 24.
Definition sb_blocks_per_group (b : list Z) : Z := get32 b 32.
Definition sb_inodes_per_group (b : list Z) : Z := get32 b 40.
Definition sb_magic (b : list Z) : Z := get16 b 56.
Definition sb_state (b : list Z) : Z := get16 b 58.
Definition sb_rev_level (b : list Z) : Z := get32 b 76.
Definition sb_first_ino (b : list Z) : Z := get32 b 84.
Definition sb_inode_size (b : list Z) : Z := get16 b 88.
Definition sb_feature_incompat (b : list Z) : Z := get32 b 96.
Definition sb_feature_ro_compat (b : list Z) : Z := get32 b 100.

Definition bg_block_bitmap (g : list Z) : Z := get32 g 0.
Definition bg_inode_bitmap (g : list Z) : Z := get32 g 4.
Definition bg_inode_table (g : list Z) : Z := get32 g 8.
Definition bg_free_blocks_count (g : list Z) : Z := get16 g 12.
Definition bg_free_inodes_count (g : list Z) : Z := get16 g 14.

Definition i_mode (i : list Z) : Z := get16 i 0.
Definition i_size (i : list Z) : Z := get32 i 4.
Definition i_links_count (i : list Z) : Z := get16 i 26.
Definition i_blocks (i : list Z) : Z := get32 i 28.
Definition i_flags (i : list Z) : Z := get32 i 32.
Definition i_block (i : list Z) (k : Z) : Z := get32 i (40 + 4 * k).
Definition i_size_high (i : list Z) : Z := get32 i 108.
Definition set_i_size (v : Z) (i : list Z) : list Z := put32 i 4 v.
Definition set_i_links_count (v : Z) (i : list Z) : list Z := put16 i 26 v.
Definition set_i_blocks (v : Z) (i : list Z) : list Z := put32 i 28 v.
Definition set_i_block (k v : Z) (i : list Z) : list Z := put32 i (40 + 4 * k) v.

(** ** State *)

Record ext2_fs_t := Efs {
  ef_drive : Z;
  ef_drive_type : Z;
  ef_part_lba : Z;
  ef_block_size : Z;
  ef_sectors_per_block : Z;
  ef_inodes_per_group : Z;
  ef_blocks_per_group : Z;
  ef_inode_size : Z;
  ef_first_data_block : Z;
  ef_groups_count : Z;
  ef_blocks_count : Z;
  ef_inodes_count : Z;
  ef_first_ino : Z;
  ef_write_supported : bool;
}.

(** The used parts of the pools; [n_private] of a node is the index of its
    file system, [OpsDir] and [OpsFile] the callbacks of ext2. *)
Record ext_st := Ext { xt_dev : dev; xt_fs : list ext2_fs_t; xt_nodes : list vfs_node_t }.
Definition ext_boot (d : dev) : ext_st := Ext d [] [].

Global Program Instance ext_has_dev : HasDev ext_st := {|
  get_dev := xt_dev;
  set_dev d s := Ext d (xt_fs s) (xt_nodes s) |}.
Solve Obligations with by intros; try destruct s.

Definition efs (i : nat) : M ext_st ext2_fs_t := fun s => fs ← xt_fs s !! i; Some (fs, s).
Definition enode (i : nat) : M ext_st vfs_node_t := fun s => n ← xt_nodes s !! i; Some (n, s).
Definition set_enode (i : nat) (n : vfs_node_t) : M ext_st unit :=
  modify (fun s => Ext (xt_dev s) (xt_fs s) (<[i := n]> (xt_nodes s))).

Definition alloc_node : M ext_st (option nat) := fun s =>
  if Z.of_nat (length (xt_nodes s)) >=? MAX_EXT2_NODES then Some (None, s)
  else Some (Some (length (xt_nodes s)), Ext (xt_dev s) (xt_fs s) (xt_nodes s ++ [node0])).
Definition efs0 : ext2_fs_t := Efs 0 0 0 0 0 0 0 0 0 0 0 0 0 false.
Definition alloc_fs : M ext_st (option nat) := fun s =>
  if Z.of_nat (length (xt_fs s)) >=? MAX_EXT2_FS then Some (None, s)
  else Some (Some (length (xt_fs s)), Ext (xt_dev s) (xt_fs s ++ [efs0]) (xt_nodes s)).

(** ** Checked accesses to a buffer, and division *)

Definition ld (b : list Z) (off n : Z) : M ext_st (list Z) :=
  if (0 <=? off) && (off + n <=? Z.of_nat (length b)) then mret (slice b off n) else diverge.
Definition ld8 (b : list Z) (off : Z) : M ext_st Z := v ← ld b off 1; mret (get8 v 0).
Definition ld16 (b : list Z) (off : Z) : M ext_st Z := v ← ld b off 2; mret (get16 v 0).
Definition ld32 (b : list Z) (off : Z) : M ext_st Z := v ← ld b off 4; mret (get32 v 0).
Definition st (b : list Z) (off : Z) (l : list Z) : M ext_st (list Z) :=
  if (0 <=? off) && (off + Z.of_nat (length l) <=? Z.of_nat (length b)) then mret (splice b off l) else diverge.
Definition nonzero (d : Z) : M ext_st unit := if d =? 0 then diverge else mret tt.

Section Ext2.
Context (fault : nat -> option nat).
(** Rounds allowed to the loops over directories and file ranges. *)
Context (fuel : nat).

(** ** Low-level helpers *)

Definition block_lba (fs : ext2_fs_t) (block : Z) : Z := u64 (ef_part_lba fs + u64 (block * ef_sectors_per_block fs)).
Definition read_block (fs : ext2_fs_t) (block : Z) : M ext_st (option (list Z)) :=
  if u8 (ef_sectors_per_block fs) * 512 >? 4096 then diverge
  else blk_read fault (ef_drive_type fs) (ef_drive fs) (block_lba fs block) (u8 (ef_sectors_per_block fs)).
Definition write_block (fs : ext2_fs_t) (block : Z) (buf : list Z) : M ext_st bool :=
  if u8 (ef_sectors_per_block fs) * 512 >? 4096 then diverge
  else blk_write fault (ef_drive_type fs) (ef_drive fs) (block_lba fs block) (u8 (ef_sectors_per_block fs)) buf.
(** [memset(buf, 0, fs->block_size)] *)
Definition zero_block (fs : ext2_fs_t) : M ext_st (list Z) :=
  if ef_block_size fs >? 4096 then diverge else mret (replicate (Z.to_nat (ef_block_size fs)) 0).

Definition locate_bgd (fs : ext2_fs_t) (group : Z) : M ext_st (Z * Z) :=
  nonzero (ef_block_size fs);;
  let bgdt_block := u32 (ef_first_data_block fs + 1) in
  let bgd_byte := u32 (group * 32) in
  mret (u32 (bgdt_block + bgd_byte / ef_block_size fs), bgd_byte mod ef_block_size fs).
Definition locate_inode (fs : ext2_fs_t) (inode_table index : Z) : M ext_st (Z * Z) :=
  nonzero (ef_block_size fs);;
  let inode_byte := u32 (index * ef_inode_size fs) in
  mret (u32 (inode_table + inode_byte / ef_block_size fs), inode_byte mod ef_block_size fs).

(** The descriptor of a group: its block and offset, the block's bytes, and
    its own 32 bytes. *)
Definition group_desc (fs : ext2_fs_t) (group : Z) : M ext_st (option (Z * Z * list Z * list Z)) :=
  '(bgd_blk, bgd_off) ← locate_bgd fs group;
  r ← read_block fs bgd_blk;
  match r with
  | None => mret None
  | Some meta => bgd ← ld meta bgd_off 32; mret (Some (bgd_blk, bgd_off, meta, bgd))
  end.

(** Where an inode is, and the block that holds it. *)
Definition inode_block (fs : ext2_fs_t) (ino : Z) : M ext_st (option (Z * Z * list Z)) :=
  nonzero (ef_inodes_per_group fs);;
  let group := u32 (ino - 1) / ef_inodes_per_group fs in
  let index := u32 (ino - 1) mod ef_inodes_per_group fs in
  g ← group_desc fs group;
  match g with
  | None => mret None
  | Some (_, _, _, bgd) =>
    '(inode_blk, inode_off) ← locate_inode fs (bg_inode_table bgd) index;
    r ← read_block fs inode_blk;
    match r with None => mret None | Some meta => mret (Some (inode_blk, inode_off, meta)) end
  end.
Definition read_inode (fs : ext2_fs_t) (ino : Z) : M ext_st (option (list Z)) :=
  r ← inode_block fs ino;
  match r with
  | None => mret None
  | Some (_, off, meta) => i ← ld meta off 128; mret (Some i)
  end.
Definition write_inode (fs : ext2_fs_t) (ino : Z) (inode : list Z) : M ext_st bool :=
  r ← inode_block fs ino;
  match r with
  | None => mret false
  | Some (blk, off, meta) => meta ← st meta off inode; write_block fs blk meta
  end.

Definition sb_adjust_free (fs : ext2_fs_t) (blocks_delta inodes_delta : Z) : M ext_st unit :=
  r ← blk_read fault (ef_drive_type fs) (ef_drive fs) (u64 (ef_part_lba fs + 2)) 2;
  match r with
  | None => mret tt
  | Some sb =>
    let sb := put32 sb 12 (u32 (get32 sb 12 + blocks_delta)) in
    let sb := put32 sb 16 (u32 (get32 sb 16 + inodes_delta)) in
    blk_write fault (ef_drive_type fs) (ef_drive fs) (u64 (ef_part_lba fs + 2)) 2 sb;; mret tt
  end.

(** ** Bitmap allocators *)

Definition bit_test (bm : list Z) (bit : Z) : bool := negb (Z.land (get8 bm (bit / 8)) (Z.shiftl 1 (bit mod 8)) =? 0).
Definition bit_set (bm : list Z) (bit : Z) : list Z := put8 bm (bit / 8) (Z.lor (get8 bm (bit / 8)) (Z.shiftl 1 (bit mod 8))).
Definition bit_clear (bm : list Z) (bit : Z) : list Z :=
  put8 bm (bit / 8) (Z.land (get8 bm (bit / 8)) (u8 (not32 (Z.shiftl 1 (bit mod 8))))).
(** The byte of a bit is in the bitmap's block. *)
Definition bit_in (bm : list Z) (bit : Z) : M ext_st unit := ld8 bm (bit / 8);; mret tt.

(** Write the bitmap, the changed descriptor and the counters of the superblock. *)
Definition commit (fs : ext2_fs_t) (bitmap_blk : Z) (bm : list Z) (g : Z * Z * list Z * list Z) (bgd : list Z)
    (blocks_delta inodes_delta : Z) : M ext_st bool :=
  let '(bgd_blk, bgd_off, meta, _) := g in
  ok ← write_block fs bitmap_blk bm;
  if ok : bool then
    ok ← write_block fs bgd_blk (splice meta bgd_off bgd);
    if ok : bool then sb_adjust_free fs blocks_delta inodes_delta;; mret true else mret false
  else mret false.

Definition group_start (fs : ext2_fs_t) (group : Z) : Z := u32 (ef_first_data_block fs + u32 (group * ef_blocks_per_group fs)).
Definition group_blocks (fs : ext2_fs_t) (group : Z) : Z :=
  let group_end := u32 (group_start fs group + ef_blocks_per_group fs) in
  let group_end := if group_end >? ef_blocks_count fs then ef_blocks_count fs else group_end in
  u32 (group_end - group_start fs group).

(** The first clear bit of [bit], [bit + 1], ..., [n] of them, for which [skip] is false. *)
Fixpoint first_clear (n : nat) (skip : Z -> bool) (bm : list Z) (bit : Z) : M ext_st (option Z) :=
  match n with
  | O => mret None
  | S n =>
    if skip bit then first_clear n skip bm (bit + 1)
    else bit_in bm bit;; if bit_test bm bit then first_clear n skip bm (bit + 1) else mret (Some bit)
  end.

(** The groups from [group], [n] of them; 0 is failure. *)
Fixpoint alloc_block_from (n : nat) (fs : ext2_fs_t) (group : Z) : M ext_st Z :=
  match n with
  | O => mret 0
  | S n =>
    g ← group_desc fs group;
    match g with
    | None => mret 0
    | Some g =>
      let bgd := g.2 in
      if bg_free_blocks_count bgd =? 0 then alloc_block_from n fs (group + 1)
      else
        r ← read_block fs (bg_block_bitmap bgd);
        match r with
        | None => mret 0
        | Some bm =>
          o ← first_clear (Z.to_nat (group_blocks fs group)) (fun _ => false) bm 0;
          match o with
          | None => alloc_block_from n fs (group + 1)
          | Some bit =>
            ok ← commit fs (bg_block_bitmap bgd) (bit_set bm bit) g (put16 bgd 12 (u16 (bg_free_blocks_count bgd - 1))) (-1) 0;
            mret (if ok : bool then u32 (group_start fs group + bit) else 0)
          end
        end
    end
  end.
Definition alloc_block (fs : ext2_fs_t) : M ext_st Z := alloc_block_from (Z.to_nat (ef_groups_count fs)) fs 0.

(** Whether the block [goal] could be reserved. *)
Definition reserve_goal (fs : ext2_fs_t) (goal : Z) : M ext_st bool :=
  nonzero (ef_blocks_per_group fs);;
  let group := u32 (goal - ef_first_data_block fs) / ef_blocks_per_group fs in
  let bit := u32 (goal - ef_first_data_block fs) mod ef_blocks_per_group fs in
  g ← group_desc fs group;
  match g with
  | None => mret false
  | Some g =>
    let bgd := g.2 in
    if bg_free_blocks_count bgd >? 0 then
      r ← read_block fs (bg_block_bitmap bgd);
      match r with
      | None => mret false
      | Some bm =>
        bit_in bm bit;;
        if bit_test bm bit then mret false
        else commit fs (bg_block_bitmap bgd) (bit_set bm bit) g (put16 bgd 12 (u16 (bg_free_blocks_count bgd - 1))) (-1) 0
      end
    else mret false
  end.
Definition alloc_block_near (fs : ext2_fs_t) (goal : Z) : M ext_st Z :=
  ok ← (if (goal >=? ef_first_data_block fs) && (goal <? ef_blocks_count fs) then reserve_goal fs goal else mret false);
  if ok : bool then mret goal else alloc_block fs.

(** The scan of one group: the current run and the longest so far, each a
    start and a length. *)
Fixpoint run_bits (n : nat) (bm : list Z) (want bit : Z) (run best : Z * Z) : M ext_st (Z * Z) :=
  match n with
  | O => mret best
  | S n =>
    bit_in bm bit;;
    if bit_test bm bit then run_bits n bm want (bit + 1) (run.1, 0) best
    else
      let run := (if run.2 =? 0 then bit else run.1, run.2 + 1) in
      let best := if run.2 >? best.2 then run else best in
      if best.2 >=? want then mret best else run_bits n bm want (bit + 1) run best
  end.
Fixpoint set_bits (n : nat) (bm : list Z) (bit : Z) : list Z :=
  match n with O => bm | S n => set_bits n (bit_set bm bit) (bit + 1) end.

(** The first block of the run and its length; (0, 0) is failure. *)
Fixpoint alloc_run_from (n : nat) (fs : ext2_fs_t) (want group : Z) : M ext_st (Z * Z) :=
  match n with
  | O => mret (0, 0)
  | S n =>
    g ← group_desc fs group;
    match g with
    | None => mret (0, 0)
    | Some g =>
      let bgd := g.2 in
      if bg_free_blocks_count bgd =? 0 then alloc_run_from n fs want (group + 1)
      else
        r ← read_block fs (bg_block_bitmap bgd);
        match r with
        | None => mret (0, 0)
        | Some bm =>
          best ← run_bits (Z.to_nat (group_blocks fs group)) bm want 0 (0, 0) (0, 0);
          if best.2 =? 0 then alloc_run_from n fs want (group + 1)
          else
            let best_len := if best.2 >? want then want else best.2 in
            ok ← commit fs (bg_block_bitmap bgd) (set_bits (Z.to_nat best_len) bm best.1) g
                   (put16 bgd 12 (u16 (bg_free_blocks_count bgd - u16 best_len))) (- best_len) 0;
            mret (if ok : bool then (u32 (group_start fs group + best.1), best_len) else (0, 0))
        end
    end
  end.
Definition alloc_block_run (fs : ext2_fs_t) (want : Z) : M ext_st (Z * Z) :=
  alloc_run_from (Z.to_nat (ef_groups_count fs)) fs (if want =? 0 then 1 else want) 0.

Fixpoint alloc_inode_from (n : nat) (fs : ext2_fs_t) (group : Z) : M ext_st Z :=
  match n with
  | O => mret 0
  | S n =>
    g ← group_desc fs group;
    match g with
    | None => mret 0
    | Some g =>
      let bgd := g.2 in
      if bg_free_inodes_count bgd =? 0 then alloc_inode_from n fs (group + 1)
      else
        r ← read_block fs (bg_inode_bitmap bgd);
        match r with
        | None => mret 0
        | Some bm =>
          let group_start_ino := u32 (group * ef_inodes_per_group fs) in
          let remain := u32 (ef_inodes_count fs - group_start_ino) in
          let count := if remain <? ef_inodes_per_group fs then remain else ef_inodes_per_group fs in
          o ← first_clear (Z.to_nat count) (fun bit => u32 (group_start_ino + bit + 1) <? ef_first_ino fs) bm 0;
          match o with
          | None => alloc_inode_from n fs (group + 1)
          | Some bit =>
            ok ← commit fs (bg_inode_bitmap bgd) (bit_set bm bit) g (put16 bgd 14 (u16 (bg_free_inodes_count bgd - 1))) 0 (-1);
            mret (if ok : bool then u32 (group_start_ino + bit + 1) else 0)
          end
        end
    end
  end.
Definition alloc_inode (fs : ext2_fs_t) : M ext_st Z := alloc_inode_from (Z.to_nat (ef_groups_count fs)) fs 0.

(** Whether it succeeded. *)
Definition free_block (fs : ext2_fs_t) (block : Z) : M ext_st bool :=
  nonzero (ef_blocks_per_group fs);;
  let group := u32 (block - ef_first_data_block fs) / ef_blocks_per_group fs in
  let bit := u32 (block - ef_first_data_block fs) mod ef_blocks_per_group fs in
  g ← group_desc fs group;
  match g with
  | None => mret false
  | Some g =>
    let bgd := g.2 in
    r ← read_block fs (bg_block_bitmap bgd);
    match r with
    | None => mret false
    | Some bm =>
      bit_in bm bit;;
      commit fs (bg_block_bitmap bgd) (bit_clear bm bit) g (put16 bgd 12 (u16 (bg_free_blocks_count bgd + 1))) 1 0
    end
  end.
Definition free_inode (fs : ext2_fs_t) (ino : Z) : M ext_st bool :=
  nonzero (ef_inodes_per_group fs);;
  let group := u32 (ino - 1) / ef_inodes_per_group fs in
  let bit := u32 (ino - 1) mod ef_inodes_per_group fs in
  g ← group_desc fs group;
  match g with
  | None => mret false
  | Some g =>
    let bgd := g.2 in
    r ← read_block fs (bg_inode_bitmap bgd);
    match r with
    | None => mret false
    | Some bm =>
      bit_in bm bit;;
      commit fs (bg_inode_bitmap bgd) (bit_clear bm bit) g (put16 bgd 14 (u16 (bg_free_inodes_count bgd + 1))) 0 1
    end
  end.

(** ** Logical blocks *)

(** The extents [i], ..., [n] of them, of a leaf. *)
Fixpoint leaf_scan (n : nat) (eh : list Z) (i logical : Z) : M ext_st Z :=
  match n with
  | O => mret 0
  | S n =>
    let off := 12 + 12 * i in
    len ← ld16 eh (off + 4);
    if len >? 32768 then leaf_scan n eh (i + 1) logical
    else
      block ← ld32 eh off;
      if (logical >=? block) && (logical <? u32 (block + len)) then lo ← ld32 eh (off + 8); mret (u32 (lo + u32 (logical - block)))
      else leaf_scan n eh (i + 1) logical
  end.
(** [while (k + 1 < eh_entries && idx[k + 1].ei_block <= logical) k++;] *)
Fixpoint pick_idx (n : nat) (eh : list Z) (k logical : Z) : M ext_st Z :=
  match n with
  | O => mret k
  | S n => block ← ld32 eh (12 + 12 * (k + 1)); if block <=? logical then pick_idx n eh (k + 1) logical else mret k
  end.
Fixpoint extent_level (level : nat) (fs : ext2_fs_t) (eh : list Z) (logical : Z) : M ext_st Z :=
  match level with
  | O => mret 0
  | S level =>
    magic ← ld16 eh 0;
    if negb (magic =? EXT4_EXT_MAGIC) then mret 0
    else
      depth ← ld16 eh 6;
      entries ← ld16 eh 2;
      if depth =? 0 then leaf_scan (Z.to_nat entries) eh 0 logical
      else if entries =? 0 then mret 0
      else
        first ← ld32 eh 12;
        if logical <? first then mret 0
        else
          k ← pick_idx (Z.to_nat (entries - 1)) eh 0 logical;
          leaf ← ld32 eh (12 + 12 * k + 4);
          r ← read_block fs leaf;
          match r with None => mret 0 | Some ind => extent_level level fs ind logical end
  end.
Definition ext4_extent_lookup (fs : ext2_fs_t) (eh : list Z) (logical : Z) : M ext_st Z := extent_level 8 fs eh logical.

(** Entry [k] of the block of pointers [block]; 0 when there is no such block. *)
Definition ind_entry (fs : ext2_fs_t) (block k : Z) : M ext_st Z :=
  if block =? 0 then mret 0
  else r ← read_block fs block; match r with None => mret 0 | Some ind => ld32 ind (4 * k) end.

Definition get_block (fs : ext2_fs_t) (inode : list Z) (logical : Z) : M ext_st Z :=
  let ptrs := ef_block_size fs / 4 in
  if negb (Z.land (i_flags inode) EXT4_EXTENTS_FL =? 0) then ext4_extent_lookup fs (drop 40 inode) logical
  else if logical <? 12 then mret (i_block inode logical)
  else
    let logical := logical - 12 in
    if logical <? ptrs then ind_entry fs (i_block inode 12) logical
    else
      let logical := logical - ptrs in
      if logical <? u32 (ptrs * ptrs) then
        ind2 ← ind_entry fs (i_block inode 13) (logical / ptrs);
        ind_entry fs ind2 (logical mod ptrs)
      else
        let logical := u32 (logical - u32 (ptrs * ptrs)) in
        nonzero ptrs;;
        if logical / ptrs / ptrs <? ptrs then
          nonzero (u32 (ptrs * ptrs));;
          ind2 ← ind_entry fs (i_block inode 14) (logical / u32 (ptrs * ptrs));
          ind3 ← ind_entry fs ind2 (logical / ptrs mod ptrs);
          ind_entry fs ind3 (logical mod ptrs)
        else mret 0.

(** The block (0: failure) and the inode as the caller has it afterwards. *)
Definition get_or_alloc_block (fs : ext2_fs_t) (inode : list Z) (logical : Z) : M ext_st (Z * list Z) :=
  if negb (Z.land (i_flags inode) EXT4_EXTENTS_FL =? 0) then mret (0, inode)
  else
    let ptrs := ef_block_size fs / 4 in
    let grown inode := set_i_blocks (u32 (i_blocks inode + ef_sectors_per_block fs)) inode in
    if logical <? 12 then
      if i_block inode logical =? 0 then
        let goal := if (logical >? 0) && negb (i_block inode (logical - 1) =? 0) then u32 (i_block inode (logical - 1) + 1) else 0 in
        nb ← alloc_block_near fs goal;
        if nb =? 0 then mret (0, inode) else mret (nb, grown (set_i_block logical nb inode))
      else mret (i_block inode logical, inode)
    else
      let logical := logical - 12 in
      if logical <? ptrs then
        '(ok, inode) ← (if i_block inode 12 =? 0 then
                          nb ← alloc_block fs;
                          if nb =? 0 then mret (false, inode)
                          else
                            zeros ← zero_block fs;
                            ok ← write_block fs nb zeros;
                            if ok : bool then mret (true, grown (set_i_block 12 nb inode)) else mret (false, inode)
                        else mret (true, inode));
        if ok : bool then
          r ← read_block fs (i_block inode 12);
          match r with
          | None => mret (0, inode)
          | Some ind =>
            p ← ld32 ind (4 * logical);
            if p =? 0 then
              prev ← (if logical >? 0 then ld32 ind (4 * (logical - 1)) else mret (i_block inode 11));
              nb ← alloc_block_near fs (if prev =? 0 then 0 else u32 (prev + 1));
              if nb =? 0 then mret (0, inode)
              else
                ok ← write_block fs (i_block inode 12) (put32 ind (4 * logical) nb);
                if ok : bool then mret (nb, grown inode) else mret (0, inode)
            else mret (p, inode)
          end
        else mret (0, inode)
      else mret (0, inode).

(** ** Directories *)

(** Where a scan ends without a result: a block that is a hole or cannot be
    read, or the end of the directory or a record of length 0. *)
Inductive scan_stop := StopBlock | StopEnd.

(** The loop over the records of a directory: [visit block off phys acc] at
    each. A block is loaded when the scan enters it. *)
Definition scan_dir {A B} (fs : ext2_fs_t) (inode : list Z) (visit : list Z -> Z -> Z -> B -> M ext_st (B + A)) (acc : B)
    : M ext_st (A + scan_stop) :=
  loop fuel (fun '(pos, cur, acc) =>
    if pos <? i_size inode then
      nonzero (ef_block_size fs);;
      let blk_log := pos / ef_block_size fs in
      let blk_off := pos mod ef_block_size fs in
      r ← (match cur with
           | Some (l, phys, buf) =>
             if blk_log =? l then mret (Some (phys, buf))
             else phys ← get_block fs inode blk_log;
                  if phys =? 0 then mret None else r ← read_block fs phys; mret (buf ← r; Some (phys, buf))
           | None => phys ← get_block fs inode blk_log;
                     if phys =? 0 then mret None else r ← read_block fs phys; mret (buf ← r; Some (phys, buf))
           end);
      match r with
      | None => mret (inr (inr StopBlock))
      | Some (phys, buf) =>
        rec_len ← ld16 buf (blk_off + 4);
        if rec_len =? 0 then mret (inr (inr StopEnd))
        else
          v ← visit buf blk_off phys acc;
          match v with
          | inr a => mret (inr (inl a))
          | inl acc => mret (inl (u32 (pos + rec_len), Some (blk_log, phys, buf), acc))
          end
      end
    else mret (inr (inr StopEnd))) (0, None, acc).

(** The bytes at [off] are those of [name]; stops at the first that differs. *)
Fixpoint name_matches (buf : list Z) (off : Z) (name : list Z) : M ext_st bool :=
  match name with
  | [] => mret true
  | c :: name => b ← ld8 buf off; if b =? c then name_matches buf (off + 1) name else mret false
  end.

Definition is_dot_entry (buf : list Z) (off name_len : Z) : M ext_st bool :=
  if name_len =? 1 then c ← ld8 buf (off + 8); mret (c =? 46)
  else if name_len =? 2 then
    c ← ld8 buf (off + 8);
    if c =? 46 then c ← ld8 buf (off + 9); mret (c =? 46) else mret false
  else mret false.

Definition ext2_readdir (node : nat) (index : Z) : M ext_st (option dirent_t) :=
  n ← enode node;
  match n_private n with
  | None => mret None
  | Some fsi =>
    fs ← efs fsi;
    r ← read_inode fs (n_inode n);
    match r with
    | None => mret None
    | Some dir =>
      e ← scan_dir (A := dirent_t) fs dir (fun buf off _ valid_count =>
        ino ← ld32 buf off;
        name_len ← ld8 buf (off + 6);
        if negb (ino =? 0) && (name_len >? 0) then
          skip ← is_dot_entry buf off name_len;
          if skip : bool then mret (inl valid_count)
          else if valid_count =? index then
            name ← ld buf (off + 8) (if name_len >=? MAX_FILENAME then MAX_FILENAME - 1 else name_len);
            file_type ← ld8 buf (off + 7);
            child ← read_inode fs ino;
            mret (inr (Dirent (cstr name) (match child with Some c => i_size c | None => 0 end)
                         (if file_type =? EXT2_FT_DIR then VFS_DIRECTORY else VFS_FILE)))
          else mret (inl (u32 (valid_count + 1)))
        else mret (inl valid_count)) 0;
      mret (match e with inl d => Some d | inr _ => None end)
    end
  end.

(** The entry of [name], with its block: the inode, the type, and the place. *)
Record found_t := Found { fo_ino : Z; fo_ftype : Z; fo_rec_len : Z; fo_phys : Z; fo_off : Z; fo_buf : list Z }.
Definition lookup (fs : ext2_fs_t) (dir : list Z) (name : list Z) : M ext_st (found_t + scan_stop) :=
  scan_dir fs dir (fun buf off phys _ =>
    ino ← ld32 buf off;
    if ino =? 0 then mret (inl tt)
    else
      name_len ← ld8 buf (off + 6);
      if negb (name_len =? u8 (Z.of_nat (length name))) then mret (inl tt)
      else
        m ← name_matches buf (off + 8) name;
        if m : bool then
          file_type ← ld8 buf (off + 7);
          rec_len ← ld16 buf (off + 4);
          mret (inr (Found ino file_type rec_len phys off buf))
        else mret (inl tt)) tt.

Definition name_of (name : list Z) : list Z := take (Z.to_nat (MAX_FILENAME - 1)) name.

Definition ext2_finddir (node : nat) (name : list Z) : M ext_st (option nat) :=
  n ← enode node;
  match n_private n with
  | None => mret None
  | Some fsi =>
    fs ← efs fsi;
    r ← read_inode fs (n_inode n);
    match r with
    | None => mret None
    | Some dir =>
      e ← lookup fs dir name;
      match e with
      | inr _ => mret None
      | inl f =>
        child ← read_inode fs (fo_ino f);
        match child with
        | None => mret None
        | Some child =>
          o ← alloc_node;
          match o with
          | None => mret None
          | Some i =>
            let dir := negb (Z.land (i_mode child) EXT2_S_IFDIR =? 0) in
            set_enode i (Node (name_of name) (if dir then VFS_DIRECTORY else VFS_FILE) (i_size child) (fo_ino f)
                           (if dir then OpsDir else OpsFile) (Some node) (Some fsi));;
            mret (Some i)
          end
        end
      end
    end
  end.

(** ** Reading *)

(** The bytes read, or the negative result. *)
Definition ext2_read (node : nat) (offset size : Z) : M ext_st (Z + list Z) :=
  n ← enode node;
  match n_private n with
  | None => mret (inl (-1))
  | Some fsi =>
    fs ← efs fsi;
    r ← read_inode fs (n_inode n);
    match r with
    | None => mret (inl (-1))
    | Some inode =>
      let file_size := i_size inode in
      if offset >=? file_size then mret (inr [])
      else
        let size := if u64 (offset + size) >? file_size then u32 (file_size - offset) else size in
        loop fuel (fun out =>
          let done := Z.of_nat (length out) in
          if done <? size then
            nonzero (ef_block_size fs);;
            let cur := u32 (offset + done) in
            let blk_l := cur / ef_block_size fs in
            let blk_o := cur mod ef_block_size fs in
            phys ← get_block fs inode blk_l;
            if phys =? 0 then mret (inr (inr out))
            else
              r ← read_block fs phys;
              match r with
              | None => mret (inr (inl (-1)))
              | Some buf =>
                let copy := ef_block_size fs - blk_o in
                let copy := if copy >? u32 (size - done) then u32 (size - done) else copy in
                l ← ld buf blk_o copy;
                mret (inl (out ++ l))
              end
          else mret (inr (inr out))) []
    end
  end.

(** ** Writing *)

(** Phase 1: the blocks [lb], ..., [last] exist; how many do, and the inode. *)
Definition grow_blocks (fs : ext2_fs_t) (inode : list Z) (first last : Z) : M ext_st (Z * list Z) :=
  loop fuel (fun '(lb, got, inode) =>
    if lb <=? last then
      '(phys, inode) ← get_or_alloc_block fs inode lb;
      if phys =? 0 then mret (inr (got, inode)) else mret (inl (u32 (lb + 1), u32 (got + 1), inode))
    else mret (inr (got, inode))) (first, 0, inode).

(** Phase 2: how many bytes of [data] were written. *)
Definition write_blocks (fs : ext2_fs_t) (inode : list Z) (offset size : Z) (data : list Z) : M ext_st Z :=
  loop fuel (fun done =>
    if done <? size then
      let cur := u64 (offset + done) in
      let blk_l := u32 (cur / ef_block_size fs) in
      let blk_o := u32 (cur mod ef_block_size fs) in
      phys ← get_block fs inode blk_l;
      if phys =? 0 then mret (inr done)
      else
        r ← read_block fs phys;
        match r with
        | None => mret (inr done)
        | Some buf =>
          let copy := u32 (ef_block_size fs - blk_o) in
          let copy := if copy >? u32 (size - done) then u32 (size - done) else copy in
          l ← ld data done copy;
          buf ← st buf blk_o l;
          ok ← write_block fs phys buf;
          if ok : bool then mret (inl (u32 (done + copy))) else mret (inr done)
        end
    else mret (inr done)) 0.

Definition ext2_write (node : nat) (offset size : Z) (data : list Z) : M ext_st Z :=
  n ← enode node;
  match n_private n with
  | None => mret (-1)
  | Some fsi =>
    fs ← efs fsi;
    if negb (ef_write_supported fs) then mret (-1)
    else if Z.land (n_type n) VFS_FILE =? 0 then mret (-1)
    else if size =? 0 then mret 0
    else
      r ← read_inode fs (n_inode n);
      match r with
      | None => mret (-1)
      | Some inode =>
        if negb (Z.land (i_flags inode) EXT4_EXTENTS_FL =? 0) then mret (-1)
        else if negb (i_size_high inode =? 0) then mret (-1)
        else if offset >? i_size inode then mret (-1)
        else
          nonzero (ef_block_size fs);;
          let new_end := u64 (offset + size) in
          let first_blk := u32 (offset / ef_block_size fs) in
          let last_blk := u32 (u64 (new_end - 1) / ef_block_size fs) in
          '(got_blocks, inode) ← grow_blocks fs inode first_blk last_blk;
          let allocated_end := u64 (u32 (first_blk + got_blocks) * ef_block_size fs) in
          let size := if new_end >? allocated_end then (if allocated_end >? offset then u32 (allocated_end - offset) else 0) else size in
          if size =? 0 then mret 0
          else
            bytes_written ← write_blocks fs inode offset size data;
            if bytes_written =? 0 then mret (-1)
            else
              let inode := if u64 (offset + bytes_written) >? i_size inode then set_i_size (u32 (offset + bytes_written)) inode else inode in
              ok ← write_inode fs (n_inode n) inode;
              if ok : bool then
                n ← enode node;
                set_enode node (with_size (i_size inode) n);;
                mret (s32 bytes_written)
              else mret (-1)
      end
  end.

(** ** Directory entries *)

Definition align4 (x : Z) : Z := Z.land (u32 (x + 3)) (not32 3).

(** The fields of an entry but for its [rec_len]. *)
Definition put_entry (buf : list Z) (off ino name_len file_type : Z) (name : list Z) : M ext_st (list Z) :=
  buf ← st buf off (le_bytes 4 ino);
  buf ← st buf (off + 6) [u8 name_len];
  buf ← st buf (off + 7) [file_type];
  st buf (off + 8) name.

(** Whether the entry was written. *)
Definition ext2_insert_dirent (fs : ext2_fs_t) (dir : vfs_node_t) (name : list Z) (ino file_type : Z) : M ext_st bool :=
  let name_len := Z.of_nat (length name) in
  if (name_len <=? 0) || (name_len >? 255) then mret false
  else
    let new_min := align4 (8 + name_len) in
    r ← read_inode fs (n_inode dir);
    match r with
    | None => mret false
    | Some dir_inode =>
      e ← scan_dir (A := bool) fs dir_inode (fun buf off phys _ =>
        rec_len ← ld16 buf (off + 4);
        de_ino ← ld32 buf off;
        used ← (if de_ino =? 0 then mret 0 else de_len ← ld8 buf (off + 6); mret (align4 (8 + de_len)));
        let avail := u32 (rec_len - used) in
        if avail >=? new_min then
          '(buf, off) ← (if used =? 0 then mret (buf, off)
                         else
                           buf ← st buf (off + 4) (le_bytes 2 (u16 used));
                           buf ← st buf (off + used + 4) (le_bytes 2 (u16 (rec_len - used)));
                           mret (buf, off + used));
          buf ← put_entry buf off ino name_len file_type name;
          ok ← write_block fs phys buf;
          mret (inr ok)
        else mret (inl tt)) tt;
      match e with
      | inl ok => mret ok
      | inr _ =>
        nonzero (ef_block_size fs);;
        let new_logical := i_size dir_inode / ef_block_size fs in
        '(new_phys, dir_inode) ← get_or_alloc_block fs dir_inode new_logical;
        if new_phys =? 0 then mret false
        else
          buf ← zero_block fs;
          buf ← st buf 4 (le_bytes 2 (u16 (ef_block_size fs)));
          buf ← put_entry buf 0 ino name_len file_type name;
          ok ← write_block fs new_phys buf;
          if ok : bool then
            write_inode fs (n_inode dir) (set_i_size (u32 (i_size dir_inode + ef_block_size fs)) dir_inode)
          else mret false
      end
    end.

Definition inode_zero : list Z := replicate 128 0.
Definition finish_new_file_node (fs : ext2_fs_t) (fsi dir : nat) (ino : Z) (name : list Z) : M ext_st (option nat) :=
  ok ← write_inode fs ino (set_i_links_count 1 (put16 inode_zero 0 (Z.lor EXT2_S_IFREG 0x1A4)));
  if ok : bool then
    o ← alloc_node;
    match o with
    | None => mret None
    | Some i => set_enode i (Node (name_of name) VFS_FILE 0 ino OpsFile (Some dir) (Some fsi));; mret (Some i)
    end
  else mret None.

Definition ext2_create (dir : nat) (name : list Z) : M ext_st (option nat) :=
  n ← enode dir;
  match n_private n with
  | None => mret None
  | Some fsi =>
    fs ← efs fsi;
    if negb (ef_write_supported fs) then mret None
    else if Z.land (n_type n) VFS_DIRECTORY =? 0 then mret None
    else if (Z.of_nat (length name) =? 0) || (Z.of_nat (length name) >? 255) then mret None
    else
      new_ino ← alloc_inode fs;
      if new_ino =? 0 then mret None
      else
        ok ← ext2_insert_dirent fs n name new_ino EXT2_FT_REG_FILE;
        if ok : bool then finish_new_file_node fs fsi dir new_ino name
        else free_inode fs new_ino;; mret None
  end.

(** ** Renaming and removal *)

Definition ext2_rename (old_dir : nat) (old_name : list Z) (new_dir : nat) (new_name : list Z) : M ext_st Z :=
  od ← enode old_dir;
  match n_private od with
  | None => mret (-1)
  | Some fsi =>
    fs ← efs fsi;
    let new_len := Z.of_nat (length new_name) in
    if negb (ef_write_supported fs) then mret (-1) else
    nd ← enode new_dir;
    if (Z.land (n_type od) VFS_DIRECTORY =? 0) || (Z.land (n_type nd) VFS_DIRECTORY =? 0) then mret (-1)
    else if (Z.of_nat (length old_name) =? 0) || ((new_len =? 0) || (new_len >? 255)) then mret (-1)
    else
      r ← read_inode fs (n_inode od);
      match r with
      | None => mret (-1)
      | Some dir =>
        e ← lookup fs dir old_name;
        match e with
        | inr StopBlock => mret (-2)
        | inr StopEnd => mret (-3)
        | inl f =>
          r ← read_inode fs (fo_ino f);
          match r with
          | None => mret (-4)
          | Some target =>
            if negb (Z.land (i_mode target) EXT2_S_IFDIR =? 0) then mret (-5)
            else if decide (old_dir = new_dir /\ align4 (8 + new_len) <= fo_rec_len f) then
              buf ← st (fo_buf f) (fo_off f + 6) [u8 new_len];
              buf ← st buf (fo_off f + 8) new_name;
              ok ← write_block fs (fo_phys f) buf;
              mret (if ok : bool then 0 else -6)
            else
              ok ← ext2_insert_dirent fs nd new_name (fo_ino f) (fo_ftype f);
              if ok : bool then
                r ← read_block fs (fo_phys f);
                match r with
                | None => mret (-8)
                | Some buf =>
                  buf ← st buf (fo_off f) (le_bytes 4 0);
                  ok ← write_block fs (fo_phys f) buf;
                  mret (if ok : bool then 0 else -8)
                end
              else mret (-7)
          end
        end
      end
  end.

(** Free the blocks of the list that are not 0. *)
Fixpoint free_blocks (fs : ext2_fs_t) (l : list Z) : M ext_st unit :=
  match l with
  | [] => mret tt
  | b :: l => (if b =? 0 then mret tt else free_block fs b;; mret tt);; free_blocks fs l
  end.
Definition direct_blocks (inode : list Z) : list Z := map (fun k => i_block inode (Z.of_nat k)) (seq 0 12).
(** The first [n] pointers of a block. *)
Fixpoint pointers (n : nat) (ind : list Z) (k : Z) : M ext_st (list Z) :=
  match n with
  | O => mret []
  | S n => p ← ld32 ind (4 * k); l ← pointers n ind (k + 1); mret (p :: l)
  end.

Definition ext2_unlink (dir : nat) (name : list Z) : M ext_st Z :=
  n ← enode dir;
  match n_private n with
  | None => mret (-1)
  | Some fsi =>
    fs ← efs fsi;
    if negb (ef_write_supported fs) then mret (-1)
    else if Z.land (n_type n) VFS_DIRECTORY =? 0 then mret (-1)
    else if Z.of_nat (length name) =? 0 then mret (-1)
    else
      r ← read_inode fs (n_inode n);
      match r with
      | None => mret (-1)
      | Some dir_inode =>
        e ← lookup fs dir_inode name;
        match e with
        | inr StopBlock => mret (-2)
        | inr StopEnd => mret (-3)
        | inl f =>
          r ← read_inode fs (fo_ino f);
          match r with
          | None => mret (-4)
          | Some target =>
            if negb (Z.land (i_mode target) EXT2_S_IFDIR =? 0) then mret (-5)
            else if negb (Z.land (i_flags target) EXT4_EXTENTS_FL =? 0) then mret (-6)
            else if negb (i_block target 13 =? 0) || negb (i_block target 14 =? 0) then mret (-7)
            else
              buf ← st (fo_buf f) (fo_off f) (le_bytes 4 0);
              ok ← write_block fs (fo_phys f) buf;
              if negb ok then mret (-8)
              else if i_links_count target >? 1 then
                write_inode fs (fo_ino f) (set_i_links_count (u16 (i_links_count target - 1)) target);; mret 0
              else
                free_blocks fs (direct_blocks target);;
                (if i_block target 12 =? 0 then mret tt
                 else
                   r ← read_block fs (i_block target 12);
                   match r with
                   | None => mret tt
                   | Some ind => l ← pointers (Z.to_nat (ef_block_size fs / 4)) ind 0; free_blocks fs l
                   end;;
                   free_block fs (i_block target 12);; mret tt);;
                free_inode fs (fo_ino f);;
                write_inode fs (fo_ino f) inode_zero;;
                mret 0
          end
        end
      end
  end.

(** ** Defragmentation *)

(** The physical blocks of the logical blocks [i], ..., [n] of them; none when
    one is a hole. *)
Fixpoint collect_blocks (n : nat) (fs : ext2_fs_t) (inode : list Z) (i : Z) : M ext_st (option (list Z)) :=
  match n with
  | O => mret (Some [])
  | S n =>
    phys ← get_block fs inode i;
    if phys =? 0 then mret None
    else r ← collect_blocks n fs inode (i + 1); mret (l ← r; Some (phys :: l))
  end.
Fixpoint contiguous (l : list Z) : bool :=
  match l with
  | a :: ((b :: _) as l') => (b =? u32 (a + 1)) && contiguous l'
  | _ => true
  end.
Fixpoint free_run (n : nat) (fs : ext2_fs_t) (start : Z) : M ext_st unit :=
  match n with O => mret tt | S n => free_block fs start;; free_run n fs (u32 (start + 1)) end.
(** Whether every block of [l] was copied to its place from [dst] on. *)
Fixpoint copy_blocks (fs : ext2_fs_t) (l : list Z) (dst : Z) : M ext_st bool :=
  match l with
  | [] => mret true
  | b :: l =>
    r ← read_block fs b;
    match r with
    | None => mret false
    | Some buf => ok ← write_block fs dst buf; if ok : bool then copy_blocks fs l (u32 (dst + 1)) else mret false
    end
  end.
Fixpoint set_direct (n : nat) (k start : Z) (inode : list Z) : list Z :=
  match n with O => inode | S n => set_direct n (k + 1) start (set_i_block k (u32 (start + k)) inode) end.
(** The pointers of the logical blocks [i], ..., [n] of them, in the indirect block. *)
Fixpoint set_pointers (n : nat) (i start : Z) (ind : list Z) : M ext_st (list Z) :=
  match n with
  | O => mret ind
  | S n => ind ← st ind (4 * (i - 12)) (le_bytes 4 (u32 (start + i))); set_pointers n (i + 1) start ind
  end.

(** 1: moved, 0: nothing to do, -1: left as it was. *)
Definition ext2_defrag_one (fs : ext2_fs_t) (node : nat) : M ext_st Z :=
  n ← enode node;
  r ← read_inode fs (n_inode n);
  match r with
  | None => mret (-1)
  | Some inode =>
    if negb (Z.land (i_flags inode) EXT4_EXTENTS_FL =? 0) then mret (-1)
    else if i_size inode =? 0 then mret 0
    else
      nonzero (ef_block_size fs);;
      let max_blocks := u32 (12 + ef_block_size fs / 4) in
      let count := u32 (u32 (i_size inode + ef_block_size fs) - 1) / ef_block_size fs in
      if (count >? max_blocks) || (max_blocks >? 12 + 1024) then mret (-1)
      else
        r ← collect_blocks (Z.to_nat count) fs inode 0;
        match r with
        | None => mret (-1)
        | Some old_blocks =>
          if contiguous old_blocks then mret 0
          else
            '(new_start, got) ← alloc_block_run fs count;
            if (new_start =? 0) || negb (got =? count) then free_run (Z.to_nat got) fs new_start;; mret (-1)
            else
              ok ← copy_blocks fs old_blocks new_start;
              if negb ok then free_run (Z.to_nat count) fs new_start;; mret (-1)
              else
                let inode := set_direct (Z.to_nat (Z.min count 12)) 0 new_start inode in
                ok ← write_inode fs (n_inode n) inode;
                if negb ok then free_run (Z.to_nat count) fs new_start;; mret (-1)
                else
                  ok ← (if count >? 12 then
                          r ← read_block fs (i_block inode 12);
                          match r with
                          | None => mret false
                          | Some ind => ind ← set_pointers (Z.to_nat (count - 12)) 12 new_start ind; write_block fs (i_block inode 12) ind
                          end
                        else mret true);
                  if ok : bool then
                    foldr (fun b rest => free_block fs b;; rest) (mret tt) old_blocks;; mret 1
                  else mret 1
        end
  end.

(** -1, or how many files were looked at, moved and skipped. *)
Definition ext2_defrag (dir_node : nat) : M ext_st (Z + Z * Z * Z) :=
  n ← enode dir_node;
  match n_private n with
  | None => mret (inl (-1))
  | Some fsi =>
    fs ← efs fsi;
    loop fuel (fun '(idx, scanned, moved, skipped) =>
      o ← ext2_readdir dir_node idx;
      match o with
      | None => mret (inr (inr (scanned, moved, skipped)))
      | Some de =>
        if negb (Z.land (d_type de) VFS_DIRECTORY =? 0) then mret (inl (u32 (idx + 1), scanned, moved, skipped))
        else
          o ← ext2_finddir dir_node (d_name de);
          match o with
          | None => mret (inl (u32 (idx + 1), scanned, moved, skipped))
          | Some node =>
            rc ← ext2_defrag_one fs node;
            mret (inl (u32 (idx + 1), u32 (scanned + 1), if rc =? 1 then u32 (moved + 1) else moved, if rc <? 0 then u32 (skipped + 1) else skipped))
          end
      end) (0, 0, 0, 0)
  end.

(** ** Mounting *)

(** What a superblock says. *)
Definition mount_efs (drive_type drive part_lba : Z) (sb : list Z) : ext2_fs_t :=
  let block_size := u32 (Z.shiftl 1024 (sb_log_block_size sb)) in
  let dynamic := sb_rev_level sb >=? 1 in
  let state_clean := negb dynamic || negb (Z.land (sb_state sb) EXT2_VALID_FS =? 0) in
  let rocompat_ok := negb dynamic || (Z.land (sb_feature_ro_compat sb) (not32 EXT2_SUPPORTED_ROCOMPAT_FOR_WRITE) =? 0) in
  Efs (u8 drive) (u8 drive_type) part_lba block_size (block_size / 512) (sb_inodes_per_group sb) (sb_blocks_per_group sb)
    (if dynamic then sb_inode_size sb else 128) (sb_first_data_block sb)
    (u32 (u32 (sb_blocks_count sb + sb_blocks_per_group sb) - 1) / sb_blocks_per_group sb) (sb_blocks_count sb) (sb_inodes_count sb)
    (if dynamic then sb_first_ino sb else 11) (state_clean && rocompat_ok).

(** The negative code, or the root node; a shift by 32 or more is undefined. *)
Definition ext2_mount (drive_type drive part_lba : Z) : M ext_st (Z + nat) :=
  r ← blk_read fault drive_type drive (u64 (part_lba + 2)) 2;
  match r with
  | None => mret (inl (-1))
  | Some sb =>
    if negb (sb_magic sb =? EXT2_MAGIC) then mret (inl (-2))
    else if (sb_rev_level sb >=? 1) && negb (Z.land (sb_feature_incompat sb) (not32 EXT2_SUPPORTED_INCOMPAT) =? 0) then mret (inl (-6))
    else
      o ← alloc_fs;
      match o with
      | None => mret (inl (-3))
      | Some fsi =>
        (if sb_log_block_size sb >=? 32 then diverge else mret tt);;
        nonzero (sb_blocks_per_group sb);;
        modify (fun s => Ext (xt_dev s) (<[fsi := mount_efs drive_type drive part_lba sb]> (xt_fs s)) (xt_nodes s));;
        o ← alloc_node;
        match o with
        | None => mret (inl (-4))
        | Some root =>
          set_enode root (Node [47] (Z.lor VFS_DIRECTORY VFS_MOUNTPOINT) 0 EXT2_ROOT_INO OpsDir None (Some fsi));;
          mret (inr root)
        end
      end
  end.
End Ext2.
