(* ===== verification/Ext2Proofs.v ===== *)
(** * The ext2 driver: blocks and files

    With drives that answer, a block of the volume is read as it is on the
    drive and a write changes that block alone. On this rests the theorem on
    reading: a file's bytes are those of the blocks its inode maps, through
    direct, indirect, doubly and triply indirect blocks. *)

From S2P Require Import Prelude Blk BlkProofs Fat32 Vol Ext2.

(** ** Blocks *)

(** The geometry of a volume: the block sizes the scratch buffers can hold. *)
Record egeo (fs : ext2_fs_t) : Prop := {
  eg_drive : 0 <= ef_drive fs < 256;
  eg_spb : ef_sectors_per_block fs = 2 \/ ef_sectors_per_block fs = 4 \/ ef_sectors_per_block fs = 8;
  eg_bs : ef_block_size fs = ef_sectors_per_block fs * 512;
  eg_lba : 0 <= ef_part_lba fs < 9223372036854775808;
  eg_first : ef_first_data_block fs = if ef_sectors_per_block fs =? 2 then 1 else 0;
  eg_blocks : 0 <= ef_blocks_count fs < 4294967296;
  eg_bpg : 32 <= ef_blocks_per_group fs <= 8 * ef_block_size fs;
  eg_groups : 0 <= ef_groups_count fs;
  eg_cover : ef_first_data_block fs + ef_groups_count fs * ef_blocks_per_group fs < 4294967296;
  eg_nonempty : ef_first_data_block fs + (ef_groups_count fs - 1) * ef_blocks_per_group fs <= ef_blocks_count fs;
  eg_all : ef_blocks_count fs <= ef_first_data_block fs + ef_groups_count fs * ef_blocks_per_group fs;
}.

(** The sector [x] of the partition, and the bytes of a block. *)
Definition sec (fs : ext2_fs_t) (s : ext_st) (x : Z) : list Z :=
  sector_at (xt_dev s) (blk_driver (ef_drive_type fs)) (ef_drive fs) (ef_part_lba fs + x).
Definition block_of (fs : ext2_fs_t) (s : ext_st) (b : Z) : list Z :=
  sectors_at (xt_dev s) (blk_driver (ef_drive_type fs)) (ef_drive fs) (ef_part_lba fs + b * ef_sectors_per_block fs)
    (Z.to_nat (ef_sectors_per_block fs)).

(** The pools are as before. *)
Definition same_pool (s s' : ext_st) : Prop := xt_fs s' = xt_fs s /\ xt_nodes s' = xt_nodes s.
(** The sectors and the pools are as before. *)
Definition same_ext (s s' : ext_st) : Prop := dv_sectors (xt_dev s') = dv_sectors (xt_dev s) /\ same_pool s s'.

Lemma same_ext_refl s : same_ext s s.
Proof. done. Qed.
Lemma same_ext_trans s s1 s2 : same_ext s s1 -> same_ext s1 s2 -> same_ext s s2.
Proof. unfold same_ext, same_pool. intros (-> & -> & ->) (-> & -> & ->). done. Qed.
Lemma same_ext_block fs s s' b : same_ext s s' -> block_of fs s' b = block_of fs s b.
Proof. intros [E _]. unfold block_of. apply sectors_at_ext. intros i _. unfold sector_at. by rewrite E. Qed.
Lemma same_ext_dev s s' : same_ext s s' -> dev_sectors_ok (xt_dev s) -> dev_sectors_ok (xt_dev s').
Proof. intros [E _]. unfold dev_sectors_ok. by rewrite E. Qed.
#[local] Hint Resolve same_ext_refl same_ext_dev : core.

Section Blocks.
Context (fault : nat -> option nat) (nofault : forall k, fault k = None).
Context (fs : ext2_fs_t) (Hg : egeo fs).
Implicit Types s : ext_st.

Lemma block_size_range : ef_block_size fs = 1024 \/ ef_block_size fs = 2048 \/ ef_block_size fs = 4096.
Proof. rewrite (eg_bs _ Hg). destruct (eg_spb _ Hg) as [->|[->| ->]]; auto. Qed.

Lemma length_block s b : dev_sectors_ok (xt_dev s) -> Z.of_nat (length (block_of fs s b)) = ef_block_size fs.
Proof. intros Hd. unfold block_of. rewrite length_sectors_at, (eg_bs _ Hg) by done. destruct (eg_spb _ Hg) as [->|[->| ->]]; lia. Qed.
Lemma bytes_block s b : dev_sectors_ok (xt_dev s) -> bytes (block_of fs s b).
Proof. apply bytes_sectors_at. Qed.

Lemma block_lba_eq b : in_u32 b -> block_lba fs b = ef_part_lba fs + b * ef_sectors_per_block fs /\ in_u64 (block_lba fs b).
Proof.
  intros Hb. unfold block_lba. destruct (eg_lba _ Hg). unfold in_u32 in Hb.
  assert (0 <= b * ef_sectors_per_block fs < 34359738368) by (destruct (eg_spb _ Hg) as [->|[->| ->]]; lia).
  rewrite (u64_id (b * _)) by word. rewrite u64_id by word. split; [done|word].
Qed.

Lemma first_range : 0 <= ef_first_data_block fs <= 1.
Proof. rewrite (eg_first _ Hg). bcase; lia. Qed.

Lemma spb_u8 : u8 (ef_sectors_per_block fs) = ef_sectors_per_block fs /\ (u8 (ef_sectors_per_block fs) * 512 >? 4096) = false.
Proof. by destruct (eg_spb _ Hg) as [->|[->| ->]]. Qed.

Lemma read_block_ok s b :
  in_u32 b -> exists s', read_block fault fs b s = Some (Some (block_of fs s b), s') /\ same_ext s s'.
Proof.
  intros Hb. destruct (block_lba_eq b Hb) as [El Hl]. destruct spb_u8 as [Eu Eb]. unfold read_block. rewrite Eb, Eu.
  rewrite (blk_read_ok fault nofault) by (first [apply Hg|done|destruct (eg_spb _ Hg) as [->|[->| ->]]; lia]).
  rewrite El. eexists. split; [reflexivity|]. done.
Qed.

Lemma spb_pos : 2 <= ef_sectors_per_block fs <= 8.
Proof. destruct (eg_spb _ Hg) as [->|[->| ->]]; lia. Qed.

(** The state after the block [b] was written. *)
Definition wrote (b : Z) (buf : list Z) (s s' : ext_st) : Prop :=
  same_pool s s' /\ dev_sectors_ok (xt_dev s') /\
  (forall x, sec fs s' x = if (b * ef_sectors_per_block fs <=? x) && (x <? (b + 1) * ef_sectors_per_block fs)
     then slice buf (512 * (x - b * ef_sectors_per_block fs)) 512 else sec fs s x) /\
  (forall b', block_of fs s' b' = if decide (b' = b) then buf else block_of fs s b').

Lemma write_block_ok s b buf :
  in_u32 b -> dev_sectors_ok (xt_dev s) -> Z.of_nat (length buf) = ef_block_size fs -> bytes buf ->
  exists s', write_block fault fs b buf s = Some (true, s') /\ wrote b buf s s'.
Proof.
  intros Hb Hd Hl Hbytes. destruct (block_lba_eq b Hb) as [El Hlba]. destruct spb_u8 as [Eu Eb]. unfold write_block. rewrite Eb, Eu.
  pose proof spb_pos as Hs. rewrite (eg_bs _ Hg) in Hl.
  assert (Hlen : length buf = (512 * Z.to_nat (ef_sectors_per_block fs))%nat) by lia.
  rewrite (blk_write_ok fault nofault) by (first [apply Hg|done|lia]). rewrite El. eexists. split; [reflexivity|].
  unfold wrote, sec, block_of. cbn [xt_dev set_dev get_dev ext_has_dev]. split; [done|]. split; [by apply put_dev_ok|]. split.
  - intros x. rewrite sector_at_put by done.
    replace (Z.of_nat (Z.to_nat (ef_sectors_per_block fs))) with (ef_sectors_per_block fs) by lia.
    replace (512 * (ef_part_lba fs + x - (ef_part_lba fs + b * ef_sectors_per_block fs))) with (512 * (x - b * ef_sectors_per_block fs)) by lia.
    assert (E1 : (ef_part_lba fs + b * ef_sectors_per_block fs <=? ef_part_lba fs + x) = (b * ef_sectors_per_block fs <=? x)).
    { destruct (Z.leb_spec (ef_part_lba fs + b * ef_sectors_per_block fs) (ef_part_lba fs + x)), (Z.leb_spec (b * ef_sectors_per_block fs) x); lia. }
    assert (E2 : (ef_part_lba fs + x <? ef_part_lba fs + b * ef_sectors_per_block fs + ef_sectors_per_block fs) =
      (x <? (b + 1) * ef_sectors_per_block fs)).
    { destruct (Z.ltb_spec (ef_part_lba fs + x) (ef_part_lba fs + b * ef_sectors_per_block fs + ef_sectors_per_block fs)),
        (Z.ltb_spec x ((b + 1) * ef_sectors_per_block fs)); lia. }
    by rewrite E1, E2.
  - intros b'. case_decide as E; [rewrite E; by apply sectors_at_put_same|]. apply sectors_at_put_disj; [done|].
    clear - E Hs. replace (Z.of_nat (Z.to_nat (ef_sectors_per_block fs))) with (ef_sectors_per_block fs) by lia.
    destruct (Z.lt_total b' b) as [|[|]]; [left|lia|right]; nia.
Qed.

(** Two blocks lie on different sectors. *)
Lemma block_sector b b' x :
  b <> b' -> b * ef_sectors_per_block fs <= x < (b + 1) * ef_sectors_per_block fs ->
  (b' * ef_sectors_per_block fs <=? x) && (x <? (b' + 1) * ef_sectors_per_block fs) = false.
Proof.
  intros Hne Hx. pose proof spb_pos.
  destruct (Z.leb_spec (b' * ef_sectors_per_block fs) x), (Z.ltb_spec x ((b' + 1) * ef_sectors_per_block fs)); try done.
  exfalso. apply Hne. clear Hne. nia.
Qed.
End Blocks.

(** ** Group descriptors and inodes *)

(** The block and the offset of the descriptor of group [g], and its bytes. *)
Definition desc_block (fs : ext2_fs_t) (g : Z) : Z := ef_first_data_block fs + 1 + g * 32 / ef_block_size fs.
Definition desc_off (fs : ext2_fs_t) (g : Z) : Z := g * 32 mod ef_block_size fs.
Definition desc (fs : ext2_fs_t) (s : ext_st) (g : Z) : list Z := slice (block_of fs s (desc_block fs g)) (desc_off fs g) 32.

(** Inode [ino] and where it is. *)
Definition inode_at (fs : ext2_fs_t) (s : ext_st) (ino : Z) : Z * Z :=
  let byte := (ino - 1) mod ef_inodes_per_group fs * ef_inode_size fs in
  (bg_inode_table (desc fs s ((ino - 1) / ef_inodes_per_group fs)) + byte / ef_block_size fs, byte mod ef_block_size fs).
Definition inode_of (fs : ext2_fs_t) (s : ext_st) (ino : Z) : list Z :=
  slice (block_of fs s (inode_at fs s ino).1) (inode_at fs s ino).2 128.

(** The number of an inode in one of the groups, whose place is a block
    number. *)
Record ino_ok (fs : ext2_fs_t) (s : ext_st) (ino : Z) : Prop := {
  io_range : 1 <= ino < 4294967296;
  io_group : 0 < ef_inodes_per_group fs /\ (ino - 1) / ef_inodes_per_group fs < ef_groups_count fs;
  io_size : 128 <= ef_inode_size fs /\ (ef_inode_size fs | ef_block_size fs);
  io_byte : (ino - 1) mod ef_inodes_per_group fs * ef_inode_size fs < 4294967296;
  io_block : (inode_at fs s ino).1 < 4294967296;
}.

(** An aligned record lies in one block. *)
Lemma aligned_off sz bs x : 0 < sz -> (sz | bs) -> (sz | x) -> 0 < bs -> 0 <= x mod bs <= bs - sz.
Proof.
  intros Hs [k Hk] [m Hm] Hb. subst bs x. assert (0 < k) by nia. rewrite Z.mul_mod_distr_r by lia.
  pose proof (Z.mod_pos_bound m k ltac:(lia)). nia.
Qed.

Section Inodes.
Context (fault : nat -> option nat) (nofault : forall k, fault k = None).
Context (fs : ext2_fs_t) (Hg : egeo fs).
Implicit Types s : ext_st.

Lemma bs_range : 1024 <= ef_block_size fs <= 4096.
Proof. destruct (block_size_range fs Hg) as [->|[->| ->]]; lia. Qed.

Lemma nonzero_ok d (s : ext_st) : d <> 0 -> nonzero d s = Some (tt, s).
Proof. intros Hd. unfold nonzero. by destruct (Z.eqb_spec d 0). Qed.

Lemma desc_off_ok g : 0 <= g -> 0 <= desc_off fs g <= ef_block_size fs - 32.
Proof.
  intros Hgr. unfold desc_off. apply aligned_off; [lia| |by exists g|pose proof bs_range; lia].
  destruct (block_size_range fs Hg) as [->|[->| ->]]; [by exists 32|by exists 64|by exists 128].
Qed.

Lemma groups_bound g : 0 <= g < ef_groups_count fs -> g < 134217728.
Proof. intros. pose proof (first_range fs Hg). pose proof (eg_bpg _ Hg). pose proof (eg_cover _ Hg). nia. Qed.

Lemma desc_block_range g : 0 <= g < ef_groups_count fs ->
  g * 32 < 4294967296 /\ in_u32 (desc_block fs g) /\ ef_first_data_block fs < desc_block fs g.
Proof.
  intros Hgr. pose proof (groups_bound g Hgr). pose proof (first_range fs Hg). pose proof bs_range. unfold desc_block, in_u32.
  assert (0 <= g * 32 / ef_block_size fs <= g * 32) by (split; [apply Z.div_pos; lia|apply Z.div_le_upper_bound; nia]). lia.
Qed.

Lemma ld_ok b off n (s : ext_st) : 0 <= off -> off + n <= Z.of_nat (length b) -> ld b off n s = Some (slice b off n, s).
Proof. intros. unfold ld. destruct (Z.leb_spec 0 off), (Z.leb_spec (off + n) (Z.of_nat (length b))); (done || lia). Qed.
Lemma st_ok b off l (s : ext_st) : 0 <= off -> off + Z.of_nat (length l) <= Z.of_nat (length b) -> st b off l s = Some (splice b off l, s).
Proof. intros. unfold st. destruct (Z.leb_spec 0 off), (Z.leb_spec (off + Z.of_nat (length l)) (Z.of_nat (length b))); (done || lia). Qed.

Lemma get32_slice b off n : 0 <= off -> 4 <= n -> get32 (slice b off n) 0 = get32 b off.
Proof. intros. unfold get32. rewrite slice_slice by lia. by rewrite Z.add_0_r. Qed.

Lemma ld32_ok b off (s : ext_st) : 0 <= off -> off + 4 <= Z.of_nat (length b) -> ld32 b off s = Some (get32 b off, s).
Proof. intros. unfold ld32. rewrite (bind_eq _ _ _ _ _ (ld_ok b off 4 s ltac:(lia) ltac:(lia))). by rewrite get32_slice. Qed.

Lemma group_desc_ok s g :
  dev_sectors_ok (xt_dev s) -> 0 <= g < ef_groups_count fs ->
  exists s', group_desc fault fs g s = Some (Some (desc_block fs g, desc_off fs g, block_of fs s (desc_block fs g), desc fs s g), s') /\
    same_ext s s'.
Proof.
  intros Hd Hgr. destruct (desc_block_range g Hgr) as (H32 & Hdb & Hlt). pose proof bs_range. pose proof (first_range fs Hg).
  unfold group_desc, locate_bgd.
  assert (E1 : u32 (ef_first_data_block fs + 1) = ef_first_data_block fs + 1) by (apply u32_id; word_unfold; lia).
  assert (E2 : u32 (g * 32) = g * 32) by (apply u32_id; word_unfold; lia).
  rewrite E1, E2. change (ef_first_data_block fs + 1 + g * 32 / ef_block_size fs) with (desc_block fs g). rewrite (u32_id (desc_block fs g)) by done.
  destruct (read_block_ok fault nofault fs Hg s (desc_block fs g) Hdb) as (s1 & E & Hs1). exists s1. split; [|done].
  erewrite bind_eq; [|rewrite (bind_eq _ _ _ _ _ (nonzero_ok (ef_block_size fs) s ltac:(lia))); reflexivity]. cbv beta iota.
  rewrite (bind_eq _ _ _ _ _ E). fold (desc_off fs g).
  pose proof (desc_off_ok g ltac:(lia)). pose proof (length_block fs Hg s (desc_block fs g) Hd).
  by rewrite (bind_eq _ _ _ _ _ (ld_ok (block_of fs s (desc_block fs g)) (desc_off fs g) 32 s1 ltac:(lia) ltac:(lia))).
Qed.

Lemma length_desc s g : dev_sectors_ok (xt_dev s) -> 0 <= g -> Z.of_nat (length (desc fs s g)) = 32.
Proof.
  intros Hd Hgr. pose proof (desc_off_ok g Hgr). apply slice_length; rewrite ?(length_block fs Hg) by done; lia.
Qed.
Lemma bytes_desc s g : dev_sectors_ok (xt_dev s) -> bytes (desc fs s g).
Proof. intros Hd. apply bytes_slice, bytes_block, Hd. Qed.

Lemma inode_block_ok s ino :
  dev_sectors_ok (xt_dev s) -> ino_ok fs s ino ->
  exists s', inode_block fault fs ino s =
      Some (Some ((inode_at fs s ino).1, (inode_at fs s ino).2, block_of fs s (inode_at fs s ino).1), s') /\ same_ext s s'.
Proof.
  intros Hd [Hr [Hi Hgr] [Hsz _] Hby Hb]. unfold inode_block.
  rewrite (bind_eq _ _ _ _ _ (nonzero_ok (ef_inodes_per_group fs) s ltac:(lia))).
  rewrite (u32_id (ino - 1)) by (word_unfold; lia). unfold inode_at in *. set (g := (ino - 1) / ef_inodes_per_group fs) in *.
  assert (Hg0 : 0 <= g) by (apply Z.div_pos; lia). pose proof bs_range.
  destruct (group_desc_ok s g Hd ltac:(lia)) as (s1 & E1 & Hs1). rewrite (bind_eq _ _ _ _ _ E1). cbn [fst snd] in *.
  unfold locate_inode. rewrite (u32_id (_ * ef_inode_size fs)).
  2:{ unfold in_u32. split; [|lia]. apply Z.mul_nonneg_nonneg; [apply Z.mod_pos_bound|]; lia. }
  set (byte := (ino - 1) mod ef_inodes_per_group fs * ef_inode_size fs) in *.
  assert (Hbyte : 0 <= byte) by (apply Z.mul_nonneg_nonneg; [apply Z.mod_pos_bound|]; lia).
  pose proof (get32_range (desc fs s g) 8 (bytes_desc s g Hd)) as Htab. unfold in_u32 in Htab.
  assert (0 <= byte / ef_block_size fs) by (apply Z.div_pos; lia). unfold bg_inode_table in *.
  erewrite bind_eq; [|rewrite (bind_eq _ _ _ _ _ (nonzero_ok (ef_block_size fs) s1 ltac:(lia))); reflexivity]. cbv beta iota.
  rewrite (u32_id (_ + _)) by (unfold in_u32; lia).
  destruct (read_block_ok fault nofault fs Hg s1 (get32 (desc fs s g) 8 + byte / ef_block_size fs)) as (s2 & E2 & Hs2); [unfold in_u32; lia|].
  rewrite (bind_eq _ _ _ _ _ E2), (same_ext_block fs s s1) by done. exists s2. split; [done|by eapply same_ext_trans].
Qed.

Lemma inode_off_ok s ino : ino_ok fs s ino -> 0 <= (inode_at fs s ino).2 <= ef_block_size fs - ef_inode_size fs.
Proof.
  intros [_ [Hi _] [Hsz Hdiv] _ _]. pose proof bs_range. cbn [inode_at snd].
  apply aligned_off; [lia|done|by eexists|lia].
Qed.

Lemma read_inode_ok s ino :
  dev_sectors_ok (xt_dev s) -> ino_ok fs s ino ->
  exists s', read_inode fault fs ino s = Some (Some (inode_of fs s ino), s') /\ same_ext s s'.
Proof.
  intros Hd Hi. destruct (inode_block_ok s ino Hd Hi) as (s1 & E1 & Hs1). exists s1. split; [|done].
  unfold read_inode. rewrite (bind_eq _ _ _ _ _ E1). pose proof (inode_off_ok s ino Hi). destruct (io_size _ _ _ Hi) as [Hsz _].
  pose proof (length_block fs Hg s (inode_at fs s ino).1 Hd).
  by rewrite (bind_eq _ _ _ _ _ (ld_ok (block_of fs s (inode_at fs s ino).1) (inode_at fs s ino).2 128 s1 ltac:(lia) ltac:(lia))).
Qed.

Lemma length_inode s ino : dev_sectors_ok (xt_dev s) -> ino_ok fs s ino -> Z.of_nat (length (inode_of fs s ino)) = 128.
Proof.
  intros Hd Hi. pose proof (inode_off_ok s ino Hi). destruct (io_size _ _ _ Hi) as [Hsz _].
  apply slice_length; rewrite ?(length_block fs Hg) by done; lia.
Qed.

(** What was written as an inode is read back, the other inodes of the block
    being kept. *)
Lemma write_inode_ok s ino inode :
  dev_sectors_ok (xt_dev s) -> ino_ok fs s ino -> length inode = 128%nat -> bytes inode ->
  exists s', write_inode fault fs ino inode s = Some (true, s') /\
    wrote fs (inode_at fs s ino).1 (splice (block_of fs s (inode_at fs s ino).1) (inode_at fs s ino).2 inode) s s'.
Proof.
  intros Hd Hi Hl Hb. destruct (inode_block_ok s ino Hd Hi) as (s1 & E1 & Hs1).
  unfold write_inode. rewrite (bind_eq _ _ _ _ _ E1). pose proof (inode_off_ok s ino Hi). destruct (io_size _ _ _ Hi) as [Hsz _].
  pose proof (length_block fs Hg s (inode_at fs s ino).1 Hd) as Hlen.
  rewrite (bind_eq _ _ _ _ _ (st_ok (block_of fs s (inode_at fs s ino).1) (inode_at fs s ino).2 inode s1 ltac:(lia) ltac:(lia))).
  assert (Hin : in_u32 (inode_at fs s ino).1).
  { unfold in_u32. split; [|by apply Hi]. cbn [inode_at fst].
    pose proof (get32_range _ 8 (bytes_desc s ((ino - 1) / ef_inodes_per_group fs) Hd)) as Ht. unfold in_u32, bg_inode_table in *.
    pose proof bs_range. destruct (io_group _ _ _ Hi). pose proof (Z.mod_pos_bound (ino - 1) (ef_inodes_per_group fs) ltac:(lia)).
    assert (0 <= (ino - 1) mod ef_inodes_per_group fs * ef_inode_size fs / ef_block_size fs) by (apply Z.div_pos; [apply Z.mul_nonneg_nonneg|]; lia). lia. }
  destruct (write_block_ok fault nofault fs Hg s1 (inode_at fs s ino).1 (splice (block_of fs s (inode_at fs s ino).1) (inode_at fs s ino).2 inode)) as (s2 & E2 & Hw).
  - done.
  - eauto.
  - by rewrite length_splice.
  - apply bytes_splice; [by apply bytes_block|done].
  - exists s2. split; [exact E2|]. destruct Hw as ((Ep & Ep') & Hd2 & Hsec & Hblk). destruct Hs1 as (Ed & Ef & En).
    split; [by split; congruence|]. split; [done|]. split.
    + intros x. rewrite Hsec. unfold sec, sector_at. by rewrite Ed.
    + intros b'. rewrite Hblk. case_decide; [done|]. by apply same_ext_block.
Qed.
End Inodes.

(** ** The blocks of a file *)

(** Entry [k] of the block of pointers [b]; a missing block has no entries. *)
Definition ptr_of (fs : ext2_fs_t) (s : ext_st) (b k : Z) : Z := if b =? 0 then 0 else get32 (block_of fs s b) (4 * k).
(** The block that holds the [l]-th block of the file, 0 if there is none: the
    first twelve are named by the inode, then come those of one block of
    pointers, of a tree of depth two, and of a tree of depth three. *)
Definition bmap (fs : ext2_fs_t) (s : ext_st) (inode : list Z) (l : Z) : Z :=
  let p := ef_block_size fs / 4 in
  if l <? 12 then i_block inode l
  else if l - 12 <? p then ptr_of fs s (i_block inode 12) (l - 12)
  else if l - 12 - p <? p * p then ptr_of fs s (ptr_of fs s (i_block inode 13) ((l - 12 - p) / p)) ((l - 12 - p) mod p)
  else
    let r := l - 12 - p - p * p in
    if r <? p * p * p then ptr_of fs s (ptr_of fs s (ptr_of fs s (i_block inode 14) (r / (p * p))) (r / p mod p)) (r mod p)
    else 0.

Lemma same_ext_ptr fs s s' b k : same_ext s s' -> ptr_of fs s' b k = ptr_of fs s b k.
Proof. intros. unfold ptr_of. by rewrite (same_ext_block fs s s'). Qed.
Lemma same_ext_bmap fs s s' inode l : same_ext s s' -> bmap fs s' inode l = bmap fs s inode l.
Proof. intros. unfold bmap. by rewrite !(same_ext_ptr fs s s'). Qed.

Section Mapping.
Context (fault : nat -> option nat) (nofault : forall k, fault k = None).
Context (fs : ext2_fs_t) (Hg : egeo fs).
Implicit Types s : ext_st.

Lemma ptr_range s b k : dev_sectors_ok (xt_dev s) -> in_u32 (ptr_of fs s b k).
Proof. intros Hd. unfold ptr_of. bcase; [done|]. apply get32_range, bytes_block, Hd. Qed.

Lemma ind_entry_ok s b k :
  dev_sectors_ok (xt_dev s) -> in_u32 b -> 0 <= k < ef_block_size fs / 4 ->
  exists s', ind_entry fault fs b k s = Some (ptr_of fs s b k, s') /\ same_ext s s'.
Proof.
  intros Hd Hb Hk. unfold ind_entry, ptr_of. bcase; [by exists s|].
  destruct (read_block_ok fault nofault fs Hg s b Hb) as (s1 & E1 & Hs1). exists s1. split; [|done].
  rewrite (bind_eq _ _ _ _ _ E1). pose proof (length_block fs Hg s b Hd). rewrite ld32_ok by zlia. done.
Qed.

Lemma ptrs_cases : ef_block_size fs / 4 = 256 \/ ef_block_size fs / 4 = 512 \/ ef_block_size fs / 4 = 1024.
Proof. destruct (block_size_range fs Hg) as [->|[->| ->]]; auto. Qed.

Lemma get_block_ok s inode l :
  dev_sectors_ok (xt_dev s) -> bytes inode -> Z.land (i_flags inode) EXT4_EXTENTS_FL = 0 -> in_u32 l ->
  exists s', get_block fault fs inode l s = Some (bmap fs s inode l, s') /\ same_ext s s'.
Proof.
  intros Hd Hb Hfl Hl. unfold get_block, bmap. rewrite Hfl. cbn [Z.eqb negb]. pose proof ptrs_cases as Hp. set (p := ef_block_size fs / 4) in *.
  assert (Hpp : 0 < p <= 1024 /\ u32 (p * p) = p * p /\ 0 < p * p) by (destruct Hp as [->|[->| ->]]; repeat split; (done || lia)).
  destruct Hpp as (Hp1 & Epp & Hp2). rewrite Epp. unfold in_u32 in Hl.
  assert (Hib : forall k, in_u32 (i_block inode k)) by (intros; by apply get32_range).
  destruct (Z.ltb_spec l 12); [by exists s|]. cbv zeta. destruct (Z.ltb_spec (l - 12) p); [apply ind_entry_ok; [done|done|fold p; lia]|].
  destruct (Z.ltb_spec (l - 12 - p) (p * p)).
  - destruct (ind_entry_ok s (i_block inode 13) ((l - 12 - p) / p)) as (s1 & E1 & Hs1); [done|done| |].
    { split; [by apply Z.div_pos; lia|by apply Z.div_lt_upper_bound; lia]. }
    rewrite (bind_eq _ _ _ _ _ E1).
    destruct (ind_entry_ok s1 (ptr_of fs s (i_block inode 13) ((l - 12 - p) / p)) ((l - 12 - p) mod p)) as (s2 & E2 & Hs2);
      [eauto|by apply ptr_range|by apply Z.mod_pos_bound; lia|].
    rewrite E2, (same_ext_ptr fs s s1) by done. exists s2. split; [done|by eapply same_ext_trans].
  - rewrite u32_id by (unfold in_u32; lia). set (r := l - 12 - p - p * p) in *.
    rewrite (bind_eq _ _ _ _ _ (nonzero_ok p s ltac:(lia))).
    assert (Er : r / p / p = r / (p * p)) by (by rewrite Z.div_div by lia).
    assert (Ec : (r / p / p <? p) = (r <? p * p * p)).
    { rewrite Er. destruct (Z.ltb_spec r (p * p * p)).
      - apply Z.ltb_lt. apply Z.div_lt_upper_bound; lia.
      - apply Z.ltb_ge. apply Z.div_le_lower_bound; lia. }
    rewrite Ec. destruct (Z.ltb_spec r (p * p * p)); [|by exists s].
    rewrite (bind_eq _ _ _ _ _ (nonzero_ok (p * p) s ltac:(lia))).
    destruct (ind_entry_ok s (i_block inode 14) (r / (p * p))) as (s1 & E1 & Hs1); [done|done| |].
    { split; [by apply Z.div_pos; lia|by apply Z.div_lt_upper_bound; lia]. }
    rewrite (bind_eq _ _ _ _ _ E1).
    destruct (ind_entry_ok s1 (ptr_of fs s (i_block inode 14) (r / (p * p))) (r / p mod p)) as (s2 & E2 & Hs2);
      [eauto|by apply ptr_range|by apply Z.mod_pos_bound; lia|].
    rewrite (bind_eq _ _ _ _ _ E2), (same_ext_ptr fs s s1) by done.
    assert (Hs02 : same_ext s s2) by (by eapply same_ext_trans).
    destruct (ind_entry_ok s2 (ptr_of fs s (ptr_of fs s (i_block inode 14) (r / (p * p))) (r / p mod p)) (r mod p)) as (s3 & E3 & Hs3);
      [eauto|by apply ptr_range|by apply Z.mod_pos_bound; lia|].
    rewrite E3, (same_ext_ptr fs s s2) by done. exists s3. split; [done|by eapply same_ext_trans].
Qed.

(** A block the map names is a block number. *)
Lemma bmap_range s inode l : dev_sectors_ok (xt_dev s) -> bytes inode -> in_u32 (bmap fs s inode l).
Proof.
  intros Hd Hb. unfold bmap. assert (Hib : forall k, in_u32 (i_block inode k)) by (intros; by apply get32_range).
  repeat bcase; try done; by apply ptr_range.
Qed.
End Mapping.

(** ** Reading *)

(** The bytes of the first [n] blocks of a file. *)
Definition ext_content (fs : ext2_fs_t) (s : ext_st) (inode : list Z) (n : nat) : list Z :=
  concat (map (fun k => block_of fs s (bmap fs s inode (Z.of_nat k))) (seq 0 n)).
(** How many blocks its size takes, and its bytes. *)
Definition ext_blocks (fs : ext2_fs_t) (inode : list Z) : nat :=
  Z.to_nat ((i_size inode + ef_block_size fs - 1) / ef_block_size fs).
Definition ext_bytes (fs : ext2_fs_t) (s : ext_st) (inode : list Z) : list Z :=
  take (Z.to_nat (i_size inode)) (ext_content fs s inode (ext_blocks fs inode)).

(** Node [ni] is a file of the volume, mapped without extents and without
    holes. *)
Record ext_file_ok (fs : ext2_fs_t) (s : ext_st) (ni : nat) (n : vfs_node_t) : Prop := {
  xo_node : xt_nodes s !! ni = Some n;
  xo_fs : exists fsi, n_private n = Some fsi /\ xt_fs s !! fsi = Some fs;
  xo_ino : ino_ok fs s (n_inode n);
  xo_flags : Z.land (i_flags (inode_of fs s (n_inode n))) EXT4_EXTENTS_FL = 0;
  xo_mapped : forall k, (k < ext_blocks fs (inode_of fs s (n_inode n)))%nat -> bmap fs s (inode_of fs s (n_inode n)) (Z.of_nat k) <> 0;
}.

Lemma same_ext_content fs s s' inode n : same_ext s s' -> ext_content fs s' inode n = ext_content fs s inode n.
Proof. intros H. unfold ext_content. f_equal. apply map_ext. intros k. by rewrite (same_ext_bmap fs s s' _ _ H), (same_ext_block fs s s' _ H). Qed.

Section Reading.
Context (fault : nat -> option nat) (nofault : forall k, fault k = None) (fuel : nat).
Context (fs : ext2_fs_t) (Hg : egeo fs).
Implicit Types s : ext_st.

(** One round of the transfer loop. *)
Definition ext_read_round (inode : list Z) (offset size : Z) (out : list Z) : M ext_st (list Z + (Z + list Z)) :=
  let done := Z.of_nat (length out) in
  if done <? size then
    nonzero (ef_block_size fs);;
    let cur := u32 (offset + done) in
    let blk_l := cur / ef_block_size fs in
    let blk_o := cur mod ef_block_size fs in
    phys ← get_block fault fs inode blk_l;
    if phys =? 0 then mret (inr (inr out))
    else
      r ← read_block fault fs phys;
      match r with
      | None => mret (inr (inl (-1)))
      | Some buf =>
        let copy := ef_block_size fs - blk_o in
        let copy := if copy >? u32 (size - done) then u32 (size - done) else copy in
        l ← ld buf blk_o copy;
        mret (inl (out ++ l))
      end
  else mret (inr (inr out)).

Context (s0 : ext_st) (inode : list Z).
Context (Hd : dev_sectors_ok (xt_dev s0)) (Hb : bytes inode) (Hflags : Z.land (i_flags inode) EXT4_EXTENTS_FL = 0).
Context (Hmap : forall k, (k < ext_blocks fs inode)%nat -> bmap fs s0 inode (Z.of_nat k) <> 0).

Lemma length_ext_content n : Z.of_nat (length (ext_content fs s0 inode n)) = Z.of_nat n * ef_block_size fs.
Proof. apply (length_pieces (fun k => block_of fs s0 (bmap fs s0 inode (Z.of_nat k)))). intros. by apply length_block. Qed.

Lemma ext_blocks_spec : i_size inode <= Z.of_nat (ext_blocks fs inode) * ef_block_size fs /\
  forall x, 0 <= x < i_size inode -> (Z.to_nat (x / ef_block_size fs) < ext_blocks fs inode)%nat.
Proof.
  pose proof (bs_range fs Hg) as Hbs. pose proof (get32_range inode 4 Hb) as Hi. unfold in_u32 in Hi. fold (i_size inode) in Hi.
  unfold ext_blocks. set (sz := i_size inode) in *. set (bs := ef_block_size fs) in *.
  rewrite Z2Nat.id by (apply Z.div_pos; lia). split; [zlia|]. intros x Hx.
  assert (x / bs < (sz + bs - 1) / bs); [|apply Z2Nat.inj_lt; [apply Z.div_pos; lia|apply Z.div_pos; lia|done]].
  enough (x / bs + 1 <= (sz + bs - 1) / bs) by lia. rewrite <- Z.div_add by lia. apply Z.div_le_mono; lia.
Qed.

(** A round in the middle of the transfer appends the rest of the block, or of
    the transfer. *)
Lemma read_round_ok offset size s out :
  same_ext s0 s -> 0 <= offset -> offset + size <= i_size inode -> Z.of_nat (length out) < size ->
  let cur := offset + Z.of_nat (length out) in
  let copy := Z.min (ef_block_size fs - cur mod ef_block_size fs) (size - Z.of_nat (length out)) in
  exists s', ext_read_round inode offset size out s =
      Some (inl (out ++ slice (ext_content fs s0 inode (ext_blocks fs inode)) cur copy), s') /\ same_ext s0 s'.
Proof.
  intros Hs Ho Hend Hlt cur copy. pose proof (bs_range fs Hg) as Hbs. pose proof (get32_range inode 4 Hb) as Hi. unfold in_u32 in Hi.
  fold (i_size inode) in Hi. destruct ext_blocks_spec as [_ Hk]. specialize (Hk cur ltac:(lia)). set (k := Z.to_nat (cur / ef_block_size fs)) in *.
  assert (Ek : Z.of_nat k = cur / ef_block_size fs) by (unfold k; rewrite Z2Nat.id; [done|apply Z.div_pos; lia]).
  pose proof (Z.mod_pos_bound cur (ef_block_size fs) ltac:(lia)) as Hmod.
  assert (Ecur : cur = Z.of_nat k * ef_block_size fs + cur mod ef_block_size fs) by (rewrite Ek; pose proof (Z.div_mod cur (ef_block_size fs)); lia).
  unfold ext_read_round. destruct (Z.ltb_spec (Z.of_nat (length out)) size); [|lia].
  rewrite (bind_eq _ _ _ _ _ (nonzero_ok (ef_block_size fs) s ltac:(lia))). fold cur. rewrite (u32_id cur) by (unfold in_u32; lia). rewrite <- Ek.
  assert (Hd1 : dev_sectors_ok (xt_dev s)) by eauto.
  destruct (get_block_ok fault nofault fs Hg s inode (Z.of_nat k) Hd1 Hb Hflags) as (s1 & E1 & Hs1); [unfold in_u32; zlia|].
  rewrite (bind_eq _ _ _ _ _ E1), (same_ext_bmap fs s0 s) by done. pose proof (Hmap k Hk) as Hne. pose proof (bmap_range fs s0 inode (Z.of_nat k) Hd Hb) as Hr.
  set (phys := bmap fs s0 inode (Z.of_nat k)) in *. destruct (Z.eqb_spec phys 0); [done|].
  assert (Hs01 : same_ext s0 s1) by (by eapply same_ext_trans).
  destruct (read_block_ok fault nofault fs Hg s1 phys Hr) as (s2 & E2 & Hs2). rewrite (bind_eq _ _ _ _ _ E2), (same_ext_block fs s0 s1) by done.
  rewrite (u32_id (size - _)) by (unfold in_u32; lia).
  assert (Ecopy : (if ef_block_size fs - cur mod ef_block_size fs >? size - Z.of_nat (length out) then size - Z.of_nat (length out)
    else ef_block_size fs - cur mod ef_block_size fs) = copy) by (unfold copy; bcase; lia).
  rewrite Ecopy. pose proof (length_block fs Hg s0 phys Hd) as Hlen.
  assert (Hcopy : 0 <= copy /\ cur mod ef_block_size fs + copy <= ef_block_size fs) by (unfold copy; lia).
  erewrite bind_eq; [|apply ld_ok; lia]. exists s2. split; [|by eapply same_ext_trans]. unfold mret, M_ret. do 4 f_equal.
  unfold ext_content. rewrite Ecur at 2. symmetry.
  apply (slice_pieces (fun k => block_of fs s0 (bmap fs s0 inode (Z.of_nat k)))); [lia|intros; by apply length_block|done|lia|lia|lia].
Qed.

Lemma ext_read_loop_ok offset size n s :
  same_ext s0 s -> 0 <= offset -> 0 <= size -> offset + size <= i_size inode -> (ext_blocks fs inode < n)%nat ->
  exists s', loop n (ext_read_round inode offset size) [] s =
      Some (inr (slice (ext_content fs s0 inode (ext_blocks fs inode)) offset size), s') /\ same_ext s0 s'.
Proof.
  intros Hs Ho Hsz Hend Hn. pose proof (bs_range fs Hg) as Hbs. destruct ext_blocks_spec as [Hcov _].
  apply (transfer_ok (same_ext s0) (fun l => l) (ext_read_round inode offset size) (fun l => inr l) _ (ef_block_size fs) offset size);
    [lia|done|rewrite length_ext_content; lia| | |done|done|].
  - intros s1 out Hs1 Hlt. by apply read_round_ok.
  - intros s1 out E. unfold ext_read_round. by rewrite E, Z.ltb_irrefl.
  - right. unfold ext_blocks in *. assert (0 <= offset / ef_block_size fs) by (apply Z.div_pos; lia).
    assert ((offset + size + ef_block_size fs - 1) / ef_block_size fs <= (i_size inode + ef_block_size fs - 1) / ef_block_size fs)
      by (apply Z.div_le_mono; lia). lia.
Qed.
End Reading.

Section ReadFile.
Context (fault : nat -> option nat) (nofault : forall k, fault k = None) (fuel : nat).

Lemma ext2_read_ok fs s ni n offset size :
  egeo fs -> dev_sectors_ok (xt_dev s) -> ext_file_ok fs s ni n -> (ext_blocks fs (inode_of fs s (n_inode n)) < fuel)%nat ->
  0 <= offset -> 0 <= size -> offset + size < 18446744073709551616 \/ size < 4294967296 ->
  exists s', ext2_read fault fuel ni offset size s = Some (inr (slice (ext_bytes fs s (inode_of fs s (n_inode n))) offset size), s') /\
    same_ext s s'.
Proof.
  intros Hg Hd [Hn (fsi & Ep & Ef) Hi Hfl Hmap] Hfuel Ho Hs Hov.
  unfold ext2_read. erewrite bind_eq; [|unfold enode; by rewrite Hn]. rewrite Ep.
  erewrite bind_eq; [|unfold efs; by rewrite Ef].
  destruct (read_inode_ok fault nofault fs Hg s (n_inode n) Hd Hi) as (s1 & E1 & Hs1). rewrite (bind_eq _ _ _ _ _ E1).
  set (inode := inode_of fs s (n_inode n)) in *.
  assert (Hb : bytes inode) by apply bytes_slice, bytes_block, Hd.
  pose proof (get32_range inode 4 Hb) as Hsz. fold (i_size inode) in Hsz. unfold in_u32 in Hsz.
  set (C := ext_content fs s inode (ext_blocks fs inode)).
  assert (Hbytes : slice (ext_bytes fs s inode) offset size = slice C offset (Z.max 0 (Z.min size (i_size inode - offset)))).
  { unfold ext_bytes, slice. fold C. rewrite skipn_firstn_comm, take_take. f_equal. lia. }
  rewrite Hbytes, Z.geb_leb. destruct (Z.leb_spec (i_size inode) offset); [exists s1; by rewrite Z.max_l by lia|].
  rewrite Z.max_r by lia. rewrite (u64_id (offset + size)) by (unfold in_u64; lia).
  replace (if offset + size >? i_size inode then u32 (i_size inode - offset) else size) with (Z.min size (i_size inode - offset)).
  2:{ bcase; rewrite ?u32_id by (unfold in_u32; lia); lia. }
  set (sz := Z.min size (i_size inode - offset)). pose proof (bs_range fs Hg).
  assert (Hmap1 : forall k, (k < ext_blocks fs inode)%nat -> bmap fs s inode (Z.of_nat k) <> 0) by done.
  destruct (ext_read_loop_ok fault nofault fs Hg s inode Hd Hb Hfl Hmap1 offset sz fuel s1) as (s2 & E2 & Hs2); [done|done|lia|lia|done|].
  exists s2. split; [|done]. exact E2.
Qed.

(** [ext2_read] of ext2.c: with drives that answer, reading [size] bytes at
    [offset] of a file without extents and without holes returns exactly the
    bytes of the blocks its inode maps (direct, and through one, two or three
    levels of pointers) in that range, cut at the end of the file; it takes at
    most one round per block and changes nothing on the drives. *)
Theorem ext2_read_correct fs s ni n offset size :
  egeo fs -> dev_sectors_ok (xt_dev s) -> ext_file_ok fs s ni n -> (ext_blocks fs (inode_of fs s (n_inode n)) < fuel)%nat ->
  0 <= offset -> 0 <= size -> offset + size < 18446744073709551616 ->
  exists s', ext2_read fault fuel ni offset size s = Some (inr (slice (ext_bytes fs s (inode_of fs s (n_inode n))) offset size), s') /\
    same_ext s s'.
Proof. intros ?????? Hov. apply ext2_read_ok; auto. Qed.
End ReadFile.
