(* ===== verification/Ext2Alloc.v ===== *)
(** * The ext2 driver: allocation

    The bitmaps of the block groups as the set of used blocks ([used]). Under
    the invariant [layout_ok] (the metadata blocks of the volume are distinct)
    the allocators act on it as a set: the first free block is taken, a freed
    block is free, nothing else changes, and the free counters of the group
    and of the volume follow. The drives answer every command. *)

From S2P Require Import Prelude Blk BlkProofs Fat32 Ext2 Ext2Proofs.

(** ** Bitmaps *)

Lemma bit_test_spec bm i : bytes bm -> 0 <= i -> bit_test bm i = Z.testbit (get8 bm (i / 8)) (i mod 8).
Proof.
  intros Hb Hi. unfold bit_test. assert (Hm : 0 <= i mod 8) by zlia. rewrite Z.shiftl_1_l.
  destruct (Z.testbit (get8 bm (i / 8)) (i mod 8)) eqn:E.
  - apply negb_true_iff, Z.eqb_neq. intros H. assert (Z.testbit 0 (i mod 8) = true) as H0; [|by rewrite Z.bits_0 in H0].
    rewrite <- H, Z.land_spec, E, Z.pow2_bits_true by done. done.
  - apply negb_false_iff, Z.eqb_eq. apply Z.bits_inj'. intros j Hj. rewrite Z.bits_0, Z.land_spec, Z.pow2_bits_eqb by done.
    destruct (Z.eqb_spec (i mod 8) j) as [<-|]; [by rewrite E|by rewrite andb_false_r].
Qed.

Lemma pow_mod8 i : in_u8 (2 ^ (i mod 8)).
Proof.
  assert (0 <= i mod 8 < 8) as H by zlia. unfold in_u8. split; [apply Z.pow_nonneg; lia|].
  change 256 with (2 ^ 8). apply Z.pow_lt_mono_r; lia.
Qed.

Lemma bytes_bit_set bm i : bytes bm -> bytes (bit_set bm i).
Proof.
  intros Hb. apply bytes_put8; [done|]. rewrite Z.shiftl_1_l. apply (lor_range _ _ 8); [done|by apply get8_byte|by apply pow_mod8].
Qed.
Lemma bytes_bit_clear bm i : bytes bm -> bytes (bit_clear bm i).
Proof.
  intros Hb. apply bytes_put8; [done|]. apply (land_range _ _ 8); [done|]. apply u8_range.
Qed.
Lemma length_bit_set bm i : length (bit_set bm i) = length bm.
Proof. apply length_insert. Qed.
Lemma length_bit_clear bm i : length (bit_clear bm i) = length bm.
Proof. apply length_insert. Qed.

(** Setting a bit sets that bit, clearing it clears it. *)
Lemma bit_test_set bm i j :
  bytes bm -> 0 <= i < 8 * Z.of_nat (length bm) -> 0 <= j -> bit_test (bit_set bm i) j = (j =? i) || bit_test bm j.
Proof.
  intros Hb Hi Hj. rewrite !bit_test_spec by (try apply bytes_bit_set; done). unfold bit_set.
  rewrite get8_put8 by zlia. destruct (Z.eqb_spec (j / 8) (i / 8)) as [E|E].
  - rewrite <- E, Z.lor_spec, Z.shiftl_1_l, Z.pow2_bits_eqb by zlia.
    destruct (Z.eqb_spec (i mod 8) (j mod 8)), (Z.eqb_spec j i); [apply orb_true_r|zlia|zlia|apply orb_false_r].
  - destruct (Z.eqb_spec j i); [zlia|done].
Qed.

Lemma clear_mask k : 0 <= k < 8 -> u8 (not32 (Z.shiftl 1 k)) = 255 - 2 ^ k.
Proof. intros Hk. assert (k = 0 \/ k = 1 \/ k = 2 \/ k = 3 \/ k = 4 \/ k = 5 \/ k = 6 \/ k = 7) as H by lia. by repeat destruct H as [->|H]; [..|subst]. Qed.

Lemma mask_bit k j : 0 <= k < 8 -> 0 <= j < 8 -> Z.testbit (255 - 2 ^ k) j = negb (j =? k).
Proof.
  intros Hk Hj. assert (k = 0 \/ k = 1 \/ k = 2 \/ k = 3 \/ k = 4 \/ k = 5 \/ k = 6 \/ k = 7) as H by lia.
  assert (j = 0 \/ j = 1 \/ j = 2 \/ j = 3 \/ j = 4 \/ j = 5 \/ j = 6 \/ j = 7) as H' by lia. clear Hk Hj.
  repeat destruct H as [->|H]; subst; repeat destruct H' as [->|H']; by subst.
Qed.

Lemma bit_test_clear bm i j :
  bytes bm -> 0 <= i < 8 * Z.of_nat (length bm) -> 0 <= j -> bit_test (bit_clear bm i) j = negb (j =? i) && bit_test bm j.
Proof.
  intros Hb Hi Hj. rewrite !bit_test_spec by (try apply bytes_bit_clear; done). unfold bit_clear.
  rewrite get8_put8 by zlia. destruct (Z.eqb_spec (j / 8) (i / 8)) as [E|E].
  - rewrite <- E, Z.land_spec, clear_mask, mask_bit by zlia. rewrite andb_comm. f_equal. f_equal.
    destruct (Z.eqb_spec (j mod 8) (i mod 8)), (Z.eqb_spec j i); (done || zlia).
  - destruct (Z.eqb_spec j i); [zlia|done].
Qed.

(** The scan finds the first clear bit that is not skipped. *)
Definition clear_at (skip : Z -> bool) (bm : list Z) (i : Z) : Prop := skip i = false /\ bit_test bm i = false.
Lemma first_clear_ok n skip bm bit (s : ext_st) :
  0 <= bit -> bit + Z.of_nat n <= 8 * Z.of_nat (length bm) ->
  exists o, first_clear n skip bm bit s = Some (o, s) /\
    match o with
    | Some i => bit <= i < bit + Z.of_nat n /\ clear_at skip bm i /\ forall j, bit <= j < i -> ~ clear_at skip bm j
    | None => forall j, bit <= j < bit + Z.of_nat n -> ~ clear_at skip bm j
    end.
Proof.
  revert bit. induction n as [|n IH]; intros bit Hb Hn; cbn [first_clear]; [exists None; split; [done|lia]|].
  assert (Hskip : ~ clear_at skip bm bit -> exists o, first_clear n skip bm (bit + 1) s = Some (o, s) /\
    match o with
    | Some i => bit <= i < bit + Z.of_nat (S n) /\ clear_at skip bm i /\ forall j, bit <= j < i -> ~ clear_at skip bm j
    | None => forall j, bit <= j < bit + Z.of_nat (S n) -> ~ clear_at skip bm j
    end).
  { intros Hno. destruct (IH (bit + 1) ltac:(lia) ltac:(lia)) as (o & E & Ho). exists o. split; [done|]. destruct o as [i|].
    - destruct Ho as (Hi & Hc & Hlow). split; [lia|]. split; [done|]. intros j Hj. destruct (Z.eq_dec j bit) as [->|]; [done|apply Hlow; lia].
    - intros j Hj. destruct (Z.eq_dec j bit) as [->|]; [done|apply Ho; lia]. }
  destruct (skip bit) eqn:Es; [apply Hskip; intros [? _]; congruence|].
  unfold bit_in, ld8. erewrite bind_eq.
  2:{ erewrite bind_eq; [reflexivity|]. erewrite bind_eq; [reflexivity|]. apply ld_ok; zlia. }
  destruct (bit_test bm bit) eqn:Et; [apply Hskip; intros [_ ?]; congruence|].
  exists (Some bit). split; [done|]. split; [lia|]. split; [by split|lia].
Qed.

(** ** Metadata *)

Section Meta.
Context (fault : nat -> option nat) (nofault : forall k, fault k = None).
Context (fs : ext2_fs_t) (Hg : egeo fs).
Implicit Types s : ext_st.

(** The superblock. *)
Definition sb_of s : list Z :=
  sectors_at (xt_dev s) (blk_driver (ef_drive_type fs)) (ef_drive fs) (ef_part_lba fs + 2) 2.
Definition sb_free_blocks s : Z := get32 (sb_of s) 12.
Definition sb_free_inodes s : Z := get32 (sb_of s) 16.

(** The blocks behind the superblock are those of [f]. *)
Definition blocks_are (f : Z -> list Z) s s' : Prop :=
  same_pool s s' /\ dev_sectors_ok (xt_dev s') /\ forall b, ef_first_data_block fs < b -> block_of fs s' b = f b.

Lemma sb_sectors b x : ef_first_data_block fs < b -> b * ef_sectors_per_block fs <= x -> 4 <= x.
Proof. rewrite (eg_first _ Hg). destruct (eg_spb _ Hg) as [->|[->| ->]]; cbn; lia. Qed.

Lemma sb_of_wrote s s' b buf : ef_first_data_block fs < b -> wrote fs b buf s s' -> sb_of s' = sb_of s.
Proof.
  intros Hb (_ & _ & Hsec & _). unfold sb_of. apply sectors_at_ext. intros i Hi.
  specialize (Hsec (i - ef_part_lba fs)). unfold sec in Hsec. replace (ef_part_lba fs + (i - ef_part_lba fs)) with i in Hsec by lia.
  rewrite Hsec. pose proof (sb_sectors b (b * ef_sectors_per_block fs) Hb ltac:(lia)).
  destruct (Z.leb_spec (b * ef_sectors_per_block fs) (i - ef_part_lba fs)); [lia|done].
Qed.

Lemma sb_adjust_ok s bd nd :
  dev_sectors_ok (xt_dev s) ->
  exists s', sb_adjust_free fault fs bd nd s = Some (tt, s') /\ blocks_are (block_of fs s) s s' /\
    sb_free_blocks s' = u32 (sb_free_blocks s + bd) /\ sb_free_inodes s' = u32 (sb_free_inodes s + nd).
Proof.
  intros Hd. pose proof (eg_lba _ Hg) as Hl. unfold sb_adjust_free.
  rewrite (u64_id (ef_part_lba fs + 2)) by (unfold in_u64; lia).
  assert (Hl2 : in_u64 (ef_part_lba fs + 2)) by (unfold in_u64; lia).
  erewrite bind_eq; [|apply (blk_read_ok fault nofault); [apply Hg|done|lia]]. cbn [get_dev ext_has_dev].
  change (Z.to_nat 2) with 2%nat. fold (sb_of s). cbv zeta.
  set (sb1 := put32 (sb_of s) 12 _). set (sb2 := put32 sb1 16 _).
  assert (Hlen : length (sb_of s) = 1024%nat) by (apply length_sectors_at, Hd).
  assert (Hlen2 : length sb2 = (512 * 2)%nat) by (unfold sb2, sb1; by rewrite !length_put32).
  assert (Hb2 : bytes sb2) by (unfold sb2, sb1, put32; do 2 (apply bytes_splice; [|apply le_bytes_bytes]); apply bytes_sectors_at, Hd).
  erewrite bind_eq; [|apply (blk_write_ok fault nofault); [apply Hg|done|lia]]. eexists. split; [reflexivity|].
  cbn [get_dev ext_has_dev]. change (Z.to_nat 2) with 2%nat. unfold blocks_are, sb_free_blocks, sb_free_inodes, sb_of, block_of.
  cbn [xt_dev set_dev get_dev ext_has_dev]. rewrite sectors_at_put_same by done. split.
  - split; [done|]. split; [by apply put_dev_ok|]. intros b Hb. pose proof (sb_sectors b (b * ef_sectors_per_block fs) Hb ltac:(lia)).
    rewrite sectors_at_put_disj by (done || lia). apply sectors_at_ext. intros. reflexivity.
  - unfold sb2, sb1. rewrite (get32_put32_disj _ 16 _ 12) by lia. rewrite !get32_put32_same by (rewrite ?length_put32, ?Hlen; lia).
    rewrite !(u32_id (u32 _)) by apply u32_range. split; [reflexivity|]. by rewrite (get32_put32_disj _ 12) by lia.
Qed.

(** The number of a bitmap's block: behind the superblock, and none of the
    blocks of the descriptors. *)
Definition meta_block (b : Z) : Prop :=
  ef_first_data_block fs < b < 4294967296 /\ forall g, 0 <= g < ef_groups_count fs -> b <> desc_block fs g.

(** Writing a descriptor changes that descriptor. *)
Lemma desc_splice s s' g g' bgd :
  dev_sectors_ok (xt_dev s) -> length bgd = 32%nat -> 0 <= g < ef_groups_count fs -> 0 <= g' < ef_groups_count fs ->
  (forall g', 0 <= g' < ef_groups_count fs ->
    block_of fs s' (desc_block fs g') = if decide (desc_block fs g' = desc_block fs g)
      then splice (block_of fs s (desc_block fs g)) (desc_off fs g) bgd else block_of fs s (desc_block fs g')) ->
  desc fs s' g' = if g' =? g then bgd else desc fs s g'.
Proof.
  intros Hd Hl Hgr Hgr' Hblk. unfold desc. rewrite Hblk by done.
  pose proof (desc_off_ok fs Hg g ltac:(lia)) as Ho. pose proof (desc_off_ok fs Hg g' ltac:(lia)) as Ho'.
  pose proof (length_block fs Hg s (desc_block fs g) Hd). destruct (Z.eqb_spec g' g) as [->|Hne].
  - rewrite decide_True by done. change 32 with (Z.of_nat 32). rewrite <- Hl. apply slice_splice_same; lia.
  - case_decide as E; [|done]. rewrite E. apply slice_splice_disj; [lia|lia|]. rewrite Hl.
    unfold desc_block, desc_off in *. pose proof (bs_range fs Hg).
    pose proof (Z.div_mod (g * 32) (ef_block_size fs) ltac:(lia)). pose proof (Z.div_mod (g' * 32) (ef_block_size fs) ltac:(lia)).
    assert (g * 32 / ef_block_size fs = g' * 32 / ef_block_size fs) as Eq by lia. rewrite Eq in *. lia.
Qed.

Lemma commit_ok s g bb bm bgd bd nd :
  dev_sectors_ok (xt_dev s) -> 0 <= g < ef_groups_count fs -> meta_block bb ->
  Z.of_nat (length bm) = ef_block_size fs -> bytes bm -> length bgd = 32%nat -> bytes bgd ->
  exists s', commit fault fs bb bm (desc_block fs g, desc_off fs g, block_of fs s (desc_block fs g), desc fs s g) bgd bd nd s = Some (true, s') /\
    blocks_are (fun b => if decide (b = bb) then bm else if decide (b = desc_block fs g)
      then splice (block_of fs s (desc_block fs g)) (desc_off fs g) bgd else block_of fs s b) s s' /\
    sb_free_blocks s' = u32 (sb_free_blocks s + bd) /\ sb_free_inodes s' = u32 (sb_free_inodes s + nd).
Proof.
  intros Hd Hgr [Hbb Hnd] Hl Hb Hl' Hb'. unfold commit. destruct (desc_block_range fs Hg g Hgr) as (_ & Hdb & Hdf).
  pose proof (first_range fs Hg).
  destruct (write_block_ok fault nofault fs Hg s bb bm) as (s1 & E1 & Hw1); [unfold in_u32; lia|done|done|done|].
  rewrite (bind_eq _ _ _ _ _ E1). pose proof Hw1 as (Hp1 & Hd1 & _ & Hblk1).
  destruct (write_block_ok fault nofault fs Hg s1 (desc_block fs g) (splice (block_of fs s (desc_block fs g)) (desc_off fs g) bgd)) as (s2 & E2 & Hw2);
    [done|done|rewrite length_splice; by apply length_block|apply bytes_splice; [by apply bytes_block|done]|].
  rewrite (bind_eq _ _ _ _ _ E2). pose proof Hw2 as (Hp2 & Hd2 & _ & Hblk2).
  destruct (sb_adjust_ok s2 bd nd Hd2) as (s3 & E3 & (Hp3 & Hd3 & Hblk3) & Hf1 & Hf2). rewrite (bind_eq _ _ _ _ _ E3).
  exists s3. split; [done|]. unfold sb_free_blocks, sb_free_inodes in *.
  rewrite (sb_of_wrote s1 s2 _ _ Hdf Hw2), (sb_of_wrote s s1 bb bm ltac:(lia) Hw1) in *. split; [|done].
  split; [destruct Hp1, Hp2, Hp3; split; congruence|]. split; [done|]. intros b Hlt. rewrite Hblk3, Hblk2, Hblk1 by done.
  specialize (Hnd g Hgr). repeat case_decide; congruence.
Qed.
End Meta.

(** ** The two kinds of resources *)

Variant resource := RBlock | RInode.
Global Instance resource_eq_dec : EqDecision resource.
Proof. solve_decision. Defined.

(** Where a descriptor names the bitmap and where it counts the free ones. *)
Definition bm_off (k : resource) : Z := match k with RBlock => 0 | RInode => 4 end.
Definition cnt_off (k : resource) : Z := match k with RBlock => 12 | RInode => 14 end.

Section Layout.
Context (fs : ext2_fs_t).
Implicit Types (s : ext_st) (k : resource).

Definition bmno k s g : Z := get32 (desc fs s g) (bm_off k).
Definition count k s g : Z := get16 (desc fs s g) (cnt_off k).
Definition bitmap k s g : list Z := block_of fs s (bmno k s g).
Definition sb_free k s : Z := match k with RBlock => sb_free_blocks fs s | RInode => sb_free_inodes fs s end.
Definition group_ok g : Prop := 0 <= g < ef_groups_count fs.

(** The drives hold whole sectors, and the metadata blocks are distinct. *)
Record meta_ok s : Prop := {
  mo_dev : dev_sectors_ok (xt_dev s);
  mo_block : forall k g, group_ok g -> meta_block fs (bmno k s g);
  mo_inj : forall k g k' g', group_ok g -> group_ok g' -> bmno k s g = bmno k' s g' -> k = k' /\ g = g';
}.

(** Bitmap [k] of group [g] became [bm], its count [v], and the superblock's
    count moved by [d]; nothing else changed. *)
Record changed k g (bm : list Z) (v d : Z) s s' : Prop := {
  ch_pool : same_pool s s';
  ch_meta : meta_ok s';
  ch_no : forall k' g', group_ok g' -> bmno k' s' g' = bmno k' s g';
  ch_bitmap : forall k' g', group_ok g' -> bitmap k' s' g' = if decide (k' = k /\ g' = g) then bm else bitmap k' s g';
  ch_count : forall k' g', group_ok g' -> count k' s' g' = if decide (k' = k /\ g' = g) then v else count k' s g';
  ch_sb : forall k', sb_free k' s' = if decide (k' = k) then u32 (sb_free k' s + d) else sb_free k' s;
  ch_rest : forall b, ef_first_data_block fs < b -> b <> bmno k s g -> b <> desc_block fs g -> block_of fs s' b = block_of fs s b;
}.

Lemma sb_free_range k s : dev_sectors_ok (xt_dev s) -> in_u32 (sb_free k s).
Proof. intros Hd. destruct k; apply get32_range, bytes_sectors_at, Hd. Qed.

Lemma get16_put16_same b off v : 0 <= off -> off + 2 <= Z.of_nat (length b) -> get16 (put16 b off v) off = u16 v.
Proof.
  intros Ho Hl. unfold get16, put16. pose proof (slice_splice_same b off (le_bytes 2 v)) as H. rewrite length_le_bytes in H.
  change 2 with (Z.of_nat 2) at 1. rewrite H by done. by rewrite le_val_bytes.
Qed.
Lemma get16_put16_disj b off v off' : 0 <= off -> 0 <= off' -> (off' + 2 <= off \/ off + 2 <= off') -> get16 (put16 b off v) off' = get16 b off'.
Proof. intros. unfold get16, put16. rewrite slice_splice_disj; rewrite ?length_le_bytes; auto. Qed.
Lemma get32_put16_disj b off v off' : 0 <= off -> 0 <= off' -> (off' + 4 <= off \/ off + 2 <= off') -> get32 (put16 b off v) off' = get32 b off'.
Proof. intros. unfold get32, put16. rewrite slice_splice_disj; rewrite ?length_le_bytes; auto. Qed.

Context (fault : nat -> option nat) (nofault : forall j, fault j = None) (Hg : egeo fs).

Lemma get16_range b off : bytes b -> in_u16 (get16 b off).
Proof.
  intros Hb. pose proof (le_val_range (slice b off 2) (bytes_slice _ _ _ Hb)) as Hr.
  assert (length (slice b off 2) <= 2)%nat by (unfold slice; len). unfold get16, in_u16. split; [lia|].
  eapply Z.lt_le_trans; [apply Hr|]. change 65536 with (256 ^ 2). apply Z.pow_le_mono_r; lia.
Qed.

Lemma count_range k s g : dev_sectors_ok (xt_dev s) -> in_u16 (count k s g).
Proof. intros. by apply get16_range, bytes_desc. Qed.

(** What [commit] does, for either bitmap. *)
Lemma commit_changed k s g bm v d :
  meta_ok s -> group_ok g -> Z.of_nat (length bm) = ef_block_size fs -> bytes bm -> in_u16 v ->
  exists s', commit fault fs (bmno k s g) bm (desc_block fs g, desc_off fs g, block_of fs s (desc_block fs g), desc fs s g)
      (put16 (desc fs s g) (cnt_off k) v) (match k with RBlock => d | RInode => 0 end) (match k with RBlock => 0 | RInode => d end) s = Some (true, s') /\
    changed k g bm v d s s'.
Proof.
  intros [Hd Hm Hinj] Hgr Hl Hb Hv. set (bgd := put16 (desc fs s g) (cnt_off k) v).
  pose proof (length_desc fs Hg s g Hd ltac:(unfold group_ok in Hgr; lia)) as Hld.
  assert (Hlb : length bgd = 32%nat) by (unfold bgd; rewrite length_put16; lia).
  assert (Hbb : bytes bgd) by (apply bytes_splice; [by apply bytes_desc|apply le_bytes_bytes]).
  destruct (commit_ok fault nofault fs Hg s g (bmno k s g) bm bgd (match k with RBlock => d | RInode => 0 end) (match k with RBlock => 0 | RInode => d end))
    as (s' & E & (Hp & Hd' & Hblk) & Hf1 & Hf2); [done|done|by apply Hm|done|done|done|done|].
  exists s'. split; [exact E|].
  assert (Hdesc : forall g', group_ok g' -> desc fs s' g' = if g' =? g then bgd else desc fs s g').
  { intros g' Hgr'. apply (desc_splice fs Hg s s' g g' bgd Hd Hlb Hgr Hgr'). intros h Hh.
    destruct (desc_block_range fs Hg h Hh) as (_ & _ & Hlt). rewrite Hblk by done.
    destruct (Hm k g Hgr) as [_ Hne]. specialize (Hne h Hh). rewrite decide_False by congruence.
    by repeat case_decide. }
  assert (Hno : forall k' g', group_ok g' -> bmno k' s' g' = bmno k' s g').
  { intros k' g' Hgr'. unfold bmno. rewrite Hdesc by done. destruct (Z.eqb_spec g' g) as [->|]; [|done].
    unfold bgd. apply get32_put16_disj; destruct k, k'; cbn; lia. }
  split; [done| |done| | | |].
  - split; [done|intros k' g' Hgr'; rewrite Hno by done; by apply Hm|]. intros k1 g1 k2 g2 H1 H2. rewrite !Hno by done. by apply Hinj.
  - intros k' g' Hgr'. unfold bitmap. rewrite Hno, Hblk by (try apply Hm; done). case_decide as E1.
    + destruct (Hinj k' g' k g) as [-> ->]; [done..|]. by rewrite decide_True by done.
    + rewrite (decide_False (P := k' = k /\ g' = g)) by (intros [-> ->]; done). rewrite decide_False; [done|]. by apply Hm.
  - intros k' g' Hgr'. unfold count. rewrite Hdesc by done. destruct (Z.eqb_spec g' g) as [->|Hne].
    2:{ by rewrite decide_False by tauto. } unfold bgd. case_decide as E1.
    + destruct E1 as [-> _]. rewrite get16_put16_same by (destruct k; cbn; lia). by apply u16_id.
    + apply get16_put16_disj; destruct k, k'; cbn; (lia || tauto).
  - intros k'. pose proof (sb_free_range RBlock s Hd) as H1. pose proof (sb_free_range RInode s Hd) as H2. cbn [sb_free] in *.
    destruct k, k'; cbn [sb_free]; rewrite ?Hf1, ?Hf2; try (by rewrite decide_True by done);
      rewrite decide_False by done; rewrite Z.add_0_r; by apply u32_id.
  - intros b Hb1 Hb2 Hb3. rewrite Hblk by done. by rewrite !decide_False by done.
Qed.
End Layout.

(** ** Blocks *)

Section AllocBlock.
Context (fs : ext2_fs_t).
Implicit Types (s : ext_st).

(** The group of a block and its bit there; whether the bitmaps say that it is
    used; whether no allocator takes it (also when its group counts no free
    block). *)
Definition group_of (b : Z) : Z := (b - ef_first_data_block fs) / ef_blocks_per_group fs.
Definition bit_of (b : Z) : Z := (b - ef_first_data_block fs) mod ef_blocks_per_group fs.
Definition block_ok (b : Z) : Prop := ef_first_data_block fs <= b < ef_blocks_count fs.
Definition used s b : bool := bit_test (bitmap fs RBlock s (group_of b)) (bit_of b).
Definition taken s b : Prop := used s b = true \/ count fs RBlock s (group_of b) = 0.

(** The blocks the file system itself lies on. *)
Definition is_meta s b : Prop :=
  b = ef_first_data_block fs \/ exists g, group_ok fs g /\ (b = desc_block fs g \/ exists k, b = bmno fs k s g).

(** The invariant: distinct metadata blocks, all of them marked used. *)
Record layout_ok s : Prop := {
  lo_meta : meta_ok fs s;
  lo_used : forall b, is_meta s b -> block_ok b -> used s b = true;
}.

(** Exactly the block [r] changed its mark, to [u]; the counts moved by [d]. *)
Record marked (r : Z) (u : bool) (d : Z) s s' : Prop := {
  mk_layout : layout_ok s';
  mk_pool : same_pool s s';
  mk_meta : forall b, is_meta s' b <-> is_meta s b;
  mk_used : forall b, block_ok b -> used s' b = if b =? r then u else used s b;
  mk_count : forall g, group_ok fs g -> count fs RBlock s' g = if g =? group_of r then u16 (count fs RBlock s g + d) else count fs RBlock s g;
  mk_sb : sb_free_blocks fs s' = u32 (sb_free_blocks fs s + d);
  mk_data : forall b, ef_first_data_block fs < b -> ~ is_meta s b -> block_of fs s' b = block_of fs s b;
  mk_inodes : forall g, group_ok fs g -> bitmap fs RInode s' g = bitmap fs RInode s g /\ count fs RInode s' g = count fs RInode s g;
}.

Context (fault : nat -> option nat) (nofault : forall j, fault j = None) (Hg : egeo fs).

Lemma block_place b : block_ok b ->
  group_ok fs (group_of b) /\ 0 <= bit_of b < ef_blocks_per_group fs /\
  b = ef_first_data_block fs + group_of b * ef_blocks_per_group fs + bit_of b.
Proof.
  intros [H1 H2]. pose proof (eg_bpg _ Hg). pose proof (eg_all _ Hg). unfold group_ok, group_of, bit_of.
  pose proof (Z.div_mod (b - ef_first_data_block fs) (ef_blocks_per_group fs) ltac:(lia)).
  split; [split; [apply Z.div_pos; lia|apply Z.div_lt_upper_bound; lia]|].
  split; [apply Z.mod_pos_bound; lia|lia].
Qed.

Lemma place_block g i : 0 <= g -> 0 <= i < ef_blocks_per_group fs ->
  let b := ef_first_data_block fs + g * ef_blocks_per_group fs + i in group_of b = g /\ bit_of b = i.
Proof.
  intros H1 H2 b. unfold group_of, bit_of, b. replace (_ + _ + i - _) with (i + g * ef_blocks_per_group fs) by lia.
  rewrite Z.div_add, Z.mod_add, Z.div_small, Z.mod_small by lia. lia.
Qed.

Lemma same_place b b' : block_ok b -> block_ok b' -> group_of b = group_of b' -> bit_of b = bit_of b' -> b = b'.
Proof. intros H1 H2 E1 E2. destruct (block_place b H1) as (_ & _ & ->), (block_place b' H2) as (_ & _ & ->). congruence. Qed.

(** The bit of a block is in the bitmap's block. *)
Lemma bit_in_range s g i : dev_sectors_ok (xt_dev s) -> i < ef_blocks_per_group fs -> i < 8 * Z.of_nat (length (bitmap fs RBlock s g)).
Proof. intros Hd Hi. unfold bitmap. rewrite (length_block fs Hg) by done. destruct (eg_bpg _ Hg). lia. Qed.

Lemma bit_in_ok bm i (s : ext_st) : 0 <= i < 8 * Z.of_nat (length bm) -> bit_in bm i s = Some (tt, s).
Proof. intros Hi. unfold bit_in, ld8. erewrite bind_eq; [reflexivity|]. erewrite bind_eq; [reflexivity|]. apply ld_ok; zlia. Qed.

(** Reading the descriptor and the bitmap of a group. *)
Lemma read_bitmap_ok k s g :
  meta_ok fs s -> group_ok fs g ->
  exists s', read_block fault fs (bmno fs k s g) s = Some (Some (bitmap fs k s g), s') /\ same_ext s s'.
Proof.
  intros Hm Hgr. apply (read_block_ok fault nofault fs Hg). destruct (mo_block _ _ Hm k g Hgr) as [H _].
  pose proof (first_range fs Hg). unfold in_u32. lia.
Qed.

Lemma same_ext_desc s s' g : same_ext s s' -> desc fs s' g = desc fs s g.
Proof. intros H. unfold desc. by rewrite (same_ext_block fs s s'). Qed.
Lemma same_ext_bmno k s s' g : same_ext s s' -> bmno fs k s' g = bmno fs k s g.
Proof. intros H. unfold bmno. by rewrite (same_ext_desc s s'). Qed.
Lemma same_ext_bitmap k s s' g : same_ext s s' -> bitmap fs k s' g = bitmap fs k s g.
Proof. intros H. unfold bitmap. by rewrite (same_ext_bmno k s s'), (same_ext_block fs s s'). Qed.
Lemma same_ext_count k s s' g : same_ext s s' -> count fs k s' g = count fs k s g.
Proof. intros H. unfold count. by rewrite (same_ext_desc s s'). Qed.
Lemma same_ext_used s s' b : same_ext s s' -> used s' b = used s b.
Proof. intros H. unfold used. by rewrite (same_ext_bitmap RBlock s s'). Qed.
Lemma same_ext_sb k s s' : same_ext s s' -> sb_free fs k s' = sb_free fs k s.
Proof.
  intros [E _]. destruct k; cbn [sb_free]; unfold sb_free_blocks, sb_free_inodes, sb_of;
    (f_equal; apply sectors_at_ext; intros i _; unfold sector_at; by rewrite E).
Qed.
Lemma same_ext_meta s s' : same_ext s s' -> meta_ok fs s -> meta_ok fs s'.
Proof.
  intros H [Hd Hm Hi]. split; [eauto using same_ext_dev| |].
  - intros k g Hgr. rewrite (same_ext_bmno k s s' g H). by apply Hm.
  - intros k g k' g' H1 H2. rewrite !(same_ext_bmno _ s s' _ H). by apply Hi.
Qed.
Lemma same_ext_is_meta s s' b : same_ext s s' -> is_meta s' b <-> is_meta s b.
Proof.
  intros H. unfold is_meta. split; (intros [->|(g & Hgr & Hb)]; [by left|right; exists g; split; [done|]];
    destruct Hb as [->|(k & ->)]; [by left|right; exists k]); [|symmetry]; by apply same_ext_bmno.
Qed.
Lemma same_ext_layout s s' : same_ext s s' -> layout_ok s -> layout_ok s'.
Proof.
  intros H [Hm Hu]. split; [by eapply same_ext_meta|]. intros b Hb Hok. rewrite (same_ext_used s s') by done. apply Hu; [|done].
  by rewrite <- (same_ext_is_meta s s').
Qed.

(** The frame of [changed] and [marked] before a step that only reads. *)
Lemma same_ext_marked r u d s s1 s2 : same_ext s s1 -> marked r u d s1 s2 -> marked r u d s s2.
Proof.
  intros H [M1 M2 M0 M3 M4 M5 M6 M7]. pose proof H as (_ & Hp). split.
  - done.
  - unfold same_pool in *. destruct M2, Hp. split; congruence.
  - intros b. rewrite M0. by apply same_ext_is_meta.
  - intros b Hb. rewrite M3 by done. by rewrite (same_ext_used s s1).
  - intros g Hgr. rewrite M4 by done. by rewrite !(same_ext_count RBlock s s1).
  - rewrite M5. do 2 f_equal. by apply (same_ext_sb RBlock).
  - intros b Hlt Hnm. rewrite M6; [by apply same_ext_block|done|]. by rewrite (same_ext_is_meta s s1).
  - intros g Hgr. destruct (M7 g Hgr) as [-> ->]. by rewrite (same_ext_bitmap RInode s s1), (same_ext_count RInode s s1).
Qed.

(** Changing one bit of the blocks' bitmap of a group. *)
Lemma changed_marked s s' r u d bm :
  layout_ok s -> block_ok r -> (u = false -> ~ is_meta s r) -> -65536 < d < 65536 ->
  (forall i, 0 <= i -> bit_test bm i = if i =? bit_of r then u else bit_test (bitmap fs RBlock s (group_of r)) i) ->
  changed fs RBlock (group_of r) bm (u16 (count fs RBlock s (group_of r) + d)) d s s' -> marked r u d s s'.
Proof.
  intros [Hm Hlu] Hr Hnm Hd Hbm [C1 C2 C3 C4 C5 C6 C7]. destruct (block_place r Hr) as (Hgr & Hbit & _).
  assert (Hused : forall b, block_ok b -> used s' b = if b =? r then u else used s b).
  { intros b Hb. destruct (block_place b Hb) as (Hgb & Hbb & _). unfold used. rewrite C4 by done.
    case_decide as E.
    - destruct E as [_ E]. rewrite Hbm by lia. rewrite E. destruct (Z.eqb_spec (bit_of b) (bit_of r)) as [E2|E2], (Z.eqb_spec b r) as [->|Hne]; try done.
      exfalso. by apply Hne, same_place.
    - destruct (Z.eqb_spec b r) as [->|Hne]; [tauto|done]. }
  assert (Hmeta : forall b, is_meta s' b <-> is_meta s b).
  { intros b. unfold is_meta. split; (intros [->|(g & Hgg & Hb)]; [by left|right; exists g; split; [done|]];
      destruct Hb as [->|(k & ->)]; [by left|right; exists k; rewrite C3 by done; done]). }
  split; [|done|done|done| | | |].
  - split; [done|]. intros b Hb Hok. rewrite Hused by done. apply Hmeta in Hb.
    destruct (Z.eqb_spec b r) as [->|]; [|by apply Hlu]. destruct u; [done|]. by destruct (Hnm eq_refl).
  - intros g Hgg. rewrite C5 by done. destruct (Z.eqb_spec g (group_of r)) as [->|]; [by rewrite decide_True|rewrite decide_False by tauto; done].
  - apply (C6 RBlock).
  - intros b Hlt Hb. apply C7; [done| |]; intros ->; apply Hb; right; exists (group_of r); split; try done; [right; by exists RBlock|by left].
  - intros g Hgg. by rewrite C4, C5 by done.
Qed.

(** The code's arithmetic on groups does not wrap. *)
Lemma group_start_eq g : group_ok fs g -> group_start fs g = ef_first_data_block fs + g * ef_blocks_per_group fs.
Proof.
  intros Hgr. unfold group_ok in Hgr. unfold group_start. pose proof (first_range fs Hg). pose proof (eg_bpg _ Hg). pose proof (eg_cover _ Hg).
  assert (0 <= g * ef_blocks_per_group fs <= ef_groups_count fs * ef_blocks_per_group fs) by nia.
  rewrite (u32_id (g * _)) by (unfold in_u32; lia). apply u32_id. unfold in_u32. lia.
Qed.
Lemma group_blocks_eq g : group_ok fs g ->
  group_blocks fs g = Z.min (ef_blocks_per_group fs) (ef_blocks_count fs - (ef_first_data_block fs + g * ef_blocks_per_group fs)) /\
  0 <= group_blocks fs g.
Proof.
  intros Hgr. unfold group_blocks. rewrite group_start_eq by done. unfold group_ok in Hgr.
  pose proof (first_range fs Hg). pose proof (eg_bpg _ Hg). pose proof (eg_cover _ Hg). pose proof (eg_blocks _ Hg). pose proof (eg_nonempty _ Hg).
  assert (0 <= g * ef_blocks_per_group fs /\ (g + 1) * ef_blocks_per_group fs <= ef_groups_count fs * ef_blocks_per_group fs) by nia.
  assert (g * ef_blocks_per_group fs <= (ef_groups_count fs - 1) * ef_blocks_per_group fs) by nia.
  rewrite (u32_id (_ + ef_blocks_per_group fs)) by (unfold in_u32; lia).
  rewrite Z.gtb_ltb. destruct (Z.ltb_spec (ef_blocks_count fs) (ef_first_data_block fs + g * ef_blocks_per_group fs + ef_blocks_per_group fs));
    rewrite u32_id by (unfold in_u32; lia); lia.
Qed.

Lemma group_bit_block g i : group_ok fs g -> 0 <= i < group_blocks fs g ->
  let b := ef_first_data_block fs + g * ef_blocks_per_group fs + i in
  block_ok b /\ group_of b = g /\ bit_of b = i /\ u32 (group_start fs g + i) = b.
Proof.
  intros Hgr Hi b. pose proof (group_blocks_eq g Hgr) as [E _]. rewrite group_start_eq by done. unfold group_ok in Hgr.
  pose proof (eg_bpg _ Hg). pose proof (first_range fs Hg). pose proof (eg_blocks _ Hg). assert (0 <= g * ef_blocks_per_group fs) by nia.
  destruct (place_block g i ltac:(lia) ltac:(lia)) as [E1 E2]. fold b in E1, E2.
  split; [unfold block_ok, b; lia|]. split; [done|]. split; [done|]. apply u32_id. unfold in_u32, b in *. lia.
Qed.

(** A block of a group is one of its bits. *)
Lemma block_group_bit b : block_ok b -> bit_of b < group_blocks fs (group_of b).
Proof.
  intros Hb. destruct (block_place b Hb) as (Hgr & Hi & E). destruct (group_blocks_eq (group_of b) Hgr) as [-> _].
  unfold block_ok in Hb. lia.
Qed.

(** Setting the mark of one block. *)
Lemma reserve_ok s s1 r :
  layout_ok s -> same_ext s s1 -> block_ok r -> used s r = false ->
  exists s', commit fault fs (bmno fs RBlock s (group_of r)) (bit_set (bitmap fs RBlock s (group_of r)) (bit_of r))
      (desc_block fs (group_of r), desc_off fs (group_of r), block_of fs s (desc_block fs (group_of r)), desc fs s (group_of r))
      (put16 (desc fs s (group_of r)) 12 (u16 (bg_free_blocks_count (desc fs s (group_of r)) - 1))) (-1) 0 s1 = Some (true, s') /\
    marked r true (-1) s s'.
Proof.
  intros Hlo Hs Hr Hu. destruct (block_place r Hr) as (Hgr & Hbit & _). set (g := group_of r) in *.
  pose proof (same_ext_layout s s1 Hs Hlo) as Hlo1. pose proof (mo_dev _ _ (lo_meta _ Hlo1)) as Hd1.
  pose proof (bit_in_range s1 g (bit_of r) Hd1 ltac:(lia)) as Hin.
  destruct (commit_changed fs fault nofault Hg RBlock s1 g (bit_set (bitmap fs RBlock s1 g) (bit_of r)) (u16 (count fs RBlock s1 g - 1)) (-1))
    as (s' & E & Hc).
  - apply Hlo1.
  - done.
  - rewrite length_bit_set. by apply length_block.
  - apply bytes_bit_set, bytes_block, Hd1.
  - apply u16_range.
  - exists s'. split.
    + rewrite <- E. by rewrite !(same_ext_bmno RBlock s s1), (same_ext_bitmap RBlock s s1), (same_ext_block fs s s1),
        (same_ext_desc s s1), (same_ext_count RBlock s s1) by done.
    + apply (same_ext_marked r true (-1) s s1 s' Hs). eapply changed_marked; [done|done|done|done| |exact Hc]. intros i Hi.
      rewrite bit_test_set; [by destruct (i =? bit_of r)|apply bytes_block, Hd1|lia|done].
Qed.

(** What an allocation from group [g] on returns: the first block that is not
    taken, or 0 when all are. *)
Definition alloc_result s g r s' : Prop :=
  (r = 0 /\ same_ext s s' /\ forall b, block_ok b -> g <= group_of b -> taken s b) \/
  (r <> 0 /\ block_ok r /\ used s r = false /\ count fs RBlock s (group_of r) <> 0 /\
    (forall b, block_ok b -> g <= group_of b -> b < r -> taken s b) /\ marked r true (-1) s s').

(** A group all of whose blocks are taken is passed over. *)
Lemma alloc_result_next s s1 g r s' :
  same_ext s s1 -> (forall b, block_ok b -> group_of b = g -> taken s b) -> alloc_result s1 (g + 1) r s' -> alloc_result s g r s'.
Proof.
  intros Hs1 Hall Hr.
  assert (Ht : forall b, taken s1 b <-> taken s b).
  { intros b. unfold taken. by rewrite (same_ext_used s s1), (same_ext_count RBlock s s1). }
  destruct Hr as [(E0 & Hs' & Hrest)|(Hne & Hok & Hu & Hcnt & Hlow & Hmk)]; [left|right].
  - split; [done|]. split; [by eapply same_ext_trans|]. intros b Hb Hle. destruct (Z.eq_dec (group_of b) g) as [|Hne]; [by apply Hall|].
    apply Ht, Hrest; [done|lia].
  - rewrite (same_ext_used s s1) in Hu by done. rewrite (same_ext_count RBlock s s1) in Hcnt by done.
    split; [done|]. split; [done|]. split; [done|]. split; [done|]. split; [|by eapply same_ext_marked].
    intros b Hb Hle Hlt. destruct (Z.eq_dec (group_of b) g) as [|Hne']; [by apply Hall|]. apply Ht, Hlow; (done || lia).
Qed.

(** The bit found by the scan of a group. *)
Lemma alloc_result_found s s1 g i :
  layout_ok s -> same_ext s s1 -> group_ok fs g -> count fs RBlock s g <> 0 -> 0 <= i < group_blocks fs g ->
  bit_test (bitmap fs RBlock s g) i = false -> (forall j, 0 <= j < i -> bit_test (bitmap fs RBlock s g) j = true) ->
  exists s', commit fault fs (bmno fs RBlock s g) (bit_set (bitmap fs RBlock s g) i)
      (desc_block fs g, desc_off fs g, block_of fs s (desc_block fs g), desc fs s g)
      (put16 (desc fs s g) 12 (u16 (count fs RBlock s g - 1))) (-1) 0 s1 = Some (true, s') /\
    alloc_result s g (u32 (group_start fs g + i)) s'.
Proof.
  intros Hlo Hs1 Hgr Hcnt Hi Hci Hlow. destruct (group_bit_block g i Hgr Hi) as (Hok & Eg & Ebit & ->).
  set (r := ef_first_data_block fs + g * ef_blocks_per_group fs + i) in *. pose proof (first_range fs Hg) as Hf.
  assert (Hu : used s r = false) by (unfold used; by rewrite Eg, Ebit).
  destruct (reserve_ok s s1 r Hlo Hs1 Hok Hu) as (s' & E4 & Hmk). rewrite Eg, Ebit in E4. exists s'. split; [exact E4|]. right. split.
  { intros E0. assert (Hz : used s (ef_first_data_block fs) = true).
    { apply (lo_used _ Hlo); [by left|]. unfold block_ok in *. lia. }
    assert (r = ef_first_data_block fs) by (unfold block_ok in Hok; lia). congruence. }
  split; [done|]. split; [done|]. split; [by rewrite Eg|]. split; [|done]. intros b Hb Hle Hlt.
  destruct (block_place b Hb) as (Hgbo & Hbb & Eb). destruct (group_blocks_eq g Hgr) as [Egb _].
  assert (group_of b = g) as Egb' by (unfold r in Hlt; nia).
  left. unfold used. rewrite Egb'. apply Hlow. rewrite Egb' in Eb. unfold r in Hlt. lia.
Qed.

Lemma alloc_block_from_ok n s g :
  layout_ok s -> 0 <= g -> g + Z.of_nat n = ef_groups_count fs ->
  exists r s', alloc_block_from fault n fs g s = Some (r, s') /\ alloc_result s g r s'.
Proof.
  revert s g. induction n as [|n IH]; intros s g Hlo Hg0 Hn; cbn [alloc_block_from].
  { exists 0, s. split; [done|]. left. split; [done|]. split; [done|]. intros b Hb Hle. destruct (block_place b Hb) as ([? ?] & _). lia. }
  assert (Hgr : group_ok fs g) by (unfold group_ok; lia). pose proof (lo_meta _ Hlo) as Hm. pose proof (mo_dev _ _ Hm) as Hd.
  assert (Hnext : forall s1, same_ext s s1 -> (forall b, block_ok b -> group_of b = g -> taken s b) ->
    exists r s', alloc_block_from fault n fs (g + 1) s1 = Some (r, s') /\ alloc_result s g r s').
  { intros s1 Hs1 Hall. destruct (IH s1 (g + 1)) as (r & s' & E & Hr); [by eapply same_ext_layout|lia|lia|].
    exists r, s'. split; [done|by eapply alloc_result_next]. }
  destruct (group_desc_ok fault nofault fs Hg s g Hd Hgr) as (s1 & E1 & Hs1). rewrite (bind_eq _ _ _ _ _ E1). cbn [snd].
  change (bg_free_blocks_count (desc fs s g)) with (count fs RBlock s g). change (bg_block_bitmap (desc fs s g)) with (bmno fs RBlock s g).
  destruct (Z.eqb_spec (count fs RBlock s g) 0) as [Ec|Ec].
  { apply Hnext; [done|]. intros b _ <-. by right. }
  destruct (read_bitmap_ok RBlock s1 g) as (s2 & E2 & Hs2); [by eapply same_ext_meta|done|].
  rewrite (same_ext_bmno RBlock s s1), (same_ext_bitmap RBlock s s1) in E2 by done. rewrite (bind_eq _ _ _ _ _ E2).
  assert (Hs02 : same_ext s s2) by (by eapply same_ext_trans). destruct (group_blocks_eq g Hgr) as [Egb Hgb].
  pose proof (bit_in_range s g (ef_blocks_per_group fs - 1) Hd ltac:(lia)) as Hlen.
  destruct (first_clear_ok (Z.to_nat (group_blocks fs g)) (fun _ => false) (bitmap fs RBlock s g) 0 s2) as (o & E3 & Ho); [lia|lia|].
  assert (Hset : forall j, ~ clear_at (fun _ => false) (bitmap fs RBlock s g) j -> bit_test (bitmap fs RBlock s g) j = true).
  { intros j Hj. destruct (bit_test (bitmap fs RBlock s g) j) eqn:E; [done|]. by destruct Hj. }
  rewrite (bind_eq _ _ _ _ _ E3). destruct o as [i|].
  - destruct Ho as (Hi & [_ Hci] & Hlow).
    destruct (alloc_result_found s s2 g i Hlo Hs02 Hgr Ec ltac:(lia) Hci) as (s' & E4 & Hr); [auto|].
    rewrite (bind_eq _ _ _ _ _ E4). by eexists _, s'.
  - apply Hnext; [done|]. intros b Hb Eb. left. unfold used. rewrite Eb. apply Hset, Ho.
    destruct (block_place b Hb) as (_ & Hbb & _). pose proof (block_group_bit b Hb). rewrite Eb in *. lia.
Qed.

Lemma alloc_block_ok s :
  layout_ok s -> exists r s', alloc_block fault fs s = Some (r, s') /\ alloc_result s 0 r s'.
Proof.
  intros Hlo. apply alloc_block_from_ok; [done|lia|]. pose proof (eg_groups _ Hg). lia.
Qed.

(** The code's arithmetic on a block's place does not wrap. *)
Lemma place_eq b : block_ok b ->
  u32 (b - ef_first_data_block fs) / ef_blocks_per_group fs = group_of b /\ u32 (b - ef_first_data_block fs) mod ef_blocks_per_group fs = bit_of b.
Proof.
  intros Hb. unfold block_ok in Hb. pose proof (eg_blocks _ Hg). pose proof (first_range fs Hg).
  rewrite u32_id by (unfold in_u32; lia). done.
Qed.

Lemma free_block_ok s b :
  layout_ok s -> block_ok b -> ~ is_meta s b ->
  exists s', free_block fault fs b s = Some (true, s') /\ marked b false 1 s s'.
Proof.
  intros Hlo Hb Hnm. destruct (block_place b Hb) as (Hgr & Hbit & _). destruct (place_eq b Hb) as [Eg Ei].
  pose proof (lo_meta _ Hlo) as Hm. pose proof (mo_dev _ _ Hm) as Hd. unfold free_block. pose proof (eg_bpg _ Hg).
  rewrite (bind_eq _ _ _ _ _ (nonzero_ok (ef_blocks_per_group fs) s ltac:(lia))). rewrite Eg, Ei. set (g := group_of b) in *.
  destruct (group_desc_ok fault nofault fs Hg s g Hd Hgr) as (s1 & E1 & Hs1). rewrite (bind_eq _ _ _ _ _ E1). cbn [snd].
  change (bg_free_blocks_count (desc fs s g)) with (count fs RBlock s g). change (bg_block_bitmap (desc fs s g)) with (bmno fs RBlock s g).
  destruct (read_bitmap_ok RBlock s1 g) as (s2 & E2 & Hs2); [by eapply same_ext_meta|done|].
  rewrite (same_ext_bmno RBlock s s1), (same_ext_bitmap RBlock s s1) in E2 by done. rewrite (bind_eq _ _ _ _ _ E2).
  assert (Hs02 : same_ext s s2) by (by eapply same_ext_trans).
  pose proof (bit_in_range s g (bit_of b) Hd ltac:(lia)) as Hin. rewrite (bind_eq _ _ _ _ _ (bit_in_ok _ _ s2 (conj (proj1 Hbit) Hin))).
  assert (Hm2 : meta_ok fs s2) by (by eapply same_ext_meta). pose proof (mo_dev _ _ Hm2) as Hd2.
  destruct (commit_changed fs fault nofault Hg RBlock s2 g (bit_clear (bitmap fs RBlock s2 g) (bit_of b)) (u16 (count fs RBlock s2 g + 1)) 1)
    as (s' & E & Hc); [done|done|rewrite length_bit_clear; by apply length_block|apply bytes_bit_clear, bytes_block, Hd2|apply u16_range|].
  exists s'. split.
  - rewrite <- E. by rewrite !(same_ext_bmno RBlock s s2), (same_ext_bitmap RBlock s s2), (same_ext_block fs s s2),
      (same_ext_desc s s2), (same_ext_count RBlock s s2) by done.
  - apply (same_ext_marked b false 1 s s2 s' Hs02). eapply changed_marked; [by eapply same_ext_layout|done| |done| |exact Hc].
    + intros _. by rewrite (same_ext_is_meta s s2).
    + intros i Hi. rewrite bit_test_clear; [by destruct (i =? bit_of b)|apply bytes_block, Hd2| |done].
      rewrite (same_ext_bitmap RBlock s s2) by done. lia.
Qed.

(** What [alloc_block_near] returns: the wanted block when it is free. *)
Definition near_result s goal r s' : Prop :=
  (block_ok goal /\ ~ taken s goal /\ r = goal /\ marked goal true (-1) s s') \/
  ((block_ok goal -> taken s goal) /\ alloc_result s 0 r s').

Lemma near_fallback s s1 goal :
  layout_ok s -> same_ext s s1 -> (block_ok goal -> taken s goal) ->
  exists r s', alloc_block fault fs s1 = Some (r, s') /\ near_result s goal r s'.
Proof.
  intros Hlo Hs1 Ht. destruct (alloc_block_ok s1) as (r & s' & E & Hr); [by eapply same_ext_layout|]. exists r, s'. split; [done|].
  right. split; [done|]. destruct Hr as [(-> & Hs' & Hall)|(Hne & Hok & Hu & Hcnt & Hlow & Hmk)]; [left|right].
  - split; [done|]. split; [by eapply same_ext_trans|]. intros b Hb Hle. destruct (Hall b Hb Hle) as [H|H]; [left|right];
      by rewrite <- ?(same_ext_used s s1), <- ?(same_ext_count RBlock s s1).
  - rewrite (same_ext_used s s1), (same_ext_count RBlock s s1) in * by done.
    split; [done|]. split; [done|]. split; [done|]. split; [done|]. split; [|by eapply same_ext_marked].
    intros b Hb Hle Hlt. destruct (Hlow b Hb Hle Hlt) as [H|H]; [left|right];
      by rewrite <- ?(same_ext_used s s1), <- ?(same_ext_count RBlock s s1).
Qed.

Lemma reserve_goal_ok s goal :
  layout_ok s -> block_ok goal ->
  exists ok s', reserve_goal fault fs goal s = Some (ok, s') /\
    if ok : bool then ~ taken s goal /\ marked goal true (-1) s s' else taken s goal /\ same_ext s s'.
Proof.
  intros Hlo Hb. destruct (block_place goal Hb) as (Hgr & Hbit & _). destruct (place_eq goal Hb) as [Eg Ei].
  pose proof (lo_meta _ Hlo) as Hm. pose proof (mo_dev _ _ Hm) as Hd. pose proof (eg_bpg _ Hg). unfold reserve_goal.
  rewrite (bind_eq _ _ _ _ _ (nonzero_ok (ef_blocks_per_group fs) s ltac:(lia))). rewrite Eg, Ei. set (g := group_of goal) in *.
  destruct (group_desc_ok fault nofault fs Hg s g Hd Hgr) as (s1 & E1 & Hs1). rewrite (bind_eq _ _ _ _ _ E1). cbn [snd].
  change (bg_free_blocks_count (desc fs s g)) with (count fs RBlock s g). change (bg_block_bitmap (desc fs s g)) with (bmno fs RBlock s g).
  pose proof (count_range fs RBlock s g Hd) as Hcr. unfold in_u16 in Hcr.
  rewrite Z.gtb_ltb. destruct (Z.ltb_spec 0 (count fs RBlock s g)) as [Hc|Hc].
  2:{ exists false, s1. split; [done|]. split; [right; fold g; lia|done]. }
  destruct (read_bitmap_ok RBlock s1 g) as (s2 & E2 & Hs2); [by eapply same_ext_meta|done|].
  rewrite (same_ext_bmno RBlock s s1), (same_ext_bitmap RBlock s s1) in E2 by done. rewrite (bind_eq _ _ _ _ _ E2).
  assert (Hs02 : same_ext s s2) by (by eapply same_ext_trans).
  pose proof (bit_in_range s g (bit_of goal) Hd ltac:(lia)) as Hin. rewrite (bind_eq _ _ _ _ _ (bit_in_ok _ _ s2 (conj (proj1 Hbit) Hin))).
  destruct (bit_test (bitmap fs RBlock s g) (bit_of goal)) eqn:Et.
  - exists false, s2. split; [done|]. split; [by left|done].
  - destruct (reserve_ok s s2 goal Hlo Hs02 Hb Et) as (s' & E & Hmk). exists true, s'. split; [exact E|]. split; [|done].
    unfold taken, used. fold g. rewrite Et. intros [?|?]; [done|lia].
Qed.

Lemma alloc_block_near_ok s goal :
  layout_ok s -> exists r s', alloc_block_near fault fs goal s = Some (r, s') /\ near_result s goal r s'.
Proof.
  intros Hlo. unfold alloc_block_near. rewrite Z.geb_leb.
  destruct (Z.leb_spec (ef_first_data_block fs) goal), (Z.ltb_spec goal (ef_blocks_count fs)); cbn [andb];
    try (apply (near_fallback s s); [done|done|unfold block_ok; lia]).
  destruct (reserve_goal_ok s goal Hlo ltac:(by split)) as (ok & s1 & E & Hr). rewrite (bind_eq _ _ _ _ _ E). destruct ok.
  - exists goal, s1. split; [done|]. left. by destruct Hr.
  - destruct Hr as [Ht Hs1]. by apply near_fallback.
Qed.

(** C19 (ext2.c, [alloc_block_near] and [alloc_block]): on a volume with
    distinct metadata blocks and drives that answer, the wanted block is
    returned when it lies on the volume and is free; otherwise the lowest free
    block of the groups that count one, or 0 with nothing changed when there
    is none. The mark of the block returned, and no other, is set; the counts
    of its group and of the superblock go down by one, no block outside the
    metadata changes, and the invariant holds afterwards. *)
Theorem ext2_alloc_block_correct s goal :
  layout_ok s -> exists r s', alloc_block_near fault fs goal s = Some (r, s') /\ near_result s goal r s'.
Proof. apply alloc_block_near_ok. Qed.

(** C20 (ext2.c, [alloc_block] and [free_block]): freeing the block just
    allocated gives back the volume as it was: every mark of the block bitmaps,
    every count of free blocks, and the blocks outside the metadata. *)
Theorem ext2_alloc_free_roundtrip s r s1 :
  layout_ok s -> alloc_block fault fs s = Some (r, s1) -> r <> 0 ->
  exists s2, free_block fault fs r s1 = Some (true, s2) /\ layout_ok s2 /\ same_pool s s2 /\
    (forall b, block_ok b -> used s2 b = used s b) /\
    (forall k g, group_ok fs g -> count fs k s2 g = count fs k s g) /\
    sb_free_blocks fs s2 = sb_free_blocks fs s /\
    (forall b, ef_first_data_block fs < b -> ~ is_meta s b -> block_of fs s2 b = block_of fs s b).
Proof.
  intros Hlo E Hr. destruct (alloc_block_ok s Hlo) as (r' & s1' & E' & Hres). rewrite E in E'. injection E' as <- <-.
  destruct Hres as [(? & _)|(_ & Hok & Hu & _ & _ & [M1 M2 M0 M3 M4 M5 M6 M7])]; [done|].
  pose proof (mo_dev _ _ (lo_meta _ Hlo)) as Hd.
  assert (Hnm : ~ is_meta s r) by (intros Hm; rewrite (lo_used _ Hlo r Hm Hok) in Hu; done).
  destruct (free_block_ok s1 r M1 Hok) as (s2 & E2 & [N1 N2 N0 N3 N4 N5 N6 N7]); [by rewrite M0|].
  exists s2. split; [done|]. split; [done|]. split; [destruct M2, N2; split; congruence|]. split; [|split; [|split]].
  - intros b Hb. rewrite N3, M3 by done. by destruct (Z.eqb_spec b r) as [->|].
  - intros [] g Hgr; [|rewrite (proj2 (N7 g Hgr)); by apply M7]. rewrite N4, M4 by done. destruct (Z.eqb_spec g (group_of r)); [|done].
    pose proof (count_range fs RBlock s g Hd). word.
  - rewrite N5, M5. pose proof (sb_free_range fs RBlock s Hd). cbn [sb_free] in *. word.
  - intros b Hlt Hb. rewrite N6, M6; [done..|]. by rewrite M0.
Qed.
End AllocBlock.

(** ** A small volume

    One group of 64 blocks of 1024 bytes, 20 of them on the volume: superblock
    1, descriptor 2, bitmaps 3 and 4, inodes from 5 on. Inode 12 is a file of
    1300 bytes in the blocks 8 and 10. *)

Module ExtDemo.
Definition fault (k : nat) : option nat := None.
Lemma ext_nofault k : fault k = None.
Proof. done. Qed.

Definition fs : ext2_fs_t := Efs 0 DRIVE_TYPE_ATA 0 1024 2 16 64 128 1 1 20 16 11 true.
Definition zeros : list Z := replicate 1024 0.
Definition put_block (b : Z) (buf : list Z) (m : gmap (driver * Z * Z) (list Z)) : gmap (driver * Z * Z) (list Z) :=
  put_sectors m DrvAta 0 (2 * b) 2 buf.

Definition super : list Z := put32 (put32 zeros 12 12) 16 5.
Definition descriptor : list Z := put16 (put16 (put32 (put32 (put32 zeros 0 3) 4 4) 8 5) 12 12) 14 5.
(** Blocks 1 to 6, 8 and 10 are used. *)
Definition block_bits : list Z := put8 (put8 zeros 0 0xBF) 1 0x02.
Definition inode_bits : list Z := put8 (put8 zeros 0 0xFF) 1 0x0F.
Definition inode12 : list Z := put32 (put32 (put32 (put16 (replicate 128 0) 0 0x81A4) 4 1300) 40 8) 44 10.
Definition sectors : gmap (driver * Z * Z) (list Z) :=
  put_block 1 super (put_block 2 descriptor (put_block 3 block_bits (put_block 4 inode_bits
    (put_block 6 (splice zeros 384 inode12) (put_block 8 (replicate 1024 65) (put_block 10 (replicate 1024 66) ∅)))))).
Definition node : vfs_node_t := Node [] VFS_FILE 1300 12 OpsFile None (Some 0%nat).
Definition state : ext_st := Ext (Dev sectors 0) [fs] [node].

Lemma geometry : egeo fs.
Proof. split; cbn; (done || lia || auto). Qed.

Lemma put_block_ok b buf m :
  (forall k l, m !! k = Some l -> length l = 512%nat /\ bytes l) -> length buf = 1024%nat -> bytes buf ->
  forall k l, put_block b buf m !! k = Some l -> length l = 512%nat /\ bytes l.
Proof. intros Hm Hl Hb. exact (put_dev_ok (Dev m 0) DrvAta 0 (2 * b) 2 buf Hm Hl Hb). Qed.

Lemma ext_sectors_ok : dev_sectors_ok (xt_dev state).
Proof.
  unfold dev_sectors_ok. change (dv_sectors (xt_dev state)) with sectors. unfold sectors.
  repeat (apply put_block_ok; [|by vm_compute|apply bytes_dec_ok; by vm_compute]).
  intros k l H. by rewrite lookup_empty in H.
Qed.

Lemma group_0 g : group_ok fs g -> g = 0.
Proof. unfold group_ok. cbn. lia. Qed.

Lemma ext_layout : layout_ok fs state.
Proof.
  split.
  - split; [apply ext_sectors_ok| |].
    + intros k g ->%group_0. split; [destruct k; by vm_compute|]. intros g ->%group_0. by destruct k; vm_compute.
    + intros k g k' g' ->%group_0 ->%group_0. by destruct k, k'; vm_compute.
  - intros b [->|(g & ->%group_0 & [->|([] & ->)])] _; by vm_compute.
Qed.

Lemma on_volume b : 1 <= b < 20 -> block_ok fs b.
Proof. done. Qed.

Lemma file_ok12 : ext_file_ok fs state 0 node.
Proof.
  split; [done|by exists 0%nat| |by vm_compute|].
  - split; [done|by vm_compute|split; [done|by exists 8]|by vm_compute|by vm_compute].
  - intros k. change (ext_blocks fs (inode_of fs state (n_inode node))) with 2%nat. intros Hk.
    assert (k = 0 \/ k = 1)%nat as [-> | ->] by lia; by vm_compute.
Qed.
End ExtDemo.

Lemma ext2_read_correct_witness :
  exists s', ext2_read ExtDemo.fault 5 0 1022 4 ExtDemo.state = Some (inr [65; 65; 66; 66], s').
Proof.
  destruct (ext2_read_correct ExtDemo.fault ExtDemo.ext_nofault 5 ExtDemo.fs ExtDemo.state 0 ExtDemo.node 1022 4
    ExtDemo.geometry ExtDemo.ext_sectors_ok ExtDemo.file_ok12) as (s' & E & _); [apply Nat.ltb_lt; by vm_compute|done|done|done|].
  exists s'. etransitivity; [exact E|by vm_compute].
Defined.

(** Block 9 follows the file's first block. *)
Lemma ext2_alloc_block_correct_witness :
  exists s', alloc_block_near ExtDemo.fault ExtDemo.fs 9 ExtDemo.state = Some (9, s') /\
    used ExtDemo.fs s' 9 = true /\ used ExtDemo.fs s' 7 = false.
Proof.
  destruct (ext2_alloc_block_correct ExtDemo.fs ExtDemo.fault ExtDemo.ext_nofault ExtDemo.geometry ExtDemo.state 9 ExtDemo.ext_layout)
    as (r & s' & E & [(_ & _ & -> & Hm)|[Ht _]]).
  - exists s'. split; [exact E|]. split; (etransitivity; [apply (mk_used _ _ _ _ _ _ Hm), ExtDemo.on_volume; lia|]; vm_compute; reflexivity).
  - exfalso. assert (Ht' : taken ExtDemo.fs ExtDemo.state 9) by (apply Ht, ExtDemo.on_volume; lia). clear Ht E. destruct Ht' as [H|H]; by vm_compute in H.
Defined.

Lemma ext2_alloc_free_roundtrip_witness :
  exists s1 s2, alloc_block ExtDemo.fault ExtDemo.fs ExtDemo.state = Some (7, s1) /\
    free_block ExtDemo.fault ExtDemo.fs 7 s1 = Some (true, s2) /\ used ExtDemo.fs s2 7 = false.
Proof.
  destruct (alloc_block_ok ExtDemo.fs ExtDemo.fault ExtDemo.ext_nofault ExtDemo.geometry ExtDemo.state ExtDemo.ext_layout) as (r & s1 & E1 & _).
  assert (H7 : alloc_block ExtDemo.fault ExtDemo.fs ExtDemo.state ≫= (fun x => Some x.1) = Some 7) by (by vm_compute).
  assert (r = 7) as -> by (rewrite E1 in H7; by injection H7).
  destruct (ext2_alloc_free_roundtrip ExtDemo.fs ExtDemo.fault ExtDemo.ext_nofault ExtDemo.geometry ExtDemo.state 7 s1 ExtDemo.ext_layout E1)
    as (s2 & E2 & _ & _ & Hu & _); [done|].
  exists s1, s2. split; [exact E1|]. split; [exact E2|]. etransitivity; [apply Hu, ExtDemo.on_volume; lia|]. vm_compute. reflexivity.
Defined.
