(* ===== verification/VfsExt2.v ===== *)
(** * ext2 under the virtual file system

    The ext2 driver as an instance of [Driver], its files as files in the
    sense of [file_law], and the end-to-end statement for reads: the second
    driver below the same client theorem as in VfsFat32.v. *)

From S2P Require Import Prelude Kalloc Sched Blk BlkProofs Fat32 Vfs VfsProofs Ext2 Ext2Proofs Ext2Alloc.

Section Instance.
Context (fault : nat -> option nat) (fuel : nat).
(** The mount and defragmentation functions of the other drivers. *)
Context (other_mount : Z -> Z -> Z -> Z -> M ext_st (Z + nat)) (other_defrag : Z -> nat -> M ext_st (Z + Z * Z * Z)).

(** What a node pointer of the ext2 driver points to. *)
Definition ext_vnode (i : nat) (n : vfs_node_t) : vnode ext_st nat :=
  match n_ops n with
  | OpsNone => VNode (n_type n) (n_size n) (n_inode n) (n_parent n) None None None None None None None
  | OpsFile => VNode (n_type n) (n_size n) (n_inode n) (n_parent n)
      (Some (ext2_read fault fuel i)) (Some (ext2_write fault fuel i)) None None None None None
  | OpsDir => VNode (n_type n) (n_size n) (n_inode n) (n_parent n)
      None None (Some (ext2_readdir fault fuel i)) (Some (ext2_finddir fault fuel i))
      (Some (ext2_create fault fuel i)) (Some (ext2_unlink fault fuel i)) (Some (ext2_rename fault fuel i))
  end.

#[export] Instance ext_driver : Driver ext_st nat := {|
  deref d i := n ← xt_nodes d !! i; Some (ext_vnode i n);
  drv_mount fs_type drive_type drive lba :=
    if fs_type =? FS_EXT2 then ext2_mount fault drive_type drive lba else other_mount fs_type drive_type drive lba;
  drv_defrag fs_type root := if fs_type =? FS_EXT2 then ext2_defrag fault fuel root else other_defrag fs_type root |}.

Context (nofault : forall k, fault k = None).

(** A file of ext2 keeps the law of files. *)
Lemma ext2_file_law fs d0 ni n :
  egeo fs -> dev_sectors_ok (xt_dev d0) -> ext_file_ok fs d0 ni n -> n_ops n = OpsFile ->
  (ext_blocks fs (inode_of fs d0 (n_inode n)) < fuel)%nat ->
  file_law (fun d => same_ext d0 d) ni (ext_bytes fs d0 (inode_of fs d0 (n_inode n))).
Proof.
  intros Hg Hd Hx Hops Hfuel d Hs. pose proof Hx as [Hn Hf Hi Hfl Hm]. pose proof Hs as (_ & Efs & En).
  exists (ext_vnode ni n), (ext2_read fault fuel ni).
  split; [cbn; by rewrite En, Hn|]. split; [unfold ext_vnode; by rewrite Hops|].
  assert (Edesc : forall g, desc fs d g = desc fs d0 g) by (intros; by apply same_ext_desc).
  assert (Eat : inode_at fs d (n_inode n) = inode_at fs d0 (n_inode n)) by (unfold inode_at; by rewrite Edesc).
  assert (Einode : inode_of fs d (n_inode n) = inode_of fs d0 (n_inode n)).
  { unfold inode_of. by rewrite Eat, (same_ext_block fs d0 d). }
  assert (Hx' : ext_file_ok fs d ni n).
  { split; [congruence|by rewrite Efs| |by rewrite Einode|].
    - destruct Hi. split; try done. by rewrite Eat.
    - rewrite Einode. intros k Hk. rewrite (same_ext_bmap fs d0 d) by done. by apply Hm. }
  intros off size Hoff Hsz.
  destruct (ext2_read_ok fault nofault fuel fs d ni n off size Hg ltac:(by eapply same_ext_dev) Hx') as (d' & E & Hs'); [by rewrite Einode|lia..|].
  exists d'. split; [|by eapply same_ext_trans]. rewrite Einode in E. unfold ext_bytes in *.
  rewrite (same_ext_content fs d0 d _ _ Hs) in E. exact E.
Qed.

(** C18 (vfs.c over ext2.c): reading an ext2 file through a descriptor of the
    VFS, in pieces of any sizes, yields the bytes of the blocks its inode maps
    from the descriptor's offset on up to the end of the file, once and in
    order, and leaves the offset behind them. *)
Theorem vfs_ext2_read {H} (s : vfs_st ext_st nat H) t tbl f fs ni n fd sizes :
  let d := v_drv s in let inode := inode_of fs d (n_inode n) in
  egeo fs -> dev_sectors_ok (xt_dev d) -> ext_file_ok fs d ni n -> n_ops n = OpsFile ->
  i_size inode < 2147483648 -> (ext_blocks fs inode < fuel)%nat ->
  calling s t -> table_of s t = Some tbl -> 0 <= fd < MAX_FD -> tbl !! Z.to_nat fd = Some f ->
  fd_active f = true -> fd_node f = Some ni -> 0 <= fd_offset f -> Forall in_u32 sizes ->
  fd_offset f + total sizes < 18446744073709551616 ->
  exists d', same_ext d d' /\
    let out := slice (ext_bytes fs d inode) (fd_offset f) (total sizes) in
    read_all fd sizes s = Some (out,
      with_table t (<[Z.to_nat fd := Fd (Some ni) (fd_offset f + Z.of_nat (length out)) (fd_flags f) true]> tbl) d' s).
Proof.
  intros d inode Hg Hd Hx Hops Hbig Hfuel Hc Ht Hfd Hf Ha Hn Hoff Hsz Htot.
  destruct (vfs_read_stream_ok (same_ext d) ni (ext_bytes fs d inode) fd sizes s t tbl f) as (d' & Hd' & E); try done.
  - by apply ext2_file_law.
  - unfold ext_bytes. rewrite length_take. fold d inode. lia.
  - by exists d'.
Qed.
End Instance.

(** ** A small system *)

Module VfsExtDemo.
Definition ext_no_mount (fs_type drive_type drive lba : Z) : M ext_st (Z + nat) := mret (inl (-1)).
Definition ext_no_defrag (fs_type : Z) (root : nat) : M ext_st (Z + Z * Z * Z) := mret (inl (-1)).
#[export] Instance ext_demo_driver : Driver ext_st nat := ext_driver ExtDemo.fault 5 ext_no_mount ext_no_defrag.

(** The idle task has the file of the volume open at offset 1022. *)
Definition ext_tbl : list (file_descriptor_t nat) := <[2%nat := Fd (Some 0%nat) 1022 1 true]> fd_table0.
Definition ext_idle : task_t (file_descriptor_t nat) := Task 0 (-1) [] TASK_RUNNING 3 0 0 0 0 0 0 0 0 0 ext_tbl 0 0 0 0.
Definition ext_sys : vfs_st ext_st nat unit :=
  Vfs ExtDemo.state (replicate 8 mount0) (Sched [] 0 [] ext_idle (Some Idle) false false 0 0 0 ∅ tt).
End VfsExtDemo.
Import VfsExtDemo.

Lemma vfs_ext2_read_witness :
  exists d', read_all 2 [1; 3] ext_sys = Some ([65; 65; 66; 66], with_table Idle (<[2%nat := Fd (Some 0%nat) 1026 1 true]> ext_tbl) d' ext_sys).
Proof.
  destruct (vfs_ext2_read ExtDemo.fault 5 ext_no_mount ext_no_defrag ExtDemo.ext_nofault ext_sys Idle ext_tbl (Fd (Some 0%nat) 1022 1 true)
    ExtDemo.fs 0 ExtDemo.node 2 [1; 3]) as (d' & _ & E);
    [apply ExtDemo.geometry|apply ExtDemo.ext_sectors_ok|apply ExtDemo.file_ok12|reflexivity|by vm_compute|apply Nat.ltb_lt; by vm_compute
    |reflexivity|reflexivity|by vm_compute|reflexivity|reflexivity|reflexivity|by vm_compute|repeat constructor; by vm_compute|by vm_compute|].
  exists d'. etransitivity; [exact E|by vm_compute].
Defined.
