(* ===== verification/Xfs.v ===== *)
(** * The XFS driver

    Models fs/xfs.c over the block devices of Blk.v. The buffers ([inode_buf],
    [block_buf]) are local values, the bytes the last transfer filled; [None]
    is divergence, a division by zero, a shift by the width of the type or
    more, a transfer larger than the buffer, or an access behind the bytes that
    were transferred. A pointer into a buffer is the rest of the buffer. *)

From S2P Require Import Prelude Blk Fat32 Vol.

Definition MAX_XFS_FS : Z := 4.
Definition MAX_XFS_NODES : Z := 128.
Definition XFS_SB_MAGIC : Z := 0x58465342.
Definition XFS_SB_VERSION_NUMBITS : Z := 0x000f.
Definition XFS_SB_VERSION_5 : Z := 5.
Definition XFS_DINODE_MAGIC : Z := 0x494e.
Definition XFS_DINODE_FMT_LOCAL : Z := 1.
Definition XFS_DINODE_FMT_EXTENTS : Z := 2.
Definition XFS_S_IFMT : Z := 0xF000.
Definition XFS_S_IFDIR : Z := 0x4000.

Record xfs_fs_t := Xfs {
  xf_drive : Z;
  xf_drive_type : Z;
  xf_part_lba : Z;
  xf_block_size : Z;
  xf_sectors_per_block : Z;
  xf_agblocks : Z;
  xf_agcount : Z;
  xf_agblklog : Z;
  xf_inodesize : Z;
  xf_inopblock : Z;
  xf_inopblog : Z;
  xf_dirblklog : Z;
  xf_rootino : Z;
}.
Definition xfs0 : xfs_fs_t := Xfs 0 0 0 0 0 0 0 0 0 0 0 0 0.
Definition xfs_st : Type := vol_st xfs_fs_t.

(** The fields of [xfs_dinode_core_t], big-endian. *)
Definition di_magic (i : list Z) : M xfs_st Z := ldbe 2 i 0.
Definition di_mode (i : list Z) : M xfs_st Z := ldbe 2 i 2.
Definition di_format (i : list Z) : M xfs_st Z := ldbe 1 i 5.
Definition di_size (i : list Z) : M xfs_st Z := ldbe 8 i 56.
Definition di_nextents (i : list Z) : M xfs_st Z := ldbe 4 i 76.

Section Xfs.
Context (fault : nat -> option nat).
(** Rounds allowed to the loops over files and directories. *)
Context (fuel : nat).

Definition alloc_node : M xfs_st (option nat) := pool_node MAX_XFS_NODES.
Definition alloc_fs : M xfs_st (option nat) := pool_fs xfs0 MAX_XFS_FS.

(** ** Blocks and inodes *)

Definition read_block (fs : xfs_fs_t) (block : Z) : M xfs_st (option (list Z)) :=
  let lba := u64 (xf_part_lba fs + u64 (block * xf_sectors_per_block fs)) in
  blk_read fault (xf_drive_type fs) (xf_drive fs) lba (xf_sectors_per_block fs).

(** A shift of a [uint64_t]. *)
Definition shift64_ok (n : Z) : M xfs_st unit := require (n <? 64).

Definition xfs_fsb_to_block (fs : xfs_fs_t) (fsbno : Z) : M xfs_st Z :=
  shift64_ok (xf_agblklog fs);;
  let agno := Z.shiftr fsbno (xf_agblklog fs) in
  let agbno := Z.land fsbno (Z.shiftl 1 (xf_agblklog fs) - 1) in
  mret (u64 (u64 (agno * xf_agblocks fs) + agbno)).

(** The block of an inode and the offset in it. *)
Definition xfs_ino_to_loc (fs : xfs_fs_t) (ino : Z) : M xfs_st (Z * Z) :=
  shift64_ok (xf_agblklog fs + xf_inopblog fs);;
  let agno := Z.shiftr ino (xf_agblklog fs + xf_inopblog fs) in
  let rest := Z.land ino (Z.shiftl 1 (xf_agblklog fs + xf_inopblog fs) - 1) in
  let agbno := Z.shiftr rest (xf_inopblog fs) in
  let index := u32 (Z.land rest (Z.shiftl 1 (xf_inopblog fs) - 1)) in
  mret (u64 (u64 (agno * xf_agblocks fs) + agbno), u32 (index * xf_inodesize fs)).

(** [inode_buf], or the -1. *)
Definition read_inode_raw (fs : xfs_fs_t) (ino : Z) : M xfs_st (option (list Z)) :=
  '(block, off) ← xfs_ino_to_loc fs ino;
  r ← read_block fs block;
  match r with
  | None => mret None
  | Some b =>
    if u32 (off + xf_inodesize fs) >? 4096 then mret None
    else
      inode ← ldn b off (xf_inodesize fs);
      magic ← di_magic inode;
      mret (if magic =? XFS_DINODE_MAGIC then Some inode else None)
  end.

(** ** Extents *)

Record xfs_extent_t := Xext { xe_startoff : Z; xe_startblock : Z; xe_blockcount : Z; xe_unwritten : Z }.

Definition xfs_decode_extent (rec16 : list Z) : xfs_extent_t :=
  let l0 := le_val (rev (slice rec16 0 8)) in
  let l1 := le_val (rev (slice rec16 8 8)) in
  Xext (Z.land (Z.shiftr l0 9) (Z.shiftl 1 54 - 1)) (Z.lor (u64 (Z.shiftl (Z.land l0 0x1FF) 43)) (Z.shiftr l1 21))
    (Z.land l1 (Z.shiftl 1 21 - 1)) (Z.shiftr l0 63).

(** The records [i], ..., [n] of them, in the literal area of an inode. *)
Fixpoint resolve_from (n : nat) (fs : xfs_fs_t) (inode : list Z) (i lb : Z) : M xfs_st Z :=
  match n with
  | O => mret 0
  | S n =>
    rec16 ← ldn inode (100 + i * 16) 16;
    let e := xfs_decode_extent rec16 in
    if (lb >=? xe_startoff e) && (lb <? u64 (xe_startoff e + xe_blockcount e)) then
      xfs_fsb_to_block fs (u64 (xe_startblock e + (lb - xe_startoff e)))
    else resolve_from n fs inode (i + 1) lb
  end.
Definition xfs_resolve_extent (fs : xfs_fs_t) (inode : list Z) (next lb : Z) : M xfs_st Z :=
  resolve_from (Z.to_nat next) fs inode 0 lb.

(** ** Reading *)

(** The bytes read, or the negative result. *)
Definition xfs_read (node : nat) (offset size : Z) : M xfs_st (Z + list Z) :=
  n ← node_at node;
  match n_private n with
  | None => mret (inl (-1))
  | Some fsi =>
    fs ← fs_at fsi;
    if offset >=? n_size n then mret (inr [])
    else
      r ← read_inode_raw fs (n_inode n);
      match r with
      | None => mret (inl (-1))
      | Some inode =>
        let remaining := if u64 (offset + size) >? n_size n then u32 (n_size n - offset) else size in
        if remaining =? 0 then mret (inr [])
        else
          format ← di_format inode;
          if format =? XFS_DINODE_FMT_LOCAL then l ← ldn inode (100 + offset) remaining; mret (inr l)
          else if negb (format =? XFS_DINODE_FMT_EXTENTS) then mret (inl (-1))
          else
            nextents ← di_nextents inode;
            out ← loop fuel (fun out =>
              let got := Z.of_nat (length out) in
              if got <? remaining then
                require (negb (xf_block_size fs =? 0));;
                let cur := u64 (offset + got) in
                let lb := cur / xf_block_size fs in
                let blk_off := u32 (cur mod xf_block_size fs) in
                phys ← xfs_resolve_extent fs inode nextents lb;
                if phys =? 0 then mret (inr out)
                else
                  r ← read_block fs phys;
                  match r with
                  | None => mret (inr out)
                  | Some buf =>
                    let copy := u32 (xf_block_size fs - blk_off) in
                    let copy := if copy >? u32 (remaining - got) then u32 (remaining - got) else copy in
                    l ← ldn buf blk_off copy;
                    mret (inl (out ++ l))
                  end
              else mret (inr out)) [];
            mret (if (length out =? 0)%nat then inl (-1) else inr out)
      end
  end.

(** ** Directories *)

(** A decoded entry; [e_name] is the buffer from the name on. *)
Record xfs_sf_entry_t := Sfe { e_name : list Z; e_namelen : Z; e_inumber : Z; e_ftype : Z }.

(** The entries [i], ..., [n] of them, of a shortform directory. *)
Fixpoint sf_from (n : nat) (sf : list Z) (inum_sz want_idx i pos : Z) : M xfs_st (option xfs_sf_entry_t) :=
  match n with
  | O => mret None
  | S n =>
    namelen ← ldw 1 sf pos;
    ftype ← ldw 1 sf (pos + 3 + namelen);
    inumber ← ldbe inum_sz sf (pos + 3 + namelen + 1);
    if i =? want_idx then mret (Some (Sfe (drop (Z.to_nat (pos + 3)) sf) namelen inumber ftype))
    else sf_from n sf inum_sz want_idx (i + 1) (u32 (pos + (3 + namelen + 1 + inum_sz)))
  end.
Definition xfs_sf_entry_at (inode : list Z) (want_idx : Z) : M xfs_st (option xfs_sf_entry_t) :=
  let sf := drop 100 inode in
  count ← ldw 1 sf 0;
  i8count ← ldw 1 sf 1;
  let inum_sz := if i8count =? 0 then 4 else 8 in
  sf_from (Z.to_nat count) sf inum_sz want_idx 0 (2 + inum_sz).

(** [is_dot] and [is_dotdot] *)
Definition dot_name (b : list Z) (pos namelen : Z) : M xfs_st bool :=
  name ← ldn b pos (if (namelen =? 1) || (namelen =? 2) then namelen else 0);
  mret (bool_decide (name = [46]) || bool_decide (name = [46; 46])).

Definition xfs_block_entry_at (block_buf : list Z) (dirblksize want_idx : Z) : M xfs_st (option xfs_sf_entry_t) :=
  let tail_off := u32 (dirblksize - 8) in
  count ← ldbe 4 block_buf tail_off;
  ldn block_buf (tail_off + 4) 4;;
  let leaf_start := u32 (tail_off - u32 (count * 8)) in
  loop fuel (fun '(pos, seen) =>
    if pos <? leaf_start then
      maybe_free ← ldbe 2 block_buf pos;
      if maybe_free =? 0xFFFF then
        length ← ldbe 2 block_buf (pos + 2);
        mret (inl (u32 (pos + length), seen))
      else
        inumber ← ldbe 8 block_buf pos;
        namelen ← ldw 1 block_buf (pos + 8);
        ftype ← ldw 1 block_buf (pos + 9 + namelen);
        let entry_len := Z.land (9 + namelen + 1 + 2 + 7) (not32 7) in
        dot ← dot_name block_buf (pos + 9) namelen;
        if negb dot && (seen =? want_idx) then
          mret (inr (Some (Sfe (drop (Z.to_nat (pos + 9)) block_buf) namelen inumber ftype)))
        else mret (inl (u32 (pos + entry_len), if dot : bool then seen else u32 (seen + 1)))
    else mret (inr None)) (16, 0).

(** The content of a directory: its inode, or its block and the block's size. *)
Inductive xfs_dir := Shortform (inode : list Z) | Block (dirblksize : Z) (block_buf : list Z).

(** The blocks [i], ..., [n] of them, behind those read. *)
Fixpoint dir_blocks (n : nat) (fs : xfs_fs_t) (phys i : Z) (buf : list Z) : M xfs_st (option (list Z)) :=
  match n with
  | O => mret (Some buf)
  | S n =>
    require ((u32 (i * xf_block_size fs) + xf_sectors_per_block fs * 512 <=? 4096) && (u32 (i * xf_block_size fs) =? Z.of_nat (length buf)));;
    r ← read_block fs (u64 (phys + i));
    match r with None => mret None | Some b => dir_blocks n fs phys (i + 1) (buf ++ b) end
  end.

Definition xfs_load_dir (n : vfs_node_t) (fs : xfs_fs_t) : M xfs_st (option xfs_dir) :=
  r ← read_inode_raw fs (n_inode n);
  match r with
  | None => mret None
  | Some inode =>
    format ← di_format inode;
    if format =? XFS_DINODE_FMT_LOCAL then mret (Some (Shortform inode))
    else if negb (format =? XFS_DINODE_FMT_EXTENTS) then mret None
    else
      require (xf_dirblklog fs <? 32);;
      let dirblksize := u32 (Z.shiftl (xf_block_size fs) (xf_dirblklog fs)) in
      nextents ← di_nextents inode;
      if negb (nextents =? 1) then mret None
      else
        rec16 ← ldn inode 100 16;
        let e := xfs_decode_extent rec16 in
        if negb (xe_startoff e =? 0) || negb (u32 (xe_blockcount e * xf_block_size fs) =? dirblksize) then mret None
        else
          phys ← xfs_fsb_to_block fs (xe_startblock e);
          if dirblksize >? 4096 then mret None
          else
            o ← dir_blocks (Z.to_nat (Z.shiftl 1 (xf_dirblklog fs))) fs phys 0 [];
            mret (buf ← o; Some (Block dirblksize buf))
  end.

Definition entry_at (d : xfs_dir) (idx : Z) : M xfs_st (option xfs_sf_entry_t) :=
  match d with
  | Shortform inode => xfs_sf_entry_at inode idx
  | Block dirblksize buf => xfs_block_entry_at buf dirblksize idx
  end.

Definition xfs_readdir (node : nat) (index : Z) : M xfs_st (option dirent_t) :=
  n ← node_at node;
  match n_private n with
  | None => mret None
  | Some fsi =>
    fs ← fs_at fsi;
    d ← xfs_load_dir n fs;
    found ← match d with None => mret None | Some d => entry_at d index end;
    match found with
    | None => mret None
    | Some e =>
      let len := if e_namelen e >=? MAX_FILENAME then MAX_FILENAME - 1 else e_namelen e in
      name ← ldn (e_name e) 0 len;
      child ← read_inode_raw fs (e_inumber e);
      size ← match child with Some child => di_size child | None => mret 0 end;
      mret (Some (Dirent name size (if e_ftype e =? 2 then VFS_DIRECTORY else VFS_FILE)))
    end
  end.

Definition xfs_finddir (node : nat) (name : list Z) : M xfs_st (option nat) :=
  n ← node_at node;
  match n_private n with
  | None => mret None
  | Some fsi =>
    fs ← fs_at fsi;
    d ← xfs_load_dir n fs;
    match d with
    | None => mret None
    | Some d =>
      e ← loop fuel (fun idx =>
        found ← entry_at d idx;
        match found with
        | None => mret (inr None)
        | Some e =>
          if e_namelen e =? Z.of_nat (length name) then
            l ← ldn (e_name e) 0 (e_namelen e);
            if bool_decide (l = name) then mret (inr (Some e)) else mret (inl (u32 (idx + 1)))
          else mret (inl (u32 (idx + 1)))
        end) 0;
      match e with
      | None => mret None
      | Some e =>
        child ← read_inode_raw fs (e_inumber e);
        match child with
        | None => mret None
        | Some child =>
          o ← alloc_node;
          match o with
          | None => mret None
          | Some i =>
            size ← di_size child;
            mode ← di_mode child;
            let dir := Z.land mode XFS_S_IFMT =? XFS_S_IFDIR in
            set_node_at i (Node (take (Z.to_nat (MAX_FILENAME - 1)) name) (if dir then VFS_DIRECTORY else VFS_FILE) size
                             (u32 (e_inumber e)) (if dir then OpsDir else OpsFile) (Some node) (Some fsi));;
            mret (Some i)
          end
        end
      end
    end
  end.

(** ** Mounting *)

(** The fields of [xfs_dsb_t]. *)
Definition sbe (n : Z) (sb : list Z) (off : Z) : Z := le_val (rev (slice sb off n)).

Definition mount_fs (drive_type drive part_lba : Z) (sb : list Z) : xfs_fs_t :=
  let block_size := sbe 4 sb 4 in
  Xfs drive drive_type part_lba block_size (u8 (block_size / 512)) (sbe 4 sb 84) (sbe 4 sb 88) (sbe 1 sb 124) (sbe 2 sb 104)
    (sbe 2 sb 106) (sbe 1 sb 123) (sbe 1 sb 192) (sbe 8 sb 56).

(** The negative code, or the root node. *)
Definition xfs_mount (drive_type drive part_lba : Z) : M xfs_st (Z + nat) :=
  r ← blk_read fault drive_type drive part_lba 1;
  match r with
  | None => mret (inl (-1))
  | Some sb =>
    if negb (sbe 4 sb 0 =? XFS_SB_MAGIC) then mret (inl (-2))
    else if Z.land (sbe 2 sb 100) XFS_SB_VERSION_NUMBITS =? XFS_SB_VERSION_5 then mret (inl (-3))
    else
      o ← alloc_fs;
      match o with
      | None => mret (inl (-4))
      | Some fsi =>
        let fs := mount_fs drive_type drive part_lba sb in
        set_fs_at fsi fs;;
        if (xf_block_size fs =? 0) || (xf_block_size fs >? 4096) || (xf_inodesize fs =? 0) || (xf_inodesize fs >? 4096) then mret (inl (-5))
        else
          o ← alloc_node;
          match o with
          | None => mret (inl (-6))
          | Some root =>
            set_node_at root (Node [47] (Z.lor VFS_DIRECTORY VFS_MOUNTPOINT) 0 (u32 (xf_rootino fs)) OpsDir None (Some fsi));;
            mret (inr root)
          end
      end
  end.
End Xfs.
