(* ===== verification/XfsProofs.v ===== *)
(** * The XFS driver: extents and files

    The packed extent records decode to the fields that were packed, and with
    drives that answer [xfs_read] returns the bytes of the blocks the extents
    of a file name. *)

From S2P Require Import Prelude Blk BlkProofs Fat32 Vol Xfs.

(** ** Extent records *)

Record ext_wf (e : xfs_extent_t) : Prop := {
  ew_off : 0 <= xe_startoff e < 2 ^ 54;
  ew_block : 0 <= xe_startblock e < 2 ^ 52;
  ew_count : 0 <= xe_blockcount e < 2 ^ 21;
  ew_flag : 0 <= xe_unwritten e < 2;
}.

(** The record on disk: two big-endian words. *)
Definition encode_extent (e : xfs_extent_t) : list Z :=
  rev (le_bytes 8 (xe_unwritten e * 2 ^ 63 + xe_startoff e * 2 ^ 9 + xe_startblock e / 2 ^ 43)) ++
  rev (le_bytes 8 (xe_startblock e mod 2 ^ 43 * 2 ^ 21 + xe_blockcount e)).

Lemma length_encode e : length (encode_extent e) = 16%nat.
Proof. done. Qed.

Lemma encode_words e : ext_wf e ->
  le_val (rev (slice (encode_extent e) 0 8)) = xe_unwritten e * 2 ^ 63 + xe_startoff e * 2 ^ 9 + xe_startblock e / 2 ^ 43 /\
  le_val (rev (slice (encode_extent e) 8 8)) = xe_startblock e mod 2 ^ 43 * 2 ^ 21 + xe_blockcount e.
Proof.
  intros [Ho Hb Hc Hf]. unfold encode_extent. set (w0 := _ + _ / _). set (w1 := _ + xe_blockcount e).
  assert (E : forall w, slice (rev (le_bytes 8 w)) 0 8 = rev (le_bytes 8 w)) by done.
  rewrite slice_app_l by (rewrite ?length_rev, ?length_le_bytes; lia). rewrite E.
  rewrite slice_app_r by (rewrite ?length_rev, ?length_le_bytes; lia). rewrite length_rev, length_le_bytes, E.
  rewrite !rev_involutive, !le_val_bytes. change (256 ^ Z.of_nat 8) with (2 ^ 64).
  assert (0 <= xe_startblock e / 2 ^ 43 < 2 ^ 9) by (split; [apply Z.div_pos; lia|apply Z.div_lt_upper_bound; lia]).
  pose proof (Z.mod_pos_bound (xe_startblock e) (2 ^ 43) ltac:(lia)). split; apply Z.mod_small; unfold w0, w1; lia.
Qed.

Lemma decode_encode e : ext_wf e -> xfs_decode_extent (encode_extent e) = e.
Proof.
  intros Hw. pose proof Hw as [Ho Hb Hc Hf]. unfold xfs_decode_extent. destruct (encode_words e Hw) as [-> ->].
  assert (0 <= xe_startblock e / 2 ^ 43 < 2 ^ 9) as Hhi by (split; [apply Z.div_pos; lia|apply Z.div_lt_upper_bound; lia]).
  pose proof (Z.mod_pos_bound (xe_startblock e) (2 ^ 43) ltac:(lia)) as Hlo.
  set (hi := xe_startblock e / 2 ^ 43) in *. set (lo := xe_startblock e mod 2 ^ 43) in *.
  change (Z.shiftl 1 54 - 1) with (2 ^ 54 - 1). change (Z.shiftl 1 21 - 1) with (2 ^ 21 - 1). change 0x1FF with (2 ^ 9 - 1).
  rewrite !land_ones_mod, !Z.shiftr_div_pow2, Z.shiftl_mul_pow2 by lia.
  destruct e as [o b c f]; cbn [xe_startoff xe_startblock xe_blockcount xe_unwritten] in *. f_equal.
  - replace (f * 2 ^ 63 + o * 2 ^ 9 + hi) with (hi + (f * 2 ^ 54 + o) * 2 ^ 9) by lia. rewrite Z.div_add, (Z.div_small hi) by lia.
    rewrite Z.add_0_l. replace (f * 2 ^ 54 + o) with (o + f * 2 ^ 54) by lia. rewrite Z.mod_add by lia. by apply Z.mod_small.
  - replace (f * 2 ^ 63 + o * 2 ^ 9 + hi) with (hi + (f * 2 ^ 54 + o) * 2 ^ 9) by lia. rewrite Z.mod_add, (Z.mod_small hi) by lia.
    rewrite (Z.add_comm (lo * _) c), Z.div_add, (Z.div_small c) by lia. rewrite Z.add_0_l, u64_id by (unfold in_u64; lia).
    rewrite lor_add_low by lia. pose proof (Z.div_mod b (2 ^ 43)). unfold hi, lo. lia.
  - rewrite (Z.add_comm (lo * _) c), Z.mod_add by lia. by apply Z.mod_small.
  - replace (f * 2 ^ 63 + o * 2 ^ 9 + hi) with ((o * 2 ^ 9 + hi) + f * 2 ^ 63) by lia. rewrite Z.div_add, Z.div_small by lia. lia.
Qed.

(** ** Addresses *)

(** The block of a file-system block number. *)
Definition fsb_block (fs : xfs_fs_t) (fsbno : Z) : Z := fsbno / 2 ^ xf_agblklog fs * xf_agblocks fs + fsbno mod 2 ^ xf_agblklog fs.

(** The geometry of a volume. *)
Record xgeo (fs : xfs_fs_t) : Prop := {
  xg_drive : 0 <= xf_drive fs < 256;
  xg_spb : 1 <= xf_sectors_per_block fs <= 8;
  xg_bs : xf_block_size fs = xf_sectors_per_block fs * 512;
  xg_lba : 0 <= xf_part_lba fs;
  xg_agb : 0 <= xf_agblocks fs;
  xg_log : 0 <= xf_agblklog fs /\ 0 <= xf_inopblog fs /\ xf_agblklog fs + xf_inopblog fs < 64;
  xg_isz : 0 < xf_inodesize fs <= xf_block_size fs;
}.

(** A block whose sectors have 64-bit addresses. *)
Definition on_volume (fs : xfs_fs_t) (b : Z) : Prop :=
  0 <= b /\ xf_part_lba fs + (b + 1) * xf_sectors_per_block fs <= 18446744073709551616.

Definition xblock (fs : xfs_fs_t) (s : xfs_st) (b : Z) : list Z :=
  sectors_at (vl_dev s) (blk_driver (xf_drive_type fs)) (xf_drive fs) (xf_part_lba fs + b * xf_sectors_per_block fs)
    (Z.to_nat (xf_sectors_per_block fs)).

(** Where an inode is. *)
Definition ino_loc (fs : xfs_fs_t) (ino : Z) : Z * Z :=
  let rest := ino mod 2 ^ (xf_agblklog fs + xf_inopblog fs) in
  (ino / 2 ^ (xf_agblklog fs + xf_inopblog fs) * xf_agblocks fs + rest / 2 ^ xf_inopblog fs,
   rest mod 2 ^ xf_inopblog fs * xf_inodesize fs).
Definition xinode (fs : xfs_fs_t) (s : xfs_st) (ino : Z) : list Z := slice (xblock fs s (ino_loc fs ino).1) (ino_loc fs ino).2 (xf_inodesize fs).

(** An inode of the volume. *)
Record xino_ok (fs : xfs_fs_t) (s : xfs_st) (ino : Z) : Prop := {
  xi_range : in_u64 ino;
  xi_block : on_volume fs (ino_loc fs ino).1;
  xi_off : (ino_loc fs ino).2 + xf_inodesize fs <= xf_block_size fs;
  xi_size : 100 <= xf_inodesize fs;
  xi_magic : le_val (rev (slice (xinode fs s ino) 0 2)) = XFS_DINODE_MAGIC;
}.

Section Blocks.
Context (fault : nat -> option nat) (nofault : forall k, fault k = None).
Context (fs : xfs_fs_t) (Hg : xgeo fs).
Implicit Types s : xfs_st.

Lemma length_xblock s b : dev_sectors_ok (vl_dev s) -> Z.of_nat (length (xblock fs s b)) = xf_block_size fs.
Proof. intros Hd. unfold xblock. rewrite length_sectors_at, (xg_bs _ Hg) by done. pose proof (xg_spb _ Hg). lia. Qed.

Lemma same_xblock s s' b : same_vol s s' -> xblock fs s' b = xblock fs s b.
Proof. apply same_vol_sectors. Qed.

Lemma xread_block_ok s b :
  on_volume fs b -> exists s', read_block fault fs b s = Some (Some (xblock fs s b), s') /\ same_vol s s'.
Proof.
  intros [Hb Hv]. pose proof (xg_spb _ Hg). pose proof (xg_lba _ Hg). unfold read_block.
  rewrite (u64_id (b * _)), u64_id by (unfold in_u64; nia).
  apply (vol_read_ok fault nofault); [apply Hg|unfold in_u64; nia|lia].
Qed.

Lemma fsb_ok s x :
  0 <= x -> on_volume fs (fsb_block fs x) -> xfs_fsb_to_block fs x s = Some (fsb_block fs x, s).
Proof.
  intros Hx [_ Hv]. destruct (xg_log _ Hg) as (Hl & _ & H64). pose proof (xg_spb _ Hg). pose proof (xg_lba _ Hg). pose proof (xg_agb _ Hg).
  pose proof (xg_log _ Hg) as (_ & Hi & _).
  unfold xfs_fsb_to_block, shift64_ok. destruct (Z.ltb_spec (xf_agblklog fs) 64); [|lia]. rewrite (bind_eq _ _ _ _ _ (require_ok s)).
  rewrite Z.shiftl_1_l, land_ones_mod, Z.shiftr_div_pow2 by done. unfold fsb_block in *.
  assert (0 < 2 ^ xf_agblklog fs) by lia. pose proof (Z.mod_pos_bound x (2 ^ xf_agblklog fs) ltac:(lia)).
  assert (0 <= x / 2 ^ xf_agblklog fs) by (apply Z.div_pos; lia). set (q := x / _) in *. set (r := x mod _) in *.
  assert (0 <= q * xf_agblocks fs) by nia. rewrite (u64_id (q * _)), u64_id by (unfold in_u64; nia). done.
Qed.

Lemma ino_loc_ok s ino :
  in_u64 ino -> on_volume fs (ino_loc fs ino).1 -> (ino_loc fs ino).2 + xf_inodesize fs <= xf_block_size fs ->
  xfs_ino_to_loc fs ino s = Some (ino_loc fs ino, s).
Proof.
  intros Hino [_ Hv] Hoff. destruct (xg_log _ Hg) as (Hl & Hi & H64). pose proof (xg_spb _ Hg). pose proof (xg_lba _ Hg). pose proof (xg_agb _ Hg).
  pose proof (xg_isz _ Hg). pose proof (xg_bs _ Hg). unfold in_u64 in Hino. unfold xfs_ino_to_loc, shift64_ok.
  destruct (Z.ltb_spec (xf_agblklog fs + xf_inopblog fs) 64); [|lia]. rewrite (bind_eq _ _ _ _ _ (require_ok s)).
  rewrite !Z.shiftl_1_l, !land_ones_mod, !Z.shiftr_div_pow2 by lia. unfold ino_loc in *. cbn [fst snd] in *.
  set (m := 2 ^ (xf_agblklog fs + xf_inopblog fs)) in *. set (k := 2 ^ xf_inopblog fs) in *.
  assert (0 < m) by (unfold m; lia). assert (0 < k) by (unfold k; lia).
  pose proof (Z.mod_pos_bound ino m ltac:(lia)). assert (0 <= ino / m) by (apply Z.div_pos; lia).
  pose proof (Z.mod_pos_bound (ino mod m) k ltac:(lia)). assert (0 <= ino mod m / k) by (apply Z.div_pos; lia).
  assert (0 <= ino / m * xf_agblocks fs) by nia. assert (ino mod m mod k <= ino mod m mod k * xf_inodesize fs) by nia.
  rewrite (u64_id (ino / m * _)), u64_id, (u32_id (ino mod m mod k)), u32_id by (unfold in_u32, in_u64; nia). done.
Qed.

Lemma xfs_read_inode_ok s ino :
  dev_sectors_ok (vl_dev s) -> xino_ok fs s ino ->
  exists s', read_inode_raw fault fs ino s = Some (Some (xinode fs s ino), s') /\ same_vol s s' /\
    Z.of_nat (length (xinode fs s ino)) = xf_inodesize fs.
Proof.
  intros Hd [Hr Hb Ho Hsz Hm]. unfold read_inode_raw. rewrite (bind_eq _ _ _ _ _ (ino_loc_ok s ino Hr Hb Ho)).
  assert (Hloc : 0 <= (ino_loc fs ino).2).
  { cbn [ino_loc snd]. pose proof (xg_isz _ Hg). destruct (xg_log _ Hg) as (_ & Hi & _).
    apply Z.mul_nonneg_nonneg; [apply Z.mod_pos_bound|]; lia. }
  unfold xinode in *. destruct (ino_loc fs ino) as [b off]. cbn [fst snd] in *.
  destruct (xread_block_ok s b Hb) as (s1 & E1 & Hs1). rewrite (bind_eq _ _ _ _ _ E1). exists s1.
  pose proof (xg_isz _ Hg). pose proof (xg_bs _ Hg). pose proof (xg_spb _ Hg). pose proof (length_xblock s b Hd) as Hl.
  rewrite u32_id by (unfold in_u32; lia). destruct (off + xf_inodesize fs >? 4096) eqn:E; [apply Z.gtb_lt in E; lia|].
  rewrite (bind_eq _ _ _ _ _ (ldn_ok (xblock fs s b) off (xf_inodesize fs) s1 Hloc ltac:(lia))).
  assert (Hli : Z.of_nat (length (slice (xblock fs s b) off (xf_inodesize fs))) = xf_inodesize fs) by (apply slice_length; lia).
  rewrite (bind_eq _ _ _ _ _ (ldbe_ok 2 (slice (xblock fs s b) off (xf_inodesize fs)) 0 s1 ltac:(lia) ltac:(lia))). rewrite Hm. done.
Qed.
End Blocks.

(** ** Extents of a file *)

(** The file-system block of logical block [lb]. *)
Fixpoint xmap (exts : list xfs_extent_t) (lb : Z) : option Z :=
  match exts with
  | [] => None
  | e :: exts => if (xe_startoff e <=? lb) && (lb <? xe_startoff e + xe_blockcount e) then Some (xe_startblock e + (lb - xe_startoff e)) else xmap exts lb
  end.

Lemma xmap_range exts lb x : Forall ext_wf exts -> xmap exts lb = Some x -> 0 <= x < 2 ^ 53.
Proof.
  induction 1 as [|e exts [Ho Hb Hc _] _ IH]; cbn [xmap]; [done|].
  destruct (Z.leb_spec (xe_startoff e) lb), (Z.ltb_spec lb (xe_startoff e + xe_blockcount e)); cbn [andb]; [|apply IH..].
  intros [= <-]. lia.
Qed.

(** What is in the literal area of an inode that maps its data by extents. *)
Record xrecords (inode : list Z) (exts : list xfs_extent_t) : Prop := {
  xr_wf : Forall ext_wf exts;
  xr_fit : 100 + 16 * Z.of_nat (length exts) <= Z.of_nat (length inode);
  xr_area : slice inode 100 (16 * Z.of_nat (length exts)) = concat (map encode_extent exts);
}.

Section Mapping.
Context (fs : xfs_fs_t) (Hg : xgeo fs).
Implicit Types s : xfs_st.

Lemma resolve_from_ok (s : xfs_st) inode exts i lb :
  Forall ext_wf exts -> 0 <= i -> 100 + 16 * i + 16 * Z.of_nat (length exts) <= Z.of_nat (length inode) ->
  slice inode (100 + 16 * i) (16 * Z.of_nat (length exts)) = concat (map encode_extent exts) ->
  in_u64 lb -> (forall x, xmap exts lb = Some x -> on_volume fs (fsb_block fs x)) ->
  resolve_from (length exts) fs inode i lb s = Some (from_option (fsb_block fs) 0 (xmap exts lb), s).
Proof.
  intros Hw. revert i. induction Hw as [|e exts He Hw IH]; intros i Hi Hfit Harea Hlb Hon; cbn [resolve_from length xmap]; [done|].
  cbn [length map concat] in *. rewrite (bind_eq _ _ _ _ _ (ldn_ok inode (100 + i * 16) 16 s ltac:(lia) ltac:(lia))).
  assert (E : slice inode (100 + i * 16) 16 = encode_extent e).
  { replace (100 + i * 16) with (100 + 16 * i + 0) by lia. rewrite <- (slice_slice inode (100 + 16 * i) (16 * Z.of_nat (S (length exts))) 0 16) by lia.
    rewrite Harea. rewrite slice_app_l by (rewrite ?length_encode; lia). change 16 with (Z.of_nat (length (encode_extent e))). apply slice_all. }
  rewrite E, (decode_encode e He). pose proof He as [Ho Hb Hc _]. rewrite Z.geb_leb, (u64_id (_ + _)) by (unfold in_u64; lia). cbn [xmap] in Hon.
  destruct (Z.leb_spec (xe_startoff e) lb), (Z.ltb_spec lb (xe_startoff e + xe_blockcount e)); cbn [andb from_option] in *.
  1: { rewrite (u64_id (_ + _)) by (unfold in_u64; lia). apply fsb_ok; [done|lia|]. by apply Hon. }
  all: apply IH; [lia|lia| |done|done].
  all: replace (100 + 16 * (i + 1)) with (100 + 16 * i + 16) by lia;
    rewrite <- (slice_slice inode (100 + 16 * i) (16 * Z.of_nat (S (length exts))) 16 (16 * Z.of_nat (length exts))) by lia;
    rewrite Harea, slice_app_r by (rewrite ?length_encode; lia); rewrite length_encode; change (16 - Z.of_nat 16) with 0;
    replace (16 * Z.of_nat (length exts)) with (Z.of_nat (length (concat (map encode_extent exts)))); [apply slice_all|].
  all: clear; induction exts as [|e' exts IH]; cbn [map concat length]; [done|]; rewrite length_app, length_encode; lia.
Qed.

Lemma resolve_ok (s : xfs_st) inode exts lb :
  xrecords inode exts -> in_u64 lb -> (forall x, xmap exts lb = Some x -> on_volume fs (fsb_block fs x)) ->
  xfs_resolve_extent fs inode (Z.of_nat (length exts)) lb s = Some (from_option (fsb_block fs) 0 (xmap exts lb), s).
Proof.
  intros [Hw Hfit Harea] Hlb Hon. unfold xfs_resolve_extent. rewrite Nat2Z.id. by apply resolve_from_ok.
Qed.
End Mapping.

(** ** Files *)

Definition xblocks (fs : xfs_fs_t) (size : Z) : nat := Z.to_nat ((size + xf_block_size fs - 1) / xf_block_size fs).
Definition xcontent (fs : xfs_fs_t) (s : xfs_st) (exts : list xfs_extent_t) (n : nat) : list Z :=
  concat (map (fun k => xblock fs s (from_option (fsb_block fs) 0 (xmap exts (Z.of_nat k)))) (seq 0 n)).

(** The bytes of a file of [size] bytes: in its inode, or in the blocks its
    extents name, all of which exist. *)
Inductive xfs_data (fs : xfs_fs_t) (s : xfs_st) (inode : list Z) (size : Z) : list Z -> Prop :=
| DataLocal :
    slice inode 5 1 = [XFS_DINODE_FMT_LOCAL] -> 100 + size <= Z.of_nat (length inode) ->
    xfs_data fs s inode size (slice inode 100 size)
| DataExtents exts :
    slice inode 5 1 = [XFS_DINODE_FMT_EXTENTS] -> le_val (rev (slice inode 76 4)) = Z.of_nat (length exts) ->
    xrecords inode exts ->
    (forall k, (k < xblocks fs size)%nat -> exists x, xmap exts (Z.of_nat k) = Some x /\ on_volume fs (fsb_block fs x) /\ fsb_block fs x <> 0) ->
    xfs_data fs s inode size (take (Z.to_nat size) (xcontent fs s exts (xblocks fs size))).

(** Node [ni] is a file of the volume with the bytes [data]. *)
Record xfile_ok (fs : xfs_fs_t) (s : xfs_st) (ni : nat) (n : vfs_node_t) (data : list Z) : Prop := {
  xo_node : vl_nodes s !! ni = Some n;
  xo_fs : exists fsi, n_private n = Some fsi /\ vl_fs s !! fsi = Some fs;
  xo_ino : xino_ok fs s (n_inode n);
  xo_size : 0 <= n_size n < 9223372036854775808;
  xo_data : xfs_data fs s (xinode fs s (n_inode n)) (n_size n) data;
}.

Section Reading.
Context (fault : nat -> option nat) (nofault : forall k, fault k = None) (fuel : nat).
Context (fs : xfs_fs_t) (Hg : xgeo fs).

Lemma same_xcontent s s' exts n : same_vol s s' -> xcontent fs s' exts n = xcontent fs s exts n.
Proof. intros H. unfold xcontent. f_equal. apply map_ext. intros k. by apply same_xblock. Qed.

Lemma length_xcontent s exts n : dev_sectors_ok (vl_dev s) -> Z.of_nat (length (xcontent fs s exts n)) = Z.of_nat n * xf_block_size fs.
Proof. intros Hd. apply (length_pieces (fun k => xblock fs s _)). intros. by apply length_xblock. Qed.

Lemma xblocks_spec size : 0 <= size ->
  size <= Z.of_nat (xblocks fs size) * xf_block_size fs /\
  forall x, 0 <= x < size -> (Z.to_nat (x / xf_block_size fs) < xblocks fs size)%nat.
Proof.
  intros Hs. pose proof (xg_bs _ Hg). pose proof (xg_spb _ Hg). unfold xblocks. set (bs := xf_block_size fs) in *.
  rewrite Z2Nat.id by (apply Z.div_pos; lia). split; [zlia|]. intros x Hx.
  apply Z2Nat.inj_lt; [apply Z.div_pos; lia..|]. enough (x / bs + 1 <= (size + bs - 1) / bs) by lia.
  rewrite <- Z.div_add by lia. apply Z.div_le_mono; lia.
Qed.

(** One round of the transfer loop. *)
Definition xfs_read_round (inode : list Z) (nextents offset remaining : Z) (out : list Z) : M xfs_st (list Z + list Z) :=
  let got := Z.of_nat (length out) in
  if got <? remaining then
    require (negb (xf_block_size fs =? 0));;
    let cur := u64 (offset + got) in
    let lb := cur / xf_block_size fs in
    let blk_off := u32 (cur mod xf_block_size fs) in
    phys ← xfs_resolve_extent fs inode nextents lb;
    if phys =? 0 then mret (inr out)
    else
      r ← read_block fault fs phys;
      match r with
      | None => mret (inr out)
      | Some buf =>
        let copy := u32 (xf_block_size fs - blk_off) in
        let copy := if copy >? u32 (remaining - got) then u32 (remaining - got) else copy in
        l ← ldn buf blk_off copy;
        mret (inl (out ++ l))
      end
  else mret (inr out).

Context (s0 : xfs_st) (inode : list Z) (exts : list xfs_extent_t) (fsize : Z).
Context (Hd : dev_sectors_ok (vl_dev s0)) (Hr : xrecords inode exts) (Hsize : 0 <= fsize < 9223372036854775808).
Context (Hmap : forall k, (k < xblocks fs fsize)%nat -> exists x, xmap exts (Z.of_nat k) = Some x /\ on_volume fs (fsb_block fs x) /\ fsb_block fs x <> 0).

Lemma xread_round_ok offset remaining s out :
  same_vol s0 s -> 0 <= offset -> offset + remaining <= fsize -> remaining < 4294967296 -> Z.of_nat (length out) < remaining ->
  let cur := offset + Z.of_nat (length out) in
  let copy := Z.min (xf_block_size fs - cur mod xf_block_size fs) (remaining - Z.of_nat (length out)) in
  exists s', xfs_read_round inode (Z.of_nat (length exts)) offset remaining out s =
      Some (inl (out ++ slice (xcontent fs s0 exts (xblocks fs fsize)) cur copy), s') /\ same_vol s0 s'.
Proof.
  intros Hs Ho Hend H32 Hlt cur copy. pose proof (xg_bs _ Hg) as Hbs. pose proof (xg_spb _ Hg) as Hspb.
  destruct (xblocks_spec fsize ltac:(lia)) as [_ Hk]. specialize (Hk cur ltac:(lia)). set (k := Z.to_nat (cur / xf_block_size fs)) in *.
  assert (Ek : Z.of_nat k = cur / xf_block_size fs) by (unfold k; rewrite Z2Nat.id; [done|apply Z.div_pos; lia]).
  pose proof (Z.mod_pos_bound cur (xf_block_size fs) ltac:(lia)) as Hmod.
  assert (Ecur : cur = Z.of_nat k * xf_block_size fs + cur mod xf_block_size fs) by (rewrite Ek; pose proof (Z.div_mod cur (xf_block_size fs)); lia).
  unfold xfs_read_round. destruct (Z.ltb_spec (Z.of_nat (length out)) remaining); [|lia].
  destruct (Z.eqb_spec (xf_block_size fs) 0); [lia|]. cbn [negb]. rewrite (bind_eq _ _ _ _ _ (require_ok s)). fold cur.
  rewrite (u64_id cur) by (unfold in_u64; lia). rewrite <- Ek. destruct (Hmap k Hk) as (x & Ex & Hon & Hne).
  rewrite (bind_eq _ _ _ _ _ (resolve_ok fs Hg s inode exts (Z.of_nat k) Hr ltac:(unfold in_u64; zlia)
    ltac:(intros y Hy; rewrite Ex in Hy; injection Hy as <-; exact Hon))).
  rewrite Ex. cbn [from_option]. destruct (Z.eqb_spec (fsb_block fs x) 0); [done|].
  destruct (xread_block_ok fault nofault fs Hg s (fsb_block fs x) Hon) as (s1 & E1 & Hs1). rewrite (bind_eq _ _ _ _ _ E1), (same_xblock fs s0 s) by done.
  rewrite (u32_id (cur mod _)), (u32_id (xf_block_size fs - _)), (u32_id (remaining - _)) by (unfold in_u32; lia).
  assert (Ecopy : (if xf_block_size fs - cur mod xf_block_size fs >? remaining - Z.of_nat (length out) then remaining - Z.of_nat (length out)
    else xf_block_size fs - cur mod xf_block_size fs) = copy) by (unfold copy; bcase; lia).
  rewrite Ecopy. pose proof (length_xblock fs Hg s0 (fsb_block fs x) Hd) as Hlen.
  assert (Hcopy : 0 <= copy /\ cur mod xf_block_size fs + copy <= xf_block_size fs) by (unfold copy; lia).
  erewrite bind_eq; [|apply ldn_ok; lia]. exists s1. split; [|by eapply same_vol_trans]. unfold mret, M_ret. do 4 f_equal.
  unfold xcontent. rewrite Ecur at 2. symmetry. etransitivity.
  - apply (slice_pieces (fun k => xblock fs s0 (from_option (fsb_block fs) 0 (xmap exts (Z.of_nat k))))); [lia|intros; by apply length_xblock|done|lia|lia|lia].
  - cbv beta. by rewrite Ex.
Qed.

Lemma xread_loop_ok offset remaining s :
  same_vol s0 s -> 0 <= offset -> 0 <= remaining < 4294967296 -> offset + remaining <= fsize -> (xblocks fs fsize < fuel)%nat ->
  exists s', loop fuel (xfs_read_round inode (Z.of_nat (length exts)) offset remaining) [] s =
      Some (slice (xcontent fs s0 exts (xblocks fs fsize)) offset remaining, s') /\ same_vol s0 s'.
Proof.
  intros Hs Ho Hsz Hend Hn. pose proof (xg_bs _ Hg). pose proof (xg_spb _ Hg). destruct (xblocks_spec fsize ltac:(lia)) as [Hcov _].
  apply (transfer_ok (same_vol s0) (fun l => l) (xfs_read_round inode (Z.of_nat (length exts)) offset remaining) (fun l => l) _ (xf_block_size fs) offset remaining);
    [lia|done|rewrite length_xcontent by done; lia| | |done|lia|].
  - intros s1 out Hs1 Hlt. apply xread_round_ok; (done || lia).
  - intros s1 out E. unfold xfs_read_round. by rewrite E, Z.ltb_irrefl.
  - right. unfold xblocks in *. assert (0 <= offset / xf_block_size fs) by (apply Z.div_pos; lia).
    assert ((offset + remaining + xf_block_size fs - 1) / xf_block_size fs <= (fsize + xf_block_size fs - 1) / xf_block_size fs)
      by (apply Z.div_le_mono; lia). lia.
Qed.
End Reading.

Section ReadFile.
Context (fault : nat -> option nat) (nofault : forall k, fault k = None) (fuel : nat).

Lemma format_byte inode v (s : xfs_st) : 6 <= Z.of_nat (length inode) -> slice inode 5 1 = [v] -> di_format inode s = Some (v, s).
Proof.
  intros Hl E. unfold di_format. rewrite ldbe_ok by lia. rewrite E. cbn. do 2 f_equal. lia.
Qed.

Lemma xfs_data_length fs s inode size data :
  xgeo fs -> dev_sectors_ok (vl_dev s) -> 0 <= size -> xfs_data fs s inode size data -> Z.of_nat (length data) = size.
Proof.
  intros Hg Hd Hs [_ Hl|exts _ _ _ _]; [apply slice_length; lia|].
  rewrite length_take. pose proof (length_xcontent fs Hg s exts (xblocks fs size) Hd). destruct (xblocks_spec fs Hg size Hs). lia.
Qed.

(** C21 (fs/xfs.c, [xfs_read] with [read_inode_raw], [xfs_resolve_extent] and
    [read_block]): with drives that answer, reading [size] bytes at [offset]
    of a file returns exactly its bytes in that range, cut at the end of the
    file, whether they lie in the inode or in the blocks that the packed
    extent records name; it takes at most a round per block and leaves the
    drives and the pools as they are. *)
Theorem xfs_read_correct fs s ni n data offset size :
  xgeo fs -> dev_sectors_ok (vl_dev s) -> xfile_ok fs s ni n data -> (xblocks fs (n_size n) < fuel)%nat ->
  0 <= offset < 9223372036854775808 -> 0 <= size < 4294967296 ->
  exists s', xfs_read fault fuel ni offset size s = Some (inr (slice data offset size), s') /\ same_vol s s'.
Proof.
  intros Hg Hd [Hn (fsi & Ep & Ef) Hi Hfs Hdata] Hfuel Ho Hsz.
  unfold xfs_read. erewrite bind_eq; [|unfold node_at; by rewrite Hn]. rewrite Ep. erewrite bind_eq; [|unfold fs_at; by rewrite Ef].
  rewrite Z.geb_leb, u64_id by (unfold in_u64; lia). pose proof (xfs_data_length fs s _ (n_size n) data Hg Hd ltac:(lia) Hdata) as Hl.
  destruct (Z.leb_spec (n_size n) offset) as [Hge|Hlt].
  { exists s. split; [|done]. unfold slice. by rewrite drop_ge, take_nil by lia. }
  destruct (xfs_read_inode_ok fault nofault fs Hg s (n_inode n) Hd Hi) as (s1 & E1 & Hs1 & Hli). rewrite (bind_eq _ _ _ _ _ E1). clear E1.
  set (inode := xinode fs s (n_inode n)) in *. rewrite (slice_cut data) by lia. rewrite Hl.
  replace (if offset + size >? n_size n then u32 (n_size n - offset) else size) with (Z.min size (n_size n - offset)).
  2:{ bcase; rewrite ?u32_id by (unfold in_u32; lia); lia. }
  set (rem := Z.min size (n_size n - offset)). assert (Hrem : 0 <= rem < 4294967296 /\ offset + rem <= n_size n) by (unfold rem; lia). clearbody rem.
  destruct (Z.eqb_spec rem 0) as [->|Hne]; [exists s1; by rewrite slice_0|]. pose proof (xi_size _ _ _ Hi) as Hisz.
  destruct Hdata as [Hf Hfit|exts Hf Hc Hrec Hmap].
  - rewrite (bind_eq _ _ _ _ _ (format_byte inode _ s1 ltac:(lia) Hf)). cbn [Z.eqb XFS_DINODE_FMT_LOCAL Pos.eqb].
    rewrite (bind_eq _ _ _ _ _ (ldn_ok inode (100 + offset) rem s1 ltac:(lia) ltac:(lia))). exists s1. split; [|done].
    by rewrite slice_slice by lia.
  - rewrite (bind_eq _ _ _ _ _ (format_byte inode _ s1 ltac:(lia) Hf)). cbn [Z.eqb XFS_DINODE_FMT_LOCAL XFS_DINODE_FMT_EXTENTS Pos.eqb negb].
    unfold di_nextents. rewrite (bind_eq _ _ _ _ _ (ldbe_ok 4 inode 76 s1 ltac:(lia) ltac:(lia))), Hc.
    destruct (xread_loop_ok fault nofault fuel fs Hg s inode exts (n_size n) Hd Hrec Hfs Hmap offset rem s1) as (s2 & E2 & Hs2); [done|lia|lia|lia|done|].
    change (loop fuel _ []) with (loop fuel (xfs_read_round fault fs inode (Z.of_nat (length exts)) offset rem) []).
    rewrite (bind_eq _ _ _ _ _ E2). exists s2. split; [|done].
    pose proof (length_xcontent fs Hg s exts (xblocks fs (n_size n)) Hd) as Hlc. destruct (xblocks_spec fs Hg (n_size n) ltac:(lia)) as [Hcov _].
    assert (Hout : Z.of_nat (length (slice (xcontent fs s exts (xblocks fs (n_size n))) offset rem)) = rem) by (apply slice_length; lia).
    destruct (Nat.eqb_spec (length (slice (xcontent fs s exts (xblocks fs (n_size n))) offset rem)) 0); [lia|].
    unfold mret, M_ret. do 3 f_equal. unfold slice. rewrite skipn_firstn_comm, take_take. f_equal. lia.
Qed.
End ReadFile.

(** ** A small volume

    Blocks of one sector, two inodes in a block, 200 blocks in an allocation
    group. Inode 2 is the root, a shortform directory with one entry; inode 3
    is a file of 700 bytes in two extents, the second in group 1. *)

Module XfsDemo.
Definition fault (k : nat) : option nat := None.
Lemma xfs_nofault k : fault k = None.
Proof. done. Qed.

Definition fs : xfs_fs_t := Xfs 0 DRIVE_TYPE_ATA 10 512 1 200 2 8 256 2 1 0 2.
Definition be (n : nat) (v : Z) : list Z := rev (le_bytes n v).
Definition core (mode format size nextents : Z) (literal : list Z) : list Z :=
  let i := splice (replicate 256 0) 0 ([0x49; 0x4e] ++ be 2 mode ++ [2; format]) in
  splice (splice (splice i 56 (be 8 size)) 76 (be 4 nextents)) 100 literal.
Definition root_inode : list Z := core 0x41ED 1 16 0 ([1; 0; 0; 0; 0; 2] ++ [2; 0; 0; 104; 105; 1; 0; 0; 0; 3]).
Definition exts : list xfs_extent_t := [Xext 0 5 1 0; Xext 1 260 4 0].
Definition file_inode : list Z := core 0x81A4 2 700 2 (concat (map encode_extent exts)).
Definition super : list Z :=
  let b := splice (replicate 512 0) 0 (be 4 XFS_SB_MAGIC ++ be 4 512) in
  let b := splice (splice b 56 (be 8 2)) 84 (be 4 200 ++ be 4 2) in
  splice (splice (splice b 100 (be 2 0xB4A4)) 104 (be 2 256 ++ be 2 2)) 123 [1; 8].
Definition put (b : Z) (buf : list Z) (m : gmap (driver * Z * Z) (list Z)) : gmap (driver * Z * Z) (list Z) :=
  put_sectors m DrvAta 0 (10 + b) 1 buf.
Definition sectors : gmap (driver * Z * Z) (list Z) :=
  put 0 super (put 1 (root_inode ++ file_inode) (put 5 (replicate 512 65) (put 204 (replicate 512 66) ∅))).
Definition root : vfs_node_t := Node [47] 6 0 2 OpsDir None (Some 0%nat).
Definition node : vfs_node_t := Node [104; 105] VFS_FILE 700 3 OpsFile (Some 0%nat) (Some 0%nat).
Definition state : xfs_st := Vol (Dev sectors 0) [fs] [root; node].

(** Mounting, listing and finding give these nodes. *)
Example xfs_mount_demo :
  option_map (fun r => (r.1, vl_fs r.2, vl_nodes r.2)) (xfs_mount fault DRIVE_TYPE_ATA 0 10 (Vol (Dev sectors 0) [] [])) =
    Some (inr 0%nat, [fs], [root]).
Proof. by vm_compute. Qed.
Example xfs_readdir_demo :
  option_map fst (xfs_readdir fault 5 0 0 state) = Some (Some (Dirent [104; 105] 700 VFS_FILE)) /\
  option_map fst (xfs_readdir fault 5 0 1 state) = Some None.
Proof. by vm_compute. Qed.
Example xfs_finddir_demo :
  option_map (fun r => (r.1, vl_nodes r.2)) (xfs_finddir fault 5 0 [104; 105] (Vol (Dev sectors 0) [fs] [root])) =
    Some (Some 1%nat, [root; node]).
Proof. by vm_compute. Qed.

(** A volume whose directory-block logarithm is 20 and a directory extent of
    2^20 blocks: the size of the directory block wraps to 0, passes both
    checks, and the transfer leaves [block_buf]. *)
Definition wrap_fs : xfs_fs_t := Xfs 0 DRIVE_TYPE_ATA 0 4096 8 200 2 8 256 16 4 20 16.
Definition wrap_inode : list Z := core 0x41ED 2 0 1 (encode_extent (Xext 0 5 1048576 0)).
Example xfs_dir_wrap_demo :
  u32 (Z.shiftl (xf_block_size wrap_fs) (xf_dirblklog wrap_fs)) = 0 /\
  xfs_load_dir fault (Node [47] 6 0 16 OpsDir None (Some 0%nat)) wrap_fs (Vol (Dev (put_sectors ∅ DrvAta 0 8 8 (wrap_inode ++ replicate 3840 0)) 0) [wrap_fs] []) = None.
Proof. by vm_compute. Qed.

Lemma put_ok b buf m :
  (forall k l, m !! k = Some l -> length l = 512%nat /\ bytes l) -> length buf = 512%nat -> bytes buf ->
  forall k l, put b buf m !! k = Some l -> length l = 512%nat /\ bytes l.
Proof. intros Hm Hl Hb. exact (put_dev_ok (Dev m 0) DrvAta 0 (10 + b) 1 buf Hm Hl Hb). Qed.

Lemma xfs_sectors_ok : dev_sectors_ok (vl_dev state).
Proof.
  unfold dev_sectors_ok. change (dv_sectors (vl_dev state)) with sectors. unfold sectors.
  repeat (apply put_ok; [|by vm_compute|apply bytes_dec_ok; by vm_compute]).
  intros k l H. by rewrite lookup_empty in H.
Qed.
End XfsDemo.

Lemma xfs_read_correct_witness :
  option_map fst (xfs_read XfsDemo.fault 5 1 510 5 XfsDemo.state) = Some (inr [65; 65; 66; 66; 66]).
Proof.
  destruct (xfs_read_correct XfsDemo.fault XfsDemo.xfs_nofault 5 XfsDemo.fs XfsDemo.state 1 XfsDemo.node
    (take (Z.to_nat (n_size XfsDemo.node)) (xcontent XfsDemo.fs XfsDemo.state XfsDemo.exts (xblocks XfsDemo.fs (n_size XfsDemo.node)))) 510 5) as (s' & E & _).
  - split; cbn; (done || lia).
  - apply XfsDemo.xfs_sectors_ok.
  - split; [done|by exists 0%nat| |by vm_compute|].
    + split; try by vm_compute.
    + apply (DataExtents XfsDemo.fs XfsDemo.state _ _ XfsDemo.exts); [by vm_compute..| |].
      * split; [repeat constructor; by vm_compute|by vm_compute|by vm_compute].
      * intros k. change (xblocks XfsDemo.fs (n_size XfsDemo.node)) with 2%nat. intros Hk.
        assert (k = 0 \/ k = 1)%nat as [-> | ->] by lia; eexists; (split; [reflexivity|by vm_compute]).
  - apply Nat.ltb_lt. by vm_compute.
  - done.
  - done.
  - rewrite E. by vm_compute.
Defined.
