(* ===== verification/Ntfs.v ===== *)
(** * The NTFS driver

    Models fs/ntfs.c over the block devices of Blk.v. The buffers ([mft_buf],
    [data_buf], [indx_buf]) are local values, the bytes the last transfer
    filled; a pointer into one is the rest of it from there. [None] is
    divergence, a division by zero, a shift by 32 or more, a signed overflow, a
    transfer larger than its buffer of 4096 bytes or than the caller's buffer,
    or an access behind the bytes that were transferred. *)

From S2P Require Import Prelude Blk Fat32 Vol.

Definition MAX_NTFS_FS : Z := 4.
Definition MAX_NTFS_NODES : Z := 128.
Definition NTFS_ATTR_DATA : Z := 0x80.
Definition NTFS_ATTR_INDEX_ROOT : Z := 0x90.
Definition NTFS_ATTR_INDEX_ALLOCATION : Z := 0xA0.
Definition NTFS_ATTR_END : Z := 0xFFFFFFFF.
Definition NTFS_FILE_ATTR_DIRECTORY : Z := 0x10000000.
Definition NTFS_MFT_ROOT_DIR : Z := 5.
Definition NTFS_NS_DOS : Z := 2.

Record ntfs_fs_t := Nfs {
  nf_drive : Z;
  nf_drive_type : Z;
  nf_part_lba : Z;
  nf_sectors_per_cluster : Z;
  nf_cluster_size : Z;
  nf_mft_lba : Z;
  nf_mft_record_size : Z;
  nf_mft_sectors : Z;
  nf_index_record_size : Z;
}.
Definition nfs0 : ntfs_fs_t := Nfs 0 0 0 0 0 0 0 0 0.
Definition ntfs_st : Type := vol_st ntfs_fs_t.

(** A store into a buffer. *)
Definition stn (b : list Z) (off : Z) (l : list Z) : M ntfs_st (list Z) :=
  if (0 <=? off) && (off + Z.of_nat (length l) <=? Z.of_nat (length b)) then mret (splice b off l) else diverge.

(** ** Names *)

(** The characters of [len] UTF-16 units, at most [max - 1] of them. *)
Fixpoint ascii_from (n : nat) (src : list Z) (i : Z) : M ntfs_st (list Z) :=
  match n with
  | O => mret []
  | S n => u ← ldw 2 src (2 * i); rest ← ascii_from n src (i + 1); mret ((if u <? 0x80 then u else 63) :: rest)
  end.
Definition utf16_to_ascii (src : list Z) (len max : Z) : M ntfs_st (list Z) := ascii_from (Z.to_nat (Z.min len (max - 1))) src 0.

(** Two strings, without their terminators. *)
Definition to_upper (c : Z) : Z := if (c >=? 97) && (c <=? 122) then c - 32 else c.
Fixpoint ntfs_strcasecmp (a b : list Z) : Z :=
  match a, b with
  | ca :: a, cb :: b => if to_upper ca =? to_upper cb then ntfs_strcasecmp a b else s8 (to_upper ca) - s8 (to_upper cb)
  | _, _ => get8 a 0 - get8 b 0
  end.

(** The fields of [ntfs_filename_attr_t]. *)
Definition fn_real_size (fn : list Z) : M ntfs_st Z := ldw 8 fn 48.
Definition fn_flags (fn : list Z) : M ntfs_st Z := ldw 4 fn 56.
Definition fn_name (fn : list Z) : M ntfs_st (list Z) :=
  len ← ldw 1 fn 64; utf16_to_ascii (drop 66 fn) len MAX_FILENAME.

Section Ntfs.
Context (fault : nat -> option nat).
(** Rounds allowed to the loops over attributes, runs, clusters and entries. *)
Context (fuel : nat).

Definition alloc_node : M ntfs_st (option nat) := pool_node MAX_NTFS_NODES.
Definition alloc_fs : M ntfs_st (option nat) := pool_fs nfs0 MAX_NTFS_FS.

(** ** Records *)

(** Sectors [i], ..., [n] of them; the result and the record as it was left. *)
Fixpoint fixup_from (n : nat) (record : list Z) (fixup_offset usn i : Z) : M ntfs_st (Z * list Z) :=
  match n with
  | O => mret (0, record)
  | S n =>
    sector_end ← ldw 2 record (i * 512 - 2);
    if negb (sector_end =? usn) then mret (-1, record)
    else
      v ← ldn record (fixup_offset + 2 * i) 2;
      record ← stn record (i * 512 - 2) v;
      fixup_from n record fixup_offset usn (i + 1)
  end.
Definition apply_fixup (record : list Z) (fixup_offset fixup_count record_size : Z) : M ntfs_st (Z * list Z) :=
  usn ← ldw 2 record fixup_offset;
  let sectors := record_size / 512 in
  if fixup_count <? 2 then mret (0, record)
  else fixup_from (Z.to_nat (Z.min (fixup_count - 1) sectors)) record fixup_offset usn 1.

(** [mft_buf], or the negative result. *)
Definition read_mft_record (fs : ntfs_fs_t) (record_num : Z) : M ntfs_st (Z + list Z) :=
  let lba := u64 (nf_mft_lba fs + u64 (record_num * nf_mft_sectors fs)) in
  require (u8 (nf_mft_sectors fs) * 512 <=? 4096);;
  r ← blk_read fault (nf_drive_type fs) (nf_drive fs) lba (u8 (nf_mft_sectors fs));
  match r with
  | None => mret (inl (-1))
  | Some buf =>
    sig ← ldn buf 0 4;
    if negb (bool_decide (sig = [70; 73; 76; 69])) then mret (inl (-2))
    else
      fixup_offset ← ldw 2 buf 4;
      fixup_count ← ldw 2 buf 6;
      '(rc, buf) ← apply_fixup buf fixup_offset fixup_count (nf_mft_record_size fs);
      mret (if rc =? 0 then inr buf else inl rc)
  end.

(** The record from the attribute on. *)
Definition find_attr (record : list Z) (type : Z) : M ntfs_st (option (list Z)) :=
  off ← ldw 2 record 20;
  used_size ← ldw 4 record 24;
  loop fuel (fun off =>
    if off + 16 <=? used_size then
      ty ← ldw 4 record off;
      if ty =? NTFS_ATTR_END then mret (inr None)
      else
        length ← ldw 4 record (off + 4);
        if length =? 0 then mret (inr None)
        else if ty =? type then mret (inr (Some (drop (Z.to_nat off) record)))
        else mret (inl (u32 (off + length)))
    else mret (inr None)) off.

(** ** Data runs *)

(** [v |= b << (i * 8)] over the bytes. *)
Fixpoint or_bytes (l : list Z) (i v : Z) : Z :=
  match l with [] => v | b :: l => or_bytes l (i + 1) (Z.lor v (u32 (Z.shiftl b (i * 8)))) end.
Fixpoint sign_extend (n : nat) (i v : Z) : Z :=
  match n with O => v | S n => sign_extend n (i + 1) (Z.lor v (u32 (Z.shiftl 0xFF (i * 8)))) end.

(** The bytes consumed, the length and the offset; [None] is the end. *)
Definition parse_run (run : list Z) : M ntfs_st (option (Z * Z * Z)) :=
  header ← ldw 1 run 0;
  if header =? 0 then mret None
  else
    let len_sz := Z.land header 0x0F in
    let off_sz := Z.land (Z.shiftr header 4) 0x0F in
    if (len_sz =? 0) || (len_sz >? 4) then mret None
    else if off_sz >? 4 then mret None
    else
      len ← ldn run 1 len_sz;
      off ← ldn run (1 + len_sz) off_sz;
      last ← ldw 1 run (len_sz + off_sz);
      let offset := or_bytes off 0 0 in
      let offset := if (off_sz >? 0) && negb (Z.land last 0x80 =? 0) then sign_extend (Z.to_nat (4 - off_sz)) off_sz offset else offset in
      mret (Some (1 + len_sz + off_sz, or_bytes len 0 0, s32 offset)).

(** A round of the loop over the clusters of a run: [remaining] bytes are
    left from [run_byte_off] on, [cap] bytes fit the buffer. *)
Definition copy_cluster (fs : ntfs_fs_t) (cap lcn : Z) (a : list Z * Z * Z) : M ntfs_st (list Z * Z * Z + option (list Z)) :=
  let '(out, remaining, run_byte_off) := a in
  if remaining >? 0 then
    require (negb (nf_cluster_size fs =? 0));;
    let clust_idx := run_byte_off / nf_cluster_size fs in
    let within_clust := run_byte_off mod nf_cluster_size fs in
    let lba := u64 (nf_part_lba fs + u64 (u32 (lcn + clust_idx) * nf_sectors_per_cluster fs)) in
    require (u8 (nf_sectors_per_cluster fs) * 512 <=? 4096);;
    r ← blk_read fault (nf_drive_type fs) (nf_drive fs) lba (u8 (nf_sectors_per_cluster fs));
    match r with
    | None => mret (inr None)
    | Some data_buf =>
      let chunk := nf_cluster_size fs - within_clust in
      let chunk := if chunk >? remaining then remaining else chunk in
      require (Z.of_nat (length out) + chunk <=? cap);;
      l ← ldn data_buf within_clust chunk;
      mret (inl (out ++ l, u32 (remaining - chunk), u32 (run_byte_off + chunk)))
    end
  else mret (inr (Some out)).
Definition copy_run (fs : ntfs_fs_t) (cap lcn : Z) (out : list Z) (remaining run_byte_off : Z) : M ntfs_st (option (list Z)) :=
  loop fuel (copy_cluster fs cap lcn) (out, remaining, run_byte_off).

(** A round of the loop over the runs. *)
Definition read_run (fs : ntfs_fs_t) (offset size cap : Z) (a : list Z * list Z * Z * Z) : M ntfs_st (list Z * list Z * Z * Z + (Z + list Z)) :=
  let '(runs, out, prev_lcn, vcn_pos) := a in
  if Z.of_nat (length out) <? size then
    r ← parse_run runs;
    match r with
    | None => mret (inr (inr out))
    | Some (consumed, run_len, run_off) =>
      let lcn := prev_lcn + run_off in
      require ((-2147483648 <=? lcn) && (lcn <? 2147483648));;
      let run_bytes := u32 (run_len * nf_cluster_size fs) in
      let run_end := u32 (vcn_pos + run_bytes) in
      let read_end := u32 (offset + size) in
      o ← (if (run_end >? offset) && (vcn_pos <? read_end) then
             let copy_start := if offset >? vcn_pos then offset else vcn_pos in
             let copy_end := if read_end <? run_end then read_end else run_end in
             copy_run fs cap lcn out (u32 (copy_end - copy_start)) (u32 (copy_start - vcn_pos))
           else mret (Some out));
      match o with
      | None => mret (inr (inl (-1)))
      | Some out => mret (inl (drop (Z.to_nat consumed) runs, out, lcn, run_end))
      end
    end
  else mret (inr (inr out)).

(** The attribute [attr] from its header on; the bytes read, or -1. *)
Definition read_nonresident (fs : ntfs_fs_t) (attr : list Z) (offset size cap : Z) : M ntfs_st (Z + list Z) :=
  data_runs_offset ← ldw 2 attr 32;
  loop fuel (read_run fs offset size cap) (drop (Z.to_nat data_runs_offset) attr, [], 0, 0).

(** ** Directories *)

(** The entries of an index node: the reference and the name attribute of the
    match, or the counter. *)
Definition walk_index_entries (base : list Z) (counter target_index : Z) (search_name : option (list Z)) : M ntfs_st (Z + Z * list Z) :=
  off ← ldw 4 base 0;
  end_ ← ldw 4 base 4;
  loop fuel (fun '(off, counter) =>
    if off + 16 <=? end_ then
      mft_reference ← ldw 8 base off;
      entry_length ← ldw 2 base (off + 8);
      content_length ← ldw 2 base (off + 10);
      flags ← ldw 4 base (off + 12);
      if negb (Z.land flags 0x02 =? 0) then mret (inr (inl counter))
      else if entry_length =? 0 then mret (inr (inl counter))
      else
        let next := u32 (off + entry_length) in
        if content_length >=? 66 then
          let fn := drop (Z.to_nat (off + 16)) base in
          namespace ← ldw 1 fn 65;
          if negb (namespace =? NTFS_NS_DOS) then
            ascii ← fn_name fn;
            let ascii_name := cstr ascii in
            let hit := inr (inr (Z.land mft_reference 0x0000FFFFFFFFFFFF, fn)) in
            if negb (get8 ascii_name 0 =? 0) && negb (get8 ascii_name 0 =? 36) then
              match search_name with
              | Some name => mret (if ntfs_strcasecmp ascii_name name =? 0 then hit else inl (next, counter))
              | None => mret (if counter =? target_index then hit else inl (next, s32 (counter + 1)))
              end
            else mret (inl (next, counter))
          else mret (inl (next, counter))
        else mret (inl (next, counter))
    else mret (inr (inl counter))) (off, counter).

(** The INDX records from [off] on. *)
Definition walk_allocation (fs : ntfs_fs_t) (attr : list Z) (rec_size total counter target_index : Z) (search_name : option (list Z))
    : M ntfs_st (option (Z * list Z)) :=
  loop fuel (fun '(off, counter) =>
    let next := u32 (off + rec_size) in
    if next <=? total then
      r ← read_nonresident fs attr off rec_size 4096;
      match r with
      | inl _ => mret (inl (next, counter))
      | inr indx_buf =>
        if Z.of_nat (length indx_buf) <? rec_size then mret (inl (next, counter))
        else
          sig ← ldn indx_buf 0 4;
          if negb (bool_decide (sig = [73; 78; 68; 88])) then mret (inl (next, counter))
          else
            fixup_off ← ldw 2 indx_buf 4;
            fixup_cnt ← ldw 2 indx_buf 6;
            '(_, indx_buf) ← apply_fixup indx_buf fixup_off fixup_cnt rec_size;
            w ← walk_index_entries (drop 24 indx_buf) counter target_index search_name;
            mret (match w with inl counter => inl (next, counter) | inr hit => inr (Some hit) end)
      end
    else mret (inr None)) (0, counter).

Definition ntfs_dir_lookup (fs : ntfs_fs_t) (dir_mft target_index : Z) (search_name : option (list Z)) : M ntfs_st (option (Z * list Z)) :=
  r ← read_mft_record fs dir_mft;
  match r with
  | inl _ => mret None
  | inr mft_buf =>
    ir_attr ← find_attr mft_buf NTFS_ATTR_INDEX_ROOT;
    match ir_attr with
    | None => mret None
    | Some ir_attr =>
      value_offset ← ldw 2 ir_attr 20;
      w ← walk_index_entries (drop (Z.to_nat (value_offset + 16)) ir_attr) 0 target_index search_name;
      match w with
      | inr hit => mret (Some hit)
      | inl counter =>
        ia_attr ← find_attr mft_buf NTFS_ATTR_INDEX_ALLOCATION;
        match ia_attr with
        | None => mret None
        | Some ia_attr =>
          non_resident ← ldw 1 ia_attr 8;
          if non_resident =? 0 then mret None
          else
            real_size ← ldw 8 ia_attr 48;
            let rec_size := if nf_index_record_size fs =? 0 then 4096 else nf_index_record_size fs in
            walk_allocation fs ia_attr rec_size (u32 real_size) counter target_index search_name
        end
      end
    end
  end.

Definition is_dir (flags : Z) : bool := negb (Z.land flags NTFS_FILE_ATTR_DIRECTORY =? 0).

Definition ntfs_readdir (node : nat) (index : Z) : M ntfs_st (option dirent_t) :=
  n ← node_at node;
  match n_private n with
  | None => mret None
  | Some fsi =>
    fs ← fs_at fsi;
    o ← ntfs_dir_lookup fs (n_inode n) (s32 index) None;
    match o with
    | None => mret None
    | Some (_, fn) =>
      name ← fn_name fn;
      size ← fn_real_size fn;
      flags ← fn_flags fn;
      mret (Some (Dirent name (u32 size) (if is_dir flags then VFS_DIRECTORY else VFS_FILE)))
    end
  end.

Definition ntfs_finddir (node : nat) (name : list Z) : M ntfs_st (option nat) :=
  n ← node_at node;
  match n_private n with
  | None => mret None
  | Some fsi =>
    fs ← fs_at fsi;
    o ← ntfs_dir_lookup fs (n_inode n) (-1) (Some name);
    match o with
    | None => mret None
    | Some (match_mft, fn) =>
      o ← alloc_node;
      match o with
      | None => mret None
      | Some found =>
        name ← fn_name fn;
        size ← fn_real_size fn;
        flags ← fn_flags fn;
        set_node_at found (Node name (if is_dir flags then VFS_DIRECTORY else VFS_FILE) (u32 size) (u32 match_mft)
          (if is_dir flags then OpsDir else OpsFile) (Some node) (Some fsi));;
        mret (Some found)
      end
    end
  end.

(** ** Reading *)

Definition ntfs_read (node : nat) (offset size : Z) : M ntfs_st (Z + list Z) :=
  n ← node_at node;
  match n_private n with
  | None => mret (inl (-1))
  | Some fsi =>
    fs ← fs_at fsi;
    r ← read_mft_record fs (n_inode n);
    match r with
    | inl _ => mret (inl (-1))
    | inr mft_buf =>
      data_attr ← find_attr mft_buf NTFS_ATTR_DATA;
      match data_attr with
      | None => mret (inl (-1))
      | Some attr =>
        non_resident ← ldw 1 attr 8;
        if non_resident =? 0 then
          data_len ← ldw 4 attr 16;
          value_offset ← ldw 2 attr 20;
          if offset >=? data_len then mret (inr [])
          else
            let size := if u64 (offset + size) >? data_len then u32 (data_len - offset) else size in
            l ← ldn attr (value_offset + offset) size;
            mret (inr l)
        else
          real_size ← ldw 8 attr 48;
          let file_size := u32 real_size in
          if offset >=? file_size then mret (inr [])
          else
            let size := if u64 (offset + size) >? file_size then u32 (file_size - offset) else size in
            read_nonresident fs attr offset size size
      end
    end
  end.

(** ** Mounting *)

(** The size in bytes that [clusters_per_..._record] means. *)
Definition record_size (clusters cluster_size : Z) : M ntfs_st Z :=
  if clusters <? 0 then require (- clusters <? 32);; mret (Z.shiftl 1 (- clusters)) else mret (u32 (clusters * cluster_size)).

(** The negative code, or the root node. *)
Definition ntfs_mount (drive_type drive part_lba : Z) : M ntfs_st (Z + nat) :=
  r ← blk_read fault drive_type drive part_lba 1;
  match r with
  | None => mret (inl (-1))
  | Some boot =>
    if negb (bool_decide (slice boot 3 4 = [78; 84; 70; 83])) then mret (inl (-2))
    else if negb (get16 boot 11 =? 512) then mret (inl (-3))
    else
      o ← alloc_fs;
      match o with
      | None => mret (inl (-4))
      | Some fsi =>
        let spc := get8 boot 13 in
        let cluster_size := spc * 512 in
        mft_record_size ← record_size (s8 (get8 boot 64)) cluster_size;
        let mft_sectors := mft_record_size / 512 in
        let mft_sectors := if mft_sectors =? 0 then 2 else mft_sectors in
        index_size ← record_size (s8 (get8 boot 68)) cluster_size;
        let index_size := if index_size =? 0 then 4096 else index_size in
        let mft_lba := u64 (part_lba + u64 (get64 boot 48 * spc)) in
        let fs := Nfs drive drive_type part_lba spc cluster_size mft_lba mft_record_size mft_sectors index_size in
        set_fs_at fsi fs;;
        r ← read_mft_record fs 0;
        match r with
        | inl _ => mret (inl (-5))
        | inr _ =>
          o ← alloc_node;
          match o with
          | None => mret (inl (-6))
          | Some root =>
            set_node_at root (Node [47] (Z.lor VFS_DIRECTORY VFS_MOUNTPOINT) 0 NTFS_MFT_ROOT_DIR OpsDir None (Some fsi));;
            mret (inr root)
          end
        end
      end
  end.
End Ntfs.
