(* ===== verification/NtfsProofs.v ===== *)
(** * The NTFS driver: data runs, records and files

    The packed data runs parse to what was packed, the update sequence array
    restores a record, and with drives that answer [ntfs_read] returns the
    bytes of the clusters the runs of a file name. *)

From S2P Require Import Prelude Blk BlkProofs Fat32 Vol Ntfs.

(** ** Data runs *)

(** A run: the sizes of its two fields, its length and the distance of its
    first cluster from that of the run before it. *)
Record drun := Run { r_lsz : nat; r_osz : nat; r_len : Z; r_off : Z }.
Record run_wf (r : drun) : Prop := {
  rw_lsz : (1 <= r_lsz r <= 4)%nat;
  rw_osz : (1 <= r_osz r <= 4)%nat;
  rw_len : 1 <= r_len r < 256 ^ Z.of_nat (r_lsz r);
  rw_off : - 256 ^ Z.of_nat (r_osz r) <= 2 * r_off r < 256 ^ Z.of_nat (r_osz r);
}.
Definition run_bytes (r : drun) : Z := 1 + Z.of_nat (r_lsz r) + Z.of_nat (r_osz r).
Definition encode_run (r : drun) : list Z :=
  (Z.of_nat (r_lsz r) + 16 * Z.of_nat (r_osz r)) :: le_bytes (r_lsz r) (r_len r) ++ le_bytes (r_osz r) (r_off r).

Lemma length_encode_run r : Z.of_nat (length (encode_run r)) = run_bytes r.
Proof. unfold encode_run, run_bytes. cbn [length]. rewrite length_app, !length_le_bytes. lia. Qed.

Lemma or_bytes_val l i v : bytes l -> 0 <= i -> i + Z.of_nat (length l) <= 4 -> 0 <= v < 2 ^ (8 * i) ->
  or_bytes l i v = v + 2 ^ (8 * i) * le_val l.
Proof.
  intros Hl. revert i v. induction Hl as [|b l Hb Hl IH]; intros i v Hi H4 Hv; cbn [or_bytes le_val length] in *; [lia|].
  unfold in_u8 in Hb. assert (Hp : 0 < 2 ^ (8 * i)) by lia. assert (Hle : 2 ^ (8 * i) <= 2 ^ 24) by (apply Z.pow_le_mono_r; lia).
  replace (i * 8) with (8 * i) by lia. rewrite u32_id by (rewrite Z.shiftl_mul_pow2 by lia; unfold in_u32; change (2 ^ 24) with 16777216 in Hle; nia).
  rewrite Z.lor_comm, lor_shiftl_add by lia.
  assert (E : 2 ^ (8 * (i + 1)) = 256 * 2 ^ (8 * i)) by (replace (8 * (i + 1)) with (8 + 8 * i) by lia; rewrite Z.pow_add_r by lia; done).
  rewrite IH by (rewrite ?E; nia || lia). rewrite E. lia.
Qed.

Lemma or_bytes_le l : bytes l -> (length l <= 4)%nat -> or_bytes l 0 0 = le_val l.
Proof. intros Hl H4. rewrite or_bytes_val by (done || lia). cbn [Z.mul]. change (2 ^ 0) with 1. lia. Qed.

Lemma sign_extend_val n i v : 0 <= i -> i + Z.of_nat n = 4 -> 0 <= v < 256 ^ i -> sign_extend n i v = v + (256 ^ 4 - 256 ^ i).
Proof.
  revert i v. induction n as [|n IH]; intros i v Hi H4 Hv; cbn [sign_extend]; [replace i with 4 by lia; lia|].
  assert (Hp : 0 < 256 ^ i) by lia. assert (Hle : 256 ^ i <= 256 ^ 3) by (apply Z.pow_le_mono_r; lia). change (256 ^ 3) with 16777216 in Hle.
  assert (E2 : 2 ^ (i * 8) = 256 ^ i) by (replace (i * 8) with (8 * i) by lia; rewrite Z.pow_mul_r by lia; done).
  rewrite u32_id by (rewrite Z.shiftl_mul_pow2, E2 by lia; unfold in_u32; nia).
  rewrite Z.lor_comm, lor_shiftl_add, E2 by (rewrite ?E2; lia). assert (E : 256 ^ (i + 1) = 256 * 256 ^ i) by (rewrite Z.pow_add_r by lia; lia).
  rewrite IH by (rewrite ?E; nia || lia). rewrite E. lia.
Qed.

(** The last byte of the two's complement tells the sign. *)
Lemma top_bit n v : (1 <= n)%nat -> - 256 ^ Z.of_nat n <= 2 * v < 256 ^ Z.of_nat n ->
  Z.land (get8 (le_bytes n v) (Z.of_nat n - 1)) 0x80 = if v <? 0 then 0x80 else 0.
Proof.
  intros Hn. revert v. induction n as [|[|n] IH]; intros v Hv; [lia| |].
  - cbn [le_bytes]. change (get8 [v mod 256] (Z.of_nat 1 - 1)) with (v mod 256). change (256 ^ Z.of_nat 1) with 256 in Hv.
    assert (E : forallb (fun b => Z.land b 128 =? if b <? 128 then 0 else 128) (map Z.of_nat (seq 0 256)) = true) by (by vm_compute).
    pose proof (byte_forall _ E (v mod 256) (Z.mod_pos_bound v 256 ltac:(lia))) as Hb. cbv beta in Hb. apply Z.eqb_eq in Hb. rewrite Hb.
    destruct (Z.ltb_spec v 0), (Z.ltb_spec (v mod 256) 128); zlia.
  - change (le_bytes (S (S n)) v) with (v mod 256 :: le_bytes (S n) (v / 256)). specialize (IH ltac:(lia) (v / 256)).
    rewrite (Nat2Z.inj_succ (S n)) in *. rewrite Z.pow_succ_r in Hv by lia.
    assert (Eg : forall x l, get8 (x :: l) (Z.succ (Z.of_nat (S n)) - 1) = get8 l (Z.of_nat (S n) - 1)).
    { intros x l. unfold get8. replace (Z.to_nat (Z.succ (Z.of_nat (S n)) - 1)) with (S (Z.to_nat (Z.of_nat (S n) - 1))) by lia. done. }
    assert (Hp : 256 ^ Z.of_nat (S n) = 256 * 256 ^ Z.of_nat n) by (rewrite Nat2Z.inj_succ, Z.pow_succ_r by lia; done).
    rewrite Eg, IH by (rewrite Hp in *; zlia). destruct (Z.ltb_spec (v / 256) 0), (Z.ltb_spec v 0); zlia.
Qed.

Lemma le_val_slice1 b off : le_val (slice b off 1) = get8 b off.
Proof.
  unfold slice, get8. change (Z.to_nat 1) with 1%nat. pose proof (lookup_drop b (Z.to_nat off) 0) as E. rewrite Nat.add_0_r in E. rewrite <- E.
  destruct (drop (Z.to_nat off) b) as [|x l]; [done|]. change (x + 256 * 0 = x). lia.
Qed.

Lemma parse_encode r rest (s : ntfs_st) : run_wf r ->
  parse_run (encode_run r ++ rest) s = Some (Some (run_bytes r, r_len r, r_off r), s).
Proof.
  intros [Hl Ho Hlen Hoff]. destruct r as [a b len off]; cbn [r_lsz r_osz r_len r_off] in *.
  pose proof (length_encode_run (Run a b len off)) as Hle. unfold run_bytes in *. cbn [r_lsz r_osz r_len r_off] in *.
  unfold parse_run. assert (Ht : Z.of_nat (length (encode_run (Run a b len off) ++ rest)) >= 1 + Z.of_nat a + Z.of_nat b) by (rewrite length_app; lia).
  set (e := encode_run (Run a b len off) ++ rest) in *.
  assert (E0 : forall x l, slice (x :: l) 0 1 = [x]) by done.
  rewrite (bind_eq _ _ _ _ _ (ldw_ok 1 e 0 s ltac:(lia) ltac:(lia))).
  assert (Eh : le_val (slice e 0 1) = Z.of_nat a + 16 * Z.of_nat b) by (unfold e, encode_run; cbn [app]; rewrite E0; cbn; lia). rewrite Eh.
  assert (Hh : Z.land (Z.of_nat a + 16 * Z.of_nat b) 15 = Z.of_nat a /\ Z.land (Z.shiftr (Z.of_nat a + 16 * Z.of_nat b) 4) 15 = Z.of_nat b).
  { change 15 with (2 ^ 4 - 1). rewrite !land_ones_mod, Z.shiftr_div_pow2 by lia. change (2 ^ 4) with 16. zlia. }
  destruct Hh as [-> ->]. destruct (Z.eqb_spec (Z.of_nat a + 16 * Z.of_nat b) 0); [lia|].
  destruct (Z.eqb_spec (Z.of_nat a) 0); [lia|]. cbn [orb]. rewrite !Z.gtb_ltb.
  destruct (Z.ltb_spec 4 (Z.of_nat a)); [lia|]. destruct (Z.ltb_spec 4 (Z.of_nat b)); [lia|].
  rewrite (bind_eq _ _ _ _ _ (ldn_ok e 1 (Z.of_nat a) s ltac:(lia) ltac:(lia))).
  rewrite (bind_eq _ _ _ _ _ (ldn_ok e (1 + Z.of_nat a) (Z.of_nat b) s ltac:(lia) ltac:(lia))).
  rewrite (bind_eq _ _ _ _ _ (ldw_ok 1 e (Z.of_nat a + Z.of_nat b) s ltac:(lia) ltac:(lia))).
  assert (Ee : e = [Z.of_nat a + 16 * Z.of_nat b] ++ le_bytes a len ++ le_bytes b off ++ rest).
  { unfold e, encode_run. cbn [app r_lsz r_osz r_len r_off]. by rewrite <- app_assoc. }
  assert (El : slice e 1 (Z.of_nat a) = le_bytes a len).
  { rewrite Ee, slice_app_r, slice_app_l by (rewrite ?length_le_bytes; cbn [length]; lia). cbn [length]. change (1 - Z.of_nat 1) with 0.
    replace (Z.of_nat a) with (Z.of_nat (length (le_bytes a len))) by (by rewrite length_le_bytes). apply slice_all. }
  assert (Eo : slice e (1 + Z.of_nat a) (Z.of_nat b) = le_bytes b off).
  { rewrite Ee, slice_app_r, slice_app_r, slice_app_l by (rewrite ?length_le_bytes; cbn [length]; lia). rewrite length_le_bytes. cbn [length].
    replace (1 + Z.of_nat a - Z.of_nat 1 - Z.of_nat a) with 0 by lia.
    replace (Z.of_nat b) with (Z.of_nat (length (le_bytes b off))) by (by rewrite length_le_bytes). apply slice_all. }
  assert (Elast : le_val (slice e (Z.of_nat a + Z.of_nat b) 1) = get8 (le_bytes b off) (Z.of_nat b - 1)).
  { rewrite <- Eo, le_val_slice1. unfold get8. rewrite lookup_slice by lia. do 2 f_equal. lia. }
  rewrite El, Eo, Elast, top_bit by (done || lia).
  rewrite !or_bytes_le by (rewrite ?length_le_bytes; auto using le_bytes_bytes; lia).
  rewrite !le_val_bytes. rewrite (Z.mod_small len) by lia. destruct (Z.ltb_spec 0 (Z.of_nat b)); [|lia]. cbn [andb].
  assert (Hb4 : 256 ^ Z.of_nat b <= 256 ^ 4) by (apply Z.pow_le_mono_r; lia). change (256 ^ 4) with 4294967296 in Hb4.
  unfold mret, M_ret. do 4 f_equal. destruct (Z.ltb_spec off 0); cbn [negb Z.eqb Pos.eqb].
  - rewrite sign_extend_val by (try apply Z.mod_pos_bound; lia). change (256 ^ 4) with 4294967296.
    assert (E : off mod 256 ^ Z.of_nat b = off + 256 ^ Z.of_nat b) by (symmetry; apply (Z.mod_unique_pos _ _ (-1)); lia).
    rewrite E. word_unfold. zlia.
  - rewrite Z.mod_small by lia. word_unfold. zlia.
Qed.

(** ** Clusters *)

(** The geometry of a volume whose clusters fit the buffer. *)
Record ngeo (fs : ntfs_fs_t) : Prop := {
  ng_drive : 0 <= nf_drive fs < 256;
  ng_spc : 1 <= nf_sectors_per_cluster fs <= 8;
  ng_cs : nf_cluster_size fs = nf_sectors_per_cluster fs * 512;
  ng_lba : 0 <= nf_part_lba fs;
}.

Definition cluster (fs : ntfs_fs_t) (s : ntfs_st) (lcn : Z) : list Z :=
  sectors_at (vl_dev s) (blk_driver (nf_drive_type fs)) (nf_drive fs) (nf_part_lba fs + lcn * nf_sectors_per_cluster fs)
    (Z.to_nat (nf_sectors_per_cluster fs)).

(** The clusters of the runs, the run before the first of which starts at
    [prev], and their bytes. *)
Definition run_lcns (lcn len : Z) : list Z := map (fun k => lcn + Z.of_nat k) (seq 0 (Z.to_nat len)).
Fixpoint lcns (prev : Z) (runs : list drun) : list Z :=
  match runs with [] => [] | r :: runs => run_lcns (prev + r_off r) (r_len r) ++ lcns (prev + r_off r) runs end.
Definition clusters (fs : ntfs_fs_t) (s : ntfs_st) (l : list Z) : list Z := concat (map (cluster fs s) l).

(** Every run is well formed and its clusters have sector addresses. *)
Fixpoint runs_ok (fs : ntfs_fs_t) (prev : Z) (runs : list drun) : Prop :=
  match runs with
  | [] => True
  | r :: runs =>
    run_wf r /\ 0 <= prev + r_off r /\ prev + r_off r + r_len r <= 2147483648 /\
    nf_part_lba fs + (prev + r_off r + r_len r) * nf_sectors_per_cluster fs <= 18446744073709551616 /\ runs_ok fs (prev + r_off r) runs
  end.

Section Clusters.
Context (fault : nat -> option nat) (nofault : forall k, fault k = None) (fuel : nat).
Context (fs : ntfs_fs_t) (Hg : ngeo fs).
Implicit Types s : ntfs_st.

Lemma length_cluster s l : dev_sectors_ok (vl_dev s) -> Z.of_nat (length (cluster fs s l)) = nf_cluster_size fs.
Proof. intros Hd. unfold cluster. rewrite length_sectors_at, (ng_cs _ Hg) by done. pose proof (ng_spc _ Hg). lia. Qed.
Lemma length_clusters s l : dev_sectors_ok (vl_dev s) -> Z.of_nat (length (clusters fs s l)) = Z.of_nat (length l) * nf_cluster_size fs.
Proof.
  intros Hd. unfold clusters. induction l as [|x l IH]; cbn [map concat length]; [lia|]. rewrite length_app, Nat2Z.inj_add, length_cluster, IH by done. lia.
Qed.
Lemma same_cluster s s' l : same_vol s s' -> cluster fs s' l = cluster fs s l.
Proof. apply same_vol_sectors. Qed.
Lemma length_run_lcns lcn len : 0 <= len -> Z.of_nat (length (run_lcns lcn len)) = len.
Proof. intros. unfold run_lcns. rewrite length_map, length_seq. lia. Qed.

(** Part of one cluster of a run. *)
Lemma slice_run s lcn len k off m :
  dev_sectors_ok (vl_dev s) -> 0 <= k < len -> 0 <= off -> 0 <= m -> off + m <= nf_cluster_size fs ->
  slice (clusters fs s (run_lcns lcn len)) (k * nf_cluster_size fs + off) m = slice (cluster fs s (lcn + k)) off m.
Proof.
  intros Hd Hk Ho Hm Hend. unfold clusters, run_lcns. rewrite map_map.
  pose proof (ng_cs _ Hg). pose proof (ng_spc _ Hg). rewrite <- (Z2Nat.id k) by lia.
  apply (slice_pieces (fun k => cluster fs s (lcn + Z.of_nat k)) (nf_cluster_size fs)); [lia|intros; by apply length_cluster|lia..].
Qed.

(** What copying [remaining] bytes at [off] of a run asks for. *)
Record copy_ok (cap lcn len remaining off : Z) (out : list Z) : Prop := {
  cp_lcn : 0 <= lcn /\ lcn + len <= 2147483648;
  cp_lba : nf_part_lba fs + (lcn + len) * nf_sectors_per_cluster fs <= 18446744073709551616;
  cp_range : 0 <= off /\ 0 <= remaining /\ off + remaining <= len * nf_cluster_size fs /\ off + remaining < 4294967296;
  cp_cap : Z.of_nat (length out) + remaining <= cap;
}.
(** The state of the loop when the bytes [l] were copied. *)
Definition copied (out : list Z) (remaining off : Z) (l : list Z) : list Z * Z * Z :=
  (out ++ l, u32 (remaining - Z.of_nat (length l)), u32 (off + Z.of_nat (length l))).

Lemma copy_cluster_ok s0 s cap lcn len out remaining off l :
  dev_sectors_ok (vl_dev s0) -> copy_ok cap lcn len remaining off out -> same_vol s0 s -> Z.of_nat (length l) < remaining ->
  let cur := off + Z.of_nat (length l) in
  let chunk := Z.min (nf_cluster_size fs - cur mod nf_cluster_size fs) (remaining - Z.of_nat (length l)) in
  exists s', copy_cluster fault fs cap lcn (copied out remaining off l) s =
      Some (inl (copied out remaining off (l ++ slice (clusters fs s0 (run_lcns lcn len)) cur chunk)), s') /\ same_vol s0 s'.
Proof.
  intros Hd [[Hlcn H31] H64 (Ho & Hrem & Hend & H32) Hcap] Hs Hlt cur. set (got := Z.of_nat (length l)) in *.
  pose proof (ng_cs _ Hg) as Hcs. pose proof (ng_spc _ Hg) as Hspc. pose proof (ng_lba _ Hg) as Hlba. set (cs := nf_cluster_size fs) in *.
  unfold copied at 1, copy_cluster. fold got cur cs. rewrite (u32_id (_ - got)), !(u32_id cur) by (unfold in_u32; lia).
  destruct (remaining - got >? 0) eqn:E; [clear E|lia]. destruct (Z.eqb_spec cs 0); [lia|]. cbn [negb]. rewrite (bind_eq _ _ _ _ _ (require_ok s)).
  pose proof (Z.mod_pos_bound cur cs ltac:(lia)) as Hmod. pose proof (Z.div_mod cur cs ltac:(lia)) as Hdiv.
  assert (Hq : 0 <= cur / cs < len) by (split; [apply Z.div_pos; lia|apply Z.div_lt_upper_bound; lia]). set (q := cur / cs) in *.
  rewrite !(u8_id (nf_sectors_per_cluster fs)) by (unfold in_u8; lia). destruct (Z.leb_spec (nf_sectors_per_cluster fs * 512) 4096); [|lia].
  rewrite (bind_eq _ _ _ _ _ (require_ok s)), (u32_id (lcn + q)), (u64_id (_ * _)), u64_id by (unfold in_u32, in_u64; nia).
  destruct (vol_read_ok fault nofault (nf_drive_type fs) (nf_drive fs) (nf_part_lba fs + (lcn + q) * nf_sectors_per_cluster fs)
    (nf_sectors_per_cluster fs) s) as (s2 & E2 & Hs2); [apply Hg|unfold in_u64; nia|lia|]. rewrite (bind_eq _ _ _ _ _ E2).
  fold (cluster fs s (lcn + q)). rewrite (same_cluster s0 s) by done.
  replace (if cs - cur mod cs >? remaining - got then remaining - got else cs - cur mod cs) with (Z.min (cs - cur mod cs) (remaining - got)) by (bcase; lia).
  set (chunk := Z.min _ _) in *. assert (Hc : 0 <= chunk <= remaining - got /\ cur mod cs + chunk <= cs) by (unfold chunk; lia). clearbody chunk.
  rewrite length_app. destruct (Z.leb_spec (Z.of_nat (length out + length l) + chunk) cap); [|lia]. rewrite (bind_eq _ _ _ _ _ (require_ok s2)).
  pose proof (length_cluster s0 (lcn + q) Hd) as Hl. fold cs in Hl. erewrite bind_eq; [|apply ldn_ok; lia].
  exists s2. split; [|by eapply same_vol_trans]. pose proof (slice_run s0 lcn len q (cur mod cs) chunk Hd Hq ltac:(lia) ltac:(lia) ltac:(lia)) as Es.
  fold cs in Es. replace (q * cs + cur mod cs) with cur in Es by lia. rewrite Es.
  assert (Hll : Z.of_nat (length (slice (cluster fs s0 (lcn + q)) (cur mod cs) chunk)) = chunk) by (apply slice_length; lia).
  unfold mret, M_ret, copied. rewrite app_assoc, length_app, Nat2Z.inj_add, Hll. fold got. unfold cur.
  replace (remaining - (got + chunk)) with (remaining - got - chunk) by lia. replace (off + (got + chunk)) with (off + got + chunk) by lia. done.
Qed.

(** The clusters of one run, from any byte on. *)
Lemma copy_run_ok s cap lcn len out remaining off :
  dev_sectors_ok (vl_dev s) -> copy_ok cap lcn len remaining off out -> len + 1 < Z.of_nat fuel ->
  exists s', copy_run fault fuel fs cap lcn out remaining off s =
      Some (Some (out ++ slice (clusters fs s (run_lcns lcn len)) off remaining), s') /\ same_vol s s'.
Proof.
  intros Hd Hc Hfuel. pose proof Hc as [_ _ (Ho & Hrem & Hend & H32) _]. pose proof (ng_cs _ Hg) as Hcs. pose proof (ng_spc _ Hg) as Hspc.
  assert (Hlen : 0 <= len) by nia. unfold copy_run. replace (out, remaining, off) with (copied out remaining off []).
  2:{ unfold copied. cbn [length Z.of_nat]. by rewrite app_nil_r, Z.sub_0_r, Z.add_0_r, !u32_id by (unfold in_u32; lia). }
  apply (transfer_ok (same_vol s) (copied out remaining off) (copy_cluster fault fs cap lcn) (fun l => Some (out ++ l))
    (clusters fs s (run_lcns lcn len)) (nf_cluster_size fs) off remaining); [lia|done|rewrite length_clusters, length_run_lcns by done; lia| | |done|done|].
  - intros s1 l Hs1 Hlt. by apply copy_cluster_ok.
  - intros s1 l E. unfold copied, copy_cluster. by rewrite E, Z.sub_diag.
  - right. assert ((off + remaining + nf_cluster_size fs - 1) / nf_cluster_size fs <= len) as Hle.
    { apply Z.lt_succ_r, Z.div_lt_upper_bound; lia. } assert (0 <= off / nf_cluster_size fs) by (apply Z.div_pos; lia). lia.
Qed.

Lemma clusters_app s l1 l2 : clusters fs s (l1 ++ l2) = clusters fs s l1 ++ clusters fs s l2.
Proof. unfold clusters. by rewrite map_app, concat_app. Qed.

(** ** Reading through the runs *)

Context (s0 : ntfs_st) (Hd : dev_sectors_ok (vl_dev s0)) (offset size cap : Z).
Context (Ho : 0 <= offset) (Hsz : 0 <= size <= cap).

(** What was read when the runs before [pos] were seen. *)
Definition read_upto (C : list Z) (pos : Z) : list Z := slice C offset (Z.max 0 (Z.min pos (offset + size) - offset)).

(** One run. [D] are the clusters of the runs before it. *)
Lemma read_run_ok s D prev r runs rest :
  let C := clusters fs s0 (D ++ lcns prev (r :: runs)) in
  let pos := Z.of_nat (length D) * nf_cluster_size fs in
  let next := pos + r_len r * nf_cluster_size fs in
  same_vol s0 s -> runs_ok fs prev (r :: runs) -> offset + size <= Z.of_nat (length C) < 4294967296 ->
  pos < offset + size -> 0 < size -> r_len r + 1 < Z.of_nat fuel ->
  exists s', read_run fault fuel fs offset size cap (encode_run r ++ rest, read_upto C pos, prev, pos) s =
      Some (inl (rest, read_upto C next, prev + r_off r, next), s') /\ same_vol s0 s'.
Proof.
  intros C pos next Hs (Hw & Hlcn & H31 & H64 & _) HC Hpos Hsz0 Hfuel. pose proof (ng_cs _ Hg) as Hcs. pose proof (ng_spc _ Hg) as Hspc.
  assert (Hlen : 0 <= r_len r) by (pose proof (rw_len _ Hw); lia). pose proof (rw_len _ Hw) as Hlen1. assert (Hp0 : 0 <= pos) by (unfold pos; nia). assert (Hnext : pos <= next) by (unfold next; nia).
  assert (HlC : Z.of_nat (length C) = next + Z.of_nat (length (lcns (prev + r_off r) runs)) * nf_cluster_size fs).
  { unfold C. rewrite length_clusters by done. cbn [lcns]. rewrite !length_app, !Nat2Z.inj_add, length_run_lcns by done. unfold next, pos. lia. }
  assert (Hn : next <= Z.of_nat (length C)) by nia.
  assert (Hlu : Z.of_nat (length (read_upto C pos)) = Z.max 0 (Z.min pos (offset + size) - offset)) by (apply slice_length; lia).
  unfold read_run. rewrite Hlu. destruct (Z.ltb_spec (Z.max 0 (Z.min pos (offset + size) - offset)) size) as [_|?]; [|lia].
  rewrite (bind_eq _ _ _ _ _ (parse_encode r rest s Hw)).
  destruct (Z.leb_spec (-2147483648) (prev + r_off r)) as [_|?]; [|lia].
  destruct (Z.ltb_spec (prev + r_off r) 2147483648) as [_|?]; [|nia]. rewrite (bind_eq _ _ _ _ _ (require_ok s)).
  rewrite (u32_id (r_len r * _)) by (unfold in_u32; nia). fold next.
  rewrite (u32_id next), (u32_id (offset + size)) by (unfold in_u32; lia). rewrite !Z.gtb_ltb.
  destruct (Z.ltb_spec pos (offset + size)) as [_|?]; [|lia]. rewrite andb_true_r.
  rewrite <- length_encode_run, Nat2Z.id, drop_app_length.
  destruct (Z.ltb_spec offset next) as [Hin|Hout].
  - replace (if offset <? offset then offset else pos) with pos by (by rewrite Z.ltb_irrefl).
    set (cstart := if pos <? offset then offset else pos). assert (Ecs : cstart = Z.max offset pos) by (unfold cstart; bcase; lia).
    set (cend := if offset + size <? next then offset + size else next). assert (Ece : cend = Z.min (offset + size) next) by (unfold cend; bcase; lia).
    rewrite (u32_id (cend - cstart)), (u32_id (cstart - pos)) by (unfold in_u32; lia).
    destruct (copy_run_ok s cap (prev + r_off r) (r_len r) (read_upto C pos) (cend - cstart) (cstart - pos)) as (s1 & E1 & Hs1); [by eauto| |done|].
    { split; [lia|done| |rewrite Hlu; lia]. unfold next in *. lia. }
    rewrite (bind_eq _ _ _ _ _ E1). exists s1. split; [|by eapply same_vol_trans]. unfold mret, M_ret. do 5 f_equal.
    assert (ER : clusters fs s (run_lcns (prev + r_off r) (r_len r)) = slice C pos (r_len r * nf_cluster_size fs)).
    { unfold C. cbn [lcns]. rewrite !clusters_app, slice_app_r by (rewrite ?length_clusters by done; unfold pos; nia).
      rewrite length_clusters by done. fold pos. rewrite Z.sub_diag.
      pose proof (length_clusters s0 (run_lcns (prev + r_off r) (r_len r)) Hd) as Hl. rewrite length_run_lcns in Hl by done.
      rewrite slice_app_l by lia. rewrite <- Hl, slice_all. unfold clusters. f_equal. apply map_ext. intros. by apply same_cluster. }
    rewrite ER, slice_slice by (unfold next in *; lia). replace (pos + (cstart - pos)) with cstart by lia. unfold read_upto.
    destruct (Z.leb_spec pos offset).
    + replace (Z.max 0 (Z.min pos (offset + size) - offset)) with 0 by lia. rewrite slice_0. cbn [app].
      replace (Z.max 0 (Z.min next (offset + size) - offset)) with (cend - cstart) by lia. by replace cstart with offset by lia.
    + replace cstart with (offset + Z.max 0 (Z.min pos (offset + size) - offset)) by lia. rewrite slice_app by lia. do 2 f_equal. lia.
  - erewrite bind_eq; [|reflexivity]. exists s. split; [|done].
    unfold mret, M_ret, read_upto. by replace (Z.max 0 (Z.min next (offset + size) - offset)) with (Z.max 0 (Z.min pos (offset + size) - offset)) by lia.
Qed.

Lemma read_runs_ok n s D prev runs rest :
  let C := clusters fs s0 (D ++ lcns prev runs) in
  let pos := Z.of_nat (length D) * nf_cluster_size fs in
  same_vol s0 s -> runs_ok fs prev runs -> offset + size <= Z.of_nat (length C) < 4294967296 ->
  Forall (fun r => r_len r + 1 < Z.of_nat fuel) runs -> (length runs < n)%nat ->
  exists s', loop n (read_run fault fuel fs offset size cap) (concat (map encode_run runs) ++ rest, read_upto C pos, prev, pos) s =
      Some (inr (slice C offset size), s') /\ same_vol s0 s'.
Proof.
  revert n s D prev. induction runs as [|r runs IH]; intros n s D prev C pos Hs Hok HC Hf Hn; (destruct n as [|n]; [cbn in Hn; lia|]).
  all: pose proof (ng_cs _ Hg) as Hcs; pose proof (ng_spc _ Hg) as Hspc; assert (Hp0 : 0 <= pos) by (unfold pos; nia).
  all: destruct (Z.le_gt_cases size (Z.max 0 (Z.min pos (offset + size) - offset))) as [Hdone|Hpos].
  1, 3: exists s; split; [|done]; apply loop_exit; unfold read_upto, read_run;
    replace (Z.max 0 (Z.min pos (offset + size) - offset)) with size by lia; rewrite slice_length by lia; rewrite Z.ltb_irrefl; done.
  - exfalso. unfold C in HC. cbn [lcns] in HC. rewrite app_nil_r, length_clusters in HC by done. lia.
  - cbn [map concat length] in *. rewrite <- app_assoc. pose proof (Forall_inv Hf) as Hf1. pose proof (Forall_inv_tail Hf) as Hf2. cbv beta in Hf1.
    destruct (read_run_ok s D prev r runs (concat (map encode_run runs) ++ rest) Hs Hok HC ltac:(lia) ltac:(lia) Hf1) as (s1 & E1 & Hs1). fold C pos in E1.
    rewrite (loop_step _ _ _ _ _ _ E1). destruct Hok as (Hw & _ & _ & _ & Hok). assert (Hlen : 0 <= r_len r) by (pose proof (rw_len _ Hw); lia).
    assert (EC : C = clusters fs s0 ((D ++ run_lcns (prev + r_off r) (r_len r)) ++ lcns (prev + r_off r) runs)).
    { unfold C. cbn [lcns]. by rewrite app_assoc. }
    rewrite EC in *. replace (pos + r_len r * nf_cluster_size fs) with
      (Z.of_nat (length (D ++ run_lcns (prev + r_off r) (r_len r))) * nf_cluster_size fs).
    2:{ rewrite length_app, Nat2Z.inj_add, length_run_lcns by done. unfold pos. lia. }
    apply IH; (done || lia).
Qed.
End Clusters.

(** ** Update sequences *)

Lemma lookup_splice b off l i : (i < length b)%nat ->
  splice b off l !! i = if (Z.to_nat off <=? i)%nat && (i <? Z.to_nat off + length l)%nat then l !! (i - Z.to_nat off)%nat else b !! i.
Proof.
  intros Hi. destruct (Nat.leb_spec (Z.to_nat off) i), (Nat.ltb_spec i (Z.to_nat off + length l)); cbn [andb];
    [|apply lookup_splice_out; lia..]. unfold splice. rewrite list_lookup_inserts; [done|lia|lia].
Qed.

Lemma splice_ext b b' off l : (forall i, (i < length b)%nat ->
    (if (Z.to_nat off <=? i)%nat && (i <? Z.to_nat off + length l)%nat then l !! (i - Z.to_nat off)%nat else b !! i) = b' !! i) ->
  length b' = length b -> splice b off l = b'.
Proof.
  intros H Hl. apply list_eq. intros i. destruct (decide (i < length b)%nat) as [Hi|Hi].
  - rewrite lookup_splice by done. by apply H.
  - rewrite !lookup_ge_None_2; [done|lia|rewrite length_splice; lia].
Qed.

Lemma splice_comm b off l off' l' :
  0 <= off -> 0 <= off' -> off + Z.of_nat (length l) <= off' \/ off' + Z.of_nat (length l') <= off ->
  splice (splice b off l) off' l' = splice (splice b off' l') off l.
Proof.
  intros Ho Ho' Hd. apply splice_ext; rewrite ?length_splice; [|done]. intros i Hi. rewrite !lookup_splice by (rewrite ?length_splice; done).
  destruct (Nat.leb_spec (Z.to_nat off') i), (Nat.ltb_spec i (Z.to_nat off' + length l')), (Nat.leb_spec (Z.to_nat off) i),
    (Nat.ltb_spec i (Z.to_nat off + length l)); cbn [andb]; (done || lia).
Qed.

Lemma splice_over b off l l' : length l' = length l -> splice (splice b off l) off l' = splice b off l'.
Proof.
  intros E. apply splice_ext; rewrite ?length_splice; [|done]. intros i Hi. rewrite !lookup_splice, E by done.
  by destruct ((Z.to_nat off <=? i)%nat && (i <? Z.to_nat off + length l)%nat).
Qed.

Lemma splice_slice b off n : 0 <= off -> 0 <= n -> splice b off (slice b off n) = b.
Proof.
  intros Ho Hn. apply splice_ext; [|done]. intros i Hi.
  destruct (Nat.leb_spec (Z.to_nat off) i), (Nat.ltb_spec i (Z.to_nat off + length (slice b off n))) as [Hlt|]; cbn [andb]; try done.
  assert (i - Z.to_nat off < Z.to_nat n)%nat by (unfold slice in Hlt; rewrite length_take in Hlt; lia).
  rewrite lookup_slice by lia. f_equal. lia.
Qed.

(** The update sequence number in the last two bytes of the sectors [i], ...,
    [n] of them. *)
Fixpoint stamp (n : nat) (i : Z) (u r : list Z) : list Z :=
  match n with O => r | S n => stamp n (i + 1) u (splice r (i * 512 - 2) u) end.
(** The number, and what it replaces in [n] sectors. *)
Definition update_array (n : nat) (u r : list Z) : list Z := u ++ concat (map (fun k => slice r ((Z.of_nat k + 1) * 512 - 2) 2) (seq 0 n)).
(** A record with its update sequence array at [fo], and how it is stored. *)
Definition with_array (n : nat) (fo : Z) (u r : list Z) : list Z := splice r fo (update_array n u r).
Definition seal (n : nat) (fo : Z) (u r : list Z) : list Z := stamp n 1 u (with_array n fo u r).

Lemma length_stamp n i u r : length (stamp n i u r) = length r.
Proof. revert i r. induction n as [|n IH]; intros i r; cbn [stamp]; [done|]. by rewrite IH, length_splice. Qed.

Lemma slice_stamp n i u r off m : length u = 2%nat -> 1 <= i -> 0 <= off -> 0 <= m -> off + m <= i * 512 - 2 -> slice (stamp n i u r) off m = slice r off m.
Proof.
  intros Hu. revert i r. induction n as [|n IH]; intros i r Hi Ho Hm Hend; cbn [stamp]; [done|].
  rewrite IH by lia. apply slice_splice_disj; lia.
Qed.

Lemma stamp_splice n i u r off l : length u = 2%nat -> 1 <= i -> 0 <= off -> off + Z.of_nat (length l) <= i * 512 - 2 ->
  stamp n i u (splice r off l) = splice (stamp n i u r) off l.
Proof.
  intros Hu. revert i r. induction n as [|n IH]; intros i r Hi Ho Hl; cbn [stamp]; [done|].
  rewrite (splice_comm r off l) by lia. apply IH; lia.
Qed.

Lemma stn_ok b off l (s : ntfs_st) : 0 <= off -> off + Z.of_nat (length l) <= Z.of_nat (length b) -> stn b off l s = Some (splice b off l, s).
Proof. intros. unfold stn. destruct (Z.leb_spec 0 off), (Z.leb_spec (off + Z.of_nat (length l)) (Z.of_nat (length b))); (done || lia). Qed.

(** The loop restores the sectors, when the array at [fo] holds their ends. *)
Lemma fixup_from_ok n i fo u t (s : ntfs_st) :
  length u = 2%nat -> 1 <= i -> 0 <= fo -> fo + 2 * (i + Z.of_nat n) <= i * 512 - 2 -> (i - 1 + Z.of_nat n) * 512 <= Z.of_nat (length t) ->
  (forall k, i <= k < i + Z.of_nat n -> slice t (fo + 2 * k) 2 = slice t (k * 512 - 2) 2) ->
  fixup_from n (stamp n i u t) fo (le_val u) i s = Some ((0, t), s).
Proof.
  intros Hu. revert i. induction n as [|n IH]; intros i Hi Hfo Hf Hl Hk; cbn [fixup_from]; [done|]. cbn [stamp].
  rewrite stamp_splice by lia. set (X := stamp n (i + 1) u t).
  assert (HX : Z.of_nat (length X) = Z.of_nat (length t)) by (unfold X; by rewrite length_stamp).
  assert (HY : length (splice X (i * 512 - 2) u) = length X) by apply length_splice.
  rewrite (bind_eq _ _ _ _ _ (ldw_ok 2 (splice X (i * 512 - 2) u) (i * 512 - 2) s ltac:(lia) ltac:(lia))).
  assert (E1 : slice (splice X (i * 512 - 2) u) (i * 512 - 2) 2 = u).
  { change 2 with (Z.of_nat 2) at 3. rewrite <- Hu. apply slice_splice_same; lia. }
  rewrite E1, Z.eqb_refl. cbn [negb].
  rewrite (bind_eq _ _ _ _ _ (ldn_ok (splice X (i * 512 - 2) u) (fo + 2 * i) 2 s ltac:(lia) ltac:(lia))).
  assert (E2 : slice (splice X (i * 512 - 2) u) (fo + 2 * i) 2 = slice X (i * 512 - 2) 2).
  { rewrite slice_splice_disj by lia. unfold X. rewrite !slice_stamp by lia. apply Hk. lia. }
  rewrite E2. assert (Hl2 : length (slice X (i * 512 - 2) 2) = 2%nat) by (pose proof (slice_length X (i * 512 - 2) 2 ltac:(lia) ltac:(lia) ltac:(lia)); lia).
  rewrite (bind_eq _ _ _ _ _ (stn_ok (splice X (i * 512 - 2) u) (i * 512 - 2) (slice X (i * 512 - 2) 2) s ltac:(lia) ltac:(rewrite Hl2; lia))).
  rewrite splice_over, splice_slice by lia. unfold X. apply IH; [lia|lia|lia|lia|]. intros k Hk'. apply Hk. lia.
Qed.

(** The geometry of a sealed record: [n] sectors, the array inside the first. *)
Definition array_ok (n : nat) (fo : Z) (u r : list Z) : Prop :=
  length u = 2%nat /\ (1 <= n)%nat /\ 0 <= fo /\ fo + 2 * (Z.of_nat n + 1) <= 510 /\ Z.of_nat (length r) = 512 * Z.of_nat n.

Lemma length_update n u r : array_ok n 0 u r -> Z.of_nat (length (update_array n u r)) = 2 * (Z.of_nat n + 1).
Proof.
  intros (Hu & Hn & _ & _ & Hl). unfold update_array. rewrite length_app, Hu.
  rewrite Nat2Z.inj_add, (length_pieces (fun k => slice r ((Z.of_nat k + 1) * 512 - 2) 2) 2 n); [lia|].
  intros i Hi. apply slice_length; lia.
Qed.

Lemma apply_fixup_ok n fo u r size (s : ntfs_st) :
  array_ok n fo u r -> size / 512 = Z.of_nat n ->
  apply_fixup (seal n fo u r) fo (Z.of_nat n + 1) size s = Some ((0, with_array n fo u r), s).
Proof.
  intros Ha Hsize. pose proof Ha as (Hu & Hn & Hfo & Hend & Hl).
  assert (Ha0 : array_ok n 0 u r) by (repeat split; (done || lia)). pose proof (length_update n u r Ha0) as Hlu.
  unfold apply_fixup, seal. set (t := with_array n fo u r). assert (Ht : length t = length r) by apply length_splice.
  assert (Harr : forall k m, 0 <= k -> 0 <= m -> k + m <= 2 * (Z.of_nat n + 1) -> slice t (fo + k) m = slice (update_array n u r) k m).
  { intros k m Hk Hm Hkm. rewrite <- (slice_slice t fo (2 * (Z.of_nat n + 1)) k m) by lia. unfold t, with_array.
    rewrite <- Hlu at 1. rewrite slice_splice_same by lia. done. }
  assert (Hu0 : slice (stamp n 1 u t) fo 2 = u).
  { rewrite slice_stamp by lia. replace fo with (fo + 0) by lia. rewrite Harr by lia. unfold update_array.
    rewrite slice_app_l by (rewrite ?Hu; lia). change 2 with (Z.of_nat 2). rewrite <- Hu. apply slice_all. }
  rewrite (bind_eq _ _ _ _ _ (ldw_ok 2 (stamp n 1 u t) fo s Hfo ltac:(rewrite length_stamp; lia))). rewrite Hu0.
  destruct (Z.ltb_spec (Z.of_nat n + 1) 2); [lia|]. rewrite Hsize. replace (Z.to_nat (Z.min (Z.of_nat n + 1 - 1) (Z.of_nat n))) with n by lia.
  apply fixup_from_ok; [done|lia|done|lia|lia|]. intros k Hk. rewrite Harr by lia. unfold update_array.
  rewrite slice_app_r by (rewrite ?Hu; lia). rewrite Hu. replace (2 * k - Z.of_nat 2) with (Z.of_nat (Z.to_nat (k - 1)) * 2 + 0) by lia.
  rewrite (slice_pieces (fun k => slice r ((Z.of_nat k + 1) * 512 - 2) 2) 2) by (try (intros; apply slice_length); lia).
  rewrite slice_slice by lia. unfold t, with_array. rewrite slice_splice_disj by lia. f_equal. lia.
Qed.


(** ** Records of the MFT *)

(** The sectors of record [num]. *)
Definition mft_raw (fs : ntfs_fs_t) (s : ntfs_st) (num : Z) : list Z :=
  sectors_at (vl_dev s) (blk_driver (nf_drive_type fs)) (nf_drive fs) (nf_mft_lba fs + num * nf_mft_sectors fs) (Z.to_nat (nf_mft_sectors fs)).

(** Record [num] is stored sealed, and [rec] is what it holds. *)
Inductive mft_record (fs : ntfs_fs_t) (s : ntfs_st) (num : Z) : list Z -> Prop :=
| MftRecord n fo u r :
    1 <= nf_mft_sectors fs <= 8 -> Z.of_nat n = nf_mft_sectors fs -> nf_mft_record_size fs / 512 = nf_mft_sectors fs ->
    0 <= num -> 0 <= nf_mft_lba fs -> nf_mft_lba fs + (num + 1) * nf_mft_sectors fs <= 18446744073709551616 ->
    array_ok n fo u r -> 8 <= fo -> slice r 0 4 = [70; 73; 76; 69] ->
    le_val (slice r 4 2) = fo -> le_val (slice r 6 2) = Z.of_nat n + 1 ->
    mft_raw fs s num = seal n fo u r -> mft_record fs s num (with_array n fo u r).

(** The attribute of type [type] that [find_attr] meets in the chain from
    [off] on: its offset, and the attributes it passes. *)
Inductive attr_chain (rec : list Z) (type : Z) : Z -> Z -> nat -> Prop :=
| AttrHere off :
    off + 16 <= le_val (slice rec 24 4) -> le_val (slice rec off 4) = type -> le_val (slice rec (off + 4) 4) <> 0 ->
    attr_chain rec type off off 0
| AttrNext off target k :
    off + 16 <= le_val (slice rec 24 4) -> le_val (slice rec off 4) <> type -> le_val (slice rec off 4) <> NTFS_ATTR_END ->
    0 < le_val (slice rec (off + 4) 4) -> off + le_val (slice rec (off + 4) 4) < 4294967296 ->
    attr_chain rec type (off + le_val (slice rec (off + 4) 4)) target k -> attr_chain rec type off target (S k).

Section Records.
Context (fault : nat -> option nat) (nofault : forall k, fault k = None) (fuel : nat).

Lemma read_mft_record_ok fs s num rec :
  0 <= nf_drive fs < 256 -> mft_record fs s num rec ->
  exists s', read_mft_record fault fs num s = Some (inr rec, s') /\ same_vol s s'.
Proof.
  intros Hdr [n fo u r Hms Hn Hrs Hnum Hlba H64 Ha Hfo Hsig Efo Ecnt Eraw]. unfold read_mft_record.
  pose proof Ha as (Hu & Hn1 & Hfo0 & Hend & Hl). rewrite !u8_id by (unfold in_u8; lia).
  destruct (Z.leb_spec (nf_mft_sectors fs * 512) 4096); [|lia]. rewrite (bind_eq _ _ _ _ _ (require_ok s)).
  rewrite (u64_id (_ * _)), u64_id by (unfold in_u64; nia).
  destruct (vol_read_ok fault nofault (nf_drive_type fs) (nf_drive fs) (nf_mft_lba fs + num * nf_mft_sectors fs) (nf_mft_sectors fs) s) as (s1 & E1 & Hs1);
    [done|unfold in_u64; nia|lia|]. rewrite (bind_eq _ _ _ _ _ E1). fold (mft_raw fs s num). rewrite Eraw. exists s1. split; [|done].
  assert (Hlen : Z.of_nat (length (seal n fo u r)) = 512 * Z.of_nat n).
  { unfold seal, with_array. by rewrite length_stamp, length_splice. }
  assert (Ehd : forall off m, 0 <= off -> 0 <= m -> off + m <= 8 -> slice (seal n fo u r) off m = slice r off m).
  { intros off m H0 Hm H8. unfold seal. rewrite slice_stamp by lia. unfold with_array. apply slice_splice_disj; lia. }
  rewrite (bind_eq _ _ _ _ _ (ldn_ok (seal n fo u r) 0 4 s1 ltac:(lia) ltac:(lia))), Ehd, Hsig by lia.
  rewrite bool_decide_eq_true_2 by done. cbn [negb].
  rewrite (bind_eq _ _ _ _ _ (ldw_ok 2 (seal n fo u r) 4 s1 ltac:(lia) ltac:(lia))), Ehd, Efo by lia.
  rewrite (bind_eq _ _ _ _ _ (ldw_ok 2 (seal n fo u r) 6 s1 ltac:(lia) ltac:(lia))), Ehd, Ecnt by lia.
  by rewrite (bind_eq _ _ _ _ _ (apply_fixup_ok n fo u r (nf_mft_record_size fs) s1 Ha ltac:(lia))).
Qed.

Lemma find_attr_ok rec type target k (s : ntfs_st) :
  28 <= Z.of_nat (length rec) -> le_val (slice rec 24 4) <= Z.of_nat (length rec) -> type <> NTFS_ATTR_END ->
  0 <= le_val (slice rec 20 2) -> attr_chain rec type (le_val (slice rec 20 2)) target k -> (k < fuel)%nat ->
  find_attr fuel rec type s = Some (Some (drop (Z.to_nat target) rec), s).
Proof.
  intros Hl Hu Hty Hoff Hc Hf. unfold find_attr. rewrite (bind_eq _ _ _ _ _ (ldw_ok 2 rec 20 s ltac:(lia) ltac:(lia))).
  rewrite (bind_eq _ _ _ _ _ (ldw_ok 4 rec 24 s ltac:(lia) ltac:(lia))).
  revert Hoff Hc Hf. generalize (le_val (slice rec 20 2)). intros off Hoff Hc. revert Hoff. generalize fuel as f.
  induction Hc as [off H16 Et Hne|off target k H16 Hnt Hend Hlen H32 Hc IH]; intros [|f] Hoff Hf; try lia.
  - apply loop_exit. destruct (Z.leb_spec (off + 16) (le_val (slice rec 24 4))); [|lia].
    rewrite (bind_eq _ _ _ _ _ (ldw_ok 4 rec off s ltac:(lia) ltac:(lia))), Et. destruct (Z.eqb_spec type NTFS_ATTR_END); [done|].
    rewrite (bind_eq _ _ _ _ _ (ldw_ok 4 rec (off + 4) s ltac:(lia) ltac:(lia))).
    destruct (Z.eqb_spec (le_val (slice rec (off + 4) 4)) 0); [done|]. by rewrite Z.eqb_refl.
  - erewrite loop_step; [apply IH; lia|]. destruct (Z.leb_spec (off + 16) (le_val (slice rec 24 4))); [|lia].
    rewrite (bind_eq _ _ _ _ _ (ldw_ok 4 rec off s ltac:(lia) ltac:(lia))).
    destruct (Z.eqb_spec (le_val (slice rec off 4)) NTFS_ATTR_END); [done|].
    rewrite (bind_eq _ _ _ _ _ (ldw_ok 4 rec (off + 4) s ltac:(lia) ltac:(lia))).
    destruct (Z.eqb_spec (le_val (slice rec (off + 4) 4)) 0); [lia|]. destruct (Z.eqb_spec (le_val (slice rec off 4)) type); [done|].
    by rewrite u32_id by (unfold in_u32; lia).
Qed.
End Records.

(** ** Files *)

(** The bytes of a data attribute: in the record, or in the clusters of its
    runs, which are fewer, and no longer, than [fuel]. *)
Inductive ntfs_data (fuel : nat) (fs : ntfs_fs_t) (s : ntfs_st) (attr : list Z) : list Z -> Prop :=
| DataResident vo n :
    24 <= Z.of_nat (length attr) -> le_val (slice attr 8 1) = 0 -> le_val (slice attr 16 4) = n -> le_val (slice attr 20 2) = vo ->
    0 <= vo -> 0 <= n < 4294967296 -> vo + n <= Z.of_nat (length attr) ->
    ntfs_data fuel fs s attr (slice attr vo n)
| DataRuns runs rest n :
    56 <= Z.of_nat (length attr) -> le_val (slice attr 8 1) <> 0 -> le_val (slice attr 48 8) = n ->
    drop (Z.to_nat (le_val (slice attr 32 2))) attr = concat (map encode_run runs) ++ rest ->
    runs_ok fs 0 runs -> Forall (fun r => r_len r + 1 < Z.of_nat fuel) runs -> (length runs < fuel)%nat ->
    0 <= n <= Z.of_nat (length (clusters fs s (lcns 0 runs))) -> Z.of_nat (length (clusters fs s (lcns 0 runs))) < 4294967296 ->
    ntfs_data fuel fs s attr (take (Z.to_nat n) (clusters fs s (lcns 0 runs))).

(** Node [ni] is a file of the volume with the bytes [data]. *)
Record nfile_ok (fuel : nat) (fs : ntfs_fs_t) (s : ntfs_st) (ni : nat) (n : vfs_node_t) (data : list Z) : Prop := {
  no_node : vl_nodes s !! ni = Some n;
  no_fs : exists fsi, n_private n = Some fsi /\ vl_fs s !! fsi = Some fs;
  no_rec : exists rec target k, mft_record fs s (n_inode n) rec /\ 28 <= Z.of_nat (length rec) /\ 0 <= le_val (slice rec 20 2) /\
    le_val (slice rec 24 4) <= Z.of_nat (length rec) /\
    attr_chain rec NTFS_ATTR_DATA (le_val (slice rec 20 2)) target k /\ (k < fuel)%nat /\
    ntfs_data fuel fs s (drop (Z.to_nat target) rec) data;
}.

Section ReadFile.
Context (fault : nat -> option nat) (nofault : forall k, fault k = None) (fuel : nat).

Lemma read_nonresident_ok fs s s0 attr runs rest offset size :
  ngeo fs -> dev_sectors_ok (vl_dev s0) -> same_vol s0 s -> 56 <= Z.of_nat (length attr) ->
  drop (Z.to_nat (le_val (slice attr 32 2))) attr = concat (map encode_run runs) ++ rest ->
  runs_ok fs 0 runs -> Forall (fun r => r_len r + 1 < Z.of_nat fuel) runs -> (length runs < fuel)%nat ->
  0 <= offset -> 0 <= size -> offset + size <= Z.of_nat (length (clusters fs s0 (lcns 0 runs))) < 4294967296 ->
  exists s', read_nonresident fault fuel fs attr offset size size s = Some (inr (slice (clusters fs s0 (lcns 0 runs)) offset size), s') /\ same_vol s0 s'.
Proof.
  intros Hg Hd Hs Hl Ea Hok Hf Hn Ho Hsz HC. unfold read_nonresident.
  rewrite (bind_eq _ _ _ _ _ (ldw_ok 2 attr 32 s ltac:(lia) ltac:(lia))), Ea.
  destruct (read_runs_ok fault nofault fuel fs Hg s0 Hd offset size size Ho ltac:(lia) fuel s [] 0 runs rest Hs Hok HC Hf Hn) as (s1 & E1 & Hs1).
  exists s1. split; [|done]. cbn [app length Z.of_nat Z.mul] in E1. rewrite <- E1. unfold read_upto.
  by rewrite Z.max_l, slice_0 by lia.
Qed.

(** C22 (fs/ntfs.c, [ntfs_read] with [read_mft_record], [apply_fixup],
    [find_attr], [parse_run] and [read_nonresident]): with drives that answer,
    on a volume whose clusters and records fit the buffers, reading [size]
    bytes at [offset] of a file returns exactly its bytes in that range, cut at
    the end of the file. The file's record is taken as it was before its
    sectors were sealed with the update sequence; its bytes are those of the
    resident attribute or of the clusters that the packed runs name. The drives
    and the pools stay as they are. *)
Theorem ntfs_read_correct fs s ni n data offset size :
  ngeo fs -> dev_sectors_ok (vl_dev s) -> nfile_ok fuel fs s ni n data ->
  0 <= offset < 9223372036854775808 -> 0 <= size < 4294967296 ->
  exists s', ntfs_read fault fuel ni offset size s = Some (inr (slice data offset size), s') /\ same_vol s s'.
Proof.
  intros Hg Hd [Hn (fsi & Ep & Ef) (rec & target & k & Hrec & Hl & H20 & H24 & Hc & Hk & Hdata)] Ho Hsz.
  unfold ntfs_read. erewrite bind_eq; [|unfold node_at; by rewrite Hn]. rewrite Ep. erewrite bind_eq; [|unfold fs_at; by rewrite Ef].
  destruct (read_mft_record_ok fault nofault fs s (n_inode n) rec (ng_drive _ Hg) Hrec) as (s1 & E1 & Hs1). rewrite (bind_eq _ _ _ _ _ E1). clear E1.
  rewrite (bind_eq _ _ _ _ _ (find_attr_ok fuel rec NTFS_ATTR_DATA target k s1 Hl H24 ltac:(done) H20 Hc Hk)).
  set (attr := drop (Z.to_nat target) rec) in *.
  destruct Hdata as [vo n0 Ha E8 E16 E20 Hvo Hn0 Hfit|runs rest n0 Ha E8 E48 Ea Hok Hf Hlr Hn0 HC].
  - rewrite (bind_eq _ _ _ _ _ (ldw_ok 1 attr 8 s1 ltac:(lia) ltac:(lia))), E8. cbn [Z.eqb].
    rewrite (bind_eq _ _ _ _ _ (ldw_ok 4 attr 16 s1 ltac:(lia) ltac:(lia))), E16.
    rewrite (bind_eq _ _ _ _ _ (ldw_ok 2 attr 20 s1 ltac:(lia) ltac:(lia))), E20.
    pose proof (slice_length attr vo n0 Hvo ltac:(lia) Hfit) as Hls. rewrite Z.geb_leb, u64_id by (unfold in_u64; lia).
    destruct (Z.leb_spec n0 offset); [exists s1; split; [|done]; unfold slice at 1; by rewrite drop_ge, take_nil by lia|].
    rewrite slice_cut, Hls by lia.
    replace (if offset + size >? n0 then u32 (n0 - offset) else size) with (Z.min size (n0 - offset)) by (bcase; rewrite ?u32_id by (unfold in_u32; lia); lia).
    rewrite (bind_eq _ _ _ _ _ (ldn_ok attr (vo + offset) (Z.min size (n0 - offset)) s1 ltac:(lia) ltac:(lia))).
    exists s1. split; [|done]. by rewrite slice_slice by lia.
  - rewrite (bind_eq _ _ _ _ _ (ldw_ok 1 attr 8 s1 ltac:(lia) ltac:(lia))). destruct (Z.eqb_spec (le_val (slice attr 8 1)) 0); [done|].
    rewrite (bind_eq _ _ _ _ _ (ldw_ok 8 attr 48 s1 ltac:(lia) ltac:(lia))), E48, (u32_id n0) by (unfold in_u32; lia).
    set (C := clusters fs s (lcns 0 runs)) in *. assert (Hlt : Z.of_nat (length (take (Z.to_nat n0) C)) = n0) by (rewrite length_take; lia).
    rewrite Z.geb_leb, u64_id by (unfold in_u64; lia).
    destruct (Z.leb_spec n0 offset); [exists s1; split; [|done]; unfold slice at 1; by rewrite drop_ge, take_nil by lia|].
    rewrite (slice_cut (take _ _)), Hlt by lia.
    replace (if offset + size >? n0 then u32 (n0 - offset) else size) with (Z.min size (n0 - offset)) by (bcase; rewrite ?u32_id by (unfold in_u32; lia); lia).
    destruct (read_nonresident_ok fs s1 s attr runs rest offset (Z.min size (n0 - offset))) as (s2 & E2 & Hs2); [done|done|done|done|done|done|done|done|lia|lia|fold C; lia|].
    exists s2. split; [|done]. rewrite E2. fold C. unfold slice. rewrite skipn_firstn_comm, take_take. do 4 f_equal. lia.
Qed.
End ReadFile.

(** ** A small volume

    Clusters of one sector and records of two. Record 6 is a file of 1300
    bytes in two runs, the second before the first on the drive; record 5 is
    the root, whose index names it. *)

Module NtfsDemo.
Definition fault (k : nat) : option nat := None.
Lemma ntfs_nofault k : fault k = None.
Proof. done. Qed.

Definition fs : ntfs_fs_t := Nfs 0 DRIVE_TYPE_ATA 10 1 512 20 1024 2 4096.
Definition le (n : nat) (v : Z) : list Z := le_bytes n v.
Definition usn : list Z := [7; 0].
Definition header (used : Z) : list Z := [70; 73; 76; 69] ++ le 2 48 ++ le 2 3 ++ replicate 12 0 ++ le 2 56 ++ le 2 1 ++ le 4 used.
Definition mft_rec (attrs : list Z) : list Z :=
  splice (splice (replicate 1024 0) 0 (header (56 + Z.of_nat (length attrs)))) 56 attrs.
Definition runs : list drun := [Run 1 1 2 100; Run 1 1 1 (-20)].
Definition data_attr : list Z :=
  le 4 NTFS_ATTR_DATA ++ le 4 72 ++ [1; 0] ++ replicate 22 0 ++ le 2 64 ++ replicate 14 0 ++ le 8 1300 ++ replicate 8 0 ++
  concat (map encode_run runs) ++ [0; 0].
Definition file_attrs : list Z := le 4 0x30 ++ le 4 24 ++ replicate 16 0 ++ data_attr ++ le 4 NTFS_ATTR_END ++ replicate 12 0.
Definition file_rec : list Z := mft_rec file_attrs.
(** The name attribute of "Hi", and the index of the root. *)
Definition name_attr : list Z := replicate 48 0 ++ le 8 1300 ++ replicate 8 0 ++ [2; 1] ++ [72; 0; 105; 0].
Definition entry : list Z := le 8 6 ++ le 2 88 ++ le 2 70 ++ le 4 0 ++ name_attr ++ [0; 0].
Definition index_attr : list Z :=
  le 4 NTFS_ATTR_INDEX_ROOT ++ le 4 152 ++ replicate 12 0 ++ le 2 24 ++ replicate 2 0 ++ replicate 16 0 ++
  le 4 16 ++ le 4 120 ++ replicate 8 0 ++ entry ++ replicate 12 0 ++ le 4 2.
Definition root_rec : list Z := mft_rec (index_attr ++ le 4 NTFS_ATTR_END ++ replicate 12 0).
Definition boot : list Z :=
  splice (splice (splice (replicate 512 0) 3 [78; 84; 70; 83]) 11 (le 2 512 ++ [1])) 48 (le 8 10 ++ replicate 8 0 ++ [246; 0; 0; 0; 244]).
Definition put (lba : Z) (n : nat) (buf : list Z) (m : gmap (driver * Z * Z) (list Z)) : gmap (driver * Z * Z) (list Z) :=
  put_sectors m DrvAta 0 lba n buf.
Definition sealed (r : list Z) : list Z := seal 2 48 usn r.
Definition sectors : gmap (driver * Z * Z) (list Z) :=
  put 10 1 boot (put 20 2 (sealed root_rec) (put 30 2 (sealed root_rec) (put 32 2 (sealed file_rec)
    (put 110 2 (replicate 512 65 ++ replicate 512 66) (put 90 1 (replicate 512 67) ∅))))).
Definition root : vfs_node_t := Node [47] 6 0 5 OpsDir None (Some 0%nat).
Definition node : vfs_node_t := Node [72; 105] VFS_FILE 1300 6 OpsFile (Some 0%nat) (Some 0%nat).
Definition state : ntfs_st := Vol (Dev sectors 0) [fs] [root; node].

(** Mounting, listing and finding give these nodes. *)
Example ntfs_mount_demo :
  option_map (fun r => (r.1, vl_fs r.2, vl_nodes r.2)) (ntfs_mount fault DRIVE_TYPE_ATA 0 10 (Vol (Dev sectors 0) [] [])) =
    Some (inr 0%nat, [fs], [root]).
Proof. by vm_compute. Qed.
Example ntfs_readdir_demo :
  option_map fst (ntfs_readdir fault 5 0 0 state) = Some (Some (Dirent [72; 105] 1300 VFS_FILE)) /\
  option_map fst (ntfs_readdir fault 5 0 1 state) = Some None.
Proof. by vm_compute. Qed.
Example ntfs_finddir_demo :
  option_map (fun r => (r.1, vl_nodes r.2)) (ntfs_finddir fault 5 0 [104; 73] (Vol (Dev sectors 0) [fs] [root])) =
    Some (Some 1%nat, [root; node]).
Proof. by vm_compute. Qed.

(** A run without an offset field, which NTFS uses for a hole, is read from
    the first cluster of the run before it. *)
Example ntfs_hole_demo :
  option_map fst (parse_run [0x01; 3] (Vol (Dev ∅ 0) [] [])) = Some (Some (2, 3, 0)).
Proof. by vm_compute. Qed.

Lemma ntfs_put_ok lba n buf m :
  (forall k l, m !! k = Some l -> length l = 512%nat /\ bytes l) -> length buf = (512 * n)%nat -> bytes buf ->
  forall k l, put lba n buf m !! k = Some l -> length l = 512%nat /\ bytes l.
Proof. intros Hm Hl Hb. exact (put_dev_ok (Dev m 0) DrvAta 0 lba n buf Hm Hl Hb). Qed.

Lemma ntfs_sectors_ok : dev_sectors_ok (vl_dev state).
Proof.
  unfold dev_sectors_ok. change (dv_sectors (vl_dev state)) with sectors. unfold sectors.
  repeat (apply ntfs_put_ok; [|by vm_compute|apply bytes_dec_ok; by vm_compute]).
  intros k l H. by rewrite lookup_empty in H.
Qed.

Lemma file_record : mft_record fs state 6 (with_array 2 48 usn file_rec).
Proof. apply (MftRecord fs state 6 2 48 usn file_rec); first [by vm_compute|unfold array_ok; split_and!; (by vm_compute) || lia]. Qed.

Lemma file_chain : attr_chain (with_array 2 48 usn file_rec) NTFS_ATTR_DATA (le_val (slice (with_array 2 48 usn file_rec) 20 2)) 80 1.
Proof.
  replace (le_val (slice (with_array 2 48 usn file_rec) 20 2)) with 56 by (by vm_compute).
  apply AttrNext; [by vm_compute..|].
  replace (56 + le_val (slice (with_array 2 48 usn file_rec) (56 + 4) 4)) with 80 by (by vm_compute). by apply AttrHere; vm_compute.
Qed.

Lemma file_data : ntfs_data 5 fs state (drop 80 (with_array 2 48 usn file_rec)) (take (Z.to_nat 1300) (clusters fs state (lcns 0 runs))).
Proof.
  apply (DataRuns 5 fs state (drop 80 (with_array 2 48 usn file_rec)) runs ([0; 0] ++ drop 152 (with_array 2 48 usn file_rec)) 1300);
    try by vm_compute.
  - repeat split; try (by vm_compute); cbn; lia.
  - repeat constructor.
  - apply Nat.ltb_lt. by vm_compute.
Qed.

Lemma demo_file_ok : nfile_ok 5 fs state 1 node (take (Z.to_nat 1300) (clusters fs state (lcns 0 runs))).
Proof.
  split; [done|by exists 0%nat|]. exists (with_array 2 48 usn file_rec), 80, 1%nat.
  split_and!; [apply file_record|by vm_compute..|apply file_chain|lia|apply file_data].
Qed.
End NtfsDemo.

Lemma ntfs_read_correct_witness : option_map fst (ntfs_read NtfsDemo.fault 5 1 1022 5 NtfsDemo.state) = Some (inr [66; 66; 67; 67; 67]).
Proof.
  destruct (ntfs_read_correct NtfsDemo.fault NtfsDemo.ntfs_nofault 5 NtfsDemo.fs NtfsDemo.state 1 NtfsDemo.node _ 1022 5
    ltac:(split; cbn; (done || lia)) NtfsDemo.ntfs_sectors_ok NtfsDemo.demo_file_ok ltac:(done) ltac:(done)) as (s' & E & _).
  rewrite E. by vm_compute.
Defined.
