(* ===== verification/Net.v ===== *)
(** * The network stack

    Models src/net: Ethernet, ARP, IPv4, ICMP echo, UDP and the DHCP client,
    over the send and receive calls of drivers/e1000.c. The functions call each
    other recursively (a packet that is answered may wait for an ARP reply,
    and waiting polls for packets), and they share static buffers: a received
    packet is handled in place, so a nested poll overwrites it. Pointers into
    the shared buffers are therefore pointers here too ([ptr]), read when the
    code reads them.

    The wire and the clock are arguments: what the n-th look at the receive
    ring finds and what the n-th reading of the clock gives. [None] is an
    access outside a buffer, or out of fuel. *)

From S2P Require Import Prelude.

Definition ETH_TYPE_IP : Z := 0x0800.
Definition ETH_TYPE_ARP : Z := 0x0806.
Definition IP_PROTO_ICMP : Z := 1.
Definition IP_PROTO_UDP : Z := 17.
Definition ARP_CACHE_SIZE : Z := 16.
Definition MAX_UDP_HANDLERS : Z := 8.
Definition ICMP_PING_ID : Z := 0x5A5A.
Definition ICMP_DATA_LEN : Z := 32.
Definition DHCP_XID : Z := 0xABCD1234.
Definition DHCP_PORT_C : Z := 68.
Definition DHCP_PORT_S : Z := 67.
Definition DHCPDISCOVER : Z := 1.
Definition DHCPOFFER : Z := 2.
Definition DHCPREQUEST : Z := 3.
Definition DHCPACK : Z := 5.

(** ** Byte order and addresses *)

Definition htons (v : Z) : Z := u16 (Z.lor (Z.shiftr v 8) (Z.shiftl v 8)).
Definition ntohs (v : Z) : Z := htons v.
Definition htonl (v : Z) : Z :=
  Z.lor (Z.lor (Z.shiftr (Z.land v 0xFF000000) 24) (Z.shiftr (Z.land v 0x00FF0000) 8))
        (Z.lor (u32 (Z.shiftl (Z.land v 0x0000FF00) 8)) (u32 (Z.shiftl (Z.land v 0x000000FF) 24))).
Definition ntohl (v : Z) : Z := htonl v.

(** Addresses are their bytes: six of a [mac_addr_t], four of an [ip_addr_t]. *)
Definition bytes_eq (n : nat) (a b : list Z) : bool := forallb (fun i => get8 a (Z.of_nat i) =? get8 b (Z.of_nat i)) (seq 0 n).
Definition mac_eq : list Z -> list Z -> bool := bytes_eq 6.
Definition ip_eq : list Z -> list Z -> bool := bytes_eq 4.
Definition ip_is_any (a : list Z) : bool := forallb (fun i => get8 a i =? 0) [0; 1; 2; 3].
Definition ip_is_bcast (a : list Z) : bool := forallb (fun i => get8 a i =? 0xFF) [0; 1; 2; 3].
Definition mac_bcast : list Z := replicate 6 0xFF.
Definition ip_bcast : list Z := replicate 4 0xFF.

(** Dotted decimal: the result, and [out] as the function leaves it. *)
Fixpoint parse_ip_loop (s : list Z) (octet idx : Z) (out : list Z) : Z * list Z :=
  let finish := if negb (idx =? 3) then (-1, out) else (0, put8 out 3 (u8 octet)) in
  match s with
  | [] => finish
  | c :: s =>
    if (48 <=? c) && (c <=? 57) then
      let octet := octet * 10 + (c - 48) in
      if octet >? 255 then (-1, out) else parse_ip_loop s octet idx out
    else if (c =? 46) && (idx <? 3) then parse_ip_loop s 0 (idx + 1) (put8 out idx (u8 octet))
    else finish
  end.
Definition net_parse_ip (s : list Z) (out : list Z) : Z * list Z := parse_ip_loop s 0 0 out.

(** ** State *)

Record arp_entry_t := ArpEntry { ae_ip : list Z; ae_mac : list Z; ae_valid : bool }.
(** The only handler the repository registers. *)
Variant udp_handler_t := FnDhcpRecv.
Record udp_reg_t := UdpReg { ur_port : Z; ur_fn : udp_handler_t; ur_used : bool }.
Record ping_t := Ping { pg_waiting : bool; pg_got : bool; pg_seq_cur : Z; pg_seq : Z }.
Record dhcp_t := Dhcp {
  dh_got_offer : bool; dh_got_ack : bool;
  dh_ip : list Z; dh_server : list Z; dh_mask : list Z; dh_gw : list Z;
}.
(** The configuration, the NIC (frames sent, looks at the receive ring, clock
    readings), the ARP cache, the UDP handlers, and the static buffers that
    outlive a call: the received frame, the echo reply and request, the UDP
    datagram. *)
Record net_st := Net {
  net_mac : list Z; net_ip : list Z; net_mask : list Z; net_gw : list Z; net_up : bool;
  nt_sent : list (list Z); nt_polls : nat; nt_reads : nat;
  arp_cache : list arp_entry_t; arp_cache_next : Z;
  handlers : list udp_reg_t;
  nt_ping : ping_t; nt_dhcp : dhcp_t;
  eth_rx_frame : list Z; icmp_reply : list Z; icmp_pkt : list Z; udp_tx : list Z;
}.

Definition with_nic sent polls reads (s : net_st) : net_st :=
  Net (net_mac s) (net_ip s) (net_mask s) (net_gw s) (net_up s) sent polls reads (arp_cache s) (arp_cache_next s) (handlers s)
    (nt_ping s) (nt_dhcp s) (eth_rx_frame s) (icmp_reply s) (icmp_pkt s) (udp_tx s).
Definition with_arp cache next (s : net_st) : net_st :=
  Net (net_mac s) (net_ip s) (net_mask s) (net_gw s) (net_up s) (nt_sent s) (nt_polls s) (nt_reads s) cache next (handlers s)
    (nt_ping s) (nt_dhcp s) (eth_rx_frame s) (icmp_reply s) (icmp_pkt s) (udp_tx s).
Definition with_handlers hs (s : net_st) : net_st :=
  Net (net_mac s) (net_ip s) (net_mask s) (net_gw s) (net_up s) (nt_sent s) (nt_polls s) (nt_reads s) (arp_cache s) (arp_cache_next s) hs
    (nt_ping s) (nt_dhcp s) (eth_rx_frame s) (icmp_reply s) (icmp_pkt s) (udp_tx s).
Definition with_ping p (s : net_st) : net_st :=
  Net (net_mac s) (net_ip s) (net_mask s) (net_gw s) (net_up s) (nt_sent s) (nt_polls s) (nt_reads s) (arp_cache s) (arp_cache_next s) (handlers s)
    p (nt_dhcp s) (eth_rx_frame s) (icmp_reply s) (icmp_pkt s) (udp_tx s).
Definition with_dhcp d (s : net_st) : net_st :=
  Net (net_mac s) (net_ip s) (net_mask s) (net_gw s) (net_up s) (nt_sent s) (nt_polls s) (nt_reads s) (arp_cache s) (arp_cache_next s) (handlers s)
    (nt_ping s) d (eth_rx_frame s) (icmp_reply s) (icmp_pkt s) (udp_tx s).
Definition with_bufs rx reply pkt tx (s : net_st) : net_st :=
  Net (net_mac s) (net_ip s) (net_mask s) (net_gw s) (net_up s) (nt_sent s) (nt_polls s) (nt_reads s) (arp_cache s) (arp_cache_next s) (handlers s)
    (nt_ping s) (nt_dhcp s) rx reply pkt tx.
Definition with_config ip mask gw up (s : net_st) : net_st :=
  Net (net_mac s) ip mask gw up (nt_sent s) (nt_polls s) (nt_reads s) (arp_cache s) (arp_cache_next s) (handlers s)
    (nt_ping s) (nt_dhcp s) (eth_rx_frame s) (icmp_reply s) (icmp_pkt s) (udp_tx s).

Definition net_boot (mac : list Z) : net_st :=
  Net mac (replicate 4 0) (replicate 4 0) (replicate 4 0) false [] 0 0
    (replicate 16 (ArpEntry (replicate 4 0) (replicate 6 0) false)) 0 (replicate 8 (UdpReg 0 FnDhcpRecv false))
    (Ping false false 0 0) (Dhcp false false (replicate 4 0) (replicate 4 0) (replicate 4 0) (replicate 4 0))
    (replicate 1518 0) (replicate 1480 0) (replicate 40 0) (replicate 1480 0).

(** ** Pointers into the shared buffers *)

Variant buffer := BRx | BReply | BPing | BUdpTx | BGw | BVal (l : list Z).
Record ptr := Ptr { p_buf : buffer; p_off : Z }.
Definition p_add (p : ptr) (n : Z) : ptr := Ptr (p_buf p) (p_off p + n).
Definition contents (b : buffer) (s : net_st) : list Z :=
  match b with
  | BRx => eth_rx_frame s | BReply => icmp_reply s | BPing => icmp_pkt s | BUdpTx => udp_tx s | BGw => net_gw s
  | BVal l => l
  end.
(** [n] bytes at a pointer. *)
Definition rd (p : ptr) (n : Z) : M net_st (list Z) := fun s =>
  let b := contents (p_buf p) s in
  if (0 <=? p_off p) && (0 <=? n) && (p_off p + n <=? Z.of_nat (length b)) then Some (slice b (p_off p) n, s) else None.
Definition rd8 (p : ptr) : M net_st Z := l ← rd p 1; mret (get8 l 0).
(** A 16- or 32-bit field in network order. *)
Definition rd_be16 (p : ptr) : M net_st Z := l ← rd p 2; mret (ntohs (get16 l 0)).
Definition rd_be32 (p : ptr) : M net_st Z := l ← rd p 4; mret (ntohl (get32 l 0)).

Section Net.
(** The frame found by the n-th look at the receive ring, the clock (in
    milliseconds) at its n-th reading, and the rounds allowed to each waiting
    loop. *)
Context (frames : nat -> option (list Z)) (clock : nat -> Z) (fuel : nat).

Definition get_tick : M net_st Z := fun s => Some (clock (nt_reads s), with_nic (nt_sent s) (nt_polls s) (S (nt_reads s)) s).

Definition e1000_send (frame : list Z) : M net_st unit :=
  modify (fun s => with_nic (nt_sent s ++ [frame]) (nt_polls s) (nt_reads s) s).
(** The frame is copied to the start of [eth_rx_frame]; its length, 0 for none. *)
Definition e1000_recv (max_len : Z) : M net_st Z := fun s =>
  let s' := with_nic (nt_sent s) (S (nt_polls s)) (nt_reads s) s in
  match frames (nt_polls s) with
  | None => Some (0, s')
  | Some f =>
    let len := u16 (Z.of_nat (length f)) in
    let len := if len >? max_len then max_len else len in
    Some (len, with_bufs (splice (eth_rx_frame s) 0 (take (Z.to_nat len) f)) (icmp_reply s) (icmp_pkt s) (udp_tx s) s')
  end.

Definition eth_send (dst : list Z) (etype : Z) (payload : list Z) : M net_st unit :=
  if Z.of_nat (length payload) >? 1500 then mret tt
  else
    mac ← gets net_mac;
    e1000_send (dst ++ mac ++ [u8 (Z.shiftr etype 8); u8 etype] ++ payload).

(** ** ARP *)

Fixpoint arp_find (cache : list arp_entry_t) (ip : list Z) (i : nat) : option nat :=
  match cache with
  | [] => None
  | e :: cache => if ae_valid e && ip_eq (ae_ip e) ip then Some i else arp_find cache ip (S i)
  end.
Definition arp_lookup (ip : list Z) : M net_st (option (list Z)) := fun s =>
  Some (i ← arp_find (arp_cache s) ip 0; e ← arp_cache s !! i; Some (ae_mac e), s).
Definition arp_insert (ip mac : list Z) : M net_st unit := modify (fun s =>
  match arp_find (arp_cache s) ip 0 with
  | Some i => with_arp (alter (fun e => ArpEntry (ae_ip e) mac (ae_valid e)) i (arp_cache s)) (arp_cache_next s) s
  | None => with_arp (<[Z.to_nat (arp_cache_next s) := ArpEntry ip mac true]> (arp_cache s)) ((arp_cache_next s + 1) mod ARP_CACHE_SIZE) s
  end).

(** The 28 bytes of a packet of ours. *)
Definition arp_pkt_t (opcode : Z) (sender_mac sender_ip target_mac target_ip : list Z) : list Z :=
  le_bytes 2 (htons 1) ++ le_bytes 2 (htons 0x0800) ++ [6; 4] ++ le_bytes 2 (htons opcode) ++
  sender_mac ++ sender_ip ++ target_mac ++ target_ip.
Definition arp_send_request (target_ip : ptr) : M net_st unit :=
  tip ← rd target_ip 4;
  mac ← gets net_mac; ip ← gets net_ip;
  eth_send mac_bcast ETH_TYPE_ARP (arp_pkt_t 1 mac ip (replicate 6 0) tip).

Definition arp_handle (payload : ptr) (len : Z) : M net_st unit :=
  if len <? 28 then mret tt
  else
    hw_type ← rd_be16 payload;
    if negb (hw_type =? 1) then mret tt
    else
      proto_type ← rd_be16 (p_add payload 2);
      if negb (proto_type =? 0x0800) then mret tt
      else
        sender_mac ← rd (p_add payload 8) 6;
        sender_ip ← rd (p_add payload 14) 4;
        arp_insert sender_ip sender_mac;;
        opcode ← rd_be16 (p_add payload 6);
        target_ip ← rd (p_add payload 24) 4;
        ip ← gets net_ip; mac ← gets net_mac;
        if (opcode =? 1) && negb (ip_is_any ip) && ip_eq target_ip ip then
          eth_send sender_mac ETH_TYPE_ARP (arp_pkt_t 2 mac ip sender_mac sender_ip)
        else mret tt.

Section Poll.
(** [net_poll], which the functions that wait call. *)
Context (poll : M net_st unit).

Definition arp_resolve (ip : ptr) : M net_st (option (list Z)) :=
  a ← rd ip 4;
  cached ← arp_lookup a;
  match cached with
  | Some mac => mret (Some mac)
  | None =>
    arp_send_request ip;;
    t ← get_tick;
    let deadline := u64 (t + 1000) in
    loop fuel (fun _ =>
      now ← get_tick;
      if now <? deadline then
        poll;;
        a ← rd ip 4;
        cached ← arp_lookup a;
        mret (match cached with Some mac => inr (Some mac) | None => inl tt end)
      else mret (inr None)) tt
  end.

(** ** IPv4 *)

(** The sum of the 16-bit words, and of the last byte of an odd length. *)
Fixpoint sum_words (n : nat) (data : list Z) (off len sum : Z) : Z :=
  match n with
  | O => sum
  | S n =>
    if len >? 1 then sum_words n data (off + 2) (len - 2) (u32 (sum + get16 data off))
    else if negb (len =? 0) then u32 (sum + get8 data off) else sum
  end.
(** [while (sum >> 16) sum = (sum & 0xFFFF) + (sum >> 16);] *)
Fixpoint fold_sum (n : nat) (sum : Z) : option Z :=
  match n with
  | O => None
  | S n => if Z.shiftr sum 16 =? 0 then Some sum else fold_sum n (u32 (Z.land sum 0xFFFF + Z.shiftr sum 16))
  end.
Definition ip_checksum (data : list Z) : option Z :=
  let len := Z.of_nat (length data) in
  sum ← fold_sum 4 (sum_words (S (length data)) data 0 len 0);
  Some (u16 (not32 sum)).

(** The header with checksum [cs]. *)
Definition ip_hdr_t (total_len proto cs : Z) (src dst : list Z) : list Z :=
  [0x45; 0] ++ le_bytes 2 (htons total_len) ++ [0; 0] ++ le_bytes 2 (htons 0x4000) ++ [64; proto] ++ le_bytes 2 cs ++ src ++ dst.

Definition same_subnet (dst ip mask : list Z) : bool :=
  forallb (fun i => Z.land (get8 dst i) (get8 mask i) =? Z.land (get8 ip i) (get8 mask i)) [0; 1; 2; 3].

Definition ip_send (dst : ptr) (proto : Z) (payload : ptr) (plen : Z) : M net_st unit :=
  if plen >? 1480 then mret tt
  else
    d ← rd dst 4;
    ip ← gets net_ip;
    o ← (if ip_is_bcast d then mret (Some mac_bcast)
         else if ip_is_any ip then mret None
         else mask ← gets net_mask; arp_resolve (if same_subnet d ip mask then dst else Ptr BGw 0));
    match o with
    | None => mret tt
    | Some dst_mac =>
      ip ← gets net_ip;
      d ← rd dst 4;
      cs ← lift_option (ip_checksum (ip_hdr_t (u16 (20 + plen)) proto 0 ip d));
      data ← rd payload plen;
      eth_send dst_mac ETH_TYPE_IP (ip_hdr_t (u16 (20 + plen)) proto cs ip d ++ data)
    end.

(** ** UDP *)

Definition udp_hdr (src_port dst_port len : Z) : list Z :=
  le_bytes 2 (htons src_port) ++ le_bytes 2 (htons dst_port) ++ le_bytes 2 (htons len) ++ [0; 0].
Definition udp_send (dst : ptr) (src_port dst_port : Z) (data : list Z) : M net_st unit :=
  let dlen := Z.of_nat (length data) in
  if dlen >? 1472 then mret tt
  else
    modify (fun s => with_bufs (eth_rx_frame s) (icmp_reply s) (icmp_pkt s)
      (splice (udp_tx s) 0 (udp_hdr src_port dst_port (u16 (8 + dlen)) ++ data)) s);;
    ip_send dst IP_PROTO_UDP (Ptr BUdpTx 0) (u16 (8 + dlen)).

(** ** ICMP echo *)

Definition icmp_handle (src_ip payload : ptr) (len : Z) : M net_st unit :=
  if len <? 8 then mret tt
  else
    type ← rd8 payload;
    if type =? 0 then
      idh ← rd8 (p_add payload 4); idl ← rd8 (p_add payload 5);
      sh ← rd8 (p_add payload 6); sl ← rd8 (p_add payload 7);
      let id := u16 (Z.lor (Z.shiftl idh 8) idl) in
      let seq := u16 (Z.lor (Z.shiftl sh 8) sl) in
      p ← gets nt_ping;
      when (pg_waiting p && (id =? ICMP_PING_ID) && (seq =? pg_seq_cur p))
        (modify (with_ping (Ping (pg_waiting p) true (pg_seq_cur p) (pg_seq p))))
    else if type =? 8 then
      if len >? 1480 then mret tt
      else
        packet ← rd payload len;
        let reply := put8 (put8 (put8 packet 0 0) 2 0) 3 0 in
        cs ← lift_option (ip_checksum reply);
        let reply := put8 (put8 reply 2 (u8 cs)) 3 (u8 (Z.shiftr cs 8)) in
        modify (fun s => with_bufs (eth_rx_frame s) (splice (icmp_reply s) 0 reply) (icmp_pkt s) (udp_tx s) s);;
        ip_send src_ip IP_PROTO_ICMP (Ptr BReply 0) (u16 len)
    else mret tt.
End Poll.

(** ** DHCP: receiving *)

(** The option loop: [visit] at each option with its code, length and value. *)
Definition dhcp_options {A B} (opts : ptr) (olen : Z) (visit : Z -> Z -> ptr -> B -> M net_st (B + A)) (acc : B) (done_ : B -> A) : M net_st A :=
  loop (S (Z.to_nat olen)) (fun '(i, acc) =>
    if i <? olen then
      code ← rd8 (p_add opts i);
      if code =? 0xFF then mret (inr (done_ acc))
      else if code =? 0 then mret (inl (i + 1, acc))
      else
        len ← rd8 (p_add opts (i + 1));
        v ← visit code len (p_add opts (i + 2)) acc;
        mret (match v with inl acc => inl (i + (2 + len), acc) | inr a => inr a end)
    else mret (inr (done_ acc))) (4, acc).
Definition dhcp_option_type (opts : ptr) (olen : Z) : M net_st Z :=
  dhcp_options opts olen (fun code len val _ =>
    if (code =? 53) && (len =? 1) then v ← rd8 val; mret (inr v) else mret (inl tt)) tt (fun _ => 0).

Definition set_mask (v : list Z) (d : dhcp_t) : dhcp_t := Dhcp (dh_got_offer d) (dh_got_ack d) (dh_ip d) (dh_server d) v (dh_gw d).
Definition set_gw (v : list Z) (d : dhcp_t) : dhcp_t := Dhcp (dh_got_offer d) (dh_got_ack d) (dh_ip d) (dh_server d) (dh_mask d) v.
Definition set_server (v : list Z) (d : dhcp_t) : dhcp_t := Dhcp (dh_got_offer d) (dh_got_ack d) (dh_ip d) v (dh_mask d) (dh_gw d).
Definition upd_dhcp (f : dhcp_t -> dhcp_t) : M net_st unit := modify (fun s => with_dhcp (f (nt_dhcp s)) s).

Definition dhcp_parse_options (opts : ptr) (olen : Z) : M net_st unit :=
  dhcp_options opts olen (fun code len val _ =>
    (if (code =? 1) && (len =? 4) then v ← rd val 4; upd_dhcp (set_mask v) else mret tt);;
    (if (code =? 3) && (len >=? 4) then v ← rd val 4; upd_dhcp (set_gw v) else mret tt);;
    (if (code =? 54) && (len =? 4) then v ← rd val 4; upd_dhcp (set_server v) else mret tt);;
    mret (inl tt)) tt (fun _ => tt).

Definition dhcp_recv (data : ptr) (len : Z) : M net_st unit :=
  if len <? 548 then mret tt
  else
    xid ← rd_be32 (p_add data 4);
    if negb (xid =? DHCP_XID) then mret tt
    else
      op ← rd8 data;
      if negb (op =? 2) then mret tt
      else
        cookie ← rd (p_add data 236) 4;
        if negb (bytes_eq 4 cookie [0x63; 0x82; 0x53; 0x63]) then mret tt
        else
          mtype ← dhcp_option_type (p_add data 236) 312;
          dhcp_parse_options (p_add data 236) 312;;
          yiaddr ← rd (p_add data 16) 4;
          upd_dhcp (fun d =>
            if mtype =? DHCPOFFER then Dhcp true (dh_got_ack d) yiaddr (dh_server d) (dh_mask d) (dh_gw d)
            else if mtype =? DHCPACK then Dhcp (dh_got_offer d) true yiaddr (dh_server d) (dh_mask d) (dh_gw d)
            else d).

(** ** Dispatch *)

(** Registration: the slot of the port, or the first free one. *)
Fixpoint find_handler (p : udp_reg_t -> bool) (hs : list udp_reg_t) (i : nat) : option nat :=
  match hs with [] => None | h :: hs => if p h then Some i else find_handler p hs (S i) end.
Definition udp_register (port : Z) (fn : udp_handler_t) : M net_st unit := modify (fun s =>
  match find_handler (fun h => ur_used h && (ur_port h =? port)) (handlers s) 0 with
  | Some i => with_handlers (alter (fun h => UdpReg (ur_port h) fn (ur_used h)) i (handlers s)) s
  | None =>
    match find_handler (fun h => negb (ur_used h)) (handlers s) 0 with
    | Some i => with_handlers (<[i := UdpReg port fn true]> (handlers s)) s
    | None => s
    end
  end).

Definition udp_handle (payload : ptr) (len : Z) : M net_st unit :=
  if len <? 8 then mret tt
  else
    dst_port ← rd_be16 (p_add payload 2);
    ulen ← rd_be16 (p_add payload 4);
    if ulen <? 8 then mret tt
    else
      let dlen := u16 (ulen - 8) in
      let dlen := if dlen >? u16 (len - 8) then u16 (len - 8) else dlen in
      hs ← gets handlers;
      match find_handler (fun h => ur_used h && (ur_port h =? dst_port)) hs 0 with
      | None => mret tt
      | Some i =>
        match hs !! i with
        | Some h => match ur_fn h with FnDhcpRecv => dhcp_recv (p_add payload 8) dlen end
        | None => mret tt
        end
      end.

Definition ip_recv (poll : M net_st unit) (payload : ptr) (len : Z) : M net_st unit :=
  if len <? 20 then mret tt
  else
    version_ihl ← rd8 payload;
    if negb (Z.shiftr version_ihl 4 =? 4) then mret tt
    else
      let ihl := Z.land version_ihl 0xF * 4 in
      if (ihl <? 20) || (ihl >? len) then mret tt
      else
        dst ← rd (p_add payload 16) 4;
        ip ← gets net_ip;
        if negb (ip_eq dst ip) && negb (ip_is_bcast dst) then mret tt
        else
          total_len ← rd_be16 (p_add payload 2);
          let dlen := total_len - ihl in
          let dlen := if (dlen <? 0) || (dlen >? len - ihl) then len - ihl else dlen in
          protocol ← rd8 (p_add payload 9);
          if protocol =? IP_PROTO_ICMP then icmp_handle poll (p_add payload 12) (p_add payload ihl) dlen
          else if protocol =? IP_PROTO_UDP then udp_handle (p_add payload ihl) dlen
          else mret tt.

(** The depth of the nesting is bounded by the fuel. *)
Fixpoint net_poll (depth : nat) : M net_st unit :=
  match depth with
  | O => diverge
  | S depth =>
    len ← e1000_recv 1518;
    if len <? 14 then mret tt
    else
      dst ← rd (Ptr BRx 0) 6;
      mac ← gets net_mac;
      if negb (mac_eq dst mac) && negb (mac_eq dst mac_bcast) then mret tt
      else
        th ← rd8 (Ptr BRx 12); tl ← rd8 (Ptr BRx 13);
        let etype := u16 (Z.lor (Z.shiftl th 8) tl) in
        if etype =? ETH_TYPE_ARP then arp_handle (Ptr BRx 14) (len - 14)
        else if etype =? ETH_TYPE_IP then ip_recv (net_poll depth) (Ptr BRx 14) (len - 14)
        else mret tt
  end.

(** ** Ping *)

(** The 40 bytes of the request with number [sq], but for the checksum. *)
Definition ping_packet (sq : Z) : list Z :=
  [8; 0; 0; 0; u8 (Z.shiftr ICMP_PING_ID 8); u8 ICMP_PING_ID; u8 (Z.shiftr sq 8); u8 sq] ++
  map (fun i => 65 + Z.of_nat i mod 26) (seq 0 (Z.to_nat ICMP_DATA_LEN)).

(** The round-trip time in milliseconds, or -1. *)
Definition icmp_ping (depth : nat) (dst : ptr) (timeout_ms : Z) : M net_st Z :=
  p ← gets nt_ping;
  let sq := u16 (pg_seq p + 1) in
  cs ← lift_option (ip_checksum (ping_packet sq));
  modify (fun s => with_bufs (eth_rx_frame s) (icmp_reply s) (put8 (put8 (ping_packet sq) 2 (u8 cs)) 3 (u8 (Z.shiftr cs 8))) (udp_tx s)
    (with_ping (Ping true false sq sq) s));;
  t0 ← get_tick;
  ip_send (net_poll depth) dst IP_PROTO_ICMP (Ptr BPing 0) 40;;
  let stop := modify (fun s => let p := nt_ping s in with_ping (Ping false (pg_got p) (pg_seq_cur p) (pg_seq p)) s) in
  loop fuel (fun _ =>
    now ← get_tick;
    if now <? u64 (t0 + timeout_ms) then
      net_poll depth;;
      p ← gets nt_ping;
      if pg_got p then stop;; now ← get_tick; mret (inr (s32 (now - t0))) else mret (inl tt)
    else stop;; mret (inr (-1))) tt.

(** ** DHCP: the client *)

Definition dhcp_request_options (msg_type : Z) (mac ip server : list Z) : list Z :=
  [0x63; 0x82; 0x53; 0x63; 53; 1; msg_type] ++
  (if msg_type =? DHCPDISCOVER then [55; 3; 1; 3; 6] ++ [61; 7; 1] ++ mac
   else if msg_type =? DHCPREQUEST then [50; 4] ++ ip ++ [54; 4] ++ server
   else []) ++ [0xFF].
(** The 548 bytes of a message of ours. *)
Definition dhcp_msg_t (msg_type : Z) (mac ip server : list Z) : list Z :=
  [1; 1; 6; 0] ++ le_bytes 4 (htonl DHCP_XID) ++ [0; 0] ++ le_bytes 2 (htons 0x8000) ++ replicate 16 0 ++
  (mac ++ replicate 10 0) ++ replicate 192 0 ++ splice (replicate 312 0) 0 (dhcp_request_options msg_type mac ip server).
Definition dhcp_send (depth : nat) (msg_type : Z) : M net_st unit :=
  mac ← gets net_mac; d ← gets nt_dhcp;
  udp_send (net_poll depth) (Ptr (BVal ip_bcast) 0) DHCP_PORT_C DHCP_PORT_S (dhcp_msg_t msg_type mac (dh_ip d) (dh_server d)).

(** Poll for three seconds, until [got]. *)
Definition dhcp_wait (depth : nat) (got : dhcp_t -> bool) : M net_st bool :=
  t ← get_tick;
  loop fuel (fun _ =>
    now ← get_tick;
    if now <? u64 (t + 3000) then
      net_poll depth;;
      d ← gets nt_dhcp;
      if got d then mret (inr (got d)) else mret (inl tt)
    else d ← gets nt_dhcp; mret (inr (got d))) tt.

Definition dhcp_discover (depth : nat) : M net_st Z :=
  udp_register DHCP_PORT_C FnDhcpRecv;;
  upd_dhcp (fun d => Dhcp false false (dh_ip d) (dh_server d) (dh_mask d) (dh_gw d));;
  dhcp_send depth DHCPDISCOVER;;
  ok ← dhcp_wait depth dh_got_offer;
  if negb ok then mret (-1)
  else
    dhcp_send depth DHCPREQUEST;;
    ok ← dhcp_wait depth dh_got_ack;
    if negb ok then mret (-1)
    else
      modify (fun s => let d := nt_dhcp s in with_config (dh_ip d) (dh_mask d) (dh_gw d) (net_up s) s);;
      mret 0.

(** [nic]: whether a controller was found. *)
Definition net_init (nic : bool) (depth : nat) : M net_st unit :=
  if negb nic then mret tt
  else
    rc ← dhcp_discover depth;
    when (rc =? 0) (modify (fun s => with_config (net_ip s) (net_mask s) (net_gw s) true s)).
End Net.
