(* ===== verification/NetProofs.v ===== *)
(** * The network stack: proofs

    The Internet checksum is the one of RFC 1071 and verifies; the ARP cache
    is a map with round-robin eviction; an echo request is answered by the
    packet the protocol asks for; and whatever arrives, receiving reads no byte
    outside the buffers and comes to an end. *)

From S2P Require Import Prelude Net.

(** ** The checksum *)

(** The sum of the 16-bit words of a packet. *)
Fixpoint words_sum (data : list Z) : Z :=
  match data with
  | a :: b :: data => a + 256 * b + words_sum data
  | [a] => a
  | [] => 0
  end.

Lemma words_ind (P : list Z -> Prop) : P [] -> (forall a, P [a]) -> (forall a b l, P l -> P (a :: b :: l)) -> forall l, P l.
Proof.
  intros H0 H1 H2 l. assert (H : P l /\ forall a, P (a :: l)); [|apply H].
  induction l as [|b l [IH1 IH2]]; split; auto.
Qed.

Lemma words_sum_range data : bytes data -> 0 <= words_sum data /\ 2 * words_sum data <= 65535 * (Z.of_nat (length data) + Z.of_nat (length data) mod 2).
Proof.
  induction data as [|a|a b l IH] using words_ind; intros Hb.
  - done.
  - apply Forall_cons in Hb as [Ha _]. unfold in_u8 in Ha. cbn [words_sum length]. change (Z.of_nat 1 mod 2) with 1. lia.
  - apply Forall_cons in Hb as [Ha Hb]. apply Forall_cons in Hb as [Hb Hl]. specialize (IH Hl). unfold in_u8 in *.
    cbn [words_sum length]. rewrite !Nat2Z.inj_succ.
    replace (Z.succ (Z.succ (Z.of_nat (length l)))) with (Z.of_nat (length l) + 1 * 2) by lia. rewrite Z.mod_add by lia. lia.
Qed.

Lemma slice_cons2 a b l off n : 2 <= off -> slice (a :: b :: l) off n = slice l (off - 2) n.
Proof.
  intros Ho. unfold slice. replace (Z.to_nat off) with (S (S (Z.to_nat (off - 2)))) by lia. done.
Qed.
Lemma get8_cons2 a b l off : 2 <= off -> get8 (a :: b :: l) off = get8 l (off - 2).
Proof. intros Ho. unfold get8. by replace (Z.to_nat off) with (S (S (Z.to_nat (off - 2)))) by lia. Qed.

Lemma sum_words_shift n a b l off len sum : 0 <= off -> sum_words n (a :: b :: l) (off + 2) len sum = sum_words n l off len sum.
Proof.
  revert off len sum. induction n as [|n IH]; intros off len sum Ho; cbn [sum_words]; [done|]. unfold get16.
  rewrite slice_cons2, get8_cons2 by lia. replace (off + 2 - 2) with off by lia.
  replace (off + 2 + 2) with ((off + 2) + 2) by lia. by rewrite IH by lia.
Qed.

Lemma sum_words_ok data n sum :
  bytes data -> 0 <= sum -> sum + words_sum data < 4294967296 -> (length data < n)%nat ->
  sum_words n data 0 (Z.of_nat (length data)) sum = sum + words_sum data.
Proof.
  revert n sum. induction data as [|a|a b l IH] using words_ind; intros n sum Hb Hs Hle Hn.
  - destruct n; [cbn in Hn; lia|]. symmetry. apply Z.add_0_r.
  - destruct n; [cbn in Hn; lia|]. cbn [words_sum] in *. apply u32_id. unfold in_u32. apply Forall_cons in Hb as [Ha _]. unfold in_u8 in Ha. cbn. lia.
  - destruct n as [|n]; [cbn in Hn; lia|]. apply Forall_cons in Hb as [Ha Hb]. apply Forall_cons in Hb as [Hb Hl].
    pose proof (words_sum_range l Hl). cbn [words_sum] in Hle |- *. unfold in_u8 in *. cbn [sum_words].
    destruct (Z.gtb_spec (Z.of_nat (length (a :: b :: l))) 1); [|cbn [length] in *; lia].
    replace (get16 (a :: b :: l) 0) with (a + 256 * b) by (unfold get16; change (slice (a :: b :: l) 0 2) with [a; b]; cbn [le_val]; lia).
    rewrite u32_id by (unfold in_u32; lia). change (0 + 2) with (0 + 2). rewrite sum_words_shift by lia.
    replace (Z.of_nat (length (a :: b :: l)) - 2) with (Z.of_nat (length l)) by (cbn [length]; lia).
    rewrite IH; [lia|done|lia|lia|cbn in Hn; lia].
Qed.

(** Folding keeps the residue modulo 0xFFFF, and only 0 folds to 0. *)
Lemma fold_step sum : Z.land sum 0xFFFF + Z.shiftr sum 16 = sum - 65535 * (sum / 65536).
Proof. change 0xFFFF with (2 ^ 16 - 1). rewrite land_ones_mod by done. rewrite Z.shiftr_div_pow2 by done. change (2 ^ 16) with 65536. zlia. Qed.

Lemma fold_sum_ok sum :
  0 <= sum < 4294967296 -> exists r, fold_sum 4 sum = Some r /\ 0 <= r <= 65535 /\ (r - sum) mod 65535 = 0 /\ (0 < sum -> 0 < r).
Proof.
  assert (Hstep : forall n s, 0 <= s < 4294967296 -> fold_sum (S n) s =
    if s <? 65536 then Some s else fold_sum n (s - 65535 * (s / 65536))).
  { intros n s Hs. cbn [fold_sum]. rewrite fold_step, Z.shiftr_div_pow2 by done. change (2 ^ 16) with 65536.
    destruct (Z.eqb_spec (s / 65536) 0), (Z.ltb_spec s 65536); try zlia; [done|].
    f_equal. apply u32_id. unfold in_u32. zlia. }
  intros Hs. rewrite Hstep by done. destruct (Z.ltb_spec sum 65536).
  { exists sum. split; [done|]. rewrite Z.sub_diag. split; [lia|done]. }
  set (s1 := sum - 65535 * (sum / 65536)). assert (Hs1 : 0 < s1 <= 131070) by (unfold s1; zlia).
  rewrite Hstep by lia. destruct (Z.ltb_spec s1 65536).
  { exists s1. split; [done|]. split; [lia|]. split; [|lia]. unfold s1. replace (_ - sum) with (- (sum / 65536) * 65535) by lia. apply Z.mod_mul. lia. }
  set (s2 := s1 - 65535 * (s1 / 65536)). assert (Hs2 : 0 < s2 <= 65535) by (unfold s2; zlia).
  rewrite Hstep by lia. destruct (Z.ltb_spec s2 65536); [|lia].
  exists s2. split; [done|]. split; [lia|]. split; [|lia]. unfold s2, s1.
  replace (_ - sum) with (- (sum / 65536 + (sum - 65535 * (sum / 65536)) / 65536) * 65535) by lia. apply Z.mod_mul. lia.
Qed.

(** The length up to which the 32-bit sum cannot overflow. *)
Definition checkable (data : list Z) : Prop := bytes data /\ Z.of_nat (length data) <= 131072.

Lemma ip_checksum_ok data :
  checkable data -> exists cs, ip_checksum data = Some cs /\ in_u16 cs /\ (cs + words_sum data) mod 65535 = 0 /\
    (0 < words_sum data -> cs < 65535).
Proof.
  intros [Hb Hl]. pose proof (words_sum_range data Hb) as Hr.
  assert (Hw : words_sum data < 4294967296) by zlia.
  unfold ip_checksum. rewrite sum_words_ok by (done || lia). rewrite Z.add_0_l.
  destruct (fold_sum_ok (words_sum data) ltac:(lia)) as (r & -> & Hr1 & Hr2 & Hr3). cbn [mbind option_bind].
  assert (E : u16 (not32 r) = 65535 - r) by (unfold u16, not32; zlia).
  exists (65535 - r). rewrite E. split; [done|]. split; [unfold in_u16; lia|]. split; [|lia].
  replace (65535 - r + words_sum data) with (1 * 65535 - (r - words_sum data)) by lia.
  rewrite Zminus_mod, Hr2, Z.mod_mul by lia. done.
Qed.

(** The sum of a packet that sums to a multiple of 0xFFFF, other than 0, is
    accepted by a receiver. *)
Lemma ip_checksum_verifies data :
  checkable data -> 0 < words_sum data -> words_sum data mod 65535 = 0 -> ip_checksum data = Some 0.
Proof.
  intros Hc Hpos Hm. destruct (ip_checksum_ok data Hc) as (cs & E & Hr & Hcs & Hlt). rewrite E. f_equal.
  specialize (Hlt Hpos). rewrite Zplus_mod, Hm, Z.add_0_r, Z.mod_mod in Hcs by lia. rewrite Z.mod_small in Hcs by (unfold in_u16 in Hr; lia). done.
Qed.

Lemma words_sum_app a b : (length a mod 2 = 0)%nat -> words_sum (a ++ b) = words_sum a + words_sum b.
Proof.
  induction a as [|x|x y l IH] using words_ind; intros Hl; [done|done|]. cbn [words_sum app]. rewrite IH; [lia|].
  cbn [length] in Hl. replace (S (S (length l))) with (length l + 1 * 2)%nat in Hl by lia. by rewrite Nat.Div0.mod_add in Hl.
Qed.

Lemma ip_checksum_correct_ok pre post :
  checkable (pre ++ [0; 0] ++ post) -> (length pre mod 2 = 0)%nat ->
  exists cs, ip_checksum (pre ++ [0; 0] ++ post) = Some cs /\ in_u16 cs /\
    ip_checksum (pre ++ le_bytes 2 cs ++ post) = Some 0.
Proof.
  intros Hc Hp. destruct (ip_checksum_ok _ Hc) as (cs & E & Hr & Hm & Hlt). exists cs. split; [done|]. split; [done|].
  unfold in_u16 in Hr. assert (Hb2 : bytes (le_bytes 2 cs)) by apply le_bytes_bytes. destruct Hc as [Hb Hl].
  apply Forall_app in Hb as [Hb1 Hb]. apply Forall_app in Hb as [_ Hb3].
  assert (Es : words_sum (pre ++ le_bytes 2 cs ++ post) = cs + words_sum (pre ++ [0; 0] ++ post)).
  { rewrite !words_sum_app by done. cbn [app words_sum le_bytes]. pose proof (Z.div_mod cs 256). zlia. }
  assert (Hs0 : 0 <= words_sum (pre ++ [0; 0] ++ post)) by (apply words_sum_range; repeat apply Forall_app_2; done || by repeat constructor).
  apply ip_checksum_verifies.
  - split; [by repeat apply Forall_app_2|]. rewrite !length_app in *. cbn [length le_bytes] in *. lia.
  - rewrite Es. destruct (Z.eq_dec (words_sum (pre ++ [0; 0] ++ post)) 0) as [E0|]; [|lia].
    rewrite E0, Z.add_0_r in Hm. rewrite E0. destruct (Z.eq_dec cs 0) as [->|]; [|lia]. exfalso.
    unfold ip_checksum in E. rewrite sum_words_ok in E by (try lia; (by split) || (repeat apply Forall_app_2; done || by repeat constructor)).
    rewrite E0 in E. by cbn in E.
  - rewrite Es. done.
Qed.

(** Of ip.c, [ip_checksum]: for packets of at most 128 KiB the function
    returns, and storing its result in a 16-bit field (at an even offset) that
    was zero makes the packet one whose checksum verifies: summing it again
    gives 0. *)
Theorem ip_checksum_correct pre post :
  checkable (pre ++ [0; 0] ++ post) -> (length pre mod 2 = 0)%nat ->
  exists cs, ip_checksum (pre ++ [0; 0] ++ post) = Some cs /\ in_u16 cs /\
    ip_checksum (pre ++ le_bytes 2 cs ++ post) = Some 0.
Proof. apply ip_checksum_correct_ok. Qed.

(** ** Addresses *)

Lemma bytes_eq_spec n a b : length a = n -> length b = n -> bytes_eq n a b = true <-> a = b.
Proof.
  intros Ha Hb. unfold bytes_eq. rewrite forallb_forall. split.
  - intros H. apply list_eq. intros i. destruct (decide (i < n)%nat) as [Hi|Hi]; [|rewrite !lookup_ge_None_2 by lia; done].
    assert (Hin : In i (seq 0 n)) by (apply in_seq; lia). specialize (H i Hin). apply Z.eqb_eq in H. unfold get8 in H. rewrite Nat2Z.id in H.
    destruct (lookup_lt_is_Some_2 a i) as [x Hx]; [lia|]. destruct (lookup_lt_is_Some_2 b i) as [y Hy]; [lia|].
    rewrite Hx, Hy in *. cbn in H. by rewrite H.
  - intros -> i _. apply Z.eqb_refl.
Qed.

Lemma ip_eq_spec a b : length a = 4%nat -> length b = 4%nat -> ip_eq a b = true <-> a = b.
Proof. apply bytes_eq_spec. Qed.
Lemma ip_eq_refl a : ip_eq a a = true.
Proof. unfold ip_eq, bytes_eq. apply forallb_forall. intros. apply Z.eqb_refl. Qed.

(** ** The ARP cache *)

(** The table as a map from IP to hardware addresses. *)
Definition arp_map (cache : list arp_entry_t) (ip : list Z) : option (list Z) :=
  i ← arp_find cache ip 0; e ← cache !! i; Some (ae_mac e).
Definition holds (cache : list arp_entry_t) (i : nat) (ip : list Z) : Prop :=
  exists e, cache !! i = Some e /\ ae_valid e = true /\ ae_ip e = ip.

(** Sixteen entries, the next victim among them, and no address twice. *)
Record arp_ok (cache : list arp_entry_t) (next : Z) : Prop := {
  ao_len : length cache = 16%nat;
  ao_next : 0 <= next < 16;
  ao_ip : forall e, e ∈ cache -> length (ae_ip e) = 4%nat /\ length (ae_mac e) = 6%nat;
  ao_unique : forall i j ip, holds cache i ip -> holds cache j ip -> i = j;
}.

Lemma arp_find_shift cache ip k : arp_find cache ip (S k) = (fun i => S i) <$> arp_find cache ip k.
Proof. revert k. induction cache as [|e cache IH]; intros k; cbn [arp_find]; [done|]. by destruct (ae_valid e && ip_eq (ae_ip e) ip). Qed.

Lemma arp_find_spec cache ip :
  (forall e, e ∈ cache -> length (ae_ip e) = 4%nat) -> length ip = 4%nat ->
  match arp_find cache ip 0 with
  | Some i => holds cache i ip
  | None => forall i, ~ holds cache i ip
  end.
Proof.
  intros Hc Hip. induction cache as [|e cache IH]; cbn [arp_find]; [by intros i (? & ? & _)|].
  destruct (ae_valid e) eqn:Ev; cbn [andb]; [destruct (ip_eq (ae_ip e) ip) eqn:Ee|].
  { exists e. split; [done|]. split; [done|]. apply ip_eq_spec; [apply Hc; by left|done|done]. }
  all: rewrite arp_find_shift; specialize (IH (fun e' He => Hc e' (proj2 (elem_of_cons _ _ _) (or_intror He))));
    destruct (arp_find cache ip 0) as [i|]; cbn [fmap option_fmap option_map];
    [destruct IH as (e' & Hi & Hr); by exists e'|].
  all: intros [|i] (e' & Hi & Hv & Hp); [injection Hi as <-|apply (IH i); by exists e'].
  - subst ip. by rewrite ip_eq_refl in Ee.
  - congruence.
Qed.

Lemma arp_map_spec cache next ip mac :
  arp_ok cache next -> length ip = 4%nat ->
  arp_map cache ip = Some mac <-> exists i e, cache !! i = Some e /\ ae_valid e = true /\ ae_ip e = ip /\ ae_mac e = mac.
Proof.
  intros [Hl Hn Hip Hu] Hip4. unfold arp_map. pose proof (arp_find_spec cache ip (fun e He => proj1 (Hip e He)) Hip4) as Hf.
  destruct (arp_find cache ip 0) as [i|]; cbn [mbind option_bind].
  - destruct Hf as (e & Hi & Hv & Hp). rewrite Hi. cbn [mbind option_bind]. split.
    + intros [= <-]. by exists i, e.
    + intros (j & e' & Hj & Hv' & Hp' & <-). assert (i = j) as <- by (apply (Hu i j ip); [by exists e|by exists e']). congruence.
  - split; [done|]. intros (j & e & Hj & Hv & Hp & _). exfalso. apply (Hf j). by exists e.
Qed.

Lemma arp_map_none cache next ip :
  arp_ok cache next -> length ip = 4%nat -> arp_map cache ip = None <-> forall i, ~ holds cache i ip.
Proof.
  intros Hok Hip. destruct (arp_map cache ip) as [mac|] eqn:E.
  - apply (arp_map_spec _ _ _ _ Hok Hip) in E as (i & e & Hi & Hv & Hp & _). split; [done|]. intros H. exfalso. apply (H i). by exists e.
  - split; [|done]. intros _ i (e & Hi & Hv & Hp).
    assert (Hs : arp_map cache ip = Some (ae_mac e)) by (apply (arp_map_spec _ _ _ _ Hok Hip); by exists i, e). congruence.
Qed.

(** The table after an insertion that finds the address, or takes the slot
    [next]. *)
Definition arp_table (cache : list arp_entry_t) (next : Z) (ip mac : list Z) : list arp_entry_t * Z :=
  match arp_find cache ip 0 with
  | Some i => (alter (fun e => ArpEntry (ae_ip e) mac (ae_valid e)) i cache, next)
  | None => (<[Z.to_nat next := ArpEntry ip mac true]> cache, (next + 1) mod ARP_CACHE_SIZE)
  end.

Lemma arp_table_ok cache next ip mac :
  arp_ok cache next -> length ip = 4%nat -> length mac = 6%nat ->
  let '(cache', next') := arp_table cache next ip mac in
  arp_ok cache' next' /\
  forall j x e, cache' !! j = Some e -> ae_valid e = true -> ae_ip e = x ->
    if decide (x = ip) then ae_mac e = mac else cache !! j = Some e.
Proof.
  intros [Hl Hn Hip Hu] H4 H6. pose proof (arp_find_spec cache ip (fun e He => proj1 (Hip e He)) H4) as Hf.
  unfold arp_table. destruct (arp_find cache ip 0) as [i|].
  - destruct Hf as (e0 & Hi & Hv0 & Hp0). rewrite (list_alter_insert _ _ _ _ Hi). rewrite Hv0, Hp0.
    pose proof (lookup_lt_Some _ _ _ Hi) as Hlt.
    assert (Hk : forall j e, <[i := ArpEntry ip mac true]> cache !! j = Some e -> (j = i /\ e = ArpEntry ip mac true) \/ (j <> i /\ cache !! j = Some e)).
    { intros j e [(-> & <- & _)|[Hne Hj]]%list_lookup_insert_Some; [by left|right; by split]. }
    assert (Hh : forall j x, holds (<[i := ArpEntry ip mac true]> cache) j x -> holds cache j x).
    { intros j x (e & [[-> ->]|[Hne Hj]]%Hk & Hv & Hx); [exists e0; cbn in Hx; by subst x|by exists e]. }
    split; [split; [by rewrite length_insert|done| |intros j j' x H1 H2; eapply Hu; eauto]|].
    + intros e He. apply list_elem_of_lookup in He as [j [[-> ->]|[Hne Hj]]%Hk]; [done|]. apply Hip, list_elem_of_lookup. by exists j.
    + intros j x e [[-> ->]|[Hne Hj]]%Hk Hv Hx; cbn in Hx; [subst x; by rewrite decide_True|]. case_decide as E; [|done]. subst x.
      exfalso. apply Hne, (Hu j i ip); [exists e; done|exists e0; done].
  - assert (Hk : forall j e, <[Z.to_nat next := ArpEntry ip mac true]> cache !! j = Some e ->
      (j = Z.to_nat next /\ e = ArpEntry ip mac true) \/ (j <> Z.to_nat next /\ cache !! j = Some e)).
    { intros j e [(-> & <- & _)|[Hne Hj]]%list_lookup_insert_Some; [by left|right; by split]. }
    split; [split; [by rewrite length_insert|unfold ARP_CACHE_SIZE; zlia| |]|].
    + intros e He. apply list_elem_of_lookup in He as [j [[-> ->]|[Hne Hj]]%Hk]; [done|]. apply Hip, list_elem_of_lookup. by exists j.
    + intros j j' x (e & [[-> ->]|[Hne Hj]]%Hk & Hv & Hx) (e' & [[-> ->]|[Hne' Hj']]%Hk & Hv' & Hx'); cbn in *; subst.
      * done.
      * exfalso. apply (Hf j'). by exists e'.
      * exfalso. apply (Hf j). by exists e.
      * apply (Hu j j' (ae_ip e')); [by exists e|by exists e'].
    + intros j x e [[-> ->]|[Hne Hj]]%Hk Hv Hx; cbn in Hx; [subst x; by rewrite decide_True|]. case_decide as E; [|done]. subst x.
      exfalso. apply (Hf j). by exists e.
Qed.

(** The inserted entry is there, and no entry of another address leaves but
    the victim's. *)
Lemma arp_table_has cache next ip mac :
  arp_ok cache next -> length ip = 4%nat ->
  exists j, (arp_table cache next ip mac).1 !! j = Some (ArpEntry ip mac true).
Proof.
  intros [Hl Hn Hip Hu] H4. pose proof (arp_find_spec cache ip (fun e He => proj1 (Hip e He)) H4) as Hf. unfold arp_table.
  destruct (arp_find cache ip 0) as [i|]; cbn [fst].
  - destruct Hf as (e0 & Hi & Hv0 & Hp0). exists i. rewrite (list_alter_insert _ _ _ _ Hi), Hv0, Hp0. apply list_lookup_insert_eq. by eapply lookup_lt_Some.
  - exists (Z.to_nat next). apply list_lookup_insert_eq. lia.
Qed.

Lemma arp_table_keep cache next ip mac j e :
  arp_ok cache next -> length ip = 4%nat -> cache !! j = Some e -> ae_valid e = true -> ae_ip e <> ip ->
  (arp_map cache ip = None -> j <> Z.to_nat next) -> (arp_table cache next ip mac).1 !! j = Some e.
Proof.
  intros Hok H4 Hj Hv Hne Hvic. pose proof Hok as [Hl Hn Hip Hu]. pose proof (arp_find_spec cache ip (fun e He => proj1 (Hip e He)) H4) as Hf.
  unfold arp_table, arp_map in *. destruct (arp_find cache ip 0) as [i|]; cbn [fst mbind option_bind] in *.
  - destruct Hf as (e0 & Hi & Hv0 & Hp0). rewrite list_lookup_alter_ne; [done|]. intros ->. congruence.
  - rewrite list_lookup_insert_ne; [done|]. symmetry. by apply Hvic.
Qed.

(** C16 (arp.c, [arp_insert] and [arp_lookup]): the cache is a map from IP to
    hardware addresses of at most sixteen entries. After an insertion the
    address maps to the new hardware address, and every other address maps to
    what it did, but for the one whose slot was next in turn when the address
    was new: it is forgotten. *)
Theorem arp_cache_correct s ip mac :
  arp_ok (arp_cache s) (arp_cache_next s) -> length ip = 4%nat -> length mac = 6%nat ->
  exists s', arp_insert ip mac s = Some (tt, s') /\ arp_ok (arp_cache s') (arp_cache_next s') /\
    arp_lookup ip s' = Some (Some mac, s') /\
    forall x, length x = 4%nat -> x <> ip ->
      arp_map (arp_cache s') x = arp_map (arp_cache s) x \/
      (arp_map (arp_cache s) ip = None /\ holds (arp_cache s) (Z.to_nat (arp_cache_next s)) x /\ arp_map (arp_cache s') x = None).
Proof.
  intros Hok H4 H6. set (s' := with_arp (arp_table (arp_cache s) (arp_cache_next s) ip mac).1 (arp_table (arp_cache s) (arp_cache_next s) ip mac).2 s).
  exists s'. split.
  { unfold arp_insert, modify, s', arp_table. by destruct (arp_find (arp_cache s) ip 0). }
  pose proof (arp_table_ok (arp_cache s) (arp_cache_next s) ip mac Hok H4 H6) as Ht.
  pose proof (arp_table_has (arp_cache s) (arp_cache_next s) ip mac Hok H4) as [k Hk].
  pose proof (arp_table_keep (arp_cache s) (arp_cache_next s) ip mac) as Hkeep.
  change (arp_cache s') with (arp_table (arp_cache s) (arp_cache_next s) ip mac).1.
  change (arp_cache_next s') with (arp_table (arp_cache s) (arp_cache_next s) ip mac).2.
  unfold arp_lookup. change (arp_cache s') with (arp_table (arp_cache s) (arp_cache_next s) ip mac).1.
  destruct (arp_table (arp_cache s) (arp_cache_next s) ip mac) as [cache' next'] eqn:Et. destruct Ht as [Hok' Hall]. cbn [fst snd] in *.
  split; [done|]. split.
  { fold (arp_map cache' ip). do 2 f_equal. apply (arp_map_spec _ _ _ _ Hok' H4). by exists k, (ArpEntry ip mac true). }
  intros x Hx Hne. destruct (arp_map (arp_cache s) x) as [m|] eqn:Em.
  - apply (arp_map_spec _ _ _ _ Hok Hx) in Em as (j & e & Hj & Hv & Hp & Hm).
    destruct (arp_map (arp_cache s) ip) eqn:Ei; [|destruct (decide (j = Z.to_nat (arp_cache_next s))) as [Hvic|Hvic]].
    + left. apply (arp_map_spec _ _ _ _ Hok' Hx). exists j, e. split; [|done]. apply (Hkeep j e); (done || (intros; congruence)).
    + right. split; [done|]. split; [exists e; by subst j|]. apply (arp_map_none _ _ _ Hok' Hx). intros i (e' & Hi & Hv' & Hp').
      specialize (Hall i x e' Hi Hv' Hp'). rewrite decide_False in Hall by done.
      assert (i = j) as -> by (apply (ao_unique _ _ Hok i j x); [by exists e'|by exists e]).
      unfold arp_table in Et. unfold arp_map in Ei. pose proof (arp_find_spec (arp_cache s) ip (fun e He => proj1 (ao_ip _ _ Hok e He)) H4) as Hf.
      destruct (arp_find (arp_cache s) ip 0) as [i0|].
      * destruct Hf as (e1 & Hi1 & _). cbn in Ei. by rewrite Hi1 in Ei.
      * injection Et as <- _. rewrite Hvic, list_lookup_insert_eq in Hi by (destruct Hok; lia). injection Hi as <-. cbn in Hp'. congruence.
    + left. apply (arp_map_spec _ _ _ _ Hok' Hx). exists j, e. split; [|done]. apply (Hkeep j e); (done || (intros; congruence)).
  - left. apply (arp_map_none _ _ _ Hok' Hx). intros i (e & Hi & Hv & Hp). specialize (Hall i x e Hi Hv Hp).
    rewrite decide_False in Hall by done. apply (proj1 (arp_map_none _ _ _ Hok Hx) Em i). by exists e.
Qed.

(** ** Receiving is safe and ends *)

(** The buffers have their sizes and the cache is well-formed. *)
Record net_ok (s : net_st) : Prop := {
  no_rx : length (eth_rx_frame s) = 1518%nat /\ bytes (eth_rx_frame s);
  no_reply : length (icmp_reply s) = 1480%nat;
  no_pkt : length (icmp_pkt s) = 40%nat;
  no_tx : length (udp_tx s) = 1480%nat;
  no_conf : length (net_ip s) = 4%nat /\ length (net_gw s) = 4%nat /\ length (net_mac s) = 6%nat;
  no_arp : arp_ok (arp_cache s) (arp_cache_next s);
}.

(** What receiving keeps: the configuration; the wire and the clock go on, and
    what was sent stays sent. *)
Record later (s s' : net_st) : Prop := {
  la_polls : (nt_polls s <= nt_polls s')%nat;
  la_reads : (nt_reads s <= nt_reads s')%nat;
  la_sent : exists l, nt_sent s' = nt_sent s ++ l;
  la_conf : net_mac s' = net_mac s /\ net_ip s' = net_ip s /\ net_mask s' = net_mask s /\ net_gw s' = net_gw s;
}.

Lemma later_refl s : later s s.
Proof. split; [done|done|exists []; by rewrite app_nil_r|done]. Qed.
Lemma later_trans s s1 s2 : later s s1 -> later s1 s2 -> later s s2.
Proof.
  intros [P1 R1 [l1 S1] (A1 & B1 & C1 & D1)] [P2 R2 [l2 S2] (A2 & B2 & C2 & D2)].
  split; [lia|lia|exists (l1 ++ l2); by rewrite S2, S1, app_assoc|repeat split; congruence].
Qed.

(** How many bytes a buffer has. *)
Definition buf_len (b : buffer) : Z :=
  match b with BRx => 1518 | BReply => 1480 | BPing => 40 | BUdpTx => 1480 | BGw => 4 | BVal l => Z.of_nat (length l) end.
Definition fits (p : ptr) (n : Z) : Prop := 0 <= p_off p /\ 0 <= n /\ p_off p + n <= buf_len (p_buf p).

Section Safe.
(** A wire that delivers at most [N] frames, and a clock that gains a second
    (three for the waits of DHCP) in [P] readings. *)
Context (frames : nat -> option (list Z)) (clock : nat -> Z) (fuel N P : nat).
Context (Hframes : forall k f, frames k = Some f -> bytes f) (Hend : forall k, (N <= k)%nat -> frames k = None).
Context (Hclock : forall j k, (j + P <= k)%nat -> clock j + 3000 <= clock k).
Context (Hrange : forall k, 0 <= clock k) (Hfuel : (P + 1 < fuel)%nat).

(** [m] returns when fewer than [d] frames are left, with a result in [Q]. *)
Definition safe {A} (d : nat) (m : M net_st A) (Q : A -> Prop) : Prop :=
  forall s, net_ok s -> (N - nt_polls s < d)%nat -> exists a s', m s = Some (a, s') /\ net_ok s' /\ later s s' /\ Q a.

Lemma safe_ret {A} d (a : A) (Q : A -> Prop) : Q a -> safe d (mret a) Q.
Proof. intros H s Hs _. exists a, s. split; [done|]. split; [done|]. split; [apply later_refl|done]. Qed.

Lemma safe_bind {A B} d (m : M net_st A) (f : A -> M net_st B) R Q :
  safe d m R -> (forall a, R a -> safe d (f a) Q) -> safe d (x ← m; f x) Q.
Proof.
  intros Hm Hf s Hs Hd. destruct (Hm s Hs Hd) as (a & s1 & E1 & Hs1 & Hl1 & Ha).
  pose proof (la_polls _ _ Hl1). destruct (Hf a Ha s1 Hs1) as (b & s2 & E2 & Hs2 & Hl2 & Hb); [lia|].
  exists b, s2. rewrite (bind_eq _ _ _ _ _ E1). split; [done|]. split; [done|]. split; [by eapply later_trans|done].
Qed.

Lemma safe_gets {A} d (f : net_st -> A) (Q : A -> Prop) : (forall s, net_ok s -> Q (f s)) -> safe d (gets f) Q.
Proof. intros H s Hs _. exists (f s), s. split; [done|]. split; [done|]. split; [apply later_refl|auto]. Qed.

Lemma safe_modify d (f : net_st -> net_st) : (forall s, net_ok s -> net_ok (f s) /\ later s (f s)) -> safe d (modify f) (fun _ => True).
Proof. intros H s Hs _. destruct (H s Hs). by exists tt, (f s). Qed.

Lemma safe_weaken {A} d (m : M net_st A) (Q Q' : A -> Prop) : safe d m Q -> (forall a, Q a -> Q' a) -> safe d m Q'.
Proof. intros Hm HQ s Hs Hd. destruct (Hm s Hs Hd) as (a & s1 & ? & ? & ? & ?). exists a, s1. eauto. Qed.

Lemma length_contents b s : net_ok s -> Z.of_nat (length (contents b s)) = buf_len b.
Proof. intros [[H1 _] H2 H3 H4 (_ & H5 & _) _]. destruct b; cbn [contents buf_len]; lia. Qed.

Lemma safe_rd d p n : fits p n -> safe d (rd p n) (fun l => Z.of_nat (length l) = n /\ (p_buf p = BRx -> bytes l)).
Proof.
  intros (H1 & H2 & H3) s Hs _. pose proof (length_contents (p_buf p) s Hs) as Hl.
  exists (slice (contents (p_buf p) s) (p_off p) n), s. unfold rd. rewrite Hl.
  destruct (Z.leb_spec 0 (p_off p)), (Z.leb_spec 0 n), (Z.leb_spec (p_off p + n) (buf_len (p_buf p))); try lia. cbn [andb].
  split; [done|]. split; [done|]. split; [apply later_refl|]. split; [apply slice_length; lia|].
  intros ->. apply bytes_slice. apply Hs.
Qed.
Lemma safe_rd8 d p : fits p 1 -> safe d (rd8 p) (fun v => p_buf p = BRx -> in_u8 v).
Proof.
  intros Hp. eapply safe_bind; [by apply safe_rd|]. intros l [Hl Hb]. apply safe_ret. intros E. specialize (Hb E).
  by apply get8_byte.
Qed.
Lemma safe_rd_be16 d p : fits p 2 -> safe d (rd_be16 p) in_u16.
Proof. intros Hp. eapply safe_bind; [by apply safe_rd|]. intros l _. apply safe_ret. apply u16_range. Qed.
Lemma safe_rd_be32 d p : fits p 4 -> safe d (rd_be32 p) (fun _ => True).
Proof. intros Hp. eapply safe_bind; [by apply safe_rd|]. intros l _. by apply safe_ret. Qed.

Lemma safe_if {A} d (b : bool) (m1 m2 : M net_st A) Q : (b = true -> safe d m1 Q) -> (b = false -> safe d m2 Q) -> safe d (if b then m1 else m2) Q.
Proof. destruct b; auto. Qed.

Lemma safe_eth_send d dst etype payload : safe d (eth_send dst etype payload) (fun _ => True).
Proof.
  unfold eth_send. apply safe_if; intros _; [by apply safe_ret|]. eapply safe_bind; [by apply (safe_gets d net_mac (fun _ => True))|].
  intros mac _. apply safe_modify. intros s [H1 H2 H3 H4 H5 H6]. split; [by split|]. split; cbn; [lia|lia|by eexists|done].
Qed.

Lemma safe_get_tick d (Q : Z -> Prop) : (forall k, Q (clock k)) -> safe d (get_tick clock) Q.
Proof.
  intros HQ s [H1 H2 H3 H4 H5 H6] _. exists (clock (nt_reads s)). eexists. split; [reflexivity|]. split; [by split|]. split; [|done].
  split; cbn; [lia|lia|exists []; by rewrite app_nil_r|done].
Qed.

Lemma safe_arp_insert d ip mac : Z.of_nat (length ip) = 4 -> Z.of_nat (length mac) = 6 -> safe d (arp_insert ip mac) (fun _ => True).
Proof.
  intros H4 H6. apply safe_modify. intros s [H1 H2 H3 H7 H5 Ha].
  pose proof (arp_table_ok (arp_cache s) (arp_cache_next s) ip mac Ha ltac:(lia) ltac:(lia)) as Ht. unfold arp_table in Ht.
  destruct (arp_find (arp_cache s) ip 0); destruct Ht as [Hok _]; (split; [by split|split; cbn; [lia|lia|exists []; by rewrite app_nil_r|done]]).
Qed.

Lemma safe_arp_lookup d ip : safe d (arp_lookup ip) (fun _ => True).
Proof. intros s Hs _. eexists _, s. split; [reflexivity|]. split; [done|]. split; [apply later_refl|done]. Qed.

Lemma safe_arp_handle d off len : 0 <= off -> off + len <= 1518 -> safe d (arp_handle (Ptr BRx off) len) (fun _ => True).
Proof.
  intros Ho Hl. unfold arp_handle. apply safe_if; intros Hlen; [by apply safe_ret|]. apply Z.ltb_ge in Hlen.
  assert (Hf : forall k n, 0 <= k -> 0 <= n -> k + n <= 28 -> fits (p_add (Ptr BRx off) k) n) by (intros; unfold fits; cbn; lia).
  eapply safe_bind; [apply safe_rd_be16; unfold fits; cbn; lia|]. intros hw _. apply safe_if; intros _; [by apply safe_ret|].
  eapply safe_bind; [apply safe_rd_be16, Hf; lia|]. intros pt _. apply safe_if; intros _; [by apply safe_ret|].
  eapply safe_bind; [apply safe_rd, Hf; lia|]. intros smac [Hsm _].
  eapply safe_bind; [apply safe_rd, Hf; lia|]. intros sip [Hsi _].
  eapply safe_bind; [by apply safe_arp_insert|]. intros _ _.
  eapply safe_bind; [apply safe_rd_be16, Hf; lia|]. intros op _.
  eapply safe_bind; [apply safe_rd, Hf; lia|]. intros tip _.
  eapply safe_bind; [by apply (safe_gets d net_ip (fun _ => True))|]. intros ip _.
  eapply safe_bind; [by apply (safe_gets d net_mac (fun _ => True))|]. intros mac _.
  apply safe_if; intros _; [apply safe_eth_send|by apply safe_ret].
Qed.

(** The functions that may poll while they wait, when polling is safe. *)
Section Poll.
Context (d : nat) (poll : M net_st unit) (Hpoll : safe d poll (fun _ => True)).

(** The waiting loop leaves when the clock has passed the deadline. *)
Lemma safe_wait r0 deadline (body : M net_st (unit + option (list Z))) :
  deadline <= clock r0 + 3000 -> safe d body (fun _ => True) ->
  forall n s, net_ok s -> (N - nt_polls s < d)%nat -> (r0 + P - nt_reads s < n)%nat ->
  exists a s', loop n (fun _ => now ← get_tick clock; if now <? deadline then body else mret (inr None)) tt s = Some (a, s') /\
    net_ok s' /\ later s s'.
Proof.
  intros Hdl Hbody. induction n as [|n IH]; intros s Hs Hd Hn; [lia|].
  destruct (safe_get_tick d (fun _ => True) (fun _ => I) s Hs Hd) as (t & s1 & E1 & Hs1 & Hl1 & _).
  assert (Et : t = clock (nt_reads s) /\ nt_reads s1 = S (nt_reads s)) by (unfold get_tick in E1; by injection E1 as <- <-). destruct Et as [-> Er].
  pose proof (la_polls _ _ Hl1). destruct (Z.ltb_spec (clock (nt_reads s)) deadline) as [Hlt|Hge].
  - destruct (Hbody s1 Hs1) as (r & s2 & E2 & Hs2 & Hl2 & _); [lia|]. pose proof (la_polls _ _ Hl2). pose proof (la_reads _ _ Hl2).
    assert (Hr : (nt_reads s < r0 + P)%nat).
    { destruct (Nat.lt_ge_cases (nt_reads s) (r0 + P)) as [|Hge]; [done|]. specialize (Hclock r0 (nt_reads s) Hge). lia. }
    assert (Eb : (now ← get_tick clock; if now <? deadline then body else mret (inr None)) s = Some (r, s2)).
    { rewrite (bind_eq _ _ _ _ _ E1). destruct (Z.ltb_spec (clock (nt_reads s)) deadline); [done|lia]. }
    destruct r as [[]|a].
    + rewrite (loop_step _ _ _ _ _ _ Eb). destruct (IH s2 Hs2) as (a & s3 & E3 & Hs3 & Hl3); [lia|lia|].
      exists a, s3. split; [done|]. split; [done|]. eapply later_trans; [exact Hl1|]. by eapply later_trans.
    + rewrite (loop_exit _ _ _ _ _ _ Eb). exists a, s2. split; [done|]. split; [done|by eapply later_trans].
  - exists None, s1. split; [|done]. apply loop_exit. rewrite (bind_eq _ _ _ _ _ E1). destruct (Z.ltb_spec (clock (nt_reads s)) deadline); [lia|done].
Qed.

Lemma safe_arp_resolve ip : fits ip 4 -> safe d (arp_resolve clock fuel poll ip) (fun _ => True).
Proof.
  intros Hip. unfold arp_resolve. eapply safe_bind; [by apply safe_rd|]. intros a _.
  eapply safe_bind; [apply safe_arp_lookup|]. intros [mac|] _; [by apply safe_ret|].
  assert (Hreq : safe d (arp_send_request ip) (fun _ => True)).
  { unfold arp_send_request. eapply safe_bind; [by apply safe_rd|]. intros tip _.
    eapply safe_bind; [by apply (safe_gets d net_mac (fun _ => True))|]. intros mac _.
    eapply safe_bind; [by apply (safe_gets d net_ip (fun _ => True))|]. intros i _. apply safe_eth_send. }
  eapply safe_bind; [exact Hreq|]. intros _ _ s Hs Hd.
  destruct (safe_get_tick d (fun _ => True) (fun _ => I) s Hs Hd) as (t & s1 & E1 & Hs1 & Hl1 & _).
  assert (Et : t = clock (nt_reads s) /\ nt_reads s1 = S (nt_reads s)) by (unfold get_tick in E1; by injection E1 as <- <-). destruct Et as [-> Er].
  rewrite (bind_eq _ _ _ _ _ E1). cbv zeta. pose proof (Hrange (nt_reads s)).
  assert (Hdl : u64 (clock (nt_reads s) + 1000) <= clock (nt_reads s) + 1000) by (apply Z.mod_le; lia).
  pose proof (la_polls _ _ Hl1).
  destruct (safe_wait (nt_reads s) (u64 (clock (nt_reads s) + 1000))
    (poll;; a ← rd ip 4; cached ← arp_lookup a; mret (match cached with Some mac => inr (Some mac) | None => inl tt end))) with (n := fuel) (s := s1)
    as (r & s2 & E2 & Hs2 & Hl2); [lia| |done|lia|lia|].
  - eapply safe_bind; [exact Hpoll|]. intros _ _. eapply safe_bind; [by apply safe_rd|]. intros x _.
    eapply safe_bind; [apply safe_arp_lookup|]. intros c _. by apply safe_ret.
  - exists r, s2. split; [exact E2|]. split; [done|]. split; [by eapply later_trans|done].
Qed.

Lemma fold_sum_some sum : 0 <= sum < 4294967296 -> exists r, fold_sum 4 sum = Some r.
Proof. intros H. destruct (fold_sum_ok sum H) as (r & E & _). by exists r. Qed.
Lemma sum_words_range n data off len sum : 0 <= sum < 4294967296 -> 0 <= sum_words n data off len sum < 4294967296.
Proof.
  revert off len sum. induction n as [|n IH]; intros off len sum Hs; cbn [sum_words]; [done|].
  destruct (len >? 1); [apply IH, u32_range|]. destruct (negb (len =? 0)); [apply u32_range|done].
Qed.
Lemma safe_checksum data : safe d (lift_option (ip_checksum data)) (fun _ => True).
Proof.
  unfold ip_checksum. destruct (fold_sum_some (sum_words (S (length data)) data 0 (Z.of_nat (length data)) 0)) as [r ->]; [by apply sum_words_range|].
  intros s Hs _. eexists _, s. split; [reflexivity|]. split; [done|]. split; [apply later_refl|done].
Qed.

Lemma safe_ip_send dst proto payload plen :
  fits dst 4 -> fits payload plen -> safe d (ip_send clock fuel poll dst proto payload plen) (fun _ => True).
Proof.
  intros Hdst Hpay. unfold ip_send. apply safe_if; intros _; [by apply safe_ret|].
  eapply safe_bind; [by apply safe_rd|]. intros a _.
  eapply safe_bind; [by apply (safe_gets d net_ip (fun _ => True))|]. intros ip _.
  eapply (safe_bind _ _ _ (fun _ => True)).
  { apply safe_if; intros _; [by apply safe_ret|]. apply safe_if; intros _; [by apply safe_ret|].
    eapply safe_bind; [by apply (safe_gets d net_mask (fun _ => True))|]. intros mask _. apply safe_arp_resolve.
    destruct (same_subnet a ip mask); [done|]. unfold fits. cbn. lia. }
  intros [mac|] _; [|by apply safe_ret].
  eapply safe_bind; [by apply (safe_gets d net_ip (fun _ => True))|]. intros i _.
  eapply safe_bind; [by apply safe_rd|]. intros a' _.
  eapply safe_bind; [apply safe_checksum|]. intros cs _.
  eapply safe_bind; [by apply safe_rd|]. intros data _. apply safe_eth_send.
Qed.

Lemma length_put8 b i v : length (put8 b i v) = length b.
Proof. apply length_insert. Qed.

Lemma safe_icmp_handle src off len :
  fits src 4 -> 0 <= off -> off + len <= 1518 -> safe d (icmp_handle clock fuel poll src (Ptr BRx off) len) (fun _ => True).
Proof.
  intros Hsrc Ho Hl. unfold icmp_handle. apply safe_if; intros Hlen; [by apply safe_ret|]. apply Z.ltb_ge in Hlen.
  assert (Hf : forall k n, 0 <= k -> 0 <= n -> k + n <= len -> fits (p_add (Ptr BRx off) k) n) by (intros; unfold fits; cbn; lia).
  eapply safe_bind; [apply safe_rd8; unfold fits; cbn; lia|]. intros type _. apply safe_if; intros _.
  - do 4 (eapply safe_bind; [apply safe_rd8, Hf; lia|intros ? _]).
    eapply safe_bind; [by apply (safe_gets d nt_ping (fun _ => True))|]. intros p _. unfold when. apply safe_if; intros _; [|by apply safe_ret].
    apply safe_modify. intros s [H1 H2 H3 H4 H5 H6]. split; [by split|]. split; cbn; [lia|lia|exists []; by rewrite app_nil_r|done].
  - apply safe_if; intros _; [|by apply safe_ret]. apply safe_if; intros Hbig; [by apply safe_ret|]. rewrite Z.gtb_ltb in Hbig. apply Z.ltb_ge in Hbig.
    eapply safe_bind; [apply safe_rd; unfold fits; cbn; lia|]. intros packet [Hp _]. eapply safe_bind; [apply safe_checksum|]. intros cs _.
    eapply safe_bind.
    { apply safe_modify. intros s [H1 H2 H3 H4 H5 H6]. split; [split; cbn; try done; by rewrite length_splice|].
      split; cbn; [lia|lia|exists []; by rewrite app_nil_r|done]. }
    intros _ _. apply safe_ip_send; [done|]. unfold fits. cbn. rewrite u16_id by (unfold in_u16; lia). lia.
Qed.
End Poll.

(** The options of a message lie in the received frame, those at its end with
    the bytes behind it. *)
Lemma safe_dhcp_options {A B} d off (visit : Z -> Z -> ptr -> B -> M net_st (B + A)) acc done_ (Q : A -> Prop) :
  0 <= off -> off + 318 <= 1518 ->
  (forall code len i acc, in_u8 len -> 4 <= i < 312 -> safe d (visit code len (p_add (Ptr BRx off) (i + 2)) acc) (fun r => match r with inr a => Q a | inl _ => True end)) ->
  (forall acc, Q (done_ acc)) -> safe d (dhcp_options (Ptr BRx off) 312 visit acc done_) Q.
Proof.
  intros Ho Hl Hv Hdone. unfold dhcp_options. change (S (Z.to_nat 312)) with 313%nat.
  enough (H : forall n i acc, 4 <= i -> Z.max 0 (312 - i) < Z.of_nat n -> safe d (loop n (fun '(i, acc) =>
    if i <? 312 then
      code ← rd8 (p_add (Ptr BRx off) i);
      if code =? 0xFF then mret (inr (done_ acc))
      else if code =? 0 then mret (inl (i + 1, acc))
      else
        len ← rd8 (p_add (Ptr BRx off) (i + 1));
        v ← visit code len (p_add (Ptr BRx off) (i + 2)) acc;
        mret (match v with inl acc => inl (i + (2 + len), acc) | inr a => inr a end)
    else mret (inr (done_ acc))) (i, acc)) Q) by (apply H; lia).
  induction n as [|n IH]; intros i acc' Hi Hn; [lia|].
  intros s Hs Hd. destruct (Z.ltb_spec i 312) as [Hlt|Hge].
  2:{ exists (done_ acc'), s. split; [|split; [done|split; [apply later_refl|done]]]. apply loop_exit. by destruct (Z.ltb_spec i 312); [lia|]. }
  assert (Hf : forall k n, 0 <= k -> 0 <= n -> k + n <= 318 -> fits (p_add (Ptr BRx off) k) n) by (intros; unfold fits; cbn; lia).
  assert (Hround : safe d (if i <? 312 then
      code ← rd8 (p_add (Ptr BRx off) i);
      if code =? 0xFF then mret (inr (done_ acc'))
      else if code =? 0 then mret (inl (i + 1, acc'))
      else
        len ← rd8 (p_add (Ptr BRx off) (i + 1));
        v ← visit code len (p_add (Ptr BRx off) (i + 2)) acc';
        mret (match v with inl acc => inl (i + (2 + len), acc) | inr a => inr a end)
    else mret (inr (done_ acc'))) (fun r => match r with inl (i', _) => i < i' | inr a => Q a end)).
  { apply safe_if; intros _; [|by apply safe_ret]. eapply safe_bind; [apply safe_rd8, Hf; lia|]. intros code _.
    apply safe_if; intros _; [by apply safe_ret|]. apply safe_if; intros _; [apply safe_ret; lia|].
    eapply safe_bind; [apply safe_rd8, Hf; lia|]. intros len Hlen. specialize (Hlen eq_refl).
    eapply safe_bind; [apply (Hv code len i acc'); [done|lia]|]. intros [acc2|a] Ha; apply safe_ret; [unfold in_u8 in Hlen; lia|done]. }
  destruct (Hround s Hs Hd) as (r & s1 & E1 & Hs1 & Hl1 & Hr). pose proof (la_polls _ _ Hl1). destruct r as [[i' acc2]|a].
  - destruct (IH i' acc2) with (s := s1) as (a & s2 & E2 & Hs2 & Hl2 & Ha); [lia|lia|done|lia|].
    exists a, s2. split; [rewrite <- E2; apply loop_step; exact E1|]. split; [done|]. split; [by eapply later_trans|done].
  - exists a, s1. split; [apply loop_exit; exact E1|done].
Qed.

Lemma safe_upd_dhcp d f : safe d (upd_dhcp f) (fun _ => True).
Proof.
  apply safe_modify. intros s [H1 H2 H3 H4 H5 H6]. split; [by split|]. split; cbn; [lia|lia|exists []; by rewrite app_nil_r|done].
Qed.

Lemma safe_dhcp_recv d off len : 0 <= off -> off + len <= 1518 -> off + 554 <= 1518 -> safe d (dhcp_recv (Ptr BRx off) len) (fun _ => True).
Proof.
  intros Ho Hl Hroom. unfold dhcp_recv. apply safe_if; intros Hlen; [by apply safe_ret|]. apply Z.ltb_ge in Hlen.
  assert (Hf : forall k n, 0 <= k -> 0 <= n -> k + n <= 548 -> fits (p_add (Ptr BRx off) k) n) by (intros; unfold fits; cbn; lia).
  assert (Hval : forall i n, 4 <= i < 312 -> 0 <= n <= 4 -> fits (p_add (Ptr BRx (off + 236)) (i + 2)) n) by (intros; unfold fits; cbn; lia).
  eapply safe_bind; [apply safe_rd_be32, Hf; lia|]. intros xid _. apply safe_if; intros _; [by apply safe_ret|].
  eapply safe_bind; [apply safe_rd8; unfold fits; cbn; lia|]. intros op _. apply safe_if; intros _; [by apply safe_ret|].
  eapply safe_bind; [apply safe_rd, Hf; lia|]. intros cookie _. apply safe_if; intros _; [by apply safe_ret|].
  change (p_add (Ptr BRx off) 236) with (Ptr BRx (off + 236)). eapply (safe_bind _ _ _ (fun _ => True)).
  { apply safe_dhcp_options; [lia|lia| |done]. intros code ln i _ _ Hi. apply safe_if; intros _; [|by apply safe_ret].
    eapply safe_bind; [apply safe_rd8, Hval; lia|]. intros v _. by apply safe_ret. }
  intros mtype _. eapply (safe_bind _ _ _ (fun _ => True)).
  { apply safe_dhcp_options; [lia|lia| |done]. intros code ln i _ _ Hi.
    assert (Hset : forall (b : bool) f, safe d (if b then v ← rd (p_add (Ptr BRx (off + 236)) (i + 2)) 4; upd_dhcp (f v) else mret tt) (fun _ => True)).
    { intros b f. apply safe_if; intros _; [|by apply safe_ret]. eapply safe_bind; [apply safe_rd, Hval; lia|]. intros v _. apply safe_upd_dhcp. }
    do 3 (eapply safe_bind; [apply Hset|intros _ _]). by apply safe_ret. }
  intros _ _. eapply safe_bind; [apply safe_rd, Hf; lia|]. intros yi _. apply safe_upd_dhcp.
Qed.

Lemma safe_udp_handle d off len :
  0 <= off -> off + len <= 1518 -> off + 562 <= 1518 -> safe d (udp_handle (Ptr BRx off) len) (fun _ => True).
Proof.
  intros Ho Hl Hroom. unfold udp_handle. apply safe_if; intros Hlen; [by apply safe_ret|]. apply Z.ltb_ge in Hlen.
  assert (Hf : forall k n, 0 <= k -> 0 <= n -> k + n <= 8 -> fits (p_add (Ptr BRx off) k) n) by (intros; unfold fits; cbn; lia).
  eapply safe_bind; [apply safe_rd_be16, Hf; lia|]. intros dst_port _.
  eapply safe_bind; [apply safe_rd_be16, Hf; lia|]. intros ulen _. apply safe_if; intros _; [by apply safe_ret|].
  eapply safe_bind; [by apply (safe_gets d handlers (fun _ => True))|]. intros hs _.
  destruct (find_handler _ hs 0) as [i|]; [|by apply safe_ret]. destruct (hs !! i) as [h|]; [|by apply safe_ret]. destruct (ur_fn h).
  apply safe_dhcp_recv; cbn [p_off]; [lia| |lia].
  rewrite (u16_id (len - 8)) by (unfold in_u16; lia). pose proof (u16_range (ulen - 8)). rewrite Z.gtb_ltb.
  destruct (Z.ltb_spec (len - 8) (u16 (ulen - 8))); lia.
Qed.

Lemma safe_ip_recv d poll off len :
  safe d poll (fun _ => True) -> 0 <= off -> off + 60 + 562 <= 1518 -> off + len <= 1518 ->
  safe d (ip_recv clock fuel poll (Ptr BRx off) len) (fun _ => True).
Proof.
  intros Hp Ho Hroom Hl. unfold ip_recv. apply safe_if; intros Hlen; [by apply safe_ret|]. apply Z.ltb_ge in Hlen.
  assert (Hf : forall k n, 0 <= k -> 0 <= n -> k + n <= 20 -> fits (p_add (Ptr BRx off) k) n) by (intros; unfold fits; cbn; lia).
  eapply safe_bind; [apply safe_rd8; unfold fits; cbn; lia|]. intros vi _. apply safe_if; intros _; [by apply safe_ret|]. cbv zeta.
  assert (Hi : 0 <= Z.land vi 0xF <= 15).
  { change 0xF with (2 ^ 4 - 1). rewrite land_ones_mod by done. pose proof (Z.mod_pos_bound vi (2 ^ 4)). lia. }
  set (ihl := Z.land vi 15 * 4) in *. apply safe_if; intros Hihl; [by apply safe_ret|].
  apply orb_false_iff in Hihl as [H1 H2]. apply Z.ltb_ge in H1. rewrite Z.gtb_ltb in H2. apply Z.ltb_ge in H2.
  eapply safe_bind; [apply safe_rd, Hf; lia|]. intros dst _.
  eapply safe_bind; [by apply (safe_gets d net_ip (fun _ => True))|]. intros ip _. apply safe_if; intros _; [by apply safe_ret|].
  eapply safe_bind; [apply safe_rd_be16, Hf; lia|]. intros tl Htl.
  eapply safe_bind; [apply safe_rd8, Hf; lia|]. intros proto _.
  assert (Hdl : off + ihl + (if (tl - ihl <? 0) || (tl - ihl >? len - ihl) then len - ihl else tl - ihl) <= 1518).
  { rewrite Z.gtb_ltb. destruct (Z.ltb_spec (tl - ihl) 0), (Z.ltb_spec (len - ihl) (tl - ihl)); cbn [orb]; lia. }
  apply safe_if; intros _; [|apply safe_if; intros _; [|by apply safe_ret]].
  - change (p_add (Ptr BRx off) ihl) with (Ptr BRx (off + ihl)). apply safe_icmp_handle; [done|unfold fits; cbn; lia|lia|done].
  - change (p_add (Ptr BRx off) ihl) with (Ptr BRx (off + ihl)). apply safe_udp_handle; [lia|done|unfold ihl; lia].
Qed.

Lemma safe_net_poll d : safe d (net_poll frames clock fuel d) (fun _ => True).
Proof.
  induction d as [|d IH]; intros s Hs Hd; [lia|]. cbn [net_poll].
  pose proof Hs as [[H1 Hb] H2 H3 H4 H5 H6].
  destruct (frames (nt_polls s)) as [f|] eqn:Ef.
  2:{ exists tt. eexists. split; [unfold e1000_recv, mbind, M_bind; by rewrite Ef|].
      split; [by split|]. split; [|done]. split; cbn; [lia|lia|exists []; by rewrite app_nil_r|done]. }
  assert (HN : (nt_polls s < N)%nat).
  { destruct (Nat.lt_ge_cases (nt_polls s) N) as [|Hge]; [done|]. rewrite (Hend _ Hge) in Ef. done. }
  set (len := if u16 (Z.of_nat (length f)) >? 1518 then 1518 else u16 (Z.of_nat (length f))).
  set (s1 := with_bufs (splice (eth_rx_frame s) 0 (take (Z.to_nat len) f)) (icmp_reply s) (icmp_pkt s) (udp_tx s)
    (with_nic (nt_sent s) (S (nt_polls s)) (nt_reads s) s)).
  assert (E1 : e1000_recv frames 1518 s = Some (len, s1)) by (unfold e1000_recv; by rewrite Ef).
  rewrite (bind_eq _ _ _ _ _ E1).
  assert (Hs1 : net_ok s1).
  { split; try done. split; [cbn; by rewrite length_splice|]. apply bytes_splice; [done|]. apply Forall_take. by apply (Hframes (nt_polls s)). }
  assert (Hl1 : later s s1) by (split; cbn; [lia|lia|exists []; by rewrite app_nil_r|done]).
  assert (Hlen : 0 <= len <= 1518).
  { unfold len. pose proof (u16_range (Z.of_nat (length f))) as Hu. unfold in_u16 in Hu. rewrite Z.gtb_ltb. destruct (Z.ltb_spec 1518 (u16 (Z.of_nat (length f)))); lia. }
  assert (Hf : forall off n, 0 <= off -> 0 <= n -> off + n <= 1518 -> fits (Ptr BRx off) n) by (intros; unfold fits; cbn; lia).
  enough (Hrest : safe d (if len <? 14 then mret tt else
      dst ← rd (Ptr BRx 0) 6; mac ← gets net_mac;
      if negb (mac_eq dst mac) && negb (mac_eq dst mac_bcast) then mret tt
      else
        th ← rd8 (Ptr BRx 12); tl ← rd8 (Ptr BRx 13);
        let etype := u16 (Z.lor (Z.shiftl th 8) tl) in
        if etype =? ETH_TYPE_ARP then arp_handle (Ptr BRx 14) (len - 14)
        else if etype =? ETH_TYPE_IP then ip_recv clock fuel (net_poll frames clock fuel d) (Ptr BRx 14) (len - 14)
        else mret tt) (fun _ => True)).
  { destruct (Hrest s1 Hs1) as (a & s2 & E2 & Hs2 & Hl2 & _); [cbn; lia|]. exists a, s2. split; [exact E2|]. split; [done|].
    split; [by eapply later_trans|done]. }
  apply safe_if; intros Hlt; [by apply safe_ret|]. apply Z.ltb_ge in Hlt.
  eapply safe_bind; [apply safe_rd, Hf; lia|]. intros dst _.
  eapply safe_bind; [by apply (safe_gets d net_mac (fun _ => True))|]. intros mac _. apply safe_if; intros _; [by apply safe_ret|].
  eapply safe_bind; [apply safe_rd8, Hf; lia|]. intros th _.
  eapply safe_bind; [apply safe_rd8, Hf; lia|]. intros tl _. cbv zeta.
  apply safe_if; intros _; [apply safe_arp_handle; lia|]. apply safe_if; intros _; [|by apply safe_ret].
  apply safe_ip_recv; [exact IH|lia|lia|lia].
Qed.
End Safe.

(** C14 (net.c, [net_poll] with everything it calls): whatever frames are on
    the wire, receiving one returns and reads no byte outside the shared
    buffers: not in the headers, not in the option loops of DHCP, and not in a
    reply that waits for ARP and so receives again. It is enough that the wire
    delivers at most [N] more frames and that the clock goes on; the nesting is
    at most [N + 1] deep and a wait takes at most [P] clock readings. *)
Theorem net_poll_safe frames clock fuel N P depth s :
  (forall k f, frames k = Some f -> bytes f) -> (forall k, (N <= k)%nat -> frames k = None) ->
  (forall j k, (j + P <= k)%nat -> clock j + 3000 <= clock k) -> (forall k, 0 <= clock k) ->
  (P + 1 < fuel)%nat -> (N < depth)%nat -> net_ok s ->
  exists s', net_poll frames clock fuel depth s = Some (tt, s') /\ net_ok s' /\ later s s'.
Proof.
  intros Hframes Hend Hclock Hrange Hfuel Hdepth Hs.
  destruct (safe_net_poll frames clock fuel N P Hframes Hend Hclock Hrange Hfuel depth s Hs) as ([] & s' & E & Hs' & Hl & _); [lia|].
  by exists s'.
Qed.

(** ** Answering an echo request *)

Lemma htons_eq v : in_u16 v -> htons v = v mod 256 * 256 + v / 256.
Proof.
  intros Hv. unfold in_u16 in Hv. unfold htons. rewrite Z.lor_comm, Z.shiftr_div_pow2 by done. change (2 ^ 8) with 256.
  rewrite (lor_shiftl_add v (v / 256) 8) by (done || zlia). change (2 ^ 8) with 256. unfold u16. zlia.
Qed.
Lemma htons_range v : in_u16 (htons v).
Proof. apply u16_range. Qed.
Lemma ntohs_htons v : in_u16 v -> ntohs (htons v) = v.
Proof. intros Hv. unfold ntohs. rewrite (htons_eq (htons v)) by apply htons_range. rewrite htons_eq by done. unfold in_u16 in Hv. zlia. Qed.

(** The frame of an echo request to us: from the host with hardware address
    [smac] and address [src], the ICMP packet [icmp] in an IPv4 header without
    options. *)
Definition echo_frame (dmac smac : list Z) (tos : Z) (idf : list Z) (ttl : Z) (hcs src dst icmp : list Z) : list Z :=
  dmac ++ smac ++ [8; 0] ++ [0x45; tos] ++ le_bytes 2 (htons (20 + Z.of_nat (length icmp))) ++ idf ++ [ttl; 1] ++ hcs ++ src ++ dst ++ icmp.

(** The hardware address an answer to [dst] is sent to, when it is known. *)
Definition next_hop (s : net_st) (dst : list Z) : list Z := if same_subnet dst (net_ip s) (net_mask s) then dst else net_gw s.

Lemma slice_splice_0 rx f k n :
  (length f <= length rx)%nat -> 0 <= k -> 0 <= n -> k + n <= Z.of_nat (length f) -> slice (splice rx 0 f) k n = slice f k n.
Proof.
  intros Hl Hk Hn Hkn. apply list_eq. intros i. destruct (decide (i < Z.to_nat n)%nat).
  - rewrite !lookup_slice by lia. rewrite lookup_splice_in by lia. f_equal. lia.
  - unfold slice. rewrite !lookup_ge_None_2; [done|len|len].
Qed.

Section Echo.
Context (clock : nat -> Z) (fuel : nat).

(** Reads of the frame just received. *)
Section Received.
Context (s : net_st) (f : list Z) (Hrx : eth_rx_frame s = splice (eth_rx_frame s) 0 f) (Hlen : length (eth_rx_frame s) = 1518%nat).
Context (Hf : (length f <= 1518)%nat).

Lemma rd_rx off n : 0 <= off -> 0 <= n -> off + n <= Z.of_nat (length f) -> rd (Ptr BRx off) n s = Some (slice f off n, s).
Proof.
  intros Ho Hn Hl. unfold rd. cbn [p_buf p_off contents].
  destruct (Z.leb_spec 0 off), (Z.leb_spec 0 n), (Z.leb_spec (off + n) (Z.of_nat (length (eth_rx_frame s)))); try lia. cbn [andb].
  rewrite Hrx at 1. rewrite slice_splice_0 by lia. done.
Qed.
Lemma rd8_rx off : 0 <= off -> off + 1 <= Z.of_nat (length f) -> rd8 (Ptr BRx off) s = Some (get8 f off, s).
Proof.
  intros Ho Hl. unfold rd8. rewrite (bind_eq _ _ _ _ _ (rd_rx off 1 Ho ltac:(lia) Hl)). unfold mret, M_ret. do 2 f_equal.
  unfold get8. f_equal. change (Z.to_nat 0) with 0%nat. rewrite lookup_slice by lia. f_equal. lia.
Qed.
Lemma rd_be16_rx off : 0 <= off -> off + 2 <= Z.of_nat (length f) -> rd_be16 (Ptr BRx off) s = Some (ntohs (get16 f off), s).
Proof.
  intros Ho Hl. unfold rd_be16. rewrite (bind_eq _ _ _ _ _ (rd_rx off 2 Ho ltac:(lia) Hl)). unfold mret, M_ret. do 3 f_equal.
  unfold get16. rewrite slice_slice by lia. by rewrite Z.add_0_r.
Qed.
End Received.

(** Sending an IPv4 packet when the next hop is known: one frame, whose header
    sums to 0. *)
Lemma ip_send_known poll s dst proto payload plen d data mac :
  net_ok s -> bytes (net_ip s) -> bytes d -> length d = 4%nat -> in_u8 proto -> 0 <= plen <= 1480 ->
  rd dst 4 s = Some (d, s) -> rd payload plen s = Some (data, s) ->
  ip_is_bcast d = false -> ip_is_any (net_ip s) = false -> arp_map (arp_cache s) (next_hop s d) = Some mac ->
  exists cs, ip_send clock fuel poll dst proto payload plen s = Some (tt, with_nic
      (nt_sent s ++ [mac ++ net_mac s ++ [8; 0] ++ ip_hdr_t (20 + plen) proto cs (net_ip s) d ++ data]) (nt_polls s) (nt_reads s) s) /\
    in_u16 cs /\ ip_checksum (ip_hdr_t (20 + plen) proto cs (net_ip s) d) = Some 0.
Proof.
  intros Hok Hbip Hbd Hd Hp Hl Erd Epay Hbc Hany Hmap. destruct (no_conf _ Hok) as (Hip & Hgw & _).
  set (pre := [0x45; 0] ++ le_bytes 2 (htons (20 + plen)) ++ [0; 0] ++ le_bytes 2 (htons 0x4000) ++ [64; proto]).
  assert (Ehdr : forall cs, ip_hdr_t (20 + plen) proto cs (net_ip s) d = pre ++ le_bytes 2 cs ++ (net_ip s ++ d)).
  { intros cs. unfold ip_hdr_t, pre. by rewrite <- !app_assoc. }
  destruct (ip_checksum_correct_ok pre (net_ip s ++ d)) as (cs & Ecs & Hcs & Ev).
  { split; [|unfold pre; rewrite !length_app, !length_le_bytes; cbn [length]; lia].
    unfold pre, bytes. repeat first [assumption | apply le_bytes_bytes | apply Forall_app_2 | apply Forall_nil_2 | apply Forall_cons_2]; by word. }
  { by unfold pre; rewrite !length_app, !length_le_bytes. }
  exists cs. unfold ip_send. rewrite Z.gtb_ltb. destruct (Z.ltb_spec 1480 plen); [lia|].
  rewrite (bind_eq _ _ _ _ _ Erd). erewrite bind_eq; [|reflexivity]. rewrite Hbc, Hany.
  assert (Eres : arp_resolve clock fuel poll (if same_subnet d (net_ip s) (net_mask s) then dst else Ptr BGw 0) s = Some (Some mac, s)).
  { unfold arp_resolve. assert (Er : rd (if same_subnet d (net_ip s) (net_mask s) then dst else Ptr BGw 0) 4 s = Some (next_hop s d, s)).
    { unfold next_hop. destruct (same_subnet d (net_ip s) (net_mask s)); [done|]. unfold rd. cbn [p_buf p_off contents]. rewrite Hgw.
      cbn [Z.leb Z.compare Z.add andb Z.of_nat Pos.of_succ_nat Pos.succ]. unfold slice. rewrite take_ge by (rewrite length_drop, Hgw; cbn; lia). done. }
    rewrite (bind_eq _ _ _ _ _ Er). erewrite bind_eq; [|unfold arp_lookup; fold (arp_map (arp_cache s) (next_hop s d)); rewrite Hmap; reflexivity]. done. }
  erewrite bind_eq; [|erewrite bind_eq; [|reflexivity]; exact Eres]. cbv beta iota. erewrite bind_eq; [|reflexivity].
  rewrite (bind_eq _ _ _ _ _ Erd). rewrite (u16_id (20 + plen)) by (unfold in_u16; lia).
  assert (E0 : ip_hdr_t (20 + plen) proto 0 (net_ip s) d = pre ++ [0; 0] ++ (net_ip s ++ d)) by apply Ehdr.
  erewrite bind_eq; [|unfold lift_option; rewrite E0, Ecs; reflexivity]. rewrite (bind_eq _ _ _ _ _ Epay).
  split; [|split; [done|by rewrite Ehdr]].
  assert (Hdata : Z.of_nat (length data) <= plen).
  { unfold rd in Epay. destruct ((0 <=? p_off payload) && (0 <=? plen) && _) in Epay; [|done]. injection Epay as <-. unfold slice. rewrite length_take. lia. }
  unfold eth_send. rewrite Z.gtb_ltb. destruct (Z.ltb_spec 1500 (Z.of_nat (length (ip_hdr_t (20 + plen) proto cs (net_ip s) d ++ data)))) as [Hbig|_].
  { exfalso. rewrite length_app, Ehdr, !length_app in Hbig. unfold pre in Hbig. rewrite !length_app, !length_le_bytes, Hip, Hd in Hbig. cbn [length] in Hbig. lia. }
  erewrite bind_eq; [|reflexivity]. reflexivity.
Qed.

(** The answer to an echo request lying at [off] of the received frame, the
    sender's address at [so]. *)
Lemma icmp_echo_ok poll s f off so code ck rest mac :
  let icmp := [8; code] ++ ck ++ rest in let len := Z.of_nat (length icmp) in let src := slice f so 4 in
  net_ok s -> bytes (net_ip s) -> bytes f -> eth_rx_frame s = splice (eth_rx_frame s) 0 f -> (length f <= 1518)%nat ->
  0 <= off -> off + len <= Z.of_nat (length f) -> slice f off len = icmp -> length ck = 2%nat -> 8 <= len <= 1480 ->
  0 <= so -> so + 4 <= Z.of_nat (length f) ->
  ip_is_bcast src = false -> ip_is_any (net_ip s) = false -> arp_map (arp_cache s) (next_hop s src) = Some mac ->
  exists cs1 cs2 s', icmp_handle clock fuel poll (Ptr BRx so) (Ptr BRx off) len s = Some (tt, s') /\
    let hdr := ip_hdr_t (20 + len) 1 cs1 (net_ip s) src in let reply := [0; code] ++ le_bytes 2 cs2 ++ rest in
    nt_sent s' = nt_sent s ++ [mac ++ net_mac s ++ [8; 0] ++ hdr ++ reply] /\
    ip_checksum hdr = Some 0 /\ ip_checksum reply = Some 0 /\ later s s' /\ arp_cache s' = arp_cache s.
Proof.
  intros icmp len src Hok Hbip Hbf Hrx Hf Ho Hol Hicmp Hck Hlen Hso Hsol Hbc Hany Hmap.
  pose proof (proj1 (no_rx _ Hok)) as Hrl. assert (Hbi : bytes icmp) by (rewrite <- Hicmp; by apply bytes_slice).
  destruct ck as [|c1 [|c2 [|]]]; try done. cbn [app] in icmp.
  apply Forall_cons in Hbi as [_ Hbi]. apply Forall_cons in Hbi as [Hcode Hbi]. apply Forall_cons in Hbi as [_ Hbi]. apply Forall_cons in Hbi as [_ Hrest].
  destruct (ip_checksum_correct_ok [0; code] rest) as (cs2 & Ecs & Hcs & Ev).
  { split; [by repeat first [assumption | apply Forall_app_2 | apply Forall_nil_2 | apply Forall_cons_2]|cbn; subst len icmp; cbn [length] in *; lia]. }
  { done. }
  set (reply := [0; code] ++ le_bytes 2 cs2 ++ rest) in *.
  assert (Hrlen : Z.of_nat (length reply) = len) by (unfold reply, len, icmp; rewrite !length_app, length_le_bytes; cbn [length]; lia).
  set (s2 := with_bufs (eth_rx_frame s) (splice (icmp_reply s) 0 reply) (icmp_pkt s) (udp_tx s) s).
  assert (Hok2 : net_ok s2) by (destruct Hok as [? Hrep ? ? ? ?]; split; try done; unfold s2; cbn [icmp_reply with_bufs]; by rewrite length_splice).
  assert (Esrc : rd (Ptr BRx so) 4 s2 = Some (src, s2)) by (apply rd_rx; (done || lia)).
  assert (Erep : rd (Ptr BReply 0) len s2 = Some (reply, s2)).
  { unfold rd. cbn [p_buf p_off contents]. change (icmp_reply s2) with (splice (icmp_reply s) 0 reply). rewrite length_splice, (no_reply _ Hok).
    destruct (Z.leb_spec 0 0), (Z.leb_spec 0 len), (Z.leb_spec (0 + len) (Z.of_nat 1480)); try lia. cbn [andb]. do 2 f_equal.
    rewrite <- Hrlen. apply slice_splice_same; [lia|]. rewrite (no_reply _ Hok). lia. }
  destruct (ip_send_known poll s2 (Ptr BRx so) 1 (Ptr BReply 0) len src reply mac) as (cs1 & Es & Hcs1 & Ev1); try done;
    [by apply bytes_slice|assert (Z.of_nat (length src) = 4) by (apply slice_length; lia); lia|lia|].
  exists cs1, cs2, (with_nic (nt_sent s2 ++ [mac ++ net_mac s2 ++ [8; 0] ++ ip_hdr_t (20 + len) 1 cs1 (net_ip s2) src ++ reply])
    (nt_polls s2) (nt_reads s2) s2).
  split; [|split; [|split; [exact Ev1|split; [exact Ev|]]]].
  2:{ reflexivity. } 2:{ split; [|done]. split; cbn; [lia|lia|by eexists|done]. }
  unfold icmp_handle. destruct (Z.ltb_spec len 8); [lia|].
  assert (E8 : get8 f off = 8).
  { assert (Hh : slice f off len !! 0%nat = Some 8) by (by rewrite Hicmp). rewrite lookup_slice in Hh by lia. unfold get8. by rewrite Nat.add_0_r in Hh; rewrite Hh. }
  rewrite (bind_eq _ _ _ _ _ (rd8_rx s f Hrx Hrl Hf off Ho ltac:(lia))). rewrite E8. change (8 =? 0) with false. change (8 =? 8) with true. cbv iota.
  rewrite Z.gtb_ltb. destruct (Z.ltb_spec 1480 len); [lia|].
  rewrite (bind_eq _ _ _ _ _ (rd_rx s f Hrx Hrl Hf off len Ho ltac:(lia) Hol)). rewrite Hicmp.
  change (put8 (put8 (put8 icmp 0 0) 2 0) 3 0) with ([0; code] ++ [0; 0] ++ rest).
  erewrite bind_eq; [|unfold lift_option; rewrite Ecs; reflexivity]. cbv zeta.
  assert (Erep2 : put8 (put8 ([0; code] ++ [0; 0] ++ rest) 2 (u8 cs2)) 3 (u8 (Z.shiftr cs2 8)) = reply).
  { unfold reply. cbn [le_bytes]. rewrite Z.shiftr_div_pow2 by done. reflexivity. }
  rewrite Erep2. erewrite bind_eq; [|reflexivity]. fold s2. rewrite u16_id by (unfold in_u16; lia). exact Es.
Qed.
End Echo.

(** Reading the parts of an echo request's frame. *)
Lemma echo_frame_parts dmac smac tos idf ttl hcs src dst icmp :
  length dmac = 6%nat -> length smac = 6%nat -> length idf = 4%nat -> length hcs = 2%nat -> length src = 4%nat -> length dst = 4%nat ->
  20 + Z.of_nat (length icmp) < 65536 ->
  let f := echo_frame dmac smac tos idf ttl hcs src dst icmp in
  Z.of_nat (length f) = 34 + Z.of_nat (length icmp) /\ slice f 0 6 = dmac /\ get8 f 12 = 8 /\ get8 f 13 = 0 /\ get8 f 14 = 0x45 /\
  ntohs (get16 f 16) = 20 + Z.of_nat (length icmp) /\ get8 f 23 = 1 /\ slice f 26 4 = src /\ slice f 30 4 = dst /\
  slice f 34 (Z.of_nat (length icmp)) = icmp.
Proof.
  intros H1 H2 H3 H4 H5 H6 Hlen f. unfold f, echo_frame. set (v := htons (20 + Z.of_nat (length icmp))).
  destruct dmac as [|a1 [|a2 [|a3 [|a4 [|a5 [|a6 [|]]]]]]]; try done. destruct smac as [|b1 [|b2 [|b3 [|b4 [|b5 [|b6 [|]]]]]]]; try done.
  destruct idf as [|i1 [|i2 [|i3 [|i4 [|]]]]]; try done. destruct hcs as [|k1 [|k2 [|]]]; try done.
  destruct src as [|s1 [|s2 [|s3 [|s4 [|]]]]]; try done. destruct dst as [|d1 [|d2 [|d3 [|d4 [|]]]]]; try done.
  cbn [le_bytes app]. split; [cbn [length]; lia|]. do 4 (split; [done|]). split.
  { assert (E : forall l, get16 (a1 :: a2 :: a3 :: a4 :: a5 :: a6 :: b1 :: b2 :: b3 :: b4 :: b5 :: b6 :: 8 :: 0 :: 0x45 :: tos :: le_bytes 2 v ++ l) 16 = le_val (le_bytes 2 v)) by done.
    cbn [le_bytes app] in E. rewrite E. change [v mod 256; v / 256 mod 256] with (le_bytes 2 v). rewrite le_val_bytes.
    change (256 ^ Z.of_nat 2) with 65536. change (v mod 65536) with (u16 v). rewrite u16_id by apply htons_range. apply ntohs_htons. unfold in_u16. lia. }
  do 3 (split; [done|]). unfold slice. change (Z.to_nat 34) with 34%nat. cbn [drop]. rewrite Nat2Z.id. by apply take_ge.
Qed.

(** The state after the frame [f] was taken from the ring. *)
Definition received (s : net_st) (f : list Z) : net_st :=
  with_bufs (splice (eth_rx_frame s) 0 f) (icmp_reply s) (icmp_pkt s) (udp_tx s) (with_nic (nt_sent s) (S (nt_polls s)) (nt_reads s) s).

Lemma received_ok s f : net_ok s -> bytes f -> (length f <= 1518)%nat ->
  net_ok (received s f) /\ later s (received s f) /\ eth_rx_frame (received s f) = splice (eth_rx_frame (received s f)) 0 f.
Proof.
  intros [[Hl Hb] H2 H3 H4 H5 H6] Hbf Hf. split; [|split].
  - split; try done. split; [cbn; by rewrite length_splice|by apply bytes_splice].
  - split; cbn; [lia|lia|exists []; by rewrite app_nil_r|done].
  - change (eth_rx_frame (received s f)) with (splice (eth_rx_frame s) 0 f). apply list_eq. intros i. destruct (decide (i < length f)%nat).
    + rewrite !lookup_splice_in by (rewrite ?length_splice; lia). done.
    + by rewrite (lookup_splice_out (splice _ _ _)) by lia.
Qed.

Lemma recv_frame frames s f : frames (nt_polls s) = Some f -> (length f <= 1518)%nat ->
  e1000_recv frames 1518 s = Some (Z.of_nat (length f), received s f).
Proof.
  intros Hfr Hf. unfold e1000_recv. rewrite Hfr, u16_id by (unfold in_u16; lia). rewrite Z.gtb_ltb.
  destruct (Z.ltb_spec 1518 (Z.of_nat (length f))); [lia|]. by rewrite Nat2Z.id, take_ge by done.
Qed.

(** The dispatch of an IPv4 packet for us that carries ICMP. *)
Lemma ip_recv_icmp clock fuel poll s f len :
  net_ok s -> eth_rx_frame s = splice (eth_rx_frame s) 0 f -> (length f <= 1518)%nat -> Z.of_nat (length f) = 34 + len -> 8 <= len ->
  get8 f 14 = 0x45 -> ntohs (get16 f 16) = 20 + len -> get8 f 23 = 1 -> slice f 30 4 = net_ip s ->
  ip_recv clock fuel poll (Ptr BRx 14) (20 + len) s = icmp_handle clock fuel poll (Ptr BRx 26) (Ptr BRx 34) len s.
Proof.
  intros Hok Hrx Hf Hfl Hlen P14 P16 P23 P30. pose proof (proj1 (no_rx _ Hok)) as Hrl. unfold ip_recv.
  destruct (Z.ltb_spec (20 + len) 20); [lia|].
  rewrite (bind_eq _ _ _ _ _ (rd8_rx s f Hrx Hrl Hf 14 ltac:(lia) ltac:(lia))), P14.
  change (Z.shiftr 0x45 4 =? 4) with true. change (Z.land 0x45 0xF * 4) with 20. cbn [negb]. cbv zeta.
  change (20 <? 20) with false. rewrite Z.gtb_ltb. destruct (Z.ltb_spec (20 + len) 20); [lia|]. cbn [orb].
  change (p_add (Ptr BRx 14) 16) with (Ptr BRx 30). change (p_add (Ptr BRx 14) 2) with (Ptr BRx 16). change (p_add (Ptr BRx 14) 9) with (Ptr BRx 23).
  change (p_add (Ptr BRx 14) 12) with (Ptr BRx 26). change (p_add (Ptr BRx 14) 20) with (Ptr BRx 34).
  rewrite (bind_eq _ _ _ _ _ (rd_rx s f Hrx Hrl Hf 30 4 ltac:(lia) ltac:(lia) ltac:(lia))), P30. erewrite bind_eq; [|reflexivity].
  rewrite ip_eq_refl. cbn [negb andb].
  rewrite (bind_eq _ _ _ _ _ (rd_be16_rx s f Hrx Hrl Hf 16 ltac:(lia) ltac:(lia))), P16.
  rewrite (bind_eq _ _ _ _ _ (rd8_rx s f Hrx Hrl Hf 23 ltac:(lia) ltac:(lia))), P23. change (1 =? IP_PROTO_ICMP) with true. cbv iota zeta.
  replace (20 + len - 20) with len by lia. rewrite Z.gtb_ltb. destruct (Z.ltb_spec len 0), (Z.ltb_spec len len); (done || lia).
Qed.

(** C15 (net.c, ip.c and icmp.c, from [net_poll] to [e1000_send]): an echo
    request, without IP options or padding, for us from a host whose next hop is in the ARP cache is answered
    with exactly one frame: to the next hop, from us, with the addresses
    exchanged, the type set to echo reply and code, identifier, number and
    data as they came; the checksums of the IP header and of the ICMP packet
    both verify. *)
Theorem net_echo_correct frames clock fuel depth s smac tos idf ttl hcs src code ck rest mac :
  let icmp := [8; code] ++ ck ++ rest in let len := Z.of_nat (length icmp) in
  let f := echo_frame (net_mac s) smac tos idf ttl hcs src (net_ip s) icmp in
  net_ok s -> bytes (net_ip s) -> bytes f -> frames (nt_polls s) = Some f ->
  length smac = 6%nat -> length idf = 4%nat -> length hcs = 2%nat -> length src = 4%nat -> length ck = 2%nat -> 8 <= len <= 1480 ->
  ip_is_bcast src = false -> ip_is_any (net_ip s) = false -> arp_map (arp_cache s) (next_hop s src) = Some mac ->
  exists cs1 cs2 s', net_poll frames clock fuel (S depth) s = Some (tt, s') /\
    let hdr := ip_hdr_t (20 + len) 1 cs1 (net_ip s) src in let reply := [0; code] ++ le_bytes 2 cs2 ++ rest in
    nt_sent s' = nt_sent s ++ [mac ++ net_mac s ++ [8; 0] ++ hdr ++ reply] /\
    ip_checksum hdr = Some 0 /\ ip_checksum reply = Some 0 /\ later s s' /\ arp_cache s' = arp_cache s.
Proof.
  intros icmp len f Hok Hbip Hbf Hfr H2 H3 H4 H5 Hck Hlen Hbc Hany Hmap. destruct (no_conf _ Hok) as (Hip & _ & Hmac).
  destruct (echo_frame_parts (net_mac s) smac tos idf ttl hcs src (net_ip s) icmp) as (Hfl & P0 & P12 & P13 & P14 & P16 & P23 & P26 & P30 & P34);
    [done..|fold len; lia|]. fold f len in Hfl, P0, P12, P13, P14, P16, P23, P26, P30, P34.
  assert (Hf : (length f <= 1518)%nat) by lia. destruct (received_ok s f Hok Hbf Hf) as (Hok1 & Hl1 & Hrx).
  pose proof (proj1 (no_rx _ Hok1)) as Hrl. set (s1 := received s f) in *.
  destruct (icmp_echo_ok clock fuel (net_poll frames clock fuel depth) s1 f 34 26 code ck rest mac) as (cs1 & cs2 & s' & E & Hs' & Hv1 & Hv2 & Hl2 & Hc);
    try (done || lia); try (rewrite P26; done); [by fold icmp len; lia|].
  exists cs1, cs2, s'. rewrite P26 in *. split; [|split; [done|split; [done|split; [done|split; [by eapply later_trans|done]]]]].
  rewrite <- E. cbn [net_poll]. rewrite (bind_eq _ _ _ _ _ (recv_frame frames s f Hfr Hf)). fold s1.
  destruct (Z.ltb_spec (Z.of_nat (length f)) 14); [lia|].
  rewrite (bind_eq _ _ _ _ _ (rd_rx s1 f Hrx Hrl Hf 0 6 ltac:(lia) ltac:(lia) ltac:(lia))), P0. erewrite bind_eq; [|reflexivity].
  change (net_mac s1) with (net_mac s). assert (Emac : mac_eq (net_mac s) (net_mac s) = true) by (apply forallb_forall; intros; apply Z.eqb_refl).
  rewrite Emac. cbn [negb andb].
  rewrite (bind_eq _ _ _ _ _ (rd8_rx s1 f Hrx Hrl Hf 12 ltac:(lia) ltac:(lia))), P12.
  rewrite (bind_eq _ _ _ _ _ (rd8_rx s1 f Hrx Hrl Hf 13 ltac:(lia) ltac:(lia))), P13.
  change (u16 (Z.lor (Z.shiftl 8 8) 0)) with 0x0800. cbv zeta. change (0x0800 =? ETH_TYPE_ARP) with false. change (0x0800 =? ETH_TYPE_IP) with true. cbv iota.
  replace (Z.of_nat (length f) - 14) with (20 + len) by lia. apply (ip_recv_icmp clock fuel _ s1 f len); (done || lia).
Qed.

(** ** A small network *)

Module NetDemo.
Definition our_mac : list Z := [2; 0; 0; 0; 0; 1].
Definition our_ip : list Z := [10; 0; 0; 2].
Definition peer_mac : list Z := [2; 0; 0; 0; 0; 9].
Definition peer_ip : list Z := [10; 0; 0; 1].
(** Configured, with the peer in the cache or not. *)
Definition quiet : net_st := with_config our_ip [255; 255; 255; 0] peer_ip true (net_boot our_mac).
Definition known : net_st := with_arp (<[0%nat := ArpEntry peer_ip peer_mac true]> (arp_cache quiet)) 1 quiet.

(** An echo request of the peer with four bytes of data, and its ARP reply. *)
Definition rest : list Z := [0; 1; 0; 7; 222; 173; 190; 239].
Definition request : list Z :=
  echo_frame our_mac peer_mac 0 [0; 0; 0; 0] 64 [0; 0] peer_ip our_ip ([8; 0] ++ [0; 0] ++ rest).
Definition arp_reply : list Z := our_mac ++ peer_mac ++ [8; 6] ++ arp_pkt_t 2 peer_mac peer_ip our_mac our_ip.
(** The request arrives first, the ARP reply behind it; each reading of the
    clock finds 100 ms gone. *)
Definition frames (k : nat) : option (list Z) := match k with 0%nat => Some request | 1%nat => Some arp_reply | _ => None end.
Definition clock (k : nat) : Z := 100 * Z.of_nat k.

Lemma known_ok : net_ok known.
Proof.
  split; [split; [done|apply bytes_dec_ok; by vm_compute]|done..|]. split; [done|done| |].
  - intros e He. cbn in He. repeat (apply elem_of_cons in He as [->|He]; [done|]). by apply elem_of_nil in He.
  - assert (H : forall i ip, holds (arp_cache known) i ip -> i = 0%nat).
    { intros i ip (e & Hi & Hv & _). do 16 (destruct i as [|i]; [first [done|injection Hi as <-; done]|]). done. }
    intros i j ip H1 H2. by rewrite (H i ip H1), (H j ip H2).
Qed.
End NetDemo.

Lemma ip_checksum_correct_witness :
  exists cs, ip_checksum ([0x45; 0; 0; 60; 0; 0; 0x40; 0; 64; 1] ++ [0; 0] ++ [10; 0; 0; 2; 10; 0; 0; 1]) = Some cs /\ in_u16 cs /\
    ip_checksum ([0x45; 0; 0; 60; 0; 0; 0x40; 0; 64; 1] ++ le_bytes 2 cs ++ [10; 0; 0; 2; 10; 0; 0; 1]) = Some 0.
Proof. apply ip_checksum_correct; [split; [apply bytes_dec_ok; by vm_compute|by vm_compute]|done]. Defined.

Lemma arp_cache_correct_witness :
  exists s', arp_insert [10; 0; 0; 7] [2; 0; 0; 0; 0; 7] NetDemo.known = Some (tt, s') /\
    arp_map (arp_cache s') NetDemo.peer_ip = Some NetDemo.peer_mac.
Proof.
  destruct (arp_cache_correct NetDemo.known [10; 0; 0; 7] [2; 0; 0; 0; 0; 7] (no_arp _ NetDemo.known_ok) eq_refl eq_refl)
    as (s' & E & _ & _ & Hall).
  exists s'. split; [exact E|]. destruct (Hall NetDemo.peer_ip eq_refl ltac:(done)) as [->|(_ & (e & Hj & Hv & _) & _)]; [by vm_compute|].
  exfalso. vm_compute in Hj. injection Hj as <-. done.
Defined.

Lemma net_poll_safe_witness :
  exists s', net_poll NetDemo.frames NetDemo.clock 33 3 NetDemo.known = Some (tt, s').
Proof.
  destruct (net_poll_safe NetDemo.frames NetDemo.clock 33 2 30 3 NetDemo.known) as (s' & E & _).
  - intros [|[|k]] f [= <-]; apply bytes_dec_ok; by vm_compute.
  - intros [|[|k]] Hk; [lia|lia|done].
  - intros j k Hjk. unfold NetDemo.clock. lia.
  - intros k. unfold NetDemo.clock. lia.
  - lia.
  - lia.
  - apply NetDemo.known_ok.
  - by exists s'.
Defined.

Lemma net_echo_correct_witness :
  exists cs1 cs2 s', net_poll NetDemo.frames NetDemo.clock 33 1 NetDemo.known = Some (tt, s') /\
    nt_sent s' = [NetDemo.peer_mac ++ NetDemo.our_mac ++ [8; 0] ++ ip_hdr_t 32 1 cs1 NetDemo.our_ip NetDemo.peer_ip ++
      [0; 0] ++ le_bytes 2 cs2 ++ NetDemo.rest].
Proof.
  destruct (net_echo_correct NetDemo.frames NetDemo.clock 33 0 NetDemo.known NetDemo.peer_mac 0 [0; 0; 0; 0] 64 [0; 0] NetDemo.peer_ip 0 [0; 0]
    NetDemo.rest NetDemo.peer_mac) as (cs1 & cs2 & s' & E & Hs' & _); [apply NetDemo.known_ok|apply bytes_dec_ok; by vm_compute|
    apply bytes_dec_ok; by vm_compute|reflexivity|reflexivity|reflexivity|reflexivity|reflexivity|reflexivity|by vm_compute|by vm_compute|by vm_compute|by vm_compute|].
  exists cs1, cs2, s'. split; [exact E|]. etransitivity; [exact Hs'|]. reflexivity.
Defined.

(** The same request when the peer is not in the cache: the ARP reply arrives
    while the answer waits for it, and replaces the received frame that still
    holds the address waited for. The ARP request is all that is ever sent. *)
Example echo_unknown_host :
  (net_poll NetDemo.frames NetDemo.clock 33 3 NetDemo.quiet ≫= (fun x => Some (nt_sent x.2, arp_map (arp_cache x.2) NetDemo.peer_ip))) =
    Some ([mac_bcast ++ NetDemo.our_mac ++ [8; 6] ++ arp_pkt_t 1 NetDemo.our_mac NetDemo.our_ip (replicate 6 0) NetDemo.peer_ip], Some NetDemo.peer_mac).
Proof. by vm_compute. Qed.
