(* ===== verification/Format.v ===== *)
(** * Formatted output

    Models libc/stdio.c ([printf], [sprintf], [vsnprintf], [snprintf]) and
    libc/format.c. The arguments of a call are a list of values of the kinds
    [va_arg] asks for; asking for another kind than was passed, a format that
    ends inside a conversion (the code reads behind its terminator), a NULL
    string for [printf] and a write behind the buffer of [sprintf] are [None].
    What goes to the console is the list of its characters. The conversion of
    a [double] is an argument, as in Str.v. *)

From S2P Require Import Prelude Str.

(** The characters of a literal. *)
Fixpoint lit (s : string) : list Z :=
  match s with
  | EmptyString => []
  | String c s => Z.of_N (Ascii.N_of_ascii c) :: lit s
  end.

(** An argument: a word of 64 bits, the bits of a double, or a string. *)
Inductive va := VWord (v : Z) | VDouble (bits : Z) | VStr (s : option (list Z)).

Section Format.
(** [ftoa(v, buf, 10, 6)] *)
Context (ftoa : Z -> list Z).

Definition va_word (args : list va) : option (Z * list va) := match args with VWord v :: args => Some (v, args) | _ => None end.
Definition va_double (args : list va) : option (Z * list va) := match args with VDouble v :: args => Some (v, args) | _ => None end.
Definition va_str (args : list va) : option (option (list Z) * list va) := match args with VStr s :: args => Some (s, args) | _ => None end.

(** ** [printf] and [sprintf] *)

(** The text of a conversion [%l] and of a conversion [%], and the arguments
    left. *)
Definition conv_long (c : Z) (args : list va) : option (list Z * list va) :=
  if c =? 100 then '(v, args) ← va_word args; t ← itoa (s64 v) 10; Some (t, args)
  else if c =? 117 then '(v, args) ← va_word args; t ← itoa (s64 (u64 v)) 10; Some (t, args)
  else if c =? 120 then '(v, args) ← va_word args; t ← itoa (s64 (u64 v)) 16; Some (t, args)
  else if c =? 111 then '(v, args) ← va_word args; t ← itoa (s64 (u64 v)) 8; Some (t, args)
  else Some ([], args).
Definition conv (c : Z) (args : list va) : option (list Z * list va) :=
  if c =? 100 then '(v, args) ← va_word args; t ← itoa (s32 v) 10; Some (t, args)
  else if c =? 117 then '(v, args) ← va_word args; t ← itoa (u32 v) 10; Some (t, args)
  else if c =? 120 then '(v, args) ← va_word args; t ← itoa (u32 v) 16; Some (t, args)
  else if c =? 88 then '(v, args) ← va_word args; t ← itoa (u32 v) 16; Some (map toupper t, args)
  else if c =? 111 then '(v, args) ← va_word args; t ← itoa (u32 v) 8; Some (t, args)
  else if c =? 102 then '(v, args) ← va_double args; Some (ftoa v, args)
  else if c =? 112 then '(v, args) ← va_word args; t ← itoa (s64 (u64 v)) 16; Some ([48; 120] ++ t, args)
  else if c =? 99 then '(v, args) ← va_word args; Some ([u8 v], args)
  else if c =? 115 then '(s, args) ← va_str args; s ← s; Some (cstr s, args)
  else if c =? 37 then Some ([37], args)
  else Some ([], args).

(** The characters written, in order. *)
Fixpoint format_chars (format : list Z) (args : list va) : option (list Z) :=
  match format with
  | [] => Some []
  | c :: format =>
    if c =? 37 then
      match format with
      | [] => None
      | c :: format =>
        if c =? 108 then
          match format with
          | [] => None
          | c :: format => '(t, args) ← conv_long c args; rest ← format_chars format args; Some (t ++ rest)
          end
        else '(t, args) ← conv c args; rest ← format_chars format args; Some (t ++ rest)
      end
    else rest ← format_chars format args; Some (c :: rest)
  end.

(** What is printed. *)
Definition printf (format : list Z) (args : list va) : option (list Z) := format_chars format args.
(** The buffer afterwards, and the length. *)
Definition sprintf (s format : list Z) (args : list va) : option (list Z * Z) :=
  t ← format_chars format args;
  if Z.of_nat (length t) + 1 >? Z.of_nat (length s) then None
  else Some (splice s 0 (t ++ [0]), s32 (Z.of_nat (length t))).

(** ** [vsnprintf] *)

(** The buffer and the number of characters so far. *)
Record out_t := Out { o_s : list Z; o_total : Z }.

(** [_EC]: a store outside [s] is a fault. *)
Definition ec (n : Z) (c : Z) (o : out_t) : option out_t :=
  if (n >? 1) && (o_total o <? n - 1) then
    if o_total o <? Z.of_nat (length (o_s o)) then Some (Out (put8 (o_s o) (o_total o) c) (u64 (o_total o + 1))) else None
  else Some (Out (o_s o) (u64 (o_total o + 1))).
Fixpoint ec_all (n : Z) (l : list Z) (o : out_t) : option out_t :=
  match l with [] => Some o | c :: l => o ← ec n c o; ec_all n l o end.
(** [_EMIT_PADDED] *)
Definition emit_padded (n : Z) (val : list Z) (width : Z) (zero_pad left_align : bool) (o : out_t) : option out_t :=
  let vl := Z.of_nat (length val) in
  o ← (if negb left_align && (vl <? width) then ec_all n (replicate (Z.to_nat (width - vl)) (if zero_pad then 48 else 32)) o else Some o);
  o ← ec_all n val o;
  if left_align && (vl <? width) then ec_all n (replicate (Z.to_nat (width - vl)) 32) o else Some o.

Fixpoint parse_flags (fmt : list Z) (left_align zero_pad : bool) : bool * bool * list Z :=
  match fmt with
  | c :: fmt' =>
    if c =? 45 then parse_flags fmt' true false
    else if (c =? 48) && negb left_align then parse_flags fmt' left_align true
    else (left_align, zero_pad, fmt)
  | [] => (left_align, zero_pad, [])
  end.
(** An [int] that overflows is undefined. *)
Fixpoint parse_width (fmt : list Z) (width : Z) : option (Z * list Z) :=
  match fmt with
  | c :: fmt' =>
    if (48 <=? c) && (c <=? 57) then
      let width := width * 10 + (c - 48) in
      if width >? 2147483647 then None else parse_width fmt' width
    else Some (width, fmt)
  | [] => Some (width, [])
  end.

(** The value string of a specifier; [v32] and [v64] read the argument. *)
Definition vconv (c : Z) (is_long : bool) (args : list va) : option (list Z * list va) :=
  let signed v := if is_long then s64 v else s32 v in
  let unsigned v := s64 (if is_long then u64 v else u32 v) in
  if c =? 100 then '(v, args) ← va_word args; t ← itoa (signed v) 10; Some (t, args)
  else if c =? 117 then '(v, args) ← va_word args; t ← itoa (unsigned v) 10; Some (t, args)
  else if c =? 120 then '(v, args) ← va_word args; t ← itoa (unsigned v) 16; Some (t, args)
  else if c =? 88 then '(v, args) ← va_word args; t ← itoa (unsigned v) 16; Some (map toupper t, args)
  else if c =? 111 then '(v, args) ← va_word args; t ← itoa (unsigned v) 8; Some (t, args)
  else if c =? 102 then '(v, args) ← va_double args; Some (ftoa v, args)
  else if c =? 112 then '(v, args) ← va_word args; t ← itoa (s64 (u64 v)) 16; Some ([48; 120] ++ t, args)
  else if c =? 99 then '(v, args) ← va_word args; Some (cstr [u8 v], args)
  else if c =? 115 then '(s, args) ← va_str args; Some (match s with Some s => cstr s | None => lit "(null)" end, args)
  else if c =? 37 then Some ([37], args)
  else Some ([37; c], args).

(** One round of the loop for each of [fuel]. *)
Fixpoint vsn_loop (fuel : nat) (n : Z) (fmt : list Z) (args : list va) (o : out_t) : option out_t :=
  match fuel with
  | O => None
  | S fuel =>
    match fmt with
    | [] => Some o
    | c :: fmt =>
      if negb (c =? 37) then o ← ec n c o; vsn_loop fuel n fmt args o
      else
        let '(left_align, zero_pad, fmt) := parse_flags fmt false false in
        '(width, fmt) ← parse_width fmt 0;
        let '(is_long, fmt) := match fmt with c :: fmt' => if c =? 108 then (true, fmt') else (false, fmt) | [] => (false, []) end in
        match fmt with
        | [] => None
        | c :: fmt =>
          '(val, args) ← vconv c is_long args;
          o ← emit_padded n val width zero_pad left_align o;
          vsn_loop fuel n fmt args o
        end
    end
  end.

(** The buffer afterwards and the result; [n] is a [size_t]. *)
Definition vsnprintf (s : list Z) (n : Z) (fmt : list Z) (args : list va) : option (list Z * Z) :=
  o ← vsn_loop (S (length fmt)) n fmt args (Out s 0);
  if n >? 0 then
    let i := if o_total o <? n then o_total o else n - 1 in
    if i <? Z.of_nat (length (o_s o)) then Some (put8 (o_s o) i 0, s32 (o_total o)) else None
  else Some (o_s o, s32 (o_total o)).
Definition snprintf (s : list Z) (n : Z) (fmt : list Z) (args : list va) : option (list Z * Z) := vsnprintf s n fmt args.

(** ** libc/format.c *)

Definition hx : list Z := lit "0123456789abcdef".
Definition print_hex_byte (b : Z) : option (list Z) := printf (lit "%s") [VStr (Some [get8 hx (Z.shiftr b 4); get8 hx (Z.land b 0xF)])].

(** The hexadecimal columns [j], ..., [n] of them, of the line at [i], and
    its text. *)
Fixpoint dump_hex (n : nat) (p : list Z) (i j : Z) : option (list Z) :=
  match n with
  | O => Some []
  | S n =>
    b ← (if i + j <? Z.of_nat (length p) then print_hex_byte (get8 p (i + j)) else printf (lit "  ") []);
    sp ← printf (lit " ") [];
    sp2 ← (if j =? 7 then printf (lit " ") [] else Some []);
    rest ← dump_hex n p i (j + 1);
    Some (b ++ sp ++ sp2 ++ rest)
  end.
Fixpoint dump_text (n : nat) (p : list Z) (i j : Z) : option (list Z) :=
  match n with
  | O => Some []
  | S n =>
    if i + j <? Z.of_nat (length p) then
      let c := get8 p (i + j) in
      t ← printf (lit "%s") [VStr (Some [if (c >=? 0x20) && (c <? 0x7F) then c else 46])];
      rest ← dump_text n p i (j + 1);
      Some (t ++ rest)
    else Some []
  end.
Fixpoint hex_lines (n : nat) (p : list Z) (i : Z) : option (list Z) :=
  match n with
  | O => Some []
  | S n =>
    '(off, _) ← snprintf (replicate 12 0) 12 (lit "%08lx") [VWord i];
    o ← printf (lit "%s  ") [VStr (Some off)];
    h ← dump_hex 16 p i 0;
    b1 ← printf (lit "|") [];
    t ← dump_text 16 p i 0;
    b2 ← printf (lit "|" ++ [10]) [];
    rest ← hex_lines n p (i + 16);
    Some (o ++ h ++ b1 ++ t ++ b2 ++ rest)
  end.
Definition hex_dump (buf : list Z) : option (list Z) := hex_lines ((length buf + 15) / 16) buf 0.

(** The unit and the loop that chooses it. *)
Definition units (u : nat) : list Z := nth u [lit "B"; lit "KB"; lit "MB"; lit "GB"; lit "TB"] [].
Fixpoint unit_of (n : nat) (v : Z) (u : nat) : nat :=
  match n with O => u | S n => if v >=? 1024 then unit_of n (v / 1024) (S u) else u end.
Fixpoint div1024 (n : nat) (v : Z) : Z := match n with O => v | S n => div1024 n (v / 1024) end.
Definition fmt_size (bytes : Z) (out : list Z) (sz : Z) : option (list Z) :=
  let u := unit_of 4 bytes 0 in
  '(s, _) ← (if (u =? 0)%nat then snprintf out sz (lit "%lu B") [VWord bytes]
             else
               let whole := div1024 u bytes in
               let rem := u64 (div1024 (u - 1) bytes mod 1024 * 100) / 1024 in
               snprintf out sz (lit "%lu.%02lu %s") [VWord whole; VWord rem; VStr (Some (units u))]);
  Some s.

Definition fmt_ip4 (ip_be : Z) (out : list Z) (sz : Z) : option (list Z) :=
  let b := le_bytes 4 ip_be in
  '(s, _) ← snprintf out sz (lit "%d.%d.%d.%d") [VWord (get8 b 0); VWord (get8 b 1); VWord (get8 b 2); VWord (get8 b 3)];
  Some s.

Definition hex_pair (b : Z) : list Z := [get8 hx (Z.shiftr b 4); get8 hx (Z.land b 0xF)].
Definition fmt_mac (mac out : list Z) (sz : Z) : list Z :=
  if sz <? 18 then out
  else splice out 0 (concat (imap (fun i b => hex_pair b ++ [if (i <? 5)%nat then 58 else 0]) (take 6 mac))).

Definition fmt_uptime (ms : Z) (out : list Z) (sz : Z) : option (list Z) :=
  let s := ms / 1000 in
  let min := s / 60 in let s := s mod 60 in
  let hr := min / 60 in let min := min mod 60 in
  let day := hr / 24 in let hr := hr mod 24 in
  '(r, _) ← (if negb (day =? 0) then snprintf out sz (lit "%lud %02luh %02lum %02lus") [VWord day; VWord hr; VWord min; VWord s]
             else if negb (hr =? 0) then snprintf out sz (lit "%luh %02lum %02lus") [VWord hr; VWord min; VWord s]
             else snprintf out sz (lit "%lum %02lus") [VWord min; VWord s]);
  Some r.

(** The bytes [i], ... of [buf] while two digits and the terminator fit. *)
Fixpoint hexstr_loop (buf : list Z) (i sz : Z) (out : list Z) : Z * list Z :=
  match buf with
  | [] => (i, out)
  | b :: buf =>
    if i * 2 + 2 <? sz then hexstr_loop buf (i + 1) sz (splice out (i * 2) (hex_pair b)) else (i, out)
  end.
Definition fmt_hexstr (buf out : list Z) (sz : Z) : list Z :=
  let '(i, out) := hexstr_loop buf 0 sz out in put8 out (i * 2) 0.

(** ** The bounded output against the whole text *)

(** A value in its field. *)
Definition padded (val : list Z) (width : Z) (zero_pad left_align : bool) : list Z :=
  let gap c := replicate (Z.to_nat (width - Z.of_nat (length val))) c in
  if left_align then val ++ gap 32 else gap (if zero_pad then 48 else 32) ++ val.

Definition long_mod (fmt : list Z) : bool * list Z :=
  match fmt with c :: fmt' => if c =? 108 then (true, fmt') else (false, fmt) | [] => (false, []) end.

(** [formats fmt args t]: the text [t] is what the format and the arguments
    stand for. *)
Inductive formats : list Z -> list va -> list Z -> Prop :=
| FmtEnd args : formats [] args []
| FmtChar c fmt args t : c <> 37 -> formats fmt args t -> formats (c :: fmt) args (c :: t)
| FmtConv fmt left_align zero_pad f1 width f2 is_long c f3 val args args' t :
    parse_flags fmt false false = (left_align, zero_pad, f1) -> parse_width f1 0 = Some (width, f2) ->
    long_mod f2 = (is_long, c :: f3) -> vconv c is_long args = Some (val, args') -> formats f3 args' t ->
    formats (37 :: fmt) args (padded val width zero_pad left_align ++ t).

Lemma parse_flags_length fmt la zp : (length (parse_flags fmt la zp).2 <= length fmt)%nat.
Proof.
  revert la zp. induction fmt as [|c fmt IH]; intros la zp; cbn [parse_flags length]; [done|].
  repeat bcase; cbn [snd length]; try lia; (etransitivity; [apply IH|lia]).
Qed.
Lemma parse_width_length fmt w w' fmt' : parse_width fmt w = Some (w', fmt') -> (length fmt' <= length fmt)%nat.
Proof.
  revert w. induction fmt as [|c fmt IH]; intros w; cbn [parse_width length]; [by intros [= _ <-]|].
  repeat bcase; intros Hp; simplify_eq; try (apply IH in Hp; lia); cbn [length]; lia.
Qed.

(** [l] was emitted into the buffer [s]. *)
Definition emitted (s : list Z) (n : Z) (l : list Z) (o : out_t) : Prop :=
  o_s o = splice s 0 (take (Z.to_nat (n - 1)) l) /\ o_total o = Z.of_nat (length l).

Lemma inserts_snoc (l : list Z) c i s : list_inserts i (l ++ [c]) s = <[(i + length l)%nat := c]> (list_inserts i l s).
Proof.
  revert i. induction l as [|y l IH]; intros i; cbn [app list_inserts length]; [by rewrite Nat.add_0_r|].
  rewrite IH, list_insert_insert_ne by lia. by replace (i + S (length l))%nat with (S i + length l)%nat by lia.
Qed.

Section Bounded.
Context (s : list Z) (n : Z) (Hn : 0 <= n <= Z.of_nat (length s)).

Lemma ec_ok l c o :
  emitted s n l o -> Z.of_nat (length l) + 1 < 18446744073709551616 -> exists o', ec n c o = Some o' /\ emitted s n (l ++ [c]) o'.
Proof.
  intros [Es Et] Hl. unfold ec. rewrite Es, Et, u64_id by (unfold in_u64; lia). rewrite length_splice, Z.gtb_ltb.
  destruct (Z.ltb_spec 1 n), (Z.ltb_spec (Z.of_nat (length l)) (n - 1)); cbn [andb].
  1: destruct (Z.ltb_spec (Z.of_nat (length l)) (Z.of_nat (length s))); [|lia].
  all: eexists; split; [reflexivity|]; (split; cbn [o_s o_total]; [|rewrite length_app; cbn [length]; lia]).
  - rewrite !take_ge by (rewrite ?length_app; cbn [length]; lia). unfold splice, put8. rewrite inserts_snoc. f_equal. lia.
  - rewrite take_app_le by lia. done.
  - rewrite take_app_le by lia. done.
  - rewrite take_app_le by lia. done.
Qed.

Lemma ec_all_ok l' l o :
  emitted s n l o -> Z.of_nat (length l) + Z.of_nat (length l') < 18446744073709551616 ->
  exists o', ec_all n l' o = Some o' /\ emitted s n (l ++ l') o'.
Proof.
  revert l o. induction l' as [|c l' IH]; intros l o He Hl; cbn [ec_all length] in *; [exists o; by rewrite app_nil_r|].
  destruct (ec_ok l c o He ltac:(lia)) as (o1 & E1 & H1). rewrite E1. cbn [mbind option_bind].
  destruct (IH (l ++ [c]) o1 H1) as (o2 & E2 & H2); [rewrite length_app; cbn [length]; lia|]. exists o2. by rewrite <- app_assoc in H2.
Qed.

Lemma emit_padded_ok val width zp la l o :
  emitted s n l o -> Z.of_nat (length l) + Z.of_nat (length (padded val width zp la)) < 18446744073709551616 ->
  exists o', emit_padded n val width zp la o = Some o' /\ emitted s n (l ++ padded val width zp la) o'.
Proof.
  intros He. unfold padded, emit_padded. set (gap := Z.to_nat (width - Z.of_nat (length val))).
  assert (Hgap : width <= Z.of_nat (length val) -> forall c : Z, replicate gap c = []) by (intros ? c; unfold gap; by replace (Z.to_nat _) with 0%nat by lia).
  destruct la; cbn [negb andb mbind option_bind]; rewrite length_app; intros Hl.
  - destruct (ec_all_ok val l o He) as (o1 & E1 & H1); [lia|]. rewrite E1. cbn [mbind option_bind].
    destruct (Z.ltb_spec (Z.of_nat (length val)) width); [|rewrite Hgap, app_nil_r by done; by exists o1].
    destruct (ec_all_ok (replicate gap 32) (l ++ val) o1 H1) as (o2 & E2 & H2); [rewrite length_app; lia|]. exists o2. by rewrite <- app_assoc in H2.
  - assert (exists o1, (if Z.of_nat (length val) <? width then ec_all n (replicate gap (if zp then 48 else 32)) o else Some o) = Some o1 /\
      emitted s n (l ++ replicate gap (if zp then 48 else 32)) o1) as (o1 & E1 & H1).
    { destruct (Z.ltb_spec (Z.of_nat (length val)) width); [apply ec_all_ok; [done|lia]|rewrite Hgap, app_nil_r by done; by exists o]. }
    rewrite E1. cbn [mbind option_bind]. destruct (ec_all_ok val _ o1 H1) as (o2 & E2 & H2); [rewrite length_app; lia|].
    rewrite E2. exists o2. by rewrite <- app_assoc in H2.
Qed.

Lemma vsn_loop_ok fmt args t : formats fmt args t -> forall fuel l o,
  emitted s n l o -> (length fmt < fuel)%nat -> Z.of_nat (length l) + Z.of_nat (length t) < 18446744073709551616 ->
  exists o', vsn_loop fuel n fmt args o = Some o' /\ emitted s n (l ++ t) o'.
Proof.
  induction 1 as [args|c fmt args t Hc _ IH|fmt la zp f1 width f2 is_long c f3 val args args' t E1 E2 E3 E4 _ IH]; intros [|fuel] l o He Hf Hl;
    cbn [length] in *; try lia; cbn [vsn_loop].
  - exists o. by rewrite app_nil_r.
  - destruct (Z.eqb_spec c 37); [done|]. cbn [negb]. destruct (ec_ok l c o He ltac:(lia)) as (o1 & Ee & H1). rewrite Ee. cbn [mbind option_bind].
    destruct (IH fuel (l ++ [c]) o1 H1) as (o2 & E2 & H2); [lia|rewrite length_app; cbn [length]; lia|]. exists o2. by rewrite <- app_assoc in H2.
  - cbn [Z.eqb Pos.eqb negb]. rewrite E1. cbv beta iota. rewrite E2. cbn [mbind option_bind]. fold (long_mod f2). rewrite E3. cbv beta iota.
    rewrite E4. cbn [mbind option_bind]. rewrite length_app in Hl.
    destruct (emit_padded_ok val width zp la l o He ltac:(lia)) as (o1 & Ee & H1). rewrite Ee. cbn [mbind option_bind].
    pose proof (parse_flags_length fmt false false) as L1. rewrite E1 in L1. cbn [snd] in L1. pose proof (parse_width_length _ _ _ _ E2) as L2.
    assert (L3 : (length f3 < length f2)%nat).
    { destruct f2 as [|x f2]; cbn [long_mod] in E3; [done|]. destruct (x =? 108); simplify_eq; cbn [length]; lia. }
    destruct (IH fuel _ o1 H1) as (o2 & E5 & H2); [lia|rewrite length_app; lia|]. exists o2. by rewrite <- app_assoc in H2.
Qed.
End Bounded.

Lemma splice_app s l c : (length l < length s)%nat -> splice s 0 (l ++ [c]) = put8 (splice s 0 l) (Z.of_nat (length l)) c.
Proof. intros. unfold splice, put8. rewrite inserts_snoc. f_equal. lia. Qed.

(** C24 (libc/stdio.c, [vsnprintf], which [snprintf] calls): into a buffer that
    holds [n] bytes, a format whose text is [t] stores the first [n - 1]
    characters of [t] and a terminator, leaves every other byte of the buffer
    as it was (all of them when [n] is 0) and returns the length of the whole
    text; no store is behind the [n] bytes. *)
Theorem vsnprintf_correct s n fmt args t :
  formats fmt args t -> 0 <= n <= Z.of_nat (length s) -> Z.of_nat (length t) < 18446744073709551616 ->
  vsnprintf s n fmt args = Some (if n =? 0 then s else splice s 0 (take (Z.to_nat (n - 1)) t ++ [0]), s32 (Z.of_nat (length t))).
Proof.
  intros Hf Hn Ht. unfold vsnprintf.
  destruct (vsn_loop_ok s n Hn fmt args t Hf (S (length fmt)) [] (Out s 0)) as (o & E & Es & Et); [split; cbn [o_s o_total]; by rewrite ?take_nil|lia|done|].
  rewrite E. cbn [mbind option_bind app] in *. rewrite Es, Et, Z.gtb_ltb, length_splice.
  destruct (Z.ltb_spec 0 n), (Z.eqb_spec n 0); try lia.
  - assert (Hi : (if Z.of_nat (length t) <? n then Z.of_nat (length t) else n - 1) = Z.of_nat (length (take (Z.to_nat (n - 1)) t))).
    { rewrite length_take. destruct (Z.ltb_spec (Z.of_nat (length t)) n); lia. }
    rewrite Hi. pose proof (length_take t (Z.to_nat (n - 1))). destruct (Z.ltb_spec (Z.of_nat (length (take (Z.to_nat (n - 1)) t))) (Z.of_nat (length s))); [|lia].
    by rewrite splice_app by lia.
  - subst n. by change (take (Z.to_nat (0 - 1)) t) with (@nil Z).
Qed.
End Format.

Example fmt_size_ex : fmt_size (fun _ => []) 1536 (replicate 12 1) 12 = Some (lit "1.50 KB" ++ [0; 1; 1; 1; 1]).
Proof. by vm_compute. Qed.
Example fmt_uptime_ex : fmt_uptime (fun _ => []) 3723000 (replicate 11 1) 11 = Some (lit "1h 02m 03s" ++ [0]).
Proof. by vm_compute. Qed.
(** Zeros are put in front of the sign, and [%lu] prints the upper half of its
    range as negative numbers. *)
Example fmt_sign_ex : snprintf (fun _ => []) (replicate 8 1) 8 (lit "%05d") [VWord (-42)] = Some (lit "00-42" ++ [0; 1; 1], 5).
Proof. by vm_compute. Qed.
Example fmt_lu_ex : snprintf (fun _ => []) (replicate 22 1) 22 (lit "%lu") [VWord 9223372036854775808] = Some (lit "-9223372036854775808" ++ [0; 1], 20).
Proof. by vm_compute. Qed.

Lemma vsnprintf_correct_witness :
  vsnprintf (fun _ => []) (replicate 8 1) 6 (lit "a%-4s%03u") [VStr (Some [104; 105]); VWord 7] = Some ([97; 104; 105; 32; 32; 0; 1; 1], 8).
Proof.
  rewrite (vsnprintf_correct (fun _ => []) (replicate 8 1) 6 (lit "a%-4s%03u") [VStr (Some [104; 105]); VWord 7] [97; 104; 105; 32; 32; 48; 48; 55]).
  - reflexivity.
  - apply FmtChar; [lia|].
    apply (FmtConv (fun _ => []) [45; 52; 115; 37; 48; 51; 117] true false [52; 115; 37; 48; 51; 117] 4 [115; 37; 48; 51; 117] false 115 [37; 48; 51; 117]
      [104; 105] [VStr (Some [104; 105]); VWord 7] [VWord 7] [48; 48; 55]); [reflexivity..|].
    apply (FmtConv (fun _ => []) [48; 51; 117] false true [51; 117] 3 [117] false 117 [] [55] [VWord 7] [] []); [reflexivity..|constructor].
  - cbn. lia.
  - cbn. lia.
Defined.
