(* ===== verification/Umalloc.v ===== *)
(** * The allocator of user programs

    Models userland/umalloc.h over SYS_SBRK. The headers of the blocks are a
    map from addresses; programs do not write over them. A pointer is an
    address, NULL is 0, and [None] is an access to an address without a header
    or a list that does not end within the fuel. *)

From S2P Require Import Prelude.

Record umalloc_block_t := Ublk { ub_size : Z; ub_next : Z; ub_free : bool }.
Definition UMALLOC_ALIGN : Z := 16.
Definition UMALLOC_HDR_SIZE : Z := 32.
Definition UMALLOC_MIN_GROW : Z := 4096.

(** [um_brk] and [um_end] are what the kernel keeps of the process (the break
    and its limit). *)
Record um_st := Um { um_hdr : gmap Z umalloc_block_t; um_list : Z; um_brk : Z; um_end : Z }.

Section Umalloc.
(** Whether the kernel has no pages left to move the break from an address. *)
Context (no_pages : Z -> bool).
(** Rounds allowed to the loops over the list. *)
Context (fuel : nat).

Definition hdr (p : Z) : M um_st umalloc_block_t := fun s => b ← um_hdr s !! p; Some (b, s).
Definition set_hdr (p : Z) (b : umalloc_block_t) : M um_st unit :=
  modify (fun s => Um (<[p := b]> (um_hdr s)) (um_list s) (um_brk s) (um_end s)).
Definition set_list (p : Z) : M um_st unit := modify (fun s => Um (um_hdr s) p (um_brk s) (um_end s)).
Definition set_next (p next : Z) : M um_st unit := b ← hdr p; set_hdr p (Ublk (ub_size b) next (ub_free b)).

Definition umalloc_align_up (x : Z) : Z := Z.land (u64 (x + (UMALLOC_ALIGN - 1))) (not64 (UMALLOC_ALIGN - 1)).

(** [usyscall1(SYS_SBRK, chunk)]: the old break, or -1. *)
Definition sbrk (chunk : Z) : M um_st Z := fun s =>
  if s64 chunk =? 0 then Some (um_brk s, s)
  else if (s64 chunk <? 0) || (um_brk s + s64 chunk >? um_end s) || no_pages (um_brk s) then Some (u64 (-1), s)
  else Some (um_brk s, Um (um_hdr s) (um_list s) (um_brk s + s64 chunk) (um_end s)).

Definition umalloc_list_insert (blk : Z) : M um_st unit :=
  head ← gets um_list;
  if (head =? 0) || (blk <? head) then set_next blk head;; set_list blk
  else
    loop fuel (fun cur =>
      c ← hdr cur;
      if negb (ub_next c =? 0) && (ub_next c <? blk) then mret (inl (ub_next c))
      else set_next blk (ub_next c);; set_next cur blk;; mret (inr tt)) head.

Definition umalloc_grow (min_size : Z) : M um_st Z :=
  let chunk := u64 (min_size + UMALLOC_HDR_SIZE) in
  let chunk := if chunk <? UMALLOC_MIN_GROW then UMALLOC_MIN_GROW else chunk in
  base ← sbrk chunk;
  if base =? u64 (-1) then mret 0
  else set_hdr base (Ublk (u64 (chunk - UMALLOC_HDR_SIZE)) 0 true);; mret base.

(** The first free block of the list that is large enough, and the one before
    it (0 for none). *)
Definition first_fit (size : Z) : M um_st (Z * Z) :=
  head ← gets um_list;
  loop fuel (fun '(prev, cur) =>
    if cur =? 0 then mret (inr (prev, cur))
    else
      c ← hdr cur;
      if ub_free c && (ub_size c >=? size) then mret (inr (prev, cur)) else mret (inl (cur, ub_next c))) (0, head).

(** Unlink [cur], which [prev] is before. *)
Definition unlink (prev cur : Z) : M um_st unit :=
  c ← hdr cur; if negb (prev =? 0) then set_next prev (ub_next c) else set_list (ub_next c).

(** Split off what is left behind [size] bytes of the block, if it is worth it. *)
Definition split_block (cur size : Z) : M um_st unit :=
  c ← hdr cur;
  if ub_size c >=? u64 (size + UMALLOC_HDR_SIZE + UMALLOC_ALIGN) then
    let rem := u64 (cur + UMALLOC_HDR_SIZE + size) in
    set_hdr rem (Ublk (u64 (ub_size c - size - UMALLOC_HDR_SIZE)) 0 true);;
    umalloc_list_insert rem;;
    c ← hdr cur;
    set_hdr cur (Ublk size (ub_next c) (ub_free c))
  else mret tt.

Definition umalloc (size : Z) : M um_st Z :=
  if size =? 0 then mret 0
  else
    let size := umalloc_align_up size in
    '(prev, cur) ← first_fit size;
    cur ← (if negb (cur =? 0) then
             unlink prev cur;; mret cur
           else umalloc_grow size);
    if cur =? 0 then mret 0
    else
      split_block cur size;;
      c ← hdr cur;
      set_hdr cur (Ublk (ub_size c) 0 false);;
      mret (u64 (cur + UMALLOC_HDR_SIZE)).

Definition ufree (ptr : Z) : M um_st unit :=
  if ptr =? 0 then mret tt
  else
    let blk := u64 (ptr - UMALLOC_HDR_SIZE) in
    b ← hdr blk;
    set_hdr blk (Ublk (ub_size b) (ub_next b) true);;
    umalloc_list_insert blk;;
    b ← hdr blk;
    if negb (ub_next b =? 0) && (u64 (blk + UMALLOC_HDR_SIZE + ub_size b) =? ub_next b) then
      nxt ← hdr (ub_next b);
      set_hdr blk (Ublk (u64 (ub_size b + (UMALLOC_HDR_SIZE + ub_size nxt))) (ub_next nxt) (ub_free b))
    else mret tt.
End Umalloc.

(** ** Huge requests

    The rounding wraps: the largest request gets a block of 0 bytes, and for
    one of 2^64 - 32 bytes the remainder of the split is the block itself, so
    that it is returned and is on the free list as well. *)
Definition um_fresh : um_st := Um ∅ 0 0x1000 0x10000.
Example umalloc_max_ex :
  option_map (fun r => (r.1, ub_size <$> um_hdr r.2 !! (r.1 - 32))) (umalloc (fun _ => false) 5 18446744073709551615 um_fresh) = Some (0x1020, Some 0).
Proof. by vm_compute. Qed.
Example umalloc_wrap_ex :
  option_map (fun r => (r.1, um_list r.2)) (umalloc (fun _ => false) 5 18446744073709551584 um_fresh) = Some (0x1020, 0x1000).
Proof. by vm_compute. Qed.
