(* ===== verification/UmallocProofs.v ===== *)
(** * The allocator of user programs: proofs

    Whatever a program allocates and frees, the blocks tile the heap, the free
    list is sorted, and the memory of two live allocations does not overlap. *)

From S2P Require Import Prelude Umalloc.

Lemma align_up_eq x : 0 <= x -> x + 15 < 18446744073709551616 -> umalloc_align_up x = (x + 15) / 16 * 16.
Proof.
  intros Hx Hb. unfold umalloc_align_up, UMALLOC_ALIGN. change (16 - 1) with 15. rewrite u64_id by (unfold in_u64; lia).
  change (not64 15) with (Z.shiftl (Z.ones 60) 4). change 16 with (2 ^ 4). rewrite <- Z.shiftr_div_pow2, <- Z.shiftl_mul_pow2 by lia.
  apply Z.bits_inj'. intros i Hi. rewrite Z.land_spec, !Z.shiftl_spec by done.
  destruct (Z_lt_le_dec i 4); [rewrite !(Z.testbit_neg_r _ (i - 4)) by lia; by rewrite andb_false_r|].
  rewrite Z.shiftr_spec by lia. replace (i - 4 + 4) with i by lia. destruct (Z_lt_le_dec i 64).
  - rewrite Z.ones_spec_low by lia. by rewrite andb_true_r.
  - rewrite (testbit_high (x + 15) 64) by (done || lia). done.
Qed.

(** ** Blocks *)

(** A block is its address and the bytes behind its header. *)
Definition block_end (b : Z * Z) : Z := b.1 + 32 + b.2.
Definition apart (b b' : Z * Z) : Prop := block_end b <= b'.1 \/ block_end b' <= b.1.

(** No two of the blocks overlap. *)
Fixpoint sep (B : list (Z * Z)) : Prop := match B with [] => True | b :: B => Forall (apart b) B /\ sep B end.

Lemma apart_sym b b' : apart b b' -> apart b' b.
Proof. unfold apart. tauto. Qed.

#[export] Instance sep_perm : Proper (Permutation ==> iff) sep.
Proof.
  assert (H : forall B B', Permutation B B' -> sep B -> sep B').
  { induction 1 as [|b B B' HB IH|b c B|B1 B2 B3 _ IH1 _ IH2]; cbn [sep]; [done| | |auto].
    - intros [Hb Hs]. split; [by rewrite <- HB|auto].
    - intros (Hb & Hc & Hs). apply Forall_cons in Hb as [Hbc Hb]. split; [|split]; [|done|done].
      constructor; [by apply apart_sym|done]. }
  intros B B' HB. split; apply H; [done|by symmetry].
Qed.

(** The bytes the blocks take, headers included. *)
Definition total (B : list (Z * Z)) : Z := foldr (fun b n => 32 + b.2 + n) 0 B.
#[export] Instance total_perm : Proper (Permutation ==> eq) total.
Proof. unfold total. induction 1; cbn [foldr]; lia. Qed.

Lemma sep_split a sz size B :
  0 <= size -> size + 32 <= sz -> sep ((a, sz) :: B) -> sep ((a, size) :: (a + 32 + size, sz - size - 32) :: B).
Proof.
  intros Hs Hsz [Hb HB]. cbn [sep]. unfold apart, block_end in *. split; [|split; [|done]].
  - constructor; [left; cbn [fst snd]; lia|]. eapply Forall_impl; [exact Hb|]. intros x; cbn [fst snd]; lia.
  - eapply Forall_impl; [exact Hb|]. intros x; cbn [fst snd]; lia.
Qed.

Lemma sep_merge b c B :
  block_end b = c.1 -> 0 <= b.2 -> 0 <= c.2 -> Forall (fun x => 0 <= x.2) B -> sep (b :: c :: B) -> sep ((b.1, b.2 + (32 + c.2)) :: B).
Proof.
  intros E Hb0 Hc0 H0 (Hb & Hc & HB). apply Forall_cons in Hb as [_ Hb]. split; [|done].
  rewrite Forall_forall in *. intros x Hx. specialize (Hb x Hx). specialize (Hc x Hx). specialize (H0 x Hx). cbv beta in H0.
  unfold apart, block_end in *. cbn [fst snd]. lia.
Qed.

(** ** Lists in memory *)

(** From [p] the links run through the free blocks [F] to [q]. *)
Fixpoint seg (h : gmap Z umalloc_block_t) (p : Z) (F : list (Z * Z)) (q : Z) : Prop :=
  match F with
  | [] => p = q
  | b :: F => p = b.1 /\ exists nx, h !! b.1 = Some (Ublk b.2 nx true) /\ seg h nx F q
  end.

Lemma umalloc_seg_app h p F1 F2 q : seg h p (F1 ++ F2) q <-> exists r, seg h p F1 r /\ seg h r F2 q.
Proof.
  revert p. induction F1 as [|b F1 IH]; intros p; cbn [app seg]; [split; [by exists p|by intros (r & -> & ?)]|]. split.
  - intros (-> & nx & E & (r & H1 & H2)%IH). exists r. split; [|done]. split; [done|]. by exists nx.
  - intros (r & (-> & nx & E & H1) & H2). split; [done|]. exists nx. split; [done|]. apply IH. by exists r.
Qed.

Lemma umalloc_seg_frame h h' p F q : (forall a, a ∈ map fst F -> h' !! a = h !! a) -> seg h p F q -> seg h' p F q.
Proof.
  revert p. induction F as [|b F IH]; intros p H; cbn [seg map] in *; [done|]. intros (-> & nx & E & Hs). split; [done|].
  exists nx. split; [rewrite H; [done|set_solver]|]. apply IH; [set_solver|done].
Qed.

Lemma seg_insert_ne h p F q a x : a ∉ map fst F -> seg h p F q -> seg (<[a := x]> h) p F q.
Proof. intros Ha. apply umalloc_seg_frame. intros y Hy. apply lookup_insert_ne. by intros ->. Qed.

(** The sorted place of a block. *)
Fixpoint ins (b : Z * Z) (F : list (Z * Z)) : list (Z * Z) :=
  match F with [] => [b] | c :: F' => if b.1 <? c.1 then b :: F else c :: ins b F' end.

Lemma ins_split b F : exists F1 F2, F = F1 ++ F2 /\ ins b F = F1 ++ b :: F2.
Proof.
  induction F as [|c F (F1 & F2 & E1 & E2)]; cbn [ins]; [by exists [], []|].
  destruct (b.1 <? c.1); [by exists [], (c :: F)|]. exists (c :: F1), F2. cbn. by rewrite E1 at 1; rewrite E2.
Qed.
Lemma ins_perm b F : Permutation (ins b F) (b :: F).
Proof. destruct (ins_split b F) as (F1 & F2 & -> & ->). symmetry. apply Permutation_middle. Qed.
Lemma ins_sorted b F : StronglySorted Z.lt (map fst F) -> b.1 ∉ map fst F -> StronglySorted Z.lt (map fst (ins b F)).
Proof.
  induction F as [|c F IH]; cbn [ins map]; intros Hs Hb; [repeat constructor|]. apply StronglySorted_inv in Hs as [Hs Hc].
  destruct (Z.ltb_spec b.1 c.1) as [Hlt|Hge]; cbn [map]; constructor.
  - by constructor.
  - constructor; [done|]. eapply Forall_impl; [exact Hc|]. intros x; cbn [fst snd]; lia.
  - apply IH; [done|set_solver].
  - rewrite (ins_perm b F). constructor; [|done]. assert (c.1 <> b.1) by set_solver. lia.
Qed.

Section List.
Implicit Types s : um_st.

Lemma hdr_ok s p b : um_hdr s !! p = Some b -> hdr p s = Some (b, s).
Proof. intros E. unfold hdr. by rewrite E. Qed.
Lemma umalloc_set_next_ok s p b nx : um_hdr s !! p = Some b ->
  set_next p nx s = Some (tt, Um (<[p := Ublk (ub_size b) nx (ub_free b)]> (um_hdr s)) (um_list s) (um_brk s) (um_end s)).
Proof. intros E. unfold set_next. by rewrite (bind_eq _ _ _ _ _ (hdr_ok s p b E)). Qed.

(** What the operations on the list leave alone. *)
Record um_frame (s s' : um_st) (touched : list Z) : Prop := {
  uf_brk : um_brk s' = um_brk s;
  uf_end : um_end s' = um_end s;
  uf_hdr : forall a, a ∉ touched -> um_hdr s' !! a = um_hdr s !! a;
}.

Lemma insert_loop_ok b F : forall n s c,
  seg (um_hdr s) c.1 (c :: F) 0 -> NoDup (map fst (b :: c :: F)) -> (exists nx, um_hdr s !! b.1 = Some (Ublk b.2 nx true)) ->
  Forall (fun x => 0 < x.1) F -> (length F < n)%nat ->
  exists s', loop n (fun cur =>
      c ← hdr cur;
      if negb (ub_next c =? 0) && (ub_next c <? b.1) then mret (inl (ub_next c))
      else set_next b.1 (ub_next c);; set_next cur b.1;; mret (inr tt)) c.1 s = Some (tt, s') /\
    seg (um_hdr s') c.1 (c :: ins b F) 0 /\ um_list s' = um_list s /\ um_frame s s' (map fst (b :: c :: F)).
Proof.
  induction F as [|d F IH]; intros [|n] s c Hs Hnd [nx Hb] Hpos Hn; cbn [length] in Hn; try lia; cbn [map] in Hnd.
  - destruct Hs as (_ & nx' & Ec & Enx). cbn [seg] in Enx. subst nx'. rewrite NoDup_cons in Hnd. destruct Hnd as [Hne _].
    assert (Hbc : b.1 <> c.1) by set_solver. eexists. split; [|split; [|split]].
    + apply loop_exit. rewrite (bind_eq _ _ _ _ _ (hdr_ok s _ _ Ec)). cbn [ub_next Z.eqb negb andb].
      rewrite (bind_eq _ _ _ _ _ (umalloc_set_next_ok s _ _ 0 Hb)).
      erewrite bind_eq; [|apply umalloc_set_next_ok; cbn [um_hdr]; rewrite lookup_insert_ne by done; exact Ec]. reflexivity.
    + cbn [seg ins um_hdr ub_size ub_free]. split; [done|]. exists b.1. rewrite lookup_insert_eq. split; [done|]. split; [done|]. exists 0.
      rewrite lookup_insert_ne, lookup_insert_eq by done. done.
    + done.
    + split; [done..|]. intros a Ha. cbn [um_hdr map] in *. rewrite !lookup_insert_ne by set_solver. done.
  - destruct Hs as (_ & nx' & Ec & (-> & nxd & Ed & Hs)). apply Forall_cons in Hpos as [Hd Hpos]. cbn [ins].
    rewrite !NoDup_cons in Hnd. destruct Hnd as (Hb' & Hc' & Hd' & Hnd).
    destruct (Z.ltb_spec d.1 b.1) as [Hlt|Hge].
    + destruct (IH n s d) as (s' & E' & Hs' & El & Hf).
      { split; [done|]. by exists nxd. }
      { cbn [map]. rewrite !NoDup_cons. set_solver. }
      { by exists nx. }
      { done. } { lia. }
      exists s'. split; [|split; [|split]]; [|  |done|].
      * erewrite loop_step; [exact E'|]. rewrite (bind_eq _ _ _ _ _ (hdr_ok s _ _ Ec)). cbn [ub_next].
        destruct (Z.eqb_spec d.1 0), (Z.ltb_spec d.1 b.1); (done || lia).
      * destruct (Z.ltb_spec b.1 d.1); [lia|]. split; [done|]. exists d.1. split; [|done].
        rewrite (uf_hdr _ _ _ Hf); [done|]. cbn [map] in *. set_solver.
      * destruct Hf as [H1 H2 H3]. split; [done..|]. intros a Ha. apply H3. cbn [map] in *. set_solver.
    + assert (Hne : b.1 <> d.1 /\ b.1 <> c.1) by set_solver. destruct (Z.ltb_spec b.1 d.1); [|lia]. eexists. split; [|split; [|split]].
      * apply loop_exit. rewrite (bind_eq _ _ _ _ _ (hdr_ok s _ _ Ec)). cbn [ub_next].
        destruct (Z.eqb_spec d.1 0), (Z.ltb_spec d.1 b.1); try lia. cbn [negb andb].
        rewrite (bind_eq _ _ _ _ _ (umalloc_set_next_ok s _ _ d.1 Hb)).
        erewrite bind_eq; [|apply umalloc_set_next_ok; cbn [um_hdr]; rewrite lookup_insert_ne by (destruct Hne; congruence); exact Ec]. reflexivity.
      * cbn [um_hdr ub_size ub_free]. split; [done|]. exists b.1. rewrite lookup_insert_eq. split; [done|]. split; [done|]. exists d.1.
        rewrite lookup_insert_ne, lookup_insert_eq by (destruct Hne; congruence). split; [done|].
        do 2 (apply seg_insert_ne; [cbn [map]; set_solver|]). split; [done|]. by exists nxd.
      * done.
      * split; [done..|]. intros a Ha. cbn [um_hdr map] in *. rewrite !lookup_insert_ne by set_solver. done.
Qed.

(** [umalloc_list_insert] puts a block at its sorted place. *)
Lemma insert_ok fuel s b F :
  seg (um_hdr s) (um_list s) F 0 -> NoDup (map fst (b :: F)) -> (exists nx, um_hdr s !! b.1 = Some (Ublk b.2 nx true)) ->
  Forall (fun x => 0 < x.1) F -> (length F < fuel)%nat ->
  exists s', umalloc_list_insert fuel b.1 s = Some (tt, s') /\ seg (um_hdr s') (um_list s') (ins b F) 0 /\ um_frame s s' (map fst (b :: F)).
Proof.
  intros Hs Hnd [nx Hb] Hpos Hf. unfold umalloc_list_insert. erewrite bind_eq; [|reflexivity]. cbv beta.
  assert (Hfront : forall nx', seg (um_hdr s) nx' F 0 -> nx' = um_list s ->
    exists s', (set_next b.1 (um_list s);; set_list b.1) s = Some (tt, s') /\ seg (um_hdr s') (um_list s') (b :: F) 0 /\ um_frame s s' (map fst (b :: F))).
  { intros nx' Hs' ->. eexists. split; [|split].
    - rewrite (bind_eq _ _ _ _ _ (umalloc_set_next_ok s _ _ (um_list s) Hb)). reflexivity.
    - cbn [seg um_hdr um_list ub_size ub_free]. split; [done|]. exists (um_list s). rewrite lookup_insert_eq. split; [done|].
      apply seg_insert_ne; [|done]. cbn [map] in Hnd. by apply NoDup_cons in Hnd as [? _].
    - split; [done..|]. intros a Ha. cbn [um_hdr map] in *. rewrite lookup_insert_ne by set_solver. done. }
  destruct F as [|c F]; cbn [ins].
  - cbn [seg] in Hs. rewrite (proj2 (Z.eqb_eq _ _) Hs). cbn [orb]. by eapply Hfront.
  - pose proof Hs as (Ehd & _). apply Forall_cons in Hpos as [Hc Hpos]. 
    destruct (Z.eqb_spec (um_list s) 0); [lia|]. cbn [orb]. rewrite <- Ehd. destruct (Z.ltb_spec b.1 (um_list s)); [by eapply Hfront|]. rewrite Ehd in *.
    destruct (insert_loop_ok b F fuel s c Hs Hnd ltac:(by exists nx) Hpos ltac:(cbn in Hf; lia)) as (s' & E & Hs' & El & Hfr).
    exists s'. split; [exact E|]. by rewrite El, Ehd.
Qed.
End List.

(** ** The heap *)

Definition block_ok (start brk : Z) (b : Z * Z) : Prop := start <= b.1 /\ (16 | b.1) /\ (16 | b.2) /\ 0 <= b.2 /\ block_end b <= brk.

(** The heap from [start] on: the free list [F], the live blocks [A], and the
    blocks [X] an operation has taken out. *)
Record um_state (start lim : Z) (s : um_st) (F A X : list (Z * Z)) : Prop := {
  us_free : seg (um_hdr s) (um_list s) F 0;
  us_live : Forall (fun b => exists nx, um_hdr s !! b.1 = Some (Ublk b.2 nx false)) A;
  us_hand : Forall (fun b => exists nx, um_hdr s !! b.1 = Some (Ublk b.2 nx true)) X;
  us_sorted : StronglySorted Z.lt (map fst F);
  us_sep : sep (X ++ F ++ A);
  us_blocks : Forall (block_ok start (um_brk s)) (X ++ F ++ A);
  us_total : total (X ++ F ++ A) = um_brk s - start;
  us_range : 0 < start <= um_brk s /\ um_brk s <= um_end s < 4611686018427387904 /\ um_end s = lim /\ (16 | start) /\ (16 | um_brk s);
}.

Lemma sep_nodup B : sep B -> Forall (fun b => 0 <= b.2) B -> NoDup (map fst B).
Proof.
  induction B as [|b B IH]; intros Hs H0; cbn [map]; [constructor|]. destruct Hs as [Hb Hs]. apply Forall_cons in H0 as [Hb0 H0].
  constructor; [|by apply IH]. intros (c & Ec & Hc)%list_elem_of_fmap. rewrite Forall_forall in Hb, H0.
  specialize (Hb c Hc). specialize (H0 c Hc). unfold apart, block_end in Hb. cbv beta in *. lia.
Qed.

Section State.
Context (start lim : Z).
Implicit Types s : um_st.

Lemma state_nodup s F A X : um_state start lim s F A X -> NoDup (map fst (X ++ F ++ A)).
Proof.
  intros [_ _ _ _ Hs Hb _ _]. apply sep_nodup; [done|]. eapply Forall_impl; [exact Hb|]. intros b. unfold block_ok. tauto.
Qed.

Lemma state_pos s F A X : um_state start lim s F A X -> Forall (fun b => 0 < b.1) (X ++ F ++ A).
Proof. intros [_ _ _ _ _ Hb _ Hr]. eapply Forall_impl; [exact Hb|]. intros b. unfold block_ok. lia. Qed.

Lemma state_live_perm s F A A' X : Permutation A A' -> um_state start lim s F A X -> um_state start lim s F A' X.
Proof. intros HA [? ? ? ? ? ? ? ?]. split; try done; by rewrite <- HA. Qed.

(** ** Searching and unlinking *)

Definition last_addr (prev : Z) (F : list (Z * Z)) : Z := from_option fst prev (last F).

Lemma first_fit_loop s size F : forall n prev p,
  seg (um_hdr s) p F 0 -> Forall (fun b => 0 < b.1) F -> (length F < n)%nat ->
  exists F1 F2, F = F1 ++ F2 /\ Forall (fun b => b.2 < size) F1 /\
    match F2 with [] => True | b :: _ => size <= b.2 end /\
    loop n (fun '(prev, cur) =>
      if cur =? 0 then mret (inr (prev, cur))
      else
        c ← hdr cur;
        if ub_free c && (ub_size c >=? size) then mret (inr (prev, cur)) else mret (inl (cur, ub_next c))) (prev, p) s =
      Some ((last_addr prev F1, match F2 with [] => 0 | b :: _ => b.1 end), s).
Proof.
  induction F as [|b F IH]; intros [|n] prev p Hs Hpos Hn; cbn [length] in Hn; try lia.
  - exists [], []. split_and!; [done|constructor|done|]. cbn [seg] in Hs. subst p. by apply loop_exit.
  - destruct Hs as (-> & nx & Eb & Hs). apply Forall_cons in Hpos as [Hb Hpos]. destruct (Z.le_gt_cases size b.2) as [Hle|Hgt].
    + exists [], (b :: F). split_and!; [done|constructor|done|]. apply loop_exit. destruct (Z.eqb_spec b.1 0); [lia|].
      rewrite (bind_eq _ _ _ _ _ (hdr_ok s _ _ Eb)). cbn [ub_free ub_size andb]. rewrite Z.geb_leb. by destruct (Z.leb_spec size b.2); [|lia].
    + destruct (IH n b.1 nx Hs Hpos ltac:(lia)) as (F1 & F2 & -> & H1 & H2 & E). exists (b :: F1), F2. split_and!; [done|by constructor|done|].
      etransitivity; [apply loop_step|].
      * destruct (Z.eqb_spec b.1 0); [lia|]. rewrite (bind_eq _ _ _ _ _ (hdr_ok s _ _ Eb)). cbn [ub_free ub_size andb ub_next].
        rewrite Z.geb_leb. destruct (Z.leb_spec size b.2); [lia|]. reflexivity.
      * rewrite E. unfold last_addr. rewrite last_cons. by destruct (last F1).
Qed.

(** Taking the block [b] of the free list out. *)
Lemma unlink_ok s F1 b F2 A :
  um_state start lim s (F1 ++ b :: F2) A [] ->
  exists s', unlink (last_addr 0 F1) b.1 s = Some (tt, s') /\ um_state start lim s' (F1 ++ F2) A [b].
Proof.
  intros Hst. pose proof (state_nodup _ _ _ _ Hst) as Hnd. pose proof (state_pos _ _ _ _ Hst) as Hpos.
  destruct Hst as [Hf Hl _ Hso Hse Hb Ht Hr]. cbn [app] in *.
  apply umalloc_seg_app in Hf as (r & H1 & (-> & nx & Eb & H2)).
  assert (Hp : Permutation ((F1 ++ b :: F2) ++ A) (b :: (F1 ++ F2) ++ A)) by (rewrite <- Permutation_middle; done).
  assert (Hrest : forall s', seg (um_hdr s') (um_list s') (F1 ++ F2) 0 -> um_brk s' = um_brk s -> um_end s' = um_end s ->
    (forall a, a ∉ map fst F1 -> um_hdr s' !! a = um_hdr s !! a) -> um_state start lim s' (F1 ++ F2) A [b]).
  { intros s' Hs' Ebrk Eend Hfr. rewrite Hp in *. cbn [map] in Hnd. apply NoDup_cons in Hnd as [Hnb Hnd]. rewrite !map_app in Hnd, Hnb.
    rewrite <- app_assoc in Hnd. apply NoDup_app in Hnd as (_ & Hd1 & _). split; rewrite ?Ebrk, ?Eend; try done.
    - rewrite Forall_forall in *. intros x Hx. rewrite Hfr; [by apply Hl|]. intros Hx1. apply (Hd1 _ Hx1). apply elem_of_app. right. by apply list_elem_of_fmap_2.
    - constructor; [|constructor]. exists nx. rewrite Hfr; [done|]. rewrite !elem_of_app in Hnb. tauto.
    - rewrite map_app in *. cbn [map] in Hso. clear - Hso. induction (map fst F1) as [|x l IH]; cbn [app] in *.
      + by apply StronglySorted_inv in Hso as [].
      + apply StronglySorted_inv in Hso as [Hso Hx]. constructor; [auto|]. apply Forall_app in Hx as [Hx1 Hx2]. apply Forall_cons in Hx2 as [_ Hx2].
        by apply Forall_app. }
  unfold unlink. rewrite (bind_eq _ _ _ _ _ (hdr_ok s _ _ Eb)). cbn [ub_next].
  destruct F1 as [|c F1' _] using rev_ind.
  - cbn [last_addr last from_option Z.eqb negb]. eexists. split; [reflexivity|]. by apply Hrest.
  - unfold last_addr. rewrite last_snoc. cbn [from_option]. rewrite !Forall_app in Hpos. destruct Hpos as [[[_ Hc] _] _].
    apply Forall_cons in Hc as [Hc _]. destruct (Z.eqb_spec c.1 0); [lia|]. cbn [negb].
    apply umalloc_seg_app in H1 as (r & H1 & (-> & nxc & Ec & Enx)). rewrite (umalloc_set_next_ok s c.1 _ nx Ec). eexists. split; [reflexivity|].
    rewrite !map_app in Hnd. cbn [map] in Hnd. rewrite <- !app_assoc in Hnd. apply NoDup_app in Hnd as (_ & Hd1 & Hnd). cbn [app] in *.
    apply NoDup_cons in Hnd as [Hd2 Hnd]. apply Hrest; [|done|done|].
    + cbn [um_hdr um_list ub_size ub_free]. rewrite <- app_assoc. apply umalloc_seg_app. exists c.1. split.
      { apply seg_insert_ne; [|done]. intros Hx. apply (Hd1 _ Hx). left. }
      cbn [app seg]. split; [done|]. exists nx. rewrite lookup_insert_eq. split; [done|]. apply seg_insert_ne; [|done].
      rewrite !elem_of_cons, !elem_of_app in Hd2. tauto.
    + intros a Ha. cbn [um_hdr]. apply lookup_insert_ne. intros <-. apply Ha. rewrite map_app. apply elem_of_app. right. left.
Qed.

(** ** Growing and splitting *)

Context (no_pages : Z -> bool) (fuel : nat).

Lemma grow_ok s F A size :
  um_state start lim s F A [] -> (16 | size) -> 0 < size <= 4611686018427387904 ->
  umalloc_grow no_pages size s = Some (0, s) \/
  exists b s', umalloc_grow no_pages size s = Some (b.1, s') /\ size <= b.2 /\ um_state start lim s' F A [b].
Proof.
  intros Hst Hd Hsz. pose proof Hst as [Hf Hl _ Hso Hse Hb Ht (Hr1 & Hr2 & Hlim & Hr3 & Hr4)]. cbn [app] in *.
  unfold umalloc_grow, UMALLOC_HDR_SIZE, UMALLOC_MIN_GROW. rewrite (u64_id (size + 32)) by (unfold in_u64; lia).
  set (chunk := if size + 32 <? 4096 then 4096 else size + 32).
  assert (Hc : size + 32 <= chunk <= 4611686018427391999 /\ (16 | chunk) /\ 4096 <= chunk).
  { unfold chunk. bcase; (split; [lia|split; [|lia]]); [by exists 256|by apply Z.divide_add_r; [|exists 2]]. }
  clearbody chunk. destruct Hc as (Hc & Hcd & Hc4). unfold sbrk.
  assert (Es : s64 chunk = chunk) by (word_unfold; zlia). rewrite Es. destruct (Z.eqb_spec chunk 0); [lia|].
  destruct (Z.ltb_spec chunk 0); [lia|]. cbn [orb].
  destruct ((um_brk s + chunk >? um_end s) || no_pages (um_brk s)) eqn:E; [left; erewrite bind_eq by (by rewrite E); reflexivity|right].
  apply orb_false_iff in E as [E1 E2]. rewrite Z.gtb_ltb in E1. apply Z.ltb_ge in E1.
  exists (um_brk s, chunk - 32). eexists. split; [|split; [cbn [snd]; lia|]].
  - erewrite bind_eq; [|rewrite Z.gtb_ltb, (proj2 (Z.ltb_ge _ _)), E2 by lia; reflexivity]. cbv beta.
    destruct (Z.eqb_spec (um_brk s) (u64 (-1))) as [Eb|_]; [word_unfold; zlia|]. reflexivity.
  - assert (Hfresh : forall x, x ∈ F ++ A -> um_brk s <> x.1).
    { intros x Hx. rewrite Forall_forall in Hb. destruct (Hb x Hx) as (_ & _ & _ & H0 & H1). unfold block_end in H1. lia. }
    split; cbn [um_hdr um_list um_brk um_end fst snd].
    + apply seg_insert_ne; [|done]. intros (x & Ex & Hx)%list_elem_of_fmap. apply (Hfresh x); [apply elem_of_app; by left|done].
    + rewrite Forall_forall in *. intros x Hx. rewrite lookup_insert_ne; [by apply Hl|]. apply Hfresh, elem_of_app. by right.
    + constructor; [|constructor]. exists 0. rewrite lookup_insert_eq. do 2 f_equal. rewrite u64_id by (unfold in_u64; lia). done.
    + done.
    + split; [|done]. eapply Forall_impl; [exact Hb|]. intros x (_ & _ & _ & H0 & H1). right. cbn [fst]. done.
    + constructor.
      * split_and!; cbn [fst snd]; [lia|done| |lia|unfold block_end; cbn [fst snd]; lia]. apply Z.divide_sub_r; [done|by exists 2].
      * eapply Forall_impl; [exact Hb|]. intros x (? & ? & ? & ? & ?). split_and!; (done || lia).
    + cbn [app]. change (32 + (chunk - 32) + total (F ++ A) = um_brk s + chunk - start). lia.
    + split_and!; try done; try lia. by apply Z.divide_add_r.
Qed.

(** Linking a block that is in hand: the rest stays in hand. *)
Lemma link_ok s F A b X :
  um_state start lim s F A (b :: X) -> (length F < fuel)%nat ->
  exists s', umalloc_list_insert fuel b.1 s = Some (tt, s') /\ um_state start lim s' (ins b F) A X.
Proof.
  intros Hst Hf. pose proof (state_nodup _ _ _ _ Hst) as Hnd. pose proof (state_pos _ _ _ _ Hst) as Hpos.
  pose proof Hst as [Hs Hl Hx Hso Hse Hb Ht Hr]. apply Forall_cons in Hx as [Hbh Hx]. cbn [app map] in *.
  apply NoDup_cons in Hnd as [Hnb Hnd]. rewrite !map_app, !elem_of_app in *. apply NoDup_app in Hnd as (_ & HdX & Hnd). apply NoDup_app in Hnd as (HndF & HdF & _).
  rewrite Forall_cons, !Forall_app in Hpos. destruct Hpos as (_ & _ & HposF & _).
  destruct (insert_ok fuel s b F Hs) as (s' & E & Hs' & Hfr); [cbn [map]; constructor; tauto|done|done|done|]. exists s'. split; [done|].
  destruct Hfr as [Eb Ee Hh]. cbn [map] in Hh.
  assert (HP : Permutation (X ++ ins b F ++ A) (b :: X ++ F ++ A)) by (rewrite (ins_perm b F); cbn [app]; symmetry; apply Permutation_middle).
  split; rewrite ?Eb, ?Ee; try done; try by rewrite HP.
  - rewrite Forall_forall in *. intros x Hx'. rewrite Hh; [by apply Hl|]. rewrite elem_of_cons.
    assert (x.1 ∈ map fst A) by (by apply list_elem_of_fmap_2). intros [E1|E1]; [rewrite E1 in *; tauto|by apply (HdF _ E1)].
  - rewrite Forall_forall in *. intros x Hx'. rewrite Hh; [by apply Hx|]. rewrite elem_of_cons.
    assert (Hxx : x.1 ∈ map fst X) by (by apply list_elem_of_fmap_2). intros [E1|E1]; [rewrite E1 in *; tauto|].
    apply (HdX _ Hxx). apply elem_of_app. by left.
  - apply ins_sorted; [done|tauto].
Qed.

Lemma split_ok s F A b size :
  um_state start lim s F A [b] -> (16 | size) -> 0 < size <= b.2 -> (length F < fuel)%nat ->
  exists s' F' b', split_block fuel b.1 size s = Some (tt, s') /\ b'.1 = b.1 /\ size <= b'.2 /\ (length F' <= S (length F))%nat /\
    um_state start lim s' F' A [b'].
Proof.
  intros Hst Hd Hsz Hf. pose proof Hst as [Hs Hl Hh Hso Hse Hb Ht Hr]. cbn [app] in *. apply Forall_cons in Hh as [[nx Eb] _].
  pose proof (Forall_inv Hb) as (Hb1 & Hb2 & Hb3 & Hb4 & Hb5). apply Forall_cons in Hb as [_ Hb]. unfold block_end in Hb5.
  unfold split_block, UMALLOC_HDR_SIZE, UMALLOC_ALIGN. rewrite (bind_eq _ _ _ _ _ (hdr_ok s _ _ Eb)). cbn [ub_size].
  rewrite Z.geb_leb, u64_id by (unfold in_u64; lia).
  destruct (Z.leb_spec (size + 32 + 16) b.2) as [Hbig|]; [|by exists s, F, b; split_and!; [done|done|lia|lia|]].
  rewrite !u64_id by (unfold in_u64; lia). set (rem := (b.1 + 32 + size, b.2 - size - 32)). set (b' := (b.1, size)).
  assert (Hse' : sep (b' :: rem :: F ++ A)) by (apply (sep_split b.1 b.2); [lia|lia|by destruct b]).
  assert (Hok : Forall (block_ok start (um_brk s)) (b' :: rem :: F ++ A)).
  { constructor; [|constructor; [|done]]; (split_and!; unfold rem, b', block_end; cbn [fst snd]; [lia| | |lia|lia]); try done.
    - apply Z.divide_add_r; [apply Z.divide_add_r; [done|by exists 2]|done].
    - apply Z.divide_sub_r; [by apply Z.divide_sub_r|by exists 2]. }
  assert (Hnd : NoDup (map fst (b' :: rem :: F ++ A))) by (apply sep_nodup; [done|]; eapply Forall_impl; [exact Hok|]; intros x (?&?&?&?&?); done).
  cbn [map] in Hnd. apply NoDup_cons in Hnd as [Hnb Hnd]. rewrite elem_of_cons, map_app, elem_of_app in Hnb.
  apply NoDup_cons in Hnd as [Hnr Hnd]. rewrite map_app in Hnr, Hnd. rewrite elem_of_app in Hnr. apply NoDup_app in Hnd as (HndF & HdF & _).
  erewrite bind_eq; [|reflexivity]. cbv beta. set (s1 := Um (<[b.1 + 32 + size := Ublk (b.2 - size - 32) 0 true]> (um_hdr s)) _ _ _).
  assert (Hne : b.1 <> b.1 + 32 + size) by lia.
  destruct (insert_ok fuel s1 rem F) as (s2 & E2 & Hs2 & [Eb2 Ee2 Hh2]).
  { apply seg_insert_ne; [|done]. change (b.1 + 32 + size) with rem.1. tauto. }
  { cbn [map]. constructor; [tauto|done]. }
  { exists 0. cbn [s1 um_hdr]. by rewrite lookup_insert_eq. }
  { rewrite Forall_app in Hb. eapply Forall_impl; [apply Hb|]. intros x (?&?&?&?&?). lia. }
  { done. }
  change (b.1 + 32 + size) with rem.1. rewrite (bind_eq _ _ _ _ _ E2).
  assert (E3 : um_hdr s2 !! b.1 = Some (Ublk b.2 nx true)).
  { rewrite Hh2; [cbn [s1 um_hdr]; by rewrite lookup_insert_ne by (by intros ?)|]. cbn [map]. rewrite elem_of_cons. cbn [b' fst] in Hnb. tauto. }
  rewrite (bind_eq _ _ _ _ _ (hdr_ok s2 _ _ E3)). cbn [ub_next ub_free].
  eexists _, (ins rem F), b'. split; [reflexivity|]. split; [done|]. split; [done|]. split; [by rewrite (ins_perm rem F)|].
  assert (HP : Permutation ([b'] ++ ins rem F ++ A) (b' :: rem :: F ++ A)) by (cbn [app]; by rewrite (ins_perm rem F)).
  split; cbn [um_hdr um_list um_brk um_end]; rewrite ?Eb2, ?Ee2; cbn [s1 um_brk um_end]; try done; try by rewrite HP.
  - apply seg_insert_ne; [|done]. rewrite (ins_perm rem F). cbn [map]. rewrite elem_of_cons. cbn [b' fst] in Hnb. tauto.
  - rewrite Forall_forall in *. intros x Hx. assert (Hxa : x.1 ∈ map fst A) by (by apply list_elem_of_fmap_2).
    rewrite lookup_insert_ne by (intros E; rewrite <- E in Hxa; cbn [b' fst] in Hnb; tauto).
    rewrite Hh2; [cbn [s1 um_hdr]; rewrite lookup_insert_ne; [by apply Hl|]|].
    + intros E. rewrite <- E in Hxa. cbn [rem fst] in Hnr. tauto.
    + cbn [map]. rewrite elem_of_cons. intros [E|E]; [rewrite E in Hxa; tauto|by apply (HdF _ E)].
  - constructor; [|constructor]. exists nx. cbn [b' fst snd]. by rewrite lookup_insert_eq.
  - apply ins_sorted; [done|tauto].
  - rewrite HP, <- Ht. unfold total, rem, b'. cbn [foldr fst snd]. lia.
Qed.

(** The block in hand becomes live. *)
Lemma finish_ok s F A b :
  um_state start lim s F A [b] -> exists s', (c ← hdr b.1; set_hdr b.1 (Ublk (ub_size c) 0 false);; mret (u64 (b.1 + UMALLOC_HDR_SIZE))) s =
    Some (b.1 + 32, s') /\ um_state start lim s' F (b :: A) [].
Proof.
  intros Hst. pose proof (state_nodup _ _ _ _ Hst) as Hnd. destruct Hst as [Hs Hl Hh Hso Hse Hb Ht Hr]. cbn [app map] in *.
  apply Forall_cons in Hh as [[nx Eb] _]. apply NoDup_cons in Hnd as [Hnb _]. rewrite map_app, elem_of_app in Hnb.
  pose proof (Forall_inv Hb) as (Hb1 & _ & _ & Hb4 & Hb5). unfold block_end in Hb5.
  rewrite (bind_eq _ _ _ _ _ (hdr_ok s _ _ Eb)). eexists. split; [cbn [ub_size]; unfold UMALLOC_HDR_SIZE; rewrite u64_id by (unfold in_u64; lia); reflexivity|].
  assert (HP : Permutation (F ++ b :: A) (b :: F ++ A)) by (symmetry; apply Permutation_middle).
  split; cbn [um_hdr um_list um_brk um_end app]; try done; try by rewrite HP.
  - apply seg_insert_ne; [tauto|done].
  - constructor; [exists 0; by rewrite lookup_insert_eq|]. rewrite Forall_forall in *. intros x Hx. rewrite lookup_insert_ne; [by apply Hl|].
    intros E. apply Hnb. right. rewrite E. by apply list_elem_of_fmap_2.
Qed.

(** ** The two operations *)

Lemma umalloc_ok s F A size :
  um_state start lim s F A [] -> 0 < size <= 4611686018427387888 -> (S (length F) < fuel)%nat ->
  (umalloc no_pages fuel size s = Some (0, s) /\ Forall (fun b => b.2 < size + 15) F) \/
  exists b s' F', umalloc no_pages fuel size s = Some (b.1 + 32, s') /\ size <= b.2 /\ (length F' <= S (length F))%nat /\
    um_state start lim s' F' (b :: A) [].
Proof.
  intros Hst Hsz Hf. pose proof (state_pos _ _ _ _ Hst) as Hpos. cbn [app] in Hpos. apply Forall_app in Hpos as [HposF _].
  unfold umalloc. destruct (Z.eqb_spec size 0); [lia|]. rewrite align_up_eq by lia. set (sz := (size + 15) / 16 * 16).
  assert (Hs16 : (16 | sz)) by (by exists ((size + 15) / 16)). assert (Hs : size <= sz <= size + 15) by (unfold sz; zlia). clearbody sz.
  destruct (first_fit_loop s sz F fuel 0 (um_list s) (us_free _ _ _ _ _ _ Hst) HposF ltac:(lia)) as (F1 & F2 & -> & Hsmall & Hfit & E1).
  assert (E : first_fit fuel sz s = Some ((last_addr 0 F1, match F2 with [] => 0 | b :: _ => b.1 end), s)).
  { unfold first_fit. erewrite bind_eq; [|reflexivity]. exact E1. }
  rewrite (bind_eq _ _ _ _ _ E). cbv beta iota. clear E E1.
  assert (Htail : forall s1 F' b, um_state start lim s1 F' A [b] -> sz <= b.2 -> (length F' <= length (F1 ++ F2))%nat ->
    exists b' s' F'', (if b.1 =? 0 then mret 0
      else split_block fuel b.1 sz;; c ← hdr b.1; set_hdr b.1 (Ublk (ub_size c) 0 false);; mret (u64 (b.1 + UMALLOC_HDR_SIZE))) s1 =
        Some (b'.1 + 32, s') /\ size <= b'.2 /\ (length F'' <= S (length (F1 ++ F2)))%nat /\ um_state start lim s' F'' (b' :: A) []).
  { intros s1 F' b H1 Hb HF'. pose proof (state_pos _ _ _ _ H1) as Hp. apply Forall_inv in Hp. destruct (Z.eqb_spec b.1 0); [lia|].
    destruct (split_ok s1 F' A b sz H1 Hs16 ltac:(lia) ltac:(lia)) as (s2 & F'' & b' & E2 & Eb & Hb' & HF'' & H2).
    rewrite (bind_eq _ _ _ _ _ E2). rewrite <- Eb. destruct (finish_ok s2 F'' A b' H2) as (s3 & E3 & H3). exists b', s3, F''. rewrite E3.
    split_and!; [done|lia|lia|done]. }
  destruct F2 as [|b F2].
  - cbn [Z.eqb negb]. rewrite app_nil_r in *. destruct (grow_ok s F1 A sz Hst Hs16 ltac:(lia)) as [E|(b & s1 & E & Hb & H1)];
      rewrite (bind_eq _ _ _ _ _ E); [left|right; by apply (Htail s1 F1 b)].
    split; [done|]. eapply Forall_impl; [exact Hsmall|]. cbn. intros x Hx. lia.
  - right. destruct (unlink_ok s F1 b F2 A Hst) as (s1 & E1 & H1). rewrite Forall_app, Forall_cons in HposF. destruct HposF as (_ & Hb & _).
    destruct (Z.eqb_spec b.1 0) as [|Hb0]; [lia|]. cbn [negb]. erewrite bind_eq; [|rewrite (bind_eq _ _ _ _ _ E1); reflexivity]. cbv beta.
    apply (Htail s1 (F1 ++ F2) b H1 Hfit). rewrite !length_app. cbn [length]. lia.
Qed.

(** Merging a block with the one behind it. *)
Lemma coalesce_ok s F1 b c F2 A :
  um_state start lim s (F1 ++ b :: c :: F2) A [] -> block_end b = c.1 ->
  exists nb nc, um_hdr s !! b.1 = Some (Ublk b.2 nb true) /\ um_hdr s !! c.1 = Some (Ublk c.2 nc true) /\ nb = c.1 /\
    um_state start lim (Um (<[b.1 := Ublk (b.2 + (32 + c.2)) nc true]> (um_hdr s)) (um_list s) (um_brk s) (um_end s))
      (F1 ++ (b.1, b.2 + (32 + c.2)) :: F2) A [].
Proof.
  intros Hst E. pose proof (state_nodup _ _ _ _ Hst) as Hnd. destruct Hst as [Hs Hl _ Hso Hse Hb Ht Hr]. cbn [app] in *.
  apply umalloc_seg_app in Hs as (r & H1 & (-> & nb & Eb & (-> & nc & Ec & H2))). exists c.1, nc. split_and!; [done..|].
  set (b' := (b.1, b.2 + (32 + c.2))).
  assert (HP : Permutation ((F1 ++ b :: c :: F2) ++ A) (b :: c :: (F1 ++ F2) ++ A)).
  { rewrite <- !app_assoc. cbn [app]. rewrite <- !Permutation_middle. done. }
  assert (HP' : Permutation ((F1 ++ b' :: F2) ++ A) (b' :: (F1 ++ F2) ++ A)).
  { rewrite <- !app_assoc. cbn [app]. by rewrite <- !Permutation_middle. }
  rewrite HP in Hse, Hb, Ht, Hnd. cbn [map] in Hnd. apply NoDup_cons in Hnd as [Hnb Hnd].
  rewrite elem_of_cons, !map_app, !elem_of_app in Hnb.
  pose proof Hb as Hall. apply Forall_cons in Hb as [(Hb1 & Hb2 & Hb3 & Hb4 & Hb5) Hb]. apply Forall_cons in Hb as [(Hc1 & Hc2 & Hc3 & Hc4 & Hc5) Hb].
  split; cbn [um_hdr um_list um_brk um_end app]; try done.
  - apply umalloc_seg_app. exists b.1. split; [apply seg_insert_ne; [tauto|done]|]. split; [done|]. exists nc. cbn [b' fst snd].
    rewrite lookup_insert_eq. split; [done|]. apply seg_insert_ne; [tauto|done].
  - rewrite Forall_forall in *. intros x Hx. rewrite lookup_insert_ne; [by apply Hl|]. intros Ex. apply Hnb. right. right. rewrite Ex. by apply list_elem_of_fmap_2.
  - rewrite map_app in *. cbn [map b' fst] in *. clear - Hso. induction (map fst F1) as [|x l IH]; cbn [app] in *.
    + apply StronglySorted_inv in Hso as [Hso Hx]. apply StronglySorted_inv in Hso as [Hso _]. apply Forall_cons in Hx as [_ Hx]. by constructor.
    + apply StronglySorted_inv in Hso as [Hso Hx]. constructor; [auto|]. apply Forall_app in Hx as [Hx1 Hx2].
      apply Forall_cons in Hx2 as [Hx2 Hx3]. apply Forall_cons in Hx3 as [_ Hx3]. apply Forall_app. split; [done|by constructor].
  - rewrite HP'. apply (sep_merge b c); [done|done|done| |done]. eapply Forall_impl; [exact Hb|]. intros x (?&?&?&?&?). done.
  - rewrite HP'. constructor; [|done]. split_and!; cbn [b' fst snd]; [done|done| |lia|].
    + apply Z.divide_add_r; [done|]. apply Z.divide_add_r; [by exists 2|done].
    + unfold block_end, b' in *. cbn [fst snd]. lia.
  - rewrite HP'. unfold total, b' in *. cbn [foldr fst snd] in *. lia.
Qed.

Lemma ufree_ok s F A b :
  um_state start lim s F (b :: A) [] -> (S (length F) < fuel)%nat ->
  exists s' F', ufree fuel (b.1 + 32) s = Some (tt, s') /\ (length F' <= S (length F))%nat /\ um_state start lim s' F' A [].
Proof.
  intros Hst Hf. pose proof (state_nodup _ _ _ _ Hst) as Hnd. pose proof Hst as [Hs Hl _ Hso Hse Hb Ht Hr]. cbn [app map] in *.
  assert (HP : Permutation (F ++ b :: A) (b :: F ++ A)) by (symmetry; apply Permutation_middle).
  apply Forall_cons in Hl as [[nx Eb] Hl]. rewrite HP in Hnd, Hb, Hse, Ht. cbn [map] in Hnd. apply NoDup_cons in Hnd as [Hnb Hnd].
  rewrite map_app, elem_of_app in Hnb. pose proof (Forall_inv Hb) as (Hb1 & Hb2 & Hb3 & Hb4 & Hb5). unfold block_end in Hb5.
  unfold ufree. destruct (Z.eqb_spec (b.1 + 32) 0); [lia|]. unfold UMALLOC_HDR_SIZE.
  replace (u64 (b.1 + 32 - 32)) with b.1 by (rewrite Z.add_simpl_r, u64_id by (unfold in_u64; lia); done).
  rewrite (bind_eq _ _ _ _ _ (hdr_ok s _ _ Eb)). cbn [ub_size ub_next]. erewrite bind_eq; [|reflexivity]. cbv beta.
  set (s1 := Um _ _ _ _). assert (H1 : um_state start lim s1 F A [b]).
  { split; cbn [s1 um_hdr um_list um_brk um_end app]; try done.
    - apply seg_insert_ne; [tauto|done].
    - rewrite Forall_forall in *. intros x Hx. rewrite lookup_insert_ne; [by apply Hl|]. intros Ex. apply Hnb. right. rewrite Ex. by apply list_elem_of_fmap_2.
    - constructor; [|constructor]. exists nx. by rewrite lookup_insert_eq. }
  destruct (link_ok s1 F A b [] H1 ltac:(lia)) as (s2 & E2 & H2). rewrite (bind_eq _ _ _ _ _ E2).
  destruct (ins_split b F) as (F1 & F2 & EF & Eins). rewrite Eins in H2.
  assert (Hlen : length F = (length F1 + length F2)%nat) by (by rewrite EF, length_app).
  pose proof (us_free _ _ _ _ _ _ H2) as Hs2. apply umalloc_seg_app in Hs2 as (r & _ & (-> & nb & Eb2 & Hs2)).
  rewrite (bind_eq _ _ _ _ _ (hdr_ok s2 _ _ Eb2)). cbn [ub_next ub_size ub_free].
  pose proof H2 as [_ _ _ _ _ Hb' _ Hr']. cbn [app] in Hb'. rewrite Forall_app, Forall_app, Forall_cons in Hb'. destruct Hb' as ((_ & Hb2' & HF2) & _).
  destruct Hb2' as (_ & _ & _ & _ & Hend). unfold block_end in Hend. rewrite u64_id by (unfold in_u64; lia).
  destruct F2 as [|c F2].
  - cbn [seg] in Hs2. rewrite Hs2. cbn [Z.eqb negb andb]. exists s2, (F1 ++ [b]). split_and!; [done|rewrite length_app; cbn [length]; lia|done].
  - destruct Hs2 as (-> & _). apply Forall_cons in HF2 as [(Hc1 & _ & _ & Hc4 & Hc5) _]. unfold block_end in Hc5.
    destruct (Z.eqb_spec c.1 0); [lia|]. cbn [negb andb]. destruct (Z.eqb_spec (b.1 + 32 + b.2) c.1) as [Ec|].
    + destruct (coalesce_ok s2 F1 b c F2 A H2 Ec) as (nb & nc & _ & Ehc & _ & H3). rewrite (bind_eq _ _ _ _ _ (hdr_ok s2 _ _ Ehc)).
      cbn [ub_next ub_size]. rewrite u64_id by (unfold in_u64; lia). eexists _, _. split; [reflexivity|]. split; [|exact H3].
      rewrite length_app in *. cbn [length] in *. lia.
    + exists s2, (F1 ++ b :: c :: F2). split_and!; [done|rewrite length_app; cbn [length] in *; lia|done].
Qed.
End State.

(** ** Programs *)

(** What a program does with the allocator: it asks for bytes, or frees the
    [i]-th of its live allocations. *)
Inductive um_op := OpMalloc (n : Z) | OpFree (i : nat).

Section Run.
Context (no_pages : Z -> bool) (fuel : nat).

(** [live] are the pointers it got, and the sizes it asked for. *)
Definition um_step (op : um_op) (s : um_st) (live : list (Z * Z)) : option (um_st * list (Z * Z)) :=
  match op with
  | OpMalloc n => '(p, s) ← umalloc no_pages fuel n s; Some (s, if p =? 0 then live else (p, n) :: live)
  | OpFree i =>
    match live !! i with
    | None => Some (s, live)
    | Some (p, _) => '(_, s) ← ufree fuel p s; Some (s, delete i live)
    end
  end.
Fixpoint um_run (ops : list um_op) (s : um_st) (live : list (Z * Z)) : option (um_st * list (Z * Z)) :=
  match ops with
  | [] => Some (s, live)
  | op :: ops => '(s, live) ← um_step op s live; um_run ops s live
  end.

Definition um_op_ok (op : um_op) : Prop := match op with OpMalloc n => 0 < n <= 4611686018427387888 | OpFree _ => True end.

(** A pointer of the program and its block. *)
Definition allocates (x b : Z * Z) : Prop := x.1 = b.1 + 32 /\ x.2 <= b.2.

Lemma um_run_ok start lim ops : forall s F A live,
  um_state start lim s F A [] -> Forall2 allocates live A -> Forall um_op_ok ops -> (S (length F) + length ops <= fuel)%nat ->
  exists s' live' F' A', um_run ops s live = Some (s', live') /\ um_state start lim s' F' A' [] /\ Forall2 allocates live' A'.
Proof.
  induction ops as [|op ops IH]; intros s F A live Hst Hl Hok Hf; cbn [um_run length] in *; [by exists s, live, F, A|].
  apply Forall_cons in Hok as [Hop Hok]. destruct op as [n|i]; cbn [um_step].
  - destruct (umalloc_ok start lim no_pages fuel s F A n Hst Hop ltac:(lia)) as [[E _]|(b & s1 & F1 & E & Hb & HF & H1)]; rewrite E; cbn [mbind option_bind].
    + apply (IH s F A live); (done || lia).
    + pose proof (state_pos _ _ _ _ _ _ H1) as Hp. cbn [app] in Hp. rewrite Forall_app, Forall_cons in Hp.
      destruct (Z.eqb_spec (b.1 + 32) 0); [lia|]. apply (IH s1 F1 (b :: A)); [done| |done|lia]. by constructor.
  - destruct (live !! i) as [[p n]|] eqn:Ei; [|apply (IH s F A live); (done || lia)].
    destruct (Forall2_lookup_l _ _ _ _ _ Hl Ei) as (b & Eb & Ep & _). cbn [fst] in Ep. subst p.
    pose proof (delete_Permutation A i b Eb) as HP.
    destruct (ufree_ok start lim no_pages fuel s F (delete i A) b) as (s1 & F1 & E & HF & H1); [by apply (state_live_perm start lim s F A)|lia|].
    rewrite E. cbn [mbind option_bind]. apply (IH s1 F1 (delete i A)); [done|by apply Forall2_delete|done|lia].
Qed.

Lemma sep_lookup B i j b c : sep B -> i <> j -> B !! i = Some b -> B !! j = Some c -> apart b c.
Proof.
  revert i j. induction B as [|x B IH]; intros i j; [done|]. intros [Hx Hs] Hij. rewrite Forall_forall in Hx.
  destruct i as [|i], j as [|j]; cbn [lookup list_lookup]; intros Hi Hj; simplify_eq; try done.
  - apply Hx. by eapply list_elem_of_lookup_2.
  - apply apart_sym, Hx. by eapply list_elem_of_lookup_2.
  - by eapply (IH i j); [..|congruence| |].
Qed.

(** C23 (userland/umalloc.h, [umalloc] and [ufree] with their list): whatever
    sequence of allocations of up to 2^62 - 16 bytes and of frees of its live
    allocations a program makes on a fresh heap, no operation follows a bad
    pointer or loops, and afterwards the bytes of two live allocations do not
    overlap, each is 16-aligned and inside the break, and the free list [F] and
    the live blocks [A] tile the heap between its start and the break without a
    gap, the list in ascending order. *)
Theorem umalloc_run_safe start limit ops :
  0 < start <= limit -> limit < 4611686018427387904 -> (16 | start) -> Forall um_op_ok ops -> (length ops < fuel)%nat ->
  exists s live, um_run ops (Um ∅ 0 start limit) [] = Some (s, live) /\
    (forall i j x y, i <> j -> live !! i = Some x -> live !! j = Some y -> x.1 + x.2 <= y.1 \/ y.1 + y.2 <= x.1) /\
    (forall i x, live !! i = Some x -> start + 32 <= x.1 /\ x.1 + x.2 <= um_brk s <= limit /\ (16 | x.1)) /\
    exists F A, um_state start limit s F A [] /\ Forall2 allocates live A.
Proof.
  intros Hr Hlim Hd Hok Hf.
  destruct (um_run_ok start limit ops (Um ∅ 0 start limit) [] [] []) as (s & live & F & A & E & Hst & Hl); [|constructor|done|cbn; lia|].
  { split; try constructor; cbn; try done; try lia. split_and!; (done || lia). }
  exists s, live. split; [done|]. split_and!; [| |by exists F, A].
  - intros i j x y Hij Hi Hj. destruct (Forall2_lookup_l _ _ _ _ _ Hl Hi) as (b & Eb & -> & Hb). destruct (Forall2_lookup_l _ _ _ _ _ Hl Hj) as (c & Ec & -> & Hc).
    pose proof (us_sep _ _ _ _ _ _ Hst) as Hs. cbn [app] in Hs. rewrite Permutation_app_comm in Hs.
    pose proof (sep_lookup (A ++ F) i j b c Hs Hij ltac:(by apply lookup_app_l_Some) ltac:(by apply lookup_app_l_Some)) as Ha.
    unfold apart, block_end in Ha. lia.
  - intros i x Hi. destruct (Forall2_lookup_l _ _ _ _ _ Hl Hi) as (b & Eb & -> & Hb). destruct Hst as [_ _ _ _ _ Hbl _ (_ & He & <- & _)].
    cbn [app] in Hbl. rewrite Forall_forall in Hbl. destruct (Hbl b) as (H1 & H2 & H3 & H4 & H5).
    { apply elem_of_app. right. by eapply list_elem_of_lookup_2. }
    unfold block_end in H5. split_and!; [lia|lia|lia|]. apply Z.divide_add_r; [done|by exists 2].
Qed.
End Run.

Definition um_demo : list um_op := [OpMalloc 100; OpMalloc 4000; OpFree 1; OpMalloc 30].
Example um_demo_ex :
  option_map snd (um_run (fun _ => false) 5 um_demo (Um ∅ 0 4096 65536) []) = Some [(4128, 30); (8224, 4000)].
Proof. by vm_compute. Qed.

Lemma umalloc_run_safe_witness :
  exists s live, um_run (fun _ => false) 5 um_demo (Um ∅ 0 4096 65536) [] = Some (s, live) /\
    forall i j x y, i <> j -> live !! i = Some x -> live !! j = Some y -> x.1 + x.2 <= y.1 \/ y.1 + y.2 <= x.1.
Proof.
  destruct (umalloc_run_safe (fun _ => false) 5 4096 65536 um_demo) as (s & live & E & H & _).
  - lia.
  - lia.
  - by exists 256.
  - repeat constructor; cbn; lia.
  - cbn. lia.
  - exists s, live. split; [exact E|exact H].
Defined.
