(* ===== verification/Tty.v ===== *)
(** * What a console promises

    [tty]: a grid of cells with a cursor that wraps at the end of a row and
    scrolls at the end of the grid, the behaviour drivers/screen.c gives both
    its modes. [ConsoleOps] and [ConsoleLaws] are the interface the line editor
    of drivers/keyboard.c is written and proved against. *)

From S2P Require Import Prelude.

(** A code point and its attribute; [None] for a cell scrolling has cleared. *)
Abbreviation cell := (option (Z * Z)).
Record tty := Tty { tty_cells : list cell; tty_cur : Z }.

Section Tty.
Context (cols rows : Z).

Definition tty_wf (t : tty) : Prop :=
  0 < cols /\ 0 < rows /\ Z.of_nat (length (tty_cells t)) = rows * cols /\ 0 <= tty_cur t < rows * cols.

Definition tty_scroll (t : tty) : tty :=
  if tty_cur t >=? rows * cols
  then Tty (drop (Z.to_nat cols) (tty_cells t) ++ replicate (Z.to_nat cols) None) (tty_cur t - cols)
  else t.
Definition tty_put (c : cell) (t : tty) : tty :=
  tty_scroll (Tty (<[Z.to_nat (tty_cur t) := c]> (tty_cells t)) (tty_cur t + 1)).
Definition tty_newline (t : tty) : tty := tty_scroll (Tty (tty_cells t) ((tty_cur t / cols + 1) * cols)).
Definition tty_char (attr : Z) (t : tty) (cp : Z) : tty :=
  if cp =? 10 then tty_newline t else tty_put (Some (cp, attr)) t.
Definition tty_print (attr : Z) (cps : list Z) (t : tty) : tty := fold_left (tty_char attr) cps t.

Lemma tty_scroll_wf t :
  0 < cols -> 0 < rows -> Z.of_nat (length (tty_cells t)) = rows * cols -> 0 <= tty_cur t < (rows + 1) * cols ->
  tty_wf (tty_scroll t).
Proof.
  intros Hc Hr Hl Hu. unfold tty_scroll, tty_wf. rewrite Z.geb_leb. destruct (Z.leb_spec (rows * cols) (tty_cur t)); [|split_and!; (done || lia)].
  cbn [tty_cells tty_cur]. assert (cols <= rows * cols) by nia. split_and!; try lia; len.
Qed.

Lemma tty_char_wf attr t cp : tty_wf t -> tty_wf (tty_char attr t cp).
Proof.
  intros (Hc & Hr & Hl & Hu). unfold tty_char. destruct (cp =? 10); apply tty_scroll_wf; cbn [tty_cells tty_cur]; try done.
  - assert (tty_cur t / cols < rows) by (apply Z.div_lt_upper_bound; lia).
    assert (0 <= tty_cur t / cols) by (apply Z.div_pos; lia). nia.
  - by rewrite length_insert.
  - nia.
Qed.

Lemma tty_print_wf attr cps t : tty_wf t -> tty_wf (tty_print attr cps t).
Proof. revert t. induction cps as [|cp cps IH]; intros t Ht; [done|]. by apply IH, tty_char_wf. Qed.

Lemma tty_print_app attr l k t : tty_print attr (l ++ k) t = tty_print attr k (tty_print attr l t).
Proof. apply fold_left_app. Qed.

(** Text that stays before the last cell goes to the cells from the cursor on. *)
Lemma tty_print_line attr l t :
  Forall (fun c => c <> 10) l -> 0 <= tty_cur t -> tty_cur t + Z.of_nat (length l) < rows * cols ->
  tty_print attr l t =
    Tty (list_inserts (Z.to_nat (tty_cur t)) ((fun c => Some (c, attr)) <$> l) (tty_cells t)) (tty_cur t + Z.of_nat (length l)).
Proof.
  revert t. induction l as [|c l IH]; intros t Hl Hu Hb; cbn [length] in *.
  - destruct t. cbn. f_equal. lia.
  - apply Forall_cons in Hl as [Hc Hl]. change (tty_print attr (c :: l) t) with (tty_print attr l (tty_char attr t c)).
    unfold tty_char. destruct (Z.eqb_spec c 10); [done|]. unfold tty_put, tty_scroll. cbn [tty_cur].
    rewrite Z.geb_leb. destruct (Z.leb_spec (rows * cols) (tty_cur t + 1)); [lia|].
    rewrite IH by (cbn [tty_cur]; (done || lia)). cbn [tty_cur tty_cells fmap list_fmap list_inserts].
    f_equal; [|lia]. replace (Z.to_nat (tty_cur t + 1)) with (S (Z.to_nat (tty_cur t))) by lia.
    symmetry. apply list_insert_inserts_lt. lia.
Qed.
End Tty.

(** ** The interface *)

Class ConsoleOps (St : Type) := {
  con_get_cursor : M St Z;
  con_set_cursor : Z -> M St unit;
  con_kprint : list Z -> M St unit;
}.

(** [con_view cols rows s t]: the console in state [s] shows [t]. Offsets count
    two bytes a cell. *)
Class ConsoleLaws (St : Type) `{ConsoleOps St} := {
  con_view : Z -> Z -> St -> tty -> Prop;
  con_view_wf cols rows s t : con_view cols rows s t -> tty_wf cols rows t;
  con_get_ok cols rows s t : con_view cols rows s t -> con_get_cursor s = Some (2 * tty_cur t, s);
  con_set_ok cols rows s t k : con_view cols rows s t -> 0 <= k < rows * cols ->
    exists s', con_set_cursor (2 * k) s = Some (tt, s') /\ con_view cols rows s' (Tty (tty_cells t) k);
  con_kprint_ok cols rows s t l : con_view cols rows s t -> Forall (fun c => 0 < c < 128 /\ c <> 8) l ->
    exists s', con_kprint l s = Some (tt, s') /\ con_view cols rows s' (tty_print cols rows 0x0F l t);
}.
