(* ===== verification/Console.v ===== *)
(** * The console

    Models drivers/screen.c: a terminal on VGA text memory or on a linear
    frame buffer. Memory is a map from addresses to bytes; an access to an
    address outside it is [None]. [tty] is what both promise, a scrolling grid
    of characters, and [Console] is the interface the line editor is proved
    against. A [char] is the byte 0..255 of its representation. *)

From S2P Require Import Prelude Font.

(** ** State *)

Record fb_info_t := FbInfo { fi_addr : Z; fi_pitch : Z; fi_width : Z; fi_height : Z; fi_bpp : Z; fi_type : Z }.
Definition MB2_FB_TYPE_EGA_TEXT : Z := 2.

(** [con_crtc] is the cursor register of the VGA (ports 0x3D4 and 0x3D5, which
    read back what was written); [con_hook] whether [g_serial_hook] is set, and
    [con_serial] the bytes given to it. *)
Record con_st := Con {
  use_fb : bool;
  con_fb : fb_info_t;
  cur_col : Z;
  cur_row : Z;
  utf8_cp : Z;
  utf8_rem : Z;
  con_hook : bool;
  con_serial : list Z;
  con_crtc : Z;
  con_mem : gmap Z Z;
}.

Definition MAX_COLS : Z := 80.
Definition VGA_COLS : Z := 80.
Definition VGA_ROWS : Z := 25.
Definition VIDEO_ADDRESS : Z := 0xB8000.
Definition CFONT_W : Z := 8.
Definition CFONT_H : Z := 16.
Definition WHITE_ON_BLACK : Z := 0x0F.
Definition RED_ON_WHITE : Z := 0xF4.

Definition set_cur (col row : Z) (s : con_st) : con_st :=
  Con (use_fb s) (con_fb s) col row (utf8_cp s) (utf8_rem s) (con_hook s) (con_serial s) (con_crtc s) (con_mem s).
Definition set_utf8 (cp rem : Z) (s : con_st) : con_st :=
  Con (use_fb s) (con_fb s) (cur_col s) (cur_row s) cp rem (con_hook s) (con_serial s) (con_crtc s) (con_mem s).
Definition set_serial (l : list Z) (s : con_st) : con_st :=
  Con (use_fb s) (con_fb s) (cur_col s) (cur_row s) (utf8_cp s) (utf8_rem s) (con_hook s) l (con_crtc s) (con_mem s).
Definition set_crtc (c : Z) (s : con_st) : con_st :=
  Con (use_fb s) (con_fb s) (cur_col s) (cur_row s) (utf8_cp s) (utf8_rem s) (con_hook s) (con_serial s) c (con_mem s).
Definition set_mem (m : gmap Z Z) (s : con_st) : con_st :=
  Con (use_fb s) (con_fb s) (cur_col s) (cur_row s) (utf8_cp s) (utf8_rem s) (con_hook s) (con_serial s) (con_crtc s) m.

(** [g_serial_hook = fn] *)
Definition screen_set_serial_hook (s : con_st) : con_st :=
  Con (use_fb s) (con_fb s) (cur_col s) (cur_row s) (utf8_cp s) (utf8_rem s) true (con_serial s) (con_crtc s) (con_mem s).

(** ** Memory *)

Definition mem_poke (a v : Z) (m : gmap Z Z) : option (gmap Z Z) := match m !! a with Some _ => Some (<[a := v]> m) | None => None end.
Fixpoint mem_store (a : Z) (l : list Z) (m : gmap Z Z) : option (gmap Z Z) :=
  match l with [] => Some m | v :: l => m ← mem_poke a v m; mem_store (a + 1) l m end.
Fixpoint mem_load (n : nat) (a : Z) (m : gmap Z Z) : option (list Z) :=
  match n with O => Some [] | S n => v ← m !! a; l ← mem_load n (a + 1) m; Some (v :: l) end.
(** [memmove] and, for blocks that do not overlap, [memcpy]. *)
Definition mem_move (dst src n : Z) (m : gmap Z Z) : option (gmap Z Z) :=
  l ← mem_load (Z.to_nat n) src m; mem_store dst l m.

(** An update of the memory as an operation. *)
Definition on_mem (f : gmap Z Z -> option (gmap Z Z)) : M con_st unit :=
  fun s => m ← f (con_mem s); Some (tt, set_mem m s).

(** ** The frame buffer *)

(** Bytes written for a pixel. *)
Definition px_bytes (bpp rgb : Z) : list Z :=
  if bpp =? 32 then [u8 (Z.land rgb 0xFF); u8 (Z.land (Z.shiftr rgb 8) 0xFF); u8 (Z.land (Z.shiftr rgb 16) 0xFF); 0xFF]
  else if bpp =? 24 then [u8 (Z.land rgb 0xFF); u8 (Z.land (Z.shiftr rgb 8) 0xFF); u8 (Z.land (Z.shiftr rgb 16) 0xFF)]
  else [].
Definition put_pixel (fb : fb_info_t) (x y rgb : Z) (m : gmap Z Z) : option (gmap Z Z) :=
  if (x >=? fi_width fb) || (y >=? fi_height fb) then Some m
  else mem_store (u64 (fi_addr fb + u32 (y * fi_pitch fb) + u32 (x * (fi_bpp fb / 8)))) (px_bytes (fi_bpp fb) rgb) m.

(** The columns of a row of a glyph, from [c] on, and the rows from [r] on. *)
Fixpoint draw_bits (n : nat) (c : Z) (fb : fb_info_t) (x0 y bits fg bg : Z) (m : gmap Z Z) : option (gmap Z Z) :=
  match n with
  | O => Some m
  | S n =>
    m ← put_pixel fb (u32 (x0 + c)) y (if negb (Z.land bits (Z.shiftr 0x80 c) =? 0) then fg else bg) m;
    draw_bits n (c + 1) fb x0 y bits fg bg m
  end.
Fixpoint draw_rows (n : nat) (r : Z) (fb : fb_info_t) (x0 y0 : Z) (data : list Z) (fg bg : Z) (m : gmap Z Z) : option (gmap Z Z) :=
  match n with
  | O => Some m
  | S n =>
    bits ← data !! Z.to_nat r;
    m ← draw_bits (Z.to_nat CFONT_W) 0 fb x0 (u32 (y0 + r)) bits fg bg m;
    draw_rows n (r + 1) fb x0 y0 data fg bg m
  end.
Definition draw_glyph_data (fb : fb_info_t) (col row : Z) (data : list Z) (fg bg : Z) : gmap Z Z -> option (gmap Z Z) :=
  draw_rows (Z.to_nat CFONT_H) 0 fb (u32 (u32 col * CFONT_W)) (u32 (u32 row * CFONT_H)) data fg bg.
Definition draw_glyph (fb : fb_info_t) (col row ch fg bg : Z) (m : gmap Z Z) : option (gmap Z Z) :=
  data ← font8x16 !! Z.to_nat (u8 ch); draw_glyph_data fb col row data fg bg m.

Definition vga_palette : list Z := [
  0x000000; 0x0000AA; 0x00AA00; 0x00AAAA;
  0xAA0000; 0xAA00AA; 0xAA5500; 0xAAAAAA;
  0x555555; 0x5555FF; 0x55FF55; 0x55FFFF;
  0xFF5555; 0xFF55FF; 0xFFFF55; 0xFFFFFF].
Definition attr_fg (attr : Z) : Z := default 0 (vga_palette !! Z.to_nat (Z.land attr 0x0F)).
Definition attr_bg (attr : Z) : Z := default 0 (vga_palette !! Z.to_nat (Z.land (Z.shiftr attr 4) 0x07)).

Definition get_cols (s : con_st) : Z := if use_fb s then fi_width (con_fb s) / CFONT_W else VGA_COLS.
Definition get_rows (s : con_st) : Z := if use_fb s then fi_height (con_fb s) / CFONT_H else VGA_ROWS.

Definition fb_scroll : M con_st unit :=
  s ← gets id;
  let fb := con_fb s in
  let row_bytes := u32 (CFONT_H * fi_pitch fb) in
  let visible := u32 (get_rows s * row_bytes) in
  let n := u32 (visible - row_bytes) in
  on_mem (mem_move (fi_addr fb) (u64 (fi_addr fb + row_bytes)) n);;
  on_mem (mem_store (u64 (fi_addr fb + n)) (replicate (Z.to_nat row_bytes) 0)).

(** Wrap at the end of the row, scroll at the end of the screen, and move the
    cursor: the end of [print_char_fb] and of [render_codepoint]. *)
Definition wrap_scroll (col row : Z) : M con_st (Z * Z) :=
  s ← gets id;
  let '(col, row) := if col >=? get_cols s then (0, row + 1) else (col, row) in
  '(col, row) ← (if row >=? get_rows s then fb_scroll;; mret (0, get_rows s - 1) else mret (col, row));
  modify (set_cur col row);; mret (col, row).

Definition print_char_fb (c col row attr : Z) : M con_st Z :=
  s ← gets id;
  let fb := con_fb s in
  let cols := get_cols s in
  let rows := get_rows s in
  let '(col, row) := if (col <? 0) || (row <? 0) then (cur_col s, cur_row s) else (col, row) in
  '(col, row) ←
    (if c =? 10 then mret (0, row + 1)
     else if c =? 8 then
       let col := if col >? 0 then col - 1 else col in
       on_mem (draw_glyph fb col row 32 (attr_fg attr) (attr_bg attr));; mret (col, row)
     else
       when ((col <? cols) && (row <? rows)) (on_mem (draw_glyph fb col row c (attr_fg attr) (attr_bg attr)));;
       mret (col + 1, row));
  '(col, row) ← wrap_scroll col row;
  mret (2 * (row * cols + col)).

(** ** VGA text memory *)

Definition vga_get_cursor : M con_st Z := c ← gets con_crtc; mret ((Z.shiftl (Z.shiftr c 8) 8 + Z.land c 0xFF) * 2).
Definition vga_set_cursor (off : Z) : M con_st unit :=
  let off := Z.quot off 2 in
  modify (set_crtc (Z.lor (Z.shiftl (u8 (Z.shiftr off 8)) 8) (u8 (Z.land off 0xFF)))).

Definition get_offset (col row : Z) : Z := 2 * (row * VGA_COLS + col).
Definition vid (i v : Z) : M con_st unit := on_mem (mem_poke (VIDEO_ADDRESS + i) v).

Fixpoint vga_move_rows (n : nat) (i : Z) (m : gmap Z Z) : option (gmap Z Z) :=
  match n with
  | O => Some m
  | S n =>
    m ← mem_move (VIDEO_ADDRESS + get_offset 0 (i - 1)) (VIDEO_ADDRESS + get_offset 0 i) (VGA_COLS * 2) m;
    vga_move_rows n (i + 1) m
  end.
Definition vga_scroll : M con_st unit :=
  on_mem (vga_move_rows (Z.to_nat (VGA_ROWS - 1)) 1);;
  on_mem (mem_store (VIDEO_ADDRESS + get_offset 0 (VGA_ROWS - 1)) (replicate (Z.to_nat (VGA_COLS * 2)) 0)).

Definition print_char_vga (c col row attr : Z) : M con_st Z :=
  let attr := if attr =? 0 then WHITE_ON_BLACK else attr in
  if (col >=? VGA_COLS) || (row >=? VGA_ROWS) then
    vid (2 * (VGA_COLS * VGA_ROWS) - 2) 69;;
    vid (2 * (VGA_COLS * VGA_ROWS) - 1) RED_ON_WHITE;;
    mret (2 * (VGA_COLS * VGA_ROWS) - 2)
  else
    offset ← (if (col >=? 0) && (row >=? 0) then mret (get_offset col row) else vga_get_cursor);
    offset ←
      (if c =? 10 then mret (get_offset 0 (Z.quot offset (2 * VGA_COLS) + 1))
       else if c =? 8 then vid (offset - 2) 32;; vid (offset - 1) (u8 attr);; mret (offset - 2)
       else vid offset (u8 c);; vid (offset + 1) (u8 attr);; mret (offset + 2));
    offset ← (if offset >=? VGA_ROWS * VGA_COLS * 2 then vga_scroll;; mret (offset - 2 * VGA_COLS) else mret offset);
    vga_set_cursor offset;; mret offset.

(** ** Characters *)

Definition do_print_char (c col row attr : Z) : M con_st Z :=
  fb ← gets use_fb; if fb : bool then print_char_fb c col row attr else print_char_vga c col row attr.

Definition render_codepoint (cp attr : Z) : M con_st unit :=
  if cp <? 256 then do_print_char (u8 cp) (-1) (-1) attr;; mret tt
  else
    s ← gets id;
    if negb (use_fb s) then do_print_char 63 (-1) (-1) attr;; mret tt
    else
      glyph ← lift_option (match cyr_get_glyph cp with Some g => Some g | None => font8x16 !! 63%nat end);
      when ((cur_col s <? get_cols s) && (cur_row s <? get_rows s))
        (on_mem (draw_glyph_data (con_fb s) (cur_col s) (cur_row s) glyph (attr_fg attr) (attr_bg attr)));;
      wrap_scroll (cur_col s + 1) (cur_row s);; mret tt.

(** A byte outside a sequence. *)
Definition utf8_start (b attr : Z) : M con_st unit :=
  if b <? 0x80 then do_print_char b (-1) (-1) attr;; mret tt
  else if Z.land b 0xE0 =? 0xC0 then modify (set_utf8 (Z.land b 0x1F) 1)
  else if Z.land b 0xF0 =? 0xE0 then modify (set_utf8 (Z.land b 0x0F) 2)
  else if Z.land b 0xF8 =? 0xF0 then modify (set_utf8 (Z.land b 0x07) 3)
  else mret tt.
Definition output_utf8_byte (b attr : Z) : M con_st unit :=
  s ← gets id;
  if utf8_rem s >? 0 then
    if Z.land b 0xC0 =? 0x80 then
      let cp := Z.lor (u32 (Z.shiftl (utf8_cp s) 6)) (Z.land b 0x3F) in
      let rem := utf8_rem s - 1 in
      modify (set_utf8 cp rem);;
      if rem =? 0 then render_codepoint cp attr else mret tt
    else modify (set_utf8 0 0);; utf8_start b attr
  else utf8_start b attr.

(** ** Public operations *)

Definition screen_init (fb : option fb_info_t) (s : con_st) : con_st :=
  let text := Con false (con_fb s) (cur_col s) (cur_row s) (utf8_cp s) (utf8_rem s) (con_hook s) (con_serial s) (con_crtc s) (con_mem s) in
  match fb with
  | None => text
  | Some fb =>
    if (fi_type fb =? MB2_FB_TYPE_EGA_TEXT) || (fi_addr fb =? 0) then text
    else Con true fb 0 0 (utf8_cp s) (utf8_rem s) (con_hook s) (con_serial s) (con_crtc s) (con_mem s)
  end.

Definition get_cursor_offset : M con_st Z :=
  s ← gets id; if negb (use_fb s) then vga_get_cursor else mret (2 * (cur_row s * MAX_COLS + cur_col s)).
Definition set_cursor_offset (offset : Z) : M con_st unit :=
  s ← gets id;
  if negb (use_fb s) then vga_set_cursor offset
  else modify (set_cur (Z.rem (Z.quot offset 2) MAX_COLS) (Z.quot (Z.quot offset 2) MAX_COLS)).

(** The cells of the text mode from [i] on; the pixels of a row and the rows. *)
Fixpoint clear_cells (n : nat) (i : Z) (m : gmap Z Z) : option (gmap Z Z) :=
  match n with
  | O => Some m
  | S n => m ← mem_store (VIDEO_ADDRESS + i * 2) [32; WHITE_ON_BLACK] m; clear_cells n (i + 1) m
  end.
Fixpoint clear_row (n : nat) (x y : Z) (fb : fb_info_t) (m : gmap Z Z) : option (gmap Z Z) :=
  match n with O => Some m | S n => m ← put_pixel fb x y 0 m; clear_row n (x + 1) y fb m end.
Fixpoint clear_rows (n : nat) (y : Z) (fb : fb_info_t) (m : gmap Z Z) : option (gmap Z Z) :=
  match n with O => Some m | S n => m ← clear_row (Z.to_nat (fi_width fb)) 0 y fb m; clear_rows n (y + 1) fb m end.
Definition clear_screen : M con_st unit :=
  s ← gets id;
  if negb (use_fb s) then on_mem (clear_cells (Z.to_nat (VGA_COLS * VGA_ROWS)) 0);; vga_set_cursor 0
  else on_mem (clear_rows (Z.to_nat (fi_height (con_fb s))) 0 (con_fb s));; modify (set_cur 0 0).

Definition serial_out (c : Z) : M con_st unit :=
  modify (fun s => if con_hook s then set_serial (con_serial s ++ [c]) s else s).
(** The loop over the characters before the terminator. *)
Fixpoint print_bytes (message : list Z) (attr : Z) : M con_st unit :=
  match message with
  | [] => mret tt
  | c :: message => serial_out c;; output_utf8_byte c attr;; print_bytes message attr
  end.
Definition kprint_at_attr (message : list Z) (col row attr : Z) : M con_st unit :=
  s ← gets id;
  when ((col >=? 0) && (row >=? 0))
    (if use_fb s then modify (set_cur col row) else vga_set_cursor (get_offset col row));;
  print_bytes (cstr message) attr.
Definition kprint_at (message : list Z) (col row : Z) : M con_st unit := kprint_at_attr message col row WHITE_ON_BLACK.
Definition kprint (message : list Z) : M con_st unit := kprint_at_attr message (-1) (-1) WHITE_ON_BLACK.
Definition kprint_char (c : Z) : M con_st unit := output_utf8_byte c WHITE_ON_BLACK.
Definition kprint_attr (message : list Z) (attr : Z) : M con_st unit := kprint_at_attr message (-1) (-1) attr.

Definition kprint_backspace : M con_st unit :=
  s ← gets id;
  off ← get_cursor_offset;
  let offset := off - 2 in
  let offset := if offset <? 0 then 0 else offset in
  let cols := if use_fb s then get_cols s else VGA_COLS in
  do_print_char 8 (Z.rem (Z.quot offset 2) cols) (Z.quot (Z.quot offset 2) cols) WHITE_ON_BLACK;; mret tt.

(** The frame buffer the drawing layer gets, -1 without one. *)
Definition screen_get_fb (s : con_st) : option fb_info_t :=
  if negb (use_fb s) || negb (fi_bpp (con_fb s) =? 32) || (fi_addr (con_fb s) =? 0) then None else Some (con_fb s).
