(* ===== verification/ConsoleProofs.v ===== *)
(** * The console refines the scrolling grid

    [con_shows s t] says what a reader of the screen sees: in text mode the
    two bytes of every cell, on a frame buffer the 8 x 16 pixels of every cell.
    Printing encoded text to either is [tty_print] of its code points, and no
    byte outside the screen memory is touched ([con_shows] asks for no others
    to be mapped). The instance of [ConsoleLaws] is at the end. *)

From S2P Require Import Prelude Utf8 Font Tty Console.
From Stdlib Require Import ZifyBool.

(** ** Blocks of memory *)

(** The bytes from [a] on, [n] of them, are mapped. *)
Definition mapped (m : gmap Z Z) (a n : Z) : Prop := forall b, a <= b < a + n -> is_Some (m !! b).

Lemma mem_store_ok l a m : mapped m a (Z.of_nat (length l)) ->
  exists m', mem_store a l m = Some m' /\
    forall b, m' !! b = if (a <=? b) && (b <? a + Z.of_nat (length l)) then l !! Z.to_nat (b - a) else m !! b.
Proof.
  revert a m. induction l as [|v l IH]; intros a m Hm; cbn [mem_store length] in *.
  - exists m. split; [done|]. intros b. by replace ((a <=? b) && (b <? a + Z.of_nat 0)) with false by lia.
  - unfold mem_poke. destruct (Hm a ltac:(lia)) as [w E]. rewrite E. cbn [mbind option_bind].
    destruct (IH (a + 1) (<[a := v]> m)) as (m' & E' & H').
    { intros b Hb. rewrite lookup_insert_ne by lia. apply Hm. lia. }
    exists m'. split; [exact E'|]. intros b. rewrite H'.
    destruct (Z.leb_spec (a + 1) b), (Z.ltb_spec b (a + 1 + Z.of_nat (length l))), (Z.leb_spec a b),
      (Z.ltb_spec b (a + Z.of_nat (S (length l)))); cbn [andb]; try lia.
    + by replace (Z.to_nat (b - a)) with (S (Z.to_nat (b - (a + 1)))) by lia.
    + by rewrite lookup_insert_ne by lia.
    + assert (b = a) as -> by lia. rewrite lookup_insert_eq. by replace (Z.to_nat (a - a)) with 0%nat by lia.
    + by rewrite lookup_insert_ne by lia.
Qed.

Lemma mem_store_mapped l a m m' b n :
  mem_store a l m = Some m' -> mapped m b n -> mapped m' b n.
Proof.
  revert a m. induction l as [|v l IH]; intros a m E Hm; cbn [mem_store] in E; [by injection E as ->|].
  unfold mem_poke in E. destruct (m !! a); [|done]. apply IH in E; [done|].
  intros c Hc. destruct (decide (c = a)) as [->|]; [by rewrite lookup_insert_eq|]. rewrite lookup_insert_ne by done. auto.
Qed.

Lemma mem_load_ok n a m : mapped m a (Z.of_nat n) ->
  exists l, mem_load n a m = Some l /\ length l = n /\ forall i, (i < n)%nat -> l !! i = m !! (a + Z.of_nat i).
Proof.
  revert a. induction n as [|n IH]; intros a Hm; cbn [mem_load].
  - exists []. split; [done|]. split; [done|]. lia.
  - destruct (Hm a ltac:(lia)) as [w E]. rewrite E. cbn [mbind option_bind].
    destruct (IH (a + 1)) as (l & -> & Hl & H'); [intros b Hb; apply Hm; lia|].
    exists (w :: l). cbn [length]. split; [done|]. split; [lia|]. intros [|i] Hi; [by rewrite Z.add_0_r|].
    cbn [lookup list_lookup]. rewrite H' by lia. f_equal. lia.
Qed.

Lemma mem_move_ok dst src n m : 0 <= n -> mapped m src n -> mapped m dst n ->
  exists m', mem_move dst src n m = Some m' /\
    forall b, m' !! b = if (dst <=? b) && (b <? dst + n) then m !! (src + (b - dst)) else m !! b.
Proof.
  intros Hn Hs Hd. unfold mem_move.
  destruct (mem_load_ok (Z.to_nat n) src m) as (l & -> & Hl & H); [by rewrite Z2Nat.id|]. cbn [mbind option_bind].
  destruct (mem_store_ok l dst m) as (m' & -> & H'); [by rewrite Hl, Z2Nat.id|].
  exists m'. split; [done|]. intros b. rewrite H', Hl, Z2Nat.id by done.
  destruct (Z.leb_spec dst b), (Z.ltb_spec b (dst + n)); cbn [andb]; try done.
  rewrite H by lia. f_equal. lia.
Qed.

Lemma mapped_same m m' a n : mapped m a n -> (forall b, is_Some (m !! b) -> is_Some (m' !! b)) -> mapped m' a n.
Proof. intros Hm H b Hb. auto. Qed.

Lemma mapped_sub m a n b k : mapped m a n -> a <= b -> b + k <= a + n -> mapped m b k.
Proof. intros Hm H1 H2 c Hc. apply Hm. lia. Qed.

(** ** Pixels *)

Section Fb.
Context (fb : fb_info_t).
Definition fi_bypp : Z := fi_bpp fb / 8.
Definition fb_size : Z := fi_pitch fb * fi_height fb.

(** What the boot loader says of a frame buffer the console can use. *)
Definition fb_ok : Prop :=
  (fi_bpp fb = 24 \/ fi_bpp fb = 32) /\ 8 <= fi_width fb /\ 16 <= fi_height fb /\ fi_width fb * fi_bypp <= fi_pitch fb /\
  fb_size < 4294967296 /\ 0 < fi_addr fb /\ fi_addr fb + fb_size < 18446744073709551616.

Definition px_addr (x y : Z) : Z := fi_addr fb + y * fi_pitch fb + x * fi_bypp.
(** Blue, green, red: what is seen of a pixel. *)
Definition pix (m : gmap Z Z) (x y : Z) : option (list Z) := mem_load 3 (px_addr x y) m.
Definition rgb3 (rgb : Z) : list Z := [rgb mod 256; rgb / 256 mod 256; rgb / 65536 mod 256].
Definition on_fb (x y : Z) : Prop := 0 <= x < fi_width fb /\ 0 <= y < fi_height fb.

Context (Hfb : fb_ok).

Lemma bypp_cases : fi_bypp = 3 \/ fi_bypp = 4.
Proof. unfold fi_bypp. destruct Hfb as ([->| ->] & _); [left|right]; reflexivity. Qed.

Lemma px_addr_range x y : on_fb x y ->
  fi_addr fb <= px_addr x y /\ px_addr x y + fi_bypp <= fi_addr fb + fb_size /\
  0 <= y * fi_pitch fb < 4294967296 /\ 0 <= x * fi_bypp < 4294967296.
Proof.
  intros [Hx Hy]. destruct Hfb as (_ & Hw & Hh & Hp & Hs & Ha & _). unfold px_addr, fb_size in *.
  pose proof bypp_cases as Hb. assert ((x + 1) * fi_bypp <= fi_pitch fb) by nia.
  assert ((y + 1) * fi_pitch fb <= fi_pitch fb * fi_height fb) by nia.
  assert (0 <= y * fi_pitch fb) by nia. lia.
Qed.

(** Different pixels do not overlap. *)
Lemma px_addr_disj x y X Y : on_fb x y -> on_fb X Y -> (x, y) <> (X, Y) ->
  px_addr x y + fi_bypp <= px_addr X Y \/ px_addr X Y + fi_bypp <= px_addr x y.
Proof.
  intros [Hx Hy] [HX HY] Hne. destruct Hfb as (_ & Hw & Hh & Hp & _). unfold px_addr.
  pose proof bypp_cases as Hb. assert ((x + 1) * fi_bypp <= fi_pitch fb) by nia. assert ((X + 1) * fi_bypp <= fi_pitch fb) by nia.
  destruct (Z.lt_trichotomy y Y) as [?|[->|?]]; [left; nia| |right; nia].
  destruct (Z.lt_trichotomy x X) as [?|[->|?]]; [left; nia|done|right; nia].
Qed.

Lemma rgb_bytes rgb : [u8 (Z.land rgb 0xFF); u8 (Z.land (Z.shiftr rgb 8) 0xFF); u8 (Z.land (Z.shiftr rgb 16) 0xFF)] = rgb3 rgb.
Proof.
  unfold rgb3. change 0xFF with (2 ^ 8 - 1). rewrite !land_ones_mod, !Z.shiftr_div_pow2 by done.
  change (2 ^ 8) with 256. change (2 ^ 16) with 65536. unfold u8. by rewrite !Z.mod_mod.
Qed.

Lemma px_bytes_ok rgb : exists l, px_bytes (fi_bpp fb) rgb = rgb3 rgb ++ l /\ Z.of_nat (length (rgb3 rgb ++ l)) = fi_bypp.
Proof.
  unfold px_bytes. pose proof (rgb_bytes rgb) as E. unfold fi_bypp. destruct Hfb as ([->| ->] & _).
  - exists []. cbn [Z.eqb Pos.eqb]. rewrite E. by split.
  - exists [0xFF]. cbn [Z.eqb Pos.eqb]. rewrite <- E. by split.
Qed.

Lemma mem_load_same n a m m' : (forall b, a <= b < a + Z.of_nat n -> m' !! b = m !! b) -> mem_load n a m' = mem_load n a m.
Proof.
  revert a. induction n as [|n IH]; intros a H; cbn [mem_load]; [done|].
  rewrite H by lia. by rewrite (IH (a + 1)) by (intros; apply H; lia).
Qed.

Lemma mem_load_eq n a m l : length l = n -> (forall i, (i < n)%nat -> m !! (a + Z.of_nat i) = l !! i) -> mem_load n a m = Some l.
Proof.
  revert a l. induction n as [|n IH]; intros a [|v l] Hl H; try done; cbn [mem_load].
  pose proof (H 0%nat ltac:(lia)) as H0. rewrite Z.add_0_r in H0. rewrite H0. cbn [mbind option_bind].
  rewrite (IH (a + 1) l); [done|by injection Hl|]. intros i Hi.
  replace (a + 1 + Z.of_nat i) with (a + Z.of_nat (S i)) by lia. exact (H (S i) ltac:(lia)).
Qed.

(** [put_pixel] changes one pixel. *)
Lemma put_pixel_ok x y rgb m : mapped m (fi_addr fb) fb_size -> on_fb x y ->
  exists m', put_pixel fb x y rgb m = Some m' /\ mapped m' (fi_addr fb) fb_size /\
    pix m' x y = Some (rgb3 rgb) /\ forall X Y, on_fb X Y -> (X, Y) <> (x, y) -> pix m' X Y = pix m X Y.
Proof.
  intros Hm Hxy. pose proof (px_addr_range x y Hxy) as (R1 & R2 & R3 & R4). pose proof Hxy as [Hx Hy].
  unfold put_pixel. fold fi_bypp. rewrite !Z.geb_leb.
  destruct (Z.leb_spec (fi_width fb) x); [lia|]. destruct (Z.leb_spec (fi_height fb) y); [lia|]. cbn [orb].
  pose proof bypp_cases as Hb. destruct Hfb as (_ & _ & _ & _ & Hs & Ha & He).
  rewrite !u32_id by done. rewrite u64_id by (unfold px_addr in *; split; lia). fold (px_addr x y).
  destruct (px_bytes_ok rgb) as (l & -> & Hl).
  destruct (mem_store_ok (rgb3 rgb ++ l) (px_addr x y) m) as (m' & E & H'); [apply (mapped_sub _ (fi_addr fb) fb_size); (done || lia)|].
  exists m'. split; [exact E|]. split; [by apply (mem_store_mapped _ _ _ _ _ _ E)|]. rewrite Hl in H'. split.
  - apply mem_load_eq; [done|]. intros i Hi. rewrite H'.
    replace ((px_addr x y <=? px_addr x y + Z.of_nat i) && (px_addr x y + Z.of_nat i <? px_addr x y + fi_bypp)) with true by lia.
    replace (Z.to_nat (px_addr x y + Z.of_nat i - px_addr x y)) with i by lia. by apply lookup_app_l.
  - intros X Y HXY Hne. apply mem_load_same. intros b Hb'. rewrite H'. pose proof (px_addr_disj X Y x y HXY Hxy Hne).
    by replace ((px_addr x y <=? b) && (b <? px_addr x y + fi_bypp)) with false by lia.
Qed.

(** An operation on the memory that paints: it returns, and the pixels inside
    [d] show [color] afterwards while the others are as before. *)
Definition paints (f : gmap Z Z -> option (gmap Z Z)) (d : Z -> Z -> bool) (color : Z -> Z -> Z) : Prop :=
  forall m, mapped m (fi_addr fb) fb_size ->
  exists m', f m = Some m' /\ mapped m' (fi_addr fb) fb_size /\
    forall X Y, on_fb X Y -> pix m' X Y = if d X Y then Some (rgb3 (color X Y)) else pix m X Y.

Lemma paints_none (d : Z -> Z -> bool) c : (forall X Y, d X Y = false) -> paints Some d c.
Proof. intros Hd m Hm. exists m. split; [done|]. split; [done|]. intros X Y _. by rewrite Hd. Qed.

Lemma paints_seq f g d1 d2 d c : paints f d1 c -> paints g d2 c -> (forall X Y, on_fb X Y -> d X Y = d2 X Y || d1 X Y) ->
  paints (fun m => m ← f m; g m) d c.
Proof.
  intros Hf Hg Hd m Hm. destruct (Hf m Hm) as (m1 & E1 & Hm1 & H1). destruct (Hg m1 Hm1) as (m2 & E2 & Hm2 & H2).
  exists m2. rewrite E1. split; [exact E2|]. split; [done|]. intros X Y HXY. rewrite H2, H1, Hd by done.
  by destruct (d2 X Y), (d1 X Y).
Qed.

Lemma paints_pixel x y c : on_fb x y -> paints (put_pixel fb x y (c x y)) (fun X Y => (X =? x) && (Y =? y)) c.
Proof.
  intros Hxy m Hm. destruct (put_pixel_ok x y (c x y) m Hm Hxy) as (m' & E & Hm' & H1 & H2).
  exists m'. split; [exact E|]. split; [done|]. intros X Y HXY.
  destruct (Z.eqb_spec X x) as [->|], (Z.eqb_spec Y y) as [->|]; cbn [andb]; first [done|apply H2; [done|congruence]].
Qed.

Lemma paints_ext f g d c c' : paints f d c -> (forall m, g m = f m) -> (forall X Y, d X Y = true -> c X Y = c' X Y) -> paints g d c'.
Proof.
  intros Hf Hg Hc m Hm. destruct (Hf m Hm) as (m' & E & Hm' & H). exists m'. rewrite Hg. split; [exact E|]. split; [done|].
  intros X Y HXY. rewrite H by done. destruct (d X Y) eqn:Ed; [|done]. by rewrite Hc.
Qed.

(** The pixel (i, j) of a glyph. *)
Definition glyph_px (data : list Z) (fg bg i j : Z) : Z :=
  if negb (Z.land (default 0 (data !! Z.to_nat j)) (Z.shiftr 0x80 i) =? 0) then fg else bg.

Lemma draw_bits_ok n c x0 y data fg bg j c' :
  0 <= c -> 0 <= x0 -> x0 + c + Z.of_nat n <= fi_width fb -> 0 <= y < fi_height fb ->
  (forall X, c' X y = glyph_px data fg bg (X - x0) j) ->
  paints (draw_bits n c fb x0 y (default 0 (data !! Z.to_nat j)) fg bg)
    (fun X Y => (Y =? y) && (x0 + c <=? X) && (X <? x0 + c + Z.of_nat n)) c'.
Proof.
  revert c. induction n as [|n IH]; intros c Hc Hx Hw Hy Hc'.
  - apply paints_none. intros X Y. lia.
  - assert (Hwi : fi_width fb < 4294967296).
    { destruct Hfb as (_ & ? & ? & Hp & Hs & _). unfold fb_size in Hs. pose proof bypp_cases. nia. }
    eapply (paints_seq (put_pixel fb (u32 (x0 + c)) y _) (draw_bits n (c + 1) fb x0 y _ fg bg)
              (fun X Y => (X =? x0 + c) && (Y =? y)) (fun X Y => (Y =? y) && (x0 + (c + 1) <=? X) && (X <? x0 + (c + 1) + Z.of_nat n))).
    + rewrite u32_id by word.
      eapply (paints_ext _ _ _ c'); [apply (paints_pixel (x0 + c) y c'); split; lia| |done].
      intros m. rewrite Hc'. unfold glyph_px. by replace (x0 + c - x0) with c by lia.
    + apply IH; (done || lia).
    + intros X Y _. lia.
Qed.

Lemma draw_rows_ok n r x0 y0 data fg bg :
  0 <= r -> 0 <= x0 -> x0 + 8 <= fi_width fb -> 0 <= y0 -> y0 + r + Z.of_nat n <= fi_height fb -> r + Z.of_nat n <= Z.of_nat (length data) ->
  paints (draw_rows n r fb x0 y0 data fg bg)
    (fun X Y => (x0 <=? X) && (X <? x0 + 8) && (y0 + r <=? Y) && (Y <? y0 + r + Z.of_nat n))
    (fun X Y => glyph_px data fg bg (X - x0) (Y - y0)).
Proof.
  revert r. induction n as [|n IH]; intros r Hr Hx Hw Hy Hh Hd.
  - apply paints_none. intros X Y. lia.
  - assert (Hhi : fi_height fb < 4294967296).
    { destruct Hfb as (_ & ? & ? & Hp & Hs & _). unfold fb_size in Hs. pose proof bypp_cases. nia. }
    destruct (lookup_lt_is_Some_2 data (Z.to_nat r) ltac:(lia)) as [bits Eb].
    eapply (paints_ext (fun m => m ← draw_bits (Z.to_nat CFONT_W) 0 fb x0 (u32 (y0 + r)) bits fg bg m; draw_rows n (r + 1) fb x0 y0 data fg bg m));
      [|intros m; cbn [draw_rows]; by rewrite Eb|reflexivity].
    eapply (paints_seq _ _ (fun X Y => (Y =? y0 + r) && (x0 + 0 <=? X) && (X <? x0 + 0 + 8))
              (fun X Y => (x0 <=? X) && (X <? x0 + 8) && (y0 + (r + 1) <=? Y) && (Y <? y0 + (r + 1) + Z.of_nat n))).
    + rewrite u32_id by word. replace bits with (default 0 (data !! Z.to_nat r)) by by rewrite Eb.
      apply (draw_bits_ok 8 0 x0 (y0 + r) data fg bg r); [lia..|]. intros X. f_equal. lia.
    + apply IH; lia.
    + intros X Y _. lia.
Qed.

Definition cols : Z := fi_width fb / 8.
Definition rows : Z := fi_height fb / 16.

(** Whether the pixel belongs to the cell. *)
Definition in_cell (col row X Y : Z) : bool := (8 * col <=? X) && (X <? 8 * col + 8) && (16 * row <=? Y) && (Y <? 16 * row + 16).

Lemma draw_glyph_data_ok col row data fg bg : length data = 16%nat -> 0 <= col < cols -> 0 <= row < rows ->
  paints (draw_glyph_data fb col row data fg bg) (in_cell col row)
    (fun X Y => glyph_px data fg bg (X - 8 * col) (Y - 16 * row)).
Proof.
  intros Hd Hc Hr. unfold cols, rows in *. assert (8 * col + 8 <= fi_width fb) by zlia. assert (16 * row + 16 <= fi_height fb) by zlia.
  assert (fi_width fb < 4294967296 /\ fi_height fb < 4294967296) as [? ?].
  { destruct Hfb as (_ & ? & ? & Hp & Hs & _). unfold fb_size in Hs. pose proof bypp_cases. nia. }
  unfold draw_glyph_data. replace (u32 (u32 col * CFONT_W)) with (8 * col) by (unfold CFONT_W; rewrite !u32_id by word; lia).
  replace (u32 (u32 row * CFONT_H)) with (16 * row) by (unfold CFONT_H; rewrite !u32_id by word; lia).
  intros m Hm. destruct (draw_rows_ok 16 0 (8 * col) (16 * row) data fg bg ltac:(lia) ltac:(lia) ltac:(lia) ltac:(lia) ltac:(lia) ltac:(lia) m Hm)
    as (m' & E & Hm' & Hpx). exists m'. split; [exact E|]. split; [done|]. intros X Y HXY. rewrite Hpx by done. unfold in_cell.
  by rewrite Z.add_0_r.
Qed.

(** Scrolling moves the pixels of all text rows but the first and clears the last. *)
Definition scroll_mem (m : gmap Z Z) : option (gmap Z Z) :=
  m ← mem_move (fi_addr fb) (fi_addr fb + 16 * fi_pitch fb) ((rows - 1) * (16 * fi_pitch fb)) m;
  mem_store (fi_addr fb + (rows - 1) * (16 * fi_pitch fb)) (replicate (Z.to_nat (16 * fi_pitch fb)) 0) m.

Lemma mem_load_shift n a k m m' : (forall b, a <= b < a + Z.of_nat n -> m' !! b = m !! (b + k)) -> mem_load n a m' = mem_load n (a + k) m.
Proof.
  revert a. induction n as [|n IH]; intros a H; cbn [mem_load]; [done|].
  rewrite H by lia. rewrite (IH (a + 1)) by (intros; apply H; lia). by replace (a + 1 + k) with (a + k + 1) by lia.
Qed.

Lemma rows_pos : 0 < cols /\ 0 < rows /\ rows * 16 <= fi_height fb /\ 0 < fi_pitch fb.
Proof. destruct Hfb as (_ & Hw & Hh & Hp & _). pose proof bypp_cases. unfold cols, rows. split_and!; [zlia|zlia|zlia|nia]. Qed.

Lemma scroll_mem_ok m : mapped m (fi_addr fb) fb_size ->
  exists m', scroll_mem m = Some m' /\ mapped m' (fi_addr fb) fb_size /\
    forall X Y, on_fb X Y -> pix m' X Y =
      if Y <? 16 * (rows - 1) then pix m X (Y + 16) else if Y <? 16 * rows then Some [0; 0; 0] else pix m X Y.
Proof.
  intros Hm. destruct rows_pos as (Hc & Hr & Hrh & Hp). unfold scroll_mem. set (rb := 16 * fi_pitch fb) in *.
  assert (Hsz : rows * rb <= fb_size) by (unfold rb, fb_size; nia). assert (0 < rb) by lia. assert (0 <= (rows - 1) * rb) by nia.
  destruct (mem_move_ok (fi_addr fb) (fi_addr fb + rb) ((rows - 1) * rb) m) as (m1 & -> & H1);
    [done|apply (mapped_sub _ _ _ _ _ Hm); lia|apply (mapped_sub _ _ _ _ _ Hm); lia|]. cbn [mbind option_bind].
  assert (Hm1 : mapped m1 (fi_addr fb) fb_size).
  { intros b Hb. rewrite H1. destruct ((fi_addr fb <=? b) && (b <? fi_addr fb + (rows - 1) * rb)) eqn:E; [|by apply Hm]. apply Hm. lia. }
  destruct (mem_store_ok (replicate (Z.to_nat rb) 0) (fi_addr fb + (rows - 1) * rb) m1) as (m2 & E2 & H2);
    [rewrite length_replicate, Z2Nat.id by lia; apply (mapped_sub _ _ _ _ _ Hm1); lia|].
  exists m2. split; [exact E2|]. split; [by apply (mem_store_mapped _ _ _ _ _ _ E2)|].
  rewrite length_replicate, Z2Nat.id in H2 by lia. pose proof bypp_cases as Hbp.
  intros X Y HXY. pose proof (px_addr_range X Y HXY) as (R1 & R2 & _). pose proof HXY as [HX HY].
  assert (Hx : (X + 1) * fi_bypp <= fi_pitch fb) by (destruct Hfb as (_ & _ & _ & Hpw & _); nia).
  assert (Hpx : px_addr X Y = fi_addr fb + (Y * fi_pitch fb + X * fi_bypp)) by (unfold px_addr; lia).
  assert (Hlo : Y * fi_pitch fb + X * fi_bypp + 3 <= (Y + 1) * fi_pitch fb) by nia.
  destruct (Z.ltb_spec Y (16 * (rows - 1))); [|destruct (Z.ltb_spec Y (16 * rows))].
  - assert ((Y + 1) * fi_pitch fb <= (rows - 1) * rb) by (unfold rb; nia). unfold pix.
    replace (px_addr X (Y + 16)) with (px_addr X Y + rb) by (unfold px_addr, rb; lia). apply mem_load_shift. intros b Hb. rewrite H2, H1.
    replace ((fi_addr fb + (rows - 1) * rb <=? b) && (b <? fi_addr fb + (rows - 1) * rb + rb)) with false by lia.
    replace ((fi_addr fb <=? b) && (b <? fi_addr fb + (rows - 1) * rb)) with true by lia. f_equal. lia.
  - assert ((Y + 1) * fi_pitch fb <= rows * rb) by (unfold rb; nia). assert ((rows - 1) * rb <= Y * fi_pitch fb) by (unfold rb; nia).
    apply mem_load_eq; [done|]. intros i Hi. rewrite H2.
    replace ((fi_addr fb + (rows - 1) * rb <=? px_addr X Y + Z.of_nat i) && (px_addr X Y + Z.of_nat i <? fi_addr fb + (rows - 1) * rb + rb)) with true by nia.
    rewrite lookup_replicate_2 by nia. by destruct i as [|[|[|i]]]; [..|lia].
  - assert (rows * rb <= Y * fi_pitch fb) by (unfold rb; nia). apply mem_load_same. intros b Hb. rewrite H2, H1.
    replace ((fi_addr fb + (rows - 1) * rb <=? b) && (b <? fi_addr fb + (rows - 1) * rb + rb)) with false by nia.
    by replace ((fi_addr fb <=? b) && (b <? fi_addr fb + (rows - 1) * rb)) with false by nia.
Qed.

(** ** Cells on the frame buffer *)

(** The glyph of a code point, and the color of a pixel of a cell. *)
Definition cp_glyph (cp : Z) : list Z :=
  if cp <? 256 then default [] (font8x16 !! Z.to_nat cp)
  else default (default [] (font8x16 !! 63%nat)) (cyr_get_glyph cp).
Definition look (c : cell) (i j : Z) : Z :=
  match c with None => 0 | Some (cp, attr) => glyph_px (cp_glyph cp) (attr_fg attr) (attr_bg attr) i j end.

Definition cell_shown (m : gmap Z Z) (col row : Z) (c : cell) : Prop :=
  forall X Y, in_cell col row X Y = true -> pix m X Y = Some (rgb3 (look c (X - 8 * col) (Y - 16 * row))).
Definition fb_cells (m : gmap Z Z) (cells : list cell) : Prop :=
  forall col row c, 0 <= col < cols -> 0 <= row < rows ->
    cells !! Z.to_nat (row * cols + col) = Some c -> cell_shown m col row c.

Lemma in_cell_on col row X Y : 0 <= col < cols -> 0 <= row < rows -> in_cell col row X Y = true -> on_fb X Y.
Proof.
  intros Hc Hr Hi. unfold in_cell, cols, rows, on_fb in *.
  assert (8 * col + 8 <= fi_width fb) by zlia. assert (16 * row + 16 <= fi_height fb) by zlia. lia.
Qed.

Lemma cell_index col row col' row' : 0 <= col < cols -> 0 <= col' < cols -> 0 <= row -> 0 <= row' ->
  Z.to_nat (row * cols + col) = Z.to_nat (row' * cols + col') -> col = col' /\ row = row'.
Proof. intros. assert (row * cols + col = row' * cols + col') by nia. assert (row = row') by nia. split; nia. Qed.

Lemma fb_cells_put f col row c cells m : 0 <= col < cols -> 0 <= row < rows ->
  paints f (in_cell col row) (fun X Y => look c (X - 8 * col) (Y - 16 * row)) ->
  mapped m (fi_addr fb) fb_size -> fb_cells m cells ->
  exists m', f m = Some m' /\ mapped m' (fi_addr fb) fb_size /\ fb_cells m' (<[Z.to_nat (row * cols + col) := c]> cells).
Proof.
  intros Hc Hr Hf Hm Hcells. destruct (Hf m Hm) as (m' & E & Hm' & H). exists m'. split; [exact E|]. split; [done|].
  intros col' row' c' Hc' Hr' E' X Y HXY. rewrite H by by apply (in_cell_on col' row').
  destruct (decide (Z.to_nat (row' * cols + col') = Z.to_nat (row * cols + col))) as [Ei|Ei].
  - destruct (cell_index col' row' col row) as [-> ->]; [lia..|done|]. rewrite HXY.
    apply lookup_lt_Some in E' as Hlt. rewrite length_insert in Hlt. rewrite list_lookup_insert_eq in E' by done. by injection E' as ->.
  - rewrite list_lookup_insert_ne in E' by done. replace (in_cell col row X Y) with false.
    + by apply (Hcells col' row' c').
    + unfold in_cell in *. destruct (decide (col = col')) as [->|]; [|lia]. destruct (decide (row = row')) as [->|]; [done|lia].
Qed.

Lemma fb_cells_scroll m cells : mapped m (fi_addr fb) fb_size -> fb_cells m cells -> Z.of_nat (length cells) = rows * cols ->
  exists m', scroll_mem m = Some m' /\ mapped m' (fi_addr fb) fb_size /\
    fb_cells m' (drop (Z.to_nat cols) cells ++ replicate (Z.to_nat cols) None).
Proof.
  intros Hm Hcells Hl. destruct (scroll_mem_ok m Hm) as (m' & E & Hm' & H). exists m'. split; [exact E|]. split; [done|].
  destruct rows_pos as (Hcp & Hrp & _). intros col row c Hc Hr Ec X Y HXY.
  rewrite H by by apply (in_cell_on col row). pose proof HXY as Hin. unfold in_cell in Hin.
  destruct (Z.ltb_spec Y (16 * (rows - 1))).
  - assert (row < rows - 1) by lia. assert (row * cols + col + cols < rows * cols) by nia.
    rewrite lookup_app_l in Ec by (rewrite length_drop; nia). rewrite lookup_drop in Ec.
    replace (Z.to_nat cols + Z.to_nat (row * cols + col))%nat with (Z.to_nat ((row + 1) * cols + col)) in Ec by nia.
    rewrite (Hcells col (row + 1) c Hc ltac:(lia) Ec X (Y + 16)) by (unfold in_cell; lia).
    by replace (Y + 16 - 16 * (row + 1)) with (Y - 16 * row) by lia.
  - assert (row = rows - 1) as -> by lia. replace (Y <? 16 * rows) with true by lia.
    rewrite lookup_app_r in Ec by (rewrite length_drop; nia). apply lookup_replicate in Ec as [-> _]. done.
Qed.
End Fb.

(** ** Cells in text mode *)

Definition vga_look (c : cell) : Z * Z :=
  match c with
  | None => (0, 0)
  | Some (cp, attr) => (if cp <? 256 then cp else 63, u8 (if attr =? 0 then WHITE_ON_BLACK else attr))
  end.
Definition vga_cells (m : gmap Z Z) (cells : list cell) : Prop :=
  forall i c, cells !! i = Some c ->
    m !! (VIDEO_ADDRESS + 2 * Z.of_nat i) = Some (vga_look c).1 /\ m !! (VIDEO_ADDRESS + 2 * Z.of_nat i + 1) = Some (vga_look c).2.

Lemma vga_move_rows_ok n i m : 1 <= i -> i + Z.of_nat n <= 25 -> mapped m VIDEO_ADDRESS 4000 ->
  exists m', vga_move_rows n i m = Some m' /\ mapped m' VIDEO_ADDRESS 4000 /\
    forall b, m' !! b = if (VIDEO_ADDRESS + 160 * (i - 1) <=? b) && (b <? VIDEO_ADDRESS + 160 * (i - 1 + Z.of_nat n))
                        then m !! (b + 160) else m !! b.
Proof.
  revert i m. induction n as [|n IH]; intros i m Hi Hn Hm; cbn [vga_move_rows].
  - exists m. split; [done|]. split; [done|]. intros b.
    by replace ((VIDEO_ADDRESS + 160 * (i - 1) <=? b) && (b <? VIDEO_ADDRESS + 160 * (i - 1 + Z.of_nat 0))) with false by lia.
  - replace (VIDEO_ADDRESS + get_offset 0 (i - 1)) with (VIDEO_ADDRESS + 160 * (i - 1)) by (unfold get_offset, VGA_COLS; lia).
    replace (VIDEO_ADDRESS + get_offset 0 i) with (VIDEO_ADDRESS + 160 * i) by (unfold get_offset, VGA_COLS; lia).
    change (VGA_COLS * 2) with 160.
    destruct (mem_move_ok (VIDEO_ADDRESS + 160 * (i - 1)) (VIDEO_ADDRESS + 160 * i) 160 m) as (m1 & -> & H1);
      [done|apply (mapped_sub _ _ _ _ _ Hm); lia|apply (mapped_sub _ _ _ _ _ Hm); lia|]. cbn [mbind option_bind].
    destruct (IH (i + 1) m1) as (m2 & E2 & Hm2 & H2); [lia|lia| |].
    { intros b Hb. rewrite H1. destruct (_ && _) eqn:E; [|by apply Hm]. apply Hm. lia. }
    exists m2. split; [exact E2|]. split; [done|]. intros b. rewrite H2.
    destruct ((VIDEO_ADDRESS + 160 * (i + 1 - 1) <=? b) && (b <? VIDEO_ADDRESS + 160 * (i + 1 - 1 + Z.of_nat n))) eqn:E.
    + replace ((VIDEO_ADDRESS + 160 * (i - 1) <=? b) && (b <? VIDEO_ADDRESS + 160 * (i - 1 + Z.of_nat (S n)))) with true by lia.
      rewrite H1. by replace ((VIDEO_ADDRESS + 160 * (i - 1) <=? b + 160) && (b + 160 <? VIDEO_ADDRESS + 160 * (i - 1) + 160)) with false by lia.
    + rewrite H1. destruct ((VIDEO_ADDRESS + 160 * (i - 1) <=? b) && (b <? VIDEO_ADDRESS + 160 * (i - 1) + 160)) eqn:E'.
      * replace ((VIDEO_ADDRESS + 160 * (i - 1) <=? b) && (b <? VIDEO_ADDRESS + 160 * (i - 1 + Z.of_nat (S n)))) with true by lia. f_equal. lia.
      * by replace ((VIDEO_ADDRESS + 160 * (i - 1) <=? b) && (b <? VIDEO_ADDRESS + 160 * (i - 1 + Z.of_nat (S n)))) with false by lia.
Qed.

Definition vga_scroll_mem (m : gmap Z Z) : option (gmap Z Z) :=
  m ← vga_move_rows 24 1 m; mem_store (VIDEO_ADDRESS + 3840) (replicate 160 0) m.

Lemma vga_scroll_ok m cells : mapped m VIDEO_ADDRESS 4000 -> vga_cells m cells -> length cells = 2000%nat ->
  exists m', vga_scroll_mem m = Some m' /\ mapped m' VIDEO_ADDRESS 4000 /\ vga_cells m' (drop 80 cells ++ replicate 80 None).
Proof.
  intros Hm Hcells Hl. unfold vga_scroll_mem.
  destruct (vga_move_rows_ok 24 1 m ltac:(lia) ltac:(lia) Hm) as (m1 & -> & Hm1 & H1). cbn [mbind option_bind].
  destruct (mem_store_ok (replicate 160 0) (VIDEO_ADDRESS + 3840) m1) as (m2 & E2 & H2);
    [rewrite length_replicate; apply (mapped_sub _ _ _ _ _ Hm1); lia|].
  exists m2. split; [exact E2|]. split; [by apply (mem_store_mapped _ _ _ _ _ _ E2)|]. rewrite length_replicate in H2.
  assert (Hcell : forall b, VIDEO_ADDRESS <= b -> m2 !! b = if b <? VIDEO_ADDRESS + 3840 then m !! (b + 160)
    else if b <? VIDEO_ADDRESS + 4000 then Some 0 else m !! b).
  { intros b Hb. rewrite H2, H1. destruct (Z.ltb_spec b (VIDEO_ADDRESS + 3840)).
    - replace ((VIDEO_ADDRESS + 3840 <=? b) && (b <? VIDEO_ADDRESS + 3840 + Z.of_nat 160)) with false by lia.
      by replace ((VIDEO_ADDRESS + 160 * (1 - 1) <=? b) && (b <? VIDEO_ADDRESS + 160 * (1 - 1 + Z.of_nat 24))) with true by lia.
    - destruct (Z.ltb_spec b (VIDEO_ADDRESS + 4000)).
      + replace ((VIDEO_ADDRESS + 3840 <=? b) && (b <? VIDEO_ADDRESS + 3840 + Z.of_nat 160)) with true by lia.
        apply lookup_replicate_2. lia.
      + replace ((VIDEO_ADDRESS + 3840 <=? b) && (b <? VIDEO_ADDRESS + 3840 + Z.of_nat 160)) with false by lia.
        by replace ((VIDEO_ADDRESS + 160 * (1 - 1) <=? b) && (b <? VIDEO_ADDRESS + 160 * (1 - 1 + Z.of_nat 24))) with false by lia. }
  intros i c Ec. rewrite !Hcell by lia. destruct (decide (i < 1920)%nat).
  - rewrite lookup_app_l, lookup_drop in Ec by (rewrite length_drop; lia). destruct (Hcells _ _ Ec) as [<- <-].
    replace (VIDEO_ADDRESS + 2 * Z.of_nat i <? VIDEO_ADDRESS + 3840) with true by lia.
    replace (VIDEO_ADDRESS + 2 * Z.of_nat i + 1 <? VIDEO_ADDRESS + 3840) with true by lia. split; f_equal; lia.
  - rewrite lookup_app_r in Ec by (rewrite length_drop; lia). apply lookup_replicate in Ec as [-> Hi]. rewrite length_drop in Hi.
    replace (VIDEO_ADDRESS + 2 * Z.of_nat i <? VIDEO_ADDRESS + 3840) with false by lia.
    replace (VIDEO_ADDRESS + 2 * Z.of_nat i + 1 <? VIDEO_ADDRESS + 3840) with false by lia.
    replace (VIDEO_ADDRESS + 2 * Z.of_nat i <? VIDEO_ADDRESS + 4000) with true by lia.
    by replace (VIDEO_ADDRESS + 2 * Z.of_nat i + 1 <? VIDEO_ADDRESS + 4000) with true by lia.
Qed.

(** Writing the two bytes of a cell. *)
Lemma vga_cells_put m cells i c : mapped m VIDEO_ADDRESS 4000 -> vga_cells m cells -> length cells = 2000%nat -> 0 <= i < 2000 ->
  let m' := <[VIDEO_ADDRESS + (2 * i + 1) := (vga_look c).2]> (<[VIDEO_ADDRESS + 2 * i := (vga_look c).1]> m) in
  mapped m' VIDEO_ADDRESS 4000 /\ vga_cells m' (<[Z.to_nat i := c]> cells).
Proof.
  intros Hm Hcells Hl Hi m'. subst m'. split.
  - intros b Hb. destruct (decide (b = VIDEO_ADDRESS + (2 * i + 1))) as [->|]; [by rewrite lookup_insert_eq|]. rewrite lookup_insert_ne by done.
    destruct (decide (b = VIDEO_ADDRESS + 2 * i)) as [->|]; [by rewrite lookup_insert_eq|]. rewrite lookup_insert_ne by done. by apply Hm.
  - intros j d Ej. destruct (decide (j = Z.to_nat i)) as [->|].
    + rewrite list_lookup_insert_eq in Ej by lia. injection Ej as <-. rewrite Z2Nat.id by lia.
      rewrite lookup_insert_ne, lookup_insert_eq by lia. split; [done|].
      replace (VIDEO_ADDRESS + 2 * i + 1) with (VIDEO_ADDRESS + (2 * i + 1)) by lia. by rewrite lookup_insert_eq.
    + rewrite list_lookup_insert_ne in Ej by done. rewrite !lookup_insert_ne by lia. by apply Hcells.
Qed.

(** ** The console shows a grid *)

Definition con_shows (s : con_st) (t : tty) : Prop :=
  tty_wf (get_cols s) (get_rows s) t /\
  if use_fb s
  then fb_ok (con_fb s) /\ mapped (con_mem s) (fi_addr (con_fb s)) (fb_size (con_fb s)) /\
    fb_cells (con_fb s) (con_mem s) (tty_cells t) /\
    0 <= cur_col s < get_cols s /\ 0 <= cur_row s < get_rows s /\ tty_cur t = cur_row s * get_cols s + cur_col s
  else mapped (con_mem s) VIDEO_ADDRESS 4000 /\ vga_cells (con_mem s) (tty_cells t) /\ con_crtc s = tty_cur t.

(** What printing leaves alone. *)
Definition same_dev (s s' : con_st) : Prop :=
  use_fb s' = use_fb s /\ con_fb s' = con_fb s /\ utf8_cp s' = utf8_cp s /\ utf8_rem s' = utf8_rem s /\
  con_hook s' = con_hook s /\ con_serial s' = con_serial s.

Lemma same_geometry s s' : use_fb s' = use_fb s -> con_fb s' = con_fb s -> get_cols s' = get_cols s /\ get_rows s' = get_rows s.
Proof. unfold get_cols, get_rows. by intros -> ->. Qed.

Lemma on_mem_ok f s m' : f (con_mem s) = Some m' -> on_mem f s = Some (tt, set_mem m' s).
Proof. unfold on_mem. by intros ->. Qed.

Lemma fb_scroll_eq s m' : use_fb s = true -> fb_ok (con_fb s) -> scroll_mem (con_fb s) (con_mem s) = Some m' ->
  fb_scroll s = Some (tt, set_mem m' s).
Proof.
  intros Hu Hfb E. pose proof (rows_pos _ Hfb) as (Hc & Hr & Hrh & Hp). pose proof Hfb as (_ & Hw & Hh & Hpw & Hs & Ha & He).
  assert (Hrows : get_rows s = rows (con_fb s)) by (unfold get_rows; by rewrite Hu).
  assert (Hsz : rows (con_fb s) * (16 * fi_pitch (con_fb s)) <= fb_size (con_fb s)) by (unfold fb_size; nia).
  unfold fb_scroll, CFONT_H. mrun. rewrite Hrows.
  rewrite (u32_id (16 * _)) by (split; nia). rewrite (u32_id (rows _ * _)) by (split; nia).
  replace (u32 (rows (con_fb s) * (16 * fi_pitch (con_fb s)) - 16 * fi_pitch (con_fb s))) with ((rows (con_fb s) - 1) * (16 * fi_pitch (con_fb s)))
    by (rewrite u32_id by (split; nia); lia).
  assert (16 * fi_pitch (con_fb s) < fb_size (con_fb s) + 1) by nia.
  rewrite !u64_id by (split; nia). unfold scroll_mem in E.
  destruct (mem_move _ _ _ (con_mem s)) as [m1|] eqn:E1; [|done]. cbn [mbind option_bind] in E.
  rewrite (bind_eq _ _ _ _ _ (on_mem_ok _ _ _ E1)). by rewrite (on_mem_ok _ _ m').
Qed.

(** A frame buffer that shows [cells], with the cursor to be moved to [(col, row)]. *)
Lemma wrap_scroll_ok s cells col row :
  use_fb s = true -> fb_ok (con_fb s) -> mapped (con_mem s) (fi_addr (con_fb s)) (fb_size (con_fb s)) ->
  fb_cells (con_fb s) (con_mem s) cells -> Z.of_nat (length cells) = get_rows s * get_cols s ->
  0 <= col <= get_cols s -> 0 <= row <= get_rows s -> (row = get_rows s -> col = 0) ->
  exists r s', wrap_scroll col row s = Some (r, s') /\ same_dev s s' /\
    con_shows s' (tty_scroll (get_cols s) (get_rows s) (Tty cells (row * get_cols s + col))).
Proof.
  intros Hu Hfb Hm Hcells Hl Hcol Hrow Hlast. pose proof (rows_pos _ Hfb) as (Hc & Hr & _).
  assert (Ec : get_cols s = cols (con_fb s)) by (unfold get_cols; by rewrite Hu).
  assert (Er : get_rows s = rows (con_fb s)) by (unfold get_rows; by rewrite Hu).
  unfold wrap_scroll. mrun. rewrite Ec, Er in *. rewrite !Z.geb_leb.
  set (q := if cols (con_fb s) <=? col then (0, row + 1) else (col, row)).
  assert (Hq : q.2 * cols (con_fb s) + q.1 = row * cols (con_fb s) + col /\ 0 <= q.1 < cols (con_fb s) /\ 0 <= q.2 <= rows (con_fb s) /\
    (q.2 = rows (con_fb s) -> q.1 = 0)).
  { unfold q. destruct (Z.leb_spec (cols (con_fb s)) col); cbn [fst snd]; [|lia].
    assert (col = cols (con_fb s)) as -> by lia. assert (row < rows (con_fb s)) by lia. lia. }
  destruct q as [c1 r1]. cbn [fst snd] in Hq. destruct Hq as (<- & Hc1 & Hr1 & H0).
  unfold tty_scroll. cbn [tty_cur tty_cells]. rewrite !Z.geb_leb.
  destruct (Z.leb_spec (rows (con_fb s)) r1).
  - assert (r1 = rows (con_fb s)) as -> by lia. rewrite (H0 eq_refl), Z.add_0_r, Z.leb_refl.
    destruct (fb_cells_scroll _ Hfb _ _ Hm Hcells Hl) as (m' & E & Hm' & Hcells').
    mrun. rewrite (bind_eq _ _ _ _ _ (fb_scroll_eq s m' Hu Hfb E)). mrun. eexists _, _. split; [reflexivity|]. split; [done|].
    split.
    + change (get_cols (set_cur _ _ (set_mem m' s))) with (get_cols s). change (get_rows (set_cur _ _ (set_mem m' s))) with (get_rows s).
      rewrite Ec, Er. unfold tty_wf. cbn [tty_cur tty_cells]. split_and!; try lia; [|nia..]. rewrite length_app, length_drop, length_replicate. nia.
    + change (get_cols (set_cur _ _ (set_mem m' s))) with (get_cols s). change (get_rows (set_cur _ _ (set_mem m' s))) with (get_rows s).
      cbn [use_fb set_cur set_mem con_fb con_mem cur_col cur_row tty_cur tty_cells]. rewrite Hu, Ec, Er. split_and!; (done || lia).
  - destruct (Z.leb_spec (rows (con_fb s) * cols (con_fb s)) (r1 * cols (con_fb s) + c1)); [nia|].
    mrun. eexists _, _. split; [reflexivity|]. split; [done|]. split.
    + change (get_cols (set_cur _ _ s)) with (get_cols s). change (get_rows (set_cur _ _ s)) with (get_rows s).
      rewrite Ec, Er. unfold tty_wf. cbn [tty_cur tty_cells]. split_and!; (lia || nia).
    + change (get_cols (set_cur _ _ s)) with (get_cols s). change (get_rows (set_cur _ _ s)) with (get_rows s).
      cbn [use_fb set_cur con_fb con_mem cur_col cur_row tty_cur tty_cells]. rewrite Hu, Ec, Er. split_and!; (done || lia).
Qed.

Lemma tty_cells_length s t : con_shows s t -> Z.of_nat (length (tty_cells t)) = get_rows s * get_cols s.
Proof. by intros [(_ & _ & ? & _) _]. Qed.

Lemma glyph_len cp : 0 <= cp -> length (cp_glyph cp) = 16%nat.
Proof.
  intros Hcp. unfold cp_glyph. destruct (Z.ltb_spec cp 256).
  - destruct (screen_glyph_ok cp ltac:(word)) as (g & E & Hg & _). unfold screen_glyph8x16 in E. by rewrite E.
  - destruct (cyr_get_glyph cp) as [g|] eqn:E; [by apply cyr_get_glyph_ok in E as [? _]|].
    destruct (screen_glyph_ok 63 ltac:(word)) as (g & E' & Hg & _). unfold screen_glyph8x16 in E'. change (Z.to_nat 63) with 63%nat in E'. by rewrite E'.
Qed.

(** Drawing the glyph of [cp] at the cursor puts it into the grid; what is left
    of the printing is the move of the cursor. *)
Lemma fb_put_ok s t cp attr f : use_fb s = true -> con_shows s t -> 0 <= cp ->
  (forall m, f m = draw_glyph_data (con_fb s) (cur_col s) (cur_row s) (cp_glyph cp) (attr_fg attr) (attr_bg attr) m) ->
  exists m', on_mem f s = Some (tt, set_mem m' s) /\
    exists r s', wrap_scroll (cur_col s + 1) (cur_row s) (set_mem m' s) = Some (r, s') /\ same_dev s s' /\
      con_shows s' (tty_put (get_cols s) (get_rows s) (Some (cp, attr)) t).
Proof.
  intros Hu Hs Hcp Hf. pose proof (tty_cells_length _ _ Hs) as Hl. destruct Hs as [Hwf Hs]. rewrite Hu in Hs.
  destruct Hs as (Hfb & Hm & Hcells & Hc & Hr & Hcur).
  assert (Ec : get_cols s = cols (con_fb s)) by (unfold get_cols; by rewrite Hu).
  assert (Er : get_rows s = rows (con_fb s)) by (unfold get_rows; by rewrite Hu). rewrite Ec, Er in *.
  destruct (fb_cells_put _ f (cur_col s) (cur_row s) (Some (cp, attr)) (tty_cells t) (con_mem s) Hc Hr) as (m' & E & Hm' & Hcells'); [|done|done|].
  { eapply paints_ext; [apply draw_glyph_data_ok; [done|by apply (glyph_len cp)|done|done]|exact Hf|done]. }
  exists m'. split; [by apply on_mem_ok|].
  destruct (wrap_scroll_ok (set_mem m' s) (<[Z.to_nat (tty_cur t) := Some (cp, attr)]> (tty_cells t)) (cur_col s + 1) (cur_row s))
    as (r & s' & E' & Hsame & Hshow); try done.
  - by rewrite Hcur.
  - rewrite length_insert. change (get_cols (set_mem m' s)) with (get_cols s). change (get_rows (set_mem m' s)) with (get_rows s). lia.
  - change (get_cols (set_mem m' s)) with (get_cols s). lia.
  - change (get_rows (set_mem m' s)) with (get_rows s). lia.
  - change (get_rows (set_mem m' s)) with (get_rows s). lia.
  - exists r, s'. split; [exact E'|]. split; [exact Hsame|].
    change (get_cols (set_mem m' s)) with (get_cols s) in Hshow. change (get_rows (set_mem m' s)) with (get_rows s) in Hshow.
    unfold tty_put. rewrite Ec, Er in Hshow. by replace (tty_cur t + 1) with (cur_row s * cols (con_fb s) + (cur_col s + 1)) by lia.
Qed.

Lemma print_char_fb_ok s t c attr : use_fb s = true -> con_shows s t -> in_u8 c -> c <> 8 ->
  exists r s', print_char_fb c (-1) (-1) attr s = Some (r, s') /\ same_dev s s' /\
    con_shows s' (tty_char (get_cols s) (get_rows s) attr t c).
Proof.
  intros Hu Hs Hcr Hc8. unfold print_char_fb. mrun. cbn [Z.ltb Z.compare orb]. unfold tty_char.
  destruct (Z.eqb_spec c 10) as [->|Hn].
  - mrun. pose proof (tty_cells_length _ _ Hs) as Hl. destruct Hs as [(Hc0 & Hr0 & _ & _) Hs]. rewrite Hu in Hs.
    destruct Hs as (Hfb & Hm & Hcells & Hc & Hr & Hcur).
    destruct (wrap_scroll_ok s (tty_cells t) 0 (cur_row s + 1)) as (r & s' & E & Hsame & Hshow); try done; try lia.
    rewrite (bind_eq _ _ _ _ _ E). destruct r. eexists _, s'. split; [reflexivity|]. split; [done|].
    unfold tty_newline. rewrite Hcur. replace ((cur_row s * get_cols s + cur_col s) / get_cols s) with (cur_row s)
      by (rewrite Z.div_add_l, Z.div_small by lia; lia). by rewrite Z.add_0_r in Hshow.
  - destruct (Z.eqb_spec c 8); [done|].
    destruct (fb_put_ok s t c attr (draw_glyph (con_fb s) (cur_col s) (cur_row s) c (attr_fg attr) (attr_bg attr)) Hu Hs ltac:(word)) as (m' & E1 & r & s' & E2 & Hsame & Hshow).
    { intros m. unfold draw_glyph. rewrite u8_id by done. destruct (screen_glyph_ok c Hcr) as (g & E & _). unfold screen_glyph8x16 in E.
      rewrite E. cbn [mbind option_bind]. unfold cp_glyph. replace (c <? 256) with true by word. by rewrite E. }
    pose proof Hs as [_ Hs']. rewrite Hu in Hs'. destruct Hs' as (_ & _ & _ & Hc & Hr & _).
    replace (cur_col s <? get_cols s) with true by lia. replace (cur_row s <? get_rows s) with true by lia. cbn [andb when].
    mrun. rewrite (bind_eq _ _ _ _ _ E1). mrun. rewrite (bind_eq _ _ _ _ _ E2). destruct r. eexists _, s'. by split.
Qed.

(** The cursor register. *)
Lemma vga_cursor_value c : 0 <= c < 65536 -> (Z.shiftl (Z.shiftr c 8) 8 + Z.land c 0xFF) * 2 = 2 * c.
Proof.
  intros Hc. rewrite Z.shiftl_mul_pow2, Z.shiftr_div_pow2 by done. change 0xFF with (2 ^ 8 - 1). rewrite land_ones_mod by done.
  change (2 ^ 8) with 256. zlia.
Qed.

Lemma vga_set_cursor_ok k s : 0 <= k < 65536 -> vga_set_cursor (2 * k) s = Some (tt, set_crtc k s).
Proof.
  intros Hk. unfold vga_set_cursor, modify. do 3 f_equal. rewrite (Z.mul_comm 2), Z.quot_mul by done.
  change 0xFF with (2 ^ 8 - 1). rewrite land_ones_mod, Z.shiftr_div_pow2 by done. change (2 ^ 8) with 256.
  rewrite (u8_id (k mod 256)) by word. rewrite (u8_id (k / 256)) by word. rewrite lor_shiftl_add by zlia. change (2 ^ 8) with 256. zlia.
Qed.

Lemma vga_scroll_eq s m' : vga_scroll_mem (con_mem s) = Some m' -> vga_scroll s = Some (tt, set_mem m' s).
Proof.
  unfold vga_scroll_mem, vga_scroll. intros E.
  change (get_offset 0 (VGA_ROWS - 1)) with 3840. change (Z.to_nat (VGA_ROWS - 1)) with 24%nat. change (Z.to_nat (VGA_COLS * 2)) with 160%nat.
  destruct (vga_move_rows 24 1 (con_mem s)) as [m1|] eqn:E1; [|done]. cbn [mbind option_bind] in E.
  rewrite (bind_eq _ _ _ _ _ (on_mem_ok _ _ _ E1)). by rewrite (on_mem_ok _ _ m').
Qed.

(** Text memory that shows [cells], with the cursor to be moved to cell [k]. *)
Lemma vga_finish s cells k : use_fb s = false -> mapped (con_mem s) VIDEO_ADDRESS 4000 -> vga_cells (con_mem s) cells ->
  length cells = 2000%nat -> 0 <= k < 2080 ->
  exists s', (offset ← (if 2 * k >=? VGA_ROWS * VGA_COLS * 2 then vga_scroll;; mret (2 * k - 2 * VGA_COLS) else mret (2 * k));
    vga_set_cursor offset;; mret offset) s = Some (2 * tty_cur (tty_scroll 80 25 (Tty cells k)), s') /\ same_dev s s' /\
    con_shows s' (tty_scroll 80 25 (Tty cells k)).
Proof.
  intros Hu Hm Hcells Hl Hk. unfold tty_scroll. cbn [tty_cur tty_cells]. rewrite !Z.geb_leb.
  change (VGA_ROWS * VGA_COLS * 2) with 4000. change (2 * VGA_COLS) with 160. change (25 * 80) with 2000. change (Z.to_nat 80) with 80%nat.
  destruct (Z.leb_spec 2000 k).
  - replace (4000 <=? 2 * k) with true by lia. destruct (vga_scroll_ok _ _ Hm Hcells Hl) as (m' & E & Hm' & Hcells').
    mrun. rewrite (bind_eq _ _ _ _ _ (vga_scroll_eq s m' E)). mrun. replace (2 * k - 160) with (2 * (k - 80)) by lia.
    rewrite (bind_eq _ _ _ _ _ (vga_set_cursor_ok (k - 80) _ ltac:(lia))). eexists. split; [reflexivity|]. split; [done|].
    unfold con_shows, get_cols, get_rows. cbn [use_fb set_crtc set_mem]. rewrite Hu. split; [|by split].
    unfold tty_wf, VGA_COLS, VGA_ROWS. cbn [tty_cur tty_cells]. rewrite length_app, length_drop, length_replicate. lia.
  - replace (4000 <=? 2 * k) with false by lia. mrun.
    rewrite (bind_eq _ _ _ _ _ (vga_set_cursor_ok k _ ltac:(lia))). eexists. split; [reflexivity|]. split; [done|].
    unfold con_shows, get_cols, get_rows. cbn [use_fb set_crtc set_mem]. rewrite Hu. split; [|by split].
    unfold tty_wf, VGA_COLS, VGA_ROWS. cbn [tty_cur tty_cells]. lia.
Qed.

Lemma vid_ok s i v : is_Some (con_mem s !! (VIDEO_ADDRESS + i)) ->
  vid i v s = Some (tt, set_mem (<[VIDEO_ADDRESS + i := v]> (con_mem s)) s).
Proof. intros [w E]. unfold vid. apply on_mem_ok. unfold mem_poke. by rewrite E. Qed.

Lemma print_char_vga_ok s t c attr : use_fb s = false -> con_shows s t -> in_u8 c -> c <> 8 ->
  forall cp, c = (if cp <? 256 then cp else 63) -> (cp =? 10) = (c =? 10) ->
  exists r s', print_char_vga c (-1) (-1) attr s = Some (r, s') /\ same_dev s s' /\
    con_shows s' (tty_char (get_cols s) (get_rows s) attr t cp).
Proof.
  intros Hu [Hwf Hs] Hc Hc8 cp Hcp E10. unfold get_cols, get_rows in *. rewrite Hu in *. destruct Hs as (Hm & Hcells & Hcur).
  change VGA_COLS with 80 in *. change VGA_ROWS with 25 in *. destruct Hwf as (_ & _ & Hl & Hk).
  assert (Hl' : length (tty_cells t) = 2000%nat) by lia.
  unfold print_char_vga. change VGA_COLS with 80. change VGA_ROWS with 25. cbn [Z.geb Z.compare orb andb]. cbv zeta.
  unfold vga_get_cursor. mrun. rewrite Hcur, vga_cursor_value by lia. unfold tty_char. rewrite E10.
  destruct (Z.eqb_spec c 10).
  - mrun. change (2 * 80) with 160. replace (get_offset 0 (2 * tty_cur t ÷ 160 + 1)) with (2 * ((tty_cur t / 80 + 1) * 80))
      by (unfold get_offset, VGA_COLS; rewrite Z.quot_div_nonneg by lia; change 160 with (2 * 80); rewrite Z.div_mul_cancel_l by lia; lia).
    destruct (vga_finish s (tty_cells t) ((tty_cur t / 80 + 1) * 80) Hu Hm Hcells Hl' ltac:(zlia)) as (s' & E & Hsame & Hshow).
    unfold VGA_ROWS, VGA_COLS in E. eexists _, s'. split; [exact E|]. split; [done|exact Hshow].
  - destruct (Z.eqb_spec c 8); [done|].
    set (at' := if attr =? 0 then WHITE_ON_BLACK else attr).
    assert (Elook : vga_look (Some (cp, attr)) = (u8 c, u8 at')).
    { unfold vga_look. rewrite <- Hcp. by rewrite (u8_id c). }
    pose proof (vga_cells_put (con_mem s) (tty_cells t) (tty_cur t) (Some (cp, attr)) Hm Hcells Hl' Hk) as [Hm' Hcells'].
    rewrite Elook in Hm', Hcells'. cbn [fst snd] in Hm', Hcells'.
    mrun. rewrite (bind_eq _ _ _ _ _ (vid_ok s (2 * tty_cur t) (u8 c) (Hm (VIDEO_ADDRESS + 2 * tty_cur t) ltac:(lia)))). mrun.
    rewrite (bind_eq _ _ _ _ _ (vid_ok (set_mem (<[VIDEO_ADDRESS + 2 * tty_cur t := u8 c]> (con_mem s)) s) (2 * tty_cur t + 1) (u8 at')
      ltac:(cbn [con_mem set_mem]; rewrite lookup_insert_ne by lia; apply Hm; lia))). mrun. cbn [con_mem set_mem].
    replace (2 * tty_cur t + 2) with (2 * (tty_cur t + 1)) by lia.
    match goal with |- exists r s', _ ?s1 = _ /\ _ => destruct (vga_finish s1 (<[Z.to_nat (tty_cur t) := Some (cp, attr)]> (tty_cells t)) (tty_cur t + 1))
      as (s' & E & Hsame & Hshow); [exact Hu|exact Hm'|exact Hcells'|by rewrite length_insert|lia|] end.
    unfold VGA_ROWS, VGA_COLS in E. eexists _, s'. split; [exact E|]. split; [done|exact Hshow].
Qed.

(** Printing a code point other than backspace. *)
Lemma render_codepoint_ok s t cp attr : con_shows s t -> 0 <= cp -> cp <> 8 ->
  exists s', render_codepoint cp attr s = Some (tt, s') /\ same_dev s s' /\ con_shows s' (tty_char (get_cols s) (get_rows s) attr t cp).
Proof.
  intros Hs Hcp H8. unfold render_codepoint, do_print_char. destruct (Z.ltb_spec cp 256).
  - rewrite u8_id by word. mrun. destruct (use_fb s) eqn:Hu.
    + destruct (print_char_fb_ok s t cp attr Hu Hs ltac:(word) H8) as (r & s' & E & Hsame & Hshow).
      rewrite (bind_eq _ _ _ _ _ E). exists s'. by split.
    + destruct (print_char_vga_ok s t cp attr Hu Hs ltac:(word) H8 cp) as (r & s' & E & Hsame & Hshow); [by replace (cp <? 256) with true by lia|done|].
      rewrite (bind_eq _ _ _ _ _ E). exists s'. by split.
  - mrun. destruct (use_fb s) eqn:Hu; cbn [negb].
    + assert (Eg : (match cyr_get_glyph cp with Some g => Some g | None => font8x16 !! 63%nat end) = Some (cp_glyph cp)).
      { unfold cp_glyph. replace (cp <? 256) with false by lia. destruct (cyr_get_glyph cp); [done|].
        destruct (screen_glyph_ok 63 ltac:(word)) as (g & E' & _). unfold screen_glyph8x16 in E'. change (Z.to_nat 63) with 63%nat in E'. by rewrite E'. }
      rewrite Eg, (bind_eq (lift_option (Some (cp_glyph cp))) _ s (cp_glyph cp) s eq_refl).
      destruct (fb_put_ok s t cp attr (draw_glyph_data (con_fb s) (cur_col s) (cur_row s) (cp_glyph cp) (attr_fg attr) (attr_bg attr)) Hu Hs Hcp)
        as (m' & E1 & r & s' & E2 & Hsame & Hshow); [done|].
      pose proof Hs as [_ Hs']. rewrite Hu in Hs'. destruct Hs' as (_ & _ & _ & Hc & Hr & _).
      replace (cur_col s <? get_cols s) with true by lia. replace (cur_row s <? get_rows s) with true by lia. cbn [andb when].
      rewrite (bind_eq _ _ _ _ _ E1), (bind_eq _ _ _ _ _ E2). exists s'. unfold tty_char. replace (cp =? 10) with false by lia. by split.
    + mrun. rewrite Hu. destruct (print_char_vga_ok s t 63 attr Hu Hs ltac:(word) ltac:(done) cp) as (r & s' & E & Hsame & Hshow);
        [by replace (cp <? 256) with false by lia|lia|].
      rewrite (bind_eq _ _ _ _ _ E). exists s'. by split.
Qed.

(** ** Text *)

(** [serial_out] of several bytes. *)
Definition sent (l : list Z) (s : con_st) : con_st := if con_hook s then set_serial (con_serial s ++ l) s else s.

Lemma sent_shows l s t : con_shows s t -> con_shows (sent l s) t.
Proof. unfold sent. by destruct (con_hook s). Qed.
Lemma set_utf8_shows cp rem s t : con_shows s t -> con_shows (set_utf8 cp rem s) t.
Proof. done. Qed.

Lemma print_bytes_cons b l attr s s' : output_utf8_byte b attr (sent [b] s) = Some (tt, s') ->
  print_bytes (b :: l) attr s = print_bytes l attr s'.
Proof. intros E. cbn [print_bytes]. unfold serial_out. mrun. by rewrite (bind_eq _ _ _ _ _ E). Qed.

Lemma output_lead b attr s n cp : in_u8 b -> 0x80 <= b -> decode_lead b = Some (n, cp) -> utf8_rem s = 0 ->
  output_utf8_byte b attr s = Some (tt, set_utf8 cp (Z.of_nat n) s).
Proof.
  intros Hb Hge E Hr. unfold output_utf8_byte. mrun. rewrite Hr. cbn [Z.gtb Z.compare]. unfold utf8_start.
  replace (b <? 0x80) with false by lia. unfold decode_lead in E.
  destruct (Z.land b 0xE0 =? 0xC0); [by injection E as <- <-|]. destruct (Z.land b 0xF0 =? 0xE0); [by injection E as <- <-|].
  destruct (Z.land b 0xF8 =? 0xF0); [by injection E as <- <-|done].
Qed.

Lemma output_cont m attr s : 0 <= m < 64 -> 0 < utf8_rem s -> 0 <= utf8_cp s < 0x4000000 ->
  output_utf8_byte (128 + m) attr s =
    (if utf8_rem s - 1 =? 0 then render_codepoint (utf8_cp s * 64 + m) attr else mret tt)
      (set_utf8 (utf8_cp s * 64 + m) (utf8_rem s - 1) s).
Proof.
  intros Hm Hr Hc. unfold output_utf8_byte. mrun. replace (utf8_rem s >? 0) with true by lia.
  pose proof (is_cont_range (128 + m) ltac:(word)) as Hcont. unfold utf8_is_cont in Hcont. rewrite Hcont.
  replace ((128 <=? 128 + m) && (128 + m <? 192)) with true by lia. mrun.
  rewrite (u32_id (Z.shiftl _ _)) by (rewrite Z.shiftl_mul_pow2 by done; split; lia).
  rewrite land_3F. replace ((128 + m) mod 64) with m by zlia. rewrite lor_shiftl_add by lia. change (2 ^ 6) with 64. done.
Qed.

(** Continuation bytes up to the last. *)
Lemma print_cont_more m l attr s : 0 <= m < 64 -> 1 < utf8_rem s -> 0 <= utf8_cp s < 0x4000000 ->
  print_bytes (128 + m :: l) attr s = print_bytes l attr (set_utf8 (utf8_cp s * 64 + m) (utf8_rem s - 1) (sent [128 + m] s)).
Proof.
  intros Hm Hr Hc. apply print_bytes_cons. assert (Eq : utf8_rem (sent [128 + m] s) = utf8_rem s /\ utf8_cp (sent [128 + m] s) = utf8_cp s)
    by (unfold sent; by destruct (con_hook s)). destruct Eq as [Eq1 Eq2].
  rewrite output_cont by (rewrite ?Eq1, ?Eq2; lia). rewrite Eq1, Eq2. by replace (utf8_rem s - 1 =? 0) with false by lia.
Qed.

(** What printing changes of the console besides the screen. *)
Definition printed (l : list Z) (s s' : con_st) : Prop :=
  use_fb s' = use_fb s /\ con_fb s' = con_fb s /\ utf8_rem s' = 0 /\ con_hook s' = con_hook s /\
  con_serial s' = con_serial s ++ (if con_hook s then l else []).


Lemma printed_intro l s s' : same_dev (sent l s) (set_utf8 (utf8_cp (sent l s)) (utf8_rem (sent l s)) s') -> utf8_rem s' = 0 -> printed l s s'.
Proof.
  unfold same_dev, sent, printed. intros (H1 & H2 & _ & _ & H5 & H6) Hr. destruct (con_hook s) eqn:Eh;
    cbn [set_utf8 use_fb con_fb utf8_rem utf8_cp con_hook con_serial set_serial] in *; rewrite ?app_nil_r; split_and!; congruence.
Qed.

Lemma printed_sent l k cp rem s s' : printed k (set_utf8 cp rem (sent l s)) s' -> printed (l ++ k) s s'.
Proof.
  unfold sent, printed. intros (H1 & H2 & H3 & H4 & H5). destruct (con_hook s) eqn:Eh;
    cbn [set_utf8 use_fb con_fb utf8_rem utf8_cp con_hook con_serial set_serial] in *; rewrite ?app_nil_r in *;
    rewrite ?Eh in *; rewrite ?app_nil_r, ?app_assoc in *; split_and!; congruence.
Qed.

Lemma sent_fields l s : utf8_rem (sent l s) = utf8_rem s /\ utf8_cp (sent l s) = utf8_cp s /\ get_cols (sent l s) = get_cols s /\ get_rows (sent l s) = get_rows s.
Proof. unfold sent. by destruct (con_hook s). Qed.

Lemma print_cont_last m l attr s t : con_shows s t -> 0 <= m < 64 -> utf8_rem s = 1 -> 0 <= utf8_cp s < 0x4000000 -> 0x80 <= utf8_cp s * 64 + m ->
  exists s', print_bytes (128 + m :: l) attr s = print_bytes l attr s' /\ printed [128 + m] s s' /\
    con_shows s' (tty_char (get_cols s) (get_rows s) attr t (utf8_cp s * 64 + m)).
Proof.
  intros Hs Hm Hr Hc H80. destruct (sent_fields [128 + m] s) as (Eq1 & Eq2 & Eq3 & Eq4).
  set (s1 := set_utf8 (utf8_cp s * 64 + m) 0 (sent [128 + m] s)).
  destruct (render_codepoint_ok s1 t (utf8_cp s * 64 + m) attr) as (s' & E & Hsame & Hshow); [by apply set_utf8_shows, sent_shows|lia|lia|].
  exists s'. split; [|split].
  - apply print_bytes_cons. rewrite output_cont by (rewrite ?Eq1, ?Eq2; lia). rewrite Eq1, Eq2, Hr. exact E.
  - destruct Hsame as (H1 & H2 & _ & H4 & H5 & H6). by apply printed_intro.
  - rewrite <- Eq3, <- Eq4. exact Hshow.
Qed.

(** The continuation bytes [ms] of a sequence. *)
Definition conts (cp : Z) (ms : list Z) : Z := fold_left (fun c m => c * 64 + m) ms cp.

Lemma conts_ge cp ms : 0 <= cp -> Forall (fun m => 0 <= m < 64) ms -> cp <= conts cp ms.
Proof.
  intros Hc Hms. revert cp Hc. induction Hms as [|m ms Hm _ IH]; intros cp Hc; [done|].
  change (conts cp (m :: ms)) with (conts (cp * 64 + m) ms). specialize (IH (cp * 64 + m)). lia.
Qed.

Lemma print_conts m ms l attr s t : con_shows s t -> Forall (fun m => 0 <= m < 64) (m :: ms) ->
  utf8_rem s = Z.of_nat (length (m :: ms)) -> 0 <= utf8_cp s -> 0x80 <= conts (utf8_cp s) (m :: ms) <= 0x10FFFF ->
  exists s', print_bytes (map (Z.add 128) (m :: ms) ++ l) attr s = print_bytes l attr s' /\ printed (map (Z.add 128) (m :: ms)) s s' /\
    con_shows s' (tty_char (get_cols s) (get_rows s) attr t (conts (utf8_cp s) (m :: ms))).
Proof.
  revert m s. induction ms as [|m' ms IH]; intros m s Hs Hms Hr Hc Hv; pose proof Hms as [Hm Hms']%Forall_cons.
  - cbn [conts fold_left map app length] in *. apply print_cont_last; (done || lia).
  - change (conts (utf8_cp s) (m :: m' :: ms)) with (conts (utf8_cp s * 64 + m) (m' :: ms)) in *.
    pose proof (conts_ge (utf8_cp s * 64 + m) (m' :: ms) ltac:(lia) Hms'). cbn [length] in Hr.
    change (map (Z.add 128) (m :: m' :: ms) ++ l) with (128 + m :: map (Z.add 128) (m' :: ms) ++ l).
    rewrite print_cont_more by lia. destruct (sent_fields [128 + m] s) as (_ & _ & Eq3 & Eq4).
    destruct (IH m' (set_utf8 (utf8_cp s * 64 + m) (utf8_rem s - 1) (sent [128 + m] s))) as (s' & E & Hp & Hshow);
      [by apply set_utf8_shows, sent_shows|done|cbn [utf8_rem set_utf8 length]; lia|cbn [utf8_cp set_utf8]; lia|done|].
    exists s'. split; [exact E|]. split; [exact (printed_sent [_] _ _ _ _ _ Hp)|]. rewrite <- Eq3, <- Eq4. exact Hshow.
Qed.

Lemma print_cp_ok s t cp attr l : con_shows s t -> utf8_rem s = 0 -> scalar cp -> cp <> 8 ->
  exists s', print_bytes (utf8_encode cp ++ l) attr s = print_bytes l attr s' /\ printed (utf8_encode cp) s s' /\
    con_shows s' (tty_char (get_cols s) (get_rows s) attr t cp).
Proof.
  intros Hs Hr Hcp H8. pose proof Hcp as [Hrange _]. rewrite utf8_encode_arith by done.
  assert (Hmulti : forall b n k m ms, in_u8 b -> 0x80 <= b -> decode_lead b = Some (n, k) -> length (m :: ms) = n -> 0 <= k ->
    Forall (fun m => 0 <= m < 64) (m :: ms) -> 0x80 <= cp -> conts k (m :: ms) = cp ->
    exists s', print_bytes ((b :: map (Z.add 128) (m :: ms)) ++ l) attr s = print_bytes l attr s' /\ printed (b :: map (Z.add 128) (m :: ms)) s s' /\
      con_shows s' (tty_char (get_cols s) (get_rows s) attr t cp)).
  { intros b n k m ms Hb Hge E Hn Hk Hms H80 Hv. cbn [app].
    rewrite (print_bytes_cons b _ attr s (set_utf8 k (Z.of_nat n) (sent [b] s)))
      by (apply output_lead; [done..|by rewrite (proj1 (sent_fields [b] s))]).
    destruct (sent_fields [b] s) as (_ & _ & Eq3 & Eq4).
    destruct (print_conts m ms l attr (set_utf8 k (Z.of_nat n) (sent [b] s)) t) as (s' & E' & Hp & Hshow);
      [by apply set_utf8_shows, sent_shows|done|by rewrite Hn|done|cbn [utf8_cp set_utf8]; lia|].
    exists s'. split; [exact E'|]. split; [exact (printed_sent [_] _ _ _ _ _ Hp)|]. cbn [utf8_cp set_utf8] in Hshow.
    rewrite Hv in Hshow. rewrite <- Eq3, <- Eq4. exact Hshow. }
  destruct (Z.ltb_spec cp 0x80); [|destruct (Z.ltb_spec cp 0x800); [|destruct (Z.ltb_spec cp 0x10000)]].
  - destruct (sent_fields [cp] s) as (Eq1 & Eq2 & Eq3 & Eq4).
    destruct (render_codepoint_ok (sent [cp] s) t cp attr) as (s' & E & Hsame & Hshow); [by apply sent_shows|lia|lia|].
    exists s'. split; [|split; [|by rewrite <- Eq3, <- Eq4]].
    + apply print_bytes_cons. unfold output_utf8_byte. mrun. rewrite Eq1, Hr. cbn [Z.gtb Z.compare].
      unfold utf8_start. replace (cp <? 0x80) with true by lia. unfold render_codepoint in E.
      rewrite u8_id in E by word. by replace (cp <? 256) with true in E by lia.
    + destruct Hsame as (H1 & H2 & _ & H4 & H5 & H6). apply printed_intro; [done|congruence].
  - apply (Hmulti (192 + cp / 64) 1%nat (cp / 64) (cp mod 64) []); try done; try (apply decode_lead2); try (repeat constructor); try word. cbn. zlia.
  - apply (Hmulti (224 + cp / 4096) 2%nat (cp / 4096) (cp / 64 mod 64) [cp mod 64]); try done; try (apply decode_lead3); try (repeat constructor); try word.
    cbn. zlia.
  - apply (Hmulti (240 + cp / 262144) 3%nat (cp / 262144) (cp / 4096 mod 64) [cp / 64 mod 64; cp mod 64]); try done; try (apply decode_lead4); try (repeat constructor); try word.
    cbn. zlia.
Qed.

(** ** Printing, clearing, moving the cursor *)

Lemma encode_nonzero cp : scalar cp -> cp <> 0 -> Forall (fun b => b <> 0) (utf8_encode cp).
Proof.
  intros Hs H0. pose proof Hs as [Hr _]. rewrite utf8_encode_arith by done.
  repeat bcase; repeat constructor; zlia.
Qed.

Lemma cstr_id l : Forall (fun b => b <> 0) l -> cstr l = l.
Proof. induction 1 as [|b l Hb _ IH]; cbn [cstr]; [done|]. destruct (Z.eqb_spec b 0); [done|]. by rewrite IH. Qed.

(** Code points a console can show. *)
Definition printable (cp : Z) : Prop := scalar cp /\ cp <> 0 /\ cp <> 8.

Lemma cstr_text cps : Forall printable cps -> cstr (text cps) = text cps.
Proof.
  intros H. apply cstr_id. unfold text. induction H as [|cp cps (Hs & H0 & _) _ IH]; cbn [map concat]; [constructor|].
  apply Forall_app. split; [by apply encode_nonzero|done].
Qed.

Lemma printed_refl s : utf8_rem s = 0 -> printed [] s s.
Proof. intros Hr. unfold printed. split_and!; try done. destruct (con_hook s); by rewrite app_nil_r. Qed.

Lemma printed_trans l k s s1 s2 : printed l s s1 -> printed k s1 s2 -> printed (l ++ k) s s2.
Proof.
  unfold printed. intros (H1 & H2 & H3 & H4 & H5) (G1 & G2 & G3 & G4 & G5). rewrite H4, H5 in *. split_and!; try congruence.
  rewrite G5. destruct (con_hook s); [by rewrite app_assoc|by rewrite !app_nil_r].
Qed.

Lemma print_text_ok cps attr s t : con_shows s t -> utf8_rem s = 0 -> Forall printable cps ->
  exists s', print_bytes (text cps) attr s = Some (tt, s') /\ printed (text cps) s s' /\
    con_shows s' (tty_print (get_cols s) (get_rows s) attr cps t).
Proof.
  intros Hs Hr H. revert s t Hs Hr. induction H as [|cp cps (Hcp & _ & H8) _ IH]; intros s t Hs Hr.
  - exists s. split; [done|]. split; [by apply printed_refl|done].
  - change (text (cp :: cps)) with (utf8_encode cp ++ text cps).
    destruct (print_cp_ok s t cp attr (text cps) Hs Hr Hcp H8) as (s1 & E1 & Hp1 & Hs1). rewrite E1.
    pose proof Hp1 as (Hu & Hf & Hr1 & _). destruct (same_geometry s s1 Hu Hf) as [Ec Er].
    destruct (IH s1 _ Hs1 Hr1) as (s2 & E2 & Hp2 & Hs2). exists s2. split; [exact E2|]. split; [by apply (printed_trans _ _ _ s1)|].
    rewrite Ec, Er in Hs2. exact Hs2.
Qed.

(** The cursor, moved to a cell of the screen. *)
Lemma move_cursor_ok s t col row : con_shows s t -> 0 <= col < get_cols s -> 0 <= row < get_rows s ->
  exists s', (if use_fb s then modify (set_cur col row) else vga_set_cursor (get_offset col row)) s = Some (tt, s') /\
    same_dev s s' /\ con_shows s' (Tty (tty_cells t) (row * get_cols s + col)).
Proof.
  intros [(H1 & H2 & H3 & _) Hs] Hc Hr. destruct (use_fb s) eqn:Hu.
  - eexists. split; [reflexivity|]. split; [done|]. split; [|cbn [use_fb set_cur]; rewrite Hu; tauto].
    change (get_cols (set_cur col row s)) with (get_cols s). change (get_rows (set_cur col row s)) with (get_rows s).
    unfold tty_wf. cbn [tty_cells tty_cur]. nia.
  - unfold get_cols, get_rows in *. rewrite Hu in *. unfold get_offset, VGA_COLS, VGA_ROWS in *.
    rewrite vga_set_cursor_ok by lia. eexists. split; [reflexivity|]. split; [done|]. unfold con_shows, get_cols, get_rows.
    cbn [use_fb set_crtc con_mem con_crtc]. rewrite Hu. unfold tty_wf, VGA_COLS, VGA_ROWS. cbn [tty_cells tty_cur]. split; [lia|tauto].
Qed.

(** C25 (screen.c, [kprint_at_attr], [output_utf8_byte], [print_char_fb],
    [print_char_vga]): on a console that shows a grid of characters, printing
    the UTF-8 encoding of any text without NUL and backspace, at the cursor
    or from a cell of the screen on, returns without an access outside the
    screen memory and shows the grid that wrapping and scrolling the code
    points gives, whichever of the two display modes is used; the serial hook
    gets every byte once, and no half sequence stays behind. *)
Theorem kprint_correct (cps : list Z) (col row attr : Z) (s : con_st) (t : tty) :
  con_shows s t -> utf8_rem s = 0 -> Forall printable cps -> col < get_cols s -> row < get_rows s ->
  let start := if (col >=? 0) && (row >=? 0) then Tty (tty_cells t) (row * get_cols s + col) else t in
  exists s', kprint_at_attr (text cps) col row attr s = Some (tt, s') /\ printed (text cps) s s' /\
    con_shows s' (tty_print (get_cols s) (get_rows s) attr cps start).
Proof.
  intros Hs Hr Hcps Hc Hrow start. unfold kprint_at_attr. mrun. rewrite cstr_text by done. subst start.
  destruct ((col >=? 0) && (row >=? 0)) eqn:Eb; cbn [when]; mrun; [|by apply print_text_ok].
  destruct (move_cursor_ok s t col row Hs ltac:(lia) ltac:(lia)) as (s1 & E1 & (H1 & H2 & _ & H4 & H5 & H6) & Hs1).
  rewrite (bind_eq _ _ _ _ _ E1). destruct (same_geometry s s1 H1 H2) as [Ec Er].
  destruct (print_text_ok cps attr s1 _ Hs1 ltac:(congruence) Hcps) as (s' & E & Hp & Hshow). exists s'. split; [exact E|].
  rewrite Ec, Er in Hshow. split; [|exact Hshow]. unfold printed in *. rewrite <- H5, <- H6, <- H1, <- H2. exact Hp.
Qed.

(** ** Clearing *)

(** The console's memory is mapped, whatever it holds. *)
Definition con_mapped (s : con_st) : Prop :=
  if use_fb s then fb_ok (con_fb s) /\ mapped (con_mem s) (fi_addr (con_fb s)) (fb_size (con_fb s))
  else mapped (con_mem s) VIDEO_ADDRESS 4000.

Lemma clear_row_ok fb n x y : fb_ok fb -> 0 <= x -> x + Z.of_nat n <= fi_width fb -> 0 <= y < fi_height fb ->
  paints fb (clear_row n x y fb) (fun X Y => (Y =? y) && (x <=? X) && (X <? x + Z.of_nat n)) (fun _ _ => 0).
Proof.
  intros Hfb. revert x. induction n as [|n IH]; intros x Hx Hn Hy; [apply paints_none; lia|].
  apply (paints_seq fb (put_pixel fb x y 0) (clear_row n (x + 1) y fb) (fun X Y => (X =? x) && (Y =? y))
           (fun X Y => (Y =? y) && (x + 1 <=? X) && (X <? x + 1 + Z.of_nat n))).
  - by apply (paints_pixel fb Hfb x y (fun _ _ => 0)); unfold on_fb; lia.
  - apply IH; lia.
  - lia.
Qed.

Lemma clear_rows_ok fb n y : fb_ok fb -> 0 <= y -> y + Z.of_nat n <= fi_height fb ->
  paints fb (clear_rows n y fb) (fun X Y => (0 <=? X) && (X <? fi_width fb) && (y <=? Y) && (Y <? y + Z.of_nat n)) (fun _ _ => 0).
Proof.
  intros Hfb. pose proof Hfb as (_ & Hw & _). revert y. induction n as [|n IH]; intros y Hy Hn; [apply paints_none; lia|].
  apply (paints_seq fb (clear_row (Z.to_nat (fi_width fb)) 0 y fb) (clear_rows n (y + 1) fb)
           (fun X Y => (Y =? y) && (0 <=? X) && (X <? 0 + Z.of_nat (Z.to_nat (fi_width fb))))
           (fun X Y => (0 <=? X) && (X <? fi_width fb) && (y + 1 <=? Y) && (Y <? y + 1 + Z.of_nat n))).
  - apply clear_row_ok; (done || lia).
  - apply IH; lia.
  - lia.
Qed.

Lemma clear_cells_ok n i m : 0 <= i -> i + Z.of_nat n <= 2000 -> mapped m VIDEO_ADDRESS 4000 ->
  exists m', clear_cells n i m = Some m' /\ mapped m' VIDEO_ADDRESS 4000 /\
    forall b, m' !! b = if (VIDEO_ADDRESS + 2 * i <=? b) && (b <? VIDEO_ADDRESS + 2 * (i + Z.of_nat n))
                        then Some (if (b - VIDEO_ADDRESS) mod 2 =? 0 then 32 else WHITE_ON_BLACK) else m !! b.
Proof.
  revert i m. induction n as [|n IH]; intros i m Hi Hn Hm; cbn [clear_cells].
  - exists m. split; [done|]. split; [done|]. intros b. by destruct (_ && _) eqn:E; [lia|].
  - destruct (mem_store_ok [32; WHITE_ON_BLACK] (VIDEO_ADDRESS + i * 2) m) as (m1 & E1 & H1);
      [apply (mapped_sub _ _ _ _ _ Hm); cbn [length]; lia|]. rewrite E1. cbn [mbind option_bind].
    destruct (IH (i + 1) m1) as (m2 & E2 & Hm2 & H2); [lia|lia|by apply (mem_store_mapped _ _ _ _ _ _ E1)|].
    exists m2. split; [exact E2|]. split; [done|]. intros b. rewrite H2, H1. cbn [length].
    destruct (_ && _) eqn:Ea.
    + by replace ((VIDEO_ADDRESS + 2 * i <=? b) && (b <? VIDEO_ADDRESS + 2 * (i + Z.of_nat (S n)))) with true by lia.
    + destruct ((VIDEO_ADDRESS + i * 2 <=? b) && (b <? VIDEO_ADDRESS + i * 2 + Z.of_nat 2)) eqn:Eb.
      * replace ((VIDEO_ADDRESS + 2 * i <=? b) && (b <? VIDEO_ADDRESS + 2 * (i + Z.of_nat (S n)))) with true by lia.
        assert (b = VIDEO_ADDRESS + i * 2 \/ b = VIDEO_ADDRESS + i * 2 + 1) as [->| ->] by lia.
        -- replace (Z.to_nat _) with 0%nat by lia. by replace ((VIDEO_ADDRESS + i * 2 - VIDEO_ADDRESS) mod 2) with 0 by zlia.
        -- replace (Z.to_nat _) with 1%nat by lia. by replace ((VIDEO_ADDRESS + i * 2 + 1 - VIDEO_ADDRESS) mod 2) with 1 by zlia.
      * by replace ((VIDEO_ADDRESS + 2 * i <=? b) && (b <? VIDEO_ADDRESS + 2 * (i + Z.of_nat (S n)))) with false by lia.
Qed.

(** What [clear_screen] leaves: spaces in text mode, black pixels otherwise. *)
Definition cleared (s : con_st) : tty :=
  Tty (replicate (Z.to_nat (get_rows s * get_cols s)) (if use_fb s then None else Some (32, WHITE_ON_BLACK))) 0.

(** [clear_screen] of screen.c: on a console with mapped memory, whatever it
    holds, the screen shows the empty grid afterwards. *)
Theorem clear_screen_correct s : con_mapped s ->
  exists s', clear_screen s = Some (tt, s') /\ same_dev s s' /\ con_shows s' (cleared s).
Proof.
  unfold con_mapped, clear_screen, cleared, con_shows. intros H. mrun. destruct (use_fb s) eqn:Hu; cbn [negb].
  - destruct H as [Hfb Hm]. pose proof (rows_pos _ Hfb) as (Hc & Hr & _).
    pose proof Hfb as (_ & Hw & Hh & _).
    destruct (clear_rows_ok (con_fb s) (Z.to_nat (fi_height (con_fb s))) 0 Hfb ltac:(lia) ltac:(lia) (con_mem s) Hm) as (m' & E & Hm' & Hpx).
    rewrite (bind_eq _ _ _ _ _ (on_mem_ok _ _ _ E)). eexists. split; [reflexivity|]. split; [done|].
    change (get_cols (set_cur 0 0 (set_mem m' s))) with (get_cols s). change (get_rows (set_cur 0 0 (set_mem m' s))) with (get_rows s).
    cbn [use_fb set_cur set_mem con_fb con_mem cur_col cur_row tty_cur tty_cells]. rewrite Hu.
    unfold get_cols, get_rows. rewrite Hu. change (fi_width (con_fb s) / CFONT_W) with (cols (con_fb s)).
    change (fi_height (con_fb s) / CFONT_H) with (rows (con_fb s)). split; [|split_and!; try (done || lia)].
    + unfold tty_wf. cbn [tty_cells tty_cur]. rewrite length_replicate. nia.
    + intros col row c Hcol Hrow Ec X Y HXY. apply lookup_replicate in Ec as [-> _].
      pose proof (in_cell_on _ col row X Y Hcol Hrow HXY) as Hon. rewrite Hpx by done. destruct Hon.
      by replace ((0 <=? X) && (X <? fi_width (con_fb s)) && (0 <=? Y) && (Y <? 0 + Z.of_nat (Z.to_nat (fi_height (con_fb s))))) with true by lia.
  - destruct (clear_cells_ok 2000 0 (con_mem s) ltac:(lia) ltac:(lia) H) as (m' & E & Hm' & Hb).
    change (Z.to_nat (VGA_COLS * VGA_ROWS)) with 2000%nat. rewrite (bind_eq _ _ _ _ _ (on_mem_ok _ _ _ E)).
    change 0 with (2 * 0) at 1. rewrite vga_set_cursor_ok by lia. eexists. split; [reflexivity|]. split; [done|].
    unfold get_cols, get_rows. cbn [use_fb set_crtc set_mem con_mem con_crtc tty_cells tty_cur]. rewrite Hu.
    split; [|split; [exact Hm'|split; [|done]]].
    + unfold tty_wf, VGA_COLS, VGA_ROWS. cbn [tty_cells tty_cur]. rewrite length_replicate. lia.
    + intros i c Ec. apply lookup_replicate in Ec as [-> Hi]. change (Z.to_nat (VGA_ROWS * VGA_COLS)) with 2000%nat in Hi.
      rewrite !Hb.
      replace ((VIDEO_ADDRESS + 2 * 0 <=? VIDEO_ADDRESS + 2 * Z.of_nat i) && (VIDEO_ADDRESS + 2 * Z.of_nat i <? VIDEO_ADDRESS + 2 * (0 + Z.of_nat 2000))) with true by lia.
      replace ((VIDEO_ADDRESS + 2 * 0 <=? VIDEO_ADDRESS + 2 * Z.of_nat i + 1) && (VIDEO_ADDRESS + 2 * Z.of_nat i + 1 <? VIDEO_ADDRESS + 2 * (0 + Z.of_nat 2000))) with true by lia.
      replace ((VIDEO_ADDRESS + 2 * Z.of_nat i - VIDEO_ADDRESS) mod 2) with 0 by zlia.
      by replace ((VIDEO_ADDRESS + 2 * Z.of_nat i + 1 - VIDEO_ADDRESS) mod 2) with 1 by zlia.
Qed.

(** ** The console as an instance of the interface

    [get_cursor_offset] and [set_cursor_offset] count 80 columns whatever the
    width of the frame buffer, so the laws hold on screens of 80 columns only. *)
#[export] Instance console_ops : ConsoleOps con_st := {
  con_get_cursor := get_cursor_offset;
  con_set_cursor := set_cursor_offset;
  con_kprint := kprint;
}.

Definition shows80 (cols rows : Z) (s : con_st) (t : tty) : Prop :=
  con_shows s t /\ get_cols s = cols /\ get_rows s = rows /\ cols = 80 /\ utf8_rem s = 0.

Lemma get_cursor_offset_ok cols rows s t : shows80 cols rows s t -> get_cursor_offset s = Some (2 * tty_cur t, s).
Proof.
  intros ([(_ & _ & Hl & Hk) Hs] & Hc & Hr & H80 & _). unfold get_cursor_offset. mrun. destruct (use_fb s) eqn:Hu; cbn [negb].
  - destruct Hs as (_ & _ & _ & _ & _ & Hcur). unfold MAX_COLS. rewrite Hcur, Hc, H80. reflexivity.
  - destruct Hs as (_ & _ & Hcur). unfold vga_get_cursor. mrun. rewrite Hcur, vga_cursor_value; [done|].
    unfold get_cols, get_rows in *. rewrite Hu in *. unfold VGA_COLS, VGA_ROWS in *. lia.
Qed.

Lemma set_cursor_offset_ok cols rows s t k : shows80 cols rows s t -> 0 <= k < rows * cols ->
  exists s', set_cursor_offset (2 * k) s = Some (tt, s') /\ shows80 cols rows s' (Tty (tty_cells t) k).
Proof.
  intros (Hs & Hc & Hr & H80 & Hrem) Hk. subst cols. rewrite H80 in Hk.
  destruct (move_cursor_ok s t (k mod 80) (k / 80) Hs) as (s' & E & Hsame & Hshow); [zlia|zlia|].
  exists s'. pose proof Hsame as (Hu & Hf & _ & Hre & _). destruct (same_geometry s s' Hu Hf) as [Ec Er]. split.
  - unfold set_cursor_offset. mrun. unfold get_offset, VGA_COLS in E. replace (2 * (k / 80 * 80 + k mod 80)) with (2 * k) in E by zlia.
    destruct (use_fb s); cbn [negb]; [|exact E]. rewrite (Z.mul_comm 2), Z.quot_mul by done. unfold MAX_COLS.
    rewrite Z.rem_mod_nonneg, Z.quot_div_nonneg by lia. exact E.
  - rewrite H80 in Hshow. replace (k / 80 * 80 + k mod 80) with k in Hshow by zlia. split; [exact Hshow|]. split_and!; congruence.
Qed.

Lemma text_ascii l : Forall (fun c => 0 < c < 128 /\ c <> 8) l -> text l = l /\ Forall printable l.
Proof.
  induction 1 as [|c l [Hc H8] _ [IH1 IH2]]; [done|]. split.
  - change (text (c :: l)) with (utf8_encode c ++ text l). rewrite IH1.
    rewrite utf8_encode_arith by (unfold scalar; lia). by replace (c <? 0x80) with true by lia.
  - constructor; [|done]. unfold printable, scalar. lia.
Qed.

Lemma kprint_ok cols rows s t l : shows80 cols rows s t -> Forall (fun c => 0 < c < 128 /\ c <> 8) l ->
  exists s', kprint l s = Some (tt, s') /\ shows80 cols rows s' (tty_print cols rows 0x0F l t).
Proof.
  intros (Hs & Hc & Hr & H80 & Hrem) Hl. destruct (text_ascii l Hl) as [Et Hp].
  destruct (print_text_ok l WHITE_ON_BLACK s t Hs Hrem Hp) as (s' & E & Hpr & Hshow). exists s'.
  pose proof (cstr_text l Hp) as Ecs. rewrite Et in *. subst cols rows. split.
  - unfold kprint, kprint_at_attr. mrun. rewrite Ecs. exact E.
  - destruct Hpr as (Hu & Hf & Hre & _). destruct (same_geometry s s' Hu Hf) as [Ec Er].
    split; [exact Hshow|]. split_and!; congruence.
Qed.

#[export] Instance console_laws : ConsoleLaws con_st := {
  con_view := shows80;
  con_view_wf := ltac:(intros cols rows s t ([H _] & <- & <- & _); exact H);
  con_get_ok := get_cursor_offset_ok;
  con_set_ok := set_cursor_offset_ok;
  con_kprint_ok := kprint_ok;
}.

(** ** Examples *)

Module ConDemo.
(** [n] zero bytes from [a] on. *)
Fixpoint zeros (n : nat) (a : Z) : gmap Z Z := match n with O => ∅ | S n => <[a := 0]> (zeros n (a + 1)) end.

Lemma zeros_mapped n a : mapped (zeros n a) a (Z.of_nat n).
Proof.
  revert a. induction n as [|n IH]; intros a b Hb; [lia|]. cbn [zeros].
  destruct (decide (b = a)) as [->|]; [by rewrite lookup_insert_eq|]. rewrite lookup_insert_ne by done. apply IH. lia.
Qed.

(** Text mode, and a frame buffer of 2 x 2 characters. *)
Definition vga : con_st := Con false (FbInfo 0 0 0 0 0 0) 0 0 0 0 true [] 0 (zeros 4000 VIDEO_ADDRESS).
Definition fb16 : fb_info_t := FbInfo 0x1000 64 16 32 32 1.
Definition tiny : con_st := Con true fb16 0 0 0 0 true [] 0 (zeros 2048 0x1000).

Definition after {A} (r : option (A * con_st)) : con_st := match r with Some (_, s) => s | None => vga end.
Definition vga0 : con_st := after (clear_screen vga).
Definition tiny0 : con_st := after (clear_screen tiny).

Lemma after_ok (s : con_st) (m : M con_st unit) (P : con_st -> Prop) : (exists s', m s = Some (tt, s') /\ P s') -> P (after (m s)).
Proof. by intros (s' & -> & H). Qed.

Lemma vga0_shows : con_shows vga0 (cleared vga) /\ same_dev vga vga0.
Proof. apply (after_ok vga clear_screen (fun s => con_shows s _ /\ same_dev vga s)). destruct (clear_screen_correct vga) as (s' & E & H1 & H2); [apply (zeros_mapped 4000)|]. eauto. Qed.
Lemma tiny0_shows : con_shows tiny0 (cleared tiny) /\ same_dev tiny tiny0.
Proof.
  apply (after_ok tiny clear_screen (fun s => con_shows s _ /\ same_dev tiny s)). destruct (clear_screen_correct tiny) as (s' & E & H1 & H2); [|eauto].
  split; [|apply (zeros_mapped 2048)]. unfold fb_ok, fb_size, fi_bypp. cbn [fi_bpp fi_width fi_height fi_pitch fi_addr con_fb tiny fb16]. change (32 / 8) with 4. lia.
Qed.

(** A full frame buffer scrolls: of "ab", a newline and "cd" the second line
    is left, on the first row. *)
Example tiny_scroll_ex : tty_print 2 2 15 [97; 98; 10; 99; 100] (cleared tiny) = Tty [Some (99, 15); Some (100, 15); None; None] 2.
Proof. by vm_compute. Qed.

(** kprint_backspace: after "ab" the cursor goes back two cells and "a" is
    erased; with the cursor in the first two cells the bytes before the text
    memory are written. *)
Example backspace_ex :
  let s := after (kprint_backspace (after (kprint [97; 98] vga0))) in
  (con_crtc s, con_mem s !! VIDEO_ADDRESS, con_mem s !! (VIDEO_ADDRESS + 2)) = (0, Some 32, Some 98) /\
  kprint_backspace (after (kprint [97] vga0)) = None.
Proof. by vm_compute. Qed.

(** The box-drawing bytes 0xC9 0xCD 0xBB are taken for the start of UTF-8
    sequences: one question mark is printed. *)
Example box_ex :
  let s := after (kprint [0xC9; 0xCD; 0xBB] vga0) in (con_crtc s, con_mem s !! VIDEO_ADDRESS) = (1, Some 63).
Proof. by vm_compute. Qed.

(** On a screen of 128 columns setting the cursor to where it is moves it. *)
Example cursor_128_ex :
  let s := Con true (FbInfo 0x1000 4096 1024 768 32 1) 100 0 0 0 false [] 0 ∅ in
  let s' := after ((o ← get_cursor_offset; set_cursor_offset o) s) in (cur_col s', cur_row s') = (20, 1).
Proof. by vm_compute. Qed.
End ConDemo.

(** "Ж!" and a newline at the second row of the small frame buffer. *)
Lemma kprint_correct_witness : exists s',
  kprint_at_attr (text [0x416; 33; 10]) 0 1 0x0F ConDemo.tiny0 = Some (tt, s') /\
  con_shows s' (tty_print 2 2 0x0F [0x416; 33; 10] (Tty (tty_cells (cleared ConDemo.tiny)) 2)).
Proof.
  destruct ConDemo.tiny0_shows as [Hs (Hu & Hf & _ & Hr & _)]. destruct (same_geometry _ _ Hu Hf) as [Ec Er].
  change (get_cols ConDemo.tiny) with 2 in Ec. change (get_rows ConDemo.tiny) with 2 in Er.
  destruct (kprint_correct [0x416; 33; 10] 0 1 0x0F _ _ Hs Hr) as (s' & E & _ & Hshow).
  - repeat constructor; unfold scalar; lia.
  - rewrite Ec. lia.
  - rewrite Er. lia.
  - exists s'. split; [exact E|]. rewrite Ec, Er in Hshow. exact Hshow.
Defined.
