(* ===== verification/Input.v ===== *)
(** * Keyboard, mouse and line input

    Models drivers/keyboard.c, drivers/mouse.c and the report parsing of
    drivers/usbhid.c. The interrupt handlers get the byte their port delivers
    as an argument and push to the event queue of Ring; [getline] gets the
    scancodes it sees in [cur_scancode] between two [hlt], and echoes to a
    console of the class [ConsoleOps]. [None] is a read or write outside an
    array, or a wait that has not ended. *)

From S2P Require Import Prelude Ring Tty.

(** ** drivers/keyboard.c: scancodes *)

Definition KEY_UP : Z := 0x60.
Definition KEY_DOWN : Z := 0x61.
Definition KEY_LEFT : Z := 0x62.
Definition KEY_RIGHT : Z := 0x63.

Definition keymap : list Z :=
  [0; 27; 49; 50; 51; 52; 53; 54; 55; 56; 57; 48; 45; 61; 8;
   9; 113; 119; 101; 114; 116; 121; 117; 105; 111; 112; 91; 93; 10;
   0; 97; 115; 100; 102; 103; 104; 106; 107; 108; 59; 39; 96;
   0; 92; 122; 120; 99; 118; 98; 110; 109; 44; 46; 47; 0;
   42; 0; 32] ++ replicate 70 0.
Definition keymap_shift : list Z :=
  [0; 27; 33; 64; 35; 36; 37; 94; 38; 42; 40; 41; 95; 43; 8;
   9; 81; 87; 69; 82; 84; 89; 85; 73; 79; 80; 123; 125; 10;
   0; 65; 83; 68; 70; 71; 72; 74; 75; 76; 58; 34; 126;
   0; 124; 90; 88; 67; 86; 66; 78; 77; 60; 62; 63; 0;
   42; 0; 32] ++ replicate 70 0.
(** [shift ? keymap_shift[sc] : keymap[sc]] *)
Definition key_char (shift sc : Z) : option Z := (if negb (shift =? 0) then keymap_shift else keymap) !! Z.to_nat sc.

Record kbd_st := Kbd { cur_scancode : Z; shift_pressed : Z; e0_prefix : Z; ev_shift : Z; kbd_q : evq_t }.
Definition kbd_bss : kbd_st := Kbd 0 0 0 0 evq_bss.
Definition set_cur_scancode (sc : Z) (k : kbd_st) : kbd_st := Kbd sc (shift_pressed k) (e0_prefix k) (ev_shift k) (kbd_q k).
Definition set_shift (b : Z) (k : kbd_st) : kbd_st := Kbd (cur_scancode k) b (e0_prefix k) (ev_shift k) (kbd_q k).
Definition set_e0 (b : Z) (k : kbd_st) : kbd_st := Kbd (cur_scancode k) (shift_pressed k) b (ev_shift k) (kbd_q k).
Definition set_ev_shift (b : Z) (k : kbd_st) : kbd_st := Kbd (cur_scancode k) (shift_pressed k) (e0_prefix k) b (kbd_q k).
Definition set_kbd_q (q : evq_t) (k : kbd_st) : kbd_st := Kbd (cur_scancode k) (shift_pressed k) (e0_prefix k) (ev_shift k) q.

Definition get_cur_scancode (k : kbd_st) : Z * kbd_st := (cur_scancode k, set_cur_scancode 0 k).

Definition is_break (sc : Z) : bool := negb (Z.land sc 0x80 =? 0).
Definition is_shift (sc : Z) : bool := (sc =? 0x2A) || (sc =? 0x36).

Definition keyboard_receive_key (halt : bool) (k : kbd_st) : option (Z * kbd_st) :=
  let sc := cur_scancode k in
  if halt && (sc =? 0) then None
  else if is_break sc then
    let k := if is_shift (Z.land sc 0x7F) then set_shift 0 k else k in
    Some (0, set_cur_scancode 0 k)
  else if is_shift sc then Some (0, set_cur_scancode 0 (set_shift 1 k))
  else c ← key_char (shift_pressed k) sc; Some (c, set_cur_scancode 0 k).

Definition kbd_push_event (sc : Z) (k : kbd_st) : option kbd_st :=
  if is_break sc then
    let rel := Z.land sc 0x7F in
    let k := if is_shift rel then set_ev_shift 0 k else k in
    Some (set_kbd_q (event_push_key rel false 0 (kbd_q k)) k)
  else
    let k := if is_shift sc then set_ev_shift 1 k else k in
    ch ← (if sc <? 128 then key_char (ev_shift k) sc else Some 0);
    Some (set_kbd_q (event_push_key sc true ch (kbd_q k)) k).

(** [sc]: what port 0x60 holds. *)
Definition kb_callback (sc : Z) (k : kbd_st) : option kbd_st :=
  if sc =? 0xE0 then Some (set_e0 1 k)
  else if negb (e0_prefix k =? 0) then
    let k := set_e0 0 k in
    if negb (is_break sc) then
      let k := if sc =? 0x48 then set_cur_scancode KEY_UP k
               else if sc =? 0x50 then set_cur_scancode KEY_DOWN k
               else if sc =? 0x4B then set_cur_scancode KEY_LEFT k
               else if sc =? 0x4D then set_cur_scancode KEY_RIGHT k
               else k in
      if (cur_scancode k >=? KEY_UP) && (cur_scancode k <=? KEY_RIGHT)
      then Some (set_kbd_q (event_push_key (cur_scancode k) true 0 (kbd_q k)) k)
      else Some k
    else Some k
  else kbd_push_event sc (set_cur_scancode sc k).

Definition kbd_inject_scancode (sc : Z) (k : kbd_st) : option kbd_st :=
  let k := if cur_scancode k =? 0 then set_cur_scancode sc k else k in
  if (sc >=? KEY_UP) && (sc <=? KEY_RIGHT) then Some (set_kbd_q (event_push_key sc true 0 (kbd_q k)) k)
  else kbd_push_event sc k.

(** ** drivers/keyboard.c: [getline] *)

(** The line being edited: the memory from [to] on, [len], [cursor_pos], and
    the shift state the function keeps in [shift_pressed]. *)
Record line_st := Line { ln_buf : list Z; ln_len : Z; ln_pos : Z; ln_shift : Z }.
Definition ln_set (b : list Z) (len pos : Z) (g : line_st) : line_st := Line b len pos (ln_shift g).

Definition arr_get (b : list Z) (i : Z) : option Z := b !! Z.to_nat i.
Definition arr_put (b : list Z) (i v : Z) : option (list Z) := if (Z.to_nat i <? length b)%nat then Some (<[Z.to_nat i := v]> b) else None.
Fixpoint shift_left (n : nat) (i : Z) (b : list Z) : option (list Z) :=
  match n with O => Some b | S n => v ← arr_get b (i + 1); b ← arr_put b i v; shift_left n (i + 1) b end.
Fixpoint shift_right (n : nat) (i : Z) (b : list Z) : option (list Z) :=
  match n with O => Some b | S n => v ← arr_get b (i - 1); b ← arr_put b i v; shift_right n (i - 1) b end.

Section Getline.
Context {St : Type} `{ConsoleOps St}.

(** The loop that prints [start[i .. len)] a character at a time. *)
Fixpoint redraw (n : nat) (i : Z) (b : list Z) : M St unit :=
  match n with
  | O => mret tt
  | S n => c ← lift_option (arr_get b i); con_kprint (cstr [c; 0]);; redraw n (i + 1) b
  end.

Definition line_left (echo : bool) (base : Z) (g : line_st) : M St line_st :=
  if ln_pos g >? 0 then
    when echo (con_set_cursor (base + (ln_pos g - 1) * 2));;
    mret (ln_set (ln_buf g) (ln_len g) (ln_pos g - 1) g)
  else mret g.
Definition line_right (echo : bool) (base : Z) (g : line_st) : M St line_st :=
  if ln_pos g <? ln_len g then
    when echo (con_set_cursor (base + (ln_pos g + 1) * 2));;
    mret (ln_set (ln_buf g) (ln_len g) (ln_pos g + 1) g)
  else mret g.
Definition line_backspace (echo : bool) (base : Z) (g : line_st) : M St line_st :=
  if ln_pos g >? 0 then
    let pos := ln_pos g - 1 in
    let len := ln_len g - 1 in
    b ← lift_option (shift_left (Z.to_nat (len - pos)) pos (ln_buf g));
    when echo
      (let save := base + pos * 2 in
       con_set_cursor save;; redraw (Z.to_nat (len - pos)) pos b;; con_kprint [32];; con_set_cursor save);;
    mret (ln_set b len pos g)
  else mret g.
Definition line_insert (echo : bool) (base max_len c : Z) (g : line_st) : M St line_st :=
  if ln_len g <? u32 (max_len - 1) then
    b ← lift_option (shift_right (Z.to_nat (ln_len g - ln_pos g)) (ln_len g) (ln_buf g));
    b ← lift_option (arr_put b (ln_pos g) c);
    let pos := ln_pos g + 1 in
    let len := ln_len g + 1 in
    when echo
      (let save := base + pos * 2 in
       con_set_cursor (base + (pos - 1) * 2);; redraw (Z.to_nat (len - (pos - 1))) (pos - 1) b;; con_set_cursor save);;
    mret (ln_set b len pos g)
  else mret g.

(** One scancode: go on, or the line is complete. *)
Definition line_key (echo : bool) (base max_len sc : Z) (g : line_st) : M St (line_st + line_st) :=
  if is_break sc then mret (inl (if is_shift (Z.land sc 0x7F) then Line (ln_buf g) (ln_len g) (ln_pos g) 0 else g))
  else if is_shift sc then mret (inl (Line (ln_buf g) (ln_len g) (ln_pos g) 1))
  else if sc =? KEY_LEFT then g ← line_left echo base g; mret (inl g)
  else if sc =? KEY_RIGHT then g ← line_right echo base g; mret (inl g)
  else
    c ← lift_option (key_char (ln_shift g) sc);
    if c =? 0 then mret (inl g)
    else if c =? 10 then mret (inr g)
    else if c =? 8 then g ← line_backspace echo base g; mret (inl g)
    else g ← line_insert echo base max_len c g; mret (inl g).

(** The scancodes seen, in order; the ones left when the line is complete.
    Without an Enter the function still waits. *)
Fixpoint getline_loop (echo : bool) (base max_len : Z) (scs : list Z) (g : line_st) : M St (line_st * list Z) :=
  match scs with
  | [] => diverge
  | sc :: scs =>
    r ← line_key echo base max_len sc g;
    match r with inl g => getline_loop echo base max_len scs g | inr g => mret (g, scs) end
  end.

(** [to], [max_len] and the shift state; the memory at [to] afterwards, the
    shift state and the scancodes left. *)
Definition getline (to : list Z) (echo : bool) (max_len shift : Z) (scs : list Z) : M St (list Z * Z * list Z) :=
  base ← (if echo then con_get_cursor else mret 0);
  '(g, scs) ← getline_loop echo base max_len scs (Line to 0 0 shift);
  b ← lift_option (arr_put (ln_buf g) (ln_len g) 0);
  mret (b, ln_shift g, scs).
End Getline.

(** ** drivers/mouse.c *)

Record mouse_st := Mouse {
  state_x : Z;
  state_y : Z;
  state_dx : Z;
  state_dy : Z;
  state_buttons : Z;
  state_present : bool;
  bound_w : Z;
  bound_h : Z;
  mouse_pkt : list Z;
  pkt_pos : Z;
  mouse_q : evq_t;
}.
Definition mouse_bss : mouse_st := Mouse 0 0 0 0 0 false 1920 1080 [0; 0; 0] 0 evq_bss.

(** The moves of the position with its clamping. *)
Definition clamp_x (w x : Z) : Z := let x := if x <? 0 then 0 else x in if x >=? w then w - 1 else x.

(** A complete packet. *)
Definition mouse_decode (m : mouse_st) : mouse_st :=
  let flags := default 0 (mouse_pkt m !! 0%nat) in
  let dx := default 0 (mouse_pkt m !! 1%nat) - (if negb (Z.land flags 0x10 =? 0) then 256 else 0) in
  let dy := default 0 (mouse_pkt m !! 2%nat) - (if negb (Z.land flags 0x20 =? 0) then 256 else 0) in
  let dx := if negb (Z.land flags 0x40 =? 0) then 0 else dx in
  let dy := if negb (Z.land flags 0x80 =? 0) then 0 else dy in
  let b := Z.land flags 0x07 in
  let x := clamp_x (bound_w m) (s32 (state_x m + dx)) in
  let y := clamp_x (bound_h m) (s32 (state_y m - dy)) in
  Mouse x y (s32 (state_dx m + dx)) (s32 (state_dy m - dy)) b (state_present m) (bound_w m) (bound_h m)
    (mouse_pkt m) (pkt_pos m) (event_push_mouse x y b (mouse_q m)).

(** [status], [byte]: what ports 0x64 and 0x60 hold. *)
Definition mouse_irq_handler (status byte : Z) (m : mouse_st) : option mouse_st :=
  if Z.land status 1 =? 0 then Some m
  else if (pkt_pos m =? 0) && (Z.land byte 0x08 =? 0) then Some m
  else
    pkt ← arr_put (mouse_pkt m) (pkt_pos m) byte;
    let pos := pkt_pos m + 1 in
    let m' pos := Mouse (state_x m) (state_y m) (state_dx m) (state_dy m) (state_buttons m) (state_present m)
                    (bound_w m) (bound_h m) pkt pos (mouse_q m) in
    Some (if pos <? 3 then m' pos else mouse_decode (m' 0)).

Definition mouse_set_bounds (w h : Z) (m : mouse_st) : mouse_st :=
  Mouse (state_x m) (state_y m) (state_dx m) (state_dy m) (state_buttons m) (state_present m)
    (if w >? 0 then w else 1) (if h >? 0 then h else 1) (mouse_pkt m) (pkt_pos m) (mouse_q m).
Definition mouse_consume_delta (m : mouse_st) : (Z * Z) * mouse_st :=
  (state_dx m, state_dy m,
   Mouse (state_x m) (state_y m) 0 0 (state_buttons m) (state_present m) (bound_w m) (bound_h m) (mouse_pkt m) (pkt_pos m) (mouse_q m)).
Definition mouse_inject_delta (dx dy buttons : Z) (m : mouse_st) : mouse_st :=
  let x := clamp_x (bound_w m) (s32 (state_x m + dx)) in
  let y := clamp_x (bound_h m) (s32 (state_y m - dy)) in
  Mouse x y (state_dx m) (state_dy m) buttons true (bound_w m) (bound_h m) (mouse_pkt m) (pkt_pos m)
    (event_push_mouse x y buttons (mouse_q m)).

(** The 8042 controller is the state [D] with what reading and writing a port
    does to it. *)
Section Ps2.
Context {D : Type} (port_in : Z -> M D Z) (port_out : Z -> Z -> M D unit).

(** [for (i = 0; i < 100000; i++)]: poll the status port until [test] holds. *)
Fixpoint ps2_wait (n : nat) (test : Z -> bool) : M D bool :=
  match n with
  | O => mret false
  | S n => v ← port_in 0x64; if test v then mret true else ps2_wait n test
  end.
Definition ps2_wait_write : M D bool := ps2_wait (Z.to_nat 100000) (fun v => Z.land v 2 =? 0).
Definition ps2_wait_read : M D bool := ps2_wait (Z.to_nat 100000) (fun v => negb (Z.land v 1 =? 0)).
Fixpoint ps2_flush (n : nat) : M D unit :=
  match n with
  | O => mret tt
  | S n => v ← port_in 0x64; if Z.land v 1 =? 0 then mret tt else port_in 0x60;; ps2_flush n
  end.

(** Each step of the negotiation returns 0 when it fails. *)
Definition mouse_send (cmd : Z) : M D bool :=
  ok ← ps2_wait_write;
  if negb ok then mret false
  else port_out 0x64 0xD4;; ok ← ps2_wait_write; if negb ok then mret false else port_out 0x60 cmd;; mret true.
Definition mouse_recv : M D (option Z) :=
  ok ← ps2_wait_read; if negb ok then mret None else v ← port_in 0x60; mret (Some v).
Definition write_port (port v : Z) : M D bool :=
  ok ← ps2_wait_write; if negb ok then mret false else port_out port v;; mret true.
Definition expect (v : Z) : M D bool := r ← mouse_recv; mret (match r with Some w => w =? v | None => false end).
Definition and_then (m k : M D bool) : M D bool := ok ← m; if negb ok then mret false else k.

Definition mouse_init_polled : M D bool :=
  ps2_flush 16;;
  and_then (write_port 0x64 0xA8)
  (and_then (write_port 0x64 0x20)
  (ok ← ps2_wait_read;
   if negb ok then mret false
   else
     cb ← port_in 0x60;
     let cb := Z.land (Z.lor cb 0x02) (255 - 0x20) in
     and_then (write_port 0x64 0x60)
     (and_then (write_port 0x60 cb)
     (and_then (mouse_send 0xFF)
     (and_then (expect 0xFA)
     (and_then (expect 0xAA)
     (id ← mouse_recv;
      match id with
      | None => mret false
      | Some _ => and_then (mouse_send 0xF4) (expect 0xFA)
      end))))))).

(** The result, with the handler registered when it is true. *)
Definition mouse_init (m : mouse_st) : M D (bool * mouse_st) :=
  ok ← mouse_init_polled;
  mret (ok, if ok : bool then Mouse (state_x m) (state_y m) (state_dx m) (state_dy m) (state_buttons m) true (bound_w m) (bound_h m)
                                (mouse_pkt m) (pkt_pos m) (mouse_q m) else m).
End Ps2.

(** ** drivers/usbhid.c: reports and descriptors *)

Definition hid_to_ps2 : list Z :=
  [0; 0; 0; 0;
   0x1E; 0x30; 0x2E; 0x20; 0x12; 0x21; 0x22; 0x23; 0x17; 0x24; 0x25; 0x26;
   0x32; 0x31; 0x18; 0x19; 0x10; 0x13; 0x1F; 0x14; 0x16; 0x2F; 0x11; 0x2D; 0x15; 0x2C;
   0x02; 0x03; 0x04; 0x05; 0x06; 0x07; 0x08; 0x09; 0x0A; 0x0B;
   0x1C; 0x01; 0x0E; 0x0F; 0x39; 0x0C; 0x0D; 0x1A; 0x1B; 0x2B; 0; 0x27; 0x28; 0x29; 0x33; 0x34; 0x35]
  ++ replicate 22 0 ++ [KEY_RIGHT; KEY_LEFT; KEY_DOWN; KEY_UP] ++ replicate 45 0.
Definition hid_scancode (k : Z) : option Z := if k <? 0x80 then hid_to_ps2 !! Z.to_nat k else Some 0.

Definition no_key (k : Z) : bool := (k =? 0) || (k =? 1).
(** Whether [k] is among the six keys of a report. *)
Definition in_report (r : list Z) (k : Z) : bool := existsb (Z.eqb k) (slice r 2 6).

(** The loop over the keys of the current report: the first new key that has a
    scancode. *)
Fixpoint press_new (ks : list Z) (prev : list Z) (k : kbd_st) : option kbd_st :=
  match ks with
  | [] => Some k
  | key :: ks =>
    if no_key key || in_report prev key then press_new ks prev k
    else
      sc ← hid_scancode key;
      if negb (sc =? 0) then kbd_inject_scancode sc k else press_new ks prev k
  end.
(** The loop over the keys of the previous report. *)
Fixpoint release_old (ks : list Z) (curr : list Z) (k : kbd_st) : option kbd_st :=
  match ks with
  | [] => Some k
  | key :: ks =>
    if no_key key || in_report curr key then release_old ks curr k
    else
      sc ← hid_scancode key;
      k ← (if negb (sc =? 0) && (sc <? 0x60) then kbd_inject_scancode (Z.lor sc 0x80) k else Some k);
      release_old ks curr k
  end.
Definition has_shift (r : list Z) : bool := negb (Z.land (default 0 (r !! 0%nat)) 0x22 =? 0).
(** [prev], [curr]: reports of 8 bytes. The device's [prev] afterwards. *)
Definition process_kbd_report (prev curr : list Z) (k : kbd_st) : option (list Z * kbd_st) :=
  k ← (if negb (has_shift prev) && has_shift curr then kbd_inject_scancode 0x2A k else Some k);
  k ← (if has_shift prev && negb (has_shift curr) then kbd_inject_scancode 0xAA k else Some k);
  k ← press_new (slice curr 2 6) prev k;
  k ← release_old (slice prev 2 6) curr k;
  Some (curr, k).

(** [rpt]: the bytes of the buffer, [len]: the length of the device's reports. *)
Definition process_mouse_report (rpt : list Z) (len : Z) (m : mouse_st) : option mouse_st :=
  if len <? 3 then Some m
  else
    btns ← arr_get rpt 0;
    dx ← arr_get rpt 1;
    dy ← arr_get rpt 2;
    Some (mouse_inject_delta (s8 dx) (s8 dy) (Z.land btns 0x07) m).

(** The endpoint found: [iface_num], [ep_addr], [ep_maxpkt], [ep_interval] and
    whether it is a mouse. *)
Record hid_ep := HidEp { he_iface : Z; he_addr : Z; he_maxpkt : Z; he_interval : Z; he_mouse : bool }.

(** [mem]: the bytes from [buf] on, as far as memory goes. The loop moves on
    by at least a byte, so [len] rounds are enough. *)
Fixpoint find_ep_loop (fuel : nat) (mem : list Z) (p len : Z) (found_hid : bool) (cur_iface cur_proto : Z) : option (option hid_ep) :=
  if p >=? len then Some None
  else if p + 2 >? len then Some None
  else match fuel with
  | O => None
  | S fuel =>
    dlen ← arr_get mem p;
    dtype ← arr_get mem (p + 1);
    if dlen =? 0 then Some None
    else if dtype =? 4 then
      iface ← arr_get mem (p + 2);
      cls ← arr_get mem (p + 5);
      sub ← arr_get mem (p + 6);
      proto ← arr_get mem (p + 7);
      find_ep_loop fuel mem (p + dlen) len ((cls =? 3) && (sub =? 1)) iface proto
    else if (dtype =? 5) && found_hid then
      addr ← arr_get mem (p + 2);
      attrs ← arr_get mem (p + 3);
      if negb (Z.land addr 0x80 =? 0) && (Z.land attrs 0x03 =? 0x03) then
        lo ← arr_get mem (p + 4);
        hi ← arr_get mem (p + 5);
        interval ← arr_get mem (p + 6);
        Some (Some (HidEp cur_iface addr (Z.land (lo + 256 * hi) 0x7FF) interval (cur_proto =? 2)))
      else find_ep_loop fuel mem (p + dlen) len found_hid cur_iface cur_proto
    else find_ep_loop fuel mem (p + dlen) len found_hid cur_iface cur_proto
  end.
Definition find_hid_boot_ep (mem : list Z) (len : Z) : option (option hid_ep) := find_ep_loop (Z.to_nat len) mem 0 len false 0 0.

Fixpoint log2_loop (n : nat) (v log2v : Z) : Z :=
  match n with O => log2v | S n => if v >? 1 then log2_loop n (Z.shiftr v 1) (u8 (log2v + 1)) else log2v end.
Definition ep_interval_field (speed bInterval : Z) : Z :=
  if speed >=? 3 then (if bInterval >? 0 then bInterval - 1 else 0)
  else if bInterval =? 0 then 7
  else log2_loop 16 (u16 (bInterval * 8)) 0.

(** ** The drivers together

    Keyboard and mouse push to one queue ([evq] of ui/event.c), of which both
    records keep a copy, and a USB keyboard keeps its last report. *)

Record input_st := Input { in_kbd : kbd_st; in_mouse : mouse_st; in_prev : list Z }.
Definition set_mouse_q (q : evq_t) (m : mouse_st) : mouse_st :=
  Mouse (state_x m) (state_y m) (state_dx m) (state_dy m) (state_buttons m) (state_present m) (bound_w m) (bound_h m)
    (mouse_pkt m) (pkt_pos m) q.
Definition with_kbd (k : kbd_st) (s : input_st) : input_st := Input k (set_mouse_q (kbd_q k) (in_mouse s)) (in_prev s).
Definition with_mouse (m : mouse_st) (s : input_st) : input_st := Input (set_kbd_q (mouse_q m) (in_kbd s)) m (in_prev s).
(** After [event_init] and [mouse_set_bounds]. *)
Definition input_init (w h : Z) : input_st :=
  with_kbd (set_kbd_q (event_init evq_bss) kbd_bss) (Input kbd_bss (mouse_set_bounds w h mouse_bss) (replicate 8 0)).

(** Interrupts, USB reports and what the kernel reads. *)
Inductive input_op :=
| IKey (byte : Z)
| IMouse (status byte : Z)
| IUsbKbd (report : list Z)
| IUsbMouse (report : list Z) (len : Z)
| IPoll
| IScancode
| IDelta.

Definition input_step (op : input_op) (s : input_st) : option input_st :=
  match op with
  | IKey byte => k ← kb_callback byte (in_kbd s); Some (with_kbd k s)
  | IMouse status byte => m ← mouse_irq_handler status byte (in_mouse s); Some (with_mouse m s)
  | IUsbKbd report =>
    '(prev, k) ← process_kbd_report (in_prev s) report (in_kbd s);
    let s := with_kbd k s in Some (Input (in_kbd s) (in_mouse s) prev)
  | IUsbMouse report len => m ← process_mouse_report report len (in_mouse s); Some (with_mouse m s)
  | IPoll => Some (with_kbd (set_kbd_q (event_poll (kbd_q (in_kbd s))).2 (in_kbd s)) s)
  | IScancode => Some (with_kbd (get_cur_scancode (in_kbd s)).2 s)
  | IDelta => Some (with_mouse (mouse_consume_delta (in_mouse s)).2 s)
  end.
Fixpoint input_run (ops : list input_op) (s : input_st) : option input_st :=
  match ops with [] => Some s | op :: ops => s ← input_step op s; input_run ops s end.
