(* ===== verification/InputProofs.v ===== *)
(** * Correctness of the input drivers

    [getline] against an editor on the text before and behind the cursor, on
    any console that keeps the laws of [ConsoleLaws]; the byte streams of the
    keyboard and the mouse against the actions they encode; and an invariant of
    all states interrupts can lead to. *)

From S2P Require Import Prelude Ring Utf8 Font Tty Console ConsoleProofs Input.

(** ** Arrays *)

Lemma arr_get_mid {X Z' : list Z} (c : Z) : arr_get (X ++ c :: Z') (Z.of_nat (length X)) = Some c.
Proof. unfold arr_get. rewrite Nat2Z.id. by rewrite list_lookup_middle. Qed.

Lemma arr_put_mid (X Z' : list Z) (c v : Z) : arr_put (X ++ c :: Z') (Z.of_nat (length X)) v = Some (X ++ v :: Z').
Proof.
  unfold arr_put. rewrite Nat2Z.id, length_app. cbn [length]. replace (length X <? length X + S (length Z'))%nat with true by (symmetry; apply Nat.ltb_lt; lia).
  by rewrite insert_app_r_alt, Nat.sub_diag by lia.
Qed.

Lemma shift_left_ok Y X c Z' : exists z, shift_left (length Y) (Z.of_nat (length X)) (X ++ c :: Y ++ Z') = Some (X ++ Y ++ z :: Z').
Proof.
  revert X c. induction Y as [|y Y IH]; intros X c; cbn [length shift_left app]; [by exists c|].
  assert (E : arr_get (X ++ c :: y :: Y ++ Z') (Z.of_nat (length X) + 1) = Some y).
  { replace (Z.of_nat (length X) + 1) with (Z.of_nat (length (X ++ [c]))) by (rewrite length_app; cbn; lia).
    rewrite (cons_middle c X), app_assoc. apply arr_get_mid. }
  rewrite E. cbn [mbind option_bind]. rewrite arr_put_mid. cbn [mbind option_bind].
  destruct (IH (X ++ [y]) y) as [z Ez]. exists z. rewrite length_app, Nat2Z.inj_add in Ez. cbn [length] in Ez.
  rewrite <- !app_assoc in Ez. exact Ez.
Qed.

Lemma shift_right_ok Y X z Z' : exists c,
  shift_right (length Y) (Z.of_nat (length X + length Y)) (X ++ Y ++ z :: Z') = Some (X ++ c :: Y ++ Z').
Proof.
  revert z Z'. induction Y as [|y Y IH] using rev_ind; intros z Z'; [by exists z|].
  replace (length (Y ++ [y])) with (S (length Y)) by (rewrite length_app; cbn; lia). cbn [shift_right]. rewrite <- !app_assoc. cbn [app].
  replace (Z.of_nat (length X + S (length Y)) - 1) with (Z.of_nat (length (X ++ Y))) by (rewrite length_app; lia).
  rewrite app_assoc, arr_get_mid. cbn [mbind option_bind].
  replace (Z.of_nat (length X + S (length Y))) with (Z.of_nat (length ((X ++ Y) ++ [y]))) by (rewrite !length_app; cbn; lia).
  rewrite (cons_middle y), app_assoc, arr_put_mid. cbn [mbind option_bind].
  replace (Z.of_nat (length (X ++ Y))) with (Z.of_nat (length X + length Y)) by (rewrite length_app; lia).
  destruct (IH y (y :: Z')) as [c Ec]. exists c. rewrite <- !app_assoc in *. exact Ec.
Qed.

(** ** Scancodes *)

(** What a key types. *)
Definition line_char (c : Z) : Prop := 0 < c < 128 /\ c <> 8 /\ c <> 10.

Lemma keymaps_ok : length keymap = 128%nat /\ length keymap_shift = 128%nat /\ Forall (fun c => 0 <= c < 128) (keymap ++ keymap_shift).
Proof. split; [done|]. split; [done|]. eapply bool_decide_eq_true_1. by vm_compute. Qed.

Lemma is_break_ge sc : in_u8 sc -> is_break sc = (128 <=? sc).
Proof. intros H. apply eqb_prop. revert sc H. apply (byte_forall (fun sc => Bool.eqb (is_break sc) (128 <=? sc))). by vm_compute. Qed.

Lemma key_char_ok shift sc : in_u8 sc -> is_break sc = false -> exists c, key_char shift sc = Some c /\ 0 <= c < 128.
Proof.
  intros Hsc Hb. rewrite is_break_ge in Hb by done. destruct keymaps_ok as (L1 & L2 & HF). apply Forall_app in HF as [F1 F2].
  unfold key_char. assert (Hi : (Z.to_nat sc < 128)%nat) by (destruct (Z.leb_spec 128 sc); word).
  destruct (negb (shift =? 0)).
  - destruct (lookup_lt_is_Some_2 keymap_shift (Z.to_nat sc) ltac:(lia)) as [c E]. exists c. split; [done|]. by eapply Forall_lookup_1 in F2.
  - destruct (lookup_lt_is_Some_2 keymap (Z.to_nat sc) ltac:(lia)) as [c E]. exists c. split; [done|]. by eapply Forall_lookup_1 in F1.
Qed.

(** ** The line editor *)

(** The text before the cursor, the last character first, and behind it. *)
Definition text_of (l r : list Z) : list Z := rev l ++ r.
Definition edit (max_len c : Z) (l r : list Z) : list Z * list Z :=
  if c =? 8 then (tail l, r)
  else if Z.of_nat (length l + length r) <? max_len - 1 then (c :: l, r) else (l, r).

(** The specification: the line typed, the shift state and the keys behind the
    Enter; [None] if there is no Enter. *)
Fixpoint edit_keys (max_len : Z) (scs : list Z) (shift : Z) (l r : list Z) : option (list Z * list Z * Z * list Z) :=
  match scs with
  | [] => None
  | sc :: scs =>
    if is_break sc then edit_keys max_len scs (if is_shift (Z.land sc 0x7F) then 0 else shift) l r
    else if is_shift sc then edit_keys max_len scs 1 l r
    else if sc =? KEY_LEFT then match l with [] => edit_keys max_len scs shift [] r | c :: l => edit_keys max_len scs shift l (c :: r) end
    else if sc =? KEY_RIGHT then match r with [] => edit_keys max_len scs shift l [] | c :: r => edit_keys max_len scs shift (c :: l) r end
    else
      c ← key_char shift sc;
      if c =? 0 then edit_keys max_len scs shift l r
      else if c =? 10 then Some (l, r, shift, scs)
      else let '(l, r) := edit max_len c l r in edit_keys max_len scs shift l r
  end.

Section Getline.
Context {St : Type} `{ConsoleLaws St}.
(** The screen when the line starts, its cursor, and the buffer. *)
Context (cols rows base max_len : Z) (cells0 : list cell) (buf0 : list Z).
Context (Hbase : 0 <= base) (Hmax : 1 <= max_len < 2147483648) (Hroom : base + max_len <= rows * cols)
  (Hbuf : max_len <= Z.of_nat (length buf0)).

(** The screen shows [X] from [base] on, the cursor is at [base + k], and the
    cells outside the line are as they were. *)
Definition line_shown (s : St) (X : list Z) (k : Z) : Prop :=
  exists t, con_view cols rows s t /\ tty_cur t = base + k /\
    (forall i c, X !! i = Some c -> tty_cells t !! (Z.to_nat base + i)%nat = Some (Some (c, 15))) /\
    (forall i, Z.of_nat i < base \/ base + max_len <= Z.of_nat i -> tty_cells t !! i = cells0 !! i).

Lemma line_shown_weaken s X Y k : line_shown s (X ++ Y) k -> line_shown s X k.
Proof.
  intros (t & Hv & Hc & Hx & Ho). exists t. split; [done|]. split; [done|]. split; [|done].
  intros i c Hi. apply Hx. by apply lookup_app_l_Some.
Qed.

Lemma line_set s X k k' : line_shown s X k -> 0 <= k' < max_len ->
  exists s', con_set_cursor (base * 2 + k' * 2) s = Some (tt, s') /\ line_shown s' X k'.
Proof.
  intros (t & Hv & Hc & Hx & Ho) Hk. destruct (con_set_ok cols rows s t (base + k') Hv ltac:(lia)) as (s' & E & Hv').
  exists s'. replace (base * 2 + k' * 2) with (2 * (base + k')) by lia. split; [exact E|]. by exists (Tty (tty_cells t) (base + k')).
Qed.

Lemma line_print s X Y : line_shown s X (Z.of_nat (length X)) -> Forall line_char Y ->
  Z.of_nat (length X + length Y) < max_len ->
  exists s', con_kprint Y s = Some (tt, s') /\ line_shown s' (X ++ Y) (Z.of_nat (length X + length Y)).
Proof.
  intros (t & Hv & Hc & Hx & Ho) HY Hlen.
  destruct (con_kprint_ok cols rows s t Y Hv) as (s' & E & Hv'); [eapply Forall_impl; [exact HY|]; unfold line_char; intros ? ?; lia|].
  exists s'. split; [exact E|]. eexists. split; [exact Hv'|]. pose proof (con_view_wf _ _ _ _ Hv) as (_ & _ & Hl & _).
  rewrite tty_print_line; [|eapply Forall_impl; [exact HY|]; unfold line_char; intros ? ?; lia|lia|lia].
  cbn [tty_cur tty_cells]. split; [lia|]. rewrite Hc. split.
  - intros i c Hi. destruct (decide (i < length X)%nat).
    + rewrite list_lookup_inserts_lt by lia. apply Hx. by rewrite lookup_app_l in Hi.
    + rewrite lookup_app_r in Hi by lia. pose proof (lookup_lt_Some _ _ _ Hi).
      rewrite list_lookup_inserts by (rewrite ?length_fmap; lia). rewrite list_lookup_fmap.
      replace (Z.to_nat base + i - Z.to_nat (base + Z.of_nat (length X)))%nat with (i - length X)%nat by lia. by rewrite Hi.
  - intros i Hi. destruct Hi as [Hi|Hi].
    + rewrite list_lookup_inserts_lt by lia. apply Ho. by left.
    + rewrite list_lookup_inserts_ge by (rewrite length_fmap; lia). apply Ho. by right.
Qed.

Lemma cstr_char c : line_char c -> cstr [c; 0] = [c].
Proof. unfold line_char. intros Hc. cbn [cstr]. destruct (Z.eqb_spec c 0); [lia|done]. Qed.

Lemma redraw_ok Y : forall s X W P, line_shown s X (Z.of_nat (length X)) -> Forall line_char Y -> length P = length X ->
  Z.of_nat (length X + length Y) < max_len ->
  exists s', redraw (length Y) (Z.of_nat (length X)) (P ++ Y ++ W) s = Some (tt, s') /\
    line_shown s' (X ++ Y) (Z.of_nat (length X + length Y)).
Proof.
  induction Y as [|y Y IH]; intros s X W P Hs HY HP Hlen; cbn [length redraw].
  - exists s. rewrite app_nil_r, Nat.add_0_r. by split.
  - apply Forall_cons in HY as [Hy HY]. 
    assert (E0 : arr_get (P ++ (y :: Y) ++ W) (Z.of_nat (length X)) = Some y) by (rewrite <- HP; apply arr_get_mid).
    rewrite E0.
    rewrite (bind_eq (lift_option (Some y)) _ s y s eq_refl), cstr_char by done.
    cbn [length] in Hlen. destruct (line_print s X [y] Hs) as (s1 & E1 & Hs1); [by apply Forall_singleton|cbn; lia|].
    rewrite (bind_eq _ _ _ _ _ E1).
    destruct (IH s1 (X ++ [y]) W (P ++ [y])) as (s2 & E2 & Hs2); [by rewrite length_app|done|rewrite !length_app; cbn; lia|rewrite length_app; cbn; lia|].
    exists s2. rewrite length_app, <- !app_assoc in *. cbn [length app] in *.
    replace (Z.of_nat (length X + 1)) with (Z.of_nat (length X) + 1) in E2 by lia.
    split; [exact E2|]. by replace (length X + S (length Y))%nat with (length X + 1 + length Y)%nat by lia.
Qed.

(** Whether the function echoes; without echo the console stays as it was. *)
Context (echo : bool) (s0 : St).
Definition echoed (s : St) (X : list Z) (k : Z) : Prop := if echo then line_shown s X k else s = s0.

(** The state of the loop and the editor's. *)
Definition line_inv (g : line_st) (s : St) (l r : list Z) : Prop :=
  (exists rest, ln_buf g = text_of l r ++ rest /\ length (ln_buf g) = length buf0 /\
    drop (Z.to_nat max_len) (ln_buf g) = drop (Z.to_nat max_len) buf0) /\
  ln_len g = Z.of_nat (length l + length r) /\ ln_pos g = Z.of_nat (length l) /\
  Z.of_nat (length l + length r) < max_len /\ Forall line_char (text_of l r) /\ echoed s (text_of l r) (Z.of_nat (length l)).

(** Moving the cursor. *)
Lemma echo_set s X k k' : echoed s X k -> 0 <= k' < max_len ->
  exists s', when echo (con_set_cursor (base * 2 + k' * 2)) s = Some (tt, s') /\ echoed s' X k'.
Proof.
  unfold echoed. intros Hs Hk. destruct echo; cbn [when]; [by apply (line_set s X k)|]. by exists s.
Qed.

Lemma left_ok g s l r : line_inv g s l r ->
  exists g' s', line_left echo (base * 2) g s = Some (g', s') /\ ln_shift g' = ln_shift g /\
    match l with [] => line_inv g' s' [] r | c :: l => line_inv g' s' l (c :: r) end.
Proof.
  intros (Hb & Hlen & Hpos & Hm & HF & He). unfold line_left. rewrite Hpos. destruct l as [|c l]; cbn [length] in *.
  - exists g, s. done.
  - replace (Z.of_nat (S (length l)) >? 0) with true by lia. replace (Z.of_nat (S (length l)) - 1) with (Z.of_nat (length l)) by lia.
    destruct (echo_set s _ _ (Z.of_nat (length l)) He ltac:(lia)) as (s' & E & He'). rewrite (bind_eq _ _ _ _ _ E).
    eexists _, s'. split; [reflexivity|]. split; [done|].
    assert (Et : text_of (c :: l) r = text_of l (c :: r)) by (unfold text_of; cbn [rev]; by rewrite <- app_assoc).
    rewrite Et in *. unfold line_inv. cbn [ln_set ln_buf ln_len ln_pos length]. split_and!; (done || lia).
Qed.

Lemma right_ok g s l r : line_inv g s l r ->
  exists g' s', line_right echo (base * 2) g s = Some (g', s') /\ ln_shift g' = ln_shift g /\
    match r with [] => line_inv g' s' l [] | c :: r => line_inv g' s' (c :: l) r end.
Proof.
  intros (Hb & Hlen & Hpos & Hm & HF & He). unfold line_right. rewrite Hpos, Hlen. destruct r as [|c r]; cbn [length] in *.
  - replace (Z.of_nat (length l) <? Z.of_nat (length l + 0)) with false by lia. exists g, s. done.
  - replace (Z.of_nat (length l) <? Z.of_nat (length l + S (length r))) with true by lia.
    replace (Z.of_nat (length l) + 1) with (Z.of_nat (S (length l))) by lia.
    destruct (echo_set s _ _ (Z.of_nat (S (length l))) He ltac:(lia)) as (s' & E & He'). rewrite (bind_eq _ _ _ _ _ E).
    eexists _, s'. split; [reflexivity|]. split; [done|].
    assert (Et : text_of l (c :: r) = text_of (c :: l) r) by (unfold text_of; cbn [rev]; by rewrite <- app_assoc).
    rewrite Et in *. unfold line_inv. cbn [ln_set ln_buf ln_len ln_pos length]. split_and!; (done || lia).
Qed.

Lemma length_text l r : length (text_of l r) = (length l + length r)%nat.
Proof. unfold text_of. by rewrite length_app, length_rev. Qed.

(** The buffer after a change of the text that keeps its length. *)
Lemma drop_same (b b' : list Z) n k : drop n b = drop n b' -> (n <= k)%nat -> drop k b = drop k b'.
Proof. intros E Hk. replace k with (n + (k - n))%nat by lia. by rewrite <- !drop_drop, E. Qed.

Lemma back_ok g s l r : line_inv g s l r ->
  exists g' s', line_backspace echo (base * 2) g s = Some (g', s') /\ ln_shift g' = ln_shift g /\ line_inv g' s' (tail l) r.
Proof.
  intros ((rest & Eb & El & Ed) & Hlen & Hpos & Hm & HF & He). unfold line_backspace. rewrite Hpos, Hlen. destruct l as [|c l]; cbn [length tail] in *.
  { exists g, s. split; [done|]. split; [done|]. unfold line_inv. split_and!; try done. by exists rest. }
  replace (Z.of_nat (S (length l)) >? 0) with true by lia.
  replace (Z.of_nat (S (length l)) - 1) with (Z.of_nat (length l)) by lia.
  replace (Z.of_nat (S (length l) + length r) - 1) with (Z.of_nat (length l + length r)) by lia.
  replace (Z.to_nat (Z.of_nat (length l + length r) - Z.of_nat (length l))) with (length r) by lia.
  assert (Et : ln_buf g = rev l ++ c :: r ++ rest) by (rewrite Eb; unfold text_of; cbn [rev]; by rewrite <- !app_assoc).
  destruct (shift_left_ok r (rev l) c rest) as [z Ez]. rewrite length_rev in Ez. rewrite Et, Ez.
  rewrite (bind_eq (lift_option (Some _)) _ s _ s eq_refl).
  assert (HF' : Forall line_char (rev l) /\ Forall line_char r).
  { unfold text_of in HF. cbn [rev] in HF. rewrite !Forall_app in HF. tauto. }
  destruct HF' as [HFl HFr].
  assert (He' : exists s', when echo (con_set_cursor (base * 2 + Z.of_nat (length l) * 2);; redraw (length r) (Z.of_nat (length l)) (rev l ++ r ++ z :: rest);;
     con_kprint [32];; con_set_cursor (base * 2 + Z.of_nat (length l) * 2)) s = Some (tt, s') /\ echoed s' (text_of l r) (Z.of_nat (length l))).
  { unfold echoed in *. destruct echo; cbn [when]; [|by exists s].
    assert (He1 : line_shown s (rev l) (Z.of_nat (S (length l)))).
    { apply (line_shown_weaken s (rev l) (c :: r)). by replace (rev l ++ c :: r) with (text_of (c :: l) r) by (unfold text_of; cbn [rev]; by rewrite <- app_assoc). }
    destruct (line_set s (rev l) _ (Z.of_nat (length l)) He1 ltac:(lia)) as (s1 & E1 & Hs1). rewrite (bind_eq _ _ _ _ _ E1).
    destruct (redraw_ok r s1 (rev l) (z :: rest) (rev l)) as (s2 & E2 & Hs2); [by rewrite length_rev|done|done|rewrite length_rev; lia|].
    rewrite length_rev in E2, Hs2. rewrite (bind_eq _ _ _ _ _ E2).
    destruct (line_print s2 (rev l ++ r) [32]) as (s3 & E3 & Hs3);
      [by rewrite length_app, length_rev|apply Forall_singleton; unfold line_char; lia|rewrite length_app, length_rev; cbn; lia|].
    rewrite (bind_eq _ _ _ _ _ E3). apply line_shown_weaken in Hs3. by apply (line_set s3 _ _ (Z.of_nat (length l)) Hs3 ltac:(lia)). }
  destruct He' as (s' & E' & Hs'). rewrite (bind_eq _ _ _ _ _ E'). eexists _, s'. split; [reflexivity|]. split; [done|].
  assert (Hsame : length (rev l ++ r ++ z :: rest) = length (ln_buf g)) by (rewrite Et, !length_app; cbn [length]; rewrite length_app; lia).
  unfold line_inv. cbn [ln_set ln_buf ln_len ln_pos]. split_and!; try done; try lia.
  - exists (z :: rest). split; [unfold text_of; by rewrite <- app_assoc|]. split; [congruence|]. rewrite <- Ed, Et.
    apply (drop_same _ _ (S (length l + length r))); [|lia].
    replace (rev l ++ r ++ z :: rest) with ((rev l ++ r ++ [z]) ++ rest) by (by rewrite <- !app_assoc).
    replace (rev l ++ c :: r ++ rest) with ((rev l ++ c :: r) ++ rest) by (by rewrite <- !app_assoc).
    rewrite !drop_app_length'; [done|rewrite length_app, length_rev; cbn; lia|rewrite !length_app, length_rev; cbn; lia].
  - unfold text_of. apply Forall_app. by split.
Qed.

Lemma input_insert_ok g s l r c : line_inv g s l r -> line_char c ->
  exists g' s', line_insert echo (base * 2) max_len c g s = Some (g', s') /\ ln_shift g' = ln_shift g /\
    if Z.of_nat (length l + length r) <? max_len - 1 then line_inv g' s' (c :: l) r else line_inv g' s' l r.
Proof.
  intros ((rest & Eb & El & Ed) & Hlen & Hpos & Hm & HF & He) Hc. unfold line_insert. rewrite Hpos, Hlen, u32_id by word.
  destruct (Z.ltb_spec (Z.of_nat (length l + length r)) (max_len - 1)) as [Hlt|Hge]; cycle 1.
  { exists g, s. split; [done|]. split; [done|]. unfold line_inv. split_and!; try done. by exists rest. }
  assert (Hrest : exists z rest', rest = z :: rest').
  { destruct rest as [|z rest']; [|eauto]. exfalso. rewrite Eb, app_nil_r, length_text in El. lia. }
  destruct Hrest as (z & rest' & ->).
  replace (Z.to_nat (Z.of_nat (length l + length r) - Z.of_nat (length l))) with (length r) by lia.
  assert (Et : ln_buf g = rev l ++ r ++ z :: rest') by (rewrite Eb; unfold text_of; by rewrite <- app_assoc).
  destruct (shift_right_ok r (rev l) z rest') as [y Ey]. rewrite length_rev in Ey. rewrite Et, Ey.
  rewrite (bind_eq (lift_option (Some _)) _ s _ s eq_refl).
  pose proof (arr_put_mid (rev l) (r ++ rest') y c) as Ep. rewrite length_rev in Ep. rewrite Ep.
  rewrite (bind_eq (lift_option (Some _)) _ s _ s eq_refl).
  replace (Z.of_nat (length l) + 1) with (Z.of_nat (S (length l))) by lia.
  replace (Z.of_nat (S (length l)) - 1) with (Z.of_nat (length l)) by lia.
  replace (Z.of_nat (length l + length r) + 1) with (Z.of_nat (S (length l) + length r)) by lia.
  replace (Z.to_nat (Z.of_nat (S (length l) + length r) - Z.of_nat (length l))) with (S (length r)) by lia.
  assert (HF' : Forall line_char (rev l) /\ Forall line_char r) by (unfold text_of in HF; by apply Forall_app).
  destruct HF' as [HFl HFr].
  assert (Et' : text_of (c :: l) r = rev l ++ c :: r) by (unfold text_of; cbn [rev]; by rewrite <- app_assoc).
  assert (He' : exists s', when echo (con_set_cursor (base * 2 + Z.of_nat (length l) * 2);; redraw (S (length r)) (Z.of_nat (length l)) (rev l ++ c :: r ++ rest');;
     con_set_cursor (base * 2 + Z.of_nat (S (length l)) * 2)) s = Some (tt, s') /\ echoed s' (text_of (c :: l) r) (Z.of_nat (S (length l)))).
  { unfold echoed in *. destruct echo; cbn [when]; [|by exists s]. unfold text_of in He at 1. apply line_shown_weaken in He.
    destruct (line_set s (rev l) _ (Z.of_nat (length l)) He ltac:(lia)) as (s1 & E1 & Hs1). rewrite (bind_eq _ _ _ _ _ E1).
    destruct (redraw_ok (c :: r) s1 (rev l) rest' (rev l)) as (s2 & E2 & Hs2); [by rewrite length_rev|by constructor|done|rewrite length_rev; cbn; lia|].
    rewrite length_rev in E2, Hs2. rewrite (bind_eq _ _ _ _ _ E2). rewrite Et'.
    by apply (line_set s2 _ _ (Z.of_nat (S (length l))) Hs2 ltac:(lia)). }
  destruct He' as (s' & E' & Hs'). rewrite (bind_eq _ _ _ _ _ E'). eexists _, s'. split; [reflexivity|]. split; [done|].
  assert (Hsame : length (rev l ++ c :: r ++ rest') = length (ln_buf g)) by (rewrite Et, !length_app; cbn [length]; rewrite !length_app; cbn [length]; lia).
  unfold line_inv. cbn [ln_set ln_buf ln_len ln_pos length]. split_and!; try done; try lia.
  - exists rest'. split; [by rewrite Et', <- app_assoc|]. split; [congruence|]. rewrite <- Ed, Et.
    apply (drop_same _ _ (S (length l + length r))); [|lia].
    replace (rev l ++ r ++ z :: rest') with ((rev l ++ r ++ [z]) ++ rest') by (by rewrite <- !app_assoc).
    replace (rev l ++ c :: r ++ rest') with ((rev l ++ c :: r) ++ rest') by (by rewrite <- !app_assoc).
    rewrite !drop_app_length'; [done|rewrite !length_app, length_rev; cbn; lia|rewrite length_app, length_rev; cbn; lia].
  - rewrite Et'. apply Forall_app. split; [done|by constructor].
Qed.

Lemma loop_ok scs : forall g s l r l' r' sh rest, line_inv g s l r -> Forall in_u8 scs ->
  edit_keys max_len scs (ln_shift g) l r = Some (l', r', sh, rest) ->
  exists g' s', getline_loop echo (base * 2) max_len scs g s = Some ((g', rest), s') /\ line_inv g' s' l' r' /\ ln_shift g' = sh.
Proof.
  induction scs as [|sc scs IH]; intros g s l r l' r' sh rest Hg Hscs E; [done|]. apply Forall_cons in Hscs as [Hsc Hscs].
  cbn [edit_keys getline_loop] in *. unfold line_key.
  destruct (is_break sc) eqn:Hbr; [mrun; by destruct (is_shift (Z.land sc 0x7F)); apply (IH _ _ l r)|].
  destruct (is_shift sc); [mrun; by apply (IH _ _ l r)|].
  destruct (sc =? KEY_LEFT).
  { destruct (left_ok g s l r Hg) as (g1 & s1 & E1 & Esh & Hg1). rewrite bind_bind, (bind_eq _ _ _ _ _ E1). mrun. rewrite <- Esh in E.
    destruct l; by apply (IH g1 s1 _ _ _ _ _ _ Hg1). }
  destruct (sc =? KEY_RIGHT).
  { destruct (right_ok g s l r Hg) as (g1 & s1 & E1 & Esh & Hg1). rewrite bind_bind, (bind_eq _ _ _ _ _ E1). mrun. rewrite <- Esh in E.
    destruct r; by apply (IH g1 s1 _ _ _ _ _ _ Hg1). }
  destruct (key_char_ok (ln_shift g) sc Hsc Hbr) as (c & Ec & Hc). rewrite Ec in E |- *. cbn [mbind option_bind] in E.
  rewrite bind_bind, (bind_eq (lift_option (Some c)) _ s c s eq_refl).
  destruct (Z.eqb_spec c 0); [mrun; by apply (IH _ _ l r)|].
  destruct (Z.eqb_spec c 10); [mrun; injection E as <- <- <- <-; by exists g, s|]. unfold edit in E.
  destruct (Z.eqb_spec c 8).
  - destruct (back_ok g s l r Hg) as (g1 & s1 & E1 & Esh & Hg1). rewrite bind_bind, (bind_eq _ _ _ _ _ E1). mrun. rewrite <- Esh in E.
    by apply (IH g1 s1 _ _ _ _ _ _ Hg1).
  - destruct (input_insert_ok g s l r c Hg) as (g1 & s1 & E1 & Esh & Hg1); [unfold line_char; lia|].
    rewrite bind_bind, (bind_eq _ _ _ _ _ E1). mrun. rewrite <- Esh in E.
    destruct (Z.of_nat (length l + length r) <? max_len - 1); by apply (IH g1 s1 _ _ _ _ _ _ Hg1).
Qed.

(** What the caller gets. *)
Lemma input_finish_ok g s l r : line_inv g s l r ->
  exists b, arr_put (ln_buf g) (ln_len g) 0 = Some b /\ cstr b = text_of l r /\ Z.of_nat (length (text_of l r)) < max_len /\
    length b = length buf0 /\ drop (Z.to_nat max_len) b = drop (Z.to_nat max_len) buf0.
Proof.
  intros ((rest & Eb & El & Ed) & Hlen & _ & Hm & HF & _). destruct rest as [|z rest].
  { exfalso. rewrite Eb, app_nil_r, length_text in El. lia. }
  exists (text_of l r ++ 0 :: rest). rewrite Hlen, Eb, <- length_text, arr_put_mid. split; [done|]. split_and!.
  - clear -HF. induction HF as [|c X [Hc _] _ IH]; cbn [app cstr]; [done|]. destruct (Z.eqb_spec c 0); [lia|]. by rewrite IH.
  - by rewrite length_text.
  - rewrite <- El, Eb, !length_app. done.
  - rewrite <- Ed, Eb. apply (drop_same _ _ (S (length (text_of l r)))); [|rewrite length_text; lia].
    change (0 :: rest) with ([0] ++ rest). change (z :: rest) with ([z] ++ rest). rewrite !app_assoc.
    rewrite !drop_app_length'; [done|rewrite length_app; cbn; lia|rewrite length_app; cbn; lia].
Qed.
End Getline.

(** An Enter ends the line. *)
Lemma edit_keys_enter max_len scs shift l r : Forall in_u8 scs -> In 0x1C scs -> exists x, edit_keys max_len scs shift l r = Some x.
Proof.
  intros Hscs Hin. revert shift l r. induction Hscs as [|sc scs Hsc _ IH]; intros shift l r; [done|].
  destruct Hin as [->|Hin].
  - cbn [edit_keys]. change (is_break 28) with false. change (is_shift 28) with false. cbn [Z.eqb KEY_LEFT KEY_RIGHT Pos.eqb].
    unfold key_char. destruct (negb (shift =? 0)); cbn; eauto.
  - specialize (IH Hin). cbn [edit_keys]. destruct (is_break sc) eqn:Hb; [apply IH|]. destruct (is_shift sc); [apply IH|].
    destruct (sc =? KEY_LEFT); [destruct l; apply IH|]. destruct (sc =? KEY_RIGHT); [destruct r; apply IH|].
    destruct (key_char_ok shift sc Hsc Hb) as (c & -> & _). cbn [mbind option_bind].
    destruct (c =? 0); [apply IH|]. destruct (c =? 10); [eauto|]. destruct (edit max_len c l r). apply IH.
Qed.

(** C26 (keyboard.c, [getline]): for every sequence of scancodes with an Enter,
    on a buffer of at least [max_len] bytes, the call returns; the buffer holds
    the string an editor with a cursor makes of the keys up to the Enter
    (typing inserts at the cursor and stops at [max_len - 1] characters,
    Backspace deletes before the cursor, the arrows move it), terminated, and
    no byte behind [max_len] is written. Without echo the console is not
    touched. With echo the call needs [max_len] cells of the screen from the
    cursor on; then the console shows the line with the cursor in place and its
    other cells unchanged. With less room the screen may scroll under the line
    and the call then leaves the video memory (example [getline_scroll_ex]). *)
Theorem getline_correct {St : Type} `{ConsoleLaws St} (cols rows max_len shift : Z) (echo : bool) (buf scs : list Z) (s : St) (t : tty) :
  con_view cols rows s t -> 1 <= max_len < 2147483648 -> max_len <= Z.of_nat (length buf) ->
  (if echo then tty_cur t + max_len <= rows * cols else True) -> Forall in_u8 scs -> In 0x1C scs ->
  exists l r sh rest buf' s', edit_keys max_len scs shift [] [] = Some (l, r, sh, rest) /\
    getline buf echo max_len shift scs s = Some (buf', sh, rest, s') /\
    cstr buf' = text_of l r /\ Z.of_nat (length (text_of l r)) < max_len /\
    length buf' = length buf /\ drop (Z.to_nat max_len) buf' = drop (Z.to_nat max_len) buf /\
    if echo then line_shown cols rows (tty_cur t) max_len (tty_cells t) s' (text_of l r) (Z.of_nat (length l)) else s' = s.
Proof.
  intros Hv Hmax Hbuf Hroom Hscs Hin. destruct (edit_keys_enter max_len scs shift [] [] Hscs Hin) as [[[[l r] sh] rest] E].
  set (base := if echo then tty_cur t else 0). set (cs := if echo then cols else 1). set (rs := if echo then rows else max_len).
  assert (Hb : (if echo then con_get_cursor else mret 0) s = Some (base * 2, s)).
  { unfold base. destruct echo; [|done]. rewrite (con_get_ok cols rows s t Hv). do 2 f_equal. lia. }
  pose proof (con_view_wf _ _ _ _ Hv) as (_ & _ & _ & Hcur).
  assert (Hbase : 0 <= base /\ base + max_len <= rs * cs) by (unfold base, rs, cs; destruct echo; lia). destruct Hbase as [Hb0 Hr0].
  destruct (loop_ok cs rs base max_len (tty_cells t) buf Hb0 Hmax Hr0 Hbuf echo s scs (Line buf 0 0 shift) s [] [] l r sh rest) as (g' & s' & El & Hg & Hsh);
    [|done|done|].
  { unfold line_inv. cbn [ln_buf ln_len ln_pos length]. split_and!; try done; try lia; [by exists buf|].
    unfold echoed, base, cs, rs. destruct echo; [|done]. exists t. split; [done|]. split; [cbn; lia|]. split; [|done]. intros i c Hi. done. }
  destruct (input_finish_ok cs rs base max_len (tty_cells t) buf Hmax Hbuf echo s g' s' l r Hg) as (b & Eb & H1 & H2 & H3 & H4).
  exists l, r, sh, rest, b, s'. split; [done|]. split.
  - unfold getline. rewrite (bind_eq _ _ _ _ _ Hb), (bind_eq _ _ _ _ _ El), Eb.
    rewrite (bind_eq (lift_option (Some b)) _ s' b s' eq_refl). by rewrite Hsh.
  - split_and!; try done. destruct Hg as (_ & _ & _ & _ & _ & He). unfold echoed, base, cs, rs in He. by destruct echo.
Qed.

(** On the text screen: "i", its release, the left arrow, "h", Enter; a key
    behind the Enter is left. *)
Lemma getline_correct_witness : exists buf' s',
  getline (replicate 8 7) true 5 0 [0x17; 0x97; KEY_LEFT; 0x23; 0x1C; 0x1E] ConDemo.vga0 = Some (buf', 0, [0x1E], s') /\
  cstr buf' = [104; 105] /\ line_shown 80 25 0 5 (tty_cells (cleared ConDemo.vga)) s' [104; 105] 1.
Proof.
  destruct ConDemo.vga0_shows as [Hs (Hu & Hf & _ & Hr & _)]. destruct (same_geometry _ _ Hu Hf) as [Ec Er].
  pose proof (conj Hs (conj Ec (conj Er (conj eq_refl Hr))) : shows80 80 25 ConDemo.vga0 (cleared ConDemo.vga)) as Hv.
  assert (Hscs : Forall in_u8 [0x17; 0x97; KEY_LEFT; 0x23; 0x1C; 0x1E]) by (repeat constructor; by vm_compute).
  assert (Hroom : tty_cur (cleared ConDemo.vga) + 5 <= 25 * 80) by (change (0 + 5 <= 25 * 80); lia).
  assert (Hbuf : 5 <= Z.of_nat (length (replicate 8 7))) by (change (5 <= 8); lia).
  assert (Hin : In 0x1C [0x17; 0x97; KEY_LEFT; 0x23; 0x1C; 0x1E]) by (do 4 right; by left).
  pose proof (getline_correct (H0 := console_laws) 80 25 5 0 true _ _ _ _ Hv ltac:(lia) Hbuf Hroom Hscs Hin)
    as (l & r & sh & rest & buf' & s' & E & Eg & H1 & _ & _ & _ & H2).
  vm_compute in E. injection E as <- <- <- <-. exists buf', s'. split; [exact Eg|]. split; [exact H1|exact H2].
Defined.

(** On the last cell of the text screen with five bytes of buffer: echoing "a"
    scrolls the screen, but the line still starts where the cursor was, and
    "b" is to be put behind the video memory. One byte less and one key less
    end well. *)
Definition scroll_run (max_len : Z) : bool :=
  match (con_set_cursor 3998;; getline (replicate 8 0) true max_len 0 [0x1E; 0x30; 0x1C]) ConDemo.vga0 with Some _ => true | None => false end.
Example getline_scroll_ex : scroll_run 5 = false /\ scroll_run 1 = true.
Proof. by vm_compute. Qed.

(** ** The byte stream of the keyboard *)

(** Keys by their code in scancode set 1; the arrows have two-byte codes. *)
Inductive key_action := Press (sc : Z) | Release (sc : Z) | ArrowDown (k : Z) | ArrowUp (k : Z).
Definition arrow_code (k : Z) : Z := default 0 ([0x48; 0x50; 0x4B; 0x4D] !! Z.to_nat k).
Definition action_ok (a : key_action) : Prop :=
  match a with
  | Press sc => 0 <= sc < 128
  | Release sc => 0 <= sc < 128 /\ sc <> 0x60
  | ArrowDown k | ArrowUp k => 0 <= k < 4
  end.
Definition action_bytes (a : key_action) : list Z :=
  match a with
  | Press sc => [sc]
  | Release sc => [sc + 128]
  | ArrowDown k => [0xE0; arrow_code k]
  | ArrowUp k => [0xE0; arrow_code k + 128]
  end.

(** The events of a sequence of actions, and the shift state. *)
Definition shift_after (shift : Z) (a : key_action) : Z :=
  match a with
  | Press sc => if is_shift sc then 1 else shift
  | Release sc => if is_shift sc then 0 else shift
  | _ => shift
  end.
Definition action_ops (shift : Z) (a : key_action) : list ev_op :=
  match a with
  | Press sc => [EKey sc true (default 0 (key_char (shift_after shift a) sc))]
  | Release sc => [EKey sc false 0]
  | ArrowDown k => [EKey (KEY_UP + k) true 0]
  | ArrowUp _ => []
  end.
Fixpoint actions_ops (shift : Z) (acts : list key_action) : list ev_op :=
  match acts with [] => [] | a :: acts => action_ops shift a ++ actions_ops (shift_after shift a) acts end.

Fixpoint kbd_run (bytes : list Z) (k : kbd_st) : option kbd_st :=
  match bytes with [] => Some k | b :: bytes => k ← kb_callback b k; kbd_run bytes k end.

Lemma kbd_run_app l1 l2 k k' : kbd_run l1 k = Some k' -> kbd_run (l1 ++ l2) k = kbd_run l2 k'.
Proof.
  revert k. induction l1 as [|b l1 IH]; intros k E; cbn [kbd_run app] in *; [by injection E as ->|].
  destruct (kb_callback b k) as [k1|]; [|done]. by apply IH.
Qed.

Lemma byte_facts sc : 0 <= sc < 128 ->
  is_break sc = false /\ is_break (sc + 128) = true /\ Z.land (sc + 128) 0x7F = sc /\ (sc =? 0xE0) = false /\ (sc <? 128) = true.
Proof.
  intros Hsc. rewrite !is_break_ge by word. destruct (Z.leb_spec 128 sc), (Z.leb_spec 128 (sc + 128)); try lia.
  split_and!; try done; try lia. change 0x7F with (2 ^ 7 - 1). rewrite land_ones_mod by done. change (2 ^ 7) with 128. zlia.
Qed.

Lemma evq_run_app ops1 ops2 q : (ev_run (ops1 ++ ops2) q).2 = (ev_run ops2 (ev_run ops1 q).2).2.
Proof.
  revert q. induction ops1 as [|op ops1 IH]; intros q; cbn [ev_run app]; [done|].
  destruct (ev_step op q) as [r q1]. specialize (IH q1). destruct (ev_run (ops1 ++ ops2) q1), (ev_run ops1 q1). exact IH.
Qed.

Lemma action_step a k : e0_prefix k = 0 -> action_ok a ->
  exists k', kbd_run (action_bytes a) k = Some k' /\ e0_prefix k' = 0 /\ ev_shift k' = shift_after (ev_shift k) a /\
    shift_pressed k' = shift_pressed k /\ kbd_q k' = (ev_run (action_ops (ev_shift k) a) (kbd_q k)).2.
Proof.
  intros He Ha. destruct a as [sc|sc|i|i]; cbn [action_ok action_bytes kbd_run action_ops] in *; unfold kb_callback; rewrite ?He.
  - destruct (byte_facts sc Ha) as (B1 & B2 & B3 & B4 & B5). rewrite B4. cbn [negb Z.eqb]. unfold kbd_push_event. rewrite B1, B5.
    cbn [shift_after]. set (sh := if is_shift sc then 1 else ev_shift k).
    destruct (key_char_ok sh sc ltac:(word) B1) as (c & Ec & _).
    replace (ev_shift (if is_shift sc then set_ev_shift 1 (set_cur_scancode sc k) else set_cur_scancode sc k)) with sh by (unfold sh; by destruct (is_shift sc)).
    rewrite Ec. cbn [mbind option_bind default ev_run ev_step snd]. eexists. split; [reflexivity|].
    unfold sh. by destruct (is_shift sc).
  - destruct Ha as [Ha Hne]. destruct (byte_facts sc Ha) as (B1 & B2 & B3 & B4 & B5).
    replace (sc + 128 =? 0xE0) with false by (symmetry; apply Z.eqb_neq; lia). cbn [negb Z.eqb]. unfold kbd_push_event. rewrite B2, B3.
    cbn [mbind option_bind ev_run ev_step snd shift_after]. eexists. split; [reflexivity|]. by destruct (is_shift sc).
  - assert (Hi : i = 0 \/ i = 1 \/ i = 2 \/ i = 3) by lia. destruct Hi as [->|[->|[->| ->]]]; eexists; (split; [reflexivity|]); done.
  - assert (Hi : i = 0 \/ i = 1 \/ i = 2 \/ i = 3) by lia. destruct Hi as [->|[->|[->| ->]]]; eexists; (split; [reflexivity|]); done.
Qed.

Lemma kbd_stream_ok acts k : e0_prefix k = 0 -> Forall action_ok acts ->
  exists k', kbd_run (concat (map action_bytes acts)) k = Some k' /\ e0_prefix k' = 0 /\
    ev_shift k' = fold_left shift_after acts (ev_shift k) /\ kbd_q k' = (ev_run (actions_ops (ev_shift k) acts) (kbd_q k)).2.
Proof.
  intros He Hacts. revert k He. induction Hacts as [|a acts Ha _ IH]; intros k He; [by exists k|].
  destruct (action_step a k He Ha) as (k1 & E1 & He1 & Hs1 & _ & Hq1). destruct (IH k1 He1) as (k2 & E2 & He2 & Hs2 & Hq2).
  exists k2. cbn [map concat actions_ops fold_left]. rewrite (kbd_run_app _ _ _ k1 E1). split; [exact E2|]. split; [done|].
  rewrite Hs1 in Hs2, Hq2. split; [done|]. by rewrite evq_run_app, <- Hq1.
Qed.

(** C29 (keyboard.c, [kb_callback]; ui/event.c): the interrupt handler, fed
    the scancode bytes of any sequence of presses and releases of keys and
    arrows, leaves the event queue holding what was in it and one event per
    action, in order and while the 128 places last: the key's code, down or up,
    and the character of the keymap that the shift keys held at that moment
    select; a release of an arrow leaves none. *)
Theorem kbd_stream_correct (acts : list key_action) (k : kbd_st) (l : list event_t) :
  e0_prefix k = 0 -> evq_rep (kbd_q k) l -> Forall action_ok acts ->
  exists k', kbd_run (concat (map action_bytes acts)) k = Some k' /\ e0_prefix k' = 0 /\
    ev_shift k' = fold_left shift_after acts (ev_shift k) /\
    evq_rep (kbd_q k') (spec_run (actions_ops (ev_shift k) acts) (l, mouse_of (kbd_q k))).2.1.
Proof.
  intros He Hq Ha. destruct (kbd_stream_ok acts k He Ha) as (k' & E & He' & Hs & Eq). exists k'. split; [exact E|]. split; [done|].
  split; [done|]. rewrite Eq. by apply (event_queue_refines_ok (actions_ops (ev_shift k) acts) (kbd_q k) l).
Qed.

(** Shift held, "a", an arrow, shift released, "a". *)
Lemma kbd_stream_correct_witness :
  let acts := [Press 0x2A; Press 0x1E; Release 0x1E; ArrowDown 2; ArrowUp 2; Release 0x2A; Press 0x1E] in
  exists k', kbd_run (concat (map action_bytes acts)) (set_kbd_q (event_init evq_bss) kbd_bss) = Some k' /\
    evq_rep (kbd_q k') [Event EV_KEY_DOWN 0x2A 0 0 (-1) (-1); Event EV_KEY_DOWN 0x1E 65 0 (-1) (-1); Event EV_KEY_UP 0x1E 0 0 (-1) (-1);
      Event EV_KEY_DOWN 0x62 0 0 (-1) (-1); Event EV_KEY_UP 0x2A 0 0 (-1) (-1); Event EV_KEY_DOWN 0x1E 97 0 (-1) (-1)].
Proof.
  cbv zeta. destruct (kbd_stream_correct [Press 0x2A; Press 0x1E; Release 0x1E; ArrowDown 2; ArrowUp 2; Release 0x2A; Press 0x1E]
    (set_kbd_q (event_init evq_bss) kbd_bss) [] eq_refl (proj1 (evq_init_rep evq_bss eq_refl))) as (k' & E & _ & _ & Hq);
    [repeat constructor; cbn; lia|]. exists k'. split; [exact E|].
  match type of Hq with evq_rep _ ?l => assert (El : l = [Event EV_KEY_DOWN 0x2A 0 0 (-1) (-1); Event EV_KEY_DOWN 0x1E 65 0 (-1) (-1);
    Event EV_KEY_UP 0x1E 0 0 (-1) (-1); Event EV_KEY_DOWN 0x62 0 0 (-1) (-1); Event EV_KEY_UP 0x2A 0 0 (-1) (-1);
    Event EV_KEY_DOWN 0x1E 97 0 (-1) (-1)]) by (by vm_compute) end.
  rewrite El in Hq. exact Hq.
Defined.

(** ** The byte stream of the mouse *)

(** A standard packet: buttons, always-one bit, the signs and low bytes of the
    movement (up is positive). *)
Definition packet (dx dy b : Z) : list Z :=
  [b + 8 + (if dx <? 0 then 16 else 0) + (if dy <? 0 then 32 else 0); dx mod 256; dy mod 256].
Definition packet_ok (dx dy b : Z) : Prop := -256 <= dx < 256 /\ -256 <= dy < 256 /\ 0 <= b < 8.

Fixpoint mouse_run (bytes : list Z) (m : mouse_st) : option mouse_st :=
  match bytes with [] => Some m | b :: bytes => m ← mouse_irq_handler 0x21 b m; mouse_run bytes m end.

(** Bounds and position the driver keeps. *)
Definition bounds_ok (m : mouse_st) : Prop :=
  1 <= bound_w m <= 1073741824 /\ 1 <= bound_h m <= 1073741824 /\ 0 <= state_x m < bound_w m /\ 0 <= state_y m < bound_h m /\
  length (mouse_pkt m) = 3%nat.

(** The position moved by a delta, inside the screen. *)
Definition clamp (w x : Z) : Z := Z.max 0 (Z.min (w - 1) x).

Lemma clamp_x_eq w x : 1 <= w -> clamp_x w x = clamp w x.
Proof.
  intros Hw. unfold clamp_x, clamp. destruct (Z.ltb_spec x 0); rewrite Z.geb_leb;
    [destruct (Z.leb_spec w 0)|destruct (Z.leb_spec w x)]; lia.
Qed.

Lemma clamp_range w x : 1 <= w -> 0 <= clamp w x < w.
Proof. unfold clamp. lia. Qed.

Lemma s32_small x : -2147483648 <= x < 2147483648 -> s32 x = x.
Proof. intros. word. Qed.

Lemma flags_ok dx dy b : packet_ok dx dy b ->
  let f := b + 8 + (if dx <? 0 then 16 else 0) + (if dy <? 0 then 32 else 0) in
  Z.land f 0x08 = 8 /\ Z.land f 0x10 = (if dx <? 0 then 16 else 0) /\ Z.land f 0x20 = (if dy <? 0 then 32 else 0) /\
  Z.land f 0x40 = 0 /\ Z.land f 0x80 = 0 /\ Z.land f 0x07 = b.
Proof.
  intros (_ & _ & Hb). assert (Hc : b = 0 \/ b = 1 \/ b = 2 \/ b = 3 \/ b = 4 \/ b = 5 \/ b = 6 \/ b = 7) by lia.
  destruct (dx <? 0), (dy <? 0); destruct Hc as [->|[->|[->|[->|[->|[->|[->| ->]]]]]]]; by vm_compute.
Qed.

(** What a packet does to the driver. *)
Definition moved (dx dy b : Z) (m m' : mouse_st) : Prop :=
  let x := clamp (bound_w m) (state_x m + dx) in
  let y := clamp (bound_h m) (state_y m - dy) in
  state_x m' = x /\ state_y m' = y /\ state_buttons m' = b /\
  state_dx m' = s32 (state_dx m + dx) /\ state_dy m' = s32 (state_dy m - dy) /\
  bound_w m' = bound_w m /\ bound_h m' = bound_h m /\ mouse_q m' = event_push_mouse x y b (mouse_q m) /\
  length (mouse_pkt m') = length (mouse_pkt m) /\ pkt_pos m' = 0.


(** The handler on the bytes of a packet. *)
Lemma irq_first f x y sdx sdy bt pr w h p0 p1 p2 q : Z.land f 8 = 8 ->
  mouse_irq_handler 0x21 f (Mouse x y sdx sdy bt pr w h [p0; p1; p2] 0 q) = Some (Mouse x y sdx sdy bt pr w h [f; p1; p2] 1 q).
Proof. intros Hf. unfold mouse_irq_handler. cbn [pkt_pos]. by rewrite Hf. Qed.
Lemma irq_second v x y sdx sdy bt pr w h p0 p1 p2 q :
  mouse_irq_handler 0x21 v (Mouse x y sdx sdy bt pr w h [p0; p1; p2] 1 q) = Some (Mouse x y sdx sdy bt pr w h [p0; v; p2] 2 q).
Proof. reflexivity. Qed.
Lemma irq_third v x y sdx sdy bt pr w h p0 p1 p2 q :
  mouse_irq_handler 0x21 v (Mouse x y sdx sdy bt pr w h [p0; p1; p2] 2 q) = Some (mouse_decode (Mouse x y sdx sdy bt pr w h [p0; p1; v] 0 q)).
Proof. reflexivity. Qed.

Lemma decode_eq f v u x y sdx sdy bt pr w h q :
  mouse_decode (Mouse x y sdx sdy bt pr w h [f; v; u] 0 q) =
    let dx := if negb (Z.land f 0x40 =? 0) then 0 else v - (if negb (Z.land f 0x10 =? 0) then 256 else 0) in
    let dy := if negb (Z.land f 0x80 =? 0) then 0 else u - (if negb (Z.land f 0x20 =? 0) then 256 else 0) in
    let x := clamp_x w (s32 (x + dx)) in
    let y := clamp_x h (s32 (y - dy)) in
    Mouse x y (s32 (sdx + dx)) (s32 (sdy - dy)) (Z.land f 7) pr w h [f; v; u] 0 (event_push_mouse x y (Z.land f 7) q).
Proof. reflexivity. Qed.

Lemma packet_run dx dy b rest m : packet_ok dx dy b -> bounds_ok m -> pkt_pos m = 0 ->
  exists m', mouse_run (packet dx dy b ++ rest) m = mouse_run rest m' /\ moved dx dy b m m'.
Proof.
  intros Hp (Hw & Hh & Hx & Hy & Hl) H0. destruct (flags_ok dx dy b Hp) as (F8 & F10 & F20 & F40 & F80 & F7). cbv zeta in *.
  destruct Hp as (Hdx & Hdy & Hb). destruct m as [x y sdx sdy bt pr w h pkt pos q].
  cbn [bound_w bound_h state_x state_y mouse_pkt pkt_pos] in *. subst pos.
  destruct pkt as [|p0 [|p1 [|p2 [|]]]]; try done. unfold packet.
  set (f := b + 8 + _ + _) in *. cbn [app mouse_run]. rewrite irq_first by done. cbn [mbind option_bind].
  rewrite irq_second. cbn [mbind option_bind]. rewrite irq_third. cbn [mbind option_bind].
  eexists. split; [reflexivity|]. rewrite decode_eq, F10, F20, F40, F80, F7. cbn [Z.eqb negb]. cbv zeta. unfold moved.
  cbn [mouse_pkt bound_w bound_h state_x state_y state_dx state_dy state_buttons mouse_q pkt_pos].
  assert (Ex : dx mod 256 - (if negb ((if dx <? 0 then 16 else 0) =? 0) then 256 else 0) = dx)
    by (destruct (Z.ltb_spec dx 0); cbn [Z.eqb negb]; zlia).
  assert (Ey : dy mod 256 - (if negb ((if dy <? 0 then 32 else 0) =? 0) then 256 else 0) = dy)
    by (destruct (Z.ltb_spec dy 0); cbn [Z.eqb negb]; zlia).
  rewrite Ex, Ey, !(s32_small (x + dx)), !(s32_small (y - dy)), !clamp_x_eq by lia. split_and!; done.
Qed.

(** Packets, each behind bytes that are out of step (their bit 3 is clear). *)
Record report := Report { rp_noise : list Z; rp_dx : Z; rp_dy : Z; rp_buttons : Z }.
Definition report_ok (r : report) : Prop :=
  Forall (fun b => Z.land b 8 = 0) (rp_noise r) /\ packet_ok (rp_dx r) (rp_dy r) (rp_buttons r).
Definition report_bytes (r : report) : list Z := rp_noise r ++ packet (rp_dx r) (rp_dy r) (rp_buttons r).
(** The positions on a screen of [w] x [h], and the reports to the queue. *)
Definition next_pos (w h : Z) (p : Z * Z) (r : report) : Z * Z := (clamp w (p.1 + rp_dx r), clamp h (p.2 - rp_dy r)).
Fixpoint reports_ops (w h : Z) (p : Z * Z) (rs : list report) : list ev_op :=
  match rs with
  | [] => []
  | r :: rs => let p := next_pos w h p r in EMouse p.1 p.2 (rp_buttons r) :: reports_ops w h p rs
  end.

Lemma noise_run ns rest m : Forall (fun b => Z.land b 8 = 0) ns -> pkt_pos m = 0 -> mouse_run (ns ++ rest) m = mouse_run rest m.
Proof.
  intros Hns H0. induction Hns as [|n ns Hn _ IH]; [done|]. cbn [app mouse_run]. unfold mouse_irq_handler at 1.
  change (Z.land 0x21 1 =? 0) with false. rewrite H0, Hn. exact IH.
Qed.

Lemma mouse_stream_ok rs m : pkt_pos m = 0 -> bounds_ok m -> Forall report_ok rs ->
  exists m', mouse_run (concat (map report_bytes rs)) m = Some m' /\ pkt_pos m' = 0 /\ bounds_ok m' /\
    (state_x m', state_y m') = fold_left (next_pos (bound_w m) (bound_h m)) rs (state_x m, state_y m) /\
    state_buttons m' = fold_left (fun _ r => rp_buttons r) rs (state_buttons m) /\
    mouse_q m' = (ev_run (reports_ops (bound_w m) (bound_h m) (state_x m, state_y m) rs) (mouse_q m)).2.
Proof.
  intros H0 Hb Hrs. revert m H0 Hb. induction Hrs as [|r rs [Hn Hp] _ IH]; intros m H0 Hb; [by exists m|].
  cbn [map concat reports_ops fold_left]. unfold report_bytes at 1. rewrite <- !app_assoc, noise_run by done.
  destruct (packet_run (rp_dx r) (rp_dy r) (rp_buttons r) (concat (map report_bytes rs)) m Hp Hb H0)
    as (m1 & E1 & (Ex & Ey & Ebt & _ & _ & Ew & Eh & Eq & El & E0)).
  rewrite E1. destruct (IH m1 E0) as (m' & E & E0' & Hb' & Epos & Ebt' & Eq').
  - destruct Hb as (Hw & Hh & _ & _ & Hl). unfold bounds_ok. rewrite Ew, Eh, Ex, Ey, El.
    pose proof (clamp_range (bound_w m) (state_x m + rp_dx r)). pose proof (clamp_range (bound_h m) (state_y m - rp_dy r)). lia.
  - exists m'. assert (Ep : next_pos (bound_w m) (bound_h m) (state_x m, state_y m) r = (state_x m1, state_y m1))
      by (unfold next_pos; cbn [fst snd]; by rewrite Ex, Ey).
    cbv zeta. rewrite Ep. rewrite Ew, Eh in Epos, Eq'. rewrite Ebt in Ebt'. split_and!; try done.
    rewrite Eq'. cbn [fst snd ev_run ev_step]. rewrite <- Ex, <- Ey in Eq. rewrite <- Eq. by destruct (ev_run _ (mouse_q m1)).
Qed.

(** Of mouse.c, [mouse_irq_handler]; ui/event.c: the interrupt handler, fed
    any sequence of movement packets with bytes out of step before each of
    them, drops the latter and makes one report of every packet: the position
    is moved by the 9-bit deltas (up is positive) and stays on the screen, the
    buttons are those of the last packet, and the event queue holds in
    addition the button edges and movements of the reports, in order and while
    its places last. *)
Theorem mouse_stream_correct (rs : list report) (m : mouse_st) (l : list event_t) :
  pkt_pos m = 0 -> bounds_ok m -> evq_rep (mouse_q m) l -> Forall report_ok rs ->
  exists m', mouse_run (concat (map report_bytes rs)) m = Some m' /\ pkt_pos m' = 0 /\ bounds_ok m' /\
    (state_x m', state_y m') = fold_left (next_pos (bound_w m) (bound_h m)) rs (state_x m, state_y m) /\
    state_buttons m' = fold_left (fun _ r => rp_buttons r) rs (state_buttons m) /\
    evq_rep (mouse_q m') (spec_run (reports_ops (bound_w m) (bound_h m) (state_x m, state_y m) rs) (l, mouse_of (mouse_q m))).2.1.
Proof.
  intros H0 Hb Hq Hrs. destruct (mouse_stream_ok rs m H0 Hb Hrs) as (m' & E & H1 & H2 & H3 & H4 & Eq).
  exists m'. split_and!; try done. rewrite Eq. by apply event_queue_refines_ok.
Qed.

(** Left past the edge of a small screen with a stray byte, then down with the
    left button held. *)
Lemma mouse_stream_correct_witness :
  let rs := [Report [0x10; 0] (-5) 0 0; Report [] 3 (-4) 1] in
  let m := set_mouse_q (event_init evq_bss) (mouse_set_bounds 10 3 mouse_bss) in
  exists m', mouse_run (concat (map report_bytes rs)) m = Some m' /\ (state_x m', state_y m', state_buttons m') = (3, 2, 1) /\
    evq_rep (mouse_q m') [Event EV_MOUSE_MOVE 0 0 0 0 0; Event EV_MOUSE_DOWN 1 0 1 3 2; Event EV_MOUSE_MOVE 0 0 1 3 2].
Proof.
  cbv zeta. pose proof (proj1 (evq_init_rep evq_bss eq_refl)) as Hq.
  destruct (mouse_stream_correct [Report [0x10; 0] (-5) 0 0; Report [] 3 (-4) 1]
    (set_mouse_q (event_init evq_bss) (mouse_set_bounds 10 3 mouse_bss)) [] eq_refl) as (m' & E & _ & _ & Epos & Eb & Hq').
  - unfold bounds_ok. cbn. lia.
  - exact Hq.
  - repeat constructor; cbn; lia.
  - exists m'. split; [exact E|]. split; [change (3, 2, 1) with ((3, 2), 1); rewrite Epos, Eb; reflexivity|].
    match type of Hq' with evq_rep _ ?l => assert (El : l = [Event EV_MOUSE_MOVE 0 0 0 0 0; Event EV_MOUSE_DOWN 1 0 1 3 2; Event EV_MOUSE_MOVE 0 0 1 3 2])
      by (by vm_compute) end.
    rewrite El in Hq'. exact Hq'.
Defined.
