(* ===== verification/InputUsb.v ===== *)
(** * USB keyboards, and every interleaving of the input drivers

    A USB keyboard sends its state, a PS/2 keyboard its changes: for changes of
    one key at a time the reports leave the event queue as the scancodes do
    ([usb_ps2_equivalent]). [input_run_safe] is the invariant of every sequence
    of interrupts, reports and reads. The examples show what several changes in
    one report, and reads that come late, do. *)

From S2P Require Import Prelude Ring Input InputProofs.

(** ** Reports as changes *)

(** [curr] differs from [prev] by the action [a]. *)
Definition same_keys (prev curr : list Z) : Prop := forall k, no_key k = false -> in_report curr k = in_report prev k.
Definition adds_key (prev curr : list Z) (u : Z) : Prop :=
  no_key u = false /\ in_report prev u = false /\ has_shift curr = has_shift prev /\
  forall k, no_key k = false -> in_report curr k = (k =? u) || in_report prev k.
Definition drops_key (prev curr : list Z) (u : Z) : Prop :=
  no_key u = false /\ has_shift curr = has_shift prev /\
  (exists X Y, slice prev 2 6 = X ++ (u :: Y) /\ (u ∉ X) /\ (u ∉ Y)) /\
  forall k, no_key k = false -> in_report curr k = in_report prev k && negb (k =? u).
Definition report_action (prev curr : list Z) (a : key_action) : Prop :=
  match a with
  | Press sc =>
    (sc = 0x2A /\ has_shift prev = false /\ has_shift curr = true /\ same_keys prev curr) \/
    (0 < sc < 0x60 /\ exists u, hid_scancode u = Some sc /\ adds_key prev curr u)
  | Release sc =>
    (sc = 0x2A /\ has_shift prev = true /\ has_shift curr = false /\ same_keys prev curr) \/
    (0 < sc < 0x60 /\ exists u, hid_scancode u = Some sc /\ drops_key prev curr u)
  | ArrowDown i => exists u, hid_scancode u = Some (KEY_UP + i) /\ adds_key prev curr u
  | ArrowUp i => exists u, hid_scancode u = Some (KEY_UP + i) /\ drops_key prev curr u
  end.

Inductive usb_path : list Z -> list (list Z) -> list key_action -> Prop :=
| path_end prev : usb_path prev [] []
| path_step prev curr rs a acts : report_action prev curr a -> usb_path curr rs acts -> usb_path prev (curr :: rs) (a :: acts).

Fixpoint usb_run (rs : list (list Z)) (prev : list Z) (k : kbd_st) : option (list Z * kbd_st) :=
  match rs with
  | [] => Some (prev, k)
  | r :: rs => '(prev, k) ← process_kbd_report prev r k; usb_run rs prev k
  end.

(** ** Injected scancodes *)

(** The event state after an action. *)
Definition acted (a : key_action) (k k' : kbd_st) : Prop :=
  ev_shift k' = shift_after (ev_shift k) a /\ kbd_q k' = (ev_run (action_ops (ev_shift k) a) (kbd_q k)).2.

Lemma inject_press sc k : 0 <= sc < 0x60 -> exists k', kbd_inject_scancode sc k = Some k' /\ acted (Press sc) k k'.
Proof.
  intros Hsc. destruct (byte_facts sc ltac:(lia)) as (B1 & _ & _ & _ & B5). unfold kbd_inject_scancode.
  rewrite Z.geb_leb, (proj2 (Z.leb_gt KEY_UP sc)) by (unfold KEY_UP; lia). cbn [andb].
  set (k1 := if cur_scancode k =? 0 then set_cur_scancode sc k else k).
  assert (E1 : ev_shift k1 = ev_shift k /\ kbd_q k1 = kbd_q k) by (unfold k1; by destruct (cur_scancode k =? 0)). destruct E1 as [E1 E2].
  unfold kbd_push_event. rewrite B1, B5.
  set (sh := if is_shift sc then 1 else ev_shift k).
  replace (ev_shift (if is_shift sc then set_ev_shift 1 k1 else k1)) with sh by (unfold sh; destruct (is_shift sc); [done|by rewrite E1]).
  destruct (key_char_ok sh sc ltac:(word) B1) as (c & Ec & _). rewrite Ec. cbn [mbind option_bind]. eexists. split; [reflexivity|].
  unfold acted. cbn [action_ops ev_run ev_step snd shift_after]. fold sh. rewrite Ec, <- E2. cbn [default]. unfold sh.
  destruct (is_shift sc); [done|]. split; [exact E1|reflexivity].
Qed.

Lemma inject_release sc k : 0 <= sc < 0x60 -> exists k', kbd_inject_scancode (Z.lor sc 0x80) k = Some k' /\ acted (Release sc) k k'.
Proof.
  intros Hsc. destruct (byte_facts sc ltac:(lia)) as (_ & B2 & B3 & _).
  assert (Elor : Z.lor sc 0x80 = sc + 128).
  { rewrite Z.lor_comm. change 0x80 with (Z.shiftl 1 7). rewrite lor_shiftl_add by (change (2 ^ 7) with 128; lia). change (2 ^ 7) with 128. change (Z.shiftl 1 7) with 128. lia. }
  rewrite Elor. unfold kbd_inject_scancode. rewrite (proj2 (Z.leb_gt (sc + 128) KEY_RIGHT)) by (unfold KEY_RIGHT; lia). rewrite andb_false_r.
  set (k1 := if cur_scancode k =? 0 then set_cur_scancode (sc + 128) k else k).
  assert (E1 : ev_shift k1 = ev_shift k /\ kbd_q k1 = kbd_q k) by (unfold k1; by destruct (cur_scancode k =? 0)). destruct E1 as [E1 E2].
  unfold kbd_push_event. rewrite B2, B3. eexists. split; [reflexivity|].
  unfold acted. cbn [action_ops ev_run ev_step snd shift_after]. rewrite <- E2. destruct (is_shift sc); [done|]. split; [exact E1|reflexivity].
Qed.

Lemma inject_arrow i k : 0 <= i < 4 -> exists k', kbd_inject_scancode (KEY_UP + i) k = Some k' /\ acted (ArrowDown i) k k'.
Proof.
  intros Hi. unfold kbd_inject_scancode. rewrite Z.geb_leb, !(proj2 (Z.leb_le _ _)) by (unfold KEY_UP, KEY_RIGHT; lia). cbn [andb].
  eexists. split; [reflexivity|]. unfold acted. by destruct (cur_scancode k =? 0).
Qed.

(** ** The loops over the keys *)

Lemma press_skip ks prev k : Forall (fun key => no_key key || in_report prev key = true) ks -> press_new ks prev k = Some k.
Proof. induction 1 as [|key ks Hk _ IH]; cbn [press_new]; [done|]. by rewrite Hk. Qed.

Lemma press_one ks prev u sc k : Forall (fun key => key = u \/ no_key key || in_report prev key = true) ks -> u ∈ ks ->
  no_key u || in_report prev u = false -> hid_scancode u = Some sc -> sc <> 0 -> press_new ks prev k = kbd_inject_scancode sc k.
Proof.
  intros HF Hu Hn Hsc Hne. induction HF as [|key ks Hk _ IH]; [by apply not_elem_of_nil in Hu|]. cbn [press_new].
  destruct Hk as [->|Hk].
  - rewrite Hn, Hsc. cbn [mbind option_bind]. by rewrite (proj2 (Z.eqb_neq _ _) Hne).
  - rewrite Hk. apply IH. apply elem_of_cons in Hu as [->|Hu]; [congruence|done].
Qed.

Lemma release_skip ks curr k : Forall (fun key => no_key key || in_report curr key = true) ks -> release_old ks curr k = Some k.
Proof. induction 1 as [|key ks Hk _ IH]; cbn [release_old]; [done|]. by rewrite Hk. Qed.

Lemma release_one X Y curr u sc k : Forall (fun key => no_key key || in_report curr key = true) (X ++ Y) ->
  no_key u || in_report curr u = false -> hid_scancode u = Some sc ->
  release_old (X ++ u :: Y) curr k = if negb (sc =? 0) && (sc <? 0x60) then kbd_inject_scancode (Z.lor sc 0x80) k else Some k.
Proof.
  intros [HX HY]%Forall_app Hn Hsc. induction HX as [|key X Hk _ IH]; cbn [app release_old].
  - rewrite Hn, Hsc. cbn [mbind option_bind]. destruct (negb (sc =? 0) && (sc <? 0x60)); cbn [mbind option_bind]; [|by apply release_skip].
    destruct (kbd_inject_scancode _ k); cbn [mbind option_bind]; [by apply release_skip|done].
  - by rewrite Hk.
Qed.

Lemma in_report_elem r k : in_report r k = true <-> k ∈ slice r 2 6.
Proof.
  unfold in_report. rewrite existsb_exists, list_elem_of_In. split; [intros (x & Hx & ->%Z.eqb_eq); done|].
  intros Hk. exists k. by rewrite Z.eqb_refl.
Qed.

(** Keys of a report that the other has too. *)
Lemma keys_skip r r' : (forall k, no_key k = false -> in_report r k = true -> in_report r' k = true) ->
  Forall (fun key => no_key key || in_report r' key = true) (slice r 2 6).
Proof.
  intros H. apply List.Forall_forall. intros k Hk. destruct (no_key k) eqn:E; [done|]. apply H; [done|]. by apply in_report_elem, list_elem_of_In.
Qed.

(** ** One report *)

Lemma same_shift_report prev curr k : has_shift curr = has_shift prev ->
  process_kbd_report prev curr k =
    (k ← press_new (slice curr 2 6) prev k; k ← release_old (slice prev 2 6) curr k; Some (curr, k)).
Proof. intros E. unfold process_kbd_report. rewrite E. by destruct (has_shift prev). Qed.

Lemma adds_key_report prev curr u sc k : adds_key prev curr u -> hid_scancode u = Some sc -> sc <> 0 ->
  process_kbd_report prev curr k = (k ← kbd_inject_scancode sc k; Some (curr, k)).
Proof.
  intros (Hn & Hp & Hs & Hk) Hsc Hne. rewrite same_shift_report by done. rewrite (press_one _ _ u sc).
  - destruct (kbd_inject_scancode sc k) as [k'|]; [|done]. cbn [mbind option_bind]. rewrite release_skip; [done|].
    apply keys_skip. intros k0 H0 Hin. rewrite (Hk k0 H0), Hin. apply orb_true_r.
  - apply List.Forall_forall. intros k0 Hin. destruct (decide (k0 = u)) as [|Hnu]; [by left|right]. destruct (no_key k0) eqn:E; [done|].
    apply list_elem_of_In, in_report_elem in Hin. rewrite (Hk k0 E) in Hin. by rewrite (proj2 (Z.eqb_neq _ _) Hnu) in Hin.
  - apply in_report_elem. by rewrite (Hk u Hn), Z.eqb_refl.
  - by rewrite Hn, Hp.
  - done.
  - done.
Qed.

Lemma drops_key_report prev curr u sc k : drops_key prev curr u -> hid_scancode u = Some sc ->
  process_kbd_report prev curr k =
    (k ← (if negb (sc =? 0) && (sc <? 0x60) then kbd_inject_scancode (Z.lor sc 0x80) k else Some k); Some (curr, k)).
Proof.
  intros (Hn & Hs & (X & Y & E & HX & HY) & Hk) Hsc. rewrite same_shift_report by done. rewrite press_skip.
  - cbn [mbind option_bind]. rewrite E, (release_one X Y curr u sc); [done| | |done].
    + apply List.Forall_forall. intros k0 Hin. destruct (no_key k0) eqn:E0; [done|]. cbn [orb].
      assert (Hne : k0 <> u) by (intros ->; apply List.in_app_iff in Hin as [Hin|Hin]; apply list_elem_of_In in Hin; done).
      rewrite (Hk k0 E0), (proj2 (Z.eqb_neq _ _) Hne), andb_true_r. apply in_report_elem. rewrite E. apply list_elem_of_In.
      apply List.in_app_iff in Hin as [Hin|Hin]; apply List.in_app_iff; [by left|right; by right].
    + by rewrite Hn, (Hk u Hn), Z.eqb_refl, andb_false_r.
  - apply keys_skip. intros k0 H0 Hin. rewrite (Hk k0 H0) in Hin. by apply andb_true_iff in Hin as [? _].
Qed.

Lemma report_step prev curr a k : report_action prev curr a -> action_ok a ->
  exists k', process_kbd_report prev curr k = Some (curr, k') /\ acted a k k'.
Proof.
  intros H Ha. destruct a as [sc|sc|i|i]; cbn [report_action action_ok] in *.
  - destruct H as [(-> & Hp & Hc & Hk)|(Hsc & u & Hu & Hadd)].
    + destruct (inject_press 0x2A k ltac:(lia)) as (k' & E & Hact). exists k'. split; [|done].
      unfold process_kbd_report. rewrite Hp, Hc. cbn [negb andb]. rewrite E. cbn [mbind option_bind].
      rewrite press_skip by (apply keys_skip; intros k0 H0 Hin; by rewrite <- (Hk k0 H0)). cbn [mbind option_bind].
      rewrite release_skip by (apply keys_skip; intros k0 H0 Hin; by rewrite (Hk k0 H0)). done.
    + destruct (inject_press sc k ltac:(lia)) as (k' & E & Hact). exists k'. split; [|done]. rewrite (adds_key_report prev curr u sc) by (done || lia). by rewrite E.
  - destruct H as [(-> & Hp & Hc & Hk)|(Hsc & u & Hu & Hdrop)].
    + destruct (inject_release 0x2A k ltac:(lia)) as (k' & E & Hact). exists k'. split; [|done].
      unfold process_kbd_report. rewrite Hp, Hc. cbn [negb andb mbind option_bind]. change (Z.lor 0x2A 0x80) with 0xAA in E. rewrite E. cbn [mbind option_bind].
      rewrite press_skip by (apply keys_skip; intros k0 H0 Hin; by rewrite <- (Hk k0 H0)). cbn [mbind option_bind].
      rewrite release_skip by (apply keys_skip; intros k0 H0 Hin; by rewrite (Hk k0 H0)). done.
    + destruct (inject_release sc k ltac:(lia)) as (k' & E & Hact). exists k'. split; [|done]. rewrite (drops_key_report prev curr u sc) by done.
      rewrite (proj2 (Z.eqb_neq sc 0)), (proj2 (Z.ltb_lt sc 0x60)) by lia. cbn [negb andb]. by rewrite E.
  - destruct H as (u & Hu & Hadd). destruct (inject_arrow i k Ha) as (k' & E & Hact). exists k'. split; [|done].
    rewrite (adds_key_report prev curr u (KEY_UP + i)) by (done || (unfold KEY_UP; lia)). by rewrite E.
  - destruct H as (u & Hu & Hdrop). exists k. split; [|done]. rewrite (drops_key_report prev curr u (KEY_UP + i)) by done.
    rewrite (proj2 (Z.ltb_ge (KEY_UP + i) 0x60)) by (unfold KEY_UP; lia). by rewrite andb_false_r.
Qed.

Lemma usb_path_ok prev rs acts k : usb_path prev rs acts -> Forall action_ok acts ->
  exists prev' k', usb_run rs prev k = Some (prev', k') /\ ev_shift k' = fold_left shift_after acts (ev_shift k) /\
    kbd_q k' = (ev_run (actions_ops (ev_shift k) acts) (kbd_q k)).2.
Proof.
  intros Hp. revert k. induction Hp as [prev|prev curr rs a acts Ha _ IH]; intros k Hok; [by exists prev, k|].
  apply Forall_cons in Hok as [Hok1 Hok]. destruct (report_step prev curr a k Ha Hok1) as (k1 & E1 & Hs1 & Hq1).
  destruct (IH k1 Hok) as (prev' & k' & E & Hs & Hq). exists prev', k'. cbn [usb_run]. rewrite E1. split; [exact E|].
  cbn [fold_left actions_ops]. rewrite Hs1 in Hs, Hq. split; [done|]. by rewrite evq_run_app, <- Hq1.
Qed.

(** C27 (usbhid.c, [process_kbd_report]; keyboard.c, [kbd_inject_scancode],
    [kb_callback]): for every sequence of presses and releases of keys, Shift
    and arrows, a USB keyboard whose reports change by one of them at a time
    leaves the event queue and the shift state exactly as a PS/2 keyboard that
    sends the scancodes of the same actions. *)
Theorem usb_ps2_equivalent (prev : list Z) (rs : list (list Z)) (acts : list key_action) (k kp : kbd_st) :
  usb_path prev rs acts -> Forall action_ok acts -> e0_prefix kp = 0 -> kbd_q k = kbd_q kp -> ev_shift k = ev_shift kp ->
  exists prev' k' kp', usb_run rs prev k = Some (prev', k') /\ kbd_run (concat (map action_bytes acts)) kp = Some kp' /\
    kbd_q k' = kbd_q kp' /\ ev_shift k' = ev_shift kp'.
Proof.
  intros Hp Hok He Hq Hs. destruct (usb_path_ok prev rs acts k Hp Hok) as (prev' & k' & E & Hs' & Hq').
  destruct (kbd_stream_ok acts kp He Hok) as (kp' & Ep & _ & Hsp & Hqp). exists prev', k', kp'.
  split_and!; [done|done| |]; by rewrite ?Hq', ?Hqp, ?Hs', ?Hsp, ?Hq, ?Hs.
Qed.

Lemma in_report_8 a b k0 k1 k2 k3 k4 k5 k :
  in_report [a; b; k0; k1; k2; k3; k4; k5] k =
    (k =? k0) || ((k =? k1) || ((k =? k2) || ((k =? k3) || ((k =? k4) || ((k =? k5) || false))))).
Proof. reflexivity. Qed.

(** Shift, "a", an arrow while "a" is held, and their releases. *)
Lemma usb_ps2_equivalent_witness :
  let rs := [[2; 0; 0; 0; 0; 0; 0; 0]; [2; 0; 4; 0; 0; 0; 0; 0]; [2; 0; 4; 0x50; 0; 0; 0; 0]; [2; 0; 0x50; 0; 0; 0; 0; 0];
             [0; 0; 0x50; 0; 0; 0; 0; 0]; [0; 0; 0; 0; 0; 0; 0; 0]] in
  let acts := [Press 0x2A; Press 0x1E; ArrowDown 2; Release 0x1E; Release 0x2A; ArrowUp 2] in
  exists prev' k' kp', usb_run rs (replicate 8 0) kbd_bss = Some (prev', k') /\
    kbd_run (concat (map action_bytes acts)) kbd_bss = Some kp' /\ kbd_q k' = kbd_q kp' /\ ev_shift k' = ev_shift kp'.
Proof.
  cbv zeta. apply usb_ps2_equivalent; [|repeat constructor; cbn; lia|done|done|done].
  assert (H0 : forall k, no_key k = false -> (k =? 0) = false) by (unfold no_key; intros k Hk; by apply orb_false_iff in Hk as [? _]).
  constructor; [left|constructor; [right; split; [lia|]; exists 4|constructor; [exists 0x50|constructor; [right; split; [lia|]; exists 4
    |constructor; [left|constructor; [exists 0x50|constructor]]]]]].
  all: unfold adds_key, drops_key, same_keys; split_and!; try done.
  all: try (intros k Hk; rewrite !in_report_8, ?(H0 k Hk); cbn [orb]; rewrite ?orb_false_r;
    destruct (k =? 4) eqn:?, (k =? 0x50) eqn:?; (done || lia)).
  - exists [], [0x50; 0; 0; 0; 0]. split; [done|]. eapply bool_decide_eq_true_1. by vm_compute.
  - exists [], [0; 0; 0; 0; 0]. split; [done|]. eapply bool_decide_eq_true_1. by vm_compute.
Defined.

(** ** Every interleaving *)

Definition input_op_ok (op : input_op) : Prop :=
  match op with
  | IKey byte => in_u8 byte
  | IMouse status byte => in_u8 byte
  | IUsbKbd report => length report = 8%nat /\ bytes report
  | IUsbMouse report len => (3 <= length report)%nat
  | _ => True
  end.

(** The types of what the drivers hand on: an event carries a byte as its code,
    an ASCII character, and a position on the screen ((-1, -1) before the
    first mouse report). *)
Definition event_ok (w h : Z) (e : event_t) : Prop :=
  ev_type e <> EV_NONE /\ 0 <= ev_code e < 256 /\ 0 <= ev_ch e < 128 /\ -1 <= ev_x e < w /\ -1 <= ev_y e < h.
Definition queue_ok (w h : Z) (q : evq_t) : Prop :=
  -1 <= last_mx q < w /\ -1 <= last_my q < h /\ exists l, evq_rep q l /\ Forall (event_ok w h) l.
Definition input_ok (w h : Z) (s : input_st) : Prop :=
  bounds_ok (in_mouse s) /\ bound_w (in_mouse s) = w /\ bound_h (in_mouse s) = h /\ 0 <= pkt_pos (in_mouse s) < 3 /\
  in_u8 (cur_scancode (in_kbd s)) /\ length (in_prev s) = 8%nat /\ bytes (in_prev s) /\ bytes (mouse_pkt (in_mouse s)) /\
  kbd_q (in_kbd s) = mouse_q (in_mouse s) /\ queue_ok w h (kbd_q (in_kbd s)).

Section Safe.
Context (w h : Z) (Hw : 1 <= w <= 1073741824) (Hh : 1 <= h <= 1073741824).

Lemma drop_push_ok l e : Forall (event_ok w h) l -> event_ok w h e -> Forall (event_ok w h) (drop_push l e).
Proof. intros Hl He. unfold drop_push. destruct (_ <? _)%nat; [|done]. apply Forall_app. split; [done|by constructor]. Qed.

Lemma push_key_ok c down ch q : queue_ok w h q -> 0 <= c < 256 -> 0 <= ch < 128 -> queue_ok w h (event_push_key c down ch q).
Proof.
  intros (Hx & Hy & l & Hq & Hl) Hc Hch. destruct (ev_step_refines (EKey c down ch) q l Hq) as (_ & Hq' & Hm). cbn [ev_step spec_step snd fst] in *.
  pose proof (f_equal (fun p => p.1.1) Hm) as E1. pose proof (f_equal (fun p => p.1.2) Hm) as E2. cbn [fst snd mouse_of] in E1, E2. unfold queue_ok. rewrite E1, E2. split; [done|]. split; [done|]. eexists. split; [exact Hq'|].
  apply drop_push_ok; [done|]. unfold event_ok. destruct down; cbn; lia || (split_and!; (done || lia)).
Qed.

Lemma fold_push_ok es l : Forall (event_ok w h) es -> Forall (event_ok w h) l -> Forall (event_ok w h) (fold_left drop_push es l).
Proof. intros He. revert l. induction He as [|e es He _ IH]; intros l Hl; [done|]. by apply IH, drop_push_ok. Qed.

Lemma push_mouse_ok x y b q : queue_ok w h q -> 0 <= x < w -> 0 <= y < h -> queue_ok w h (event_push_mouse x y b q).
Proof.
  intros (_ & _ & l & Hq & Hl) Hx Hy. destruct (ev_step_refines (EMouse x y b) q l Hq) as (_ & Hq' & Hm). cbn [ev_step spec_step snd fst] in *.
  pose proof (f_equal (fun p => p.1.1) Hm) as E1. pose proof (f_equal (fun p => p.1.2) Hm) as E2. cbn [fst snd mouse_of] in E1, E2. unfold queue_ok. rewrite E1, E2. split; [lia|]. split; [lia|]. eexists. split; [exact Hq'|].
  apply fold_push_ok; [|done]. unfold mouse_events, mouse_of. apply Forall_app. split.
  - apply Forall_fmap, Forall_forall. intros i [_ Hi]%list_elem_of_filter. unfold event_ok, compose. cbn [ev_type ev_code ev_ch ev_x ev_y].
    assert (0 <= 2 ^ i < 256) by (apply list_elem_of_In in Hi as [<-|[<-|[<-|[]]]]; done).
    split_and!; try lia. by destruct (Z.testbit b i).
  - destruct (bool_decide _); repeat constructor; cbn; (done || lia).
Qed.

Lemma poll_ok q : queue_ok w h q -> queue_ok w h (event_poll q).2.
Proof.
  intros (Hx & Hy & l & Hq & Hl). destruct (event_poll_rep q l Hq) as (_ & Hq' & Hm).
  pose proof (f_equal (fun p => p.1.1) Hm) as E1. pose proof (f_equal (fun p => p.1.2) Hm) as E2. cbn [fst snd mouse_of] in E1, E2.
  unfold queue_ok. rewrite E1, E2. split; [done|]. split; [done|]. exists (tail l). split; [done|]. by apply Forall_tail.
Qed.

(** What holds of the keyboard at every moment. *)
Definition kbd_ok (k : kbd_st) : Prop := in_u8 (cur_scancode k) /\ queue_ok w h (kbd_q k).

Lemma set_kbd_q_ok c down ch k : kbd_ok k -> 0 <= c < 256 -> 0 <= ch < 128 -> kbd_ok (set_kbd_q (event_push_key c down ch (kbd_q k)) k).
Proof. intros [H1 H2] Hc Hch. split; [done|]. by apply push_key_ok. Qed.

Lemma push_event_ok sc k : kbd_ok k -> in_u8 sc -> exists k', kbd_push_event sc k = Some k' /\ kbd_ok k'.
Proof.
  intros Hk Hsc. unfold kbd_push_event. destruct (is_break sc) eqn:Hb.
  - eexists. split; [reflexivity|]. assert (0 <= Z.land sc 0x7F < 256) by (pose proof (land_range sc 0x7F 7); lia).
    apply (set_kbd_q_ok _ _ _ (if is_shift (Z.land sc 127) then set_ev_shift 0 k else k)); [by destruct (is_shift _)|done|lia].
  - set (k1 := if is_shift sc then set_ev_shift 1 k else k). assert (Hk1 : kbd_ok k1) by (unfold k1; by destruct (is_shift sc)).
    destruct (key_char_ok (ev_shift k1) sc Hsc Hb) as (c & Ec & Hc).
    rewrite is_break_ge in Hb by done. rewrite (proj2 (Z.ltb_lt sc 128)) by (destruct (Z.leb_spec 128 sc); (done || lia)).
    rewrite Ec. cbn [mbind option_bind]. eexists. split; [reflexivity|]. apply set_kbd_q_ok; [done|word|done].
Qed.

Lemma callback_ok sc k : kbd_ok k -> in_u8 sc -> exists k', kb_callback sc k = Some k' /\ kbd_ok k'.
Proof.
  intros Hk Hsc. unfold kb_callback. destruct (sc =? 0xE0); [by eexists|]. destruct (negb (e0_prefix k =? 0)); cycle 1.
  { apply push_event_ok; [|done]. destruct Hk as [_ Hq]. by split. }
  destruct (negb (is_break sc)); [|by eexists].
  match goal with |- context [cur_scancode ?t >=? KEY_UP] => set (k1 := t) end.
  assert (Hk1 : kbd_ok k1).
  { unfold k1. destruct Hk as [Hc Hq].
    destruct (sc =? 0x48); [by split|]. destruct (sc =? 0x50); [by split|]. destruct (sc =? 0x4B); [by split|]. destruct (sc =? 0x4D); by split. }
  destruct (_ && _); [|by eexists]. eexists. split; [reflexivity|]. apply set_kbd_q_ok; [done|apply Hk1|lia].
Qed.

Lemma inject_ok sc k : kbd_ok k -> in_u8 sc -> exists k', kbd_inject_scancode sc k = Some k' /\ kbd_ok k'.
Proof.
  intros Hk Hsc. unfold kbd_inject_scancode. set (k1 := if cur_scancode k =? 0 then set_cur_scancode sc k else k).
  assert (Hk1 : kbd_ok k1) by (unfold k1; destruct (cur_scancode k =? 0); [|done]; destruct Hk; by split).
  destruct (_ && _); [|by apply push_event_ok]. eexists. split; [reflexivity|]. apply set_kbd_q_ok; [done|exact Hsc|lia].
Qed.

Lemma hid_scancode_ok k : in_u8 k -> exists sc, hid_scancode k = Some sc /\ 0 <= sc < 0x80.
Proof.
  intros Hk. unfold hid_scancode. destruct (Z.ltb_spec k 0x80); [|by exists 0].
  assert (HF : length hid_to_ps2 = 128%nat /\ Forall (fun c => 0 <= c < 0x80) hid_to_ps2) by (split; [done|]; eapply bool_decide_eq_true_1; by vm_compute).
  destruct HF as [HL HF]. destruct (lookup_lt_is_Some_2 hid_to_ps2 (Z.to_nat k) ltac:(word)) as [sc E]. exists sc. split; [done|]. by eapply Forall_lookup_1 in HF.
Qed.

Lemma press_new_ok ks prev k : kbd_ok k -> bytes ks -> exists k', press_new ks prev k = Some k' /\ kbd_ok k'.
Proof.
  intros Hk Hks. induction Hks as [|key ks Hkey _ IH]; [by exists k|]. cbn [press_new]. destruct (no_key key || in_report prev key); [exact IH|].
  destruct (hid_scancode_ok key Hkey) as (sc & -> & Hsc). cbn [mbind option_bind]. destruct (negb (sc =? 0)); [|exact IH]. apply inject_ok; [done|word].
Qed.

Lemma release_old_ok ks curr k : kbd_ok k -> bytes ks -> exists k', release_old ks curr k = Some k' /\ kbd_ok k'.
Proof.
  intros Hk Hks. revert k Hk. induction Hks as [|key ks Hkey _ IH]; intros k Hk; [by exists k|]. cbn [release_old].
  destruct (no_key key || in_report curr key); [by apply IH|].
  destruct (hid_scancode_ok key Hkey) as (sc & -> & Hsc). cbn [mbind option_bind]. destruct (negb (sc =? 0) && (sc <? 0x60)); [|by apply IH].
  destruct (inject_ok (Z.lor sc 0x80) k Hk) as (k1 & -> & Hk1); [pose proof (lor_range sc 0x80 8); word|]. by apply IH.
Qed.

Lemma kbd_report_ok prev curr k : kbd_ok k -> bytes prev -> bytes curr ->
  exists k', process_kbd_report prev curr k = Some (curr, k') /\ kbd_ok k'.
Proof.
  intros Hk Hp Hc. unfold process_kbd_report.
  assert (H1 : forall (b : bool) sc k, kbd_ok k -> in_u8 sc -> exists k', (if b then kbd_inject_scancode sc k else Some k) = Some k' /\ kbd_ok k').
  { intros [] sc k0 Hk0 Hsc; [by apply inject_ok|by exists k0]. }
  destruct (H1 (negb (has_shift prev) && has_shift curr) 0x2A k Hk ltac:(word)) as (k1 & -> & Hk1). cbn [mbind option_bind].
  destruct (H1 (has_shift prev && negb (has_shift curr)) 0xAA k1 Hk1 ltac:(word)) as (k2 & -> & Hk2). cbn [mbind option_bind].
  destruct (press_new_ok (slice curr 2 6) prev k2 Hk2) as (k3 & -> & Hk3); [by apply bytes_slice|]. cbn [mbind option_bind].
  destruct (release_old_ok (slice prev 2 6) curr k3 Hk3) as (k4 & -> & Hk4); [by apply bytes_slice|]. by exists k4.
Qed.

(** The mouse. *)
Definition mouse_ok (m : mouse_st) : Prop :=
  bounds_ok m /\ bound_w m = w /\ bound_h m = h /\ 0 <= pkt_pos m < 3 /\ bytes (mouse_pkt m) /\ queue_ok w h (mouse_q m).

Lemma s32_clamp b x d : 1 <= b <= 1073741824 -> 0 <= x < b -> -512 <= d <= 512 -> 0 <= clamp_x b (s32 (x + d)) < b.
Proof. intros Hb Hx Hd. rewrite s32_small, clamp_x_eq by lia. apply clamp_range. lia. Qed.

Lemma irq_ok status byte m : mouse_ok m -> in_u8 byte -> exists m', mouse_irq_handler status byte m = Some m' /\ mouse_ok m'.
Proof.
  intros ((Hbw & Hbh & Hx & Hy & Hl) & Ew & Eh & Hp & Hb & Hq) Hbyte. unfold mouse_irq_handler.
  destruct (Z.land status 1 =? 0); [by exists m|]. destruct ((pkt_pos m =? 0) && (Z.land byte 0x08 =? 0)); [by exists m|].
  unfold arr_put. rewrite (proj2 (Nat.ltb_lt _ _)) by (rewrite Hl; lia). cbn [mbind option_bind].
  assert (Hb' : bytes (<[Z.to_nat (pkt_pos m) := byte]> (mouse_pkt m))) by by apply Forall_insert.
  eexists. split; [reflexivity|]. destruct (Z.ltb_spec (pkt_pos m + 1) 3).
  - unfold mouse_ok, bounds_ok. cbn. rewrite length_insert. split_and!; (done || lia).
  - unfold mouse_ok, bounds_ok, mouse_decode. cbn [mouse_pkt bound_w bound_h state_x state_y pkt_pos mouse_q].
    set (pkt := <[_ := byte]> _) in *. assert (Hg : forall i, 0 <= default 0 (pkt !! i) < 256).
    { intros i. destruct (pkt !! i) eqn:E; [|cbn; lia]. eapply Forall_lookup_1 in Hb'; [|exact E]. exact Hb'. }
    pose proof (Hg 1%nat) as G1. pose proof (Hg 2%nat) as G2.
    match goal with |- context [s32 (state_x m + ?d)] => assert (Hdx : -512 <= d <= 512) by (repeat bcase; cbn [negb] in *; lia); set (dx := d) in * end.
    match goal with |- context [s32 (state_y m - ?d)] => assert (Hdy : -512 <= d <= 512) by (repeat bcase; cbn [negb] in *; lia); set (dy := d) in * end.
    pose proof (s32_clamp (bound_w m) (state_x m) dx Hbw Hx Hdx) as Hcx.
    pose proof (s32_clamp (bound_h m) (state_y m) (- dy) Hbh Hy ltac:(lia)) as Hcy. rewrite Z.add_opp_r in Hcy.
    split_and!; try done; try lia; [unfold pkt; by rewrite length_insert|]. apply push_mouse_ok; [done|by rewrite <- Ew|by rewrite <- Eh].
Qed.

Lemma inject_delta_ok dx dy b m : mouse_ok m -> -512 <= dx <= 512 -> -512 <= dy <= 512 -> mouse_ok (mouse_inject_delta dx dy b m).
Proof.
  intros ((Hbw & Hbh & Hx & Hy & Hl) & Ew & Eh & Hp & Hb & Hq) Hdx Hdy. unfold mouse_inject_delta, mouse_ok, bounds_ok.
  pose proof (s32_clamp (bound_w m) (state_x m) dx Hbw Hx Hdx) as Hcx.
  pose proof (s32_clamp (bound_h m) (state_y m) (- dy) Hbh Hy ltac:(lia)) as Hcy. rewrite Z.add_opp_r in Hcy.
  cbn [mouse_pkt bound_w bound_h state_x state_y pkt_pos mouse_q]. split_and!; try done; try lia.
  apply push_mouse_ok; [done|by rewrite <- Ew|by rewrite <- Eh].
Qed.

Lemma s8_range x : -128 <= s8 x < 128.
Proof. unfold s8. zlia. Qed.

(** The state as its two halves. *)
Lemma input_ok_iff s : input_ok w h s <->
  mouse_ok (in_mouse s) /\ kbd_ok (in_kbd s) /\ length (in_prev s) = 8%nat /\ bytes (in_prev s) /\ kbd_q (in_kbd s) = mouse_q (in_mouse s).
Proof.
  unfold input_ok, mouse_ok, kbd_ok. split; [|tauto]. intros (? & ? & ? & ? & ? & ? & ? & ? & E & Hq). rewrite <- E. tauto.
Qed.

Lemma with_kbd_ok s k : input_ok w h s -> kbd_ok k -> input_ok w h (with_kbd k s).
Proof.
  rewrite !input_ok_iff. intros ((H1 & H2 & H3 & H4 & H5 & _) & _ & H6 & H7 & _) [Hc Hq]. cbn. by split_and!.
Qed.
Lemma with_mouse_ok s m : input_ok w h s -> mouse_ok m -> input_ok w h (with_mouse m s).
Proof. rewrite !input_ok_iff. intros (_ & [Hc _] & H6 & H7 & _) Hm. cbn. split_and!; try done. split; [done|]. apply Hm. Qed.

Lemma input_step_ok op s : input_ok w h s -> input_op_ok op -> exists s', input_step op s = Some s' /\ input_ok w h s'.
Proof.
  intros Hs Hop. pose proof Hs as (Hm & Hk & Hl & Hb & E)%input_ok_iff.
  destruct op as [byte|status byte|rep|rep len| | |]; cbn [input_step input_op_ok] in *.
  - destruct (callback_ok byte _ Hk Hop) as (k & -> & Hk'). eexists. split; [reflexivity|]. by apply with_kbd_ok.
  - destruct (irq_ok status byte _ Hm Hop) as (m & -> & Hm'). eexists. split; [reflexivity|]. by apply with_mouse_ok.
  - destruct Hop as [Hlr Hbr]. destruct (kbd_report_ok (in_prev s) rep _ Hk Hb Hbr) as (k & -> & Hk'). eexists. split; [reflexivity|].
    apply (with_kbd_ok s k) in Hs; [|done]. rewrite input_ok_iff in *. cbn in *. tauto.
  - assert (Hr : exists m, process_mouse_report rep len (in_mouse s) = Some m /\ mouse_ok m).
    { unfold process_mouse_report, arr_get. destruct (len <? 3); [by eexists|]. destruct rep as [|b [|x [|y rep]]]; cbn in Hop; try lia.
      cbn [lookup list_lookup Z.to_nat Pos.to_nat Pos.iter_op Init.Nat.add mbind option_bind]. eexists. split; [reflexivity|].
      pose proof (s8_range x). pose proof (s8_range y). apply inject_delta_ok; (done || lia). }
    destruct Hr as (m & -> & Hm'). eexists. split; [reflexivity|]. by apply with_mouse_ok.
  - eexists. split; [reflexivity|]. apply with_kbd_ok; [done|]. destruct Hk as [Hc Hq]. split; [done|]. by apply poll_ok.
  - eexists. split; [reflexivity|]. apply with_kbd_ok; [done|]. destruct Hk as [Hc Hq]. by split.
  - eexists. split; [reflexivity|]. apply with_mouse_ok; [done|]. unfold mouse_ok, bounds_ok in *. cbn. tauto.
Qed.

Lemma input_init_ok : input_ok w h (input_init w h).
Proof.
  apply input_ok_iff. unfold input_init, mouse_ok, bounds_ok, kbd_ok, queue_ok. cbn [in_mouse in_kbd in_prev with_kbd set_mouse_q set_kbd_q mouse_set_bounds
    kbd_q mouse_q bound_w bound_h state_x state_y mouse_pkt pkt_pos cur_scancode kbd_bss mouse_bss].
  rewrite !Z.gtb_ltb, !(proj2 (Z.ltb_lt _ _)) by lia.
  assert (Hq : exists l, evq_rep (event_init evq_bss) l /\ Forall (event_ok w h) l) by (exists []; split; [by apply evq_init_rep|done]).
  split_and!; try done; try (cbn; lia); repeat constructor; cbn; lia.
Qed.
End Safe.

(** C28 (keyboard.c, mouse.c, usbhid.c, event.c, every handler): on a screen of
    [w] x [h], every interleaving of keyboard and mouse interrupts, USB
    reports (eight bytes from a keyboard, three or more from a mouse), event
    polls and reads runs without an access outside the keymaps, the reports,
    the packet and the queue, and keeps the drivers well typed: the position on
    the screen, the packet counter below 3, at most 128 events queued, each
    with a byte code, an ASCII character and a position on the screen. *)
Theorem input_run_safe (w h : Z) (ops : list input_op) :
  1 <= w <= 1073741824 -> 1 <= h <= 1073741824 -> Forall input_op_ok ops ->
  exists s, input_run ops (input_init w h) = Some s /\ input_ok w h s.
Proof.
  intros Hw Hh Hops. pose proof (input_init_ok w h Hw Hh) as Hs. revert Hs. generalize (input_init w h) as s0.
  induction Hops as [|op ops Hop _ IH]; intros s0 Hs; [by exists s0|]. cbn [input_run].
  destruct (input_step_ok w h Hw Hh op s0 Hs Hop) as (s1 & -> & Hs1). by apply IH.
Qed.

Lemma input_run_safe_witness :
  let ops := [IMouse 0x21 0x18; IKey 0xE0; IMouse 0x21 0xFF; IKey 0x48; IMouse 0x21 0; IUsbKbd [2; 0; 4; 0; 0; 0; 0; 0]; IPoll;
              IUsbMouse [1; 5; 250] 3; IScancode; IDelta] in
  exists s, input_run ops (input_init 320 200) = Some s /\ input_ok 320 200 s.
Proof.
  cbv zeta. apply (input_run_safe 320 200); [lia|lia|].
  repeat match goal with |- Forall _ (_ :: _) => constructor end; try constructor; cbn; try (repeat constructor; by vm_compute); by vm_compute.
Defined.

(** ** Examples *)

Module InputDemo.
Definition kbd0 : kbd_st := set_kbd_q (event_init evq_bss) kbd_bss.
Definition usb (rs : list (list Z)) (k : kbd_st) : kbd_st := match usb_run rs (replicate 8 0) k with Some (_, k) => k | None => kbd_bss end.
Definition ps2 (bs : list Z) : kbd_st := match kbd_run bs kbd0 with Some k => k | None => kbd_bss end.
(** The events of a queue, as direction and code. *)
Fixpoint drain (n : nat) (q : evq_t) : list (event_type_t * Z) :=
  match n with O => [] | S n => match event_poll q with (Some e, q) => (ev_type e, ev_code e) :: drain n q | (None, _) => [] end end.

(** "a" and "b" going down in one report: the press of "b" is never seen, its
    release is. *)
Example two_keys_ex :
  drain 9 (kbd_q (usb [[0; 0; 4; 5; 0; 0; 0; 0]; replicate 8 0] kbd0)) = [(EV_KEY_DOWN, 0x1E); (EV_KEY_UP, 0x1E); (EV_KEY_UP, 0x30)].
Proof. by vm_compute. Qed.

(** Shift and "a" in one report: the line editor sees the shift only; and the
    release of Shift is lost to it while a key is pending. *)
Example shift_key_ex : cur_scancode (usb [[2; 0; 4; 0; 0; 0; 0; 0]] kbd0) = 0x2A.
Proof. by vm_compute. Qed.
Example shift_lost_ex : option_map (fun r => cur_scancode r.2) (process_kbd_report [2; 0; 0; 0; 0; 0; 0; 0] (replicate 8 0) (set_cur_scancode 0x1E kbd0)) = Some 0x1E.
Proof. by vm_compute. Qed.

(** An arrow that nobody has read yet is reported again at the next extended
    key that is not an arrow. *)
Example ext_ex : drain 9 (kbd_q (ps2 [0xE0; 0x48; 0xE0; 0xC8; 0xE0; 0x5B])) = [(EV_KEY_DOWN, KEY_UP); (EV_KEY_DOWN, KEY_UP)].
Proof. by vm_compute. Qed.

(** The interval of 10 ms is rounded down. *)
Example interval_ex : ep_interval_field 1 10 = 6.
Proof. by vm_compute. Qed.

(** A descriptor that announces more than there is: the class of the interface
    is read behind the buffer. *)
Example short_desc_ex : find_hid_boot_ep [9; 4] 2 = None.
Proof. by vm_compute. Qed.

(** [dy] counts upwards, and the movement is not added to the deltas. *)
Example inject_ex :
  let m := mouse_inject_delta 0 5 0 (mouse_inject_delta 0 (-100) 0 mouse_bss) in (state_y m, state_dy m) = (95, 0).
Proof. by vm_compute. Qed.

(** The usages of letters and digits type themselves. *)
Example hid_chars_ex : (fun u => sc ← hid_scancode u; key_char 0 sc) <$> (Z.of_nat <$> seq 4 36) =
  Some <$> (map (fun c => 97 + c) (Z.of_nat <$> seq 0 26) ++ map (fun c => 49 + c) (Z.of_nat <$> seq 0 9) ++ [48]).
Proof. by vm_compute. Qed.
End InputDemo.
