(* ===== verification/Hw.v ===== *)
(** * Ports, registers and DMA

    What the drivers of src/drivers/ do to hardware: reads and writes of I/O
    ports (cpu/ports.c), of memory-mapped registers, and of memory that a
    device reads and writes too. The hardware is the state [W] of a machine of
    which nothing is known but that it answers; what a driver relies on
    beyond that is a class of its own (the view of a device and the laws of its
    data sheet), stated where the driver is proved. *)

From S2P Require Import Prelude.

(** A read may change the device. *)
Class Ports (W : Type) := {
  hw_in8 : Z -> W -> Z * W;
  hw_in16 : Z -> W -> Z * W;
  hw_in32 : Z -> W -> Z * W;
  hw_out8 : Z -> Z -> W -> W;
  hw_out16 : Z -> Z -> W -> W;
  hw_out32 : Z -> Z -> W -> W;
}.
Class Mmio (W : Type) := {
  hw_rd32 : Z -> W -> Z * W;
  hw_wr32 : Z -> Z -> W -> W;
}.
(** Memory that devices share: [dma] is what they do to the machine between
    two volatile reads; otherwise memory is the processor's. *)
Class Dma (W : Type) := {
  mem : W -> Z -> Z;
  set_mem_at : Z -> list Z -> W -> W;
  dma : W -> W;
}.
(** The counter of the timer interrupt. *)
Class Clock (W : Type) := { hw_tick : W -> Z * W }.

Section Ports.
Context {W : Type} `{!Ports W, !Mmio W, !Dma W, !Clock W}.

Definition port_byte_in (port : Z) : M W Z := fun w => let '(v, w) := hw_in8 (u16 port) w in Some (u8 v, w).
Definition port_word_in (port : Z) : M W Z := fun w => let '(v, w) := hw_in16 (u16 port) w in Some (u16 v, w).
Definition port_dword_in (port : Z) : M W Z := fun w => let '(v, w) := hw_in32 (u16 port) w in Some (u32 v, w).
Definition port_byte_out (port v : Z) : M W unit := modify (hw_out8 (u16 port) (u8 v)).
Definition port_word_out (port v : Z) : M W unit := modify (hw_out16 (u16 port) (u16 v)).
Definition port_dword_out (port v : Z) : M W unit := modify (hw_out32 (u16 port) (u32 v)).
Definition rd32 (a : Z) : M W Z := fun w => let '(v, w) := hw_rd32 (u64 a) w in Some (u32 v, w).
Definition wr32 (a v : Z) : M W unit := modify (hw_wr32 (u64 a) (u32 v)).
Definition get_tick : M W Z := fun w => let '(v, w) := hw_tick w in Some (u64 v, w).

(** [n] bytes of memory from [a] on, and a byte list stored there. *)
Definition mem_bytes (w : W) (a : Z) (n : nat) : list Z := map (fun i => mem w (a + Z.of_nat i)) (seq 0 n).
Definition mem_load_bytes (a : Z) (n : nat) : M W (list Z) := gets (fun w => mem_bytes w a n).
Definition mem_store_bytes (a : Z) (l : list Z) : M W unit := modify (set_mem_at a l).
(** A volatile read: the devices have acted before it. *)
Definition vload (a : Z) (n : nat) : M W Z := modify dma;; l ← mem_load_bytes a n; mret (le_val l).
Lemma vload_eq a n w : vload a n w = Some (le_val (mem_bytes (dma w) a n), dma w).
Proof. reflexivity. Qed.
End Ports.

(** The programs over a machine end on every machine: a property of the code
    alone, which no answer of a device can break. *)
Definition returns {W A} (m : M W A) : Prop := forall w, exists a w', m w = Some (a, w').

Section Returns.
Context {W : Type}.
Lemma returns_ret {A} (a : A) : returns (W := W) (mret a).
Proof. intros w. by exists a, w. Qed.
Lemma returns_bind {A B} (m : M W A) (f : A -> M W B) : returns m -> (forall a, returns (f a)) -> returns (x ← m; f x).
Proof. intros Hm Hf w. destruct (Hm w) as (a & w1 & E). rewrite (bind_eq _ _ _ _ _ E). apply Hf. Qed.
Lemma returns_gets {A} (f : W -> A) : returns (gets f).
Proof. intros w. by exists (f w), w. Qed.
Lemma returns_modify (f : W -> W) : returns (modify f).
Proof. intros w. by exists tt, (f w). Qed.
Lemma returns_when b (m : M W unit) : returns m -> returns (when b m).
Proof. destruct b; [done|]. intros _. apply returns_ret. Qed.
Lemma returns_lift {A} (o : option A) : is_Some o -> returns (W := W) (lift_option o).
Proof. intros [a ->] w. by exists a, w. Qed.
Lemma returns_if {A} (b : bool) (m n : M W A) : returns m -> returns n -> returns (if b then m else n).
Proof. by destruct b. Qed.
Lemma returns_total {A B} (f : W -> A * W) (g : A -> B) : returns (fun w => let '(a, w) := f w in Some (g a, w)).
Proof. intros w. cbv beta. destruct (f w) as [a w']. by exists (g a), w'. Qed.
Context `{!Ports W, !Mmio W, !Dma W, !Clock W}.
Lemma returns_inb p : returns (port_byte_in p). Proof. apply (returns_total (hw_in8 (u16 p)) u8). Qed.
Lemma returns_inw p : returns (port_word_in p). Proof. apply (returns_total (hw_in16 (u16 p)) u16). Qed.
Lemma returns_inl p : returns (port_dword_in p). Proof. apply (returns_total (hw_in32 (u16 p)) u32). Qed.
Lemma returns_rd32 a : returns (rd32 a). Proof. apply (returns_total (hw_rd32 (u64 a)) u32). Qed.
Lemma returns_tick : returns get_tick. Proof. apply (returns_total hw_tick u64). Qed.
Lemma returns_outb p v : returns (port_byte_out p v). Proof. apply returns_modify. Qed.
Lemma returns_outw p v : returns (port_word_out p v). Proof. apply returns_modify. Qed.
Lemma returns_outl p v : returns (port_dword_out p v). Proof. apply returns_modify. Qed.
Lemma returns_wr32 a v : returns (wr32 a v). Proof. apply returns_modify. Qed.
Lemma returns_load a n : returns (mem_load_bytes a n). Proof. apply returns_gets. Qed.
Lemma returns_store a l : returns (mem_store_bytes a l). Proof. apply returns_modify. Qed.
Lemma returns_vload a n : returns (vload a n).
Proof. apply returns_bind; [apply returns_modify|]. intros _. apply returns_bind; [apply returns_load|]. intros l. apply returns_ret. Qed.
End Returns.

Create HintDb hw.
#[export] Hint Resolve returns_ret returns_gets returns_modify returns_when returns_if returns_inb returns_inw returns_inl
  returns_rd32 returns_tick returns_outb returns_outw returns_outl returns_wr32 returns_load returns_store returns_vload : hw.

(** Splits a program into its steps, leaving the loops and what they need. *)
Ltac rsolve :=
  repeat lazymatch goal with
  | |- returns (mbind _ _) => apply returns_bind; [|intros ?]
  | |- returns (if _ then _ else _) => apply returns_if
  | |- returns (match ?x with _ => _ end) => destruct x
  | |- returns (when _ _) => apply returns_when
  | |- returns (let _ := _ in _) => cbv zeta
  end; auto with hw.
