(* ===== verification/Pci.v ===== *)
(** * drivers/pci.c: the configuration space

    Reads and writes of configuration registers through the two ports of the
    host bridge, the fields of a header, and the walk over the capability list.
    [PciBridge] is what a bridge promises about its ports; the walk is proved
    against it, for lists that are cyclic as well. *)

From S2P Require Import Prelude Hw.

Section Pci.
Context {W : Type} `{!Ports W}.

Definition pci_address (bus slot func offset : Z) : Z :=
  Z.lor (Z.lor (Z.lor (Z.lor (Z.shiftl 1 31) (Z.shiftl bus 16)) (Z.shiftl slot 11)) (Z.shiftl func 8)) (Z.land offset 0xFC).

Definition pci_config_read_word (bus slot func offset : Z) : M W Z :=
  port_dword_out 0xCF8 (pci_address bus slot func offset);;
  v ← port_dword_in 0xCFC;
  mret (u16 (Z.land (Z.shiftr v (Z.land offset 2 * 8)) 0xFFFF)).
Definition pci_config_read_dword (bus slot func offset : Z) : M W Z :=
  port_dword_out 0xCF8 (pci_address bus slot func offset);;
  port_dword_in 0xCFC.
Definition pci_config_write_dword (bus slot func offset value : Z) : M W unit :=
  port_dword_out 0xCF8 (pci_address bus slot func offset);;
  port_dword_out 0xCFC value.

Definition pci_get_vendor (bus slot func : Z) : M W Z := pci_config_read_word bus slot func 0.
Definition pci_get_device (bus slot func : Z) : M W Z :=
  vendor_device ← pci_config_read_dword bus slot func 0;
  let vendor := u16 (Z.land vendor_device 0xFFFF) in
  if negb (vendor =? 0xFFFF) then mret (u16 (Z.land (Z.shiftr vendor_device 16) 0xFFFF)) else mret vendor.
Definition pci_get_class_code (bus slot func : Z) : M W Z :=
  v ← pci_config_read_word bus slot func 10; mret (u8 (Z.land (Z.shiftr v 8) 0xFF)).
Definition pci_get_subclass (bus slot func : Z) : M W Z :=
  v ← pci_config_read_word bus slot func 10; mret (u8 (Z.land v 0xFF)).
Definition pci_get_progif (bus slot func : Z) : M W Z :=
  v ← pci_config_read_word bus slot func 8; mret (u8 (Z.land (Z.shiftr v 8) 0xFF)).
Definition pci_get_revision (bus slot func : Z) : M W Z :=
  v ← pci_config_read_word bus slot func 8; mret (u8 (Z.land v 0xFF)).
Definition pci_get_header_type (bus slot func : Z) : M W Z :=
  v ← pci_config_read_word bus slot func 0x0E; mret (u8 (Z.land v 0xFF)).
Definition pci_is_multifunction (bus slot : Z) : M W bool :=
  vendor ← pci_get_vendor bus slot 0;
  if vendor =? 0xFFFF then mret false
  else t ← pci_get_header_type bus slot 0; mret (negb (Z.land t 0x80 =? 0)).

(** The loop over the list: [n] is [48 - visited]. *)
Fixpoint cap_loop (n : nat) (bus slot func cap_id cap_ptr : Z) : M W Z :=
  match n with
  | O => mret 0
  | S n =>
    if cap_ptr =? 0 then mret 0
    else
      cap_dw ← pci_config_read_dword bus slot func cap_ptr;
      let id := u8 (Z.land cap_dw 0xFF) in
      let next := u8 (Z.land (Z.shiftr cap_dw 8) 0xFF) in
      if id =? cap_id then mret cap_ptr else cap_loop n bus slot func cap_id (Z.land next 0xFC)
  end.
Definition pci_find_cap (bus slot func cap_id : Z) : M W Z :=
  status ← pci_config_read_word bus slot func 0x06;
  if Z.land status (Z.shiftl 1 4) =? 0 then mret 0
  else
    v ← pci_config_read_dword bus slot func 0x34;
    cap_loop 48 bus slot func cap_id (Z.land (u8 (Z.land v 0xFF)) 0xFC).

(** The first 16 bytes of a header, or only the vendor of no device. *)
Definition pci_get_base_device_header (bus slot func : Z) : M W (list Z) :=
  vendor ← pci_get_vendor bus slot func;
  if vendor =? 0xFFFF then mret (le_bytes 2 0xFFFF ++ replicate 14 0)
  else
    r0 ← pci_config_read_dword bus slot func 0x0;
    r1 ← pci_config_read_dword bus slot func 0x4;
    r2 ← pci_config_read_dword bus slot func 0x8;
    r3 ← pci_config_read_dword bus slot func 0xC;
    mret (flat_map (le_bytes 4) [r0; r1; r2; r3]).
End Pci.

Lemma land_fc x : 0 <= x < 256 -> Z.land x 0xFC = x / 4 * 4.
Proof.
  intros Hx. apply Z.bits_inj'. intros i Hi. rewrite Z.land_spec.
  replace (x / 4 * 4) with (Z.shiftl (Z.shiftr x 2) 2) by (rewrite Z.shiftl_mul_pow2, Z.shiftr_div_pow2 by lia; done).
  rewrite Z.shiftl_spec by lia. destruct (Z.lt_ge_cases i 2).
  { rewrite (Z.testbit_neg_r _ (i - 2)) by lia. assert (i = 0 \/ i = 1) as [-> | ->] by lia; by rewrite andb_comm. }
  rewrite Z.shiftr_spec by lia. replace (i - 2 + 2) with i by lia. destruct (Z.lt_ge_cases i 8).
  - assert (i = 2 \/ i = 3 \/ i = 4 \/ i = 5 \/ i = 6 \/ i = 7) as Hc by lia. repeat destruct Hc as [->|Hc]; try rewrite Hc; by rewrite andb_comm.
  - by rewrite (testbit_high x 8 i) by lia.
Qed.

(** ** A bridge *)

(** The registers of all functions by the address that selects them; reading
    changes nothing that can be seen. *)
Class PciBridge (W : Type) `{!Ports W} := {
  cfg : W -> Z -> Z;
  selected : W -> Z;
  br_select w a : selected (hw_out32 0xCF8 a w) = a /\ cfg (hw_out32 0xCF8 a w) = cfg w;
  br_read w : let '(v, w') := hw_in32 0xCFC w in u32 v = u32 (cfg w (selected w)) /\ selected w' = selected w /\ cfg w' = cfg w;
}.

Section Bridge.
Context {W : Type} `{!Ports W, !PciBridge W}.

(** The address of a register names it: no two share one. *)
Definition bdf_ok (bus slot func : Z) : Prop := 0 <= bus < 256 /\ 0 <= slot < 32 /\ 0 <= func < 8.
Lemma pci_address_eq bus slot func offset : bdf_ok bus slot func -> 0 <= offset < 256 ->
  pci_address bus slot func offset = 2 ^ 31 + 2 ^ 16 * bus + 2 ^ 11 * slot + 2 ^ 8 * func + 4 * (offset / 4).
Proof using.
  intros (Hb & Hs & Hf) Ho. unfold pci_address.
  rewrite land_fc by done. set (o := offset / 4). assert (0 <= o < 64) by (unfold o; zlia).
  change (Z.shiftl 1 31) with (2 ^ 15 * 2 ^ 16). rewrite (Z.shiftl_mul_pow2 bus), (Z.shiftl_mul_pow2 slot), (Z.shiftl_mul_pow2 func) by lia.
  rewrite <- (Z.shiftl_mul_pow2 bus 16), <- (Z.shiftl_mul_pow2 (2 ^ 15) 16), <- Z.shiftl_lor by lia.
  rewrite (Z.shiftl_mul_pow2 _ 16) by lia. replace (Z.lor (2 ^ 15) bus) with (2 ^ 15 + bus).
  2:{ change (2 ^ 15) with (2 ^ 7 * 2 ^ 8). rewrite lor_add_low; lia. }
  replace ((2 ^ 15 + bus) * 2 ^ 16) with (((2 ^ 15 + bus) * 2 ^ 5) * 2 ^ 11) by lia.
  rewrite <- (Z.shiftl_mul_pow2 slot 11), <- (Z.shiftl_mul_pow2 _ 11), <- Z.shiftl_lor by lia.
  rewrite lor_add_low by lia. rewrite Z.shiftl_mul_pow2 by lia.
  replace (((2 ^ 15 + bus) * 2 ^ 5 + slot) * 2 ^ 11) with ((((2 ^ 15 + bus) * 2 ^ 5 + slot) * 2 ^ 3) * 2 ^ 8) by lia.
  rewrite <- (Z.shiftl_mul_pow2 func 8), <- (Z.shiftl_mul_pow2 _ 8), <- Z.shiftl_lor by lia.
  rewrite lor_add_low by lia. rewrite Z.shiftl_mul_pow2 by lia. rewrite lor_add_low by lia. lia.
Qed.
Lemma pci_address_inj bus slot func offset bus' slot' func' offset' :
  bdf_ok bus slot func -> bdf_ok bus' slot' func' -> 0 <= offset < 256 -> 0 <= offset' < 256 ->
  pci_address bus slot func offset = pci_address bus' slot' func' offset' ->
  bus = bus' /\ slot = slot' /\ func = func' /\ offset / 4 = offset' / 4.
Proof using. intros H H' Ho Ho'. rewrite !pci_address_eq by done. destruct H as (?&?&?), H' as (?&?&?). zlia. Qed.

(** A register of a function. *)
Definition creg (w : W) (bus slot func off : Z) : Z := u32 (cfg w (u32 (pci_address bus slot func off))).
Definition same_cfg (w w' : W) : Prop := cfg w' = cfg w.

Lemma read_dword_ok bus slot func off w : exists w', pci_config_read_dword bus slot func off w = Some (creg w bus slot func off, w') /\ same_cfg w w'.
Proof using PciBridge0.
  unfold pci_config_read_dword, port_dword_out. change (u16 0xCF8) with 0xCF8. set (a := u32 _).
  rewrite (bind_eq _ _ _ tt (hw_out32 0xCF8 a w)) by done. destruct (br_select w a) as [Hs Hc]. unfold port_dword_in. change (u16 0xCFC) with 0xCFC.
  pose proof (br_read (hw_out32 0xCF8 a w)) as H. destruct (hw_in32 0xCFC (hw_out32 0xCF8 a w)) as [v w']. destruct H as (Hv & _ & Hc').
  exists w'. split; [|unfold same_cfg; congruence]. rewrite Hv, Hs, Hc. done.
Qed.
Lemma read_word_ok bus slot func off w : exists w', pci_config_read_word bus slot func off w =
  Some (u16 (Z.land (Z.shiftr (creg w bus slot func off) (Z.land off 2 * 8)) 0xFFFF), w') /\ same_cfg w w'.
Proof using PciBridge0.
  destruct (read_dword_ok bus slot func off w) as (w' & E & H). exists w'. split; [|done].
  change (pci_config_read_word bus slot func off) with
    (fun w => match pci_config_read_dword bus slot func off w with Some (v, w') => (mret (u16 (Z.land (Z.shiftr v (Z.land off 2 * 8)) 0xFFFF)) : M W Z) w' | None => None end).
  cbv beta. by rewrite E.
Qed.

(** ** The capability list *)

(** The pointer behind a capability, 0 at the end. *)
Definition cap_next (w : W) (bus slot func p : Z) : Z := Z.land (u8 (Z.land (Z.shiftr (creg w bus slot func p) 8) 0xFF)) 0xFC.
Definition cap_id_at (w : W) (bus slot func p : Z) : Z := u8 (Z.land (creg w bus slot func p) 0xFF).
Definition cap_head (w : W) (bus slot func : Z) : Z := Z.land (u8 (Z.land (creg w bus slot func 0x34) 0xFF)) 0xFC.
(** The capabilities of a list, whether it ends or not. *)
Inductive on_list (w : W) (bus slot func : Z) : Z -> Prop :=
| list_head : cap_head w bus slot func <> 0 -> on_list w bus slot func (cap_head w bus slot func)
| list_step p : on_list w bus slot func p -> cap_next w bus slot func p <> 0 -> on_list w bus slot func (cap_next w bus slot func p).
Definition has_list (w : W) (bus slot func : Z) : bool := negb (Z.land (u16 (Z.land (Z.shiftr (creg w bus slot func 6) 16) 0xFFFF)) 16 =? 0).
End Bridge.

(** A walk that stays among 48 places has seen all it will ever see after 48
    steps. *)
Section Walk.
Context (f : Z -> Z) (p0 : Z) (places : list Z).
Fixpoint step_n (k : nat) : Z := match k with O => p0 | S k => if step_n k =? 0 then 0 else f (step_n k) end.

Lemma step_zero k j : step_n k = 0 -> (k <= j)%nat -> step_n j = 0.
Proof using. intros H. induction 1 as [|j _ IH]; [done|]. cbn [step_n]. by rewrite IH. Qed.
Lemma step_add i j k : step_n i = step_n j -> step_n (i + k) = step_n (j + k).
Proof using. intros H. induction k as [|k IH]; [by rewrite !Nat.add_0_r|]. rewrite !Nat.add_succ_r. cbn [step_n]. by rewrite IH. Qed.

Lemma not_nodup {A} `{!EqDecision A} (l : list A) : ~ NoDup l -> exists i j x, (i < j)%nat /\ l !! i = Some x /\ l !! j = Some x.
Proof using.
  induction l as [|x l IH]; intros H; [by destruct H; constructor|]. destruct (decide (x ∈ l)) as [Hx|Hx].
  - apply list_elem_of_lookup in Hx as [j Hj]. exists 0%nat, (S j), x. split; [lia|done].
  - destruct IH as (i & j & y & Hij & Hi & Hj); [by intros Hn; apply H; constructor|]. exists (S i), (S j), y. split; [lia|done].
Qed.

Lemma walk_seen k : (forall j, step_n j <> 0 -> step_n j ∈ places) -> step_n k <> 0 -> exists j, (j < length places)%nat /\ step_n j = step_n k.
Proof using.
  intros Hp. induction k as [k IH] using lt_wf_ind. intros Hk. destruct (decide (k < length places)%nat) as [|Hge]; [by exists k|].
  assert (Hnz : forall j, (j <= k)%nat -> step_n j <> 0) by (intros j Hj Hz; apply Hk; by apply (step_zero j)).
  set (l := map step_n (seq 0 (S (length places)))).
  destruct (not_nodup l) as (i & j & x & Hij & Hi & Hj).
  { intros Hn. assert (length l <= length places)%nat; [|unfold l in *; rewrite length_map, length_seq in *; lia].
    apply NoDup_incl_length; [by apply NoDup_ListNoDup|]. intros x Hx. apply in_map_iff in Hx as (j & <- & Hj). apply in_seq in Hj.
    apply list_elem_of_In, Hp, Hnz. lia. }
  unfold l in Hi, Hj. rewrite list_lookup_fmap in Hi, Hj.
  assert (Hjl : (j < S (length places))%nat).
  { destruct (decide (j < S (length places))%nat); [done|]. rewrite lookup_seq_ge in Hj by lia. done. }
  rewrite lookup_seq_lt in Hi, Hj by lia. cbn in Hi, Hj. injection Hi as Hi. injection Hj as Hj.
  destruct (IH (i + (k - j))%nat ltac:(lia)) as (m & Hm & Em).
  - rewrite (step_add i j) by congruence. by replace (j + (k - j))%nat with k by lia.
  - exists m. split; [done|]. rewrite Em, (step_add i j) by congruence. by replace (j + (k - j))%nat with k by lia.
Qed.
End Walk.

Definition cap_places : list Z := map (fun i => 64 + 4 * Z.of_nat i) (seq 0 48).
Lemma ptr_place x : 64 <= Z.land (u8 x) 0xFC -> Z.land (u8 x) 0xFC ∈ cap_places.
Proof.
  rewrite land_fc by apply u8_range. intros H. apply list_elem_of_In, in_map_iff. exists (Z.to_nat (u8 x / 4 - 16)). split; [lia|]. apply in_seq. word.
Qed.

Section Caps.
Context {W : Type} `{!Ports W, !PciBridge W} (w0 : W) (bus slot func : Z).
Let next := cap_next w0 bus slot func.
Let head := cap_head w0 bus slot func.

Lemma creg_same w off : same_cfg w0 w -> creg w bus slot func off = creg w0 bus slot func off.
Proof using. unfold same_cfg, creg. by intros ->. Qed.

(** The loop is the search along the walk. *)
Lemma cap_loop_ok n k cap_id w : same_cfg w0 w -> exists r w', cap_loop n bus slot func cap_id (step_n next head k) w = Some (r, w') /\ same_cfg w0 w' /\
  ((exists j, (k <= j < k + n)%nat /\ r = step_n next head j /\ r <> 0 /\ cap_id_at w0 bus slot func r = cap_id) \/
   (r = 0 /\ forall j, (k <= j < k + n)%nat -> step_n next head j <> 0 -> cap_id_at w0 bus slot func (step_n next head j) <> cap_id)).
Proof using PciBridge0.
  revert k w. induction n as [|n IH]; intros k w Hw; cbn [cap_loop].
  { exists 0, w. split; [done|]. split; [done|]. right. split; [done|]. intros j Hj. lia. }
  destruct (Z.eqb_spec (step_n next head k) 0) as [E0|E0].
  { exists 0, w. split; [done|]. split; [done|]. right. split; [done|]. intros j Hj Hn. destruct Hn. apply (step_zero _ _ k); [done|lia]. }
  destruct (read_dword_ok bus slot func (step_n next head k) w) as (w1 & E1 & H1). rewrite (bind_eq _ _ _ _ _ E1), (creg_same w _ Hw).
  assert (Hw1 : same_cfg w0 w1) by (unfold same_cfg in *; congruence). fold (cap_id_at w0 bus slot func (step_n next head k)).
  destruct (Z.eqb_spec (cap_id_at w0 bus slot func (step_n next head k)) cap_id) as [Eid|Eid].
  { exists (step_n next head k), w1. split; [done|]. split; [done|]. left. exists k. split_and!; [lia|lia|done|done|done]. }
  fold (cap_next w0 bus slot func (step_n next head k)). destruct (IH (S k) w1 Hw1) as (r & w' & E & Hs & H).
  cbn [step_n] in E. rewrite (proj2 (Z.eqb_neq _ _) E0) in E. exists r, w'. split; [exact E|]. split; [done|]. destruct H as [(j & Hj & H)|[-> H]].
  - left. exists j. split; [lia|done].
  - right. split; [done|]. intros j Hj Hn. destruct (decide (j = k)) as [->|]; [done|]. apply H; [lia|done].
Qed.

Lemma on_list_walk p : on_list w0 bus slot func p <-> p <> 0 /\ exists k, p = step_n next head k.
Proof using.
  split.
  - induction 1 as [H|p Hp [Hn [k ->]] H]; [split; [done|by exists 0%nat]|]. split; [done|]. exists (S k). cbn [step_n].
    by rewrite (proj2 (Z.eqb_neq _ _) Hn).
  - intros [Hn [k ->]]. induction k as [|k IH]; [by constructor|]. cbn [step_n] in *. destruct (Z.eqb_spec (step_n next head k) 0) as [|E0]; [done|].
    apply list_step; [by apply IH|done].
Qed.

End Caps.

(** Of drivers/pci.c, [pci_find_cap]: over a bridge that keeps its contract,
    with capabilities at offsets of at least 64 as the standard has them, the
    search returns after at most 48 of them whether the list ends or runs into
    a cycle: it gives a capability of the list that has the identifier when
    there is one, and 0 when there is none or no list; no register changes. *)
Theorem pci_find_cap_correct {W} `{!Ports W, !PciBridge W} (w : W) (bus slot func cap_id : Z) :
  (forall p, on_list w bus slot func p -> 64 <= p) ->
  exists r w', pci_find_cap bus slot func cap_id w = Some (r, w') /\ cfg w' = cfg w /\
    if has_list w bus slot func then
      if r =? 0 then forall p, on_list w bus slot func p -> cap_id_at w bus slot func p <> cap_id
      else on_list w bus slot func r /\ cap_id_at w bus slot func r = cap_id
    else r = 0.
Proof.
  intros H64. unfold pci_find_cap. destruct (read_word_ok bus slot func 6 w) as (w1 & E1 & S1). rewrite (bind_eq _ _ _ _ _ E1).
  change (Z.land 6 2 * 8) with 16. change (Z.shiftl 1 4) with 16. unfold has_list.
  destruct (Z.land (u16 (Z.land (Z.shiftr (creg w bus slot func 6) 16) 65535)) 16 =? 0); [by exists 0, w1|]. cbn [negb].
  destruct (read_dword_ok bus slot func 0x34 w1) as (w2 & E2 & S2). rewrite (bind_eq _ _ _ _ _ E2), (creg_same w bus slot func w1 _ S1).
  assert (Hs : same_cfg w w2) by (unfold same_cfg in *; congruence).
  destruct (cap_loop_ok w bus slot func 48 0 cap_id w2 Hs) as (r & w' & E & S' & H). exists r, w'. split; [exact E|]. split; [exact S'|].
  assert (Hpl : forall j, step_n (cap_next w bus slot func) (cap_head w bus slot func) j <> 0 ->
    step_n (cap_next w bus slot func) (cap_head w bus slot func) j ∈ cap_places).
  { intros j Hj. assert (H1 : 64 <= step_n (cap_next w bus slot func) (cap_head w bus slot func) j) by (apply H64, on_list_walk; eauto).
    destruct j as [|j]; [by apply ptr_place|]. cbn [step_n] in *. destruct (step_n _ _ j =? 0); [done|by apply ptr_place]. }
  destruct H as [(j & _ & -> & Hn & Hid)|[-> H]].
  - rewrite (proj2 (Z.eqb_neq _ _) Hn). split; [|done]. apply on_list_walk. eauto.
  - cbn [Z.eqb]. intros p Hp%on_list_walk. destruct Hp as [Hn [k ->]].
    destruct (walk_seen _ _ cap_places k Hpl Hn) as (j & Hj & Ej). rewrite <- Ej in *. apply H; [|done]. unfold cap_places in Hj. rewrite length_map, length_seq in Hj. lia.
Qed.

(** ** A bridge to run it on *)

Module PciDemo.
(** One function, whose two capabilities point at each other. *)
Definition regs (a : Z) : Z :=
  let off := a mod 256 in
  if off =? 4 then 0x00100000 else if off =? 0x34 then 0x40 else if off =? 0x40 then 0x5005 else if off =? 0x50 then 0x4011 else 0.
Definition sim : Type := (Z -> Z) * Z.
#[global] Instance sim_ports : Ports sim := {|
  hw_in8 _ w := (0, w); hw_in16 _ w := (0, w); hw_in32 p w := (fst w (snd w), w);
  hw_out8 _ _ w := w; hw_out16 _ _ w := w; hw_out32 p v w := if p =? 0xCF8 then (fst w, v) else w;
|}.
#[global] Program Instance sim_bridge : PciBridge sim := {| cfg := fst; selected := snd |}.
Solve Obligations with done.
Definition w0 : sim := (regs, 0).

Lemma caps_low p : on_list w0 0 3 0 p -> p = 0x40 \/ p = 0x50.
Proof. induction 1 as [_|p _ [-> | ->] _]; [by left|by right|by left]. Qed.

(** The identifier 0x11 is found, 0x09 is not. *)
Example find_ex : fst <$> pci_find_cap 0 3 0 0x11 w0 = Some 0x50.
Proof. reflexivity. Qed.
Example find_none_ex : fst <$> pci_find_cap 0 3 0 0x09 w0 = Some 0.
Proof. reflexivity. Qed.
End PciDemo.

Lemma pci_find_cap_correct_witness : exists r w', pci_find_cap 0 3 0 0x11 PciDemo.w0 = Some (r, w') /\ cap_id_at PciDemo.w0 0 3 0 0x50 = 0x11 /\
  r <> 0 /\ on_list PciDemo.w0 0 3 0 r.
Proof.
  destruct (pci_find_cap_correct PciDemo.w0 0 3 0 0x11) as (r & w' & E & _ & H).
  { intros p [-> | ->]%PciDemo.caps_low; lia. }
  exists r, w'. split; [exact E|]. split; [reflexivity|].
  assert (Er : fst <$> pci_find_cap 0 3 0 0x11 PciDemo.w0 = Some 0x50) by reflexivity. rewrite E in Er. injection Er as ->.
  change (has_list PciDemo.w0 0 3 0) with true in H. cbn [Z.eqb] in H. destruct H as [H _]. by split.
Defined.
