(* ===== verification/Ata.v ===== *)
(** * drivers/ata.c: the ATA commands

    Programmed I/O over the ports of the two ATA channels: probing with
    IDENTIFY, and reading and writing sectors with 28-bit and 48-bit addresses.
    The channel is the machine of Hw; the buffers are the caller's bytes, and
    an access outside them is [None]. The text that [ata_init] prints is left
    out. *)

From S2P Require Import Prelude Hw.

Definition ATA_PRIMARY_IO : Z := 0x1F0.
Definition ATA_PRIMARY_CTRL : Z := 0x3F6.
Definition ATA_SECONDARY_IO : Z := 0x170.
Definition ATA_SECONDARY_CTRL : Z := 0x376.
Definition ATA_REG_DATA : Z := 0.
Definition ATA_REG_SECCOUNT : Z := 2.
Definition ATA_REG_LBA_LO : Z := 3.
Definition ATA_REG_LBA_MID : Z := 4.
Definition ATA_REG_LBA_HI : Z := 5.
Definition ATA_REG_DRIVE : Z := 6.
Definition ATA_REG_STATUS : Z := 7.
Definition ATA_REG_COMMAND : Z := 7.
Definition ATA_CMD_READ_PIO : Z := 0x20.
Definition ATA_CMD_WRITE_PIO : Z := 0x30.
Definition ATA_CMD_READ_PIO_EXT : Z := 0x24.
Definition ATA_CMD_WRITE_PIO_EXT : Z := 0x34.
Definition ATA_CMD_CACHE_FLUSH : Z := 0xE7.
Definition ATA_CMD_IDENTIFY : Z := 0xEC.
Definition ATA_SR_BSY : Z := 0x80.
Definition ATA_SR_DF : Z := 0x20.
Definition ATA_SR_DRQ : Z := 0x08.
Definition ATA_SR_ERR : Z := 0x01.
Definition MAX_ATA_DRIVES : Z := 4.

Record ata_drive_t := AtaDrive {
  ad_present : bool;
  ad_model : list Z;
  ad_sectors : Z;
  ad_io_base : Z;
  ad_ctrl_base : Z;
  ad_is_slave : Z;
}.
Definition no_drive : ata_drive_t := AtaDrive false (replicate 41 0) 0 0 0 0.
(** [drives] and [num_drives]. *)
Record ata_st := AtaSt { at_drives : list ata_drive_t; at_num : Z }.

(** A 16-bit element of a buffer of bytes. *)
Definition word_get (b : list Z) (i : Z) : option Z := if 2 * i + 1 <? Z.of_nat (length b) then Some (get16 b (2 * i)) else None.
Definition word_put (b : list Z) (i v : Z) : option (list Z) := if 2 * i + 1 <? Z.of_nat (length b) then Some (put16 b (2 * i) v) else None.

(** Trailing spaces of the model, from the end, replaced by NUL. *)
Fixpoint trim_model (n : nat) (m : list Z) : list Z :=
  match n with
  | O => m
  | S n => if get8 m (Z.of_nat n) =? 32 then trim_model n (put8 m (Z.of_nat n) 0) else m
  end.

Section Ata.
Context {W : Type} `{!Ports W}.

Definition ata_io_delay (ctrl : Z) : M W unit :=
  port_byte_in ctrl;; port_byte_in ctrl;; port_byte_in ctrl;; port_byte_in ctrl;; mret tt.

(** The two polling loops; [n] is what is left of their 100000 rounds. *)
Fixpoint wait_bsy_loop (n : nat) (io : Z) : M W bool :=
  match n with
  | O => mret false
  | S n => status ← port_byte_in (io + ATA_REG_STATUS); if Z.land status ATA_SR_BSY =? 0 then mret true else wait_bsy_loop n io
  end.
Fixpoint wait_drq_loop (n : nat) (io : Z) : M W bool :=
  match n with
  | O => mret false
  | S n =>
    status ← port_byte_in (io + ATA_REG_STATUS);
    if negb (Z.land status ATA_SR_ERR =? 0) then mret false
    else if negb (Z.land status ATA_SR_DF =? 0) then mret false
    else if negb (Z.land status ATA_SR_DRQ =? 0) then mret true
    else wait_drq_loop n io
  end.
Definition ata_wait_bsy (io : Z) : M W bool := wait_bsy_loop (Z.to_nat 100000) io.
Definition ata_wait_drq (io : Z) : M W bool := wait_drq_loop (Z.to_nat 100000) io.

Definition ata_soft_reset (ctrl : Z) : M W unit :=
  port_byte_out ctrl 0x04;; ata_io_delay ctrl;; port_byte_out ctrl 0x00;; ata_io_delay ctrl.

(** [n] words from the data port into elements [i], ... of a buffer. *)
Fixpoint in_words (n : nat) (io : Z) (i : Z) (b : list Z) : M W (list Z) :=
  match n with
  | O => mret b
  | S n => v ← port_word_in (io + ATA_REG_DATA); b ← lift_option (word_put b i v); in_words n io (i + 1) b
  end.
Fixpoint out_words (n : nat) (io : Z) (i : Z) (b : list Z) : M W unit :=
  match n with
  | O => mret tt
  | S n => v ← lift_option (word_get b i); port_word_out (io + ATA_REG_DATA) v;; out_words n io (i + 1) b
  end.

(** The drive described by the 512 bytes of IDENTIFY data. *)
Definition identified (io ctrl is_slave : Z) (identify : list Z) : ata_drive_t :=
  let id i := get16 identify (2 * i) in
  let sectors := Z.lor (id 60) (Z.shiftl (id 61) 16) in
  let sectors :=
    if negb (Z.land (id 83) (Z.shiftl 1 10) =? 0)
    then Z.lor (Z.lor (id 100) (Z.shiftl (id 101) 16)) (Z.lor (Z.shiftl (id 102) 32) (Z.shiftl (id 103) 48))
    else sectors in
  let model := flat_map (fun i => [Z.shiftr (id (27 + i)) 8; Z.land (id (27 + i)) 0xFF]) (Z.of_nat <$> seq 0 20) ++ [0] in
  AtaDrive true (trim_model 40 model) sectors io ctrl is_slave.

Definition ata_identify_drive (io ctrl is_slave : Z) (st : ata_st) : M W ata_st :=
  port_byte_out (io + ATA_REG_DRIVE) (if negb (is_slave =? 0) then 0xB0 else 0xA0);;
  ata_io_delay ctrl;;
  port_byte_out (io + ATA_REG_SECCOUNT) 0;;
  port_byte_out (io + ATA_REG_LBA_LO) 0;;
  port_byte_out (io + ATA_REG_LBA_MID) 0;;
  port_byte_out (io + ATA_REG_LBA_HI) 0;;
  port_byte_out (io + ATA_REG_COMMAND) ATA_CMD_IDENTIFY;;
  ata_io_delay ctrl;;
  status ← port_byte_in (io + ATA_REG_STATUS);
  if status =? 0 then mret st
  else
    ok ← ata_wait_bsy io;
    if negb ok then mret st
    else
      mid ← port_byte_in (io + ATA_REG_LBA_MID);
      hi ← (if negb (mid =? 0) then mret 1 else port_byte_in (io + ATA_REG_LBA_HI));
      if negb (hi =? 0) then mret st
      else
        ok ← ata_wait_drq io;
        if negb ok then mret st
        else
          identify ← in_words 256 io 0 (replicate 512 0);
          if at_num st <? Z.of_nat (length (at_drives st))
          then mret (AtaSt (<[Z.to_nat (at_num st) := identified io ctrl is_slave identify]> (at_drives st)) (u8 (at_num st + 1)))
          else diverge.

Definition ata_init : M W ata_st :=
  ata_soft_reset ATA_PRIMARY_CTRL;;
  ata_soft_reset ATA_SECONDARY_CTRL;;
  st ← ata_identify_drive ATA_PRIMARY_IO ATA_PRIMARY_CTRL 0 (AtaSt (replicate 4 no_drive) 0);
  st ← ata_identify_drive ATA_PRIMARY_IO ATA_PRIMARY_CTRL 1 st;
  st ← ata_identify_drive ATA_SECONDARY_IO ATA_SECONDARY_CTRL 0 st;
  ata_identify_drive ATA_SECONDARY_IO ATA_SECONDARY_CTRL 1 st.

(** The count and address registers; an address of 48 bits goes in two rounds,
    the high bytes first. *)
Definition ata_address (io count lo mid hi : Z) : M W unit :=
  port_byte_out (io + ATA_REG_SECCOUNT) count;;
  port_byte_out (io + ATA_REG_LBA_LO) lo;;
  port_byte_out (io + ATA_REG_LBA_MID) mid;;
  port_byte_out (io + ATA_REG_LBA_HI) hi.
Definition ata_command (drv : ata_drive_t) (lba count cmd_ext cmd : Z) : M W unit :=
  let io := ad_io_base drv in
  let slave_bit := if negb (ad_is_slave drv =? 0) then 0x10 else 0x00 in
  let byte k := Z.land (Z.shiftr lba k) 0xFF in
  if lba >=? 0x10000000 then
    port_byte_out (io + ATA_REG_DRIVE) (Z.lor 0x40 slave_bit);;
    ata_io_delay (ad_ctrl_base drv);;
    ata_address io 0 (byte 24) (byte 32) (byte 40);;
    ata_address io count (byte 0) (byte 8) (byte 16);;
    port_byte_out (io + ATA_REG_COMMAND) cmd_ext
  else
    port_byte_out (io + ATA_REG_DRIVE) (Z.lor (Z.lor 0xE0 slave_bit) (Z.land (Z.shiftr lba 24) 0x0F));;
    ata_io_delay (ad_ctrl_base drv);;
    ata_address io count (byte 0) (byte 8) (byte 16);;
    port_byte_out (io + ATA_REG_COMMAND) cmd.

(** The loops over the sectors [s], ... *)
Fixpoint read_loop (n : nat) (drv : ata_drive_t) (s : Z) (buffer : list Z) : M W (Z * list Z) :=
  match n with
  | O => mret (0, buffer)
  | S n =>
    ok ← ata_wait_drq (ad_io_base drv);
    if negb ok then mret (-1, buffer)
    else
      buffer ← in_words 256 (ad_io_base drv) (s * 256) buffer;
      ata_io_delay (ad_ctrl_base drv);;
      read_loop n drv (s + 1) buffer
  end.
Fixpoint write_loop (n : nat) (drv : ata_drive_t) (s : Z) (buffer : list Z) : M W bool :=
  match n with
  | O => mret true
  | S n =>
    ok ← ata_wait_drq (ad_io_base drv);
    if negb ok then mret false
    else
      out_words 256 (ad_io_base drv) (s * 256) buffer;;
      ata_io_delay (ad_ctrl_base drv);;
      write_loop n drv (s + 1) buffer
  end.

(** The drive behind an index: the checks both functions begin with. *)
Definition ata_checked (st : ata_st) (drive_idx count : Z) : option (option ata_drive_t) :=
  if drive_idx >=? at_num st then Some None
  else
    drv ← at_drives st !! Z.to_nat drive_idx;
    if negb (ad_present drv) then Some None else if count =? 0 then Some None else Some (Some drv).

(** The return value and the memory at [buffer]. *)
Definition ata_read_sectors (st : ata_st) (drive_idx lba count : Z) (buffer : list Z) : M W (Z * list Z) :=
  o ← lift_option (ata_checked st drive_idx count);
  match o with
  | None => mret (-1, buffer)
  | Some drv =>
    ok ← ata_wait_bsy (ad_io_base drv);
    if negb ok then mret (-1, buffer)
    else ata_command drv lba count ATA_CMD_READ_PIO_EXT ATA_CMD_READ_PIO;; read_loop (Z.to_nat count) drv 0 buffer
  end.

Definition ata_write_sectors (st : ata_st) (drive_idx lba count : Z) (buffer : list Z) : M W Z :=
  o ← lift_option (ata_checked st drive_idx count);
  match o with
  | None => mret (-1)
  | Some drv =>
    ok ← ata_wait_bsy (ad_io_base drv);
    if negb ok then mret (-1)
    else
      ata_command drv lba count ATA_CMD_WRITE_PIO_EXT ATA_CMD_WRITE_PIO;;
      ok ← write_loop (Z.to_nat count) drv 0 buffer;
      if negb ok then mret (-1)
      else port_byte_out (ad_io_base drv + ATA_REG_COMMAND) ATA_CMD_CACHE_FLUSH;; ata_wait_bsy (ad_io_base drv);; mret 0
  end.

Definition ata_get_drive (st : ata_st) (index : Z) : option ata_drive_t :=
  if index >=? MAX_ATA_DRIVES then None else at_drives st !! Z.to_nat index.
End Ata.
