(* ===== verification/AtaProofs.v ===== *)
(** * ATA commands over a channel that follows the standard

    The view of an ATA channel and its laws ([AtaChannel]: the registers, the
    phases of a command, the status bits), and [ata_read_sectors] and
    [ata_write_sectors] as refinements of the block device of Blk: sectors
    are those of the medium, a sector that cannot be transferred is a fault
    of the command. *)

From S2P Require Import Prelude Hw Blk Ata.

(** ** A channel *)

(** The drive register, and the two last values written to the count and the
    address registers, the newest first. *)
Record ata_regs := Regs { rg_drive : Z; rg_cnt : Z * Z; rg_lo : Z * Z; rg_mid : Z * Z; rg_hi : Z * Z }.
Definition reg_write (off v : Z) (r : ata_regs) : ata_regs :=
  let push x := (v, fst x) in
  if off =? ATA_REG_SECCOUNT then Regs (rg_drive r) (push (rg_cnt r)) (rg_lo r) (rg_mid r) (rg_hi r)
  else if off =? ATA_REG_LBA_LO then Regs (rg_drive r) (rg_cnt r) (push (rg_lo r)) (rg_mid r) (rg_hi r)
  else if off =? ATA_REG_LBA_MID then Regs (rg_drive r) (rg_cnt r) (rg_lo r) (push (rg_mid r)) (rg_hi r)
  else if off =? ATA_REG_LBA_HI then Regs (rg_drive r) (rg_cnt r) (rg_lo r) (rg_mid r) (push (rg_hi r))
  else Regs v (rg_cnt r) (rg_lo r) (rg_mid r) (rg_hi r).
(** Address and count of a command, in the two formats. *)
Definition slave_of (r : ata_regs) : Z := Z.land (rg_drive r) 0x10.
Definition lba28 (r : ata_regs) : Z :=
  fst (rg_lo r) + 2 ^ 8 * fst (rg_mid r) + 2 ^ 16 * fst (rg_hi r) + 2 ^ 24 * (rg_drive r mod 16).
Definition cnt28 (r : ata_regs) : Z := if fst (rg_cnt r) =? 0 then 256 else fst (rg_cnt r).
Definition lba48 (r : ata_regs) : Z :=
  fst (rg_lo r) + 2 ^ 8 * fst (rg_mid r) + 2 ^ 16 * fst (rg_hi r) +
  2 ^ 24 * snd (rg_lo r) + 2 ^ 32 * snd (rg_mid r) + 2 ^ 40 * snd (rg_hi r).
Definition cnt48 (r : ata_regs) : Z :=
  let c := fst (rg_cnt r) + 2 ^ 8 * snd (rg_cnt r) in if c =? 0 then 65536 else c.

(** Between commands; a command that failed; the words left to read of a
    sector, with [n] more sectors from [lba] on; the words received for sector
    [lba], with [n] more sectors behind it. *)
Inductive ata_phase :=
| Ready
| Failed
| DataIn (ws : list Z) (lba : Z) (n : nat)
| DataOut (ws : list Z) (lba : Z) (n : nat).

(** A drive is a map from the slave bit and an address to 256 words. *)
Abbreviation medium := (gmap (Z * Z) (list Z)).
Definition msector (d : medium) (sl lba : Z) : list Z := default (replicate 256 0) (d !! (sl, lba)).

Definition medium_ok (d : medium) : Prop := forall sl lba, length (msector d sl lba) = 256%nat /\ Forall in_u16 (msector d sl lba).

(** What the status register shows when it does not show busy. *)
Definition shows (p : ata_phase) (v : Z) : Prop :=
  Z.land v ATA_SR_BSY = 0 /\
  match p with
  | Ready => Z.land v ATA_SR_ERR = 0 /\ Z.land v ATA_SR_DF = 0 /\ Z.land v ATA_SR_DRQ = 0
  | Failed => Z.land v ATA_SR_ERR <> 0 \/ Z.land v ATA_SR_DF <> 0
  | _ => Z.land v ATA_SR_ERR = 0 /\ Z.land v ATA_SR_DF = 0 /\ Z.land v ATA_SR_DRQ <> 0
  end.
(** While it shows busy the standard gives the other bits no meaning. *)
Definition shows_busy (v : Z) : Prop := Z.land v ATA_SR_BSY <> 0.

(** [bad]: the sectors that cannot be transferred. *)
Definition phase_in (bad : Z -> Z -> bool) (d : medium) (sl lba : Z) (n : nat) : ata_phase :=
  match n with O => Ready | S n => if bad sl lba then Failed else DataIn (msector d sl lba) (lba + 1) n end.
Definition phase_out (lba : Z) (n : nat) : ata_phase :=
  match n with O => Ready | S n => DataOut [] lba n end.
Definition at_rest (p : ata_phase) : Prop := p = Ready \/ p = Failed.

(** The channel at [io] and [ctrl]: what can be seen of it, the status reads it
    can still answer with busy (fewer than the 100,000 the driver makes), and
    what the accesses do. Registers, commands and data are used only when the
    channel is not busy; what happens otherwise is left open, as are the bits of
    a busy status but BSY. *)
Class AtaView (W : Type) := {
  ch_regs : W -> ata_regs;
  ch_phase : W -> ata_phase;
  ch_disk : W -> medium;
  ch_busy : W -> nat;
}.
Definition ch_same {W} `{!AtaView W} (w w' : W) : Prop :=
  ch_regs w' = ch_regs w /\ ch_disk w' = ch_disk w /\ ch_phase w' = ch_phase w.
Class AtaChannel (W : Type) `{!Ports W, !AtaView W} (io ctrl : Z) (bad : Z -> Z -> bool) := {
  ch_busy_bound w : (ch_busy w < Z.to_nat 100000)%nat;
  ch_ports : 0 < io <= 65528 /\ 0 < ctrl < 65536;
  ch_status w : let '(v, w') := hw_in8 (io + ATA_REG_STATUS) w in
    ch_same w w' /\ ((shows_busy (u8 v) /\ (ch_busy w' < ch_busy w)%nat) \/ (shows (ch_phase w) (u8 v) /\ ch_busy w' = 0%nat));
  ch_alt w : ch_same w (hw_in8 ctrl w).2 /\ (ch_busy (hw_in8 ctrl w).2 <= ch_busy w)%nat;
  ch_reg_out w off v : ATA_REG_SECCOUNT <= off <= ATA_REG_DRIVE -> ch_busy w = 0%nat -> at_rest (ch_phase w) ->
    let w' := hw_out8 (io + off) v w in
    ch_regs w' = reg_write off v (ch_regs w) /\ ch_disk w' = ch_disk w /\ ch_phase w' = ch_phase w /\ ch_busy w' = 0%nat;
  ch_command w v : ch_busy w = 0%nat -> at_rest (ch_phase w) ->
    let w' := hw_out8 (io + ATA_REG_COMMAND) v w in
    let r := ch_regs w in
    ch_regs w' = r /\ ch_disk w' = ch_disk w /\
    (v = ATA_CMD_READ_PIO -> ch_phase w' = phase_in bad (ch_disk w) (slave_of r) (lba28 r) (Z.to_nat (cnt28 r))) /\
    (v = ATA_CMD_READ_PIO_EXT -> ch_phase w' = phase_in bad (ch_disk w) (slave_of r) (lba48 r) (Z.to_nat (cnt48 r))) /\
    (v = ATA_CMD_WRITE_PIO -> ch_phase w' = phase_out (lba28 r) (Z.to_nat (cnt28 r))) /\
    (v = ATA_CMD_WRITE_PIO_EXT -> ch_phase w' = phase_out (lba48 r) (Z.to_nat (cnt48 r)));
  ch_flush w : ch_busy w = 0%nat -> at_rest (ch_phase w) ->
    let w' := hw_out8 (io + ATA_REG_COMMAND) ATA_CMD_CACHE_FLUSH w in
    ch_regs w' = ch_regs w /\ ch_disk w' = ch_disk w /\ at_rest (ch_phase w');
  ch_data_in w x ws lba n : ch_phase w = DataIn (x :: ws) lba n -> ch_busy w = 0%nat ->
    let '(v, w') := hw_in16 (io + ATA_REG_DATA) w in
    u16 v = u16 x /\ ch_regs w' = ch_regs w /\ ch_disk w' = ch_disk w /\
    match ws with
    | [] => ch_phase w' = phase_in bad (ch_disk w) (slave_of (ch_regs w)) lba n
    | _ => ch_phase w' = DataIn ws lba n /\ ch_busy w' = 0%nat
    end;
  ch_data_out w v ws lba n : ch_phase w = DataOut ws lba n -> ch_busy w = 0%nat ->
    let w' := hw_out16 (io + ATA_REG_DATA) v w in
    let sl := slave_of (ch_regs w) in
    ch_regs w' = ch_regs w /\
    if (length ws <? 255)%nat then ch_disk w' = ch_disk w /\ ch_phase w' = DataOut (ws ++ [v]) lba n /\ ch_busy w' = 0%nat
    else if bad sl lba then ch_disk w' = ch_disk w /\ ch_phase w' = Failed
    else ch_disk w' = <[(sl, lba) := ws ++ [v]]> (ch_disk w) /\ ch_phase w' = phase_out (lba + 1) n;
}.

(** What the driver relies on besides: it looks at ERR, DF and DRQ while the
    drive is busy, and it writes the cache flush without waiting for the last
    sector. The standard promises neither; [noisy_ex] below runs the driver on
    a channel without the first. *)
Definition quiet_while_busy {W} `{!Ports W} (io : Z) : Prop := forall w : W,
  let v := u8 (hw_in8 (io + ATA_REG_STATUS) w).1 in
  Z.land v ATA_SR_BSY <> 0 -> Z.land v ATA_SR_ERR = 0 /\ Z.land v ATA_SR_DF = 0 /\ Z.land v ATA_SR_DRQ = 0.
Definition early_flush_harmless {W} `{!Ports W, !AtaView W} (io : Z) : Prop := forall w : W,
  ch_busy w <> 0%nat -> at_rest (ch_phase w) ->
  let w' := hw_out8 (io + ATA_REG_COMMAND) ATA_CMD_CACHE_FLUSH w in
  ch_regs w' = ch_regs w /\ ch_disk w' = ch_disk w /\ at_rest (ch_phase w').

Lemma phase_in_S bad d sl lba n : phase_in bad d sl lba (S n) = if bad sl lba then Failed else DataIn (msector d sl lba) (lba + 1) n.
Proof. done. Qed.

(** The bytes of a sector. *)
Definition word_bytes (ws : list Z) : list Z := flat_map (le_bytes 2) ws.
Lemma length_word_bytes ws : length (word_bytes ws) = (2 * length ws)%nat.
Proof. unfold word_bytes. induction ws as [|x ws IH]; [done|]. cbn [flat_map]. rewrite length_app, length_le_bytes, IH. cbn [length]. lia. Qed.
Lemma word_bytes_app l k : word_bytes (l ++ k) = word_bytes l ++ word_bytes k.
Proof. apply flat_map_app. Qed.

Lemma ata_splice_app pre mid post l : length l = length mid ->
  splice (pre ++ mid ++ post) (Z.of_nat (length pre)) l = pre ++ l ++ post.
Proof.
  intros Hl. apply list_eq. intros i. destruct (decide (i < length pre)%nat).
  { rewrite lookup_splice_out by lia. by rewrite !lookup_app_l by lia. }
  destruct (decide (i < length pre + length l)%nat).
  - rewrite lookup_splice_in by (rewrite ?length_app; lia). rewrite lookup_app_r, lookup_app_l by lia. f_equal. lia.
  - rewrite lookup_splice_out by lia. rewrite !(lookup_app_r pre) by lia. rewrite !lookup_app_r by lia. f_equal. lia.
Qed.
Lemma word_put_app pre a c post v : Nat.even (length pre) = true ->
  word_put (pre ++ [a; c] ++ post) (Z.of_nat (Nat.div2 (length pre))) v = Some (pre ++ le_bytes 2 v ++ post).
Proof.
  intros He%Nat.even_spec%Nat.Even_double. unfold Nat.double in He. unfold word_put.
  rewrite (proj2 (Z.ltb_lt _ _)) by (rewrite length_app; cbn [length app]; lia).
  unfold put16. replace (2 * Z.of_nat (Nat.div2 (length pre))) with (Z.of_nat (length pre)) by lia. f_equal. by apply ata_splice_app.
Qed.
Lemma word_get_app pre a c post : Nat.even (length pre) = true ->
  word_get (pre ++ [a; c] ++ post) (Z.of_nat (Nat.div2 (length pre))) = Some (a + 256 * c).
Proof.
  intros He%Nat.even_spec%Nat.Even_double. unfold Nat.double in He. unfold word_get.
  rewrite (proj2 (Z.ltb_lt _ _)) by (rewrite length_app; cbn [length app]; lia).
  unfold get16, slice. replace (Z.to_nat (2 * Z.of_nat (Nat.div2 (length pre)))) with (length pre) by lia.
  rewrite drop_app_length. change (Z.to_nat 2) with 2%nat. cbn [take app le_val]. rewrite take_0. cbn [le_val]. f_equal. lia.
Qed.
Lemma even_add2 n : Nat.even (n + 2) = Nat.even n.
Proof. rewrite Nat.even_add. by destruct (Nat.even n). Qed.
Lemma div2_add2 n : Nat.div2 (n + 2) = S (Nat.div2 n).
Proof. by rewrite Nat.add_comm. Qed.

Section Channel.
Context {W : Type} `{!Ports W, !AtaView W} (io ctrl : Z) (bad : Z -> Z -> bool) `{!AtaChannel W io ctrl bad}.
Implicit Types w : W.

Lemma io_port off : 0 <= off <= 7 -> u16 (io + off) = io + off.
Proof using AtaChannel0. intros. pose proof (ch_ports (W := W) (io := io) (ctrl := ctrl) (bad := bad)). apply u16_id. word. Qed.
Lemma ctrl_port : u16 ctrl = ctrl.
Proof using AtaChannel0. pose proof (ch_ports (W := W) (io := io) (ctrl := ctrl) (bad := bad)). apply u16_id. word. Qed.

Context (Hquiet : quiet_while_busy (W := W) io).

Lemma ata_same_trans w w' w'' : ch_same w w' -> ch_same w' w'' -> ch_same w w''.
Proof. unfold ch_same. intros (-> & -> & ->) (-> & -> & ->). done. Qed.

(** One look at the status register. *)
Definition quiet_busy (v : Z) : Prop :=
  Z.land v ATA_SR_BSY <> 0 /\ Z.land v ATA_SR_ERR = 0 /\ Z.land v ATA_SR_DF = 0 /\ Z.land v ATA_SR_DRQ = 0.
Lemma status_ok w : exists v w', port_byte_in (io + ATA_REG_STATUS) w = Some (v, w') /\ ch_same w w' /\
  ((quiet_busy v /\ (ch_busy w' < ch_busy w)%nat) \/ (shows (ch_phase w) v /\ ch_busy w' = 0%nat)).
Proof using AtaChannel0 Hquiet.
  unfold port_byte_in. rewrite io_port by (cbv; split; discriminate). pose proof (ch_status (io := io) w) as H. pose proof (Hquiet w) as Hq.
  destruct (hw_in8 (io + ATA_REG_STATUS) w) as [v w']. exists (u8 v), w'. destruct H as [Hs H]. split; [done|]. split; [done|].
  destruct H as [[Hb Hk]|H]; [left|by right]. split; [|done]. split; [exact Hb|by apply Hq].
Qed.

Lemma wait_bsy_ok n w : (ch_busy w < n)%nat -> exists w', wait_bsy_loop n io w = Some (true, w') /\ ch_same w w' /\ ch_busy w' = 0%nat.
Proof using AtaChannel0 Hquiet.
  revert w. induction n as [|n IH]; intros w Hn; [lia|]. cbn [wait_bsy_loop].
  destruct (status_ok w) as (v & w1 & E & Hs & [[(Hb & _) Hk]|[[Hb _] Hk]]); rewrite (bind_eq _ _ _ _ _ E).
  - destruct (Z.eqb_spec (Z.land v ATA_SR_BSY) 0); [done|]. destruct (IH w1 ltac:(lia)) as (w' & E' & Hs' & H0).
    exists w'. split_and!; [done|by eapply ata_same_trans|done].
  - rewrite Hb. by exists w1.
Qed.
Lemma ata_wait_bsy_ok w : exists w', ata_wait_bsy io w = Some (true, w') /\ ch_same w w' /\ ch_busy w' = 0%nat.
Proof using AtaChannel0 Hquiet. apply wait_bsy_ok, (ch_busy_bound (io := io)). Qed.

(** Waiting for data: it comes, or the command has failed. *)
Definition has_data (p : ata_phase) : bool := match p with DataIn _ _ _ | DataOut _ _ _ => true | _ => false end.
Lemma wait_drq_ok n w : ch_phase w <> Ready -> (ch_busy w < n)%nat ->
  exists w', wait_drq_loop n io w = Some (has_data (ch_phase w), w') /\ ch_same w w' /\ ch_busy w' = 0%nat.
Proof using AtaChannel0 Hquiet.
  intros Hr. revert w Hr. induction n as [|n IH]; intros w Hr Hn; [lia|]. cbn [wait_drq_loop].
  destruct (status_ok w) as (v & w1 & E & Hs & [[(_ & He & Hd & Hq) Hk]|[[_ Hp] Hk]]); rewrite (bind_eq _ _ _ _ _ E).
  - rewrite He, Hd, Hq. pose proof (proj2 (proj2 Hs)) as Ep. destruct (IH w1 ltac:(congruence) ltac:(lia)) as (w' & E' & Hs' & H0).
    exists w'. split_and!; [by rewrite <- Ep|by eapply ata_same_trans|done].
  - exists w1. split; [|done]. destruct (ch_phase w) as [| |ws lba k|ws lba k]; cbn [has_data] in *; [done| | |];
      [|by destruct Hp as (-> & -> & Hq); destruct (Z.eqb_spec (Z.land v ATA_SR_DRQ) 0)..].
    destruct (Z.eqb_spec (Z.land v ATA_SR_ERR) 0) as [He|]; [|done]. rewrite He in Hp.
    by destruct (Z.eqb_spec (Z.land v ATA_SR_DF) 0) as [Hd|]; [rewrite Hd in Hp; destruct Hp|].
Qed.
Lemma ata_wait_drq_ok w : ch_phase w <> Ready ->
  exists w', ata_wait_drq io w = Some (has_data (ch_phase w), w') /\ ch_same w w' /\ ch_busy w' = 0%nat.
Proof using AtaChannel0 Hquiet. intros. apply wait_drq_ok; [done|]. apply (ch_busy_bound (io := io)). Qed.

Lemma alt_ok w : exists v w', port_byte_in ctrl w = Some (v, w') /\ ch_same w w' /\ (ch_busy w' <= ch_busy w)%nat.
Proof using AtaChannel0 Hquiet.
  unfold port_byte_in. rewrite ctrl_port. pose proof (ch_alt (io := io) w) as H. destruct (hw_in8 ctrl w) as [v w']. by exists (u8 v), w'.
Qed.
Lemma ata_io_delay_ok w : exists w', ata_io_delay ctrl w = Some (tt, w') /\ ch_same w w' /\ (ch_busy w' <= ch_busy w)%nat.
Proof using AtaChannel0 Hquiet.
  unfold ata_io_delay. destruct (alt_ok w) as (v1 & w1 & E1 & S1 & L1). destruct (alt_ok w1) as (v2 & w2 & E2 & S2 & L2).
  destruct (alt_ok w2) as (v3 & w3 & E3 & S3 & L3). destruct (alt_ok w3) as (v4 & w4 & E4 & S4 & L4).
  exists w4. split; [|split; [repeat (eapply ata_same_trans; [eassumption|]); done|lia]].
  rewrite (bind_eq _ _ _ _ _ E1), (bind_eq _ _ _ _ _ E2), (bind_eq _ _ _ _ _ E3), (bind_eq _ _ _ _ _ E4). done.
Qed.

(** A register write between commands. *)
Lemma reg_out_ok w off v : ATA_REG_SECCOUNT <= off <= ATA_REG_DRIVE -> ch_busy w = 0%nat -> at_rest (ch_phase w) ->
  exists w', port_byte_out (io + off) v w = Some (tt, w') /\ ch_regs w' = reg_write off (u8 v) (ch_regs w) /\
    ch_disk w' = ch_disk w /\ ch_phase w' = ch_phase w /\ ch_busy w' = 0%nat.
Proof using AtaChannel0 Hquiet.
  intros Ho Hb Hr. unfold ATA_REG_SECCOUNT, ATA_REG_DRIVE in Ho. unfold port_byte_out, modify. rewrite io_port by lia.
  eexists. split; [reflexivity|]. by apply (ch_reg_out (io := io)).
Qed.
Lemma ata_address_ok w c lo mid hi : ch_busy w = 0%nat -> at_rest (ch_phase w) ->
  exists w', ata_address io c lo mid hi w = Some (tt, w') /\
    (let r := ch_regs w in
     ch_regs w' = Regs (rg_drive r) (u8 c, fst (rg_cnt r)) (u8 lo, fst (rg_lo r)) (u8 mid, fst (rg_mid r)) (u8 hi, fst (rg_hi r))) /\
    ch_disk w' = ch_disk w /\ at_rest (ch_phase w') /\ ch_busy w' = 0%nat.
Proof using AtaChannel0 Hquiet.
  intros Hb Hr. unfold ata_address.
  destruct (reg_out_ok w ATA_REG_SECCOUNT c ltac:(done) Hb Hr) as (w1 & E1 & R1 & D1 & P1 & B1).
  destruct (reg_out_ok w1 ATA_REG_LBA_LO lo ltac:(done) B1 ltac:(by rewrite P1)) as (w2 & E2 & R2 & D2 & P2 & B2).
  destruct (reg_out_ok w2 ATA_REG_LBA_MID mid ltac:(done) B2 ltac:(by rewrite P2, P1)) as (w3 & E3 & R3 & D3 & P3 & B3).
  destruct (reg_out_ok w3 ATA_REG_LBA_HI hi ltac:(done) B3 ltac:(by rewrite P3, P2, P1)) as (w4 & E4 & R4 & D4 & P4 & B4).
  exists w4. rewrite (bind_eq _ _ _ _ _ E1), (bind_eq _ _ _ _ _ E2), (bind_eq _ _ _ _ _ E3), E4. split; [done|].
  rewrite R4, R3, R2, R1, D4, D3, D2, D1, P4, P3, P2, P1. done.
Qed.
Lemma delay_bind {A} w (k : M W A) : ch_busy w = 0%nat ->
  exists w', (ata_io_delay ctrl;; k) w = k w' /\ ch_same w w' /\ ch_busy w' = 0%nat.
Proof using AtaChannel0 Hquiet.
  intros Hb. destruct (ata_io_delay_ok w) as (w' & E & Hs & Hl). exists w'. rewrite (bind_eq _ _ _ _ _ E). split_and!; [done|done|lia].
Qed.

(** What a command finds in the registers. *)
Definition addressed (ext : bool) (sl lba : Z) (n : nat) (r : ata_regs) : Prop :=
  slave_of r = sl /\ (if ext then lba48 r else lba28 r) = lba /\ Z.to_nat (if ext then cnt48 r else cnt28 r) = n.
Definition slave_bit (drv : ata_drive_t) : Z := if negb (ad_is_slave drv =? 0) then 0x10 else 0x00.
Definition lba_ok (lba count : Z) : Prop :=
  0 <= lba /\ 1 <= count <= 255 /\ (lba + count <= 2 ^ 28 \/ 2 ^ 28 <= lba /\ lba + count <= 2 ^ 48).

Lemma byte_of x k : 0 <= k -> Z.land (Z.shiftr x k) 0xFF = x / 2 ^ k mod 256.
Proof. intros. rewrite (land_ones_mod _ 8), Z.shiftr_div_pow2 by lia. done. Qed.
Lemma split48 x : 0 <= x < 2 ^ 48 ->
  x mod 256 + 2 ^ 8 * (x / 2 ^ 8 mod 256) + 2 ^ 16 * (x / 2 ^ 16 mod 256) + 2 ^ 24 * (x / 2 ^ 24 mod 256) +
    2 ^ 32 * (x / 2 ^ 32 mod 256) + 2 ^ 40 * (x / 2 ^ 40 mod 256) = x.
Proof. intros. zlia. Qed.

Lemma ata_command_ok drv lba count cmd_ext cmd w : ad_io_base drv = io -> ad_ctrl_base drv = ctrl -> lba_ok lba count ->
  ch_busy w = 0%nat -> at_rest (ch_phase w) ->
  exists w1, ch_disk w1 = ch_disk w /\ at_rest (ch_phase w1) /\ ch_busy w1 = 0%nat /\
    addressed (lba >=? 0x10000000) (slave_bit drv) lba (Z.to_nat count) (ch_regs w1) /\
    ata_command drv lba count cmd_ext cmd w = port_byte_out (io + ATA_REG_COMMAND) (if lba >=? 0x10000000 then cmd_ext else cmd) w1.
Proof using AtaChannel0 Hquiet.
  intros Hio Hc (H0 & Hcnt & Hr) Hb Hp. unfold ata_command. rewrite Hio, Hc. fold (slave_bit drv). cbv zeta. rewrite !byte_of by lia.
  rewrite Z.div_1_r. assert (Hsl : slave_bit drv = 0x10 \/ slave_bit drv = 0x00) by (unfold slave_bit; destruct (negb _); auto).
  destruct (Z.geb_spec lba 0x10000000) as [Hext|Hext].
  - destruct (reg_out_ok w ATA_REG_DRIVE (Z.lor 0x40 (slave_bit drv)) ltac:(done) Hb Hp) as (w1 & E1 & R1 & D1 & P1 & B1). rewrite (bind_eq _ _ _ _ _ E1).
    destruct (delay_bind w1 (ata_address io 0 (lba / 2 ^ 24 mod 256) (lba / 2 ^ 32 mod 256) (lba / 2 ^ 40 mod 256);;
      ata_address io count (lba mod 256) (lba / 2 ^ 8 mod 256) (lba / 2 ^ 16 mod 256);;
      port_byte_out (io + ATA_REG_COMMAND) cmd_ext) B1) as (w2 & -> & (R2 & D2 & P2) & B2).
    destruct (ata_address_ok w2 0 (lba / 2 ^ 24 mod 256) (lba / 2 ^ 32 mod 256) (lba / 2 ^ 40 mod 256) B2 ltac:(by rewrite P2, P1)) as (w3 & E3 & R3 & D3 & P3 & B3).
    destruct (ata_address_ok w3 count (lba mod 256) (lba / 2 ^ 8 mod 256) (lba / 2 ^ 16 mod 256) B3 P3) as (w4 & E4 & R4 & D4 & P4 & B4).
    exists w4. rewrite (bind_eq _ _ _ _ _ E3), (bind_eq _ _ _ _ _ E4). split; [congruence|]. split_and!; [done|done| |done].
    rewrite R4, R3, R2, R1. unfold addressed, slave_of, lba48, cnt48. cbn [reg_write rg_drive rg_cnt rg_lo rg_mid rg_hi fst snd Z.eqb].
    split; [by destruct Hsl as [-> | ->]|]. rewrite !(u8_id (_ mod 256)) by word. split; [apply split48; lia|].
    rewrite (u8_id count), (u8_id 0) by word. bcase; lia.
  - destruct (reg_out_ok w ATA_REG_DRIVE (Z.lor (Z.lor 0xE0 (slave_bit drv)) (Z.land (Z.shiftr lba 24) 0x0F)) ltac:(done) Hb Hp) as (w1 & E1 & R1 & D1 & P1 & B1).
    rewrite (bind_eq _ _ _ _ _ E1).
    destruct (delay_bind w1 (ata_address io count (lba mod 256) (lba / 2 ^ 8 mod 256) (lba / 2 ^ 16 mod 256);;
      port_byte_out (io + ATA_REG_COMMAND) cmd) B1) as (w2 & -> & (R2 & D2 & P2) & B2).
    destruct (ata_address_ok w2 count (lba mod 256) (lba / 2 ^ 8 mod 256) (lba / 2 ^ 16 mod 256) B2 ltac:(by rewrite P2, P1)) as (w4 & E4 & R4 & D4 & P4 & B4).
    exists w4. rewrite (bind_eq _ _ _ _ _ E4). split; [congruence|]. split_and!; [done|done| |done].
    rewrite R4, R2, R1. unfold addressed, slave_of, lba28, cnt28. cbn [reg_write rg_drive rg_cnt rg_lo rg_mid rg_hi fst snd Z.eqb].
    rewrite (land_ones_mod _ 4), Z.shiftr_div_pow2 by lia. set (top := lba / 2 ^ 24 mod 2 ^ 4).
    assert (Ht : 0 <= top < 16) by (unfold top; zlia).
    assert (Hd : u8 (Z.lor (Z.lor 0xE0 (slave_bit drv)) top) = 0xE0 + slave_bit drv + top).
    { destruct Hsl as [-> | ->]; [change (Z.lor 0xE0 0x10) with (15 * 2 ^ 4)|change (Z.lor 0xE0 0) with (14 * 2 ^ 4)]; rewrite lor_add_low by lia; apply u8_id; word. }
    rewrite Hd. split.
    { destruct Hsl as [-> | ->]; (assert (top = 0 \/ top = 1 \/ top = 2 \/ top = 3 \/ top = 4 \/ top = 5 \/ top = 6 \/ top = 7 \/ top = 8 \/ top = 9 \/
        top = 10 \/ top = 11 \/ top = 12 \/ top = 13 \/ top = 14 \/ top = 15) as Hc16 by lia); repeat destruct Hc16 as [-> |Hc16]; try rewrite Hc16; done. }
    rewrite !(u8_id (_ mod 256)) by word. split.
    { assert (Hmod : forall t, 0 <= t < 16 -> (0xE0 + slave_bit drv + t) mod 16 = t) by (clear - Hsl; intros; destruct Hsl as [-> | ->]; zlia).
      change (rg_drive (reg_write ATA_REG_DRIVE ?x _)) with x. rewrite (Hmod top Ht).
      subst top. clear - H0 Hext. change (2 ^ 4) with 16. zlia. }
    rewrite (u8_id count) by word. bcase; lia.
Qed.

(** ** Data *)

(** The words of a sector, in order. *)
Lemma in_words_ok ws lba n pre mid post w : ch_phase w = DataIn ws lba n -> ch_busy w = 0%nat -> ws <> [] -> Forall in_u16 ws ->
  Nat.even (length pre) = true -> length mid = (2 * length ws)%nat ->
  exists w', in_words (length ws) io (Z.of_nat (Nat.div2 (length pre))) (pre ++ mid ++ post) w = Some (pre ++ word_bytes ws ++ post, w') /\
    ch_regs w' = ch_regs w /\ ch_disk w' = ch_disk w /\ ch_phase w' = phase_in bad (ch_disk w) (slave_of (ch_regs w)) lba n.
Proof using AtaChannel0 Hquiet.
  revert pre mid w. induction ws as [|x ws IH]; intros pre mid w Hp Hb Hne Hws He Hm; [done|]. apply Forall_cons in Hws as [Hx Hws]. cbn [length in_words].
  destruct mid as [|a [|c mid]]; [cbn in Hm; lia..|].
  unfold port_word_in. rewrite io_port by (cbv; split; discriminate). pose proof (ch_data_in (io := io) w x ws lba n Hp Hb) as H.
  destruct (hw_in16 (io + ATA_REG_DATA) w) as [v w1] eqn:Ein. destruct H as (Hv & Hr & Hd & Hnext).
  rewrite (bind_eq _ _ _ (u16 v) w1) by (by rewrite Ein). rewrite Hv, (u16_id x Hx).
  change ((a :: c :: mid) ++ post) with ([a; c] ++ mid ++ post). rewrite word_put_app by done.
  rewrite (bind_eq _ _ _ (pre ++ le_bytes 2 x ++ mid ++ post) w1) by done.
  destruct ws as [|y ws].
  - exists w1. assert (mid = []) as -> by (destruct mid; [done|cbn in Hm; lia]). cbn [in_words length word_bytes flat_map]. by rewrite app_nil_r.
  - destruct Hnext as [Hp1 Hb1]. replace (Z.of_nat (Nat.div2 (length pre)) + 1) with (Z.of_nat (Nat.div2 (length (pre ++ le_bytes 2 x))))
      by (rewrite length_app, length_le_bytes, div2_add2; lia).
    destruct (IH (pre ++ le_bytes 2 x) mid w1 Hp1 Hb1 ltac:(done) Hws) as (w' & E & Hr' & Hd' & Hp').
    { by rewrite length_app, length_le_bytes, even_add2. }
    { cbn [length] in Hm |- *. lia. }
    exists w'. rewrite <- app_assoc in E. rewrite E. rewrite <- !app_assoc. split; [done|]. by rewrite Hr', Hd', Hp', Hr, Hd.
Qed.

(** The words sent for a sector. *)
Lemma out_words_ok l ws lba n pre post w : ch_phase w = DataOut ws lba n -> ch_busy w = 0%nat -> (length ws + length l = 256)%nat -> l <> [] ->
  Nat.even (length pre) = true -> Forall in_u16 l ->
  exists w', out_words (length l) io (Z.of_nat (Nat.div2 (length pre))) (pre ++ word_bytes l ++ post) w = Some (tt, w') /\
    ch_regs w' = ch_regs w /\
    (let sl := slave_of (ch_regs w) in
     if bad sl lba then ch_disk w' = ch_disk w /\ ch_phase w' = Failed
     else ch_disk w' = <[(sl, lba) := ws ++ l]> (ch_disk w) /\ ch_phase w' = phase_out (lba + 1) n).
Proof using AtaChannel0 Hquiet.
  revert ws pre w. induction l as [|x l IH]; intros ws pre w Hp Hb Hlen Hne He Hl; [done|]. apply Forall_cons in Hl as [Hx Hl].
  cbn [length out_words word_bytes flat_map]. fold (word_bytes l). cbn [le_bytes app].
  change (pre ++ x mod 256 :: x / 256 mod 256 :: word_bytes l ++ post) with (pre ++ [x mod 256; x / 256 mod 256] ++ word_bytes l ++ post).
  rewrite word_get_app by done. rewrite (bind_eq _ _ _ (x mod 256 + 256 * (x / 256 mod 256)) w) by done.
  replace (x mod 256 + 256 * (x / 256 mod 256)) with x by word.
  unfold port_word_out at 1. rewrite io_port by (cbv; split; discriminate). rewrite (u16_id x) by done.
  pose proof (ch_data_out (io := io) w x ws lba n Hp Hb) as H. cbv zeta in H.
  rewrite (bind_eq _ _ _ tt (hw_out16 (io + ATA_REG_DATA) x w)) by done. set (w1 := hw_out16 _ _ _) in *. destruct H as (Hr & H). cbn [length] in Hlen.
  destruct l as [|y l].
  - exists w1. cbn [out_words length] in *. split; [done|]. split; [done|]. destruct (Nat.ltb_spec (length ws) 255); [lia|done].
  - destruct (Nat.ltb_spec (length ws) 255); [|cbn in Hlen; lia]. destruct H as (Hd & Hp1 & Hb1).
    destruct (IH (ws ++ [x]) (pre ++ [x mod 256; x / 256 mod 256]) w1 Hp1 Hb1) as (w' & E & Hr' & H').
    { rewrite length_app. cbn [length] in *. lia. }
    { done. }
    { by rewrite length_app, even_add2. }
    { done. }
    exists w'. rewrite length_app, div2_add2, <- app_assoc, Nat2Z.inj_succ in E. unfold Z.succ in E. cbn [length] in E |- *. rewrite E. split; [done|].
    cbv zeta in *. rewrite Hr', Hr in *. split; [done|]. rewrite Hd, <- app_assoc in H'. exact H'.
Qed.

(** ** Reading *)

(** The sectors before the first that cannot be transferred, and the bytes of
    [n] sectors. *)
Fixpoint good_run (sl lba : Z) (n : nat) : nat :=
  match n with O => O | S n => if bad sl lba then O else S (good_run sl (lba + 1) n) end.
Fixpoint medium_bytes (d : medium) (sl lba : Z) (n : nat) : list Z :=
  match n with O => [] | S n => word_bytes (msector d sl lba) ++ medium_bytes d sl (lba + 1) n end.

Lemma good_run_le sl lba n : (good_run sl lba n <= n)%nat.
Proof using. revert lba. induction n as [|n IH]; intros lba; cbn [good_run]; [done|]. destruct (bad _ _); [lia|]. specialize (IH (lba + 1)). lia. Qed.

Lemma ata_read_loop_ok drv n s sl lba pre mid post w : ad_io_base drv = io -> ad_ctrl_base drv = ctrl -> 0 <= s ->
  Z.of_nat (length pre) = 512 * s -> length mid = (512 * n)%nat -> slave_of (ch_regs w) = sl ->
  ch_phase w = phase_in bad (ch_disk w) sl lba n -> medium_ok (ch_disk w) ->
  exists r mid' w', read_loop n drv s (pre ++ mid ++ post) w = Some ((r, pre ++ mid' ++ post), w') /\
    length mid' = length mid /\ r = (if (good_run sl lba n =? n)%nat then 0 else -1) /\
    take (512 * good_run sl lba n) mid' = medium_bytes (ch_disk w) sl lba (good_run sl lba n) /\
    at_rest (ch_phase w') /\ ch_disk w' = ch_disk w.
Proof using AtaChannel0 Hquiet.
  intros Hio Hc. revert s lba pre mid w. induction n as [|n IH]; intros s lba pre mid w Hs Hpre Hm Hsl Hp Hok.
  { exists 0, mid, w. split; [done|]. split; [done|]. split; [done|]. split; [done|]. split; [by left|done]. }
  cbn [read_loop good_run]. rewrite Hio, Hc. rewrite phase_in_S in Hp.
  destruct (ata_wait_drq_ok w ltac:(rewrite Hp; by destruct (bad sl lba))) as (w1 & E1 & (R1 & D1 & P1) & B1). rewrite (bind_eq _ _ _ _ _ E1), Hp.
  destruct (bad sl lba) eqn:Ebad; cbn [has_data negb].
  { exists (-1), mid, w1. split; [done|]. split; [done|]. split; [done|]. split; [done|]. split; [right; congruence|done]. }
  destruct (Hok sl lba) as [Hlen Hwords].
  destruct (in_words_ok (msector (ch_disk w) sl lba) (lba + 1) n pre (take 512 mid) (drop 512 mid ++ post) w1) as (w2 & E2 & R2 & D2 & P2);
    [by rewrite P1, Hp|done|by intros E; rewrite E in Hlen|done| |rewrite length_take; lia|].
  { apply Nat.even_spec. exists (Z.to_nat (256 * s)). lia. }
  replace (Z.of_nat (Nat.div2 (length pre))) with (s * 256) in E2
    by (replace (length pre) with (2 * Z.to_nat (256 * s))%nat by lia; rewrite Nat.div2_double; lia).
  rewrite Hlen in E2. rewrite (app_assoc (take 512 mid)), take_drop in E2. rewrite (bind_eq _ _ _ _ _ E2).
  destruct (ata_io_delay_ok w2) as (w3 & E3 & (R3 & D3 & P3) & _). rewrite (bind_eq _ _ _ _ _ E3).
  set (got := word_bytes (msector (ch_disk w) sl lba)) in *. assert (Hg : length got = 512%nat) by (unfold got; rewrite length_word_bytes; lia).
  destruct (IH (s + 1) (lba + 1) (pre ++ got) (drop 512 mid) w3) as (r & mid' & w' & E & Hl & Hr & Ht & Hrest & Hd).
  { lia. } { rewrite length_app. lia. } { rewrite length_drop. lia. } { congruence. } { by rewrite P3, P2, D3, D2, D1, R1, Hsl. } { by rewrite D3, D2, D1. }
  exists r, (got ++ mid'), w'. rewrite <- app_assoc in E. rewrite E, <- !app_assoc. split; [done|].
  split; [rewrite length_app, Hl, length_drop; lia|]. split; [done|]. split; [|split; [done|congruence]].
  replace (512 * S (good_run sl (lba + 1) n))%nat with (length got + 512 * good_run sl (lba + 1) n)%nat by lia.
  rewrite take_app_add. cbn [medium_bytes]. fold got. f_equal. by rewrite Ht, D3, D2, D1.
Qed.

(** ** Writing *)

(** The drive [idx] of the block device is the drive [sl] of the channel. *)
Definition represents (m : gmap (driver * Z * Z) (list Z)) (idx sl : Z) (d : medium) : Prop :=
  forall lba, default (replicate 512 0) (m !! (DrvAta, idx, lba)) = word_bytes (msector d sl lba).

Lemma represents_insert m idx sl d lba ws : represents m idx sl d ->
  represents (<[(DrvAta, idx, lba) := word_bytes ws]> m) idx sl (<[(sl, lba) := ws]> d).
Proof using.
  intros H l. unfold msector. destruct (decide (l = lba)) as [->|Hn]; [by rewrite !lookup_insert_eq|].
  rewrite (lookup_insert_ne m), (lookup_insert_ne d) by congruence. apply H.
Qed.
Lemma msector_insert_other d sl lba ws sl' lba' : sl' <> sl -> msector (<[(sl, lba) := ws]> d) sl' lba' = msector d sl' lba'.
Proof using. intros. unfold msector. rewrite lookup_insert_ne; [done|congruence]. Qed.
Lemma medium_bytes_sectors m t idx sl d lba n : represents m idx sl d -> medium_bytes d sl lba n = sectors_at (Dev m t) DrvAta idx lba n.
Proof using. intros H. revert lba. induction n as [|n IH]; intros lba; [done|]. cbn [medium_bytes sectors_at]. by rewrite IH, <- H. Qed.

Lemma write_failed drv n s buf w : ad_io_base drv = io -> ch_phase w = Failed ->
  exists w', write_loop n drv s buf w = Some ((n =? 0)%nat, w') /\ ch_same w w'.
Proof using AtaChannel0 Hquiet.
  intros Hio Hp. destruct n as [|n]; [by exists w|]. cbn [write_loop]. rewrite Hio.
  destruct (ata_wait_drq_ok w ltac:(by rewrite Hp)) as (w1 & E1 & S1 & B1). rewrite (bind_eq _ _ _ _ _ E1), Hp. by exists w1.
Qed.

Lemma write_loop_ok drv idx n s sl lba pre ws post w m : ad_io_base drv = io -> ad_ctrl_base drv = ctrl -> 0 <= s ->
  Z.of_nat (length pre) = 512 * s -> length ws = (256 * n)%nat -> Forall in_u16 ws -> slave_of (ch_regs w) = sl ->
  ch_phase w = phase_out lba n -> represents m idx sl (ch_disk w) ->
  let g := good_run sl lba n in
  exists w', write_loop n drv s (pre ++ word_bytes ws ++ post) w = Some ((n <=? S g)%nat, w') /\ at_rest (ch_phase w') /\
    represents (put_sectors m DrvAta idx lba g (word_bytes ws)) idx sl (ch_disk w') /\
    forall sl' l, sl' <> sl -> msector (ch_disk w') sl' l = msector (ch_disk w) sl' l.
Proof using AtaChannel0 Hquiet.
  intros Hio Hc. cbv zeta. revert s lba pre ws w m. induction n as [|n IH]; intros s lba pre ws w m Hs Hpre Hm Hws Hsl Hp Hrep.
  { exists w. split; [done|]. split; [by left|]. done. }
  cbn [write_loop good_run phase_out] in *. rewrite Hio, Hc.
  destruct (ata_wait_drq_ok w ltac:(by rewrite Hp)) as (w1 & E1 & (R1 & D1 & P1) & B1). rewrite (bind_eq _ _ _ _ _ E1), Hp.
  cbn [has_data negb]. set (l := take 256 ws). assert (Hl : length l = 256%nat) by (unfold l; rewrite length_take; lia).
  assert (Hsplit : word_bytes ws = word_bytes l ++ word_bytes (drop 256 ws)) by (unfold l; by rewrite <- word_bytes_app, take_drop).
  rewrite Hsplit, <- app_assoc.
  destruct (out_words_ok l [] lba n pre (word_bytes (drop 256 ws) ++ post) w1) as (w2 & E2 & R2 & H2);
    [by rewrite P1|done|done|by intros E; rewrite E in Hl| |by apply Forall_take|].
  { apply Nat.even_spec. exists (Z.to_nat (256 * s)). lia. }
  replace (Z.of_nat (Nat.div2 (length pre))) with (s * 256) in E2
    by (replace (length pre) with (2 * Z.to_nat (256 * s))%nat by lia; rewrite Nat.div2_double; lia).
  rewrite Hl in E2. rewrite (bind_eq _ _ _ _ _ E2). destruct (ata_io_delay_ok w2) as (w3 & E3 & (R3 & D3 & P3) & _). rewrite (bind_eq _ _ _ _ _ E3).
  cbv zeta in H2. rewrite R1, Hsl in H2. destruct (bad sl lba); destruct H2 as [D2 P2].
  - destruct (write_failed drv n (s + 1) (pre ++ word_bytes l ++ word_bytes (drop 256 ws) ++ post) w3 Hio ltac:(congruence)) as (w' & E & (R & D & P)).
    exists w'. split; [rewrite E; do 2 f_equal; destruct n; done|]. split; [right; congruence|].
    rewrite D, D3, D2, D1. cbn [put_sectors]. done.
  - assert (Hg : length (word_bytes l) = 512%nat) by (rewrite length_word_bytes; lia).
    destruct (IH (s + 1) (lba + 1) (pre ++ word_bytes l) (drop 256 ws) w3 (<[(DrvAta, idx, lba) := word_bytes l]> m)) as (w' & E & Hr & Hrep' & Ho).
    { lia. } { rewrite length_app. lia. } { rewrite length_drop. lia. } { by apply Forall_drop. } { congruence. } { congruence. }
    { rewrite D3, D2, D1. by apply represents_insert. }
    exists w'. rewrite <- app_assoc in E. split; [exact E|]. split; [done|]. cbn [put_sectors].
    rewrite take_app_length' by lia. rewrite drop_app_length' by lia. split; [done|].
    intros sl' k Hk. rewrite Ho by done. rewrite D3, D2, D1. by apply msector_insert_other.
Qed.

(** ** The functions *)

(** The bad sectors as the fault oracle of Blk: the command fails after the [g]
    sectors before the first of them. *)
Definition medium_fault (sl lba : Z) (n : nat) : nat -> option nat :=
  fun _ => let g := good_run sl lba n in if (g =? n)%nat then None else Some g.

(** Drive [idx] of the table is on this channel. *)
Definition drive_on (st : ata_st) (idx : Z) (drv : ata_drive_t) : Prop :=
  0 <= idx < 256 /\ idx < at_num st /\ at_drives st !! Z.to_nat idx = Some drv /\ ad_present drv = true /\
  ad_io_base drv = io /\ ad_ctrl_base drv = ctrl.

Lemma ata_checked_ok st idx drv count : drive_on st idx drv -> 1 <= count -> ata_checked st idx count = Some (Some drv).
Proof using.
  intros (_ & Hn & Hd & Hp & _) Hc. unfold ata_checked. destruct (Z.geb_spec idx (at_num st)); [lia|]. rewrite Hd. cbn. rewrite Hp.
  cbn [negb]. bcase; [lia|done].
Qed.

(** The command is in the registers when it is given. *)
Lemma started drv lba count cmd_ext cmd w : ad_io_base drv = io -> ad_ctrl_base drv = ctrl -> lba_ok lba count -> at_rest (ch_phase w) ->
  cmd_ext = ATA_CMD_READ_PIO_EXT /\ cmd = ATA_CMD_READ_PIO \/ cmd_ext = ATA_CMD_WRITE_PIO_EXT /\ cmd = ATA_CMD_WRITE_PIO ->
  exists w0 w', ata_wait_bsy io w = Some (true, w0) /\ ata_command drv lba count cmd_ext cmd w0 = Some (tt, w') /\
    ch_disk w' = ch_disk w /\ slave_of (ch_regs w') = slave_bit drv /\
    ch_phase w' = if cmd =? ATA_CMD_READ_PIO then phase_in bad (ch_disk w) (slave_bit drv) lba (Z.to_nat count)
                  else phase_out lba (Z.to_nat count).
Proof using AtaChannel0 Hquiet.
  intros Hio Hc Hl Hp Hcmd. destruct (ata_wait_bsy_ok w) as (w0 & E0 & (R0 & D0 & P0) & B0).
  destruct (ata_command_ok drv lba count cmd_ext cmd w0 Hio Hc Hl B0 ltac:(by rewrite P0)) as (w1 & D1 & Hr1 & B1 & (Hsl & Hlba & Hcnt) & E1).
  exists w0. rewrite E1. unfold port_byte_out, modify. rewrite io_port by (cbv; split; discriminate). eexists. split; [done|]. split; [reflexivity|].
  set (v := if lba >=? 0x10000000 then cmd_ext else cmd).
  assert (Hv : u8 v = v) by (unfold v; destruct Hcmd as [[-> ->]|[-> ->]]; by destruct (lba >=? 0x10000000)). rewrite Hv.
  destruct (ch_command (io := io) w1 v B1 Hr1) as (R & D & H1 & H2 & H3 & H4). rewrite R, D. split; [congruence|]. split; [done|].
  rewrite D1, D0 in *. rewrite Hsl in *. subst v. destruct Hcmd as [[-> ->]|[-> ->]]; destruct (lba >=? 0x10000000) eqn:Eg;
    rewrite Hlba, Hcnt in *; cbn; auto.
Qed.

(** [ata_read_sectors] refines [blk_read]. *)
Lemma ata_read_refines_ok st idx drv lba count buffer w d : drive_on st idx drv -> lba_ok lba count ->
  512 * count <= Z.of_nat (length buffer) -> at_rest (ch_phase w) -> medium_ok (ch_disk w) ->
  represents (dv_sectors d) idx (slave_bit drv) (ch_disk w) ->
  let n := Z.to_nat count in
  exists r buf' w' res d', ata_read_sectors st idx lba count buffer w = Some ((r, buf'), w') /\
    at_rest (ch_phase w') /\ ch_disk w' = ch_disk w /\
    length buf' = length buffer /\ drop (512 * n) buf' = drop (512 * n) buffer /\
    blk_read (medium_fault (slave_bit drv) lba n) DRIVE_TYPE_ATA idx lba count d = Some (res, d') /\ dv_sectors d' = dv_sectors d /\
    match res with Some bs => r = 0 /\ take (512 * n) buf' = bs | None => r = -1 end.
Proof using AtaChannel0 Hquiet.
  intros Hd Hl Hbuf Hp Hok Hrep n. pose proof Hl as (Hlba0 & Hcnt & Hlba). pose proof Hd as (Hidx & _ & _ & _ & Hio & Hctrl).
  destruct (started drv lba count ATA_CMD_READ_PIO_EXT ATA_CMD_READ_PIO w Hio Hctrl Hl Hp ltac:(by left)) as (w0 & w1 & E0 & E1 & D1 & S1 & P1).
  cbn [Z.eqb] in P1. change (ATA_CMD_READ_PIO =? ATA_CMD_READ_PIO) with true in P1. cbv iota in P1.
  destruct (ata_read_loop_ok drv n 0 (slave_bit drv) lba [] (take (512 * n) buffer) (drop (512 * n) buffer) w1 Hio Hctrl ltac:(done) ltac:(done))
    as (r & mid & w' & E & Hlen & Hr & Ht & Hrest & Hdisk); [rewrite length_take; lia|done|by rewrite D1|by rewrite D1|].
  cbn [app] in E. rewrite take_drop in E. rewrite length_take in Hlen.
  pose proof (good_run_le (slave_bit drv) lba n) as Hle. set (g := good_run (slave_bit drv) lba n) in *.
  exists r, (mid ++ drop (512 * n) buffer), w', (if (g =? n)%nat then Some (sectors_at d DrvAta idx lba n) else None), (Dev (dv_sectors d) (S (dv_tick d))).
  split.
  { unfold ata_read_sectors. rewrite (ata_checked_ok st idx drv count) by (done || lia). rewrite (bind_eq _ _ _ (Some drv) w) by done.
    rewrite Hio, (bind_eq _ _ _ _ _ E0). cbn [negb]. fold n. by rewrite (bind_eq _ _ _ _ _ E1), E. }
  split; [done|]. split; [congruence|]. split; [rewrite length_app, Hlen, length_drop; lia|].
  split; [rewrite drop_app_length' by lia; done|]. split.
  { unfold blk_read, medium_fault. fold g. cbn [get_dev set_dev dev_has_dev]. rewrite !u8_id by word. rewrite u64_id by word. fold n.
    destruct (Nat.eqb_spec n 0); [lia|]. by destruct (g =? n)%nat. }
  split; [done|]. destruct (Nat.eqb_spec g n) as [Eg|]; [|done]. split; [done|].
  rewrite take_app_length' by lia. rewrite Eg, firstn_all2 in Ht by lia. rewrite Ht. destruct d as [m t]. rewrite D1. by apply medium_bytes_sectors.
Qed.

(** Bytes as the words of the data port. *)
Lemma bytes_words b n : bytes b -> length b = (2 * n)%nat -> exists ws, word_bytes ws = b /\ length ws = n /\ Forall in_u16 ws.
Proof using.
  revert b. induction n as [|n IH]; intros b Hb Hl; [exists []; by destruct b|].
  destruct b as [|x [|y b]]; [cbn in Hl; lia..|]. apply Forall_cons in Hb as [Hx Hb]. apply Forall_cons in Hb as [Hy Hb].
  destruct (IH b Hb ltac:(cbn in Hl; lia)) as (ws & E & El & Hws). exists ((x + 256 * y) :: ws). split; [|split; [cbn; lia|constructor; [word|done]]].
  change (le_bytes 2 (x + 256 * y) ++ word_bytes ws = x :: y :: b). rewrite E. cbn [le_bytes app]. f_equal; [word|f_equal; word].
Qed.

(** The first sector that cannot be transferred. *)
Lemma good_run_spec sl lba n :
  (forall k, 0 <= k < Z.of_nat (good_run sl lba n) -> bad sl (lba + k) = false) /\
  ((good_run sl lba n < n)%nat -> bad sl (lba + Z.of_nat (good_run sl lba n)) = true).
Proof using.
  revert lba. induction n as [|n IH]; intros lba; cbn [good_run]; [split; [lia|lia]|]. destruct (bad sl lba) eqn:E.
  - split; [lia|]. intros _. by rewrite Z.add_0_r.
  - destruct (IH (lba + 1)) as [H1 H2]. split.
    + intros k Hk. destruct (Z.eq_dec k 0) as [->|]; [by rewrite Z.add_0_r|]. rewrite <- (H1 (k - 1)) by lia. f_equal. lia.
    + intros Hlt. rewrite <- H2 by lia. f_equal. lia.
Qed.

(** The return value: only the sectors before the last count. *)
Definition write_result (sl lba count r : Z) : Prop :=
  (r = 0 /\ forall k, 0 <= k < count - 1 -> bad sl (lba + k) = false) \/
  (r = -1 /\ exists k, 0 <= k < count - 1 /\ bad sl (lba + k) = true).

(** [ata_write_sectors] writes what [blk_write] writes. *)
Lemma ata_write_refines_ok st idx drv lba count buffer w d : drive_on st idx drv -> lba_ok lba count ->
  length buffer = Z.to_nat (512 * count) -> bytes buffer -> at_rest (ch_phase w) ->
  represents (dv_sectors d) idx (slave_bit drv) (ch_disk w) -> early_flush_harmless (W := W) io ->
  exists r ok w' d', ata_write_sectors st idx lba count buffer w = Some (r, w') /\
    at_rest (ch_phase w') /\ write_result (slave_bit drv) lba count r /\
    blk_write (medium_fault (slave_bit drv) lba (Z.to_nat count)) DRIVE_TYPE_ATA idx lba count buffer d = Some (ok, d') /\
    (ok = true <-> r = 0 /\ bad (slave_bit drv) (lba + count - 1) = false) /\
    represents (dv_sectors d') idx (slave_bit drv) (ch_disk w') /\
    forall sl l, sl <> slave_bit drv -> msector (ch_disk w') sl l = msector (ch_disk w) sl l.
Proof using AtaChannel0 Hquiet.
  intros Hd Hl Hbuf Hby Hp Hrep Hflush. pose proof Hl as (Hlba0 & Hcnt & Hlba). pose proof Hd as (Hidx & _ & _ & _ & Hio & Hctrl).
  set (n := Z.to_nat count). destruct (bytes_words buffer (256 * n) Hby ltac:(lia)) as (ws & <- & Hws & Hu).
  destruct (started drv lba count ATA_CMD_WRITE_PIO_EXT ATA_CMD_WRITE_PIO w Hio Hctrl Hl Hp ltac:(by right)) as (w0 & w1 & E0 & E1 & D1 & S1 & P1).
  change (ATA_CMD_WRITE_PIO =? ATA_CMD_READ_PIO) with false in P1. cbv iota in P1.
  destruct (write_loop_ok drv idx n 0 (slave_bit drv) lba [] ws [] w1 (dv_sectors d) Hio Hctrl ltac:(done) ltac:(done) Hws Hu S1 P1 ltac:(by rewrite D1))
    as (w2 & E2 & Hr2 & Hrep2 & Ho2).
  cbn [app] in E2. rewrite app_nil_r in E2. pose proof (good_run_le (slave_bit drv) lba n) as Hle.
  destruct (good_run_spec (slave_bit drv) lba n) as [Hgood Hbad].
  set (g := good_run (slave_bit drv) lba n) in *. set (fin := (n <=? S g)%nat).
  assert (Hblk : blk_write (medium_fault (slave_bit drv) lba n) DRIVE_TYPE_ATA idx lba count (word_bytes ws) d =
    Some ((g =? n)%nat, Dev (put_sectors (dv_sectors d) DrvAta idx lba g (word_bytes ws)) (S (dv_tick d)))).
  { unfold blk_write, medium_fault. fold g. cbn [get_dev set_dev dev_has_dev]. rewrite !u8_id by word. rewrite u64_id by word. fold n.
    destruct (Nat.eqb_spec n 0); [lia|]. destruct (Nat.eqb_spec g n) as [Eg|]; [by rewrite Eg|]. by rewrite Nat.min_l by lia. }
  assert (Hres : write_result (slave_bit drv) lba count (if fin then 0 else -1) /\
    ((g =? n)%nat = true <-> (if fin then 0 else -1) = 0 /\ bad (slave_bit drv) (lba + count - 1) = false)).
  { unfold fin. destruct (Nat.leb_spec n (S g)) as [Hn|Hn]; rewrite Nat.eqb_eq.
    - split; [left; split; [done|intros k Hk; apply Hgood; lia]|]. split; [intros Eg; split; [done|]|intros [_ Hb]].
      + rewrite <- (Hgood (count - 1)) by lia. f_equal. lia.
      + destruct (decide (g = n)) as [|Hne]; [done|]. pose proof (Hbad ltac:(lia)) as Hg.
        replace (lba + Z.of_nat g) with (lba + count - 1) in Hg by lia. congruence.
    - split; [right; split; [done|exists (Z.of_nat g); split; [lia|apply Hbad; lia]]|]. split; [lia|intros [? _]; done]. }
  unfold ata_write_sectors. rewrite (ata_checked_ok st idx drv count) by (done || lia). rewrite (bind_eq _ _ _ (Some drv) w) by done.
  rewrite Hio, (bind_eq _ _ _ _ _ E0). cbn [negb]. rewrite (bind_eq _ _ _ _ _ E1). fold n. rewrite (bind_eq _ _ _ _ _ E2). fold fin.
  destruct Hres as [Hres Hok]. destruct fin; cbn [negb].
  - unfold port_byte_out. rewrite io_port by (cbv; split; discriminate). change (u8 ATA_CMD_CACHE_FLUSH) with ATA_CMD_CACHE_FLUSH.
    rewrite (bind_eq _ _ _ tt (hw_out8 (io + ATA_REG_COMMAND) ATA_CMD_CACHE_FLUSH w2)) by done.
    assert (Hf : let w' := hw_out8 (io + ATA_REG_COMMAND) ATA_CMD_CACHE_FLUSH w2 in
      ch_regs w' = ch_regs w2 /\ ch_disk w' = ch_disk w2 /\ at_rest (ch_phase w')).
    { destruct (decide (ch_busy w2 = 0%nat)); [by apply (ch_flush (io := io))|by apply Hflush]. }
    destruct Hf as (R3 & D3 & P3). set (w3 := hw_out8 _ _ _) in *.
    destruct (ata_wait_bsy_ok w3) as (w4 & E4 & (_ & D4 & P4) & _). rewrite (bind_eq _ _ _ _ _ E4).
    exists 0, (g =? n)%nat, w4. eexists. split; [done|]. split; [by rewrite P4|]. split; [done|]. split; [exact Hblk|]. split; [done|]. rewrite D4, D3. split; [done|].
    intros sl l Hn. by rewrite Ho2, D1.
  - exists (-1), (g =? n)%nat, w2. eexists. split; [done|]. split; [done|]. split; [done|]. split; [exact Hblk|]. split; [done|]. split; [done|]. intros sl l Hn. by rewrite Ho2, D1.
Qed.
End Channel.



(** ** Any hardware at all *)

Section Total.
Context {W : Type} `{!Ports W}.

Lemma returns_wait_bsy n io : returns (wait_bsy_loop (W := W) n io).
Proof. induction n as [|n IH]; cbn [wait_bsy_loop]; rsolve. Qed.
Lemma returns_wait_drq n io : returns (wait_drq_loop (W := W) n io).
Proof. induction n as [|n IH]; cbn [wait_drq_loop]; rsolve. Qed.
Lemma returns_delay ctrl : returns (ata_io_delay (W := W) ctrl).
Proof. unfold ata_io_delay. rsolve. Qed.
Lemma returns_bsy io : returns (ata_wait_bsy (W := W) io). Proof. apply returns_wait_bsy. Qed.
Lemma returns_drq io : returns (ata_wait_drq (W := W) io). Proof. apply returns_wait_drq. Qed.
Lemma returns_reset ctrl : returns (ata_soft_reset (W := W) ctrl).
Proof. unfold ata_soft_reset. rsolve; apply returns_delay. Qed.
Lemma returns_command drv lba count c1 c2 : returns (ata_command (W := W) drv lba count c1 c2).
Proof. unfold ata_command, ata_address. cbv zeta. rsolve; apply returns_delay. Qed.

(** What a loop over the data port leaves of the buffer: its length, and the
    bytes behind [lim]. *)
Definition kept (lim : Z) (b b' : list Z) : Prop := length b' = length b /\ drop (Z.to_nat lim) b' = drop (Z.to_nat lim) b.
Lemma word_put_kept lim b i v : 0 <= i -> 2 * i + 2 <= lim -> lim <= Z.of_nat (length b) -> exists b', word_put b i v = Some b' /\ kept lim b b'.
Proof.
  intros Hi Hl Hb. unfold word_put. destruct (Z.ltb_spec (2 * i + 1) (Z.of_nat (length b))); [|lia]. eexists. split; [done|].
  split; [apply length_splice|]. apply list_eq. intros j. rewrite !lookup_drop. apply lookup_splice_out. cbn. lia.
Qed.
Lemma kept_trans lim a b c : kept lim a b -> kept lim b c -> kept lim a c.
Proof. intros [H1 H2] [H3 H4]. split; congruence. Qed.
Lemma in_words_any n io i b lim w : 0 <= i -> 2 * (i + Z.of_nat n) <= lim -> lim <= Z.of_nat (length b) ->
  exists b' w', in_words (W := W) n io i b w = Some (b', w') /\ kept lim b b'.
Proof.
  revert i b w. induction n as [|n IH]; intros i b w Hi Hn Hl; [by exists b, w|]. cbn [in_words].
  destruct (returns_inw (W := W) (io + ATA_REG_DATA) w) as (v & w1 & E). rewrite (bind_eq _ _ _ _ _ E).
  destruct (word_put_kept lim b i v Hi ltac:(lia) Hl) as (b1 & Eb & Hk). rewrite (bind_eq _ _ _ b1 w1) by (by rewrite Eb).
  destruct (IH (i + 1) b1 w1 ltac:(lia) ltac:(lia) ltac:(rewrite (proj1 Hk); lia)) as (b' & w' & E' & Hk'). exists b', w'. split; [done|]. by eapply kept_trans.
Qed.
Lemma out_words_any n io i b : 0 <= i -> 2 * (i + Z.of_nat n) <= Z.of_nat (length b) -> returns (out_words (W := W) n io i b).
Proof.
  revert i. induction n as [|n IH]; intros i Hi Hn; cbn [out_words]; rsolve.
  - apply returns_lift. unfold word_get. destruct (Z.ltb_spec (2 * i + 1) (Z.of_nat (length b))); [done|lia].
  - apply IH; lia.
Qed.

Lemma read_loop_any n drv s b lim w : 0 <= s -> 512 * (s + Z.of_nat n) <= lim -> lim <= Z.of_nat (length b) ->
  exists r b' w', read_loop (W := W) n drv s b w = Some ((r, b'), w') /\ (r = 0 \/ r = -1) /\ kept lim b b'.
Proof.
  revert s b w. induction n as [|n IH]; intros s b w Hs Hn Hl; cbn [read_loop]; [exists 0, b, w; split; [done|]; split; [by left|done]|].
  destruct (returns_drq (ad_io_base drv) w) as ([] & w1 & E); rewrite (bind_eq _ _ _ _ _ E); cbn [negb];
    [|exists (-1), b, w1; split; [done|]; split; [by right|done]].
  destruct (in_words_any 256 (ad_io_base drv) (s * 256) b lim w1) as (b1 & w2 & E2 & Hk); [lia..|]. rewrite (bind_eq _ _ _ _ _ E2).
  destruct (returns_delay (ad_ctrl_base drv) w2) as ([] & w3 & E3). rewrite (bind_eq _ _ _ _ _ E3).
  destruct (IH (s + 1) b1 w3) as (r & b' & w' & E' & Hr & Hk'); [lia|lia|rewrite (proj1 Hk); lia|].
  exists r, b', w'. split; [done|]. split; [done|]. by eapply kept_trans.
Qed.
Lemma write_loop_any n drv s b : 0 <= s -> 512 * (s + Z.of_nat n) <= Z.of_nat (length b) -> returns (write_loop (W := W) n drv s b).
Proof.
  revert s. induction n as [|n IH]; intros s Hs Hn; cbn [write_loop]; rsolve; first [apply returns_drq|apply returns_delay|apply out_words_any; lia|apply IH; lia].
Qed.

(** The table of drives. *)
Definition ata_st_ok (st : ata_st) : Prop := length (at_drives st) = 4%nat /\ 0 <= at_num st <= 4.
Lemma identify_any io ctrl sl st w : ata_st_ok st -> at_num st < 4 ->
  exists st' w', ata_identify_drive (W := W) io ctrl sl st w = Some (st', w') /\ ata_st_ok st' /\ at_num st <= at_num st' <= at_num st + 1.
Proof.
  intros [Hl Hn] Hlt. assert (Hpre : forall st', st' = st \/ (exists d, st' = AtaSt (<[Z.to_nat (at_num st) := d]> (at_drives st)) (u8 (at_num st + 1))) ->
    ata_st_ok st' /\ at_num st <= at_num st' <= at_num st + 1).
  { intros st' [->|[d ->]]; [split; [done|lia]|]. unfold ata_st_ok. cbn [at_drives at_num]. rewrite length_insert. word. }
  assert (Hr : hoare (fun _ => True) (ata_identify_drive (W := W) io ctrl sl st)
    (fun st' _ => st' = st \/ exists d, st' = AtaSt (<[Z.to_nat (at_num st) := d]> (at_drives st)) (u8 (at_num st + 1)))).
  { assert (Hbind : forall A B (m : M W A) (f : A -> M W B) Q, returns m -> (forall a, hoare (fun _ => True) (f a) Q) -> hoare (fun _ => True) (x ← m; f x) Q).
    { intros A B m f Q Hm Hf w0 _. destruct (Hm w0) as (a & w1 & E). rewrite (bind_eq _ _ _ _ _ E). by apply Hf. }
    unfold ata_identify_drive.
    repeat first [apply Hbind; [rsolve; first [apply returns_delay|apply returns_bsy|apply returns_drq]|intros ?] | case_match; [apply hoare_ret; by left|]].
    intros w0 _. destruct (in_words_any 256 io 0 (replicate 512 0) 512 w0) as (b & w1 & E & _); [lia|lia|by rewrite length_replicate|].
    rewrite (bind_eq _ _ _ _ _ E). destruct (Z.ltb_spec (at_num st) (Z.of_nat (length (at_drives st)))); [|lia].
    eexists _, w1. split; [reflexivity|]. right. by eexists. }
  destruct (Hr w I) as (st' & w' & E & H). exists st', w'. auto.
Qed.
End Total.

(** C40 (drivers/ata.c, every function): whatever the ports answer, probing,
    reading and writing return; probing leaves a table of at most four drives,
    reading and writing return 0 or -1 for every drive number and every count
    of a byte, and reading writes nothing behind the first [512 count] bytes
    of the buffer. *)
Theorem ata_always_returns {W} `{!Ports W} (w : W) :
  exists st w', ata_init w = Some (st, w') /\ ata_st_ok st /\
    forall idx lba count buffer w, 0 <= idx -> 0 <= count <= 255 -> 512 * count <= Z.of_nat (length buffer) ->
      (exists r b w', ata_read_sectors st idx lba count buffer w = Some ((r, b), w') /\ (r = 0 \/ r = -1) /\
        length b = length buffer /\ drop (Z.to_nat (512 * count)) b = drop (Z.to_nat (512 * count)) buffer) /\
      exists r w', ata_write_sectors st idx lba count buffer w = Some (r, w') /\ (r = 0 \/ r = -1).
Proof.
  unfold ata_init.
  destruct (returns_reset ATA_PRIMARY_CTRL w) as ([] & w1 & E1). rewrite (bind_eq _ _ _ _ _ E1).
  destruct (returns_reset ATA_SECONDARY_CTRL w1) as ([] & w2 & E2). rewrite (bind_eq _ _ _ _ _ E2).
  destruct (identify_any ATA_PRIMARY_IO ATA_PRIMARY_CTRL 0 (AtaSt (replicate 4 no_drive) 0) w2) as (s3 & w3 & E3 & O3 & N3); [done|done|].
  cbn [at_num] in N3. rewrite (bind_eq _ _ _ _ _ E3).
  destruct (identify_any ATA_PRIMARY_IO ATA_PRIMARY_CTRL 1 s3 w3 O3) as (s4 & w4 & E4 & O4 & N4); [lia|]. rewrite (bind_eq _ _ _ _ _ E4).
  destruct (identify_any ATA_SECONDARY_IO ATA_SECONDARY_CTRL 0 s4 w4 O4) as (s5 & w5 & E5 & O5 & N5); [lia|]. rewrite (bind_eq _ _ _ _ _ E5).
  destruct (identify_any ATA_SECONDARY_IO ATA_SECONDARY_CTRL 1 s5 w5 O5) as (s6 & w6 & E6 & O6 & N6); [lia|].
  exists s6, w6. split; [done|]. split; [done|]. intros idx lba count buffer w0 Hidx Hc Hb.
  assert (Hchk : exists o, ata_checked s6 idx count = Some o).
  { unfold ata_checked. destruct (Z.geb_spec idx (at_num s6)); [eauto|]. destruct O6 as [Ol On].
    destruct (lookup_lt_is_Some_2 (at_drives s6) (Z.to_nat idx) ltac:(lia)) as [drv ->]. cbn. destruct (ad_present drv); [|eauto].
    destruct (count =? 0); eauto. }
  destruct Hchk as [o Ho]. unfold ata_read_sectors, ata_write_sectors. rewrite Ho. rewrite !(bind_eq (lift_option (Some o)) _ _ o w0) by done.
  destruct o as [drv|]; [|split; [exists (-1), buffer, w0|exists (-1), w0]; auto].
  destruct (returns_bsy (ad_io_base drv) w0) as ([] & w7 & E7); rewrite !(bind_eq _ _ _ _ _ E7); cbn [negb];
    [|split; [exists (-1), buffer, w7|exists (-1), w7]; auto].
  split.
  - destruct (returns_command drv lba count ATA_CMD_READ_PIO_EXT ATA_CMD_READ_PIO w7) as ([] & w8 & E8). rewrite (bind_eq _ _ _ _ _ E8).
    destruct (read_loop_any (Z.to_nat count) drv 0 buffer (512 * count) w8) as (r & b & w9 & E9 & Hr & Hk); [lia..|].
    exists r, b, w9. split; [done|]. split; [done|]. exact Hk.
  - destruct (returns_command drv lba count ATA_CMD_WRITE_PIO_EXT ATA_CMD_WRITE_PIO w7) as ([] & w8 & E8). rewrite (bind_eq _ _ _ _ _ E8).
    destruct (write_loop_any (Z.to_nat count) drv 0 buffer ltac:(lia) ltac:(lia) w8) as ([] & w9 & E9); rewrite (bind_eq _ _ _ _ _ E9); cbn [negb];
      [|exists (-1), w9; auto].
    destruct (returns_outb (ad_io_base drv + ATA_REG_COMMAND) ATA_CMD_CACHE_FLUSH w9) as ([] & w10 & E10). rewrite (bind_eq _ _ _ _ _ E10).
    destruct (returns_bsy (ad_io_base drv) w10) as (? & w11 & E11). rewrite (bind_eq _ _ _ _ _ E11). exists 0, w11. auto.
Qed.

(** ** A channel to run the driver on *)

Module AtaDemo.
(** Busy once after every command and every sector, with the bits of [noise]
    set besides BSY then; sector 7 is bad. *)
Record sim (noise : Z) := Sim { sm_regs : ata_regs; sm_phase : ata_phase; sm_disk : medium; sm_slow : bool }.
#[global] Arguments Sim {noise}.
#[global] Arguments sm_regs {noise}.
#[global] Arguments sm_phase {noise}.
#[global] Arguments sm_disk {noise}.
#[global] Arguments sm_slow {noise}.
Definition sim_bad (sl lba : Z) : bool := lba =? 7.
Definition status_byte (p : ata_phase) : Z := match p with Ready => 0x50 | Failed => 0x51 | _ => 0x58 end.
Definition sim_in8 {noise} (p : Z) (w : sim noise) : Z * sim noise :=
  if p =? 0x1F7 then
    if sm_slow w then (Z.lor 0x80 noise, Sim (sm_regs w) (sm_phase w) (sm_disk w) false) else (status_byte (sm_phase w), w)
  else (0, w).
Definition sim_in16 {noise} (p : Z) (w : sim noise) : Z * sim noise :=
  match sm_phase w with
  | DataIn (x :: ws) lba n =>
    (x, match ws with
        | [] => Sim (sm_regs w) (phase_in sim_bad (sm_disk w) (slave_of (sm_regs w)) lba n) (sm_disk w) true
        | _ => Sim (sm_regs w) (DataIn ws lba n) (sm_disk w) false
        end)
  | _ => (0, w)
  end.
Definition sim_out8 {noise} (p v : Z) (w : sim noise) : sim noise :=
  let r := sm_regs w in
  if p =? 0x1F7 then
    if v =? ATA_CMD_READ_PIO then Sim r (phase_in sim_bad (sm_disk w) (slave_of r) (lba28 r) (Z.to_nat (cnt28 r))) (sm_disk w) true
    else if v =? ATA_CMD_READ_PIO_EXT then Sim r (phase_in sim_bad (sm_disk w) (slave_of r) (lba48 r) (Z.to_nat (cnt48 r))) (sm_disk w) true
    else if v =? ATA_CMD_WRITE_PIO then Sim r (phase_out (lba28 r) (Z.to_nat (cnt28 r))) (sm_disk w) true
    else if v =? ATA_CMD_WRITE_PIO_EXT then Sim r (phase_out (lba48 r) (Z.to_nat (cnt48 r))) (sm_disk w) true
    else w
  else Sim (reg_write (p - 0x1F0) v r) (sm_phase w) (sm_disk w) (sm_slow w).
Definition sim_out16 {noise} (p v : Z) (w : sim noise) : sim noise :=
  match sm_phase w with
  | DataOut ws lba n =>
    if (length ws <? 255)%nat then Sim (sm_regs w) (DataOut (ws ++ [v]) lba n) (sm_disk w) (sm_slow w)
    else if sim_bad (slave_of (sm_regs w)) lba then Sim (sm_regs w) Failed (sm_disk w) true
    else Sim (sm_regs w) (phase_out (lba + 1) n) (<[(slave_of (sm_regs w), lba) := ws ++ [v]]> (sm_disk w)) true
  | _ => w
  end.
#[global] Instance sim_ports noise : Ports (sim noise) := {|
  hw_in8 := sim_in8; hw_in16 := sim_in16; hw_in32 _ w := (0, w);
  hw_out8 := sim_out8; hw_out16 := sim_out16; hw_out32 _ _ w := w;
|}.
#[global] Instance sim_view noise : AtaView (sim noise) := {|
  ch_regs := sm_regs; ch_phase := sm_phase; ch_disk := sm_disk; ch_busy w := if sm_slow w then 1%nat else 0%nat;
|}.
Lemma sim_busy noise : shows_busy (u8 (Z.lor 0x80 noise)).
Proof.
  unfold shows_busy, ATA_SR_BSY. intros H. assert (Ht : Z.testbit (Z.land (u8 (Z.lor 0x80 noise)) 0x80) 7 = true); [|by rewrite H in Ht].
  rewrite Z.land_spec. unfold u8. change 256 with (2 ^ 8). by rewrite Z.mod_pow2_bits_low, Z.lor_spec by lia.
Qed.
#[global] Instance sim_channel noise : AtaChannel (sim noise) ATA_PRIMARY_IO ATA_PRIMARY_CTRL sim_bad.
Proof.
  split.
  - intros w. cbn. destruct (sm_slow w); lia.
  - done.
  - intros w. unfold hw_in8, sim_ports, sim_in8. change (ATA_PRIMARY_IO + ATA_REG_STATUS =? 0x1F7) with true. cbv iota.
    destruct w as [r p d []]; cbn [sm_slow sm_regs sm_phase sm_disk]; (split; [done|]); [left; split; [apply sim_busy|cbn; lia]|right; split; [|done]].
    destruct p; cbn; (split; [done|]); auto.
  - intros w. done.
  - intros w off v Ho Hb Hr. cbn in Hb |- *. unfold sim_out8, ATA_REG_SECCOUNT, ATA_REG_DRIVE, ATA_PRIMARY_IO in *.
    destruct (Z.eqb_spec (0x1F0 + off) 0x1F7); [lia|]. replace (0x1F0 + off - 0x1F0) with off by lia. done.
  - intros w v Hb Hr. cbv zeta. unfold hw_out8, sim_ports, sim_out8. change (ATA_PRIMARY_IO + ATA_REG_COMMAND =? 0x1F7) with true. cbv iota.
    unfold ATA_CMD_READ_PIO, ATA_CMD_READ_PIO_EXT, ATA_CMD_WRITE_PIO, ATA_CMD_WRITE_PIO_EXT.
    repeat (bcase; [subst; split_and!; done|]). split_and!; try done; intros; lia.
  - intros w Hr. done.
  - intros w x ws lba n Hp Hb. cbn in Hp. unfold hw_in16, sim_ports, sim_in16. rewrite Hp. split; [done|]. by destruct ws.
  - intros w v ws lba n Hp Hb. cbv zeta. cbn in Hp, Hb. destruct (sm_slow w) eqn:Es; [done|]. unfold hw_out16, sim_ports, sim_out16. rewrite Hp.
    destruct (length ws <? 255)%nat; [by cbn; rewrite Es|]. change (ch_regs w) with (sm_regs w). by destruct (sim_bad (slave_of (sm_regs w)) lba).
Qed.

Definition drv : ata_drive_t := AtaDrive true (replicate 41 0) 16 ATA_PRIMARY_IO ATA_PRIMARY_CTRL 1.
Definition table : ata_st := AtaSt [drv; no_drive; no_drive; no_drive] 1.
Definition disk0 : medium := {[ (0x10, 3) := replicate 256 0x4142 ]}.
Definition sim_start noise : sim noise := Sim (Regs 0 (0, 0) (0, 0) (0, 0) (0, 0)) Ready disk0 false.
Definition sim0 : sim 0 := sim_start 0.
Lemma sim0_quiet : quiet_while_busy (W := sim 0) ATA_PRIMARY_IO.
Proof.
  intros [r p d []]; [done|]. unfold hw_in8, sim_ports, sim_in8. change (ATA_PRIMARY_IO + ATA_REG_STATUS =? 0x1F7) with true. cbn [sm_slow sm_phase fst].
  by destruct p.
Qed.
Lemma sim0_flush : early_flush_harmless (W := sim 0) ATA_PRIMARY_IO.
Proof. done. Qed.
Definition dev0 : dev := Dev {[ (DrvAta, 0, 3) := word_bytes (replicate 256 0x4142) ]} 0.

Lemma disk0_ok : medium_ok disk0.
Proof.
  intros sl lba. unfold msector, disk0. destruct (decide ((sl, lba) = (0x10, 3))) as [->|Hn].
  - rewrite lookup_singleton_eq. split; [done|]. by apply Forall_replicate.
  - rewrite lookup_singleton_ne by done. split; [done|]. by apply Forall_replicate.
Qed.
Lemma dev0_represents : represents (dv_sectors dev0) 0 (slave_bit drv) disk0.
Proof.
  intros lba. unfold msector, disk0, dev0, dv_sectors. destruct (decide (lba = 3)) as [->|Hn]; [done|].
  rewrite !lookup_singleton_ne by congruence. done.
Qed.
Lemma drv_on : drive_on ATA_PRIMARY_IO ATA_PRIMARY_CTRL table 0 drv.
Proof. split_and!; done. Qed.

(** A write of one sector, the bad one: 0 comes back, and nothing was written. *)
Example last_bad_ex :
  (fun r => (fst r, sm_disk (snd r) !! (0x10, 7))) <$> ata_write_sectors table 0 7 1 (replicate 512 1) sim0 = Some (0, None).
Proof. by vm_compute. Qed.

(** Reading sector 3, which is good, on a channel that shows ERR besides BSY
    and follows the standard ([sim_channel]): -1. *)
Example noisy_ex :
  (fun r => fst (fst r)) <$> ata_read_sectors table 0 3 1 (replicate 512 0) (sim_start ATA_SR_ERR) = Some (-1).
Proof. by vm_compute. Qed.
End AtaDemo.



Lemma ata_always_returns_witness : exists st w', ata_init AtaDemo.sim0 = Some (st, w') /\ ata_st_ok st.
Proof. destruct (ata_always_returns AtaDemo.sim0) as (st & w' & E & H & _). exists st, w'. exact (conj E H). Defined.
