(* ===== verification/Sectors.v ===== *)
(** * Sectors of a disk and the bytes of shared memory

    What the drivers of block devices share: the blocks of a device, their
    sectors, how they represent a drive of Blk, and lemmas on the memory of Hw
    and on buffers that change in one range. *)

From S2P Require Import Prelude Hw Blk.

(** The blocks of a device, [bs] bytes each. *)
Abbreviation blocks := (gmap Z (list Z)).
Definition block (bs : Z) (d : blocks) (b : Z) : list Z := default (replicate (Z.to_nat bs) 0) (d !! b).
Fixpoint blocks_at (bs : Z) (d : blocks) (b : Z) (n : nat) : list Z :=
  match n with O => [] | S n => block bs d b ++ blocks_at bs d (b + 1) n end.
Fixpoint put_blocks (bs : Z) (d : blocks) (b : Z) (n : nat) (l : list Z) : blocks :=
  match n with O => d | S n => put_blocks bs (<[b := take (Z.to_nat bs) l]> d) (b + 1) n (drop (Z.to_nat bs) l) end.
Fixpoint all_good (bad : Z -> bool) (b : Z) (n : nat) : bool :=
  match n with O => true | S n => negb (bad b) && all_good bad (b + 1) n end.

Definition blocks_ok (bs : Z) (d : blocks) : Prop := forall b, length (block bs d b) = Z.to_nat bs.

Definition in_range (a lo n : Z) : Prop := lo <= a < lo + n.
Definition same_mem {W} `{!Dma W} (w w' : W) : Prop := forall a, mem w' a = mem w a.

(** ** Memory *)

Section Mem.
Context {W : Type} `{!Dma W}.
Lemma length_mem_bytes (w : W) a n : length (mem_bytes w a n) = n.
Proof. unfold mem_bytes. by rewrite length_map, length_seq. Qed.
Lemma lookup_mem_bytes (w : W) a n i : (i < n)%nat -> mem_bytes w a n !! i = Some (mem w (a + Z.of_nat i)).
Proof. intros. unfold mem_bytes. rewrite list_lookup_fmap, lookup_seq_lt by done. done. Qed.
Lemma mem_bytes_ext (w w' : W) a n : (forall x, a <= x < a + Z.of_nat n -> mem w' x = mem w x) -> mem_bytes w' a n = mem_bytes w a n.
Proof. intros H. apply list_eq. intros i. destruct (decide (i < n)%nat); [rewrite !lookup_mem_bytes by done; f_equal; apply H; lia|]. by rewrite !lookup_ge_None_2 by (rewrite length_mem_bytes; lia). Qed.
Lemma slice_mem_bytes (w : W) a n off m : 0 <= off -> 0 <= m -> off + m <= Z.of_nat n -> slice (mem_bytes w a n) off m = mem_bytes w (a + off) (Z.to_nat m).
Proof.
  intros. apply list_eq. intros i. destruct (decide (i < Z.to_nat m)%nat).
  - rewrite lookup_slice by lia. rewrite !lookup_mem_bytes by lia. do 2 f_equal. lia.
  - rewrite !lookup_ge_None_2; [done|rewrite length_mem_bytes; lia|]. unfold slice. rewrite length_take. lia.
Qed.
(** The low bit of a 16-bit entry is that of its first byte. *)
Lemma low_bit (w : W) a : Z.land (le_val (mem_bytes w a 2)) 1 = mem w a mod 2.
Proof.
  rewrite (land_ones_mod _ 1) by done. change (2 ^ 1) with 2. cbn. rewrite Z.add_0_r. set (x := mem w a). set (y := mem w (a + 1)).
  change (mem w (a + Z.of_nat 1)) with y. zlia.
Qed.
(** What a store leaves, in a memory where stores do what they say. *)
Lemma store_bytes (w : W) a l :
  (forall x, mem (set_mem_at a l w) x = default (mem w x) (if bool_decide (a <= x) then l !! Z.to_nat (x - a) else None)) ->
  mem_bytes (set_mem_at a l w) a (length l) = l /\ forall x, ~ in_range x a (Z.of_nat (length l)) -> mem (set_mem_at a l w) x = mem w x.
Proof.
  intros Hm. split.
  - apply list_eq. intros i. destruct (decide (i < length l)%nat) as [Hi|Hi].
    + rewrite lookup_mem_bytes, Hm by done. rewrite bool_decide_true by lia. replace (Z.to_nat (a + Z.of_nat i - a)) with i by lia.
      destruct (lookup_lt_is_Some_2 l i Hi) as [v ->]. done.
    + rewrite !lookup_ge_None_2; [done|lia|rewrite length_mem_bytes; lia].
  - intros x Hx. rewrite Hm. destruct (decide (a <= x)); [|by rewrite bool_decide_false by done]. rewrite bool_decide_true by done.
    unfold in_range in Hx. by rewrite lookup_ge_None_2 by lia.
Qed.
End Mem.

Lemma le_val_app a b : le_val (a ++ b) = le_val a + 256 ^ Z.of_nat (length a) * le_val b.
Proof.
  induction a as [|x a IH]; [cbn [app le_val length]; change (256 ^ Z.of_nat 0) with 1; lia|]. cbn [app le_val length].
  rewrite IH, Nat2Z.inj_succ, Z.pow_succ_r by lia. lia.
Qed.

Lemma all_good_app bad b n m : all_good bad b (n + m) = all_good bad b n && all_good bad (b + Z.of_nat n) m.
Proof.
  revert b. induction n as [|n IH]; intros b; cbn [all_good Nat.add]; [by replace (b + Z.of_nat 0) with b by lia|].
  rewrite IH, andb_assoc. do 2 f_equal. lia.
Qed.

(** ** Sectors *)

Section Sectors.
Context (bs : Z) (bad : Z -> bool).

(** A sector is a part of a block; it is good when the block is. *)
Definition spb : Z := bs / 512.
Definition nsector (d : blocks) (lba : Z) : list Z := slice (block bs d (lba / spb)) (512 * (lba mod spb)) 512.
Fixpoint nsectors (d : blocks) (lba : Z) (n : nat) : list Z :=
  match n with O => [] | S n => nsector d lba ++ nsectors d (lba + 1) n end.
Definition sectors_good (lba : Z) (n : nat) : bool := all_good (fun l => bad (l / spb)) lba n.

Lemma spb_eq : bs = 512 \/ bs = 4096 -> spb = 1 \/ spb = 8.
Proof. intros Hbs. unfold spb. destruct Hbs as [-> | ->]; [by left|by right]. Qed.
Lemma length_nsector d lba : bs = 512 \/ bs = 4096 -> blocks_ok bs d -> length (nsector d lba) = 512%nat.
Proof.
  intros Hbs H. unfold nsector, slice. rewrite length_take, length_drop, H. unfold spb. destruct Hbs as [-> | ->]; [change (512 / 512) with 1|change (4096 / 512) with 8]; zlia.
Qed.
Lemma length_nsectors d lba n : bs = 512 \/ bs = 4096 -> blocks_ok bs d -> length (nsectors d lba n) = (512 * n)%nat.
Proof. intros Hbs H. revert lba. induction n as [|n IH]; intros lba; [done|]. cbn [nsectors]. rewrite length_app, IH, length_nsector by done. lia. Qed.
Lemma nsectors_app d lba n m : nsectors d lba (n + m) = nsectors d lba n ++ nsectors d (lba + Z.of_nat n) m.
Proof.
  revert lba. induction n as [|n IH]; intros lba; [by replace (lba + Z.of_nat 0) with lba by lia|]. cbn [nsectors Nat.add].
  rewrite IH, app_assoc. do 2 f_equal. lia.
Qed.
Lemma blocks_512 d b n : bs = 512 -> blocks_ok bs d -> blocks_at bs d b n = nsectors d b n.
Proof.
  intros Hb H. revert b. induction n as [|n IH]; intros b; [done|]. cbn [blocks_at nsectors]. rewrite IH. f_equal.
  unfold nsector, spb. rewrite Hb. change (512 / 512) with 1. rewrite Z.div_1_r, Z.mod_1_r. specialize (H b). rewrite Hb in H.
  rewrite Z.mul_0_r. change 512 with (Z.of_nat (Z.to_nat 512)) at 3. rewrite <- H at 1. by rewrite slice_all.
Qed.
Lemma good_512 b n : bs = 512 -> all_good bad b n = sectors_good b n.
Proof.
  intros Hb. unfold sectors_good, spb. rewrite Hb. change (512 / 512) with 1. revert b. induction n as [|n IH]; intros b; [done|]. cbn [all_good].
  by rewrite IH, Z.div_1_r.
Qed.

Lemma sectors_good_app lba n m : sectors_good lba (n + m) = sectors_good lba n && sectors_good (lba + Z.of_nat n) m.
Proof. apply all_good_app. Qed.
End Sectors.

(** Drive [idx] of the driver [drv] is the device. *)
Definition nrep (drv : driver) (bs : Z) (m : gmap (driver * Z * Z) (list Z)) (idx : Z) (d : blocks) : Prop :=
  forall lba, 0 <= lba -> default (replicate 512 0) (m !! (drv, idx, lba)) = nsector bs d lba.
Lemma nrep_sectors drv bs m t idx d lba n : nrep drv bs m idx d -> 0 <= lba -> nsectors bs d lba n = sectors_at (Dev m t) drv idx lba n.
Proof. intros H. revert lba. induction n as [|n IH]; intros lba Hl; [done|]. cbn [nsectors sectors_at]. by rewrite IH, <- H by lia. Qed.

Lemma put_sectors_app m drv idx lba n k buf :
  put_sectors m drv idx lba (n + k) buf = put_sectors (put_sectors m drv idx lba n buf) drv idx (lba + Z.of_nat n) k (drop (512 * n) buf).
Proof.
  revert m lba buf. induction n as [|n IH]; intros m lba buf; [by replace (lba + Z.of_nat 0) with lba by lia|].
  cbn [Nat.add put_sectors]. rewrite IH, drop_drop. f_equal; [lia|f_equal; lia].
Qed.
Lemma put_sectors_take m drv idx lba n buf : put_sectors m drv idx lba n (take (512 * n) buf) = put_sectors m drv idx lba n buf.
Proof.
  revert m lba buf. induction n as [|n IH]; intros m lba buf; [done|]. cbn [put_sectors]. rewrite take_take, Nat.min_l by lia.
  rewrite skipn_firstn_comm. replace (512 * S n - 512)%nat with (512 * n)%nat by lia. apply IH.
Qed.
Lemma nsector_512 d x : length (block 512 d x) = 512%nat -> nsector 512 d x = block 512 d x.
Proof.
  intros H. unfold nsector, spb. change (512 / 512) with 1. rewrite Z.div_1_r, Z.mod_1_r, Z.mul_0_r.
  transitivity (slice (block 512 d x) 0 (Z.of_nat (length (block 512 d x)))); [by rewrite H|apply slice_all].
Qed.
Lemma blocks_ok_insert d b l : blocks_ok 512 d -> length l = 512%nat -> blocks_ok 512 (<[b := l]> d).
Proof. intros Hok Hl x. unfold block. destruct (decide (x = b)) as [->|Hn]; [by rewrite lookup_insert_eq|]. rewrite lookup_insert_ne by done. apply Hok. Qed.
Lemma put_blocks_frame d b n l : blocks_ok 512 d -> length l = (512 * n)%nat ->
  blocks_ok 512 (put_blocks 512 d b n l) /\ forall x, ~ in_range x b (Z.of_nat n) -> put_blocks 512 d b n l !! x = d !! x.
Proof.
  revert d b l. induction n as [|n IH]; intros d b l Hok Hl; [done|]. cbn [put_blocks]. change (Z.to_nat 512) with 512%nat.
  destruct (IH (<[b := take 512 l]> d) (b + 1) (drop 512 l)) as (H2 & H3);
    [apply blocks_ok_insert; [done|rewrite length_take; lia]|rewrite length_drop; lia|].
  split; [exact H2|]. intros x Hx. unfold in_range in *. rewrite H3 by lia. rewrite lookup_insert_ne; [done|lia].
Qed.
Lemma put_blocks_nrep drv m idx d b n l : nrep drv 512 m idx d -> blocks_ok 512 d -> length l = (512 * n)%nat ->
  nrep drv 512 (put_sectors m drv idx b n l) idx (put_blocks 512 d b n l).
Proof.
  revert m d b l. induction n as [|n IH]; intros m d b l Hm Hok Hl; [done|]. cbn [put_sectors put_blocks]. change (Z.to_nat 512) with 512%nat.
  assert (Hok1 : blocks_ok 512 (<[b := take 512 l]> d)) by (apply blocks_ok_insert; [done|rewrite length_take; lia]).
  apply IH; [|done|rewrite length_drop; lia].
  intros x Hx. rewrite nsector_512 by apply Hok1. unfold block. destruct (decide (x = b)) as [->|Hn]; [by rewrite !lookup_insert_eq|].
  rewrite (lookup_insert_ne m), (lookup_insert_ne d) by congruence. rewrite Hm by done. rewrite nsector_512 by apply Hok. done.
Qed.

(** The buffer [b'] is [b] but for [lo, hi). *)
Definition changed (lo hi : Z) (b b' : list Z) : Prop :=
  length b' = length b /\ forall i, ~ (lo <= Z.of_nat i < hi) -> b' !! i = b !! i.
Lemma changed_splice lo b off l : lo = off -> 0 <= off -> changed lo (off + Z.of_nat (length l)) b (splice b off l).
Proof. intros -> Ho. split; [apply length_splice|]. intros i Hi. apply lookup_splice_out. lia. Qed.
Lemma changed_trans lo mid hi a b c : lo <= mid <= hi -> changed lo mid a b -> changed mid hi b c -> changed lo hi a c.
Proof. intros H [L1 H1] [L2 H2]. split; [congruence|]. intros i Hi. rewrite H2, H1 by lia. done. Qed.
Lemma changed_slice lo hi b b' off n : changed lo hi b b' -> 0 <= off -> 0 <= n -> off + n <= lo -> slice b' off n = slice b off n.
Proof.
  intros [Hl H] Ho Hn Hle. apply list_eq. intros i. destruct (decide (i < Z.to_nat n)%nat).
  - rewrite !lookup_slice by done. apply H. lia.
  - unfold slice. rewrite !lookup_take_ge by lia. done.
Qed.
Lemma length_blocks_at d b n : blocks_ok 512 d -> length (blocks_at 512 d b n) = (512 * n)%nat.
Proof. intros H. revert b. induction n as [|n IH]; intros b; [done|]. cbn [blocks_at]. rewrite length_app, IH, H. lia. Qed.

(** A memory as a function, and a store in it. *)
Definition store_at (a : Z) (l : list Z) (m : Z -> Z) : Z -> Z :=
  fun x => default (m x) (if bool_decide (a <= x) then l !! Z.to_nat (x - a) else None).
Lemma store_at_in a l m i : (i < length l)%nat -> store_at a l m (a + Z.of_nat i) = default 0 (l !! i).
Proof.
  intros Hi. unfold store_at. rewrite bool_decide_true by lia. replace (Z.to_nat (a + Z.of_nat i - a)) with i by lia.
  destruct (lookup_lt_is_Some_2 l i Hi) as [v ->]. done.
Qed.
Lemma store_at_out a l m x : ~ in_range x a (Z.of_nat (length l)) -> store_at a l m x = m x.
Proof.
  intros Hx. unfold store_at. destruct (decide (a <= x)); [|by rewrite bool_decide_false by done]. rewrite bool_decide_true by done.
  unfold in_range in Hx. by rewrite lookup_ge_None_2 by lia.
Qed.
Lemma store_at_bytes a l m : map (fun i => store_at a l m (a + Z.of_nat i)) (seq 0 (length l)) = l.
Proof.
  apply list_eq. intros i. destruct (decide (i < length l)%nat) as [Hi|Hi].
  - rewrite list_lookup_fmap, lookup_seq_lt by done. cbn. rewrite store_at_in by done. destruct (lookup_lt_is_Some_2 l i Hi) as [v ->]. done.
  - rewrite !lookup_ge_None_2; [done|lia|rewrite length_map, length_seq; lia].
Qed.
Lemma store_at_one a v m : store_at a [v] m a = v.
Proof. pose proof (store_at_in a [v] m 0 ltac:(cbn; lia)) as H. by rewrite Z.add_0_r in H. Qed.
(** [n] bytes of such a memory. *)
Definition mem_at (m : Z -> Z) (a : Z) (n : nat) : list Z := map (fun i => m (a + Z.of_nat i)) (seq 0 n).
