(* ===== verification/Nvme.v ===== *)
(** * drivers/nvme.c: queues and sectors

    Commands are written to a submission queue in memory, announced by a
    doorbell register and answered in a completion queue whose entries carry a
    phase bit; sectors pass through one buffer of 4096 bytes. The device is
    the machine of Hw: registers, and DMA that happens between the volatile
    reads of the polling loop. The static arrays are at the addresses of a
    [nvme_mem]; the text printed by [nvme_init] is left out. *)

From S2P Require Import Prelude Hw Pci.

Definition NVME_CAP_HI : Z := 0x04.
Definition NVME_CC : Z := 0x14.
Definition NVME_CSTS : Z := 0x1C.
Definition NVME_AQA : Z := 0x24.
Definition NVME_ASQ_LO : Z := 0x28.
Definition NVME_ACQ_LO : Z := 0x30.
Definition CC_EN : Z := 1.
Definition CC_VALUE : Z := Z.lor (Z.lor (Z.shiftl 6 16) (Z.shiftl 4 20)) CC_EN.
Definition CSTS_RDY : Z := 1.
Definition CSTS_CFS : Z := 2.
Definition NVME_Q_DEPTH : Z := 64.
Definition NVME_SQE_SIZE : Z := 64.
Definition ADM_CREATE_IO_SQ : Z := 0x01.
Definition ADM_CREATE_IO_CQ : Z := 0x05.
Definition ADM_IDENTIFY : Z := 0x06.
Definition IO_WRITE : Z := 0x01.
Definition IO_READ : Z := 0x02.
Definition MAX_NVME_DRIVES : Z := 4.

Record nvme_sqe_t := Sqe {
  cdw0 : Z; nsid : Z; cdw2_3 : Z; mptr : Z; prp1 : Z; prp2 : Z;
  cdw10 : Z; cdw11 : Z; cdw12 : Z; cdw13 : Z; cdw14 : Z; cdw15 : Z;
}.
Definition sqe_bytes (c : nvme_sqe_t) : list Z :=
  le_bytes 4 (cdw0 c) ++ le_bytes 4 (nsid c) ++ le_bytes 8 (cdw2_3 c) ++ le_bytes 8 (mptr c) ++ le_bytes 8 (prp1 c) ++ le_bytes 8 (prp2 c) ++
  le_bytes 4 (cdw10 c) ++ le_bytes 4 (cdw11 c) ++ le_bytes 4 (cdw12 c) ++ le_bytes 4 (cdw13 c) ++ le_bytes 4 (cdw14 c) ++ le_bytes 4 (cdw15 c).

(** The tail of a submission queue, and the head and the phase of its
    completion queue. *)
Record nvme_q := Nq { nq_tail : Z; nq_head : Z; nq_phase : Z }.
Record nvme_drive_t := NvDrive {
  nd_present : bool;
  nd_model : list Z;
  nd_sectors : Z;
  nd_lba_size : Z;
  nd_bar0 : Z;
  nd_dstrd : Z;
  nd_admin : nvme_q;
  nd_io : nvme_q;
  nd_cid : Z;
}.
Definition drive_zero : nvme_drive_t := NvDrive false (replicate 41 0) 0 0 0 0 (Nq 0 0 0) (Nq 0 0 0) 0.
Definition set_admin (q : nvme_q) (cid : Z) (d : nvme_drive_t) : nvme_drive_t :=
  NvDrive (nd_present d) (nd_model d) (nd_sectors d) (nd_lba_size d) (nd_bar0 d) (nd_dstrd d) q (nd_io d) cid.
Definition set_io (q : nvme_q) (cid : Z) (d : nvme_drive_t) : nvme_drive_t :=
  NvDrive (nd_present d) (nd_model d) (nd_sectors d) (nd_lba_size d) (nd_bar0 d) (nd_dstrd d) (nd_admin d) q cid.

(** The static arrays. *)
Record nvme_mem := NvMem { a_admin_sq : Z; a_admin_cq : Z; a_io_sq : Z; a_io_cq : Z; a_id_buf : Z; a_io_data : Z }.

Definition doorbell (d : nvme_drive_t) (q_id is_cq : Z) : Z :=
  u64 (nd_bar0 d + 0x1000 + u32 (u32 (2 * q_id + is_cq) * u32 (Z.shiftl 4 (nd_dstrd d)))).

Section Nvme.
Context {W : Type} `{!Ports W, !Mmio W, !Dma W} (L : nvme_mem).

Definition wr64 (base off v : Z) : M W unit := wr32 (base + off) v;; wr32 (base + off + 4) (Z.shiftr v 32).

(** The rest of the 2000000 looks at the entry at the head of the completion
    queue at [cq]. *)
Fixpoint cq_poll (n : nat) (d : nvme_drive_t) (q_id cq : Z) (q : nvme_q) : M W (Z * nvme_q) :=
  match n with
  | O => mret (-1, q)
  | S n =>
    v ← vload (cq + 16 * nq_head q + 14) 2;
    if Z.land v 1 =? nq_phase q then
      v ← vload (cq + 16 * nq_head q + 14) 2;
      let sc := Z.land (Z.shiftr v 1) 0x7FF in
      let head := (nq_head q + 1) mod NVME_Q_DEPTH in
      let phase := if head =? 0 then Z.lxor (nq_phase q) 1 else nq_phase q in
      wr32 (doorbell d q_id 1) head;;
      mret (if sc =? 0 then 0 else -1, Nq (nq_tail q) head phase)
    else cq_poll n d q_id cq q
  end.

(** The bodies of [admin_cmd] and [io_cmd], which differ in the queue. *)
Definition queue_cmd (d : nvme_drive_t) (q_id sq cq : Z) (q : nvme_q) (cid : Z) (cmd : nvme_sqe_t) : M W (Z * nvme_q) :=
  let cmd := Sqe (Z.lor (Z.land (cdw0 cmd) 0xFFFF) (Z.shiftl cid 16)) (nsid cmd) (cdw2_3 cmd) (mptr cmd) (prp1 cmd) (prp2 cmd)
               (cdw10 cmd) (cdw11 cmd) (cdw12 cmd) (cdw13 cmd) (cdw14 cmd) (cdw15 cmd) in
  mem_store_bytes (sq + NVME_SQE_SIZE * nq_tail q) (sqe_bytes cmd);;
  let tail := (nq_tail q + 1) mod NVME_Q_DEPTH in
  wr32 (doorbell d q_id 0) tail;;
  cq_poll (Z.to_nat 2000000) d q_id cq (Nq tail (nq_head q) (nq_phase q)).

Definition admin_cmd (idx : Z) (cmd : nvme_sqe_t) (d : nvme_drive_t) : M W (Z * nvme_drive_t) :=
  '(r, q) ← queue_cmd d 0 (a_admin_sq L + idx * NVME_Q_DEPTH * NVME_SQE_SIZE) (a_admin_cq L + idx * 4096) (nd_admin d) (nd_cid d) cmd;
  mret (r, set_admin q (u16 (nd_cid d + 1)) d).
Definition io_cmd (idx : Z) (cmd : nvme_sqe_t) (d : nvme_drive_t) : M W (Z * nvme_drive_t) :=
  '(r, q) ← queue_cmd d 1 (a_io_sq L + idx * NVME_Q_DEPTH * NVME_SQE_SIZE) (a_io_cq L + idx * 4096) (nd_io d) (nd_cid d) cmd;
  mret (r, set_io q (u16 (nd_cid d + 1)) d).

(** ** Reading and writing *)

Definition io_sqe (opc lba nlb : Z) : nvme_sqe_t := Sqe opc 1 0 0 (a_io_data L) 0 (u32 lba) (u32 (Z.shiftr lba 32)) (u32 nlb) 0 0 0.

(** memcpy into the caller's buffer. *)
Definition copy_into (b : list Z) (off : Z) (l : list Z) : option (list Z) :=
  if (0 <=? off) && (off + Z.of_nat (length l) <=? Z.of_nat (length b)) then Some (splice b off l) else None.
Definition copy_from (b : list Z) (off n : Z) : option (list Z) :=
  if (0 <=? off) && (off + n <=? Z.of_nat (length b)) then Some (slice b off n) else None.

(** The loop over batches of eight sectors; each round makes progress, so
    [count] rounds are enough. *)
Fixpoint read_512 (n : nat) (idx lba count done : Z) (out : list Z) (d : nvme_drive_t) : M W (Z * list Z * nvme_drive_t) :=
  if done <? count then
    match n with
    | O => diverge
    | S n =>
      let batch := u8 (count - done) in
      let batch := if batch >? 8 then 8 else batch in
      '(r, d) ← io_cmd idx (io_sqe IO_READ (u64 (lba + done)) (batch - 1)) d;
      if negb (r =? 0) then mret (-1, out, d)
      else
        l ← mem_load_bytes (a_io_data L) (Z.to_nat (batch * 512));
        out ← lift_option (copy_into out (done * 512) l);
        read_512 n idx lba count (u8 (done + batch)) out d
    end
  else mret (0, out, d).
(** The loop over single sectors of blocks of 4096 bytes. *)
Fixpoint read_4096 (n : nat) (idx lba i : Z) (out : list Z) (d : nvme_drive_t) : M W (Z * list Z * nvme_drive_t) :=
  match n with
  | O => mret (0, out, d)
  | S n =>
    let cur := u64 (lba + i) in
    let nlba := cur / 8 in
    let off_in := cur mod 8 * 512 in
    '(r, d) ← io_cmd idx (io_sqe IO_READ nlba 0) d;
    if negb (r =? 0) then mret (-1, out, d)
    else
      l ← mem_load_bytes (a_io_data L + off_in) 512;
      out ← lift_option (copy_into out (i * 512) l);
      read_4096 n idx lba (i + 1) out d
  end.
Fixpoint write_512 (n : nat) (idx lba count done : Z) (inb : list Z) (d : nvme_drive_t) : M W (Z * nvme_drive_t) :=
  if done <? count then
    match n with
    | O => diverge
    | S n =>
      let batch := u8 (count - done) in
      let batch := if batch >? 8 then 8 else batch in
      l ← lift_option (copy_from inb (done * 512) (batch * 512));
      mem_store_bytes (a_io_data L) l;;
      '(r, d) ← io_cmd idx (io_sqe IO_WRITE (u64 (lba + done)) (batch - 1)) d;
      if negb (r =? 0) then mret (-1, d) else write_512 n idx lba count (u8 (done + batch)) inb d
    end
  else mret (0, d).

(** [drives] and [num_drives]. *)
Record nvme_st := NvSt { nv_drives : list nvme_drive_t; nv_num : Z }.
Definition put_drive (idx : Z) (d : nvme_drive_t) (st : nvme_st) : nvme_st := NvSt (<[Z.to_nat idx := d]> (nv_drives st)) (nv_num st).

Definition nvme_read_sectors (idx lba count : Z) (buf : list Z) (st : nvme_st) : M W (Z * list Z * nvme_st) :=
  if idx >=? nv_num st then mret (-1, buf, st)
  else
    d ← lift_option (nv_drives st !! Z.to_nat idx);
    if negb (nd_present d) then mret (-1, buf, st)
    else if nd_lba_size d =? 512 then
      '(r, out, d) ← read_512 (Z.to_nat count) idx lba count 0 buf d; mret (r, out, put_drive idx d st)
    else if nd_lba_size d =? 4096 then
      '(r, out, d) ← read_4096 (Z.to_nat count) idx lba 0 buf d; mret (r, out, put_drive idx d st)
    else mret (-1, buf, st).
Definition nvme_write_sectors (idx lba count : Z) (buf : list Z) (st : nvme_st) : M W (Z * nvme_st) :=
  if idx >=? nv_num st then mret (-1, st)
  else
    d ← lift_option (nv_drives st !! Z.to_nat idx);
    if negb (nd_present d) then mret (-1, st)
    else if negb (nd_lba_size d =? 512) then mret (-1, st)
    else '(r, d) ← write_512 (Z.to_nat count) idx lba count 0 buf d; mret (r, put_drive idx d st).

(** ** Starting a controller *)

Fixpoint wait_not_ready (n : nat) (d : nvme_drive_t) : M W unit :=
  match n with
  | O => mret tt
  | S n => v ← rd32 (nd_bar0 d + NVME_CSTS); if Z.land v CSTS_RDY =? 0 then mret tt else wait_not_ready n d
  end.
Fixpoint wait_ready (n : nat) (d : nvme_drive_t) : M W bool :=
  match n with
  | O => mret false
  | S n =>
    csts ← rd32 (nd_bar0 d + NVME_CSTS);
    if negb (Z.land csts CSTS_CFS =? 0) then mret false
    else if negb (Z.land csts CSTS_RDY =? 0) then mret true
    else wait_ready n d
  end.
(** Trailing spaces of the 40 bytes of the model. *)
Fixpoint trim_spaces_back (n : nat) (m : list Z) : list Z :=
  match n with
  | O => m
  | S n => if get8 m (Z.of_nat n) =? 32 then trim_spaces_back n (put8 m (Z.of_nat n) 0) else m
  end.
Definition identify_sqe (ns ib cns : Z) : nvme_sqe_t := Sqe ADM_IDENTIFY ns 0 0 ib 0 cns 0 0 0 0 0.

(** Size and capacity from the identify data of the namespace; [1u << lbads]
    is undefined for 32 and more. *)
Definition namespace_size (ib : list Z) : option (Z * Z) :=
  let nsze := get64 ib 0 in
  let flbas := Z.land (get8 ib 26) 0x0F in
  let lbaf := get32 ib (128 + flbas * 4) in
  let lbads := u8 (Z.land (Z.shiftr lbaf 16) 0xFF) in
  if lbads <? 32 then
    let lba_size := u32 (Z.shiftl 1 lbads) in
    let lba_size := if lba_size <? 512 then 512 else lba_size in
    Some (lba_size, u64 (nsze * (lba_size / 512)))
  else None.

Definition nvme_init_one (bus slot func : Z) (st : nvme_st) : M W (Z * nvme_st) :=
  if nv_num st >=? MAX_NVME_DRIVES then mret (-1, st)
  else
    let idx := nv_num st in
    let fail d := mret (-1, put_drive idx d st) in
    pci_cmd ← pci_config_read_dword bus slot func 0x04;
    pci_config_write_dword bus slot func 0x04 (Z.lor pci_cmd 0x06);;
    bar0_lo ← pci_config_read_dword bus slot func 0x10;
    bar0_hi ← pci_config_read_dword bus slot func 0x14;
    let bar0 := Z.lor (Z.shiftl bar0_hi 32) (Z.land bar0_lo (not64 0xF)) in
    let d := NvDrive false (replicate 41 0) 0 0 bar0 0 (Nq 0 0 1) (Nq 0 0 1) 0 in
    if bar0 =? 0 then fail d
    else
      cap ← rd32 (bar0 + NVME_CAP_HI);
      let d := NvDrive false (replicate 41 0) 0 0 bar0 (Z.land cap 0xF) (Nq 0 0 1) (Nq 0 0 1) 0 in
      cc ← rd32 (bar0 + NVME_CC);
      when (negb (Z.land cc CC_EN =? 0)) (wr32 (bar0 + NVME_CC) (Z.land cc (not32 CC_EN));; wait_not_ready (Z.to_nat 1000000) d);;
      wr32 (bar0 + NVME_AQA) (Z.lor (Z.shiftl (NVME_Q_DEPTH - 1) 16) (NVME_Q_DEPTH - 1));;
      wr64 bar0 NVME_ASQ_LO (a_admin_sq L + idx * NVME_Q_DEPTH * NVME_SQE_SIZE);;
      wr64 bar0 NVME_ACQ_LO (a_admin_cq L + idx * 4096);;
      wr32 (bar0 + NVME_CC) CC_VALUE;;
      ok ← wait_ready (Z.to_nat 2000000) d;
      if negb ok then fail d
      else
        let ib := a_id_buf L + idx * 4096 in
        mem_store_bytes ib (replicate 4096 0);;
        '(r, d) ← admin_cmd idx (identify_sqe 0 ib 1) d;
        if negb (r =? 0) then fail d
        else
          model ← mem_load_bytes (ib + 24) 40;
          let d := NvDrive false (trim_spaces_back 40 (model ++ [0])) 0 0 bar0 (nd_dstrd d) (nd_admin d) (nd_io d) (nd_cid d) in
          mem_store_bytes ib (replicate 4096 0);;
          '(r, d) ← admin_cmd idx (identify_sqe 1 ib 0) d;
          if negb (r =? 0) then fail d
          else
            data ← mem_load_bytes ib 4096;
            '(lba_size, sectors) ← lift_option (namespace_size data);
            let d := NvDrive false (nd_model d) sectors lba_size bar0 (nd_dstrd d) (nd_admin d) (nd_io d) (nd_cid d) in
            '(r, d) ← admin_cmd idx (Sqe ADM_CREATE_IO_CQ 0 0 0 (a_io_cq L + idx * 4096) 0 (Z.lor (Z.shiftl (NVME_Q_DEPTH - 1) 16) 1) 1 0 0 0 0) d;
            if negb (r =? 0) then fail d
            else
              '(r, d) ← admin_cmd idx (Sqe ADM_CREATE_IO_SQ 0 0 0 (a_io_sq L + idx * NVME_Q_DEPTH * NVME_SQE_SIZE) 0
                                         (Z.lor (Z.shiftl (NVME_Q_DEPTH - 1) 16) 1) (Z.lor (Z.shiftl 1 16) 1) 0 0 0 0) d;
              if negb (r =? 0) then fail d
              else
                let d := NvDrive true (nd_model d) sectors lba_size bar0 (nd_dstrd d) (nd_admin d) (nd_io d) (nd_cid d) in
                mret (0, NvSt (<[Z.to_nat idx := d]> (nv_drives st)) (u8 (idx + 1))).

(** The scan of [nvme_init]: functions, slots, buses. The loops over buses and
    slots stop when the table is full, the one over functions does not. *)
Fixpoint scan_funcs (n : nat) (bus slot func : Z) (st : nvme_st) : M W nvme_st :=
  match n with
  | O => mret st
  | S n =>
    vendor ← pci_get_vendor bus slot func;
    if vendor =? 0xFFFF then scan_funcs n bus slot (func + 1) st
    else
      class ← pci_get_class_code bus slot func;
      if negb (class =? 0x01) then scan_funcs n bus slot (func + 1) st
      else
        sub ← pci_get_subclass bus slot func;
        if negb (sub =? 0x08) then scan_funcs n bus slot (func + 1) st
        else
          progif ← pci_get_progif bus slot func;
          if negb (progif =? 0x02) then scan_funcs n bus slot (func + 1) st
          else
            '(_, st) ← nvme_init_one bus slot func st;
            scan_funcs n bus slot (func + 1) st
  end.
Fixpoint scan_slots (n : nat) (bus slot : Z) (st : nvme_st) : M W nvme_st :=
  match n with
  | O => mret st
  | S n =>
    if nv_num st <? MAX_NVME_DRIVES then
      multi ← pci_is_multifunction bus slot;
      st ← scan_funcs (if multi : bool then 8 else 1) bus slot 0 st;
      scan_slots n bus (slot + 1) st
    else mret st
  end.
Fixpoint scan_buses (n : nat) (bus : Z) (st : nvme_st) : M W nvme_st :=
  match n with
  | O => mret st
  | S n => if nv_num st <? MAX_NVME_DRIVES then st ← scan_slots 32 bus 0 st; scan_buses n (bus + 1) st else mret st
  end.
Definition nvme_init : M W nvme_st := scan_buses 256 0 (NvSt (replicate 4 drive_zero) 0).

Definition nvme_get_drive (idx : Z) (st : nvme_st) : option nvme_drive_t :=
  if idx >=? MAX_NVME_DRIVES then None else nv_drives st !! Z.to_nat idx.
End Nvme.
