(* ===== verification/NvmeProofs.v ===== *)
(** * The NVMe driver over a controller that follows the standard

    The view of a controller with its first I/O queue pair ([NvmeDevice]:
    doorbells, the DMA of a command and of its completion), the polling loop
    against it, and [nvme_read_sectors] and [nvme_write_sectors] as
    refinements of the block device of Blk, for blocks of 512 and of 4096
    bytes. *)

From S2P Require Import Prelude Hw Blk Sectors Nvme.

(** ** A controller *)

(** Nothing to do; a command at slot [t] that is completed within [k] looks; a
    completion posted at slot [h] with phase [p] and not yet acknowledged. *)
Inductive ctl_state :=
| CIdle (t h p : Z)
| CBusy (k : nat) (t h p : Z)
| CDone (t h p : Z).

Class NvmeView (W : Type) := { nv_ctl : W -> ctl_state; nv_disk : W -> blocks }.

Section Spec.
Context {W : Type} `{!Mmio W, !Dma W, !NvmeView W}.

(** The completion of the command [c] with the entry at [cqe], phase [p]: the
    data of a read go to its first page of memory, those of a write to the
    namespace; a block that is bad fails the command. *)
Definition completes (bs : Z) (bad : Z -> bool) (c : list Z) (cqe p : Z) (w w' : W) : Prop :=
  let st := le_val (mem_bytes w' (cqe + 14) 2) in
  let sc := Z.land (Z.shiftr st 1) 0x7FF in
  let prp := get64 c 24 in
  let b := get64 c 40 in
  let n := Z.to_nat (get16 c 48 + 1) in
  let size := bs * Z.of_nat n in
  Z.land st 1 = p /\
  (get8 c 0 = IO_READ ->
    nv_disk w' = nv_disk w /\
    (forall a, ~ in_range a prp size -> ~ in_range a cqe 16 -> mem w' a = mem w a) /\
    if all_good bad b n then sc = 0 /\ mem_bytes w' prp (Z.to_nat size) = blocks_at bs (nv_disk w) b n else sc <> 0) /\
  (get8 c 0 = IO_WRITE ->
    (forall a, ~ in_range a cqe 16 -> mem w' a = mem w a) /\
    if all_good bad b n then sc = 0 /\ nv_disk w' = put_blocks bs (nv_disk w) b n (mem_bytes w prp (Z.to_nat size))
    else sc <> 0 /\ forall x, ~ in_range x b (Z.of_nat n) -> nv_disk w' !! x = nv_disk w !! x).

(** [sq], [cq]: the queues; [sqb], [cqb]: their doorbells; [nsze]: the blocks
    of the namespace. A command of namespace 1 whose data fit in the page at
    its first pointer, away from the entry [cqe]. *)
Definition io_command (bs nsze cqe : Z) (c : list Z) : Prop :=
  (get8 c 0 = IO_READ \/ get8 c 0 = IO_WRITE) /\ get32 c 4 = 1 /\ get64 c 24 mod 4096 = 0 /\
  bs * (get16 c 48 + 1) <= 4096 /\ get64 c 40 + get16 c 48 + 1 <= nsze /\
  (get64 c 24 + 4096 <= cqe \/ cqe + 16 <= get64 c 24).

Class NvmeDevice (sq cq sqb cqb bs nsze : Z) (bad : Z -> bool) := {
  dv_store w a l : nv_ctl (set_mem_at a l w) = nv_ctl w /\ nv_disk (set_mem_at a l w) = nv_disk w /\
    forall x, mem (set_mem_at a l w) x = default (mem w x) (if bool_decide (a <= x) then l !! Z.to_nat (x - a) else None);
  dv_submit w t h p : nv_ctl w = CIdle t h p ->
    let w' := hw_wr32 sqb ((t + 1) mod 64) w in
    (exists k, (k < Z.to_nat 2000000)%nat /\ nv_ctl w' = CBusy k t h p) /\ same_mem w w' /\ nv_disk w' = nv_disk w;
  dv_busy w k t h p : nv_ctl w = CBusy k t h p -> p = 0 \/ p = 1 -> blocks_ok bs (nv_disk w) ->
    io_command bs nsze (cq + 16 * h) (mem_bytes w (sq + 64 * t) 64) ->
    let w' := dma w in
    (exists k', (k' < k)%nat /\ nv_ctl w' = CBusy k' t h p /\ same_mem w w' /\ nv_disk w' = nv_disk w) \/
    (nv_ctl w' = CDone t h p /\ completes bs bad (mem_bytes w (sq + 64 * t) 64) (cq + 16 * h) p w w');
  dv_done w t h p : nv_ctl w = CDone t h p -> nv_ctl (dma w) = CDone t h p /\ same_mem w (dma w) /\ nv_disk (dma w) = nv_disk w;
  dv_ack w t h p : nv_ctl w = CDone t h p ->
    let w' := hw_wr32 cqb ((h + 1) mod 64) w in
    nv_ctl w' = CIdle ((t + 1) mod 64) ((h + 1) mod 64) (if (h + 1) mod 64 =? 0 then 1 - p else p) /\ same_mem w w' /\ nv_disk w' = nv_disk w;
}.
End Spec.

(** What a controller reads in an entry. *)
Lemma sqe_parse c : let l := sqe_bytes c in
  get8 l 0 = cdw0 c mod 256 /\ get32 l 4 = nsid c mod 2 ^ 32 /\ get64 l 24 = prp1 c mod 2 ^ 64 /\
  get64 l 40 = cdw10 c mod 2 ^ 32 + 2 ^ 32 * (cdw11 c mod 2 ^ 32) /\ get16 l 48 = cdw12 c mod 2 ^ 16 /\ length l = 64%nat.
Proof.
  intros l. split; [done|]. unfold get32, get64, get16.
  change (slice l 4 4) with (le_bytes 4 (nsid c)). change (slice l 24 8) with (le_bytes 8 (prp1 c)).
  change (slice l 40 8) with (le_bytes 4 (cdw10 c) ++ le_bytes 4 (cdw11 c)). change (slice l 48 2) with (firstn 2 (le_bytes 4 (cdw12 c))).
  rewrite le_val_app, !le_val_bytes, length_le_bytes. split_and!; try done.
  change (firstn 2 (le_bytes 4 (cdw12 c))) with (le_bytes 2 (cdw12 c)). by rewrite le_val_bytes.
Qed.

(** Where a copy leaves the caller's buffer. *)
Lemma copy_into_ok b off l : 0 <= off -> off + Z.of_nat (length l) <= Z.of_nat (length b) -> copy_into b off l = Some (splice b off l).
Proof. intros. unfold copy_into. by rewrite (proj2 (Z.leb_le _ _)), (proj2 (Z.leb_le _ _)) by lia. Qed.

Section Device.
Context {W : Type} `{!Ports W, !Mmio W, !Dma W, !NvmeView W} (L : nvme_mem) (idx bs nsze : Z) (bad : Z -> bool) (bar0 dstrd : Z).
Implicit Types (w : W) (d : nvme_drive_t).

(** The drive of a record, and its queues. *)
Definition sq_at : Z := a_io_sq L + idx * NVME_Q_DEPTH * NVME_SQE_SIZE.
Definition cq_at : Z := a_io_cq L + idx * 4096.
Definition drive_of (bar0 dstrd : Z) : nvme_drive_t := NvDrive true [] 0 0 bar0 dstrd (Nq 0 0 0) (Nq 0 0 0) 0.
Definition sq_bell : Z := doorbell (drive_of bar0 dstrd) 1 0.
Definition cq_bell : Z := doorbell (drive_of bar0 dstrd) 1 1.
Context `{!NvmeDevice (W := W) sq_at cq_at sq_bell cq_bell bs nsze bad}.

(** The arrays lie apart, the data on a page. *)
Definition layout_ok : Prop :=
  0 < a_io_data L /\ a_io_data L mod 4096 = 0 /\ a_io_data L + 4096 <= 2 ^ 64 /\
  (sq_at + 4096 <= a_io_data L \/ a_io_data L + 4096 <= sq_at) /\
  (cq_at + 1024 <= a_io_data L \/ a_io_data L + 4096 <= cq_at) /\
  (sq_at + 4096 <= cq_at \/ cq_at + 1024 <= sq_at).
Context (HL : layout_ok).

(** Driver and controller agree: the tail, the head and the phase are those of
    the controller, and the completion queue holds entries of the phase up to
    the head and of the other one from there on. *)
Definition in_sync (d : nvme_drive_t) (w : W) : Prop :=
  let q := nd_io d in
  nd_bar0 d = bar0 /\ nd_dstrd d = dstrd /\ nv_ctl w = CIdle (nq_tail q) (nq_head q) (nq_phase q) /\
  0 <= nq_tail q < 64 /\ 0 <= nq_head q < 64 /\ (nq_phase q = 0 \/ nq_phase q = 1) /\
  forall i, 0 <= i < 64 -> mem w (cq_at + 16 * i + 14) mod 2 = if i <? nq_head q then nq_phase q else 1 - nq_phase q.

Lemma in_sync_frame d w w' : in_sync d w -> nv_ctl w' = nv_ctl w -> (forall a, in_range a cq_at 1024 -> mem w' a = mem w a) -> in_sync d w'.
Proof using.
  intros (H1 & H2 & H3 & H4 & H5 & H6 & H7) Hc Hm. split; [done|]. split; [done|]. split; [by rewrite Hc|]. do 3 (split; [done|]).
  intros i Hi. rewrite Hm by (unfold in_range; lia). by apply H7.
Qed.

(** The polling loop while the command [c] runs. *)
Lemma cq_poll_ok c n k d q w : nd_bar0 d = bar0 -> nd_dstrd d = dstrd ->
  nv_ctl w = CBusy k ((nq_tail q - 1) mod 64) (nq_head q) (nq_phase q) -> (k < n)%nat ->
  mem_bytes w (sq_at + 64 * ((nq_tail q - 1) mod 64)) 64 = c -> io_command bs nsze (cq_at + 16 * nq_head q) c -> blocks_ok bs (nv_disk w) ->
  0 <= nq_tail q < 64 -> 0 <= nq_head q < 64 -> nq_phase q = 0 \/ nq_phase q = 1 ->
  mem w (cq_at + 16 * nq_head q + 14) mod 2 = 1 - nq_phase q ->
  exists w0 w1 w', same_mem w w0 /\ nv_disk w0 = nv_disk w /\ completes bs bad c (cq_at + 16 * nq_head q) (nq_phase q) w0 w1 /\
    same_mem w1 w' /\ nv_disk w' = nv_disk w1 /\
    let head := (nq_head q + 1) mod 64 in
    let phase := if head =? 0 then 1 - nq_phase q else nq_phase q in
    let sc := Z.land (Z.shiftr (le_val (mem_bytes w1 (cq_at + 16 * nq_head q + 14) 2)) 1) 0x7FF in
    cq_poll n d 1 cq_at q w = Some (if sc =? 0 then 0 else -1, Nq (nq_tail q) head phase, w') /\
    nv_ctl w' = CIdle (nq_tail q) head phase.
Proof using NvmeDevice0.
  intros Hbar Hds. revert k w. induction n as [|n IH]; intros k w Hctl Hk Hc Hio Hok Ht Hh Hp Hslot; [lia|]. cbn [cq_poll].
  rewrite (bind_eq _ _ _ _ _ (vload_eq _ _ _)), low_bit.
  destruct (dv_busy w k _ _ _ Hctl Hp Hok) as [(k' & Hk' & Hctl' & Hm & Hd)|[Hctl' Hcomp]]; [by rewrite Hc|..].
  - rewrite Hm, Hslot. destruct (Z.eqb_spec (1 - nq_phase q) (nq_phase q)); [lia|].
    destruct (IH k' (dma w) Hctl' ltac:(lia)) as (w0 & w1 & w' & H0 & H1 & H2 & H3 & H4 & H5); [|done|by rewrite Hd|done|done|done|by rewrite Hm|].
    { rewrite <- Hc. apply mem_bytes_ext. intros; apply Hm. }
    exists w0, w1, w'. split; [intros a; by rewrite H0|]. split; [congruence|]. done.
  - rewrite Hc in Hcomp. set (w1 := dma w) in *. pose proof Hcomp as [Hph _]. cbv zeta in Hph. rewrite low_bit in Hph.
    rewrite Hph, Z.eqb_refl. rewrite (bind_eq _ _ _ _ _ (vload_eq _ _ _)).
    destruct (dv_done w1 _ _ _ Hctl') as (Hctl2 & Hm2 & Hd2). set (w2 := dma w1) in *.
    rewrite (mem_bytes_ext w1 w2) by (intros; apply Hm2). unfold NVME_Q_DEPTH. set (head := (nq_head q + 1) mod 64).
    assert (Hhead : 0 <= head < 64) by (unfold head; zlia).
    assert (Hlx : Z.lxor (nq_phase q) 1 = 1 - nq_phase q) by (by destruct Hp as [-> | ->]). rewrite Hlx.
    assert (Hbell : doorbell d 1 1 = cq_bell) by (unfold doorbell, cq_bell, drive_of; cbn; by rewrite Hbar, Hds). rewrite Hbell.
    assert (Hu : u64 cq_bell = cq_bell) by (unfold cq_bell, doorbell; by rewrite u64_id by apply u64_range).
    unfold wr32. rewrite Hu, (u32_id head) by word. rewrite (bind_eq _ _ _ tt (hw_wr32 cq_bell head w2)) by done.
    destruct (dv_ack w2 _ _ _ Hctl2) as (Hctl3 & Hm3 & Hd3). fold head in Hctl3, Hm3, Hd3.
    exists w, w1, (hw_wr32 cq_bell head w2). split; [done|]. split; [done|]. split; [done|].
    split; [intros a; by rewrite Hm3, Hm2|]. split; [congruence|]. cbv zeta. split; [done|]. rewrite Hctl3. f_equal. zlia.
Qed.

Lemma store_ok a l w : mem_bytes (set_mem_at a l w) a (length l) = l /\
  (forall x, ~ in_range x a (Z.of_nat (length l)) -> mem (set_mem_at a l w) x = mem w x) /\
  nv_ctl (set_mem_at a l w) = nv_ctl w /\ nv_disk (set_mem_at a l w) = nv_disk w.
Proof using NvmeDevice0.
  destruct (dv_store w a l) as (Hc & Hd & Hm). destruct (store_bytes w a l Hm). by split_and!.
Qed.

(** What a command of the driver does, on both outcomes. *)
Definition same_drive (d d' : nvme_drive_t) : Prop :=
  nd_present d' = nd_present d /\ nd_lba_size d' = nd_lba_size d /\ nd_sectors d' = nd_sectors d.

Lemma io_cmd_ok opc b nlb d w : in_sync d w -> opc = IO_READ \/ opc = IO_WRITE -> 0 <= b -> 0 <= nlb < 65536 -> 0 < bs ->
  bs * (nlb + 1) <= 4096 -> b + nlb + 1 <= nsze -> nsze <= 2 ^ 64 -> 0 <= nd_cid d -> blocks_ok bs (nv_disk w) ->
  let n := Z.to_nat (nlb + 1) in
  let size := Z.to_nat (bs * (nlb + 1)) in
  exists r d' w', io_cmd L idx (io_sqe L opc b nlb) d w = Some (r, d', w') /\ in_sync d' w' /\ same_drive d d' /\ 0 <= nd_cid d' /\
    r = (if all_good bad b n then 0 else -1) /\
    (opc = IO_READ -> nv_disk w' = nv_disk w /\ (all_good bad b n = true -> mem_bytes w' (a_io_data L) size = blocks_at bs (nv_disk w) b n)) /\
    (opc = IO_WRITE -> if all_good bad b n then nv_disk w' = put_blocks bs (nv_disk w) b n (mem_bytes w (a_io_data L) size)
                       else forall x, ~ in_range x b (Z.of_nat n) -> nv_disk w' !! x = nv_disk w !! x).
Proof using NvmeDevice0 HL.
  intros Hs Hopc Hb Hnlb Hbs Hsize Hns Hns64 Hcid Hok n size. pose proof Hs as (Hbar & Hds & Hctl & Ht & Hh & Hp & Hslots).
  pose proof HL as (HL1 & HL2 & HL3 & HL4 & HL5 & HL6).
  unfold io_cmd, queue_cmd. fold sq_at cq_at. unfold NVME_SQE_SIZE, NVME_Q_DEPTH.
  set (q := nd_io d) in *. set (cmd := Sqe _ _ _ _ _ _ _ _ _ _ _ _).
  pose proof (sqe_parse cmd) as (P0 & P4 & P24 & P40 & P48 & Plen).
  assert (Eopc : get8 (sqe_bytes cmd) 0 = opc).
  { rewrite P0. unfold cmd, io_sqe. cbn [cdw0]. change 0xFFFF with (2 ^ 16 - 1). rewrite Z.lor_comm, (land_ones_mod opc 16), (lor_shiftl_add (nd_cid d) _ 16) by zlia.
    change (2 ^ 16) with 65536. unfold IO_READ, IO_WRITE in *. destruct Hopc as [-> | ->]; zlia. }
  assert (Eprp : get64 (sqe_bytes cmd) 24 = a_io_data L) by (rewrite P24; unfold cmd, io_sqe; cbn [prp1]; zlia).
  assert (Eb : get64 (sqe_bytes cmd) 40 = b).
  { rewrite P40. unfold cmd, io_sqe. cbn [cdw10 cdw11]. rewrite Z.shiftr_div_pow2 by done. word. }
  assert (En : get16 (sqe_bytes cmd) 48 = nlb) by (rewrite P48; unfold cmd, io_sqe; cbn [cdw12]; word).
  assert (Hio : io_command bs nsze (cq_at + 16 * nq_head q) (sqe_bytes cmd)).
  { unfold io_command. rewrite Eopc, P4, Eprp, Eb, En. split_and!; try done; lia. }
  set (a := sq_at + 64 * nq_tail q). destruct (store_ok a (sqe_bytes cmd) w) as (M1 & M1' & C1 & D1). rewrite Plen in *.
  unfold mem_store_bytes. set (w1 := set_mem_at a (sqe_bytes cmd) w) in *. rewrite !bind_bind.
  rewrite (bind_eq (modify (set_mem_at a (sqe_bytes cmd))) _ w tt w1) by done.
  set (tail := (nq_tail q + 1) mod 64). assert (Htail : 0 <= tail < 64) by (unfold tail; zlia).
  assert (Hbell : doorbell d 1 0 = sq_bell) by (unfold doorbell, sq_bell, drive_of; cbn; by rewrite Hbar, Hds). rewrite Hbell.
  assert (Hu : u64 sq_bell = sq_bell) by (unfold sq_bell, doorbell; by rewrite u64_id by apply u64_range).
  destruct (dv_submit w1 (nq_tail q) (nq_head q) (nq_phase q) ltac:(by rewrite C1)) as ((k & Hk & C2) & M2 & D2). fold tail in C2, M2, D2.
  unfold wr32. rewrite Hu, (u32_id tail) by word. rewrite !bind_bind. rewrite (bind_eq _ _ w1 tt (hw_wr32 sq_bell tail w1)) by done.
  set (w2 := hw_wr32 sq_bell tail w1) in *.
  assert (Hprev : (tail - 1) mod 64 = nq_tail q) by (unfold tail; zlia).
  destruct (cq_poll_ok (sqe_bytes cmd) (Z.to_nat 2000000) k d (Nq tail (nq_head q) (nq_phase q)) w2) as (w3 & w4 & w5 & M3 & D3 & Hcomp & M5 & D5 & Epoll & C5);
    cbn [nq_tail nq_head nq_phase]; try done.
  { by rewrite Hprev. }
  { rewrite Hprev, (mem_bytes_ext w1 w2) by (intros; apply M2). exact M1. }
  { by rewrite D2, D1. }
  { rewrite M2, M1' by (unfold in_range, a; lia). rewrite Hslots by done. by rewrite Z.ltb_irrefl. }
  cbn [nq_tail nq_head nq_phase] in *. rewrite (bind_eq _ _ _ _ _ Epoll). eexists _, _, w5. split; [reflexivity|].
  unfold completes in Hcomp. rewrite Eprp, Eb, En, Eopc in Hcomp. fold n in Hcomp. replace (bs * Z.of_nat n) with (bs * (nlb + 1)) in Hcomp by lia.
  fold size in Hcomp. destruct Hcomp as (Hph & Hrd & Hwr). rewrite low_bit in Hph.
  set (head := (nq_head q + 1) mod 64) in *. set (sc := Z.land (Z.shiftr _ 1) 0x7FF) in *.
  assert (Hdisk2 : nv_disk w2 = nv_disk w) by congruence.
  assert (Hframe : forall x, ~ in_range x (a_io_data L) (bs * (nlb + 1)) -> ~ in_range x (cq_at + 16 * nq_head q) 16 -> ~ in_range x a 64 -> mem w5 x = mem w x).
  { intros x H1 H2 H3. rewrite M5. destruct Hopc as [Ho|Ho].
    - destruct (Hrd Ho) as (_ & Hf & _). rewrite Hf by done. by rewrite M3, M2, M1'.
    - destruct (Hwr Ho) as (Hf & _). rewrite Hf by done. by rewrite M3, M2, M1'. }
  assert (Hsc : (if sc =? 0 then 0 else -1) = if all_good bad b n then 0 else -1).
  { destruct Hopc as [Ho|Ho]; [destruct (Hrd Ho) as (_ & _ & H)|destruct (Hwr Ho) as (_ & H)]; destruct (all_good bad b n).
    - destruct H as [-> _]. done.
    - by rewrite (proj2 (Z.eqb_neq _ _) H).
    - destruct H as [-> _]. done.
    - destruct H as [H _]. by rewrite (proj2 (Z.eqb_neq _ _) H). }
  split.
  { split; [done|]. split; [done|]. cbn [nd_io set_io nq_tail nq_head nq_phase]. split; [exact C5|]. split; [done|]. split; [unfold head; zlia|].
    split; [destruct (head =? 0); lia|]. intros i Hi. destruct (decide (i = nq_head q)) as [->|Hne].
    - rewrite M5, Hph. destruct (Z.eqb_spec head 0) as [E|E]; [|destruct (Z.ltb_spec (nq_head q) head); [done|unfold head in *; zlia]].
      rewrite E. destruct (Z.ltb_spec (nq_head q) 0); lia.
    - rewrite Hframe by (unfold in_range, a; lia). rewrite Hslots by done.
      destruct (Z.eqb_spec head 0) as [E|E].
      + rewrite E. assert (nq_head q = 63) by (unfold head in E; zlia). destruct (Z.ltb_spec i (nq_head q)), (Z.ltb_spec i 0); lia.
      + assert (head = nq_head q + 1) by (unfold head in *; zlia). destruct (Z.ltb_spec i (nq_head q)), (Z.ltb_spec i head); lia. }
  split; [done|]. split; [cbn; word|]. split; [exact Hsc|]. split.
  - intros Ho. destruct (Hrd Ho) as (Hd & _ & H). split; [congruence|]. intros Hg. rewrite Hg in H. destruct H as [_ H].
    rewrite (mem_bytes_ext w4 w5) by (intros; apply M5). rewrite H. f_equal. congruence.
  - intros Ho. destruct (Hwr Ho) as (_ & H). destruct (all_good bad b n).
    + destruct H as [_ H]. rewrite D5, H, D3, Hdisk2. f_equal. apply mem_bytes_ext. intros x Hx. rewrite M3, M2, M1'; [done|]. unfold in_range, a. lia.
    + destruct H as [_ H]. intros x Hx. by rewrite D5, H, D3, Hdisk2.
Qed.

(** ** The loops *)

Context (Hbs : bs = 512 \/ bs = 4096) (Hns : nsze <= 2 ^ 60).
Definition drive_ready (d : nvme_drive_t) (w : W) : Prop := in_sync d w /\ 0 <= nd_cid d /\ blocks_ok bs (nv_disk w).

(** The outcome of reading the sectors [i], ... of a transfer. *)
Definition read_done (lba i count : Z) (out : list Z) (d : nvme_drive_t) (w : W) (r : Z) (out' : list Z) (d' : nvme_drive_t) (w' : W) : Prop :=
  drive_ready d' w' /\ same_drive d d' /\ nv_disk w' = nv_disk w /\ changed (512 * i) (512 * count) out out' /\
  r = (if sectors_good bs bad (lba + i) (Z.to_nat (count - i)) then 0 else -1) /\
  (r = 0 -> slice out' (512 * i) (512 * (count - i)) = nsectors bs (nv_disk w) (lba + i) (Z.to_nat (count - i))).

(** A first part read, then the rest. *)
Lemma read_done_step lba i j count out d w l out1 d1 w1 r out' d' w' :
  0 <= i <= j -> j <= count -> 512 * count <= Z.of_nat (length out) -> drive_ready d1 w1 -> same_drive d d1 -> nv_disk w1 = nv_disk w ->
  sectors_good bs bad (lba + i) (Z.to_nat (j - i)) = true -> l = nsectors bs (nv_disk w) (lba + i) (Z.to_nat (j - i)) -> blocks_ok bs (nv_disk w) ->
  out1 = splice out (512 * i) l -> read_done lba j count out1 d1 w1 r out' d' w' -> read_done lba i count out d w r out' d' w'.
Proof using Hbs.
  intros Hij Hjc Hout Hr1 Hs1 Hd1 Hg Hl Hok -> (Hr & Hs & Hd & Hch & Er & Ed).
  assert (Hlen : Z.of_nat (length l) = 512 * (j - i)) by (rewrite Hl, (length_nsectors bs) by done; lia).
  assert (Hc : Z.to_nat (count - i) = (Z.to_nat (j - i) + Z.to_nat (count - j))%nat) by lia.
  assert (Hb : lba + i + Z.of_nat (Z.to_nat (j - i)) = lba + j) by lia.
  split; [done|]. split; [unfold same_drive in *; intuition congruence|]. split; [congruence|]. split.
  { eapply (changed_trans _ (512 * j)); [lia| |exact Hch]. replace (512 * j) with (512 * i + Z.of_nat (length l)) by lia. apply changed_splice; lia. }
  rewrite Hc, (sectors_good_app bs bad), Hg, Hb. split; [exact Er|]. intros H0. rewrite nsectors_app, Hb.
  replace (512 * (count - i)) with (512 * (j - i) + 512 * (count - j)) by lia. rewrite <- slice_app by lia. f_equal.
  - rewrite (changed_slice _ _ _ _ _ _ Hch) by lia. rewrite <- Hlen, slice_splice_same by lia. done.
  - rewrite <- Hd1. replace (512 * i + 512 * (j - i)) with (512 * j) by lia. by apply Ed.
Qed.
Lemma read_done_fail lba i j count out d w d1 w1 : 0 <= i <= j -> j <= count ->
  drive_ready d1 w1 -> same_drive d d1 -> nv_disk w1 = nv_disk w -> sectors_good bs bad (lba + i) (Z.to_nat (j - i)) = false ->
  read_done lba i count out d w (-1) out d1 w1.
Proof using.
  intros Hij Hjc Hr Hs Hd Hg. unfold read_done. split; [done|]. split; [done|]. split; [done|]. split; [by split|].
  replace (Z.to_nat (count - i)) with (Z.to_nat (j - i) + Z.to_nat (count - j))%nat by lia. rewrite (sectors_good_app bs bad), Hg. done.
Qed.
Lemma read_done_nil lba count out d w : drive_ready d w -> read_done lba count count out d w 0 out d w.
Proof using.
  intros Hr. unfold read_done. rewrite Z.sub_diag. split; [done|]. split; [done|]. split; [done|]. split; [done|]. split; [done|].
  intros _. by rewrite slice_0.
Qed.

Lemma read_512_ok n lba count i out d w : bs = 512 -> drive_ready d w -> 0 <= i <= count -> count <= 255 -> count - i <= Z.of_nat n ->
  0 <= lba -> lba + count <= nsze -> 512 * count <= Z.of_nat (length out) ->
  exists r out' d' w', read_512 L n idx lba count i out d w = Some (r, out', d', w') /\ read_done lba i count out d w r out' d' w'.
Proof using All.
  intros E512. revert i out d w. induction n as [|n IH]; intros i out d w (Hs & Hcid & Hok) Hi Hc Hn Hlba Hend Hout; cbn [read_512].
  { destruct (Z.ltb_spec i count); [lia|]. assert (i = count) as -> by lia. eexists _, _, _, _. split; [done|]. by apply read_done_nil. }
  destruct (Z.ltb_spec i count) as [Hlt|Hge]; [|assert (i = count) as -> by lia; eexists _, _, _, _; split; [done|]; by apply read_done_nil].
  rewrite (u8_id (count - i)) by word. set (batch := if count - i >? 8 then 8 else count - i).
  assert (Hbatch : 1 <= batch <= 8 /\ batch <= count - i) by (unfold batch; destruct (Z.gtb_spec (count - i) 8); lia).
  rewrite (u64_id (lba + i)) by word.
  destruct (io_cmd_ok IO_READ (lba + i) (batch - 1) d w Hs ltac:(by left) ltac:(lia) ltac:(lia) ltac:(lia) ltac:(lia) ltac:(lia) ltac:(lia) Hcid Hok)
    as (r & d1 & w1 & E & Hs1 & Hd1 & Hcid1 & Er & Hrd & _).
  rewrite (bind_eq _ _ _ _ _ E). destruct (Hrd eq_refl) as [Hdisk Hdata]. replace (batch - 1 + 1) with batch in * by lia.
  assert (Hr1 : drive_ready d1 w1) by (split; [done|]; split; [done|]; by rewrite Hdisk).
  rewrite (good_512 bs bad _ _ E512) in Er, Hdata. assert (Hn' : Z.to_nat batch = Z.to_nat (i + batch - i)) by lia. rewrite Hn' in Er, Hdata.
  destruct (sectors_good bs bad (lba + i) (Z.to_nat (i + batch - i))) eqn:Eg.
  - subst r. cbn [Z.eqb negb]. specialize (Hdata eq_refl). rewrite (blocks_512 bs _ _ _ E512 Hok) in Hdata.
    set (l := nsectors bs (nv_disk w) (lba + i) _) in *.
    assert (Hl : Z.of_nat (length l) = 512 * batch) by (unfold l; rewrite length_nsectors by done; lia).
    unfold mem_load_bytes at 1. rewrite (bind_eq _ _ w1 l w1).
    2:{ unfold gets. do 2 f_equal. rewrite <- Hdata. f_equal. rewrite E512. lia. }
    rewrite (copy_into_ok out (i * 512) l) by lia. rewrite (bind_eq _ _ w1 (splice out (i * 512) l) w1) by done.
    rewrite (u8_id (i + batch)) by word.
    destruct (IH (i + batch) (splice out (i * 512) l) d1 w1 Hr1 ltac:(lia) Hc ltac:(lia) Hlba Hend ltac:(rewrite length_splice; lia))
      as (r & out' & d' & w' & E' & Hdone).
    exists r, out', d', w'. split; [exact E'|]. replace (i * 512) with (512 * i) in Hdone by lia.
    eapply (read_done_step lba i (i + batch) count out d w l); [lia..|exact Hr1|exact Hd1|exact Hdisk|exact Eg|done|exact Hok|done|exact Hdone].
  - subst r. eexists _, _, _, _. split; [done|]. by eapply (read_done_fail lba i (i + batch)); [lia..|done|done|done|].
Qed.

Lemma read_4096_ok n lba count i out d w : bs = 4096 -> drive_ready d w -> 0 <= i -> count <= 255 -> count = i + Z.of_nat n ->
  0 <= lba -> lba + count <= 8 * nsze -> 512 * count <= Z.of_nat (length out) ->
  exists r out' d' w', read_4096 L n idx lba i out d w = Some (r, out', d', w') /\ read_done lba i count out d w r out' d' w'.
Proof using All.
  intros E4096. assert (Espb : spb bs = 8) by (unfold spb; by rewrite E4096).
  revert i out d w. induction n as [|n IH]; intros i out d w (Hs & Hcid & Hok) Hi Hc Hn Hlba Hend Hout; cbn [read_4096].
  { assert (i = count) as -> by lia. eexists _, _, _, _. split; [done|]. by apply read_done_nil. }
  rewrite (u64_id (lba + i)) by word. set (cur := lba + i) in *.
  assert (Hcur : 0 <= cur / 8 < nsze) by (unfold cur; zlia).
  destruct (io_cmd_ok IO_READ (cur / 8) 0 d w Hs ltac:(by left) ltac:(lia) ltac:(lia) ltac:(lia) ltac:(lia) ltac:(lia) ltac:(lia) Hcid Hok)
    as (r & d1 & w1 & E & Hs1 & Hd1 & Hcid1 & Er & Hrd & _).
  rewrite (bind_eq _ _ _ _ _ E). destruct (Hrd eq_refl) as [Hdisk Hdata].
  assert (Hr1 : drive_ready d1 w1) by (split; [done|]; split; [done|]; by rewrite Hdisk).
  change (Z.to_nat (0 + 1)) with 1%nat in *. cbn [all_good blocks_at] in Er, Hdata. rewrite app_nil_r in Hdata.
  assert (Eg : sectors_good bs bad cur (Z.to_nat (i + 1 - i)) = negb (bad (cur / 8)) && true).
  { replace (Z.to_nat (i + 1 - i)) with 1%nat by lia. unfold sectors_good. cbn [all_good]. by rewrite Espb. }
  destruct (negb (bad (cur / 8)) && true) eqn:Eb; subst r; cbn [Z.eqb negb].
  - specialize (Hdata eq_refl). set (l := nsectors bs (nv_disk w) cur (Z.to_nat (i + 1 - i))).
    assert (Hl : l = nsector bs (nv_disk w) cur) by (unfold l; replace (Z.to_nat (i + 1 - i)) with 1%nat by lia; cbn [nsectors]; by rewrite app_nil_r).
    assert (Hll : length l = 512%nat) by (rewrite Hl; by apply length_nsector).
    unfold mem_load_bytes at 1. rewrite (bind_eq _ _ w1 l w1).
    2:{ unfold gets. do 2 f_equal. rewrite Hl. unfold nsector. rewrite Espb, <- Hdata, slice_mem_bytes by zlia. f_equal. lia. }
    rewrite (copy_into_ok out (i * 512) l) by lia. rewrite (bind_eq _ _ w1 (splice out (i * 512) l) w1) by done.
    destruct (IH (i + 1) (splice out (i * 512) l) d1 w1 Hr1 ltac:(lia) Hc ltac:(lia) Hlba Hend ltac:(rewrite length_splice; lia))
      as (r & out' & d' & w' & E' & Hdone).
    exists r, out', d', w'. split; [exact E'|]. replace (i * 512) with (512 * i) in Hdone by lia.
    eapply (read_done_step lba i (i + 1) count out d w l); [lia..|exact Hr1|exact Hd1|exact Hdisk|exact Eg|done|exact Hok|done|exact Hdone].
  - eexists _, _, _, _. split; [done|]. by eapply (read_done_fail lba i (i + 1)); [lia..|done|done|done|].
Qed.

(** The outcome of writing the sectors [i], ... of a transfer. *)
Definition write_done (lba i count : Z) (inb : list Z) (d : nvme_drive_t) (w : W) (r : Z) (d' : nvme_drive_t) (w' : W) : Prop :=
  in_sync d' w' /\ 0 <= nd_cid d' /\ same_drive d d' /\
  r = (if all_good bad (lba + i) (Z.to_nat (count - i)) then 0 else -1) /\
  (forall x, ~ in_range x (lba + i) (count - i) -> nv_disk w' !! x = nv_disk w !! x) /\
  (r = 0 -> blocks_ok 512 (nv_disk w') /\ forall m, nrep DrvNvme 512 m idx (nv_disk w) ->
     nrep DrvNvme 512 (put_sectors m DrvNvme idx (lba + i) (Z.to_nat (count - i)) (drop (Z.to_nat (512 * i)) inb)) idx (nv_disk w')).

Lemma write_512_ok n lba count i inb d w : bs = 512 -> drive_ready d w -> 0 <= i <= count -> count <= 255 -> count - i <= Z.of_nat n ->
  0 <= lba -> lba + count <= nsze -> 512 * count <= Z.of_nat (length inb) ->
  exists r d' w', write_512 L n idx lba count i inb d w = Some (r, d', w') /\ write_done lba i count inb d w r d' w'.
Proof using All.
  intros E512. assert (Hnil : forall d w, drive_ready d w -> write_done lba count count inb d w 0 d w).
  { intros d0 w0 (Hs & Hcid & Hok). unfold write_done. rewrite Z.sub_diag. rewrite E512 in Hok. split; [done|]. split; [done|]. split; [done|]. split; [done|].
    split; [done|]. by intros _. }
  revert i d w. induction n as [|n IH]; intros i d w Hrdy Hi Hc Hn Hlba Hend Hin; cbn [write_512].
  { destruct (Z.ltb_spec i count); [lia|]. assert (i = count) as -> by lia. eexists _, _, _. split; [done|]. by apply Hnil. }
  destruct (Z.ltb_spec i count) as [Hlt|Hge]; [|assert (i = count) as -> by lia; eexists _, _, _; split; [done|]; by apply Hnil].
  destruct Hrdy as (Hs & Hcid & Hok). pose proof HL as (HL1 & HL2 & HL3 & HL4 & HL5 & HL6).
  rewrite (u8_id (count - i)) by word. set (batch := if count - i >? 8 then 8 else count - i).
  assert (Hbatch : 1 <= batch <= 8 /\ batch <= count - i) by (unfold batch; destruct (Z.gtb_spec (count - i) 8); lia).
  unfold copy_from at 1. rewrite (proj2 (Z.leb_le 0 _)), (proj2 (Z.leb_le (i * 512 + _) _)) by lia. cbn [andb].
  set (l := slice inb (i * 512) (batch * 512)). assert (Hl : Z.of_nat (length l) = 512 * batch) by (unfold l; rewrite slice_length by lia; lia).
  rewrite (bind_eq _ _ w l w) by done. destruct (store_ok (a_io_data L) l w) as (M1 & M1' & C1 & D1). unfold mem_store_bytes at 1.
  set (w1 := set_mem_at (a_io_data L) l w) in *. rewrite (bind_eq _ _ w tt w1) by done.
  assert (Hs1 : in_sync d w1) by (apply (in_sync_frame d w); [done|done|]; intros x Hx; apply M1'; unfold in_range in *; lia).
  rewrite (u64_id (lba + i)) by word.
  destruct (io_cmd_ok IO_WRITE (lba + i) (batch - 1) d w1 Hs1 ltac:(by right) ltac:(lia) ltac:(lia) ltac:(lia) ltac:(lia) ltac:(lia) ltac:(lia) Hcid ltac:(by rewrite D1))
    as (r & d1 & w2 & E & Hs2 & Hd1 & Hcid1 & Er & _ & Hwr).
  rewrite (bind_eq _ _ _ _ _ E). specialize (Hwr eq_refl). replace (batch - 1 + 1) with batch in * by lia.
  replace (Z.to_nat (bs * batch)) with (length l) in Hwr by (rewrite E512; lia). rewrite M1, D1 in Hwr. rewrite E512 in Hwr, Hok.
  assert (Hcount : Z.to_nat (count - i) = (Z.to_nat batch + Z.to_nat (count - (i + batch)))%nat) by lia.
  assert (Hnext : lba + i + Z.of_nat (Z.to_nat batch) = lba + (i + batch)) by lia.
  destruct (all_good bad (lba + i) (Z.to_nat batch)) eqn:Eg; subst r; cbn [Z.eqb negb].
  - rewrite (u8_id (i + batch)) by word.
    assert (Hput : forall m, nrep DrvNvme 512 m idx (nv_disk w) ->
      nrep DrvNvme 512 (put_sectors m DrvNvme idx (lba + i) (Z.to_nat batch) l) idx (nv_disk w2)).
    { intros m Hm. rewrite Hwr. apply put_blocks_nrep; [done|done|lia]. }
    destruct (put_blocks_frame (nv_disk w) (lba + i) (Z.to_nat batch) l Hok ltac:(lia)) as [Hok2 Hout2]. rewrite <- Hwr in Hok2, Hout2.
    destruct (IH (i + batch) d1 w2 ltac:(by rewrite <- E512 in Hok2) ltac:(lia) Hc ltac:(lia) Hlba Hend Hin) as (r & d' & w' & E' & (F1 & F2 & F3 & F4 & F5 & F6)).
    exists r, d', w'. split; [exact E'|]. split; [done|]. split; [done|]. split; [unfold same_drive in *; intuition congruence|].
    rewrite Hcount, all_good_app, Eg, Hnext. split; [exact F4|]. split.
    { intros x Hx. unfold in_range in *. rewrite F5 by lia. apply Hout2. lia. }
    intros H0. destruct (F6 H0) as [F7 F8]. split; [done|]. intros m Hm. rewrite put_sectors_app, Hnext, drop_drop.
    replace (Z.to_nat (512 * i) + 512 * Z.to_nat batch)%nat with (Z.to_nat (512 * (i + batch))) by lia. apply F8.
    rewrite <- put_sectors_take. replace (take (512 * Z.to_nat batch) (drop (Z.to_nat (512 * i)) inb)) with l by (unfold l, slice; f_equal; [lia|f_equal; lia]).
    by apply Hput.
  - eexists _, _, _. split; [done|]. split; [done|]. split; [done|]. split; [done|]. rewrite Hcount, all_good_app, Eg. split; [done|]. split; [|done].
    intros x Hx. apply Hwr. unfold in_range in *. lia.
Qed.
End Device.

(** ** The functions *)

(** The bad sectors as the fault oracle of Blk. *)
Definition nvme_fault (bs : Z) (bad : Z -> bool) (lba : Z) (n : nat) : nat -> option nat :=
  fun _ => if sectors_good bs bad lba n then None else Some O.

Lemma blk_read_nvme f idx lba count d : 0 <= idx < 256 -> 0 <= count < 256 -> 0 <= lba < 2 ^ 64 ->
  exists d', blk_read f DRIVE_TYPE_NVME idx lba count d = Some
    (if (Z.to_nat count =? 0)%nat then Some [] else match f (dv_tick d) with Some _ => None | None => Some (sectors_at d DrvNvme idx lba (Z.to_nat count)) end, d').
Proof.
  intros. unfold blk_read. cbn [get_dev]. rewrite !u8_id, u64_id by word. change (blk_driver DRIVE_TYPE_NVME) with DrvNvme.
  destruct (Z.to_nat count =? 0)%nat; [by eexists|]. destruct (f _); by eexists.
Qed.

(** C35 (drivers/nvme.c, [nvme_read_sectors], [io_cmd]; [blk_read]): on a
    controller that follows the standard and answers before the poll gives up
    (2,000,000 looks), with blocks of 512 or of 4096 bytes,
    reading returns 0 and the sectors that Blk's [blk_read] gives for the
    namespace, or -1 exactly when a block among them is bad; only the first
    [512 count] bytes of the buffer change, the namespace stays as it was, and
    driver and controller agree on queues and phase for the next command,
    however often the queues have wrapped. *)
Theorem nvme_read_refines {W} `{!Ports W, !Mmio W, !Dma W, !NvmeView W} (L : nvme_mem) (idx bs nsze bar0 dstrd : Z) (bad : Z -> bool)
    `{!NvmeDevice (W := W) (sq_at L idx) (cq_at L idx) (sq_bell bar0 dstrd) (cq_bell bar0 dstrd) bs nsze bad}
    (st : nvme_st) (d : nvme_drive_t) (lba count : Z) (buf : list Z) (w : W) (dv : dev) :
  layout_ok L idx -> bs = 512 \/ bs = 4096 -> nsze <= 2 ^ 60 ->
  0 <= idx < 256 -> idx < nv_num st -> nv_drives st !! Z.to_nat idx = Some d -> nd_present d = true -> nd_lba_size d = bs ->
  drive_ready L idx bs bar0 dstrd d w -> 0 <= count <= 255 -> 0 <= lba -> lba + count <= nsze * spb bs ->
  512 * count <= Z.of_nat (length buf) -> nrep DrvNvme bs (dv_sectors dv) idx (nv_disk w) ->
  exists r buf' d' w' res dv', nvme_read_sectors L idx lba count buf st w = Some (r, buf', put_drive idx d' st, w') /\
    drive_ready L idx bs bar0 dstrd d' w' /\ same_drive d d' /\ nv_disk w' = nv_disk w /\ changed 0 (512 * count) buf buf' /\
    blk_read (nvme_fault bs bad lba (Z.to_nat count)) DRIVE_TYPE_NVME idx lba count dv = Some (res, dv') /\
    match res with Some bytes => r = 0 /\ take (Z.to_nat (512 * count)) buf' = bytes | None => r = -1 end.
Proof.
  intros HL Hbs Hns Hidx Hnum Hd Hp Hlb Hrdy Hc Hlba Hend Hbuf Hrep.
  assert (Hread : exists r buf' d' w', nvme_read_sectors L idx lba count buf st w = Some (r, buf', put_drive idx d' st, w') /\
    read_done L idx bs bad bar0 dstrd lba 0 count buf d w r buf' d' w').
  { unfold nvme_read_sectors. destruct (Z.geb_spec idx (nv_num st)); [lia|]. rewrite (bind_eq _ _ w d w) by (by rewrite Hd). rewrite Hp, Hlb. cbn [negb].
    destruct Hbs as [E|E]; rewrite E in *.
    - destruct (read_512_ok L idx 512 nsze bad bar0 dstrd HL ltac:(by left) Hns (Z.to_nat count) lba count 0 buf d w) as (r & b & d' & w' & Er & Hrd); try done; try lia.
      { change (spb 512) with 1 in Hend. lia. }
      change (512 =? 512) with true. cbv iota. rewrite (bind_eq _ _ _ _ _ Er). by eexists _, _, _, _.
    - destruct (read_4096_ok L idx 4096 nsze bad bar0 dstrd HL ltac:(by right) Hns (Z.to_nat count) lba count 0 buf d w) as (r & b & d' & w' & Er & Hrd); try done; try lia.
      { change (spb 4096) with 8 in Hend. lia. }
      change (4096 =? 512) with false. change (4096 =? 4096) with true. cbv iota. rewrite (bind_eq _ _ _ _ _ Er). by eexists _, _, _, _. }
  destruct Hread as (r & buf' & d' & w' & E & (R1 & R2 & R3 & R4 & R5 & R6)). rewrite Z.add_0_r, Z.sub_0_r, Z.mul_0_r in *.
  assert (Hspb : lba < 2 ^ 64) by (destruct (spb_eq bs Hbs) as [E1|E1]; rewrite E1 in Hend; lia).
  destruct (blk_read_nvme (nvme_fault bs bad lba (Z.to_nat count)) idx lba count dv Hidx ltac:(lia) ltac:(lia)) as [dv' Eb].
  exists r, buf', d', w'. eexists _, dv'. split; [exact E|]. split; [done|]. split; [done|]. split; [done|]. split; [done|]. split; [exact Eb|].
  unfold nvme_fault. destruct (Nat.eqb_spec (Z.to_nat count) 0) as [E0|E0].
  { rewrite E0 in R5. split; [exact R5|]. by replace (Z.to_nat (512 * count)) with 0%nat by lia. }
  destruct (sectors_good bs bad lba (Z.to_nat count)); [|done]. split; [done|].
  destruct dv as [m t]. rewrite <- (nrep_sectors DrvNvme bs m t idx (nv_disk w)) by done. rewrite <- (R6 R5). unfold slice. by rewrite drop_0.
Qed.

(** Of drivers/nvme.c, [nvme_write_sectors], [io_cmd]; [blk_write]: on such a
    controller with blocks of 512 bytes, writing returns 0 with the sectors
    that Blk's [blk_write] leaves, or -1 exactly when one of them is bad; no
    sector outside the range changes on either outcome, and driver and
    controller agree on queues and phase afterwards. *)
Theorem nvme_write_correct {W} `{!Ports W, !Mmio W, !Dma W, !NvmeView W} (L : nvme_mem) (idx nsze bar0 dstrd : Z) (bad : Z -> bool)
    `{!NvmeDevice (W := W) (sq_at L idx) (cq_at L idx) (sq_bell bar0 dstrd) (cq_bell bar0 dstrd) 512 nsze bad}
    (st : nvme_st) (d : nvme_drive_t) (lba count : Z) (buf : list Z) (w : W) (dv : dev) :
  layout_ok L idx -> nsze <= 2 ^ 60 ->
  0 <= idx < 256 -> idx < nv_num st -> nv_drives st !! Z.to_nat idx = Some d -> nd_present d = true -> nd_lba_size d = 512 ->
  drive_ready L idx 512 bar0 dstrd d w -> 1 <= count <= 255 -> 0 <= lba -> lba + count <= nsze ->
  512 * count <= Z.of_nat (length buf) -> nrep DrvNvme 512 (dv_sectors dv) idx (nv_disk w) ->
  exists r d' w', nvme_write_sectors L idx lba count buf st w = Some (r, put_drive idx d' st, w') /\
    in_sync L idx bar0 dstrd d' w' /\ same_drive d d' /\
    (forall x, ~ in_range x lba count -> nv_disk w' !! x = nv_disk w !! x) /\
    if all_good bad lba (Z.to_nat count) then
      r = 0 /\ drive_ready L idx 512 bar0 dstrd d' w' /\
      exists dv', blk_write (fun _ => None) DRIVE_TYPE_NVME idx lba count buf dv = Some (true, dv') /\ nrep DrvNvme 512 (dv_sectors dv') idx (nv_disk w')
    else r = -1.
Proof.
  intros HL Hns Hidx Hnum Hd Hp Hlb Hrdy Hc Hlba Hend Hbuf Hrep. unfold nvme_write_sectors. destruct (Z.geb_spec idx (nv_num st)); [lia|].
  rewrite (bind_eq _ _ w d w) by (by rewrite Hd). rewrite Hp, Hlb. cbn [negb]. change (512 =? 512) with true. cbn [negb].
  destruct (write_512_ok L idx 512 nsze bad bar0 dstrd HL ltac:(by left) Hns (Z.to_nat count) lba count 0 buf d w) as (r & d' & w' & E & (F1 & F2 & F3 & F4 & F5 & F6));
    try done; try lia.
  rewrite Z.add_0_r, Z.sub_0_r in *. rewrite (bind_eq _ _ _ _ _ E). exists r, d', w'. split; [done|]. split; [done|]. split; [done|]. split; [done|].
  destruct (all_good bad lba (Z.to_nat count)); [|done]. destruct (F6 F4) as [F7 F8]. split; [done|]. split; [by split|].
  exists (Dev (put_sectors (dv_sectors dv) DrvNvme idx lba (Z.to_nat count) buf) (S (dv_tick dv))). split; [|by apply F8].
  unfold blk_write. cbn [get_dev set_dev dev_has_dev]. rewrite !u8_id, u64_id by word. destruct (Nat.eqb_spec (Z.to_nat count) 0); [lia|]. done.
Qed.

(** ** A controller to run the driver on *)

Module NvmeDemo.
Definition L : nvme_mem := NvMem 0x10000 0x20000 0x30000 0x40000 0x50000 0x60000.
Definition bar : Z := 0xFE000000.
Definition sim_bad (b : Z) : bool := b =? 5.
Record sim := Sim { sm_ctl : ctl_state; sm_disk : blocks; sm_mem : Z -> Z }.

#[global] Instance sim_ports : Ports sim := {|
  hw_in8 _ w := (0, w); hw_in16 _ w := (0, w); hw_in32 _ w := (0, w);
  hw_out8 _ _ w := w; hw_out16 _ _ w := w; hw_out32 _ _ w := w;
|}.
#[global] Instance sim_mmio : Mmio sim := {|
  hw_rd32 _ w := (0, w);
  hw_wr32 a v w :=
    match sm_ctl w with
    | CIdle t h p => if a =? sq_bell bar 0 then Sim (CBusy 2 t h p) (sm_disk w) (sm_mem w) else w
    | CDone t h p =>
      if a =? cq_bell bar 0
      then Sim (CIdle ((t + 1) mod 64) ((h + 1) mod 64) (if (h + 1) mod 64 =? 0 then 1 - p else p)) (sm_disk w) (sm_mem w)
      else w
    | _ => w
    end;
|}.
(** A command takes two looks and runs at the third. *)
Definition run_command (t h p : Z) (w : sim) : sim :=
  let m := sm_mem w in
  let c := map (fun i => m (sq_at L 0 + 64 * t + Z.of_nat i)) (seq 0 64) in
  let cqe := cq_at L 0 + 16 * h in
  let b := get64 c 40 in
  let n := Z.to_nat (get16 c 48 + 1) in
  let good := all_good sim_bad b n in
  let status := le_bytes 2 ((if good then 0 else 2) + p) in
  if get8 c 0 =? IO_READ then
    Sim (CDone t h p) (sm_disk w) (store_at (cqe + 14) status (if good then store_at (get64 c 24) (blocks_at 512 (sm_disk w) b n) m else m))
  else
    Sim (CDone t h p)
      (if good then put_blocks 512 (sm_disk w) b n (map (fun i => m (get64 c 24 + Z.of_nat i)) (seq 0 (Z.to_nat (512 * Z.of_nat n)))) else sm_disk w)
      (store_at (cqe + 14) status m).
#[global] Instance sim_dma : Dma sim := {|
  mem := sm_mem;
  set_mem_at a l w := Sim (sm_ctl w) (sm_disk w) (store_at a l (sm_mem w));
  dma w := match sm_ctl w with
           | CBusy (S k) t h p => Sim (CBusy k t h p) (sm_disk w) (sm_mem w)
           | CBusy O t h p => run_command t h p w
           | _ => w
           end;
|}.
#[global] Instance sim_view : NvmeView sim := {| nv_ctl := sm_ctl; nv_disk := sm_disk |}.

(** The status written at the end of an entry. *)
Lemma nvme_status_ok w m s cqe p : (p = 0 \/ p = 1) -> s = 0 \/ s = 2 -> sm_mem w = store_at (cqe + 14) (le_bytes 2 (s + p)) m ->
  let st := le_val (mem_bytes w (cqe + 14) 2) in
  Z.land st 1 = p /\ Z.land (Z.shiftr st 1) 0x7FF = s / 2.
Proof.
  intros Hp Hs Hm. assert (E : le_val (mem_bytes w (cqe + 14) 2) = s + p).
  { unfold mem_bytes, mem, sim_dma. rewrite Hm. cbn [seq map]. rewrite !store_at_in by (rewrite length_le_bytes; lia).
    destruct Hp as [-> | ->], Hs as [-> | ->]; done. }
  cbv zeta. rewrite E. by destruct Hp as [-> | ->], Hs as [-> | ->].
Qed.

Lemma run_command_ok t h p w : p = 0 \/ p = 1 -> blocks_ok 512 (sm_disk w) ->
  io_command 512 16 (cq_at L 0 + 16 * h) (mem_bytes w (sq_at L 0 + 64 * t) 64) ->
  completes 512 sim_bad (mem_bytes w (sq_at L 0 + 64 * t) 64) (cq_at L 0 + 16 * h) p w (run_command t h p w).
Proof.
  intros Hp Hok (Hopc & _ & _ & Hsize & _ & Hdisj). unfold run_command.
  change (map (fun i => sm_mem w (sq_at L 0 + 64 * t + Z.of_nat i)) (seq 0 64)) with (mem_bytes w (sq_at L 0 + 64 * t) 64).
  set (c := mem_bytes w (sq_at L 0 + 64 * t) 64) in *. set (cqe := cq_at L 0 + 16 * h) in *. set (b := get64 c 40) in *.
  change (map (fun i => sm_mem w (get64 c 24 + Z.of_nat i)) (seq 0 (Z.to_nat (512 * Z.of_nat (Z.to_nat (get16 c 48 + 1))))))
    with (mem_bytes w (get64 c 24) (Z.to_nat (512 * Z.of_nat (Z.to_nat (get16 c 48 + 1))))).
  set (n := Z.to_nat (get16 c 48 + 1)) in *. set (good := all_good sim_bad b n). set (s := if good then 0 else 2).
  assert (Hs : s = 0 \/ s = 2) by (unfold s; destruct good; auto).
  unfold completes. fold b n. fold good. destruct Hopc as [E|E]; rewrite E; cbn [Z.eqb].
  - change (IO_READ =? IO_READ) with true. cbv iota.
    set (w' := Sim _ _ _). destruct (nvme_status_ok w' (if good then store_at (get64 c 24) (blocks_at 512 (sm_disk w) b n) (sm_mem w) else sm_mem w) s cqe p Hp Hs eq_refl) as [H1 H2].
    split; [exact H1|]. split; [|done]. intros _. split; [done|]. rewrite H2. split.
    + intros a Ha Hc. cbn [mem sim_dma w' sm_mem]. rewrite store_at_out by (rewrite length_le_bytes; unfold in_range in *; lia).
      destruct good; [|done]. apply store_at_out. rewrite length_blocks_at by done. unfold in_range in *. lia.
    + unfold s. destruct good; [|done]. split; [done|]. apply list_eq. intros i. destruct (decide (i < 512 * n)%nat) as [Hi|Hi].
      * rewrite lookup_mem_bytes by lia. cbn [mem sim_dma w' sm_mem]. rewrite store_at_out by (rewrite length_le_bytes; unfold in_range, n in *; lia).
        rewrite store_at_in by (rewrite length_blocks_at by done; lia).
        destruct (lookup_lt_is_Some_2 (blocks_at 512 (sm_disk w) b n) i ltac:(rewrite length_blocks_at by done; lia)) as [v Ev].
        change (nv_disk w) with (sm_disk w). by rewrite Ev.
      * rewrite !lookup_ge_None_2; [done|rewrite length_blocks_at by done; lia|rewrite length_mem_bytes; lia].
  - change (IO_WRITE =? IO_READ) with false. cbv iota. set (w' := Sim _ _ _).
    destruct (nvme_status_ok w' (sm_mem w) s cqe p Hp Hs eq_refl) as [H1 H2]. split; [exact H1|]. split; [done|]. intros _. split.
    + intros a Hc. cbn [mem sim_dma w' sm_mem]. apply store_at_out. rewrite length_le_bytes. unfold in_range in *. lia.
    + rewrite H2. unfold s, w'. cbn [nv_disk sim_view sm_disk]. by destruct good.
Qed.

#[global] Instance sim_device : NvmeDevice (W := sim) (sq_at L 0) (cq_at L 0) (sq_bell bar 0) (cq_bell bar 0) 512 16 sim_bad.
Proof.
  split.
  - done.
  - intros w t h p E. cbn in E |- *. rewrite E, Z.eqb_refl. split; [|done]. exists 2%nat. split; [lia|done].
  - intros w k t h p E Hp Hok Hio. cbn in E, Hok |- *. rewrite E. destruct k as [|k].
    + right. split; [|by apply run_command_ok]. unfold run_command. by destruct (_ =? _).
    + left. exists k. split; [lia|done].
  - intros w t h p E. cbn in E |- *. by rewrite E.
  - intros w t h p E. cbn in E |- *. by rewrite E, Z.eqb_refl.
Qed.

(** The queue is about to wrap. *)
Definition drive : nvme_drive_t := NvDrive true (replicate 41 0) 16 512 bar 0 (Nq 0 0 1) (Nq 63 63 1) 77.
Definition table : nvme_st := NvSt [drive; drive_zero; drive_zero; drive_zero] 1.
Definition mem0 : Z -> Z := fun a => if (cq_at L 0 <=? a) && (a <? cq_at L 0 + 16 * 63) then 1 else 0.
Definition sim0 : sim := Sim (CIdle 63 63 1) {[ 3 := replicate 512 0x33 ]} mem0.
Definition dev0 : dev := Dev {[ (DrvNvme, 0, 3) := replicate 512 0x33 ]} 0.

Lemma nvme_disk0_ok : blocks_ok 512 (nv_disk sim0).
Proof.
  intros b. unfold block. change (nv_disk sim0) with ({[ 3 := replicate 512 0x33 ]} : blocks). destruct (decide (b = 3)) as [->|Hn]; [done|].
  by rewrite lookup_singleton_ne by done.
Qed.
Lemma drive_is_ready : drive_ready L 0 512 bar 0 drive sim0.
Proof.
  split; [|split; [done|exact nvme_disk0_ok]]. unfold in_sync. cbn [drive nd_io nd_bar0 nd_dstrd nq_tail nq_head nq_phase].
  split_and!; try done; [by right|]. intros i Hi. change (mem sim0) with mem0. unfold mem0.
  destruct (Z.ltb_spec i 63); [rewrite (proj2 (Z.leb_le _ _)), (proj2 (Z.ltb_lt _ _)) by lia; done|].
  rewrite (proj2 (Z.leb_le _ _)), (proj2 (Z.ltb_ge _ _)) by lia. done.
Qed.
Lemma dev0_rep : nrep DrvNvme 512 (dv_sectors dev0) 0 (nv_disk sim0).
Proof.
  intros b Hb. rewrite nsector_512 by apply nvme_disk0_ok. unfold block, dev0, dv_sectors. change (nv_disk sim0) with ({[ 3 := replicate 512 0x33 ]} : blocks).
  destruct (decide (b = 3)) as [->|Hn]; [done|]. by rewrite !lookup_singleton_ne by congruence.
Qed.
Lemma layout : layout_ok L 0.
Proof. unfold layout_ok. split_and!; first [done|left; done|right; done]. Qed.

(** The bad block fails the command. *)
Example bad_ex : (fun r => fst (fst (fst r))) <$> nvme_read_sectors L 0 4 3 (replicate 1536 0) table sim0 = Some (-1).
Proof. by vm_compute. Qed.
End NvmeDemo.

(** Nine sectors, in two commands, over the end of the queues. *)
Lemma nvme_read_refines_witness : exists buf' st' w',
  nvme_read_sectors NvmeDemo.L 0 6 9 (replicate 5000 0) NvmeDemo.table NvmeDemo.sim0 = Some (0, buf', st', w') /\
  take 4608 buf' = sectors_at NvmeDemo.dev0 DrvNvme 0 6 9.
Proof.
  destruct (nvme_read_refines NvmeDemo.L 0 512 16 NvmeDemo.bar 0 NvmeDemo.sim_bad NvmeDemo.table NvmeDemo.drive 6 9 (replicate 5000 0) NvmeDemo.sim0 NvmeDemo.dev0
    NvmeDemo.layout ltac:(by left) ltac:(lia) ltac:(lia) ltac:(done) eq_refl eq_refl eq_refl NvmeDemo.drive_is_ready ltac:(lia) ltac:(lia)
    ltac:(change (spb 512) with 1; lia) ltac:(rewrite length_replicate; lia) NvmeDemo.dev0_rep)
    as (r & buf' & d' & w' & res & dv' & E & _ & _ & _ & _ & Eb & H).
  assert (Er : fst <$> blk_read (nvme_fault 512 NvmeDemo.sim_bad 6 9) DRIVE_TYPE_NVME 0 6 9 NvmeDemo.dev0 = Some (Some (sectors_at NvmeDemo.dev0 DrvNvme 0 6 9)))
    by reflexivity.
  change (Z.to_nat 9) with 9%nat in Eb. rewrite Eb in Er. injection Er as ->. destruct H as [-> H]. exists buf'. eexists _, w'. exact (conj E H).
Defined.

Lemma nvme_write_correct_witness : exists st' w' dv',
  nvme_write_sectors NvmeDemo.L 0 6 9 (replicate 4608 9) NvmeDemo.table NvmeDemo.sim0 = Some (0, st', w') /\
  blk_write (fun _ => None) DRIVE_TYPE_NVME 0 6 9 (replicate 4608 9) NvmeDemo.dev0 = Some (true, dv') /\ nrep DrvNvme 512 (dv_sectors dv') 0 (nv_disk w').
Proof.
  destruct (nvme_write_correct NvmeDemo.L 0 16 NvmeDemo.bar 0 NvmeDemo.sim_bad NvmeDemo.table NvmeDemo.drive 6 9 (replicate 4608 9) NvmeDemo.sim0 NvmeDemo.dev0
    NvmeDemo.layout ltac:(lia) ltac:(lia) ltac:(done) eq_refl eq_refl eq_refl NvmeDemo.drive_is_ready ltac:(lia) ltac:(lia) ltac:(lia)
    ltac:(rewrite length_replicate; lia) NvmeDemo.dev0_rep)
    as (r & d' & w' & E & _ & _ & _ & H).
  change (all_good NvmeDemo.sim_bad 6 (Z.to_nat 9)) with true in H. destruct H as (-> & _ & dv' & Eb & Hrep).
  eexists _, w', dv'. exact (conj E (conj Eb Hrep)).
Defined.
