(* ===== verification/Ahci.v ===== *)
(** * drivers/ahci.c: SATA drives behind an AHCI controller

    One command slot per port: a command header, a command table with the
    frame and one region, and the registers of the port; the controller is the
    machine of Hw. The static arrays are at the addresses of an [ahci_mem] and
    have room for eight ports; an access behind them is [None]. Waiting loops
    end by the tick counter; [fuel] bounds the rounds they may make. The text
    printed by [ahci_init] is left out. *)

From S2P Require Import Prelude Hw Pci.

Definition HBA_GHC : Z := 0x04.
Definition HBA_PI : Z := 0x0C.
Definition GHC_AE : Z := Z.shiftl 1 31.
Definition GHC_HR : Z := 1.
Definition POFF_CLB : Z := 0x00.
Definition POFF_CLBU : Z := 0x04.
Definition POFF_FB : Z := 0x08.
Definition POFF_FBU : Z := 0x0C.
Definition POFF_IS : Z := 0x10.
Definition POFF_IE : Z := 0x14.
Definition POFF_CMD : Z := 0x18.
Definition POFF_TFD : Z := 0x20.
Definition POFF_SIG : Z := 0x24.
Definition POFF_SSTS : Z := 0x28.
Definition POFF_SERR : Z := 0x30.
Definition POFF_CI : Z := 0x38.
Definition CMD_ST : Z := 1.
Definition CMD_FRE : Z := Z.shiftl 1 4.
Definition CMD_FR : Z := Z.shiftl 1 14.
Definition CMD_CR : Z := Z.shiftl 1 15.
Definition TFD_ERR : Z := 1.
Definition ATA_READ_DMA_EXT : Z := 0x25.
Definition ATA_WRITE_DMA_EXT : Z := 0x35.
Definition ATA_IDENTIFY : Z := 0xEC.
Definition SATA_SIG_ATA : Z := 0x00000101.
Definition MAX_AHCI_PORTS : Z := 8.
Definition MAX_AHCI_DRIVES : Z := 4.
Definition AHCI_DMA_SECTS : Z := 64.

Record ahci_drive_t := AhDrive { ah_port : Z; ah_active : bool; ah_sectors : Z }.
(** [ahci_drives], [ahci_ndrive] and [ahci_bar]. *)
Record ahci_st := AhSt { ah_drives : list ahci_drive_t; ah_num : Z; ah_bar : Z }.
Record ahci_mem := AhMem { a_clb : Z; a_fb : Z; a_ctbl : Z; a_dma : Z }.

(** The command table: frame, padding, and the one region at 128. *)
Definition command_table (cmd_b lba device count dma_pa bytes : Z) : list Z :=
  put32 (put32 (put32 (put32
    ([0x27; 0x80; cmd_b; 0; u8 lba; u8 (Z.shiftr lba 8); u8 (Z.shiftr lba 16); device;
      u8 (Z.shiftr lba 24); u8 (Z.shiftr lba 32); u8 (Z.shiftr lba 40); 0; u8 (Z.land count 0xFF); u8 (Z.shiftr count 8)]
     ++ replicate 242 0)
    128 (Z.land dma_pa 0xFFFFFFFF)) 132 (u32 (Z.shiftr dma_pa 32))) 136 0) 140 (u32 bytes).
Definition command_header (write : bool) (ct_pa : Z) : list Z :=
  let dw0 := Z.lor 5 (Z.shiftl 1 16) in
  let dw0 := if write then Z.lor dw0 (Z.shiftl 1 6) else dw0 in
  le_bytes 4 dw0 ++ le_bytes 4 0 ++ le_bytes 4 (Z.land ct_pa 0xFFFFFFFF) ++ le_bytes 4 (Z.shiftr ct_pa 32).

Section Ahci.
Context {W : Type} `{!Ports W, !Mmio W, !Dma W, !Clock W} (L : ahci_mem) (fuel : nat).

(** The part of an array of port [p]. *)
Definition port_array (base size p : Z) : option Z := if (0 <=? p) && (p <? MAX_AHCI_PORTS) then Some (base + size * p) else None.

Definition hba_rd (bar off : Z) : M W Z := rd32 (bar + off).
Definition hba_wr (bar off v : Z) : M W unit := wr32 (bar + off) v.
Definition preg_rd (bar p off : Z) : M W Z := rd32 (bar + 0x100 + p * 0x80 + off).
Definition preg_wr (bar p off v : Z) : M W unit := wr32 (bar + 0x100 + p * 0x80 + off) v.

(** [while (get_tick() < dl && (reg & mask));] *)
Fixpoint wait_clear (n : nat) (reg : M W Z) (mask dl : Z) : M W unit :=
  match n with
  | O => diverge
  | S n =>
    t ← get_tick;
    if t <? dl then v ← reg; if negb (Z.land v mask =? 0) then wait_clear n reg mask dl else mret tt
    else mret tt
  end.

Definition port_stop (bar p : Z) : M W unit :=
  cmd ← preg_rd bar p POFF_CMD;
  preg_wr bar p POFF_CMD (Z.land cmd (not32 CMD_ST));;
  t ← get_tick;
  wait_clear fuel (preg_rd bar p POFF_CMD) CMD_CR (u64 (t + 500));;
  cmd ← preg_rd bar p POFF_CMD;
  preg_wr bar p POFF_CMD (Z.land cmd (not32 CMD_FRE));;
  t ← get_tick;
  wait_clear fuel (preg_rd bar p POFF_CMD) CMD_FR (u64 (t + 500)).
Definition port_start (bar p : Z) : M W unit :=
  t ← get_tick;
  wait_clear fuel (preg_rd bar p POFF_CMD) CMD_CR (u64 (t + 500));;
  cmd ← preg_rd bar p POFF_CMD;
  preg_wr bar p POFF_CMD (Z.lor cmd (Z.lor CMD_FRE CMD_ST)).

Definition port_init (bar p : Z) : M W unit :=
  port_stop bar p;;
  clb_pa ← lift_option (port_array (a_clb L) 1024 p);
  fb_pa ← lift_option (port_array (a_fb L) 256 p);
  ct_pa ← lift_option (port_array (a_ctbl L) 256 p);
  preg_wr bar p POFF_CLB (Z.land clb_pa 0xFFFFFFFF);;
  preg_wr bar p POFF_CLBU (Z.shiftr clb_pa 32);;
  preg_wr bar p POFF_FB (Z.land fb_pa 0xFFFFFFFF);;
  preg_wr bar p POFF_FBU (Z.shiftr fb_pa 32);;
  preg_wr bar p POFF_IS 0xFFFFFFFF;;
  preg_wr bar p POFF_SERR 0xFFFFFFFF;;
  preg_wr bar p POFF_IE 0;;
  mem_store_bytes clb_pa (replicate 1024 0);;
  mem_store_bytes (clb_pa + 8) (le_bytes 4 (Z.land ct_pa 0xFFFFFFFF) ++ le_bytes 4 (Z.shiftr ct_pa 32));;
  port_start bar p.

(** The loop that waits for slot 0, and the test behind it. *)
Fixpoint poll_slot (n : nat) (bar p deadline : Z) : M W bool :=
  match n with
  | O => diverge
  | S n =>
    t ← get_tick;
    if t <? deadline then
      tfd ← preg_rd bar p POFF_TFD;
      if negb (Z.land tfd TFD_ERR =? 0) then mret false
      else ci ← preg_rd bar p POFF_CI; if Z.land ci 1 =? 0 then mret true else poll_slot n bar p deadline
    else mret true
  end.
Definition run_slot (bar p : Z) : M W bool :=
  preg_wr bar p POFF_IS 0xFFFFFFFF;;
  preg_wr bar p POFF_SERR 0xFFFFFFFF;;
  preg_wr bar p POFF_CI 1;;
  t ← get_tick;
  ok ← poll_slot fuel bar p (u64 (t + 5000));
  if negb ok then mret false else ci ← preg_rd bar p POFF_CI; mret (Z.land ci 1 =? 0).

(** 0 or -1. *)
Definition ahci_issue (bar p cmd_b lba count : Z) (write : bool) : M W Z :=
  ct_pa ← lift_option (port_array (a_ctbl L) 256 p);
  clb_pa ← lift_option (port_array (a_clb L) 1024 p);
  mem_store_bytes clb_pa (command_header write ct_pa);;
  mem_store_bytes ct_pa (command_table cmd_b lba 0x40 count (a_dma L) (count * 512 - 1));;
  ok ← run_slot bar p;
  mret (if ok : bool then 0 else -1).

(** The sector count, 0 when the command fails. *)
Definition port_identify (bar p : Z) : M W Z :=
  ct_pa ← lift_option (port_array (a_ctbl L) 256 p);
  clb_pa ← lift_option (port_array (a_clb L) 1024 p);
  mem_store_bytes (a_dma L) (replicate 512 0);;
  mem_store_bytes clb_pa (command_header false ct_pa);;
  mem_store_bytes ct_pa (command_table ATA_IDENTIFY 0 0xA0 0 (a_dma L) 511);;
  ok ← run_slot bar p;
  if negb ok then mret 0
  else
    data ← mem_load_bytes (a_dma L) 512;
    let id i := get16 data (2 * i) in
    let lba48 := Z.lor (Z.lor (id 100) (Z.shiftl (id 101) 16)) (Z.lor (Z.shiftl (id 102) 32) (Z.shiftl (id 103) 48)) in
    mret (if negb (lba48 =? 0) then lba48 else Z.lor (id 60) (Z.shiftl (id 61) 16)).

(** The probe of the ports [p], ... *)
Fixpoint probe_ports (n : nat) (pi p : Z) (st : ahci_st) : M W ahci_st :=
  match n with
  | O => mret st
  | S n =>
    if ah_num st <? MAX_AHCI_DRIVES then
      if Z.land pi (Z.shiftl 1 p) =? 0 then probe_ports n pi (p + 1) st
      else
        ssts ← preg_rd (ah_bar st) p POFF_SSTS;
        if negb (Z.land ssts 0xF =? 3) then probe_ports n pi (p + 1) st
        else
          sig ← preg_rd (ah_bar st) p POFF_SIG;
          if negb (sig =? SATA_SIG_ATA) then probe_ports n pi (p + 1) st
          else
            port_init (ah_bar st) p;;
            nsect ← port_identify (ah_bar st) p;
            if nsect =? 0 then probe_ports n pi (p + 1) st
            else
              probe_ports n pi (p + 1)
                (AhSt (<[Z.to_nat (ah_num st) := AhDrive p true nsect]> (ah_drives st)) (ah_num st + 1) (ah_bar st))
    else mret st
  end.

(** The controller at a function of a bus. *)
Definition ahci_start (bus slot func : Z) (st : ahci_st) : M W (Z * ahci_st) :=
  cmd ← pci_config_read_dword bus slot func 0x04;
  pci_config_write_dword bus slot func 0x04 (Z.lor cmd 0x06);;
  bar5 ← pci_config_read_dword bus slot func 0x24;
  let bar := Z.land bar5 (not32 0xF) in
  v ← hba_rd bar HBA_GHC;
  hba_wr bar HBA_GHC (Z.lor v GHC_AE);;
  v ← hba_rd bar HBA_GHC;
  hba_wr bar HBA_GHC (Z.lor v GHC_HR);;
  t ← get_tick;
  wait_clear fuel (hba_rd bar HBA_GHC) GHC_HR (u64 (t + 1000));;
  v ← hba_rd bar HBA_GHC;
  hba_wr bar HBA_GHC (Z.lor v GHC_AE);;
  pi ← hba_rd bar HBA_PI;
  st ← probe_ports 32 pi 0 (AhSt (ah_drives st) (ah_num st) bar);
  mret (if ah_num st >? 0 then 0 else -1, st).

(** The scan; it stops at the first controller. *)
Fixpoint find_funcs (n : nat) (bus slot func : Z) (st : ahci_st) : M W (option Z * ahci_st) :=
  match n with
  | O => mret (None, st)
  | S n =>
    vendor ← pci_get_vendor bus slot func;
    if vendor =? 0xFFFF then find_funcs n bus slot (func + 1) st
    else
      class ← pci_get_class_code bus slot func;
      if negb (class =? 0x01) then find_funcs n bus slot (func + 1) st
      else
        sub ← pci_get_subclass bus slot func;
        if negb (sub =? 0x06) then find_funcs n bus slot (func + 1) st
        else
          progif ← pci_get_progif bus slot func;
          if negb (progif =? 0x01) then find_funcs n bus slot (func + 1) st
          else '(r, st) ← ahci_start bus slot func st; mret (Some r, st)
  end.
Fixpoint find_slots (n : nat) (bus slot : Z) (st : ahci_st) : M W (option Z * ahci_st) :=
  match n with
  | O => mret (None, st)
  | S n =>
    multi ← pci_is_multifunction bus slot;
    '(r, st) ← find_funcs (if multi : bool then 8 else 1) bus slot 0 st;
    match r with Some r => mret (Some r, st) | None => find_slots n bus (slot + 1) st end
  end.
Fixpoint find_buses (n : nat) (bus : Z) (st : ahci_st) : M W (Z * ahci_st) :=
  match n with
  | O => mret (-1, st)
  | S n =>
    '(r, st) ← find_slots 32 bus 0 st;
    match r with Some r => mret (r, st) | None => find_buses n (bus + 1) st end
  end.
Definition ahci_init (st : ahci_st) : M W (Z * ahci_st) := find_buses 256 0 st.

(** The return value and the memory at [buf]. *)
Definition ahci_read_sectors (st : ahci_st) (drv lba count : Z) (buf : list Z) : M W (Z * list Z) :=
  if (drv >=? u8 (ah_num st)) || (count =? 0) then mret (if negb (count =? 0) then -1 else 0, buf)
  else if count >? AHCI_DMA_SECTS then mret (-1, buf)
  else
    d ← lift_option (ah_drives st !! Z.to_nat drv);
    r ← ahci_issue (ah_bar st) (ah_port d) ATA_READ_DMA_EXT lba count false;
    if negb (r =? 0) then mret (-1, buf)
    else
      l ← mem_load_bytes (a_dma L) (Z.to_nat (count * 512));
      buf ← lift_option (if Z.of_nat (length l) <=? Z.of_nat (length buf) then Some (splice buf 0 l) else None);
      mret (0, buf).
Definition ahci_write_sectors (st : ahci_st) (drv lba count : Z) (buf : list Z) : M W Z :=
  if (drv >=? u8 (ah_num st)) || (count =? 0) then mret (if negb (count =? 0) then -1 else 0)
  else if count >? AHCI_DMA_SECTS then mret (-1)
  else
    d ← lift_option (ah_drives st !! Z.to_nat drv);
    l ← lift_option (if count * 512 <=? Z.of_nat (length buf) then Some (slice buf 0 (count * 512)) else None);
    mem_store_bytes (a_dma L) l;;
    ahci_issue (ah_bar st) (ah_port d) ATA_WRITE_DMA_EXT lba count true.

Definition ahci_get_drive (st : ahci_st) (i : Z) : option ahci_drive_t := if i <? u8 (ah_num st) then ah_drives st !! Z.to_nat i else None.
End Ahci.
