(* ===== verification/AhciProofs.v ===== *)
(** * The AHCI driver over a controller that follows the standard

    A port of a controller with a drive ([AhciDevice]: what its registers
    answer, how it fetches a command from memory and finishes it) and a timer
    that keeps counting ([SteadyClock]). The drive may take as long as it
    likes; [ahci_read_sectors] and [ahci_write_sectors] end nevertheless, and
    what they return is what Blk says of a device with faults. *)

From S2P Require Import Prelude Hw Blk Sectors Ahci.

(** ** Commands as the controller reads them *)

Record ata_cmd := AtaCmd { c_write : bool; c_lba : Z; c_count : Z; c_data : Z }.

(** The command of slot 0 of a command list at [clb]: a header of one region
    and a frame of five words, a register frame with the command bit, LBA mode
    and a region of as many bytes as the sectors have. *)
Definition command_at {W} `{!Dma W} (w : W) (clb : Z) : option ata_cmd :=
  let h := mem_bytes w clb 16 in
  let ct := get64 h 8 in
  let f := mem_bytes w ct 20 in
  let r := mem_bytes w (ct + 128) 16 in
  let count := get16 f 12 in
  let write := Z.testbit (get32 h 0) 6 in
  if (Z.land (get32 h 0) 0x1F =? 5) && (get16 h 2 =? 1) && (get8 f 0 =? 0x27) && Z.testbit (get8 f 1) 7 && Z.testbit (get8 f 7) 6 &&
     (get32 r 12 + 1 =? 512 * count) && (get8 f 2 =? if write then ATA_WRITE_DMA_EXT else ATA_READ_DMA_EXT)
  then Some (AtaCmd write (le_val (slice f 4 3) + 2 ^ 24 * le_val (slice f 8 3)) count (get64 r 0))
  else None.

Lemma header_parse wr ct : 0 <= ct < 2 ^ 64 -> let h := command_header wr ct in
  length h = 16%nat /\ get64 h 8 = ct /\ Z.land (get32 h 0) 0x1F = 5 /\ get16 h 2 = 1 /\ Z.testbit (get32 h 0) 6 = wr.
Proof.
  intros Hct h. split; [by destruct wr|]. split; [|by destruct wr].
  unfold get64. change (slice h 8 8) with (le_bytes 4 (Z.land ct 0xFFFFFFFF) ++ le_bytes 4 (Z.shiftr ct 32)).
  rewrite le_val_app, !le_val_bytes, length_le_bytes, (land_ones_mod _ 32), Z.shiftr_div_pow2 by done.
  change (256 ^ Z.of_nat 4) with (2 ^ 32). rewrite !(Z.mod_small (_ mod _)) by zlia. zlia.
Qed.

Lemma three_bytes v : le_val [u8 v; u8 (Z.shiftr v 8); u8 (Z.shiftr v 16)] = v mod 2 ^ 24.
Proof. unfold u8. rewrite !Z.shiftr_div_pow2 by done. cbn [le_val]. zlia. Qed.

Lemma table_parse cmd lba count data n : 0 <= lba < 2 ^ 48 -> 0 <= count < 65536 -> 0 <= data < 2 ^ 64 -> 0 <= n < 2 ^ 32 ->
  let t := command_table cmd lba 0x40 count data n in let f := slice t 0 20 in let r := slice t 128 16 in
  length t = 256%nat /\ get8 f 0 = 0x27 /\ Z.testbit (get8 f 1) 7 = true /\ Z.testbit (get8 f 7) 6 = true /\ get8 f 2 = cmd /\
  le_val (slice f 4 3) + 2 ^ 24 * le_val (slice f 8 3) = lba /\ get16 f 12 = count /\ get64 r 0 = data /\ get32 r 12 = n.
Proof.
  intros Hl Hc Hd Hn t f r.
  assert (Er : r = le_bytes 4 (Z.land data 0xFFFFFFFF) ++ le_bytes 4 (u32 (Z.shiftr data 32)) ++ le_bytes 4 0 ++ le_bytes 4 (u32 n)) by reflexivity.
  split; [reflexivity|]. do 3 (split; [reflexivity|]). split; [reflexivity|]. split; [|split; [|split]].
  - change (slice f 4 3) with [u8 lba; u8 (Z.shiftr lba 8); u8 (Z.shiftr lba 16)].
    replace (slice f 8 3) with [u8 (Z.shiftr lba 24); u8 (Z.shiftr (Z.shiftr lba 24) 8); u8 (Z.shiftr (Z.shiftr lba 24) 16)]
      by (rewrite !Z.shiftr_shiftr by lia; reflexivity).
    rewrite !three_bytes, Z.shiftr_div_pow2 by done. zlia.
  - unfold get16. change (slice f 12 2) with [u8 (Z.land count 0xFF); u8 (Z.shiftr count 8)]. cbn [le_val].
    rewrite (land_ones_mod _ 8), Z.shiftr_div_pow2 by done. unfold u8. zlia.
  - rewrite Er. unfold get64. change (slice (le_bytes 4 ?a ++ le_bytes 4 ?b ++ ?l) 0 8) with (le_bytes 4 a ++ le_bytes 4 b).
    rewrite le_val_app, !le_val_bytes, length_le_bytes, (land_ones_mod _ 32), Z.shiftr_div_pow2 by done. unfold u32.
    change (256 ^ Z.of_nat 4) with (2 ^ 32). rewrite !(Z.mod_small (_ mod _)) by zlia. zlia.
  - rewrite Er. unfold get32. change (slice (le_bytes 4 ?a ++ le_bytes 4 ?b ++ le_bytes 4 ?c ++ le_bytes 4 ?d) 12 4) with (le_bytes 4 d).
    rewrite le_val_bytes. unfold u32. by rewrite !Z.mod_small by zlia.
Qed.

(** ** A timer and a port *)

(** The counter after [n] readings: it never goes back, moves within [period]
    readings, and no more is assumed. *)
Class SteadyClock (W : Type) `{!Clock W} := {
  ck_reads : W -> nat;
  ck_time : nat -> Z;
  ck_period : nat;
  ck_read w : fst (hw_tick w) = ck_time (ck_reads w) /\ ck_reads (snd (hw_tick w)) = S (ck_reads w);
  ck_nonneg n : 0 <= ck_time n;
  ck_mono n : ck_time n <= ck_time (S n);
  ck_moves n : ck_time n + 1 <= ck_time (n + ck_period);
}.

(** Ready; at work on a command; stopped by an error. *)
Inductive port_state := PIdle | PBusy (c : ata_cmd) | PFailed.

Class AhciView (W : Type) := { ah_ctl : W -> port_state; ah_disk : W -> blocks }.

Section Spec.
Context {W : Type} `{!Dma W, !Clock W, !SteadyClock W, !AhciView W}.

(** Nothing of drive and memory changes. *)
Definition still (w w' : W) : Prop := ah_ctl w' = ah_ctl w /\ same_mem w w' /\ ah_disk w' = ah_disk w.

(** The end of a command that was given at [w0]: its sectors are moved, or one
    is bad. The controller may write the byte count in the header and the
    frames it receives; with an error it may have moved a part. *)
Definition finished (clb fb : Z) (bad : Z -> bool) (c : ata_cmd) (w0 w : W) : Prop :=
  let n := Z.to_nat (c_count c) in
  let size := 512 * c_count c in
  let good := all_good bad (c_lba c) n in
  ah_ctl w = (if good then PIdle else PFailed) /\
  (forall a, ~ in_range a (clb + 4) 4 -> ~ in_range a fb 256 -> (c_write c = false -> ~ in_range a (c_data c) size) -> mem w a = mem w0 a) /\
  if c_write c then
    (good = true -> ah_disk w = put_blocks 512 (ah_disk w0) (c_lba c) n (mem_bytes w0 (c_data c) (Z.to_nat size))) /\
    (forall x, ~ in_range x (c_lba c) (c_count c) -> ah_disk w !! x = ah_disk w0 !! x)
  else
    ah_disk w = ah_disk w0 /\ (good = true -> mem_bytes w (c_data c) (Z.to_nat size) = blocks_at 512 (ah_disk w0) (c_lba c) n).

(** A command within the drive, whose data lie apart from what the controller writes of its own. *)
Definition acceptable (clb fb nsect : Z) (c : ata_cmd) : Prop :=
  1 <= c_count c /\ c_lba c + c_count c <= nsect /\
  (c_data c + 512 * c_count c <= clb \/ clb + 1024 <= c_data c) /\ (c_data c + 512 * c_count c <= fb \/ fb + 256 <= c_data c).

(** The port whose registers start at [regs], its command list at [clb] and
    its received frames at [fb], with a drive of [nsect] sectors. *)
Class AhciDevice `{!Mmio W} (regs clb fb nsect : Z) (bad : Z -> bool) := {
  av_store w a l : ah_ctl (set_mem_at a l w) = ah_ctl w /\ ah_disk (set_mem_at a l w) = ah_disk w /\ ck_reads (set_mem_at a l w) = ck_reads w /\
    forall x, mem (set_mem_at a l w) x = default (mem w x) (if bool_decide (a <= x) then l !! Z.to_nat (x - a) else None);
  av_tick w : still w (snd (hw_tick w));
  av_clear w off v : off = POFF_IS \/ off = POFF_SERR -> still w (hw_wr32 (regs + off) v w) /\ ck_reads (hw_wr32 (regs + off) v w) = ck_reads w;
  av_issue w c : ah_ctl w = PIdle -> command_at w clb = Some c -> acceptable clb fb nsect c ->
    let w' := hw_wr32 (regs + POFF_CI) 1 w in
    ah_ctl w' = PBusy c /\ same_mem w w' /\ ah_disk w' = ah_disk w /\ ck_reads w' = ck_reads w;
  av_look w off : off = POFF_TFD \/ off = POFF_CI ->
    let w' := snd (hw_rd32 (regs + off) w) in
    ck_reads w' = ck_reads w /\
    Z.land (fst (hw_rd32 (regs + off) w)) 1 =
      match ah_ctl w' with PIdle => 0 | PBusy _ => if off =? POFF_CI then 1 else 0 | PFailed => 1 end /\
    (still w w' \/ exists c, ah_ctl w = PBusy c /\ (blocks_ok 512 (ah_disk w) -> finished clb fb bad c w w'));
}.

(** Where a command given at [w0] may have got to. *)
Definition underway (clb fb : Z) (bad : Z -> bool) (c : ata_cmd) (w0 w : W) : Prop :=
  (ah_ctl w = PBusy c /\ same_mem w0 w /\ ah_disk w = ah_disk w0) \/ finished clb fb bad c w0 w.

Lemma finished_from clb fb bad c w0 w1 w : same_mem w0 w1 -> ah_disk w1 = ah_disk w0 -> finished clb fb bad c w1 w -> finished clb fb bad c w0 w.
Proof using.
  intros Hm Hd (H1 & H2 & H3). split; [done|]. split; [intros; rewrite H2 by done; apply Hm|].
  rewrite Hd, (mem_bytes_ext w0 w1) in H3 by (intros; apply Hm). exact H3.
Qed.
Lemma finished_still clb fb bad c w0 w w' : still w w' -> finished clb fb bad c w0 w -> finished clb fb bad c w0 w'.
Proof using.
  intros (Hc & Hm & Hd) (H1 & H2 & H3). split; [by rewrite Hc|]. split; [intros; rewrite Hm; auto|].
  rewrite Hd, (mem_bytes_ext w w') by (intros; apply Hm). exact H3.
Qed.
Lemma underway_still clb fb bad c w0 w w' : still w w' -> underway clb fb bad c w0 w -> underway clb fb bad c w0 w'.
Proof using.
  intros Hs [(H1 & H2 & H3)|H]; [|right; by eapply finished_still]. destruct Hs as (Hc & Hm & Hd). left. split; [by rewrite Hc|].
  split; [intros a; by rewrite Hm|congruence].
Qed.
Lemma underway_failed clb fb bad c w0 w : underway clb fb bad c w0 w -> ah_ctl w = PFailed -> all_good bad (c_lba c) (Z.to_nat (c_count c)) = false.
Proof using. intros [(H & _)|(H & _)] E; rewrite E in H; [done|]. by destruct (all_good _ _ _). Qed.
Lemma underway_idle clb fb bad c w0 w : underway clb fb bad c w0 w -> ah_ctl w = PIdle ->
  finished clb fb bad c w0 w /\ all_good bad (c_lba c) (Z.to_nat (c_count c)) = true.
Proof using. intros [(H & _)|H] E; [congruence|]. split; [done|]. destruct H as [H _]. rewrite E in H. by destruct (all_good _ _ _). Qed.

Lemma time_le n k : ck_time n <= ck_time (n + k).
Proof using. induction k as [|k IH]; [rewrite Nat.add_0_r; lia|]. rewrite Nat.add_succ_r. pose proof (ck_mono (n + k)). lia. Qed.
Lemma time_le' n m : (n <= m)%nat -> ck_time n <= ck_time m.
Proof using. intros H. replace m with (n + (m - n))%nat by lia. apply time_le. Qed.
Lemma time_gain n k : ck_time n + Z.of_nat k <= ck_time (n + k * ck_period).
Proof using.
  induction k as [|k IH]; [cbn; rewrite Nat.add_0_r; lia|]. replace (n + S k * ck_period)%nat with ((n + k * ck_period) + ck_period)%nat by lia.
  pose proof (ck_moves (n + k * ck_period)). lia.
Qed.
Lemma period_pos : (1 <= ck_period)%nat.
Proof using. destruct ck_period eqn:E; [|lia]. pose proof (ck_moves 0) as H. rewrite E in H. cbn in H. lia. Qed.
End Spec.

(** ** One command *)

Section Device.
Context {W : Type} `{!Ports W, !Mmio W, !Dma W, !Clock W, !SteadyClock W, !AhciView W}.
Context (L : ahci_mem) (fuel : nat) (bar p nsect : Z) (bad : Z -> bool).
Implicit Types (w : W).

Definition port_regs : Z := bar + 0x100 + p * 0x80.
Definition clb_at : Z := a_clb L + 1024 * p.
Definition fb_at : Z := a_fb L + 256 * p.
Definition ctbl_at : Z := a_ctbl L + 256 * p.
Context `{!AhciDevice (W := W) port_regs clb_at fb_at nsect bad}.
Context (Hbar : 0 <= bar < 2 ^ 32) (Hp : 0 <= p < 8).

Lemma port_array_ok base size : port_array base size p = Some (base + size * p).
Proof using Hp. unfold port_array, MAX_AHCI_PORTS. by rewrite (proj2 (Z.leb_le _ _)), (proj2 (Z.ltb_lt _ _)) by lia. Qed.

Lemma preg_rd_eq off w : 0 <= off < 0x80 -> exists v, preg_rd bar p off w = Some (v, snd (hw_rd32 (port_regs + off) w)) /\
  Z.land v 1 = Z.land (fst (hw_rd32 (port_regs + off) w)) 1.
Proof using Hbar Hp.
  intros Ho. unfold preg_rd, rd32. fold port_regs. rewrite u64_id by (unfold port_regs; word).
  destruct (hw_rd32 (port_regs + off) w) as [v w']. eexists. split; [done|]. cbn [fst]. rewrite !(land_ones_mod _ 1) by done. word.
Qed.
Lemma preg_wr_eq off v w : 0 <= off < 0x80 -> in_u32 v -> preg_wr bar p off v w = Some (tt, hw_wr32 (port_regs + off) v w).
Proof using Hbar Hp. intros Ho Hv. unfold preg_wr, wr32. fold port_regs. by rewrite u64_id, u32_id by (unfold port_regs; word). Qed.
Lemma tick_eq w : ck_time (ck_reads w) < 2 ^ 64 -> get_tick w = Some (ck_time (ck_reads w), snd (hw_tick w)).
Proof using Hbar Hp.
  intros Ht. unfold get_tick. destruct (ck_read w) as [E _]. destruct (hw_tick w) as [v w']. cbn in E |- *. subst v.
  pose proof (ck_nonneg (ck_reads w)). by rewrite u64_id by word.
Qed.

(** A look at a register while a command is under way. *)
Lemma look_ok c w0 w off : off = POFF_TFD \/ off = POFF_CI -> blocks_ok 512 (ah_disk w0) -> underway clb_at fb_at bad c w0 w ->
  exists v w', preg_rd bar p off w = Some (v, w') /\ underway clb_at fb_at bad c w0 w' /\ ck_reads w' = ck_reads w /\
    Z.land v 1 = match ah_ctl w' with PIdle => 0 | PBusy _ => if off =? POFF_CI then 1 else 0 | PFailed => 1 end.
Proof using Hbar Hp AhciDevice0.
  intros Ho Hok Hu. destruct (preg_rd_eq off w) as (v & E & Ev); [unfold POFF_TFD, POFF_CI in Ho; lia|].
  destruct (av_look w off Ho) as (Hr & Hv & Hstep). exists v. eexists. split; [exact E|]. split; [|split; [exact Hr|congruence]].
  destruct Hstep as [Hs|(c' & Hc & Hf)]; [by eapply underway_still|]. destruct Hu as [(H1 & H2 & H3)|(H1 & _)].
  - rewrite Hc in H1. injection H1 as ->. right. eapply finished_from; [done|done|]. apply Hf. by rewrite H3.
  - rewrite Hc in H1. by destruct (all_good _ _ _).
Qed.

(** The loop; [N] is a reading at which the deadline is over. *)
Lemma poll_slot_ok c w0 N dl n w : blocks_ok 512 (ah_disk w0) -> underway clb_at fb_at bad c w0 w ->
  dl <= ck_time N < 2 ^ 64 -> (ck_reads w <= N)%nat -> (N - ck_reads w < n)%nat ->
  exists b w', poll_slot n bar p dl w = Some (b, w') /\ underway clb_at fb_at bad c w0 w' /\
    if b : bool then ah_ctl w' = PIdle \/ dl <= ck_time (ck_reads w') else ah_ctl w' = PFailed.
Proof using Hbar Hp AhciDevice0.
  intros Hok. revert w. induction n as [|n IH]; intros w Hu Hdl Hle Hn; [lia|]. cbn [poll_slot].
  pose proof (time_le' (ck_reads w) N Hle). rewrite (bind_eq _ _ _ _ _ (tick_eq w ltac:(lia))).
  set (w1 := snd (hw_tick w)). destruct (ck_read w) as [_ Hr1]. fold w1 in Hr1. pose proof (underway_still _ _ _ _ _ _ _ (av_tick w) Hu) as Hu1. fold w1 in Hu1.
  destruct (Z.ltb_spec (ck_time (ck_reads w)) dl) as [Hlt|Hge].
  2:{ exists true, w1. split; [done|]. split; [done|]. right. rewrite Hr1. pose proof (ck_mono (ck_reads w)). lia. }
  assert (Hlt' : (ck_reads w < N)%nat) by (destruct (Nat.lt_ge_cases (ck_reads w) N) as [|Hge]; [done|]; pose proof (time_le' N _ Hge); lia).
  destruct (look_ok c w0 w1 POFF_TFD ltac:(by left) Hok Hu1) as (v & w2 & E2 & Hu2 & Hr2 & Hv2). rewrite (bind_eq _ _ _ _ _ E2).
  unfold TFD_ERR. rewrite Hv2. change (POFF_TFD =? POFF_CI) with false. destruct (ah_ctl w2) eqn:Ec2; cbn [Z.eqb negb].
  3:{ exists false, w2. done. }
  all: destruct (look_ok c w0 w2 POFF_CI ltac:(by right) Hok Hu2) as (v' & w3 & E3 & Hu3 & Hr3 & Hv3); rewrite (bind_eq _ _ _ _ _ E3), Hv3;
    change (POFF_CI =? POFF_CI) with true; cbv iota;
    destruct (ah_ctl w3) eqn:Ec3; cbn [Z.eqb]; first [by (exists true, w3; split; [done|]; split; [done|]; left)|apply IH; [done|done|lia|lia]].
Qed.

Lemma run_slot_ok c w : ah_ctl w = PIdle -> command_at w clb_at = Some c -> acceptable clb_at fb_at nsect c -> blocks_ok 512 (ah_disk w) ->
  (5000 * ck_period <= fuel)%nat -> ck_time (ck_reads w + 5000 * ck_period) < 2 ^ 64 ->
  exists b w', run_slot fuel bar p w = Some (b, w') /\ underway clb_at fb_at bad c w w' /\
    if b : bool then ah_ctl w' = PIdle else ah_ctl w' = PFailed \/ ah_ctl w' = PBusy c /\ ck_time (ck_reads w) + 5000 <= ck_time (ck_reads w').
Proof using Hbar Hp AhciDevice0.
  intros Hidle Hcmd Hacc Hok Hfuel Htime. unfold run_slot. set (N := (ck_reads w + 5000 * ck_period)%nat) in *. pose proof period_pos as Hpos.
  rewrite (bind_eq _ _ _ _ _ (preg_wr_eq POFF_IS 0xFFFFFFFF w ltac:(unfold POFF_IS; lia) ltac:(word))).
  destruct (av_clear w POFF_IS 0xFFFFFFFF ltac:(by left)) as [(C1 & M1 & D1) R1]. set (w1 := hw_wr32 (port_regs + POFF_IS) 0xFFFFFFFF w) in *.
  rewrite (bind_eq _ _ _ _ _ (preg_wr_eq POFF_SERR 0xFFFFFFFF w1 ltac:(unfold POFF_SERR; lia) ltac:(word))).
  destruct (av_clear w1 POFF_SERR 0xFFFFFFFF ltac:(by right)) as [(C2 & M2 & D2) R2]. set (w2 := hw_wr32 (port_regs + POFF_SERR) 0xFFFFFFFF w1) in *.
  assert (Hm2 : forall a, mem w2 a = mem w a) by (intros a; by rewrite M2, M1).
  assert (Hcmd2 : command_at w2 clb_at = Some c).
  { rewrite <- Hcmd. unfold command_at. rewrite !(mem_bytes_ext w w2) by (intros; apply Hm2). done. }
  rewrite (bind_eq _ _ _ _ _ (preg_wr_eq POFF_CI 1 w2 ltac:(unfold POFF_CI; lia) ltac:(word))).
  assert (Hidle2 : ah_ctl w2 = PIdle) by (by rewrite C2, C1).
  destruct (av_issue w2 c Hidle2 Hcmd2 Hacc) as (C3 & M3 & D3 & R3). set (w3 := hw_wr32 (port_regs + POFF_CI) 1 w2) in *.
  assert (Hr3 : ck_reads w3 = ck_reads w) by congruence.
  assert (Hu3 : underway clb_at fb_at bad c w w3) by (left; split; [done|]; split; [intros a; by rewrite M3|congruence]).
  pose proof (time_le' (ck_reads w) N ltac:(lia)). pose proof (time_gain (ck_reads w) 5000) as Hgain. fold N in Hgain. change (Z.of_nat 5000) with 5000 in Hgain.
  pose proof (ck_nonneg (ck_reads w)).
  rewrite (bind_eq _ _ _ _ _ (tick_eq w3 ltac:(rewrite Hr3; lia))). rewrite Hr3, u64_id by word.
  destruct (ck_read w3) as [_ Hr4]. pose proof (underway_still _ _ _ _ _ _ _ (av_tick w3) Hu3) as Hu4. set (w4 := snd (hw_tick w3)) in *.
  assert (Hr4' : (ck_reads w4 <= N)%nat) by lia.
  destruct (poll_slot_ok c w N (ck_time (ck_reads w) + 5000) fuel w4 Hok Hu4 (conj Hgain Htime) Hr4') as (b & w5 & E5 & Hu5 & Hb5); [lia|].
  rewrite (bind_eq _ _ _ _ _ E5). destruct b; cbn [negb].
  2:{ exists false, w5. split; [done|]. split; [done|]. by left. }
  destruct (look_ok c w w5 POFF_CI ltac:(by right) Hok Hu5) as (v & w6 & E6 & Hu6 & Hr6 & Hv6). rewrite (bind_eq _ _ _ _ _ E6).
  exists (Z.land v 1 =? 0), w6. split; [done|]. split; [done|]. rewrite Hv6. change (POFF_CI =? POFF_CI) with true. cbv iota.
  destruct (ah_ctl w6) as [|c'|] eqn:Ec6; cbn [Z.eqb]; [done| |by left]. right. destruct Hu6 as [(Hc & _)|(Hc & _)]; [|rewrite Ec6 in Hc; by destruct (all_good _ _ _)].
  rewrite Ec6 in Hc. split; [done|]. rewrite Hr6. destruct Hb5 as [Hb5|Hb5]; [|lia].
  (* done before, busy after: the port does not start by itself *)
  destruct (av_look w5 POFF_CI ltac:(by right)) as (_ & _ & Hs). destruct (preg_rd_eq POFF_CI w5 ltac:(unfold POFF_CI; lia)) as (v' & E' & _).
  rewrite E' in E6. injection E6 as _ E6. rewrite E6 in Hs. destruct Hs as [(Hs & _)|(c'' & Hs & _)]; congruence.
Qed.

(** The arrays lie apart. *)
Definition arrays_ok : Prop :=
  0 <= clb_at /\ clb_at + 1024 <= 2 ^ 64 /\ 0 <= ctbl_at /\ ctbl_at + 256 <= 2 ^ 64 /\ 0 <= a_dma L /\ a_dma L + 32768 <= 2 ^ 64 /\
  (clb_at + 1024 <= ctbl_at \/ ctbl_at + 256 <= clb_at) /\
  (a_dma L + 32768 <= clb_at \/ clb_at + 1024 <= a_dma L) /\
  (a_dma L + 32768 <= fb_at \/ fb_at + 256 <= a_dma L) /\
  (a_dma L + 32768 <= ctbl_at \/ ctbl_at + 256 <= a_dma L).
Context (HL : arrays_ok) (Hns : nsect <= 2 ^ 48).

Lemma port_store_ok a l w : mem_bytes (set_mem_at a l w) a (length l) = l /\
  (forall x, ~ in_range x a (Z.of_nat (length l)) -> mem (set_mem_at a l w) x = mem w x) /\
  ah_ctl (set_mem_at a l w) = ah_ctl w /\ ah_disk (set_mem_at a l w) = ah_disk w /\ ck_reads (set_mem_at a l w) = ck_reads w.
Proof using AhciDevice0. destruct (av_store w a l) as (Hc & Hd & Hr & Hm). destruct (store_bytes w a l Hm). by split_and!. Qed.

(** The header and the table of [ahci_issue] are the command meant. *)
Lemma command_stored (write : bool) lba count w : 0 <= lba -> lba + count <= nsect -> 1 <= count <= 64 ->
  mem_bytes w clb_at 16 = command_header write ctbl_at ->
  mem_bytes w ctbl_at 256 = command_table (if write then ATA_WRITE_DMA_EXT else ATA_READ_DMA_EXT) lba 0x40 count (a_dma L) (count * 512 - 1) ->
  command_at w clb_at = Some (AtaCmd write lba count (a_dma L)).
Proof using HL Hns.
  intros Hl Hend Hc Hh Ht. pose proof HL as (L1 & L2 & L3 & L4 & L5 & L6 & _).
  destruct (header_parse write ctbl_at ltac:(lia)) as (_ & P1 & P2 & P3 & P4). rewrite <- Hh in P1, P2, P3, P4.
  destruct (table_parse (if write then ATA_WRITE_DMA_EXT else ATA_READ_DMA_EXT) lba count (a_dma L) (count * 512 - 1))
    as (_ & Q0 & Q1 & Q7 & Q2 & Ql & Qc & Qd & Qn); [lia..|]. rewrite <- Ht, !slice_mem_bytes in * by lia. rewrite Z.add_0_r in *.
  change (Z.to_nat 20) with 20%nat in *. change (Z.to_nat 16) with 16%nat in *.
  unfold command_at. rewrite P1, !slice_mem_bytes by lia. change (Z.to_nat 3) with 3%nat in *. rewrite P2, P3, P4, Q0, Q1, Q7, Q2, Ql, Qc, Qd, Qn.
  replace (count * 512 - 1 + 1 =? 512 * count) with true by (symmetry; apply Z.eqb_eq; lia). rewrite !Z.eqb_refl. done.
Qed.

Lemma ahci_issue_ok (write : bool) lba count w : ah_ctl w = PIdle -> 0 <= lba -> lba + count <= nsect -> 1 <= count <= 64 -> blocks_ok 512 (ah_disk w) ->
  (5000 * ck_period <= fuel)%nat -> ck_time (ck_reads w + 5000 * ck_period) < 2 ^ 64 ->
  let c := AtaCmd write lba count (a_dma L) in
  exists r w0 w', ahci_issue L fuel bar p (if write then ATA_WRITE_DMA_EXT else ATA_READ_DMA_EXT) lba count write w = Some (r, w') /\
    (forall x, in_range x (a_dma L) 32768 -> mem w0 x = mem w x) /\ ah_disk w0 = ah_disk w /\ underway clb_at fb_at bad c w0 w' /\
    (r = 0 /\ ah_ctl w' = PIdle \/
     r = -1 /\ (ah_ctl w' = PFailed \/ ah_ctl w' = PBusy c /\ ck_time (ck_reads w) + 5000 <= ck_time (ck_reads w'))).
Proof using Hbar Hp AhciDevice0 HL Hns.
  intros Hidle Hl Hend Hc Hok Hfuel Htime c. pose proof HL as (L1 & L2 & L3 & L4 & L5 & L6 & L7 & L8 & L9 & L10).
  unfold ahci_issue. rewrite !port_array_ok. replace (a_ctbl L + 256 * p) with ctbl_at by done. replace (a_clb L + 1024 * p) with clb_at by done.
  rewrite (bind_eq _ _ w ctbl_at w), (bind_eq _ _ w clb_at w) by done.
  set (h := command_header write ctbl_at). set (t := command_table _ _ _ _ _ _).
  assert (Hh : length h = 16%nat) by (by destruct write). assert (Hlt : length t = 256%nat) by reflexivity.
  destruct (port_store_ok clb_at h w) as (S1 & F1 & C1 & D1 & R1). unfold mem_store_bytes. set (w1 := set_mem_at clb_at h w) in *.
  rewrite (bind_eq _ _ w tt w1) by done. rewrite Hh in S1, F1.
  destruct (port_store_ok ctbl_at t w1) as (S2 & F2 & C2 & D2 & R2). set (w2 := set_mem_at ctbl_at t w1) in *.
  rewrite (bind_eq _ _ w1 tt w2) by done. rewrite Hlt in S2, F2.
  assert (Hcmd : command_at w2 clb_at = Some c).
  { apply command_stored; [done..| |exact S2]. rewrite (mem_bytes_ext w1 w2); [exact S1|]. intros x Hx. apply F2. unfold in_range. lia. }
  assert (Hidle2 : ah_ctl w2 = PIdle) by (by rewrite C2, C1).
  assert (Hr2 : ck_reads w2 = ck_reads w) by (by rewrite R2, R1). assert (Hd2 : ah_disk w2 = ah_disk w) by (by rewrite D2, D1).
  destruct (run_slot_ok c w2 Hidle2 Hcmd) as (b & w' & E & Hu & Hb); [|by rewrite Hd2|done|by rewrite Hr2|].
  { unfold acceptable, c; cbn [c_count c_lba c_data]. lia. }
  rewrite (bind_eq _ _ _ _ _ E). eexists _, w2, w'. split; [done|]. split; [|split; [done|split; [done|]]].
  { intros x Hx. unfold in_range in *. rewrite F2, F1 by (unfold in_range; lia). done. }
  destruct b; [by left|right]. by rewrite Hr2 in Hb.
Qed.
End Device.

(** ** The functions *)

(** Drive [idx] of the table is at port [p], which waits for a command; the
    timer does not wrap in the next five seconds, and [fuel] is enough for them. *)
Definition ahci_ready {W} `{!Dma W, !Clock W, !SteadyClock W, !AhciView W} (L : ahci_mem) (fuel : nat) (st : ahci_st) (idx p nsect : Z) (w : W) : Prop :=
  arrays_ok L p /\ nsect <= 2 ^ 48 /\ 0 <= ah_bar st < 2 ^ 32 /\ 0 <= p < 8 /\ 0 <= idx < u8 (ah_num st) /\
  (exists d, ah_drives st !! Z.to_nat idx = Some d /\ ah_port d = p) /\ ah_ctl w = PIdle /\ blocks_ok 512 (ah_disk w) /\
  (5000 * ck_period <= fuel)%nat /\ ck_time (ck_reads w + 5000 * ck_period) < 2 ^ 64.

(** Why a command failed: a bad sector stopped the port, or the drive was still
    at work after five seconds. *)
Definition ahci_failed {W} `{!Clock W, !SteadyClock W, !AhciView W} (bad : Z -> bool) (lba count : Z) (w w' : W) : Prop :=
  all_good bad lba (Z.to_nat count) = false /\ ah_ctl w' = PFailed \/
  (exists c, ah_ctl w' = PBusy c) /\ ck_time (ck_reads w) + 5000 <= ck_time (ck_reads w').

Definition ahci_fault (r : Z) : nat -> option nat := fun _ => if r =? 0 then None else Some O.
Lemma blk_read_ahci r idx lba count d : 0 <= idx < 256 -> 1 <= count < 256 -> 0 <= lba < 2 ^ 64 ->
  exists d', blk_read (ahci_fault r) DRIVE_TYPE_AHCI idx lba count d =
    Some (if r =? 0 then Some (sectors_at d DrvAhci idx lba (Z.to_nat count)) else None, d').
Proof.
  intros. unfold blk_read, ahci_fault. cbn [get_dev]. rewrite !u8_id, u64_id by word. change (blk_driver DRIVE_TYPE_AHCI) with DrvAhci.
  destruct (Nat.eqb_spec (Z.to_nat count) 0); [lia|]. destruct (r =? 0); by eexists.
Qed.

Section Functions.
Context {W : Type} `{!Ports W, !Mmio W, !Dma W, !Clock W, !SteadyClock W, !AhciView W}.
Context (L : ahci_mem) (fuel : nat) (st : ahci_st) (idx p nsect : Z) (bad : Z -> bool).
Context `{!AhciDevice (W := W) (port_regs (ah_bar st) p) (clb_at L p) (fb_at L p) nsect bad}.

Lemma ahci_read_refines_ok (lba count : Z) (buf : list Z) (w : W) (dv : dev) :
  ahci_ready L fuel st idx p nsect w -> 1 <= count <= 64 -> 0 <= lba -> lba + count <= nsect ->
  512 * count <= Z.of_nat (length buf) -> nrep DrvAhci 512 (dv_sectors dv) idx (ah_disk w) ->
  exists r buf' w' res dv', ahci_read_sectors L fuel st idx lba count buf w = Some (r, buf', w') /\ ah_disk w' = ah_disk w /\
    blk_read (ahci_fault r) DRIVE_TYPE_AHCI idx lba count dv = Some (res, dv') /\
    match res with
    | Some bytes => r = 0 /\ take (Z.to_nat (512 * count)) buf' = bytes /\ changed 0 (512 * count) buf buf' /\ ah_ctl w' = PIdle
    | None => r = -1 /\ buf' = buf /\ ahci_failed bad lba count w w'
    end.
Proof using All.
  intros (HL & Hns & Hbar & Hp & Hidx & (d & Hd & Hdp) & Hidle & Hok & Hfuel & Htime) Hc Hlba Hend Hbuf Hrep.
  unfold ahci_read_sectors. destruct (Z.geb_spec idx (u8 (ah_num st))); [lia|]. destruct (Z.eqb_spec count 0); [lia|]. cbn [orb].
  unfold AHCI_DMA_SECTS. destruct (Z.gtb_spec count 64); [lia|]. rewrite (bind_eq _ _ w d w) by (by rewrite Hd). rewrite Hdp.
  destruct (ahci_issue_ok L fuel (ah_bar st) p nsect bad Hbar Hp HL Hns false lba count w Hidle Hlba Hend Hc Hok Hfuel Htime)
    as (r & w0 & w' & E & Hm & Hd0 & Hu & Hr).
  rewrite (bind_eq _ _ _ _ _ E). pose proof (u8_range (ah_num st)).
  destruct (blk_read_ahci r idx lba count dv ltac:(unfold in_u8 in *; lia) ltac:(lia) ltac:(lia)) as [dv' Eb].
  assert (Hdisk : ah_disk w' = ah_disk w) by (destruct Hu as [(_ & _ & Hfin)|(_ & _ & Hfin & _)]; congruence).
  destruct Hr as [[-> Hi]|[-> Hf]]; cbn [Z.eqb negb].
  - destruct (underway_idle _ _ _ _ _ _ Hu Hi) as [(_ & _ & Hfin) Hg]. cbn [c_write c_lba c_count c_data] in Hfin, Hg. destruct Hfin as [_ Hdata].
    rewrite Hg in Hdata. specialize (Hdata eq_refl). rewrite Hd0 in Hdata.
    rewrite blocks_512, (nrep_sectors DrvAhci 512 (dv_sectors dv) (dv_tick dv) idx) in Hdata by done.
    replace (Z.to_nat (512 * count)) with (Z.to_nat (count * 512)) in * by lia. unfold mem_load_bytes.
    set (l := sectors_at _ _ _ _ _) in Hdata.
    rewrite (bind_eq _ _ w' l w') by (unfold gets; by rewrite Hdata).
    assert (Hl : Z.of_nat (length l) = 512 * count) by (rewrite <- Hdata, length_mem_bytes; lia).
    rewrite (proj2 (Z.leb_le _ _)) by lia. eexists 0, _, w', _, dv'. split; [done|]. split; [done|]. split; [exact Eb|]. split; [done|].
    split; [|split; [|done]].
    + replace (sectors_at dv DrvAhci idx lba (Z.to_nat count)) with l by (by destruct dv). apply list_eq. intros i.
      pose proof (slice_splice_same buf 0 l ltac:(lia) ltac:(lia)) as Hs. rewrite Hl in Hs. unfold slice in Hs. rewrite drop_0 in Hs.
      by replace (Z.to_nat (count * 512)) with (Z.to_nat (512 * count)) by lia; rewrite Hs.
    + replace (512 * count) with (0 + Z.of_nat (length l)) by lia. by apply changed_splice.
  - eexists (-1), buf, w', _, dv'. split; [done|]. split; [done|]. split; [exact Eb|]. split; [done|]. split; [done|].
    destruct Hf as [Hf|[Hf Ht]]; [left|right; by eauto]. split; [|done]. exact (underway_failed _ _ _ _ _ _ Hu Hf).
Qed.

Lemma ahci_write_correct_ok (lba count : Z) (buf : list Z) (w : W) (dv : dev) :
  ahci_ready L fuel st idx p nsect w -> 1 <= count <= 64 -> 0 <= lba -> lba + count <= nsect ->
  512 * count <= Z.of_nat (length buf) -> nrep DrvAhci 512 (dv_sectors dv) idx (ah_disk w) ->
  exists r w', ahci_write_sectors L fuel st idx lba count buf w = Some (r, w') /\
    (forall x, ~ in_range x lba count -> ah_disk w' !! x = ah_disk w !! x) /\
    (r = 0 /\ ah_ctl w' = PIdle /\ blocks_ok 512 (ah_disk w') /\
       (exists dv', blk_write (fun _ => None) DRIVE_TYPE_AHCI idx lba count buf dv = Some (true, dv') /\ nrep DrvAhci 512 (dv_sectors dv') idx (ah_disk w')) \/
     r = -1 /\ ahci_failed bad lba count w w').
Proof using All.
  intros (HL & Hns & Hbar & Hp & Hidx & (d & Hd & Hdp) & Hidle & Hok & Hfuel & Htime) Hc Hlba Hend Hbuf Hrep.
  unfold ahci_write_sectors. destruct (Z.geb_spec idx (u8 (ah_num st))); [lia|]. destruct (Z.eqb_spec count 0); [lia|]. cbn [orb].
  unfold AHCI_DMA_SECTS. destruct (Z.gtb_spec count 64); [lia|]. rewrite (bind_eq _ _ w d w) by (by rewrite Hd). rewrite Hdp.
  rewrite (proj2 (Z.leb_le _ _)) by lia. set (l := slice buf 0 (count * 512)).
  assert (Hl : length l = (512 * Z.to_nat count)%nat) by (unfold l, slice; rewrite drop_0, length_take; lia).
  rewrite (bind_eq _ _ w l w) by done. destruct (port_store_ok L (ah_bar st) p nsect bad (a_dma L) l w) as (S1 & F1 & C1 & D1 & R1).
  unfold mem_store_bytes. set (w1 := set_mem_at (a_dma L) l w) in *. rewrite (bind_eq _ _ w tt w1) by done.
  destruct (ahci_issue_ok L fuel (ah_bar st) p nsect bad Hbar Hp HL Hns true lba count w1 ltac:(by rewrite C1) Hlba Hend Hc ltac:(by rewrite D1) Hfuel ltac:(by rewrite R1))
    as (r & w0 & w' & E & Hm & Hd0 & Hu & Hr).
  exists r, w'. split; [exact E|]. rewrite R1 in Hr. split.
  { destruct Hu as [(_ & _ & Hfin)|(_ & _ & _ & Hfin)]; intros x Hx; [congruence|]. cbn [c_lba c_count] in Hfin. rewrite Hfin by done. congruence. }
  destruct Hr as [[-> Hi]|[-> Hf]]; [left|right].
  - destruct (underway_idle _ _ _ _ _ _ Hu Hi) as [(_ & _ & Hfin) Hg]. cbn [c_write c_lba c_count c_data] in Hfin, Hg. destruct Hfin as [Hput _].
    rewrite Hg in Hput. specialize (Hput eq_refl). rewrite Hd0, D1 in Hput.
    rewrite (mem_bytes_ext w1 w0) in Hput by (intros x Hx; apply Hm; unfold in_range; lia).
    replace (Z.to_nat (512 * count)) with (length l) in Hput by lia. rewrite S1 in Hput.
    split; [done|]. split; [done|]. split; [rewrite Hput; by apply put_blocks_frame|].
    exists (Dev (put_sectors (dv_sectors dv) DrvAhci idx lba (Z.to_nat count) buf) (S (dv_tick dv))). pose proof (u8_range (ah_num st)). split.
    + unfold blk_write. cbn [get_dev set_dev dev_has_dev]. rewrite !u8_id, u64_id by (unfold in_u8 in *; word).
      destruct (Nat.eqb_spec (Z.to_nat count) 0); [lia|]. done.
    + cbn [dv_sectors]. rewrite <- put_sectors_take. replace (take (512 * Z.to_nat count) buf) with l by (unfold l, slice; rewrite drop_0; f_equal; lia).
      rewrite Hput. by apply put_blocks_nrep.
  - split; [done|]. destruct Hf as [Hf|[Hf Ht]]; [left|right; by eauto]. split; [|done]. exact (underway_failed _ _ _ _ _ _ Hu Hf).
Qed.
End Functions.

(** C31 (drivers/ahci.c, [ahci_read_sectors], [ahci_issue], [poll_slot];
    [blk_read]): on a port with a drive that may take any time, reading at most
    64 sectors (the limit ahci.h gives) ends;
    it gives 0 and the sectors of Blk's [blk_read] in the first [512 count]
    bytes of the buffer, or -1 with the buffer as it was, and then a sector was
    bad or five thousand ticks had passed. The disk stays as it was. *)
Theorem ahci_read_refines {W} `{!Ports W, !Mmio W, !Dma W, !Clock W, !SteadyClock W, !AhciView W} (L : ahci_mem) (fuel : nat) (st : ahci_st) (idx p nsect : Z)
    (bad : Z -> bool) `{!AhciDevice (W := W) (port_regs (ah_bar st) p) (clb_at L p) (fb_at L p) nsect bad}
    (lba count : Z) (buf : list Z) (w : W) (dv : dev) :
  ahci_ready L fuel st idx p nsect w -> 1 <= count <= 64 -> 0 <= lba -> lba + count <= nsect ->
  512 * count <= Z.of_nat (length buf) -> nrep DrvAhci 512 (dv_sectors dv) idx (ah_disk w) ->
  exists r buf' w' res dv', ahci_read_sectors L fuel st idx lba count buf w = Some (r, buf', w') /\ ah_disk w' = ah_disk w /\
    blk_read (ahci_fault r) DRIVE_TYPE_AHCI idx lba count dv = Some (res, dv') /\
    match res with
    | Some bytes => r = 0 /\ take (Z.to_nat (512 * count)) buf' = bytes /\ changed 0 (512 * count) buf buf' /\ ah_ctl w' = PIdle
    | None => r = -1 /\ buf' = buf /\ ahci_failed bad lba count w w'
    end.
Proof. by eapply ahci_read_refines_ok. Qed.

(** C32 (drivers/ahci.c, [ahci_write_sectors], [ahci_issue], [poll_slot];
    [blk_write]): on such a port writing at most 64 sectors ends; it gives 0 with the sectors of
    Blk's [blk_write] on the disk and the port ready for the next command, or
    -1, and then a sector was bad or five thousand ticks had passed. On both
    outcomes no sector outside the range changes. *)
Theorem ahci_write_correct {W} `{!Ports W, !Mmio W, !Dma W, !Clock W, !SteadyClock W, !AhciView W} (L : ahci_mem) (fuel : nat) (st : ahci_st) (idx p nsect : Z)
    (bad : Z -> bool) `{!AhciDevice (W := W) (port_regs (ah_bar st) p) (clb_at L p) (fb_at L p) nsect bad}
    (lba count : Z) (buf : list Z) (w : W) (dv : dev) :
  ahci_ready L fuel st idx p nsect w -> 1 <= count <= 64 -> 0 <= lba -> lba + count <= nsect ->
  512 * count <= Z.of_nat (length buf) -> nrep DrvAhci 512 (dv_sectors dv) idx (ah_disk w) ->
  exists r w', ahci_write_sectors L fuel st idx lba count buf w = Some (r, w') /\
    (forall x, ~ in_range x lba count -> ah_disk w' !! x = ah_disk w !! x) /\
    (r = 0 /\ ah_ctl w' = PIdle /\ blocks_ok 512 (ah_disk w') /\
       (exists dv', blk_write (fun _ => None) DRIVE_TYPE_AHCI idx lba count buf dv = Some (true, dv') /\ nrep DrvAhci 512 (dv_sectors dv') idx (ah_disk w')) \/
     r = -1 /\ ahci_failed bad lba count w w').
Proof. by eapply ahci_write_correct_ok. Qed.

(** ** A port to run the driver on *)

Module AhciDemo.
Definition L : ahci_mem := AhMem 0x10000 0x20000 0x30000 0x40000.
Definition bar : Z := 0xFEB00000.
Definition sim_bad (b : Z) : bool := b =? 5.
Record sim := Sim { sm_ctl : port_state; sm_wait : nat; sm_disk : blocks; sm_mem : Z -> Z; sm_reads : nat }.

#[global] Instance sim_ports : Ports sim := {|
  hw_in8 _ w := (0, w); hw_in16 _ w := (0, w); hw_in32 _ w := (0, w);
  hw_out8 _ _ w := w; hw_out16 _ _ w := w; hw_out32 _ _ w := w;
|}.
#[global] Instance sim_dma : Dma sim := {|
  mem := sm_mem;
  set_mem_at a l w := Sim (sm_ctl w) (sm_wait w) (sm_disk w) (store_at a l (sm_mem w)) (sm_reads w);
  dma w := w;
|}.
#[global] Instance sim_clock : Clock sim := {|
  hw_tick w := (Z.of_nat (sm_reads w) / 3, Sim (sm_ctl w) (sm_wait w) (sm_disk w) (sm_mem w) (S (sm_reads w)));
|}.
#[global] Instance sim_view : AhciView sim := {| ah_ctl := sm_ctl; ah_disk := sm_disk |}.
Definition regs : Z := port_regs bar 1.
(** The port runs the command at the third look. *)
Definition sim_finish (c : ata_cmd) (w : sim) : sim :=
  let n := Z.to_nat (c_count c) in
  if all_good sim_bad (c_lba c) n then
    if c_write c
    then Sim PIdle 0 (put_blocks 512 (sm_disk w) (c_lba c) n (mem_bytes w (c_data c) (Z.to_nat (512 * c_count c)))) (sm_mem w) (sm_reads w)
    else Sim PIdle 0 (sm_disk w) (store_at (c_data c) (blocks_at 512 (sm_disk w) (c_lba c) n) (sm_mem w)) (sm_reads w)
  else Sim PFailed 0 (sm_disk w) (sm_mem w) (sm_reads w).
Definition sim_step (w : sim) : sim :=
  match sm_ctl w, sm_wait w with
  | PBusy c, O => sim_finish c w
  | PBusy c, S k => Sim (PBusy c) k (sm_disk w) (sm_mem w) (sm_reads w)
  | _, _ => w
  end.
#[global] Instance sim_mmio : Mmio sim := {|
  hw_rd32 a w :=
    let w := sim_step w in
    (match sm_ctl w with PIdle => 0 | PBusy _ => if a =? regs + POFF_CI then 1 else 0x80 | PFailed => 1 end, w);
  hw_wr32 a v w :=
    if a =? regs + POFF_CI
    then match command_at w (clb_at L 1) with Some c => Sim (PBusy c) 2 (sm_disk w) (sm_mem w) (sm_reads w) | None => w end
    else w;
|}.
#[global] Program Instance sim_steady : SteadyClock sim := {| ck_reads := sm_reads; ck_time n := Z.of_nat n / 3; ck_period := 3 |}.
Solve Obligations with (intros; cbn; first [done|zlia]).

Lemma sim_finish_ok c w : sm_ctl w = PBusy c -> blocks_ok 512 (sm_disk w) -> finished (clb_at L 1) (fb_at L 1) sim_bad c w (sim_finish c w).
Proof.
  intros Hc Hok. unfold finished, sim_finish. set (n := Z.to_nat (c_count c)). set (good := all_good sim_bad (c_lba c) n).
  pose proof (length_blocks_at (sm_disk w) (c_lba c) n Hok) as Hlen.
  assert (Hput : c_write c = true -> forall x, ~ in_range x (c_lba c) (c_count c) ->
    put_blocks 512 (sm_disk w) (c_lba c) n (mem_bytes w (c_data c) (Z.to_nat (512 * c_count c))) !! x = sm_disk w !! x).
  { intros _ x Hx. apply put_blocks_frame; [done|rewrite length_mem_bytes; lia|]. unfold in_range in *. lia. }
  destruct (store_bytes w (c_data c) (blocks_at 512 (sm_disk w) (c_lba c) n) ltac:(done)) as [S1 F1]. rewrite Hlen in S1, F1.
  replace (512 * n)%nat with (Z.to_nat (512 * c_count c)) in S1 by lia.
  destruct (c_write c), good; cbn [ah_ctl ah_disk sim_view sm_ctl sm_disk]; split_and!; try done; try (by apply Hput).
  intros a _ _ Ha. specialize (Ha eq_refl). apply F1. unfold in_range in *. lia.
Qed.

#[global] Instance sim_device : AhciDevice (W := sim) (port_regs bar 1) (clb_at L 1) (fb_at L 1) 16 sim_bad.
Proof.
  split.
  - done.
  - done.
  - intros w off v [-> | ->]; done.
  - intros w c Hc E _. cbn [hw_wr32 sim_mmio]. fold regs. rewrite Z.eqb_refl, E. done.
  - intros w off Ho w'. change w' with (sim_step w). split; [|split].
    + unfold sim_step. destruct (sm_ctl w) as [|c|]; [done| |done]. destruct (sm_wait w); [|done]. unfold sim_finish.
      by destruct (all_good _ _ _), (c_write c).
    + cbn [hw_rd32 sim_mmio fst ah_ctl sim_view]. destruct (sm_ctl (sim_step w)); [done| |done]. by destruct Ho as [-> | ->].
    + destruct (sm_ctl w) as [|c|] eqn:Ec; [left; unfold sim_step; by rewrite Ec| |left; unfold sim_step; by rewrite Ec].
      destruct (sm_wait w) as [|k] eqn:Ek; [right|left; unfold sim_step, still; rewrite Ec, Ek; split; [by symmetry|done]].
      exists c. split; [done|]. intros Hok. unfold sim_step. rewrite Ec, Ek. by apply sim_finish_ok.
Qed.

Definition table : ahci_st := AhSt [AhDrive 1 true 16] 1 bar.
Definition sim0 : sim := Sim PIdle 0 {[ 3 := replicate 512 0x33 ]} (fun _ => 0) 7.
Definition dev0 : dev := Dev {[ (DrvAhci, 0, 3) := replicate 512 0x33 ]} 0.
Definition enough : nat := Z.to_nat 15000.

Lemma ahci_disk0_ok : blocks_ok 512 (ah_disk sim0).
Proof.
  intros b. unfold block. change (ah_disk sim0) with ({[ 3 := replicate 512 0x33 ]} : blocks). destruct (decide (b = 3)) as [->|Hn]; [done|].
  by rewrite lookup_singleton_ne by done.
Qed.
Lemma ahci_dev0_rep : nrep DrvAhci 512 (dv_sectors dev0) 0 (ah_disk sim0).
Proof.
  intros b Hb. rewrite nsector_512 by apply ahci_disk0_ok. unfold block, dev0, dv_sectors. change (ah_disk sim0) with ({[ 3 := replicate 512 0x33 ]} : blocks).
  destruct (decide (b = 3)) as [->|Hn]; [done|]. by rewrite !lookup_singleton_ne by congruence.
Qed.
Lemma ready0 : ahci_ready L enough table 0 1 16 sim0.
Proof.
  unfold ahci_ready. split; [unfold arrays_ok, clb_at, ctbl_at, fb_at, L; cbn; lia|]. split; [done|]. split; [done|]. split; [done|]. split; [done|].
  split; [by exists (AhDrive 1 true 16)|]. split; [done|]. split; [exact ahci_disk0_ok|].
  change (ck_period (W := sim)) with 3%nat. change (ck_reads sim0) with 7%nat. split; [unfold enough; lia|].
  cbn [ck_time sim_steady]. rewrite Nat2Z.inj_add, Nat2Z.inj_mul. change (Z.of_nat 5000) with 5000. zlia.
Qed.

(** A bad sector fails the command and stops the port. Nothing of the driver
    starts it again, so the command behind it runs into its deadline. *)
Example stopped_ex : (fun r => (fst (fst r), sm_ctl (snd r))) <$> ahci_read_sectors L 40 table 0 4 3 (replicate 1536 0) sim0 = Some (-1, PFailed).
Proof. by vm_compute. Qed.
(** The arrays have room for eight ports, [ahci_init] asks for thirty-two. *)
Example port_eight_ex : ahci_issue (W := sim) L 40 bar 8 ATA_READ_DMA_EXT 0 1 false sim0 = None.
Proof. done. Qed.
End AhciDemo.

Lemma ahci_read_refines_witness : exists r buf' w' res dv',
  ahci_read_sectors AhciDemo.L AhciDemo.enough AhciDemo.table 0 2 2 (replicate 1024 0) AhciDemo.sim0 = Some (r, buf', w') /\
  blk_read (ahci_fault r) DRIVE_TYPE_AHCI 0 2 2 AhciDemo.dev0 = Some (res, dv') /\ (r = 0 \/ r = -1).
Proof.
  destruct (ahci_read_refines AhciDemo.L AhciDemo.enough AhciDemo.table 0 1 16 AhciDemo.sim_bad 2 2 (replicate 1024 0) AhciDemo.sim0 AhciDemo.dev0
    AhciDemo.ready0 ltac:(lia) ltac:(lia) ltac:(lia) ltac:(rewrite length_replicate; lia) AhciDemo.ahci_dev0_rep)
    as (r & buf' & w' & res & dv' & E & _ & Eb & H).
  exists r, buf', w', res, dv'. refine (conj E (conj Eb _)). destruct res; [left|right]; exact (proj1 H).
Defined.

Lemma ahci_write_correct_witness : exists r w',
  ahci_write_sectors AhciDemo.L AhciDemo.enough AhciDemo.table 0 2 3 (replicate 1536 9) AhciDemo.sim0 = Some (r, w') /\
  ah_disk w' !! 5 = ah_disk AhciDemo.sim0 !! 5.
Proof.
  destruct (ahci_write_correct AhciDemo.L AhciDemo.enough AhciDemo.table 0 1 16 AhciDemo.sim_bad 2 3 (replicate 1536 9) AhciDemo.sim0 AhciDemo.dev0
    AhciDemo.ready0 ltac:(lia) ltac:(lia) ltac:(lia) ltac:(rewrite length_replicate; lia) AhciDemo.ahci_dev0_rep)
    as (r & w' & E & H & _).
  exists r, w'. exact (conj E (H 5 ltac:(unfold in_range; lia))).
Defined.
