(* ===== verification/Virtio.v ===== *)
(** * drivers/virtio_blk.c: paravirtual disks

    One virtqueue for all drives: a descriptor table and the available ring in
    the first page, the used ring in the second; a request is a chain of three
    descriptors. The static arrays are at the addresses of a [vblk_mem]. The
    line printed by [vblk_init_one] is left out. *)

From S2P Require Import Prelude Hw Pci.

Definition VIO_DRVFEAT : Z := 0x04.
Definition VIO_QADDR : Z := 0x08.
Definition VIO_QSIZE : Z := 0x0C.
Definition VIO_QSEL : Z := 0x0E.
Definition VIO_QNOTIFY : Z := 0x10.
Definition VIO_STATUS : Z := 0x12.
Definition VIO_CFG : Z := 0x14.
Definition VIRTIO_ACK : Z := 0x01.
Definition VIRTIO_DRV : Z := 0x02.
Definition VIRTIO_DRV_OK : Z := 0x04.
Definition VRING_F_NEXT : Z := 0x01.
Definition VRING_F_WRITE : Z := 0x02.
Definition VIRTIO_BLK_T_IN : Z := 0.
Definition VIRTIO_BLK_T_OUT : Z := 1.
Definition VQ_MAXSIZE : Z := 128.
Definition VRING_SIZE : Z := 8192.
Definition MAX_VBLK : Z := 4.

Record vblk_drive_t := VbDrive { vb_active : bool; vb_sector_count : Z }.
(** [virtq_mem], [vblk_hdr], [vblk_stat], [vblk_dma]. *)
Record vblk_mem := VbMem { a_virtq : Z; a_hdr : Z; a_stat : Z; a_vdma : Z }.
(** [vq_size], [vq_avail_head], [vq_used_last], [vq_io_base]; [vblk_drives] and
    [vblk_ndrive]. *)
Record vblk_st := VbSt { vq_size : Z; vq_avail_head : Z; vq_used_last : Z; vq_io_base : Z; vb_drives : list vblk_drive_t; vb_num : Z }.

(** The bytes of a descriptor and of a request header. *)
Definition desc_bytes (addr len flags next : Z) : list Z := le_bytes 8 addr ++ le_bytes 4 len ++ le_bytes 2 flags ++ le_bytes 2 next.
Definition hdr_bytes (type sector : Z) : list Z := le_bytes 4 type ++ le_bytes 4 0 ++ le_bytes 8 sector.

Section Virtio.
Context {W : Type} `{!Ports W, !Dma W} (L : vblk_mem).

Definition DESC (i : Z) : Z := a_virtq L + i * 16.
Definition AVAIL_BASE (size : Z) : Z := size * 16.
Definition AVAIL_IDX (size : Z) : Z := a_virtq L + AVAIL_BASE size + 2.
Definition AVAIL_RING (size i : Z) : Z := a_virtq L + AVAIL_BASE size + 4 + i * 2.
Definition USED_IDX : Z := a_virtq L + 4096 + 2.

(** The rest of the 10000000 looks at the used index. *)
Fixpoint used_poll (n : nat) (last : Z) : M W unit :=
  match n with O => mret tt | S n => v ← vload USED_IDX 2; if negb (v =? last) then mret tt else used_poll n last end.

(** 0 or -1, and the indices. *)
Definition vblk_issue (type lba dma_len : Z) (st : vblk_st) : M W (Z * vblk_st) :=
  let size := vq_size st in
  let head := vq_avail_head st in
  let last := vq_used_last st in
  mem_store_bytes (DESC 0) (desc_bytes (a_hdr L) 16 VRING_F_NEXT 1);;
  mem_store_bytes (DESC 1) (desc_bytes (a_vdma L) dma_len (Z.lor (if type =? VIRTIO_BLK_T_IN then VRING_F_WRITE else 0) VRING_F_NEXT) 2);;
  mem_store_bytes (DESC 2) (desc_bytes (a_stat L) 1 VRING_F_WRITE 0);;
  mem_store_bytes (a_hdr L) (hdr_bytes type lba);;
  slot ← lift_option (if size =? 0 then None else Some (head mod size));
  mem_store_bytes (AVAIL_RING size slot) (le_bytes 2 0);;
  let head := u16 (head + 1) in
  mem_store_bytes (AVAIL_IDX size) (le_bytes 2 head);;
  port_word_out (u16 (vq_io_base st + VIO_QNOTIFY)) 0;;
  used_poll (Z.to_nat 10000000) last;;
  v ← vload USED_IDX 2;
  if v =? last then mret (-1, VbSt size head last (vq_io_base st) (vb_drives st) (vb_num st))
  else
    last ← vload USED_IDX 2;
    stat ← vload (a_stat L) 1;
    mret (if stat =? 0 then 0 else -1, VbSt size head last (vq_io_base st) (vb_drives st) (vb_num st)).

Definition vblk_init_one (bus slot func : Z) (st : vblk_st) : M W (Z * vblk_st) :=
  cmd ← pci_config_read_dword bus slot func 0x04;
  pci_config_write_dword bus slot func 0x04 (Z.lor cmd 0x05);;
  bar0 ← pci_config_read_dword bus slot func 0x10;
  if Z.land bar0 1 =? 0 then mret (-1, st)
  else
    let io := u16 (Z.land bar0 0xFFFC) in
    port_byte_out (u16 (io + VIO_STATUS)) 0;;
    port_byte_out (u16 (io + VIO_STATUS)) VIRTIO_ACK;;
    port_byte_out (u16 (io + VIO_STATUS)) (Z.lor VIRTIO_ACK VIRTIO_DRV);;
    port_dword_out (u16 (io + VIO_DRVFEAT)) 0;;
    port_word_out (u16 (io + VIO_QSEL)) 0;;
    size ← port_word_in (u16 (io + VIO_QSIZE));
    if (size =? 0) || (size >? VQ_MAXSIZE) then mret (-1, VbSt size (vq_avail_head st) (vq_used_last st) io (vb_drives st) (vb_num st))
    else
      mem_store_bytes (a_virtq L) (replicate (Z.to_nat VRING_SIZE) 0);;
      port_dword_out (u16 (io + VIO_QADDR)) (Z.shiftr (a_virtq L) 12);;
      port_byte_out (u16 (io + VIO_STATUS)) (Z.lor (Z.lor VIRTIO_ACK VIRTIO_DRV) VIRTIO_DRV_OK);;
      cap_lo ← port_dword_in (u16 (io + VIO_CFG));
      cap_hi ← port_dword_in (u16 (io + VIO_CFG + 4));
      mret (0, VbSt size 0 0 io (<[Z.to_nat (vb_num st) := VbDrive true (Z.lor (Z.shiftl cap_hi 32) cap_lo)]> (vb_drives st)) (vb_num st + 1)).

(** The scan: a fourth drive ends it for its slot only. *)
Fixpoint vblk_funcs (n : nat) (bus slot func : Z) (st : vblk_st) : M W vblk_st :=
  match n with
  | O => mret st
  | S n =>
    vendor ← pci_get_vendor bus slot func;
    if negb (vendor =? 0x1AF4) then vblk_funcs n bus slot (func + 1) st
    else
      id ← pci_config_read_dword bus slot func 0x00;
      if negb (u16 (Z.shiftr id 16) =? 0x1001) then vblk_funcs n bus slot (func + 1) st
      else
        subsys ← pci_config_read_dword bus slot func 0x2C;
        if negb (u16 (Z.shiftr subsys 16) =? 0x0002) then vblk_funcs n bus slot (func + 1) st
        else if vb_num st >=? MAX_VBLK then mret st
        else '(_, st) ← vblk_init_one bus slot func st; vblk_funcs n bus slot (func + 1) st
  end.
Fixpoint vblk_slots (n : nat) (bus slot : Z) (st : vblk_st) : M W vblk_st :=
  match n with
  | O => mret st
  | S n =>
    multi ← pci_is_multifunction bus slot;
    st ← vblk_funcs (if multi : bool then 8 else 1) bus slot 0 st;
    vblk_slots n bus (slot + 1) st
  end.
Fixpoint vblk_buses (n : nat) (bus : Z) (st : vblk_st) : M W vblk_st :=
  match n with O => mret st | S n => st ← vblk_slots 32 bus 0 st; vblk_buses n (bus + 1) st end.
Definition vblk_init (st : vblk_st) : M W (Z * vblk_st) :=
  st ← vblk_buses 256 0 st; mret (if vb_num st >? 0 then 0 else -1, st).

(** The return value and the memory at [buf]. *)
Definition vblk_read_sectors (drv lba count : Z) (buf : list Z) (st : vblk_st) : M W (Z * list Z * vblk_st) :=
  if (drv >=? u8 (vb_num st)) || (count =? 0) then mret (if negb (count =? 0) then -1 else 0, buf, st)
  else if count * 512 >? VQ_MAXSIZE * 512 then mret (-1, buf, st)
  else
    '(r, st) ← vblk_issue VIRTIO_BLK_T_IN lba (count * 512) st;
    if negb (r =? 0) then mret (-1, buf, st)
    else
      l ← mem_load_bytes (a_vdma L) (Z.to_nat (count * 512));
      buf ← lift_option (if Z.of_nat (length l) <=? Z.of_nat (length buf) then Some (splice buf 0 l) else None);
      mret (0, buf, st).
Definition vblk_write_sectors (drv lba count : Z) (buf : list Z) (st : vblk_st) : M W (Z * vblk_st) :=
  if (drv >=? u8 (vb_num st)) || (count =? 0) then mret (if negb (count =? 0) then -1 else 0, st)
  else if count * 512 >? VQ_MAXSIZE * 512 then mret (-1, st)
  else
    l ← lift_option (if count * 512 <=? Z.of_nat (length buf) then Some (slice buf 0 (count * 512)) else None);
    mem_store_bytes (a_vdma L) l;;
    vblk_issue VIRTIO_BLK_T_OUT lba (count * 512) st.

Definition vblk_get_drive (i : Z) (st : vblk_st) : option vblk_drive_t := if i <? u8 (vb_num st) then vb_drives st !! Z.to_nat i else None.
End Virtio.
