(* ===== verification/VirtioProofs.v ===== *)
(** * The virtio disk driver over a device that follows the standard

    A device with one drive behind the queue ([VirtioDevice]: how it fetches a
    chain of descriptors, moves the data and posts the used index); a request
    of the driver is such a chain, and [vblk_read_sectors] and
    [vblk_write_sectors] are the block device of Blk. *)

From S2P Require Import Prelude Hw Blk Sectors Virtio.

(** ** Requests as the device reads them *)

Record vreq := Vreq { v_type : Z; v_sector : Z; v_data : Z; v_len : Z; v_stat : Z }.

(** The request that the available ring shows when [u] requests are done: a
    header, a data buffer that the device writes exactly for a read, and a
    status byte. *)
Definition request_at {W} `{!Dma W} (w : W) (vq size u : Z) : option vreq :=
  let d i := mem_bytes w (vq + i * 16) 16 in
  let i0 := le_val (mem_bytes w (vq + size * 16 + 4 + (u mod size) * 2) 2) in
  let i1 := get16 (d i0) 14 in
  let i2 := get16 (d i1) 14 in
  let h := mem_bytes w (get64 (d i0) 0) 16 in
  let type := get32 h 0 in
  if (le_val (mem_bytes w (vq + size * 16 + 2) 2) =? (u + 1) mod 65536) && (i0 <? size) && (i1 <? size) && (i2 <? size) &&
     (get32 (d i0) 8 =? 16) && (get16 (d i0) 12 =? VRING_F_NEXT) &&
     (get16 (d i1) 12 =? if type =? VIRTIO_BLK_T_IN then Z.lor VRING_F_WRITE VRING_F_NEXT else VRING_F_NEXT) &&
     ((type =? VIRTIO_BLK_T_IN) || (type =? VIRTIO_BLK_T_OUT)) && (get32 (d i2) 8 =? 1) && (get16 (d i2) 12 =? VRING_F_WRITE)
  then Some (Vreq type (get64 h 8) (get64 (d i1) 0) (get32 (d i1) 8) (get64 (d i2) 0))
  else None.

Lemma desc_parse addr len flags next : 0 <= addr < 2 ^ 64 -> 0 <= len < 2 ^ 32 -> 0 <= flags < 65536 -> 0 <= next < 65536 ->
  let d := desc_bytes addr len flags next in
  length d = 16%nat /\ get64 d 0 = addr /\ get32 d 8 = len /\ get16 d 12 = flags /\ get16 d 14 = next.
Proof.
  intros Ha Hl Hf Hn d. split; [done|]. unfold get64, get32, get16. change (slice d 0 8) with (le_bytes 8 addr). change (slice d 8 4) with (le_bytes 4 len).
  change (slice d 12 2) with (le_bytes 2 flags). change (slice d 14 2) with (le_bytes 2 next). rewrite !le_val_bytes.
  change (256 ^ Z.of_nat 8) with (2 ^ 64). change (256 ^ Z.of_nat 4) with (2 ^ 32). change (256 ^ Z.of_nat 2) with 65536. by rewrite !Z.mod_small.
Qed.
Lemma hdr_parse type sector : 0 <= type < 2 ^ 32 -> 0 <= sector < 2 ^ 64 ->
  let h := hdr_bytes type sector in length h = 16%nat /\ get32 h 0 = type /\ get64 h 8 = sector.
Proof.
  intros Ht Hs h. split; [done|]. unfold get64, get32. change (slice h 0 4) with (le_bytes 4 type). change (slice h 8 8) with (le_bytes 8 sector).
  rewrite !le_val_bytes. change (256 ^ Z.of_nat 8) with (2 ^ 64). change (256 ^ Z.of_nat 4) with (2 ^ 32). by rewrite !Z.mod_small.
Qed.

(** ** The device *)

(** [u] requests done, modulo 2^16; or one more under way for at most [k] looks. *)
Inductive vq_state := VIdle (u : Z) | VBusy (k : nat) (u : Z) (c : vreq).
Class VirtioView (W : Type) := { vq_ctl : W -> vq_state; vq_disk : W -> blocks }.

Section Spec.
Context {W : Type} `{!Ports W, !Dma W, !VirtioView W}.

(** The end of a request that was given at [w0]. *)
Definition served (vq : Z) (bad : Z -> bool) (u : Z) (c : vreq) (w0 w : W) : Prop :=
  let n := Z.to_nat (v_len c / 512) in
  let good := all_good bad (v_sector c) n in
  vq_ctl w = VIdle ((u + 1) mod 65536) /\ le_val (mem_bytes w (vq + 4098) 2) = (u + 1) mod 65536 /\
  (if good then mem w (v_stat c) = 0 else 0 < mem w (v_stat c) < 256) /\
  (forall a, ~ in_range a (vq + 4096) 4096 -> a <> v_stat c -> (v_type c = VIRTIO_BLK_T_IN -> ~ in_range a (v_data c) (v_len c)) -> mem w a = mem w0 a) /\
  (v_type c = VIRTIO_BLK_T_IN -> vq_disk w = vq_disk w0 /\
     (good = true -> mem_bytes w (v_data c) (Z.to_nat (v_len c)) = blocks_at 512 (vq_disk w0) (v_sector c) n)) /\
  (v_type c = VIRTIO_BLK_T_OUT ->
     (good = true -> vq_disk w = put_blocks 512 (vq_disk w0) (v_sector c) n (mem_bytes w0 (v_data c) (Z.to_nat (v_len c)))) /\
     (forall x, ~ in_range x (v_sector c) (v_len c / 512) -> vq_disk w !! x = vq_disk w0 !! x)).

(** Whole sectors of the drive; the data and the status byte lie apart from
    each other and from the used ring. *)
Definition valid_req (vq nsect : Z) (c : vreq) : Prop :=
  v_len c mod 512 = 0 /\ 0 < v_len c /\ v_sector c + v_len c / 512 <= nsect /\ ~ in_range (v_stat c) (v_data c) (v_len c) /\
  ~ in_range (v_stat c) (vq + 4096) 4096 /\ (v_data c + v_len c <= vq + 4096 \/ vq + 8192 <= v_data c).

(** The device at the ports [io], its queue of [size] entries at [vq]. *)
Class VirtioDevice (io vq size nsect : Z) (bad : Z -> bool) := {
  vd_store w a l : vq_ctl (set_mem_at a l w) = vq_ctl w /\ vq_disk (set_mem_at a l w) = vq_disk w /\
    forall x, mem (set_mem_at a l w) x = default (mem w x) (if bool_decide (a <= x) then l !! Z.to_nat (x - a) else None);
  vd_notify w u c : vq_ctl w = VIdle u -> request_at w vq size u = Some c -> valid_req vq nsect c ->
    let w' := hw_out16 (io + VIO_QNOTIFY) 0 w in
    (exists k, (k < Z.to_nat 10000000)%nat /\ vq_ctl w' = VBusy k u c) /\ same_mem w w' /\ vq_disk w' = vq_disk w;
  vd_dma w k u c : vq_ctl w = VBusy k u c -> valid_req vq nsect c -> blocks_ok 512 (vq_disk w) ->
    (exists k', (k' < k)%nat /\ vq_ctl (dma w) = VBusy k' u c /\ same_mem w (dma w) /\ vq_disk (dma w) = vq_disk w) \/ served vq bad u c w (dma w);
  vd_idle w u : vq_ctl w = VIdle u -> vq_ctl (dma w) = VIdle u /\ same_mem w (dma w) /\ vq_disk (dma w) = vq_disk w;
}.

Lemma served_from vq bad u c w0 w1 w : same_mem w0 w1 -> vq_disk w1 = vq_disk w0 -> served vq bad u c w1 w -> served vq bad u c w0 w.
Proof using.
  intros Hm Hd (H1 & H2 & H3 & H4 & H5 & H6). rewrite Hd, (mem_bytes_ext w0 w1) in * by (intros; apply Hm).
  split; [done|]. split; [done|]. split; [done|]. split; [intros; rewrite H4 by done; apply Hm|]. done.
Qed.
End Spec.

(** ** One request *)

Section Device.
Context {W : Type} `{!Ports W, !Dma W, !VirtioView W} (L : vblk_mem) (io size nsect : Z) (bad : Z -> bool).
Context `{!VirtioDevice (W := W) io (a_virtq L) size nsect bad}.
Implicit Types (w : W) (st : vblk_st).

(** The arrays lie apart, and three descriptors fit in the table. *)
Definition vblk_layout_ok : Prop :=
  3 <= size <= 128 /\ 0 <= io /\ io + 0x20 <= 65536 /\ 0 <= a_virtq L /\
  0 <= a_hdr L < 2 ^ 64 /\ 0 <= a_stat L < 2 ^ 64 /\ 0 <= a_vdma L < 2 ^ 64 /\
  (a_virtq L + 8192 <= a_hdr L \/ a_hdr L + 16 <= a_virtq L) /\
  (a_virtq L + 8192 <= a_stat L \/ a_stat L + 1 <= a_virtq L) /\
  (a_virtq L + 8192 <= a_vdma L \/ a_vdma L + 65536 <= a_virtq L) /\
  (a_hdr L + 16 <= a_stat L \/ a_stat L + 1 <= a_hdr L) /\
  (a_hdr L + 16 <= a_vdma L \/ a_vdma L + 65536 <= a_hdr L) /\
  (a_stat L + 1 <= a_vdma L \/ a_vdma L + 65536 <= a_stat L).
Context (HL : vblk_layout_ok) (Hns : nsect <= 2 ^ 60).

(** Driver and device agree on the requests done. *)
Definition vq_ok (st : vblk_st) (w : W) : Prop :=
  vq_ctl w = VIdle (vq_avail_head st) /\ vq_used_last st = vq_avail_head st /\ 0 <= vq_avail_head st < 65536 /\
  le_val (mem_bytes w (a_virtq L + 4098) 2) = vq_avail_head st /\ vq_size st = size /\ vq_io_base st = io.

Lemma vq_store_ok a l w : mem_bytes (set_mem_at a l w) a (length l) = l /\
  (forall x, ~ in_range x a (Z.of_nat (length l)) -> mem (set_mem_at a l w) x = mem w x) /\
  vq_ctl (set_mem_at a l w) = vq_ctl w /\ vq_disk (set_mem_at a l w) = vq_disk w.
Proof using VirtioDevice0. destruct (vd_store w a l) as (Hc & Hd & Hm). destruct (store_bytes w a l Hm). by split_and!. Qed.

Lemma used_poll_ok c n k u w : vq_ctl w = VBusy k u c -> (k < n)%nat -> valid_req (a_virtq L) nsect c -> blocks_ok 512 (vq_disk w) ->
  0 <= u < 65536 -> le_val (mem_bytes w (a_virtq L + 4098) 2) = u ->
  exists w', used_poll L n u w = Some (tt, w') /\ served (a_virtq L) bad u c w w'.
Proof using VirtioDevice0.
  revert k w. induction n as [|n IH]; intros k w Hc Hk Hv Hok Hu Hm; [lia|]. cbn [used_poll].
  replace (USED_IDX L) with (a_virtq L + 4098) by (unfold USED_IDX; lia). rewrite (bind_eq _ _ _ _ _ (vload_eq _ _ _)).
  destruct (vd_dma w k u c Hc Hv Hok) as [(k' & Hk' & Hc' & Hs & Hd)|Hs].
  - rewrite (mem_bytes_ext w) by (intros; apply Hs). rewrite Hm, Z.eqb_refl. cbn [negb].
    destruct (IH k' (dma w) Hc' ltac:(lia) Hv ltac:(by rewrite Hd) Hu) as (w' & E & Hw'); [by rewrite (mem_bytes_ext w) by (intros; apply Hs)|].
    exists w'. split; [exact E|]. by eapply served_from.
  - destruct Hs as (H1 & H2 & H3). rewrite H2. destruct (Z.eqb_spec ((u + 1) mod 65536) u) as [E|E]; [exfalso; clear - E Hu; zlia|].
    exists (dma w). split; [done|]. by split.
Qed.

(** The six stores of [vblk_issue] make the request. *)
Definition vblk_req (type lba count : Z) : vreq := Vreq type lba (a_vdma L) (count * 512) (a_stat L).
Lemma request_stored type lba count u w :
  type = VIRTIO_BLK_T_IN \/ type = VIRTIO_BLK_T_OUT -> 0 <= lba < 2 ^ 64 -> 1 <= count <= 128 -> 0 <= u < 65536 ->
  mem_bytes w (DESC L 0) 16 = desc_bytes (a_hdr L) 16 VRING_F_NEXT 1 ->
  mem_bytes w (DESC L 1) 16 = desc_bytes (a_vdma L) (count * 512) (Z.lor (if type =? VIRTIO_BLK_T_IN then VRING_F_WRITE else 0) VRING_F_NEXT) 2 ->
  mem_bytes w (DESC L 2) 16 = desc_bytes (a_stat L) 1 VRING_F_WRITE 0 ->
  mem_bytes w (a_hdr L) 16 = hdr_bytes type lba ->
  mem_bytes w (AVAIL_RING L size (u mod size)) 2 = le_bytes 2 0 ->
  mem_bytes w (AVAIL_IDX L size) 2 = le_bytes 2 (u16 (u + 1)) ->
  request_at w (a_virtq L) size u = Some (vblk_req type lba count).
Proof using HL.
  intros Ht Hlba Hc Hu M0 M1 M2 Mh Mr Mi. pose proof HL as (L1 & _ & _ & L3 & L4 & L5 & L6 & _).
  unfold DESC, AVAIL_RING, AVAIL_IDX, AVAIL_BASE in *. unfold request_at.
  destruct (desc_parse (a_hdr L) 16 VRING_F_NEXT 1) as (_ & A0 & A1 & A2 & A3); [lia|lia|done|lia|].
  destruct (desc_parse (a_vdma L) (count * 512) (Z.lor (if type =? VIRTIO_BLK_T_IN then VRING_F_WRITE else 0) VRING_F_NEXT) 2) as (_ & B0 & B1 & B2 & B3);
    [lia|lia|by destruct Ht as [-> | ->]|lia|].
  destruct (desc_parse (a_stat L) 1 VRING_F_WRITE 0) as (_ & C0 & C1 & C2 & C3); [lia|lia|done|lia|].
  destruct (hdr_parse type lba ltac:(destruct Ht as [-> | ->]; done) ltac:(lia)) as (_ & H0 & H1).
  replace (a_virtq L + size * 16 + 4 + u mod size * 2) with (a_virtq L + size * 16 + 4 + (u mod size) * 2) by lia. rewrite Mr.
  change (le_val (le_bytes 2 0)) with 0. rewrite M0, A3, M1, B3, M2, A0, Mh, A1, A2, B0, B1, B2, C0, C1, C2, H0, H1, Mi, le_val_bytes.
  replace (u16 (u + 1) mod 256 ^ Z.of_nat 2) with ((u + 1) mod 65536) by (change (256 ^ Z.of_nat 2) with 65536; unfold u16; zlia).
  rewrite Z.eqb_refl, !(proj2 (Z.ltb_lt _ _)) by lia. by destruct Ht as [-> | ->].
Qed.

(** What a request leaves of drive and memory. *)
Definition moved (type lba count : Z) (w0 w : W) : Prop :=
  let n := Z.to_nat count in
  let good := all_good bad lba n in
  (type = VIRTIO_BLK_T_IN -> vq_disk w = vq_disk w0 /\
     (good = true -> mem_bytes w (a_vdma L) (Z.to_nat (count * 512)) = blocks_at 512 (vq_disk w0) lba n)) /\
  (type = VIRTIO_BLK_T_OUT ->
     (good = true -> vq_disk w = put_blocks 512 (vq_disk w0) lba n (mem_bytes w0 (a_vdma L) (Z.to_nat (count * 512)))) /\
     (forall x, ~ in_range x lba count -> vq_disk w !! x = vq_disk w0 !! x)).

Lemma vblk_issue_ok type lba count st w : type = VIRTIO_BLK_T_IN \/ type = VIRTIO_BLK_T_OUT ->
  vq_ok st w -> 0 <= lba -> lba + count <= nsect -> 1 <= count <= 128 -> blocks_ok 512 (vq_disk w) ->
  exists st' w', vblk_issue L type lba (count * 512) st w = Some (if all_good bad lba (Z.to_nat count) then 0 else -1, st', w') /\
    vq_ok st' w' /\ vb_drives st' = vb_drives st /\ vb_num st' = vb_num st /\ moved type lba count w w'.
Proof using VirtioDevice0 HL Hns.
  intros Ht (Hctl & Hlast & Hu & Hused & Hsize & Hio) Hlba Hend Hc Hok.
  pose proof HL as (L1 & L2 & L2' & L3 & L4 & L5 & L6 & L7 & L8 & L9 & L10 & L11 & L12).
  unfold vblk_issue. rewrite Hsize, Hlast, Hio. set (u := vq_avail_head st) in *.
  assert (Hmod : 0 <= u mod size < size) by (apply Z.mod_pos_bound; lia).
  assert (Hslot : 0 <= u mod size * 2 <= 254 /\ AVAIL_RING L size (u mod size) = a_virtq L + size * 16 + 4 + u mod size * 2) by (split; [lia|unfold AVAIL_RING, AVAIL_BASE; lia]).
  unfold mem_store_bytes.
  destruct (vq_store_ok (DESC L 0) (desc_bytes (a_hdr L) 16 VRING_F_NEXT 1) w) as (S1 & F1 & C1 & D1).
  set (w1 := set_mem_at (DESC L 0) _ w) in *. rewrite (bind_eq _ _ w tt w1) by done.
  destruct (vq_store_ok (DESC L 1) (desc_bytes (a_vdma L) (count * 512) (Z.lor (if type =? VIRTIO_BLK_T_IN then VRING_F_WRITE else 0) VRING_F_NEXT) 2) w1) as (S2 & F2 & C2 & D2).
  set (w2 := set_mem_at (DESC L 1) _ w1) in *. rewrite (bind_eq _ _ w1 tt w2) by done.
  destruct (vq_store_ok (DESC L 2) (desc_bytes (a_stat L) 1 VRING_F_WRITE 0) w2) as (S3 & F3 & C3 & D3).
  set (w3 := set_mem_at (DESC L 2) _ w2) in *. rewrite (bind_eq _ _ w2 tt w3) by done.
  destruct (vq_store_ok (a_hdr L) (hdr_bytes type lba) w3) as (S4 & F4 & C4 & D4).
  set (w4 := set_mem_at (a_hdr L) _ w3) in *. rewrite (bind_eq _ _ w3 tt w4) by done.
  destruct (Z.eqb_spec size 0) as [|_]; [lia|]. rewrite (bind_eq _ _ w4 (u mod size) w4) by done.
  destruct (vq_store_ok (AVAIL_RING L size (u mod size)) (le_bytes 2 0) w4) as (S5 & F5 & C5 & D5).
  set (w5 := set_mem_at (AVAIL_RING L size (u mod size)) _ w4) in *. rewrite (bind_eq _ _ w4 tt w5) by done.
  destruct (vq_store_ok (AVAIL_IDX L size) (le_bytes 2 (u16 (u + 1))) w5) as (S6 & F6 & C6 & D6).
  set (w6 := set_mem_at (AVAIL_IDX L size) _ w5) in *. rewrite (bind_eq _ _ w5 tt w6) by done.
  change (length (desc_bytes ?a ?b ?c ?d)) with 16%nat in *. change (length (hdr_bytes ?a ?b)) with 16%nat in *. rewrite !length_le_bytes in *.
  destruct Hslot as [Hslot1 Hslot2]. rewrite Hslot2 in F5.
  (* the rest of memory *)
  assert (Hm6 : forall x, ~ in_range x (a_virtq L) 4096 -> ~ in_range x (a_hdr L) 16 -> mem w6 x = mem w x).
  { intros x Hx1 Hx2. unfold in_range, AVAIL_IDX, AVAIL_BASE, DESC in *. rewrite F6, F5, F4, F3, F2, F1 by (unfold in_range; lia). done. }
  assert (Hreq : request_at w6 (a_virtq L) size u = Some (vblk_req type lba count)).
  { apply request_stored; try done; try lia; clear Hm6; unfold DESC, AVAIL_IDX, AVAIL_BASE in *.
    - rewrite (mem_bytes_ext w1); [exact S1|]. intros x Hx. rewrite F6, F5, F4, F3, F2 by (unfold in_range; lia). done.
    - rewrite (mem_bytes_ext w2); [exact S2|]. intros x Hx. rewrite F6, F5, F4, F3 by (unfold in_range; lia). done.
    - rewrite (mem_bytes_ext w3); [exact S3|]. intros x Hx. rewrite F6, F5, F4 by (unfold in_range; lia). done.
    - rewrite (mem_bytes_ext w4); [exact S4|]. intros x Hx. rewrite F6, F5 by (unfold in_range; lia). done.
    - rewrite (mem_bytes_ext w5); [exact S5|]. intros x Hx. rewrite F6 by (unfold in_range; lia). done. }
  assert (Hvalid : valid_req (a_virtq L) nsect (vblk_req type lba count)).
  { unfold valid_req, vblk_req; cbn [v_len v_sector v_data v_stat]. unfold in_range. rewrite Z.div_mul by lia. split_and!; [apply Z.mod_mul; lia|lia..]. }
  assert (Hctl6 : vq_ctl w6 = VIdle u) by congruence. assert (Hdisk6 : vq_disk w6 = vq_disk w) by congruence.
  destruct (vd_notify w6 u _ Hctl6 Hreq Hvalid) as ((k & Hk & C7) & M7 & D7).
  unfold port_word_out. rewrite (u16_id (io + VIO_QNOTIFY)) by (unfold VIO_QNOTIFY; word). rewrite (u16_id (io + VIO_QNOTIFY)) by (unfold VIO_QNOTIFY; word).
  change (u16 0) with 0. set (w7 := hw_out16 (io + VIO_QNOTIFY) 0 w6) in *. rewrite (bind_eq _ _ w6 tt w7) by done.
  assert (Hm7 : mem_bytes w7 (a_virtq L + 4098) 2 = mem_bytes w (a_virtq L + 4098) 2).
  { apply mem_bytes_ext. intros x Hx. rewrite M7. apply Hm6; unfold in_range; lia. }
  destruct (used_poll_ok _ (Z.to_nat 10000000) k u w7 C7 Hk Hvalid ltac:(by rewrite D7, Hdisk6) Hu ltac:(by rewrite Hm7)) as (w8 & E8 & Hs).
  rewrite (bind_eq _ _ _ _ _ E8). destruct Hs as (H1 & H2 & H3 & H4 & H5 & H6). cbn [vblk_req v_type v_sector v_data v_len v_stat] in *.
  rewrite Z.div_mul in * by lia. set (good := all_good bad lba (Z.to_nat count)) in *. replace (USED_IDX L) with (a_virtq L + 4098) by (unfold USED_IDX; lia).
  destruct (vd_idle w8 _ H1) as (C9 & M9 & D9). set (w9 := dma w8) in *.
  destruct (vd_idle w9 _ C9) as (C10 & M10 & D10). set (w10 := dma w9) in *.
  destruct (vd_idle w10 _ C10) as (C11 & M11 & D11). set (w11 := dma w10) in *.
  assert (Hme : forall a n, mem_bytes w9 a n = mem_bytes w8 a n /\ mem_bytes w10 a n = mem_bytes w8 a n /\ mem_bytes w11 a n = mem_bytes w8 a n).
  { intros a n. split_and!; apply mem_bytes_ext; intros; by rewrite ?M11, ?M10, ?M9. }
  rewrite (bind_eq _ _ _ _ _ (vload_eq _ _ _)). fold w9. rewrite (proj1 (Hme _ _)), H2.
  destruct (Z.eqb_spec ((u + 1) mod 65536) u) as [E|_]; [exfalso; clear - E Hu; zlia|].
  rewrite (bind_eq _ _ _ _ _ (vload_eq _ _ _)). fold w10. rewrite (proj1 (proj2 (Hme _ _))), H2.
  rewrite (bind_eq _ _ _ _ _ (vload_eq _ _ _)). fold w11. rewrite (proj2 (proj2 (Hme _ _))).
  replace (le_val (mem_bytes w8 (a_stat L) 1)) with (mem w8 (a_stat L)).
  2:{ change (mem_bytes w8 (a_stat L) 1) with [mem w8 (a_stat L + 0)]. rewrite Z.add_0_r. cbn [le_val]. lia. }
  exists (VbSt size (u16 (u + 1)) ((u + 1) mod 65536) io (vb_drives st) (vb_num st)), w11. split; [|split; [|split; [done|split; [done|]]]].
  - destruct good; [by rewrite H3|]. destruct (Z.eqb_spec (mem w8 (a_stat L)) 0); [lia|done].
  - unfold vq_ok. cbn [vq_avail_head vq_used_last vq_size vq_io_base]. replace (u16 (u + 1)) with ((u + 1) mod 65536) by done.
    split; [done|]. split; [done|]. split; [zlia|]. split; [|done]. by rewrite (proj2 (proj2 (Hme _ _))).
  - unfold moved. fold good. rewrite (proj2 (proj2 (Hme _ _))). replace (vq_disk w11) with (vq_disk w8) by congruence.
    replace (vq_disk w7) with (vq_disk w) in * by congruence. split; [exact H5|].
    rewrite (mem_bytes_ext w w7) in H6; [exact H6|]. intros x Hx. rewrite M7. apply Hm6; unfold in_range; lia.
Qed.
End Device.

(** ** The functions *)

(** Which drive is meant plays no part once it is one: all share the queue. *)
Lemma vblk_read_ignores_drive {W} `{!Ports W, !Dma W} (L : vblk_mem) drv drv' lba count buf st (w : W) :
  0 <= drv < u8 (vb_num st) -> 0 <= drv' < u8 (vb_num st) -> vblk_read_sectors L drv lba count buf st w = vblk_read_sectors L drv' lba count buf st w.
Proof. intros H H'. unfold vblk_read_sectors. destruct (Z.geb_spec drv (u8 (vb_num st))), (Z.geb_spec drv' (u8 (vb_num st))); first [lia|done]. Qed.

Definition vblk_ready {W} `{!Dma W, !VirtioView W} (L : vblk_mem) (io size nsect : Z) (st : vblk_st) (w : W) : Prop :=
  vblk_layout_ok L io size /\ nsect <= 2 ^ 60 /\ vq_ok L io size st w /\ blocks_ok 512 (vq_disk w).

Definition vblk_fault (bad : Z -> bool) (lba count : Z) : nat -> option nat := fun _ => if all_good bad lba (Z.to_nat count) then None else Some O.

Section Functions.
Context {W : Type} `{!Ports W, !Dma W, !VirtioView W} (L : vblk_mem) (io size nsect : Z) (bad : Z -> bool).
Context `{!VirtioDevice (W := W) io (a_virtq L) size nsect bad}.

Lemma vblk_read_refines_ok (idx lba count : Z) (buf : list Z) (st : vblk_st) (w : W) (dv : dev) :
  vblk_ready L io size nsect st w -> 0 <= idx < u8 (vb_num st) -> 1 <= count <= 128 -> 0 <= lba -> lba + count <= nsect ->
  512 * count <= Z.of_nat (length buf) -> nrep DrvVblk 512 (dv_sectors dv) idx (vq_disk w) ->
  exists r buf' st' w' res dv', vblk_read_sectors L idx lba count buf st w = Some (r, buf', st', w') /\
    vblk_ready L io size nsect st' w' /\ vb_drives st' = vb_drives st /\ vb_num st' = vb_num st /\ vq_disk w' = vq_disk w /\
    blk_read (vblk_fault bad lba count) DRIVE_TYPE_VBLK idx lba count dv = Some (res, dv') /\
    match res with
    | Some bytes => r = 0 /\ take (Z.to_nat (512 * count)) buf' = bytes /\ changed 0 (512 * count) buf buf'
    | None => r = -1 /\ buf' = buf
    end.
Proof using All.
  intros (HL & Hns & Hvq & Hok) Hidx Hc Hlba Hend Hbuf Hrep. unfold vblk_read_sectors.
  destruct (Z.geb_spec idx (u8 (vb_num st))); [lia|]. destruct (Z.eqb_spec count 0); [lia|]. cbn [orb].
  unfold VQ_MAXSIZE. destruct (Z.gtb_spec (count * 512) (128 * 512)); [lia|].
  destruct (vblk_issue_ok L io size nsect bad HL Hns VIRTIO_BLK_T_IN lba count st w ltac:(by left) Hvq Hlba Hend Hc Hok)
    as (st' & w' & E & Hvq' & Hd' & Hn' & Hmv & _).
  rewrite (bind_eq _ _ _ _ _ E). destruct (Hmv eq_refl) as [Hdisk Hdata]. pose proof (u8_range (vb_num st)) as Hnum.
  assert (Hready : vblk_ready L io size nsect st' w') by (split; [done|]; split; [done|]; split; [done|]; by rewrite Hdisk).
  assert (Eb : exists dv', blk_read (vblk_fault bad lba count) DRIVE_TYPE_VBLK idx lba count dv =
    Some (if all_good bad lba (Z.to_nat count) then Some (sectors_at dv DrvVblk idx lba (Z.to_nat count)) else None, dv')).
  { unfold blk_read, vblk_fault. cbn [get_dev]. rewrite !u8_id, u64_id by (unfold in_u8 in *; word). change (blk_driver DRIVE_TYPE_VBLK) with DrvVblk.
    destruct (Nat.eqb_spec (Z.to_nat count) 0); [lia|]. destruct (all_good _ _ _); by eexists. }
  destruct Eb as [dv' Eb]. destruct (all_good bad lba (Z.to_nat count)); cbn [Z.eqb negb].
  2:{ exists (-1), buf, st', w', None, dv'. split; [done|]. split; [exact Hready|]. split; [exact Hd'|]. split; [exact Hn'|]. split; [exact Hdisk|]. by split. }
  specialize (Hdata eq_refl). rewrite blocks_512, (nrep_sectors DrvVblk 512 (dv_sectors dv) (dv_tick dv) idx) in Hdata by done.
  replace (Dev (dv_sectors dv) (dv_tick dv)) with dv in Hdata by (by destruct dv). set (l := sectors_at _ _ _ _ _) in *.
  unfold mem_load_bytes. rewrite (bind_eq _ _ w' l w') by (unfold gets; by rewrite Hdata).
  assert (Hl : Z.of_nat (length l) = 512 * count) by (rewrite <- Hdata, length_mem_bytes; lia).
  rewrite (proj2 (Z.leb_le _ _)) by lia. eexists 0, _, st', w', (Some l), dv'. split; [done|]. split; [exact Hready|]. split; [exact Hd'|]. split; [exact Hn'|].
  split; [exact Hdisk|]. split; [exact Eb|]. split; [done|]. split.
  - pose proof (slice_splice_same buf 0 l ltac:(lia) ltac:(lia)) as Hs. rewrite Hl in Hs. unfold slice in Hs. by rewrite drop_0 in Hs.
  - replace (512 * count) with (0 + Z.of_nat (length l)) by lia. by apply changed_splice.
Qed.

(** Writing: the sectors that Blk leaves, or -1 exactly when one is bad; none
    outside the range changes. *)
Lemma vblk_write_correct (idx lba count : Z) (buf : list Z) (st : vblk_st) (w : W) (dv : dev) :
  vblk_ready L io size nsect st w -> 0 <= idx < u8 (vb_num st) -> 1 <= count <= 128 -> 0 <= lba -> lba + count <= nsect ->
  512 * count <= Z.of_nat (length buf) -> nrep DrvVblk 512 (dv_sectors dv) idx (vq_disk w) ->
  exists r st' w', vblk_write_sectors L idx lba count buf st w = Some (r, st', w') /\ vq_ok L io size st' w' /\
    (forall x, ~ in_range x lba count -> vq_disk w' !! x = vq_disk w !! x) /\
    if all_good bad lba (Z.to_nat count) then
      r = 0 /\ blocks_ok 512 (vq_disk w') /\
      exists dv', blk_write (fun _ => None) DRIVE_TYPE_VBLK idx lba count buf dv = Some (true, dv') /\ nrep DrvVblk 512 (dv_sectors dv') idx (vq_disk w')
    else r = -1.
Proof using All.
  intros (HL & Hns & Hvq & Hok) Hidx Hc Hlba Hend Hbuf Hrep. unfold vblk_write_sectors.
  destruct (Z.geb_spec idx (u8 (vb_num st))); [lia|]. destruct (Z.eqb_spec count 0); [lia|]. cbn [orb].
  unfold VQ_MAXSIZE. destruct (Z.gtb_spec (count * 512) (128 * 512)); [lia|].
  rewrite (proj2 (Z.leb_le _ _)) by lia. set (l := slice buf 0 (count * 512)).
  assert (Hl : length l = (512 * Z.to_nat count)%nat) by (unfold l, slice; rewrite drop_0, length_take; lia).
  rewrite (bind_eq _ _ w l w) by done. pose proof HL as (L1 & L2 & L2' & L3 & L4 & L5 & L6 & L7 & L8 & L9 & _).
  destruct (vq_store_ok L io size nsect bad (a_vdma L) l w) as (S1 & F1 & C1 & D1).
  unfold mem_store_bytes. set (w1 := set_mem_at (a_vdma L) l w) in *. rewrite (bind_eq _ _ w tt w1) by done.
  assert (Hvq1 : vq_ok L io size st w1).
  { destruct Hvq as (V1 & V2 & V3 & V4 & V5). split; [congruence|]. split; [done|]. split; [done|]. split; [|done].
    rewrite (mem_bytes_ext w w1); [done|]. intros x Hx. apply F1. unfold in_range. lia. }
  destruct (vblk_issue_ok L io size nsect bad HL Hns VIRTIO_BLK_T_OUT lba count st w1 ltac:(by right) Hvq1 Hlba Hend Hc ltac:(by rewrite D1))
    as (st' & w' & E & Hvq' & Hd' & Hn' & _ & Hmv).
  destruct (Hmv eq_refl) as [Hput Hout]. rewrite D1 in Hput, Hout. eexists _, st', w'. split; [exact E|]. split; [done|]. split; [exact Hout|].
  destruct (all_good bad lba (Z.to_nat count)); [|done]. specialize (Hput eq_refl). replace (Z.to_nat (count * 512)) with (length l) in Hput by lia. rewrite S1 in Hput.
  split; [done|]. split; [rewrite Hput; by apply put_blocks_frame|].
  exists (Dev (put_sectors (dv_sectors dv) DrvVblk idx lba (Z.to_nat count) buf) (S (dv_tick dv))). pose proof (u8_range (vb_num st)) as Hnum. split.
  - unfold blk_write. cbn [get_dev set_dev dev_has_dev]. rewrite !u8_id, u64_id by (unfold in_u8 in *; word).
    destruct (Nat.eqb_spec (Z.to_nat count) 0); [lia|]. done.
  - cbn [dv_sectors]. rewrite <- put_sectors_take. replace (take (512 * Z.to_nat count) buf) with l by (unfold l, slice; rewrite drop_0; f_equal; lia).
    rewrite Hput. by apply put_blocks_nrep.
Qed.
End Functions.

(** C34 (drivers/virtio_blk.c, [vblk_read_sectors], [vblk_issue]; [blk_read]):
    over a device that follows the standard and answers before the poll gives
    up (10,000,000 looks), with queues of 3 to 128 entries,
    reading at most 128 sectors returns 0 and the sectors that Blk's [blk_read] gives for the drive
    behind the queue, or -1 with the buffer unchanged exactly when one of them
    is bad; driver and device agree on the requests done afterwards, also where
    the 16-bit indices wrap. *)
Theorem vblk_read_refines {W} `{!Ports W, !Dma W, !VirtioView W} (L : vblk_mem) (io size nsect : Z) (bad : Z -> bool)
    `{!VirtioDevice (W := W) io (a_virtq L) size nsect bad} (idx lba count : Z) (buf : list Z) (st : vblk_st) (w : W) (dv : dev) :
  vblk_ready L io size nsect st w -> 0 <= idx < u8 (vb_num st) -> 1 <= count <= 128 -> 0 <= lba -> lba + count <= nsect ->
  512 * count <= Z.of_nat (length buf) -> nrep DrvVblk 512 (dv_sectors dv) idx (vq_disk w) ->
  exists r buf' st' w' res dv', vblk_read_sectors L idx lba count buf st w = Some (r, buf', st', w') /\
    vblk_ready L io size nsect st' w' /\ vb_drives st' = vb_drives st /\ vb_num st' = vb_num st /\ vq_disk w' = vq_disk w /\
    blk_read (vblk_fault bad lba count) DRIVE_TYPE_VBLK idx lba count dv = Some (res, dv') /\
    match res with
    | Some bytes => r = 0 /\ take (Z.to_nat (512 * count)) buf' = bytes /\ changed 0 (512 * count) buf buf'
    | None => r = -1 /\ buf' = buf
    end.
Proof. by eapply vblk_read_refines_ok. Qed.

(** ** A device to run the driver on *)

Module VirtioDemo.
Definition L : vblk_mem := VbMem 0x10000 0x20000 0x20010 0x30000.
Definition port : Z := 0xC000.
Definition sim_bad (b : Z) : bool := b =? 5.
Record sim := Sim { sm_ctl : vq_state; sm_disk : blocks; sm_mem : Z -> Z }.

(** The request [c] is served. *)
Definition serve (u : Z) (c : vreq) (w : sim) : sim :=
  let n := Z.to_nat (v_len c / 512) in
  let good := all_good sim_bad (v_sector c) n in
  let m := if good && (v_type c =? VIRTIO_BLK_T_IN) then store_at (v_data c) (blocks_at 512 (sm_disk w) (v_sector c) n) (sm_mem w) else sm_mem w in
  let m := store_at (v_stat c) [if good then 0 else 1] m in
  let m := store_at (a_virtq L + 4098) (le_bytes 2 ((u + 1) mod 65536)) m in
  Sim (VIdle ((u + 1) mod 65536))
    (if good && (v_type c =? VIRTIO_BLK_T_OUT)
     then put_blocks 512 (sm_disk w) (v_sector c) n (mem_at (sm_mem w) (v_data c) (Z.to_nat (v_len c))) else sm_disk w) m.
#[global] Instance sim_dma : Dma sim := {|
  mem := sm_mem;
  set_mem_at a l w := Sim (sm_ctl w) (sm_disk w) (store_at a l (sm_mem w));
  dma w := match sm_ctl w with
           | VIdle _ => w
           | VBusy (S k) u c => Sim (VBusy k u c) (sm_disk w) (sm_mem w)
           | VBusy O u c => serve u c w
           end;
|}.
#[global] Instance sim_ports : Ports sim := {|
  hw_in8 _ w := (0, w); hw_in16 _ w := (0, w); hw_in32 _ w := (0, w);
  hw_out8 _ _ w := w;
  hw_out16 a _ w :=
    if a =? port + VIO_QNOTIFY
    then match sm_ctl w with
         | VIdle u => match request_at w (a_virtq L) 128 u with Some c => Sim (VBusy 2 u c) (sm_disk w) (sm_mem w) | None => w end
         | _ => w
         end
    else w;
  hw_out32 _ _ w := w;
|}.
#[global] Instance sim_view : VirtioView sim := {| vq_ctl := sm_ctl; vq_disk := sm_disk |}.

Lemma serve_ok u c w : valid_req (a_virtq L) 16 c -> blocks_ok 512 (sm_disk w) -> served (a_virtq L) sim_bad u c w (serve u c w).
Proof.
  intros (V1 & V2 & V3 & V4 & V5 & V6) Hok. unfold served. set (n := Z.to_nat (v_len c / 512)). set (good := all_good sim_bad (v_sector c) n).
  assert (Hlen : length (blocks_at 512 (sm_disk w) (v_sector c) n) = Z.to_nat (v_len c)) by (rewrite length_blocks_at by done; unfold n; zlia).
  unfold serve. fold n good. cbv zeta.
  set (m1 := if good && (v_type c =? VIRTIO_BLK_T_IN) then _ else _). set (m2 := store_at (v_stat c) _ m1). unfold in_range in *.
  set (used := le_bytes 2 ((u + 1) mod 65536)). assert (Hused : Z.of_nat (length used) = 2) by done.
  split; [done|]. split; [|split; [|split; [|split]]].
  - change (mem_bytes _ (a_virtq L + 4098) 2) with (map (fun i => store_at (a_virtq L + 4098) used m2 (a_virtq L + 4098 + Z.of_nat i)) (seq 0 (length used))).
    rewrite store_at_bytes. unfold used. rewrite le_val_bytes. change (256 ^ Z.of_nat 2) with 65536. zlia.
  - cbn [mem sim_dma sm_mem]. rewrite store_at_out by (unfold in_range; lia). unfold m2.
    rewrite store_at_one. by destruct good.
  - intros a H1 H2 H3. cbn [mem sim_dma sm_mem]. rewrite store_at_out by (unfold in_range; lia). unfold m2. rewrite store_at_out by (unfold in_range; cbn [length]; lia).
    unfold m1. destruct good; [|done]. destruct (Z.eqb_spec (v_type c) VIRTIO_BLK_T_IN) as [E|E]; [|done]. cbn [andb]. apply store_at_out.
    specialize (H3 E). unfold in_range. lia.
  - intros Ht. cbn [vq_disk sim_view sm_disk]. rewrite Ht. split; [by destruct good|]. intros Hg. unfold m2, m1. rewrite Hg, Ht. cbn [andb].
    change (VIRTIO_BLK_T_IN =? VIRTIO_BLK_T_IN) with true. cbv iota. rewrite <- Hlen.
    etrans; [|apply (store_at_bytes (v_data c) (blocks_at 512 (sm_disk w) (v_sector c) n) (sm_mem w))].
    unfold mem_bytes. apply map_ext_in. intros k Hk. apply in_seq in Hk. cbn [mem sim_dma sm_mem].
    rewrite (store_at_out (a_virtq L + 4098)), (store_at_out (v_stat c)); [done|..]; unfold in_range; cbn [length]; lia.
  - intros Ht. cbn [vq_disk sim_view sm_disk]. rewrite Ht. split; [intros Hg; by rewrite Hg|]. intros x Hx. destruct good; [|done]. cbn [andb].
    change (VIRTIO_BLK_T_OUT =? VIRTIO_BLK_T_OUT) with true. cbv iota. apply put_blocks_frame; [done| |].
    + unfold mem_at. rewrite length_map, length_seq. unfold n. zlia.
    + unfold n, in_range. zlia.
Qed.

#[global] Instance sim_device : VirtioDevice (W := sim) port (a_virtq L) 128 16 sim_bad.
Proof.
  split.
  - done.
  - intros w u c Hc Hr _. cbn [hw_out16 sim_ports]. change (vq_ctl w) with (sm_ctl w) in Hc. rewrite Z.eqb_refl, Hc, Hr. split; [|done].
    exists 2%nat. split; [lia|done].
  - intros w k u c Hc Hv Hok. change (vq_ctl w) with (sm_ctl w) in Hc. cbn [dma sim_dma]. rewrite Hc. destruct k as [|k]; [right; by apply serve_ok|left].
    exists k. split; [lia|done].
  - intros w u Hc. change (vq_ctl w) with (sm_ctl w) in Hc. cbn [dma sim_dma]. by rewrite Hc.
Qed.

(** The indices are about to wrap. *)
Definition st0 : vblk_st := VbSt 128 65535 65535 port [VbDrive true 16] 1.
Definition sim0 : sim := Sim (VIdle 65535) {[ 3 := replicate 512 0x33 ]} (fun _ => 0xFF).
Definition dev0 : dev := Dev {[ (DrvVblk, 0, 3) := replicate 512 0x33 ]} 0.

Lemma vblk_disk0_ok : blocks_ok 512 (vq_disk sim0).
Proof.
  intros b. unfold block. change (vq_disk sim0) with ({[ 3 := replicate 512 0x33 ]} : blocks). destruct (decide (b = 3)) as [->|Hn]; [done|].
  by rewrite lookup_singleton_ne by done.
Qed.
Lemma vblk_ready0 : vblk_ready L port 128 16 st0 sim0.
Proof. split; [unfold vblk_layout_ok, L, port; cbn; lia|]. split; [lia|]. split; [by vm_compute|exact vblk_disk0_ok]. Qed.
Lemma vblk_dev0_rep : nrep DrvVblk 512 (dv_sectors dev0) 0 (vq_disk sim0).
Proof.
  intros b Hb. rewrite nsector_512 by apply vblk_disk0_ok. unfold block, dev0, dv_sectors. change (vq_disk sim0) with ({[ 3 := replicate 512 0x33 ]} : blocks).
  destruct (decide (b = 3)) as [->|Hn]; [done|]. by rewrite !lookup_singleton_ne by congruence.
Qed.
(** With queues of two entries the third descriptor is the available ring. *)
Example small_queue_ex : DESC L 2 = a_virtq L + AVAIL_BASE 2.
Proof. done. Qed.
End VirtioDemo.

Lemma vblk_read_refines_witness : exists buf' st' w',
  vblk_read_sectors VirtioDemo.L 0 2 3 (replicate 2000 0) VirtioDemo.st0 VirtioDemo.sim0 = Some (0, buf', st', w') /\
  take 1536 buf' = sectors_at VirtioDemo.dev0 DrvVblk 0 2 3 /\ vblk_ready VirtioDemo.L VirtioDemo.port 128 16 st' w'.
Proof.
  destruct (vblk_read_refines VirtioDemo.L VirtioDemo.port 128 16 VirtioDemo.sim_bad 0 2 3 (replicate 2000 0) VirtioDemo.st0 VirtioDemo.sim0 VirtioDemo.dev0
    VirtioDemo.vblk_ready0 ltac:(by vm_compute) ltac:(lia) ltac:(lia) ltac:(lia) ltac:(rewrite length_replicate; lia) VirtioDemo.vblk_dev0_rep)
    as (r & buf' & st' & w' & res & dv' & E & Hr & _ & _ & _ & Eb & H).
  assert (Er : fst <$> blk_read (vblk_fault VirtioDemo.sim_bad 2 3) DRIVE_TYPE_VBLK 0 2 3 VirtioDemo.dev0 = Some (Some (sectors_at VirtioDemo.dev0 DrvVblk 0 2 3)))
    by reflexivity.
  rewrite Eb in Er. injection Er as ->. destruct H as (-> & H & _). exists buf', st', w'. exact (conj E (conj H Hr)).
Defined.
