(* ===== verification/E1000.v ===== *)
(** * drivers/e1000.c: the Ethernet controller

    Two rings of 64 descriptors that driver and controller share, one buffer
    per receive descriptor and one for sending; the controller is the machine
    of Hw and the static arrays are at the addresses of an [e1000_mem]. The
    memory barriers are the places where the controller may have acted. The
    busy loop behind the reset and the line printed by [e1000_init] are left
    out. *)

From S2P Require Import Prelude Hw Pci.

Definition E1000_CTRL : Z := 0x0000.
Definition E1000_EERD : Z := 0x0014.
Definition E1000_IMC : Z := 0x00D8.
Definition E1000_RCTL : Z := 0x0100.
Definition E1000_TCTL : Z := 0x0400.
Definition E1000_TIPG : Z := 0x0410.
Definition E1000_RDBAL : Z := 0x2800.
Definition E1000_RDBAH : Z := 0x2804.
Definition E1000_RDLEN : Z := 0x2808.
Definition E1000_RDH : Z := 0x2810.
Definition E1000_RDT : Z := 0x2818.
Definition E1000_TDBAL : Z := 0x3800.
Definition E1000_TDBAH : Z := 0x3804.
Definition E1000_TDLEN : Z := 0x3808.
Definition E1000_TDH : Z := 0x3810.
Definition E1000_TDT : Z := 0x3818.
Definition E1000_RAL : Z := 0x5400.
Definition E1000_RAH : Z := 0x5404.
Definition E1000_MTA : Z := 0x5200.
Definition CTRL_SLU : Z := Z.shiftl 1 6.
Definition CTRL_RST : Z := Z.shiftl 1 26.
Definition RCTL_EN : Z := Z.shiftl 1 1.
Definition RCTL_BAM : Z := Z.shiftl 1 15.
Definition RCTL_SECRC : Z := Z.shiftl 1 26.
Definition TCTL_EN : Z := Z.shiftl 1 1.
Definition TCTL_PSP : Z := Z.shiftl 1 3.
Definition TX_CMD_EOP : Z := 0x01.
Definition TX_CMD_IFCS : Z := 0x02.
Definition TX_CMD_RS : Z := 0x08.
Definition DESC_DD : Z := 0x01.
Definition RX_RING_SIZE : Z := 64.
Definition TX_RING_SIZE : Z := 64.
Definition RX_BUF_SIZE : Z := 2048.

(** [rx_ring], [tx_ring], [rx_bufs], [tx_buf]. *)
Record e1000_mem := E1000Mem { a_rx_ring : Z; a_tx_ring : Z; a_rx_bufs : Z; a_tx_buf : Z }.
(** [bar0], [rx_cur], [tx_cur], and [net_mac]. *)
Record e1000_st := E1000St { en_bar0 : Z; en_rx_cur : Z; en_tx_cur : Z; en_mac : list Z }.

(** The bytes of a transmit descriptor. *)
Definition tx_desc (addr length cmd : Z) : list Z := le_bytes 8 addr ++ le_bytes 2 length ++ [0; cmd; 0; 0] ++ le_bytes 2 0.

Section E1000.
Context {W : Type} `{!Ports W, !Mmio W, !Dma W} (L : e1000_mem).

(** The rounds of a loop that waits for a bit of a register to be set or clear. *)
Fixpoint wait_bit (n : nat) (bar0 off bit : Z) (set : bool) : M W unit :=
  match n with
  | O => mret tt
  | S n => v ← rd32 (bar0 + off); if Bool.eqb (negb (Z.land v bit =? 0)) set then mret tt else wait_bit n bar0 off bit set
  end.
Definition eerd_read (bar0 addr : Z) : M W Z :=
  wr32 (bar0 + E1000_EERD) (Z.lor (Z.shiftl addr 8) 1);;
  wait_bit (Z.to_nat 2000000) bar0 E1000_EERD (Z.shiftl 1 4) true;;
  v ← rd32 (bar0 + E1000_EERD); mret (u16 (Z.shiftr v 16)).

Fixpoint clear_mta (n : nat) (bar0 i : Z) : M W unit :=
  match n with O => mret tt | S n => wr32 (bar0 + (E1000_MTA + i * 4)) 0;; clear_mta n bar0 (i + 1) end.
Fixpoint rx_setup (n : nat) (i : Z) : M W unit :=
  match n with
  | O => mret tt
  | S n =>
    mem_store_bytes (a_rx_ring L + 16 * i) (le_bytes 8 (a_rx_bufs L + RX_BUF_SIZE * i));;
    mem_store_bytes (a_rx_ring L + 16 * i + 12) [0];;
    rx_setup n (i + 1)
  end.
Fixpoint tx_setup (n : nat) (i : Z) : M W unit :=
  match n with
  | O => mret tt
  | S n =>
    mem_store_bytes (a_tx_ring L + 16 * i) (le_bytes 8 0);;
    mem_store_bytes (a_tx_ring L + 16 * i + 12) [DESC_DD];;
    tx_setup n (i + 1)
  end.

(** The address from the EEPROM, or else from the registers. *)
Definition read_mac (bar0 : Z) : M W (list Z) :=
  w0 ← eerd_read bar0 0;
  w1 ← eerd_read bar0 1;
  w2 ← eerd_read bar0 2;
  let mac := [u8 w0; u8 (Z.shiftr w0 8); u8 w1; u8 (Z.shiftr w1 8); u8 w2; u8 (Z.shiftr w2 8)] in
  if (get8 mac 0 =? 0) && (get8 mac 1 =? 0) && (get8 mac 2 =? 0) then
    ral ← rd32 (bar0 + E1000_RAL);
    rah ← rd32 (bar0 + E1000_RAH);
    mret [u8 ral; u8 (Z.shiftr ral 8); u8 (Z.shiftr ral 16); u8 (Z.shiftr ral 24); u8 rah; u8 (Z.shiftr rah 8)]
  else mret mac.

Definition e1000_init_one (bus slot func : Z) (st : e1000_st) : M W (Z * e1000_st) :=
  cmd ← pci_config_read_dword bus slot func 0x04;
  pci_config_write_dword bus slot func 0x04 (Z.lor cmd 0x06);;
  bar_raw ← pci_config_read_dword bus slot func 0x10;
  if negb (Z.land bar_raw 1 =? 0) then mret (-1, st)
  else
    bar_hi ← (if Z.land bar_raw 0x6 =? 0x4 then pci_config_read_dword bus slot func 0x14 else mret 0);
    let bar0 := Z.lor (Z.shiftl bar_hi 32) (Z.land bar_raw (not32 0xF)) in
    if bar0 =? 0 then mret (-1, E1000St 0 (en_rx_cur st) (en_tx_cur st) (en_mac st))
    else
      v ← rd32 (bar0 + E1000_CTRL);
      wr32 (bar0 + E1000_CTRL) (Z.lor v CTRL_RST);;
      wait_bit (Z.to_nat 1000000) bar0 E1000_CTRL CTRL_RST false;;
      wr32 (bar0 + E1000_IMC) 0xFFFFFFFF;;
      v ← rd32 (bar0 + E1000_CTRL);
      wr32 (bar0 + E1000_CTRL) (Z.lor v CTRL_SLU);;
      mac ← read_mac bar0;
      clear_mta 128 bar0 0;;
      rx_setup 64 0;;
      wr32 (bar0 + E1000_RDBAL) (a_rx_ring L);;
      wr32 (bar0 + E1000_RDBAH) (Z.shiftr (a_rx_ring L) 32);;
      wr32 (bar0 + E1000_RDLEN) (RX_RING_SIZE * 16);;
      wr32 (bar0 + E1000_RDH) 0;;
      wr32 (bar0 + E1000_RDT) (RX_RING_SIZE - 1);;
      wr32 (bar0 + E1000_RCTL) (Z.lor (Z.lor RCTL_EN RCTL_BAM) RCTL_SECRC);;
      tx_setup 64 0;;
      wr32 (bar0 + E1000_TDBAL) (a_tx_ring L);;
      wr32 (bar0 + E1000_TDBAH) (Z.shiftr (a_tx_ring L) 32);;
      wr32 (bar0 + E1000_TDLEN) (TX_RING_SIZE * 16);;
      wr32 (bar0 + E1000_TDH) 0;;
      wr32 (bar0 + E1000_TDT) 0;;
      wr32 (bar0 + E1000_TCTL) (Z.lor (Z.lor (Z.lor TCTL_EN TCTL_PSP) (Z.shiftl 0x0F 4)) (Z.shiftl 0x40 12));;
      wr32 (bar0 + E1000_TIPG) 0x00702008;;
      wr32 (bar0 + E1000_RAL)
        (Z.lor (Z.lor (get8 mac 0) (Z.shiftl (get8 mac 1) 8)) (Z.lor (Z.shiftl (get8 mac 2) 16) (Z.shiftl (get8 mac 3) 24)));;
      wr32 (bar0 + E1000_RAH) (Z.lor (Z.lor (get8 mac 4) (Z.shiftl (get8 mac 5) 8)) (Z.shiftl 1 31));;
      mret (0, E1000St bar0 0 0 mac).

Definition e1000_ids : list Z := [0x100E; 0x100F; 0x1000; 0x1001; 0x100C; 0x1010; 0x1012; 0x107C; 0x10D3].
(** The scan; it stops at the first controller that starts. *)
Fixpoint e1000_funcs (n : nat) (bus slot func : Z) (st : e1000_st) : M W (bool * e1000_st) :=
  match n with
  | O => mret (false, st)
  | S n =>
    vendor ← pci_get_vendor bus slot func;
    if negb (vendor =? 0x8086) then e1000_funcs n bus slot (func + 1) st
    else
      class ← pci_get_class_code bus slot func;
      if negb (class =? 0x02) then e1000_funcs n bus slot (func + 1) st
      else
        sub ← pci_get_subclass bus slot func;
        if negb (sub =? 0x00) then e1000_funcs n bus slot (func + 1) st
        else
          id ← pci_config_read_dword bus slot func 0;
          if negb (bool_decide (u16 (Z.shiftr id 16) ∈ e1000_ids)) then e1000_funcs n bus slot (func + 1) st
          else
            '(r, st) ← e1000_init_one bus slot func st;
            if r =? 0 then mret (true, st) else e1000_funcs n bus slot (func + 1) st
  end.
Fixpoint e1000_slots (n : nat) (bus slot : Z) (st : e1000_st) : M W (bool * e1000_st) :=
  match n with
  | O => mret (false, st)
  | S n =>
    multi ← pci_is_multifunction bus slot;
    '(found, st) ← e1000_funcs (if multi : bool then 8 else 1) bus slot 0 st;
    if found : bool then mret (true, st) else e1000_slots n bus (slot + 1) st
  end.
Fixpoint e1000_buses (n : nat) (bus : Z) (st : e1000_st) : M W (Z * e1000_st) :=
  match n with
  | O => mret (-1, st)
  | S n =>
    '(found, st) ← e1000_slots 32 bus 0 st;
    if found : bool then mret (0, st) else e1000_buses n (bus + 1) st
  end.
Definition e1000_init (st : e1000_st) : M W (Z * e1000_st) := e1000_buses 256 0 st.

(** The rest of the 2000000 looks at the descriptor just sent. *)
Fixpoint tx_poll (n : nat) (i : Z) : M W bool :=
  match n with
  | O => mret false
  | S n => v ← vload (a_tx_ring L + 16 * i + 12) 1; if negb (Z.land v DESC_DD =? 0) then mret true else tx_poll n i
  end.
(** [buf]: the memory from the frame on. *)
Definition e1000_send (buf : list Z) (len : Z) (st : e1000_st) : M W (Z * e1000_st) :=
  if (en_bar0 st =? 0) || (len >? 2048) then mret (-1, st)
  else
    frame ← lift_option (if len <=? Z.of_nat (length buf) then Some (slice buf 0 len) else None);
    mem_store_bytes (a_tx_buf L) frame;;
    mem_store_bytes (a_tx_ring L + 16 * en_tx_cur st) (tx_desc (a_tx_buf L) len (Z.lor (Z.lor TX_CMD_EOP TX_CMD_IFCS) TX_CMD_RS));;
    let next := (en_tx_cur st + 1) mod TX_RING_SIZE in
    wr32 (en_bar0 st + E1000_TDT) next;;
    ok ← tx_poll (Z.to_nat 2000000) (en_tx_cur st);
    mret (if ok : bool then (0, E1000St (en_bar0 st) (en_rx_cur st) next (en_mac st)) else (-1, st)).

(** The frame's length, 0 for none, and the memory at [buf]. *)
Definition e1000_recv (buf : list Z) (max_len : Z) (st : e1000_st) : M W (Z * list Z * e1000_st) :=
  if en_bar0 st =? 0 then mret (0, buf, st)
  else
    let desc := a_rx_ring L + 16 * en_rx_cur st in
    status ← vload (desc + 12) 1;
    if Z.land status DESC_DD =? 0 then mret (0, buf, st)
    else
      l ← mem_load_bytes (desc + 8) 2;
      let len := le_val l in
      let len := if len >? max_len then max_len else len in
      data ← mem_load_bytes (a_rx_bufs L + RX_BUF_SIZE * en_rx_cur st) (Z.to_nat len);
      buf ← lift_option (if len <=? Z.of_nat (length buf) then Some (splice buf 0 data) else None);
      mem_store_bytes (desc + 12) [0];;
      wr32 (en_bar0 st + E1000_RDT) (en_rx_cur st);;
      mret (len, buf, E1000St (en_bar0 st) ((en_rx_cur st + 1) mod RX_RING_SIZE) (en_tx_cur st) (en_mac st)).
End E1000.
