(* ===== verification/E1000Proofs.v ===== *)
(** * The Ethernet driver over a controller that follows its manual

    The receive ring as a queue of frames and the transmit ring as a wire:
    [ring_inv] relates the descriptors to the frames the controller has
    accepted, [E1000Device] is what the controller may do between two looks of
    the driver, and any interleaving of sending and receiving hands over the
    accepted frames in order, each once, and puts every frame on the wire. *)

From S2P Require Import Prelude Hw Sectors E1000.

(** ** The controller *)

(** The transmitter waits at descriptor [h], or sends it within [k] looks. *)
Inductive tx_state := TxIdle (h : Z) | TxBusy (k : nat) (h : Z).

(** The frames accepted since the start, the tail of the receive ring, the
    frames sent. *)
Class E1000View (W : Type) := {
  er_log : W -> list (list Z);
  er_tail : W -> Z;
  et_state : W -> tx_state;
  et_sent : W -> list (list Z);
}.

Section Spec.
Context {W : Type} `{!Mmio W, !Dma W, !E1000View W} (L : e1000_mem) (bar0 : Z).

(** The descriptor and the buffer of the [j]-th frame. *)
Definition slot (j : nat) : Z := Z.of_nat j mod 64.
Definition rx_desc_at (i : Z) : Z := a_rx_ring L + 16 * i.
Definition rx_buf_at (i : Z) : Z := a_rx_bufs L + 2048 * i.
Definition tx_desc_at (i : Z) : Z := a_tx_ring L + 16 * i.

Definition holds (w : W) (i : Z) (f : list Z) : Prop :=
  mem w (rx_desc_at i + 12) mod 2 = 1 /\ le_val (mem_bytes w (rx_desc_at i + 8) 2) = Z.of_nat (length f) /\ mem_bytes w (rx_buf_at i) (length f) = f.
Definition addresses_ok (w : W) : Prop := forall i, 0 <= i < 64 -> le_val (mem_bytes w (rx_desc_at i) 8) = rx_buf_at i.

(** The frame of a descriptor that asks for a report. *)
Definition tx_frame (w : W) (h : Z) : list Z :=
  mem_bytes w (le_val (mem_bytes w (tx_desc_at h) 8)) (Z.to_nat (le_val (mem_bytes w (tx_desc_at h + 8) 2))).
Definition same_view (w w' : W) : Prop := er_log w' = er_log w /\ er_tail w' = er_tail w /\ et_state w' = et_state w /\ et_sent w' = et_sent w.

(** Frames arrive in the descriptors between head and tail, in order; those
    that find no descriptor are lost and not in the log. *)
Class E1000Device := {
  ev_store w a l : same_view w (set_mem_at a l w) /\
    forall x, mem (set_mem_at a l w) x = default (mem w x) (if bool_decide (a <= x) then l !! Z.to_nat (x - a) else None);
  ev_rdt w v : 0 <= v < 64 -> let w' := hw_wr32 (bar0 + E1000_RDT) v w in
    er_log w' = er_log w /\ er_tail w' = v /\ et_state w' = et_state w /\ et_sent w' = et_sent w /\ same_mem w w';
  ev_tdt w h : et_state w = TxIdle h -> let w' := hw_wr32 (bar0 + E1000_TDT) ((h + 1) mod 64) w in
    er_log w' = er_log w /\ er_tail w' = er_tail w /\ (exists k, (k < Z.to_nat 2000000)%nat /\ et_state w' = TxBusy k h) /\
    et_sent w' = et_sent w /\ same_mem w w';
  ev_dma w : addresses_ok w -> (forall k h, et_state w = TxBusy k h -> 0 <= h < 64) -> let w' := dma w in
    er_tail w' = er_tail w /\
    (exists new, er_log w' = er_log w ++ new /\ Z.of_nat (length new) <= (er_tail w - slot (length (er_log w))) mod 64 /\
      (forall j f, new !! j = Some f -> (1 <= length f <= 2048)%nat /\ holds w' (slot (length (er_log w) + j)) f) /\
      (forall a, (forall j, (j < length new)%nat -> let i := slot (length (er_log w) + j) in ~ in_range a (rx_desc_at i + 8) 8 /\ ~ in_range a (rx_buf_at i) 2048) ->
        (forall k h, et_state w = TxBusy k h -> a <> tx_desc_at h + 12) -> mem w' a = mem w a)) /\
    match et_state w with
    | TxIdle h => et_state w' = TxIdle h /\ et_sent w' = et_sent w
    | TxBusy k h =>
      (exists k', (k' < k)%nat /\ et_state w' = TxBusy k' h /\ et_sent w' = et_sent w /\ mem w' (tx_desc_at h + 12) = mem w (tx_desc_at h + 12)) \/
      (et_state w' = TxIdle ((h + 1) mod 64) /\ mem w' (tx_desc_at h + 12) mod 2 = 1 /\
        (Z.land (mem w (tx_desc_at h + 11)) 9 = 9 -> et_sent w' = et_sent w ++ [tx_frame w h]))
    end;
}.

(** The arrays lie apart. *)
Definition rings_ok : Prop :=
  0 < bar0 /\ bar0 + 0x20000 <= 2 ^ 64 /\
  0 <= a_rx_ring L /\ 0 <= a_rx_bufs L /\ 0 <= a_tx_ring L /\ 0 <= a_tx_buf L < 2 ^ 64 /\
  (a_rx_ring L + 1024 <= a_rx_bufs L \/ a_rx_bufs L + 131072 <= a_rx_ring L) /\
  (a_rx_ring L + 1024 <= a_tx_ring L \/ a_tx_ring L + 1024 <= a_rx_ring L) /\
  (a_rx_ring L + 1024 <= a_tx_buf L \/ a_tx_buf L + 2048 <= a_rx_ring L) /\
  (a_rx_bufs L + 131072 <= a_tx_ring L \/ a_tx_ring L + 1024 <= a_rx_bufs L) /\
  (a_rx_bufs L + 131072 <= a_tx_buf L \/ a_tx_buf L + 2048 <= a_rx_bufs L) /\
  (a_tx_ring L + 1024 <= a_tx_buf L \/ a_tx_buf L + 2048 <= a_tx_ring L).

(** [R] frames are taken out: the ring holds the others of the log, and its
    other descriptors are empty. One descriptor is always the driver's. *)
Definition ring_inv (R : nat) (w : W) : Prop :=
  er_tail w = slot (R + 63) /\ (R <= length (er_log w) <= R + 63)%nat /\ addresses_ok w /\
  (forall j f, (R <= j)%nat -> er_log w !! j = Some f -> (1 <= length f <= 2048)%nat /\ holds w (slot j) f) /\
  (forall j, (length (er_log w) <= j < R + 64)%nat -> mem w (rx_desc_at (slot j) + 12) mod 2 = 0).
End Spec.

(** ** The rings *)

Section Rings.
Context {W : Type} `{!Ports W, !Mmio W, !Dma W, !E1000View W} (L : e1000_mem) (bar0 : Z).
Context `{!E1000Device (W := W) L bar0} (HL : rings_ok L bar0).
Implicit Types (w : W) (R : nat).

Lemma slot_range j : 0 <= slot j < 64.
Proof using. unfold slot. zlia. Qed.
Lemma slot_ne R i j : (R <= i < j)%nat -> (j < i + 64)%nat -> slot i <> slot j.
Proof using. unfold slot. intros. zlia. Qed.
Lemma slot_next R : (slot R + 1) mod 64 = slot (S R).
Proof using. unfold slot. zlia. Qed.
Lemma byte_odd w a : Z.land (le_val (mem_bytes w a 1)) 1 = mem w a mod 2.
Proof using. rewrite (land_ones_mod _ 1) by done. change (2 ^ 1) with 2. change (mem_bytes w a 1) with [mem w (a + 0)]. rewrite Z.add_0_r. cbn [le_val]. zlia. Qed.

Lemma holds_frame w w' i f : (length f <= 2048)%nat ->
  (forall a, in_range a (rx_desc_at L i + 8) 8 -> mem w' a = mem w a) -> (forall a, in_range a (rx_buf_at L i) 2048 -> mem w' a = mem w a) ->
  holds L w i f -> holds L w' i f.
Proof using.
  intros Hf Hd Hb (H1 & H2 & H3). unfold holds, in_range in *. split; [rewrite Hd by lia; done|].
  split; [rewrite (mem_bytes_ext w w') by (intros; apply Hd; lia); done|]. rewrite (mem_bytes_ext w w') by (intros; apply Hb; lia). done.
Qed.
Lemma addresses_frame w w' : (forall i a, 0 <= i < 64 -> in_range a (rx_desc_at L i) 8 -> mem w' a = mem w a) -> addresses_ok L w -> addresses_ok L w'.
Proof using. intros H Ha i Hi. rewrite (mem_bytes_ext w w') by (intros; apply (H i); [done|unfold in_range; lia]). by apply Ha. Qed.

(** Nothing outside the receive arrays matters. *)
Lemma ring_inv_frame R w w' : er_log w' = er_log w -> er_tail w' = er_tail w ->
  (forall a, in_range a (a_rx_ring L) 1024 \/ in_range a (a_rx_bufs L) 131072 -> mem w' a = mem w a) -> ring_inv L R w -> ring_inv L R w'.
Proof using.
  intros Hl Ht Hm (H1 & H2 & H3 & H4 & H5). unfold ring_inv. rewrite Hl, Ht. split; [done|]. split; [done|].
  assert (Hd : forall i a, 0 <= i < 64 -> in_range a (rx_desc_at L i) 16 -> mem w' a = mem w a)
    by (intros i a Hi Ha; apply Hm; left; unfold in_range, rx_desc_at in *; lia).
  split; [eapply addresses_frame; [|done]; intros i a Hi Ha; apply (Hd i); [done|unfold in_range in *; lia]|]. split.
  - intros j f Hj Hf. destruct (H4 j f Hj Hf) as [Hlen Hh]. split; [done|]. pose proof (slot_range j).
    eapply holds_frame; [lia| | |done]; intros a Ha; [apply (Hd (slot j)); [done|unfold in_range in *; lia]|].
    apply Hm. right. unfold in_range, rx_buf_at in *. lia.
  - intros j Hj. pose proof (slot_range j). rewrite (Hd (slot j)) by (first [done|unfold in_range; lia]). by apply H5.
Qed.

(** Whatever the controller does, the ring holds the accepted frames. *)
Lemma ring_inv_dma R w : ring_inv L R w -> (forall k h, et_state w = TxBusy k h -> 0 <= h < 64) ->
  ring_inv L R (dma w) /\ er_log w `prefix_of` er_log (dma w).
Proof using E1000Device0 HL.
  intros (H1 & H2 & H3 & H4 & H5) Htx. destruct (ev_dma L bar0 w H3 Htx) as (Ht & (new & Hlog & Hnew & Hin & Hm) & _).
  pose proof HL as (_ & _ & L1 & L2 & L3 & L4 & L5 & L6 & L7 & L8 & L9 & L10).
  set (A := length (er_log w)) in *. set (w' := dma w) in *.
  assert (Hn : (A + length new <= R + 63)%nat) by (rewrite H1 in Hnew; unfold slot in Hnew; zlia).
  assert (Hmem : forall a, (forall j, (A <= j < A + length new)%nat -> ~ in_range a (rx_desc_at L (slot j) + 8) 8 /\ ~ in_range a (rx_buf_at L (slot j)) 2048) ->
    in_range a (a_rx_ring L) 1024 \/ in_range a (a_rx_bufs L) 131072 -> mem w' a = mem w a).
  { intros a Ha Hr. apply Hm.
    - intros j Hj. apply Ha. lia.
    - intros k h Hk. specialize (Htx k h Hk). unfold in_range, tx_desc_at in *. lia. }
  (* a slot of no new frame is as it was *)
  assert (Hold : forall j, (R <= j < R + 64)%nat -> (j < A \/ A + length new <= j)%nat ->
    (forall a, in_range a (rx_desc_at L (slot j) + 8) 8 -> mem w' a = mem w a) /\ (forall a, in_range a (rx_buf_at L (slot j)) 2048 -> mem w' a = mem w a)).
  { intros j Hj Hout. pose proof (slot_range j) as Hs. split; intros a Ha; apply Hmem.
    1,3: intros i Hi; pose proof (slot_range i); assert (slot i <> slot j) by (destruct (Nat.lt_ge_cases i j); [apply (slot_ne R); lia|apply not_eq_sym, (slot_ne R); lia]);
      unfold in_range, rx_desc_at, rx_buf_at in *; lia.
    all: unfold in_range, rx_desc_at, rx_buf_at in *; lia. }
  split; [|rewrite Hlog; by exists new]. unfold ring_inv. rewrite Hlog, length_app, Ht. fold A. split; [done|]. split; [lia|]. split; [|split].
  - eapply addresses_frame; [|done]. intros i a Hi Ha. apply Hmem; [|left; unfold in_range, rx_desc_at in *; lia].
    intros j _. pose proof (slot_range j). unfold in_range, rx_desc_at, rx_buf_at in *. lia.
  - intros j f Hj Hf. destruct (Nat.lt_ge_cases j A) as [HjA|HjA].
    + rewrite lookup_app_l in Hf by done. destruct (H4 j f Hj Hf) as [Hlen Hh]. split; [done|].
      destruct (Hold j ltac:(lia) ltac:(by left)) as [Hd Hb]. eapply holds_frame; [lia|done|done|done].
    + rewrite lookup_app_r in Hf by done. destruct (Hin _ _ Hf) as [Hlen Hh]. fold A in Hf. split; [done|]. fold A in Hh. by replace (A + (j - A))%nat with j in Hh by lia.
  - intros j Hj. destruct (Hold j ltac:(lia) ltac:(by right; lia)) as [Hd _]. rewrite Hd by (unfold in_range; lia). apply H5. lia.
Qed.

(** The controller writes nowhere else. *)
Lemma dma_outside R w a : ring_inv L R w -> (forall k h, et_state w = TxBusy k h -> 0 <= h < 64 /\ a <> tx_desc_at L h + 12) ->
  ~ in_range a (a_rx_ring L) 1024 -> ~ in_range a (a_rx_bufs L) 131072 -> mem (dma w) a = mem w a.
Proof using E1000Device0.
  intros (_ & _ & H3 & _) Htx H1 H2. destruct (ev_dma L bar0 w H3) as (_ & (new & _ & _ & _ & Hm) & _); [by apply Htx|]. apply Hm; [|by apply Htx].
  intros j _. pose proof (slot_range (length (er_log w) + j)). unfold in_range, rx_desc_at, rx_buf_at in *. lia.
Qed.

Lemma nic_store_ok a l w : same_view w (set_mem_at a l w) /\ mem_bytes (set_mem_at a l w) a (length l) = l /\
  (forall x, ~ in_range x a (Z.of_nat (length l)) -> mem (set_mem_at a l w) x = mem w x).
Proof using E1000Device0. destruct (ev_store L bar0 w a l) as [Hv Hm]. destruct (store_bytes w a l Hm). by split_and!. Qed.

(** Driver and controller between two calls. *)
Definition nic_ok (R : nat) (st : e1000_st) (w : W) : Prop :=
  en_bar0 st = bar0 /\ en_rx_cur st = slot R /\ 0 <= en_tx_cur st < 64 /\ et_state w = TxIdle (en_tx_cur st) /\ ring_inv L R w.

(** ** Receiving *)

Lemma idle_not_busy w h : et_state w = TxIdle h -> forall k h', et_state w = TxBusy k h' -> 0 <= h' < 64.
Proof using. congruence. Qed.

(** The frame leaves the ring. *)
Lemma ring_inv_take R w f w1 w2 : ring_inv L R w -> er_log w !! R = Some f ->
  same_view w w1 -> mem w1 (rx_desc_at L (slot R) + 12) = 0 -> (forall x, x <> rx_desc_at L (slot R) + 12 -> mem w1 x = mem w x) ->
  er_log w2 = er_log w1 -> er_tail w2 = slot R -> same_mem w1 w2 -> ring_inv L (S R) w2.
Proof using HL.
  intros (H1 & H2 & H3 & H4 & H5) Hf (V1 & V2 & V3 & V4) Hz Hm Hl Ht Hs. pose proof HL as (_ & _ & L1 & L2 & L3 & L4 & L5 & _).
  assert (HR : (R < length (er_log w))%nat) by (by apply lookup_lt_is_Some_1; eexists). pose proof (slot_range R) as HsR.
  assert (Hm2 : forall x, x <> rx_desc_at L (slot R) + 12 -> mem w2 x = mem w x) by (intros; rewrite Hs; auto).
  unfold ring_inv. rewrite Hl, V1, Ht. split; [unfold slot; zlia|]. split; [lia|]. split; [|split].
  - eapply addresses_frame; [|done]. intros i a Hi Ha. apply Hm2. unfold in_range, rx_desc_at in *. lia.
  - intros j g Hj Hg. destruct (H4 j g ltac:(lia) Hg) as [Hlen Hh]. split; [done|]. pose proof (slot_range j) as Hsj.
    assert (Hjl : (j < length (er_log w))%nat) by (by apply lookup_lt_is_Some_1; eexists). pose proof (slot_ne R R j ltac:(lia) ltac:(lia)) as Hne.
    destruct Hh as (G1 & G2 & G3). unfold holds. rewrite Hm2 by (unfold rx_desc_at; lia). split; [done|].
    rewrite !(mem_bytes_ext w w2) by (intros; apply Hm2; unfold rx_desc_at, rx_buf_at in *; lia). done.
  - intros j Hj. destruct (decide (j = R + 64)%nat) as [->|Hn].
    + replace (slot (R + 64)) with (slot R) by (unfold slot; zlia). by rewrite Hs, Hz.
    + pose proof (slot_ne R R j ltac:(lia) ltac:(lia)). pose proof (slot_range j). rewrite Hm2 by (unfold rx_desc_at; lia). apply H5. lia.
Qed.

Lemma e1000_recv_ok R st w buf max : nic_ok R st w -> 0 <= max <= Z.of_nat (length buf) ->
  exists w', er_log w `prefix_of` er_log w' /\ et_sent w' = et_sent w /\
    ((length (er_log w') = R /\ e1000_recv L buf max st w = Some (0, buf, st, w') /\ nic_ok R st w') \/
     exists f st', er_log w' !! R = Some f /\ (1 <= length f)%nat /\ nic_ok (S R) st' w' /\
       let n := Z.min (Z.of_nat (length f)) max in e1000_recv L buf max st w = Some (n, splice buf 0 (take (Z.to_nat n) f), st', w')).
Proof using E1000Device0 HL.
  intros (Hb & Hcur & Htx & Hidle & Hinv) Hmax. pose proof HL as (B1 & B2 & L1 & L2 & L3 & L4 & L5 & _).
  destruct (ring_inv_dma R w Hinv (idle_not_busy w _ Hidle)) as [Hinv1 Hpre].
  pose proof Hinv as (_ & _ & Haddr & _). destruct (ev_dma L bar0 w Haddr (idle_not_busy w _ Hidle)) as (_ & _ & Hst). rewrite Hidle in Hst. destruct Hst as [Hidle1 Hsent1].
  set (w1 := dma w) in *. pose proof Hinv1 as (I1 & I2 & I3 & I4 & I5).
  unfold e1000_recv. rewrite Hb, Hcur. destruct (Z.eqb_spec bar0 0) as [|_]; [lia|]. fold (rx_desc_at L (slot R)).
  rewrite (bind_eq _ _ _ _ _ (vload_eq _ _ _)). fold w1. unfold DESC_DD. rewrite byte_odd. destruct (er_log w1 !! R) as [f|] eqn:Ef.
  2:{ apply lookup_ge_None_1 in Ef. rewrite (I5 R) by lia. exists w1. split; [done|]. split; [done|]. left. split; [lia|]. split; [done|].
    exact (conj Hb (conj Hcur (conj Htx (conj Hidle1 Hinv1)))). }
  destruct (I4 R f (Nat.le_refl R) Ef) as [Hlen (G1 & G2 & G3)]. rewrite G1. cbn [Z.eqb].
  unfold mem_load_bytes. rewrite (bind_eq _ _ w1 (mem_bytes w1 (rx_desc_at L (slot R) + 8) 2) w1) by done. rewrite G2.
  set (n := Z.min (Z.of_nat (length f)) max). replace (if Z.of_nat (length f) >? max then max else Z.of_nat (length f)) with n
    by (unfold n; destruct (Z.gtb_spec (Z.of_nat (length f)) max); lia).
  rewrite (bind_eq _ _ w1 (take (Z.to_nat n) f) w1).
  2:{ unfold gets. do 2 f_equal. unfold RX_BUF_SIZE. fold (rx_buf_at L (slot R)).
      transitivity (take (Z.to_nat n) (mem_bytes w1 (rx_buf_at L (slot R)) (length f))); [|by rewrite G3].
      pose proof (slice_mem_bytes w1 (rx_buf_at L (slot R)) (length f) 0 n) as Hs. unfold slice in Hs. rewrite drop_0, Z.add_0_r in Hs.
      symmetry. apply Hs; lia. }
  rewrite (proj2 (Z.leb_le _ _)) by lia. rewrite (bind_eq _ _ w1 (splice buf 0 (take (Z.to_nat n) f)) w1) by done.
  destruct (nic_store_ok (rx_desc_at L (slot R) + 12) [0] w1) as (V & S1 & S2). unfold mem_store_bytes.
  set (w2 := set_mem_at (rx_desc_at L (slot R) + 12) [0] w1) in *. rewrite (bind_eq _ _ w1 tt w2) by done.
  pose proof (slot_range R) as Hs. destruct (ev_rdt L bar0 w2 (slot R) Hs) as (D1 & D2 & D3 & D4 & D5).
  unfold wr32. rewrite (u64_id (bar0 + E1000_RDT)), (u32_id (slot R)) by (unfold E1000_RDT; word).
  set (w3 := hw_wr32 (bar0 + E1000_RDT) (slot R) w2) in *. rewrite (bind_eq _ _ w2 tt w3) by done.
  pose proof V as (V1 & V2 & V3 & V4). exists w3. rewrite D1, V1. split; [done|]. split; [congruence|]. right. exists f. eexists. split; [exact Ef|]. split; [lia|].
  split; [|reflexivity]. unfold nic_ok. cbn [en_bar0 en_rx_cur en_tx_cur]. split; [done|]. split; [apply slot_next|]. split; [done|]. split; [congruence|].
  eapply (ring_inv_take R w1 f w2 w3); [done|done|done| | |done|done|done].
  - change (length [0]) with 1%nat in S1. change (mem_bytes w2 (rx_desc_at L (slot R) + 12) 1) with [mem w2 (rx_desc_at L (slot R) + 12 + 0)] in S1.
    rewrite Z.add_0_r in S1. congruence.
  - intros x Hx. apply S2. unfold in_range. cbn [length]. lia.
Qed.

(** ** Sending *)

Lemma tx_poll_ok R f n k h w : et_state w = TxBusy k h -> 0 <= h < 64 -> (k < n)%nat -> ring_inv L R w ->
  mem w (tx_desc_at L h + 12) = 0 -> mem w (tx_desc_at L h + 11) = 0x0B -> le_val (mem_bytes w (tx_desc_at L h) 8) = a_tx_buf L ->
  le_val (mem_bytes w (tx_desc_at L h + 8) 2) = Z.of_nat (length f) -> (length f <= 2048)%nat -> mem_bytes w (a_tx_buf L) (length f) = f ->
  exists w', tx_poll L n h w = Some (true, w') /\ et_state w' = TxIdle ((h + 1) mod 64) /\ et_sent w' = et_sent w ++ [f] /\
    ring_inv L R w' /\ er_log w `prefix_of` er_log w'.
Proof using E1000Device0 HL.
  revert k w. induction n as [|n IH]; intros k w Hst Hh Hk Hinv Hz Hcmd Haddr Hlen Hf Hbuf; [lia|]. cbn [tx_poll]. fold (tx_desc_at L h).
  pose proof HL as (_ & _ & L1 & L2 & L3 & L4 & L5 & L6 & L7 & L8 & L9 & L10).
  assert (Hbusy : forall k' h', et_state w = TxBusy k' h' -> 0 <= h' < 64) by (intros k' h' E; congruence).
  destruct (ring_inv_dma R w Hinv Hbusy) as [Hinv1 Hpre].
  assert (Hout : forall a, a <> tx_desc_at L h + 12 -> in_range a (tx_desc_at L h) 16 \/ in_range a (a_tx_buf L) 2048 -> mem (dma w) a = mem w a).
  { intros a Ha Hr. apply (dma_outside R w a Hinv); [intros k' h' E; rewrite Hst in E; injection E as <- <-; by split|..];
      unfold in_range, tx_desc_at in *; lia. }
  pose proof Hinv as (_ & _ & Hadr & _). destruct (ev_dma L bar0 w Hadr Hbusy) as (_ & _ & Hstep). rewrite Hst in Hstep.
  rewrite (bind_eq _ _ _ _ _ (vload_eq _ _ _)). unfold DESC_DD. rewrite byte_odd. destruct Hstep as [(k' & Hk' & Hst' & Hsent & Hm)|(Hst' & Hm & Hsent)].
  - rewrite Hm, Hz. change (0 mod 2) with 0. cbn [Z.eqb negb].
    destruct (IH k' (dma w) Hst' Hh ltac:(lia) Hinv1) as (w' & E & E1 & E2 & E3 & E4); [congruence|..|].
    + rewrite Hout; [done|lia|left; unfold in_range; lia].
    + rewrite (mem_bytes_ext w) by (intros; apply Hout; [lia|left; unfold in_range; lia]). done.
    + rewrite (mem_bytes_ext w) by (intros; apply Hout; [lia|left; unfold in_range; lia]). done.
    + done.
    + rewrite (mem_bytes_ext w); [done|]. intros x Hx. apply Hout; [unfold tx_desc_at in *; lia|right; unfold in_range; lia].
    + exists w'. split; [exact E|]. split; [done|]. split; [congruence|]. split; [done|]. by etrans.
  - rewrite Hm. cbn [Z.eqb negb]. exists (dma w). split; [done|]. split; [done|]. split; [|done].
    rewrite Hsent by (by rewrite Hcmd). unfold tx_frame. by rewrite Haddr, Hlen, Nat2Z.id, Hbuf.
Qed.

Lemma tx_desc_parse addr len cmd : 0 <= addr < 2 ^ 64 -> 0 <= len < 65536 -> let d := tx_desc addr len cmd in
  length d = 16%nat /\ le_val (slice d 0 8) = addr /\ le_val (slice d 8 2) = len /\ slice d 11 1 = [cmd] /\ slice d 12 1 = [0].
Proof using.
  intros Ha Hl d. split; [done|]. split; [|split; [|done]].
  - change (slice d 0 8) with (le_bytes 8 addr). rewrite le_val_bytes. change (256 ^ Z.of_nat 8) with (2 ^ 64). zlia.
  - change (slice d 8 2) with (le_bytes 2 len). rewrite le_val_bytes. change (256 ^ Z.of_nat 2) with 65536. zlia.
Qed.
Lemma one_byte w a v : mem_bytes w a 1 = [v] -> mem w a = v.
Proof using. change (mem_bytes w a 1) with [mem w (a + 0)]. rewrite Z.add_0_r. congruence. Qed.

Lemma e1000_send_ok R st w buf len : nic_ok R st w -> 0 <= len <= 2048 -> len <= Z.of_nat (length buf) ->
  exists st' w', e1000_send L buf len st w = Some (0, st', w') /\ nic_ok R st' w' /\ er_log w `prefix_of` er_log w' /\
    et_sent w' = et_sent w ++ [slice buf 0 len].
Proof using E1000Device0 HL.
  intros (Hb & Hcur & Htx & Hidle & Hinv) Hlen Hbuf. pose proof HL as (B1 & B2 & L1 & L2 & L3 & L4 & L5 & L6 & L7 & L8 & L9 & L10).
  unfold e1000_send. rewrite Hb. destruct (Z.eqb_spec bar0 0) as [|_]; [lia|]. destruct (Z.gtb_spec len 2048); [lia|]. cbn [orb].
  rewrite (proj2 (Z.leb_le _ _)) by lia. set (f := slice buf 0 len). assert (Hf : Z.of_nat (length f) = len) by (unfold f; rewrite slice_length by lia; lia).
  rewrite (bind_eq _ _ w f w) by done. set (h := en_tx_cur st) in *. unfold mem_store_bytes.
  destruct (nic_store_ok (a_tx_buf L) f w) as ((V1 & V2 & V3 & V4) & S1 & S2). set (w1 := set_mem_at (a_tx_buf L) f w) in *.
  rewrite (bind_eq _ _ w tt w1) by done. fold (tx_desc_at L h). set (cmd := Z.lor (Z.lor TX_CMD_EOP TX_CMD_IFCS) TX_CMD_RS).
  destruct (tx_desc_parse (a_tx_buf L) len cmd ltac:(lia) ltac:(lia)) as (P0 & P1 & P2 & P3 & P4). set (d := tx_desc (a_tx_buf L) len cmd) in *.
  destruct (nic_store_ok (tx_desc_at L h) d w1) as ((U1 & U2 & U3 & U4) & T1 & T2). set (w2 := set_mem_at (tx_desc_at L h) d w1) in *.
  rewrite (bind_eq _ _ w1 tt w2) by done. rewrite P0 in T1, T2. unfold TX_RING_SIZE. set (next := (h + 1) mod 64).
  assert (Hnext : 0 <= next < 64) by (unfold next; zlia).
  unfold wr32. rewrite (u64_id (bar0 + E1000_TDT)), (u32_id next) by (unfold E1000_TDT; word).
  assert (Hidle2 : et_state w2 = TxIdle h) by congruence.
  destruct (ev_tdt L bar0 w2 h Hidle2) as (D1 & D2 & (k & Hk & D3) & D4 & D5). fold next in D1, D2, D3, D4, D5.
  set (w3 := hw_wr32 (bar0 + E1000_TDT) next w2) in *. rewrite (bind_eq _ _ w2 tt w3) by done.
  assert (Hd : forall off m, 0 <= off -> 0 <= m -> off + m <= 16 -> mem_bytes w3 (tx_desc_at L h + off) (Z.to_nat m) = slice d off m).
  { intros off m Ho Hm Hle. rewrite (mem_bytes_ext w2 w3) by (intros; apply D5). rewrite <- T1, slice_mem_bytes by lia. done. }
  assert (Hinv3 : ring_inv L R w3).
  { apply (ring_inv_frame R w); [congruence|congruence| |done]. intros a Ha. rewrite D5, T2, S2; [done|..]; unfold in_range, tx_desc_at in *; lia. }
  destruct (tx_poll_ok R f (Z.to_nat 2000000) k h w3 D3 Htx Hk Hinv3) as (w4 & E & E1 & E2 & E3 & E4).
  - apply one_byte. rewrite <- P4. apply (Hd 12 1); lia.
  - apply one_byte. change 0x0B with cmd. rewrite <- P3. apply (Hd 11 1); lia.
  - rewrite <- P1. f_equal. rewrite <- (Hd 0 8) by lia. by rewrite Z.add_0_r.
  - rewrite Hf, <- P2. f_equal. apply (Hd 8 2); lia.
  - lia.
  - rewrite (mem_bytes_ext w1 w3); [exact S1|]. intros x Hx. rewrite D5, T2; [done|]. unfold in_range, tx_desc_at. lia.
  - rewrite (bind_eq _ _ _ _ _ E). eexists _, w4. split; [done|]. split; [|split; [|congruence]].
    + unfold nic_ok. cbn [en_bar0 en_rx_cur en_tx_cur]. exact (conj eq_refl (conj Hcur (conj Hnext (conj E1 E3)))).
    + etrans; [|exact E4]. by rewrite D1, U1, V1.
Qed.

(** ** Any use of the controller *)

(** A look for a frame, into the buffer that [net_poll] keeps, or a frame to
    send; the results are the frames received and the values of [e1000_send]. *)
Inductive nic_op := OpRecv | OpSend (frame : list Z).
Fixpoint nic_run (ops : list nic_op) (buf : list Z) (st : e1000_st) : M W (list (list Z) * list Z * list Z * e1000_st) :=
  match ops with
  | [] => mret ([], [], buf, st)
  | OpRecv :: ops =>
    '(n, buf, st) ← e1000_recv L buf 1518 st;
    '(got, rcs, buf', st) ← nic_run ops buf st;
    mret ((if n =? 0 then [] else [slice buf 0 n]) ++ got, rcs, buf', st)
  | OpSend frame :: ops =>
    '(rc, st) ← e1000_send L frame (Z.of_nat (length frame)) st;
    '(got, rcs, buf, st) ← nic_run ops buf st;
    mret (got, rc :: rcs, buf, st)
  end.
Definition receives (ops : list nic_op) : nat := sum_list_with (fun o => match o with OpRecv => 1%nat | OpSend _ => O end) ops.
Definition sends (ops : list nic_op) : list (list Z) := omap (fun o => match o with OpSend f => Some f | OpRecv => None end) ops.

Lemma nic_run_ok ops R st w buf : nic_ok R st w -> length buf = 1518%nat -> Forall (fun f => (length f <= 2048)%nat) (sends ops) ->
  exists got rcs buf' st' w', nic_run ops buf st w = Some (got, rcs, buf', st', w') /\
    nic_ok (R + length got) st' w' /\ er_log w `prefix_of` er_log w' /\
    got = map (take 1518) (take (length got) (drop R (er_log w'))) /\
    (Nat.min (R + receives ops) (length (er_log w)) <= R + length got)%nat /\
    rcs = replicate (length (sends ops)) 0 /\ et_sent w' = et_sent w ++ sends ops.
Proof using E1000Device0 HL.
  revert R st w buf. induction ops as [|[|f] ops IH]; intros R st w buf Hok Hbuf Hs.
  - exists [], [], buf, st, w. rewrite Nat.add_0_r, app_nil_r. cbn. split; [done|]. split; [done|]. split; [done|]. split; [done|]. split; [lia|]. done.
  - destruct (e1000_recv_ok R st w buf 1518 Hok ltac:(lia)) as (w1 & Hpre & Hsent & Hr). cbn [nic_run].
    assert (Hrc : receives (OpRecv :: ops) = S (receives ops)) by done.
    destruct Hr as [(HR & E & Hok1)|(f & st1 & Hf & Hlf & Hok1 & E)]; rewrite (bind_eq _ _ _ _ _ E).
    + destruct (IH R st w1 buf Hok1 Hbuf Hs) as (got & rcs & buf' & st' & w' & E' & I1 & I2 & I3 & I4 & I5 & I6).
      rewrite (bind_eq _ _ _ _ _ E'). exists got, rcs, buf', st', w'. split; [done|]. split; [done|]. split; [by etrans|]. split; [done|].
      apply prefix_length in Hpre. split; [lia|]. split; [done|]. by rewrite I6, Hsent.
    + set (n := Z.min (Z.of_nat (length f)) 1518) in *. assert (Hn : take (Z.to_nat n) f = take 1518 f) by (unfold n; destruct (decide (length f <= 1518)%nat);
        [rewrite !take_ge by lia; done|f_equal; lia]).
      destruct (IH (S R) st1 w1 (splice buf 0 (take (Z.to_nat n) f)) Hok1 ltac:(by rewrite length_splice) Hs) as (got & rcs & buf' & st' & w' & E' & I1 & I2 & I3 & I4 & I5 & I6).
      rewrite (bind_eq _ _ _ _ _ E'). exists (take 1518 f :: got), rcs, buf', st', w'. cbn [length].
      pose proof (prefix_length _ _ Hpre). pose proof (prefix_lookup_Some _ _ _ _ Hf I2) as Hf'.
      assert (Hl : Z.of_nat (length (take (Z.to_nat n) f)) = n) by (rewrite length_take; lia).
      split; [|split; [by replace (R + S (length got))%nat with (S R + length got)%nat by lia|split; [by etrans|split; [|split; [lia|split; [done|by rewrite I6, Hsent]]]]]].
      * destruct (Z.eqb_spec n 0); [lia|]. do 5 f_equal. rewrite <- Hn. pose proof (slice_splice_same buf 0 (take (Z.to_nat n) f) ltac:(lia) ltac:(lia)) as Hsl.
        rewrite Hl in Hsl. by rewrite Hsl.
      * rewrite (drop_S _ f) by done. cbn [take map]. by rewrite <- I3.
  - inversion Hs as [|? ? Hf Hs']; subst. destruct (e1000_send_ok R st w f (Z.of_nat (length f)) Hok ltac:(lia) ltac:(lia)) as (st1 & w1 & E & Hok1 & Hpre & Hsent).
    cbn [nic_run]. rewrite (bind_eq _ _ _ _ _ E). destruct (IH R st1 w1 buf Hok1 Hbuf Hs') as (got & rcs & buf' & st' & w' & E' & I1 & I2 & I3 & I4 & I5 & I6).
    rewrite (bind_eq _ _ _ _ _ E'). exists got, (0 :: rcs), buf', st', w'. split; [done|]. split; [done|]. split; [by etrans|]. split; [done|].
    pose proof (prefix_length _ _ Hpre). split; [change (receives (OpSend f :: ops)) with (receives ops); lia|]. split; [by rewrite I5|].
    rewrite I6, Hsent, <- app_assoc, slice_all. done.
Qed.
End Rings.

(** C33 (drivers/e1000.c, [e1000_recv], [e1000_send]): in any sequence of
    receiving and sending, over a controller that fills the descriptors it is
    given whenever it likes and sends a frame before the poll of the driver
    gives up (2,000,000 looks), the frames received are the accepted ones, in
    order, each once and cut at 1518 bytes; a look fails to take one only when
    none is left; every frame handed over for sending appears on the wire once,
    in order, with 0 returned; and the rings never run out of step, however
    often they wrap. *)
Theorem e1000_run_correct {W} `{!Ports W, !Mmio W, !Dma W, !E1000View W} (L : e1000_mem) (bar0 : Z) `{!E1000Device (W := W) L bar0}
    (ops : list nic_op) (R : nat) (st : e1000_st) (w : W) (buf : list Z) :
  rings_ok L bar0 -> nic_ok L bar0 R st w -> length buf = 1518%nat -> Forall (fun f => (length f <= 2048)%nat) (sends ops) ->
  exists got rcs buf' st' w', nic_run L ops buf st w = Some (got, rcs, buf', st', w') /\
    nic_ok L bar0 (R + length got) st' w' /\ er_log w `prefix_of` er_log w' /\
    got = map (take 1518) (take (length got) (drop R (er_log w'))) /\
    (Nat.min (R + receives ops) (length (er_log w)) <= R + length got)%nat /\
    rcs = replicate (length (sends ops)) 0 /\ et_sent w' = et_sent w ++ sends ops.
Proof. intros HL. by apply nic_run_ok. Qed.

(** ** A controller to run the driver on *)

Module E1000Demo.
Definition L : e1000_mem := E1000Mem 0x40000 0x40400 0x10000 0x41000.
Definition bar : Z := 0xFEBC0000.
(** The view, the memory, and the frames that are still to come. *)
Record sim := Sim { sm_log : list (list Z); sm_tail : Z; sm_tx : tx_state; sm_sent : list (list Z); sm_mem : Z -> Z; sm_wire : list (list Z) }.

#[global] Instance sim_ports : Ports sim := {|
  hw_in8 _ w := (0, w); hw_in16 _ w := (0, w); hw_in32 _ w := (0, w);
  hw_out8 _ _ w := w; hw_out16 _ _ w := w; hw_out32 _ _ w := w;
|}.
#[global] Instance sim_mmio : Mmio sim := {|
  hw_rd32 _ w := (0, w);
  hw_wr32 a v w :=
    if a =? bar + E1000_RDT then Sim (sm_log w) v (sm_tx w) (sm_sent w) (sm_mem w) (sm_wire w)
    else match sm_tx w with
         | TxIdle h => if a =? bar + E1000_TDT then Sim (sm_log w) (sm_tail w) (TxBusy 1 h) (sm_sent w) (sm_mem w) (sm_wire w) else w
         | _ => w
         end;
|}.
(** A frame comes in when there is a descriptor for it. *)
Definition rx_step (w : sim) : sim :=
  match sm_wire w with
  | [] => w
  | f :: rest =>
    let i := slot (length (sm_log w)) in
    if (1 <=? Z.of_nat (length f)) && (Z.of_nat (length f) <=? 2048) && (1 <=? (sm_tail w - i) mod 64)
    then Sim (sm_log w ++ [f]) (sm_tail w) (sm_tx w) (sm_sent w)
           (store_at (rx_desc_at L i + 8) (le_bytes 2 (Z.of_nat (length f)) ++ [0; 0; 1; 0; 0; 0]) (store_at (rx_buf_at L i) f (sm_mem w))) rest
    else Sim (sm_log w) (sm_tail w) (sm_tx w) (sm_sent w) (sm_mem w) rest
  end.
(** A frame goes out at the second look. *)
Definition tx_step (m : Z -> Z) (w : sim) : sim :=
  match sm_tx w with
  | TxBusy (S k) h => Sim (sm_log w) (sm_tail w) (TxBusy k h) (sm_sent w) (sm_mem w) (sm_wire w)
  | TxBusy O h =>
    Sim (sm_log w) (sm_tail w) (TxIdle ((h + 1) mod 64))
      (sm_sent w ++ [mem_at m (le_val (mem_at m (tx_desc_at L h) 8)) (Z.to_nat (le_val (mem_at m (tx_desc_at L h + 8) 2)))])
      (store_at (tx_desc_at L h + 12) [1] (sm_mem w)) (sm_wire w)
  | _ => w
  end.
#[global] Instance sim_dma : Dma sim := {|
  mem := sm_mem;
  set_mem_at a l w := Sim (sm_log w) (sm_tail w) (sm_tx w) (sm_sent w) (store_at a l (sm_mem w)) (sm_wire w);
  dma w := tx_step (sm_mem w) (rx_step w);
|}.
#[global] Instance sim_view : E1000View sim := {| er_log := sm_log; er_tail := sm_tail; et_state := sm_tx; et_sent := sm_sent |}.

Lemma L_ok : rings_ok L bar.
Proof. unfold rings_ok, L, bar. cbn. lia. Qed.

Lemma rx_step_ok w : let w' := rx_step w in
  er_tail w' = er_tail w /\ et_state w' = et_state w /\ et_sent w' = et_sent w /\
  exists new, er_log w' = er_log w ++ new /\ Z.of_nat (length new) <= (er_tail w - slot (length (er_log w))) mod 64 /\
    (forall j f, new !! j = Some f -> (1 <= length f <= 2048)%nat /\ holds L w' (slot (length (er_log w) + j)) f) /\
    (forall a, (forall j, (j < length new)%nat -> let i := slot (length (er_log w) + j) in ~ in_range a (rx_desc_at L i + 8) 8 /\ ~ in_range a (rx_buf_at L i) 2048) ->
      mem w' a = mem w a).
Proof.
  unfold rx_step. destruct (sm_wire w) as [|f rest]; [repeat split; exists []; rewrite app_nil_r; split; [done|]; split; [apply Z.mod_pos_bound; lia|done]|].
  change (er_log w) with (sm_log w). change (er_tail w) with (sm_tail w). set (i := slot (length (sm_log w))).
  set (len := Z.of_nat (length f)). destruct ((1 <=? len) && (len <=? 2048)) eqn:Hf; cbn [andb].
  2:{ repeat split. exists []. rewrite app_nil_r. split; [done|]. split; [apply Z.mod_pos_bound; lia|done]. }
  destruct (Z.leb_spec 1 ((sm_tail w - i) mod 64)) as [Hr|Hr].
  2:{ repeat split. exists []. rewrite app_nil_r. split; [done|]. split; [apply Z.mod_pos_bound; lia|done]. }
  apply andb_prop in Hf as [Hf1%Z.leb_le Hf2%Z.leb_le]. assert (Hf : (1 <= length f <= 2048)%nat) by (unfold len in *; lia).
  split; [done|]. split; [done|]. split; [done|]. exists [f]. split; [done|]. split; [exact Hr|].
  assert (Hi : 0 <= i < 64) by apply slot_range.
  set (d := le_bytes 2 len ++ [0; 0; 1; 0; 0; 0]). set (m1 := store_at (rx_buf_at L i) f (sm_mem w)). split.
  - intros [|j] g Hg; [|done]. injection Hg as <-. rewrite Nat.add_0_r. fold i. split; [done|]. unfold holds. cbn [mem sim_dma sm_mem]. split; [|split].
    + replace (rx_desc_at L i + 12) with (rx_desc_at L i + 8 + Z.of_nat 4) by lia. rewrite store_at_in by (cbn; lia). done.
    + pose proof (store_at_bytes (rx_desc_at L i + 8) d m1) as Hs. apply (f_equal (take 2)) in Hs.
      change (mem_bytes _ (rx_desc_at L i + 8) 2) with (take 2 (map (fun k => store_at (rx_desc_at L i + 8) d m1 (rx_desc_at L i + 8 + Z.of_nat k)) (seq 0 (length d)))).
      rewrite Hs. change (take 2 d) with (le_bytes 2 len). rewrite le_val_bytes. change (256 ^ Z.of_nat 2) with 65536. fold len. zlia.
    + etrans; [|apply (store_at_bytes (rx_buf_at L i) f (sm_mem w))]. unfold mem_bytes. apply map_ext_in. intros k Hk. apply in_seq in Hk.
      cbn [mem sim_dma sm_mem]. apply store_at_out. change (length d) with 8%nat. unfold in_range, rx_desc_at, rx_buf_at, L. cbn [a_rx_ring a_rx_bufs]. lia.
  - intros a Ha. destruct (Ha 0%nat ltac:(cbn; lia)) as [H1 H2]. rewrite Nat.add_0_r in H1, H2. fold i in H1, H2. cbn [mem sim_dma sm_mem].
    rewrite store_at_out by exact H1. apply store_at_out. unfold in_range in *. lia.
Qed.

#[global] Instance sim_device : E1000Device (W := sim) L bar.
Proof.
  split.
  - done.
  - intros w v Hv. cbn [hw_wr32 sim_mmio]. by rewrite Z.eqb_refl.
  - intros w h Hst. cbn [hw_wr32 sim_mmio]. change (et_state w) with (sm_tx w) in Hst. rewrite Hst, Z.eqb_refl. change (bar + E1000_TDT =? bar + E1000_RDT) with false. cbv iota.
    split; [done|]. split; [done|]. split; [|done]. exists 1%nat. split; [lia|done].
  - intros w _ Hh. change (dma w) with (tx_step (sm_mem w) (rx_step w)). destruct (rx_step_ok w) as (H1 & H2 & H3 & new & H4 & H5 & H6 & H7). set (w1 := rx_step w) in *. cbv zeta.
    assert (Hst : forall h, (et_state w = TxBusy 0 h -> forall a, a <> tx_desc_at L h + 12 -> mem (tx_step (sm_mem w) w1) a = mem w1 a)).
    { intros h E a Ha. unfold tx_step. change (sm_tx w1) with (et_state w1). rewrite H2, E. cbn [mem sim_dma sm_mem].
      apply store_at_out. cbn [length]. unfold in_range. lia. }
    assert (Hmem : forall a, (forall k h, et_state w = TxBusy k h -> a <> tx_desc_at L h + 12) -> mem (tx_step (sm_mem w) w1) a = mem w1 a).
    { intros a Ha. destruct (et_state w) as [h|[|k] h] eqn:E; [|by apply (Hst h), (Ha _ _ eq_refl)|];
        unfold tx_step; change (sm_tx w1) with (et_state w1); by rewrite H2. }
    assert (Hrx : forall a, in_range a (a_rx_ring L) 1024 \/ in_range a (a_rx_bufs L) 131072 -> mem (tx_step (sm_mem w) w1) a = mem w1 a).
    { intros a Ha. apply Hmem. intros k h E. specialize (Hh k h E). unfold in_range, tx_desc_at, L in *. cbn [a_rx_ring a_rx_bufs a_tx_ring] in *. lia. }
    assert (Htl : er_tail (tx_step (sm_mem w) w1) = er_tail w1 /\ er_log (tx_step (sm_mem w) w1) = er_log w1)
      by (unfold tx_step; destruct (sm_tx w1) as [|[|k] h]; done).
    destruct Htl as [-> ->]. split; [done|]. split.
    + exists new. split; [done|]. split; [done|]. split.
      * intros j f Hj. destruct (H6 j f Hj) as [Hf Hd]. split; [done|]. pose proof (slot_range (length (er_log w) + j)) as Hs.
        eapply holds_frame; [lia| | |exact Hd]; intros a Ha; apply Hrx; unfold in_range, rx_desc_at, rx_buf_at in *; lia.
      * intros a Ha Hb. rewrite Hmem by done. by apply H7.
    + unfold tx_step. change (sm_tx w1) with (et_state w1). rewrite H2. destruct (et_state w) as [h|[|k] h] eqn:E; [done|right|left].
      * split; [done|]. split; [|intros _; cbn [et_sent sim_view sm_sent]; change (sm_sent w1) with (et_sent w1); by rewrite H3].
        cbn [mem sim_dma sm_mem]. by rewrite store_at_one.
      * exists k. split; [lia|]. split; [done|]. split; [done|]. specialize (Hh _ _ eq_refl). apply H7. intros j _.
        pose proof (slot_range (length (er_log w) + j)) as Hs. unfold in_range, rx_desc_at, rx_buf_at, tx_desc_at, L. cbn [a_rx_ring a_rx_bufs a_tx_ring]. lia.
Qed.

(** The rings as [e1000_init_one] leaves them; two frames are to come. *)
Definition blank : sim := Sim [] 0 (TxIdle 0) [] (fun _ => 0xFF) [[1; 2; 3]; replicate 1600 7].
Definition setup : M sim unit := rx_setup L 64 0;; tx_setup L 64 0;; wr32 (bar + E1000_RDT) 63.
Definition sim0 : sim := match setup blank with Some (_, w) => w | None => blank end.
Definition st0 : e1000_st := E1000St bar 0 0 [0x52; 0x54; 0; 0x12; 0x34; 0x56].

Lemma addresses0 : addresses_ok L sim0.
Proof.
  assert (H : forallb (fun i => le_val (mem_bytes sim0 (rx_desc_at L i) 8) =? rx_buf_at L i) (Z.of_nat <$> seq 0 64) = true) by (vm_compute; reflexivity).
  rewrite forallb_forall in H. intros i Hi. apply Z.eqb_eq, H. apply list_elem_of_In, list_elem_of_fmap. exists (Z.to_nat i). split; [lia|].
  apply elem_of_seq. lia.
Qed.
Lemma empty0 : forallb (fun j => mem sim0 (rx_desc_at L (slot j) + 12) mod 2 =? 0) (seq 0 64) = true.
Proof. vm_compute. reflexivity. Qed.
Lemma view0 : er_log sim0 = [] /\ er_tail sim0 = 63 /\ et_state sim0 = TxIdle 0 /\ et_sent sim0 = [].
Proof. by vm_compute. Qed.
Lemma nic_ok0 : nic_ok L bar 0 st0 sim0.
Proof.
  destruct view0 as (V1 & V2 & V3 & V4). split; [done|]. split; [done|]. split; [done|]. split; [exact V3|]. unfold ring_inv. rewrite V1, V2.
  split; [done|]. split; [cbn; lia|]. split; [exact addresses0|]. split; [done|]. intros j Hj. cbn [length] in Hj.
  pose proof empty0 as H. rewrite forallb_forall in H. apply Z.eqb_eq, H, in_seq. lia.
Qed.

(** Between the looks a frame is sent. *)
Definition ops0 : list nic_op := [OpRecv; OpSend [9; 8; 7]; OpRecv; OpRecv].
Example run_ex : (fun r => let '(got, rcs, _, _) := fst r in (map length got, rcs, et_sent (snd r))) <$> nic_run L ops0 (replicate 1518 0) st0 sim0 =
  Some ([3; 1518]%nat, [0], [[9; 8; 7]]).
Proof. by vm_compute. Qed.
End E1000Demo.

Lemma e1000_run_correct_witness : exists got rcs buf' st' w',
  nic_run E1000Demo.L E1000Demo.ops0 (replicate 1518 0) E1000Demo.st0 E1000Demo.sim0 = Some (got, rcs, buf', st', w') /\
  rcs = [0] /\ et_sent w' = et_sent E1000Demo.sim0 ++ [[9; 8; 7]].
Proof.
  destruct (e1000_run_correct E1000Demo.L E1000Demo.bar E1000Demo.ops0 0 E1000Demo.st0 E1000Demo.sim0 (replicate 1518 0)
    E1000Demo.L_ok E1000Demo.nic_ok0 ltac:(by rewrite length_replicate) ltac:(repeat constructor))
    as (got & rcs & buf' & st' & w' & E & _ & _ & _ & _ & Hr & Hs).
  exists got, rcs, buf', st', w'. exact (conj E (conj Hr Hs)).
Defined.
