(* ===== verification/Xhci.v ===== *)
(** * drivers/xhci.c: the USB host controller

    Rings of transfer request blocks that driver and controller share, with a
    cycle bit that says whose a block is; commands, control transfers, and the
    enumeration of the ports of the root hub. The controller is the machine of
    Hw, here with reads of one byte and writes of eight; the static arrays are
    at the addresses of an [xhci_mem]. An array is an address and its number of
    entries, and an access behind it is [None]. [fuel] bounds the events that
    [wait_event] may skip and the wait for the ports. *)

From S2P Require Import Prelude Hw Pci.

Class MmioWide (W : Type) := { hw_rd8 : Z -> W -> Z * W; hw_wr64 : Z -> Z -> W -> W }.

Definition XHCI_RING_SIZE : Z := 64.
Definition XHCI_MAX_SLOTS : Z := 16.
Definition XHCI_POLL_LIMIT : Z := 500000.
Definition XHCI_CAP_CAPLENGTH : Z := 0x00.
Definition XHCI_CAP_HCSPARAMS1 : Z := 0x04.
Definition XHCI_CAP_HCCPARAMS1 : Z := 0x10.
Definition XHCI_CAP_DBOFF : Z := 0x14.
Definition XHCI_CAP_RTSOFF : Z := 0x18.
Definition XHCI_OP_USBCMD : Z := 0x00.
Definition XHCI_OP_USBSTS : Z := 0x04.
Definition XHCI_OP_CRCR : Z := 0x18.
Definition XHCI_OP_DCBAAP : Z := 0x30.
Definition XHCI_OP_CONFIG : Z := 0x38.
Definition XHCI_OP_PORTSC (n : Z) : Z := 0x400 + 0x10 * n.
Definition XHCI_CMD_RUN : Z := 1.
Definition XHCI_CMD_HCRST : Z := Z.shiftl 1 1.
Definition XHCI_STS_HCH : Z := 1.
Definition XHCI_STS_CNR : Z := Z.shiftl 1 11.
Definition XHCI_PS_CCS : Z := 1.
Definition XHCI_PS_PR : Z := Z.shiftl 1 4.
Definition XHCI_PS_PP : Z := Z.shiftl 1 9.
Definition XHCI_PS_SPEED (r : Z) : Z := Z.land (Z.shiftr r 10) 0xF.
Definition XHCI_PS_PRC : Z := Z.shiftl 1 21.
Definition XHCI_PS_W1C_MASK : Z :=
  Z.lor (Z.shiftl 1 17) (Z.lor (Z.shiftl 1 18) (Z.lor (Z.shiftl 1 19) (Z.lor (Z.shiftl 1 20) (Z.lor XHCI_PS_PRC (Z.lor (Z.shiftl 1 22) (Z.shiftl 1 23)))))).
Definition XHCI_RT_IR0 : Z := 0x20.
Definition XHCI_IR_IMAN : Z := 0x00.
Definition XHCI_IR_ERSTSZ : Z := 0x08.
Definition XHCI_IR_ERSTBA : Z := 0x10.
Definition XHCI_IR_ERDP : Z := 0x18.
Definition XHCI_CRCR_RCS : Z := 1.
Definition XHCI_DB_HOST_CMD : Z := 0.
Definition XHCI_DB_EP0 : Z := 1.
Definition TRB_C : Z := 1.
Definition TRB_TC : Z := Z.shiftl 1 1.
Definition TRB_IOC : Z := Z.shiftl 1 5.
Definition TRB_IDT : Z := Z.shiftl 1 6.
Definition TRB_BSR : Z := Z.shiftl 1 9.
Definition TRB_DIR : Z := Z.shiftl 1 16.
Definition TRB_TYPE (t : Z) : Z := u32 (Z.shiftl t 10).
Definition TRB_TRT (t : Z) : Z := u32 (Z.shiftl t 16).
Definition TRB_SLOT (s : Z) : Z := u32 (Z.shiftl s 24).
Definition TRB_GET_TYPE (c : Z) : Z := Z.land (Z.shiftr c 10) 0x3F.
Definition TRB_GET_SLOT (c : Z) : Z := Z.land (Z.shiftr c 24) 0xFF.
Definition TRB_GET_CC (s : Z) : Z := Z.land (Z.shiftr s 24) 0xFF.
Definition TRBTYPE_NORMAL : Z := 1.
Definition TRBTYPE_SETUP : Z := 2.
Definition TRBTYPE_DATA : Z := 3.
Definition TRBTYPE_STATUS : Z := 4.
Definition TRBTYPE_LINK : Z := 6.
Definition TRBTYPE_EN_SLOT : Z := 9.
Definition TRBTYPE_ADDR_DEV : Z := 11.
Definition TRBTYPE_CFG_EP : Z := 12.
Definition TRBTYPE_EVAL_CTX : Z := 13.
Definition TRBTYPE_EVT_XFER : Z := 32.
Definition TRBTYPE_EVT_CMD : Z := 33.
Definition TRT_NO_DATA : Z := 0.
Definition TRT_OUT_DATA : Z := 2.
Definition TRT_IN_DATA : Z := 3.
Definition CC_INVALID : Z := 0.
Definition CC_SUCCESS : Z := 1.
Definition CC_SHORT_PKT : Z := 13.
Definition SLOT_CTX_SPEED (s : Z) : Z := u32 (Z.shiftl s 20).
Definition SLOT_CTX_CTX_ENT (n : Z) : Z := u32 (Z.shiftl n 27).
Definition SLOT_CTX_ROOTPORT (p : Z) : Z := u32 (Z.shiftl p 16).
Definition EP_CTX_INTERVAL (i : Z) : Z := u32 (Z.shiftl i 16).
Definition EP_CTX_CERR (n : Z) : Z := u32 (Z.shiftl n 1).
Definition EP_CTX_EP_TYPE (t : Z) : Z := u32 (Z.shiftl t 3).
Definition EP_CTX_MAX_PKT (p : Z) : Z := u32 (Z.shiftl p 16).
Definition EP_TYPE_CONTROL : Z := 4.
Definition EP_TYPE_INT_IN : Z := 7.
Definition ICC_ADD_SLOT : Z := 1.
Definition ICC_ADD_EP0 : Z := Z.shiftl 1 1.
Definition USB_SPEED_LOW : Z := 2.
Definition USB_SPEED_SUPER : Z := 4.
Definition USB_DESC_DEVICE : Z := 0x01.
Definition USB_REQ_GET_DESCRIPTOR : Z := 0x06.
Definition USB_REQ_SET_CONFIG : Z := 0x09.
Definition USB_DIR_IN : Z := 0x80.
Definition USB_MAX_DEV : Z := 16.

Definition usb_ep0_maxpkt (spd : Z) : Z := if spd >=? USB_SPEED_SUPER then 512 else if spd =? USB_SPEED_LOW then 8 else 64.

(** A request block, a setup packet, a device found. *)
Record xhci_trb_t := Trb { t_param : Z; t_status : Z; t_ctrl : Z }.
Record usb_setup_t := Setup { bmRequestType : Z; bRequest : Z; wValue : Z; wIndex : Z; wLength : Z }.
Record usb_device_t := UsbDev {
  ud_slot : Z; ud_port : Z; ud_speed : Z; ud_vid : Z; ud_pid : Z; ud_class : Z; ud_subclass : Z; ud_proto : Z; ud_max_pkt0 : Z; ud_bcd_usb : Z;
}.

(** An array of blocks; the producer's place in it. *)
Record trb_ring := TrbRing { tr_base : Z; tr_len : Z }.
Record ring_st := RingSt { rg_enq : Z; rg_cs : Z }.

Record xhci_mem := XhciMem {
  a_dcbaa : Z; a_dev_ctx : Z; a_input_ctx : Z; a_cmd_ring : Z; a_evt_ring : Z; a_erst : Z; a_xfer_rings : Z; a_ctrl_buf : Z;
}.
(** The register bases, the rings, the devices, [num_ports]. *)
Record xhci_st := XhciSt {
  xh_op : Z; xh_db : Z; xh_rt : Z;
  xh_cmd : ring_st; xh_evt_deq : Z; xh_evt_cs : Z; xh_xfer : list ring_st;
  xh_devs : list usb_device_t; xh_ports : Z;
}.
Definition with_evt (deq cs : Z) (s : xhci_st) : xhci_st := XhciSt (xh_op s) (xh_db s) (xh_rt s) (xh_cmd s) deq cs (xh_xfer s) (xh_devs s) (xh_ports s).
Definition with_cmd (r : ring_st) (s : xhci_st) : xhci_st := XhciSt (xh_op s) (xh_db s) (xh_rt s) r (xh_evt_deq s) (xh_evt_cs s) (xh_xfer s) (xh_devs s) (xh_ports s).
Definition with_xfer (l : list ring_st) (s : xhci_st) : xhci_st := XhciSt (xh_op s) (xh_db s) (xh_rt s) (xh_cmd s) (xh_evt_deq s) (xh_evt_cs s) l (xh_devs s) (xh_ports s).
Definition with_devs (l : list usb_device_t) (s : xhci_st) : xhci_st := XhciSt (xh_op s) (xh_db s) (xh_rt s) (xh_cmd s) (xh_evt_deq s) (xh_evt_cs s) (xh_xfer s) l (xh_ports s).

(** The 64 bits of a setup packet. *)
Definition setup_param (s : usb_setup_t) : Z :=
  let sp_lo := Z.lor (Z.lor (bmRequestType s) (Z.shiftl (bRequest s) 8)) (u32 (Z.shiftl (wValue s) 16)) in
  let sp_hi := Z.lor (wIndex s) (u32 (Z.shiftl (wLength s) 16)) in
  Z.lor sp_lo (Z.shiftl sp_hi 32).

Section Xhci.
Context {W : Type} `{!Ports W, !Mmio W, !MmioWide W, !Dma W, !Clock W} (L : xhci_mem) (fuel : nat).

Definition xhci_r8 (a : Z) : M W Z := fun w => let '(v, w) := hw_rd8 (u64 a) w in Some (u8 v, w).
Definition xhci_w64 (a v : Z) : M W unit := modify (hw_wr64 (u64 a) (u64 v)).

(** ** Rings *)

Definition trb_at (ring : trb_ring) (i : Z) : option Z := if (0 <=? i) && (i <? tr_len ring) then Some (tr_base ring + 16 * i) else None.
Fixpoint zero_trbs (n : nat) (ring : trb_ring) (i : Z) : M W unit :=
  match n with
  | O => mret tt
  | S n => a ← lift_option (trb_at ring i); mem_store_bytes a (le_bytes 8 0 ++ le_bytes 4 0 ++ le_bytes 4 0);; zero_trbs n ring (i + 1)
  end.
Definition ring_init (ring : trb_ring) (sz : Z) : M W unit :=
  zero_trbs (Z.to_nat sz) ring 0;;
  a ← lift_option (trb_at ring (sz - 1));
  mem_store_bytes a (le_bytes 8 (tr_base ring));;
  mem_store_bytes (a + 12) (le_bytes 4 (Z.lor (TRB_TYPE TRBTYPE_LINK) TRB_TC)).

(** 0 or -1. The cycle bit goes in last. *)
Definition ring_enqueue (ring : trb_ring) (r : ring_st) (param status ctrl : Z) : M W (Z * ring_st) :=
  if rg_enq r >=? XHCI_RING_SIZE - 1 then mret (-1, r)
  else
    let c := if negb (rg_cs r =? 0) then TRB_C else 0 in
    trb ← lift_option (trb_at ring (rg_enq r));
    mem_store_bytes trb (le_bytes 8 param);;
    mem_store_bytes (trb + 8) (le_bytes 4 status);;
    mem_store_bytes (trb + 12) (le_bytes 4 (Z.lor ctrl c));;
    let enq := rg_enq r + 1 in
    if enq =? XHCI_RING_SIZE - 1 then
      link ← lift_option (trb_at ring enq);
      mem_store_bytes (link + 12) (le_bytes 4 (Z.lor (Z.lor (TRB_TYPE TRBTYPE_LINK) TRB_TC) c));;
      mret (0, RingSt 0 (Z.lxor (rg_cs r) 1))
    else mret (0, RingSt enq (rg_cs r)).

Definition cmd_ring : trb_ring := TrbRing (a_cmd_ring L) XHCI_RING_SIZE.
Definition cmd_enqueue (param status ctrl : Z) (s : xhci_st) : M W xhci_st :=
  '(_, r) ← ring_enqueue cmd_ring (xh_cmd s) param status ctrl; mret (with_cmd r s).
Definition cmd_doorbell (s : xhci_st) : M W unit := wr32 (xh_db s) XHCI_DB_HOST_CMD.
Definition ep_doorbell (slot ep : Z) (s : xhci_st) : M W unit := wr32 (xh_db s + 4 * slot) ep.

(** ** Events *)

(** The event at the dequeue place, if it is the driver's. *)
Definition xhci_evt_try (s : xhci_st) : M W (option xhci_trb_t * xhci_st) :=
  let trb := a_evt_ring L + 16 * xh_evt_deq s in
  ctrl ← vload (trb + 12) 4;
  if negb (Z.land ctrl TRB_C =? xh_evt_cs s) then mret (None, s)
  else
    param ← vload trb 8;
    status ← vload (trb + 8) 4;
    let deq := xh_evt_deq s + 1 in
    let '(deq, cs) := if deq =? XHCI_RING_SIZE then (0, Z.lxor (xh_evt_cs s) 1) else (deq, xh_evt_cs s) in
    xhci_w64 (xh_rt s + (XHCI_RT_IR0 + XHCI_IR_ERDP)) (Z.lor (a_evt_ring L + 16 * deq) (Z.shiftl 1 3));;
    mret (Some (Trb param status ctrl), with_evt deq cs s).
Fixpoint evt_poll (n : nat) (s : xhci_st) : M W (option xhci_trb_t * xhci_st) :=
  match n with
  | O => mret (None, s)
  | S n => '(o, s) ← xhci_evt_try s; match o with Some ev => mret (Some ev, s) | None => evt_poll n s end
  end.
Definition evt_wait (s : xhci_st) : M W (option xhci_trb_t * xhci_st) := evt_poll (Z.to_nat XHCI_POLL_LIMIT) s.

(** The first event of a type; the others are dropped. *)
Fixpoint find_event (n : nat) (type : Z) (s : xhci_st) : M W (option xhci_trb_t * xhci_st) :=
  match n with
  | O => diverge
  | S n =>
    '(o, s) ← evt_wait s;
    match o with
    | None => mret (None, s)
    | Some ev => if TRB_GET_TYPE (t_ctrl ev) =? type then mret (Some ev, s) else find_event n type s
    end
  end.
Definition wait_event (type : Z) (s : xhci_st) : M W (Z * xhci_st) :=
  '(o, s) ← find_event fuel type s; mret (match o with Some ev => TRB_GET_CC (t_status ev) | None => CC_INVALID end, s).

(** ** Commands *)

(** The completion code and the slot. *)
Definition cmd_enable_slot (s : xhci_st) : M W (Z * Z * xhci_st) :=
  s ← cmd_enqueue 0 0 (TRB_TYPE TRBTYPE_EN_SLOT) s;
  cmd_doorbell s;;
  '(o, s) ← find_event fuel TRBTYPE_EVT_CMD s;
  mret (match o with Some ev => (TRB_GET_CC (t_status ev), TRB_GET_SLOT (t_ctrl ev)) | None => (CC_INVALID, 0) end, s).
Definition cmd_address_device (slot : Z) (bsr : bool) (s : xhci_st) : M W (Z * xhci_st) :=
  s ← cmd_enqueue (a_input_ctx L) 0 (Z.lor (Z.lor (TRB_TYPE TRBTYPE_ADDR_DEV) (TRB_SLOT slot)) (if bsr then TRB_BSR else 0)) s;
  cmd_doorbell s;;
  wait_event TRBTYPE_EVT_CMD s.
Definition xhci_cfg_ep (slot ictx : Z) (s : xhci_st) : M W (Z * xhci_st) :=
  s ← cmd_enqueue ictx 0 (Z.lor (TRB_TYPE TRBTYPE_CFG_EP) (TRB_SLOT slot)) s;
  cmd_doorbell s;;
  wait_event TRBTYPE_EVT_CMD s.

(** ** Control transfers *)

Definition slot_ok (slot : Z) : option nat := if (1 <=? slot) && (slot <=? XHCI_MAX_SLOTS) then Some (Z.to_nat (slot - 1)) else None.
Definition xfer_ring (slot : Z) : trb_ring := TrbRing (a_xfer_rings L + 1024 * (slot - 1)) XHCI_RING_SIZE.
(** [buf]: the data buffer, if any. *)
Definition control_xfer (slot : Z) (setup : usb_setup_t) (buf : option Z) (len : Z) (s : xhci_st) : M W (Z * xhci_st) :=
  i ← lift_option (slot_ok slot);
  r ← lift_option (xh_xfer s !! i);
  let ring := xfer_ring slot in
  let dir_in := negb (Z.land (bmRequestType setup) 0x80 =? 0) in
  let trt := if len =? 0 then TRT_NO_DATA else if dir_in then TRT_IN_DATA else TRT_OUT_DATA in
  '(_, r) ← ring_enqueue ring r (setup_param setup) 8 (Z.lor (Z.lor (TRB_TYPE TRBTYPE_SETUP) TRB_IDT) (TRB_TRT trt));
  '(_, r) ← match buf with
            | Some a =>
              if len >? 0 then ring_enqueue ring r a len (Z.lor (Z.lor (TRB_TYPE TRBTYPE_DATA) TRB_IOC) (if dir_in then TRB_DIR else 0))
              else mret (0, r)
            | None => mret (0, r)
            end;
  let stat_dir := if (len >? 0) && dir_in then 0 else TRB_DIR in
  '(_, r) ← ring_enqueue ring r 0 0 (Z.lor (Z.lor (TRB_TYPE TRBTYPE_STATUS) TRB_IOC) stat_dir);
  let s := with_xfer (<[i := r]> (xh_xfer s)) s in
  ep_doorbell slot XHCI_DB_EP0 s;;
  wait_event TRBTYPE_EVT_XFER s.
Definition get_descriptor (slot type idx buf len : Z) (s : xhci_st) : M W (Z * xhci_st) :=
  control_xfer slot (Setup USB_DIR_IN USB_REQ_GET_DESCRIPTOR (Z.lor (u16 (Z.shiftl type 8)) idx) 0 len) (Some buf) len s.
Definition set_configuration (slot cfg_val : Z) (s : xhci_st) : M W (Z * xhci_st) :=
  control_xfer slot (Setup 0 USB_REQ_SET_CONFIG cfg_val 0 0) None 0 s.

(** ** Contexts *)

(** [sizeof(xhci_input_ctx_t)], rounded up to its alignment. *)
Definition INPUT_CTX_SIZE : Z := 1088.
Definition DEV_CTX_SIZE : Z := 1024.
Definition store_dw (a : Z) (l : list Z) : M W unit := mem_store_bytes a (flat_map (le_bytes 4) l).
Definition build_slot_ctx (sc speed port : Z) : M W unit :=
  store_dw sc [Z.lor (SLOT_CTX_SPEED speed) (SLOT_CTX_CTX_ENT 1); SLOT_CTX_ROOTPORT (port + 1); 0; 0; 0; 0; 0; 0].
Definition build_ep0_ctx (ec slot max_pkt : Z) : M W unit :=
  let tr_ptr := Z.lor (tr_base (xfer_ring slot)) 1 in
  store_dw ec [0; Z.lor (Z.lor (EP_CTX_EP_TYPE EP_TYPE_CONTROL) (EP_CTX_CERR 3)) (EP_CTX_MAX_PKT max_pkt);
               Z.land tr_ptr 0xFFFFFFFF; u32 (Z.shiftr tr_ptr 32); 8; 0; 0; 0].

(** ** Ports *)

Definition op_r32 (off : Z) (s : xhci_st) : M W Z := rd32 (xh_op s + off).
Definition op_w32 (off v : Z) (s : xhci_st) : M W unit := wr32 (xh_op s + off) v.
(** The rounds of a waiting loop. *)
Fixpoint poll_until (n : nat) (m : M W bool) : M W unit :=
  match n with O => mret tt | S n => ok ← m; if ok : bool then mret tt else poll_until n m end.
Definition op_bit (off bit : Z) (set : bool) (s : xhci_st) : M W bool := v ← op_r32 off s; mret (Bool.eqb (negb (Z.land v bit =? 0)) set).
Definition limit : nat := Z.to_nat XHCI_POLL_LIMIT.

(** The reset: the speed when a device is there before and after it. *)
Definition reset_port (port : Z) (s : xhci_st) : M W (option Z) :=
  let portsc := XHCI_OP_PORTSC port in
  ps ← op_r32 portsc s;
  if Z.land ps XHCI_PS_CCS =? 0 then mret None
  else
    op_w32 portsc (Z.lor (Z.lor XHCI_PS_PP XHCI_PS_PR) XHCI_PS_W1C_MASK) s;;
    poll_until limit (op_bit portsc XHCI_PS_PRC true s);;
    op_w32 portsc (Z.lor XHCI_PS_PP XHCI_PS_PRC) s;;
    ps ← op_r32 portsc s;
    mret (if Z.land ps XHCI_PS_CCS =? 0 then None else Some (XHCI_PS_SPEED ps)).

(** Steps 6 to 9: the contexts and the ring of a slot, and its address. *)
Definition address_slot (slot port speed : Z) (s : xhci_st) : M W (Z * xhci_st) :=
  i ← lift_option (slot_ok slot);
  let dc := a_dev_ctx L + DEV_CTX_SIZE * (slot - 1) in
  mem_store_bytes dc (replicate (Z.to_nat DEV_CTX_SIZE) 0);;
  mem_store_bytes (a_dcbaa L + 8 * slot) (le_bytes 8 dc);;
  ring_init (xfer_ring slot) XHCI_RING_SIZE;;
  let s := with_xfer (<[i := RingSt 0 1]> (xh_xfer s)) s in
  mem_store_bytes (a_input_ctx L) (replicate (Z.to_nat INPUT_CTX_SIZE) 0);;
  store_dw (a_input_ctx L + 4) [Z.lor ICC_ADD_SLOT ICC_ADD_EP0];;
  build_slot_ctx (a_input_ctx L + 32) speed port;;
  build_ep0_ctx (a_input_ctx L + 64) slot (usb_ep0_maxpkt speed);;
  cmd_address_device slot false s.

(** Step 11. *)
Definition update_ep0 (slot real_pkt : Z) (s : xhci_st) : M W xhci_st :=
  mem_store_bytes (a_input_ctx L) (replicate (Z.to_nat INPUT_CTX_SIZE) 0);;
  store_dw (a_input_ctx L + 4) [ICC_ADD_EP0];;
  build_ep0_ctx (a_input_ctx L + 64) slot real_pkt;;
  s ← cmd_enqueue (a_input_ctx L) 0 (Z.lor (TRB_TYPE TRBTYPE_EVAL_CTX) (TRB_SLOT slot)) s;
  cmd_doorbell s;;
  '(_, s) ← wait_event TRBTYPE_EVT_CMD s; mret s.

(** Steps 13 and 14: the record made of the 18 bytes of the descriptor. *)
Definition device_record (slot port speed : Z) (dd : list Z) : usb_device_t :=
  UsbDev slot (u8 port) speed (get16 dd 8) (get16 dd 10) (get8 dd 4) (get8 dd 5) (get8 dd 6) (get8 dd 7) (get16 dd 2).

Definition probe_port (port : Z) (s : xhci_st) : M W xhci_st :=
  o ← reset_port port s;
  match o with
  | None => mret s
  | Some speed =>
    '(cc, slot, s) ← cmd_enable_slot s;
    if negb (cc =? CC_SUCCESS) || (slot =? 0) then mret s
    else
      '(cc, s) ← address_slot slot port speed s;
      if negb (cc =? CC_SUCCESS) then mret s
      else
        '(cc, s) ← get_descriptor slot USB_DESC_DEVICE 0 (a_ctrl_buf L) 8 s;
        if negb (cc =? CC_SUCCESS) && negb (cc =? CC_SHORT_PKT) then mret s
        else
          hdr ← mem_load_bytes (a_ctrl_buf L) 18;
          s ← (if negb (get8 hdr 7 =? u8 (usb_ep0_maxpkt speed)) then update_ep0 slot (get8 hdr 7) s else mret s);
          '(cc, s) ← get_descriptor slot USB_DESC_DEVICE 0 (a_ctrl_buf L) 18 s;
          if negb (cc =? CC_SUCCESS) then mret s
          else
            dd ← mem_load_bytes (a_ctrl_buf L) 18;
            if Z.of_nat (length (xh_devs s)) <? USB_MAX_DEV then
              let s := with_devs (xh_devs s ++ [device_record slot port speed dd]) s in
              '(_, s) ← set_configuration slot 1 s; mret s
            else mret s
  end.

Fixpoint scan_ports (n : nat) (p : Z) (s : xhci_st) : M W xhci_st :=
  match n with O => mret s | S n => s ← probe_port p s; scan_ports n (p + 1) s end.
Definition xhci_scan_devices (s : xhci_st) : M W xhci_st := scan_ports (Z.to_nat (xh_ports s)) 0 (with_devs [] s).

Definition usb_device_count (s : xhci_st) : Z := Z.of_nat (length (xh_devs s)).
Definition usb_get_device (idx : Z) (s : xhci_st) : option usb_device_t :=
  if (idx <? 0) || (idx >=? usb_device_count s) then None else xh_devs s !! Z.to_nat idx.

(** ** Start *)

Definition is_xhci (bus dev func : Z) : M W bool :=
  vendor ← pci_get_vendor bus dev func;
  if vendor =? 0xFFFF then mret false
  else
    class ← pci_get_class_code bus dev func;
    if negb (class =? 0x0C) then mret false
    else
      sub ← pci_get_subclass bus dev func;
      if negb (sub =? 0x03) then mret false else progif ← pci_get_progif bus dev func; mret (progif =? 0x30).
Fixpoint xhci_funcs (n : nat) (bus dev func : Z) : M W (option (Z * Z * Z)) :=
  match n with
  | O => mret None
  | S n => ok ← is_xhci bus dev func; if ok : bool then mret (Some (bus, dev, func)) else xhci_funcs n bus dev (func + 1)
  end.
Fixpoint xhci_slots (n : nat) (bus dev : Z) : M W (option (Z * Z * Z)) :=
  match n with
  | O => mret None
  | S n =>
    multi ← pci_is_multifunction bus dev;
    o ← xhci_funcs (if multi : bool then 8 else 1) bus dev 0;
    match o with Some x => mret (Some x) | None => xhci_slots n bus (dev + 1) end
  end.
Fixpoint xhci_buses (n : nat) (bus : Z) : M W (option (Z * Z * Z)) :=
  match n with
  | O => mret None
  | S n => o ← xhci_slots 32 bus 0; match o with Some x => mret (Some x) | None => xhci_buses n (bus + 1) end
  end.

(** Steps 2 and 3: the address of the registers. *)
Definition xhci_mmio (bus dev func : Z) : M W Z :=
  cmd_reg ← pci_config_read_dword bus dev func 0x04;
  pci_config_write_dword bus dev func 0x04 (Z.lor cmd_reg 0x06);;
  bar0_lo ← pci_config_read_dword bus dev func 0x10;
  bar0_hi ← (if Z.land bar0_lo 0x6 =? 0x4 then pci_config_read_dword bus dev func 0x14 else mret 0);
  mret (Z.lor (Z.shiftl bar0_hi 32) (Z.land bar0_lo (not32 0xF))).

(** Steps 6 to 8. *)
Definition halt_and_reset (s : xhci_st) : M W unit :=
  poll_until limit (op_bit XHCI_OP_USBSTS XHCI_STS_CNR false s);;
  sts ← op_r32 XHCI_OP_USBSTS s;
  when (Z.land sts XHCI_STS_HCH =? 0)
    (cmd ← op_r32 XHCI_OP_USBCMD s;
     op_w32 XHCI_OP_USBCMD (Z.land cmd (not32 XHCI_CMD_RUN)) s;;
     poll_until limit (op_bit XHCI_OP_USBSTS XHCI_STS_HCH true s));;
  op_w32 XHCI_OP_USBCMD XHCI_CMD_HCRST s;;
  poll_until limit
    (ok ← op_bit XHCI_OP_USBCMD XHCI_CMD_HCRST false s;
     if negb ok then mret false else op_bit XHCI_OP_USBSTS XHCI_STS_CNR false s).

(** Steps 11 to 13. *)
Definition setup_rings (s : xhci_st) : M W unit :=
  mem_store_bytes (a_dcbaa L) (replicate 136 0);;
  xhci_w64 (xh_op s + XHCI_OP_DCBAAP) (a_dcbaa L);;
  ring_init cmd_ring XHCI_RING_SIZE;;
  xhci_w64 (xh_op s + XHCI_OP_CRCR) (Z.lor (a_cmd_ring L) XHCI_CRCR_RCS);;
  ring_init (TrbRing (a_evt_ring L) XHCI_RING_SIZE) XHCI_RING_SIZE;;
  mem_store_bytes (a_erst L) (le_bytes 8 (a_evt_ring L) ++ le_bytes 2 XHCI_RING_SIZE);;
  wr32 (xh_rt s + (XHCI_RT_IR0 + XHCI_IR_IMAN)) 0;;
  wr32 (xh_rt s + (XHCI_RT_IR0 + XHCI_IR_ERSTSZ)) 1;;
  xhci_w64 (xh_rt s + (XHCI_RT_IR0 + XHCI_IR_ERDP)) (a_evt_ring L);;
  xhci_w64 (xh_rt s + (XHCI_RT_IR0 + XHCI_IR_ERSTBA)) (a_erst L).

(** Step 15. *)
Fixpoint power_ports (n : nat) (p : Z) (s : xhci_st) : M W unit :=
  match n with
  | O => mret tt
  | S n =>
    ps ← op_r32 (XHCI_OP_PORTSC p) s;
    when (Z.land ps XHCI_PS_PP =? 0) (op_w32 (XHCI_OP_PORTSC p) (Z.lor ps XHCI_PS_PP) s);;
    power_ports n (p + 1) s
  end.
Fixpoint settle (n : nat) (t_end : Z) : M W unit :=
  match n with O => diverge | S n => t ← get_tick; if t <? t_end then settle n t_end else mret tt end.

(** 1 when the controller runs. *)
Definition xhci_init (s : xhci_st) : M W (Z * xhci_st) :=
  o ← xhci_buses 256 0;
  match o with
  | None => mret (0, s)
  | Some (bus, dev, func) =>
    mmio ← xhci_mmio bus dev func;
    if mmio =? 0 then mret (0, s)
    else
      caplength ← xhci_r8 (mmio + XHCI_CAP_CAPLENGTH);
      dboff ← rd32 (mmio + XHCI_CAP_DBOFF);
      rtsoff ← rd32 (mmio + XHCI_CAP_RTSOFF);
      let s := XhciSt (mmio + caplength) (mmio + Z.land dboff (not32 0x3)) (mmio + Z.land rtsoff (not32 0x1F))
                 (xh_cmd s) (xh_evt_deq s) (xh_evt_cs s) (xh_xfer s) (xh_devs s) (xh_ports s) in
      hccparams1 ← rd32 (mmio + XHCI_CAP_HCCPARAMS1);
      if negb (Z.land hccparams1 (Z.shiftl 1 2) =? 0) then mret (0, s)
      else
        halt_and_reset s;;
        hcsparams1 ← rd32 (mmio + XHCI_CAP_HCSPARAMS1);
        let max_slots := Z.land hcsparams1 0xFF in
        let ports := Z.land (Z.shiftr hcsparams1 24) 0xFF in
        op_w32 XHCI_OP_CONFIG (if max_slots >? XHCI_MAX_SLOTS then XHCI_MAX_SLOTS else max_slots) s;;
        setup_rings s;;
        let s := XhciSt (xh_op s) (xh_db s) (xh_rt s) (RingSt 0 1) 0 1 (xh_xfer s) (xh_devs s) ports in
        op_w32 XHCI_OP_USBCMD XHCI_CMD_RUN s;;
        poll_until limit (op_bit XHCI_OP_USBSTS XHCI_STS_HCH false s);;
        sts ← op_r32 XHCI_OP_USBSTS s;
        if negb (Z.land sts XHCI_STS_HCH =? 0) then mret (0, s)
        else
          power_ports (Z.to_nat ports) 0 s;;
          t ← get_tick;
          settle fuel (u64 (t + 50));;
          mret (1, s)
  end.
End Xhci.
