(* ===== verification/XhciProofs.v ===== *)
(** * The rings of the USB host controller as queues

    A ring is an array of 64 blocks, the last of which links back to the
    first; the cycle bit of a block says on which lap it was written.
    [hc_next] is how a controller reads a ring, without any count shared with
    the driver. [ring_ok] relates the array to the blocks queued so far; with
    it the enqueuing of the driver and the reading of the controller, in any
    order that keeps at most 62 blocks waiting, act as one FIFO queue. *)

From S2P Require Import Prelude Hw Sectors Xhci.

(** ** The controller's side *)

(** Stores do what they say. *)
Class StoreLaw (W : Type) `{!Dma W} :=
  store_law w a l x : mem (set_mem_at a l w) x = default (mem w x) (if bool_decide (a <= x) then l !! Z.to_nat (x - a) else None).

Section Queue.
Context {W : Type} `{!Dma W}.

Definition load_trb (w : W) (a : Z) : xhci_trb_t := Trb (le_val (mem_bytes w a 8)) (le_val (mem_bytes w (a + 8) 4)) (le_val (mem_bytes w (a + 12) 4)).
Definition without_cycle (t : xhci_trb_t) : xhci_trb_t := Trb (t_param t) (t_status t) (t_ctrl t - t_ctrl t mod 2).

(** The place the controller reads next and the cycle bit it expects there. A
    block of the other cycle is not for it; a link is followed, and toggles
    the cycle if it says so. *)
Definition cursor : Type := Z * Z.
Fixpoint hc_next (n : nat) (w : W) (c : cursor) : option xhci_trb_t * cursor :=
  match n with
  | O => (None, c)
  | S n =>
    let t := load_trb w (fst c) in
    if negb (t_ctrl t mod 2 =? snd c) then (None, c)
    else if TRB_GET_TYPE (t_ctrl t) =? TRBTYPE_LINK then
      hc_next n w (t_param t, if Z.testbit (t_ctrl t) 1 then 1 - snd c else snd c)
    else (Some (without_cycle t), (fst c + 16, snd c))
  end.

(** Driver, controller, and stores to other memory, in some order. *)
Inductive ring_op := Put (t : xhci_trb_t) | Take | Store (a : Z) (l : list Z).
Inductive ring_out := OutRc (rc : Z) | OutTrb (o : option xhci_trb_t).

Fixpoint ring_run (ring : trb_ring) (ops : list ring_op) (r : ring_st) (c : cursor) : M W (list ring_out * ring_st * cursor) :=
  match ops with
  | [] => mret ([], r, c)
  | Put t :: ops =>
    '(rc, r) ← ring_enqueue ring r (t_param t) (t_status t) (t_ctrl t);
    '(outs, r, c) ← ring_run ring ops r c;
    mret (OutRc rc :: outs, r, c)
  | Take :: ops =>
    '(o, c) ← gets (fun w => hc_next 2 w c);
    '(outs, r, c) ← ring_run ring ops r c;
    mret (OutTrb o :: outs, r, c)
  | Store a l :: ops => mem_store_bytes a l;; ring_run ring ops r c
  end.

(** What it should be: a queue of at most 62 blocks. *)
Fixpoint fifo_run (ops : list ring_op) (q : list xhci_trb_t) : option (list ring_out * list xhci_trb_t) :=
  match ops with
  | [] => Some ([], q)
  | Put t :: ops => if (length q <? 62)%nat then '(outs, q) ← fifo_run ops (q ++ [t]); Some (OutRc 0 :: outs, q) else None
  | Take :: ops =>
    match q with
    | [] => '(outs, q) ← fifo_run ops []; Some (OutTrb None :: outs, q)
    | t :: q => '(outs, q) ← fifo_run ops q; Some (OutTrb (Some t) :: outs, q)
    end
  | Store _ _ :: ops => fifo_run ops q
  end.

(** A block of the driver: no link, and the cycle bit is left to
    [ring_enqueue]. A store is outside the ring. *)
Definition block_ok (t : xhci_trb_t) : Prop :=
  in_u64 (t_param t) /\ in_u32 (t_status t) /\ in_u32 (t_ctrl t) /\ t_ctrl t mod 2 = 0 /\ TRB_GET_TYPE (t_ctrl t) <> TRBTYPE_LINK.
Definition op_ok (b : Z) (op : ring_op) : Prop :=
  match op with Put t => block_ok t | Take => True | Store a l => a + Z.of_nat (length l) <= b \/ b + 1024 <= a end.

(** ** The array and the queue *)

(** The cycle bit of the [j]-th block; a block's place. *)
Definition cyc (j : Z) : Z := 1 - (j / 63) mod 2.
Definition place (b j : Z) : Z := b + 16 * (j mod 63).

(** The last 63 blocks of [log] are in place with the cycle of their lap;
    places not written yet look like the lap before the first; the link has
    the cycle of the lap that is complete. *)
Definition ring_ok (b : Z) (log : list xhci_trb_t) (r : ring_st) (w : W) : Prop :=
  let N := Z.of_nat (length log) in
  r = RingSt (N mod 63) (cyc N) /\
  (forall j t, log !! j = Some t -> N <= Z.of_nat j + 63 -> let j := Z.of_nat j in
    load_trb w (place b j) = Trb (t_param t) (t_status t) (t_ctrl t + cyc j)) /\
  (forall i, N <= i < 63 -> t_ctrl (load_trb w (b + 16 * i)) mod 2 = 0) /\
  load_trb w (b + 16 * 63) = Trb b 0 (TRB_TYPE TRBTYPE_LINK + TRB_TC + (N / 63) mod 2).

(** The controller after [K] blocks: behind the last one, or, if that was the
    last of a lap, perhaps over the link already. *)
Definition cursor_ok (b : Z) (K : Z) (c : cursor) : Prop :=
  c = (place b K, cyc K) \/ (0 < K /\ K mod 63 = 0 /\ c = (b + 16 * 63, cyc (K - 1))).
End Queue.

Section Proofs.
Context {W : Type} `{!Dma W, !StoreLaw W} (b : Z) (Hb : 0 <= b /\ b + 1024 <= 2 ^ 64).
Implicit Types (w : W) (r : ring_st) (log q : list xhci_trb_t) (t : xhci_trb_t).

Lemma cyc_range j : cyc j = 0 \/ cyc j = 1.
Proof using. unfold cyc. zlia. Qed.
Lemma lor_cycle v c : v mod 2 = 0 -> c = 0 \/ c = 1 -> Z.lor v c = v + c.
Proof using. intros Hv Hc. replace v with (Z.shiftl (v / 2) 1) by (rewrite Z.shiftl_mul_pow2 by done; zlia). rewrite lor_shiftl_add, Z.shiftl_mul_pow2 by lia. zlia. Qed.
Lemma type_cycle v c : v mod 2 = 0 -> c = 0 \/ c = 1 -> TRB_GET_TYPE (v + c) = TRB_GET_TYPE v.
Proof using. intros Hv Hc. unfold TRB_GET_TYPE. rewrite !Z.shiftr_div_pow2 by done. change (2 ^ 10) with 1024. f_equal. zlia. Qed.

Lemma load_trb_ext w w' a : (forall x, a <= x < a + 16 -> mem w' x = mem w x) -> load_trb w' a = load_trb w a.
Proof using. intros H. unfold load_trb. f_equal; f_equal; apply mem_bytes_ext; intros; apply H; lia. Qed.
Lemma store_in a l w : mem_bytes (set_mem_at a l w) a (length l) = l /\ (forall x, ~ in_range x a (Z.of_nat (length l)) -> mem (set_mem_at a l w) x = mem w x).
Proof using StoreLaw0. apply store_bytes, store_law. Qed.
Lemma store_out a l w x (n : nat) : x + Z.of_nat n <= a \/ a + Z.of_nat (length l) <= x -> mem_bytes (set_mem_at a l w) x n = mem_bytes w x n.
Proof using StoreLaw0. intros H. apply mem_bytes_ext. intros y Hy. apply (proj2 (store_in a l w)). unfold in_range. lia. Qed.

(** A block written field by field. *)
Lemma put_block a p s c w : in_u64 p -> in_u32 s -> in_u32 c ->
  let w' := set_mem_at (a + 12) (le_bytes 4 c) (set_mem_at (a + 8) (le_bytes 4 s) (set_mem_at a (le_bytes 8 p) w)) in
  load_trb w' a = Trb p s c /\ forall x, x < a \/ a + 16 <= x -> mem w' x = mem w x.
Proof using StoreLaw0.
  intros Hp Hs Hc w'. unfold w'. split.
  - unfold load_trb. set (w1 := set_mem_at a _ w). set (w2 := set_mem_at (a + 8) _ w1).
    pose proof (proj1 (store_in (a + 12) (le_bytes 4 c) w2)) as E3. pose proof (proj1 (store_in (a + 8) (le_bytes 4 s) w1)) as E2.
    pose proof (proj1 (store_in a (le_bytes 8 p) w)) as E1. rewrite length_le_bytes in E1, E2, E3. fold w1 in E1. fold w2 in E2.
    rewrite E3. rewrite (store_out _ _ _ a 8), (store_out _ _ _ (a + 8) 4) by (rewrite length_le_bytes; lia).
    unfold w2 at 1. rewrite (store_out _ _ _ a 8) by (rewrite length_le_bytes; lia). rewrite E1, E2, !le_val_bytes.
    unfold in_u64, in_u32 in *. rewrite !Z.mod_small by (cbn; lia). done.
  - intros x Hx. rewrite !(proj2 (store_in _ _ _)); [done| | |]; unfold in_range; rewrite length_le_bytes; lia.
Qed.
(** The link with a new cycle bit. *)
Lemma put_link a c w p s c0 : in_u32 c -> load_trb w a = Trb p s c0 -> let w' := set_mem_at (a + 12) (le_bytes 4 c) w in
  load_trb w' a = Trb p s c /\ forall x, x < a + 12 \/ a + 16 <= x -> mem w' x = mem w x.
Proof using StoreLaw0.
  intros Hc Hl w'. unfold w'. split.
  - pose proof (f_equal t_param Hl) as H1. pose proof (f_equal t_status Hl) as H2. unfold load_trb in *. cbn [t_param t_status] in H1, H2. pose proof (proj1 (store_in (a + 12) (le_bytes 4 c) w)) as E. rewrite length_le_bytes in E.
    rewrite E, (store_out _ _ _ a 8), (store_out _ _ _ (a + 8) 4) by (rewrite length_le_bytes; lia). rewrite le_val_bytes.
    unfold in_u32 in Hc. rewrite Z.mod_small by (cbn; lia). by rewrite H1, H2.
  - intros x Hx. apply (proj2 (store_in _ _ _)). unfold in_range. rewrite length_le_bytes. lia.
Qed.

(** ** Enqueuing *)

Lemma type_link_cycle c : c = 0 \/ c = 1 -> Z.lor (Z.lor (TRB_TYPE TRBTYPE_LINK) TRB_TC) c = TRB_TYPE TRBTYPE_LINK + TRB_TC + c.
Proof using. intros [-> | ->]; reflexivity. Qed.
Lemma block_ctrl t c : block_ok t -> c = 0 \/ c = 1 -> Z.lor (t_ctrl t) c = t_ctrl t + c /\ in_u32 (t_ctrl t + c).
Proof using. intros (_ & _ & Hc & He & _) H. split; [by apply lor_cycle|]. unfold in_u32 in *. zlia. Qed.

(** Everything but the new place is as it was. *)
Lemma ring_ok_put log t w w' : let N := Z.of_nat (length log) in ring_ok b log (RingSt (N mod 63) (cyc N)) w ->
  load_trb w' (place b N) = Trb (t_param t) (t_status t) (t_ctrl t + cyc N) ->
  (forall i, 0 <= i < 63 -> i <> N mod 63 -> load_trb w' (b + 16 * i) = load_trb w (b + 16 * i)) ->
  load_trb w' (b + 16 * 63) = Trb b 0 (TRB_TYPE TRBTYPE_LINK + TRB_TC + ((N + 1) / 63) mod 2) ->
  ring_ok b (log ++ [t]) (RingSt ((N + 1) mod 63) (cyc (N + 1))) w'.
Proof using.
  intros N (_ & Hold & Hnew & _) Ht Hf Hl. unfold ring_ok. rewrite length_app, Nat2Z.inj_add. cbn [length]. change (Z.of_nat 1) with 1. fold N.
  split; [done|]. split; [|split; [|done]].
  - intros j u Hj HN. cbv zeta. apply lookup_app_Some in Hj as [Hj|[Hlen Hj]].
    + pose proof (lookup_lt_Some _ _ _ Hj). unfold place. rewrite Hf; [|zlia|unfold N in *; zlia]. apply Hold; [done|lia].
    + replace (Z.of_nat j) with N; [|apply list_lookup_singleton_Some in Hj as [? _]; unfold N; lia].
      apply list_lookup_singleton_Some in Hj as [_ <-]. exact Ht.
  - intros i Hi. rewrite Hf; [|lia|rewrite Z.mod_small by (unfold N in *; lia); lia]. apply Hnew. lia.
Qed.

Lemma ring_enqueue_ok log r t w : ring_ok b log r w -> block_ok t ->
  exists r' w', ring_enqueue (TrbRing b XHCI_RING_SIZE) r (t_param t) (t_status t) (t_ctrl t) w = Some (0, r', w') /\ ring_ok b (log ++ [t]) r' w'.
Proof using StoreLaw0.
  intros Hok Ht. pose proof Hok as (-> & _ & _ & Hlink). set (N := Z.of_nat (length log)) in *. assert (HN : 0 <= N) by lia.
  pose proof (cyc_range N) as Hc. destruct (block_ctrl t (cyc N) Ht Hc) as [Hlor Hin]. destruct Ht as (T1 & T2 & T3 & T4 & T5).
  unfold ring_enqueue. cbn [rg_enq rg_cs]. destruct (Z.geb_spec (N mod 63) (XHCI_RING_SIZE - 1)) as [H|_]; [unfold XHCI_RING_SIZE in H; zlia|].
  replace (if negb (cyc N =? 0) then TRB_C else 0) with (cyc N) by (destruct Hc as [-> | ->]; done). rewrite Hlor. cbv zeta.
  assert (Htrb : forall i, 0 <= i < 64 -> trb_at (TrbRing b XHCI_RING_SIZE) i = Some (b + 16 * i)).
  { intros i Hi. unfold trb_at. cbn [tr_len tr_base]. unfold XHCI_RING_SIZE. rewrite (proj2 (Z.leb_le 0 i)), (proj2 (Z.ltb_lt i 64)) by lia. done. }
  rewrite (Htrb (N mod 63)) by zlia. fold (place b N).
  destruct (put_block (place b N) (t_param t) (t_status t) (t_ctrl t + cyc N) w T1 T2 Hin) as [Hput Hframe]. cbv zeta in Hput, Hframe.
  set (w1 := set_mem_at (place b N + 12) _ _) in Hput, Hframe.
  assert (Hsame : forall i, 0 <= i < 64 -> i <> N mod 63 -> load_trb w1 (b + 16 * i) = load_trb w (b + 16 * i))
    by (intros i Hi Hne; apply load_trb_ext; intros x Hx; apply Hframe; unfold place; lia).
  change (XHCI_RING_SIZE - 1) with 63. destruct (Z.eqb_spec (N mod 63 + 1) 63) as [E|E].
  - rewrite E, (Htrb 63), type_link_cycle by (done || lia).
    assert (Hl1 : load_trb w1 (b + 16 * 63) = Trb b 0 (TRB_TYPE TRBTYPE_LINK + TRB_TC + (N / 63) mod 2)) by (rewrite Hsame by lia; done).
    destruct (put_link (b + 16 * 63) (TRB_TYPE TRBTYPE_LINK + TRB_TC + cyc N) w1 _ _ _ ltac:(destruct Hc as [-> | ->]; done) Hl1) as [Hl2 Hf2].
    cbv zeta in Hl2, Hf2. set (w2 := set_mem_at _ _ w1) in Hl2, Hf2.
    exists (RingSt ((N + 1) mod 63) (cyc (N + 1))), w2. split.
    + transitivity (Some (0, RingSt 0 (Z.lxor (cyc N) 1), w2)); [done|]. do 2 f_equal. f_equal. f_equal; [zlia|].
      unfold cyc in *. destruct Hc as [Hc|Hc]; rewrite Hc; [change (Z.lxor 0 1) with 1|change (Z.lxor 1 1) with 0]; zlia.
    + assert (He2 : forall i, 0 <= i < 63 -> load_trb w2 (b + 16 * i) = load_trb w1 (b + 16 * i)) by (intros; apply load_trb_ext; intros; apply Hf2; lia).
      apply ring_ok_put with (w := w); [done| | |]; fold N.
      * unfold place. rewrite He2 by zlia. exact Hput.
      * intros i Hi Hne. rewrite He2 by done. apply Hsame; [lia|done].
      * rewrite Hl2. do 2 f_equal. unfold cyc. zlia.
  - exists (RingSt ((N + 1) mod 63) (cyc (N + 1))), w1. split.
    + transitivity (Some (0, RingSt (N mod 63 + 1) (cyc N), w1)); [done|]. do 2 f_equal. f_equal. f_equal; [zlia|]. unfold cyc. zlia.
    + apply ring_ok_put with (w := w); [done|exact Hput|intros i Hi Hne; apply Hsame; [lia|done]|]. fold N.
      rewrite Hsame, Hlink by zlia. do 2 f_equal. fold N. zlia.
Qed.

(** ** Reading *)

Lemma hc_next_place n log r w K : ring_ok b log r w -> Forall block_ok log -> let N := Z.of_nat (length log) in 0 <= K <= N -> N <= K + 62 ->
  hc_next (S n) w (place b K, cyc K) =
    match log !! Z.to_nat K with Some t => (Some t, (place b K + 16, cyc K)) | None => (None, (place b K, cyc K)) end.
Proof using.
  intros (_ & Hold & Hnew & _) Hall N HK HN. cbn [hc_next fst snd]. pose proof (cyc_range K) as Hc. destruct (log !! Z.to_nat K) as [t|] eqn:E.
  - pose proof (Forall_lookup_1 _ _ _ _ Hall E) as (_ & _ & _ & He & Hty).
    pose proof (Hold _ _ E ltac:(lia)) as Hl. cbv zeta in Hl. rewrite (Z2Nat.id K) in Hl by lia. rewrite Hl. cbn [t_ctrl].
    destruct (Z.eqb_spec ((t_ctrl t + cyc K) mod 2) (cyc K)) as [_|H]; [|zlia]. cbn [negb]. rewrite type_cycle by done.
    destruct (Z.eqb_spec (TRB_GET_TYPE (t_ctrl t)) TRBTYPE_LINK) as [|_]; [done|]. f_equal. f_equal. unfold without_cycle. cbn [t_param t_status t_ctrl].
    destruct t as [p s c]. cbn [t_param t_status t_ctrl] in *. f_equal. zlia.
  - apply lookup_ge_None_1 in E. assert (HKN : K = N) by (unfold N in *; lia).
    assert (Hlow : t_ctrl (load_trb w (place b K)) mod 2 = 1 - cyc K).
    { destruct (Z.lt_ge_cases K 63) as [H|H]; [unfold place; rewrite (Z.mod_small K 63) by lia; rewrite Hnew by lia; unfold cyc; zlia|].
      destruct (lookup_lt_is_Some_2 log (Z.to_nat (K - 63))) as [t Ht]; [lia|]. pose proof (Forall_lookup_1 _ _ _ _ Hall Ht) as (_ & _ & _ & He & _).
      pose proof (Hold _ _ Ht ltac:(lia)) as Hl. cbv zeta in Hl. rewrite Z2Nat.id in Hl by lia.
      replace (place b K) with (place b (K - 63)) by (unfold place; zlia). rewrite Hl. cbn [t_ctrl]. unfold cyc in *. zlia. }
    rewrite Hlow. destruct (Z.eqb_spec (1 - cyc K) (cyc K)) as [H|_]; [lia|]. done.
Qed.

Lemma place_next K : 0 <= K -> cursor_ok b (K + 1) (place b K + 16, cyc K).
Proof using.
  intros HK. unfold cursor_ok, place. destruct (decide ((K + 1) mod 63 = 0)).
  - right. split; [lia|]. split; [done|]. replace (K + 1 - 1) with K by lia. f_equal. zlia.
  - left. f_equal; [zlia|]. unfold cyc. zlia.
Qed.

(** A look of the controller at a ring in which at most 62 blocks wait. *)
Lemma hc_next_ok log r w K c : ring_ok b log r w -> Forall block_ok log -> cursor_ok b K c -> let N := Z.of_nat (length log) in 0 <= K <= N -> N <= K + 62 ->
  exists c', hc_next 2 w c = (log !! Z.to_nat K, c') /\ cursor_ok b (if bool_decide (K < N) then K + 1 else K) c'.
Proof using.
  intros Hok Hall Hcur N HK HN.
  assert (Hat : forall n, exists c', hc_next (S n) w (place b K, cyc K) = (log !! Z.to_nat K, c') /\ cursor_ok b (if bool_decide (K < N) then K + 1 else K) c').
  { intros n. rewrite (hc_next_place n log r w K) by done. destruct (log !! Z.to_nat K) as [t|] eqn:E.
    - apply lookup_lt_Some in E. rewrite bool_decide_true by lia. eexists. split; [done|]. apply place_next. lia.
    - apply lookup_ge_None_1 in E. rewrite bool_decide_false by lia. eexists. split; [done|]. by left. }
  destruct Hcur as [-> |(Hpos & Hlap & ->)]; [apply Hat|].
  destruct Hok as (Hr & Hold & Hnew & Hlink). fold N in Hlink. cbn [hc_next fst snd]. cbn [hc_next] in Hat. rewrite Hlink. cbn [t_ctrl t_param].
  replace (N / 63) with (K / 63) by zlia. assert (Hc : cyc (K - 1) = (K / 63) mod 2) by (unfold cyc; zlia).
  assert (Hc' : cyc K = 1 - cyc (K - 1)) by (rewrite Hc; done). rewrite <- Hc. pose proof (cyc_range (K - 1)) as Hr01.
  replace ((TRB_TYPE TRBTYPE_LINK + TRB_TC + cyc (K - 1)) mod 2 =? cyc (K - 1)) with true by (destruct Hr01 as [-> | ->]; reflexivity).
  replace (TRB_GET_TYPE (TRB_TYPE TRBTYPE_LINK + TRB_TC + cyc (K - 1)) =? TRBTYPE_LINK) with true by (destruct Hr01 as [-> | ->]; reflexivity).
  replace (Z.testbit (TRB_TYPE TRBTYPE_LINK + TRB_TC + cyc (K - 1)) 1) with true by (destruct Hr01 as [-> | ->]; reflexivity).
  cbn [negb]. rewrite <- Hc'. destruct (Hat O) as (c' & E & Hc2). exists c'. split; [|done]. rewrite <- E. unfold place. rewrite Hlap.
  replace (b + 16 * 0) with b by lia. done.
Qed.

(** ** The start *)

Lemma trb_at_ok i : 0 <= i < 64 -> trb_at (TrbRing b XHCI_RING_SIZE) i = Some (b + 16 * i).
Proof using. intros Hi. unfold trb_at. cbn [tr_len tr_base]. unfold XHCI_RING_SIZE. rewrite (proj2 (Z.leb_le 0 i)), (proj2 (Z.ltb_lt i 64)) by lia. done. Qed.
Lemma zero_trbs_ok n : forall i w, 0 <= i -> i + Z.of_nat n <= 64 -> exists w', zero_trbs n (TrbRing b XHCI_RING_SIZE) i w = Some (tt, w') /\
  (forall j, i <= j < i + Z.of_nat n -> load_trb w' (b + 16 * j) = Trb 0 0 0) /\ (forall x, x < b + 16 * i -> mem w' x = mem w x).
Proof using StoreLaw0.
  induction n as [|n IH]; intros i w Hi Hn; cbn [zero_trbs]; [exists w; split; [done|]; split; [lia|done]|]. rewrite trb_at_ok by lia.
  set (zero := le_bytes 8 0 ++ le_bytes 4 0 ++ le_bytes 4 0). set (w1 := set_mem_at (b + 16 * i) zero w).
  destruct (IH (i + 1) w1 ltac:(lia) ltac:(lia)) as (w' & E & Hz & Hf). exists w'. split; [exact E|].
  destruct (store_in (b + 16 * i) zero w) as [H1 H2]. fold w1 in H1, H2. split.
  - intros j Hj. destruct (decide (j = i)) as [->|Hne]; [|apply Hz; lia].
    rewrite (load_trb_ext w1) by (intros; apply Hf; lia). unfold load_trb.
    assert (Hsub : forall off m, 0 <= off -> 0 <= m -> off + m <= 16 -> mem_bytes w1 (b + 16 * i + off) (Z.to_nat m) = slice zero off m).
    { intros off m H3 H4 H5. rewrite <- (slice_mem_bytes w1 (b + 16 * i) 16) by lia. change 16%nat with (length zero). by rewrite H1. }
    pose proof (Hsub 0 8) as G1. pose proof (Hsub 8 4) as G2. pose proof (Hsub 12 4) as G3. rewrite Z.add_0_r in G1.
    change (Z.to_nat 8) with 8%nat in *. change (Z.to_nat 4) with 4%nat in *. by rewrite G1, G2, G3 by lia.
  - intros x Hx. rewrite Hf by lia. apply H2. unfold in_range. lia.
Qed.
Lemma ring_init_ok w : exists w', ring_init (TrbRing b XHCI_RING_SIZE) XHCI_RING_SIZE w = Some (tt, w') /\ ring_ok b [] (RingSt 0 1) w'.
Proof using StoreLaw0 Hb.
  destruct (zero_trbs_ok 64 0 w ltac:(lia) ltac:(lia)) as (w1 & E & Hz & _). unfold ring_init. change (Z.to_nat XHCI_RING_SIZE) with 64%nat.
  rewrite (bind_eq _ _ _ _ _ E). change (XHCI_RING_SIZE - 1) with 63. rewrite trb_at_ok by lia. cbn [tr_base].
  set (w2 := set_mem_at (b + 16 * 63) (le_bytes 8 b) w1). set (v := Z.lor (TRB_TYPE TRBTYPE_LINK) TRB_TC).
  set (w3 := set_mem_at (b + 16 * 63 + 12) (le_bytes 4 v) w2). exists w3. split; [done|].
  pose proof (store_in (b + 16 * 63) (le_bytes 8 b) w1) as [A1 A2]. rewrite length_le_bytes in A1, A2. fold w2 in A1, A2.
  assert (H2 : load_trb w2 (b + 16 * 63) = Trb b 0 0).
  { pose proof (Hz 63 ltac:(lia)) as H0. pose proof (f_equal t_status H0) as H4. pose proof (f_equal t_ctrl H0) as H5. unfold load_trb in *. cbn [t_status t_ctrl] in H4, H5.
    rewrite A1. unfold w2. rewrite !store_out by (rewrite length_le_bytes; lia). rewrite H4, H5, le_val_bytes, Z.mod_small by (cbn; lia). done. }
  destruct (put_link (b + 16 * 63) v w2 _ _ _ ltac:(done) H2) as [H3 Hf]. cbv zeta in H3, Hf. fold w3 in H3, Hf.
  unfold ring_ok. cbn [length]. split; [done|]. split; [done|]. split; [|exact H3].
  intros i Hi. rewrite (load_trb_ext w2) by (intros; apply Hf; lia). rewrite (load_trb_ext w1); [by rewrite Hz by lia|].
  intros x Hx. apply A2. unfold in_range. lia.
Qed.

(** ** Driver and controller together *)

(** Memory of others. *)
Lemma ring_ok_frame log r w a l : ring_ok b log r w -> op_ok b (Store a l) -> ring_ok b log r (set_mem_at a l w).
Proof using StoreLaw0.
  intros (H1 & H2 & H3 & H4) Hout. cbn [op_ok] in Hout.
  assert (E : forall i, 0 <= i < 64 -> load_trb (set_mem_at a l w) (b + 16 * i) = load_trb w (b + 16 * i))
    by (intros i Hi; apply load_trb_ext; intros x Hx; apply (proj2 (store_in a l w)); unfold in_range; lia).
  split; [done|]. split; [|split; [|by rewrite E by lia]].
  - intros j t Hj HN. cbv zeta. unfold place. rewrite E by zlia. by apply H2.
  - intros i Hi. rewrite E by lia. by apply H3.
Qed.

Lemma ring_run_ok ops : forall log r w K c q outs q', ring_ok b log r w -> Forall block_ok log -> cursor_ok b K c -> 0 <= K ->
  q = drop (Z.to_nat K) log -> K + Z.of_nat (length q) = Z.of_nat (length log) -> (length q <= 62)%nat -> Forall (op_ok b) ops -> fifo_run ops q = Some (outs, q') ->
  exists r' c' w', ring_run (TrbRing b XHCI_RING_SIZE) ops r c w = Some (outs, r', c', w').
Proof using StoreLaw0.
  induction ops as [|op ops IH]; intros log r w K c q outs q' Hok Hall Hcur HK Hq Hlen H62 Hops Hrun.
  - cbn in Hrun. injection Hrun as <- <-. by eexists _, _, _.
  - apply Forall_cons in Hops as [Hop Hops]. destruct op as [t| |a l]; cbn [fifo_run ring_run] in *.
    + destruct (Nat.ltb_spec (length q) 62) as [Hlt|]; [|done]. cbn [op_ok] in Hop.
      destruct (fifo_run ops (q ++ [t])) as [[outs1 q1]|] eqn:E; [|done]. cbn in Hrun. injection Hrun as <- <-.
      destruct (ring_enqueue_ok log r t w Hok Hop) as (r1 & w1 & E1 & Hok1). rewrite (bind_eq _ _ _ _ _ E1).
      destruct (IH (log ++ [t]) r1 w1 K c (q ++ [t]) outs1 q1) as (r2 & c2 & w2 & E2); try done.
      * apply Forall_app. by split; [|constructor].
      * rewrite Hq, drop_app_le by lia. done.
      * rewrite !length_app. cbn. lia.
      * rewrite length_app. cbn. lia.
      * exists r2, c2, w2. cbv beta iota. by rewrite (bind_eq _ _ _ _ _ E2).
    + destruct (hc_next_ok log r w K c Hok Hall Hcur) as (c1 & E1 & Hcur1); [lia|lia|]. cbv zeta in Hcur1.
      assert (Ehead : log !! Z.to_nat K = head q) by (rewrite Hq, head_lookup, lookup_drop; f_equal; lia).
      rewrite Ehead in E1. rewrite (bind_eq _ _ w (head q, c1) w) by (unfold gets; by rewrite E1). cbv beta iota.
      destruct q as [|t q]; cbn [head length] in *.
      * destruct (fifo_run ops []) as [[outs1 q1]|] eqn:E; [|done]. cbn in Hrun. injection Hrun as <- <-.
        rewrite bool_decide_false in Hcur1 by lia.
        destruct (IH log r w K c1 [] outs1 q1) as (r2 & c2 & w2 & E2); try done. exists r2, c2, w2. by rewrite (bind_eq _ _ _ _ _ E2).
      * destruct (fifo_run ops q) as [[outs1 q1]|] eqn:E; [|done]. cbn in Hrun. injection Hrun as <- <-.
        rewrite bool_decide_true in Hcur1 by lia.
        destruct (IH log r w (K + 1) c1 q outs1 q1) as (r2 & c2 & w2 & E2); try done; try lia.
        -- replace (Z.to_nat (K + 1)) with (Z.to_nat K + 1)%nat by lia. rewrite <- drop_drop, <- Hq. done.
        -- exists r2, c2, w2. by rewrite (bind_eq _ _ _ _ _ E2).
    + destruct (IH log r (set_mem_at a l w) K c q outs q') as (r2 & c2 & w2 & E2); try done; [by apply ring_ok_frame|]. by exists r2, c2, w2.
Qed.

(** C37 (xhci.c, [ring_init], [ring_enqueue]): on a ring of 64 blocks the
    enqueuing of the driver and the reading of the controller, which follows
    cycle bits and the link block, in any order and over any number of laps,
    act as one first-in-first-out queue, as long as at most 62 blocks wait:
    every block is read once, in order and as it was written, and a
    controller with nothing to read finds that out. Stores to other memory do
    not matter. *)
Theorem ring_fifo_correct ops w outs q : Forall (op_ok b) ops -> fifo_run ops [] = Some (outs, q) ->
  exists w0, ring_init (TrbRing b XHCI_RING_SIZE) XHCI_RING_SIZE w = Some (tt, w0) /\
  exists r c w', ring_run (TrbRing b XHCI_RING_SIZE) ops (RingSt 0 1) (b, 1) w0 = Some (outs, r, c, w').
Proof using StoreLaw0 Hb.
  intros Hops Hrun. destruct (ring_init_ok w) as (w0 & E & Hok). exists w0. split; [done|].
  eapply (ring_run_ok ops [] (RingSt 0 1) w0 0 (b, 1) [] outs q); try done; [|cbn; lia]. left. unfold place. change (16 * (0 mod 63)) with 0. by rewrite Z.add_0_r.
Qed.
End Proofs.

(** ** A memory, and rings that are too short *)

Module RingDemo.
#[global] Instance sim_dma : Dma (Z -> Z) := {| mem m := m; set_mem_at := store_at; dma m := m |}.
#[global] Instance sim_law : StoreLaw (Z -> Z).
Proof. intros w a l x. unfold store_law, store_at. cbn [mem set_mem_at sim_dma]. unfold store_at. done. Qed.

Definition block (i : Z) : xhci_trb_t := Trb i 8 (TRB_TYPE TRBTYPE_NORMAL).
(** 70 blocks, each read before the next, and two looks in vain. *)
Definition laps : list ring_op := Take :: flat_map (fun i => [Put (block (Z.of_nat i)); Take]) (seq 0 70) ++ [Take].
Lemma laps_ok : Forall (op_ok 0) laps.
Proof. unfold laps. constructor; [done|]. apply Forall_app. split; [|by constructor]. apply Forall_flat_map, Forall_forall. intros i Hi. apply elem_of_seq in Hi.
  repeat constructor; cbn; try done; try lia. Qed.

(** The sixteenth block of a ring of 16 entries overwrites its link block, and
    the one after it is behind the array. *)
Definition short_run (n : nat) : option (Z * ring_st * (Z -> Z)) :=
  fold_left (fun s i => '(_, r, m) ← s; ring_enqueue (TrbRing 0 16) r i 8 (TRB_TYPE TRBTYPE_NORMAL) m) (Z.of_nat <$> seq 0 n) (Some (0, RingSt 0 1, fun _ => 0)).
Example short_ring_ex : (fun s => TRB_GET_TYPE (t_ctrl (load_trb (snd s) 240))) <$> short_run 16 = Some TRBTYPE_NORMAL /\ short_run 17 = None.
Proof. vm_compute. done. Qed.
End RingDemo.

Lemma ring_fifo_correct_witness : exists w0, ring_init (W := Z -> Z) (TrbRing 0 XHCI_RING_SIZE) XHCI_RING_SIZE (fun _ => 0xFF) = Some (tt, w0) /\
  exists r c w', ring_run (TrbRing 0 XHCI_RING_SIZE) RingDemo.laps (RingSt 0 1) (0, 1) w0 =
    Some (OutTrb None :: flat_map (fun i => [OutRc 0; OutTrb (Some (RingDemo.block (Z.of_nat i)))]) (seq 0 70) ++ [OutTrb None], r, c, w').
Proof.
  apply (ring_fifo_correct 0 ltac:(lia) RingDemo.laps (fun _ => 0xFF) _ [] RingDemo.laps_ok). vm_compute. reflexivity.
Defined.
