(* ===== verification/Hid.v ===== *)
(** * drivers/usbhid.c: keyboards and mice on the USB

    The set-up of the interrupt endpoints of boot-protocol devices and the poll
    that the timer interrupt makes, over the rings and commands of Xhci. The
    reports, the endpoint search and the interval are in Input. The arrays of
    the file are at the addresses of a [hid_mem]; a ring has its 16 entries,
    and a block behind them is [None]. *)

From S2P Require Import Prelude Hw Xhci Input.

Definition USBHID_MAX_DEV : Z := 4.
Definition HID_RING_SZ : Z := 16.

(** A registered device ([hid_devs] below [hid_count], all of them [valid]). *)
Record hid_dev_t := HidDev {
  hd_slot : Z; hd_epid : Z; hd_report_len : Z; hd_mouse : bool; hd_pending : bool; hd_prev : list Z;
}.
Record hid_mem := HidMem { a_hid_rings : Z; a_hid_buf : Z; a_cfg_buf : Z }.
(** The devices, the producer's place in each of the four rings, and how many
    keyboards and mice there are. *)
Record hid_st := Hid { hid_devs : list hid_dev_t; hid_enq : list ring_st; hid_kbd_n : Z; hid_mse_n : Z }.
Definition hid_bss : hid_st := Hid [] (replicate 4 (RingSt 0 0)) 0 0.
Definition hid_count (h : hid_st) : Z := Z.of_nat (length (hid_devs h)).
Definition set_dev (i : nat) (d : hid_dev_t) (h : hid_st) : hid_st := Hid (<[i := d]> (hid_devs h)) (hid_enq h) (hid_kbd_n h) (hid_mse_n h).
Definition set_enq (i : nat) (r : ring_st) (h : hid_st) : hid_st := Hid (hid_devs h) (<[i := r]> (hid_enq h)) (hid_kbd_n h) (hid_mse_n h).
Definition set_pending (b : bool) (d : hid_dev_t) : hid_dev_t := HidDev (hd_slot d) (hd_epid d) (hd_report_len d) (hd_mouse d) b (hd_prev d).
Definition set_prev (l : list Z) (d : hid_dev_t) : hid_dev_t := HidDev (hd_slot d) (hd_epid d) (hd_report_len d) (hd_mouse d) (hd_pending d) l.

Section Hid.
Context {W : Type} `{!Ports W, !Mmio W, !MmioWide W, !Dma W, !Clock W} (L : xhci_mem) (H : hid_mem) (fuel : nat).

Definition hid_ring (i : nat) : trb_ring := TrbRing (a_hid_rings H + 256 * Z.of_nat i) HID_RING_SZ.

(** ** Requests *)

Definition hid_set_protocol (slot iface : Z) (s : xhci_st) : M W (Z * xhci_st) := control_xfer L fuel slot (Setup 0x21 0x0B 0 iface 0) None 0 s.
Definition hid_set_idle (slot iface : Z) (s : xhci_st) : M W (Z * xhci_st) := control_xfer L fuel slot (Setup 0x21 0x0A 0 iface 0) None 0 s.

Definition build_intr_ep_input_ctx (epid speed port maxpkt interval ring : Z) : M W unit :=
  let ictx := a_input_ctx L in
  mem_store_bytes ictx (replicate (Z.to_nat INPUT_CTX_SIZE) 0);;
  store_dw (ictx + 4) [Z.lor 1 (u32 (Z.shiftl 1 epid))];;
  store_dw (ictx + 32) [Z.lor (SLOT_CTX_SPEED speed) (SLOT_CTX_CTX_ENT epid); SLOT_CTX_ROOTPORT (port + 1)];;
  let tr_ptr := Z.lor ring 1 in
  store_dw (ictx + 64 + 32 * (epid - 1))
    [EP_CTX_INTERVAL (ep_interval_field speed interval);
     Z.lor (Z.lor (EP_CTX_EP_TYPE EP_TYPE_INT_IN) (EP_CTX_CERR 3)) (EP_CTX_MAX_PKT maxpkt);
     Z.land tr_ptr 0xFFFFFFFF; u32 (Z.shiftr tr_ptr 32); 1].

(** ** Transfers *)

(** What [ring_enqueue] returns is not looked at. *)
Definition hid_enqueue_trb (i : nat) (h : hid_st) (s : xhci_st) : M W hid_st :=
  hd ← lift_option (hid_devs h !! i);
  r ← lift_option (hid_enq h !! i);
  '(_, r) ← ring_enqueue (hid_ring i) r (a_hid_buf H + 8 * Z.of_nat i) (hd_report_len hd) (Z.lor (TRB_TYPE TRBTYPE_NORMAL) TRB_IOC);
  ep_doorbell (hd_slot hd) (hd_epid hd) s;;
  mret (set_dev i (set_pending true hd) (set_enq i r h)).

(** Steps 1 and 2: the configuration descriptor, [Some] its length. *)
Definition fetch_config (ud : usb_device_t) (s : xhci_st) : M W (option Z * xhci_st) :=
  '(cc, s) ← get_descriptor L fuel (ud_slot ud) 0x02 0 (a_cfg_buf H) 9 s;
  if negb (cc =? CC_SUCCESS) then mret (None, s)
  else
    cfg ← mem_load_bytes (a_cfg_buf H) 9;
    let total_len := get16 cfg 2 in
    let total_len := if total_len >? 512 then 512 else total_len in
    '(cc, s) ← get_descriptor L fuel (ud_slot ud) 0x02 0 (a_cfg_buf H) total_len s;
    if negb (cc =? CC_SUCCESS) && negb (cc =? CC_SHORT_PKT) then mret (None, s) else mret (Some total_len, s).

(** Steps 4 to 10. *)
Definition setup_device (ud : usb_device_t) (ep : hid_ep) (h : hid_st) (s : xhci_st) : M W (hid_st * xhci_st) :=
  '(_, s) ← hid_set_protocol (ud_slot ud) (he_iface ep) s;
  '(_, s) ← hid_set_idle (ud_slot ud) (he_iface ep) s;
  let epid := Z.land (he_addr ep) 0x0F * 2 + 1 in
  let maxpkt := if he_maxpkt ep >? 8 then 8 else he_maxpkt ep in
  let i := length (hid_devs h) in
  ring_init (hid_ring i) HID_RING_SZ;;
  let h := set_enq i (RingSt 0 1) h in
  build_intr_ep_input_ctx epid (ud_speed ud) (ud_port ud) maxpkt (he_interval ep) (tr_base (hid_ring i));;
  '(cc, s) ← xhci_cfg_ep L fuel (ud_slot ud) (a_input_ctx L) s;
  if negb (cc =? CC_SUCCESS) then mret (h, s)
  else
    let d := HidDev (ud_slot ud) epid maxpkt (he_mouse ep) false (replicate 8 0) in
    let h := Hid (hid_devs h ++ [d]) (hid_enq h) (if he_mouse ep then hid_kbd_n h else hid_kbd_n h + 1)
               (if he_mouse ep then hid_mse_n h + 1 else hid_mse_n h) in
    h ← hid_enqueue_trb i h s;
    mret (h, s).

Definition init_one (ud : usb_device_t) (h : hid_st) (s : xhci_st) : M W (hid_st * xhci_st) :=
  '(o, s) ← fetch_config ud s;
  match o with
  | None => mret (h, s)
  | Some total_len =>
    cfg ← mem_load_bytes (a_cfg_buf H) 512;
    e ← lift_option (find_hid_boot_ep cfg total_len);
    match e with None => mret (h, s) | Some ep => setup_device ud ep h s end
  end.
Fixpoint init_loop (uds : list usb_device_t) (h : hid_st) (s : xhci_st) : M W (hid_st * xhci_st) :=
  match uds with
  | [] => mret (h, s)
  | ud :: uds => if hid_count h <? USBHID_MAX_DEV then '(h, s) ← init_one ud h s; init_loop uds h s else mret (h, s)
  end.
Definition usbhid_init (h : hid_st) (s : xhci_st) : M W (hid_st * xhci_st) := init_loop (xh_devs s) h s.

(** ** The poll *)

(** The report of device [i], in its buffer, is given to the input drivers. *)
Definition hid_report (i : nat) (code : Z) (h : hid_st) (inp : input_st) : M W (hid_st * input_st) :=
  hd ← lift_option (hid_devs h !! i);
  if (code =? CC_SUCCESS) || (code =? CC_SHORT_PKT) then
    buf ← mem_load_bytes (a_hid_buf H + 8 * Z.of_nat i) 8;
    if hd_mouse hd then m ← lift_option (process_mouse_report buf (hd_report_len hd) (in_mouse inp)); mret (h, with_mouse m inp)
    else
      '(prev, k) ← lift_option (process_kbd_report (hd_prev hd) buf (in_kbd inp));
      mret (set_dev i (set_prev prev hd) h, with_kbd k inp)
  else mret (h, inp).

Definition is_waiting (slot epid : Z) (hd : hid_dev_t) : bool := hd_pending hd && (hd_slot hd =? slot) && (hd_epid hd =? epid).
(** The first device that waits for the endpoint of the event. *)
Fixpoint find_dev (i : nat) (slot epid : Z) (l : list hid_dev_t) : option (nat * hid_dev_t) :=
  match l with [] => None | hd :: l => if is_waiting slot epid hd then Some (i, hd) else find_dev (S i) slot epid l end.

Definition usbhid_poll (h : hid_st) (s : xhci_st) (inp : input_st) : M W (hid_st * xhci_st * input_st) :=
  if hid_count h =? 0 then mret (h, s, inp)
  else
    '(o, s) ← xhci_evt_try L s;
    match o with
    | None => mret (h, s, inp)
    | Some ev =>
      if negb (TRB_GET_TYPE (t_ctrl ev) =? TRBTYPE_EVT_XFER) then mret (h, s, inp)
      else
        let slot := TRB_GET_SLOT (t_ctrl ev) in
        let epid := Z.land (Z.shiftr (t_ctrl ev) 16) 0x1F in
        match find_dev 0 slot epid (hid_devs h) with
        | None => mret (h, s, inp)
        | Some (i, hd) =>
          '(h, inp) ← hid_report i (TRB_GET_CC (t_status ev)) (set_dev i (set_pending false hd) h) inp;
          h ← hid_enqueue_trb i h s;
          mret (h, s, inp)
        end
    end.

Definition usbhid_kbd_present (h : hid_st) : bool := hid_kbd_n h >? 0.
Definition usbhid_mouse_present (h : hid_st) : bool := hid_mse_n h >? 0.
End Hid.
