(* ===== verification/Spinlock.v ===== *)
(** * libc/atomic.h, libc/spinlock.h and cpu/spinlock.h

    An atomic operation is one step on its word of memory. The ticket lock is
    a machine in which any number of processors run [spinlock_lock] and
    [spinlock_unlock] over and over, a step being one access to the lock; the
    schedule, a list of processors, is arbitrary. The theorem is for fewer than
    2^16 processors, since tickets are 16 bits wide and wrap. The
    test-and-set lock of cpu/spinlock.h is the same kind of machine. *)

From S2P Require Import Prelude.

(** ** Atomic operations *)

Definition atomic_read32 : M Z Z := gets id.
Definition atomic_write32 (v : Z) : M Z unit := modify (fun _ => v).
Definition atomic_inc32 : M Z unit := modify (fun p => s32 (p + 1)).
Definition atomic_dec32 : M Z unit := modify (fun p => s32 (p - 1)).
Definition atomic_add32 (v : Z) : M Z unit := modify (fun p => s32 (p + v)).
Definition atomic_sub32 (v : Z) : M Z unit := modify (fun p => s32 (p - v)).
Definition atomic_and32 (v : Z) : M Z unit := modify (Z.land v).
Definition atomic_or32 (v : Z) : M Z unit := modify (Z.lor v).
Definition atomic_xchg32 (v : Z) : M Z Z := fun p => Some (p, v).
Definition atomic_cmpxchg32 (old nw : Z) : M Z Z := fun p => Some (p, if p =? old then nw else p).
Definition atomic_fetch_add32 (v : Z) : M Z Z := fun p => Some (p, s32 (p + v)).
Definition atomic_dec_and_test32 : M Z Z := fun p => Some (b2z (s32 (p - 1) =? 0), s32 (p - 1)).
Definition atomic_read64 : M Z Z := gets id.
Definition atomic_write64 (v : Z) : M Z unit := modify (fun _ => v).
Definition atomic_inc64 : M Z unit := modify (fun p => s64 (p + 1)).
Definition atomic_dec64 : M Z unit := modify (fun p => s64 (p - 1)).
Definition atomic_add64 (v : Z) : M Z unit := modify (fun p => s64 (p + v)).
Definition atomic_xchg64 (v : Z) : M Z Z := fun p => Some (p, v).
Definition atomic_cmpxchg64 (old nw : Z) : M Z Z := fun p => Some (p, if p =? old then nw else p).
Definition atomic_fetch_add64 (v : Z) : M Z Z := fun p => Some (p, s64 (p + v)).

(** ** The ticket lock *)

Record spinlock_t := Spinlock { next : Z; owner : Z }.
Definition spinlock_init : spinlock_t := Spinlock 0 0.

(** [lock xaddw]: a ticket. *)
Definition take_ticket (l : spinlock_t) : Z * spinlock_t := (next l, Spinlock (u16 (next l + 1)) (owner l)).
(** A look of the loop. *)
Definition my_turn (ticket : Z) (l : spinlock_t) : bool := owner l =? ticket.
(** [l->owner++] loads and stores. *)
Definition unlock_load (l : spinlock_t) : Z := owner l.
Definition unlock_store (v : Z) (l : spinlock_t) : spinlock_t := Spinlock (next l) (u16 (v + 1)).
Definition spinlock_is_locked (l : spinlock_t) : bool := negb (next l =? owner l).

(** With no other processor in between: the loop gives up after [fuel] looks. *)
Fixpoint spin (fuel : nat) (ticket : Z) : M spinlock_t unit :=
  match fuel with O => diverge | S fuel => mine ← gets (my_turn ticket); if mine : bool then mret tt else spin fuel ticket end.
Definition spinlock_lock (fuel : nat) : M spinlock_t unit := ticket ← (fun l => Some (take_ticket l)); spin fuel ticket.
Definition spinlock_unlock : M spinlock_t unit := v ← gets unlock_load; modify (unlock_store v).

(** The lock as a 32-bit word: [next] is its lower half. *)
Definition lock_word (l : spinlock_t) : Z := s32 (next l + 65536 * owner l).
Definition of_word (w : Z) : spinlock_t := Spinlock (u32 w mod 65536) (u32 w / 65536).
Definition spinlock_trylock : M spinlock_t Z := fun l =>
  let cur_next := next l in
  let cur_owner := owner l in
  if negb (cur_next =? cur_owner) then Some (0, l)
  else
    let expected := s32 (Z.lor (Z.shiftl cur_next 16) cur_owner) in
    match atomic_cmpxchg32 expected (s32 (Z.lor (Z.shiftl (cur_next + 1) 16) cur_owner)) (lock_word l) with
    | Some (old, w) => Some (b2z (u16 old =? expected), of_word w)
    | None => None
    end.

(** ** Processors *)

(** Outside; in the loop with a ticket; inside; in the middle of the increment. *)
Inductive cpu := Out | Spin (ticket : Z) | In | Leaving (v : Z).
Inductive event := EvAsk (i : nat) | EvEnter (i : nat) | EvLeave (i : nat).

Definition cpu_step (i : nat) (c : cpu) (l : spinlock_t) : cpu * spinlock_t * list event :=
  match c with
  | Out => let '(ticket, l) := take_ticket l in (Spin ticket, l, [EvAsk i])
  | Spin ticket => if my_turn ticket l then (In, l, [EvEnter i]) else (Spin ticket, l, [])
  | In => (Leaving (unlock_load l), l, [])
  | Leaving v => (Out, unlock_store v l, [EvLeave i])
  end.

(** The lock, the processors, and what has happened. *)
Record machine := Machine { m_lock : spinlock_t; m_cpus : list cpu; m_trace : list event }.
Definition step (i : nat) (m : machine) : machine :=
  match m_cpus m !! i with
  | None => m
  | Some c => let '(c, l, ev) := cpu_step i c (m_lock m) in Machine l (<[i := c]> (m_cpus m)) (m_trace m ++ ev)
  end.
Definition run (schedule : list nat) (m : machine) : machine := fold_left (fun m i => step i m) schedule m.
Definition machine0 (n : nat) : machine := Machine spinlock_init (replicate n Out) [].

Definition asked (tr : list event) : list nat := omap (fun e => match e with EvAsk i => Some i | _ => None end) tr.
Definition entered (tr : list event) : list nat := omap (fun e => match e with EvEnter i => Some i | _ => None end) tr.
Definition left_cs (tr : list event) : list nat := omap (fun e => match e with EvLeave i => Some i | _ => None end) tr.
(** Between its entry and the end of its unlock. *)
Definition inside (c : cpu) : bool := match c with In | Leaving _ => true | _ => false end.

(** ** The test-and-set lock *)

(** Before the exchange; in the inner loop; inside. *)
Inductive tas_cpu := TOut | TPause | TIn.
Definition tas_step (c : tas_cpu) (val : Z) : tas_cpu * Z :=
  match c with
  | TOut => if val =? 0 then (TIn, 1) else (TPause, 1)
  | TPause => if val =? 0 then (TOut, val) else (TPause, val)
  | TIn => (TOut, 0)
  end.
Definition tas_run (schedule : list nat) (s : Z * list tas_cpu) : Z * list tas_cpu :=
  fold_left (fun '(val, cpus) i => match cpus !! i with Some c => let '(c, val) := tas_step c val in (val, <[i := c]> cpus) | None => (val, cpus) end) schedule s.

(** ** The queue *)

(** After [a] unlocks the processors of [q], in this order, hold the tickets
    from [a] on; [b]: the first is inside. *)
Definition ticket_of (a k : nat) : Z := u16 (Z.of_nat a + Z.of_nat k).
Definition cpu_ok (a : nat) (q : list nat) (b : bool) (i : nat) (c : cpu) : Prop :=
  match c with
  | Out => i ∉ q
  | Spin t => exists k, q !! k = Some i /\ t = ticket_of a k /\ (b = true -> k <> 0%nat)
  | In => b = true /\ q !! 0%nat = Some i
  | Leaving v => b = true /\ q !! 0%nat = Some i /\ v = ticket_of a 0
  end.
Record lock_inv (q : list nat) (b : bool) (m : machine) : Prop := {
  li_lock : m_lock m = Spinlock (ticket_of (length (left_cs (m_trace m))) (length q)) (ticket_of (length (left_cs (m_trace m))) 0);
  li_nodup : NoDup q;
  li_bound : forall i, i ∈ q -> (i < length (m_cpus m))%nat;
  li_cpus : forall i c, m_cpus m !! i = Some c -> cpu_ok (length (left_cs (m_trace m))) q b i c;
  li_inside : b = true -> exists i c, q !! 0%nat = Some i /\ m_cpus m !! i = Some c /\ inside c = true;
  li_asked : asked (m_trace m) = left_cs (m_trace m) ++ q;
  li_entered : entered (m_trace m) = left_cs (m_trace m) ++ (if b then take 1 q else []);
}.

Lemma ticket_inj a k j : Z.of_nat k < 65536 -> Z.of_nat j < 65536 -> ticket_of a k = ticket_of a j -> k = j.
Proof. unfold ticket_of, u16. intros. zlia. Qed.
Lemma ticket_S a k : ticket_of (S a) k = ticket_of a (S k).
Proof. unfold ticket_of. f_equal. lia. Qed.
Lemma ticket_next a k : u16 (ticket_of a k + 1) = ticket_of a (S k).
Proof. unfold ticket_of, u16. zlia. Qed.

(** No processor is twice in the queue. *)
Lemma queue_short q b m : lock_inv q b m -> (length q <= length (m_cpus m))%nat.
Proof.
  intros I. rewrite <- (length_seq (length (m_cpus m)) 0). apply submseteq_length, NoDup_submseteq; [apply (li_nodup _ _ _ I)|].
  intros i Hi. apply elem_of_seq. pose proof (li_bound _ _ _ I i Hi). lia.
Qed.
Lemma step_eq i c m : m_cpus m !! i = Some c ->
  step i m = let '(c, l, ev) := cpu_step i c (m_lock m) in Machine l (<[i := c]> (m_cpus m)) (m_trace m ++ ev).
Proof. intros E. unfold step. by rewrite E. Qed.
(** The other processors. *)
Lemma cpus_insert (P : nat -> cpu -> Prop) (l : list cpu) i c : P i c -> (forall j c', j <> i -> l !! j = Some c' -> P j c') ->
  forall j c', <[i := c]> l !! j = Some c' -> P j c'.
Proof.
  intros Hi Hj j c' H. destruct (decide (j = i)) as [->|Hne]; [|rewrite list_lookup_insert_ne in H by done; by apply Hj].
  apply list_lookup_insert_Some in H as [(_ & <- & _)|(Hn & _)]; [done|congruence].
Qed.

(** What happens to the trace. *)
Lemma asked_snoc tr e : asked (tr ++ [e]) = asked tr ++ match e with EvAsk i => [i] | _ => [] end.
Proof. unfold asked. rewrite omap_app. by destruct e. Qed.
Lemma entered_snoc tr e : entered (tr ++ [e]) = entered tr ++ match e with EvEnter i => [i] | _ => [] end.
Proof. unfold entered. rewrite omap_app. by destruct e. Qed.
Lemma left_snoc tr e : left_cs (tr ++ [e]) = left_cs tr ++ match e with EvLeave i => [i] | _ => [] end.
Proof. unfold left_cs. rewrite omap_app. by destruct e. Qed.

Lemma cpu_ok_other a q b i j c : cpu_ok a q b j c -> j <> i -> cpu_ok a (q ++ [i]) b j c.
Proof.
  intros H Hne. destruct c; cbn [cpu_ok] in *.
  - rewrite elem_of_app, list_elem_of_singleton. by intros [?|?].
  - destruct H as (k & Hk & H). exists k. split; [|done]. apply lookup_app_l_Some, Hk.
  - destruct H as [H1 H2]. split; [done|]. by apply lookup_app_l_Some.
  - destruct H as (H1 & H2 & H3). split_and!; [done|by apply lookup_app_l_Some|done].
Qed.

Lemma step_ask q b i m : lock_inv q b m -> m_cpus m !! i = Some Out -> lock_inv (q ++ [i]) b (step i m).
Proof.
  intros I E. pose proof (li_cpus _ _ _ I i _ E) as Hout. cbn [cpu_ok] in Hout. rewrite (step_eq i Out m E). cbn [cpu_step take_ticket].
  destruct I as [HL Hnd Hbd Hc Hin Ha He]. rewrite HL. cbn [next owner].
  constructor; cbn [m_lock m_cpus m_trace]; rewrite ?left_snoc, ?app_nil_r.
  - rewrite length_app, ticket_next. cbn [length]. by rewrite Nat.add_1_r.
  - apply NoDup_app. split_and!; [done| |apply NoDup_singleton]. by intros j Hj ->%list_elem_of_singleton.
  - intros j Hj. rewrite length_insert. apply elem_of_app in Hj as [Hj| ->%list_elem_of_singleton]; [by apply Hbd|by eapply lookup_lt_Some].
  - apply cpus_insert; [|intros j c Hj Hl; apply cpu_ok_other; auto].
    exists (length q). split; [by rewrite lookup_app_r, Nat.sub_diag by done|]. split; [done|].
    intros Hb Hq. destruct (Hin Hb) as (j & c & H0 & _). apply lookup_lt_Some in H0. lia.
  - intros Hb. destruct (Hin Hb) as (j & c & H0 & Hj & Hi). exists j, c. split; [by apply lookup_app_l_Some|]. split; [|done].
    rewrite list_lookup_insert_ne; [done|]. intros <-. apply Hout. apply list_elem_of_lookup. eauto.
  - rewrite asked_snoc, Ha. by rewrite app_assoc.
  - rewrite entered_snoc, app_nil_r, He. destruct b; [|done]. f_equal. destruct (Hin eq_refl) as (j & c & H0 & _). by destruct q.
Qed.

Lemma step_wait q b i t m : lock_inv q b m -> m_cpus m !! i = Some (Spin t) -> my_turn t (m_lock m) = false -> lock_inv q b (step i m).
Proof.
  intros I E Hno. rewrite (step_eq i _ m E). cbn [cpu_step]. rewrite Hno, list_insert_id, app_nil_r by done. by destruct m.
Qed.

(** Only the first of the queue finds its ticket. *)
Lemma turn_head q b i t m : lock_inv q b m -> Z.of_nat (length (m_cpus m)) < 65536 -> m_cpus m !! i = Some (Spin t) ->
  my_turn t (m_lock m) = true <-> q !! 0%nat = Some i.
Proof.
  intros I Hn E. pose proof (queue_short _ _ _ I) as Hq. destruct (li_cpus _ _ _ I i _ E) as (k & Hk & -> & Hb). rewrite (li_lock _ _ _ I). unfold my_turn. cbn [owner].
  pose proof (lookup_lt_Some _ _ _ Hk). rewrite Z.eqb_eq. split; [intros H0%ticket_inj; [by subst|lia|lia]|].
  intros H0. assert (k = 0%nat) as ->; [|done]. eapply NoDup_lookup; [apply (li_nodup _ _ _ I)|done|done].
Qed.
Lemma step_enter q b i t m : lock_inv q b m -> Z.of_nat (length (m_cpus m)) < 65536 -> m_cpus m !! i = Some (Spin t) -> my_turn t (m_lock m) = true ->
  lock_inv q true (step i m).
Proof.
  intros I Hn E Ht. pose proof (proj1 (turn_head _ _ _ _ _ I Hn E) Ht) as H0. rewrite (step_eq i _ m E). cbn [cpu_step]. rewrite Ht.
  assert (Hb : b = false). { destruct b; [|done]. destruct (li_cpus _ _ _ I i _ E) as (k & Hk & _ & Hk0). exfalso. apply (Hk0 eq_refl). eapply NoDup_lookup; [apply (li_nodup _ _ _ I)|done|done]. }
  subst b. destruct I as [HL Hnd Hbd Hc Hin Ha He].
  constructor; cbn [m_lock m_cpus m_trace]; rewrite ?left_snoc, ?app_nil_r; try done.
  - intros j Hj. rewrite length_insert. by apply Hbd.
  - apply cpus_insert; [done|]. intros j c Hj Hl. pose proof (Hc j c Hl) as H. destruct c; cbn [cpu_ok] in *; [done| |by destruct H|by destruct H].
    destruct H as (k & Hk & Htk & _). exists k. split_and!; [done|done|]. intros _ ->. congruence.
  - intros _. exists i, In. split; [done|]. split; [|done]. apply list_lookup_insert_eq. by eapply lookup_lt_Some.
  - by rewrite asked_snoc, app_nil_r.
  - rewrite entered_snoc, He, app_nil_r. f_equal. destruct q; [done|]. by injection H0 as ->.
Qed.

Lemma step_load q b i m : lock_inv q b m -> m_cpus m !! i = Some In -> lock_inv q b (step i m).
Proof.
  intros I E. rewrite (step_eq i _ m E). cbn [cpu_step]. rewrite app_nil_r. pose proof (li_cpus _ _ _ I i _ E) as [Hb H0].
  destruct I as [HL Hnd Hbd Hc Hin Ha He]. constructor; cbn [m_lock m_cpus m_trace]; try done.
  - intros j Hj. rewrite length_insert. by apply Hbd.
  - apply cpus_insert; [|by intros; apply Hc]. cbn [cpu_ok]. rewrite HL. by split_and!.
  - intros _. exists i, (Leaving (unlock_load (m_lock m))). split; [done|]. split; [|done]. apply list_lookup_insert_eq. by eapply lookup_lt_Some.
Qed.
Lemma step_leave q b i v m : lock_inv q b m -> m_cpus m !! i = Some (Leaving v) -> lock_inv (drop 1 q) false (step i m).
Proof.
  intros I E. rewrite (step_eq i _ m E). cbn [cpu_step]. pose proof (li_cpus _ _ _ I i _ E) as (-> & H0 & ->).
  destruct I as [HL Hnd Hbd Hc Hin Ha He]. destruct q as [|i' q]; [done|]. injection H0 as ->. cbn [drop]. apply NoDup_cons in Hnd as [Hi Hnd].
  rewrite HL. unfold unlock_store. cbn [next].
  constructor; cbn [m_lock m_cpus m_trace]; rewrite ?left_snoc, ?length_app; cbn [length]; rewrite ?Nat.add_1_r, ?ticket_S; try done.
  - by rewrite ticket_next.
  - intros j Hj. rewrite length_insert. apply Hbd. by right.
  - apply cpus_insert; [done|]. intros j c Hj Hl. pose proof (Hc j c Hl) as H. destruct c as [|t| |w]; cbn [cpu_ok] in *.
    + intros H1. apply H. by right.
    + destruct H as (k & Hk & -> & Hk0). destruct k as [|k]; [by exfalso; apply Hk0|]. exists k. split; [done|]. by rewrite ticket_S.
    + destruct H as [_ H]. injection H as H. congruence.
    + destruct H as (_ & H & _). injection H as H. congruence.
  - rewrite asked_snoc, Ha, app_nil_r. by rewrite <- app_assoc.
  - rewrite entered_snoc, He, !app_nil_r. done.
Qed.

Lemma spinlock_step_inv q b i m : lock_inv q b m -> Z.of_nat (length (m_cpus m)) < 65536 -> exists q' b', lock_inv q' b' (step i m).
Proof.
  intros I Hn. destruct (m_cpus m !! i) as [[|t| |v]|] eqn:E.
  - eexists _, _. by apply step_ask.
  - destruct (my_turn t (m_lock m)) eqn:Et; eexists _, _; [by eapply step_enter|by eapply step_wait].
  - eexists _, _. by apply step_load.
  - eexists _, _. by eapply step_leave.
  - exists q, b. unfold step. by rewrite E.
Qed.
Lemma length_step i m : length (m_cpus (step i m)) = length (m_cpus m).
Proof. unfold step. destruct (m_cpus m !! i) as [c|]; [|done]. destruct (cpu_step i c (m_lock m)) as [[c' l] ev]. cbn [m_cpus]. apply length_insert. Qed.

Lemma run_inv schedule : forall q b m, lock_inv q b m -> Z.of_nat (length (m_cpus m)) < 65536 ->
  length (m_cpus (run schedule m)) = length (m_cpus m) /\ exists q' b', lock_inv q' b' (run schedule m).
Proof.
  induction schedule as [|i sch IH]; intros q b m I Hn; [by eauto|]. cbn [run fold_left].
  destruct (spinlock_step_inv q b i m I Hn) as (q1 & b1 & I1). rewrite <- (length_step i m). apply (IH q1 b1); [done|by rewrite length_step].
Qed.
Lemma machine0_inv n : lock_inv [] false (machine0 n).
Proof.
  constructor; cbn; try done; [constructor|intros i H; set_solver|]. intros i c H. apply lookup_replicate_1 in H as [-> _]. cbn. set_solver.
Qed.

(** C3 (libc/spinlock.h, [spinlock_lock], [spinlock_unlock]): under every
    schedule of fewer than 2^16 processors that take and release a ticket lock
    over and over, at most one is between its entry and the end of its unlock;
    the processors enter in the order of their tickets, and leave in that
    order; and whenever none is inside and one waits, the next look of the
    first that waits enters: the lock is mutually exclusive, first come first
    served, and never stuck, however often the 16-bit counters wrap. *)
Theorem ticket_lock_correct n schedule : Z.of_nat n < 65536 -> let m := run schedule (machine0 n) in
  (forall i j ci cj, m_cpus m !! i = Some ci -> m_cpus m !! j = Some cj -> inside ci = true -> inside cj = true -> i = j) /\
  left_cs (m_trace m) `prefix_of` entered (m_trace m) /\ entered (m_trace m) `prefix_of` asked (m_trace m) /\
  ((forall i c, m_cpus m !! i = Some c -> inside c = false) -> forall i t, m_cpus m !! i = Some (Spin t) ->
    exists h, asked (m_trace m) !! length (entered (m_trace m)) = Some h /\ m_cpus (step h m) !! h = Some In).
Proof.
  intros Hn m. destruct (run_inv schedule [] false (machine0 n) (machine0_inv n)) as [Hlen (q & b & I)]; [by cbn; rewrite length_replicate|].
  fold m in Hlen, I. cbn [machine0 m_cpus] in Hlen. rewrite length_replicate in Hlen. split_and!.
  - assert (Hh : forall i c, m_cpus m !! i = Some c -> inside c = true -> q !! 0%nat = Some i)
      by (intros i c Hi Hc; pose proof (li_cpus _ _ _ I i c Hi) as H; destruct c; [done|done|by destruct H|by destruct H as (_ & ? & _)]).
    intros i j ci cj Hi Hj Hci Hcj. pose proof (Hh i ci Hi Hci). pose proof (Hh j cj Hj Hcj). congruence.
  - rewrite (li_entered _ _ _ I). by eexists.
  - rewrite (li_entered _ _ _ I), (li_asked _ _ _ I). apply prefix_app. destruct b; [apply prefix_take|apply prefix_nil].
  - intros Hno i t Hi. assert (b = false) as ->.
    { destruct b; [|done]. destruct (li_inside _ _ _ I eq_refl) as (j & c & _ & Hj & Hc). rewrite (Hno j c Hj) in Hc. done. }
    rewrite (li_entered _ _ _ I), (li_asked _ _ _ I), app_nil_r. rewrite lookup_app_r, Nat.sub_diag by done.
    destruct (li_cpus _ _ _ I i _ Hi) as (k & Hk & _). destruct q as [|h q]; [done|]. exists h. split; [done|].
    assert (Hh : (h < length (m_cpus m))%nat) by (apply (li_bound _ _ _ I); by left). destruct (lookup_lt_is_Some_2 _ _ Hh) as [c Hc].
    assert (exists th, c = Spin th) as [th ->].
    { pose proof (li_cpus _ _ _ I h c Hc) as H. destruct c as [|th| |v]; [exfalso; apply H; by left|by eexists|by destruct H|by destruct H]. }
    rewrite (step_eq h _ m Hc). cbn [cpu_step]. rewrite (proj2 (turn_head _ _ h th m I ltac:(lia) Hc)) by done.
    cbn [m_cpus]. by apply list_lookup_insert_eq.
Qed.

(** Three processors; the first has left and two wait. *)
Lemma ticket_lock_correct_witness : exists h, asked (m_trace (run [0; 1; 0; 2; 1; 2; 0; 0; 2]%nat (machine0 3))) !! 1%nat = Some h /\ h = 1%nat /\
  m_cpus (step h (run [0; 1; 0; 2; 1; 2; 0; 0; 2]%nat (machine0 3))) !! h = Some In.
Proof.
  destruct (ticket_lock_correct 3 [0; 1; 0; 2; 1; 2; 0; 0; 2]%nat ltac:(lia)) as (_ & _ & _ & H).
  destruct (H ltac:(intros [|[|[|]]] c Hc; vm_compute in Hc; by inversion Hc) 1%nat 1 ltac:(vm_compute; reflexivity)) as (h & Hh & Hs).
  exists h. split; [exact Hh|]. split; [vm_compute in Hh; by injection Hh as <-|exact Hs].
Defined.

(** ** What [spinlock_trylock] does

    It packs its two halves the other way round: on a free lock it leaves the
    owner ahead of the next ticket, and says 0 unless the counters are 0. *)
Lemma trylock_breaks n : 0 <= n < 32767 -> spinlock_trylock (Spinlock n n) = Some (b2z (n =? 0), Spinlock n (n + 1)).
Proof.
  intros Hn. unfold spinlock_trylock. cbn [next owner]. rewrite Z.eqb_refl. cbn [negb]. unfold atomic_cmpxchg32, lock_word. cbn [next owner].
  rewrite !(lor_shiftl_add _ n 16) by lia. change (2 ^ 16) with 65536. replace (n + 65536 * n) with (n * 65536 + n) by lia. rewrite Z.eqb_refl.
  f_equal. f_equal.
  - f_equal. unfold u16, s32. destruct (Z.eqb_spec n 0) as [->|]; [done|]. apply Z.eqb_neq. zlia.
  - unfold of_word, u32, s32. f_equal; zlia.
Qed.
(** The next [spinlock_lock] waits for a ticket 65535 unlocks away. *)
Example trylock_then_lock : (l ← spinlock_trylock spinlock_init; Some (fst l, spinlock_lock 1000 (snd l))) = Some (1, None).
Proof. vm_compute. reflexivity. Qed.

(** ** The test-and-set lock is mutually exclusive *)

Definition tas_inv (s : Z * list tas_cpu) : Prop :=
  (fst s = 0 /\ forall i, snd s !! i <> Some TIn) \/ (fst s = 1 /\ exists h, snd s !! h = Some TIn /\ forall i, snd s !! i = Some TIn -> i = h).
Lemma tas_run_ok schedule : forall s, tas_inv s -> tas_inv (tas_run schedule s).
Proof.
  induction schedule as [|i sch IH]; intros [val cpus] I; [done|]. cbn [tas_run fold_left]. apply IH. clear IH. destruct (cpus !! i) as [c|] eqn:E; [|done].
  unfold tas_inv in *. cbn [fst snd] in *.
  assert (Hsame : forall c', c' <> TIn -> c <> TIn -> forall j, <[i := c']> cpus !! j = Some TIn <-> cpus !! j = Some TIn).
  { intros c' Hc' Hc j. destruct (decide (j = i)) as [->|Hne]; [|by rewrite list_lookup_insert_ne].
    rewrite list_lookup_insert_eq by (by eapply lookup_lt_Some). rewrite E. split; congruence. }
  destruct I as [[-> Hno]|[-> (h & Hh & Huniq)]]; destruct c; cbn [tas_step]; rewrite ?Z.eqb_refl; change (1 =? 0) with false; cbv iota; cbn [fst snd].
  - right. split; [done|]. exists i. split; [apply list_lookup_insert_eq; by eapply lookup_lt_Some|]. intros j Hj.
    destruct (decide (j = i)) as [|Hne]; [done|]. rewrite list_lookup_insert_ne in Hj by done. by destruct (Hno j).
  - left. split; [done|]. intros j. rewrite Hsame by done. apply Hno.
  - by destruct (Hno i).
  - right. split; [done|]. exists h. rewrite Hsame by done. split; [done|]. intros j. rewrite Hsame by done. apply Huniq.
  - right. split; [done|]. exists h. rewrite Hsame by done. split; [done|]. intros j. rewrite Hsame by done. apply Huniq.
  - left. split; [done|]. intros j Hj. pose proof (Huniq i E) as <-. destruct (decide (j = i)) as [->|Hne].
    + rewrite list_lookup_insert_eq in Hj by (by eapply lookup_lt_Some). done.
    + rewrite list_lookup_insert_ne in Hj by done. by apply Hne, Huniq.
Qed.
Lemma tas_mutex n schedule i j : let s := tas_run schedule (0, replicate n TOut) in snd s !! i = Some TIn -> snd s !! j = Some TIn -> i = j.
Proof.
  intros s Hi Hj. assert (I : tas_inv s).
  { apply tas_run_ok. left. split; [done|]. intros k H. cbn in H. apply lookup_replicate_1 in H as [? _]. done. }
  destruct I as [[_ Hno]|[_ (h & _ & H)]]; [by destruct (Hno i)|]. by rewrite (H i Hi), (H j Hj).
Qed.
