(* ===== verification/Clock.v ===== *)
(** * drivers/clock.c and cpu/rtc.c: the time of day

    The registers of the real-time clock, in any of its four formats, and the
    calendar that the clock interrupt advances. The fields of a date wrap at
    the widths of the bit-field. The loop over the days carried takes fuel, a
    round per month. *)

From S2P Require Import Prelude Hw.

Definition CMOS_ADDR : Z := 0x70.
Definition CMOS_DATA : Z := 0x71.
Definition NMI_DISABLE_BIT : Z := 0x80.
Definition SECONDS : Z := 0x00.
Definition MINUTES : Z := 0x02.
Definition HOURS : Z := 0x04.
Definition MONTHDAY : Z := 0x07.
Definition MONTH : Z := 0x08.
Definition YEAR : Z := 0x09.
Definition CENTURY : Z := 0x32.
Definition STATUS_B : Z := 0x0B.

Record datetime_t := DateTime { year : Z; month : Z; day : Z; hours : Z; minutes : Z; seconds : Z; milliseconds : Z }.

Definition bcd_to_bin (bcd : Z) : Z := u8 (Z.shiftr (Z.land bcd 0xF0) 1 + Z.shiftr (Z.land bcd 0xF0) 3 + Z.land bcd 0xF).

(** ** The calendar *)

Definition days_in_month : list Z := [0; 31; 28; 31; 30; 31; 30; 31; 31; 30; 31; 30; 31].
Definition is_leap_year (y : Z) : bool := (y mod 4 =? 0) && negb (y mod 100 =? 0) || (y mod 400 =? 0).
Definition get_days_in_month (m y : Z) : option Z :=
  if (m =? 2) && is_leap_year y then Some 29 else if (0 <=? m) then days_in_month !! Z.to_nat m else None.

Fixpoint add_days (fuel : nat) (carry_d : Z) (dt : datetime_t) : option datetime_t :=
  if carry_d >? 0 then
    match fuel with
    | O => None
    | S fuel =>
      dim ← get_days_in_month (month dt) (year dt);
      let remaining := u64 (dim - day dt) in
      if carry_d <=? remaining then
        Some (DateTime (year dt) (month dt) ((day dt + carry_d) mod 32) (hours dt) (minutes dt) (seconds dt) (milliseconds dt))
      else
        let m := (month dt + 1) mod 16 in
        let '(m, y) := if m >? 12 then (1, (year dt + 1) mod 4096) else (m, year dt) in
        add_days fuel (u64 (carry_d - (remaining + 1))) (DateTime y m 1 (hours dt) (minutes dt) (seconds dt) (milliseconds dt))
    end
  else Some dt.

Definition datetime_add_ms (fuel : nat) (ms : Z) (dt : datetime_t) : option datetime_t :=
  let total_ms := u64 (milliseconds dt + ms) in
  let dt := DateTime (year dt) (month dt) (day dt) (hours dt) (minutes dt) (seconds dt) (total_ms mod 1000) in
  let carry_s := total_ms / 1000 in
  if carry_s =? 0 then Some dt
  else
    let total_s := seconds dt + carry_s in
    let dt := DateTime (year dt) (month dt) (day dt) (hours dt) (minutes dt) (total_s mod 60) (milliseconds dt) in
    let carry_m := total_s / 60 in
    if carry_m =? 0 then Some dt
    else
      let total_m := minutes dt + carry_m in
      let dt := DateTime (year dt) (month dt) (day dt) (hours dt) (total_m mod 60) (seconds dt) (milliseconds dt) in
      let carry_h := total_m / 60 in
      if carry_h =? 0 then Some dt
      else
        let total_h := hours dt + carry_h in
        let dt := DateTime (year dt) (month dt) (day dt) (total_h mod 24) (minutes dt) (seconds dt) (milliseconds dt) in
        let carry_d := total_h / 24 in
        if carry_d =? 0 then Some dt else add_days fuel carry_d dt.

(** ** The registers *)

Section Rtc.
Context {W : Type} `{!Ports W}.

Definition cmos_read (reg : Z) : M W Z := port_byte_out CMOS_ADDR (Z.lor NMI_DISABLE_BIT reg);; port_byte_in CMOS_DATA.

(** The flags that the interrupt sets, and the time of the kernel. *)
Record rtc_st := Rtc { rtc_available : bool; periodic_interrupt : bool; datetime : datetime_t }.

Definition rtc_callback (fuel : nat) (s : rtc_st) : M W rtc_st :=
  port_byte_out 0x70 0x0C;;
  status ← port_byte_in 0x71;
  s ← (if negb (Z.land status 0x40 =? 0) then
         dt ← lift_option (datetime_add_ms fuel 1 (datetime s));
         mret (Rtc (rtc_available s) true dt)
       else mret s);
  mret (if negb (Z.land status 0x10 =? 0) then Rtc true (periodic_interrupt s) (datetime s) else s).
Definition rtc_avail (s : rtc_st) : bool * rtc_st := (rtc_available s, Rtc false (periodic_interrupt s) (datetime s)).
Definition periodic_interr (s : rtc_st) : bool * rtc_st := (periodic_interrupt s, Rtc (rtc_available s) false (datetime s)).
Definition init_rtc (rate : Z) : M W unit :=
  let rate := Z.land rate 0x0F in
  port_byte_out 0x70 0x8B;;
  prevB ← port_byte_in 0x71;
  port_byte_out 0x70 0x8B;;
  port_byte_out 0x71 (Z.lor prevB 0x40);;
  port_byte_out 0x70 0x8A;;
  prev ← port_byte_in 0x71;
  port_byte_out 0x70 0x8A;;
  port_byte_out 0x71 (Z.lor (Z.land prev 0xF0) rate).

(** The wait for the update interrupt: a [hlt] lasts until the clock
    interrupts. *)
Fixpoint wait_update (fuel : nat) (s : rtc_st) : M W rtc_st :=
  match fuel with
  | O => diverge
  | S fuel => let '(ok, s) := rtc_avail s in if ok : bool then mret s else s ← rtc_callback fuel s; wait_update fuel s
  end.
(** One pass over the registers: seconds, minutes, hours, day, month, year,
    century, and the seconds again. *)
Definition read_regs : M W (list Z) :=
  s1 ← cmos_read SECONDS; mi ← cmos_read MINUTES; h ← cmos_read HOURS; d ← cmos_read MONTHDAY; mo ← cmos_read MONTH;
  y ← cmos_read YEAR; c ← cmos_read CENTURY; s2 ← cmos_read SECONDS; mret [s1; mi; h; d; mo; y; c; s2].
Fixpoint read_stable (fuel : nat) : M W (list Z) :=
  match fuel with
  | O => diverge
  | S fuel => l ← read_regs; if negb (default 0 (l !! 0%nat) =? default 0 (l !! 7%nat)) then read_stable fuel else mret l
  end.

(** The hours of a clock with AM and PM: bit 7 is the PM flag. *)
Definition from_12h (raw h : Z) : Z :=
  if negb (Z.land raw 0x80 =? 0) then (if negb (h =? 12) then u8 (h + 12) else h) else (if h =? 12 then 0 else h).
Definition decode_regs (registryB : Z) (l : list Z) (ms : Z) : datetime_t :=
  let reg i := default 0 (l !! i) in
  let conv v := if Z.land registryB 0x04 =? 0 then bcd_to_bin v else v in
  let am_pm := Z.land registryB 0x02 =? 0 in
  let raw := reg 2%nat in
  let h := if Z.land registryB 0x04 =? 0 then
             let h := bcd_to_bin (Z.land raw 0x7F) in if am_pm then from_12h raw h else h
           else if am_pm then from_12h raw (Z.land raw 0x7F) else raw in
  let y := conv (reg 5%nat) in
  let c := reg 6%nat in
  let century := if c =? 0 then 0 else conv c in
  let full_year := if negb (century =? 0) then u16 (century * 100 + y) else u16 (if y <? 70 then 2000 + y else 1900 + y) in
  DateTime (full_year mod 4096) (conv (reg 4%nat) mod 16) (conv (reg 3%nat) mod 32) (h mod 32) (conv (reg 1%nat) mod 64) (conv (reg 0%nat) mod 64) ms.

(** The milliseconds are not touched. *)
Definition rtc_read_datetime (fuel : nat) (s : rtc_st) (dt : datetime_t) : M W (datetime_t * rtc_st) :=
  s ← wait_update fuel s;
  l ← read_stable fuel;
  registryB ← cmos_read STATUS_B;
  mret (decode_regs registryB l (milliseconds dt), s).
End Rtc.

(** ** Time as a number

    Milliseconds since the start of the year 0 of the Gregorian calendar. *)

(** The days before a year, before a month. *)
Definition days_before_year (y : Z) : Z := 365 * y + (y + 3) / 4 - (y + 99) / 100 + (y + 399) / 400.
Fixpoint days_before_month (n : nat) (y : Z) : Z :=
  match n with O => 0 | S n => days_before_month n y + default 0 (get_days_in_month (Z.of_nat n) y) end.
Definition date_days (dt : datetime_t) : Z := days_before_year (year dt) + days_before_month (Z.to_nat (month dt)) (year dt) + (day dt - 1).
Definition date_ms (dt : datetime_t) : Z :=
  (((date_days dt * 24 + hours dt) * 60 + minutes dt) * 60 + seconds dt) * 1000 + milliseconds dt.
Definition date_ok (dt : datetime_t) : Prop :=
  0 <= year dt < 4096 /\ 1 <= month dt <= 12 /\ (exists dim, get_days_in_month (month dt) (year dt) = Some dim /\ 1 <= day dt <= dim) /\
  0 <= hours dt < 24 /\ 0 <= minutes dt < 60 /\ 0 <= seconds dt < 60 /\ 0 <= milliseconds dt < 1000.
(** The end of the year 4095, the last that the field holds. *)
Definition end_of_time : Z := days_before_year 4096 * 86400000.

Lemma year_days y : days_before_year (y + 1) = days_before_year y + (if is_leap_year y then 366 else 365).
Proof.
  unfold days_before_year, is_leap_year.
  destruct (Z.eqb_spec (y mod 4) 0), (Z.eqb_spec (y mod 100) 0), (Z.eqb_spec (y mod 400) 0); cbn [andb orb negb]; zlia.
Qed.
Lemma months_of_year y : days_before_month 13 y = if is_leap_year y then 366 else 365.
Proof. unfold days_before_month, get_days_in_month. cbn. by destruct (is_leap_year y). Qed.
Lemma dim_cases m y : 1 <= m <= 12 -> exists dim, get_days_in_month m y = Some dim /\ 28 <= dim <= 31.
Proof.
  intros Hm. unfold get_days_in_month.
  assert (m = 1 \/ m = 2 \/ m = 3 \/ m = 4 \/ m = 5 \/ m = 6 \/ m = 7 \/ m = 8 \/ m = 9 \/ m = 10 \/ m = 11 \/ m = 12) as H by lia.
  destruct (is_leap_year y); repeat (destruct H as [-> |H]; [eexists; split; [reflexivity|lia]|]); subst; eexists; (split; [reflexivity|lia]).
Qed.
(** The day after the last of a month. *)
Lemma next_month m y dim : 1 <= m <= 12 -> get_days_in_month m y = Some dim ->
  days_before_month (Z.to_nat (m + 1)) y = days_before_month (Z.to_nat m) y + dim.
Proof.
  intros Hm Hd. replace (Z.to_nat (m + 1)) with (S (Z.to_nat m)) by lia. cbn [days_before_month]. rewrite Z2Nat.id by lia. by rewrite Hd.
Qed.

(** ** Adding days and milliseconds *)

Lemma month_pos n y : 0 <= days_before_month n y.
Proof.
  induction n as [|n IH]; cbn [days_before_month]; [done|]. unfold get_days_in_month.
  destruct ((Z.of_nat n =? 2) && is_leap_year y); [change (default 0 (Some 29)) with 29; lia|]. rewrite (proj2 (Z.leb_le 0 (Z.of_nat n))), Nat2Z.id by lia.
  assert (Hall : Forall (fun d => 0 <= d) days_in_month) by (repeat constructor; lia).
  destruct (days_in_month !! n) as [d|] eqn:E; [|change (default 0 None) with 0; lia].
  pose proof (Forall_lookup_1 _ _ _ _ Hall E) as Hd. cbn beta in Hd. change (default 0 (Some d)) with d. lia.
Qed.
Lemma year_pos y : 0 <= y -> 0 <= days_before_year y.
Proof. unfold days_before_year. intros. zlia. Qed.
Lemma date_days_pos dt : date_ok dt -> 0 <= date_days dt.
Proof.
  intros (Hy & _ & (dim & _ & Hd) & _). unfold date_days. pose proof (month_pos (Z.to_nat (month dt)) (year dt)). pose proof (year_pos (year dt)). lia.
Qed.

(** The first day of the month after that of [dt]. *)
Definition first_of_next (dt : datetime_t) : datetime_t :=
  if month dt =? 12 then DateTime (year dt + 1) 1 1 (hours dt) (minutes dt) (seconds dt) (milliseconds dt)
  else DateTime (year dt) (month dt + 1) 1 (hours dt) (minutes dt) (seconds dt) (milliseconds dt).
Lemma first_of_next_ok dt dim : date_ok dt -> get_days_in_month (month dt) (year dt) = Some dim -> date_days (first_of_next dt) = date_days dt + (dim - day dt + 1) /\
  (year (first_of_next dt) < 4096 -> date_ok (first_of_next dt)).
Proof.
  intros (Hy & Hm & _ & Ht) Hdim. unfold first_of_next, date_days, date_ok. pose proof (next_month _ _ _ Hm Hdim) as Hn.
  destruct (Z.eqb_spec (month dt) 12) as [E|E]; cbn [year month day hours minutes seconds milliseconds].
  - rewrite E in *. pose proof (months_of_year (year dt)) as H12. pose proof (year_days (year dt)) as Hyd. change (Z.to_nat (12 + 1)) with 13%nat in Hn.
    rewrite H12 in Hn. split; [change (Z.to_nat 1) with 1%nat; change (days_before_month 1 (year dt + 1)) with 0; lia|]. intros Hlt. split; [lia|]. split; [lia|]. split; [|done].
    exists 31. split; [done|lia].
  - split; [lia|]. intros Hlt. split; [lia|]. split; [lia|]. split; [|done]. destruct (dim_cases (month dt + 1) (year dt) ltac:(lia)) as (d & Hd & Hr).
    exists d. split; [done|lia].
Qed.

Lemma add_days_ok fuel : forall carry dt, date_ok dt -> 0 <= carry -> carry + day dt <= 28 * Z.of_nat fuel -> date_days dt + carry < days_before_year 4096 ->
  exists dt', add_days fuel carry dt = Some dt' /\ date_ok dt' /\ date_days dt' = date_days dt + carry /\
    hours dt' = hours dt /\ minutes dt' = minutes dt /\ seconds dt' = seconds dt /\ milliseconds dt' = milliseconds dt.
Proof.
  induction fuel as [|fuel IH]; intros carry dt Hok Hc Hf Hend; cbn [add_days].
  - pose proof Hok as (_ & _ & (dim & _ & Hd) & _). lia.
  - destruct (Z.gtb_spec carry 0) as [Hpos|Hz]; [|exists dt; split_and!; try done; lia].
    pose proof (date_days_pos dt Hok) as Hdd. assert (H4096 : days_before_year 4096 < 2 ^ 21) by reflexivity.
    pose proof Hok as (Hy & Hm & (dim & Hdim & Hd) & Hh). rewrite Hdim. cbn [mbind option_bind].
    destruct (dim_cases _ (year dt) Hm) as (dim' & Hdim' & Hrange). assert (dim' = dim) as -> by congruence.
    replace (u64 (dim - day dt)) with (dim - day dt) by (unfold u64; rewrite Z.mod_small; lia).
    destruct (Z.leb_spec carry (dim - day dt)) as [Hle|Hgt].
    + eexists. split; [done|]. unfold date_ok, date_days. cbn [year month day hours minutes seconds milliseconds]. rewrite (Z.mod_small (day dt + carry)) by lia.
      split_and!; try done; try lia. exists dim. split; [done|lia].
    + destruct (first_of_next_ok dt dim Hok Hdim) as [Hnext Hnok].
      assert (Hyear : year (first_of_next dt) < 4096).
      { unfold first_of_next in *. destruct (Z.eqb_spec (month dt) 12) as [E|E]; cbn [year]; [|lia].
        destruct (Z.eq_dec (year dt) 4095) as [E2|]; [|lia]. exfalso. unfold date_days in Hnext at 1. cbn [year month day] in Hnext. rewrite E2 in Hnext at 1.
        change (4095 + 1) with 4096 in Hnext. pose proof (month_pos (Z.to_nat 1) (year dt + 1)). lia. }
      replace (u64 (carry - (dim - day dt + 1))) with (carry - (dim - day dt + 1)) by (unfold u64; rewrite Z.mod_small; lia).
      assert (Hd1 : day (first_of_next dt) = 1) by (unfold first_of_next; by destruct (month dt =? 12)).
      destruct (IH (carry - (dim - day dt + 1)) (first_of_next dt)) as (dt' & E & Hok' & Hdays & H1 & H2 & H3 & H4); [by apply Hnok|lia|lia|lia|].
      exists dt'. split; [|split; [done|split; [lia|]]].
      * rewrite <- E. unfold first_of_next in *. destruct (Z.eqb_spec (month dt) 12) as [Em|Em].
        -- rewrite Em. change ((12 + 1) mod 16) with 13. cbn [Z.gtb Z.compare Pos.compare Pos.compare_cont]. cbn [year] in Hyear. rewrite (Z.mod_small (year dt + 1)) by lia. done.
        -- rewrite (Z.mod_small (month dt + 1)) by lia. destruct (Z.gtb_spec (month dt + 1) 12); [lia|]. done.
      * rewrite H1, H2, H3, H4. unfold first_of_next. by destruct (month dt =? 12).
Qed.

(** A carry: what is left and what goes to the next field. *)
Lemma carry_split a b n : 0 < n -> 0 <= a -> 0 <= b -> exists q r, a + b = n * q + r /\ 0 <= r < n /\ 0 <= q /\ (a + b) / n = q /\ (a + b) mod n = r.
Proof. intros. exists ((a + b) / n), ((a + b) mod n). split_and!; try done; [apply Z.div_mod; lia|apply Z.mod_pos_bound; lia|apply Z.mod_pos_bound; lia|apply Z.div_pos; lia]. Qed.

(** Only the times of day differ. *)
Ltac dok := unfold date_ok; cbn [year month day hours minutes seconds milliseconds]; split_and!; lia || assumption || (by split_and!).

(** C36 (drivers/clock.c, [datetime_add_ms]): for every valid date and every
    number of milliseconds that does not go beyond the year 4095, the function
    returns a valid date which is exactly that many milliseconds later in the
    Gregorian calendar, leap years and all carries included; a round of the
    loop for each month, and one more, is enough. *)
Theorem datetime_add_ms_correct fuel ms dt : date_ok dt -> 0 <= ms -> date_ms dt + ms < end_of_time -> ms / 86400000 + 32 <= 28 * Z.of_nat fuel ->
  exists dt', datetime_add_ms fuel ms dt = Some dt' /\ date_ok dt' /\ date_ms dt' = date_ms dt + ms.
Proof.
  intros Hok Hms Hend Hf. pose proof Hok as (Hy & Hm & Hd & Hh & Hmi & Hs & Hl). pose proof (date_days_pos dt Hok) as Hdays.
  assert (Hbig : end_of_time < 2 ^ 63) by reflexivity. unfold date_ms in Hend.
  unfold datetime_add_ms. replace (u64 (milliseconds dt + ms)) with (milliseconds dt + ms) by (unfold u64; rewrite Z.mod_small; lia).
  destruct (carry_split (milliseconds dt) ms 1000) as (cs & r1 & E1 & R1 & P1 & -> & ->); [lia..|]. cbn [year month day hours minutes seconds milliseconds].
  destruct (Z.eqb_spec cs 0) as [Z1|Z1]; [eexists; split; [done|]; split; [dok|unfold date_ms, date_days; cbn [year month day hours minutes seconds milliseconds]; lia]|].
  destruct (carry_split (seconds dt) cs 60) as (cm & r2 & E2 & R2 & P2 & -> & ->); [lia..|].
  destruct (Z.eqb_spec cm 0) as [Z2|Z2]; [eexists; split; [done|]; split; [dok|unfold date_ms, date_days; cbn [year month day hours minutes seconds milliseconds]; lia]|].
  destruct (carry_split (minutes dt) cm 60) as (ch & r3 & E3 & R3 & P3 & -> & ->); [lia..|].
  destruct (Z.eqb_spec ch 0) as [Z3|Z3]; [eexists; split; [done|]; split; [dok|unfold date_ms, date_days; cbn [year month day hours minutes seconds milliseconds]; lia]|].
  destruct (carry_split (hours dt) ch 24) as (cd & r4 & E4 & R4 & P4 & -> & ->); [lia..|].
  set (dt1 := DateTime (year dt) (month dt) (day dt) r4 r3 r2 r1).
  assert (Hok1 : date_ok dt1) by (unfold dt1; dok).
  assert (E : date_ms dt1 + cd * 86400000 = date_ms dt + ms) by (unfold date_ms, date_days, dt1; cbn [year month day hours minutes seconds milliseconds]; lia).
  destruct (Z.eqb_spec cd 0) as [Z4|Z4]; [exists dt1; split; [done|]; split; [done|lia]|].
  assert (Hdd : date_days dt1 = date_days dt) by done.
  assert (Hcd : cd <= ms / 86400000 + 1) by (pose proof (Z.div_mod ms 86400000); pose proof (Z.mod_pos_bound ms 86400000); lia).
  destruct (add_days_ok fuel cd dt1 Hok1 P4) as (dt' & Ea & Hok' & Hdays' & H1 & H2 & H3 & H4).
  - destruct Hd as (dim & Hdim & Hday). destruct (dim_cases _ (year dt) Hm) as (dim' & Hdim' & Hr). assert (dim' = dim) as -> by congruence. cbn [day dt1]. lia.
  - unfold end_of_time in Hend. rewrite Hdd. clear - Hend E1 E2 E3 E4 R1 R2 R3 R4 Hdays. nia.
  - exists dt'. split; [done|]. split; [done|]. rewrite <- E. unfold date_ms at 1. rewrite Hdays', H1, H2, H3, H4. unfold date_ms. lia.
Qed.

(** From a minute before the leap day of 2024 over the turn of the century. *)
Lemma datetime_add_ms_correct_witness : exists dt', datetime_add_ms 1000 (86400000 * 27698) (DateTime 2024 2 28 23 59 0 0) = Some dt' /\
  date_ms dt' = date_ms (DateTime 2024 2 28 23 59 0 0) + 86400000 * 27698 /\ dt' = DateTime 2099 12 29 23 59 0 0.
Proof.
  destruct (datetime_add_ms_correct 1000 (86400000 * 27698) (DateTime 2024 2 28 23 59 0 0)) as (dt' & E & _ & H).
  - repeat split; cbn; try lia. exists 29. split; [reflexivity|lia].
  - lia.
  - vm_compute. reflexivity.
  - vm_compute. discriminate.
  - exists dt'. split; [exact E|]. split; [exact H|]. vm_compute in E. by injection E as <-.
Defined.

(** A clock set to half past midnight, in its four formats. *)
Example decode_ex : (fun b => decode_regs (fst b) (snd b) 0) <$>
  [(0x06, [59; 30; 0; 31; 12; 24; 20; 59]); (0x04, [59; 30; 12; 31; 12; 24; 20; 59]);
   (0x02, [0x59; 0x30; 0x00; 0x31; 0x12; 0x24; 0x20; 0x59]); (0x00, [0x59; 0x30; 0x12; 0x31; 0x12; 0x24; 0x20; 0x59])] =
  [DateTime 2024 12 31 0 30 59 0; DateTime 2024 12 31 0 30 59 0; DateTime 2024 12 31 0 30 59 0; DateTime 2024 12 31 0 30 59 0].
Proof. vm_compute. reflexivity. Qed.
